(* ===== verification/_CoqProject ===== *)
-Q . S2P
Prelude.v
GoStrings.v
GoPath.v
Base64.v
Slug.v
Subjects.v
ShellSplit.v
Json.v
SessionState.v
Session.v
QuotaMonitor.v
Drivers.v
Agent.v
AgentSpec.v
Permissions.v
PermissionsSpec.v
AgentTraffic.v
Sha256.v
ObjectStore.v
Database.v
ControlServer.v
Challenge.v
ControlDemo.v
ChallengeSpec.v
HostLifecycle.v
HostLifecycleSpec.v
HostApi.v
HostSecurity.v
ProjectApi.v
ProjectSpec.v
Attachments.v
AttachmentsSpec.v
Accounts.v
AccountsSpec.v
DaemonJobs.v
DaemonJobsSpec.v
HostAuth.v
HostAuthSpec.v
LocalController.v
LocalControllerSpec.v
K8sController.v
K8sSpec.v
GitCreds.v
GitCredsSpec.v
Providers.v
ProvidersSpec.v
Admin.v
AdminSpec.v
RelayUsers.v
Relay.v
RelaySpec.v
Connector.v
ConnectorSpec.v
Import.v
ImportSpec.v
Conversation.v
ConversationSpec.v
Client.v
ClientSpec.v
Transcripts.v
TranscriptsSpec.v
Routes.v
RoutesSpec.v
Startup.v
StartupSpec.v
Terminals.v
TerminalsSpec.v
Bootstrap.v
BootstrapSpec.v
ProviderFiles.v
