(* ===== verification/Prelude.v ===== *)
(** * mclaude: a verification development for its Go components

    mclaude runs coding-agent sessions on the machines and clusters of its users.
    A control plane (mclaude-control-plane) keeps users, hosts, projects and
    credentials in PostgreSQL and issues NATS tokens.  On every host a controller
    (mclaude-controller-local, mclaude-controller-k8s) starts one session agent per
    project (mclaude-session-agent), which runs the sessions as child processes,
    talks to their command line tools through drivers, publishes their events on
    NATS and keeps their state in KV buckets.  All parts name things by slugs and
    talk over the subjects of mclaude-common.

    ** How the development follows the program

    A component is a file (or a Module of it) with the state as a [Record], messages
    and events as inductive types, and one function per handler with the branches of
    the source in their order.  A handler takes an environment (clock, fresh
    identifiers, answers of the network and the operating system, which calls fail)
    and returns the new state; what it sends is appended to an output list of the
    state, in order.  Goroutines that interleave are step relations.  What lies
    outside the repository is a class or an argument: Unicode tables and
    normalisation, the text level of JSON, PostgreSQL's choice of rows, the matching
    of NATS subjects, signatures, bcrypt, token encoding, URL and XML parsing, time
    formats.  Theorems about several components compose their functions.

    ** Common ground (mclaude-common and Go)

    - Prelude.v, GoStrings.v, GoPath.v, Base64.v, Sha256.v, Json.v: notations, Go's
      results and 64-bit integers, strings and runes, paths and trees of files,
      encodings and hashes, and decoding of JSON into Go values.
    - Slug.v (pkg/slug, hosts.go [slugify], db.go [computeUserSlug], worktree.go,
      cli/cmd/import.go): slugs are canonical, valid and unique.
    - Subjects.v (pkg/subj): subjects and KV keys are unambiguous.
    - HostAuth.v, HostAuthSpec.v (pkg/hostauth, pkg/nats, session-agent
      agent_auth.go, controller-k8s main.go): clients of the challenge-response
      protocol.  Hosts get the token of their row, session agents never get one, and
      credentials files agree with the daemon's reading of them.

    ** Session agent (mclaude-session-agent)

    - SessionState.v, Session.v (state.go, events.go, session.go), Drivers.v
      (internal/drivers), ShellSplit.v: the session record, stream events, permission
      policies, truncation, and the command lines of the tools.
    - QuotaMonitor.v (quota_monitor.go): the monitor's goroutine as a labelled step
      relation; every run of a process ends in exactly one outcome.
    - Agent.v, AgentSpec.v (agent.go): creation, restart, deletion and recovery of
      sessions, dispatch of messages, shutdown; what a crash watcher that is
      interrupted between its two parts does.
    - AgentTraffic.v: lifecycle events, error answers and shutdown inputs of an agent are
      allowed by its credential; the consumer it asks for is not.
    - DaemonJobs.v, DaemonJobsSpec.v (daemon_jobs.go, daemon.go): the queue of scheduled
      jobs, its dispatcher, quota reports, credentials file.
    - GitCreds.v, GitCredsSpec.v (gitcreds.go): accounts of the command line tools of git
      providers, and the repository of a project.
    - Transcripts.v, TranscriptsSpec.v (fswatch.go): which transcripts are removed and
      which become sessions.
    - Terminals.v, TerminalsSpec.v (terminal.go, agent.go): the requests for terminals as
      interleaved steps: no shell is lost, each request is answered once.
    - Import.v, ImportSpec.v (import.go, attachment.go, cli/cmd/import.go): what the client
      packs is what the agent unpacks, below its session directory only.

    ** Relay and connector (mclaude-relay, mclaude-connector)

    - RelayUsers.v, Relay.v, RelaySpec.v: users and the requests that the relay forwards
      between browsers and laptops: who reaches which laptop, and that each request is
      answered, fanned out ones included.
    - Connector.v, ConnectorSpec.v: what the relay can make a laptop do, and what of a
      request and its answer arrives at the other end.

    ** Command line client (mclaude-cli)

    - Client.v, ClientSpec.v (context, cmd, main.go): signing in (which ends when every
      request does, and hangs when one does not), hosts, sessions, flags.
    - Conversation.v, ConversationSpec.v (events, renderer, repl, session-agent
      debug.go): the events of a session as turns, and what is typed as messages.

    ** Start-up

    - Startup.v, StartupSpec.v (session-agent main.go, daemon.go and entrypoint.sh,
      controller-local main.go, control-plane main.go): flags, environment and links
      become identities; supervised agents stop at their flags.

    ** Control plane (mclaude-control-plane)

    - Permissions.v, PermissionsSpec.v (nkeys.go): issued permissions, exactly, over all
      subject strings.
    - Database.v (db.go): tables, constraints, statements; ControlServer.v: the server
      state; ControlDemo.v: a small instance for the witnesses.
    - Challenge.v, ChallengeSpec.v (challenge.go): sound and complete tokens; nonces
      are not single-use.
    - HostLifecycle.v, HostLifecycleSpec.v (lifecycle.go), HostApi.v (hosts.go,
      sys_subscriber.go), HostSecurity.v: host management refines an abstract
      access-control machine; who controls what; where slugs break isolation.
    - ProjectApi.v, ProjectSpec.v (projects.go, project_http.go); ObjectStore.v (s3.go)
      with a reference of signature version 4;
      Attachments.v, AttachmentsSpec.v (attachments.go); Accounts.v, AccountsSpec.v
      (auth.go, device_auth.go).
    - Providers.v, ProvidersSpec.v, ProviderFiles.v (providers.go): connections to git
      providers are proved for their user; the change of a project's identity asks for
      an own connection, the creation over HTTP does not; configuration files.
    - Admin.v, AdminSpec.v (admin.go, scim.go): administration, what deleting a user
      takes with it, clusters.
    - Routes.v, RoutesSpec.v (server.go, auth.go, version.go): both HTTP servers as one
      function over all handlers: strangers change nothing, every request is answered
      once, no page of another user opens.
    - Bootstrap.v, BootstrapSpec.v (init_keys.go, gen_host_nkey.go, pkg/nats): the jobs of
      an installation never change a secret; what it leaves cannot revoke tokens.

    ** Controllers

    - LocalController.v, LocalControllerSpec.v (mclaude-controller-local): projects on
      a machine, isolated from each other; the registration of agent keys against
      the control plane; the supervisor of one process as a step relation.
    - K8sController.v, K8sSpec.v (mclaude-controller-k8s): requests become resources,
      which the reconciler turns into objects of the user's namespace.  Users are
      confined to their namespaces in every environment, provisioning completes when
      nothing fails, stored seeds are stable; deletion and outdated caches do not do
      what they should.

    ** Bounds and fuel

    Recursion is structural wherever the source loops over data.  Loops that wait are
    bounded by the number of polls that fit into their time-out, which is a field of
    the environment, or by their number of attempts.  Where a result needs fuel (the
    paging of the object store, the first refresh of a host, the monitor's runs) a
    theorem says how much is enough and that the result is then produced.

    ** Findings

    Several theorems state behaviour that the code or its comments do not intend; the
    doc comment of each says what happens.  Among them: session agents that sign the
    wrong text or are started without the project they need, registrations that are not
    retried, jobs that are lost, started after cancellation or crash the daemon, hosts
    with equal slugs or two names, nonces that can be replayed,
    sessions that return after their deletion, revocation that an
    installation never has, administrators that are never made, transcripts that are
    taken for orphans, shutdowns that wait for ever.

    ** Not modelled

    Metrics, logs and tracing; the process around the handlers (signals, listening
    sockets, reconnection); the supervision of children by the agent's daemon, which no
    subscription reaches; the migration of old database schemas; the older mclaude-server, the mcp server, the web and Swift clients,
    charts and documentation, which are not written in Go.  Within modelled parts: log
    output and the texts of wrapped errors. *)

From Stdlib Require Export ZArith Lia Ascii.
From stdpp Require Export base tactics option list gmap strings relations.

(** ** Notations of the development *)

Declare Scope go_scope.
Delimit Scope go_scope with go.

(** Go's three-valued results: a returned value or an error value; Go's
    run-time panics are the third case of [outcome]. *)
Inductive result (E A : Type) : Type :=
| Ok (a : A)
| Err (e : E).
Arguments Ok {E A} a.
Arguments Err {E A} e.

Inductive outcome (A : Type) : Type :=
| Done (a : A)
| Panicked.
Arguments Done {A} a.
Arguments Panicked {A}.

Definition outcome_bind {A B} (m : outcome A) (f : A → outcome B) : outcome B :=
  match m with
  | Done a => f a
  | Panicked => Panicked
  end.

Notation "'let!' x := m 'in' k" := (outcome_bind m (λ x, k))
  (at level 10, x pattern, m at level 100, k at level 200) : go_scope.

Definition is_ok {E A} (r : result E A) : bool :=
  match r with Ok _ => true | Err _ => false end.

Lemma outcome_bind_Done {A B} (m : outcome A) (f : A → outcome B) b :
  outcome_bind m f = Done b ↔ ∃ a, m = Done a ∧ f a = Done b.
Proof. destruct m as [a|]; simpl; split; [eauto|intros (x & [= <-] & ?)|done|intros (x & ? & ?)]; done. Qed.

Lemma outcome_bind_Panicked {A B} (m : outcome A) (f : A → outcome B) :
  outcome_bind m f = Panicked ↔ m = Panicked ∨ ∃ a, m = Done a ∧ f a = Panicked.
Proof.
  destruct m as [a|]; simpl; split; [eauto|intros [?|(x & [= <-] & ?)]|auto|]; done.
Qed.

(** ** Machine integers: Go's [int] is 64 bits wide on every platform the
    program is built for; sums wrap around. *)
Definition wrap64 (z : Z) : Z := (z + 2^63) `mod` 2^64 - 2^63.

Definition int64_range (z : Z) : Prop := (- 2^63 ≤ z < 2^63)%Z.

Definition int64_rangeb (z : Z) : bool := (- 2^63 <=? z)%Z && (z <? 2^63)%Z.

Lemma int64_rangeb_spec z : int64_rangeb z = true ↔ int64_range z.
Proof. unfold int64_rangeb, int64_range. rewrite andb_true_iff. lia. Qed.

Lemma wrap64_range z : int64_range (wrap64 z).
Proof.
  unfold int64_range, wrap64.
  pose proof (Z.mod_pos_bound (z + 2^63) (2^64) ltac:(lia)). lia.
Qed.

Lemma wrap64_id z : int64_range z → wrap64 z = z.
Proof. unfold int64_range, wrap64. intros ?. rewrite Z.mod_small; lia. Qed.

Definition i64_add (a b : Z) : Z := wrap64 (a + b).
Definition i64_sub (a b : Z) : Z := wrap64 (a - b).

Lemma i64_add_id a b : int64_range (a + b) → i64_add a b = (a + b)%Z.
Proof. apply wrap64_id. Qed.

Lemma i64_sub_id a b : int64_range (a - b) → i64_sub a b = (a - b)%Z.
Proof. apply wrap64_id. Qed.

(** ** Tactics *)

(** Split on every [match] and [if] of the goal and the hypotheses. *)
Ltac go_cases := repeat (case_match; simplify_eq/=).

Ltac split_and_all := repeat match goal with
  | H : _ ∧ _ |- _ => destruct H
  | H : ∃ _, _ |- _ => destruct H
  | H : andb _ _ = true |- _ => apply andb_true_iff in H
  | H : orb _ _ = false |- _ => apply orb_false_iff in H
  | H : negb _ = true |- _ => apply negb_true_iff in H
  | H : negb _ = false |- _ => apply negb_false_iff in H
  end.

Create HintDb go discriminated.
#[export] Hint Resolve wrap64_range : go.

(** ** Generic list lemmas shared by the components *)

Lemma Forall_filter_keep {A} (P Q : A → Prop) `{!∀ x, Decision (Q x)} (l : list A) :
  Forall P l → Forall P (filter Q l).
Proof.
  induction 1 as [|x l Hx Hl IH]; [constructor|].
  rewrite filter_cons. case_decide; auto.
Qed.

Lemma last_snoc_inv {A} (l : list A) :
  l = [] ∨ ∃ l' x, l = l' ++ [x].
Proof. destruct l using rev_ind; eauto. Qed.

Fixpoint find_first {A} (p : A → bool) (l : list A) : option A :=
  match l with
  | [] => None
  | x :: l => if p x then Some x else find_first p l
  end.

Lemma find_first_Some {A} (p : A → bool) l x :
  find_first p l = Some x → x ∈ l ∧ p x = true.
Proof.
  induction l as [|y l IH]; simpl; [done|].
  destruct (p y) eqn:Hp; intros ?; simplify_eq.
  - split; [left|done].
  - destruct IH; [done|]. split; [by right|done].
Qed.

Lemma find_first_None {A} (p : A → bool) l :
  find_first p l = None ↔ ∀ x, x ∈ l → p x = false.
Proof.
  induction l as [|y l IH]; simpl.
  - split; [|done]. intros _ x Hx. by apply elem_of_nil in Hx.
  - destruct (p y) eqn:Hp.
    + split; [done|]. intros H. rewrite H in Hp; [done|left].
    + rewrite IH. split; intros H x Hx.
      * apply elem_of_cons in Hx as [->|Hx]; [done|auto].
      * apply H. by right.
Qed.

(** The order in which a map is ranged over: some element comes first. *)
Class MapRange := {
  range_first {A : Type} : list A → option A;
  range_first_in {A : Type} (l : list A) x : range_first l = Some x → x ∈ l;
  range_first_none {A : Type} (l : list A) : range_first l = None → l = [];
}.

(** For examples: the order of the list. *)
Definition head_range : MapRange.
Proof. refine {| range_first A l := head l |}; [by intros A [] x [= <-]; left|by intros A []]. Defined.

(** A step relation's invariants hold in every reachable state. *)
Lemma rtc_invariant {A} (R : relation A) (I : A → Prop) :
  (∀ x y, I x → R x y → I y) → ∀ x y, I x → rtc R x y → I y.
Proof. intros Hstep x y Hx Hr. induction Hr; eauto. Qed.
