(* ===== verification/GoStrings.v ===== *)
(** * Go strings

    A Go string is a sequence of bytes; here a [string] of [ascii], one
    character per byte.  The file models the language's own string facilities
    (ranging over runes, converting runes back to bytes) and the functions of
    the standard package [strings] the program calls.  The Unicode tables of
    the package [unicode] are data of the standard library: they are the
    fields of the class [UnicodeTables]; below U+0080 the package does not
    consult them and neither does the model. *)

From S2P Require Import Prelude.
Open Scope N_scope.

(** ** Bytes and runes *)

Definition byte_of (a : ascii) : N := N_of_ascii a.
Definition char_of (b : N) : ascii := ascii_of_N b.

Fixpoint bytes_of (s : string) : list N :=
  match s with
  | EmptyString => []
  | String a s => byte_of a :: bytes_of s
  end.

Fixpoint string_of (l : list N) : string :=
  match l with
  | [] => EmptyString
  | b :: l => String (char_of b) (string_of l)
  end.

Definition RuneError : N := 65533.

Definition cont_byte (b : N) : bool := (128 <=? b) && (b <=? 191).

(** The second byte of a three byte sequence, by its first byte: no overlong
    forms after E0, no surrogates after ED. *)
Definition second3 (b0 b1 : N) : bool :=
  if b0 =? 224 then (160 <=? b1) && (b1 <=? 191)
  else if b0 =? 237 then (128 <=? b1) && (b1 <=? 159)
  else cont_byte b1.

Definition second4 (b0 b1 : N) : bool :=
  if b0 =? 240 then (144 <=? b1) && (b1 <=? 191)
  else if b0 =? 244 then (128 <=? b1) && (b1 <=? 143)
  else cont_byte b1.

(** [for _, r := range s]: an invalid byte yields [RuneError] and advances by
    one. *)
Fixpoint runes (l : list N) : list N :=
  match l with
  | [] => []
  | b0 :: l1 =>
    if b0 <? 128 then b0 :: runes l1
    else if (194 <=? b0) && (b0 <=? 223) then
      match l1 with
      | b1 :: l2 =>
        if cont_byte b1 then (b0 - 192) * 64 + (b1 - 128) :: runes l2
        else RuneError :: runes l1
      | [] => RuneError :: runes l1
      end
    else if (224 <=? b0) && (b0 <=? 239) then
      match l1 with
      | b1 :: b2 :: l3 =>
        if second3 b0 b1 && cont_byte b2
        then (b0 - 224) * 4096 + (b1 - 128) * 64 + (b2 - 128) :: runes l3
        else RuneError :: runes l1
      | _ => RuneError :: runes l1
      end
    else if (240 <=? b0) && (b0 <=? 244) then
      match l1 with
      | b1 :: b2 :: b3 :: l4 =>
        if second4 b0 b1 && cont_byte b2 && cont_byte b3
        then (b0 - 240) * 262144 + (b1 - 128) * 4096 + (b2 - 128) * 64 + (b3 - 128)
             :: runes l4
        else RuneError :: runes l1
      | _ => RuneError :: runes l1
      end
    else RuneError :: runes l1
  end.

(** [strings.Builder.WriteRune]. *)
Definition encode_rune (r : N) : list N :=
  if r <? 128 then [r]
  else if r <? 2048 then [192 + r / 64; 128 + r `mod` 64]
  else if ((55296 <=? r) && (r <=? 57343)) || (1114111 <? r) then [239; 191; 189]
  else if r <? 65536 then
    [224 + r / 4096; 128 + (r / 64) `mod` 64; 128 + r `mod` 64]
  else
    [240 + r / 262144; 128 + (r / 4096) `mod` 64; 128 + (r / 64) `mod` 64; 128 + r `mod` 64].

Definition encode_runes (l : list N) : list N := mjoin (encode_rune <$> l).

(** ** Character classes the program tests *)

Definition is_lower (r : N) : bool := (97 <=? r) && (r <=? 122).
Definition is_upper (r : N) : bool := (65 <=? r) && (r <=? 90).
Definition is_digit (r : N) : bool := (48 <=? r) && (r <=? 57).
Definition is_lower_digit (r : N) : bool := is_lower r || is_digit r.

Definition dash : N := 45.

(** ** Unicode *)

Class UnicodeTables := {
  lower_table : N → N;          (* unicode.ToLower above ASCII *)
  mn_table : N → bool;          (* unicode.Is(unicode.Mn, r) above ASCII *)
  space_table : N → bool;       (* unicode.IsSpace above Latin-1 *)
}.

Definition ascii_lower (r : N) : N := if is_upper r then r + 32 else r.

Definition unicode_ToLower `{UnicodeTables} (r : N) : N :=
  if r <? 128 then ascii_lower r else lower_table r.

(** No rune below U+0080 is a combining mark. *)
Definition unicode_IsMn `{UnicodeTables} (r : N) : bool :=
  if r <? 128 then false else mn_table r.

Definition strings_ToLower `{UnicodeTables} (l : list N) : list N :=
  encode_runes (unicode_ToLower <$> runes l).

(** ** Trimming *)

Fixpoint drop_while (p : N → bool) (l : list N) : list N :=
  match l with
  | [] => []
  | b :: l' => if p b then drop_while p l' else l
  end.

Definition trim_left (p : N → bool) (l : list N) : list N := drop_while p l.
Definition trim_right (p : N → bool) (l : list N) : list N :=
  reverse (drop_while p (reverse l)).
Definition trim (p : N → bool) (l : list N) : list N := trim_right p (trim_left p l).

Definition is_dash (b : N) : bool := b =? dash.

(** unicode.IsSpace on one byte strings: the ASCII white space. *)
Definition is_space (b : N) : bool :=
  (b =? 9) || (b =? 10) || (b =? 11) || (b =? 12) || (b =? 13) || (b =? 32).

(** ** Prefixes, suffixes, searching, splitting *)

Definition HasPrefix (s p : string) : bool := String.prefix p s.

Fixpoint drop_str (n : nat) (s : string) : string :=
  match n, s with
  | O, _ => s
  | S n, EmptyString => EmptyString
  | S n, String _ s => drop_str n s
  end.

Fixpoint take_str (n : nat) (s : string) : string :=
  match n, s with
  | O, _ => EmptyString
  | S n, EmptyString => EmptyString
  | S n, String a s => String a (take_str n s)
  end.

Definition TrimPrefix (s p : string) : string :=
  if HasPrefix s p then drop_str (String.length p) s else s.

Definition HasSuffix (s p : string) : bool :=
  (String.length p <=? String.length s)%nat &&
  String.eqb (drop_str (String.length s - String.length p) s) p.

Definition TrimSuffix (s p : string) : string :=
  if HasSuffix s p then take_str (String.length s - String.length p) s else s.

(** The double quote. *)
Definition dquote : string := String (char_of 34) "".
Definition nl : string := String (char_of 10) "".

Definition Index (s sub : string) : option nat := String.index 0 sub s.
Definition Contains (s sub : string) : bool :=
  match Index s sub with Some _ => true | None => false end.

(** [strings.Split(s, sep)] for a one character separator: never empty. *)
Fixpoint Split (sep : ascii) (s : string) : list string :=
  match s with
  | EmptyString => [EmptyString]
  | String a s' =>
    if Ascii.eqb a sep then EmptyString :: Split sep s'
    else match Split sep s' with
         | h :: t => String a h :: t
         | [] => [String a EmptyString]
         end
  end.

Fixpoint Join (sep : string) (l : list string) : string :=
  match l with
  | [] => ""
  | [s] => s
  | s :: l => s +:+ sep +:+ Join sep l
  end.

Fixpoint has_char (c : ascii) (s : string) : bool :=
  match s with
  | EmptyString => false
  | String a s => Ascii.eqb a c || has_char c s
  end.

(** unicode.IsSpace, and strings.TrimSpace of a text in UTF-8. *)
Definition unicode_IsSpace (r : N) : bool :=
  is_space r || (r =? 133)%N || (r =? 160)%N || (r =? 5760)%N || ((8192 <=? r)%N && (r <=? 8202)%N) || (r =? 8232)%N || (r =? 8233)%N ||
  (r =? 8239)%N || (r =? 8287)%N || (r =? 12288)%N.
Definition TrimSpace (s : string) : string := string_of (encode_runes (trim unicode_IsSpace (runes (bytes_of s)))).

(** [strings.Fields] of a text in UTF-8: [cur] are the runes of the field so far. *)
Fixpoint fields_from (cur l : list N) : list string :=
  match l with
  | [] => match cur with [] => [] | _ => [string_of (encode_runes cur)] end
  | r :: l =>
    if unicode_IsSpace r then match cur with [] => fields_from [] l | _ => string_of (encode_runes cur) :: fields_from [] l end
    else fields_from (cur ++ [r]) l
  end.
Definition Fields (s : string) : list string := fields_from [] (runes (bytes_of s)).

(** What [io.ReadAll(io.LimitReader(body, n))] reads. *)
Definition LimitRead (n : N) (s : string) : string :=
  if n <? N.of_nat (String.length s) then take_str (N.to_nat n) s else s.

(** [strings.SplitN(s, "/", n)]. *)
Fixpoint SplitN (n : nat) (s : string) : list string :=
  match n with
  | O => []
  | S O => [s]
  | S n' =>
    match Split "/"%char s with
    | [] => [s]
    | [_] => [s]
    | x :: _ => x :: SplitN n' (drop_str (String.length x + 1) s)
    end
  end.

(** ** Facts *)

(** ** Numbers in strings *)

(** [fmt.Sscanf(v, "%d", &s)] into 64 bits: blanks, a sign, digits; what follows is
    not read. *)
Fixpoint scan_digits (s : string) (acc : option Z) : option Z :=
  match s with
  | EmptyString => acc
  | String a r =>
    let d := (Z.of_N (N_of_ascii a) - 48)%Z in
    if (0 <=? d)%Z && (d <=? 9)%Z then scan_digits r (Some (default 0 acc * 10 + d)%Z) else acc
  end.
Fixpoint skip_blanks (s : string) : string :=
  match s with
  | String a r => if Ascii.eqb a " " || Ascii.eqb a (char_of 9) then skip_blanks r else s
  | EmptyString => s
  end.
Definition Sscanf_d (s : string) : option Z :=
  let '(sign, s) := match skip_blanks s with
                    | String a r => if Ascii.eqb a "-" then ((-1)%Z, r) else if Ascii.eqb a "+" then (1%Z, r) else (1%Z, String a r)
                    | EmptyString => (1%Z, ""%string)
                    end in
  match scan_digits s None with
  | Some n => if int64_rangeb (sign * n)%Z then Some (sign * n)%Z else None
  | None => None
  end.
Example Sscanf_d_seconds : Sscanf_d " 45s" = Some 45%Z.
Proof. reflexivity. Qed.

Lemma byte_of_lt a : byte_of a < 256.
Proof. apply N_ascii_bounded. Qed.

Lemma char_of_byte_of a : char_of (byte_of a) = a.
Proof. apply ascii_N_embedding. Qed.

Lemma byte_of_char_of b : b < 256 → byte_of (char_of b) = b.
Proof. apply N_ascii_embedding. Qed.

Lemma string_of_bytes_of s : string_of (bytes_of s) = s.
Proof. induction s as [|a s IH]; simpl; [done|]. by rewrite char_of_byte_of, IH. Qed.

Lemma bytes_of_string_of l :
  Forall (λ b, b < 256) l → bytes_of (string_of l) = l.
Proof.
  induction 1 as [|b l Hb Hl IH]; simpl; [done|].
  by rewrite byte_of_char_of, IH.
Qed.

Lemma bytes_of_inj s1 s2 : bytes_of s1 = bytes_of s2 → s1 = s2.
Proof. intros H. by rewrite <-(string_of_bytes_of s1), H, string_of_bytes_of. Qed.

Lemma bytes_of_app s1 s2 : bytes_of (s1 +:+ s2) = bytes_of s1 ++ bytes_of s2.
Proof. induction s1 as [|a s1 IH]; simpl; [done|]. unfold String.append in *. simpl. by rewrite IH. Qed.

Lemma length_bytes_of s : length (bytes_of s) = String.length s.
Proof. induction s; simpl; congruence. Qed.

Lemma runes_ascii l : Forall (λ b, b < 128) l → runes l = l.
Proof.
  induction 1 as [|b l Hb Hl IH]; [done|]. cbn [runes].
  apply N.ltb_lt in Hb. by rewrite Hb, IH.
Qed.

Lemma encode_runes_ascii l : Forall (λ b, b < 128) l → encode_runes l = l.
Proof.
  induction 1 as [|b l Hb Hl IH]; [done|]. unfold encode_runes in *. cbn.
  unfold encode_rune at 1. apply N.ltb_lt in Hb. rewrite Hb. cbn. by f_equal.
Qed.

Ltac rune_bounds := repeat match goal with
  | H : _ && _ = true |- _ => apply andb_true_iff in H as [? ?]
  | H : (_ <=? _) = true |- _ => apply N.leb_le in H
  | H : (_ =? _) = true |- _ => apply N.eqb_eq in H
  | H : (_ =? _) = false |- _ => apply N.eqb_neq in H
  | H : (if ?b then _ else _) = true |- _ => destruct b eqn:?
  end.

(** A byte string decodes to ASCII runes only when its bytes are ASCII. *)
Lemma runes_ascii_inv (P : N → Prop) l :
  (∀ r, P r → r < 128) → Forall P (runes l) → Forall P l.
Proof.
  intros HP. induction l as [l IH] using (induction_ltof1 _ (@length _)); unfold ltof in IH.
  assert (¬ P RuneError) as HRE by (intros H%HP; unfold RuneError in H; lia).
  destruct l as [|b0 l1]; [constructor|]. cbn [runes].
  destruct (b0 <? 128) eqn:E0.
  { intros H. apply Forall_cons in H as [H0 H]. constructor; [done|]. apply IH; [simpl; lia|done]. }
  intros H. exfalso. revert H.
  repeat case_match; intros HF; apply Forall_cons in HF as [HF0 _]; try done;
    apply HP in HF0; unfold second3, second4, cont_byte in *; rune_bounds; lia.
Qed.

Lemma drop_while_spec p l :
  ∃ l', l = l' ++ drop_while p l ∧ Forall (λ b, p b = true) l' ∧
        match drop_while p l with [] => True | b :: _ => p b = false end.
Proof.
  induction l as [|b l [l' (Hl & Hp & Hh)]]; simpl; [by exists []|].
  destruct (p b) eqn:E.
  - exists (b :: l'). simpl. rewrite <-Hl. auto.
  - exists []. auto.
Qed.

Lemma drop_while_id p l :
  match l with [] => True | b :: _ => p b = false end → drop_while p l = l.
Proof. destruct l; simpl; [done|]. by intros ->. Qed.

Lemma drop_while_Forall (P : N → Prop) p l : Forall P l → Forall P (drop_while p l).
Proof.
  intros H. destruct (drop_while_spec p l) as (l' & Hl & _). rewrite Hl in H.
  by apply Forall_app in H as [_ H].
Qed.

Lemma trim_right_Forall (P : N → Prop) p l : Forall P l → Forall P (trim_right p l).
Proof. intros H. unfold trim_right. rewrite !Forall_reverse. by apply drop_while_Forall, Forall_reverse. Qed.

Lemma trim_Forall (P : N → Prop) p l : Forall P l → Forall P (trim p l).
Proof. intros H. by apply trim_right_Forall, drop_while_Forall. Qed.

Lemma trim_right_spec p l :
  ∃ l', l = trim_right p l ++ l' ∧
        match reverse (trim_right p l) with [] => True | b :: _ => p b = false end.
Proof.
  unfold trim_right. destruct (drop_while_spec p (reverse l)) as (l' & Hl & _ & Hh).
  exists (reverse l'). split.
  - rewrite <-reverse_app. by rewrite <-Hl, reverse_involutive.
  - by rewrite reverse_involutive.
Qed.

Lemma trim_right_id p l :
  match reverse l with [] => True | b :: _ => p b = false end → trim_right p l = l.
Proof. intros H. unfold trim_right. by rewrite drop_while_id, reverse_involutive. Qed.

(** The head of a trimmed string is kept when trimming on the right, unless
    nothing is left. *)
Lemma trim_right_head p b l :
  p b = false → ∃ l', trim_right p (b :: l) = b :: l'.
Proof.
  intros Hb. destruct (trim_right_spec p (b :: l)) as (l' & Hl & _).
  destruct (trim_right p (b :: l)) as [|b' k] eqn:E; simpl in *.
  - exfalso. unfold trim_right in E.
    destruct (drop_while_spec p (reverse (b :: l))) as (k & Hk & Hp & _).
    assert (drop_while p (reverse (b :: l)) = []) as E0.
    { by rewrite <-(reverse_involutive (drop_while _ _)), E. }
    rewrite E0, app_nil_r in Hk.
    rewrite <-Hk in Hp. rewrite Forall_reverse in Hp. apply Forall_cons in Hp as [? _]. congruence.
  - injection Hl as <- ?. eauto.
Qed.

(** *** Splitting and joining *)

Lemma has_char_app c s1 s2 : has_char c (s1 +:+ s2) = has_char c s1 || has_char c s2.
Proof.
  induction s1 as [|a s1 IH]; simpl; [done|].
  change (String a s1 +:+ s2) with (String a (s1 +:+ s2)). simpl. by rewrite IH, orb_assoc.
Qed.

Lemma Split_no_sep c s : has_char c s = false → Split c s = [s].
Proof.
  induction s as [|a s IH]; simpl; [done|]. intros [Ha Hs]%orb_false_iff.
  by rewrite Ha, IH.
Qed.

Lemma Split_app c s1 s2 :
  has_char c s1 = false → Split c (s1 +:+ String c s2) = s1 :: Split c s2.
Proof.
  induction s1 as [|a s1 IH].
  - intros _. change ("" +:+ String c s2) with (String c s2). cbn [Split].
    by rewrite Ascii.eqb_refl.
  - intros [Ha Hs]%orb_false_iff.
    change (String a s1 +:+ String c s2) with (String a (s1 +:+ String c s2)). cbn [Split].
    by rewrite Ha, IH.
Qed.

Lemma Split_ne_nil c s : Split c s ≠ [].
Proof. destruct s; simpl; [done|]. repeat case_match; done. Qed.

Lemma Join_cons sep x l : l ≠ [] → Join sep (x :: l) = x +:+ sep +:+ Join sep l.
Proof. by destruct l. Qed.

Lemma Split_Join c l : l ≠ [] → Forall (λ x, has_char c x = false) l → Split c (Join (String c "") l) = l.
Proof.
  intros Hl. induction 1 as [|x l Hx Hf IH]; [done|]. destruct (decide (l = [])) as [->|Hne]; [by apply Split_no_sep|].
  rewrite Join_cons by done. change (String c "" +:+ Join (String c "") l) with (String c (Join (String c "") l)).
  rewrite Split_app by done. f_equal. by apply IH.
Qed.

Lemma Split_free c s : Forall (λ x, has_char c x = false) (Split c s).
Proof.
  induction s as [|a s IH]; cbn; [by constructor|]. destruct (Ascii.eqb_spec a c) as [->|Hne]; [by constructor|].
  destruct (Split c s) as [|x l] eqn:E; [by apply Split_ne_nil in E|]. apply Forall_cons in IH as [Hx Hl].
  constructor; [|done]. cbn. apply Ascii.eqb_neq in Hne. rewrite Hne. cbn. done.
Qed.

Lemma Split_app_sep c s1 s2 : Split c (s1 +:+ String c s2) = Split c s1 ++ Split c s2.
Proof.
  induction s1 as [|a s1 IH].
  - change ("" +:+ String c s2) with (String c s2). cbn [Split]. by rewrite Ascii.eqb_refl.
  - change (String a s1 +:+ String c s2) with (String a (s1 +:+ String c s2)). cbn [Split]. rewrite IH.
    destruct (Ascii.eqb a c); [done|]. destruct (Split c s1) eqn:E; [by apply Split_ne_nil in E|done].
Qed.

Lemma app_empty_r s : s +:+ "" = s.
Proof. induction s as [|a s IH]; [done|]. change (String a (s +:+ "") = String a s). by rewrite IH. Qed.

Lemma string_app_nil s : s +:+ "" = s.
Proof. induction s as [|a s IH]; [done|exact (f_equal (String a) IH)]. Qed.

Lemma string_app_assoc s1 s2 s3 : (s1 +:+ s2) +:+ s3 = s1 +:+ s2 +:+ s3.
Proof.
  induction s1 as [|a s1 IH]; [done|].
  change ((String a s1 +:+ s2) +:+ s3) with (String a ((s1 +:+ s2) +:+ s3)).
  by rewrite IH.
Qed.

Lemma string_app_inj_l (s : string) s1 s2 : s +:+ s1 = s +:+ s2 → s1 = s2.
Proof. apply (inj (String.app s)). Qed.

Lemma drop_str_app s1 s2 : drop_str (String.length s1) (s1 +:+ s2) = s2.
Proof. induction s1; [done|]. simpl. done. Qed.

Lemma prefix_app p s : String.prefix p (p +:+ s) = true.
Proof.
  induction p as [|a p IH]; [by destruct s|].
  change (String a p +:+ s) with (String a (p +:+ s)). simpl.
  by destruct (ascii_dec a a).
Qed.

Lemma prefix_spec p s : String.prefix p s = true ↔ ∃ k, s = p +:+ k.
Proof.
  split; [|intros [k ->]; apply prefix_app].
  revert s. induction p as [|a p IH]; intros s; [by exists s|].
  destruct s as [|b s]; simpl; [done|].
  destruct (ascii_dec a b) as [->|]; [|done]. intros [k ->]%IH. by exists k.
Qed.

Lemma TrimPrefix_app p s : TrimPrefix (p +:+ s) p = s.
Proof. unfold TrimPrefix, HasPrefix. by rewrite prefix_app, drop_str_app. Qed.


#[export] Hint Rewrite @string_app_assoc @TrimPrefix_app : go_str.

Lemma length_app_str s1 s2 : String.length (s1 +:+ s2) = (String.length s1 + String.length s2)%nat.
Proof. induction s1 as [|c s1 IH]; [done|]. change (S (String.length (s1 +:+ s2)) = (S (String.length s1) + String.length s2)%nat). by rewrite IH. Qed.

Lemma take_str_app s1 s2 : take_str (String.length s1) (s1 +:+ s2) = s1.
Proof.
  induction s1 as [|c s1 IH]; [by destruct s2|].
  change (String c (take_str (String.length s1) (s1 +:+ s2)) = String c s1). by rewrite IH.
Qed.

Lemma take_drop_str n s : take_str n s +:+ drop_str n s = s.
Proof.
  revert s. induction n as [|n IH]; intros [|c s]; try done.
  change (String c (take_str n s +:+ drop_str n s) = String c s). by rewrite IH.
Qed.

Lemma HasSuffix_spec s p : HasSuffix s p = true ↔ ∃ k, s = k +:+ p.
Proof.
  unfold HasSuffix. split.
  - intros [_ He]%andb_true_iff. apply String.eqb_eq in He.
    exists (take_str (String.length s - String.length p) s). rewrite <- He at 2. by rewrite take_drop_str.
  - intros [k ->]. rewrite length_app_str.
    replace (String.length k + String.length p - String.length p)%nat with (String.length k) by lia.
    rewrite drop_str_app, String.eqb_refl, andb_true_r. apply Nat.leb_le. lia.
Qed.

Lemma HasSuffix_app k p : HasSuffix (k +:+ p) p = true.
Proof. apply HasSuffix_spec. eauto. Qed.

(** Two decompositions with tails of the same length are equal. *)
Lemma string_app_inj_len s1 s2 t1 t2 :
  String.length t1 = String.length t2 → s1 +:+ t1 = s2 +:+ t2 → s1 = s2 ∧ t1 = t2.
Proof.
  intros Hl. revert s2. induction s1 as [|c s1 IH]; intros [|d s2] He.
  - done.
  - exfalso. apply (f_equal String.length) in He. rewrite !length_app_str in He. cbn in He. lia.
  - exfalso. apply (f_equal String.length) in He. rewrite !length_app_str in He. cbn in He. lia.
  - change (String c (s1 +:+ t1) = String d (s2 +:+ t2)) in He. injection He as -> He.
    destruct (IH s2 He) as [-> ->]. done.
Qed.

(** A string that ends in [t] has no suffix whose own end differs from [t]. *)
Lemma HasSuffix_no k t q r :
  String.length r = String.length t → r ≠ t → HasSuffix (k +:+ t) (q +:+ r) = false.
Proof.
  intros Hl Hr. apply not_true_iff_false. rewrite HasSuffix_spec. intros [k' He].
  rewrite <- string_app_assoc in He. apply string_app_inj_len in He as [_ He]; [congruence|done].
Qed.

(** The same, by splitting off the end of the literal suffix. *)
Lemma HasSuffix_ends k t p n :
  String.length (drop_str n p) = String.length t → drop_str n p ≠ t → HasSuffix (k +:+ t) p = false.
Proof. intros Hl Hr. rewrite <- (take_drop_str n p). by apply HasSuffix_no. Qed.
