(* ===== verification/GoPath.v ===== *)
(** * Paths (Go's path/filepath on Unix)

    [Clean], [Join] and [Base] as the program uses them, and a tree of files as
    the set of the clean paths that exist. *)

From stdpp Require Import gmap sets.
From S2P Require Import Prelude GoStrings.

Definition path_sep : ascii := "/"%char.

(** One element of a path, on the stack of those before it. *)
Definition clean_step (rooted : bool) (stack : list string) (x : string) : list string :=
  if String.eqb x "" || String.eqb x "." then stack
  else if String.eqb x ".." then
    match stack with
    | [] => if rooted then [] else [x]
    | y :: rest => if String.eqb y ".." then x :: stack else rest
    end
  else x :: stack.

Definition clean_elems (rooted : bool) (l : list string) : list string := rev (fold_left (clean_step rooted) l []).

(** [filepath.Clean]. *)
Definition path_Clean (p : string) : string :=
  if HasPrefix p "/" then ("/" +:+ Join "/" (clean_elems true (Split path_sep p)))%string
  else match clean_elems false (Split path_sep p) with [] => "."%string | l => Join "/" l end.

(** [filepath.Join]: of the elements from the first that is not empty. *)
Fixpoint path_Join (l : list string) : string :=
  match l with
  | [] => ""%string
  | e :: rest => if String.eqb e "" then path_Join rest else path_Clean (Join "/" l)
  end.

(** [filepath.Base]: the last element of a path. *)
Definition path_Base (path : string) : string :=
  if String.eqb path "" then "."%string
  else default "/"%string (last (List.filter (λ x, negb (String.eqb x "")) (Split path_sep path))).

Example clean_cases : path_Clean <$> ["a//b/./c"; "/a/../../b"; "../x/.."; ""; "/"; "a/b/../c"]%string = ["a/b/c"; "/b"; ".."; "."; "/"; "a/c"]%string.
Proof. vm_compute. reflexivity. Qed.
Example join_cases : path_Join <$> [["/data"; "alice"; "web"]; ["/data"; ""; "web"]; ["/data"; "a/b"; "c"]; [""; ""]]%string = ["/data/alice/web"; "/data/web"; "/data/a/b/c"; ""]%string.
Proof. vm_compute. reflexivity. Qed.

(** ** Trees of files *)

Definition files : Type := gset string.

(** At or below a directory. *)
Definition below (dir path : string) : bool := String.eqb path dir || HasPrefix path (dir +:+ "/")%string.

(** [os.RemoveAll]. *)
Definition remove_all (dir : string) (fs : files) : files := filter (λ p, below dir p = false) fs.

(** [os.MkdirAll]: the directory and its parents. *)
Definition parents (p : string) : list string :=
  if HasPrefix p "/" then (λ n, "/" +:+ Join "/" (take n (clean_elems true (Split path_sep p))))%string <$> seq 1 (length (clean_elems true (Split path_sep p)))
  else (λ n, Join "/" (take n (clean_elems false (Split path_sep p)))) <$> seq 1 (length (clean_elems false (Split path_sep p))).
Definition mkdir_all (dir : string) (fs : files) : files := list_to_set (parents dir) ∪ fs.

Example parents_case : parents "/data/alice/web" = ["/data"; "/data/alice"; "/data/alice/web"]%string.
Proof. vm_compute. reflexivity. Qed.

(** ** Facts *)

Lemma below_refl d : below d d = true.
Proof. unfold below. by rewrite String.eqb_refl. Qed.

Lemma remove_all_elem d p fs : p ∈ remove_all d fs ↔ p ∈ fs ∧ below d p = false.
Proof. unfold remove_all. rewrite elem_of_filter. tauto. Qed.

(** Plain elements of a path: not empty, no dots, no slash. *)
Record plain (x : string) : Prop := {
  pl_some : x ≠ ""%string;
  pl_dot : x ≠ "."%string;
  pl_dots : x ≠ ".."%string;
  pl_slash : has_char path_sep x = false;
}.

Lemma clean_step_plain r st x : plain x → clean_step r st x = x :: st.
Proof. intros [H1%String.eqb_neq H2%String.eqb_neq H3%String.eqb_neq _]. unfold clean_step. by rewrite H1, H2, H3. Qed.

Lemma clean_fold_plain r l : Forall plain l → ∀ st, fold_left (clean_step r) l st = rev l ++ st.
Proof.
  induction 1 as [|x l Hx _ IH]; intros st; cbn [fold_left rev]; [done|]. rewrite clean_step_plain by done. rewrite IH. by rewrite <- app_assoc.
Qed.

Lemma clean_elems_app r l k : clean_elems r (l ++ k) = rev (fold_left (clean_step r) k (rev (clean_elems r l))).
Proof. unfold clean_elems. by rewrite fold_left_app, rev_involutive. Qed.

(** A rooted path of plain elements. *)
Definition root (l : list string) : string := ("/" +:+ Join "/" l)%string.

Lemma root_Join l : l ≠ [] → root l = Join "/" ("" :: l)%string.
Proof. intros Hl. by rewrite Join_cons. Qed.

Lemma Split_root l : l ≠ [] → Forall plain l → Split path_sep (root l) = ""%string :: l.
Proof.
  intros Hl Hp. rewrite root_Join by done. apply Split_Join; [done|]. constructor; [done|]. eapply Forall_impl; [exact Hp|]. by intros x [].
Qed.

Lemma Clean_root l : l ≠ [] → Forall plain l → path_Clean (root l) = root l.
Proof.
  intros Hl Hp. unfold path_Clean. change (HasPrefix (root l) "/") with (String.prefix "/" ("/" +:+ Join "/" l)). rewrite prefix_app, Split_root by done.
  unfold clean_elems. cbn [fold_left]. change (clean_step true [] "") with (@nil string). by rewrite clean_fold_plain, app_nil_r, rev_involutive.
Qed.

Lemma root_app a k : a ≠ [] → k ≠ [] → root a +:+ "/" +:+ Join "/" k = root (a ++ k).
Proof.
  intros Ha Hk. unfold root. rewrite string_app_assoc. f_equal. induction a as [|d a IH]; [done|]. destruct a as [|d' a]; [cbn [app]; by rewrite (Join_cons _ _ k)|].
  rewrite (Join_cons _ d (d' :: a)) by done. cbn [app]. rewrite (Join_cons _ d (d' :: a ++ k)) by done. rewrite !string_app_assoc. do 2 f_equal. by apply IH.
Qed.

(** Joining plain elements to a clean path. *)
Lemma Join_root ds l : ds ≠ [] → Forall plain ds → Forall plain l → path_Join (root ds :: l) = root (ds ++ l).
Proof.
  intros Hd Hp Hl. cbn [path_Join]. change (String.eqb (root ds) "") with false. cbv iota.
  assert (Join "/" (root ds :: l) = root (ds ++ l)) as ->; [|apply Clean_root; [by destruct ds|by apply Forall_app]].
  destruct (decide (l = [])) as [->|Hne]; [by rewrite app_nil_r|]. by rewrite Join_cons, root_app.
Qed.

Lemma root_inj a b : a ≠ [] → b ≠ [] → Forall plain a → Forall plain b → root a = root b → a = b.
Proof. intros Ha Hb Pa Pb H. apply (f_equal (Split path_sep)) in H. rewrite !Split_root in H by done. by injection H. Qed.

(** Below a directory is what has its elements first. *)
Lemma below_root a b : a ≠ [] → b ≠ [] → Forall plain a → Forall plain b → below (root a) (root b) = true ↔ a `prefix_of` b.
Proof.
  intros Ha Hb Pa Pb. unfold below. rewrite orb_true_iff, String.eqb_eq. split.
  - intros [H|[k Hk]%prefix_spec]; [by apply root_inj in H as ->|]. exists (Split path_sep k).
    assert (H : Split path_sep (root b) = Split path_sep (root a +:+ String path_sep k)) by (rewrite Hk, string_app_assoc; reflexivity).
    rewrite Split_app_sep, !Split_root in H by done. by injection H.
  - intros [k ->]. destruct (decide (k = [])) as [->|Hk]; [left; by rewrite app_nil_r|right]. apply prefix_spec. exists (Join "/" k).
    by rewrite string_app_assoc, root_app.
Qed.

Lemma clean_elems_root l : Forall plain l → l ≠ [] → clean_elems true (Split path_sep (root l)) = l.
Proof.
  intros Hp Hl. rewrite Split_root by done. unfold clean_elems. cbn [fold_left]. change (clean_step true [] "") with (@nil string).
  by rewrite clean_fold_plain, app_nil_r, rev_involutive.
Qed.

(** The directories that [MkdirAll] makes. *)
Lemma parents_root l x : l ≠ [] → Forall plain l → x ∈ parents (root l) ↔ ∃ n, (1 ≤ n ≤ length l)%nat ∧ x = root (take n l).
Proof.
  intros Hl Hp. unfold parents. change (HasPrefix (root l) "/") with (String.prefix "/" ("/" +:+ Join "/" l)). rewrite prefix_app, clean_elems_root by done.
  rewrite list_elem_of_fmap. split.
  - intros (n & -> & Hn%elem_of_seq). exists n. split; [lia|done].
  - intros (n & Hn & ->). exists n. split; [done|]. apply elem_of_seq. lia.
Qed.

(** *** Paths without [..] stay below the directory they are joined to. *)

Lemma Split_head sep s h t : Split sep s = h :: t → ∃ k, s = h +:+ k.
Proof.
  revert h t. induction s as [|a s IH]; intros h t; cbn; [intros [= <- <-]; by exists ""%string|].
  destruct (Ascii.eqb a sep); [intros [= <- <-]; by exists (String a s)|]. destruct (Split sep s) as [|h' t']; intros [= <- <-]; [by exists s|].
  destruct (IH _ _ eq_refl) as [k ->]. by exists k.
Qed.

Lemma Split_element sep s x : x ∈ Split sep s → ∃ a b, s = a +:+ x +:+ b.
Proof.
  induction s as [|c s IH]; cbn; [intros ->%list_elem_of_singleton; by exists "", ""%string|].
  destruct (Ascii.eqb c sep).
  - intros [->|Hx]%elem_of_cons; [by exists "", (String c s)|]. destruct (IH Hx) as (a & b & ->). by exists (String c a), b.
  - destruct (Split sep s) as [|h t] eqn:E; [intros ->%list_elem_of_singleton; by exists "", s|]. intros [->|Hx]%elem_of_cons.
    + destruct (Split_head _ _ _ _ E) as [k ->]. by exists "", k.
    + destruct IH as (a & b & ->); [by right|]. by exists (String c a), b.
Qed.

Lemma index_found a sub b : String.index 0 sub (a +:+ sub +:+ b) ≠ None.
Proof.
  induction a as [|c a IH].
  - change ("" +:+ sub +:+ b) with (sub +:+ b). pose proof (prefix_app sub b) as H. destruct (sub +:+ b) as [|x s] eqn:E; cbn [String.index].
    + by destruct sub.
    + by rewrite H.
  - change (String c a +:+ sub +:+ b) with (String c (a +:+ sub +:+ b)). cbn [String.index]. destruct (String.prefix _ _); [done|].
    destruct (String.index 0 sub (a +:+ sub +:+ b)); [done|]. by destruct IH.
Qed.

Lemma no_dots c : Contains c ".." = false → Forall (λ x, x ≠ ".."%string) (Split path_sep c).
Proof.
  intros H. apply Forall_forall. intros x Hx ->. apply Split_element in Hx as (a & b & ->). unfold Contains, Index in H.
  pose proof (index_found a ".." b). by destruct (String.index _ _ _).
Qed.

Lemma clean_fold_no_dots r l : Forall (λ x, x ≠ ".."%string) l → Forall (λ x, has_char path_sep x = false) l →
  ∃ k, Forall plain k ∧ ∀ st, fold_left (clean_step r) l st = rev k ++ st.
Proof.
  induction l as [|x l IH]; intros Hd Hs; [by exists []|]. apply Forall_cons in Hd as [Hx Hd], Hs as [Hsx Hs]. destruct (IH Hd Hs) as (k & Hk & Hf).
  destruct (String.eqb x "" || String.eqb x ".") eqn:E.
  - exists k. split; [done|]. intros st. cbn [fold_left]. unfold clean_step at 2. by rewrite E.
  - apply orb_false_iff in E as [E1%String.eqb_neq E2%String.eqb_neq]. assert (plain x) by done. exists (x :: k). split; [by constructor|].
    intros st. cbn [fold_left rev]. rewrite clean_step_plain by done. by rewrite Hf, <- app_assoc.
Qed.

(** Joining to a clean directory, by what the elements do to a stack. *)
Lemma Join_fold ds c k : ds ≠ [] → Forall plain ds → c ≠ ""%string → (∀ st, fold_left (clean_step true) (Split path_sep c) st = rev k ++ st) →
  path_Join [root ds; c] = root (ds ++ k).
Proof.
  intros Hne Hd Hc Hf. cbn [path_Join]. change (String.eqb (root ds) "") with false. cbv iota. change (Join "/" [root ds; c]) with (root ds +:+ String path_sep c).
  unfold path_Clean. change (HasPrefix (root ds +:+ String path_sep c) "/") with (String.prefix "/" ("/" +:+ (Join "/" ds +:+ String path_sep c))).
  rewrite prefix_app, Split_app_sep, clean_elems_app, clean_elems_root by done. by rewrite Hf, <- rev_app_distr, rev_involutive.
Qed.

(** Joining a path without [..] to a clean directory. *)
Lemma Join_no_dots_below ds c : ds ≠ [] → Forall plain ds → c ≠ ""%string → Contains c ".." = false → below (root ds) (path_Join [root ds; c]) = true.
Proof.
  intros Hne Hd Hc Hn. destruct (clean_fold_no_dots true _ (no_dots c Hn) (Split_free path_sep c)) as (k & Hk & Hf).
  rewrite (Join_fold ds c k) by done. apply below_root; [done|by destruct ds|done|by apply Forall_app|]. by exists k.
Qed.

(** *** A rooted path is cleaned to plain elements. *)
Lemma clean_elems_plain l : Forall (λ x, has_char path_sep x = false) l → Forall plain (clean_elems true l).
Proof.
  intros Hs. unfold clean_elems. apply Forall_rev. assert (H : Forall plain []) by constructor. revert H. generalize (@nil string).
  induction l as [|x l IH]; intros st Hst; [done|]. apply Forall_cons in Hs as [Hx Hs]. cbn [fold_left]. apply (IH Hs). unfold clean_step.
  destruct (String.eqb x "" || String.eqb x ".") eqn:E; [done|]. apply orb_false_iff in E as [E1%String.eqb_neq E2%String.eqb_neq].
  destruct (String.eqb_spec x "..") as [->|E3]; [|by constructor]. destruct st as [|y st]; [done|]. apply Forall_cons in Hst as [[_ _ Hy%String.eqb_neq _] Hst].
  by rewrite Hy.
Qed.

Lemma Clean_rooted p : path_Clean ("/" +:+ p) = root (clean_elems true (Split path_sep ("/" +:+ p))).
Proof. unfold path_Clean, HasPrefix. by rewrite prefix_app. Qed.

Lemma Join_rooted ds es : ds ≠ [] → Forall plain ds → Forall plain es → path_Join [root ds; root es] = root (ds ++ es).
Proof.
  intros Hne Hd He. apply Join_fold; try done. intros st. destruct (decide (es = [])) as [->|Hes]; [done|]. rewrite Split_root by done.
  cbn [fold_left]. change (clean_step true st "") with st. by apply clean_fold_plain.
Qed.

(** A name taken from outside, put below a directory. *)
Lemma Join_Clean_rooted ds p : ds ≠ [] → Forall plain ds →
  path_Join [root ds; path_Clean ("/" +:+ p)] = root (ds ++ clean_elems true (Split path_sep ("/" +:+ p))).
Proof. intros Hne Hd. rewrite Clean_rooted. apply Join_rooted; [done..|]. apply clean_elems_plain, Split_free. Qed.

(** *** Relative paths of plain elements *)

Lemma Join_first l : l ≠ [] → Forall plain l → HasPrefix (Join "/" l) "/" = false.
Proof.
  intros Hl Hp. destruct l as [|x l]; [done|]. apply Forall_cons in Hp as [[Hx _ _ Hs] _]. destruct x as [|a x]; [done|]. cbn in Hs.
  apply orb_false_iff in Hs as [Ha%Ascii.eqb_neq _]. unfold HasPrefix.
  assert (∃ t, Join "/" (String a x :: l) = String a t) as [t ->] by (destruct l; by eexists).
  apply not_true_is_false. intros [k Hk]%prefix_spec. injection Hk as -> _. by destruct Ha.
Qed.

Lemma Clean_rel l : l ≠ [] → Forall plain l → path_Clean (Join "/" l) = Join "/" l.
Proof.
  intros Hl Hp. unfold path_Clean. rewrite Join_first by done. assert (Split path_sep (Join "/" l) = l) as ->.
  { apply Split_Join; [done|]. eapply Forall_impl; [exact Hp|]. by intros x []. }
  unfold clean_elems. rewrite clean_fold_plain, app_nil_r, rev_involutive by done. by destruct l.
Qed.

Lemma Join_rel a b : a ≠ [] → b ≠ [] → Forall plain a → Forall plain b → path_Join [Join "/" a; Join "/" b] = Join "/" (a ++ b).
Proof.
  intros Ha Hb Pa Pb. assert (Join "/" [Join "/" a; Join "/" b] = Join "/" (a ++ b)) as Hj.
  { pose proof (root_app a b Ha Hb) as H. unfold root in H. rewrite string_app_assoc in H. apply string_app_inj_l in H. exact H. }
  cbn [path_Join]. assert (String.eqb (Join "/" a) "" = false) as ->.
  { apply String.eqb_neq. intros H. destruct a as [|x a]; [done|]. apply Forall_cons in Pa as [[Hx _ _ _] _]. by destruct x, a. }
  rewrite Hj. apply Clean_rel; [by destruct a|by apply Forall_app].
Qed.

Lemma path_Join_rel l : l ≠ [] → Forall plain l → path_Join l = Join "/" l.
Proof.
  intros Hl Hp. destruct l as [|x l]; [done|]. pose proof Hp as Hp'. apply Forall_cons in Hp' as [[Hx%String.eqb_neq _ _ _] _]. cbn [path_Join]. rewrite Hx.
  by apply Clean_rel.
Qed.
