(* ===== verification/Base64.v ===== *)
(** * Standard base64 with padding (encoding/base64)

    The encoding [json.Marshal] gives to byte slices, in which nonces and
    signatures travel, and its decoder, which skips line breaks and does not
    look at the unused bits of a final quantum. *)

From S2P Require Import Prelude GoStrings.
Open Scope N_scope.

Definition base64_alphabet : string := "ABCDEFGHIJKLMNOPQRSTUVWXYZabcdefghijklmnopqrstuvwxyz0123456789+/".

Definition base64_digit (n : N) : string :=
  match String.get (N.to_nat n) base64_alphabet with
  | Some c => String c ""
  | None => ""
  end.

(** The 24 bits of a quantum. *)
Definition quantum (a b c : ascii) : N := byte_of a * 65536 + byte_of b * 256 + byte_of c.

Fixpoint base64_encode (s : string) : string :=
  match s with
  | EmptyString => ""
  | String a EmptyString =>
    let n := quantum a zero zero in
    base64_digit (N.shiftr n 18) +:+ base64_digit (N.land (N.shiftr n 12) 63) +:+ "=="
  | String a (String b EmptyString) =>
    let n := quantum a b zero in
    base64_digit (N.shiftr n 18) +:+ base64_digit (N.land (N.shiftr n 12) 63) +:+
    base64_digit (N.land (N.shiftr n 6) 63) +:+ "="
  | String a (String b (String c s)) =>
    let n := quantum a b c in
    base64_digit (N.shiftr n 18) +:+ base64_digit (N.land (N.shiftr n 12) 63) +:+
    base64_digit (N.land (N.shiftr n 6) 63) +:+ base64_digit (N.land n 63) +:+ base64_encode s
  end.

Definition base64_value (c : ascii) : option N :=
  let b := byte_of c in
  if is_upper b then Some (b - 65)
  else if is_lower b then Some (b - 71)
  else if is_digit b then Some (b + 4)
  else if b =? 43 then Some 62
  else if b =? 47 then Some 63
  else None.

Definition pad : ascii := "="%char.

Fixpoint strip_newlines (s : string) : string :=
  match s with
  | EmptyString => ""
  | String c s => if (byte_of c =? 10) || (byte_of c =? 13) then strip_newlines s else String c (strip_newlines s)
  end.

Definition byte_at (n k : N) : ascii := char_of (N.land (N.shiftr n k) 255).

Fixpoint base64_quanta (s : string) : option string :=
  match s with
  | EmptyString => Some ""%string
  | String a (String b (String c (String d rest))) =>
    match base64_value a, base64_value b with
    | Some x, Some y =>
      let n := x * 262144 + y * 4096 in
      if Ascii.eqb c pad && Ascii.eqb d pad then
        match rest with EmptyString => Some (String (byte_at n 16) "") | _ => None end
      else
        match base64_value c with
        | None => None
        | Some z =>
          let n := n + z * 64 in
          if Ascii.eqb d pad then
            match rest with EmptyString => Some (String (byte_at n 16) (String (byte_at n 8) "")) | _ => None end
          else
            match base64_value d, base64_quanta rest with
            | Some w, Some t =>
              let n := n + w in
              Some (String (byte_at n 16) (String (byte_at n 8) (String (byte_at n 0) t)))
            | _, _ => None
            end
        end
    | _, _ => None
    end
  | _ => None
  end.

Definition base64_decode (s : string) : option string := base64_quanta (strip_newlines s).

(** ** Facts *)

Example base64_rfc4648 :
  base64_encode <$> ["f"; "fo"; "foo"; "foobar"]%string = ["Zg=="; "Zm8="; "Zm9v"; "Zm9vYmFy"]%string.
Proof. reflexivity. Qed.

Example base64_decode_rfc4648 :
  base64_decode <$> ["Zg=="; "Zm8="; "Zm9v"; "Zm9vYmFy"; "Zg="; "Zm9*"]%string =
  [Some "f"; Some "fo"; Some "foo"; Some "foobar"; None; None]%string.
Proof. reflexivity. Qed.

(** A digit is one character, which is no padding and no line break, and decodes
    to its value. *)
Definition digit_ok (n : N) : bool :=
  match base64_digit n with
  | String c EmptyString =>
    bool_decide (base64_value c = Some n) && negb (Ascii.eqb c pad) && negb ((byte_of c =? 10) || (byte_of c =? 13))
  | _ => false
  end.

Lemma digits_ok : forallb (λ k, digit_ok (N.of_nat k)) (seq 0 64) = true.
Proof. vm_compute. reflexivity. Qed.

Lemma digit_spec n : n < 64 → ∃ c, base64_digit n = String c "" ∧ base64_value c = Some n ∧ Ascii.eqb c pad = false ∧
  (byte_of c =? 10) || (byte_of c =? 13) = false.
Proof.
  intros Hn. pose proof digits_ok as H. rewrite forallb_forall in H.
  specialize (H (N.to_nat n)). rewrite N2Nat.id in H.
  assert (Hin : In (N.to_nat n) (seq 0 64)) by (apply in_seq; lia). specialize (H Hin). unfold digit_ok in H.
  destruct (base64_digit n) as [|c [|c' s]]; [done| |done].
  apply andb_true_iff in H as [H Hnl]. apply andb_true_iff in H as [H Hp].
  apply bool_decide_eq_true in H. exists c. split; [done|]. split; [done|]. split; by apply negb_true_iff.
Qed.

Lemma quantum_lt a b c : quantum a b c < 16777216.
Proof. unfold quantum. pose proof (byte_of_lt a). pose proof (byte_of_lt b). pose proof (byte_of_lt c). lia. Qed.

Lemma sextet_lt n : N.land n 63 < 64.
Proof. change 63 with (N.ones 6). rewrite N.land_ones. apply N.mod_lt. lia. Qed.

Lemma top_sextet_lt n : n < 16777216 → N.shiftr n 18 < 64.
Proof. intros H. rewrite N.shiftr_div_pow2. apply N.Div0.div_lt_upper_bound. change (2 ^ 18) with 262144. lia. Qed.

(** The sextets of a quantum rebuild it. *)
Lemma sextets_id n : n < 16777216 →
  N.shiftr n 18 * 262144 + N.land (N.shiftr n 12) 63 * 4096 + N.land (N.shiftr n 6) 63 * 64 + N.land n 63 = n.
Proof.
  intros H. change 63 with (N.ones 6). rewrite !N.land_ones, !N.shiftr_div_pow2.
  change (2 ^ 18) with 262144. change (2 ^ 12) with 4096. change (2 ^ 6) with 64.
  pose proof (N.div_mod n 64 ltac:(lia)). pose proof (N.div_mod (n / 64) 64 ltac:(lia)). pose proof (N.div_mod (n / 4096) 64 ltac:(lia)).
  rewrite N.Div0.div_div in *. change (64 * 64) with 4096 in *. change (4096 * 64) with 262144 in *. lia.
Qed.

Lemma byte_at_quantum a b c :
  byte_at (quantum a b c) 16 = a ∧ byte_at (quantum a b c) 8 = b ∧ byte_at (quantum a b c) 0 = c.
Proof.
  pose proof (byte_of_lt a). pose proof (byte_of_lt b). pose proof (byte_of_lt c).
  unfold byte_at, char_of. change 255 with (N.ones 8). rewrite !N.land_ones, !N.shiftr_div_pow2.
  change (2 ^ 16) with 65536. change (2 ^ 8) with 256. change (2 ^ 0) with 1. rewrite N.div_1_r.
  assert (Hd1 : quantum a b c / 65536 = byte_of a).
  { symmetry. apply (N.div_unique _ _ _ (byte_of b * 256 + byte_of c)); unfold quantum; lia. }
  assert (Hd2 : quantum a b c / 256 = byte_of a * 256 + byte_of b).
  { symmetry. apply (N.div_unique _ _ _ (byte_of c)); unfold quantum; lia. }
  rewrite Hd1, Hd2. split; [|split].
  - rewrite N.mod_small by lia. apply ascii_N_embedding.
  - rewrite (N.add_comm (byte_of a * 256)), N.Div0.mod_add, N.mod_small by lia. apply ascii_N_embedding.
  - assert (Hd3 : quantum a b c mod 256 = byte_of c).
    { symmetry. apply (N.mod_unique _ _ (byte_of a * 256 + byte_of b)); unfold quantum; lia. }
    rewrite Hd3. apply ascii_N_embedding.
Qed.

(** Three bytes at a time. *)
Lemma string_ind3 (P : string → Prop) :
  P ""%string → (∀ a, P (String a "")) → (∀ a b, P (String a (String b ""))) →
  (∀ a b c s, P s → P (String a (String b (String c s)))) → ∀ s, P s.
Proof.
  intros H0 H1 H2 H3. fix IH 1. intros [|a [|b [|c s]]]; [done|apply H1|apply H2|]. apply H3, IH.
Qed.

Ltac digits := repeat match goal with
  | |- context [base64_digit ?n] =>
    let H := fresh in
    assert (H : n < 64) by first [apply sextet_lt | apply top_sextet_lt, quantum_lt];
    let c := fresh "c" in let Hv := fresh "Hv" in let Hp := fresh "Hp" in let Hn := fresh "Hn" in
    destruct (digit_spec n H) as (c & -> & Hv & Hp & Hn); clear H
  end.

Lemma one_char c s : String c "" +:+ s = String c s.
Proof. reflexivity. Qed.

Lemma strip_digit c s : (byte_of c =? 10) || (byte_of c =? 13) = false → strip_newlines (String c s) = String c (strip_newlines s).
Proof. intros H. cbn. by rewrite H. Qed.

Lemma base64_roundtrip s : base64_decode (base64_encode s) = Some s.
Proof.
  unfold base64_decode. induction s as [|a|a b|a b c s IH] using string_ind3; cbn [base64_encode].
  - done.
  - pose proof (sextets_id _ (quantum_lt a zero zero)) as Hs. pose proof (byte_at_quantum a zero zero) as (Ha & _ & _).
    assert (Hz : N.land (N.shiftr (quantum a zero zero) 6) 63 = 0 ∧ N.land (quantum a zero zero) 63 = 0).
    { assert (Hq : quantum a zero zero = byte_of a * 16 * 64 * 64) by (unfold quantum; change (byte_of zero) with 0; lia).
      change 63 with (N.ones 6). rewrite !N.land_ones, N.shiftr_div_pow2, Hq. change (2 ^ 6) with 64.
      rewrite N.div_mul, !N.Div0.mod_mul by done. done. }
    destruct Hz as [Hz1 Hz2]. rewrite Hz1, Hz2 in Hs. rewrite !N.add_0_r in Hs. revert Hs. digits. intros Hs.
    rewrite !one_char, !strip_digit by done. cbn -[quantum byte_at N.mul N.add]. rewrite Hv, Hv0, Hs, Ha. done.
  - pose proof (sextets_id _ (quantum_lt a b zero)) as Hs. pose proof (byte_at_quantum a b zero) as (Ha & Hb & _).
    assert (Hz : N.land (quantum a b zero) 63 = 0).
    { assert (Hq : quantum a b zero = (byte_of a * 1024 + byte_of b * 4) * 64) by (unfold quantum; change (byte_of zero) with 0; lia).
      change 63 with (N.ones 6). rewrite N.land_ones, Hq. by rewrite N.Div0.mod_mul. }
    rewrite Hz, N.add_0_r in Hs. revert Hs. digits. intros Hs.
    rewrite !one_char, !strip_digit by done. cbn -[quantum byte_at N.mul N.add].
    rewrite Hv, Hv0, Hp1. cbn -[quantum byte_at N.mul N.add]. rewrite Hv1, Hs, Ha, Hb. done.
  - pose proof (sextets_id _ (quantum_lt a b c)) as Hs. pose proof (byte_at_quantum a b c) as (Ha & Hb & Hc).
    revert Hs. digits. intros Hs. rewrite !one_char, !strip_digit by done. cbn [base64_quanta].
    rewrite Hv, Hv0, Hp1, Hv1, Hp2, Hv2, IH, Hs, Ha, Hb, Hc. done.
Qed.

Lemma base64_encode_nonempty s : s ≠ ""%string → String.eqb (base64_encode s) "" = false.
Proof.
  intros Hs. apply String.eqb_neq. intros H. pose proof (base64_roundtrip s) as Hr. rewrite H in Hr. cbv in Hr. by injection Hr as <-.
Qed.
