(* ===== verification/Slug.v ===== *)
(** * Slugs (mclaude-common/pkg/slug/slug.go and its callers)

    [Slugify], [Validate], [ValidateOrFallback] and the [MustParse] helpers,
    with the two slug derivations of the control plane (hosts.go [slugify],
    db.go [computeUserSlug]), the branch slug of the session agent
    (worktree.go) and the project name slug of the CLI (cmd/import.go).
    Unicode normalisation ([golang.org/x/text/unicode/norm]) is third-party
    code: it is the field [nfd] of [Normalizer]. *)

From S2P Require Import Prelude GoStrings.
Open Scope N_scope.

(** NFD of a byte string.  The package documents that ASCII text is already
    in every normal form ([QuickSpan]). *)
Class Normalizer := {
  nfd : list N → list N;
  nfd_ascii : ∀ l, Forall (λ b, b < 128) l → nfd l = l;
}.

(** ** Kinds and the reserved words *)

Definition KindUser : N := 0.
Definition KindProject : N := 1.
Definition KindSession : N := 2.
Definition KindHost : N := 3.
Definition KindCluster : N := 4.

Definition kindPrefix (k : N) : string :=
  if k =? KindUser then "u"
  else if k =? KindProject then "p"
  else if k =? KindSession then "s"
  else if k =? KindHost then "h"
  else if k =? KindCluster then "c"
  else "x".

Definition reservedSet : gset string :=
  list_to_set
    [ "users"; "hosts"; "projects"; "sessions"; "clusters"; "api"; "events";
      "lifecycle"; "quota"; "terminal"; "create"; "delete"; "input"; "config";
      "control" ].

Definition MaxLen : nat := 63.

(** ** Slugify *)

(** Step 3: drop the combining marks. *)
Definition strip_marks `{UnicodeTables} (l : list N) : list N :=
  encode_runes (List.filter (λ r, negb (unicode_IsMn r)) (runes l)).

(** Step 4: one dash per maximal run of runes outside [a-z0-9]; [inRun] is the
    loop variable of that name. *)
Fixpoint collapse (inRun : bool) (rs : list N) : list N :=
  match rs with
  | [] => []
  | r :: rs =>
    if is_lower_digit r then r :: collapse false rs
    else if inRun then collapse true rs
    else dash :: collapse true rs
  end.

(** Step 6. *)
Definition truncate63 (l : list N) : list N :=
  if (MaxLen <? length l)%nat then trim_right is_dash (take MaxLen l) else l.

Definition slugify_bytes `{UnicodeTables, Normalizer} (l : list N) : list N :=
  truncate63 (trim is_dash (collapse false (runes (strip_marks (nfd (strings_ToLower l)))))).

Definition Slugify `{UnicodeTables, Normalizer} (displayName : string) : string :=
  string_of (slugify_bytes (bytes_of displayName)).

Definition DeriveUserSlug `{UnicodeTables, Normalizer} (email : string) : string :=
  Slugify email.

(** ** Validate *)

Inductive slug_error :=
| ErrReserved (s : string)
| ErrLeadingUnderscore (s : string)
| ErrEmpty
| ErrTooLong (s : string)
| ErrCharset (s : string).

Definition slug_rune (r : N) : bool := (r =? dash) || is_lower_digit r.

(** [None] is the nil error. *)
Definition Validate (s : string) : option slug_error :=
  if String.eqb s "" then Some ErrEmpty
  else if HasPrefix s "_" then Some (ErrLeadingUnderscore s)
  else if (MaxLen <? String.length s)%nat then Some (ErrTooLong s)
  else if negb (forallb slug_rune (runes (bytes_of s))) then Some (ErrCharset s)
  else if match s with String a _ => byte_of a =? dash | _ => false end then Some (ErrCharset s)
  else if bool_decide (s ∈ reservedSet) then Some (ErrReserved s)
  else None.

(** ** Fallback slugs *)

Definition base32_alphabet : list N := bytes_of "abcdefghijklmnopqrstuvwxyz234567".

Definition base32_digit (d : N) : N := nth (N.to_nat d) base32_alphabet 0.

(** The 32 bits of [uuidSeed[:4]], most significant byte first. *)
Definition seed_bits (uuidSeed : list N) : N :=
  let b i := nth i uuidSeed 0 `mod` 256 in
  ((b 0%nat * 256 + b 1%nat) * 256 + b 2%nat) * 256 + b 3%nat.

(** Unpadded base32 of four bytes: seven digits, the last one carrying the two
    low bits. *)
Definition base32_encode4 (v : N) : list N :=
  base32_digit <$>
    [ N.shiftr v 27 `mod` 32; N.shiftr v 22 `mod` 32; N.shiftr v 17 `mod` 32; N.shiftr v 12 `mod` 32;
      N.shiftr v 7 `mod` 32; N.shiftr v 2 `mod` 32; N.shiftl v 3 `mod` 32 ].

Definition fallbackSlug (kind : N) (uuidSeed : list N) : string :=
  let encoded := base32_encode4 (seed_bits uuidSeed) in
  let suffix := take 6 encoded in
  kindPrefix kind +:+ "-" +:+ string_of suffix.

Definition ValidateOrFallback (candidate : string) (kind : N) (uuidSeed : list N) : string :=
  match Validate candidate with
  | None => candidate
  | Some _ => fallbackSlug kind uuidSeed
  end.

(** ** MustParse: a typed slug or a panic.  The five Go functions differ in
    the name of the type only. *)
Definition MustParseSlug (s : string) : outcome string :=
  match Validate s with
  | Some _ => Panicked
  | None => Done s
  end.

(** ** The callers' derivations.  [uuid.New] draws a fresh UUID: the argument
    [uid]. *)
Definition slugify `{UnicodeTables, Normalizer} (uid : list N) (name : string) : string :=
  let s := Slugify name in
  if String.eqb s "" then ""
  else match Validate s with
       | Some _ => ValidateOrFallback s KindHost uid
       | None => s
       end.

Definition computeUserSlug `{UnicodeTables, Normalizer} (uid : list N) (email : string) : string :=
  let s := Slugify email in
  if String.eqb s "" then ""
  else match Validate s with
       | Some _ => ValidateOrFallback s KindUser uid
       | None => s
       end.

(** worktree.go: [SlugifyBranch].  The regexp [[^a-z0-9-]+] works on runes:
    every maximal run of runes outside the class becomes one dash. *)
Fixpoint collapse_keep_dash (inRun : bool) (rs : list N) : list N :=
  match rs with
  | [] => []
  | r :: rs =>
    if slug_rune r then r :: collapse_keep_dash false rs
    else if inRun then collapse_keep_dash true rs
    else dash :: collapse_keep_dash true rs
  end.

Definition slash : N := 47.

Definition SlugifyBranch `{UnicodeTables} (branch : string) : string :=
  let s := strings_ToLower (bytes_of branch) in
  let s := (λ b, if b =? slash then dash else b) <$> s in
  let s := collapse_keep_dash false (runes s) in
  let s := string_of (trim is_dash s) in
  if String.eqb s "" then "main" else s.

(** cmd/import.go: [slugifyProjectName]; [prevDash] is [prev == '-']. *)
Fixpoint project_name_loop (prevDash : bool) (rs : list N) : list N :=
  match rs with
  | [] => []
  | r :: rs =>
    if is_lower_digit r then r :: project_name_loop false rs
    else if (r =? dash) || (r =? 95) || (r =? 46) || (r =? 32) then
      if prevDash then project_name_loop true rs
      else dash :: project_name_loop true rs
    else project_name_loop prevDash rs
  end.

Definition slugifyProjectName `{UnicodeTables} (name : string) : string :=
  let result := trim is_dash (project_name_loop true (runes (strings_ToLower (bytes_of name)))) in
  string_of (if (50 <? length result)%nat then take 50 result else result).

(** cmd/import.go: [EncodeCWD]. *)
Definition EncodeCWD (absPath : string) : string :=
  TrimPrefix
    (string_of ((λ b, if b =? slash then dash else b) <$> bytes_of absPath)) "-".

(** ** Specification: the slugs the program accepts *)

(** The documented class [[a-z0-9][a-z0-9-]{0,62}], reserved words excluded. *)
Definition valid_slug (s : string) : Prop :=
  bytes_of s ≠ [] ∧ (length (bytes_of s) ≤ MaxLen)%nat ∧
  Forall (λ b, slug_rune b = true) (bytes_of s) ∧
  head (bytes_of s) ≠ Some dash ∧ s ∉ reservedSet.

(** The shape of [Slugify]'s results. *)
Record canonical (l : list N) : Prop := {
  canon_chars : Forall (λ b, slug_rune b = true) l;
  canon_length : (length l ≤ MaxLen)%nat;
  canon_head : head l ≠ Some dash;
  canon_last : last l ≠ Some dash;
  canon_runs : ¬ ∃ l1 l2, l = l1 ++ dash :: dash :: l2;
}.

(** ** Character lemmas *)

Lemma slug_rune_ascii r : slug_rune r = true → r < 128.
Proof.
  unfold slug_rune, is_lower_digit, is_lower, is_digit, dash.
  rewrite !orb_true_iff, !andb_true_iff, !N.leb_le, N.eqb_eq. lia.
Qed.

Lemma slug_rune_not_upper r : slug_rune r = true → is_upper r = false.
Proof.
  unfold slug_rune, is_lower_digit, is_lower, is_digit, is_upper, dash.
  rewrite !orb_true_iff, !andb_true_iff, !N.leb_le, N.eqb_eq, andb_false_iff, !N.leb_gt. lia.
Qed.

Lemma slug_rune_not_dash r : slug_rune r = true → r ≠ dash → is_lower_digit r = true.
Proof. unfold slug_rune. rewrite orb_true_iff, N.eqb_eq. tauto. Qed.

Lemma lower_digit_slug r : is_lower_digit r = true → slug_rune r = true ∧ r ≠ dash.
Proof.
  intros H. split; [unfold slug_rune; by rewrite H, orb_true_r|].
  intros ->. done.
Qed.

Lemma slug_bytes_ascii l :
  Forall (λ b, slug_rune b = true) l → Forall (λ b, b < 128) l.
Proof. intros H. eapply Forall_impl; [exact H|]. apply slug_rune_ascii. Qed.

Lemma slug_bytes_of_string_of l :
  Forall (λ b, slug_rune b = true) l → bytes_of (string_of l) = l.
Proof.
  intros H. apply bytes_of_string_of. eapply Forall_impl; [exact H|].
  intros b Hb%slug_rune_ascii. lia.
Qed.

#[export] Hint Resolve slug_rune_ascii slug_bytes_ascii : go.

(** ** Validate against its specification *)

Lemma slug_runes_bytes l :
  forallb slug_rune (runes l) = true ↔ Forall (λ b, slug_rune b = true) l.
Proof.
  rewrite forallb_forall, <-List.Forall_forall. split; intros H.
  - apply (runes_ascii_inv (λ b, slug_rune b = true)); [apply slug_rune_ascii|done].
  - by rewrite runes_ascii by auto with go.
Qed.

Lemma Validate_valid s : Validate s = None ↔ valid_slug s.
Proof.
  unfold Validate, valid_slug. destruct (String.eqb_spec s "") as [->|Hs].
  { split; [done|]. by intros []. }
  destruct s as [|a s]; [done|].
  destruct (HasPrefix (String a s) "_") eqn:Hp.
  { split; [done|]. intros (_ & _ & H & _). exfalso.
    apply prefix_spec in Hp as [k [= -> Hk]]. by apply Forall_cons in H as [H _]. }
  rewrite length_bytes_of.
  destruct (Nat.ltb_spec MaxLen (String.length (String a s))) as [Hl|Hl].
  { split; [done|]. intros (_ & H & _). lia. }
  destruct (forallb slug_rune (runes (bytes_of (String a s)))) eqn:Hr; simpl negb; cbv iota.
  2:{ split; [done|]. intros (_ & _ & H & _). apply slug_runes_bytes in H. congruence. }
  apply slug_runes_bytes in Hr. cbn [bytes_of head].
  destruct (N.eqb_spec (byte_of a) dash) as [Hd|Hd].
  { split; [done|]. intros (_ & _ & _ & H & _). by rewrite Hd in H. }
  case_bool_decide as Hres.
  - split; [done|]. by intros (_ & _ & _ & _ & ?).
  - split; [|done]. intros _. repeat split; try done. congruence.
Qed.

(** ** Slugify *)

Lemma collapse_chars inRun rs :
  Forall (λ b, slug_rune b = true) (collapse inRun rs).
Proof.
  revert inRun. induction rs as [|r rs IH]; intros inRun; simpl; [constructor|].
  destruct (is_lower_digit r) eqn:Hr; [constructor; [apply lower_digit_slug, Hr|apply IH]|].
  destruct inRun; [apply IH|]. constructor; [done|apply IH].
Qed.

Lemma collapse_head rs : head (collapse true rs) ≠ Some dash.
Proof.
  induction rs as [|r rs IH]; simpl; [done|].
  destruct (is_lower_digit r) eqn:Hr; [|done]. simpl.
  intros [= ->]. by apply lower_digit_slug in Hr as [_ ?].
Qed.

Lemma collapse_runs inRun rs : ¬ ∃ l1 l2, collapse inRun rs = l1 ++ dash :: dash :: l2.
Proof.
  revert inRun. induction rs as [|r rs IH]; intros inRun (l1 & l2 & H); simpl in H.
  { by destruct l1. }
  destruct (is_lower_digit r) eqn:Hr.
  - destruct l1 as [|x l1]; simplify_eq/=.
    + apply (IH false). eauto.
  - destruct inRun; [by apply (IH true); eauto|].
    destruct l1 as [|x l1]; simplify_eq/=.
    + apply (collapse_head rs). by rewrite H.
    + apply (IH true). eauto.
Qed.

Lemma collapse_id inRun l :
  Forall (λ b, slug_rune b = true) l → (¬ ∃ l1 l2, l = l1 ++ dash :: dash :: l2) →
  (inRun = true → head l ≠ Some dash) → collapse inRun l = l.
Proof.
  revert inRun. induction l as [|r l IH]; intros inRun Hc Hd Hh; simpl; [done|].
  apply Forall_cons in Hc as [Hr Hc].
  assert (¬ ∃ l1 l2, l = l1 ++ dash :: dash :: l2) as Hd'.
  { intros (l1 & l2 & ->). apply Hd. by exists (r :: l1), l2. }
  destruct (is_lower_digit r) eqn:Er; [by rewrite IH|].
  assert (r = dash) as ->.
  { destruct (N.eq_dec r dash); [done|]. by rewrite (slug_rune_not_dash r) in Er. }
  destruct inRun; [by destruct Hh|]. rewrite IH; [done..|].
  intros _ H. apply Hd. destruct l as [|x l]; simplify_eq/=. by exists [], l.
Qed.

Lemma trim_infix p l : ∃ l1 l2, l = l1 ++ trim p l ++ l2.
Proof.
  unfold trim, trim_left. destruct (drop_while_spec p l) as (l1 & H1 & _ & _).
  destruct (trim_right_spec p (drop_while p l)) as (l2 & H2 & _).
  exists l1, l2. by rewrite <-H2.
Qed.

Lemma head_reverse {A} (l : list A) : head (reverse l) = last l.
Proof. destruct l using rev_ind; [done|]. by rewrite reverse_snoc, last_snoc. Qed.

Lemma trim_right_last l : last (trim_right is_dash l) ≠ Some dash.
Proof.
  destruct (trim_right_spec is_dash l) as (_ & _ & H).
  rewrite <-head_reverse. destruct (reverse _); [done|]. by intros [= ->].
Qed.

Lemma trim_right_head_ne l : head l ≠ Some dash → head (trim_right is_dash l) ≠ Some dash.
Proof.
  intros H. destruct (trim_right_spec is_dash l) as (l2 & Hl & _).
  destruct (trim_right is_dash l) as [|x k]; [done|]. by rewrite Hl in H.
Qed.

Lemma trim_head l : head (trim is_dash l) ≠ Some dash.
Proof.
  apply trim_right_head_ne. unfold trim_left.
  destruct (drop_while_spec is_dash l) as (_ & _ & _ & H).
  destruct (drop_while is_dash l); [done|]. intros [= ->]. done.
Qed.

Lemma infix_runs (l k l1 l2 : list N) :
  l = l1 ++ k ++ l2 → (¬ ∃ a b, l = a ++ dash :: dash :: b) → ¬ ∃ a b, k = a ++ dash :: dash :: b.
Proof.
  intros -> H (a & b & ->). apply H. exists (l1 ++ a), (b ++ l2).
  by rewrite <-!app_assoc.
Qed.

Lemma truncate_canonical l :
  Forall (λ b, slug_rune b = true) l → head l ≠ Some dash → last l ≠ Some dash →
  (¬ ∃ a b, l = a ++ dash :: dash :: b) → canonical (truncate63 l).
Proof.
  intros Hc Hh Hl Hd. unfold truncate63. destruct (Nat.ltb_spec MaxLen (length l)) as [Hlen|Hlen].
  2:{ by constructor. }
  destruct (trim_right_spec is_dash (take MaxLen l)) as (l2 & Ht & _).
  constructor.
  - apply trim_right_Forall. by apply Forall_take.
  - assert (length (take MaxLen l) ≤ MaxLen)%nat as Hle by (rewrite length_take; lia).
    rewrite Ht, length_app in Hle. lia.
  - apply trim_right_head_ne. by destruct l.
  - apply trim_right_last.
  - apply (infix_runs l _ [] (l2 ++ drop MaxLen l)); [|done].
    by rewrite app_nil_l, app_assoc, <-Ht, take_drop.
Qed.

Section slugify.
Context `{UnicodeTables, Normalizer}.

Lemma slugify_bytes_canonical l : canonical (slugify_bytes l).
Proof.
  unfold slugify_bytes. set (rs := runes _).
  destruct (trim_infix is_dash (collapse false rs)) as (l1 & l2 & Hi).
  apply truncate_canonical.
  - apply trim_Forall, collapse_chars.
  - apply trim_head.
  - apply trim_right_last.
  - eapply infix_runs; [exact Hi|]. apply collapse_runs.
Qed.

Lemma strings_ToLower_slug l :
  Forall (λ b, slug_rune b = true) l → strings_ToLower l = l.
Proof.
  intros Hl. unfold strings_ToLower. rewrite runes_ascii by auto with go.
  replace (unicode_ToLower <$> l) with l; [apply encode_runes_ascii; auto with go|].
  symmetry. induction Hl as [|b l Hb Hl IH]; [done|]. rewrite fmap_cons, IH. f_equal.
  unfold unicode_ToLower, ascii_lower. rewrite slug_rune_not_upper by done.
  destruct (N.ltb_spec b 128); [done|]. apply slug_rune_ascii in Hb. lia.
Qed.

Lemma strip_marks_ascii l : Forall (λ b, b < 128) l → strip_marks l = l.
Proof.
  intros Hl. unfold strip_marks. rewrite runes_ascii by done.
  replace (List.filter _ l) with l; [by apply encode_runes_ascii|].
  induction Hl as [|b l Hb Hl IH]; simpl; [done|]. unfold unicode_IsMn at 1.
  apply N.ltb_lt in Hb. rewrite Hb. simpl. by rewrite <-IH.
Qed.

Lemma trim_id l : head l ≠ Some dash → last l ≠ Some dash → trim is_dash l = l.
Proof.
  intros Hh Hl. unfold trim, trim_left. rewrite drop_while_id.
  - apply trim_right_id. rewrite <-head_reverse in Hl.
    destruct (reverse l) as [|b k]; [done|]. apply N.eqb_neq. by intros ->.
  - destruct l as [|b k]; [done|]. apply N.eqb_neq. by intros ->.
Qed.

Lemma slugify_bytes_id l : canonical l → slugify_bytes l = l.
Proof.
  intros []. unfold slugify_bytes. rewrite strings_ToLower_slug by done.
  rewrite nfd_ascii, strip_marks_ascii, runes_ascii by auto with go.
  rewrite collapse_id, trim_id by done.
  unfold truncate63. destruct (Nat.ltb_spec MaxLen (length l)); [lia|done].
Qed.

Lemma Slugify_bytes s : bytes_of (Slugify s) = slugify_bytes (bytes_of s).
Proof. apply slug_bytes_of_string_of, canon_chars, slugify_bytes_canonical. Qed.

Lemma Slugify_cases s :
  Slugify s = "" ∨ Slugify s ∈ reservedSet ∨ Validate (Slugify s) = None.
Proof.
  destruct (decide (Slugify s = "")) as [|Hne]; [auto|].
  destruct (decide (Slugify s ∈ reservedSet)) as [|Hres]; [auto|].
  right; right. apply Validate_valid. unfold valid_slug. rewrite Slugify_bytes.
  destruct (slugify_bytes_canonical (bytes_of s)). repeat split; try done.
  intros He. apply Hne. apply bytes_of_inj. by rewrite Slugify_bytes, He.
Qed.
End slugify.

(** ** Fallback slugs are valid *)

Lemma base32_digit_lower_digit d : d < 32 → is_lower_digit (base32_digit d) = true.
Proof.
  intros Hd. unfold base32_digit.
  assert (N.to_nat d < 32)%nat as Hn by lia. clear Hd. revert Hn.
  generalize (N.to_nat d). intros n Hn.
  do 32 (destruct n as [|n]; [reflexivity|]). lia.
Qed.

Lemma base32_digit_inj d1 d2 : d1 < 32 → d2 < 32 → base32_digit d1 = base32_digit d2 → d1 = d2.
Proof.
  intros H1 H2. unfold base32_digit. intros He. apply N2Nat.inj.
  assert (NoDup base32_alphabet) as Hnd.
  { apply (bool_decide_unpack (NoDup base32_alphabet)). vm_compute. done. }
  apply NoDup_ListNoDup in Hnd.
  eapply (NoDup_nth base32_alphabet 0); [done|..|done]; vm_compute length; lia.
Qed.

Lemma fallback_suffix_chars v :
  Forall (λ b, is_lower_digit b = true) (take 6 (base32_encode4 v)).
Proof.
  unfold base32_encode4. cbn [fmap list_fmap take].
  repeat (apply Forall_cons; split; [apply base32_digit_lower_digit, N.mod_lt; done|]).
  constructor.
Qed.

Lemma kindPrefix_cases k : ∃ c, kindPrefix k = String c "" ∧ is_lower_digit (byte_of c) = true.
Proof. unfold kindPrefix. repeat case_match; eexists; split; reflexivity. Qed.

Lemma fallbackSlug_bytes k seed c :
  kindPrefix k = String c "" →
  bytes_of (fallbackSlug k seed) = byte_of c :: dash :: take 6 (base32_encode4 (seed_bits seed)).
Proof.
  intros Hk. unfold fallbackSlug. rewrite Hk, bytes_of_app, bytes_of_app.
  rewrite slug_bytes_of_string_of; [done|].
  eapply Forall_impl; [apply fallback_suffix_chars|]. intros b Hb. by apply lower_digit_slug in Hb as [? _].
Qed.

Lemma fallback_not_reserved k seed : fallbackSlug k seed ∉ reservedSet.
Proof.
  destruct (kindPrefix_cases k) as (c & Hk & Hc).
  pose proof (fallbackSlug_bytes k seed c Hk) as Hb.
  revert Hb. generalize (take 6 (base32_encode4 (seed_bits seed))). intros suffix Hb Hr. unfold reservedSet in Hr. apply elem_of_list_to_set in Hr.
  repeat (apply elem_of_cons in Hr as [Hr|Hr];
    [rewrite Hr in Hb; vm_compute in Hb; congruence|]).
  by apply elem_of_nil in Hr.
Qed.

Lemma fallbackSlug_valid k seed : Validate (fallbackSlug k seed) = None.
Proof.
  apply Validate_valid. unfold valid_slug.
  destruct (kindPrefix_cases k) as (c & Hk & Hc).
  pose proof (fallback_not_reserved k seed).
  rewrite (fallbackSlug_bytes k seed c Hk). repeat split; try done.
  - cbn. vm_compute. lia.
  - constructor; [by apply lower_digit_slug|]. constructor; [done|].
    eapply Forall_impl; [apply fallback_suffix_chars|]. intros b Hb. by apply lower_digit_slug in Hb as [? _].
  - intros [= Hd]. rewrite Hd in Hc. done.
Qed.

(** ** Properties *)

(** The thirty seed bits the fallback suffix is made of. *)
Definition suffix_bits (uuidSeed : list N) : N := N.shiftr (seed_bits uuidSeed) 2.

Lemma seed_bits_lt seed : seed_bits seed < 4294967296.
Proof.
  unfold seed_bits.
  pose proof (λ i, N.mod_lt (nth i seed 0) 256 ltac:(done)) as Hb.
  pose proof (Hb 0%nat). pose proof (Hb 1%nat). pose proof (Hb 2%nat). pose proof (Hb 3%nat). lia.
Qed.

(** Knowing the higher digits, one more base32 digit determines five more
    bits. *)
Lemma digit_step a b n :
  N.shiftr a (n + 5) = N.shiftr b (n + 5) →
  N.shiftr a n `mod` 32 = N.shiftr b n `mod` 32 → N.shiftr a n = N.shiftr b n.
Proof.
  rewrite <-!N.shiftr_shiftr, !(N.shiftr_div_pow2 _ 5). change (2^5) with 32. intros Hq Hr.
  rewrite (N.div_mod (N.shiftr a n) 32), (N.div_mod (N.shiftr b n) 32) by done. congruence.
Qed.

(** Six base32 digits determine a thirty bit number. *)
Lemma base32_digits_inj v w :
  N.shiftr v 27 < 32 → N.shiftr w 27 < 32 →
  take 6 (base32_encode4 v) = take 6 (base32_encode4 w) ↔ N.shiftr v 2 = N.shiftr w 2.
Proof.
  intros Hv Hw. unfold base32_encode4. cbn [fmap list_fmap take].
  split.
  - intros [= H1 H2 H3 H4 H5 H6].
    repeat match goal with
    | H : base32_digit _ = _ |- _ =>
      apply base32_digit_inj in H; [|by apply N.mod_lt|by apply N.mod_lt]
    end.
    rewrite !N.mod_small in H1 by done.
    pose proof (digit_step _ _ 22 H1 H2) as H22. pose proof (digit_step _ _ 17 H22 H3) as H17.
    pose proof (digit_step _ _ 12 H17 H4) as H12. pose proof (digit_step _ _ 7 H12 H5) as H07.
    exact (digit_step _ _ 2 H07 H6).
  - intros He.
    assert (∀ m n, 2 + n = m → N.shiftr v m = N.shiftr w m) as Hn.
    { intros m n <-. by rewrite <-!N.shiftr_shiftr, He. }
    by rewrite (Hn 27 25), (Hn 22 20), (Hn 17 15), (Hn 12 10), (Hn 7 5), He by reflexivity.
Qed.

Lemma seed_bits_top seed : N.shiftr (seed_bits seed) 27 < 32.
Proof.
  rewrite N.shiftr_div_pow2. pose proof (seed_bits_lt seed). vm_compute (2^27).
  apply N.Div0.div_lt_upper_bound. lia.
Qed.

(** [Validate] accepts exactly the non-empty strings of at most 63 bytes over
    [a-z0-9-] that start with a letter or digit and are not reserved words. *)
Theorem Validate_iff_valid_slug (s : string) : Validate s = None ↔ valid_slug s.
Proof. apply Validate_valid. Qed.

(** C32. Whatever the Unicode tables and the normaliser do above ASCII, [Slugify]
    returns a canonical slug (at most 63 characters of [a-z0-9-], no dash at
    either end, no two dashes in a row), [Validate] accepts the result unless
    it is empty or a reserved word, and slugifying it again changes nothing. *)
Theorem Slugify_canonical_idempotent `{UnicodeTables, Normalizer} (name : string) :
  canonical (bytes_of (Slugify name)) ∧
  (Slugify name = "" ∨ Slugify name ∈ reservedSet ∨ Validate (Slugify name) = None) ∧
  Slugify (Slugify name) = Slugify name.
Proof.
  pose proof (slugify_bytes_canonical (bytes_of name)) as Hc.
  rewrite Slugify_bytes. split; [done|]. split; [apply Slugify_cases|].
  apply bytes_of_inj. rewrite !Slugify_bytes. by apply slugify_bytes_id.
Qed.

(** The slug the control plane derives for a host or a user is empty exactly
    when slugifying gives nothing, and otherwise is always a valid slug: a
    reserved word is replaced by a valid fallback; [ValidateOrFallback] itself
    always returns a valid slug. *)
Theorem derived_slugs_valid `{UnicodeTables, Normalizer} (uid : list N) (name : string) :
  (∀ kind, Validate (ValidateOrFallback name kind uid) = None) ∧
  (slugify uid name = "" ↔ Slugify name = "") ∧
  (slugify uid name ≠ "" → Validate (slugify uid name) = None) ∧
  (computeUserSlug uid name = "" ↔ Slugify name = "") ∧
  (computeUserSlug uid name ≠ "" → Validate (computeUserSlug uid name) = None).
Proof.
  assert (∀ c kind, Validate (ValidateOrFallback c kind uid) = None) as HV.
  { intros c kind. unfold ValidateOrFallback. destruct (Validate c) eqn:E; [apply fallbackSlug_valid|done]. }
  assert (∀ s, Validate s = None → s ≠ "") as Hne by (by intros _ ? ->).
  unfold slugify, computeUserSlug.
  destruct (String.eqb_spec (Slugify name) "") as [He|He].
  { rewrite He. naive_solver. }
  destruct (Validate (Slugify name)) eqn:E; [|by naive_solver].
  pose proof (HV (Slugify name) KindHost). pose proof (HV (Slugify name) KindUser).
  split; [eauto|]. split_and!; naive_solver.
Qed.

(** A fallback slug is a function of the kind's prefix and of the first thirty
    bits of the seed, and of nothing less: two fallbacks coincide exactly when
    both agree. *)
Theorem fallbackSlug_injective (k1 k2 : N) (seed1 seed2 : list N) :
  fallbackSlug k1 seed1 = fallbackSlug k2 seed2 ↔
  kindPrefix k1 = kindPrefix k2 ∧ suffix_bits seed1 = suffix_bits seed2.
Proof.
  destruct (kindPrefix_cases k1) as (c1 & Hk1 & _), (kindPrefix_cases k2) as (c2 & Hk2 & _).
  pose proof (base32_digits_inj _ _ (seed_bits_top seed1) (seed_bits_top seed2)) as Hd.
  pose proof (fallbackSlug_bytes k1 seed1 c1 Hk1) as H1.
  pose proof (fallbackSlug_bytes k2 seed2 c2 Hk2) as H2.
  unfold suffix_bits. rewrite <-Hd, Hk1, Hk2. clear Hd. revert H1 H2.
  generalize (take 6 (base32_encode4 (seed_bits seed1))) (take 6 (base32_encode4 (seed_bits seed2))).
  intros suf1 suf2 H1 H2. split.
  - intros He. rewrite He, H2 in H1. injection H1 as Hc Hs.
    split; [|done]. f_equal. by rewrite <-(char_of_byte_of c1), <-Hc, char_of_byte_of.
  - intros [[= ->] Hs]. apply bytes_of_inj. by rewrite H1, H2, Hs.
Qed.

(** Concrete tables: ASCII only. *)
Definition ascii_tables : UnicodeTables := {|
  lower_table := λ r, r; mn_table := λ _, false; space_table := λ _, false |}.
Definition ascii_norm : Normalizer := {| nfd := λ l, l; nfd_ascii := λ l _, eq_refl |}.

Lemma Slugify_canonical_idempotent_witness :
  @Slugify ascii_tables ascii_norm "My Project!" = "my-project" ∧
  canonical (bytes_of (@Slugify ascii_tables ascii_norm "My Project!")) ∧
  (@Slugify ascii_tables ascii_norm "My Project!" = "" ∨
   @Slugify ascii_tables ascii_norm "My Project!" ∈ reservedSet ∨
   Validate (@Slugify ascii_tables ascii_norm "My Project!") = None) ∧
  @Slugify ascii_tables ascii_norm (@Slugify ascii_tables ascii_norm "My Project!") =
  @Slugify ascii_tables ascii_norm "My Project!".
Proof.
  split; [vm_compute; reflexivity|].
  exact (@Slugify_canonical_idempotent ascii_tables ascii_norm "My Project!").
Defined.

Lemma derived_slugs_valid_witness :
  @slugify ascii_tables ascii_norm [1; 2; 3; 4] "API" = "h-aebagb" ∧
  Validate (@slugify ascii_tables ascii_norm [1; 2; 3; 4] "API") = None.
Proof.
  split; [vm_compute; reflexivity|].
  destruct (@derived_slugs_valid ascii_tables ascii_norm [1; 2; 3; 4] "API") as (_ & _ & H & _).
  apply H. vm_compute. discriminate.
Defined.
