(* ===== verification/Subjects.v ===== *)
(** * NATS subjects and KV keys (mclaude-common/pkg/subj/subj.go)

    The constructors of every subject and key of the system, their
    unambiguity, and the parsers of the handlers that take a subject apart
    (lifecycle.go, controller.go, nats_subscriber.go).  How the NATS server
    matches a subject against a pattern is third-party behaviour: the class
    [NatsServer] states the documented rules. *)

From S2P Require Import Prelude GoStrings GoPath Slug.

Notation "s1 ++. s2" := (String.app s1 s2) (at level 60, right associativity, only parsing) : go_scope.
Open Scope go_scope.

(** ** Constructors *)

Definition FilterMclaudeSessions : string :=
  "mclaude.users.*.hosts.*.projects.*.sessions.>".

Definition UserAPIProjectsCreate (u : string) : string :=
  "mclaude.users." ++. u ++. ".api.projects.create".

Definition UserAPIProjectsUpdated (u : string) : string :=
  "mclaude.users." ++. u ++. ".api.projects.updated".

Definition UserQuota (u : string) : string :=
  "mclaude.users." ++. u ++. ".quota".

Definition UserHostStatus (u h : string) : string :=
  "mclaude.users." ++. u ++. ".hosts." ++. h ++. ".status".

Definition HostUserProjectsCreate (h u p : string) : string :=
  "mclaude.hosts." ++. h ++. ".users." ++. u ++. ".projects." ++. p ++. ".create".

Definition HostUserProjectsDelete (h u p : string) : string :=
  "mclaude.hosts." ++. h ++. ".users." ++. u ++. ".projects." ++. p ++. ".delete".

Definition UserHostProjectSessionsCreate (u h p : string) : string :=
  "mclaude.users." ++. u ++. ".hosts." ++. h ++. ".projects." ++. p ++. ".sessions.create".

Definition UserHostProjectSessionsEvents (u h p s : string) : string :=
  "mclaude.users." ++. u ++. ".hosts." ++. h ++. ".projects." ++. p ++. ".sessions." ++. s ++. ".events".

Definition UserHostProjectSessionsInput (u h p s : string) : string :=
  "mclaude.users." ++. u ++. ".hosts." ++. h ++. ".projects." ++. p ++. ".sessions." ++. s ++. ".input".

Definition UserHostProjectSessionsDelete (u h p s : string) : string :=
  "mclaude.users." ++. u ++. ".hosts." ++. h ++. ".projects." ++. p ++. ".sessions." ++. s ++. ".delete".

Definition UserHostProjectSessionsControl (u h p s suffix : string) : string :=
  "mclaude.users." ++. u ++. ".hosts." ++. h ++. ".projects." ++. p ++. ".sessions." ++. s ++. ".control." ++. suffix.

Definition UserHostProjectSessionsConfig (u h p s : string) : string :=
  "mclaude.users." ++. u ++. ".hosts." ++. h ++. ".projects." ++. p ++. ".sessions." ++. s ++. ".config".

Definition UserHostProjectSessionsLifecycle (u h p s suffix : string) : string :=
  "mclaude.users." ++. u ++. ".hosts." ++. h ++. ".projects." ++. p ++. ".sessions." ++. s ++. ".lifecycle." ++. suffix.

Definition UserHostProjectAPITerminal (u h p suffix : string) : string :=
  "mclaude.users." ++. u ++. ".hosts." ++. h ++. ".projects." ++. p ++. ".api.terminal." ++. suffix.

Definition SessionsKVKey (h p s : string) : string :=
  "hosts." ++. h ++. ".projects." ++. p ++. ".sessions." ++. s.

Definition ProjectsKVKey (h p : string) : string :=
  "hosts." ++. h ++. ".projects." ++. p.

Definition HostsKVKey (h : string) : string := h.

(** ** Subject parsers of the handlers *)

Definition dot : ascii := "."%char.
Definition tokens (subject : string) : list string := Split dot subject.

(** lifecycle.go: [parseManageSubject]. *)
Definition parseManageSubject (subject : string) : string * string :=
  let parts := tokens subject in
  if (7 <=? length parts)%nat then (nth 2 parts "", nth 4 parts "")
  else ("", "").

(** attachments.go: [parseImportSubject]; [None] is the error. *)
Definition parseImportSubject (subject : string) : option (string * string * string) :=
  let parts := tokens subject in
  if (length parts <? 7)%nat then None
  else Some (nth 2 parts "", nth 4 parts "", nth 6 parts "").

(** ** Splitting constructed subjects *)

Definition no_dot (s : string) : Prop := has_char dot s = false.

Lemma valid_slug_no_dot s : Validate s = None → no_dot s.
Proof.
  intros (_ & _ & H & _)%Validate_valid. unfold no_dot.
  induction s as [|a s IH]; [done|]. cbn [bytes_of] in H. apply Forall_cons in H as [Ha H].
  cbn [has_char]. rewrite IH, orb_false_r by done. destruct (Ascii.eqb_spec a dot); [|done].
  subst a. vm_compute in Ha. done.
Qed.

Lemma valid_slug_ne_empty s : Validate s = None → s ≠ "".
Proof. by intros H ->. Qed.

Lemma valid_slug_ne_wild s : Validate s = None → s ≠ "*" ∧ s ≠ ">".
Proof. intros H. split; intros ->; vm_compute in H; done. Qed.

(** A valid slug is one element of a path. *)
Lemma valid_plain s : Validate s = None → plain s.
Proof.
  intros Hv. pose proof (valid_slug_no_dot s Hv) as Hd. unfold no_dot in Hd. split; [by apply valid_slug_ne_empty| | |].
  - intros ->. done.
  - intros ->. done.
  - apply Validate_valid in Hv as (_ & _ & H & _). clear Hd. induction s as [|a s IH]; [done|]. cbn [bytes_of] in H. apply Forall_cons in H as [Ha H].
    cbn [has_char]. rewrite IH, orb_false_r by done. destruct (Ascii.eqb_spec a path_sep); [|done]. subst a. vm_compute in Ha. done.
Qed.

Lemma tokens_join l : l ≠ [] → Forall no_dot l → tokens (Join "." l) = l.
Proof. apply Split_Join. Qed.

Lemma Join_Split s : Join "." (tokens s) = s.
Proof.
  unfold tokens. induction s as [|a s IH]; [done|]. cbn [Split].
  pose proof (Split_ne_nil dot s) as Hne.
  destruct (Ascii.eqb_spec a dot) as [->|Ha].
  - rewrite Join_cons, IH by done. done.
  - destruct (Split dot s) as [|h t] eqn:E; [done|].
    destruct (decide (t = [])) as [->|Ht].
    + change (String a h = String a s). by f_equal.
    + rewrite Join_cons in IH |- * by done. change (String a (h ++. "." ++. Join "." t) = String a s).
      by f_equal.
Qed.

Lemma tokens_no_dot s : Forall no_dot (tokens s).
Proof.
  unfold tokens. induction s as [|a s IH]; [by repeat constructor|]. cbn [Split].
  destruct (Ascii.eqb_spec a dot) as [->|Ha]; [by constructor|].
  destruct (Split dot s) as [|h t]; apply Forall_cons in IH as [Hh Ht] || idtac.
  - constructor; [|constructor]. unfold no_dot. cbn. by destruct (Ascii.eqb_spec a dot).
  - constructor; [|done]. unfold no_dot in *. cbn. rewrite Hh, orb_false_r.
    by destruct (Ascii.eqb_spec a dot).
Qed.

Lemma tokens_ne_nil s : tokens s ≠ [].
Proof. apply Split_ne_nil. Qed.

Lemma tokens_inj s1 s2 : tokens s1 = tokens s2 → s1 = s2.
Proof. intros H. by rewrite <-(Join_Split s1), <-(Join_Split s2), H. Qed.

(** ** The subjects as data *)

(** One constructor per function of subj.go that builds a subject. *)
Inductive subject :=
| SAPIProjectsCreate (u : string)
| SAPIProjectsUpdated (u : string)
| SQuota (u : string)
| SHostStatus (u h : string)
| SHostCreate (h u p : string)
| SHostDelete (h u p : string)
| SSessionsCreate (u h p : string)
| SEvents (u h p s : string)
| SInput (u h p s : string)
| SDelete (u h p s : string)
| SControl (u h p s suffix : string)
| SConfig (u h p s : string)
| SLifecycle (u h p s suffix : string)
| STerminal (u h p suffix : string).

Definition render (x : subject) : string :=
  match x with
  | SAPIProjectsCreate u => UserAPIProjectsCreate u
  | SAPIProjectsUpdated u => UserAPIProjectsUpdated u
  | SQuota u => UserQuota u
  | SHostStatus u h => UserHostStatus u h
  | SHostCreate h u p => HostUserProjectsCreate h u p
  | SHostDelete h u p => HostUserProjectsDelete h u p
  | SSessionsCreate u h p => UserHostProjectSessionsCreate u h p
  | SEvents u h p s => UserHostProjectSessionsEvents u h p s
  | SInput u h p s => UserHostProjectSessionsInput u h p s
  | SDelete u h p s => UserHostProjectSessionsDelete u h p s
  | SControl u h p s x => UserHostProjectSessionsControl u h p s x
  | SConfig u h p s => UserHostProjectSessionsConfig u h p s
  | SLifecycle u h p s x => UserHostProjectSessionsLifecycle u h p s x
  | STerminal u h p x => UserHostProjectAPITerminal u h p x
  end.

(** The slugs of a subject; suffixes are free. *)
Definition slugs_of (x : subject) : list string :=
  match x with
  | SAPIProjectsCreate u | SAPIProjectsUpdated u | SQuota u => [u]
  | SHostStatus u h => [u; h]
  | SHostCreate h u p | SHostDelete h u p => [h; u; p]
  | SSessionsCreate u h p => [u; h; p]
  | SEvents u h p s | SInput u h p s | SDelete u h p s | SConfig u h p s => [u; h; p; s]
  | SControl u h p s _ | SLifecycle u h p s _ => [u; h; p; s]
  | STerminal u h p _ => [u; h; p]
  end.

Definition well_formed (x : subject) : Prop := Forall (λ s, Validate s = None) (slugs_of x).

Definition user_host_project (u h p : string) (rest : list string) : list string :=
  "mclaude" :: "users" :: u :: "hosts" :: h :: "projects" :: p :: rest.

(** The tokens the NATS server sees. *)
Definition subject_tokens (x : subject) : list string :=
  match x with
  | SAPIProjectsCreate u => ["mclaude"; "users"; u; "api"; "projects"; "create"]
  | SAPIProjectsUpdated u => ["mclaude"; "users"; u; "api"; "projects"; "updated"]
  | SQuota u => ["mclaude"; "users"; u; "quota"]
  | SHostStatus u h => ["mclaude"; "users"; u; "hosts"; h; "status"]
  | SHostCreate h u p => ["mclaude"; "hosts"; h; "users"; u; "projects"; p; "create"]
  | SHostDelete h u p => ["mclaude"; "hosts"; h; "users"; u; "projects"; p; "delete"]
  | SSessionsCreate u h p => user_host_project u h p ["sessions"; "create"]
  | SEvents u h p s => user_host_project u h p ["sessions"; s; "events"]
  | SInput u h p s => user_host_project u h p ["sessions"; s; "input"]
  | SDelete u h p s => user_host_project u h p ["sessions"; s; "delete"]
  | SControl u h p s x => user_host_project u h p ("sessions" :: s :: "control" :: tokens x)
  | SConfig u h p s => user_host_project u h p ["sessions"; s; "config"]
  | SLifecycle u h p s x => user_host_project u h p ("sessions" :: s :: "lifecycle" :: tokens x)
  | STerminal u h p x => user_host_project u h p ("api" :: "terminal" :: tokens x)
  end.

Lemma render_join x : render x = Join "." (subject_tokens x).
Proof.
  destruct x as [u|u|u|u h|h u p|h u p|u h p|u h p s|u h p s|u h p s|u h p s x|u h p s|u h p s x|u h p x];
    try reflexivity;
    cbn [subject_tokens render]; unfold user_host_project;
    rewrite !Join_cons by (done || apply tokens_ne_nil); rewrite Join_Split; reflexivity.
Qed.

Lemma subject_tokens_no_dot x : well_formed x → Forall no_dot (subject_tokens x).
Proof.
  intros Hw.
  assert (Forall no_dot (slugs_of x)) as Hs
    by (eapply Forall_impl; [exact Hw|]; apply valid_slug_no_dot).
  destruct x; cbn [slugs_of subject_tokens] in *; unfold user_host_project;
    rewrite ?Forall_cons in Hs; split_and_all;
    rewrite ?Forall_cons; repeat split; try done; apply tokens_no_dot.
Qed.

Lemma tokens_render x : well_formed x → tokens (render x) = subject_tokens x.
Proof.
  intros Hw. rewrite render_join. apply tokens_join; [by destruct x|].
  by apply subject_tokens_no_dot.
Qed.

(** The literal tokens tell the constructors apart, the other tokens carry the
    arguments.  [sessions.create] and a session slug cannot be confused
    because the session subjects have a further token. *)
Lemma subject_tokens_inj x y : subject_tokens x = subject_tokens y → x = y.
Proof.
  destruct x, y; cbn [subject_tokens]; unfold user_host_project; intros Heq;
    repeat match goal with
    | H : _ :: _ = _ :: _ |- _ => injection H as ?; subst
    | H : tokens _ = tokens _ |- _ => apply tokens_inj in H; subst
    | H : [] = tokens _ |- _ => symmetry in H; by apply tokens_ne_nil in H
    | H : tokens _ = [] |- _ => by apply tokens_ne_nil in H
    end; try done.
Qed.

(** ** Pattern matching by the NATS server *)

(** The documented rules, token by token: ["*"] stands for any one token, [">"]
    as the last token for one or more, any other token for itself. *)
Inductive token_match : list string → list string → Prop :=
| tm_nil : token_match [] []
| tm_lit t p s : t ≠ "*" → t ≠ ">" → token_match p s → token_match (t :: p) (t :: s)
| tm_star t p s : token_match p s → token_match ("*" :: p) (t :: s)
| tm_gt t s : token_match [">"] (t :: s).

Class NatsServer := {
  nats_matches : string → string → bool;
  nats_matches_spec p s : nats_matches p s = true ↔ token_match (tokens p) (tokens s);
}.

#[export] Hint Constructors token_match : go.

(** An executable instance of the rules. *)
Fixpoint token_matchb (p s : list string) : bool :=
  match p, s with
  | [], [] => true
  | t :: p', x :: s' =>
    if String.eqb t "*" then token_matchb p' s'
    else if String.eqb t ">" then match p' with [] => true | _ => false end
    else String.eqb t x && token_matchb p' s'
  | _, _ => false
  end.

Lemma token_matchb_spec p s : token_matchb p s = true ↔ token_match p s.
Proof.
  split.
  - revert s. induction p as [|t p IH]; intros [|x s]; simpl; try done; [constructor|].
    destruct (String.eqb_spec t "*") as [->|Hs]; [by constructor; auto|].
    destruct (String.eqb_spec t ">") as [->|Hg].
    + destruct p; [constructor|done].
    + intros [He Hm]%andb_true_iff. apply String.eqb_eq in He as ->. constructor; auto.
  - induction 1 as [|t p s Hs Hg Hm IH|t p s Hm IH|]; simpl; try done.
    destruct (String.eqb_spec t "*"); [done|]. destruct (String.eqb_spec t ">"); [done|].
    by rewrite String.eqb_refl.
Qed.

Definition doc_nats_server : NatsServer := {|
  nats_matches p s := token_matchb (tokens p) (tokens s);
  nats_matches_spec p s := token_matchb_spec (tokens p) (tokens s);
|}.

Lemma token_match_lit t p x s :
  t ≠ "*" → t ≠ ">" → token_match (t :: p) (x :: s) ↔ t = x ∧ token_match p s.
Proof.
  intros Hs Hg. split; [|by intros [-> ?]; constructor].
  intros H; inversion H; subst; done.
Qed.

Lemma token_match_star p x s : token_match ("*" :: p) (x :: s) ↔ token_match p s.
Proof. split; [|by constructor]. intros H; inversion H; subst; done. Qed.

Lemma token_match_gt s : token_match [">"] s ↔ s ≠ [].
Proof.
  split; [|destruct s; [done|constructor]].
  intros H; inversion H; subst; done.
Qed.

Lemma token_match_nil_l s : token_match [] s ↔ s = [].
Proof. split; [by inversion 1|intros ->; constructor]. Qed.

Lemma token_match_nil_r p : token_match p [] ↔ p = [].
Proof. split; [by inversion 1|intros ->; constructor]. Qed.

(** A subject of the [sessions.>] hierarchy. *)
Definition is_session_subject (x : subject) : bool :=
  match x with
  | SSessionsCreate _ _ _ | SEvents _ _ _ _ | SInput _ _ _ _ | SDelete _ _ _ _
  | SControl _ _ _ _ _ | SConfig _ _ _ _ | SLifecycle _ _ _ _ _ => true
  | _ => false
  end.

Lemma filter_tokens :
  tokens FilterMclaudeSessions =
  ["mclaude"; "users"; "*"; "hosts"; "*"; "projects"; "*"; "sessions"; ">"].
Proof. reflexivity. Qed.

Ltac match_tokens :=
  repeat first
    [ rewrite token_match_star
    | rewrite token_match_gt
    | rewrite token_match_nil_l
    | rewrite token_match_nil_r
    | rewrite token_match_lit by (done || congruence) ].

(** ** Properties *)

(** C33. The fourteen subject constructors are jointly injective on valid slugs:
    two constructed subjects are the same string only when they were built by
    the same function from the same arguments. *)
Theorem render_injective (x y : subject) :
  well_formed x → well_formed y → render x = render y ↔ x = y.
Proof.
  intros Hx Hy. split; [|by intros ->]. intros He.
  apply subject_tokens_inj. by rewrite <-!tokens_render, He.
Qed.

(** KV keys are injective too, and a session key is never a project key. *)
Theorem kv_keys_injective (h p s h' p' s' : string) :
  Forall (λ x, Validate x = None) [h; p; s; h'; p'; s'] →
  (SessionsKVKey h p s = SessionsKVKey h' p' s' ↔ h = h' ∧ p = p' ∧ s = s') ∧
  (ProjectsKVKey h p = ProjectsKVKey h' p' ↔ h = h' ∧ p = p') ∧
  SessionsKVKey h p s ≠ ProjectsKVKey h' p'.
Proof.
  intros Hv.
  assert (Forall no_dot [h; p; s; h'; p'; s']) as Hd
    by (eapply Forall_impl; [exact Hv|]; apply valid_slug_no_dot).
  rewrite !Forall_cons in Hd. split_and_all.
  assert (∀ a b c, no_dot a → no_dot b → no_dot c →
    tokens (SessionsKVKey a b c) = ["hosts"; a; "projects"; b; "sessions"; c]) as HS.
  { intros a b c ???. change (SessionsKVKey a b c) with (Join "." ["hosts"; a; "projects"; b; "sessions"; c]).
    apply tokens_join; [done|]. by rewrite !Forall_cons. }
  assert (∀ a b, no_dot a → no_dot b → tokens (ProjectsKVKey a b) = ["hosts"; a; "projects"; b]) as HP.
  { intros a b ??. change (ProjectsKVKey a b) with (Join "." ["hosts"; a; "projects"; b]).
    apply tokens_join; [done|]. by rewrite !Forall_cons. }
  split_and!.
  - split; [|by intros (-> & -> & ->)]. intros He%(f_equal tokens).
    rewrite !HS in He by done. naive_solver.
  - split; [|by intros (-> & ->)]. intros He%(f_equal tokens).
    rewrite !HP in He by done. naive_solver.
  - intros He%(f_equal tokens). by rewrite HS, HP in He.
Qed.

(** The stream filter [mclaude.users.*.hosts.*.projects.*.sessions.>] captures
    exactly the session subjects: every event, command and lifecycle subject,
    and no quota, status, provisioning or terminal subject. *)
Theorem sessions_filter_exact `{NatsServer} (x : subject) :
  well_formed x → nats_matches FilterMclaudeSessions (render x) = is_session_subject x.
Proof.
  intros Hw. apply eq_true_iff_eq. rewrite nats_matches_spec, filter_tokens, tokens_render by done.
  destruct x; cbn [subject_tokens is_session_subject]; unfold user_host_project;
    match_tokens; naive_solver.
Qed.

Lemma slugs_valid_witness : Forall (λ s, Validate s = None) ["alice"; "laptop"; "web"; "s-1"].
Proof. repeat (constructor; [vm_compute; reflexivity|]). constructor. Defined.

Lemma render_injective_witness :
  render (SEvents "alice" "laptop" "web" "s-1") = render (SInput "alice" "laptop" "web" "s-1") ↔
  SEvents "alice" "laptop" "web" "s-1" = SInput "alice" "laptop" "web" "s-1".
Proof. apply render_injective; exact slugs_valid_witness. Defined.

Lemma kv_keys_injective_witness :
  (SessionsKVKey "laptop" "web" "s-1" = SessionsKVKey "laptop" "web" "s-2" ↔
   "laptop" = "laptop" ∧ "web" = "web" ∧ "s-1" = "s-2") ∧
  (ProjectsKVKey "laptop" "web" = ProjectsKVKey "laptop" "web" ↔ "laptop" = "laptop" ∧ "web" = "web") ∧
  SessionsKVKey "laptop" "web" "s-1" ≠ ProjectsKVKey "laptop" "web".
Proof.
  apply (kv_keys_injective "laptop" "web" "s-1" "laptop" "web" "s-2").
  repeat (constructor; [vm_compute; reflexivity|]). constructor.
Defined.

Lemma sessions_filter_exact_witness :
  @nats_matches doc_nats_server FilterMclaudeSessions (render (SEvents "alice" "laptop" "web" "s-1")) = true.
Proof. apply (@sessions_filter_exact doc_nats_server). exact slugs_valid_witness. Defined.
