(* ===== verification/ShellSplit.v ===== *)
(** * Splitting extra CLI flags (mclaude-session-agent/shell_split.go)

    [shellSplit] is one loop over the bytes of its argument with two inner
    loops, one per kind of quote.  Each loop is a mode of one recursive function
    over the bytes that are left; [cur], [inToken] and [tokens] are the loop
    variables of the source. *)

From S2P Require Import Prelude GoStrings.

Inductive shell_error :=
| UnclosedSingleQuote (s : string)
| UnclosedDoubleQuote (s : string).

Inductive quote_mode := Outside | InSingle | InDouble.

#[export] Instance quote_mode_eq_dec : EqDecision quote_mode.
Proof. solve_decision. Defined.

Definition squote : ascii := "'"%char.
Definition dquote : ascii := ascii_of_nat 34.
Definition backslash : ascii := ascii_of_nat 92.

Definition shell_space (c : ascii) : bool :=
  Ascii.eqb c " " || Ascii.eqb c "009" || Ascii.eqb c "010" || Ascii.eqb c "013".

Definition snoc (cur : string) (c : ascii) : string := cur +:+ String c "".

(** [whole] is the complete argument, quoted in the error messages. *)
Fixpoint shell_loop (whole : string) (mode : quote_mode) (tokens : list string)
    (cur : string) (inToken : bool) (s : string) : result shell_error (list string) :=
  match mode, s with
  | Outside, EmptyString => Ok (if inToken then tokens ++ [cur] else tokens)
  | InSingle, EmptyString => Err (UnclosedSingleQuote whole)
  | InDouble, EmptyString => Err (UnclosedDoubleQuote whole)
  | Outside, String ch s' =>
    if shell_space ch then
      if inToken then shell_loop whole Outside (tokens ++ [cur]) "" false s'
      else shell_loop whole Outside tokens cur inToken s'
    else if Ascii.eqb ch squote then shell_loop whole InSingle tokens cur true s'
    else if Ascii.eqb ch dquote then shell_loop whole InDouble tokens cur true s'
    else shell_loop whole Outside tokens (snoc cur ch) true s'
  | InSingle, String ch s' =>
    if Ascii.eqb ch squote then shell_loop whole Outside tokens cur inToken s'
    else shell_loop whole InSingle tokens (snoc cur ch) inToken s'
  | InDouble, String ch s' =>
    if Ascii.eqb ch dquote then shell_loop whole Outside tokens cur inToken s'
    else
      match s' with
      | String next s'' =>
        if Ascii.eqb ch backslash && (Ascii.eqb next dquote || Ascii.eqb next backslash)
        then shell_loop whole InDouble tokens (snoc cur next) inToken s''
        else shell_loop whole InDouble tokens (snoc cur ch) inToken s'
      | EmptyString => shell_loop whole InDouble tokens (snoc cur ch) inToken s'
      end
  end.

Definition shellSplit (s : string) : result shell_error (list string) :=
  shell_loop s Outside [] "" false s.

(** ** Specification: a quoting function *)

(** The bytes a double quoted token needs escaped. *)
Fixpoint escape_dquoted (t : string) : string :=
  match t with
  | EmptyString => EmptyString
  | String c t =>
    if Ascii.eqb c dquote || Ascii.eqb c backslash
    then String backslash (String c (escape_dquoted t))
    else String c (escape_dquoted t)
  end.

Definition dquoted (t : string) : string := String dquote (escape_dquoted t +:+ String dquote "").

Definition squoted (t : string) : string := String squote (t +:+ String squote "").

(** A token may be written double quoted, or single quoted when it has no
    single quote in it. *)
Inductive writes : string → string → Prop :=
| writes_double t : writes t (dquoted t)
| writes_single t : has_char squote t = false → writes t (squoted t).

(** A command line: written tokens, each followed by white space. *)
Inductive command_line : list string → string → Prop :=
| cl_nil : command_line [] ""
| cl_space c l s : shell_space c = true → command_line l s → command_line l (String c s)
| cl_token t w c l s :
    writes t w → shell_space c = true → command_line l s →
    command_line (t :: l) (w +:+ String c s).

(** ** Lemmas *)

Lemma snoc_app cur c s : snoc cur c +:+ s = cur +:+ String c s.
Proof. unfold snoc. by rewrite string_app_assoc. Qed.

Lemma string_app_cons c s1 s2 : String c s1 +:+ s2 = String c (s1 +:+ s2).
Proof. reflexivity. Qed.

Lemma loop_dquoted whole tokens cur b t rest :
  shell_loop whole InDouble tokens cur b (escape_dquoted t +:+ String dquote rest) =
  shell_loop whole Outside tokens (cur +:+ t) b rest.
Proof.
  revert cur. induction t as [|c t IH]; intros cur; [cbn; by rewrite app_empty_r|].
  cbn [escape_dquoted]. destruct (Ascii.eqb c dquote || Ascii.eqb c backslash) eqn:E.
  - rewrite !string_app_cons. cbn [shell_loop].
    change (Ascii.eqb backslash dquote) with false. change (Ascii.eqb backslash backslash) with true.
    rewrite E. cbn [andb]. by rewrite IH, snoc_app.
  - apply orb_false_iff in E as [E1 E2]. rewrite string_app_cons. cbn [shell_loop]. rewrite E1, E2.
    cbn [andb]. transitivity (shell_loop whole InDouble tokens (snoc cur c) b (escape_dquoted t +:+ String dquote rest)).
    + by destruct (escape_dquoted t +:+ String dquote rest).
    + by rewrite IH, snoc_app.
Qed.

Lemma loop_squoted whole tokens cur b t rest :
  has_char squote t = false →
  shell_loop whole InSingle tokens cur b (t +:+ String squote rest) =
  shell_loop whole Outside tokens (cur +:+ t) b rest.
Proof.
  revert cur. induction t as [|c t IH]; intros cur; [cbn; by rewrite app_empty_r|].
  cbn [has_char]. intros [E H]%orb_false_iff. rewrite string_app_cons. cbn [shell_loop].
  by rewrite E, IH, snoc_app.
Qed.

Lemma loop_written whole tokens t w rest :
  writes t w →
  shell_loop whole Outside tokens "" false (w +:+ rest) =
  shell_loop whole Outside tokens t true rest.
Proof.
  intros [t'|t' Ht]; unfold dquoted, squoted; rewrite string_app_cons, string_app_assoc.
  - change (String dquote "" +:+ rest) with (String dquote rest). cbn [shell_loop].
    change (shell_space dquote) with false. change (Ascii.eqb dquote squote) with false.
    change (Ascii.eqb dquote dquote) with true. cbv iota. by rewrite loop_dquoted.
  - change (String squote "" +:+ rest) with (String squote rest). cbn [shell_loop].
    change (shell_space squote) with false. change (Ascii.eqb squote squote) with true. cbv iota.
    by rewrite loop_squoted.
Qed.

Lemma loop_command_line whole l s rest tokens :
  command_line l s →
  shell_loop whole Outside tokens "" false (s +:+ rest) =
  shell_loop whole Outside (tokens ++ l) "" false rest.
Proof.
  intros Hc. revert tokens.
  induction Hc as [|c l s Hc Hl IH|t w c l s Hw Hc Hl IH]; intros tokens.
  - by rewrite app_nil_r.
  - rewrite string_app_cons. cbn [shell_loop]. by rewrite Hc, IH.
  - rewrite string_app_assoc, (loop_written _ _ t) by done. rewrite string_app_cons.
    cbn [shell_loop]. by rewrite Hc, IH, <-app_assoc.
Qed.

(** ** The splitting of text without quotes *)

(** [strings.Fields]-like reference: the maximal runs of non-space bytes. *)
Fixpoint fields_aux (cur : option string) (s : string) : list string :=
  match s with
  | EmptyString => match cur with Some t => [t] | None => [] end
  | String c s =>
    if shell_space c then match cur with Some t => t :: fields_aux None s | None => fields_aux None s end
    else fields_aux (Some (snoc (default "" cur) c)) s
  end.

Definition quote_free (s : string) : Prop := has_char squote s = false ∧ has_char dquote s = false.

Lemma loop_quote_free whole s tokens cur :
  quote_free s →
  shell_loop whole Outside tokens (default "" cur) (match cur with Some _ => true | None => false end) s =
  Ok (tokens ++ fields_aux cur s).
Proof.
  unfold quote_free. revert tokens cur.
  induction s as [|c s IH]; intros tokens cur [H1 H2].
  - cbn. destruct cur; [done|by rewrite app_nil_r].
  - cbn [has_char] in H1, H2. apply orb_false_iff in H1 as [E1 H1], H2 as [E2 H2].
    cbn [shell_loop fields_aux]. rewrite E1, E2. destruct (shell_space c).
    + destruct cur as [t|]; [rewrite (IH _ None) by done; by rewrite <-app_assoc|].
      by rewrite (IH _ None).
    + by rewrite (IH _ (Some (snoc (default "" cur) c))).
Qed.

(** ** Properties *)

(** Quoting and splitting are inverse: a command line that writes each token
    between double quotes (quotes and backslashes escaped) or single quotes,
    with white space after each, splits into exactly those tokens, whatever
    bytes they hold; the last token needs no white space after it. *)
Theorem shellSplit_roundtrip (l : list string) (s : string) :
  command_line l s →
  shellSplit s = Ok l ∧ ∀ t w, writes t w → shellSplit (s +:+ w) = Ok (l ++ [t]).
Proof.
  intros Hc. unfold shellSplit. split.
  - rewrite <-(app_empty_r s) at 2. by rewrite (loop_command_line _ l).
  - intros t w Hw. rewrite (loop_command_line _ l) by done.
    rewrite <-(app_empty_r w) at 2. by rewrite (loop_written _ _ t).
Qed.

(** On text without quotes [shellSplit] never fails and returns the maximal
    runs of non-space bytes; backslashes are ordinary bytes there. *)
Theorem shellSplit_fields (s : string) :
  quote_free s → shellSplit s = Ok (fields_aux None s).
Proof. intros H. unfold shellSplit. by rewrite (loop_quote_free _ _ _ None). Qed.

(** After complete tokens, an opening quote that is never closed is an error,
    and the error names the kind of quote and carries the whole input. *)
Theorem shellSplit_unclosed (l : list string) (s t : string) :
  command_line l s →
  (has_char squote t = false →
   shellSplit (s +:+ String squote t) = Err (UnclosedSingleQuote (s +:+ String squote t))) ∧
  shellSplit (s +:+ String dquote (escape_dquoted t)) =
    Err (UnclosedDoubleQuote (s +:+ String dquote (escape_dquoted t))).
Proof.
  intros Hc. split.
  - intros Ht. unfold shellSplit at 1. rewrite (loop_command_line _ l) by done.
    generalize (s +:+ String squote t). intros whole. cbn [shell_loop].
    change (shell_space squote) with false. change (Ascii.eqb squote squote) with true. cbv iota.
    generalize "" at 1. induction t as [|c t IH]; intros cur; [done|].
    cbn [has_char] in Ht. apply orb_false_iff in Ht as [E Ht]. cbn [shell_loop]. rewrite E. by apply IH.
  - unfold shellSplit at 1. rewrite (loop_command_line _ l) by done.
    generalize (s +:+ String dquote (escape_dquoted t)). intros whole. cbn [shell_loop].
    change (shell_space dquote) with false. change (Ascii.eqb dquote squote) with false.
    change (Ascii.eqb dquote dquote) with true. cbv iota.
    generalize "" at 1. induction t as [|c t IH]; intros cur; [done|].
    cbn [escape_dquoted]. destruct (Ascii.eqb c dquote || Ascii.eqb c backslash) eqn:E.
    + cbn [shell_loop]. change (Ascii.eqb backslash dquote) with false.
      change (Ascii.eqb backslash backslash) with true. rewrite E. cbn [andb]. apply IH.
    + apply orb_false_iff in E as [E1 E2]. cbn [shell_loop]. rewrite E1, E2. cbn [andb].
      destruct (escape_dquoted t); apply IH.
Qed.

Lemma command_line_example : command_line ["a b"; "it's"] ("'a b' " +:+ dquoted "it's" +:+ " ").
Proof.
  apply (cl_token "a b" "'a b'" " " ["it's"] (dquoted "it's" +:+ " ")); [by apply (writes_single "a b")|done|].
  apply (cl_token "it's" (dquoted "it's") " " [] ""); [constructor|done|constructor].
Qed.

Lemma shellSplit_roundtrip_witness :
  shellSplit ("'a b' " +:+ dquoted "it's" +:+ " ") = Ok ["a b"; "it's"] ∧
  ∀ t w, writes t w → shellSplit (("'a b' " +:+ dquoted "it's" +:+ " ") +:+ w) = Ok (["a b"; "it's"] ++ [t]).
Proof. apply (shellSplit_roundtrip _ _ command_line_example). Defined.

Lemma shellSplit_fields_witness :
  shellSplit "--model  claude-opus --x\y" = Ok ["--model"; "claude-opus"; "--x\y"].
Proof. rewrite (shellSplit_fields "--model  claude-opus --x\y"); [reflexivity|split; reflexivity]. Defined.

Lemma shellSplit_unclosed_witness :
  shellSplit ("" +:+ String dquote (escape_dquoted "ab")) =
  Err (UnclosedDoubleQuote ("" +:+ String dquote (escape_dquoted "ab"))).
Proof. apply (shellSplit_unclosed [] "" "ab"). constructor. Defined.
