(* ===== verification/Json.v ===== *)
(** * Decoding JSON into Go values

    The program decodes every message with [encoding/json].  The text level of
    the package (its scanner and its printer) is the class [JsonText]; the
    decoding of a parsed document into a Go variable, with its rules on absent
    members, [null], mismatched types and the case of member names, is modelled
    here as decoder combinators, one per Go type the program decodes into. *)

From stdpp Require Import sorting.
From Stdlib Require Import SpecFloat.
From S2P Require Import Prelude GoStrings.

(** A number literal: its value when it is an integer literal (no fraction, no
    exponent), and its value as a double. *)
Record number := { num_int : option Z; num_float : spec_float }.

Inductive json :=
| JNull
| JBool (b : bool)
| JNum (n : number)
| JStr (s : string)
| JArr (l : list json)
| JObj (l : list (string * json)).

(** [json_parse] is [None] on a syntax error. *)
Class JsonText := {
  json_parse : string → option json;
  json_print : json → string;
}.

Definition JInt (z : Z) : json :=
  JNum {| num_int := Some z; num_float := S754_nan |}.

(** ** Doubles: float64 addition, rounding to nearest even. *)
Definition float64 := spec_float.
Definition f64_zero : float64 := S754_zero false.
Definition f64_add (x y : float64) : float64 := SFadd 53 1024 x y.

(** ** Decoders

    A decoder updates the current value of a variable and says whether the
    decoding raised no error; a type mismatch leaves the variable as it was and
    decoding goes on with the rest of the document. *)

Definition decoder (A : Type) : Type := json → A → A * bool.

Definition dec_string : decoder string := λ j cur,
  match j with
  | JNull => (cur, true)
  | JStr s => (s, true)
  | _ => (cur, false)
  end.

Definition dec_bool : decoder bool := λ j cur,
  match j with
  | JNull => (cur, true)
  | JBool b => (b, true)
  | _ => (cur, false)
  end.

(** An integer literal outside the 64 bit range is a type mismatch. *)
Definition dec_int : decoder Z := λ j cur,
  match j with
  | JNull => (cur, true)
  | JNum {| num_int := Some z |} => if int64_rangeb z then (z, true) else (cur, false)
  | _ => (cur, false)
  end.

Definition dec_float : decoder float64 := λ j cur,
  match j with
  | JNull => (cur, true)
  | JNum n => (num_float n, true)
  | _ => (cur, false)
  end.

(** [json.RawMessage]: keeps the member as it is, [null] included; [None] is
    the nil slice of an absent member. *)
Definition dec_raw : decoder (option json) := λ j _, (Some j, true).

(** A slice: its elements are decoded into fresh zero values. *)
Definition dec_slice {A} (zero : A) (d : decoder A) : decoder (list A) := λ j cur,
  match j with
  | JNull => ([], true)
  | JArr l =>
    let rs := (λ e, d e zero) <$> l in
    (rs.*1, forallb snd rs)
  | _ => (cur, false)
  end.

(** A pointer field: [null] sets it to nil, anything else is decoded into the
    value pointed to, a fresh zero value if it was nil. *)
Definition dec_pointer {A} (zero : A) (d : decoder A) : decoder (option A) := λ j cur,
  match j with
  | JNull => (None, true)
  | _ => let '(a, ok) := d j (default zero cur) in (Some a, ok)
  end.

(** *** Member names: an exact match is preferred, otherwise names are compared
    up to case folding; two non-ASCII letters fold to ASCII ones (the long s
    and the Kelvin sign). *)
Definition fold_rune (r : N) : N :=
  if is_lower r then (r - 32)%N
  else if (r =? 383)%N then 83%N
  else if (r =? 8490)%N then 75%N
  else r.

Definition fold_name (s : string) : list N := fold_rune <$> runes (bytes_of s).

Definition field (S : Type) : Type := string * decoder S.

Definition find_field {S} (fs : list (field S)) (key : string) : option (decoder S) :=
  match find_first (λ f, String.eqb f.1 key) fs with
  | Some f => Some f.2
  | None =>
    match find_first (λ f, bool_decide (fold_name f.1 = fold_name key)) fs with
    | Some f => Some f.2
    | None => None
    end
  end.

Fixpoint dec_members {S} (fs : list (field S)) (ms : list (string * json)) (cur : S) : S * bool :=
  match ms with
  | [] => (cur, true)
  | (k, v) :: ms =>
    let '(cur1, ok1) :=
      match find_field fs k with
      | Some d => d v cur
      | None => (cur, true)
      end in
    let '(cur2, ok2) := dec_members fs ms cur1 in
    (cur2, ok1 && ok2)
  end.

Definition dec_struct {S} (fs : list (field S)) : decoder S := λ j cur,
  match j with
  | JNull => (cur, true)
  | JObj ms => dec_members fs ms cur
  | _ => (cur, false)
  end.

(** A struct field, from a decoder of its type and its update function. *)
Definition fld {S A} (name : string) (d : decoder A) (get : S → A) (set : A → S → S) : field S :=
  (name, λ j s, let '(a, ok) := d j (get s) in (set a s, ok)).

(** [json.Unmarshal(data, &v)] with [v] fresh: [None] is a non-nil error. *)
Definition decode {A} (d : decoder A) (zero : A) (j : json) : option A :=
  let '(a, ok) := d j zero in if ok then Some a else None.

Definition unmarshal `{JsonText} {A} (d : decoder A) (zero : A) (data : string) : option A :=
  match json_parse data with
  | Some j => decode d zero j
  | None => None
  end.

(** A document that survives printing and parsing. *)
Definition parses `{JsonText} (j : json) : Prop := json_parse (json_print j) = Some j.

(** [json.NewDecoder(r.Body).Decode]: the first document of the body; what
    follows it is not read. *)
Class JsonStream := { json_first : string → option json }.

Definition decode_body `{JsonStream} {A} (d : decoder A) (zero : A) (body : string) : option A :=
  match json_first body with
  | Some j => decode d zero j
  | None => None
  end.

(** [json.Unmarshal(raw, &v)] of a [RawMessage]: nil is a syntax error. *)
Definition unmarshal_raw {A} (d : decoder A) (zero : A) (raw : option json) : option A :=
  match raw with
  | Some j => decode d zero j
  | None => None
  end.

(** [_ = json.Unmarshal(...)]: the error is ignored, what was decoded stays. *)
Definition unmarshal_raw_lax {A} (d : decoder A) (zero : A) (raw : option json) : A :=
  match raw with
  | Some j => (d j zero).1
  | None => zero
  end.

(** Document builders. *)
Definition jobj (l : list (string * json)) : json := JObj l.

(** ** Facts *)

Lemma find_field_exact {S} (fs : list (field S)) k d :
  find_first (λ f, String.eqb f.1 k) fs = Some (k, d) → find_field fs k = Some d.
Proof. intros H. unfold find_field. by rewrite H. Qed.

Lemma dec_members_app {S} (fs : list (field S)) ms1 ms2 cur :
  dec_members fs (ms1 ++ ms2) cur =
  let '(cur1, ok1) := dec_members fs ms1 cur in
  let '(cur2, ok2) := dec_members fs ms2 cur1 in
  (cur2, ok1 && ok2).
Proof.
  revert cur. induction ms1 as [|[k v] ms1 IH]; intros cur; cbn.
  - by destruct (dec_members fs ms2 cur).
  - destruct (match find_field fs k with Some d => d v cur | None => (cur, true) end) as [c1 o1].
    rewrite IH. destruct (dec_members fs ms1 c1) as [c2 o2].
    destruct (dec_members fs ms2 c2) as [c3 o3]. by rewrite andb_assoc.
Qed.

(** Members the struct does not name are ignored. *)
Lemma dec_members_unknown {S} (fs : list (field S)) k v ms cur :
  find_field fs k = None → dec_members fs ((k, v) :: ms) cur = dec_members fs ms cur.
Proof. intros H. cbn. rewrite H. by destruct (dec_members fs ms cur). Qed.

Lemma names_decode l cur : dec_slice ""%string dec_string (JArr (JStr <$> l)) cur = (l, true).
Proof.
  cbn. f_equal.
  - induction l as [|x l IH]; [done|]. cbn. by f_equal.
  - by induction l.
Qed.

Lemma dec_int_range j cur : int64_range cur → int64_range (dec_int j cur).1.
Proof.
  intros Hc. unfold dec_int. repeat case_match; simpl; try done. by apply int64_rangeb_spec.
Qed.

(** ** Maps

    A map is written with its names in byte order. *)
Definition name_le (a b : string * json) : Prop := String.leb a.1 b.1 = true.

#[export] Instance name_le_dec a b : Decision (name_le a b).
Proof. unfold name_le. apply _. Defined.

Definition marshal_map (m : gmap string json) : json := JObj (merge_sort name_le (map_to_list m)).

(** An object decoded into a map: of members with the same name the last counts. *)
Definition object_map (l : list (string * json)) : gmap string json := list_to_map (reverse l).

(** *** Values decoded into [interface{}] and written again: objects lose the order
    and the repetitions of their members, numbers become doubles; a number outside
    their range is an error. *)
Definition float_int (f : float64) : option Z :=
  match f with
  | S754_zero _ => Some 0%Z
  | S754_finite s m e =>
    let v := if (0 <=? e)%Z then Some (Z.pos m * 2 ^ e)%Z
             else if (Z.pos m mod 2 ^ (- e) =? 0)%Z then Some (Z.pos m / 2 ^ (- e))%Z else None in
    match v with
    | Some z => if (z <? 10 ^ 21)%Z then Some (if s then (- z)%Z else z) else None
    | None => None
    end
  | _ => None
  end.

Fixpoint json_any (j : json) : json :=
  match j with
  | JNum n => JNum {| num_int := float_int (num_float n); num_float := num_float n |}
  | JArr l => JArr (map json_any l)
  | JObj l => marshal_map (object_map (map (λ kv, (kv.1, json_any kv.2)) l))
  | _ => j
  end.

Fixpoint any_ok (j : json) : bool :=
  match j with
  | JNum n => match num_float n with S754_infinity _ => false | _ => true end
  | JArr l => forallb any_ok l
  | JObj l => forallb (λ kv, any_ok kv.2) l
  | _ => true
  end.

(** A map of such values; [None] is the nil map that [null] leaves. *)
Definition dec_any_map : decoder (option (gmap string json)) := λ j cur,
  match j with
  | JNull => (None, true)
  | JObj l => (Some (object_map ((λ kv, (kv.1, json_any kv.2)) <$> l)), forallb (λ kv, any_ok kv.2) l)
  | _ => (cur, false)
  end.

(** ** A text level for examples: the documents of a finite table are parsed,
    every other text is a syntax error; printing quotes without escaping. *)
Fixpoint print_plain (j : json) : string :=
  match j with
  | JNull => "null"
  | JBool b => if b then "true" else "false"
  | JNum n => match num_int n with Some z => pretty.pretty z | None => "0.0" end
  | JStr s => "'" +:+ s +:+ "'"
  | JArr l => "[" +:+ String.concat "," (print_plain <$> l) +:+ "]"
  | JObj l => "{" +:+ String.concat "," ((λ kv, "'" +:+ kv.1 +:+ "':" +:+ print_plain kv.2) <$> l) +:+ "}"
  end.

Definition table_json (tbl : list (string * json)) : JsonText := {|
  json_parse s := snd <$> find_first (λ kv, String.eqb kv.1 s) tbl;
  json_print := print_plain;
|}.
