(* ===== verification/SessionState.v ===== *)
(** * Session state and stream events (state.go, events.go of the session agent)

    The value stored in the sessions KV bucket, the operations of state.go on
    it, the constants of events.go and the decoders of the stream-json events
    the agent inspects. *)

From S2P Require Import Prelude GoStrings Json Subjects.
Open Scope Z_scope.

(** ** Constants of events.go *)

Definition EventTypeSystem : string := "system".
Definition EventTypeAssistant : string := "assistant".
Definition EventTypeUser : string := "user".
Definition EventTypeStreamEvent : string := "stream_event".
Definition EventTypeControlRequest : string := "control_request".
Definition EventTypeToolProgress : string := "tool_progress".
Definition EventTypeResult : string := "result".
Definition EventTypeCompactBoundary : string := "compact_boundary".

Definition SubtypeInit : string := "init".
Definition SubtypeSessionStateChanged : string := "session_state_changed".

Definition StateIdle : string := "idle".
Definition StateRunning : string := "running".
Definition StateRequiresAction : string := "requires_action".
Definition StateUpdating : string := "updating".
Definition StateRestarting : string := "restarting".
Definition StateFailed : string := "failed".

Definition StatusPending : string := "pending".
Definition StatusPaused : string := "paused".
Definition StatusCompleted : string := "completed".
Definition StatusCancelled : string := "cancelled".
Definition StatusNeedsSpecFix : string := "needs_spec_fix".

(** Permission policies (state.go). *)
Definition PermissionPolicyManaged : string := "managed".
Definition PermissionPolicyAuto : string := "auto".
Definition PermissionPolicyAllowlist : string := "allowlist".
Definition PermissionPolicyStrictAllowlist : string := "strict-allowlist".

(** ** Records of state.go; times are nanoseconds since Go's zero time, so 0 is
    the zero [time.Time]. *)

Record CLICapabilities := {
  HasThinking : bool; HasSubagents : bool; HasSkills : bool; HasPlanMode : bool;
  HasMissions : bool; HasEventStream : bool; HasSessionResume : bool;
  ThinkingLabel : string; ModelOptions : list string; PermissionModes : list string;
  ToolIcons : gmap string string;
}.

Definition zero_Capabilities : CLICapabilities := {|
  HasThinking := false; HasSubagents := false; HasSkills := false; HasPlanMode := false;
  HasMissions := false; HasEventStream := false; HasSessionResume := false;
  ThinkingLabel := ""; ModelOptions := []; PermissionModes := []; ToolIcons := ∅ |}.

Record UsageStats := {
  InputTokens : Z;
  OutputTokens : Z;
  CacheReadTokens : Z;
  CacheWriteTokens : Z;
  CostUSD : float64;
}.

Definition zero_Usage : UsageStats := {|
  InputTokens := 0; OutputTokens := 0; CacheReadTokens := 0; CacheWriteTokens := 0;
  CostUSD := f64_zero |}.

(** [PendingControls] is a Go map: [None] is the nil map. *)
Record SessionState := {
  st_ID : string;
  st_Slug : string;
  st_UserSlug : string;
  st_HostSlug : string;
  st_ProjectSlug : string;
  st_ProjectID : string;
  st_Branch : string;
  st_Worktree : string;
  st_CWD : string;
  st_Name : string;
  st_State : string;
  st_StateSince : Z;
  st_CreatedAt : Z;
  st_Backend : string;
  st_Model : string;
  st_Capabilities : CLICapabilities;
  st_Tools : list string;
  st_Skills : list string;
  st_Agents : list string;
  st_PendingControls : option (gmap string (option json));
  st_Usage : UsageStats;
  st_ReplayFromSeq : N;
  st_JoinWorktree : bool;
  st_ExtraFlags : string;
  st_SoftThreshold : Z;
  st_HardHeadroomTokens : Z;
  st_AutoContinue : bool;
  st_BranchSlug : string;
  st_PausedVia : string;
  st_ClaudeSessionID : string;
  st_FailedTool : string;
  st_ResumeAt : option Z;
}.

(** Field updates. *)
Definition set_State (v : string) (s : SessionState) : SessionState :=
  {|
    st_ID := st_ID s; st_Slug := st_Slug s; st_UserSlug := st_UserSlug s;
    st_HostSlug := st_HostSlug s; st_ProjectSlug := st_ProjectSlug s;
    st_ProjectID := st_ProjectID s; st_Branch := st_Branch s; st_Worktree := st_Worktree s;
    st_CWD := st_CWD s; st_Name := st_Name s; st_State := v; st_StateSince := st_StateSince s;
    st_CreatedAt := st_CreatedAt s; st_Backend := st_Backend s; st_Model := st_Model s;
    st_Capabilities := st_Capabilities s; st_Tools := st_Tools s; st_Skills := st_Skills s;
    st_Agents := st_Agents s; st_PendingControls := st_PendingControls s; st_Usage := st_Usage s;
    st_ReplayFromSeq := st_ReplayFromSeq s; st_JoinWorktree := st_JoinWorktree s;
    st_ExtraFlags := st_ExtraFlags s; st_SoftThreshold := st_SoftThreshold s;
    st_HardHeadroomTokens := st_HardHeadroomTokens s; st_AutoContinue := st_AutoContinue s;
    st_BranchSlug := st_BranchSlug s; st_PausedVia := st_PausedVia s;
    st_ClaudeSessionID := st_ClaudeSessionID s; st_FailedTool := st_FailedTool s;
    st_ResumeAt := st_ResumeAt s
  |}.
Definition set_StateSince (v : Z) (s : SessionState) : SessionState :=
  {|
    st_ID := st_ID s; st_Slug := st_Slug s; st_UserSlug := st_UserSlug s;
    st_HostSlug := st_HostSlug s; st_ProjectSlug := st_ProjectSlug s;
    st_ProjectID := st_ProjectID s; st_Branch := st_Branch s; st_Worktree := st_Worktree s;
    st_CWD := st_CWD s; st_Name := st_Name s; st_State := st_State s; st_StateSince := v;
    st_CreatedAt := st_CreatedAt s; st_Backend := st_Backend s; st_Model := st_Model s;
    st_Capabilities := st_Capabilities s; st_Tools := st_Tools s; st_Skills := st_Skills s;
    st_Agents := st_Agents s; st_PendingControls := st_PendingControls s; st_Usage := st_Usage s;
    st_ReplayFromSeq := st_ReplayFromSeq s; st_JoinWorktree := st_JoinWorktree s;
    st_ExtraFlags := st_ExtraFlags s; st_SoftThreshold := st_SoftThreshold s;
    st_HardHeadroomTokens := st_HardHeadroomTokens s; st_AutoContinue := st_AutoContinue s;
    st_BranchSlug := st_BranchSlug s; st_PausedVia := st_PausedVia s;
    st_ClaudeSessionID := st_ClaudeSessionID s; st_FailedTool := st_FailedTool s;
    st_ResumeAt := st_ResumeAt s
  |}.
Definition set_Model (v : string) (s : SessionState) : SessionState :=
  {|
    st_ID := st_ID s; st_Slug := st_Slug s; st_UserSlug := st_UserSlug s;
    st_HostSlug := st_HostSlug s; st_ProjectSlug := st_ProjectSlug s;
    st_ProjectID := st_ProjectID s; st_Branch := st_Branch s; st_Worktree := st_Worktree s;
    st_CWD := st_CWD s; st_Name := st_Name s; st_State := st_State s;
    st_StateSince := st_StateSince s; st_CreatedAt := st_CreatedAt s; st_Backend := st_Backend s;
    st_Model := v; st_Capabilities := st_Capabilities s; st_Tools := st_Tools s;
    st_Skills := st_Skills s; st_Agents := st_Agents s;
    st_PendingControls := st_PendingControls s; st_Usage := st_Usage s;
    st_ReplayFromSeq := st_ReplayFromSeq s; st_JoinWorktree := st_JoinWorktree s;
    st_ExtraFlags := st_ExtraFlags s; st_SoftThreshold := st_SoftThreshold s;
    st_HardHeadroomTokens := st_HardHeadroomTokens s; st_AutoContinue := st_AutoContinue s;
    st_BranchSlug := st_BranchSlug s; st_PausedVia := st_PausedVia s;
    st_ClaudeSessionID := st_ClaudeSessionID s; st_FailedTool := st_FailedTool s;
    st_ResumeAt := st_ResumeAt s
  |}.
Definition set_Capabilities (v : CLICapabilities) (s : SessionState) : SessionState :=
  {|
    st_ID := st_ID s; st_Slug := st_Slug s; st_UserSlug := st_UserSlug s;
    st_HostSlug := st_HostSlug s; st_ProjectSlug := st_ProjectSlug s;
    st_ProjectID := st_ProjectID s; st_Branch := st_Branch s; st_Worktree := st_Worktree s;
    st_CWD := st_CWD s; st_Name := st_Name s; st_State := st_State s;
    st_StateSince := st_StateSince s; st_CreatedAt := st_CreatedAt s; st_Backend := st_Backend s;
    st_Model := st_Model s; st_Capabilities := v; st_Tools := st_Tools s;
    st_Skills := st_Skills s; st_Agents := st_Agents s;
    st_PendingControls := st_PendingControls s; st_Usage := st_Usage s;
    st_ReplayFromSeq := st_ReplayFromSeq s; st_JoinWorktree := st_JoinWorktree s;
    st_ExtraFlags := st_ExtraFlags s; st_SoftThreshold := st_SoftThreshold s;
    st_HardHeadroomTokens := st_HardHeadroomTokens s; st_AutoContinue := st_AutoContinue s;
    st_BranchSlug := st_BranchSlug s; st_PausedVia := st_PausedVia s;
    st_ClaudeSessionID := st_ClaudeSessionID s; st_FailedTool := st_FailedTool s;
    st_ResumeAt := st_ResumeAt s
  |}.
Definition set_Tools (v : list string) (s : SessionState) : SessionState :=
  {|
    st_ID := st_ID s; st_Slug := st_Slug s; st_UserSlug := st_UserSlug s;
    st_HostSlug := st_HostSlug s; st_ProjectSlug := st_ProjectSlug s;
    st_ProjectID := st_ProjectID s; st_Branch := st_Branch s; st_Worktree := st_Worktree s;
    st_CWD := st_CWD s; st_Name := st_Name s; st_State := st_State s;
    st_StateSince := st_StateSince s; st_CreatedAt := st_CreatedAt s; st_Backend := st_Backend s;
    st_Model := st_Model s; st_Capabilities := st_Capabilities s; st_Tools := v;
    st_Skills := st_Skills s; st_Agents := st_Agents s;
    st_PendingControls := st_PendingControls s; st_Usage := st_Usage s;
    st_ReplayFromSeq := st_ReplayFromSeq s; st_JoinWorktree := st_JoinWorktree s;
    st_ExtraFlags := st_ExtraFlags s; st_SoftThreshold := st_SoftThreshold s;
    st_HardHeadroomTokens := st_HardHeadroomTokens s; st_AutoContinue := st_AutoContinue s;
    st_BranchSlug := st_BranchSlug s; st_PausedVia := st_PausedVia s;
    st_ClaudeSessionID := st_ClaudeSessionID s; st_FailedTool := st_FailedTool s;
    st_ResumeAt := st_ResumeAt s
  |}.
Definition set_Skills (v : list string) (s : SessionState) : SessionState :=
  {|
    st_ID := st_ID s; st_Slug := st_Slug s; st_UserSlug := st_UserSlug s;
    st_HostSlug := st_HostSlug s; st_ProjectSlug := st_ProjectSlug s;
    st_ProjectID := st_ProjectID s; st_Branch := st_Branch s; st_Worktree := st_Worktree s;
    st_CWD := st_CWD s; st_Name := st_Name s; st_State := st_State s;
    st_StateSince := st_StateSince s; st_CreatedAt := st_CreatedAt s; st_Backend := st_Backend s;
    st_Model := st_Model s; st_Capabilities := st_Capabilities s; st_Tools := st_Tools s;
    st_Skills := v; st_Agents := st_Agents s; st_PendingControls := st_PendingControls s;
    st_Usage := st_Usage s; st_ReplayFromSeq := st_ReplayFromSeq s;
    st_JoinWorktree := st_JoinWorktree s; st_ExtraFlags := st_ExtraFlags s;
    st_SoftThreshold := st_SoftThreshold s; st_HardHeadroomTokens := st_HardHeadroomTokens s;
    st_AutoContinue := st_AutoContinue s; st_BranchSlug := st_BranchSlug s;
    st_PausedVia := st_PausedVia s; st_ClaudeSessionID := st_ClaudeSessionID s;
    st_FailedTool := st_FailedTool s; st_ResumeAt := st_ResumeAt s
  |}.
Definition set_Agents (v : list string) (s : SessionState) : SessionState :=
  {|
    st_ID := st_ID s; st_Slug := st_Slug s; st_UserSlug := st_UserSlug s;
    st_HostSlug := st_HostSlug s; st_ProjectSlug := st_ProjectSlug s;
    st_ProjectID := st_ProjectID s; st_Branch := st_Branch s; st_Worktree := st_Worktree s;
    st_CWD := st_CWD s; st_Name := st_Name s; st_State := st_State s;
    st_StateSince := st_StateSince s; st_CreatedAt := st_CreatedAt s; st_Backend := st_Backend s;
    st_Model := st_Model s; st_Capabilities := st_Capabilities s; st_Tools := st_Tools s;
    st_Skills := st_Skills s; st_Agents := v; st_PendingControls := st_PendingControls s;
    st_Usage := st_Usage s; st_ReplayFromSeq := st_ReplayFromSeq s;
    st_JoinWorktree := st_JoinWorktree s; st_ExtraFlags := st_ExtraFlags s;
    st_SoftThreshold := st_SoftThreshold s; st_HardHeadroomTokens := st_HardHeadroomTokens s;
    st_AutoContinue := st_AutoContinue s; st_BranchSlug := st_BranchSlug s;
    st_PausedVia := st_PausedVia s; st_ClaudeSessionID := st_ClaudeSessionID s;
    st_FailedTool := st_FailedTool s; st_ResumeAt := st_ResumeAt s
  |}.
Definition set_PendingControls (v : option (gmap string (option json))) (s : SessionState) : SessionState :=
  {|
    st_ID := st_ID s; st_Slug := st_Slug s; st_UserSlug := st_UserSlug s;
    st_HostSlug := st_HostSlug s; st_ProjectSlug := st_ProjectSlug s;
    st_ProjectID := st_ProjectID s; st_Branch := st_Branch s; st_Worktree := st_Worktree s;
    st_CWD := st_CWD s; st_Name := st_Name s; st_State := st_State s;
    st_StateSince := st_StateSince s; st_CreatedAt := st_CreatedAt s; st_Backend := st_Backend s;
    st_Model := st_Model s; st_Capabilities := st_Capabilities s; st_Tools := st_Tools s;
    st_Skills := st_Skills s; st_Agents := st_Agents s; st_PendingControls := v;
    st_Usage := st_Usage s; st_ReplayFromSeq := st_ReplayFromSeq s;
    st_JoinWorktree := st_JoinWorktree s; st_ExtraFlags := st_ExtraFlags s;
    st_SoftThreshold := st_SoftThreshold s; st_HardHeadroomTokens := st_HardHeadroomTokens s;
    st_AutoContinue := st_AutoContinue s; st_BranchSlug := st_BranchSlug s;
    st_PausedVia := st_PausedVia s; st_ClaudeSessionID := st_ClaudeSessionID s;
    st_FailedTool := st_FailedTool s; st_ResumeAt := st_ResumeAt s
  |}.
Definition set_Usage (v : UsageStats) (s : SessionState) : SessionState :=
  {|
    st_ID := st_ID s; st_Slug := st_Slug s; st_UserSlug := st_UserSlug s;
    st_HostSlug := st_HostSlug s; st_ProjectSlug := st_ProjectSlug s;
    st_ProjectID := st_ProjectID s; st_Branch := st_Branch s; st_Worktree := st_Worktree s;
    st_CWD := st_CWD s; st_Name := st_Name s; st_State := st_State s;
    st_StateSince := st_StateSince s; st_CreatedAt := st_CreatedAt s; st_Backend := st_Backend s;
    st_Model := st_Model s; st_Capabilities := st_Capabilities s; st_Tools := st_Tools s;
    st_Skills := st_Skills s; st_Agents := st_Agents s;
    st_PendingControls := st_PendingControls s; st_Usage := v;
    st_ReplayFromSeq := st_ReplayFromSeq s; st_JoinWorktree := st_JoinWorktree s;
    st_ExtraFlags := st_ExtraFlags s; st_SoftThreshold := st_SoftThreshold s;
    st_HardHeadroomTokens := st_HardHeadroomTokens s; st_AutoContinue := st_AutoContinue s;
    st_BranchSlug := st_BranchSlug s; st_PausedVia := st_PausedVia s;
    st_ClaudeSessionID := st_ClaudeSessionID s; st_FailedTool := st_FailedTool s;
    st_ResumeAt := st_ResumeAt s
  |}.
Definition set_PausedVia (v : string) (s : SessionState) : SessionState :=
  {|
    st_ID := st_ID s; st_Slug := st_Slug s; st_UserSlug := st_UserSlug s;
    st_HostSlug := st_HostSlug s; st_ProjectSlug := st_ProjectSlug s;
    st_ProjectID := st_ProjectID s; st_Branch := st_Branch s; st_Worktree := st_Worktree s;
    st_CWD := st_CWD s; st_Name := st_Name s; st_State := st_State s;
    st_StateSince := st_StateSince s; st_CreatedAt := st_CreatedAt s; st_Backend := st_Backend s;
    st_Model := st_Model s; st_Capabilities := st_Capabilities s; st_Tools := st_Tools s;
    st_Skills := st_Skills s; st_Agents := st_Agents s;
    st_PendingControls := st_PendingControls s; st_Usage := st_Usage s;
    st_ReplayFromSeq := st_ReplayFromSeq s; st_JoinWorktree := st_JoinWorktree s;
    st_ExtraFlags := st_ExtraFlags s; st_SoftThreshold := st_SoftThreshold s;
    st_HardHeadroomTokens := st_HardHeadroomTokens s; st_AutoContinue := st_AutoContinue s;
    st_BranchSlug := st_BranchSlug s; st_PausedVia := v;
    st_ClaudeSessionID := st_ClaudeSessionID s; st_FailedTool := st_FailedTool s;
    st_ResumeAt := st_ResumeAt s
  |}.
Definition set_FailedTool (v : string) (s : SessionState) : SessionState :=
  {|
    st_ID := st_ID s; st_Slug := st_Slug s; st_UserSlug := st_UserSlug s;
    st_HostSlug := st_HostSlug s; st_ProjectSlug := st_ProjectSlug s;
    st_ProjectID := st_ProjectID s; st_Branch := st_Branch s; st_Worktree := st_Worktree s;
    st_CWD := st_CWD s; st_Name := st_Name s; st_State := st_State s;
    st_StateSince := st_StateSince s; st_CreatedAt := st_CreatedAt s; st_Backend := st_Backend s;
    st_Model := st_Model s; st_Capabilities := st_Capabilities s; st_Tools := st_Tools s;
    st_Skills := st_Skills s; st_Agents := st_Agents s;
    st_PendingControls := st_PendingControls s; st_Usage := st_Usage s;
    st_ReplayFromSeq := st_ReplayFromSeq s; st_JoinWorktree := st_JoinWorktree s;
    st_ExtraFlags := st_ExtraFlags s; st_SoftThreshold := st_SoftThreshold s;
    st_HardHeadroomTokens := st_HardHeadroomTokens s; st_AutoContinue := st_AutoContinue s;
    st_BranchSlug := st_BranchSlug s; st_PausedVia := st_PausedVia s;
    st_ClaudeSessionID := st_ClaudeSessionID s; st_FailedTool := v; st_ResumeAt := st_ResumeAt s
  |}.
Definition set_ResumeAt (v : option Z) (s : SessionState) : SessionState :=
  {|
    st_ID := st_ID s; st_Slug := st_Slug s; st_UserSlug := st_UserSlug s;
    st_HostSlug := st_HostSlug s; st_ProjectSlug := st_ProjectSlug s;
    st_ProjectID := st_ProjectID s; st_Branch := st_Branch s; st_Worktree := st_Worktree s;
    st_CWD := st_CWD s; st_Name := st_Name s; st_State := st_State s;
    st_StateSince := st_StateSince s; st_CreatedAt := st_CreatedAt s; st_Backend := st_Backend s;
    st_Model := st_Model s; st_Capabilities := st_Capabilities s; st_Tools := st_Tools s;
    st_Skills := st_Skills s; st_Agents := st_Agents s;
    st_PendingControls := st_PendingControls s; st_Usage := st_Usage s;
    st_ReplayFromSeq := st_ReplayFromSeq s; st_JoinWorktree := st_JoinWorktree s;
    st_ExtraFlags := st_ExtraFlags s; st_SoftThreshold := st_SoftThreshold s;
    st_HardHeadroomTokens := st_HardHeadroomTokens s; st_AutoContinue := st_AutoContinue s;
    st_BranchSlug := st_BranchSlug s; st_PausedVia := st_PausedVia s;
    st_ClaudeSessionID := st_ClaudeSessionID s; st_FailedTool := st_FailedTool s; st_ResumeAt := v
  |}.
Definition set_ReplayFromSeq (v : N) (s : SessionState) : SessionState :=
  {|
    st_ID := st_ID s; st_Slug := st_Slug s; st_UserSlug := st_UserSlug s;
    st_HostSlug := st_HostSlug s; st_ProjectSlug := st_ProjectSlug s;
    st_ProjectID := st_ProjectID s; st_Branch := st_Branch s; st_Worktree := st_Worktree s;
    st_CWD := st_CWD s; st_Name := st_Name s; st_State := st_State s;
    st_StateSince := st_StateSince s; st_CreatedAt := st_CreatedAt s; st_Backend := st_Backend s;
    st_Model := st_Model s; st_Capabilities := st_Capabilities s; st_Tools := st_Tools s;
    st_Skills := st_Skills s; st_Agents := st_Agents s;
    st_PendingControls := st_PendingControls s; st_Usage := st_Usage s; st_ReplayFromSeq := v;
    st_JoinWorktree := st_JoinWorktree s; st_ExtraFlags := st_ExtraFlags s;
    st_SoftThreshold := st_SoftThreshold s; st_HardHeadroomTokens := st_HardHeadroomTokens s;
    st_AutoContinue := st_AutoContinue s; st_BranchSlug := st_BranchSlug s;
    st_PausedVia := st_PausedVia s; st_ClaudeSessionID := st_ClaudeSessionID s;
    st_FailedTool := st_FailedTool s; st_ResumeAt := st_ResumeAt s
  |}.

(** The zero value. *)
Definition zero_SessionState : SessionState :=
  {|
    st_ID := ""; st_Slug := ""; st_UserSlug := ""; st_HostSlug := ""; st_ProjectSlug := "";
    st_ProjectID := ""; st_Branch := ""; st_Worktree := ""; st_CWD := ""; st_Name := "";
    st_State := ""; st_StateSince := 0; st_CreatedAt := 0; st_Backend := ""; st_Model := "";
    st_Capabilities := zero_Capabilities; st_Tools := []; st_Skills := []; st_Agents := [];
    st_PendingControls := None; st_Usage := zero_Usage; st_ReplayFromSeq := 0%N;
    st_JoinWorktree := false; st_ExtraFlags := ""; st_SoftThreshold := 0;
    st_HardHeadroomTokens := 0; st_AutoContinue := false; st_BranchSlug := ""; st_PausedVia := "";
    st_ClaudeSessionID := ""; st_FailedTool := ""; st_ResumeAt := None
  |}.

(** ** Operations of state.go *)

Definition sessionKVKey (hostSlug projectSlug sessionSlug : string) : string :=
  SessionsKVKey hostSlug projectSlug sessionSlug.

Definition addPendingControl (st : SessionState) (requestID : string) (payload : option json) : SessionState :=
  set_PendingControls (Some (<[requestID := payload]> (default ∅ (st_PendingControls st)))) st.

(** [delete] on a nil map is a no-op. *)
Definition removePendingControl (st : SessionState) (requestID : string) : SessionState :=
  set_PendingControls (delete requestID <$> st_PendingControls st) st.

Definition clearPendingControlsForResume (st : SessionState) : SessionState :=
  set_State StateRestarting (set_PendingControls (Some ∅) st).

(** ** Stream events (events.go) *)

Record eventHeader := { eh_Type : string; eh_Subtype : string }.

Definition eventHeader_fields : list (field eventHeader) :=
  [ fld "type" dec_string eh_Type (λ v h, {| eh_Type := v; eh_Subtype := eh_Subtype h |});
    fld "subtype" dec_string eh_Subtype (λ v h, {| eh_Type := eh_Type h; eh_Subtype := v |}) ].

Definition parseEventType `{JsonText} (line : string) : string * string :=
  match unmarshal (dec_struct eventHeader_fields) {| eh_Type := ""; eh_Subtype := "" |} line with
  | Some h => (eh_Type h, eh_Subtype h)
  | None => ("", "")
  end.

Record initEvent := {
  ie_Skills : list string; ie_Tools : list string; ie_Agents : list string; ie_Model : string;
}.

(** The members of the init event that are decoded but never read
    ([session_id], [mcp_servers], [permissionMode], [type], [subtype]) still
    make the decoding fail on a mismatched type. *)
Definition dec_ignored {S A} (name : string) (zero : A) (d : decoder A) : field S :=
  (name, λ j s, (s, (d j zero).2)).

Definition dec_any : decoder json := λ j _, (j, true).

Definition initEvent_fields : list (field initEvent) :=
  [ dec_ignored "type" "" dec_string; dec_ignored "subtype" "" dec_string;
    dec_ignored "session_id" "" dec_string;
    fld "skills" (dec_slice "" dec_string) ie_Skills (λ v e, {| ie_Skills := v; ie_Tools := ie_Tools e; ie_Agents := ie_Agents e; ie_Model := ie_Model e |});
    fld "tools" (dec_slice "" dec_string) ie_Tools (λ v e, {| ie_Skills := ie_Skills e; ie_Tools := v; ie_Agents := ie_Agents e; ie_Model := ie_Model e |});
    fld "agents" (dec_slice "" dec_string) ie_Agents (λ v e, {| ie_Skills := ie_Skills e; ie_Tools := ie_Tools e; ie_Agents := v; ie_Model := ie_Model e |});
    dec_ignored "mcp_servers" [] (dec_slice JNull dec_any);
    fld "model" dec_string ie_Model (λ v e, {| ie_Skills := ie_Skills e; ie_Tools := ie_Tools e; ie_Agents := ie_Agents e; ie_Model := v |});
    dec_ignored "permissionMode" "" dec_string ].

Definition zero_initEvent : initEvent :=
  {| ie_Skills := []; ie_Tools := []; ie_Agents := []; ie_Model := "" |}.

(** [stateChangedEvent]: the decoded value is its [State]. *)
Definition stateChangedEvent_fields : list (field string) :=
  [ dec_ignored "type" "" dec_string; dec_ignored "subtype" "" dec_string;
    dec_ignored "session_id" "" dec_string;
    ("state", dec_string) ].

Record controlRequestEvent := { cr_RequestID : string; cr_Request : option json }.

Definition controlRequestEvent_fields : list (field controlRequestEvent) :=
  [ dec_ignored "type" "" dec_string; dec_ignored "session_id" "" dec_string;
    fld "request_id" dec_string cr_RequestID (λ v e, {| cr_RequestID := v; cr_Request := cr_Request e |});
    fld "request" dec_raw cr_Request (λ v e, {| cr_RequestID := cr_RequestID e; cr_Request := v |}) ].

Definition zero_controlRequestEvent : controlRequestEvent := {| cr_RequestID := ""; cr_Request := None |}.

Record resultUsage := {
  ru_InputTokens : Z; ru_OutputTokens : Z;
  ru_CacheCreationInputTokens : Z; ru_CacheReadInputTokens : Z;
}.

Definition zero_resultUsage : resultUsage :=
  {| ru_InputTokens := 0; ru_OutputTokens := 0; ru_CacheCreationInputTokens := 0; ru_CacheReadInputTokens := 0 |}.

Definition resultUsage_fields : list (field resultUsage) :=
  [ fld "input_tokens" dec_int ru_InputTokens (λ v u, {| ru_InputTokens := v; ru_OutputTokens := ru_OutputTokens u; ru_CacheCreationInputTokens := ru_CacheCreationInputTokens u; ru_CacheReadInputTokens := ru_CacheReadInputTokens u |});
    fld "output_tokens" dec_int ru_OutputTokens (λ v u, {| ru_InputTokens := ru_InputTokens u; ru_OutputTokens := v; ru_CacheCreationInputTokens := ru_CacheCreationInputTokens u; ru_CacheReadInputTokens := ru_CacheReadInputTokens u |});
    fld "cache_creation_input_tokens" dec_int ru_CacheCreationInputTokens (λ v u, {| ru_InputTokens := ru_InputTokens u; ru_OutputTokens := ru_OutputTokens u; ru_CacheCreationInputTokens := v; ru_CacheReadInputTokens := ru_CacheReadInputTokens u |});
    fld "cache_read_input_tokens" dec_int ru_CacheReadInputTokens (λ v u, {| ru_InputTokens := ru_InputTokens u; ru_OutputTokens := ru_OutputTokens u; ru_CacheCreationInputTokens := ru_CacheCreationInputTokens u; ru_CacheReadInputTokens := v |});
    dec_ignored "server_tool_use_input_tokens" 0 dec_int;
    dec_ignored "server_tool_use_output_tokens" 0 dec_int ].

Record resultEvent := { re_TotalCostUSD : float64; re_Usage : resultUsage }.

Definition resultEvent_fields : list (field resultEvent) :=
  [ dec_ignored "type" "" dec_string; dec_ignored "subtype" "" dec_string;
    dec_ignored "session_id" "" dec_string;
    fld "total_cost_usd" dec_float re_TotalCostUSD (λ v e, {| re_TotalCostUSD := v; re_Usage := re_Usage e |});
    fld "usage" (dec_struct resultUsage_fields) re_Usage (λ v e, {| re_TotalCostUSD := re_TotalCostUSD e; re_Usage := v |});
    dec_ignored "is_error" false dec_bool; dec_ignored "duration_ms" 0 dec_int;
    dec_ignored "num_turns" 0 dec_int ].

Definition zero_resultEvent : resultEvent :=
  {| re_TotalCostUSD := f64_zero; re_Usage := zero_resultUsage |}.

(** state.go: [accumulateUsage]. *)
Definition accumulateUsage (st : SessionState) (usage : resultUsage) (costUSD : float64) : SessionState :=
  let u := st_Usage st in
  set_Usage {|
    InputTokens := i64_add (InputTokens u) (ru_InputTokens usage);
    OutputTokens := i64_add (OutputTokens u) (ru_OutputTokens usage);
    CacheReadTokens := i64_add (CacheReadTokens u) (ru_CacheReadInputTokens usage);
    CacheWriteTokens := i64_add (CacheWriteTokens u) (ru_CacheCreationInputTokens usage);
    CostUSD := f64_add (CostUSD u) costUSD |} st.

(** worktree.go: [worktreeExists]. *)
Definition worktreeExists (sessions : gmap string SessionState) (projectID slug : string) : bool :=
  existsb (λ kv, String.eqb (st_ProjectID kv.2) projectID && String.eqb (st_Worktree kv.2) slug)
    (map_to_list sessions).
