(* ===== verification/Session.v ===== *)
(** * A session of the agent (mclaude-session-agent/session.go)

    The part of [Session] its event handlers read and write, and the handlers
    the stdout router calls for every event: the background agent counter, the
    two-phase tracking of background shells, the side effects on state and KV
    with the permission policies, event truncation and the stdin queue.  What a
    handler does outside the session (KV writes, callbacks) is recorded in
    order in [effects]. *)

From stdpp Require Import sorting.
From S2P Require Import Prelude GoStrings Json Subjects SessionState.
Open Scope Z_scope.

(** ** Paths *)

(** [filepath.Clean] on Unix: the components in order, ["."] dropped, [".."]
    cancelling the component before it. *)
Fixpoint clean_components (rooted : bool) (stack : list string) (comps : list string) : list string :=
  match comps with
  | [] => reverse stack
  | c :: comps =>
    if String.eqb c "" || String.eqb c "." then clean_components rooted stack comps
    else if String.eqb c ".." then
      match stack with
      | [] => clean_components rooted (if rooted then [] else [".."]) comps
      | top :: rest =>
        if String.eqb top ".." then clean_components rooted (".." :: stack) comps
        else clean_components rooted rest comps
      end
    else clean_components rooted (c :: stack) comps
  end.

Definition filepath_Clean (p : string) : string :=
  let rooted := HasPrefix p "/" in
  let r := Join "/" (clean_components rooted [] (Split "/" p)) in
  if rooted then "/" +:+ r else if String.eqb r "" then "." else r.

(** [filepath.Join]: empty elements are ignored. *)
Definition filepath_Join (elems : list string) : string :=
  match List.filter (λ e, negb (String.eqb e "")) elems with
  | [] => ""
  | es => filepath_Clean (Join "/" es)
  end.

Definition is_alnum (b : N) : bool := is_lower b || is_upper b || is_digit b.

Definition sanitizePath (p : string) : string :=
  string_of ((λ c, if is_alnum c then c else 45%N) <$> bytes_of p).

(** [uid] is [os.Getuid()]. *)
Definition shellOutputPath (uid : N) (tmpDir sanitizedCwd sessionId taskId : string) : string :=
  filepath_Join [tmpDir; "claude-" +:+ pretty.pretty uid; sanitizedCwd; sessionId; "tasks"; taskId +:+ ".output"].

(** ** Data *)

Record pendingShell := { ps_ToolUseId : string; ps_Command : string; ps_StartedAt : Z }.

Record inFlightShell := {
  is_ToolUseId : string; is_TaskId : string; is_Command : string;
  is_OutputFilePath : string; is_StartedAt : Z;
}.

Inductive effect :=
| KVWrite (st : SessionState)
| StrictDeny (toolName : string).

(** [stdinCh] lists the lines sent on the channel and not yet written to the
    process; its capacity is 64.  [driver] holds the capabilities of the
    session's driver, if one is set; [hasStrictDeny] says whether the
    [onStrictDeny] callback is installed. *)
Record Session := {
  state : SessionState;
  stdinCh : list string;
  driver : option CLICapabilities;
  permPolicy : string;
  allowedTools : gmap string bool;
  stopping : bool;
  shutdownPending : bool;
  inFlightBackgroundAgents : Z;
  pendingShells : gmap string pendingShell;
  inFlightShells : gmap string inFlightShell;
  initClosed : bool;
  hasStrictDeny : bool;
  effects : list effect;
}.

Definition with_state (v : SessionState) (s : Session) : Session :=
  {|
    state := v; stdinCh := stdinCh s; driver := driver s; permPolicy := permPolicy s;
    allowedTools := allowedTools s; stopping := stopping s; shutdownPending := shutdownPending s;
    inFlightBackgroundAgents := inFlightBackgroundAgents s; pendingShells := pendingShells s;
    inFlightShells := inFlightShells s; initClosed := initClosed s;
    hasStrictDeny := hasStrictDeny s; effects := effects s
  |}.
Definition with_stdinCh (v : list string) (s : Session) : Session :=
  {|
    state := state s; stdinCh := v; driver := driver s; permPolicy := permPolicy s;
    allowedTools := allowedTools s; stopping := stopping s; shutdownPending := shutdownPending s;
    inFlightBackgroundAgents := inFlightBackgroundAgents s; pendingShells := pendingShells s;
    inFlightShells := inFlightShells s; initClosed := initClosed s;
    hasStrictDeny := hasStrictDeny s; effects := effects s
  |}.
Definition with_stopping (v : bool) (s : Session) : Session :=
  {|
    state := state s; stdinCh := stdinCh s; driver := driver s; permPolicy := permPolicy s;
    allowedTools := allowedTools s; stopping := v; shutdownPending := shutdownPending s;
    inFlightBackgroundAgents := inFlightBackgroundAgents s; pendingShells := pendingShells s;
    inFlightShells := inFlightShells s; initClosed := initClosed s;
    hasStrictDeny := hasStrictDeny s; effects := effects s
  |}.
Definition with_shutdownPending (v : bool) (s : Session) : Session :=
  {|
    state := state s; stdinCh := stdinCh s; driver := driver s; permPolicy := permPolicy s;
    allowedTools := allowedTools s; stopping := stopping s; shutdownPending := v;
    inFlightBackgroundAgents := inFlightBackgroundAgents s; pendingShells := pendingShells s;
    inFlightShells := inFlightShells s; initClosed := initClosed s;
    hasStrictDeny := hasStrictDeny s; effects := effects s
  |}.
Definition with_inFlightBackgroundAgents (v : Z) (s : Session) : Session :=
  {|
    state := state s; stdinCh := stdinCh s; driver := driver s; permPolicy := permPolicy s;
    allowedTools := allowedTools s; stopping := stopping s; shutdownPending := shutdownPending s;
    inFlightBackgroundAgents := v; pendingShells := pendingShells s;
    inFlightShells := inFlightShells s; initClosed := initClosed s;
    hasStrictDeny := hasStrictDeny s; effects := effects s
  |}.
Definition with_pendingShells (v : gmap string pendingShell) (s : Session) : Session :=
  {|
    state := state s; stdinCh := stdinCh s; driver := driver s; permPolicy := permPolicy s;
    allowedTools := allowedTools s; stopping := stopping s; shutdownPending := shutdownPending s;
    inFlightBackgroundAgents := inFlightBackgroundAgents s; pendingShells := v;
    inFlightShells := inFlightShells s; initClosed := initClosed s;
    hasStrictDeny := hasStrictDeny s; effects := effects s
  |}.
Definition with_inFlightShells (v : gmap string inFlightShell) (s : Session) : Session :=
  {|
    state := state s; stdinCh := stdinCh s; driver := driver s; permPolicy := permPolicy s;
    allowedTools := allowedTools s; stopping := stopping s; shutdownPending := shutdownPending s;
    inFlightBackgroundAgents := inFlightBackgroundAgents s; pendingShells := pendingShells s;
    inFlightShells := v; initClosed := initClosed s; hasStrictDeny := hasStrictDeny s;
    effects := effects s
  |}.
Definition with_initClosed (v : bool) (s : Session) : Session :=
  {|
    state := state s; stdinCh := stdinCh s; driver := driver s; permPolicy := permPolicy s;
    allowedTools := allowedTools s; stopping := stopping s; shutdownPending := shutdownPending s;
    inFlightBackgroundAgents := inFlightBackgroundAgents s; pendingShells := pendingShells s;
    inFlightShells := inFlightShells s; initClosed := v; hasStrictDeny := hasStrictDeny s;
    effects := effects s
  |}.
Definition with_effects (v : list effect) (s : Session) : Session :=
  {|
    state := state s; stdinCh := stdinCh s; driver := driver s; permPolicy := permPolicy s;
    allowedTools := allowedTools s; stopping := stopping s; shutdownPending := shutdownPending s;
    inFlightBackgroundAgents := inFlightBackgroundAgents s; pendingShells := pendingShells s;
    inFlightShells := inFlightShells s; initClosed := initClosed s;
    hasStrictDeny := hasStrictDeny s; effects := v
  |}.

Definition stdinCap : nat := 64.

Definition upd_state (f : SessionState → SessionState) (s : Session) : Session :=
  with_state (f (state s)) s.

(** A blocking send delivers the line after the ones before it. *)
Definition send_stdin (line : string) (s : Session) : Session :=
  with_stdinCh (stdinCh s ++ [line]) s.

(** [select { case ch <- line: default: }]: dropped when the buffer is full. *)
Definition try_send_stdin (line : string) (s : Session) : Session :=
  if (length (stdinCh s) <? stdinCap)%nat then send_stdin line s else s.

Lemma state_try_send line s : state (try_send_stdin line s) = state s.
Proof. unfold try_send_stdin. by case_match. Qed.

Definition emit (e : effect) (s : Session) : Session := with_effects (effects s ++ [e]) s.

(** The error of [writeKV] is logged and dropped. *)
Definition flushKV (s : Session) : Session := emit (KVWrite (state s)) s.

Definition interrupt_doc : json :=
  JObj [("type", JStr "control_request"); ("request", JObj [("subtype", JStr "interrupt")])].

(** [newSession]. *)
Definition newSession (st : SessionState) : Session := {|
  state := st; stdinCh := []; driver := None; permPolicy := PermissionPolicyManaged;
  allowedTools := ∅; stopping := false; shutdownPending := false; inFlightBackgroundAgents := 0;
  pendingShells := ∅; inFlightShells := ∅; initClosed := false; hasStrictDeny := false; effects := [] |}.

Section session.
Context `{JT : JsonText}.

Definition sendInterrupt (s : Session) : Session := try_send_stdin (json_print interrupt_doc) s.

Definition clearPendingControl (requestID : string) (s : Session) : Session :=
  flushKV (upd_state (λ st, removePendingControl st requestID) s).

(** ** Permission policies *)

Definition tool_name_of (req : option json) : string :=
  unmarshal_raw_lax (dec_struct [("tool_name", dec_string)]) "" req.

Definition shouldAutoApprove (policy : string) (allowed : gmap string bool) (cr : controlRequestEvent) : bool :=
  if String.eqb policy PermissionPolicyAuto then true
  else if String.eqb policy PermissionPolicyAllowlist || String.eqb policy PermissionPolicyStrictAllowlist then
    default false (allowed !! tool_name_of (cr_Request cr))
  else false.

Definition control_response (requestID behavior : string) : json :=
  JObj [("response", JObj [("request_id", JStr requestID);
                           ("response", JObj [("behavior", JStr behavior)]);
                           ("subtype", JStr "success")]);
        ("type", JStr "control_response")].

Definition buildAutoApproveResponse (requestID : string) : string :=
  json_print (control_response requestID "allow").

(** ** handleSideEffect *)

Definition handle_init (now : Z) (line : string) (s : Session) : Session :=
  match unmarshal (dec_struct initEvent_fields) zero_initEvent line with
  | None => s
  | Some init =>
    let s := upd_state (λ st,
      let st := set_Model (ie_Model init) st in
      let st := set_Tools (ie_Tools init) st in
      let st := set_Skills (ie_Skills init) st in
      let st := set_Agents (ie_Agents init) st in
      let st := match driver s with Some c => set_Capabilities c st | None => st end in
      set_StateSince now (set_State StateIdle st)) s in
    with_initClosed true (flushKV s)
  end.

Definition handle_state_changed (now : Z) (line : string) (s : Session) : Session :=
  match unmarshal (dec_struct stateChangedEvent_fields) "" line with
  | None => s
  | Some new =>
    let s := upd_state (λ st, set_StateSince now (set_State new st)) s in
    if shutdownPending s then s else flushKV s
  end.

Definition handle_control_request (line : string) (s : Session) : Session :=
  match unmarshal (dec_struct controlRequestEvent_fields) zero_controlRequestEvent line with
  | None => s
  | Some cr =>
    let s := flushKV (upd_state (λ st, addPendingControl st (cr_RequestID cr) (cr_Request cr)) s) in
    if shouldAutoApprove (permPolicy s) (allowedTools s) cr then
      clearPendingControl (cr_RequestID cr) (send_stdin (buildAutoApproveResponse (cr_RequestID cr)) s)
    else if String.eqb (permPolicy s) PermissionPolicyStrictAllowlist then
      let s := send_stdin (json_print (control_response (cr_RequestID cr) "deny")) s in
      let s := clearPendingControl (cr_RequestID cr) s in
      if hasStrictDeny s then emit (StrictDeny (tool_name_of (cr_Request cr))) s else s
    else s
  end.

Definition handle_result (line : string) (s : Session) : Session :=
  match unmarshal (dec_struct resultEvent_fields) zero_resultEvent line with
  | None => s
  | Some r => flushKV (upd_state (λ st, accumulateUsage st (re_Usage r) (re_TotalCostUSD r)) s)
  end.

Definition handleSideEffect (now : Z) (line : string) (s : Session) : Session :=
  let '(evType, subtype) := parseEventType line in
  if String.eqb evType EventTypeSystem then
    if String.eqb subtype SubtypeInit then handle_init now line s
    else if String.eqb subtype SubtypeSessionStateChanged then handle_state_changed now line s
    else s
  else if String.eqb evType EventTypeControlRequest then handle_control_request line s
  else if String.eqb evType EventTypeResult then handle_result line s
  else s.

(** ** Background agents *)

Record toolBlock := { tb_Type : string; tb_ID : string; tb_Name : string; tb_Input : option json }.

Definition zero_toolBlock : toolBlock := {| tb_Type := ""; tb_ID := ""; tb_Name := ""; tb_Input := None |}.

(** The blocks of an assistant message; [withID] says whether the [id] member
    is part of the struct decoded into. *)
Definition toolBlock_fields (withID : bool) : list (field toolBlock) :=
  [ fld "type" dec_string tb_Type (λ v b, {| tb_Type := v; tb_ID := tb_ID b; tb_Name := tb_Name b; tb_Input := tb_Input b |}) ] ++
  (if withID then
    [ fld "id" dec_string tb_ID (λ v b, {| tb_Type := tb_Type b; tb_ID := v; tb_Name := tb_Name b; tb_Input := tb_Input b |}) ]
   else []) ++
  [ fld "name" dec_string tb_Name (λ v b, {| tb_Type := tb_Type b; tb_ID := tb_ID b; tb_Name := v; tb_Input := tb_Input b |});
    fld "input" dec_raw tb_Input (λ v b, {| tb_Type := tb_Type b; tb_ID := tb_ID b; tb_Name := tb_Name b; tb_Input := v |}) ].

(** [struct { Message struct { Content []block } }] *)
Definition message_content_fields {B} (zero : B) (fs : list (field B)) : list (field (list B)) :=
  [ ("message", dec_struct [ ("content", dec_slice zero (dec_struct fs)) ]) ].

Definition decode_blocks {B} (zero : B) (fs : list (field B)) (line : string) : option (list B) :=
  unmarshal (dec_struct (message_content_fields zero fs)) [] line.

(** [struct { Origin struct { Kind string } }] *)
Definition decode_origin_kind (line : string) : option string :=
  unmarshal (dec_struct [ ("origin", dec_struct [ ("kind", dec_string) ]) ]) "" line.

Definition run_in_background (input : option json) : option bool :=
  unmarshal_raw (dec_struct [ ("run_in_background", dec_bool) ]) false input.

Definition count_agent_block (b : toolBlock) (n : Z) : Z :=
  if negb (String.eqb (tb_Type b) "tool_use") || negb (String.eqb (tb_Name b) "Agent") then n
  else match run_in_background (tb_Input b) with
       | Some true => n + 1
       | _ => n
       end.

Definition updateInFlightBackgroundAgents (evType line : string) (s : Session) : Session :=
  if String.eqb evType EventTypeAssistant then
    match decode_blocks zero_toolBlock (toolBlock_fields false) line with
    | None => s
    | Some blocks =>
      with_inFlightBackgroundAgents
        (fold_left (λ n b, count_agent_block b n) blocks (inFlightBackgroundAgents s)) s
    end
  else if String.eqb evType EventTypeUser then
    match decode_origin_kind line with
    | Some kind =>
      if String.eqb kind "task-notification" && (0 <? inFlightBackgroundAgents s)
      then with_inFlightBackgroundAgents (inFlightBackgroundAgents s - 1) s
      else s
    | None => s
    end
  else s.

(** ** Background shells *)

Record shellInput := { si_RunInBackground : bool; si_Command : string }.

Definition shellInput_fields : list (field shellInput) :=
  [ fld "run_in_background" dec_bool si_RunInBackground (λ v i, {| si_RunInBackground := v; si_Command := si_Command i |});
    fld "command" dec_string si_Command (λ v i, {| si_RunInBackground := si_RunInBackground i; si_Command := v |}) ].

(** Phase 1, one block. *)
Definition pend_shell_block (now : Z) (b : toolBlock) (m : gmap string pendingShell) : gmap string pendingShell :=
  if negb (String.eqb (tb_Type b) "tool_use") || negb (String.eqb (tb_Name b) "Bash") then m
  else match unmarshal_raw (dec_struct shellInput_fields) {| si_RunInBackground := false; si_Command := "" |} (tb_Input b) with
       | Some i =>
         if si_RunInBackground i && negb (String.eqb (tb_ID b) "")
         then <[tb_ID b := {| ps_ToolUseId := tb_ID b; ps_Command := si_Command i; ps_StartedAt := now |}]> m
         else m
       | None => m
       end.

Record resultBlock := { rb_Type : string; rb_ToolUseId : string; rb_Content : string }.

Definition resultBlock_fields : list (field resultBlock) :=
  [ fld "type" dec_string rb_Type (λ v b, {| rb_Type := v; rb_ToolUseId := rb_ToolUseId b; rb_Content := rb_Content b |});
    fld "tool_use_id" dec_string rb_ToolUseId (λ v b, {| rb_Type := rb_Type b; rb_ToolUseId := v; rb_Content := rb_Content b |});
    fld "content" dec_string rb_Content (λ v b, {| rb_Type := rb_Type b; rb_ToolUseId := rb_ToolUseId b; rb_Content := v |}) ].

Definition zero_resultBlock : resultBlock := {| rb_Type := ""; rb_ToolUseId := ""; rb_Content := "" |}.

(** The longest prefix of characters satisfying [p]. *)
Fixpoint take_while_str (p : ascii → bool) (s : string) : string :=
  match s with
  | String c s => if p c then String c (take_while_str p s) else ""
  | EmptyString => ""
  end.

(** The regexp class [\s]. *)
Definition re_space (c : ascii) : bool :=
  Ascii.eqb c " " || Ascii.eqb c "009" || Ascii.eqb c "010" || Ascii.eqb c "012" || Ascii.eqb c "013".

Definition backgroundTaskIdPrefix : string := "Command was manually backgrounded with ID: ".

(** [backgroundTaskIdRe.FindStringSubmatch(text)[1]]: the leftmost occurrence
    of the prefix followed by a non-empty run of [\S]. *)
Fixpoint find_background_task_id (text : string) : option string :=
  let here :=
    if HasPrefix text backgroundTaskIdPrefix then
      let id := take_while_str (λ c, negb (re_space c)) (drop_str (String.length backgroundTaskIdPrefix) text) in
      if String.eqb id "" then None else Some id
    else None in
  match here with
  | Some id => Some id
  | None => match text with
            | String _ text' => find_background_task_id text'
            | EmptyString => None
            end
  end.

(** Phase 2, one block: a result for a pending shell consumes the pending
    entry, whether or not it names a background task. *)
Definition promote_shell_block (uid : N) (tmpDir : string) (b : resultBlock) (s : Session) : Session :=
  if negb (String.eqb (rb_Type b) "tool_result") then s
  else match pendingShells s !! rb_ToolUseId b with
       | None => s
       | Some pending =>
         let s := with_pendingShells (delete (rb_ToolUseId b) (pendingShells s)) s in
         match find_background_task_id (rb_Content b) with
         | None => s
         | Some taskId =>
           let cwd := st_CWD (state s) in
           let path := shellOutputPath uid tmpDir (sanitizePath cwd) (st_ID (state s)) taskId in
           with_inFlightShells
             (<[ps_ToolUseId pending := {| is_ToolUseId := ps_ToolUseId pending; is_TaskId := taskId;
                  is_Command := ps_Command pending; is_OutputFilePath := path;
                  is_StartedAt := ps_StartedAt pending |}]> (inFlightShells s)) s
         end
       end.

(** *** Removal by task notification *)

(** The text of a message's content: a string, or the [text] (else [content])
    strings of its blocks put together. *)
Fixpoint assoc_last (k : string) (l : list (string * json)) : option json :=
  match l with
  | [] => None
  | (k', v) :: l => match assoc_last k l with
                    | Some v' => Some v'
                    | None => if String.eqb k k' then Some v else None
                    end
  end.

Definition block_text (j : json) : string :=
  match j with
  | JObj l =>
    match assoc_last "text" l with
    | Some (JStr t) => t
    | _ => match assoc_last "content" l with
           | Some (JStr c) => c
           | _ => ""
           end
    end
  | _ => ""
  end.

Definition content_text (content : json) : string :=
  match content with
  | JStr s => s
  | JArr l => fold_right (λ j acc, block_text j +:+ acc) "" l
  | _ => ""
  end.

Definition toolUseIdOpen : string := "<tool-use-id>".
Definition toolUseIdClose : string := "</tool-use-id>".

(** [<tool-use-id>([^<]+)</tool-use-id>], leftmost match. *)
Fixpoint find_tool_use_id (text : string) : option string :=
  let here :=
    if HasPrefix text toolUseIdOpen then
      let rest := drop_str (String.length toolUseIdOpen) text in
      let id := take_while_str (λ c, negb (Ascii.eqb c "<")) rest in
      if negb (String.eqb id "") && HasPrefix (drop_str (String.length id) rest) toolUseIdClose
      then Some id else None
    else None in
  match here with
  | Some id => Some id
  | None => match text with
            | String _ text' => find_tool_use_id text'
            | EmptyString => None
            end
  end.

(** The fallback loop over the map: the first key, in the iteration order
    [order], that occurs in [text] is removed. *)
Definition remove_first_mentioned (order : list string) (text : string) (s : Session) : Session :=
  match find_first (λ id, negb (String.eqb id "") && Contains text id) order with
  | Some id => with_inFlightShells (delete id (inFlightShells s)) s
  | None => s
  end.

Definition removeShellByTaskNotification (order : list string) (line : string) (s : Session) : Session :=
  match unmarshal (dec_struct [ ("message", dec_struct [ ("content", dec_any) ]) ]) JNull line with
  | None => s
  | Some content =>
    let contentStr := content_text content in
    if String.eqb contentStr "" then remove_first_mentioned order line s
    else match find_tool_use_id contentStr with
         | Some id => with_inFlightShells (delete id (inFlightShells s)) s
         | None => remove_first_mentioned order contentStr s
         end
  end.

(** [order] is the iteration order of [inFlightShells], [tmpDir] the value of
    CLAUDE_CODE_TMPDIR. *)
Definition updateInFlightShells (uid : N) (tmpDir : string) (order : list string) (now : Z)
    (evType line : string) (s : Session) : Session :=
  if String.eqb tmpDir "" then s
  else if String.eqb evType EventTypeAssistant then
    match decode_blocks zero_toolBlock (toolBlock_fields true) line with
    | None => s
    | Some blocks =>
      with_pendingShells (fold_left (λ m b, pend_shell_block now b m) blocks (pendingShells s)) s
    end
  else if String.eqb evType EventTypeUser then
    match decode_origin_kind line with
    | None => s
    | Some kind =>
      if String.eqb kind "task-notification" then removeShellByTaskNotification order line s
      else match decode_blocks zero_resultBlock resultBlock_fields line with
           | None => s
           | Some blocks => fold_left (λ s b, promote_shell_block uid tmpDir b s) blocks s
           end
    end
  else s.

(** ** Truncation *)

Definition maxEventBytes : N := 8 * 1024 * 1024.

(** [map[string]json.RawMessage]: the last of equal names wins, and the printer
    writes the names in byte order.  A document [null] leaves the map nil, and
    the assignment to it panics. *)
Definition truncated_marker : string := json_print (JObj [("type", JStr "truncated"); ("truncated", JBool true)]).

Definition truncateEventIfNeeded (line : string) : outcome string :=
  if (N.of_nat (String.length line) <=? maxEventBytes)%N then Done line
  else match json_parse line with
       | Some JNull => Panicked
       | Some (JObj l) =>
         let obj : gmap string json := list_to_map (reverse l) in
         Done (json_print (marshal_map (<["truncated" := JBool true]> (delete "content" obj))))
       | _ => Done truncated_marker
       end.

(** [stdinChWriter.Write]: the driver's trailing newline is stripped, an empty
    write sends nothing. *)
Definition strip_newline (p : string) : string :=
  if HasSuffix p (String "010" "") then take_str (String.length p - 1) p else p.

Definition stdinChWriter_Write (p : string) (s : Session) : Session :=
  if String.eqb p "" then s else send_stdin (strip_newline p) s.

Lemma stdinChWriter_line x s : stdinChWriter_Write (x +:+ String "010" "") s = send_stdin x s.
Proof.
  unfold stdinChWriter_Write, strip_newline. rewrite HasSuffix_app, length_app_str. cbn [String.length].
  replace (String.length x + 1 - 1)%nat with (String.length x) by lia. rewrite take_str_app.
  destruct (String.eqb_spec (x +:+ String "010" "") ""); [by destruct x|done].
Qed.

(** ** The stdout router of [start], for one event

    The counters look at the line as it is; the truncated line is what is
    published and what the side effects look at.  (The callbacks
    [onEventPublished] and [onRawOutput] run between the two; they belong to
    the agent and to the quota monitor.) *)
Definition route_event (uid : N) (tmpDir : string) (order : list string) (now : Z)
    (evType line : string) (s : Session) : outcome (string * Session) :=
  let s := updateInFlightBackgroundAgents evType line s in
  let s := updateInFlightShells uid tmpDir order now evType line s in
  match truncateEventIfNeeded line with
  | Done line' => Done (line', handleSideEffect now line' s)
  | Panicked => Panicked
  end.

(** ** Permission policies: what they promise *)

Inductive verdict := VAllow | VDeny | VAsk.

Definition policy_verdict (policy : string) (allowed : gmap string bool) (tool : string) : verdict :=
  if decide (policy = PermissionPolicyAuto) then VAllow
  else if decide (policy = PermissionPolicyAllowlist) then
    if decide (allowed !! tool = Some true) then VAllow else VAsk
  else if decide (policy = PermissionPolicyStrictAllowlist) then
    if decide (allowed !! tool = Some true) then VAllow else VDeny
  else VAsk.

Definition pending_control (s : Session) (id : string) : option (option json) :=
  st_PendingControls (state s) ≫= lookup id.

Lemma shouldAutoApprove_verdict policy allowed cr :
  shouldAutoApprove policy allowed cr =
  match policy_verdict policy allowed (tool_name_of (cr_Request cr)) with VAllow => true | _ => false end.
Proof.
  unfold shouldAutoApprove, policy_verdict.
  destruct (String.eqb_spec policy PermissionPolicyAuto) as [->|]; [done|].
  destruct (String.eqb_spec policy PermissionPolicyAllowlist) as [->|]; cbn.
  - rewrite decide_False by done. rewrite decide_True by done.
    destruct (allowed !! _) as [[]|]; cbn; [rewrite decide_True by done|rewrite decide_False by done..]; done.
  - destruct (String.eqb_spec policy PermissionPolicyStrictAllowlist) as [->|]; cbn.
    + rewrite !decide_False by done. rewrite decide_True by done.
      destruct (allowed !! _) as [[]|]; cbn; [rewrite decide_True by done|rewrite decide_False by done..]; done.
    + by rewrite !decide_False.
Qed.

Lemma verdict_deny_strict policy allowed tool :
  policy_verdict policy allowed tool = VDeny → policy = PermissionPolicyStrictAllowlist.
Proof. unfold policy_verdict. repeat case_decide; naive_solver. Qed.

Lemma verdict_ask_not_strict policy allowed tool :
  policy_verdict policy allowed tool = VAsk → policy ≠ PermissionPolicyStrictAllowlist.
Proof. unfold policy_verdict. repeat case_decide; naive_solver. Qed.

(** C2. A permission request is recorded and written to the KV store; then the
    policy decides: an allowed tool is approved on stdin and the request
    cleared, a tool outside a strict allowlist is denied, cleared and reported
    to the monitor, and in every other case the request stays pending for the
    user and nothing is answered. *)
Theorem control_request_follows_policy line cr s :
  unmarshal (dec_struct controlRequestEvent_fields) zero_controlRequestEvent line = Some cr →
  let s' := handle_control_request line s in
  let tool := tool_name_of (cr_Request cr) in
  let response b := json_print (control_response (cr_RequestID cr) b) in
  let cleared := KVWrite (state s') in
  let asked := KVWrite (addPendingControl (state s) (cr_RequestID cr) (cr_Request cr)) in
  match policy_verdict (permPolicy s) (allowedTools s) tool with
  | VAllow => stdinCh s' = stdinCh s ++ [response "allow"] ∧ pending_control s' (cr_RequestID cr) = None ∧
              effects s' = effects s ++ [asked; cleared]
  | VDeny => stdinCh s' = stdinCh s ++ [response "deny"] ∧ pending_control s' (cr_RequestID cr) = None ∧
             effects s' = effects s ++ [asked; cleared] ++ (if hasStrictDeny s then [StrictDeny tool] else [])
  | VAsk => stdinCh s' = stdinCh s ∧ pending_control s' (cr_RequestID cr) = Some (cr_Request cr) ∧
            effects s' = effects s ++ [asked]
  end.
Proof.
  intros Hcr s' tool response cleared asked. unfold cleared, s', handle_control_request. rewrite Hcr.
  rewrite shouldAutoApprove_verdict. cbn -[policy_verdict].
  assert (Hdel : ∀ m : gmap string (option json), delete (cr_RequestID cr) m !! cr_RequestID cr = None)
    by (intros; apply lookup_delete_eq).
  destruct (policy_verdict _ _ _) eqn:Hv; cbn.
  - unfold pending_control. cbn. rewrite Hdel. by rewrite <- app_assoc.
  - apply verdict_deny_strict in Hv as Hp. rewrite Hp. cbn. unfold pending_control.
    destruct (hasStrictDeny s); cbn; rewrite Hdel, <- ?app_assoc; done.
  - apply verdict_ask_not_strict, String.eqb_neq in Hv. rewrite Hv. unfold pending_control. cbn.
    by rewrite lookup_insert_eq.
Qed.

(** ** KV writes during a shutdown *)

Definition kv_writes (s : Session) : list SessionState :=
  omap (λ e, match e with KVWrite st => Some st | _ => None end) (effects s).

Lemma kv_writes_emit e s :
  kv_writes (emit e s) = kv_writes s ++ match e with KVWrite st => [st] | _ => [] end.
Proof. unfold kv_writes, emit. cbn. rewrite omap_app. by destruct e. Qed.

Lemma kv_writes_flush s : kv_writes (flushKV s) = kv_writes s ++ [state s].
Proof. apply kv_writes_emit. Qed.

(** The events whose side effect is not guarded by [shutdownPending]. *)
Definition unguarded (line : string) : Prop :=
  (parseEventType line = (EventTypeSystem, SubtypeInit) ∧
     is_Some (unmarshal (dec_struct initEvent_fields) zero_initEvent line)) ∨
  ((parseEventType line).1 = EventTypeControlRequest ∧
     is_Some (unmarshal (dec_struct controlRequestEvent_fields) zero_controlRequestEvent line)) ∨
  ((parseEventType line).1 = EventTypeResult ∧
     is_Some (unmarshal (dec_struct resultEvent_fields) zero_resultEvent line)).

(** A control request always writes: at least the state with the request
    pending comes first. *)
Lemma control_request_writes line cr s :
  unmarshal (dec_struct controlRequestEvent_fields) zero_controlRequestEvent line = Some cr →
  ∃ l, kv_writes (handle_control_request line s) =
       kv_writes s ++ addPendingControl (state s) (cr_RequestID cr) (cr_Request cr) :: l.
Proof.
  intros Hcr. unfold handle_control_request. rewrite Hcr. cbv zeta.
  repeat case_match; unfold clearPendingControl;
    repeat first [rewrite kv_writes_emit | rewrite kv_writes_flush];
    rewrite ?app_nil_r;
    repeat match goal with
           | |- context [kv_writes (upd_state ?f ?x)] => change (kv_writes (upd_state f x)) with (kv_writes x)
           | |- context [kv_writes (send_stdin ?f ?x)] => change (kv_writes (send_stdin f x)) with (kv_writes x)
           | _ => rewrite kv_writes_flush
           end;
    rewrite <- ?app_assoc; cbn; eauto.
Qed.

Ltac not_unguarded :=
  intros Hu; exfalso; destruct Hu as [[? [? ?]]|[[? [? ?]]|[? [? ?]]]]; first [congruence | done].

(** While a shutdown is pending an event leaves the KV entry (the "updating"
    banner) alone exactly when it is not one of the unguarded ones; each of
    those writes the session's live state over the banner. *)
Theorem shutdown_banner_exact now line s :
  shutdownPending s = true →
  (¬ unguarded line → kv_writes (handleSideEffect now line s) = kv_writes s) ∧
  (unguarded line → ∃ st l, kv_writes (handleSideEffect now line s) = kv_writes s ++ st :: l ∧
     ((parseEventType line).1 ≠ EventTypeSystem → st_State st = st_State (state s))).
Proof.
  intros Hsp. unfold unguarded, handleSideEffect. destruct (parseEventType line) as [ty sub] eqn:Hp.
  cbn [fst snd].
  destruct (String.eqb_spec ty EventTypeSystem) as [->|Hns].
  - destruct (String.eqb_spec sub SubtypeInit) as [->|Hni].
    + unfold handle_init. destruct (unmarshal _ _ _) as [i|] eqn:Hi.
      * split; [intros []; left; split; eauto|]. intros _. eexists _, [].
        split; [unfold kv_writes; cbn; by rewrite omap_app|done].
      * split; [done|]. not_unguarded.
    + split; [|not_unguarded]. intros _.
      destruct (String.eqb_spec sub SubtypeSessionStateChanged); [|done].
      unfold handle_state_changed. destruct (unmarshal _ _ _); [|done]. cbn. by rewrite Hsp.
  - destruct (String.eqb_spec ty EventTypeControlRequest) as [->|Hnc].
    + destruct (unmarshal (dec_struct controlRequestEvent_fields) zero_controlRequestEvent line) as [cr|] eqn:Hcr.
      * split; [intros []; right; left; eauto|]. intros _.
        destruct (control_request_writes line cr s Hcr) as [l Hl]. by exists (addPendingControl (state s) (cr_RequestID cr) (cr_Request cr)), l.
      * split; [unfold handle_control_request; by rewrite Hcr|]. not_unguarded.
    + destruct (String.eqb_spec ty EventTypeResult) as [->|Hnr].
      * unfold handle_result.
        destruct (unmarshal (dec_struct resultEvent_fields) zero_resultEvent line) as [r|] eqn:Hr.
        -- split; [intros []; right; right; eauto|]. intros _. eexists _, []. rewrite kv_writes_flush.
           by split.
        -- split; [done|]. not_unguarded.
      * split; [done|]. not_unguarded.
Qed.

(** ** Usage *)

(** The usage a line adds: that of a decodable result event. *)
Definition line_usage (line : string) : option resultEvent :=
  if String.eqb (parseEventType line).1 EventTypeResult
  then unmarshal (dec_struct resultEvent_fields) zero_resultEvent line
  else None.

Lemma usage_handleSideEffect now line s :
  st_Usage (state (handleSideEffect now line s)) =
  match line_usage line with
  | Some r => st_Usage (accumulateUsage (state s) (re_Usage r) (re_TotalCostUSD r))
  | None => st_Usage (state s)
  end.
Proof.
  unfold line_usage, handleSideEffect. destruct (parseEventType line) as [ty sub]. cbn [fst].
  destruct (String.eqb_spec ty EventTypeSystem) as [->|].
  - cbn. unfold handle_init, handle_state_changed. repeat case_match; done.
  - destruct (String.eqb_spec ty EventTypeControlRequest) as [->|]; cbn.
    + unfold handle_control_request. destruct (unmarshal _ _ _); [|done]. cbv zeta. by repeat case_match.
    + destruct (String.eqb_spec ty EventTypeResult) as [->|]; [|done].
      unfold handle_result. by destruct (unmarshal _ _ _).
Qed.

Definition sum_usage (f : resultUsage → Z) (lines : list string) : Z :=
  fold_right (λ line acc, match line_usage line with Some r => f (re_Usage r) + acc | None => acc end) 0 lines.

Lemma wrap64_add_l a b : wrap64 (wrap64 a + b) = wrap64 (a + b).
Proof.
  unfold wrap64. f_equal.
  replace ((a + 2 ^ 63) `mod` 2 ^ 64 - 2 ^ 63 + b + 2 ^ 63) with ((a + 2 ^ 63) `mod` 2 ^ 64 + b) by lia.
  rewrite Z.add_mod_idemp_l by lia. f_equal. lia.
Qed.

(** Along any stream of events the token counters of the session are the sums
    of those of the result events (modulo 2^64, as machine integers are), and
    no other event changes them. *)
Theorem usage_is_sum now lines s :
  int64_range (InputTokens (st_Usage (state s))) → int64_range (OutputTokens (st_Usage (state s))) →
  let s' := fold_left (λ s line, handleSideEffect now line s) lines s in
  InputTokens (st_Usage (state s')) = wrap64 (InputTokens (st_Usage (state s)) + sum_usage ru_InputTokens lines) ∧
  OutputTokens (st_Usage (state s')) = wrap64 (OutputTokens (st_Usage (state s)) + sum_usage ru_OutputTokens lines).
Proof.
  revert s. induction lines as [|line lines IH]; intros s Hi Ho; cbn.
  - by rewrite !Z.add_0_r, !wrap64_id.
  - set (s1 := handleSideEffect now line s).
    pose proof (usage_handleSideEffect now line s) as Hu. fold s1 in Hu.
    destruct (line_usage line) as [r|]; cbn in Hu.
    + destruct (IH s1) as [A B]; [rewrite Hu; apply wrap64_range..|].
      rewrite A, B, Hu. cbn. unfold i64_add. by rewrite !wrap64_add_l, !Z.add_assoc.
    + destruct (IH s1) as [A B]; [by rewrite Hu..|]. by rewrite A, B, Hu.
Qed.

(** ** Background shells: the shape of the two tables *)

Fixpoint all_str (p : ascii → bool) (s : string) : bool :=
  match s with
  | EmptyString => true
  | String c s => p c && all_str p s
  end.

Lemma take_while_str_all p s : all_str p (take_while_str p s) = true.
Proof. induction s as [|c s IH]; cbn; [done|]. destruct (p c) eqn:Hc; cbn; [by rewrite Hc|done]. Qed.

Definition not_space (c : ascii) : bool := negb (re_space c).

Lemma find_background_task_id_shape text id :
  find_background_task_id text = Some id → id ≠ "" ∧ all_str not_space id = true.
Proof.
  assert (Hh : ∀ t, (if HasPrefix t backgroundTaskIdPrefix then
      let id := take_while_str not_space (drop_str (String.length backgroundTaskIdPrefix) t) in
      if String.eqb id "" then None else Some id else None) = Some id → id ≠ "" ∧ all_str not_space id = true).
  { intros t. case_match; [|done]. cbv zeta. case_match eqn:He; [done|]. intros [= <-].
    split; [by apply String.eqb_neq|apply take_while_str_all]. }
  induction text as [|c text IH]; cbn -[HasPrefix drop_str backgroundTaskIdPrefix take_while_str].
  - case_match eqn:He; [|done]. intros [= <-]. by apply (Hh "").
  - case_match eqn:He; [|exact IH]. intros [= <-]. by apply (Hh (String c text)).
Qed.

(** Both tables are keyed by the tool-use id of the entry; the output path of an
    in-flight shell is the one computed from a task id that is a single word. *)
Record shells_wf (uid : N) (tmpDir : string) (s : Session) : Prop := {
  wf_pending : ∀ k p, pendingShells s !! k = Some p → ps_ToolUseId p = k ∧ k ≠ "";
  wf_inflight : ∀ k i, inFlightShells s !! k = Some i →
    is_ToolUseId i = k ∧ k ≠ "" ∧ is_TaskId i ≠ "" ∧ all_str not_space (is_TaskId i) = true ∧
    ∃ cwd sid, is_OutputFilePath i = shellOutputPath uid tmpDir (sanitizePath cwd) sid (is_TaskId i);
}.

Lemma shells_wf_ext uid tmp s s' :
  pendingShells s' = pendingShells s → inFlightShells s' = inFlightShells s →
  shells_wf uid tmp s → shells_wf uid tmp s'.
Proof. intros Hp Hi [Hwp Hwi]. split; [by rewrite Hp|by rewrite Hi]. Qed.

Lemma pend_block_wf now b m :
  (∀ k p, m !! k = Some p → ps_ToolUseId p = k ∧ k ≠ "") →
  ∀ k p, pend_shell_block now b m !! k = Some p → ps_ToolUseId p = k ∧ k ≠ "".
Proof.
  intros Hm k p. unfold pend_shell_block. repeat case_match; auto.
  apply andb_true_iff in H1 as [_ Hne]. apply negb_true_iff, String.eqb_neq in Hne.
  rewrite lookup_insert_Some. intros [[<- <-]|[_ Hk]]; cbn; auto.
Qed.

Lemma promote_block_wf uid tmp b s : shells_wf uid tmp s → shells_wf uid tmp (promote_shell_block uid tmp b s).
Proof.
  intros [Hp Hi]. unfold promote_shell_block. case_match; [done|].
  destruct (pendingShells s !! rb_ToolUseId b) as [p|] eqn:Hb; [|done].
  destruct (Hp _ _ Hb) as [Hid Hne].
  assert (Hdel : ∀ k q, delete (rb_ToolUseId b) (pendingShells s) !! k = Some q → ps_ToolUseId q = k ∧ k ≠ "")
    by (intros k q; rewrite lookup_delete_Some; intros [_ Hk]; auto).
  destruct (find_background_task_id (rb_Content b)) as [tid|] eqn:Ht; split; cbn; auto.
  intros k i. rewrite lookup_insert_Some. intros [[<- <-]|[_ Hk]]; cbn; auto.
  apply find_background_task_id_shape in Ht as [Hn Ha]. rewrite Hid. eauto 10.
Qed.

Lemma delete_inflight_wf uid tmp id s :
  shells_wf uid tmp s → shells_wf uid tmp (with_inFlightShells (delete id (inFlightShells s)) s).
Proof.
  intros [Hp Hi]. split; cbn; [auto|]. intros k i. rewrite lookup_delete_Some. intros [_ Hk]; auto.
Qed.

Lemma removeShell_wf uid tmp order line s :
  shells_wf uid tmp s → shells_wf uid tmp (removeShellByTaskNotification order line s).
Proof.
  intros Hw. unfold removeShellByTaskNotification, remove_first_mentioned.
  repeat case_match; auto using delete_inflight_wf.
Qed.

(** The tables keep their shape through every event. *)
Lemma shells_step uid tmp order now evType line s :
  shells_wf uid tmp s → shells_wf uid tmp (updateInFlightShells uid tmp order now evType line s).
Proof.
  intros Hw. unfold updateInFlightShells. case_match; [done|]. case_match.
  - destruct (decode_blocks _ _ line) as [bs|]; [|done]. destruct Hw as [Hp Hi]. split; cbn; [|exact Hi].
    revert Hp. generalize (pendingShells s). induction bs as [|b bs IH]; intros m Hm; cbn; [exact Hm|].
    apply IH. by apply pend_block_wf.
  - case_match; [|done]. destruct (decode_origin_kind line) as [k|]; [|done].
    case_match; [by apply removeShell_wf|].
    destruct (decode_blocks zero_resultBlock _ line) as [bs|]; [|done].
    revert s Hw. induction bs as [|b bs IH]; intros s Hw; cbn; [done|]. by apply IH, promote_block_wf.
Qed.

Record shell_event := { sv_order : list string; sv_now : Z; sv_type : string; sv_line : string }.

Definition shells_after (uid : N) (tmp : string) (evs : list shell_event) (s : Session) : Session :=
  fold_left (λ s e, updateInFlightShells uid tmp (sv_order e) (sv_now e) (sv_type e) (sv_line e) s) evs s.

(** C36. Along any stream of events of a new session the tables of background shells
    stay keyed by tool-use id, every in-flight shell has a one-word task id and
    the output path of that task, and without CLAUDE_CODE_TMPDIR nothing is
    tracked at all. *)
Theorem shell_tables_well_formed uid tmp evs st :
  let s := shells_after uid tmp evs (newSession st) in
  shells_wf uid tmp s ∧ (tmp = "" → pendingShells s = ∅ ∧ inFlightShells s = ∅).
Proof.
  unfold shells_after. split.
  - assert (Hw : shells_wf uid tmp (newSession st)) by (split; intros ?? Hx; cbn in Hx; by rewrite lookup_empty in Hx).
    revert Hw. generalize (newSession st). induction evs as [|e evs IH]; intros s Hw; cbn; [done|].
    by apply IH, shells_step.
  - intros ->.
    assert (Hk : fold_left (λ s e, updateInFlightShells uid "" (sv_order e) (sv_now e) (sv_type e) (sv_line e) s) evs
                  (newSession st) = newSession st).
    { generalize (newSession st). induction evs as [|e evs IH]; intros s; cbn; [done|apply IH]. }
    by rewrite Hk.
Qed.

(** ** The background agent counter *)

Definition agent_launches (ev : string * string) : Z :=
  if String.eqb ev.1 EventTypeAssistant then
    match decode_blocks zero_toolBlock (toolBlock_fields false) ev.2 with
    | Some blocks => fold_left (λ n b, count_agent_block b n) blocks 0
    | None => 0
    end
  else 0.

Definition is_notification (ev : string * string) : bool :=
  String.eqb ev.1 EventTypeUser &&
  match decode_origin_kind ev.2 with Some k => String.eqb k "task-notification" | None => false end.

Definition agents_after (evs : list (string * string)) (s : Session) : Session :=
  fold_left (λ s ev, updateInFlightBackgroundAgents ev.1 ev.2 s) evs s.

Fixpoint total_launches (evs : list (string * string)) : Z :=
  match evs with [] => 0 | ev :: evs => agent_launches ev + total_launches evs end.

Definition notifications (evs : list (string * string)) : Z := Z.of_nat (length (List.filter is_notification evs)).

Lemma count_blocks_shift bs n : fold_left (λ n b, count_agent_block b n) bs n = n + fold_left (λ n b, count_agent_block b n) bs 0.
Proof.
  revert n. induction bs as [|b bs IH]; intros n; cbn; [lia|].
  rewrite IH, (IH (count_agent_block b 0)). unfold count_agent_block. repeat case_match; lia.
Qed.

Lemma count_blocks_nonneg bs : 0 ≤ fold_left (λ n b, count_agent_block b n) bs 0.
Proof.
  induction bs as [|b bs IH]; cbn; [lia|]. rewrite count_blocks_shift.
  unfold count_agent_block at 1. repeat case_match; lia.
Qed.

Lemma agent_launches_nonneg ev : 0 ≤ agent_launches ev.
Proof. unfold agent_launches. repeat case_match; auto using count_blocks_nonneg; lia. Qed.

Lemma agents_step ev s :
  0 ≤ inFlightBackgroundAgents s →
  inFlightBackgroundAgents (updateInFlightBackgroundAgents ev.1 ev.2 s) =
  Z.max 0 (inFlightBackgroundAgents s + agent_launches ev - (if is_notification ev then 1 else 0)).
Proof.
  destruct ev as [ty line]. intros H0. unfold updateInFlightBackgroundAgents, agent_launches, is_notification.
  cbn [fst snd]. destruct (String.eqb_spec ty EventTypeAssistant) as [->|Hna].
  - cbn. destruct (decode_blocks _ _ _) as [bs|]; cbn; [|lia]. rewrite count_blocks_shift.
    pose proof (count_blocks_nonneg bs). lia.
  - destruct (String.eqb_spec ty EventTypeUser) as [->|Hnu]; cbn; [|lia].
    destruct (decode_origin_kind line) as [k|]; [|lia]. destruct (String.eqb k "task-notification"); cbn; [|lia].
    destruct (Z.ltb_spec 0 (inFlightBackgroundAgents s)); cbn; lia.
Qed.

(** The counter is never negative, and as long as no more notifications have
    arrived than background agents were launched it is their difference.  Every
    task notification counts, those of background shells included: one shell
    that ends while one agent runs brings the counter to zero. *)
Theorem agent_counter_exact evs s :
  0 ≤ inFlightBackgroundAgents s →
  0 ≤ inFlightBackgroundAgents (agents_after evs s) ∧
  ((∀ pre, pre `prefix_of` evs → notifications pre ≤ inFlightBackgroundAgents s + total_launches pre) →
   inFlightBackgroundAgents (agents_after evs s) =
     inFlightBackgroundAgents s + total_launches evs - notifications evs).
Proof.
  revert s. induction evs as [|ev evs IH]; intros s H0; [cbn; split; [done|intros _; unfold notifications; cbn; lia]|].
  pose proof (agents_step ev s H0) as Hs. cbn [agents_after fold_left].
  destruct (IH (updateInFlightBackgroundAgents ev.1 ev.2 s)) as [A B]; [lia|]. split; [exact A|].
  intros Hpre. unfold agents_after in B. cbn [total_launches].
  assert (Hn : ∀ l, notifications (ev :: l) = (if is_notification ev then 1 else 0) + notifications l).
  { intros l. unfold notifications. cbn. destruct (is_notification ev); cbn [length]; lia. }
  pose proof (Hpre [ev]) as H1. rewrite Hn in H1. cbn [total_launches] in H1.
  assert (notifications [] = 0) as Hnil by done.
  specialize (H1 ltac:(by exists evs)). unfold agents_after. rewrite B; [rewrite Hn; lia|].
  intros pre [suf ->]. specialize (Hpre (ev :: pre) ltac:(by exists suf)). rewrite Hn in Hpre.
  cbn [total_launches] in Hpre. lia.
Qed.

(** ** Truncation *)

Lemma marshal_map_members (m : gmap string json) :
  ∃ l, marshal_map m = JObj l ∧ l ≡ₚ map_to_list m.
Proof. eexists. split; [done|]. apply merge_sort_Permutation. Qed.

(** An oversized event that is an object is published with the same members,
    except that a top-level [content] is dropped and [truncated] is [true]; so an
    event whose bulk is below another member ([message]) keeps it. *)
Theorem truncation_members line ms :
  (maxEventBytes < N.of_nat (String.length line))%N →
  json_parse line = Some (JObj ms) →
  ∃ l, truncateEventIfNeeded line = Done (json_print (JObj l)) ∧
    (∀ k v, (k, v) ∈ l ↔
      (k = "truncated" ∧ v = JBool true) ∨
      (k ≠ "truncated" ∧ k ≠ "content" ∧ (list_to_map (reverse ms) : gmap string json) !! k = Some v)).
Proof.
  intros Hl Hp. unfold truncateEventIfNeeded. rewrite Hp.
  destruct (N.leb_spec (N.of_nat (String.length line)) maxEventBytes); [lia|].
  destruct (marshal_map_members (<["truncated" := JBool true]> (delete "content" (list_to_map (reverse ms)))))
    as (l & -> & Hperm).
  exists l. split; [done|]. intros k v. rewrite Hperm, elem_of_map_to_list, lookup_insert_Some, lookup_delete_Some.
  naive_solver.
Qed.

End session.

(** ** Concrete events *)
Module SessionDemo.

Definition request_doc (tool : string) : json :=
  JObj [("type", JStr "control_request"); ("request_id", JStr "r1"); ("request", JObj [("tool_name", JStr tool)])].

Definition result_doc : json :=
  JObj [("type", JStr "result"); ("usage", JObj [("input_tokens", JInt 5); ("output_tokens", JInt 7)])].

Definition agent_doc : json :=
  JObj [("message", JObj [("content", JArr [JObj [("type", JStr "tool_use"); ("name", JStr "Agent");
    ("input", JObj [("run_in_background", JBool true)])]])])].

Definition notification_doc : json :=
  JObj [("origin", JObj [("kind", JStr "task-notification")]);
        ("message", JObj [("content", JStr "<tool-use-id>shell</tool-use-id>")])].

#[local] Instance text : JsonText := table_json [
  ("bash?", request_doc "Bash"); ("result", result_doc); ("agent", agent_doc); ("notified", notification_doc)].

Definition strict (tools : gmap string bool) : Session := {|
  state := zero_SessionState; stdinCh := []; driver := None; permPolicy := PermissionPolicyStrictAllowlist;
  allowedTools := tools; stopping := false; shutdownPending := false; inFlightBackgroundAgents := 0;
  pendingShells := ∅; inFlightShells := ∅; initClosed := false; hasStrictDeny := true; effects := [] |}.

(** A text level on which every line is one fixed object. *)
#[local] Instance bulk : JsonText := {|
  json_parse _ := Some (JObj [("type", JStr "assistant"); ("message", JObj [("content", JStr "...")])]);
  json_print := print_plain |}.

Fixpoint zeros (n : nat) : string := match n with O => "" | S n => String "0" (zeros n) end.

Lemma length_zeros n : String.length (zeros n) = n.
Proof. induction n as [|n IH]; cbn; [done|]. by rewrite IH. Qed.

End SessionDemo.

Lemma control_request_follows_policy_witness :
  let s' := handle_control_request (JT := SessionDemo.text) "bash?" (SessionDemo.strict ∅) in
  stdinCh s' = [json_print (JsonText := SessionDemo.text) (control_response "r1" "deny")] ∧
  pending_control s' "r1" = None ∧ List.last (effects s') (StrictDeny "") = StrictDeny "Bash".
Proof.
  destruct (control_request_follows_policy (JT := SessionDemo.text) "bash?"
    {| cr_RequestID := "r1"; cr_Request := Some (JObj [("tool_name", JStr "Bash")]) |} (SessionDemo.strict ∅))
    as (H1 & H2 & H3); [vm_compute; reflexivity|].
  split; [exact H1|split; [exact H2|]]. cbv zeta. rewrite H3. reflexivity.
Defined.

Lemma shutdown_banner_exact_witness :
  ∃ st l, kv_writes (handleSideEffect (JT := SessionDemo.text) 3 "result"
            (with_shutdownPending true (newSession (set_State StateIdle zero_SessionState)))) = st :: l ∧
    st_State st = StateIdle.
Proof.
  destruct (shutdown_banner_exact (JT := SessionDemo.text) 3 "result"
    (with_shutdownPending true (newSession (set_State StateIdle zero_SessionState))) eq_refl) as [_ Hw].
  destruct Hw as (st & l & Hk & Hst).
  - right. right. split; [vm_compute; reflexivity|eexists; vm_compute; reflexivity].
  - exists st, l. split; [exact Hk|]. apply Hst. vm_compute. congruence.
Defined.

Lemma usage_is_sum_witness :
  let s' := fold_left (λ s line, handleSideEffect (JT := SessionDemo.text) 1 line s) ["result"; "bash?"; "result"]
              (newSession zero_SessionState) in
  InputTokens (st_Usage (state s')) = 10 ∧ OutputTokens (st_Usage (state s')) = 14.
Proof.
  destruct (usage_is_sum (JT := SessionDemo.text) 1 ["result"; "bash?"; "result"] (newSession zero_SessionState))
    as [A B]; [split; vm_compute; congruence|split; vm_compute; congruence|].
  cbv zeta. rewrite A, B. vm_compute. split; reflexivity.
Defined.

(** One background agent is launched, a background shell ends: the counter is
    back to zero while the agent is still running. *)
Lemma agent_counter_exact_witness :
  inFlightBackgroundAgents (agents_after (JT := SessionDemo.text)
    [(EventTypeAssistant, "agent"); (EventTypeUser, "notified")] (newSession zero_SessionState)) = 0.
Proof.
  destruct (agent_counter_exact (JT := SessionDemo.text)
    [(EventTypeAssistant, "agent"); (EventTypeUser, "notified")] (newSession zero_SessionState)) as [_ H].
  - vm_compute. congruence.
  - rewrite H; [vm_compute; reflexivity|].
    intros pre Hpre. destruct pre as [|e1 [|e2 [|e3 pre]]].
    + vm_compute. congruence.
    + destruct Hpre as [suf Hs]. injection Hs as <- Hs. vm_compute. congruence.
    + destruct Hpre as [suf Hs]. injection Hs as <- <- Hs. vm_compute. congruence.
    + destruct Hpre as [suf Hs]. injection Hs as _ _ Hs. discriminate Hs.
Defined.

Lemma truncation_members_witness :
  ∃ l, truncateEventIfNeeded (JT := SessionDemo.bulk) (SessionDemo.zeros (N.to_nat 9000000)) =
         Done (json_print (JsonText := SessionDemo.bulk) (JObj l)) ∧
    ("message", JObj [("content", JStr "...")]) ∈ l.
Proof.
  destruct (truncation_members (JT := SessionDemo.bulk) (SessionDemo.zeros (N.to_nat 9000000))
    [("type", JStr "assistant"); ("message", JObj [("content", JStr "...")])]) as (l & Hl & Hm).
  - rewrite SessionDemo.length_zeros, N2Nat.id. reflexivity.
  - reflexivity.
  - exists l. split; [exact Hl|]. apply Hm. right. split; [discriminate|]. split; [discriminate|]. reflexivity.
Defined.
