(* ===== verification/QuotaMonitor.v ===== *)
(** * The quota monitor (mclaude-session-agent/quota_monitor.go)

    One goroutine per quota-managed session.  The handlers of the source are
    functions on the monitor's state; the select loop of [run], the callbacks
    other goroutines run ([onRawOutput], [signalPermDenied], [stop]) and the
    channels between them are a labelled step relation, one atomic handler per
    step.  What the monitor publishes or writes is recorded in [out]. *)

From S2P Require Import Prelude GoStrings Json Subjects SessionState Session.
Open Scope Z_scope.

(** RFC 3339 conversions of the package [time]. *)
Class GoTime := {
  parse_rfc3339 : string → option Z;
  format_rfc3339 : Z → string;
}.

(** ** Data *)

Record monitor_config := {
  mc_sessionID : string; mc_sessionSlug : string; mc_userSlug : string;
  mc_hostSlug : string; mc_projectSlug : string;
  softThreshold : Z; hardHeadroomTokens : Z; autoContinue : bool;
  prompt : string; resumePrompt : string;
}.

(** The three messages sent to the session's input subject, lifecycle events,
    KV writes, and attempts to queue an interrupt. *)
Inductive output :=
| OSoftStop (subject text : string)
| OPrompt (subject text : string)
| ONudge (subject text : string)
| OInterrupt
| OLifecycle (evType : string) (extra : list (string * string))
| OWriteKV (st : SessionState).

(** Channels: [permDeniedCh] and [turnEnded] have one slot, [quotaCh] lists the
    NATS messages received and not yet read (capacity 16); [stopClosed] and
    [doneClosed] say whether [stopCh] and the session's [doneCh] are closed. *)
Record QuotaMonitor := {
  cfg : monitor_config;
  sess : Session;
  lastU5 : Z;
  lastR5 : Z;
  stopReason : string;
  outputTokensAtSoftMark : Z;
  outputTokensSinceSoftMark : Z;
  terminalEventPublished : bool;
  permDeniedCh : option string;
  quotaCh : list string;
  stopClosed : bool;
  turnEnded : bool;
  doneClosed : bool;
  out : list output;
}.

Definition qm_sess (v : Session) (s : QuotaMonitor) : QuotaMonitor :=
  {|
    cfg := cfg s; sess := v; lastU5 := lastU5 s; lastR5 := lastR5 s; stopReason := stopReason s;
    outputTokensAtSoftMark := outputTokensAtSoftMark s;
    outputTokensSinceSoftMark := outputTokensSinceSoftMark s;
    terminalEventPublished := terminalEventPublished s; permDeniedCh := permDeniedCh s;
    quotaCh := quotaCh s; stopClosed := stopClosed s; turnEnded := turnEnded s;
    doneClosed := doneClosed s; out := out s
  |}.
Definition qm_lastU5 (v : Z) (s : QuotaMonitor) : QuotaMonitor :=
  {|
    cfg := cfg s; sess := sess s; lastU5 := v; lastR5 := lastR5 s; stopReason := stopReason s;
    outputTokensAtSoftMark := outputTokensAtSoftMark s;
    outputTokensSinceSoftMark := outputTokensSinceSoftMark s;
    terminalEventPublished := terminalEventPublished s; permDeniedCh := permDeniedCh s;
    quotaCh := quotaCh s; stopClosed := stopClosed s; turnEnded := turnEnded s;
    doneClosed := doneClosed s; out := out s
  |}.
Definition qm_lastR5 (v : Z) (s : QuotaMonitor) : QuotaMonitor :=
  {|
    cfg := cfg s; sess := sess s; lastU5 := lastU5 s; lastR5 := v; stopReason := stopReason s;
    outputTokensAtSoftMark := outputTokensAtSoftMark s;
    outputTokensSinceSoftMark := outputTokensSinceSoftMark s;
    terminalEventPublished := terminalEventPublished s; permDeniedCh := permDeniedCh s;
    quotaCh := quotaCh s; stopClosed := stopClosed s; turnEnded := turnEnded s;
    doneClosed := doneClosed s; out := out s
  |}.
Definition qm_stopReason (v : string) (s : QuotaMonitor) : QuotaMonitor :=
  {|
    cfg := cfg s; sess := sess s; lastU5 := lastU5 s; lastR5 := lastR5 s; stopReason := v;
    outputTokensAtSoftMark := outputTokensAtSoftMark s;
    outputTokensSinceSoftMark := outputTokensSinceSoftMark s;
    terminalEventPublished := terminalEventPublished s; permDeniedCh := permDeniedCh s;
    quotaCh := quotaCh s; stopClosed := stopClosed s; turnEnded := turnEnded s;
    doneClosed := doneClosed s; out := out s
  |}.
Definition qm_outputTokensAtSoftMark (v : Z) (s : QuotaMonitor) : QuotaMonitor :=
  {|
    cfg := cfg s; sess := sess s; lastU5 := lastU5 s; lastR5 := lastR5 s;
    stopReason := stopReason s; outputTokensAtSoftMark := v;
    outputTokensSinceSoftMark := outputTokensSinceSoftMark s;
    terminalEventPublished := terminalEventPublished s; permDeniedCh := permDeniedCh s;
    quotaCh := quotaCh s; stopClosed := stopClosed s; turnEnded := turnEnded s;
    doneClosed := doneClosed s; out := out s
  |}.
Definition qm_outputTokensSinceSoftMark (v : Z) (s : QuotaMonitor) : QuotaMonitor :=
  {|
    cfg := cfg s; sess := sess s; lastU5 := lastU5 s; lastR5 := lastR5 s;
    stopReason := stopReason s; outputTokensAtSoftMark := outputTokensAtSoftMark s;
    outputTokensSinceSoftMark := v; terminalEventPublished := terminalEventPublished s;
    permDeniedCh := permDeniedCh s; quotaCh := quotaCh s; stopClosed := stopClosed s;
    turnEnded := turnEnded s; doneClosed := doneClosed s; out := out s
  |}.
Definition qm_terminalEventPublished (v : bool) (s : QuotaMonitor) : QuotaMonitor :=
  {|
    cfg := cfg s; sess := sess s; lastU5 := lastU5 s; lastR5 := lastR5 s;
    stopReason := stopReason s; outputTokensAtSoftMark := outputTokensAtSoftMark s;
    outputTokensSinceSoftMark := outputTokensSinceSoftMark s; terminalEventPublished := v;
    permDeniedCh := permDeniedCh s; quotaCh := quotaCh s; stopClosed := stopClosed s;
    turnEnded := turnEnded s; doneClosed := doneClosed s; out := out s
  |}.
Definition qm_permDeniedCh (v : option string) (s : QuotaMonitor) : QuotaMonitor :=
  {|
    cfg := cfg s; sess := sess s; lastU5 := lastU5 s; lastR5 := lastR5 s;
    stopReason := stopReason s; outputTokensAtSoftMark := outputTokensAtSoftMark s;
    outputTokensSinceSoftMark := outputTokensSinceSoftMark s;
    terminalEventPublished := terminalEventPublished s; permDeniedCh := v; quotaCh := quotaCh s;
    stopClosed := stopClosed s; turnEnded := turnEnded s; doneClosed := doneClosed s; out := out s
  |}.
Definition qm_quotaCh (v : list string) (s : QuotaMonitor) : QuotaMonitor :=
  {|
    cfg := cfg s; sess := sess s; lastU5 := lastU5 s; lastR5 := lastR5 s;
    stopReason := stopReason s; outputTokensAtSoftMark := outputTokensAtSoftMark s;
    outputTokensSinceSoftMark := outputTokensSinceSoftMark s;
    terminalEventPublished := terminalEventPublished s; permDeniedCh := permDeniedCh s;
    quotaCh := v; stopClosed := stopClosed s; turnEnded := turnEnded s;
    doneClosed := doneClosed s; out := out s
  |}.
Definition qm_stopClosed (v : bool) (s : QuotaMonitor) : QuotaMonitor :=
  {|
    cfg := cfg s; sess := sess s; lastU5 := lastU5 s; lastR5 := lastR5 s;
    stopReason := stopReason s; outputTokensAtSoftMark := outputTokensAtSoftMark s;
    outputTokensSinceSoftMark := outputTokensSinceSoftMark s;
    terminalEventPublished := terminalEventPublished s; permDeniedCh := permDeniedCh s;
    quotaCh := quotaCh s; stopClosed := v; turnEnded := turnEnded s; doneClosed := doneClosed s;
    out := out s
  |}.
Definition qm_turnEnded (v : bool) (s : QuotaMonitor) : QuotaMonitor :=
  {|
    cfg := cfg s; sess := sess s; lastU5 := lastU5 s; lastR5 := lastR5 s;
    stopReason := stopReason s; outputTokensAtSoftMark := outputTokensAtSoftMark s;
    outputTokensSinceSoftMark := outputTokensSinceSoftMark s;
    terminalEventPublished := terminalEventPublished s; permDeniedCh := permDeniedCh s;
    quotaCh := quotaCh s; stopClosed := stopClosed s; turnEnded := v; doneClosed := doneClosed s;
    out := out s
  |}.
Definition qm_doneClosed (v : bool) (s : QuotaMonitor) : QuotaMonitor :=
  {|
    cfg := cfg s; sess := sess s; lastU5 := lastU5 s; lastR5 := lastR5 s;
    stopReason := stopReason s; outputTokensAtSoftMark := outputTokensAtSoftMark s;
    outputTokensSinceSoftMark := outputTokensSinceSoftMark s;
    terminalEventPublished := terminalEventPublished s; permDeniedCh := permDeniedCh s;
    quotaCh := quotaCh s; stopClosed := stopClosed s; turnEnded := turnEnded s; doneClosed := v;
    out := out s
  |}.
Definition qm_out (v : list output) (s : QuotaMonitor) : QuotaMonitor :=
  {|
    cfg := cfg s; sess := sess s; lastU5 := lastU5 s; lastR5 := lastR5 s;
    stopReason := stopReason s; outputTokensAtSoftMark := outputTokensAtSoftMark s;
    outputTokensSinceSoftMark := outputTokensSinceSoftMark s;
    terminalEventPublished := terminalEventPublished s; permDeniedCh := permDeniedCh s;
    quotaCh := quotaCh s; stopClosed := stopClosed s; turnEnded := turnEnded s;
    doneClosed := doneClosed s; out := v
  |}.

Definition publish (o : output) (m : QuotaMonitor) : QuotaMonitor := qm_out (out m ++ [o]) m.

Definition upd_session_state (f : SessionState → SessionState) (m : QuotaMonitor) : QuotaMonitor :=
  qm_sess (upd_state f (sess m)) m.

Definition session_status (m : QuotaMonitor) : string := st_State (state (sess m)).

(** [st := m.session.state; m.writeKV(st)] *)
Definition monitor_writeKV (m : QuotaMonitor) : QuotaMonitor := publish (OWriteKV (state (sess m))) m.

Section quota_monitor.
Context `{JT : JsonText, GT : GoTime}.

(** [newQuotaMonitor]. *)
Definition newQuotaMonitor (c : monitor_config) (s : Session) : QuotaMonitor := {|
  cfg := c; sess := s; lastU5 := 0; lastR5 := 0; stopReason := "";
  outputTokensAtSoftMark := 0; outputTokensSinceSoftMark := 0; terminalEventPublished := false;
  permDeniedCh := None; quotaCh := []; stopClosed := false; turnEnded := false;
  doneClosed := false; out := [] |}.

(** [stop]: closing is guarded, so calling it twice is safe. *)
Definition stop (m : QuotaMonitor) : QuotaMonitor :=
  if stopClosed m then m else qm_stopClosed true m.

Definition signalPermDenied (toolName : string) (m : QuotaMonitor) : QuotaMonitor :=
  match permDeniedCh m with
  | None => qm_permDeniedCh (Some toolName) m
  | Some _ => m
  end.

Definition sessionsInputSubject (m : QuotaMonitor) : string :=
  let c := cfg m in
  ("mclaude.users." +:+ mc_userSlug c +:+ ".hosts." +:+ mc_hostSlug c +:+
   ".projects." +:+ mc_projectSlug c +:+ ".sessions." +:+ mc_sessionSlug c +:+ ".input")%string.

Definition sendGracefulStop (m : QuotaMonitor) : QuotaMonitor :=
  publish (OSoftStop (sessionsInputSubject m) "MCLAUDE_STOP: quota_soft") m.

Definition sendInitialPrompt (m : QuotaMonitor) : QuotaMonitor :=
  publish (OPrompt (sessionsInputSubject m) (prompt (cfg m))) m.

(** The em dash of the default text, in UTF-8. *)
Definition default_nudge : string :=
  "Resuming " +:+ string_of [226; 128; 148]%N +:+ " continue where you left off.".

Definition sendResumeNudge (m : QuotaMonitor) : QuotaMonitor :=
  let text := if String.eqb (resumePrompt (cfg m)) "" then default_nudge else resumePrompt (cfg m) in
  publish (ONudge (sessionsInputSubject m) text) m.

Definition sendHardInterrupt (m : QuotaMonitor) : QuotaMonitor :=
  publish OInterrupt (qm_sess (try_send_stdin (json_print interrupt_doc) (sess m)) m).

(** ** onRawOutput *)

Definition tracking (m : QuotaMonitor) : bool :=
  String.eqb (stopReason m) "quota_soft" || String.eqb (stopReason m) "quota_hard".

Definition hard_budget_check (m : QuotaMonitor) : QuotaMonitor :=
  if String.eqb (stopReason m) "quota_soft" && (0 <? hardHeadroomTokens (cfg m)) &&
     (hardHeadroomTokens (cfg m) <=? outputTokensSinceSoftMark m)
  then sendHardInterrupt (qm_stopReason "quota_hard" m)
  else m.

Definition estimate (raw : string) : Z := Z.of_nat (String.length raw) / 4.

Definition onRawOutput (evType raw : string) (m : QuotaMonitor) : QuotaMonitor :=
  if String.eqb evType EventTypeAssistant then
    if tracking m then
      hard_budget_check
        (qm_outputTokensSinceSoftMark (i64_add (outputTokensSinceSoftMark m) (estimate raw)) m)
    else m
  else if String.eqb evType EventTypeResult then
    let m :=
      if tracking m then
        match unmarshal (dec_struct resultEvent_fields) zero_resultEvent raw with
        | Some r =>
          if 0 <? ru_OutputTokens (re_Usage r) then
            let since := i64_sub (ru_OutputTokens (re_Usage r)) (outputTokensAtSoftMark m) in
            hard_budget_check (qm_outputTokensSinceSoftMark (if since <? 0 then 0 else since) m)
          else m
        | None => m
        end
      else m in
    qm_turnEnded true m
  else m.

(** ** handleTurnEnd *)

Definition pause_session (now : Z) (via : string) (m : QuotaMonitor) : QuotaMonitor :=
  let m := upd_session_state (λ st,
    let st := set_StateSince now (set_PausedVia via (set_State StatusPaused st)) in
    if autoContinue (cfg m) && negb (lastR5 m =? 0) then set_ResumeAt (Some (lastR5 m)) st else st) m in
  let m := monitor_writeKV m in
  qm_outputTokensSinceSoftMark 0 (qm_stopReason "" m).

Definition publish_complete (m : QuotaMonitor) : QuotaMonitor :=
  publish (OLifecycle "session_job_complete" [("sessionId", mc_sessionID (cfg m))]) m.

Definition handleTurnEnd (now : Z) (m : QuotaMonitor) : QuotaMonitor :=
  let m := qm_terminalEventPublished true m in
  if String.eqb (stopReason m) "quota_soft" then
    pause_session now "quota_soft"
      (publish (OLifecycle "session_job_paused"
         [("pausedVia", "quota_soft"); ("r5", format_rfc3339 (lastR5 m))]) m)
  else if String.eqb (stopReason m) "quota_hard" then
    pause_session now "quota_hard"
      (publish (OLifecycle "session_job_paused"
         [("pausedVia", "quota_hard"); ("r5", format_rfc3339 (lastR5 m));
          ("outputTokensSinceSoftMark", pretty.pretty (outputTokensSinceSoftMark m))]) m)
  else if String.eqb (stopReason m) "" then
    monitor_writeKV
      (upd_session_state (λ st, set_StateSince now (set_State StatusCompleted st)) (publish_complete m))
  else if String.eqb (stopReason m) "permDenied" then m
  else publish_complete m.

Definition handleSubprocessExit (now : Z) (m : QuotaMonitor) : QuotaMonitor :=
  if terminalEventPublished m then m
  else
    let m := publish (OLifecycle "session_job_failed"
      [("error", "subprocess exited without turn-end signal")]) m in
    monitor_writeKV (upd_session_state (λ st, set_StateSince now (set_State StateFailed st)) m).

(** ** The select cases of [run] *)

Definition handlePermDenied (now : Z) (toolName : string) (m : QuotaMonitor) : QuotaMonitor :=
  if String.eqb (stopReason m) "" then
    monitor_writeKV
      (upd_session_state (λ st, set_StateSince now (set_FailedTool toolName (set_State StatusNeedsSpecFix st)))
         (qm_stopReason "permDenied" m))
  else m.

Record QuotaStatus := { qs_HasData : bool; qs_U5 : Z; qs_R5 : Z; qs_U7 : Z; qs_R7 : Z; qs_TS : Z }.
Definition no_quota : QuotaStatus := {| qs_HasData := false; qs_U5 := 0; qs_R5 := 0; qs_U7 := 0; qs_R7 := 0; qs_TS := 0 |}.

Definition dec_time : decoder Z := λ j cur,
  match j with
  | JNull => (cur, true)
  | JStr s => match parse_rfc3339 s with Some t => (t, true) | None => (cur, false) end
  | _ => (cur, false)
  end.

Definition QuotaStatus_fields : list (field QuotaStatus) :=
  [ fld "hasData" dec_bool qs_HasData (λ v q, {| qs_HasData := v; qs_U5 := qs_U5 q; qs_R5 := qs_R5 q; qs_U7 := qs_U7 q; qs_R7 := qs_R7 q; qs_TS := qs_TS q |});
    fld "u5" dec_int qs_U5 (λ v q, {| qs_HasData := qs_HasData q; qs_U5 := v; qs_R5 := qs_R5 q; qs_U7 := qs_U7 q; qs_R7 := qs_R7 q; qs_TS := qs_TS q |});
    fld "r5" dec_time qs_R5 (λ v q, {| qs_HasData := qs_HasData q; qs_U5 := qs_U5 q; qs_R5 := v; qs_U7 := qs_U7 q; qs_R7 := qs_R7 q; qs_TS := qs_TS q |});
    fld "u7" dec_int qs_U7 (λ v q, {| qs_HasData := qs_HasData q; qs_U5 := qs_U5 q; qs_R5 := qs_R5 q; qs_U7 := v; qs_R7 := qs_R7 q; qs_TS := qs_TS q |});
    fld "r7" dec_time qs_R7 (λ v q, {| qs_HasData := qs_HasData q; qs_U5 := qs_U5 q; qs_R5 := qs_R5 q; qs_U7 := qs_U7 q; qs_R7 := v; qs_TS := qs_TS q |});
    fld "ts" dec_time qs_TS (λ v q, {| qs_HasData := qs_HasData q; qs_U5 := qs_U5 q; qs_R5 := qs_R5 q; qs_U7 := qs_U7 q; qs_R7 := qs_R7 q; qs_TS := v |}) ].

Definition decode_quota (data : string) : option QuotaStatus :=
  unmarshal (dec_struct QuotaStatus_fields) no_quota data.

(** An [autoContinue] session is not resumed before its resume time. *)
Definition too_early (now : Z) (m : QuotaMonitor) : bool :=
  autoContinue (cfg m) && match st_ResumeAt (state (sess m)) with Some t => now <? t | None => false end.

Definition handleQuotaStatus (now : Z) (qs : QuotaStatus) (m : QuotaMonitor) : QuotaMonitor :=
  let m := qm_lastR5 (qs_R5 qs) (qm_lastU5 (qs_U5 qs) m) in
  if negb (qs_HasData qs) then m
  else if (softThreshold (cfg m) <=? qs_U5 qs) && String.eqb (stopReason m) "" then
    let m := qm_stopReason "quota_soft" m in
    let m := qm_outputTokensAtSoftMark (OutputTokens (st_Usage (state (sess m)))) m in
    let m := sendGracefulStop (qm_outputTokensSinceSoftMark 0 m) in
    if hardHeadroomTokens (cfg m) =? 0
    then sendHardInterrupt (qm_stopReason "quota_hard" m)
    else m
  else if String.eqb (session_status m) StatusPending && (qs_U5 qs <? softThreshold (cfg m)) then
    monitor_writeKV (upd_session_state (λ st, set_StateSince now (set_State StateRunning st)) (sendInitialPrompt m))
  else if String.eqb (session_status m) StatusPaused && (qs_U5 qs <? softThreshold (cfg m)) then
    if too_early now m
    then m
    else
      monitor_writeKV
        (upd_session_state
           (λ st, set_StateSince now (set_ResumeAt None (set_PausedVia "" (set_State StateRunning st))))
           (sendResumeNudge m))
  else m.

Definition handleQuota (now : Z) (data : string) (m : QuotaMonitor) : QuotaMonitor :=
  match decode_quota data with
  | None => m
  | Some qs => handleQuotaStatus now qs m
  end.

(** The [doneCh] case up to [close(m.stopCh)]: a turn end still in the channel
    is handled before the exit. *)
Definition handleDone (now : Z) (m : QuotaMonitor) : QuotaMonitor :=
  let m := if turnEnded m then handleTurnEnd now (qm_turnEnded false m) else m in
  handleSubprocessExit now m.

(** ** The goroutine and its environment *)

(** Where the loop of [run] is: before the priority check, before the full
    select, returned, or dead by a panic (closing a closed channel). *)
Inductive phase := RTop | RSelect | RExited | RPanicked.

Inductive label :=
| LPriorityTurnEnd (now : Z)
| LNoTurnEnd
| LStop
| LPermDenied (now : Z)
| LQuota (now : Z)
| LTurnEnd (now : Z)
| LDone (now : Z)
| EOutput (evType raw : string)
| ESideEffect (now : Z) (line : string)
| ESignalPermDenied (tool : string)
| EStop
| EQuota (data : string)
| EStdinDrained
| EProcessDone.

Definition world : Type := QuotaMonitor * phase.

(** The goroutine's steps (L) and those of other goroutines (E): the stdout
    router runs [onRawOutput] and [handleSideEffect] until it closes [doneCh];
    the strict-deny callback, handleDelete's [stop], the NATS client and the
    stdin writer run at any time. *)
Inductive mstep : label → world → world → Prop :=
| step_priority now m :
    turnEnded m = true →
    mstep (LPriorityTurnEnd now) (m, RTop) (handleTurnEnd now (qm_turnEnded false m), RTop)
| step_no_turn_end m :
    turnEnded m = false → mstep LNoTurnEnd (m, RTop) (m, RSelect)
| step_stop m :
    stopClosed m = true → mstep LStop (m, RSelect) (m, RExited)
| step_perm_denied now tool m :
    permDeniedCh m = Some tool →
    mstep (LPermDenied now) (m, RSelect) (handlePermDenied now tool (qm_permDeniedCh None m), RTop)
| step_quota now data rest m :
    quotaCh m = data :: rest →
    mstep (LQuota now) (m, RSelect) (handleQuota now data (qm_quotaCh rest m), RTop)
| step_turn_end now m :
    turnEnded m = true →
    mstep (LTurnEnd now) (m, RSelect) (handleTurnEnd now (qm_turnEnded false m), RTop)
| step_done now m :
    doneClosed m = true →
    mstep (LDone now) (m, RSelect)
      (if stopClosed m then (handleDone now m, RPanicked)
       else (qm_stopClosed true (handleDone now m), RExited))
| env_output evType raw m ph :
    doneClosed m = false → mstep (EOutput evType raw) (m, ph) (onRawOutput evType raw m, ph)
| env_side_effect now line m ph :
    doneClosed m = false →
    mstep (ESideEffect now line) (m, ph) (qm_sess (handleSideEffect now line (sess m)) m, ph)
| env_perm_denied tool m ph :
    mstep (ESignalPermDenied tool) (m, ph) (signalPermDenied tool m, ph)
| env_stop m ph : mstep EStop (m, ph) (stop m, ph)
| env_quota data m ph :
    (length (quotaCh m) < 16)%nat → mstep (EQuota data) (m, ph) (qm_quotaCh (quotaCh m ++ [data]) m, ph)
| env_stdin line rest m ph :
    stdinCh (sess m) = line :: rest → mstep EStdinDrained (m, ph) (qm_sess (with_stdinCh rest (sess m)) m, ph)
| env_done m ph : mstep EProcessDone (m, ph) (qm_doneClosed true m, ph).

Inductive runs : list label → world → world → Prop :=
| runs_nil w : runs [] w w
| runs_cons l ls w1 w2 w3 : mstep l w1 w2 → runs ls w2 w3 → runs (l :: ls) w1 w3.

Definition initial (c : monitor_config) (s : Session) : world := (newQuotaMonitor c s, RTop).

Definition reachable (c : monitor_config) (s : Session) (w : world) : Prop :=
  ∃ ls, runs ls (initial c s) w.

(** ** Counting what was published *)

Definition is_interrupt (o : output) : bool := match o with OInterrupt => true | _ => false end.
Definition is_soft_stop (o : output) : bool := match o with OSoftStop _ _ => true | _ => false end.
Definition is_lifecycle (ev : string) (o : output) : bool :=
  match o with OLifecycle e _ => String.eqb e ev | _ => false end.

Definition count (p : output → bool) (l : list output) : nat := length (List.filter p l).

#[global] Arguments count : simpl never.

Lemma count_one p o : count p [o] = if p o then 1%nat else 0%nat.
Proof. unfold count. cbn. by destruct (p o). Qed.

Lemma count_app p l1 l2 : count p (l1 ++ l2) = (count p l1 + count p l2)%nat.
Proof. unfold count. by rewrite List.filter_app, length_app. Qed.

Definition soft_stops (m : QuotaMonitor) : nat := count is_soft_stop (out m).
Definition interrupts (m : QuotaMonitor) : nat := count is_interrupt (out m).
Definition published (ev : string) (m : QuotaMonitor) : nat := count (is_lifecycle ev) (out m).

Definition one_if (b : bool) : nat := if b then 1%nat else 0%nat.

Definition stop_reasons : list string := [""; "quota_soft"; "quota_hard"; "permDenied"].

(** The accounting of soft stops, interrupts and pauses. *)
Record ledger (m : QuotaMonitor) : Prop := {
  ledger_reason : stopReason m ∈ stop_reasons;
  ledger_pauses : soft_stops m = (published "session_job_paused" m + one_if (tracking m))%nat;
  ledger_interrupts : (interrupts m + one_if (String.eqb (stopReason m) "quota_soft") ≤ soft_stops m)%nat;
}.

Lemma stop_reason_cases m :
  stopReason m ∈ stop_reasons →
  stopReason m = "" ∨ stopReason m = "quota_soft" ∨ stopReason m = "quota_hard" ∨ stopReason m = "permDenied".
Proof. unfold stop_reasons. rewrite !elem_of_cons, elem_of_nil. naive_solver. Qed.

(** The monitor state after a handler is an explicit record update: expose its
    [stopReason] and its [out], then count. *)
Ltac ledger_solve :=
  constructor; unfold soft_stops, interrupts, published, tracking in *; cbn;
  repeat match goal with H : stopReason _ = _ |- _ => progress rewrite H in * end;
  rewrite ?count_app, ?count_one; cbn in *; try lia;
  try (unfold stop_reasons; set_solver).

Lemma ledger_ext m m' :
  stopReason m' = stopReason m → out m' = out m → ledger m → ledger m'.
Proof.
  intros Hr Ho [H1 H2 H3]. constructor; unfold soft_stops, interrupts, published, tracking in *;
    by rewrite ?Hr, ?Ho.
Qed.

Lemma ledger_hard_budget m : ledger m → ledger (hard_budget_check m).
Proof.
  intros Hl. pose proof Hl as [Hrs Hps Hint]. unfold hard_budget_check.
  destruct (String.eqb_spec (stopReason m) "quota_soft") as [Hs|]; cbn [andb]; [|done].
  case_match; [|done]. ledger_solve.
Qed.

Lemma ledger_turnEnded b m : ledger m → ledger (qm_turnEnded b m).
Proof. by apply ledger_ext. Qed.

Lemma ledger_onRawOutput evType raw m : ledger m → ledger (onRawOutput evType raw m).
Proof.
  intros Hl. unfold onRawOutput.
  assert (Hset : ∀ v, ledger (hard_budget_check (qm_outputTokensSinceSoftMark v m)))
    by (intros v; by apply ledger_hard_budget, (ledger_ext m)).
  repeat case_match; auto using ledger_turnEnded.
Qed.

Lemma ledger_handleTurnEnd now m : ledger m → ledger (handleTurnEnd now m).
Proof.
  intros [Hrs Hps Hint]. unfold handleTurnEnd.
  destruct (stop_reason_cases m Hrs) as [Hr|[Hr|[Hr|Hr]]]; cbn; rewrite Hr; cbn; ledger_solve.
Qed.

Lemma ledger_handleSubprocessExit now m : ledger m → ledger (handleSubprocessExit now m).
Proof.
  intros [Hrs Hps Hint]. unfold handleSubprocessExit. case_match; [done|]. ledger_solve.
Qed.

Lemma ledger_handlePermDenied now tool m : ledger m → ledger (handlePermDenied now tool m).
Proof.
  intros [Hrs Hps Hint]. unfold handlePermDenied.
  destruct (String.eqb_spec (stopReason m) "") as [Hr|]; [ledger_solve|done].
Qed.

Lemma ledger_handleQuota now data m : ledger m → ledger (handleQuota now data m).
Proof.
  intros Hl. unfold handleQuota. destruct (decode_quota data) as [qs|]; [|done].
  unfold handleQuotaStatus. set (m1 := qm_lastR5 _ _).
  assert (Hl1 : ledger m1) by by apply (ledger_ext m). clearbody m1. destruct Hl1 as [Hrs Hps Hint].
  case_match; [done|].
  destruct (softThreshold (cfg m1) <=? qs_U5 qs); cbn [andb].
  - destruct (String.eqb_spec (stopReason m1) "") as [Hr|].
    + case_match; ledger_solve.
    + repeat case_match; try done; ledger_solve.
  - repeat case_match; try done; ledger_solve.
Qed.

Lemma ledger_handleDone now m : ledger m → ledger (handleDone now m).
Proof.
  intros Hl. unfold handleDone. apply ledger_handleSubprocessExit.
  case_match; [|done]. apply ledger_handleTurnEnd. by apply (ledger_ext m).
Qed.

Lemma ledger_mstep l w w' : mstep l w w' → ledger w.1 → ledger w'.1.
Proof.
  intros Hs. destruct Hs; cbn; intros Hl; try done;
    try (by apply (ledger_ext m)).
  - apply ledger_handleTurnEnd. by apply (ledger_ext m).
  - apply ledger_handlePermDenied. by apply (ledger_ext m).
  - apply ledger_handleQuota. by apply (ledger_ext m).
  - apply ledger_handleTurnEnd. by apply (ledger_ext m).
  - pose proof (ledger_handleDone now m Hl) as Hd.
    case_match; cbn; [done|]. by apply (ledger_ext (handleDone now m)).
  - by apply ledger_onRawOutput.
  - unfold signalPermDenied. case_match; [done|]. by apply (ledger_ext m).
  - unfold stop. case_match; [done|]. by apply (ledger_ext m).
Qed.

(** An invariant of the steps holds along every run. *)
Lemma runs_invariant (P : world → Prop) ls w w' :
  (∀ l w1 w2, mstep l w1 w2 → P w1 → P w2) → runs ls w w' → P w → P w'.
Proof. intros Hstep Hr. induction Hr; eauto. Qed.

(** In every reachable state of the monitor and its environment the stop reason
    is one of the four documented ones (the default branch of [handleTurnEnd]
    is dead code); every soft stop sent to the session has been answered by
    exactly one [session_job_paused] event or is the one still awaited; and
    there is at most one hard interrupt per soft stop. *)
Theorem soft_stops_are_paused c s w :
  reachable c s w →
  stopReason w.1 ∈ stop_reasons ∧
  soft_stops w.1 = (published "session_job_paused" w.1 + one_if (tracking w.1))%nat ∧
  (interrupts w.1 + one_if (String.eqb (stopReason w.1) "quota_soft") ≤ soft_stops w.1)%nat.
Proof.
  intros [ls Hr].
  enough (ledger w.1) as [] by done.
  eapply (runs_invariant (λ w, ledger w.1)); [intros ???; apply ledger_mstep|done|].
  unfold initial. ledger_solve.
Qed.

(** ** How a job ends *)

Definition failed_ev : string := "session_job_failed".
Definition ended (m : QuotaMonitor) : nat :=
  (published "session_job_complete" m + published "session_job_paused" m)%nat.

(** What the exit logic looks at. *)
Record same_control (m m' : QuotaMonitor) : Prop := {
  sc_failed : published failed_ev m' = published failed_ev m;
  sc_ended : ended m' = ended m;
  sc_terminal : terminalEventPublished m' = terminalEventPublished m;
  sc_turn : turnEnded m' = turnEnded m;
  sc_stop : stopClosed m' = stopClosed m;
  sc_done : doneClosed m' = doneClosed m;
}.

#[local] Instance same_control_preorder : PreOrder same_control.
Proof. split; [done|]. intros x y z [] []. split; congruence. Qed.

Ltac control_solve :=
  split; unfold ended, published in *; cbn; rewrite ?count_app, ?count_one; cbn; try lia; try done.

Lemma control_hard_budget m : same_control m (hard_budget_check m).
Proof. unfold hard_budget_check. case_match; [control_solve|done]. Qed.

Lemma control_since v m : same_control m (hard_budget_check (qm_outputTokensSinceSoftMark v m)).
Proof. trans (qm_outputTokensSinceSoftMark v m); [done|apply control_hard_budget]. Qed.

Lemma control_onRawOutput evType raw m :
  same_control (qm_turnEnded (String.eqb evType EventTypeResult || turnEnded m) m) (onRawOutput evType raw m).
Proof.
  unfold onRawOutput. destruct (String.eqb_spec evType EventTypeAssistant) as [->|Hne].
  - cbn. case_match; [|by destruct m]. by destruct (control_since (i64_add (outputTokensSinceSoftMark m) (estimate raw)) m).
  - destruct (String.eqb_spec evType EventTypeResult) as [->|]; cbn; [|by destruct m].
    assert (Ht : ∀ m', same_control m m' → same_control (qm_turnEnded true m) (qm_turnEnded true m'))
      by (intros ? []; by split).
    apply Ht. repeat case_match; auto using control_since; done.
Qed.

Lemma control_handlePermDenied now tool m : same_control m (handlePermDenied now tool m).
Proof. unfold handlePermDenied. case_match; [control_solve|done]. Qed.

Lemma control_handleQuota now data m : same_control m (handleQuota now data m).
Proof.
  unfold handleQuota, handleQuotaStatus.
  repeat match goal with |- context [match ?x with _ => _ end] => destruct x end;
    try done; control_solve.
Qed.

(** A turn end publishes at most one terminal event, never a failure. *)
Lemma control_handleTurnEnd now m :
  let m' := handleTurnEnd now m in
  published failed_ev m' = published failed_ev m ∧ terminalEventPublished m' = true ∧
  turnEnded m' = turnEnded m ∧ stopClosed m' = stopClosed m ∧ doneClosed m' = doneClosed m.
Proof.
  unfold handleTurnEnd, published. cbn.
  repeat case_match; cbn; rewrite ?count_app, ?count_one; cbn; repeat split; lia.
Qed.

(** The output event that ends a turn. *)
Definition is_result_output (l : label) : bool :=
  match l with EOutput evType _ => String.eqb evType EventTypeResult | _ => false end.

Definition is_stop (l : label) : bool := match l with EStop => true | _ => false end.

Definition result_seen (ls : list label) : bool := existsb is_result_output ls.
Definition stop_seen (ls : list label) : bool := existsb is_stop ls.

Record history (ls : list label) (w : world) : Prop := {
  h_result : result_seen ls = turnEnded w.1 || terminalEventPublished w.1;
  h_ended : terminalEventPublished w.1 = false → ended w.1 = 0%nat;
  h_failed : published failed_ev w.1 = 0%nat ∨
    (published failed_ev w.1 = 1%nat ∧ doneClosed w.1 = true ∧ turnEnded w.1 = false ∧
     terminalEventPublished w.1 = false ∧ (w.2 = RExited ∨ w.2 = RPanicked));
  h_stop : stopClosed w.1 = true → stop_seen ls = true ∨ w.2 = RExited;
  h_panic : w.2 = RPanicked → stop_seen ls = true;
}.

Lemma seen_snoc (f : label → bool) ls l : existsb f (ls ++ [l]) = existsb f ls || f l.
Proof. rewrite existsb_app. cbn. by rewrite orb_false_r. Qed.

Definition live (ph : phase) : Prop := ph = RTop ∨ ph = RSelect.

(** A step that leaves the control state alone. *)
Lemma history_same ls l m m' ph ph' :
  history ls (m, ph) → same_control m m' → is_result_output l = false → is_stop l = false →
  (ph' = ph ∨ live ph ∧ ph' ≠ RPanicked) → history (ls ++ [l]) (m', ph').
Proof.
  intros [] [] Hr Hs Hph. cbn in *.
  constructor; cbn; unfold result_seen, stop_seen in *;
    rewrite ?seen_snoc, ?Hr, ?Hs, ?orb_false_r; try congruence.
  - intros. rewrite sc_ended0. apply h_ended0. congruence.
  - rewrite sc_failed0, sc_turn0, sc_terminal0, sc_done0.
    unfold live in *. naive_solver.
  - rewrite sc_stop0. intros Hc. destruct (h_stop0 Hc) as [|Hx]; [by left|].
    destruct Hph as [->|[[Hl|Hl] _]]; [by right|congruence..].
  - intros ->. destruct Hph as [Hx|[_ Hx]]; [|done]. auto.
Qed.

(** Reading the turn end, in either select. *)
Lemma history_turn_end ls l now m ph :
  history ls (m, ph) → live ph → turnEnded m = true → is_result_output l = false → is_stop l = false →
  history (ls ++ [l]) (handleTurnEnd now (qm_turnEnded false m), RTop).
Proof.
  intros [] Hl Ht Hr Hs. cbn in *.
  destruct (control_handleTurnEnd now (qm_turnEnded false m)) as (Hf & Hterm & Htu & Hst & Hdo).
  constructor; cbn; unfold result_seen, stop_seen in *;
    rewrite ?seen_snoc, ?Hr, ?Hs, ?orb_false_r, ?Hf, ?Hterm, ?Htu, ?Hst, ?Hdo; cbn; try done.
  - by rewrite h_result0, Ht.
  - left. destruct h_failed0 as [Hz|(_ & _ & Hx & _)]; [done|congruence].
  - intros Hc. left. destruct (h_stop0 Hc) as [|Hx]; [done|]. destruct Hl; congruence.
Qed.

(** What the exit of the process leads to. *)
Lemma handleDone_outcome now m :
  (turnEnded m || terminalEventPublished m = false → ended m = 0%nat) →
  published failed_ev m = 0%nat →
  let m' := handleDone now m in
  turnEnded m' = false ∧ doneClosed m' = doneClosed m ∧ stopClosed m' = stopClosed m ∧
  (if turnEnded m || terminalEventPublished m
   then published failed_ev m' = 0%nat ∧ terminalEventPublished m' = true
   else published failed_ev m' = 1%nat ∧ ended m' = 0%nat ∧ terminalEventPublished m' = false ∧
        session_status m' = StateFailed).
Proof.
  intros He Hf. unfold handleDone, handleSubprocessExit.
  destruct (turnEnded m) eqn:Ht; cbn in *.
  - destruct (control_handleTurnEnd now (qm_turnEnded false m)) as (Hf' & Hterm & Htu & Hst & Hdo).
    rewrite Hterm, Hf', Htu, Hst, Hdo. done.
  - destruct (terminalEventPublished m) eqn:Hp; [by rewrite Ht, Hf, Hp|].
    unfold session_status, ended, published in *. cbn.
    rewrite ?count_app, ?count_one, Hf. cbn. specialize (He eq_refl).
    repeat split; try done; lia.
Qed.

Lemma history_failed_zero ls m ph : history ls (m, ph) → live ph ∨ doneClosed m = false → published failed_ev m = 0%nat.
Proof.
  intros [_ _ [Hz|(_ & Hd & _ & _ & Hp)] _ _] Hl; [done|]. cbn in *. exfalso.
  destruct Hl as [[->| ->]|Hl]; [by destruct Hp..|congruence].
Qed.

Lemma history_done ls now m :
  history ls (m, RSelect) → doneClosed m = true →
  history (ls ++ [LDone now])
    (if stopClosed m then (handleDone now m, RPanicked)
     else (qm_stopClosed true (handleDone now m), RExited)).
Proof.
  intros Hh Hd. pose proof (history_failed_zero _ _ _ Hh (or_introl (or_intror eq_refl))) as Hz.
  destruct Hh as [Hr He _ Hst _]. cbn in *.
  destruct (handleDone_outcome now m) as (Ht & Hdo & Hsc & Ho); [|done|].
  { destruct (turnEnded m), (terminalEventPublished m); cbn; auto; done. }
  destruct (turnEnded m || terminalEventPublished m) eqn:Hs.
  - destruct Ho as [Ho Htm].
    destruct (stopClosed m) eqn:Hsm; constructor; cbn; unfold result_seen, stop_seen in *;
      rewrite ?seen_snoc, ?orb_false_r, ?Hr, ?Ht, ?Htm; cbn; auto; try done;
      naive_solver.
  - destruct Ho as (Ho & He' & Htm & _).
    destruct (stopClosed m) eqn:Hsm; constructor; cbn; unfold result_seen, stop_seen in *;
      rewrite ?seen_snoc, ?orb_false_r, ?Hr, ?Ht, ?Htm, ?Hdo; cbn; auto; try done;
      try (right; repeat split; by auto);
      naive_solver.
Qed.

Lemma history_output ls evType raw m ph :
  history ls (m, ph) → doneClosed m = false →
  history (ls ++ [EOutput evType raw]) (onRawOutput evType raw m, ph).
Proof.
  intros Hh Hd. pose proof (history_failed_zero _ _ _ Hh (or_intror Hd)) as Hz.
  destruct Hh as [Hr He _ Hst Hp]. destruct (control_onRawOutput evType raw m) as [Cf Ce Ct Cu Cs Cd].
  cbn in *. constructor; cbn; unfold result_seen, stop_seen in *;
    rewrite ?seen_snoc, ?Ct, ?Cu, ?Cs, ?Hr; cbn; rewrite ?orb_false_r; auto.
  - destruct (turnEnded m), (terminalEventPublished m), (String.eqb evType EventTypeResult); done.
  - intros Htm. rewrite Ce. by apply He.
  - left. by rewrite Cf.
Qed.

Lemma history_stop_step ls m ph : history ls (m, ph) → history (ls ++ [EStop]) (stop m, ph).
Proof.
  intros [Hr He Hf Hst Hp]. cbn in *.
  constructor; unfold stop, result_seen, stop_seen in *; rewrite ?seen_snoc, ?orb_true_r; cbn;
    destruct (stopClosed m); cbn; rewrite ?orb_false_r; auto.
Qed.

Lemma history_process_done ls m ph : history ls (m, ph) → history (ls ++ [EProcessDone]) (qm_doneClosed true m, ph).
Proof.
  intros [Hr He Hf Hst Hp]. cbn in *.
  constructor; cbn; unfold result_seen, stop_seen in *; rewrite ?seen_snoc, ?orb_false_r; auto.
  destruct Hf as [|(? & ? & ?)]; auto.
Qed.

Lemma history_step ls l w w' : history ls w → mstep l w w' → history (ls ++ [l]) w'.
Proof.
  intros Hh Hs. destruct Hs.
  - eapply history_turn_end; eauto; by left.
  - eapply history_same; [done|done|done|done|]. right. split; [by left|done].
  - eapply history_same; [done|done|done|done|]. right. split; [by right|done].
  - eapply history_same; [done| |done|done|right; split; [by right|done]].
    trans (qm_permDeniedCh None m); [done|apply control_handlePermDenied].
  - eapply history_same; [done| |done|done|right; split; [by right|done]].
    trans (qm_quotaCh rest m); [done|apply control_handleQuota].
  - eapply history_turn_end; eauto; by right.
  - by apply history_done.
  - by apply history_output.
  - by eapply history_same; [done| |done|done|left].
  - eapply history_same; [done| |done|done|by left]. unfold signalPermDenied. by case_match.
  - by apply history_stop_step.
  - by eapply history_same; [done| |done|done|left].
  - by eapply history_same; [done| |done|done|left].
  - by apply history_process_done.
Qed.

Lemma history_runs ls0 ls w w' : history ls0 w → runs ls w w' → history (ls0 ++ ls) w'.
Proof.
  intros Hh Hr. revert ls0 Hh. induction Hr as [w|l ls w1 w2 w3 Hs Hr IH]; intros ls0 Hh.
  - by rewrite app_nil_r.
  - rewrite (assoc_L (++) ls0 [l] ls : ls0 ++ l :: ls = _). eauto using history_step.
Qed.

Lemma history_initial c s ls w : runs ls (initial c s) w → history ls w.
Proof.
  intros Hr. apply (history_runs [] ls (initial c s)); [|done].
  constructor; cbn; auto; done.
Qed.

(** [permDenied] is final. *)
Lemma permDenied_hard_budget m :
  stopReason m = "permDenied" → stopReason (hard_budget_check m) = "permDenied".
Proof. intros Hr. unfold hard_budget_check. by rewrite Hr. Qed.

Lemma permDenied_handleTurnEnd now m :
  stopReason m = "permDenied" → stopReason (handleTurnEnd now m) = "permDenied".
Proof. intros Hr. unfold handleTurnEnd. cbn. by rewrite Hr. Qed.

Lemma permDenied_mstep l w w' :
  mstep l w w' → stopReason w.1 = "permDenied" → stopReason w'.1 = "permDenied".
Proof.
  intros Hs Hr. destruct Hs; cbn in *; try done; try by apply permDenied_handleTurnEnd.
  - unfold handlePermDenied. cbn. by rewrite Hr.
  - unfold handleQuota. destruct (decode_quota data) as [qs|]; [|done].
    unfold handleQuotaStatus. cbn. rewrite Hr. cbn. rewrite andb_false_r. by repeat case_match.
  - assert (stopReason (handleDone now m) = "permDenied") as Hd.
    { unfold handleDone, handleSubprocessExit. repeat case_match; cbn; auto using permDenied_handleTurnEnd. }
    by destruct (stopClosed m).
  - unfold onRawOutput, tracking. rewrite Hr. cbn. by repeat case_match.
  - unfold signalPermDenied. by case_match.
  - unfold stop. by case_match.
Qed.

(** A turn end is always accounted for. *)
Definition accounted (w : world) : Prop :=
  terminalEventPublished w.1 = true → (1 ≤ ended w.1)%nat ∨ stopReason w.1 = "permDenied".

Lemma accounted_handleTurnEnd now m : (1 ≤ ended (handleTurnEnd now m))%nat ∨ stopReason (handleTurnEnd now m) = "permDenied".
Proof.
  unfold handleTurnEnd, ended, published. cbn.
  repeat case_match; cbn; rewrite ?count_app, ?count_one; cbn;
    repeat match goal with H : String.eqb _ _ = true |- _ => apply String.eqb_eq in H end; auto; left; lia.
Qed.

Lemma accounted_exit now m m1 :
  (terminalEventPublished m1 = true → (1 ≤ ended m1)%nat ∨ stopReason m1 = "permDenied") →
  m = handleSubprocessExit now m1 →
  terminalEventPublished m = true → (1 ≤ ended m)%nat ∨ stopReason m = "permDenied".
Proof.
  intros Ha ->. unfold handleSubprocessExit.
  destruct (terminalEventPublished m1) eqn:Ht; [auto|]. cbn. congruence.
Qed.

Lemma accounted_same m m' ph ph' l :
  accounted (m, ph) → mstep l (m, ph) (m', ph') → ended m' = ended m →
  terminalEventPublished m' = terminalEventPublished m → accounted (m', ph').
Proof.
  intros Ha Hs He Ht Hm. cbn in *. destruct Ha as [H|H]; cbn in *; [congruence|left; lia|right].
  by apply (permDenied_mstep l (m, ph) (m', ph')).
Qed.

Lemma accounted_step l w w' : mstep l w w' → accounted w → accounted w'.
Proof.
  intros Hs Ha. destruct w as [m ph], w' as [m' ph'].
  assert (Hq : same_control m m' → accounted (m', ph')) by (intros []; by eapply accounted_same).
  remember (m, ph) as w0 eqn:E0. remember (m', ph') as w1 eqn:E1. destruct Hs; simplify_eq; cbn;
    try (by apply Hq); try (intros _; by apply accounted_handleTurnEnd).
  - apply Hq. trans (qm_permDeniedCh None m); [done|apply control_handlePermDenied].
  - apply Hq. trans (qm_quotaCh rest m); [done|apply control_handleQuota].
  - assert (accounted (handleDone now m, RTop)) as Hd.
    { intros Ht. eapply accounted_exit; [|done|done]. clear Ht.
      destruct (turnEnded m); [intros _; apply accounted_handleTurnEnd|exact Ha]. }
    destruct (stopClosed m); simplify_eq; exact Hd.
  - destruct (control_onRawOutput evType raw m).
    eapply accounted_same; [done|by apply env_output|done|done].
  - apply Hq. unfold signalPermDenied. by case_match.
  - unfold stop. case_match; done.
  - exact Ha.
Qed.

(** C17. When the goroutine handles the exit of the process it publishes
    [session_job_failed] exactly when no result event was ever seen in the run,
    and then nothing else was published about the job's end and the session is
    [failed]; otherwise a completion or a pause has been published, unless the
    job was stopped for a denied permission. *)
Theorem exit_outcome_exact c s ls m now w' :
  runs ls (initial c s) (m, RSelect) →
  mstep (LDone now) (m, RSelect) w' →
  published failed_ev w'.1 = one_if (negb (result_seen ls)) ∧
  (result_seen ls = false → ended w'.1 = 0%nat ∧ session_status w'.1 = StateFailed) ∧
  (result_seen ls = true → (1 ≤ ended w'.1)%nat ∨ stopReason w'.1 = "permDenied").
Proof.
  intros Hr Hs. pose proof (history_initial _ _ _ _ Hr) as Hh.
  assert (Ha : accounted w').
  { eapply accounted_step; [exact Hs|].
    eapply (runs_invariant accounted); [apply accounted_step|exact Hr|done]. }
  pose proof (history_failed_zero _ _ _ Hh (or_introl (or_intror eq_refl))) as Hz.
  destruct Hh as [Hre He _ _ _]. cbn in *.
  destruct (handleDone_outcome now m) as (Ht & Hdo & Hsc & Ho); [|done|].
  { destruct (turnEnded m), (terminalEventPublished m); cbn; auto; done. }
  rewrite <- Hre in Ho. unfold accounted in Ha.
  inversion Hs; subst. destruct (stopClosed m), (result_seen ls); cbn in *; naive_solver.
Qed.

(** At most one [session_job_failed] per monitor, only in runs without a result
    event, and never together with a completion or a pause. *)
Theorem failed_excludes_other_ends c s ls w :
  runs ls (initial c s) w →
  (published failed_ev w.1 ≤ 1)%nat ∧
  ((1 ≤ published failed_ev w.1)%nat → result_seen ls = false ∧ ended w.1 = 0%nat).
Proof.
  intros Hr. destruct (history_initial _ _ _ _ Hr) as [Hre He [Hf|(Hf & _ & Ht & Htm & _)] _ _].
  - rewrite Hf. split; [lia|]. lia.
  - rewrite Hf. split; [lia|]. intros _. rewrite Hre, Ht, Htm. split; [done|]. by apply He.
Qed.

(** ** Termination of the goroutine *)

Definition goroutine_step (l : label) : bool :=
  match l with
  | LPriorityTurnEnd _ | LNoTurnEnd | LStop | LPermDenied _ | LQuota _ | LTurnEnd _ | LDone _ => true
  | _ => false
  end.

(** Once the process has exited, the goroutine can return (or panic) within
    three steps of its own, whatever is in its channels. *)
Theorem exit_terminates m ph :
  doneClosed m = true → live ph →
  ∃ ls m' ph', runs ls (m, ph) (m', ph') ∧ forallb goroutine_step ls = true ∧
    (length ls ≤ 3)%nat ∧ ¬ live ph'.
Proof.
  intros Hd Hl.
  assert (Hsel : ∀ m, doneClosed m = true →
    ∃ m' ph', mstep (LDone 0) (m, RSelect) (m', ph') ∧ ¬ live ph').
  { intros m0 Hd0. destruct (stopClosed m0) eqn:Hs; eexists _, _; (split; [pose proof (step_done 0 m0 Hd0) as Hx; rewrite Hs in Hx; exact Hx|by intros []]). }
  destruct Hl as [->| ->].
  - destruct (turnEnded m) eqn:Ht.
    + pose proof (control_handleTurnEnd 0 (qm_turnEnded false m)) as (_ & _ & Htu & _ & Hdo).
      destruct (Hsel (handleTurnEnd 0 (qm_turnEnded false m))) as (m' & ph' & Hs & Hn); [by rewrite Hdo|].
      exists [LPriorityTurnEnd 0; LNoTurnEnd; LDone 0], m', ph'.
      split; [|split; [done|split; [cbn; lia|done]]].
      econstructor; [by apply step_priority|]. econstructor; [by apply step_no_turn_end|].
      econstructor; [done|constructor].
    + destruct (Hsel m Hd) as (m' & ph' & Hs & Hn).
      exists [LNoTurnEnd; LDone 0], m', ph'. split; [|split; [done|split; [cbn; lia|done]]].
      econstructor; [by apply step_no_turn_end|]. econstructor; [done|constructor].
  - destruct (Hsel m Hd) as (m' & ph' & Hs & Hn).
    exists [LDone 0], m', ph'. split; [|split; [done|split; [cbn; lia|done]]].
    econstructor; [done|constructor].
Qed.

(** The monitor dies of a double close only in runs where someone called
    [stop]; and such runs exist: [handleDelete] calls [stop] while the monitor is
    busy, the process exits, and the select takes the exit case. *)
Theorem double_close_needs_stop c s :
  (∀ ls w, runs ls (initial c s) w → w.2 = RPanicked → stop_seen ls = true) ∧
  (∃ m, runs [EStop; EProcessDone; LNoTurnEnd; LDone 0] (initial c s) (m, RPanicked)).
Proof.
  split.
  - intros ls w Hr. by destruct (history_initial _ _ _ _ Hr).
  - eexists. unfold initial.
    econstructor; [apply env_stop|]. econstructor; [apply env_done|].
    econstructor; [by apply step_no_turn_end|]. econstructor; [by apply (step_done 0)|constructor].
Qed.

(** ** The hard budget *)

Fixpoint total_estimate (raws : list string) : Z :=
  match raws with
  | [] => 0
  | r :: raws => estimate r + total_estimate raws
  end.

Lemma estimate_nonneg r : 0 ≤ estimate r.
Proof. unfold estimate. apply Z.div_pos; lia. Qed.

#[local] Arguments estimate : simpl never.

Lemma total_estimate_nonneg rs : 0 ≤ total_estimate rs.
Proof. induction rs as [|r rs IH]; cbn; [lia|]. pose proof (estimate_nonneg r). lia. Qed.

Definition feed (raws : list string) (m : QuotaMonitor) : QuotaMonitor :=
  fold_left (λ m raw, onRawOutput EventTypeAssistant raw m) raws m.

Definition over (m : QuotaMonitor) (since : Z) : bool := hardHeadroomTokens (cfg m) <=? since.

Lemma feed_cons r raws m : feed (r :: raws) m = feed raws (onRawOutput EventTypeAssistant r m).
Proof. done. Qed.

Lemma feed_hard raws m :
  stopReason m = "quota_hard" → 0 ≤ outputTokensSinceSoftMark m →
  int64_range (outputTokensSinceSoftMark m + total_estimate raws) →
  stopReason (feed raws m) = "quota_hard" ∧
  outputTokensSinceSoftMark (feed raws m) = outputTokensSinceSoftMark m + total_estimate raws ∧
  out (feed raws m) = out m.
Proof.
  revert m. induction raws as [|r raws IH]; intros m Hr H0 Hb; cbn [total_estimate] in *; [cbn; repeat split; auto; lia|].
  pose proof (estimate_nonneg r). pose proof (total_estimate_nonneg raws). unfold int64_range in *.
  assert (He : onRawOutput EventTypeAssistant r m = qm_outputTokensSinceSoftMark (outputTokensSinceSoftMark m + estimate r) m).
  { unfold onRawOutput, tracking. cbn. rewrite Hr. cbn. unfold hard_budget_check. cbn. rewrite Hr. cbn.
    rewrite i64_add_id; [done|]. unfold int64_range. lia. }
  rewrite feed_cons, He. destruct (IH (qm_outputTokensSinceSoftMark (outputTokensSinceSoftMark m + estimate r) m)) as (A & B & C);
    cbn; auto; [lia|lia|].
  rewrite A, B, C. cbn. repeat split; auto; lia.
Qed.

(** After a soft stop, the assistant output turns the stop into a hard one, with
    one interrupt, exactly when its estimated size reaches the headroom (no
    matter how it is cut into lines), and the estimate is their sum. *)
Theorem hard_budget_exact raws m :
  stopReason m = "quota_soft" → 0 < hardHeadroomTokens (cfg m) →
  0 ≤ outputTokensSinceSoftMark m < hardHeadroomTokens (cfg m) →
  int64_range (outputTokensSinceSoftMark m + total_estimate raws) →
  let total := outputTokensSinceSoftMark m + total_estimate raws in
  outputTokensSinceSoftMark (feed raws m) = total ∧
  stopReason (feed raws m) = (if over m total then "quota_hard" else "quota_soft") ∧
  interrupts (feed raws m) = (interrupts m + one_if (over m total))%nat.
Proof.
  revert m. induction raws as [|r raws IH]; intros m Hr Hh [H0 Hlt] Hb; cbn [total_estimate] in *; cbv zeta in *.
  { cbn [feed fold_left]. unfold over, interrupts. destruct (Z.leb_spec (hardHeadroomTokens (cfg m)) (outputTokensSinceSoftMark m + 0)); [lia|].
    cbn. repeat split; auto; lia. }
  pose proof (estimate_nonneg r). pose proof (total_estimate_nonneg raws). unfold int64_range in *.
  set (since := outputTokensSinceSoftMark m + estimate r).
  assert (He : onRawOutput EventTypeAssistant r m =
    (if over m since then sendHardInterrupt (qm_stopReason "quota_hard" (qm_outputTokensSinceSoftMark since m))
     else qm_outputTokensSinceSoftMark since m)).
  { unfold onRawOutput, tracking. cbn. rewrite Hr. cbn. unfold hard_budget_check. cbn. rewrite Hr. cbn.
    rewrite i64_add_id by (unfold int64_range; lia).
    destruct (Z.ltb_spec 0 (hardHeadroomTokens (cfg m))); [done|lia]. }
  rewrite feed_cons, He. unfold over in *. destruct (Z.leb_spec (hardHeadroomTokens (cfg m)) since).
  - edestruct (feed_hard raws (sendHardInterrupt (qm_stopReason "quota_hard" (qm_outputTokensSinceSoftMark since m))))
      as (A & B & C); [done|cbn; lia|cbn; unfold int64_range; lia|].
    unfold interrupts in *. rewrite A, B, C. cbn. rewrite count_app, count_one. cbn.
    destruct (Z.leb_spec (hardHeadroomTokens (cfg m)) (outputTokensSinceSoftMark m + (estimate r + total_estimate raws))); [|lia].
    repeat split; lia.
  - destruct (IH (qm_outputTokensSinceSoftMark since m)) as (A & B & C); cbn; auto; [unfold since in *; lia..|].
    unfold interrupts in *. rewrite A, B, C. cbn. unfold since. rewrite Z.add_assoc. done.
Qed.

(** ** The initial prompt *)

Definition prompts (m : QuotaMonitor) : nat :=
  count (λ o, match o with OPrompt _ _ => true | _ => false end) (out m).

(** The quota messages that permit the session to run. *)
Definition permits (m : QuotaMonitor) (data : string) : Prop :=
  ∃ qs, decode_quota data = Some qs ∧ qs_HasData qs = true ∧ qs_U5 qs < softThreshold (cfg m).

(** A message that permits the session sends the held prompt exactly when the
    session is [pending], and leaves it [running]; a [paused] session past its
    resume time gets the nudge instead; in every other status nothing is sent. *)
Theorem permitting_quota_exact now data m :
  permits m data →
  let m' := handleQuota now data m in
  (session_status m = StatusPending →
     out m' = out m ++ [OPrompt (sessionsInputSubject m) (prompt (cfg m)); OWriteKV (state (sess m'))] ∧
     session_status m' = StateRunning) ∧
  (session_status m = StatusPaused →
     if too_early now m then out m' = out m
     else ∃ text, out m' = out m ++ [ONudge (sessionsInputSubject m) text; OWriteKV (state (sess m'))] ∧
        session_status m' = StateRunning ∧ st_ResumeAt (state (sess m')) = None) ∧
  (session_status m ≠ StatusPending → session_status m ≠ StatusPaused → out m' = out m ∧ sess m' = sess m).
Proof.
  intros (qs & Hq & Hd & Hu). unfold handleQuota. rewrite Hq. unfold handleQuotaStatus.
  rewrite Hd. cbn -[session_status]. apply Z.ltb_lt in Hu as Hu'.
  destruct (Z.leb_spec (softThreshold (cfg m)) (qs_U5 qs)); [lia|]. cbn [andb].
  rewrite Hu'. unfold session_status in *. cbn.
  split; [|split].
  - intros ->. cbn. by rewrite <- app_assoc.
  - intros ->. cbn. change (too_early now (qm_lastR5 _ _)) with (too_early now m).
    destruct (too_early now m); [done|]. eexists. cbn. by rewrite <- app_assoc.
  - intros H1 H2. apply String.eqb_neq in H1, H2. by rewrite H1, H2.
Qed.

(** The quota-managed session that reports its [init] event before the first
    permitting quota message never gets its prompt from that message: the event
    has replaced the status [pending] by [idle]. *)
Theorem init_event_hides_pending now now' line init data m :
  parseEventType line = (EventTypeSystem, SubtypeInit) →
  unmarshal (dec_struct initEvent_fields) zero_initEvent line = Some init →
  permits m data →
  let m1 := qm_sess (handleSideEffect now line (sess m)) m in
  prompts (handleQuota now' data m1) = prompts m ∧ session_status (handleQuota now' data m1) = StateIdle.
Proof.
  intros Hp Hi (qs & Hq & Hd & Hu) m1.
  assert (Hs : session_status m1 = StateIdle).
  { unfold m1, session_status, handleSideEffect. rewrite Hp. cbn. unfold handle_init. by rewrite Hi. }
  assert (Ho : prompts m1 = prompts m) by done. rewrite <- Ho. clearbody m1.
  unfold handleQuota. rewrite Hq. unfold handleQuotaStatus. rewrite Hd. cbn -[session_status].
  assert (session_status (qm_lastR5 (qs_R5 qs) (qm_lastU5 (qs_U5 qs) m1)) = StateIdle) as -> by done.
  cbn. destruct ((softThreshold (cfg m1) <=? qs_U5 qs) && (stopReason m1 =? "")%string); [|done].
  unfold prompts, session_status in *. case_match; cbn; rewrite ?count_app, ?count_one; cbn; rewrite ?Nat.add_0_r, ?state_try_send; done.
Qed.

(** ** The steps, executed *)

Definition exec (l : label) (w : world) : option world :=
  let '(m, ph) := w in
  match l, ph with
  | LPriorityTurnEnd now, RTop => if turnEnded m then Some (handleTurnEnd now (qm_turnEnded false m), RTop) else None
  | LNoTurnEnd, RTop => if turnEnded m then None else Some (m, RSelect)
  | LStop, RSelect => if stopClosed m then Some (m, RExited) else None
  | LPermDenied now, RSelect =>
    match permDeniedCh m with
    | Some tool => Some (handlePermDenied now tool (qm_permDeniedCh None m), RTop)
    | None => None
    end
  | LQuota now, RSelect =>
    match quotaCh m with
    | data :: rest => Some (handleQuota now data (qm_quotaCh rest m), RTop)
    | [] => None
    end
  | LTurnEnd now, RSelect => if turnEnded m then Some (handleTurnEnd now (qm_turnEnded false m), RTop) else None
  | LDone now, RSelect =>
    if doneClosed m then
      Some (if stopClosed m then (handleDone now m, RPanicked)
            else (qm_stopClosed true (handleDone now m), RExited))
    else None
  | EOutput evType raw, _ => if doneClosed m then None else Some (onRawOutput evType raw m, ph)
  | ESideEffect now line, _ =>
    if doneClosed m then None else Some (qm_sess (handleSideEffect now line (sess m)) m, ph)
  | ESignalPermDenied tool, _ => Some (signalPermDenied tool m, ph)
  | EStop, _ => Some (stop m, ph)
  | EQuota data, _ => if (length (quotaCh m) <? 16)%nat then Some (qm_quotaCh (quotaCh m ++ [data]) m, ph) else None
  | EStdinDrained, _ =>
    match stdinCh (sess m) with
    | _ :: rest => Some (qm_sess (with_stdinCh rest (sess m)) m, ph)
    | [] => None
    end
  | EProcessDone, _ => Some (qm_doneClosed true m, ph)
  | _, _ => None
  end.

Fixpoint exec_all (ls : list label) (w : world) : option world :=
  match ls with
  | [] => Some w
  | l :: ls => match exec l w with Some w' => exec_all ls w' | None => None end
  end.

Lemma exec_mstep l w w' : exec l w = Some w' ↔ mstep l w w'.
Proof.
  split.
  - destruct w as [m ph]. destruct l, ph; cbn; intros He; repeat case_match; simplify_eq;
      try (by constructor); try (by econstructor);
      try (constructor; by apply Nat.ltb_lt).
    all: match goal with H : stopClosed ?m = _ |- context [LDone ?now] =>
           pose proof (step_done now m) as Hd; rewrite H in Hd; auto end.
  - intros Hs. destruct Hs; cbn; repeat case_match; simplify_eq; try done; try congruence.
    all: match goal with H : _ = false |- _ => apply Nat.leb_gt in H; lia end.
Qed.

Lemma exec_all_runs ls w w' : exec_all ls w = Some w' ↔ runs ls w w'.
Proof.
  split.
  - revert w. induction ls as [|l ls IH]; intros w; cbn; [intros [= <-]; constructor|].
    case_match eqn:He; [|done]. intros Hr. econstructor; [by apply exec_mstep|auto].
  - induction 1 as [|l ls w1 w2 w3 Hs Hr IH]; cbn; [done|]. apply exec_mstep in Hs. by rewrite Hs.
Qed.

End quota_monitor.

(** ** A concrete monitor *)
Module Demo.

#[local] Instance time : GoTime := {
  parse_rfc3339 s := if String.eqb s "T9" then Some 9 else None;
  format_rfc3339 z := pretty.pretty z;
}.

Definition quota_doc (u5 : Z) : json :=
  JObj [("hasData", JBool true); ("u5", JInt u5); ("r5", JStr "T9")].

Definition init_doc : json := JObj [("type", JStr "system"); ("subtype", JStr "init"); ("model", JStr "m")].

#[local] Instance text : JsonText := table_json [
  ("high", quota_doc 95); ("low", quota_doc 10); ("init", init_doc);
  ("result", JObj [("type", JStr "result")]) ].

Definition config : monitor_config := {|
  mc_sessionID := "id"; mc_sessionSlug := "s"; mc_userSlug := "u"; mc_hostSlug := "h"; mc_projectSlug := "p";
  softThreshold := 80; hardHeadroomTokens := 10; autoContinue := true; prompt := "do it"; resumePrompt := "" |}.

Definition session (st : string) : Session := newSession (set_State st zero_SessionState).

(** A soft stop, forty bytes of output, the end of the turn, the exit. *)
Definition paused_run : list label :=
  [EQuota "high"; LNoTurnEnd; LQuota 1;
   EOutput EventTypeAssistant "0123456789012345678901234567890123456789";
   EOutput EventTypeResult "result"; LPriorityTurnEnd 2; EProcessDone; LNoTurnEnd].

Definition crashed_run : list label := [EOutput EventTypeAssistant "x"; EProcessDone; LNoTurnEnd].

Definition after (ls : list label) : QuotaMonitor :=
  match exec_all ls (initial config (session StateIdle)) with
  | Some w => w.1
  | None => newQuotaMonitor config (session StateIdle)
  end.

End Demo.

Lemma soft_stops_are_paused_witness :
  let w := (Demo.after Demo.paused_run, RSelect) in
  reachable (JT := Demo.text) (GT := Demo.time) Demo.config (Demo.session StateIdle) w ∧
  soft_stops w.1 = 1%nat ∧
  (interrupts w.1 + one_if (String.eqb (stopReason w.1) "quota_soft") ≤ soft_stops w.1)%nat.
Proof.
  assert (Hr : reachable (JT := Demo.text) (GT := Demo.time) Demo.config (Demo.session StateIdle)
    (Demo.after Demo.paused_run, RSelect)).
  { exists Demo.paused_run. apply exec_all_runs. vm_compute. reflexivity. }
  split; [exact Hr|]. split; [vm_compute; reflexivity|].
  destruct (soft_stops_are_paused (JT := Demo.text) (GT := Demo.time) _ _ _ Hr) as (_ & _ & Hi). exact Hi.
Defined.

Lemma exit_outcome_exact_witness :
  ∃ w' : world, published failed_ev w'.1 = 1%nat ∧ session_status w'.1 = StateFailed.
Proof.
  pose (m := Demo.after Demo.crashed_run).
  assert (Hr : runs (JT := Demo.text) (GT := Demo.time) Demo.crashed_run
    (initial Demo.config (Demo.session StateIdle)) (m, RSelect)).
  { apply exec_all_runs. vm_compute. reflexivity. }
  assert (Hs : mstep (JT := Demo.text) (GT := Demo.time) (LDone 5) (m, RSelect)
    (if stopClosed m then (handleDone (GT := Demo.time) 5 m, RPanicked) else (qm_stopClosed true (handleDone (GT := Demo.time) 5 m), RExited))).
  { apply step_done. vm_compute. reflexivity. }
  destruct (exit_outcome_exact (JT := Demo.text) (GT := Demo.time) _ _ _ _ _ _ Hr Hs) as (Hf & He & _).
  eexists. split; [exact Hf|]. apply He. reflexivity.
Defined.

Lemma failed_excludes_other_ends_witness :
  (published failed_ev (Demo.after Demo.paused_run) ≤ 1)%nat.
Proof.
  assert (Hr : runs (JT := Demo.text) (GT := Demo.time) Demo.paused_run
    (initial Demo.config (Demo.session StateIdle)) (Demo.after Demo.paused_run, RSelect)).
  { apply exec_all_runs. vm_compute. reflexivity. }
  revert Hr. generalize (Demo.after Demo.paused_run). intros m Hr.
  destruct (failed_excludes_other_ends (JT := Demo.text) (GT := Demo.time) _ _ _ _ Hr) as [Hf _]. exact Hf.
Defined.

Lemma exit_terminates_witness :
  ∃ ls m' ph', runs (JT := Demo.text) (GT := Demo.time) ls (Demo.after Demo.paused_run, RSelect) (m', ph') ∧
    forallb goroutine_step ls = true ∧ (length ls ≤ 3)%nat ∧ ¬ live ph'.
Proof.
  apply (exit_terminates (JT := Demo.text) (GT := Demo.time)); [vm_compute; reflexivity|right; reflexivity].
Defined.

Lemma hard_budget_exact_witness :
  let m := qm_stopReason "quota_soft" (newQuotaMonitor Demo.config (Demo.session StateIdle)) in
  let m' := feed (JT := Demo.text) ["01234567890123456789"; "01234567890123456789"] m in
  stopReason m' = "quota_hard" ∧ interrupts m' = 1%nat.
Proof.
  intros m.
  destruct (hard_budget_exact (JT := Demo.text) ["01234567890123456789"; "01234567890123456789"] m)
    as (_ & Hs & Hi); [reflexivity|reflexivity|split; vm_compute; congruence|split; vm_compute; congruence|].
  split; [rewrite Hs; reflexivity|rewrite Hi; reflexivity].
Defined.

Lemma permitting_quota_exact_witness :
  let m := newQuotaMonitor Demo.config (Demo.session StatusPending) in
  session_status (handleQuota (JT := Demo.text) (GT := Demo.time) 1 "low" m) = StateRunning.
Proof.
  intros m. apply (permitting_quota_exact (JT := Demo.text) (GT := Demo.time) 1 "low" m); [|reflexivity].
  eexists. split; [vm_compute; reflexivity|]. split; reflexivity.
Defined.

Lemma init_event_hides_pending_witness :
  let m := newQuotaMonitor Demo.config (Demo.session StatusPending) in
  let m1 := qm_sess (handleSideEffect (JT := Demo.text) 1 "init" (sess m)) m in
  prompts (handleQuota (JT := Demo.text) (GT := Demo.time) 2 "low" m1) = 0%nat.
Proof.
  intros m m1. eapply (init_event_hides_pending (JT := Demo.text) (GT := Demo.time) 1 2 "init" _ "low" m);
    [vm_compute; reflexivity|vm_compute; reflexivity|].
  eexists. split; [vm_compute; reflexivity|]. split; reflexivity.
Defined.
