(* ===== verification/Drivers.v ===== *)
(** * CLI drivers (mclaude-session-agent/internal/drivers)

    The backend interface [CLIDriver] as a record of operations, the Claude Code
    driver, the three stub drivers, and the registry that picks one.  A driver
    writes to the process stdin; a write is the line without the newline the
    driver appends.  Spawning the operating system process is the parameter
    [spawn_env]. *)

From S2P Require Import Prelude GoStrings Base64 ShellSplit Json SessionState Session.

Definition BackendClaudeCode : string := "claude_code".
Definition BackendDroid : string := "droid".
Definition BackendDevinACP : string := "devin_acp".
Definition BackendGenericTerminal : string := "generic_terminal".

(** ** Data *)

Record ResolvedAttachment := { ra_Filename : string; ra_MimeType : string; ra_Data : string }.
Record UserMessage := { um_Text : string; um_Attachments : list ResolvedAttachment }.

Record LaunchOptions := { lo_SessionID : string; lo_CWD : string; lo_ExtraFlags : string }.

(** [exec.Cmd.Start]: from the arguments and the working directory, the error it
    reports, if any. *)
Definition spawn_env : Type := list string → string → option string.

(** The outcome of [Launch] and [Resume]: an error text, or a process.  A send
    writes a line to the process, or fails. *)
Record CLIDriver := {
  Backend : string;
  Capabilities : CLICapabilities;
  Launch : spawn_env → LaunchOptions → result string unit;
  Resume : spawn_env → string → LaunchOptions → result string unit;
  SendMessage : UserMessage → result string json;
  SendPermissionResponse : string → bool → result string json;
  Interrupt : result string json;
  UpdateConfig : result string unit;
}.

(** ** The splitter of the drivers package

    Like the agent's own [shellSplit], one loop over the bytes; [inS] and [inD]
    are its two flags, [cur] the string builder. *)

Inductive driver_split_error := UnterminatedSingle | UnterminatedDouble.

Definition driver_space (c : ascii) : bool := Ascii.eqb c " " || Ascii.eqb c "009" || Ascii.eqb c "010".

Definition flush_word (words : list string) (cur : string) : list string :=
  if String.eqb cur "" then words else words ++ [cur].

Fixpoint driver_loop (inS inD : bool) (words : list string) (cur : string) (s : string) :
    result driver_split_error (list string) :=
  match s with
  | EmptyString =>
    if inS then Err UnterminatedSingle
    else if inD then Err UnterminatedDouble
    else Ok (flush_word words cur)
  | String c s' =>
    if Ascii.eqb c squote && negb inD then driver_loop (negb inS) inD words cur s'
    else if Ascii.eqb c dquote && negb inS then driver_loop inS (negb inD) words cur s'
    else if Ascii.eqb c backslash && negb inS then
      match s' with
      | String next s'' => driver_loop inS inD words (snoc cur next) s''
      | EmptyString => driver_loop inS inD words cur s'
      end
    else if driver_space c && negb inS && negb inD then driver_loop inS inD (flush_word words cur) "" s'
    else driver_loop inS inD words (snoc cur c) s'
  end.

Definition driver_shellSplit (s : string) : result driver_split_error (list string) :=
  driver_loop false false [] "" s.

Definition driver_split_msg (e : driver_split_error) : string :=
  match e with
  | UnterminatedSingle => "unterminated single quote"
  | UnterminatedDouble => "unterminated double quote"
  end.

(** ** The Claude Code driver *)

Definition buildArgs (sessionID : string) (resume : bool) (opts : LaunchOptions) : result string (list string) :=
  let args := [ "--print"; "--verbose"; "--output-format"; "stream-json"; "--input-format"; "stream-json";
                "--include-partial-messages"; "--replay-user-messages" ] ++
              (if resume then ["--resume"; sessionID] else ["--session-id"; sessionID]) in
  if String.eqb (lo_ExtraFlags opts) "" then Ok args
  else match driver_shellSplit (lo_ExtraFlags opts) with
       | Ok extra => Ok (args ++ extra)
       | Err e => Err ("extraFlags shell parse: " +:+ driver_split_msg e)
       end.

Definition claude_spawn (sp : spawn_env) (sessionID : string) (resume : bool) (opts : LaunchOptions) : result string unit :=
  match buildArgs sessionID resume opts with
  | Err e => Err e
  | Ok args =>
    match sp args (lo_CWD opts) with
    | Some e => Err ("start claude: " +:+ e)
    | None => Ok tt
    end
  end.

(** The content is the text, or a text block and one block per attachment. *)
Definition claude_message (msg : UserMessage) : json :=
  let content :=
    match um_Attachments msg with
    | [] => JStr (um_Text msg)
    | atts =>
      JArr (JObj [("text", JStr (um_Text msg)); ("type", JStr "text")] ::
            ((λ a, JObj [("data", JStr (base64_encode (ra_Data a))); ("media_type", JStr (ra_MimeType a)); ("type", JStr "image")]) <$> atts))
    end in
  JObj [("message", JObj [("content", content); ("role", JStr "user")]); ("type", JStr "user")].

Definition claude_capabilities : CLICapabilities := {|
  HasThinking := true; HasSubagents := true; HasSkills := true; HasPlanMode := false; HasMissions := false;
  HasEventStream := true; HasSessionResume := true; ThinkingLabel := "Thinking"; ModelOptions := [];
  PermissionModes := ["auto"; "managed"; "allowlist"; "strict-allowlist"]; ToolIcons := ∅ |}.

Definition ClaudeCodeDriver : CLIDriver := {|
  Backend := BackendClaudeCode;
  Capabilities := claude_capabilities;
  Launch sp opts := claude_spawn sp (lo_SessionID opts) false opts;
  Resume sp sessionID opts := claude_spawn sp sessionID true opts;
  SendMessage msg := Ok (claude_message msg);
  SendPermissionResponse requestID allow :=
    Ok (control_response requestID (if allow then "allow" else "deny"));
  Interrupt := Ok interrupt_doc;
  UpdateConfig := Ok tt;
|}.

(** ** The stub drivers: everything fails. *)

Definition stub_driver (name : string) (caps : CLICapabilities) : CLIDriver :=
  let err := (name +:+ " driver: not yet implemented")%string in {|
  Backend := name; Capabilities := caps;
  Launch _ _ := Err err; Resume _ _ _ := Err err; SendMessage _ := Err err;
  SendPermissionResponse _ _ := Err err; Interrupt := Err err; UpdateConfig := Err err |}.

Definition DevinACPDriver : CLIDriver := stub_driver BackendDevinACP {|
  HasThinking := true; HasSubagents := false; HasSkills := true; HasPlanMode := true; HasMissions := false;
  HasEventStream := true; HasSessionResume := true; ThinkingLabel := "Thinking"; ModelOptions := [];
  PermissionModes := ["auto"; "managed"]; ToolIcons := ∅ |}.

Definition DroidDriver : CLIDriver := stub_driver BackendDroid {|
  HasThinking := true; HasSubagents := false; HasSkills := true; HasPlanMode := true; HasMissions := true;
  HasEventStream := true; HasSessionResume := true; ThinkingLabel := "Thinking"; ModelOptions := [];
  PermissionModes := ["auto"; "managed"]; ToolIcons := ∅ |}.

Definition GenericTerminalDriver : CLIDriver := stub_driver BackendGenericTerminal {|
  HasThinking := false; HasSubagents := false; HasSkills := false; HasPlanMode := false; HasMissions := false;
  HasEventStream := false; HasSessionResume := false; ThinkingLabel := ""; ModelOptions := [];
  PermissionModes := []; ToolIcons := ∅ |}.

(** ** The registry *)

Definition DriverRegistry : Type := gmap string CLIDriver.

Definition Register (d : CLIDriver) (r : DriverRegistry) : DriverRegistry := <[Backend d := d]> r.

Definition GetOrDefault (b : string) (r : DriverRegistry) : option CLIDriver :=
  let b := if String.eqb b "" then BackendClaudeCode else b in
  match r !! b with
  | Some d => Some d
  | None => if String.eqb b BackendClaudeCode then None else r !! BackendClaudeCode
  end.

(** The registry [NewAgent] builds. *)
Definition agentRegistry : DriverRegistry :=
  Register GenericTerminalDriver (Register DevinACPDriver (Register DroidDriver (Register ClaudeCodeDriver ∅))).

(** The [type] of a line, for the router. *)
Definition extractJSONStringField `{JsonText} (line field : string) : string :=
  match json_parse line with
  | Some (JObj l) =>
    match assoc_last field l with
    | Some (JStr v) => v
    | _ => ""
    end
  | _ => ""
  end.

(** ** Facts *)

Lemma agentRegistry_total b : ∃ d, GetOrDefault b agentRegistry = Some d.
Proof.
  unfold GetOrDefault. generalize (if String.eqb b "" then BackendClaudeCode else b). intros b'.
  destruct (agentRegistry !! b') as [d|] eqn:Hd; [by exists d|].
  destruct (String.eqb_spec b' BackendClaudeCode) as [->|]; [done|]. exists ClaudeCodeDriver. reflexivity.
Qed.

Definition plain_char (c : ascii) : bool :=
  negb (Ascii.eqb c squote || Ascii.eqb c dquote || Ascii.eqb c backslash || Ascii.eqb c "013").

Lemma plain_char_inv c :
  plain_char c = true →
  Ascii.eqb c squote = false ∧ Ascii.eqb c dquote = false ∧ Ascii.eqb c backslash = false ∧
  shell_space c = driver_space c.
Proof.
  unfold plain_char, shell_space, driver_space. intros H. apply negb_true_iff in H.
  split_and_all. repeat split; try done. by rewrite H0, orb_false_r.
Qed.

Lemma snoc_ne cur c : snoc cur c ≠ "".
Proof. by destruct cur. Qed.

Lemma driver_loop_plain s words cur :
  all_str plain_char s = true → cur ≠ Some "" →
  driver_loop false false words (default "" cur) s = Ok (words ++ fields_aux cur s).
Proof.
  revert words cur. induction s as [|c s IH]; intros words cur Hs Hc; cbn in *.
  - unfold flush_word. destruct cur as [t|]; cbn; [|by rewrite app_nil_r].
    destruct (String.eqb_spec t ""); [congruence|done].
  - apply andb_true_iff in Hs as [Hp Hs]. apply plain_char_inv in Hp as (-> & -> & -> & ->). cbn.
    destruct (driver_space c); cbn.
    + rewrite (IH _ None) by done. unfold flush_word.
      destruct cur as [t|]; cbn; [|done]. destruct (String.eqb_spec t ""); [congruence|]. by rewrite <- app_assoc.
    + rewrite (IH _ (Some (snoc (default "" cur) c))); [done|done|]. intros [= Hx]. by apply snoc_ne in Hx.
Qed.

(** The package comment says this splitter is the same as the agent's own.  They
    agree on flags without quotes, backslashes and carriage returns, where both
    return the runs of non-space bytes; they do not agree on an empty quoted
    argument, on a backslash outside quotes, or on a carriage return. *)
Theorem driver_shellSplit_agreement :
  (∀ s, all_str plain_char s = true →
     driver_shellSplit s = Ok (fields_aux None s) ∧ shellSplit s = Ok (fields_aux None s)) ∧
  (shellSplit "--flag ''" = Ok ["--flag"; ""] ∧ driver_shellSplit "--flag ''" = Ok ["--flag"]) ∧
  (shellSplit "a\b" = Ok ["a\b"] ∧ driver_shellSplit "a\b" = Ok ["ab"]) ∧
  (let cr := "a" +:+ String "013" "b" in shellSplit cr = Ok ["a"; "b"] ∧ driver_shellSplit cr = Ok [cr]).
Proof.
  split; [|by vm_compute].
  intros s Hs. split; [by apply (driver_loop_plain s [] None)|].
  apply (loop_quote_free s s [] None). unfold quote_free. clear -Hs.
  induction s as [|c s IH]; cbn in *; [done|]. apply andb_true_iff in Hs as [Hp Hs].
  apply plain_char_inv in Hp as (-> & -> & _). by apply IH.
Qed.

(** A command line of non-empty tokens, for this splitter. *)
Inductive driver_line : list string → string → Prop :=
| dl_nil : driver_line [] ""
| dl_space c l s : driver_space c = true → driver_line l s → driver_line l (String c s)
| dl_token t w c l s :
    t ≠ "" → writes t w → driver_space c = true → driver_line l s → driver_line (t :: l) (w +:+ String c s).

Lemma driver_loop_dquoted words cur t rest :
  driver_loop false true words cur (escape_dquoted t +:+ String dquote rest) =
  driver_loop false false words (cur +:+ t) rest.
Proof.
  revert cur. induction t as [|c t IH]; intros cur; [cbn; by rewrite app_empty_r|].
  cbn [escape_dquoted]. destruct (Ascii.eqb c dquote || Ascii.eqb c backslash) eqn:E.
  - rewrite !string_app_cons. cbn [driver_loop].
    change (Ascii.eqb backslash squote) with false. change (Ascii.eqb backslash dquote) with false.
    change (Ascii.eqb backslash backslash) with true. cbn [andb negb]. by rewrite IH, snoc_app.
  - apply orb_false_iff in E as [E1 E2]. rewrite string_app_cons. cbn [driver_loop]. rewrite E1, E2.
    cbn [andb negb]. rewrite !andb_false_r. by rewrite IH, snoc_app.
Qed.

Lemma driver_loop_squoted words cur t rest :
  has_char squote t = false →
  driver_loop true false words cur (t +:+ String squote rest) = driver_loop false false words (cur +:+ t) rest.
Proof.
  revert cur. induction t as [|c t IH]; intros cur; [cbn; by rewrite app_empty_r|].
  cbn [has_char]. intros [E H]%orb_false_iff. rewrite string_app_cons. cbn [driver_loop].
  rewrite E. cbn [andb negb]. rewrite !andb_false_r. cbn [andb]. by rewrite IH, snoc_app.
Qed.

Lemma driver_loop_written words t w rest :
  writes t w → driver_loop false false words "" (w +:+ rest) = driver_loop false false words t rest.
Proof.
  intros [t'|t' Ht]; unfold dquoted, squoted; rewrite string_app_cons, string_app_assoc.
  - change (String dquote "" +:+ rest) with (String dquote rest). cbn [driver_loop].
    change (Ascii.eqb dquote squote) with false. change (Ascii.eqb dquote dquote) with true. cbn [andb negb].
    by rewrite driver_loop_dquoted.
  - change (String squote "" +:+ rest) with (String squote rest). cbn [driver_loop].
    change (Ascii.eqb squote squote) with true. cbn [andb negb]. by rewrite driver_loop_squoted.
Qed.

Lemma driver_space_inv c :
  driver_space c = true → Ascii.eqb c squote = false ∧ Ascii.eqb c dquote = false ∧ Ascii.eqb c backslash = false.
Proof.
  unfold driver_space. intros H. repeat apply orb_true_iff in H as [H|H];
    apply Ascii.eqb_eq in H as ->; by vm_compute.
Qed.

Lemma driver_loop_line l s words :
  driver_line l s → driver_loop false false words "" s = Ok (words ++ l).
Proof.
  intros Hl. revert words. induction Hl as [|c l s Hc Hl IH|t w c l s Ht Hw Hc Hl IH]; intros words.
  - cbn. by rewrite app_nil_r.
  - cbn [driver_loop]. destruct (driver_space_inv c Hc) as (-> & -> & ->). rewrite Hc. cbn. apply IH.
  - rewrite (driver_loop_written _ t) by done. cbn [driver_loop].
    destruct (driver_space_inv c Hc) as (-> & -> & ->). rewrite Hc. cbn. rewrite IH.
    unfold flush_word. apply String.eqb_neq in Ht. rewrite Ht. by rewrite <- app_assoc.
Qed.

(** The extra flags of a session reach the command line: writing each non-empty
    argument between quotes, with white space after it, gives a Claude Code
    process exactly those arguments after the fixed ones, on launch and on
    resume. *)
Theorem extra_flags_reach_argv l s id resume cwd :
  driver_line l s → s ≠ "" →
  buildArgs id resume {| lo_SessionID := id; lo_CWD := cwd; lo_ExtraFlags := s |} =
    Ok ([ "--print"; "--verbose"; "--output-format"; "stream-json"; "--input-format"; "stream-json";
          "--include-partial-messages"; "--replay-user-messages";
          (if resume then "--resume" else "--session-id"); id ] ++ l).
Proof.
  intros Hl Hs. unfold buildArgs, driver_shellSplit. cbn [lo_ExtraFlags].
  apply String.eqb_neq in Hs. rewrite Hs, (driver_loop_line l) by done. by destruct resume.
Qed.

Lemma extra_flags_reach_argv_witness :
  buildArgs "id" true {| lo_SessionID := "id"; lo_CWD := "/"; lo_ExtraFlags := "'a b' " |} =
    Ok ([ "--print"; "--verbose"; "--output-format"; "stream-json"; "--input-format"; "stream-json";
          "--include-partial-messages"; "--replay-user-messages"; "--resume"; "id" ] ++ ["a b"]).
Proof.
  apply (extra_flags_reach_argv ["a b"] "'a b' " "id" true "/"); [|discriminate].
  apply (dl_token "a b" "'a b'" " " [] ""); [discriminate| |reflexivity|constructor].
  apply (writes_single "a b"). reflexivity.
Defined.

(** A flag string that ends inside a quote makes every launch and resume of a
    Claude Code session fail, whatever the operating system does. *)
Lemma claude_resume_unterminated sp id opts :
  lo_ExtraFlags opts ≠ "" →
  driver_shellSplit (lo_ExtraFlags opts) = Err UnterminatedSingle ∨
    driver_shellSplit (lo_ExtraFlags opts) = Err UnterminatedDouble →
  ∃ e, Resume ClaudeCodeDriver sp id opts = Err e.
Proof.
  intros Hn Hs. apply String.eqb_neq in Hn. cbn. unfold claude_spawn, buildArgs. rewrite Hn.
  destruct Hs as [-> | ->]; by eexists.
Qed.
