(* ===== verification/Agent.v ===== *)
(** * The session agent (mclaude-session-agent/agent.go)

    One agent serves the sessions of one project.  Its handlers for the command
    and control messages, session recovery, crash restarts and the shutdown
    sequence are functions on the agent's state; what they publish, reply and run
    is recorded in order in [out].  The environment of a handler ([env]) holds
    what the world answers: clock, identifiers, git, the operating system and
    the KV store.  The debug socket, logging and metrics are left out. *)

From S2P Require Import Prelude GoStrings Slug ShellSplit Json Subjects SessionState Session QuotaMonitor Drivers.
Open Scope Z_scope.

(** ** Data *)

Record agent_config := {
  ag_userID : string; ag_userSlug : string; ag_hostSlug : string;
  ag_projectID : string; ag_projectSlug : string; ag_dataDir : string;
  ag_registry : DriverRegistry;
}.

Record env := {
  e_now : Z;
  e_uuid : string;
  e_jsonErr : string;
  e_gitAdd : option string;
  e_gitRemove : option string;
  e_spawn : spawn_env;
  e_kvErr : SessionState → option string;
  e_subscribeErr : bool;
  e_exitCode : Z;
  e_lastSeq : option N;
  e_attachments : list (string * string);
}.

(** A running session: the process is [as_started] once [start] has succeeded;
    [as_stopClosed] says whether [stopCh] is closed; [as_watched] whether a crash
    watcher waits for it; [as_compactHook] whether [onEventPublished] is set. *)
Record asession := {
  as_sess : Session;
  as_driver : option CLIDriver;
  as_extraFlags : string;
  as_started : bool;
  as_stopClosed : bool;
  as_monitor : option monitor_config;
  as_monitorStopped : bool;
  as_watched : bool;
  as_compactHook : bool;
}.

Inductive agent_out :=
| Published (subject : string) (payload : json)
| Replied (payload : json)
| GitWorktreeAdd (path branch : string)
| GitWorktreeRemove (path : string)
| Exited (code : Z).

Record Agent := {
  cfg : agent_config;
  sessions : gmap string asession;
  sessKV : gmap string SessionState;
  pendingUpdatingIDs : gmap string SessionState;
  out : list agent_out;
}.

Record nmsg := { m_subject : string; m_data : string; m_reply : bool }.

Definition set_sessions (v : gmap string asession) (a : Agent) : Agent :=
  {| cfg := cfg a; sessions := v; sessKV := sessKV a; pendingUpdatingIDs := pendingUpdatingIDs a; out := out a |}.
Definition set_sessKV (v : gmap string SessionState) (a : Agent) : Agent :=
  {| cfg := cfg a; sessions := sessions a; sessKV := v; pendingUpdatingIDs := pendingUpdatingIDs a; out := out a |}.
Definition set_pendingUpdating (v : gmap string SessionState) (a : Agent) : Agent :=
  {| cfg := cfg a; sessions := sessions a; sessKV := sessKV a; pendingUpdatingIDs := v; out := out a |}.
Definition put_out (o : agent_out) (a : Agent) : Agent :=
  {| cfg := cfg a; sessions := sessions a; sessKV := sessKV a; pendingUpdatingIDs := pendingUpdatingIDs a;
     out := out a ++ [o] |}.

Definition with_sess (v : Session) (s : asession) : asession := {|
  as_sess := v; as_driver := as_driver s; as_extraFlags := as_extraFlags s; as_started := as_started s;
  as_stopClosed := as_stopClosed s; as_monitor := as_monitor s; as_monitorStopped := as_monitorStopped s;
  as_watched := as_watched s; as_compactHook := as_compactHook s |}.

Definition with_policy (policy : string) (tools : gmap string bool) (s : Session) : Session := {|
  state := state s; stdinCh := stdinCh s; Session.driver := Session.driver s; permPolicy := policy;
  allowedTools := tools; stopping := stopping s; shutdownPending := shutdownPending s;
  inFlightBackgroundAgents := inFlightBackgroundAgents s; pendingShells := pendingShells s;
  inFlightShells := inFlightShells s; initClosed := initClosed s; hasStrictDeny := hasStrictDeny s;
  effects := effects s |}.

(** [s.driver]: the session's own record keeps the capabilities. *)
Definition with_driver (d : CLIDriver) (strictDeny : bool) (s : Session) : Session := {|
  state := state s; stdinCh := stdinCh s; Session.driver := Some (Drivers.Capabilities d);
  permPolicy := permPolicy s; allowedTools := allowedTools s; stopping := stopping s;
  shutdownPending := shutdownPending s; inFlightBackgroundAgents := inFlightBackgroundAgents s;
  pendingShells := pendingShells s; inFlightShells := inFlightShells s; initClosed := initClosed s;
  hasStrictDeny := strictDeny; effects := effects s |}.

Section agent.
Context `{JT : JsonText, GT : GoTime}.

(** ** Publishing and replying *)

(** [json.Marshal(map[string]string{...})]. *)
Definition marshal_strings (l : list (string * string)) : json :=
  marshal_map (JStr <$> (list_to_map (reverse l) : gmap string string)).

Definition apiSubject (a : Agent) : string :=
  let c := cfg a in
  ("mclaude.users." +:+ ag_userSlug c +:+ ".hosts." +:+ ag_hostSlug c +:+
   ".projects." +:+ ag_projectSlug c +:+ ".sessions._api")%string.

Definition publishAPIError (requestID operation errMsg : string) (a : Agent) : Agent :=
  put_out (Published (apiSubject a) (marshal_strings
    [("type", "api_error"); ("request_id", requestID); ("operation", operation); ("error", errMsg)])) a.

(** The session segment of the subject is the session's identifier. *)
Definition lifecycleSubject (sessionID eventType : string) (a : Agent) : string :=
  UserHostProjectSessionsLifecycle (ag_userSlug (cfg a)) (ag_hostSlug (cfg a)) (ag_projectSlug (cfg a)) sessionID eventType.

Definition publishLifecycleExtra (e : env) (sessionID eventType : string) (extra : list (string * string)) (a : Agent) : Agent :=
  put_out (Published (lifecycleSubject sessionID eventType a) (marshal_strings
    ([("type", eventType); ("sessionId", sessionID); ("ts", format_rfc3339 (e_now e))] ++ extra))) a.

Definition publishLifecycle (e : env) (sessionID eventType : string) : Agent → Agent :=
  publishLifecycleExtra e sessionID eventType [].

Definition publishLifecycleError (e : env) (sessionID errMsg : string) : Agent → Agent :=
  publishLifecycleExtra e sessionID "error" [("error", errMsg)].

Definition publishLifecycleFailed (e : env) (sessionID errMsg : string) : Agent → Agent :=
  publishLifecycleExtra e sessionID "session_failed" [("error", errMsg)].

Definition publishLifecycleWithBranch (e : env) (sessionID eventType branch : string) : Agent → Agent :=
  publishLifecycleExtra e sessionID eventType [("branch", branch)].

Definition publishPermDenied (e : env) (sessionID toolName jobID : string) : Agent → Agent :=
  publishLifecycleExtra e sessionID "session_permission_denied" [("tool", toolName); ("jobId", jobID)].

Definition publishLifecycleWithExitCode (e : env) (sessionID eventType : string) (exitCode : Z) (a : Agent) : Agent :=
  put_out (Published (lifecycleSubject sessionID eventType a) (marshal_map
    (list_to_map [("type", JStr eventType); ("sessionId", JStr sessionID); ("exitCode", JInt exitCode);
                  ("ts", JStr (format_rfc3339 (e_now e)))]))) a.

Definition reply_err (msg : nmsg) (errMsg : string) (a : Agent) : Agent :=
  if m_reply msg then put_out (Replied (marshal_strings [("error", errMsg)])) a else a.

Definition reply_data (msg : nmsg) (data : list (string * string)) (a : Agent) : Agent :=
  if m_reply msg then put_out (Replied (marshal_strings data)) a else a.

(** [a.reply(msg, nil, err); a.publishAPIError(...)] *)
Definition fail_request (msg : nmsg) (requestID operation errMsg : string) (a : Agent) : Agent :=
  publishAPIError requestID operation errMsg (reply_err msg errMsg a).

(** ** The sessions KV bucket *)

Definition or_else (s d : string) : string := if String.eqb s "" then d else s.

Definition stateKey (a : Agent) (st : SessionState) : string :=
  sessionKVKey (or_else (st_HostSlug st) (ag_hostSlug (cfg a)))
    (or_else (st_ProjectSlug st) (ag_projectSlug (cfg a)))
    (or_else (st_Slug st) (st_ID st)).

(** The error, if any, and the agent after the write. *)
Definition writeSessionKV (e : env) (st : SessionState) (a : Agent) : option string * Agent :=
  match e_kvErr e st with
  | Some err => (Some err, a)
  | None => (None, set_sessKV (<[stateKey a st := st]> (sessKV a)) a)
  end.

Definition putKV (e : env) (st : SessionState) (a : Agent) : Agent := (writeSessionKV e st a).2.

(** ** Running an operation of a session

    The KV writes and callbacks of the operation are carried out, in order. *)

Definition perform (e : env) (id : string) (a : Agent) (ef : effect) : Agent :=
  match ef with
  | KVWrite st => putKV e st a
  | StrictDeny tool => publishPermDenied e id tool id a
  end.

Definition set_session (id : string) (s : asession) (a : Agent) : Agent :=
  set_sessions (<[id := s]> (sessions a)) a.

Definition on_session (e : env) (id : string) (f : Session → Session) (a : Agent) : Agent :=
  match sessions a !! id with
  | None => a
  | Some s =>
    let s' := f (as_sess s) in
    let a := set_session id (with_sess (with_effects [] s') s) a in
    fold_left (perform e id) (effects s') a
  end.

(** [sendViaDriver]: dropped when there is no driver or no process; a driver
    error is logged. *)
Definition sendViaDriver (fn : CLIDriver → result string json) (s : asession) : asession :=
  match as_driver s with
  | Some d =>
    if as_started s then
      match fn d with
      | Ok line => with_sess (stdinChWriter_Write (json_print line +:+ String "010" "") (as_sess s)) s
      | Err _ => s
      end
    else s
  | None => s
  end.

Definition via_driver (id : string) (fn : CLIDriver → result string json) (a : Agent) : Agent :=
  match sessions a !! id with
  | None => a
  | Some s => set_session id (sendViaDriver fn s) a
  end.

Definition worktreeInUse (a : Agent) (slug : string) : bool :=
  existsb (λ kv, String.eqb (st_Worktree (state (as_sess kv.2))) slug) (map_to_list (sessions a)).

(** Both loops run over the map in its iteration order [order]. *)
Definition sessionBySlug (order : list string) (a : Agent) (sslug : string) : option string :=
  find_first (λ id, match sessions a !! id with
                    | Some s => String.eqb (st_Slug (state (as_sess s))) sslug
                    | None => false
                    end) order.

Definition sessionForRequest (order : list string) (a : Agent) (requestID : string) : option string :=
  find_first (λ id, match sessions a !! id with
                    | Some s => match pending_control (as_sess s) requestID with Some _ => true | None => false end
                    | None => false
                    end) order.

(** ** Starting and stopping a session's process *)

Definition new_asession (st : SessionState) : asession := {|
  as_sess := newSession st; as_driver := None; as_extraFlags := st_ExtraFlags st; as_started := false;
  as_stopClosed := false; as_monitor := None; as_monitorStopped := false; as_watched := false;
  as_compactHook := false |}.

(** [start]: without a driver the Claude Code driver is used. *)
Definition start (e : env) (resume : bool) (s : asession) : result string asession :=
  let drv := default ClaudeCodeDriver (as_driver s) in
  let st := state (as_sess s) in
  let opts := {| lo_SessionID := st_ID st; lo_CWD := st_CWD st; lo_ExtraFlags := as_extraFlags s |} in
  match (if resume then Resume drv (e_spawn e) (st_ID st) opts else Launch drv (e_spawn e) opts) with
  | Err err => Err ("start claude: " +:+ err)
  | Ok _ => Ok {| as_sess := with_driver drv (hasStrictDeny (as_sess s)) (as_sess s); as_driver := Some drv;
                  as_extraFlags := as_extraFlags s; as_started := true; as_stopClosed := as_stopClosed s;
                  as_monitor := as_monitor s; as_monitorStopped := as_monitorStopped s;
                  as_watched := as_watched s; as_compactHook := as_compactHook s |}
  end.

(** [stopAndWait] up to the closing of [stopCh] (closing it twice panics); then
    it waits for the process, killing it after the timeout. *)
Definition stopAndWait (s : asession) : outcome asession :=
  let s := with_sess (with_stopping true (as_sess s)) s in
  if negb (as_started s) then Done s
  else if as_stopClosed s then Panicked
  else Done {| as_sess := sendInterrupt (as_sess s); as_driver := as_driver s; as_extraFlags := as_extraFlags s;
               as_started := true; as_stopClosed := true; as_monitor := as_monitor s;
               as_monitorStopped := as_monitorStopped s; as_watched := false; as_compactHook := as_compactHook s |}.

Definition watch (s : asession) : asession := {|
  as_sess := as_sess s; as_driver := as_driver s; as_extraFlags := as_extraFlags s; as_started := as_started s;
  as_stopClosed := as_stopClosed s; as_monitor := as_monitor s; as_monitorStopped := as_monitorStopped s;
  as_watched := true; as_compactHook := as_compactHook s |}.

Definition stop_monitor (s : asession) : asession := {|
  as_sess := as_sess s; as_driver := as_driver s; as_extraFlags := as_extraFlags s; as_started := as_started s;
  as_stopClosed := as_stopClosed s; as_monitor := as_monitor s; as_monitorStopped := true;
  as_watched := as_watched s; as_compactHook := as_compactHook s |}.

(** ** handleCreate *)

Record createRequest := {
  rq_Name : string; rq_Branch : string; rq_CWD : string; rq_JoinWorktree : bool; rq_RequestID : string;
  rq_PermPolicy : string; rq_AllowedTools : list string; rq_ExtraFlags : string; rq_Backend : string;
  rq_Prompt : string; rq_BranchSlug : string; rq_SoftThreshold : Z; rq_HardHeadroomTokens : Z;
  rq_AutoContinue : bool; rq_ResumePrompt : string;
}.

Definition zero_createRequest : createRequest := {|
  rq_Name := ""; rq_Branch := ""; rq_CWD := ""; rq_JoinWorktree := false; rq_RequestID := "";
  rq_PermPolicy := ""; rq_AllowedTools := []; rq_ExtraFlags := ""; rq_Backend := ""; rq_Prompt := "";
  rq_BranchSlug := ""; rq_SoftThreshold := 0; rq_HardHeadroomTokens := 0; rq_AutoContinue := false;
  rq_ResumePrompt := "" |}.

(** Field updates. *)
Definition upd_rq_Name (v : string) (r : createRequest) : createRequest := {|
  rq_Name := v; rq_Branch := rq_Branch r; rq_CWD := rq_CWD r; rq_JoinWorktree := rq_JoinWorktree r;
  rq_RequestID := rq_RequestID r; rq_PermPolicy := rq_PermPolicy r; rq_AllowedTools := rq_AllowedTools r;
  rq_ExtraFlags := rq_ExtraFlags r; rq_Backend := rq_Backend r; rq_Prompt := rq_Prompt r; rq_BranchSlug :=
  rq_BranchSlug r; rq_SoftThreshold := rq_SoftThreshold r; rq_HardHeadroomTokens := rq_HardHeadroomTokens r;
  rq_AutoContinue := rq_AutoContinue r; rq_ResumePrompt := rq_ResumePrompt r |}.
Definition upd_rq_Branch (v : string) (r : createRequest) : createRequest := {|
  rq_Name := rq_Name r; rq_Branch := v; rq_CWD := rq_CWD r; rq_JoinWorktree := rq_JoinWorktree r;
  rq_RequestID := rq_RequestID r; rq_PermPolicy := rq_PermPolicy r; rq_AllowedTools := rq_AllowedTools r;
  rq_ExtraFlags := rq_ExtraFlags r; rq_Backend := rq_Backend r; rq_Prompt := rq_Prompt r; rq_BranchSlug :=
  rq_BranchSlug r; rq_SoftThreshold := rq_SoftThreshold r; rq_HardHeadroomTokens := rq_HardHeadroomTokens r;
  rq_AutoContinue := rq_AutoContinue r; rq_ResumePrompt := rq_ResumePrompt r |}.
Definition upd_rq_CWD (v : string) (r : createRequest) : createRequest := {|
  rq_Name := rq_Name r; rq_Branch := rq_Branch r; rq_CWD := v; rq_JoinWorktree := rq_JoinWorktree r;
  rq_RequestID := rq_RequestID r; rq_PermPolicy := rq_PermPolicy r; rq_AllowedTools := rq_AllowedTools r;
  rq_ExtraFlags := rq_ExtraFlags r; rq_Backend := rq_Backend r; rq_Prompt := rq_Prompt r; rq_BranchSlug :=
  rq_BranchSlug r; rq_SoftThreshold := rq_SoftThreshold r; rq_HardHeadroomTokens := rq_HardHeadroomTokens r;
  rq_AutoContinue := rq_AutoContinue r; rq_ResumePrompt := rq_ResumePrompt r |}.
Definition upd_rq_JoinWorktree (v : bool) (r : createRequest) : createRequest := {|
  rq_Name := rq_Name r; rq_Branch := rq_Branch r; rq_CWD := rq_CWD r; rq_JoinWorktree := v; rq_RequestID :=
  rq_RequestID r; rq_PermPolicy := rq_PermPolicy r; rq_AllowedTools := rq_AllowedTools r; rq_ExtraFlags :=
  rq_ExtraFlags r; rq_Backend := rq_Backend r; rq_Prompt := rq_Prompt r; rq_BranchSlug := rq_BranchSlug r;
  rq_SoftThreshold := rq_SoftThreshold r; rq_HardHeadroomTokens := rq_HardHeadroomTokens r; rq_AutoContinue
  := rq_AutoContinue r; rq_ResumePrompt := rq_ResumePrompt r |}.
Definition upd_rq_RequestID (v : string) (r : createRequest) : createRequest := {|
  rq_Name := rq_Name r; rq_Branch := rq_Branch r; rq_CWD := rq_CWD r; rq_JoinWorktree := rq_JoinWorktree r;
  rq_RequestID := v; rq_PermPolicy := rq_PermPolicy r; rq_AllowedTools := rq_AllowedTools r; rq_ExtraFlags
  := rq_ExtraFlags r; rq_Backend := rq_Backend r; rq_Prompt := rq_Prompt r; rq_BranchSlug := rq_BranchSlug
  r; rq_SoftThreshold := rq_SoftThreshold r; rq_HardHeadroomTokens := rq_HardHeadroomTokens r;
  rq_AutoContinue := rq_AutoContinue r; rq_ResumePrompt := rq_ResumePrompt r |}.
Definition upd_rq_PermPolicy (v : string) (r : createRequest) : createRequest := {|
  rq_Name := rq_Name r; rq_Branch := rq_Branch r; rq_CWD := rq_CWD r; rq_JoinWorktree := rq_JoinWorktree r;
  rq_RequestID := rq_RequestID r; rq_PermPolicy := v; rq_AllowedTools := rq_AllowedTools r; rq_ExtraFlags :=
  rq_ExtraFlags r; rq_Backend := rq_Backend r; rq_Prompt := rq_Prompt r; rq_BranchSlug := rq_BranchSlug r;
  rq_SoftThreshold := rq_SoftThreshold r; rq_HardHeadroomTokens := rq_HardHeadroomTokens r; rq_AutoContinue
  := rq_AutoContinue r; rq_ResumePrompt := rq_ResumePrompt r |}.
Definition upd_rq_AllowedTools (v : list string) (r : createRequest) : createRequest := {|
  rq_Name := rq_Name r; rq_Branch := rq_Branch r; rq_CWD := rq_CWD r; rq_JoinWorktree := rq_JoinWorktree r;
  rq_RequestID := rq_RequestID r; rq_PermPolicy := rq_PermPolicy r; rq_AllowedTools := v; rq_ExtraFlags :=
  rq_ExtraFlags r; rq_Backend := rq_Backend r; rq_Prompt := rq_Prompt r; rq_BranchSlug := rq_BranchSlug r;
  rq_SoftThreshold := rq_SoftThreshold r; rq_HardHeadroomTokens := rq_HardHeadroomTokens r; rq_AutoContinue
  := rq_AutoContinue r; rq_ResumePrompt := rq_ResumePrompt r |}.
Definition upd_rq_ExtraFlags (v : string) (r : createRequest) : createRequest := {|
  rq_Name := rq_Name r; rq_Branch := rq_Branch r; rq_CWD := rq_CWD r; rq_JoinWorktree := rq_JoinWorktree r;
  rq_RequestID := rq_RequestID r; rq_PermPolicy := rq_PermPolicy r; rq_AllowedTools := rq_AllowedTools r;
  rq_ExtraFlags := v; rq_Backend := rq_Backend r; rq_Prompt := rq_Prompt r; rq_BranchSlug := rq_BranchSlug
  r; rq_SoftThreshold := rq_SoftThreshold r; rq_HardHeadroomTokens := rq_HardHeadroomTokens r;
  rq_AutoContinue := rq_AutoContinue r; rq_ResumePrompt := rq_ResumePrompt r |}.
Definition upd_rq_Backend (v : string) (r : createRequest) : createRequest := {|
  rq_Name := rq_Name r; rq_Branch := rq_Branch r; rq_CWD := rq_CWD r; rq_JoinWorktree := rq_JoinWorktree r;
  rq_RequestID := rq_RequestID r; rq_PermPolicy := rq_PermPolicy r; rq_AllowedTools := rq_AllowedTools r;
  rq_ExtraFlags := rq_ExtraFlags r; rq_Backend := v; rq_Prompt := rq_Prompt r; rq_BranchSlug :=
  rq_BranchSlug r; rq_SoftThreshold := rq_SoftThreshold r; rq_HardHeadroomTokens := rq_HardHeadroomTokens r;
  rq_AutoContinue := rq_AutoContinue r; rq_ResumePrompt := rq_ResumePrompt r |}.
Definition upd_rq_Prompt (v : string) (r : createRequest) : createRequest := {|
  rq_Name := rq_Name r; rq_Branch := rq_Branch r; rq_CWD := rq_CWD r; rq_JoinWorktree := rq_JoinWorktree r;
  rq_RequestID := rq_RequestID r; rq_PermPolicy := rq_PermPolicy r; rq_AllowedTools := rq_AllowedTools r;
  rq_ExtraFlags := rq_ExtraFlags r; rq_Backend := rq_Backend r; rq_Prompt := v; rq_BranchSlug :=
  rq_BranchSlug r; rq_SoftThreshold := rq_SoftThreshold r; rq_HardHeadroomTokens := rq_HardHeadroomTokens r;
  rq_AutoContinue := rq_AutoContinue r; rq_ResumePrompt := rq_ResumePrompt r |}.
Definition upd_rq_BranchSlug (v : string) (r : createRequest) : createRequest := {|
  rq_Name := rq_Name r; rq_Branch := rq_Branch r; rq_CWD := rq_CWD r; rq_JoinWorktree := rq_JoinWorktree r;
  rq_RequestID := rq_RequestID r; rq_PermPolicy := rq_PermPolicy r; rq_AllowedTools := rq_AllowedTools r;
  rq_ExtraFlags := rq_ExtraFlags r; rq_Backend := rq_Backend r; rq_Prompt := rq_Prompt r; rq_BranchSlug :=
  v; rq_SoftThreshold := rq_SoftThreshold r; rq_HardHeadroomTokens := rq_HardHeadroomTokens r;
  rq_AutoContinue := rq_AutoContinue r; rq_ResumePrompt := rq_ResumePrompt r |}.
Definition upd_rq_SoftThreshold (v : Z) (r : createRequest) : createRequest := {|
  rq_Name := rq_Name r; rq_Branch := rq_Branch r; rq_CWD := rq_CWD r; rq_JoinWorktree := rq_JoinWorktree r;
  rq_RequestID := rq_RequestID r; rq_PermPolicy := rq_PermPolicy r; rq_AllowedTools := rq_AllowedTools r;
  rq_ExtraFlags := rq_ExtraFlags r; rq_Backend := rq_Backend r; rq_Prompt := rq_Prompt r; rq_BranchSlug :=
  rq_BranchSlug r; rq_SoftThreshold := v; rq_HardHeadroomTokens := rq_HardHeadroomTokens r; rq_AutoContinue
  := rq_AutoContinue r; rq_ResumePrompt := rq_ResumePrompt r |}.
Definition upd_rq_HardHeadroomTokens (v : Z) (r : createRequest) : createRequest := {|
  rq_Name := rq_Name r; rq_Branch := rq_Branch r; rq_CWD := rq_CWD r; rq_JoinWorktree := rq_JoinWorktree r;
  rq_RequestID := rq_RequestID r; rq_PermPolicy := rq_PermPolicy r; rq_AllowedTools := rq_AllowedTools r;
  rq_ExtraFlags := rq_ExtraFlags r; rq_Backend := rq_Backend r; rq_Prompt := rq_Prompt r; rq_BranchSlug :=
  rq_BranchSlug r; rq_SoftThreshold := rq_SoftThreshold r; rq_HardHeadroomTokens := v; rq_AutoContinue :=
  rq_AutoContinue r; rq_ResumePrompt := rq_ResumePrompt r |}.
Definition upd_rq_AutoContinue (v : bool) (r : createRequest) : createRequest := {|
  rq_Name := rq_Name r; rq_Branch := rq_Branch r; rq_CWD := rq_CWD r; rq_JoinWorktree := rq_JoinWorktree r;
  rq_RequestID := rq_RequestID r; rq_PermPolicy := rq_PermPolicy r; rq_AllowedTools := rq_AllowedTools r;
  rq_ExtraFlags := rq_ExtraFlags r; rq_Backend := rq_Backend r; rq_Prompt := rq_Prompt r; rq_BranchSlug :=
  rq_BranchSlug r; rq_SoftThreshold := rq_SoftThreshold r; rq_HardHeadroomTokens := rq_HardHeadroomTokens r;
  rq_AutoContinue := v; rq_ResumePrompt := rq_ResumePrompt r |}.
Definition upd_rq_ResumePrompt (v : string) (r : createRequest) : createRequest := {|
  rq_Name := rq_Name r; rq_Branch := rq_Branch r; rq_CWD := rq_CWD r; rq_JoinWorktree := rq_JoinWorktree r;
  rq_RequestID := rq_RequestID r; rq_PermPolicy := rq_PermPolicy r; rq_AllowedTools := rq_AllowedTools r;
  rq_ExtraFlags := rq_ExtraFlags r; rq_Backend := rq_Backend r; rq_Prompt := rq_Prompt r; rq_BranchSlug :=
  rq_BranchSlug r; rq_SoftThreshold := rq_SoftThreshold r; rq_HardHeadroomTokens := rq_HardHeadroomTokens r;
  rq_AutoContinue := rq_AutoContinue r; rq_ResumePrompt := v |}.

(** The deprecated [quotaMonitor] member is decoded and not used. *)
Definition quotaMonitorConfig_fields : list (field unit) :=
  [ dec_ignored "threshold" 0 dec_int; dec_ignored "priority" 0 dec_int;
    dec_ignored "jobId" "" dec_string; dec_ignored "autoContinue" false dec_bool ].

Definition createRequest_fields : list (field createRequest) :=
  [ fld "name" dec_string rq_Name upd_rq_Name;
    fld "branch" dec_string rq_Branch upd_rq_Branch;
    fld "cwd" dec_string rq_CWD upd_rq_CWD;
    fld "joinWorktree" dec_bool rq_JoinWorktree upd_rq_JoinWorktree;
    fld "requestId" dec_string rq_RequestID upd_rq_RequestID;
    fld "permPolicy" dec_string rq_PermPolicy upd_rq_PermPolicy;
    fld "allowedTools" (dec_slice "" dec_string) rq_AllowedTools upd_rq_AllowedTools;
    fld "extraFlags" dec_string rq_ExtraFlags upd_rq_ExtraFlags;
    fld "backend" dec_string rq_Backend upd_rq_Backend;
    fld "prompt" dec_string rq_Prompt upd_rq_Prompt;
    fld "branchSlug" dec_string rq_BranchSlug upd_rq_BranchSlug;
    fld "softThreshold" dec_int rq_SoftThreshold upd_rq_SoftThreshold;
    fld "hardHeadroomTokens" dec_int rq_HardHeadroomTokens upd_rq_HardHeadroomTokens;
    fld "autoContinue" dec_bool rq_AutoContinue upd_rq_AutoContinue;
    fld "resumePrompt" dec_string rq_ResumePrompt upd_rq_ResumePrompt;
    dec_ignored "quotaMonitor" None (dec_pointer tt (dec_struct quotaMonitorConfig_fields)) ].

(** [json.Unmarshal(data, &v)]: what was decoded, and whether without error. *)
Definition unmarshal_into {A} (d : decoder A) (zero : A) (data : string) : A * bool :=
  match json_parse data with
  | Some j => d j zero
  | None => (zero, false)
  end.

Definition set_from (l : list string) : gmap string bool := list_to_map ((λ t, (t, true)) <$> l).

Definition data_dir (a : Agent) : string := or_else (ag_dataDir (cfg a)) "/data".

Definition repo_path (a : Agent) : string := filepath_Join [data_dir a; "repo"].

Definition worktree_path (a : Agent) (branchSlug : string) : string :=
  filepath_Join [data_dir a; "worktrees"; branchSlug].

Section create.
Context `{UnicodeTables, Normalizer}.

(** Step 1: the branch of a request. *)
Definition effective_branch (req : createRequest) (sessionID : string) : string :=
  if negb (String.eqb (rq_Branch req) "") then rq_Branch req
  else if negb (String.eqb (rq_Name req) "") then SlugifyBranch (rq_Name req)
  else "session-" +:+ take_str 8 sessionID.

Definition effective_slug (req : createRequest) (sessionID : string) : string :=
  or_else (Slugify (rq_Name req)) ("s-" +:+ take_str 8 sessionID).

Definition initial_state (e : env) (a : Agent) (req : createRequest) : SessionState :=
  let branch := effective_branch req (e_uuid e) in
  let branchSlug := SlugifyBranch branch in
  let wt := worktree_path a branchSlug in
  {| st_ID := e_uuid e; st_Slug := effective_slug req (e_uuid e); st_UserSlug := ag_userSlug (cfg a);
     st_HostSlug := ag_hostSlug (cfg a); st_ProjectSlug := ag_projectSlug (cfg a);
     st_ProjectID := ag_projectID (cfg a); st_Branch := branch; st_Worktree := branchSlug;
     st_CWD := if String.eqb (rq_CWD req) "" then wt else filepath_Join [wt; rq_CWD req];
     st_Name := rq_Name req;
     st_State := if 0 <? rq_SoftThreshold req then StatusPending else StateIdle;
     st_StateSince := e_now e; st_CreatedAt := e_now e; st_Backend := or_else (rq_Backend req) "claude_code";
     st_Model := ""; st_Capabilities := zero_Capabilities; st_Tools := []; st_Skills := []; st_Agents := [];
     st_PendingControls := Some ∅; st_Usage := zero_Usage; st_ReplayFromSeq := 0%N;
     st_JoinWorktree := rq_JoinWorktree req; st_ExtraFlags := rq_ExtraFlags req;
     st_SoftThreshold := rq_SoftThreshold req; st_HardHeadroomTokens := rq_HardHeadroomTokens req;
     st_AutoContinue := rq_AutoContinue req; st_BranchSlug := or_else (rq_BranchSlug req) branchSlug;
     st_PausedVia := ""; st_ClaudeSessionID := ""; st_FailedTool := ""; st_ResumeAt := None |}.

(** The session before [start]: driver, policy, hooks and monitor. *)
Definition configured_session (e : env) (a : Agent) (req : createRequest) (st : SessionState) : asession :=
  let s := new_asession st in
  let policy := or_else (rq_PermPolicy req) PermissionPolicyManaged in
  let monitored := (0 <? rq_SoftThreshold req) && negb (e_subscribeErr e) in
  let sess := with_policy policy (set_from (rq_AllowedTools req)) (as_sess s) in
  let drv := GetOrDefault (st_Backend st) (ag_registry (cfg a)) in
  {| as_sess := match drv with
                | Some d => with_driver d monitored sess
                | None => {| state := state sess; stdinCh := stdinCh sess; Session.driver := None;
                    permPolicy := permPolicy sess; allowedTools := allowedTools sess; stopping := stopping sess;
                    shutdownPending := shutdownPending sess; inFlightBackgroundAgents := inFlightBackgroundAgents sess;
                    pendingShells := pendingShells sess; inFlightShells := inFlightShells sess;
                    initClosed := initClosed sess; hasStrictDeny := monitored; effects := effects sess |}
                end;
     as_driver := drv; as_extraFlags := as_extraFlags s; as_started := false; as_stopClosed := false;
     as_monitor := if monitored then Some {|
         mc_sessionID := st_ID st; mc_sessionSlug := st_Slug st; mc_userSlug := ag_userSlug (cfg a);
         mc_hostSlug := ag_hostSlug (cfg a); mc_projectSlug := ag_projectSlug (cfg a);
         softThreshold := rq_SoftThreshold req; hardHeadroomTokens := rq_HardHeadroomTokens req;
         autoContinue := rq_AutoContinue req; prompt := rq_Prompt req; resumePrompt := rq_ResumePrompt req |}
       else None;
     as_monitorStopped := false; as_watched := false; as_compactHook := true |}.

Definition create_session (e : env) (msg : nmsg) (req : createRequest) (a : Agent) : Agent :=
  let st := initial_state e a req in
  let fail errMsg a := fail_request msg (rq_RequestID req) "create" errMsg a in
  match writeSessionKV e st a with
  | (Some err, a) => fail ("KV write failed: " +:+ err) a
  | (None, a) =>
    if (length (rq_AllowedTools req) =? 0)%nat && String.eqb (rq_PermPolicy req) PermissionPolicyStrictAllowlist then
      let errMsg := "strict-allowlist sessions require an explicit allowedTools list" in
      fail errMsg (publishLifecycleError e (st_ID st) errMsg a)
    else
      match start e false (configured_session e a req st) with
      | Err err => fail ("start claude: " +:+ err) (publishLifecycleFailed e (st_ID st) err a)
      | Ok s =>
        let a := set_session (st_ID st) (watch s) a in
        let a := publishLifecycleWithBranch e (st_ID st) "session_created" (st_Branch st) a in
        reply_data msg [("id", st_ID st)] a
      end
  end.

Definition handleCreate (e : env) (msg : nmsg) (a : Agent) : Agent :=
  let '(req, ok) := if String.eqb (m_data msg) "" then (zero_createRequest, true)
                    else unmarshal_into (dec_struct createRequest_fields) zero_createRequest (m_data msg) in
  let fail errMsg a := fail_request msg (rq_RequestID req) "create" errMsg a in
  if negb ok then fail ("invalid request: " +:+ e_jsonErr e) a
  else
    let branch := effective_branch req (e_uuid e) in
    let branchSlug := SlugifyBranch branch in
    let collision := worktreeInUse a branchSlug in
    if collision && negb (rq_JoinWorktree req) then
      fail ("worktree already in use for branch " +:+ branch) a
    else if collision then create_session e msg req a
    else
      let a := put_out (GitWorktreeAdd (worktree_path a branchSlug) branch) a in
      match e_gitAdd e with
      | Some err => fail ("git worktree add: " +:+ err) a
      | None => create_session e msg req a
      end.

End create.

(** ** handleDelete *)

Definition idRequest_fields : list (field (string * string * string)) :=
  [ fld "sessionId" dec_string (λ r, r.1.1) (λ v r, (v, r.1.2, r.2));
    fld "requestId" dec_string (λ r, r.1.2) (λ v r, (r.1.1, v, r.2)) ].

Definition restartRequest_fields : list (field (string * string * string)) :=
  idRequest_fields ++ [ fld "extraFlags" dec_string (λ r, r.2) (λ v r, (r.1.1, r.1.2, v)) ].

Definition remove_worktree (e : env) (st : SessionState) (a : Agent) : Agent :=
  if String.eqb (st_Worktree st) "" then a
  else
    let lastUser := negb (worktreeInUse a (st_Worktree st)) in
    let skipRemoval := (0 <? st_SoftThreshold st) && HasPrefix (st_Branch st) "schedule/" in
    if lastUser && negb skipRemoval
    then put_out (GitWorktreeRemove (worktree_path a (st_Worktree st))) a
    else a.

Definition handleDelete (e : env) (msg : nmsg) (a : Agent) : outcome Agent :=
  let '((sessionID, requestID, _), ok) :=
    unmarshal_into (dec_struct idRequest_fields) ("", "", "")%string (m_data msg) in
  if negb ok || String.eqb sessionID "" then
    Done (fail_request msg requestID "delete" "invalid request: missing sessionId" a)
  else match sessions a !! sessionID with
  | None => Done (fail_request msg requestID "delete" ("session not found: " +:+ sessionID) a)
  | Some s =>
    let a := set_sessions (delete sessionID (sessions a)) a in
    let s := match as_monitor s with Some _ => stop_monitor s | None => s end in
    match stopAndWait s with
    | Panicked => Panicked
    | Done s =>
      let st := state (as_sess s) in
      let a := remove_worktree e st a in
      let key := sessionKVKey (ag_hostSlug (cfg a)) (ag_projectSlug (cfg a)) (or_else (st_Slug st) sessionID) in
      let a := set_sessKV (delete key (sessKV a)) a in
      let a := if 0 <? st_SoftThreshold st then publishLifecycle e sessionID "session_job_cancelled" a
               else publishLifecycleWithExitCode e sessionID "session_stopped" (e_exitCode e) a in
      Done (reply_data msg [] a)
    end
  end.

(** ** handleInput *)

(** [a.sessions[id]] by identifier, then by the slug segment of the subject. *)
Definition subject_slug (subject : string) : option string :=
  match Index subject ".sessions." with
  | None => None
  | Some i =>
    let rest := drop_str (i + String.length ".sessions.") subject in
    match Index rest "." with
    | Some (S n) => Some (take_str (S n) rest)
    | _ => None
    end
  end.

Definition session_of_subject (order : list string) (a : Agent) (subject : string) : option string :=
  match subject_slug subject with
  | Some sslug => sessionBySlug order a sslug
  | None => None
  end.

(** [map[string]json.RawMessage] of the payload: [null] is the nil map. *)
Definition payload_fields (data : string) : option (gmap string json) :=
  match json_parse data with
  | Some (JObj l) => Some (list_to_map (reverse l))
  | Some JNull => Some ∅
  | _ => None
  end.

Definition is_nil_map (data : string) : bool :=
  match json_parse data with Some JNull => true | _ => false end.

Definition raw_string (fields : gmap string json) (name : string) : string :=
  unmarshal_raw_lax dec_string "" (fields !! name).

Definition input_session (order : list string) (fields : gmap string json) (msg : nmsg) (a : Agent) : option string :=
  let byID :=
    match fields !! "session_id" with
    | Some (JStr id) => if String.eqb id "" then None else match sessions a !! id with Some _ => Some id | None => None end
    | _ => None
    end in
  match byID with
  | Some id => Some id
  | None => session_of_subject order a (m_subject msg)
  end.

Record responseEnvelope := { en_ResponseID : string; en_RequestID : string; en_Allowed : bool }.

Definition responseEnvelope_fields : list (field responseEnvelope) :=
  [ dec_ignored "type" "" dec_string;
    ("response", dec_struct [ fld "request_id" dec_string en_ResponseID
        (λ v r, {| en_ResponseID := v; en_RequestID := en_RequestID r; en_Allowed := en_Allowed r |}) ]);
    fld "requestId" dec_string en_RequestID
      (λ v r, {| en_ResponseID := en_ResponseID r; en_RequestID := v; en_Allowed := en_Allowed r |});
    fld "allowed" dec_bool en_Allowed
      (λ v r, {| en_ResponseID := en_ResponseID r; en_RequestID := en_RequestID r; en_Allowed := v |}) ].

(** The request answered and whether it is allowed: [control_response] answers
    are taken as allowing. *)
Definition response_decision (data : string) : string * bool :=
  let env := (unmarshal_into (dec_struct responseEnvelope_fields)
                {| en_ResponseID := ""; en_RequestID := ""; en_Allowed := false |} data).1 in
  if String.eqb (en_RequestID env) "" then (en_ResponseID env, true)
  else (en_RequestID env, en_Allowed env).

(** Downloaded attachments carry a file name and the bytes, no MIME type. *)
Definition resolved_attachments (e : env) : list ResolvedAttachment :=
  (λ kv, {| ra_Filename := kv.1; ra_MimeType := ""; ra_Data := kv.2 |}) <$> e_attachments e.

Definition handleInput (e : env) (order : list string) (msg : nmsg) (a : Agent) : Agent :=
  match payload_fields (m_data msg) with
  | None => a
  | Some fields =>
    match input_session order fields msg a with
    | None => a
    | Some id =>
      let msgType := raw_string fields "type" in
      if String.eqb msgType "message" then
        via_driver id (λ d, SendMessage d {| um_Text := raw_string fields "text";
                                             um_Attachments := resolved_attachments e |}) a
      else if String.eqb msgType "skill_invoke" then
        let args := raw_string fields "args" in
        let text := "/" +:+ raw_string fields "skillName" +:+ (if String.eqb args "" then "" else " " +:+ args) in
        via_driver id (λ d, SendMessage d {| um_Text := text; um_Attachments := [] |}) a
      else if String.eqb msgType "permission_response" || String.eqb msgType "control_response" then
        let '(requestID, allowed) := response_decision (m_data msg) in
        let a := if String.eqb requestID "" then a else on_session e id (clearPendingControl requestID) a in
        via_driver id (λ d, SendPermissionResponse d requestID allowed) a
      else
        let cleaned := if is_nil_map (m_data msg) then JNull else marshal_map (delete "session_id" fields) in
        on_session e id (send_stdin (json_print cleaned)) a
    end
  end.

(** ** handleControl *)

Record controlEnvelope := { ce_Type : string; ce_RequestID : string; ce_Subtype : string }.

Definition controlEnvelope_fields : list (field controlEnvelope) :=
  [ fld "type" dec_string ce_Type (λ v r, {| ce_Type := v; ce_RequestID := ce_RequestID r; ce_Subtype := ce_Subtype r |});
    ("response", dec_struct [ fld "request_id" dec_string ce_RequestID
        (λ v r, {| ce_Type := ce_Type r; ce_RequestID := v; ce_Subtype := ce_Subtype r |}) ]);
    ("request", dec_struct [ fld "subtype" dec_string ce_Subtype
        (λ v r, {| ce_Type := ce_Type r; ce_RequestID := ce_RequestID r; ce_Subtype := v |}) ]) ].

Definition for_all_sessions (f : string → Agent → Agent) (a : Agent) : Agent :=
  fold_left (λ a id, f id a) (map_to_list (sessions a)).*1 a.

Definition handleControl (e : env) (order : list string) (msg : nmsg) (a : Agent) : Agent :=
  match unmarshal (dec_struct controlEnvelope_fields) {| ce_Type := ""; ce_RequestID := ""; ce_Subtype := "" |} (m_data msg) with
  | None => a
  | Some env =>
    if String.eqb (ce_Type env) "control_response" then
      if String.eqb (ce_RequestID env) "" then a
      else match sessionForRequest order a (ce_RequestID env) with
           | None => a
           | Some id =>
             let a := on_session e id (clearPendingControl (ce_RequestID env)) a in
             via_driver id (λ d, SendPermissionResponse d (ce_RequestID env) true) a
           end
    else if String.eqb (ce_Type env) "control_request" && String.eqb (ce_Subtype env) "interrupt" then
      for_all_sessions (λ id, via_driver id Interrupt) a
    else for_all_sessions (λ id, on_session e id (send_stdin (m_data msg))) a
  end.

(** ** handleConfig: [UpdateConfig] writes nothing to the process. *)

Definition handleConfig (order : list string) (msg : nmsg) (a : Agent) : option (result string unit) :=
  let sid := (unmarshal_into (dec_struct [ ("sessionId", dec_string); dec_ignored "model" None (dec_pointer ""%string dec_string);
                 dec_ignored "permissionMode" None (dec_pointer ""%string dec_string);
                 dec_ignored "systemPrompt" None (dec_pointer ""%string dec_string) ]) ""%string (m_data msg)).1 in
  let target := if negb (String.eqb sid "") && (match sessions a !! sid with Some _ => true | None => false end) then Some sid
                else session_of_subject order a (m_subject msg) in
  match target ≫= (λ id, sessions a !! id) with
  | Some s => match as_driver s with
              | Some d => if as_started s then Some (UpdateConfig d) else None
              | None => None
              end
  | None => None
  end.

(** ** Restart, crash restart, recovery *)

(** A session object made from the stored state: nothing but the state and its
    extra flags comes from the old one. *)
Definition relaunch (e : env) (st : SessionState) : result string asession := start e true (new_asession st).

Definition set_ExtraFlags (v : string) (st : SessionState) : SessionState := {|
  st_ID := st_ID st; st_Slug := st_Slug st; st_UserSlug := st_UserSlug st; st_HostSlug := st_HostSlug st;
  st_ProjectSlug := st_ProjectSlug st; st_ProjectID := st_ProjectID st; st_Branch := st_Branch st;
  st_Worktree := st_Worktree st; st_CWD := st_CWD st; st_Name := st_Name st; st_State := st_State st;
  st_StateSince := st_StateSince st; st_CreatedAt := st_CreatedAt st; st_Backend := st_Backend st;
  st_Model := st_Model st; st_Capabilities := st_Capabilities st; st_Tools := st_Tools st;
  st_Skills := st_Skills st; st_Agents := st_Agents st; st_PendingControls := st_PendingControls st;
  st_Usage := st_Usage st; st_ReplayFromSeq := st_ReplayFromSeq st; st_JoinWorktree := st_JoinWorktree st;
  st_ExtraFlags := v; st_SoftThreshold := st_SoftThreshold st;
  st_HardHeadroomTokens := st_HardHeadroomTokens st; st_AutoContinue := st_AutoContinue st;
  st_BranchSlug := st_BranchSlug st; st_PausedVia := st_PausedVia st; st_ClaudeSessionID := st_ClaudeSessionID st;
  st_FailedTool := st_FailedTool st; st_ResumeAt := st_ResumeAt st |}.

Definition restart_state (extraFlags : string) (st : SessionState) : SessionState :=
  let st := clearPendingControlsForResume st in
  if String.eqb extraFlags "" then st else set_ExtraFlags extraFlags st.

Definition handleRestart (e : env) (msg : nmsg) (a : Agent) : outcome Agent :=
  let '((sessionID, requestID, extraFlags), ok) :=
    unmarshal_into (dec_struct restartRequest_fields) ("", "", "")%string (m_data msg) in
  if negb ok || String.eqb sessionID "" then
    Done (fail_request msg requestID "restart" "invalid request: missing sessionId" a)
  else match sessions a !! sessionID with
  | None => Done (fail_request msg requestID "restart" ("session not found: " +:+ sessionID) a)
  | Some s =>
    let a := publishLifecycle e sessionID "session_restarting" a in
    match stopAndWait s with
    | Panicked => Panicked
    | Done s =>
      let a := set_session sessionID s a in
      let st := restart_state extraFlags (state (as_sess s)) in
      let a := putKV e st a in
      match relaunch e st with
      | Err err => Done (fail_request msg requestID "restart" ("resume failed: " +:+ err) a)
      | Ok s' =>
        let a := set_session sessionID s' a in
        let a := publishLifecycle e sessionID "session_resumed" a in
        Done (reply_data msg [] a)
      end
    end
  end.

Definition unwatch (s : asession) : asession := {|
  as_sess := as_sess s; as_driver := as_driver s; as_extraFlags := as_extraFlags s; as_started := as_started s;
  as_stopClosed := as_stopClosed s; as_monitor := as_monitor s; as_monitorStopped := as_monitorStopped s;
  as_watched := false; as_compactHook := as_compactHook s |}.

(** The watcher of the session stored under [sessionID], when its process has
    exited: its checks, under the lock, and the start of another process, which is not
    in the table yet. *)
Definition crash_begin (e : env) (sessionID : string) (a : Agent) : Agent * option asession :=
  match sessions a !! sessionID with
  | None => (a, None)
  | Some s =>
    if negb (as_watched s) || stopping (as_sess s) then (a, None)
    else
      let a := set_session sessionID (unwatch s) a in
      let a := publishLifecycleFailed e sessionID "Claude process exited unexpectedly" a in
      let st := clearPendingControlsForResume (state (as_sess s)) in
      let a := putKV e st a in
      match relaunch e st with
      | Err err => (publishLifecycleFailed e sessionID ("crash restart failed: " +:+ err) a, None)
      | Ok s' => (a, Some s')
      end
  end.

(** Its rest: whatever the table holds by now is replaced. *)
Definition crash_end (e : env) (sessionID : string) (s' : asession) (a : Agent) : Agent :=
  publishLifecycle e sessionID "session_resumed" (set_session sessionID (watch s') a).

(** Both, when nothing comes between. *)
Definition watchSessionCrash (e : env) (sessionID : string) (a : Agent) : Agent :=
  match crash_begin e sessionID a with
  | (a, Some s') => crash_end e sessionID s' a
  | (a, None) => a
  end.

(** [recoverSessions], one KV entry. *)
Definition recover_entry (e : env) (a : Agent) (st : SessionState) : Agent :=
  if negb (String.eqb (st_ProjectID st) (ag_projectID (cfg a))) || String.eqb (st_ID st) "" then a
  else
    let wasUpdating := String.eqb (st_State st) StateUpdating in
    let st := clearPendingControlsForResume st in
    let a := if wasUpdating then set_pendingUpdating (<[st_ID st := st]> (pendingUpdatingIDs a)) a
             else putKV e st a in
    let a := publishLifecycle e (st_ID st) "session_restarting" a in
    match relaunch e st with
    | Err _ => a
    | Ok s => publishLifecycle e (st_ID st) "session_resumed" (set_session (st_ID st) (watch s) a)
    end.

Definition recoverSessions (e : env) (entries : list SessionState) (a : Agent) : Agent :=
  fold_left (recover_entry e) entries a.

(** [clearUpdatingState]: the resumed sessions first, then the ones that did not
    resume. *)
Definition clear_resumed (e : env) (a : Agent) (id : string) : Agent :=
  match sessions a !! id with
  | None => a
  | Some s =>
    let st := state (as_sess s) in
    match pendingUpdatingIDs a !! st_ID st with
    | None => a
    | Some _ =>
      let a := putKV e (set_StateSince (e_now e) (set_State StateIdle st)) a in
      set_pendingUpdating (delete (st_ID st) (pendingUpdatingIDs a)) a
    end
  end.

Definition clear_orphan (e : env) (a : Agent) (entry : string * SessionState) : Agent :=
  let a := putKV e (set_StateSince (e_now e) (set_State StateIdle entry.2)) a in
  set_pendingUpdating (delete entry.1 (pendingUpdatingIDs a)) a.

Definition clearUpdatingState (e : env) (a : Agent) : Agent :=
  let a := fold_left (clear_resumed e) (map_to_list (sessions a)).*1 a in
  fold_left (clear_orphan e) (map_to_list (pendingUpdatingIDs a)) a.

(** [updateReplayFromSeq]; [e_lastSeq] is the stream's last sequence number. *)
Definition updateReplayFromSeq (e : env) (sessionID : string) (a : Agent) : Agent :=
  match e_lastSeq e, sessions a !! sessionID with
  | Some lastSeq, Some s =>
    let st := set_ReplayFromSeq lastSeq (state (as_sess s)) in
    match writeSessionKV e st a with
    | (Some _, a) => a
    | (None, a) => on_session e sessionID (upd_state (set_ReplayFromSeq lastSeq)) a
    end
  | _, _ => a
  end.

(** ** Graceful shutdown *)

(** Step 1. *)
Definition mark_updating (e : env) (a : Agent) (id : string) : Agent :=
  match sessions a !! id with
  | None => a
  | Some s =>
    let st := set_StateSince (e_now e) (set_State StateUpdating (state (as_sess s))) in
    let a := set_session id (with_sess (with_shutdownPending true (as_sess s)) s) a in
    putKV e st a
  end.

Definition begin_shutdown (e : env) (a : Agent) : Agent :=
  fold_left (mark_updating e) (map_to_list (sessions a)).*1 a.

(** Steps 4 and 5, one tick: interrupt the sessions that wait for the user, and
    say whether every session is drained. *)
Definition session_drained (s : asession) : bool :=
  String.eqb (st_State (state (as_sess s))) StateIdle && negb (0 <? inFlightBackgroundAgents (as_sess s)).

Definition interrupt_waiting (s : asession) : asession :=
  if String.eqb (st_State (state (as_sess s))) StateRequiresAction
  then with_sess (sendInterrupt (as_sess s)) s else s.

Definition drain_tick (a : Agent) : bool * Agent :=
  (forallb (λ kv, session_drained kv.2) (map_to_list (sessions a)),
   set_sessions (interrupt_waiting <$> sessions a) a).

(** Step 6: one notification per background shell. *)
Definition killed_xml (sh : inFlightShell) : string :=
  "<task-notification><task-id>" +:+ is_TaskId sh +:+ "</task-id><tool-use-id>" +:+ is_ToolUseId sh +:+
  "</tool-use-id><output-file>" +:+ is_OutputFilePath sh +:+
  "</output-file><status>killed</status><summary>Shell " +:+
  String dquote (is_Command sh +:+ String dquote " was killed during server upgrade</summary></task-notification>").

Definition killed_payload (id : string) (sh : inFlightShell) : json :=
  JObj [("message", JObj [("content", JStr (killed_xml sh)); ("role", JStr "user")]);
        ("session_id", JStr id); ("type", JStr "user")].

Definition publish_killed (a : Agent) (id : string) : Agent :=
  match sessions a !! id with
  | None => a
  | Some s =>
    let sslug := or_else (st_Slug (state (as_sess s))) id in
    let subject := UserHostProjectSessionsInput (ag_userSlug (cfg a)) (ag_hostSlug (cfg a)) (ag_projectSlug (cfg a)) sslug in
    fold_left (λ a sh, put_out (Published subject (killed_payload id sh)) a) (map_to_list (inFlightShells (as_sess s))).*2 a
  end.

Definition publishShellKilledNotifications (ids : list string) (a : Agent) : Agent :=
  fold_left publish_killed ids a.

(** Steps 6 to 9, once drained. *)
Definition finish_shutdown (e : env) (a : Agent) : Agent :=
  let ids := (map_to_list (sessions a)).*1 in
  let a := publishShellKilledNotifications ids a in
  let a := fold_left (λ a id, publishLifecycle e id "session_upgrading" a) ids a in
  put_out (Exited 0) a.

(** ** Consumers and dispatch *)

Definition projBase (c : agent_config) : string :=
  ("mclaude.users." +:+ ag_userSlug c +:+ ".hosts." +:+ ag_hostSlug c +:+ ".projects." +:+ ag_projectSlug c +:+ ".")%string.

Definition cmdFilters (c : agent_config) : list string :=
  [ projBase c +:+ "sessions.create"; projBase c +:+ "sessions.*.input";
    projBase c +:+ "sessions.*.delete"; projBase c +:+ "sessions.*.config" ].

Definition ctlFilters (c : agent_config) : list string := [ projBase c +:+ "sessions.*.control.>" ].

Inductive handler := HCreate | HDelete | HInput | HConfig | HRestart | HControl | HUnrecognised.

Definition dispatchCmd (subject : string) : handler :=
  if HasSuffix subject ".sessions.create" then HCreate
  else if HasSuffix subject ".delete" then HDelete
  else if HasSuffix subject ".input" then HInput
  else if HasSuffix subject ".config" then HConfig
  else HUnrecognised.

Definition dispatchCtl (subject : string) : handler :=
  if HasSuffix subject ".control.restart" then HRestart else HControl.

Definition run_handler `{UnicodeTables, Normalizer} (e : env) (order : list string) (h : handler) (msg : nmsg) (a : Agent) :
    outcome Agent :=
  match h with
  | HCreate => Done (handleCreate e msg a)
  | HDelete => handleDelete e msg a
  | HInput => Done (handleInput e order msg a)
  | HConfig | HUnrecognised => Done a
  | HRestart => handleRestart e msg a
  | HControl => Done (handleControl e order msg a)
  end.

End agent.
