(* ===== verification/AgentSpec.v ===== *)
(** * What the session agent does: theorems about Agent.v

    Routing of messages to handlers, permission answers, creation, restart and
    deletion of sessions, recovery, and the drain loop of a shutdown. *)

From S2P Require Import Prelude GoStrings Slug ShellSplit Json Subjects SessionState Session QuotaMonitor Drivers Agent.
Open Scope Z_scope.

(** ** Consumers and dispatch *)

Section dispatch.
Context `{NatsServer}.

Definition config_wf (c : agent_config) : Prop :=
  Validate (ag_userSlug c) = None ∧ Validate (ag_hostSlug c) = None ∧ Validate (ag_projectSlug c) = None.

Definition cmd_receives (c : agent_config) (subject : string) : bool :=
  existsb (λ f, nats_matches f subject) (cmdFilters c).

Definition ctl_receives (c : agent_config) (subject : string) : bool :=
  existsb (λ f, nats_matches f subject) (ctlFilters c).

(** The handler a subject is meant for, if it is one of this agent's project. *)
Definition meant_for (c : agent_config) (x : subject) : option handler :=
  let mine u h p := bool_decide (u = ag_userSlug c ∧ h = ag_hostSlug c ∧ p = ag_projectSlug c) in
  match x with
  | SSessionsCreate u h p => if mine u h p then Some HCreate else None
  | SInput u h p _ => if mine u h p then Some HInput else None
  | SDelete u h p _ => if mine u h p then Some HDelete else None
  | SConfig u h p _ => if mine u h p then Some HConfig else None
  | SControl u h p _ suffix => if mine u h p then Some (if String.eqb suffix "restart" then HRestart else HControl) else None
  | _ => None
  end.

Definition under (c : agent_config) (l : list string) : list string :=
  user_host_project (ag_userSlug c) (ag_hostSlug c) (ag_projectSlug c) l.

Lemma filter_tokens_of c l :
  config_wf c → Forall no_dot l → l ≠ [] →
  tokens (projBase c +:+ Join "." l) = under c l.
Proof.
  intros (Hu & Hh & Hp) Hl Hn.
  assert (projBase c +:+ Join "." l = Join "." ("mclaude" :: "users" :: ag_userSlug c :: "hosts" :: ag_hostSlug c :: "projects" :: ag_projectSlug c :: l)) as ->.
  { destruct l as [|x l]; [done|]. unfold projBase. rewrite !string_app_assoc. reflexivity. }
  apply tokens_join; [done|]. repeat (apply Forall_cons; split; [first [done | by apply valid_slug_no_dot]|]). done.
Qed.

Lemma matches_tokens f s : nats_matches f s = token_matchb (tokens f) (tokens s).
Proof. apply eq_true_iff_eq. by rewrite nats_matches_spec, token_matchb_spec. Qed.

Lemma valid_not_wild s : Validate s = None → String.eqb s "*" = false ∧ String.eqb s ">" = false.
Proof. intros Hs. destruct (valid_slug_ne_wild s Hs). by rewrite !String.eqb_neq. Qed.

Lemma under_match c l u h p l' :
  config_wf c →
  token_matchb (under c l) (user_host_project u h p l') =
  bool_decide (u = ag_userSlug c ∧ h = ag_hostSlug c ∧ p = ag_projectSlug c) && token_matchb l l'.
Proof.
  intros (Hu & Hh & Hp). apply valid_not_wild in Hu as [Hu1 Hu2], Hh as [Hh1 Hh2], Hp as [Hp1 Hp2].
  unfold under, user_host_project. cbn. rewrite Hu1, Hu2, Hh1, Hh2, Hp1, Hp2.
  destruct (String.eqb_spec (ag_userSlug c) u); [|cbn; rewrite bool_decide_false; [done|naive_solver]].
  destruct (String.eqb_spec (ag_hostSlug c) h); [|cbn; rewrite bool_decide_false; [done|naive_solver]].
  destruct (String.eqb_spec (ag_projectSlug c) p); [|cbn; rewrite bool_decide_false; [done|naive_solver]].
  cbn. by rewrite bool_decide_true.
Qed.

(** Subjects outside the project hierarchy. *)
Lemma under_other c l x :
  config_wf c → (∀ u h p l', subject_tokens x ≠ user_host_project u h p l') →
  token_matchb (under c l) (subject_tokens x) = false.
Proof.
  intros (Hu & Hh & Hp) Hx. apply valid_not_wild in Hu as [Hu1 Hu2], Hh as [Hh1 Hh2].
  unfold under, user_host_project.
  destruct x; cbn [subject_tokens] in *; unfold user_host_project in *; try (exfalso; by eapply Hx);
    cbn; rewrite ?Hu1, ?Hu2, ?Hh1, ?Hh2, ?andb_false_r; done.
Qed.

Definition filter_tails : list (list string) :=
  [["sessions"; "create"]; ["sessions"; "*"; "input"]; ["sessions"; "*"; "delete"]; ["sessions"; "*"; "config"]]%string.

Lemma cmd_receives_tokens c x :
  config_wf c → well_formed x →
  cmd_receives c (render x) = existsb (λ l, token_matchb (under c l) (subject_tokens x)) filter_tails.
Proof.
  intros Hc Hx. unfold cmd_receives, cmdFilters, filter_tails. cbn [existsb].
  change "sessions.create" with (Join "." ["sessions"; "create"]).
  change "sessions.*.input" with (Join "." ["sessions"; "*"; "input"]).
  change "sessions.*.delete" with (Join "." ["sessions"; "*"; "delete"]).
  change "sessions.*.config" with (Join "." ["sessions"; "*"; "config"]).
  rewrite !matches_tokens, (tokens_render x) by done.
  by rewrite !filter_tokens_of by (done || (repeat constructor)).
Qed.

Lemma ctl_receives_tokens c x :
  config_wf c → well_formed x →
  ctl_receives c (render x) = token_matchb (under c ["sessions"; "*"; "control"; ">"]%string) (subject_tokens x).
Proof.
  intros Hc Hx. unfold ctl_receives, ctlFilters. cbn [existsb].
  change "sessions.*.control.>" with (Join "." ["sessions"; "*"; "control"; ">"]). rewrite orb_false_r.
  rewrite !matches_tokens, (tokens_render x) by done.
  by rewrite !filter_tokens_of by (done || (repeat constructor)).
Qed.

Lemma last_segment k1 k2 b1 b2 :
  no_dot b1 → no_dot b2 → k1 +:+ String dot b1 = k2 +:+ String dot b2 → b1 = b2.
Proof.
  unfold no_dot. intros H1 H2. revert k2. induction k1 as [|c k1 IH]; intros [|d k2] He.
  - change (String dot b1 = String dot b2) in He. congruence.
  - change (String dot b1 = String d (k2 +:+ String dot b2)) in He. injection He as _ ->.
    rewrite has_char_app in H1. cbn in H1. by rewrite orb_true_r in H1.
  - change (String c (k1 +:+ String dot b1) = String dot b2) in He. injection He as _ <-.
    rewrite has_char_app in H2. cbn in H2. by rewrite orb_true_r in H2.
  - change (String c (k1 +:+ String dot b1) = String d (k2 +:+ String dot b2)) in He.
    injection He as _ He. eauto.
Qed.

Definition session_prefix (u h p s : string) : string :=
  "mclaude.users." +:+ u +:+ ".hosts." +:+ h +:+ ".projects." +:+ p +:+ ".sessions." +:+ s.

Lemma session_prefix_app u h p s t :
  session_prefix u h p s +:+ t =
  "mclaude.users." +:+ u +:+ ".hosts." +:+ h +:+ ".projects." +:+ p +:+ ".sessions." +:+ s +:+ t.
Proof. unfold session_prefix. by rewrite !string_app_assoc. Qed.

Lemma dispatchCtl_control u h p s suffix :
  no_dot suffix →
  dispatchCtl (UserHostProjectSessionsControl u h p s suffix) =
  if String.eqb suffix "restart" then HRestart else HControl.
Proof.
  intros Hd. unfold dispatchCtl, UserHostProjectSessionsControl.
  rewrite <- session_prefix_app. generalize (session_prefix u h p s). intros K.
  destruct (String.eqb_spec suffix "restart") as [->|Hn].
  { change (K +:+ ".control." +:+ "restart") with (K +:+ ".control.restart"). by rewrite HasSuffix_app. }
  assert (HasSuffix (K +:+ ".control." +:+ suffix) ".control.restart" = false) as ->; [|done].
  apply not_true_iff_false. rewrite HasSuffix_spec. intros [k He]. apply Hn.
  change (K +:+ ".control" +:+ String dot suffix = k +:+ ".control" +:+ String dot "restart") in He.
  rewrite <- !string_app_assoc in He. by apply last_segment in He.
Qed.

Lemma dispatchCmd_session u h p s :
  dispatchCmd (UserHostProjectSessionsInput u h p s) = HInput ∧
  dispatchCmd (UserHostProjectSessionsDelete u h p s) = HDelete ∧
  dispatchCmd (UserHostProjectSessionsConfig u h p s) = HConfig.
Proof.
  unfold dispatchCmd, UserHostProjectSessionsInput, UserHostProjectSessionsDelete, UserHostProjectSessionsConfig.
  rewrite <- !session_prefix_app. generalize (session_prefix u h p s). intros K.
  rewrite !HasSuffix_app.
  rewrite (HasSuffix_ends K ".input" ".sessions.create" 10), (HasSuffix_ends K ".input" ".delete" 1),
    (HasSuffix_ends K ".delete" ".sessions.create" 9), (HasSuffix_ends K ".config" ".sessions.create" 9),
    (HasSuffix_ends K ".config" ".delete" 0) by done.
  change (K +:+ ".config") with (K +:+ "." +:+ "config"). rewrite <- string_app_assoc.
  by rewrite (HasSuffix_ends (K +:+ ".") "config" ".input" 0).
Qed.

Lemma dispatchCmd_create u h p : dispatchCmd (UserHostProjectSessionsCreate u h p) = HCreate.
Proof.
  unfold dispatchCmd, UserHostProjectSessionsCreate.
  replace ("mclaude.users." ++. u ++. ".hosts." ++. h ++. ".projects." ++. p ++. ".sessions.create")
    with (("mclaude.users." +:+ u +:+ ".hosts." +:+ h +:+ ".projects." +:+ p) +:+ ".sessions.create")
    by (by rewrite !string_app_assoc).
  by rewrite HasSuffix_app.
Qed.

Definition free_suffix (x : subject) : Prop :=
  match x with SControl _ _ _ _ suffix => no_dot suffix | _ => True end.

(** Among all the subjects the system builds (valid slugs, one-token control
    suffixes), the agent's two consumers receive exactly the commands and the
    controls of its own project, each on one of them, and dispatch each to the
    handler it is meant for; a control subject without a suffix, which the web
    client publishes, is received by neither. *)
Theorem consumer_dispatch_exact c x :
  config_wf c → well_formed x → free_suffix x →
  (match meant_for c x with
   | Some (HControl | HRestart) =>
     cmd_receives c (render x) = false ∧ ctl_receives c (render x) = true ∧
     Some (dispatchCtl (render x)) = meant_for c x
   | Some _ =>
     cmd_receives c (render x) = true ∧ ctl_receives c (render x) = false ∧
     Some (dispatchCmd (render x)) = meant_for c x
   | None => cmd_receives c (render x) = false ∧ ctl_receives c (render x) = false
   end) ∧
  (∀ s, Validate s = None →
     ctl_receives c (projBase c +:+ Join "." ["sessions"; s; "control"]) = false).
Proof.
  intros Hc Hx Hf. split.
  - rewrite cmd_receives_tokens, ctl_receives_tokens by done. unfold filter_tails.
    destruct x as [u|u|u|u h|h u p|h u p|u h p|u h p s|u h p s|u h p s|u h p s y|u h p s|u h p s y|u h p y];
      cbn [meant_for existsb];
      first [ rewrite !(under_other c) by (done || (intros; discriminate)); done
            | cbn [subject_tokens render]; rewrite !(under_match c) by done ].
    all: try (case_bool_decide; cbn; rewrite ?andb_false_r; try done).
    + by rewrite dispatchCmd_create.
    + by destruct (dispatchCmd_session u h p s) as (-> & _).
    + by destruct (dispatchCmd_session u h p s) as (_ & -> & _).
    + rewrite dispatchCtl_control by done. pose proof (tokens_ne_nil y). destruct (tokens y); [done|].
      by destruct (String.eqb y "restart").
    + by destruct (dispatchCmd_session u h p s) as (_ & _ & ->).
  - intros s Hs. apply valid_slug_no_dot in Hs. unfold ctl_receives, ctlFilters. cbn [existsb].
    change "sessions.*.control.>" with (Join "." ["sessions"; "*"; "control"; ">"]).
    rewrite matches_tokens, !filter_tokens_of by (done || (repeat constructor; done)).
    unfold under at 2. rewrite under_match by done. cbn. by rewrite andb_false_r.
Qed.

End dispatch.

Lemma consumer_dispatch_exact_witness :
  let c := {| ag_userID := "u1"; ag_userSlug := "alice"; ag_hostSlug := "laptop"; ag_projectID := "p1";
              ag_projectSlug := "web"; ag_dataDir := ""; ag_registry := agentRegistry |} in
  cmd_receives (H := doc_nats_server) c "mclaude.users.alice.hosts.laptop.projects.web.sessions.s1.input" = true ∧
  dispatchCmd "mclaude.users.alice.hosts.laptop.projects.web.sessions.s1.input" = HInput ∧
  ctl_receives (H := doc_nats_server) c "mclaude.users.alice.hosts.laptop.projects.web.sessions.s1.control" = false.
Proof.
  intros c.
  destruct (consumer_dispatch_exact (H := doc_nats_server) c (SInput "alice" "laptop" "web" "s1"))
    as [(H1 & _ & H2) H3].
  - repeat split; vm_compute; reflexivity.
  - repeat constructor; vm_compute; reflexivity.
  - exact I.
  - split; [exact H1|]. split; [vm_compute; reflexivity|]. apply (H3 "s1"). vm_compute. reflexivity.
Defined.

(** ** Sessions under an operation *)

Section agent_spec.
Context `{JT : JsonText, GT : GoTime}.

Lemma sessions_perform e id a ef : sessions (perform e id a ef) = sessions a.
Proof. destruct ef as [st|tool]; cbn; [|done]. unfold putKV, writeSessionKV. by destruct (e_kvErr e st). Qed.

Lemma sessions_performs e id efs a : sessions (fold_left (perform e id) efs a) = sessions a.
Proof. revert a. induction efs as [|ef efs IH]; intros a; cbn; [done|]. by rewrite IH, sessions_perform. Qed.

Lemma sessions_on_session e id f a s :
  sessions a !! id = Some s →
  sessions (on_session e id f a) = <[id := with_sess (with_effects [] (f (as_sess s))) s]> (sessions a).
Proof. intros Hs. unfold on_session. rewrite Hs. by rewrite sessions_performs. Qed.

Lemma sessions_via_driver id fn a s :
  sessions a !! id = Some s → sessions (via_driver id fn a) = <[id := sendViaDriver fn s]> (sessions a).
Proof. intros Hs. unfold via_driver. by rewrite Hs. Qed.

(** Sending through the Claude Code driver queues one line. *)
Lemma sendViaDriver_line (fn : CLIDriver → result string json) s doc d :
  as_driver s = Some d → as_started s = true → fn d = Ok doc →
  sendViaDriver fn s = with_sess (send_stdin (json_print doc) (as_sess s)) s.
Proof.
  intros Hd Hst Hf. unfold sendViaDriver. rewrite Hd, Hst, Hf. by rewrite stdinChWriter_line.
Qed.

(** ** Permission answers *)

(** The answer a client publishes for a permission request. *)
Definition answer_doc (requestID behavior : string) : json :=
  JObj [("type", JStr "control_response");
        ("response", JObj [("subtype", JStr "success"); ("request_id", JStr requestID);
                           ("response", JObj [("behavior", JStr behavior)])])].

Lemma decode_answer_control r b :
  decode (dec_struct controlEnvelope_fields) {| ce_Type := ""; ce_RequestID := ""; ce_Subtype := "" |} (answer_doc r b) =
  Some {| ce_Type := "control_response"; ce_RequestID := r; ce_Subtype := "" |}.
Proof. reflexivity. Qed.

Lemma decode_answer_input r b :
  dec_struct responseEnvelope_fields (answer_doc r b) {| en_ResponseID := ""; en_RequestID := ""; en_Allowed := false |} =
  ({| en_ResponseID := r; en_RequestID := ""; en_Allowed := false |}, true).
Proof. reflexivity. Qed.

Lemma payload_answer data r b :
  json_parse data = Some (answer_doc r b) →
  ∃ F, payload_fields data = Some F ∧ F !! "session_id" = None ∧ raw_string F "type" = "control_response".
Proof. intros Hj. unfold payload_fields. rewrite Hj. eexists. split; [done|]. split; reflexivity. Qed.

Definition answered (requestID : string) (s s' : asession) : Prop :=
  stdinCh (as_sess s') = stdinCh (as_sess s) ++ [json_print (control_response requestID "allow")] ∧
  pending_control (as_sess s') requestID = None.

Lemma clear_pending_none requestID s : pending_control (clearPendingControl requestID s) requestID = None.
Proof.
  unfold pending_control. cbn. destruct (st_PendingControls (state s)) as [m|]; cbn; [|done].
  apply lookup_delete_eq.
Qed.

(** A client's answer to a pending permission request reaches the Claude Code
    process, on the control and on the input subject, and the request is
    cleared.  The line sent says [allow] whatever behaviour the client answered,
    [deny] included. *)
Theorem answers_are_allowed e order msg a id s requestID behavior :
  json_parse (m_data msg) = Some (answer_doc requestID behavior) → requestID ≠ "" →
  sessions a !! id = Some s → as_driver s = Some ClaudeCodeDriver → as_started s = true →
  (sessionForRequest order a requestID = Some id →
   ∃ s', sessions (handleControl e order msg a) !! id = Some s' ∧ answered requestID s s') ∧
  (session_of_subject order a (m_subject msg) = Some id →
   ∃ s', sessions (handleInput e order msg a) !! id = Some s' ∧ answered requestID s s').
Proof.
  intros Hj Hne Hs Hd Hst. apply String.eqb_neq in Hne.
  set (sc := with_sess (with_effects [] (clearPendingControl requestID (as_sess s))) s).
  assert (Hrun : ∀ b, b = true →
    ∃ s', sessions (via_driver id (λ d, SendPermissionResponse d requestID b)
                     (on_session e id (clearPendingControl requestID) a)) !! id = Some s' ∧ answered requestID s s').
  { intros b ->. eexists. split.
    - rewrite (sessions_via_driver _ _ _ sc); [apply lookup_insert_eq|].
      rewrite (sessions_on_session e id _ a s) by done. apply lookup_insert_eq.
    - rewrite (sendViaDriver_line _ _ (control_response requestID "allow") ClaudeCodeDriver) by done.
      split; [done|]. cbn. apply (clear_pending_none requestID (as_sess s)). }
  split.
  - intros Ho. unfold handleControl, unmarshal. rewrite Hj, decode_answer_control. cbn. rewrite Hne, Ho. by apply Hrun.
  - intros Ho. destruct (payload_answer _ _ _ Hj) as (F & HF & Hsid & Hty).
    unfold handleInput, input_session. rewrite HF, Hsid, Ho, Hty.
    unfold response_decision, unmarshal_into. rewrite Hj, decode_answer_input.
    cbn -[on_session via_driver]. rewrite Hne. by apply Hrun.
Qed.

(** ** Interrupts *)

Lemma for_all_sessions_via fn ids a k :
  NoDup ids →
  sessions (fold_left (λ a id, via_driver id fn a) ids a) !! k =
  if decide (k ∈ ids) then sendViaDriver fn <$> (sessions a !! k) else sessions a !! k.
Proof.
  revert a. induction ids as [|i ids IH]; intros a Hn; cbn; [done|].
  apply NoDup_cons in Hn as [Hi Hn]. rewrite IH by done.
  destruct (decide (k = i)) as [->|Hk].
  - rewrite (decide_False _ _ (P := i ∈ ids)), decide_True by (done || left).
    unfold via_driver. destruct (sessions a !! i) as [s|] eqn:Hs; cbn; [by rewrite lookup_insert_eq|by rewrite Hs].
  - assert (sessions (via_driver i fn a) !! k = sessions a !! k) as ->.
    { unfold via_driver. destruct (sessions a !! i); [|done]. cbn. by rewrite lookup_insert_ne. }
    destruct (decide (k ∈ ids)).
    + rewrite decide_True; [done|by right].
    + rewrite decide_False; [done|]. rewrite elem_of_cons. naive_solver.
Qed.

Lemma NoDup_session_ids (m : gmap string asession) : NoDup (map_to_list m).*1.
Proof. apply NoDup_fst_map_to_list. Qed.

(** An interrupt interrupts every running session of the agent, whichever
    session's control subject it was published on. *)
Theorem interrupt_reaches_all e order msg a env :
  unmarshal (dec_struct controlEnvelope_fields) {| ce_Type := ""; ce_RequestID := ""; ce_Subtype := "" |} (m_data msg) = Some env →
  ce_Type env = "control_request" → ce_Subtype env = "interrupt" →
  sessions (handleControl e order msg a) = sendViaDriver Interrupt <$> sessions a ∧
  (∀ s, as_driver s = Some ClaudeCodeDriver → as_started s = true →
    stdinCh (as_sess (sendViaDriver Interrupt s)) = stdinCh (as_sess s) ++ [json_print interrupt_doc]).
Proof.
  intros Hu Ht Hsub. split.
  - unfold handleControl. rewrite Hu, Ht, Hsub. cbn. unfold for_all_sessions.
    apply map_eq. intros k. rewrite for_all_sessions_via by apply NoDup_session_ids.
    rewrite lookup_fmap. case_decide as Hk; [done|].
    destruct (sessions a !! k) as [s|] eqn:Hs; [|done]. exfalso. apply Hk.
    apply list_elem_of_fmap. exists (k, s). split; [done|]. by apply elem_of_map_to_list.
  - intros s Hd Hst. by rewrite (sendViaDriver_line _ _ interrupt_doc ClaudeCodeDriver).
Qed.

(** ** Restarts *)

(** What a relaunched session has of the old one: its state and nothing else. *)
Record fresh_session (st : SessionState) (s : asession) : Prop := {
  fs_state : state (as_sess s) = st;
  fs_driver : as_driver s = Some ClaudeCodeDriver;
  fs_policy : permPolicy (as_sess s) = PermissionPolicyManaged;
  fs_tools : allowedTools (as_sess s) = ∅;
  fs_monitor : as_monitor s = None;
  fs_hook : as_compactHook s = false;
  fs_open : as_stopClosed s = false;
}.

Lemma relaunch_fresh e st s : relaunch e st = Ok s → fresh_session st s ∧ as_watched s = false ∧ as_started s = true.
Proof.
  unfold relaunch, start. cbn. destruct (claude_spawn _ _ _ _); [|done]. intros [= <-]. by repeat split.
Qed.

Definition decodes_restart (msg : nmsg) (id requestID extraFlags : string) : Prop :=
  unmarshal_into (dec_struct restartRequest_fields) ("", "", "")%string (m_data msg) = ((id, requestID, extraFlags), true).

Definition decodes_delete (msg : nmsg) (id requestID : string) : Prop :=
  unmarshal_into (dec_struct idRequest_fields) ("", "", "")%string (m_data msg) = ((id, requestID, ""%string), true).

Definition stopped_session (s : asession) : asession := {|
  as_sess := sendInterrupt (with_stopping true (as_sess s)); as_driver := as_driver s;
  as_extraFlags := as_extraFlags s; as_started := true; as_stopClosed := true; as_monitor := as_monitor s;
  as_monitorStopped := as_monitorStopped s; as_watched := false; as_compactHook := as_compactHook s |}.

Lemma stopAndWait_open s : as_started s = true → as_stopClosed s = false → stopAndWait s = Done (stopped_session s).
Proof. intros Hs Ho. unfold stopAndWait. cbn. by rewrite Hs, Ho. Qed.

Lemma stopAndWait_closed s : as_started s = true → as_stopClosed s = true → stopAndWait s = Panicked.
Proof. intros Hs Ho. unfold stopAndWait. cbn. by rewrite Hs, Ho. Qed.

Lemma state_stopped s : state (as_sess (stopped_session s)) = state (as_sess s).
Proof. apply (state_try_send _ (with_stopping true (as_sess s))). Qed.

Lemma sessions_putKV e st a : sessions (putKV e st a) = sessions a.
Proof. unfold putKV, writeSessionKV. by destruct (e_kvErr e st). Qed.

Lemma sessions_fail msg r op err a : sessions (fail_request msg r op err a) = sessions a.
Proof. unfold fail_request, publishAPIError, reply_err. by destruct (m_reply msg). Qed.

Lemma sessions_reply msg d a : sessions (reply_data msg d a) = sessions a.
Proof. unfold reply_data. by destruct (m_reply msg). Qed.

(** The agent after a restart request for a running session. *)
Lemma handleRestart_running e msg a id r flags s :
  decodes_restart msg id r flags → id ≠ "" → sessions a !! id = Some s →
  as_started s = true → as_stopClosed s = false →
  let st := restart_state flags (state (as_sess s)) in
  ∃ a', handleRestart e msg a = Done a' ∧
    match relaunch e st with
    | Err _ => sessions a' = <[id := stopped_session s]> (sessions a)
    | Ok s' => sessions a' = <[id := s']> (sessions a)
    end.
Proof.
  intros Hd Hne Hs Hst Ho st. unfold handleRestart. rewrite Hd. cbn [negb orb].
  apply String.eqb_neq in Hne. rewrite Hne, Hs, (stopAndWait_open s) by done. rewrite state_stopped. fold st.
  destruct (relaunch e st) as [s'|err] eqn:Hr.
  - eexists. split; [done|]. rewrite sessions_reply. cbn. rewrite sessions_putKV. cbn. by rewrite insert_insert_eq.
  - eexists. split; [done|]. rewrite sessions_fail, sessions_putKV. done.
Qed.

(** A restart, on request or after a crash, keeps the session's state but none of
    its configuration: whatever the session was created with, it continues under
    the Claude Code driver and the [managed] policy, without its tool list, its
    quota monitor and its compaction hook; after a requested restart nothing
    watches for a crash any more. *)
Theorem restart_forgets_configuration e a id s :
  sessions a !! id = Some s → as_started s = true →
  (∀ msg r flags, decodes_restart msg id r flags → id ≠ "" → as_stopClosed s = false →
     is_ok (relaunch e (restart_state flags (state (as_sess s)))) = true →
     ∃ a' s', handleRestart e msg a = Done a' ∧ sessions a' !! id = Some s' ∧
       fresh_session (restart_state flags (state (as_sess s))) s' ∧ as_watched s' = false) ∧
  (as_watched s = true → stopping (as_sess s) = false →
     is_ok (relaunch e (clearPendingControlsForResume (state (as_sess s)))) = true →
     ∃ s', sessions (watchSessionCrash e id a) !! id = Some s' ∧
       fresh_session (clearPendingControlsForResume (state (as_sess s))) s' ∧ as_watched s' = true).
Proof.
  intros Hs Hst. split.
  - intros msg r flags Hd Hne Ho Hok.
    destruct (handleRestart_running e msg a id r flags s) as (a' & Ha & Hsess); try done.
    destruct (relaunch e _) as [s'|err] eqn:Hr; [|done].
    apply relaunch_fresh in Hr as (Hf & Hw & _). exists a', s'. rewrite Hsess, lookup_insert_eq. auto.
  - intros Hw Hn Hok. unfold watchSessionCrash, crash_begin. rewrite Hs, Hw, Hn. cbn [negb orb].
    destruct (relaunch e _) as [s'|err] eqn:Hr; [|done].
    apply relaunch_fresh in Hr as (Hf & _ & _). exists (watch s'). split; [apply lookup_insert_eq|].
    split; [|done]. destruct Hf. by split.
Qed.

(** A restart that fails to relaunch leaves a session behind whose stop channel
    is already closed: the next delete or restart request for it closes the
    channel again, and the agent panics. *)
Theorem failed_restart_arms_panic e msg a id r flags s :
  decodes_restart msg id r flags → id ≠ "" → sessions a !! id = Some s →
  as_started s = true → as_stopClosed s = false →
  is_ok (relaunch e (restart_state flags (state (as_sess s)))) = false →
  ∃ a', handleRestart e msg a = Done a' ∧ is_Some (sessions a' !! id) ∧
    (∀ e2 msg2 r2, decodes_delete msg2 id r2 → handleDelete e2 msg2 a' = Panicked) ∧
    (∀ e2 msg2 r2 f2, decodes_restart msg2 id r2 f2 → handleRestart e2 msg2 a' = Panicked).
Proof.
  intros Hd Hne Hs Hst Ho Hok.
  destruct (handleRestart_running e msg a id r flags s) as (a' & Ha & Hsess); try done.
  destruct (relaunch e _) as [s'|err] eqn:Hr; [done|]. exists a'. split; [done|]. rewrite Hsess.
  split; [rewrite lookup_insert_eq; eauto|].
  apply String.eqb_neq in Hne. split.
  - intros e2 msg2 r2 Hd2. unfold handleDelete. rewrite Hd2. cbn [negb orb]. rewrite Hne, Hsess, lookup_insert_eq.
    cbn [as_monitor stopped_session]. by destruct (as_monitor s).
  - intros e2 msg2 r2 f2 Hd2. unfold handleRestart. rewrite Hd2. cbn [negb orb].
    by rewrite Hne, Hsess, lookup_insert_eq.
Qed.

(** ** Draining *)

Definition drain_ticks (n : nat) (a : Agent) : Agent := Nat.iter n (λ a, (drain_tick a).2) a.

Lemma drain_tick_sessions a id : sessions (drain_tick a).2 !! id = interrupt_waiting <$> (sessions a !! id).
Proof. cbn. by rewrite lookup_fmap. Qed.

Lemma interrupt_waiting_drained s : session_drained (interrupt_waiting s) = session_drained s.
Proof.
  unfold interrupt_waiting. case_match; [|done]. unfold session_drained, sendInterrupt. cbn.
  rewrite state_try_send. by unfold try_send_stdin; case_match.
Qed.

(** The drain loop of a shutdown is over exactly when every session is idle
    without background agents; ticking only interrupts the sessions that wait
    for the user and changes the state of none.  So a session in any other state
    (failed, paused, completed, restarting, running) holds the loop up for ever
    unless its process reports a new state. *)
Theorem drain_waits_for_idle a :
  ((drain_tick a).1 = true ↔
     ∀ id s, sessions a !! id = Some s →
       st_State (state (as_sess s)) = StateIdle ∧ inFlightBackgroundAgents (as_sess s) ≤ 0) ∧
  (∀ n id s, sessions a !! id = Some s → session_drained s = false → (drain_tick (drain_ticks n a)).1 = false).
Proof.
  assert (Hd : ∀ a, (drain_tick a).1 = true ↔ ∀ id s, sessions a !! id = Some s → session_drained s = true).
  { intros b. unfold drain_tick. cbn [fst]. rewrite forallb_forall. split.
    - intros H id s Hs. apply (H (id, s)). apply list_elem_of_In. by apply elem_of_map_to_list.
    - intros H [id s] Hin. apply list_elem_of_In, elem_of_map_to_list in Hin. eauto. }
  split.
  - rewrite Hd. split.
    + intros H id s Hs. specialize (H id s Hs). unfold session_drained in H.
      apply andb_true_iff in H as [H1 H2]. apply String.eqb_eq in H1. apply negb_true_iff, Z.ltb_ge in H2. done.
    + intros H id s Hs. destruct (H id s Hs) as [H1 H2]. unfold session_drained. rewrite H1. cbn.
      destruct (Z.ltb_spec 0 (inFlightBackgroundAgents (as_sess s))); [lia|done].
  - intros n id s Hs Hn. apply not_true_iff_false. rewrite Hd. intros Hall.
    assert (Hk : ∃ s', sessions (drain_ticks n a) !! id = Some s' ∧ session_drained s' = false).
    { clear Hall. induction n as [|n (s' & Hs' & Hn')]; [by exists s|].
      exists (interrupt_waiting s'). split; [|by rewrite interrupt_waiting_drained].
      change (drain_ticks (S n) a) with (drain_tick (drain_ticks n a)).2. by rewrite drain_tick_sessions, Hs'. }
    destruct Hk as (s' & Hs' & Hn'). rewrite (Hall id s' Hs') in Hn'. done.
Qed.

(** ** Creation *)

Section create_spec.
Context `{UnicodeTables, Normalizer}.

Lemma sessKV_fail msg r op err a : sessKV (fail_request msg r op err a) = sessKV a.
Proof. unfold fail_request, publishAPIError, reply_err. by destruct (m_reply msg). Qed.

Lemma out_fail msg r op err a :
  last (out (fail_request msg r op err a)) =
  Some (Published (apiSubject a) (marshal_strings
    [("type", "api_error"); ("request_id", r); ("operation", op); ("error", err)]))%string.
Proof.
  unfold fail_request, publishAPIError, reply_err. destruct (m_reply msg); cbn; by rewrite last_snoc.
Qed.

Definition decodes_create (msg : nmsg) (req : createRequest) : Prop :=
  (if String.eqb (m_data msg) "" then (zero_createRequest, true)
   else unmarshal_into (dec_struct createRequest_fields) zero_createRequest (m_data msg)) = (req, true).

Definition api_error_published (a : Agent) (requestID : string) : Prop :=
  ∃ err, last (out a) = Some (Published (apiSubject a) (marshal_strings
    [("type", "api_error"); ("request_id", requestID); ("operation", "create"); ("error", err)]))%string.

Lemma fail_published msg r err a : api_error_published (fail_request msg r "create" err a) r.
Proof.
  exists err. rewrite out_fail. unfold fail_request, publishAPIError, reply_err. by destruct (m_reply msg).
Qed.

(** What a created session is. *)
Record created (e : env) (a : Agent) (req : createRequest) (s : asession) : Prop := {
  cr_state : state (as_sess s) = initial_state e a req;
  cr_policy : permPolicy (as_sess s) = or_else (rq_PermPolicy req) PermissionPolicyManaged;
  cr_tools : allowedTools (as_sess s) = set_from (rq_AllowedTools req);
  cr_monitor : is_Some (as_monitor s) ↔ 0 < rq_SoftThreshold req ∧ e_subscribeErr e = false;
  cr_deny : hasStrictDeny (as_sess s) = true ↔ is_Some (as_monitor s);
  cr_watched : as_watched s = true ∧ as_started s = true ∧ as_stopClosed s = false;
}.

Lemma cfg_putKV e st a : cfg (writeSessionKV e st a).2 = cfg a.
Proof. unfold writeSessionKV. by destruct (e_kvErr e st). Qed.

Lemma start_created e a req s :
  start e false (configured_session e a req (initial_state e a req)) = Ok s → created e a req (watch s).
Proof.
  unfold start. destruct (Launch _ _ _); [|done]. intros [= <-].
  assert (Hm : (0 <? rq_SoftThreshold req) && negb (e_subscribeErr e) = true ↔
               0 < rq_SoftThreshold req ∧ e_subscribeErr e = false)
    by (by rewrite andb_true_iff, Z.ltb_lt, negb_true_iff).
  unfold configured_session. cbn. destruct ((0 <? rq_SoftThreshold req) && negb (e_subscribeErr e)).
  - destruct (GetOrDefault _ _) as [d|]; constructor; cbn; try done.
    + split; [intros _; by apply Hm|intros _; by eexists].
    + split; [intros _; by apply Hm|intros _; by eexists].
  - assert (Hn : ∀ A, ¬ is_Some (@None A)) by (intros A [? ?]; done).
    destruct (GetOrDefault _ _) as [d|]; constructor; cbn; try done.
    + split; [intros Hx; by apply Hn in Hx|intros Hx; by apply Hm in Hx].
    + split; [intros Hx; by apply Hn in Hx|intros Hx; by apply Hm in Hx].
Qed.

(** [create_session] either inserts the session, with its KV entry, or leaves the
    sessions alone and publishes an error. *)
Lemma create_session_cases e msg req a :
  let a' := create_session e msg req a in
  (sessions a' = sessions a ∧ api_error_published a' (rq_RequestID req)) ∨
  (∃ s, sessions a' = <[e_uuid e := s]> (sessions a) ∧ created e a req s ∧
     sessKV a' !! stateKey a (initial_state e a req) = Some (initial_state e a req) ∧
     ¬ (rq_PermPolicy req = PermissionPolicyStrictAllowlist ∧ rq_AllowedTools req = [])).
Proof.
  unfold create_session. unfold writeSessionKV.
  destruct (e_kvErr e (initial_state e a req)) as [err|].
  { left. rewrite sessions_fail. split; [done|apply fail_published]. }
  destruct (_ && _) eqn:Hstrict.
  { left. rewrite sessions_fail. split; [done|apply fail_published]. }
  change (configured_session e (set_sessKV _ a)) with (configured_session e a).
  destruct (start _ _ _) as [s|err] eqn:Hst.
  - right. exists (watch s). rewrite sessions_reply. split; [done|]. split; [by apply start_created|]. split.
    + unfold reply_data. destruct (m_reply msg); cbn; apply lookup_insert_eq.
    + intros [Hp Ht]. by rewrite Hp, Ht in Hstrict.
  - left. rewrite sessions_fail. split; [done|apply fail_published].
Qed.

Lemma handleCreate_cases e msg req a :
  decodes_create msg req →
  let a' := handleCreate e msg a in
  let wt := SlugifyBranch (effective_branch req (e_uuid e)) in
  (sessions a' = sessions a ∧ api_error_published a' (rq_RequestID req)) ∨
  (∃ s, sessions a' = <[e_uuid e := s]> (sessions a) ∧ created e a req s ∧
     sessKV a' !! stateKey a (initial_state e a req) = Some (initial_state e a req) ∧
     (worktreeInUse a wt = true → rq_JoinWorktree req = true) ∧
     ¬ (rq_PermPolicy req = PermissionPolicyStrictAllowlist ∧ rq_AllowedTools req = [])).
Proof.
  intros Hd. unfold handleCreate. unfold decodes_create in Hd. rewrite Hd. cbn [negb]. cbv zeta.
  destruct (worktreeInUse a _) eqn:Hw; cbn [andb].
  - destruct (rq_JoinWorktree req) eqn:Hj; cbn [negb].
    + destruct (create_session_cases e msg req a) as [Hx|(s & Hs & Hc & Hk & Hp)]; [by left|right].
      exists s. auto.
    + left. rewrite sessions_fail. split; [done|apply fail_published].
  - destruct (e_gitAdd e) as [err|].
    + left. rewrite sessions_fail. split; [done|apply fail_published].
    + destruct (create_session_cases e msg req (put_out (GitWorktreeAdd (worktree_path a (SlugifyBranch (effective_branch req (e_uuid e))))
        (effective_branch req (e_uuid e))) a)) as [Hx|(s & Hs & Hc & Hk & Hp)]; [by left|right].
      exists s. split; [exact Hs|]. split; [by destruct Hc|]. split; [exact Hk|]. by split.
Qed.

(** C13. Creating a session either adds exactly one session, under the new identifier,
    in the state, with the policy, tools, monitor and crash watcher of the
    request and its entry in the KV store, or adds none and publishes an
    [api_error] for the request as the last thing it does.  A session is never
    created on a branch whose worktree is in use unless the request joins it,
    and never with an empty strict allowlist. *)
Theorem create_all_or_error e msg req a :
  decodes_create msg req →
  let a' := handleCreate e msg a in
  let wt := SlugifyBranch (effective_branch req (e_uuid e)) in
  (sessions a' = sessions a ∧ api_error_published a' (rq_RequestID req)) ∨
  (∃ s, sessions a' = <[e_uuid e := s]> (sessions a) ∧ created e a req s ∧
     sessKV a' !! stateKey a (initial_state e a req) = Some (initial_state e a req) ∧
     (worktreeInUse a wt = true → rq_JoinWorktree req = true) ∧
     ¬ (rq_PermPolicy req = PermissionPolicyStrictAllowlist ∧ rq_AllowedTools req = [])).
Proof. apply handleCreate_cases. Qed.

(** Rejecting a strict allowlist session comes too late: its worktree has been
    added and its KV entry written, and neither is taken back. *)
Theorem strict_rejection_leaves_traces e msg req a :
  decodes_create msg req →
  rq_PermPolicy req = PermissionPolicyStrictAllowlist → rq_AllowedTools req = [] →
  worktreeInUse a (SlugifyBranch (effective_branch req (e_uuid e))) = false →
  e_gitAdd e = None → e_kvErr e (initial_state e a req) = None →
  let a' := handleCreate e msg a in
  sessions a' = sessions a ∧
  sessKV a' !! stateKey a (initial_state e a req) = Some (initial_state e a req) ∧
  ∃ l, out a' = out a ++ GitWorktreeAdd (worktree_path a (SlugifyBranch (effective_branch req (e_uuid e))))
         (effective_branch req (e_uuid e)) :: l ∧ ∀ p, GitWorktreeRemove p ∉ l.
Proof.
  intros Hd Hp Ht Hw Hg Hk. unfold handleCreate. unfold decodes_create in Hd. rewrite Hd. cbn [negb]. cbv zeta.
  rewrite Hw, Hg. cbn [andb]. unfold create_session, writeSessionKV.
  change (initial_state e (put_out _ a) req) with (initial_state e a req). rewrite Hk, Hp, Ht.
  cbn [length Nat.eqb andb]. change (String.eqb PermissionPolicyStrictAllowlist _) with true. cbv iota.
  rewrite sessions_fail, sessKV_fail. split; [done|]. split; [cbn; apply lookup_insert_eq|].
  unfold fail_request, publishAPIError, reply_err, publishLifecycleError, publishLifecycleExtra.
  destruct (m_reply msg); cbn; rewrite <- !app_assoc; eexists; (split; [reflexivity|]);
    intros p Hin; repeat (apply elem_of_cons in Hin as [?|Hin]; [done|]); by apply elem_of_nil in Hin.
Qed.

(** Requests whose names have the same slug are given the same KV key. *)
Lemma same_slug_same_key e1 e2 a r1 r2 :
  Slugify (rq_Name r1) = Slugify (rq_Name r2) → Slugify (rq_Name r1) ≠ "" →
  stateKey a (initial_state e1 a r1) = stateKey a (initial_state e2 a r2).
Proof.
  intros He Hne. unfold stateKey, initial_state, effective_slug. cbn. rewrite <- He.
  unfold or_else. apply String.eqb_neq in Hne. rewrite Hne. cbn. by rewrite Hne.
Qed.

End create_spec.

(** ** Deletion *)

(** The session's own project: its state carries the agent's host and project. *)
Definition of_agent (a : Agent) (s : asession) : Prop :=
  st_HostSlug (state (as_sess s)) = ag_hostSlug (cfg a) ∧ st_ProjectSlug (state (as_sess s)) = ag_projectSlug (cfg a).

Definition delete_key (a : Agent) (id : string) (st : SessionState) : string :=
  sessionKVKey (ag_hostSlug (cfg a)) (ag_projectSlug (cfg a)) (or_else (st_Slug st) id).

Definition keeps_worktree (a : Agent) (id : string) (st : SessionState) : bool :=
  String.eqb (st_Worktree st) "" ||
  worktreeInUse (set_sessions (delete id (sessions a)) a) (st_Worktree st) ||
  ((0 <? st_SoftThreshold st) && HasPrefix (st_Branch st) "schedule/").

Lemma remove_worktree_exact e st a :
  remove_worktree e st a =
  if String.eqb (st_Worktree st) "" || worktreeInUse a (st_Worktree st) ||
     ((0 <? st_SoftThreshold st) && HasPrefix (st_Branch st) "schedule/")
  then a else put_out (GitWorktreeRemove (worktree_path a (st_Worktree st))) a.
Proof.
  unfold remove_worktree. destruct (String.eqb (st_Worktree st) ""); cbn; [done|].
  by destruct (worktreeInUse a (st_Worktree st)), ((0 <? st_SoftThreshold st) && HasPrefix (st_Branch st) "schedule/").
Qed.

Definition delete_event (st : SessionState) : string :=
  if 0 <? st_SoftThreshold st then "session_job_cancelled" else "session_stopped".

Lemma handleDelete_running e msg a id r s :
  decodes_delete msg id r → id ≠ "" → sessions a !! id = Some s →
  as_started s = true → as_stopClosed s = false →
  let st := state (as_sess s) in
  ∃ a' payload, handleDelete e msg a = Done a' ∧
    sessions a' = delete id (sessions a) ∧
    sessKV a' = delete (delete_key a id st) (sessKV a) ∧
    out a' = out a ++
      (if keeps_worktree a id st then [] else [GitWorktreeRemove (worktree_path a (st_Worktree st))]) ++
      [Published (lifecycleSubject id (delete_event st) a) payload] ++
      (if m_reply msg then [Replied (marshal_strings [])] else []).
Proof.
  intros Hd Hne Hs Hst Ho st. unfold handleDelete. rewrite Hd. cbn [negb orb].
  apply String.eqb_neq in Hne. rewrite Hne, Hs.
  assert (Hstop : ∃ s', stopAndWait (match as_monitor s with Some _ => stop_monitor s | None => s end) = Done s' ∧
                        state (as_sess s') = st).
  { destruct (as_monitor s); eexists; (split; [by apply stopAndWait_open|apply state_stopped]). }
  destruct Hstop as (s' & -> & Hst'). cbv zeta. rewrite Hst', remove_worktree_exact. unfold keeps_worktree, delete_event.
  set (a1 := set_sessions _ a). set (a2 := if _ || _ || _ then a1 else _).
  assert (H2 : sessions a2 = delete id (sessions a) ∧ sessKV a2 = sessKV a ∧ cfg a2 = cfg a ∧
    out a2 = out a ++ (if String.eqb (st_Worktree st) "" || worktreeInUse a1 (st_Worktree st) ||
     ((0 <? st_SoftThreshold st) && HasPrefix (st_Branch st) "schedule/") then []
       else [GitWorktreeRemove (worktree_path a (st_Worktree st))])).
  { unfold a2. destruct (_ || _ || _); cbn; rewrite ?app_nil_r; done. }
  destruct H2 as (H2a & H2b & H2c & H2d). clearbody a2.
  unfold delete_key, publishLifecycle, publishLifecycleWithExitCode, publishLifecycleExtra, lifecycleSubject, reply_data.
  destruct (0 <? st_SoftThreshold st), (m_reply msg);
    eexists _, _; (split; [reflexivity|]); cbn; rewrite H2a, H2b, H2c, H2d, <- ?app_assoc; done.
Qed.

(** Deleting a running session stops its process, forgets the session and its KV
    entry, removes its worktree exactly when no other session uses it and it is
    not the worktree of a scheduled quota-managed job, and announces the end:
    cancelled for a quota-managed session, stopped for an interactive one. *)
Theorem delete_exact e msg a id r s :
  decodes_delete msg id r → id ≠ "" → sessions a !! id = Some s →
  as_started s = true → as_stopClosed s = false →
  let st := state (as_sess s) in
  ∃ a' payload, handleDelete e msg a = Done a' ∧
    sessions a' = delete id (sessions a) ∧
    sessKV a' = delete (delete_key a id st) (sessKV a) ∧
    out a' = out a ++
      (if keeps_worktree a id st then [] else [GitWorktreeRemove (worktree_path a (st_Worktree st))]) ++
      [Published (lifecycleSubject id (delete_event st) a) payload] ++
      (if m_reply msg then [Replied (marshal_strings [])] else []).
Proof. apply handleDelete_running. Qed.

(** Two sessions of the agent whose names have the same slug share one KV key:
    deleting the one takes the entry of the other, which keeps running. *)
Theorem delete_takes_shared_entry e msg a id r s id2 s2 :
  decodes_delete msg id r → id ≠ "" → id ≠ id2 → sessions a !! id = Some s → sessions a !! id2 = Some s2 →
  as_started s = true → as_stopClosed s = false → of_agent a s2 →
  ag_hostSlug (cfg a) ≠ "" → ag_projectSlug (cfg a) ≠ "" →
  st_Slug (state (as_sess s)) = st_Slug (state (as_sess s2)) → st_Slug (state (as_sess s)) ≠ "" →
  ∃ a', handleDelete e msg a = Done a' ∧ sessions a' !! id2 = Some s2 ∧
    sessKV a' !! stateKey a (state (as_sess s2)) = None.
Proof.
  intros Hd Hne Hid Hs Hs2 Hst Ho [Hh Hp] Hhn Hpn Heq Hsn.
  destruct (handleDelete_running e msg a id r s) as (a' & payload & Ha & Hsess & Hkv & _); try done.
  exists a'. split; [done|]. rewrite Hsess, Hkv. split; [by rewrite lookup_delete_ne|].
  assert (delete_key a id (state (as_sess s)) = stateKey a (state (as_sess s2))) as ->; [|apply lookup_delete_eq].
  unfold delete_key, stateKey, or_else. rewrite Hh, Hp, <- Heq.
  apply String.eqb_neq in Hhn, Hpn, Hsn. by rewrite Hhn, Hpn, Hsn.
Qed.

(** ** The agent over time *)

(** What never changes in a session's life. *)
Definition static (s : asession) : string * string * string * bool :=
  let st := state (as_sess s) in (st_ID st, st_Slug st, st_Worktree st, st_JoinWorktree st).

Definition keeps_static (f : Session → Session) : Prop :=
  ∀ s, let st := state s in let st' := state (f s) in
    st_ID st' = st_ID st ∧ st_Slug st' = st_Slug st ∧ st_Worktree st' = st_Worktree st ∧
    st_JoinWorktree st' = st_JoinWorktree st.

Lemma keeps_clear r : keeps_static (clearPendingControl r).
Proof. by intros s. Qed.

Lemma keeps_send line : keeps_static (send_stdin line).
Proof. by intros s. Qed.

Lemma keeps_side_effect now line : keeps_static (handleSideEffect now line).
Proof.
  intros s. unfold handleSideEffect. destruct (parseEventType line) as [ty sub].
  unfold handle_init, handle_state_changed, handle_control_request, handle_result.
  repeat match goal with |- context [match ?x with _ => _ end] => destruct x end; done.
Qed.

Definition same_static (a a' : Agent) : Prop := ∀ id, static <$> (sessions a' !! id) = static <$> (sessions a !! id).

#[local] Instance same_static_preorder : PreOrder same_static.
Proof. split; [by intros a id|]. intros x y z H1 H2 id. by rewrite H2, H1. Qed.

Lemma same_static_eq a a' : sessions a' = sessions a → same_static a a'.
Proof. intros He id. by rewrite He. Qed.

Lemma same_static_insert a a' id s s' :
  sessions a' = <[id := s']> (sessions a) → sessions a !! id = Some s → static s' = static s → same_static a a'.
Proof.
  intros He Hs Hst k. rewrite He. destruct (decide (k = id)) as [->|Hn].
  - rewrite lookup_insert_eq, Hs. cbn. by rewrite Hst.
  - by rewrite lookup_insert_ne.
Qed.

Lemma static_on_session e id f a : keeps_static f → same_static a (on_session e id f a).
Proof.
  intros Hf. destruct (sessions a !! id) as [s|] eqn:Hs.
  - eapply same_static_insert; [by apply sessions_on_session|done|].
    unfold static. cbn. destruct (Hf (as_sess s)) as (-> & -> & -> & ->). done.
  - unfold on_session. by rewrite Hs.
Qed.

Lemma static_via_driver id fn a : same_static a (via_driver id fn a).
Proof.
  destruct (sessions a !! id) as [s|] eqn:Hs.
  - eapply same_static_insert; [by apply sessions_via_driver|done|]. unfold sendViaDriver.
    destruct (as_driver s) as [d|]; [|done]. destruct (as_started s); [|done]. destruct (fn d); [|done].
    by rewrite stdinChWriter_line.
  - unfold via_driver. by rewrite Hs.
Qed.

Lemma static_fold {B} (f : Agent → B → Agent) l a :
  (∀ a x, same_static a (f a x)) → same_static a (fold_left f l a).
Proof. intros Hf. revert a. induction l as [|x l IH]; intros a; cbn; [done|]. trans (f a x); auto. Qed.

Lemma static_handleInput e order msg a : same_static a (handleInput e order msg a).
Proof.
  unfold handleInput. destruct (payload_fields (m_data msg)) as [F|]; [|done].
  destruct (input_session order F msg a) as [id|]; [|done]. cbv zeta.
  destruct (String.eqb _ "message"); [apply static_via_driver|].
  destruct (String.eqb _ "skill_invoke"); [apply static_via_driver|].
  destruct (String.eqb _ "permission_response" || _); [|apply static_on_session, keeps_send].
  destruct (response_decision (m_data msg)) as [r allowed].
  etrans; [|apply static_via_driver]. destruct (String.eqb r ""); [done|].
  apply static_on_session, keeps_clear.
Qed.

Lemma static_handleControl e order msg a : same_static a (handleControl e order msg a).
Proof.
  unfold handleControl, for_all_sessions. repeat case_match; try done.
  - etrans; [|apply static_via_driver]. apply static_on_session, keeps_clear.
  - apply static_fold. intros. apply static_via_driver.
  - apply static_fold. intros. apply static_on_session, keeps_send.
Qed.

Lemma static_restart_state flags st s s' :
  state (as_sess s) = st → fresh_session (restart_state flags st) s' → static s' = static s.
Proof.
  intros Hst []. unfold static. rewrite fs_state0, Hst. unfold restart_state. by case_match.
Qed.

Lemma state_stopAndWait s s' : stopAndWait s = Done s' → state (as_sess s') = state (as_sess s).
Proof.
  unfold stopAndWait. destruct (negb _); [by intros [= <-]|]. destruct (as_stopClosed _); [done|].
  intros [= <-]. apply (state_try_send _ (with_stopping true (as_sess s))).
Qed.

Lemma static_state s s' : state (as_sess s') = state (as_sess s) → static s' = static s.
Proof. intros He. unfold static. by rewrite He. Qed.

Lemma static_handleRestart e msg a a' : handleRestart e msg a = Done a' → same_static a a'.
Proof.
  unfold handleRestart. destruct (unmarshal_into _ _ _) as [[[sid r] flags] ok].
  destruct (negb ok || _); [intros [= <-]; apply same_static_eq, sessions_fail|].
  destruct (sessions a !! sid) as [s|] eqn:Hs; [|intros [= <-]; apply same_static_eq, sessions_fail].
  destruct (stopAndWait s) as [s1|] eqn:Hstop; [|done]. apply state_stopAndWait in Hstop.
  destruct (relaunch e _) as [s2|err] eqn:Hr; intros [= <-].
  - apply relaunch_fresh in Hr as (Hf & _ & _).
    eapply (same_static_insert _ _ sid s s2); [|exact Hs|].
    + rewrite sessions_reply. cbn. rewrite sessions_putKV. cbn. by rewrite insert_insert_eq.
    + by eapply static_restart_state.
  - eapply (same_static_insert _ _ sid s s1); [|exact Hs|by apply static_state].
    by rewrite sessions_fail, sessions_putKV.
Qed.

Lemma static_crash e id a : same_static a (watchSessionCrash e id a).
Proof.
  unfold watchSessionCrash, crash_begin, crash_end. destruct (sessions a !! id) as [s|] eqn:Hs; [|done]. destruct (_ || _); [done|]. cbv zeta.
  destruct (relaunch e _) as [s'|err] eqn:Hr.
  - apply relaunch_fresh in Hr as (Hf & _ & _).
    eapply (same_static_insert _ _ id s (watch s')); [|exact Hs|].
    + cbn. rewrite sessions_putKV. cbn. by rewrite insert_insert_eq.
    + destruct Hf. unfold static. cbn. by rewrite fs_state0.
  - eapply (same_static_insert _ _ id s (unwatch s)); [|exact Hs|done]. cbn. by rewrite sessions_putKV.
Qed.

Lemma sessions_handleDelete e msg a a' :
  handleDelete e msg a = Done a' → sessions a' = sessions a ∨ ∃ id, sessions a' = delete id (sessions a).
Proof.
  unfold handleDelete. destruct (unmarshal_into _ _ _) as [[[sid r] flags] ok].
  destruct (negb ok || _); [intros [= <-]; left; apply sessions_fail|].
  destruct (sessions a !! sid) as [s|] eqn:Hs; [|intros [= <-]; left; apply sessions_fail].
  destruct (stopAndWait _) as [s1|]; [|done]. intros [= <-]. right. exists sid. rewrite sessions_reply.
  rewrite remove_worktree_exact. repeat case_match; done.
Qed.

Section over_time.
Context `{UnicodeTables, Normalizer}.

(** The agent and its crash watchers that have started a process and not yet stored it. *)
Record arun := { ar_agent : Agent; ar_restarts : list (string * asession) }.

(** What happens to an agent that runs: a message is handled, a session of the table
    has an event, a watcher does its first or its second part, the drain loop ticks.
    (A process that is not in the table yet has its events later.) *)
Inductive astep : arun → arun → Prop :=
| as_message e order h msg r a' : run_handler e order h msg (ar_agent r) = Done a' → astep r {| ar_agent := a'; ar_restarts := ar_restarts r |}
| as_event e id now line r : astep r {| ar_agent := on_session e id (handleSideEffect now line) (ar_agent r); ar_restarts := ar_restarts r |}
| as_crash e id r a' o : crash_begin e id (ar_agent r) = (a', o) →
    astep r {| ar_agent := a'; ar_restarts := ar_restarts r ++ match o with Some s' => [(id, s')] | None => [] end |}
| as_restarted e id s' l1 l2 r : ar_restarts r = l1 ++ (id, s') :: l2 → astep r {| ar_agent := crash_end e id s' (ar_agent r); ar_restarts := l1 ++ l2 |}
| as_tick r : astep r {| ar_agent := (drain_tick (ar_agent r)).2; ar_restarts := ar_restarts r |}.

(** The same when no watcher is interrupted. *)
Inductive undisturbed : Agent → Agent → Prop :=
| un_message e order h msg a a' : run_handler e order h msg a = Done a' → undisturbed a a'
| un_event e id now line a : undisturbed a (on_session e id (handleSideEffect now line) a)
| un_crash e id a : undisturbed a (watchSessionCrash e id a)
| un_tick a : undisturbed a (drain_tick a).2.

Definition worktrees_ok (a : Agent) : Prop :=
  ∀ id1 id2 s1 s2, id1 ≠ id2 → sessions a !! id1 = Some s1 → sessions a !! id2 = Some s2 →
    st_Worktree (state (as_sess s1)) = st_Worktree (state (as_sess s2)) →
    st_JoinWorktree (state (as_sess s1)) = true ∨ st_JoinWorktree (state (as_sess s2)) = true.

Lemma worktrees_same a a' : same_static a a' → worktrees_ok a → worktrees_ok a'.
Proof.
  intros Hst Hw id1 id2 t1 t2 Hne H1 H2 He.
  pose proof (Hst id1) as E1. pose proof (Hst id2) as E2. rewrite H1 in E1. rewrite H2 in E2.
  destruct (sessions a !! id1) as [s1|] eqn:S1; [|done]. destruct (sessions a !! id2) as [s2|] eqn:S2; [|done].
  cbn in E1, E2. unfold static in E1, E2. simplify_eq. 
  destruct (Hw id1 id2 s1 s2) as [J|J]; [done..|congruence|left|right]; congruence.
Qed.

Lemma worktreeInUse_spec a slug :
  worktreeInUse a slug = true ↔ ∃ id s, sessions a !! id = Some s ∧ st_Worktree (state (as_sess s)) = slug.
Proof.
  unfold worktreeInUse. rewrite existsb_exists. split.
  - intros ([id s] & Hin & He). apply list_elem_of_In, elem_of_map_to_list in Hin.
    exists id, s. split; [done|]. by apply String.eqb_eq.
  - intros (id & s & Hs & He). exists (id, s). split; [apply list_elem_of_In; by apply elem_of_map_to_list|].
    by apply String.eqb_eq.
Qed.

Lemma handleCreate_sessions e msg a :
  sessions (handleCreate e msg a) = sessions a ∨
  ∃ req s, sessions (handleCreate e msg a) = <[e_uuid e := s]> (sessions a) ∧ created e a req s ∧
    (worktreeInUse a (SlugifyBranch (effective_branch req (e_uuid e))) = true → rq_JoinWorktree req = true).
Proof.
  destruct (if String.eqb (m_data msg) "" then (zero_createRequest, true)
            else unmarshal_into (dec_struct createRequest_fields) zero_createRequest (m_data msg)) as [req []] eqn:Hd.
  - destruct (handleCreate_cases e msg req a Hd) as [[Hx _]|(s & Hs & Hc & _ & Hw & _)]; [by left|].
    right. by exists req, s.
  - left. unfold handleCreate. rewrite Hd. cbn [negb]. apply sessions_fail.
Qed.

Lemma worktrees_step a a' : undisturbed a a' → worktrees_ok a → worktrees_ok a'.
Proof.
  intros Hs Hw. destruct Hs as [e order h msg a a' Hr|e id now line a|e id a|a].
  - destruct h; cbn in Hr; try (injection Hr as <-); try done.
    + destruct (handleCreate_sessions e msg a) as [Hx|(req & s & Hx & Hc & Hj)];
        [by apply (worktrees_same a); [apply same_static_eq|]|].
      destruct Hc as [Hst _ _ _ _ _].
      assert (Hnew : ∀ id s1, sessions a !! id = Some s1 →
        st_Worktree (state (as_sess s1)) = st_Worktree (state (as_sess s)) → st_JoinWorktree (state (as_sess s)) = true).
      { intros id s1 Hs1 He. rewrite Hst in *. apply Hj, worktreeInUse_spec. by exists id, s1. }
      intros id1 id2 s1 s2 Hne H1 H2 He. rewrite Hx in H1, H2.
      rewrite lookup_insert_Some in H1, H2.
      destruct H1 as [[<- <-]|[_ H1]], H2 as [[? <-]|[_ H2]]; try congruence.
      * left. by eapply Hnew.
      * right. by eapply Hnew.
      * by eapply Hw.
    + destruct (sessions_handleDelete e msg a a' Hr) as [Hx|[id Hx]];
        [by apply (worktrees_same a); [apply same_static_eq|]|].
      intros id1 id2 s1 s2 Hne H1 H2. rewrite Hx in H1, H2.
      rewrite lookup_delete_Some in H1, H2. destruct H1 as [_ H1], H2 as [_ H2]. by eapply Hw.
    + by apply (worktrees_same a); [apply static_handleInput|].
    + by apply (worktrees_same a); [by eapply static_handleRestart|].
    + by apply (worktrees_same a); [apply static_handleControl|].
  - by apply (worktrees_same a); [apply static_on_session, keeps_side_effect|].
  - by apply (worktrees_same a); [apply static_crash|].
  - apply (worktrees_same a); [|done]. intros id. rewrite drain_tick_sessions.
    destruct (sessions a !! id) as [s|]; [|done]. cbn. f_equal. apply static_state.
    unfold interrupt_waiting. case_match; [|done]. apply state_try_send.
Qed.

(** As long as nothing comes between the two parts of a crash watcher, two sessions
    share a worktree only if one of them asked to join it. *)
Theorem worktrees_exclusive a0 a : worktrees_ok a0 → rtc undisturbed a0 a → worktrees_ok a.
Proof. intros Hok Hr. exact (rtc_invariant undisturbed worktrees_ok (λ x y Hx Hs, worktrees_step x y Hs Hx) _ _ Hok Hr). Qed.

(** The watcher asks whether its session is still the agent's before it starts the
    process, and not when it stores it: a session that is deleted meanwhile is back,
    with a process of its own. *)
Theorem deleted_session_returns e e2 msg a id r a1 s' a2 :
  crash_begin e id a = (a1, Some s') → decodes_delete msg id r → id ≠ "" → handleDelete e2 msg a1 = Done a2 →
  sessions a2 !! id = None ∧ sessions (crash_end e id s' a2) !! id = Some (watch s').
Proof.
  intros Hb Hd Hne H2. split; [|by apply lookup_insert_eq].
  assert (Hs1 : ∃ s, sessions a1 !! id = Some s).
  { unfold crash_begin in Hb. destruct (sessions a !! id) as [s|] eqn:Hs; [|done]. destruct (_ || _); [done|]. cbv zeta in Hb.
    destruct (relaunch e _); [|done]. injection Hb as <- _. exists (unwatch s). rewrite sessions_putKV. cbn. apply lookup_insert_eq. }
  destruct Hs1 as [s Hs]. unfold handleDelete in H2. rewrite Hd, Hs in H2. apply String.eqb_neq in Hne. rewrite Hne in H2. cbn [negb orb] in H2.
  destruct (stopAndWait _) as [s1|]; [|done]. injection H2 as <-. rewrite sessions_reply, remove_worktree_exact.
  repeat case_match; cbn; apply lookup_delete_eq.
Qed.

End over_time.

(** ** Recovery *)

Definition idle_now (e : env) (st : SessionState) : SessionState := set_StateSince (e_now e) (set_State StateIdle st).

(** The KV store accepts every write. *)
Definition kv_accepts (e : env) : Prop := ∀ st, e_kvErr e st = None.

Lemma putKV_ok e st a : kv_accepts e → sessKV (putKV e st a) = <[stateKey a st := st]> (sessKV a).
Proof. intros Hk. unfold putKV, writeSessionKV. by rewrite Hk. Qed.

Lemma cfg_put e st a : cfg (putKV e st a) = cfg a.
Proof. apply cfg_putKV. Qed.

Definition skey (c : agent_config) (st : SessionState) : string :=
  sessionKVKey (or_else (st_HostSlug st) (ag_hostSlug c)) (or_else (st_ProjectSlug st) (ag_projectSlug c))
    (or_else (st_Slug st) (st_ID st)).

Definition mine (c : agent_config) (st : SessionState) : Prop := st_ProjectID st = ag_projectID c ∧ st_ID st ≠ "".

Section recovery.
Context (e : env) (c : agent_config) (key_of : string → string) (Haccept : kv_accepts e).

(** [rem]: the KV entries not looked at yet.  Every entry of the project that
    still says "updating" is one of them, or is remembered. *)
Record recovering (rem : list SessionState) (a : Agent) : Prop := {
  rc_cfg : cfg a = c;
  rc_rem : ∀ st, st ∈ rem → mine c st → skey c st = key_of (st_ID st);
  rc_kv : ∀ k st, sessKV a !! k = Some st → mine c st → st_State st = StateUpdating →
    k = key_of (st_ID st) ∧ (is_Some (pendingUpdatingIDs a !! st_ID st) ∨ st ∈ rem);
  rc_pending : ∀ id p, pendingUpdatingIDs a !! id = Some p → skey c p = key_of id;
  rc_sessions : ∀ id s, sessions a !! id = Some s →
    skey c (state (as_sess s)) = key_of (st_ID (state (as_sess s)));
}.

Lemma recovering_ext rem a a' :
  cfg a' = cfg a → sessKV a' = sessKV a → pendingUpdatingIDs a' = pendingUpdatingIDs a → sessions a' = sessions a →
  recovering rem a → recovering rem a'.
Proof. intros H1 H2 H3 H4 []. split; rewrite ?H1, ?H2, ?H3, ?H4; auto. Qed.

Lemma recovering_session rem a id s :
  recovering rem a → skey c (state (as_sess s)) = key_of (st_ID (state (as_sess s))) →
  recovering rem (set_session id s a).
Proof.
  intros [] Hk. split; cbn; auto. intros i t. rewrite lookup_insert_Some. intros [[_ <-]|[_ Ht]]; eauto.
Qed.

(** Writing an entry that no longer says "updating", under the key of an
    identifier, settles that identifier. *)
Lemma recovering_write rem rem' a st id :
  recovering rem a → (∀ x, x ∈ rem' → x ∈ rem) → (∀ x, x ∈ rem → x ∈ rem' ∨ ¬ mine c x ∨ st_ID x = id) →
  skey c st = key_of id → st_State st ≠ StateUpdating →
  recovering rem' (set_pendingUpdating (delete id (pendingUpdatingIDs a)) (putKV e st a)).
Proof.
  intros [] Hsub Hcov Hk Hst.
  assert (Hkv : sessKV (putKV e st a) = <[key_of id := st]> (sessKV a)).
  { rewrite putKV_ok by done. unfold stateKey. rewrite rc_cfg0. fold (skey c st). by rewrite Hk. }
  split; cbn.
  - by rewrite cfg_put.
  - eauto.
  - intros k st'. rewrite Hkv, lookup_insert_Some. intros [[_ <-]|[Hne Hl]] Hm Hu; [done|].
    destruct (rc_kv0 k st' Hl Hm Hu) as [Hk' Hp]. split; [done|].
    assert (st_ID st' ≠ id) by (intros <-; congruence).
    rewrite lookup_delete_ne by done. destruct Hp as [Hp|Hp]; [by left|].
    destruct (Hcov st' Hp) as [|[|]]; [by right|done|done].
  - intros i p. rewrite lookup_delete_Some. intros [_ Hp]; eauto.
  - intros i s. rewrite sessions_putKV. eauto.
Qed.

Lemma recovering_lifecycle rem id ev a : recovering rem a → recovering rem (publishLifecycle e id ev a).
Proof. by apply recovering_ext. Qed.

Lemma recover_entry_step rem a st : recovering (st :: rem) a → recovering rem (recover_entry e a st).
Proof.
  intros Hr. pose proof Hr as [Hcfg Hrem Hkv Hpend Hsess]. unfold recover_entry. rewrite Hcfg.
  destruct (String.eqb_spec (st_ProjectID st) (ag_projectID c)) as [Hp|Hp]; cbn [negb orb].
  2: { split; eauto using list_elem_of_further. intros k st' Hl Hm Hu. destruct (Hkv k st' Hl Hm Hu) as [Hk [Hx|Hx]]; [by auto|].
       split; [done|]. apply elem_of_cons in Hx as [->|Hx]; [by destruct Hm|by right]. }
  destruct (String.eqb_spec (st_ID st) "") as [Hi|Hi].
  { split; eauto using list_elem_of_further. intros k st' Hl Hm Hu. destruct (Hkv k st' Hl Hm Hu) as [Hk [Hx|Hx]]; [by auto|].
    split; [done|]. apply elem_of_cons in Hx as [->|Hx]; [by destruct Hm|by right]. }
  assert (Hmine : mine c st) by done. assert (Hkey : skey c st = key_of (st_ID st)) by (apply Hrem; [left|done]).
  set (st' := clearPendingControlsForResume st).
  assert (Hkey' : skey c st' = key_of (st_ID st)) by exact Hkey.
  set (a1 := if String.eqb (st_State st) StateUpdating then _ else _).
  assert (H1 : recovering rem a1).
  { unfold a1. destruct (String.eqb_spec (st_State st) StateUpdating) as [Hu|Hu].
    - split; cbn; eauto using list_elem_of_further.
      + intros k x Hl Hm Hux. destruct (Hkv k x Hl Hm Hux) as [Hk Hx]. split; [done|].
        destruct (decide (st_ID x = st_ID st)) as [He|He].
        * left. rewrite He, lookup_insert_eq. eauto.
        * rewrite lookup_insert_ne by done. destruct Hx as [|Hx]; [by left|].
          apply elem_of_cons in Hx as [->|Hx]; [done|by right].
      + intros id p. rewrite lookup_insert_Some. intros [[<- <-]|[_ Hl]]; eauto.
    - assert (Hn : st_State st' ≠ StateUpdating) by done.
      pose proof (recovering_write (st :: rem) rem a st' (st_ID st) Hr) as Hw.
      destruct Hw as [W1 W2 W3 W4 W5]; [by right| |done|done|].
      { intros x Hx. apply elem_of_cons in Hx as [->|Hx]; auto. }
      split; eauto.
      + intros k x Hl Hm Hux. destruct (W3 k x Hl Hm Hux) as [Hk Hx]. split; [done|].
        destruct Hx as [Hx|]; [left|by right]. cbn in Hx. destruct Hx as [p Hx].
        apply lookup_delete_Some in Hx as [_ Hx]. unfold putKV, writeSessionKV. destruct (e_kvErr e st'); cbn; eauto.
      + intros id p. unfold putKV, writeSessionKV. destruct (e_kvErr e st'); cbn; eauto. }
  clearbody a1. destruct (relaunch e st') as [s|err] eqn:Hl.
  - apply relaunch_fresh in Hl as (Hf & _ & _). destruct Hf. apply recovering_lifecycle, recovering_session.
    + by apply recovering_lifecycle.
    + cbn. by rewrite fs_state0.
  - by apply recovering_lifecycle.
Qed.

Lemma recover_all rem a : recovering rem a → recovering [] (recoverSessions e rem a).
Proof.
  revert a. induction rem as [|st rem IH]; intros a Hr; cbn; [done|]. by apply IH, recover_entry_step.
Qed.

Lemma clear_resumed_step a id : recovering [] a → recovering [] (clear_resumed e a id).
Proof.
  intros Hr. unfold clear_resumed. destruct (sessions a !! id) as [s|] eqn:Hs; [|done].
  destruct (pendingUpdatingIDs a !! _) as [p|] eqn:Hp; [|done].
  assert (pendingUpdatingIDs (putKV e (idle_now e (state (as_sess s))) a) = pendingUpdatingIDs a) as Heq
    by (unfold putKV, writeSessionKV; by destruct (e_kvErr e _)).
  fold (idle_now e (state (as_sess s))). rewrite Heq.
  apply (recovering_write [] []); [done|auto|intros x Hx; by apply elem_of_nil in Hx| |done].
  destruct Hr. apply (rc_sessions0 _ _ Hs).
Qed.

Lemma clear_resumed_all ids a : recovering [] a → recovering [] (fold_left (clear_resumed e) ids a).
Proof. revert a. induction ids as [|id ids IH]; intros a Hr; cbn; [done|]. by apply IH, clear_resumed_step. Qed.

Lemma clear_orphan_all l a :
  recovering [] a → (∀ id p, (id, p) ∈ l → skey c p = key_of id) →
  (∀ id, is_Some (pendingUpdatingIDs a !! id) → id ∈ l.*1) →
  let a' := fold_left (clear_orphan e) l a in
  recovering [] a' ∧ pendingUpdatingIDs a' = ∅.
Proof.
  revert a. induction l as [|[id p] l IH]; intros a Hr Hl Hc; cbn.
  - split; [done|]. apply map_empty. intros i. apply eq_None_not_Some. intros Hx. apply Hc in Hx. by apply elem_of_nil in Hx.
  - apply IH.
    + unfold clear_orphan. cbn [fst snd].
      assert (pendingUpdatingIDs (putKV e (idle_now e p) a) = pendingUpdatingIDs a) as Heq
        by (unfold putKV, writeSessionKV; by destruct (e_kvErr e _)).
      fold (idle_now e p). rewrite Heq.
      apply (recovering_write [] []); [done|auto|intros x Hx; by apply elem_of_nil in Hx| |done]. apply (Hl id p). left.
    + intros i q Hq. apply Hl. by right.
    + intros i Hi. unfold clear_orphan in Hi. cbn [fst snd set_pendingUpdating pendingUpdatingIDs] in Hi.
      assert (pendingUpdatingIDs (putKV e (idle_now e p) a) = pendingUpdatingIDs a) as Heq
        by (unfold putKV, writeSessionKV; by destruct (e_kvErr e _)).
      fold (idle_now e p) in Hi. rewrite Heq in Hi. destruct Hi as [x Hx]. apply lookup_delete_Some in Hx as [Hne Hx].
      assert (i ∈ ((id, p) :: l).*1) as Hin by (apply Hc; eauto). cbn in Hin.
      apply elem_of_cons in Hin as [->|]; done.
Qed.

End recovery.

(** After a restart of the agent no session of the project keeps the "updating"
    banner: given the project's KV entries, one key per session identifier, and
    a KV store that accepts the writes, recovery followed by
    [clearUpdatingState] leaves no entry of the project in the state "updating",
    whether or not the sessions could be resumed, and nothing is left pending. *)
Theorem recovery_clears_banner e a entries key_of :
  kv_accepts e → sessions a = ∅ → pendingUpdatingIDs a = ∅ →
  (∀ k st, sessKV a !! k = Some st → mine (cfg a) st → st ∈ entries ∧ k = key_of (st_ID st)) →
  (∀ st, st ∈ entries → mine (cfg a) st → skey (cfg a) st = key_of (st_ID st)) →
  let a' := clearUpdatingState e (recoverSessions e entries a) in
  (∀ k st, sessKV a' !! k = Some st → mine (cfg a) st → st_State st ≠ StateUpdating) ∧
  pendingUpdatingIDs a' = ∅.
Proof.
  intros He Hs Hp Hkv Hkey a'.
  assert (H0 : recovering (cfg a) key_of entries a).
  { split; auto.
    - intros k st Hl Hm _. destruct (Hkv k st Hl Hm). auto.
    - intros id p. by rewrite Hp, lookup_empty.
    - intros id s. by rewrite Hs, lookup_empty. }
  apply (recover_all e) in H0; [|done].
  apply (clear_resumed_all e (cfg a) key_of He (map_to_list (sessions (recoverSessions e entries a))).*1) in H0.
  unfold a', clearUpdatingState. set (a1 := fold_left (clear_resumed e) _ _) in *.
  destruct (clear_orphan_all e (cfg a) key_of He (map_to_list (pendingUpdatingIDs a1)) a1 H0) as [[] Hempty].
  - intros id p Hin. apply elem_of_map_to_list in Hin. destruct H0. eauto.
  - intros id [p Hx]. apply list_elem_of_fmap. exists (id, p). split; [done|]. by apply elem_of_map_to_list.
  - split; [|done]. intros k st Hl Hm Hu. destruct (rc_kv0 k st Hl Hm Hu) as [_ [[x Hx]|Hx]].
    + rewrite Hempty in Hx. by rewrite lookup_empty in Hx.
    + by apply elem_of_nil in Hx.
Qed.

End agent_spec.

(** ** A concrete agent *)
Module AgentDemo.

#[local] Instance time : GoTime := {
  parse_rfc3339 s := None;
  format_rfc3339 z := pretty.pretty z;
}.

#[local] Instance tables : UnicodeTables := ascii_tables.
#[local] Instance norm : Normalizer := ascii_norm.

Definition quoted_flags : string := "--model 'opus".

#[local] Instance text : JsonText := table_json [
  ("deny", answer_doc "r1" "deny");
  ("interrupt", JObj [("type", JStr "control_request"); ("request", JObj [("subtype", JStr "interrupt")])]);
  ("restart", JObj [("sessionId", JStr "a")]);
  ("bad restart", JObj [("sessionId", JStr "a"); ("extraFlags", JStr quoted_flags)]);
  ("delete", JObj [("sessionId", JStr "a"); ("requestId", JStr "q")]);
  ("strict", JObj [("name", JStr "Fix Bug"); ("permPolicy", JStr "strict-allowlist")]);
  ("create", JObj [("name", JStr "Fix Bug"); ("permPolicy", JStr "auto")]);
  ("create on fix", JObj [("name", JStr "Fix Bug"); ("branch", JStr "fix")]);
  ("delete created", JObj [("sessionId", JStr "0123456789")])].

Definition config : agent_config := {|
  ag_userID := "u1"; ag_userSlug := "alice"; ag_hostSlug := "laptop"; ag_projectID := "p1";
  ag_projectSlug := "web"; ag_dataDir := ""; ag_registry := agentRegistry |}.

Definition world : env := {|
  e_now := 7; e_uuid := "0123456789"; e_jsonErr := "bad json"; e_gitAdd := None; e_gitRemove := None;
  e_spawn := λ _ _, None; e_kvErr := λ _, None; e_subscribeErr := false; e_exitCode := 0;
  e_lastSeq := None; e_attachments := [] |}.

Definition base_state (id status : string) : SessionState := {|
  st_ID := id; st_Slug := "fix-bug"; st_UserSlug := "alice"; st_HostSlug := "laptop"; st_ProjectSlug := "web";
  st_ProjectID := "p1"; st_Branch := "fix"; st_Worktree := "fix"; st_CWD := "/data/worktrees/fix"; st_Name := "Fix Bug";
  st_State := status; st_StateSince := 0; st_CreatedAt := 0; st_Backend := "claude_code"; st_Model := "";
  st_Capabilities := zero_Capabilities; st_Tools := []; st_Skills := []; st_Agents := [];
  st_PendingControls := Some {["r1" := Some JNull]}; st_Usage := zero_Usage; st_ReplayFromSeq := 0%N;
  st_JoinWorktree := true; st_ExtraFlags := ""; st_SoftThreshold := 0; st_HardHeadroomTokens := 0;
  st_AutoContinue := false; st_BranchSlug := "fix"; st_PausedVia := ""; st_ClaudeSessionID := "";
  st_FailedTool := ""; st_ResumeAt := None |}.

(** A running session with a strict allowlist. *)
Definition running (id : string) : asession := {|
  as_sess := with_policy PermissionPolicyStrictAllowlist {["Read" := true]} (newSession (base_state id StateRequiresAction));
  as_driver := Some ClaudeCodeDriver; as_extraFlags := ""; as_started := true; as_stopClosed := false;
  as_monitor := None; as_monitorStopped := false; as_watched := true; as_compactHook := true |}.

Definition agent : Agent := {|
  cfg := config; sessions := {["a" := running "a"; "b" := running "b"]};
  sessKV := {[skey config (base_state "b" StateIdle) := base_state "b" StateIdle]};
  pendingUpdatingIDs := ∅; out := [] |}.

Definition empty : Agent := {| cfg := config; sessions := ∅; sessKV := ∅; pendingUpdatingIDs := ∅; out := [] |}.

Definition stale : SessionState := set_State StateUpdating (base_state "b" StateIdle).

Definition before_recovery : Agent := {|
  cfg := config; sessions := ∅; sessKV := {[skey config stale := stale]}; pendingUpdatingIDs := ∅; out := [] |}.

Definition msg (data : string) : nmsg := {| m_subject := "s"; m_data := data; m_reply := true |}.

Definition create_req (policy : string) : createRequest := upd_rq_PermPolicy policy (upd_rq_Name "Fix Bug" zero_createRequest).

End AgentDemo.

Lemma answers_are_allowed_witness :
  ∃ s', sessions (handleControl (JT := AgentDemo.text) (GT := AgentDemo.time) AgentDemo.world ["a"; "b"] (AgentDemo.msg "deny") AgentDemo.agent) !! "a" = Some s' ∧
    answered (JT := AgentDemo.text) "r1" (AgentDemo.running "a") s'.
Proof.
  destruct (answers_are_allowed (JT := AgentDemo.text) (GT := AgentDemo.time) AgentDemo.world ["a"; "b"]
    (AgentDemo.msg "deny") AgentDemo.agent "a" (AgentDemo.running "a") "r1" "deny") as [H _];
    [reflexivity|discriminate|reflexivity|reflexivity|reflexivity|].
  apply H. vm_compute. reflexivity.
Defined.

Lemma interrupt_reaches_all_witness :
  sessions (handleControl (JT := AgentDemo.text) (GT := AgentDemo.time) AgentDemo.world [] (AgentDemo.msg "interrupt") AgentDemo.agent) =
  sendViaDriver (JT := AgentDemo.text) Interrupt <$> sessions AgentDemo.agent.
Proof.
  apply (interrupt_reaches_all (JT := AgentDemo.text) (GT := AgentDemo.time) AgentDemo.world [] (AgentDemo.msg "interrupt")
    AgentDemo.agent {| ce_Type := "control_request"; ce_RequestID := ""; ce_Subtype := "interrupt" |}); reflexivity.
Defined.

(** The session had a strict allowlist; after the restart it is [managed]. *)
Lemma restart_forgets_configuration_witness :
  ∃ a' s', handleRestart (JT := AgentDemo.text) (GT := AgentDemo.time) AgentDemo.world (AgentDemo.msg "restart") AgentDemo.agent = Done a' ∧
    sessions a' !! "a" = Some s' ∧ permPolicy (as_sess s') = PermissionPolicyManaged ∧ as_watched s' = false.
Proof.
  destruct (restart_forgets_configuration (JT := AgentDemo.text) (GT := AgentDemo.time) AgentDemo.world AgentDemo.agent "a"
    (AgentDemo.running "a")) as [H _]; [reflexivity|reflexivity|].
  destruct (H (AgentDemo.msg "restart") ""%string ""%string) as (a' & s' & Ha & Hs & [] & Hw);
    [reflexivity|discriminate|reflexivity|reflexivity|].
  exists a', s'. auto.
Defined.

(** Restarting with an unterminated quote in the extra flags, then deleting. *)
Lemma failed_restart_arms_panic_witness :
  ∃ a', handleRestart (JT := AgentDemo.text) (GT := AgentDemo.time) AgentDemo.world (AgentDemo.msg "bad restart") AgentDemo.agent = Done a' ∧
    handleDelete (JT := AgentDemo.text) (GT := AgentDemo.time) AgentDemo.world (AgentDemo.msg "delete") a' = Panicked.
Proof.
  destruct (failed_restart_arms_panic (JT := AgentDemo.text) (GT := AgentDemo.time) AgentDemo.world (AgentDemo.msg "bad restart")
    AgentDemo.agent "a" ""%string AgentDemo.quoted_flags (AgentDemo.running "a")) as (a' & Ha & _ & Hd & _);
    [reflexivity|discriminate|reflexivity|reflexivity|reflexivity|reflexivity|].
  exists a'. split; [exact Ha|]. apply (Hd _ _ "q"%string). reflexivity.
Defined.

Lemma create_all_or_error_witness :
  sessions (handleCreate (JT := AgentDemo.text) (GT := AgentDemo.time) (H := AgentDemo.tables) (H0 := AgentDemo.norm)
    AgentDemo.world (AgentDemo.msg "strict") AgentDemo.empty) = ∅.
Proof.
  destruct (create_all_or_error (JT := AgentDemo.text) (GT := AgentDemo.time) (H := AgentDemo.tables) (H0 := AgentDemo.norm)
    AgentDemo.world (AgentDemo.msg "strict") (AgentDemo.create_req PermissionPolicyStrictAllowlist) AgentDemo.empty)
    as [[Hs _]|(s & _ & _ & _ & _ & Hn)].
  - reflexivity.
  - exact Hs.
  - exfalso. apply Hn. split; reflexivity.
Defined.

Lemma strict_rejection_leaves_traces_witness :
  is_Some (sessKV (handleCreate (JT := AgentDemo.text) (GT := AgentDemo.time) (H := AgentDemo.tables) (H0 := AgentDemo.norm)
    AgentDemo.world (AgentDemo.msg "strict") AgentDemo.empty) !! "hosts.laptop.projects.web.sessions.fix-bug").
Proof.
  destruct (strict_rejection_leaves_traces (JT := AgentDemo.text) (GT := AgentDemo.time) (H := AgentDemo.tables) (H0 := AgentDemo.norm)
    AgentDemo.world (AgentDemo.msg "strict") (AgentDemo.create_req PermissionPolicyStrictAllowlist) AgentDemo.empty)
    as (_ & Hk & _); [reflexivity|reflexivity|reflexivity|reflexivity|reflexivity|reflexivity|].
  eexists. exact Hk.
Defined.

Lemma delete_exact_witness :
  ∃ a', handleDelete (JT := AgentDemo.text) (GT := AgentDemo.time) AgentDemo.world (AgentDemo.msg "delete") AgentDemo.agent = Done a' ∧
    sessions a' = delete "a" (sessions AgentDemo.agent).
Proof.
  destruct (delete_exact (JT := AgentDemo.text) (GT := AgentDemo.time) AgentDemo.world (AgentDemo.msg "delete") AgentDemo.agent
    "a" "q" (AgentDemo.running "a")) as (a' & p & Ha & Hs & _);
    [reflexivity|discriminate|reflexivity|reflexivity|reflexivity|].
  exists a'. auto.
Defined.

Lemma delete_takes_shared_entry_witness :
  ∃ a', handleDelete (JT := AgentDemo.text) (GT := AgentDemo.time) AgentDemo.world (AgentDemo.msg "delete") AgentDemo.agent = Done a' ∧
    sessions a' !! "b" = Some (AgentDemo.running "b") ∧
    sessKV a' !! stateKey AgentDemo.agent (state (as_sess (AgentDemo.running "b"))) = None.
Proof.
  apply (delete_takes_shared_entry (JT := AgentDemo.text) (GT := AgentDemo.time) AgentDemo.world (AgentDemo.msg "delete")
    AgentDemo.agent "a" "q" (AgentDemo.running "a") "b" (AgentDemo.running "b")); try reflexivity; try discriminate.
  split; reflexivity.
Defined.

Lemma worktrees_exclusive_witness :
  worktrees_ok (handleCreate (JT := AgentDemo.text) (GT := AgentDemo.time) (H := AgentDemo.tables) (H0 := AgentDemo.norm)
    AgentDemo.world (AgentDemo.msg "create") AgentDemo.agent).
Proof.
  apply (worktrees_exclusive (JT := AgentDemo.text) (GT := AgentDemo.time) (H := AgentDemo.tables) (H0 := AgentDemo.norm) AgentDemo.agent).
  - intros id1 id2 s1 s2 _ H1 _ _. left. cbn in H1. rewrite lookup_insert_Some, lookup_singleton_Some in H1. by destruct H1 as [[_ <-]|[_ [_ <-]]].
  - apply rtc_once. apply (un_message AgentDemo.world [] HCreate (AgentDemo.msg "create")). reflexivity.
Defined.

(** A session on branch [fix] crashes; while its watcher starts another process, the
    session is deleted, and another one created on the branch. *)
Module InterruptedWatcher.
Import AgentDemo.
#[local] Existing Instances AgentDemo.text AgentDemo.time AgentDemo.tables AgentDemo.norm.

Definition later : env := {|
  e_now := 8; e_uuid := "9876543210"; e_jsonErr := "bad json"; e_gitAdd := None; e_gitRemove := None;
  e_spawn := λ _ _, None; e_kvErr := λ _, None; e_subscribeErr := false; e_exitCode := 0;
  e_lastSeq := None; e_attachments := [] |}.
Definition id : string := "0123456789".

Definition created_first : Agent := handleCreate world (msg "create on fix") empty.
Definition crashing : Agent * option asession := crash_begin world id created_first.
Definition deleted : outcome Agent := handleDelete world (msg "delete created") crashing.1.
Definition created_second : Agent := match deleted with Done a => handleCreate later (msg "create on fix") a | Panicked => empty end.
Definition restarted : Agent := match crashing.2 with Some s' => crash_end world id s' created_second | None => empty end.

End InterruptedWatcher.
Import InterruptedWatcher.

(** So in a run of the whole agent two sessions that did not ask to join can end up
    in one worktree. *)
Theorem worktrees_shared_after_crash :
  let run := astep (JT := AgentDemo.text) (GT := AgentDemo.time) (H := AgentDemo.tables) (H0 := AgentDemo.norm) in
  rtc run {| ar_agent := AgentDemo.empty; ar_restarts := [] |} {| ar_agent := restarted; ar_restarts := [] |} ∧ ¬ worktrees_ok restarted.
Proof.
  cbv zeta. assert (Hc : crashing = (crashing.1, crashing.2)) by (by destruct crashing).
  assert (Hs : ∃ s', crashing.2 = Some s') by (vm_compute; eauto). destruct Hs as [s' Hs].
  assert (Hd : ∃ a, deleted = Done a) by (vm_compute; eauto). destruct Hd as [a Hd]. split.
  - eapply rtc_l; [apply (as_message AgentDemo.world [] HCreate (AgentDemo.msg "create on fix")); reflexivity|].
    eapply rtc_l; [eapply (as_crash AgentDemo.world id); exact Hc|]. rewrite Hs. cbn [ar_restarts ar_agent app].
    eapply rtc_l; [apply (as_message AgentDemo.world [] HDelete (AgentDemo.msg "delete created")); exact Hd|]. cbn [ar_restarts ar_agent].
    eapply rtc_l; [apply (as_message later [] HCreate (AgentDemo.msg "create on fix")); reflexivity|]. cbn [ar_restarts ar_agent].
    unfold restarted, created_second. rewrite Hs, Hd. apply rtc_once. by apply (as_restarted AgentDemo.world id s' [] []).
  - assert (H1 : (λ s, (st_Worktree (state (as_sess s)), st_JoinWorktree (state (as_sess s)))) <$> (sessions restarted !! id) = Some ("fix", false)%string)
      by (vm_compute; reflexivity).
    assert (H2 : (λ s, (st_Worktree (state (as_sess s)), st_JoinWorktree (state (as_sess s)))) <$> (sessions restarted !! "9876543210") = Some ("fix", false)%string)
      by (vm_compute; reflexivity).
    apply fmap_Some in H1 as (s1 & H1 & [= W1 J1]). apply fmap_Some in H2 as (s2 & H2 & [= W2 J2]).
    intros Hok. destruct (Hok id "9876543210" s1 s2) as [J|J]; [discriminate|done|done|congruence..].
Qed.

Lemma recovery_clears_banner_witness :
  let a' := clearUpdatingState AgentDemo.world
    (recoverSessions (GT := AgentDemo.time) AgentDemo.world [AgentDemo.stale] AgentDemo.before_recovery) in
  pendingUpdatingIDs a' = ∅ ∧
  st_State <$> sessKV a' !! "hosts.laptop.projects.web.sessions.fix-bug" ≠ Some StateUpdating.
Proof.
  intros a'.
  destruct (recovery_clears_banner (GT := AgentDemo.time) AgentDemo.world AgentDemo.before_recovery [AgentDemo.stale]
    (λ _, skey AgentDemo.config AgentDemo.stale)) as [H1 H2].
  - intros st. reflexivity.
  - reflexivity.
  - reflexivity.
  - intros k st Hk _.
    change (sessKV AgentDemo.before_recovery) with
      (<[skey AgentDemo.config AgentDemo.stale := AgentDemo.stale]> (∅ : gmap string SessionState)) in Hk.
    apply lookup_insert_Some in Hk as [[<- <-]|[_ Hk]]; [split; [left|reflexivity]|by rewrite lookup_empty in Hk].
  - intros st Hst _. apply elem_of_cons in Hst as [->|Hst]; [reflexivity|by apply elem_of_nil in Hst].
  - split; [exact H2|]. destruct (sessKV a' !! _) as [st|] eqn:Hst; [|discriminate].
    intros [= He]. apply (H1 _ st Hst); [|exact He]. vm_compute in Hst. injection Hst as <-. split; [reflexivity|discriminate].
Defined.
