(* ===== verification/Permissions.v ===== *)
(** * NATS permissions (mclaude-control-plane/nkeys.go)

    The allow-lists of the credentials the control plane issues to users, hosts
    and session agents, and the claims of the issued tokens.  A token is
    represented by the claims that the account key signs; the signing library is
    third-party code, and signing fails when [sign_error] says so.  What a
    connection may do under a list of patterns is decided by the NATS server,
    through the class [NatsServer]. *)

From S2P Require Import Prelude GoStrings Slug Subjects.
Open Scope go_scope.

Record NATSPermissions := { PubAllow : list string; SubAllow : list string }.

(** ** Names of the per-user resources *)

Definition userSessionsBucket (uslug : string) : string := "mclaude-sessions-" ++. uslug.
Definition userProjectsBucket (uslug : string) : string := "mclaude-projects-" ++. uslug.
Definition userSessionsStream (uslug : string) : string := "MCLAUDE_SESSIONS_" ++. uslug.
Definition kvStreamName (bucket : string) : string := "KV_" ++. bucket.

(** ** Users *)

Definition user_host_pub (hslug : string) : list string :=
  [ "$JS.API.DIRECT.GET.KV_mclaude-hosts.$KV.mclaude-hosts." ++. hslug;
    "$JS.API.CONSUMER.CREATE.KV_mclaude-hosts.*.$KV.mclaude-hosts." ++. hslug ].

Definition UserSubjectPermissions (uslug : string) (hostSlugs : list string) : NATSPermissions :=
  let sessBucket := userSessionsBucket uslug in
  let projBucket := userProjectsBucket uslug in
  let sessStream := userSessionsStream uslug in
  let sessStreamName := kvStreamName sessBucket in
  let projStreamName := kvStreamName projBucket in
  {| PubAllow :=
       [ "mclaude.users." ++. uslug ++. ".hosts.*.>";
         "_INBOX.>";
         "$JS.API.DIRECT.GET." ++. sessStreamName ++. ".>";
         "$JS.API.DIRECT.GET." ++. projStreamName ++. ".>";
         "$JS.API.CONSUMER.CREATE." ++. sessStreamName ++. ".>";
         "$JS.API.CONSUMER.CREATE." ++. projStreamName ++. ".>";
         "$JS.API.CONSUMER.CREATE." ++. sessStream ++. ".>";
         "$JS.API.STREAM.INFO." ++. sessStreamName;
         "$JS.API.STREAM.INFO." ++. projStreamName;
         "$JS.API.STREAM.INFO." ++. sessStream;
         "$JS.API.CONSUMER.INFO." ++. sessStreamName ++. ".*";
         "$JS.API.CONSUMER.INFO." ++. projStreamName ++. ".*";
         "$JS.API.CONSUMER.INFO.KV_mclaude-hosts.*";
         "$JS.API.CONSUMER.INFO." ++. sessStream ++. ".*";
         "$JS.ACK." ++. sessStreamName ++. ".>";
         "$JS.ACK." ++. projStreamName ++. ".>";
         "$JS.ACK.KV_mclaude-hosts.>";
         "$JS.ACK." ++. sessStream ++. ".>";
         "$JS.FC." ++. sessStreamName ++. ".>";
         "$JS.FC." ++. projStreamName ++. ".>";
         "$JS.FC.KV_mclaude-hosts.>";
         "$JS.FC." ++. sessStream ++. ".>" ] ++ flat_map user_host_pub hostSlugs;
     SubAllow :=
       [ "mclaude.users." ++. uslug ++. ".hosts.*.>";
         "_INBOX.>";
         "$KV." ++. sessBucket ++. ".hosts.>";
         "$KV." ++. projBucket ++. ".hosts.>";
         "$JS.FC." ++. sessStreamName ++. ".>";
         "$JS.FC." ++. projStreamName ++. ".>";
         "$JS.FC.KV_mclaude-hosts.>";
         "$JS.FC." ++. sessStream ++. ".>" ] ++ ((λ hslug, "$KV.mclaude-hosts." ++. hslug) <$> hostSlugs) |}.

(** ** Session agents *)

Definition SessionAgentSubjectPermissions (uslug hslug pslug : string) : NATSPermissions :=
  let sessBucket := userSessionsBucket uslug in
  let projBucket := userProjectsBucket uslug in
  let sessStream := userSessionsStream uslug in
  let sessStreamName := kvStreamName sessBucket in
  let projStreamName := kvStreamName projBucket in
  let sessKeyPrefix := "$KV." ++. sessBucket ++. ".hosts." ++. hslug ++. ".projects." ++. pslug ++. ".sessions." in
  let projKey := "$KV." ++. projBucket ++. ".hosts." ++. hslug ++. ".projects." ++. pslug in
  {| PubAllow :=
       [ "mclaude.users." ++. uslug ++. ".hosts." ++. hslug ++. ".projects." ++. pslug ++. ".>";
         "_INBOX.>";
         sessKeyPrefix ++. ">";
         projKey;
         "$JS.API.DIRECT.GET." ++. sessStreamName ++. ".$KV." ++. sessBucket ++. ".hosts." ++. hslug ++. ".projects." ++. pslug ++. ".sessions.>";
         "$JS.API.DIRECT.GET." ++. projStreamName ++. ".$KV." ++. projBucket ++. ".hosts." ++. hslug ++. ".projects." ++. pslug;
         "$JS.API.DIRECT.GET.KV_mclaude-hosts.$KV.mclaude-hosts." ++. hslug;
         "$JS.API.CONSUMER.CREATE." ++. sessStreamName ++. ".*.$KV." ++. sessBucket ++. ".hosts." ++. hslug ++. ".projects." ++. pslug ++. ".sessions.>";
         "$JS.API.CONSUMER.CREATE." ++. projStreamName ++. ".*.$KV." ++. projBucket ++. ".hosts." ++. hslug ++. ".projects." ++. pslug;
         "$JS.API.CONSUMER.CREATE.KV_mclaude-hosts.*.$KV.mclaude-hosts." ++. hslug;
         "$JS.API.CONSUMER.CREATE." ++. sessStream ++. ".*.mclaude.users." ++. uslug ++. ".hosts." ++. hslug ++. ".projects." ++. pslug ++. ".sessions.>";
         "$JS.API.STREAM.INFO." ++. sessStreamName;
         "$JS.API.STREAM.INFO." ++. projStreamName;
         "$JS.API.STREAM.INFO." ++. sessStream;
         "$JS.API.CONSUMER.INFO." ++. sessStreamName ++. ".*";
         "$JS.API.CONSUMER.INFO." ++. projStreamName ++. ".*";
         "$JS.API.CONSUMER.INFO.KV_mclaude-hosts.*";
         "$JS.API.CONSUMER.INFO." ++. sessStream ++. ".*";
         "$JS.ACK." ++. sessStreamName ++. ".>";
         "$JS.ACK." ++. projStreamName ++. ".>";
         "$JS.ACK.KV_mclaude-hosts.>";
         "$JS.ACK." ++. sessStream ++. ".>";
         "$JS.FC." ++. sessStreamName ++. ".>";
         "$JS.FC." ++. projStreamName ++. ".>";
         "$JS.FC.KV_mclaude-hosts.>";
         "$JS.FC." ++. sessStream ++. ".>";
         "mclaude.users." ++. uslug ++. ".quota" ];
     SubAllow :=
       [ "mclaude.users." ++. uslug ++. ".hosts." ++. hslug ++. ".projects." ++. pslug ++. ".>";
         "mclaude.users." ++. uslug ++. ".quota";
         "_INBOX.>";
         sessKeyPrefix ++. ">";
         projKey;
         "$KV.mclaude-hosts." ++. hslug;
         "$JS.FC." ++. sessStreamName ++. ".>";
         "$JS.FC." ++. projStreamName ++. ".>";
         "$JS.FC.KV_mclaude-hosts.>";
         "$JS.FC." ++. sessStream ++. ".>" ] |}.

(** ** Hosts *)

Definition HostSubjectPermissions (hslug : string) : NATSPermissions :=
  let prefix := "mclaude.hosts." ++. hslug ++. ".>" in
  {| PubAllow := [prefix; "_INBOX.>"];
     SubAllow := [prefix; "_INBOX.>"; "$SYS.ACCOUNT.*.CONNECT"; "$SYS.ACCOUNT.*.DISCONNECT"] |}.

(** ** Issued tokens *)

(** The claims set by [issueJWT]; [jc_IssuedAt] is set by the signing library. *)
Record jwt_claims := {
  jc_PublicKey : string; jc_Name : string; jc_Expires : option Z; jc_IssuedAt : Z; jc_Perms : NATSPermissions;
}.

Definition issueJWT (sign_error : bool) (now : Z) (publicKey claimName : string) (expirySecs : Z)
    (perms : NATSPermissions) : option jwt_claims :=
  if sign_error then None
  else Some {| jc_PublicKey := publicKey; jc_Name := claimName;
               jc_Expires := if (0 <? expirySecs)%Z then Some (now + expirySecs)%Z else None;
               jc_IssuedAt := now; jc_Perms := perms |}.

Definition IssueUserJWT (sign_error : bool) (now : Z) (publicKey userID userSlug : string) (hostSlugs : list string)
    (expirySecs : Z) : option jwt_claims :=
  issueJWT sign_error now publicKey userID expirySecs (UserSubjectPermissions userSlug hostSlugs).

Definition hostTTLSecs : Z := 5 * 60.

Definition IssueHostJWT (sign_error : bool) (now : Z) (publicKey hslug : string) : option jwt_claims :=
  issueJWT sign_error now publicKey ("host-" ++. hslug) hostTTLSecs (HostSubjectPermissions hslug).

Definition agentTTLSecs : Z := 5 * 60.

Definition IssueSessionAgentJWT (sign_error : bool) (now : Z) (publicKey uslug hslug pslug : string) : option jwt_claims :=
  issueJWT sign_error now publicKey ("agent-" ++. uslug ++. "-" ++. hslug ++. "-" ++. pslug) agentTTLSecs
    (SessionAgentSubjectPermissions uslug hslug pslug).

(** The generated key pair of the legacy flow is the argument [publicKey]. *)
Definition IssueHostJWTLegacy (sign_error : bool) (now : Z) (publicKey uslug hslug : string) : option jwt_claims :=
  issueJWT sign_error now publicKey ("host-" ++. uslug ++. "-" ++. hslug) (5 * 60) (HostSubjectPermissions hslug).

Definition legacy_user_permissions (userID userSlug : string) : NATSPermissions :=
  let prefix := "mclaude." ++. userID ++. ".>" in
  let kvProjects := "$KV.mclaude-projects." ++. userID ++. ".>" in
  let kvSessions := "$KV.mclaude-sessions." ++. userID ++. ".>" in
  let kvHosts := "$KV.mclaude-hosts." ++. userSlug ++. ".>" in
  let hostsPrefix := "mclaude.users." ++. userSlug ++. ".hosts.*.>" in
  let sessStreamName := kvStreamName (userSessionsBucket userSlug) in
  let projStreamName := kvStreamName (userProjectsBucket userSlug) in
  let kvPerUserSessions := "$KV." ++. userSessionsBucket userSlug ++. ".>" in
  let kvPerUserProjects := "$KV." ++. userProjectsBucket userSlug ++. ".>" in
  {| PubAllow :=
       [ prefix; "_INBOX.>"; "$JS.API.>"; hostsPrefix;
         "$JS.API.STREAM.INFO." ++. sessStreamName; "$JS.API.STREAM.INFO." ++. projStreamName;
         "$JS.API.CONSUMER.CREATE." ++. sessStreamName ++. ".>"; "$JS.API.CONSUMER.CREATE." ++. projStreamName ++. ".>";
         kvPerUserSessions; kvPerUserProjects ];
     SubAllow :=
       [ prefix; "_INBOX.>"; kvProjects; kvSessions; kvHosts; "$JS.API.>"; "$JS.API.DIRECT.GET.>"; hostsPrefix;
         kvPerUserSessions; kvPerUserProjects ] |}.

Definition IssueUserJWTLegacy (sign_error : bool) (now : Z) (publicKey userID userSlug : string) (expirySecs : Z) :
    option jwt_claims :=
  issueJWT sign_error now publicKey userID expirySecs (legacy_user_permissions userID userSlug).
