(* ===== verification/PermissionsSpec.v ===== *)
(** * What the issued credentials allow

    The allow-lists of Permissions.v against every subject, KV key and JetStream
    request of the system, given as the type [resource]. *)

From S2P Require Import Prelude GoStrings Slug Subjects Permissions.
Open Scope go_scope.

(** ** Resources *)

(** The streams of JetStream: the two KV buckets and the history of a user, and the
    shared hosts bucket. *)
Inductive js_stream :=
| StSessions (u : string)
| StProjects (u : string)
| StHistory (u : string)
| StHosts.

(** What a connection can name: the subjects of subj.go, anything else below a
    project or below a host, the management and registration subjects, the KV keys
    of the per-user and host buckets, the JetStream requests that read them (direct
    get, consumer creation, consumer and stream info), acknowledgements and flow
    control, the inboxes and the account events.  A [rest], a session key [s] and a
    filter [f] may have several tokens. *)
Inductive resource :=
| RSubject (x : subject)
| RProject (u h p rest : string)
| RHost (h rest : string)
| RManage (u h action : string)
| RAgentRegister (h : string)
| RSessionKV (u h p s : string)
| RProjectKV (u h p : string)
| RHostKV (h : string)
| RGetSession (u h p s : string)
| RGetProject (u h p : string)
| RGetHost (h : string)
| RWatchSessions (u h p consumer f : string)
| RWatchProject (u h p consumer : string)
| RWatchHost (h consumer : string)
| RReplay (u h p consumer f : string)
| RStreamInfo (st : js_stream)
| RConsumerInfo (st : js_stream) (consumer : string)
| RAck (st : js_stream) (rest : string)
| RFlow (st : js_stream) (rest : string)
| RInbox (rest : string)
| RAccountEvent (account : string) (connect : bool).

Definition kv_subject (bucket key : string) : string := "$KV." ++. bucket ++. "." ++. key.

Definition direct_get (bucket key : string) : string :=
  "$JS.API.DIRECT.GET." ++. kvStreamName bucket ++. "." ++. kv_subject bucket key.

(** A consumer with one filter names the filter in the request subject. *)
Definition consumer_create (stream consumer filter : string) : string :=
  "$JS.API.CONSUMER.CREATE." ++. stream ++. "." ++. consumer ++. "." ++. filter.

Definition stream_name (st : js_stream) : string :=
  match st with
  | StSessions u => kvStreamName (userSessionsBucket u)
  | StProjects u => kvStreamName (userProjectsBucket u)
  | StHistory u => userSessionsStream u
  | StHosts => kvStreamName "mclaude-hosts"
  end.

Definition render_resource (r : resource) : string :=
  match r with
  | RSubject x => render x
  | RProject u h p rest => "mclaude.users." ++. u ++. ".hosts." ++. h ++. ".projects." ++. p ++. "." ++. rest
  | RHost h rest => "mclaude.hosts." ++. h ++. "." ++. rest
  | RManage u h action => "mclaude.users." ++. u ++. ".hosts." ++. h ++. ".manage." ++. action
  | RAgentRegister h => "mclaude.hosts." ++. h ++. ".api.agents.register"
  | RSessionKV u h p s => kv_subject (userSessionsBucket u) (SessionsKVKey h p s)
  | RProjectKV u h p => kv_subject (userProjectsBucket u) (ProjectsKVKey h p)
  | RHostKV h => kv_subject "mclaude-hosts" (HostsKVKey h)
  | RGetSession u h p s => direct_get (userSessionsBucket u) (SessionsKVKey h p s)
  | RGetProject u h p => direct_get (userProjectsBucket u) (ProjectsKVKey h p)
  | RGetHost h => direct_get "mclaude-hosts" (HostsKVKey h)
  | RWatchSessions u h p c f =>
    consumer_create (stream_name (StSessions u)) c (kv_subject (userSessionsBucket u) (SessionsKVKey h p f))
  | RWatchProject u h p c =>
    consumer_create (stream_name (StProjects u)) c (kv_subject (userProjectsBucket u) (ProjectsKVKey h p))
  | RWatchHost h c => consumer_create (stream_name StHosts) c (kv_subject "mclaude-hosts" (HostsKVKey h))
  | RReplay u h p c f =>
    consumer_create (stream_name (StHistory u)) c
      ("mclaude.users." ++. u ++. ".hosts." ++. h ++. ".projects." ++. p ++. ".sessions." ++. f)
  | RStreamInfo st => "$JS.API.STREAM.INFO." ++. stream_name st
  | RConsumerInfo st c => "$JS.API.CONSUMER.INFO." ++. stream_name st ++. "." ++. c
  | RAck st rest => "$JS.ACK." ++. stream_name st ++. "." ++. rest
  | RFlow st rest => "$JS.FC." ++. stream_name st ++. "." ++. rest
  | RInbox rest => "_INBOX." ++. rest
  | RAccountEvent account connect => "$SYS.ACCOUNT." ++. account ++. "." ++. (if connect then "CONNECT" else "DISCONNECT")
  end.

(** ** Symbolic tokens

    A token is a literal or a literal prefix followed by a slug.  Patterns and
    subjects are lists of these (a subject may end in tokens of a free suffix),
    and matching them is decided up to the comparison of slugs. *)

Inductive tok :=
| Lit (s : string)
| Var (pre v : string).

Coercion Lit : string >-> tok.

Definition denote (t : tok) : string :=
  match t with
  | Lit s => s
  | Var pre v => pre ++. v
  end.

Definition tok_ok (t : tok) : Prop :=
  match t with
  | Lit _ => True
  | Var _ v => Validate v = None
  end.

(** Comparison of literals, kept apart from the comparison of slugs. *)
Fixpoint leqb (a b : string) : bool :=
  match a, b with
  | EmptyString, EmptyString => true
  | String x a, String y b => Ascii.eqb x y && leqb a b
  | _, _ => false
  end.

(** The two strings differ at a position both have. *)
Fixpoint clash (a b : string) : bool :=
  match a, b with
  | String x a, String y b => negb (Ascii.eqb x y) || clash a b
  | _, _ => false
  end.

Definition tok_eqb (t x : tok) : bool :=
  match t, x with
  | Lit a, Lit b => leqb a b
  | Var p v, Var q w => if leqb p q then String.eqb v w else if clash p q then false else String.eqb (p ++. v) (q ++. w)
  | Lit a, Var q w => if clash a q then false else String.eqb a (q ++. w)
  | Var p v, Lit b => if clash p b then false else String.eqb (p ++. v) b
  end.

Fixpoint sym_matchb (p s : list tok) (rest : list string) : bool :=
  match s, p with
  | [], _ => token_matchb (denote <$> p) rest
  | _ :: _, [] => false
  | x :: s', Lit l :: p' =>
    if leqb l "*" then sym_matchb p' s' rest
    else if leqb l ">" then match p' with [] => true | _ => false end
    else tok_eqb (Lit l) x && sym_matchb p' s' rest
  | x :: s', t :: p' => tok_eqb t x && sym_matchb p' s' rest
  end.

Lemma leqb_eqb a b : leqb a b = String.eqb a b.
Proof. revert b. by induction a; intros []. Qed.

Lemma eqb_prefix pre a b : String.eqb (pre ++. a) (pre ++. b) = String.eqb a b.
Proof.
  induction pre as [|c pre IH]; [done|]. change (String.eqb (String c (pre ++. a)) (String c (pre ++. b)) = String.eqb a b).
  cbn [String.eqb]. by rewrite Ascii.eqb_refl.
Qed.

Lemma clash_eqb p q v w : clash p q = true → String.eqb (p ++. v) (q ++. w) = false.
Proof.
  revert q. induction p as [|x p IH]; intros [|y q]; try done. cbn [clash]. intros H.
  change (String.eqb (String x (p ++. v)) (String y (q ++. w)) = false). cbn [String.eqb].
  destruct (Ascii.eqb x y); [cbn in H; auto|done].
Qed.

Lemma app_nil_s s : s ++. "" = s.
Proof. apply app_empty_r. Qed.

Lemma tok_eqb_spec t x : tok_eqb t x = String.eqb (denote t) (denote x).
Proof.
  destruct t as [a|p v], x as [b|q w]; cbn [tok_eqb denote].
  - apply leqb_eqb.
  - destruct (clash a q) eqn:E; [|done]. rewrite <- (app_nil_s a). symmetry. by apply clash_eqb.
  - destruct (clash p b) eqn:E; [|done]. rewrite <- (app_nil_s b). symmetry. by apply clash_eqb.
  - rewrite leqb_eqb. destruct (String.eqb_spec p q) as [->|]; [by rewrite eqb_prefix|].
    destruct (clash p q) eqn:E; [|done]. symmetry. by apply clash_eqb.
Qed.

Lemma var_not_wild pre v : Validate v = None → String.eqb (pre ++. v) "*" = false ∧ String.eqb (pre ++. v) ">" = false.
Proof.
  intros Hv. pose proof (valid_slug_ne_wild v Hv) as [H1 H2]. pose proof (valid_slug_ne_empty v Hv) as H0.
  rewrite !String.eqb_neq. destruct pre as [|c pre]; [done|].
  assert (Hp : pre ++. v ≠ "") by (destruct pre; [done|discriminate]).
  split; intros He.
  - change (String c (pre ++. v) = String "*" "") in He. injection He as _ He. contradiction.
  - change (String c (pre ++. v) = String ">" "") in He. injection He as _ He. contradiction.
Qed.

Lemma sym_matchb_spec p s rest :
  Forall tok_ok p → token_matchb (denote <$> p) ((denote <$> s) ++ rest) = sym_matchb p s rest.
Proof.
  intros Hp. revert s. induction Hp as [|t p Ht Hp IH]; intros s; [by destruct s|]. destruct s as [|x s]; [done|].
  cbn [fmap list_fmap app token_matchb sym_matchb]. rewrite IH, <- tok_eqb_spec.
  destruct t as [l|pre v]; cbn [denote].
  - rewrite (leqb_eqb l "*"), (leqb_eqb l ">"). destruct (String.eqb l "*"); [done|]. destruct (String.eqb l ">"); [|done]. by destruct p.
  - destruct (var_not_wild pre v Ht) as [-> ->]. done.
Qed.

Definition sessB (u : string) : tok := Var "mclaude-sessions-" u.
Definition projB (u : string) : tok := Var "mclaude-projects-" u.
Definition sessS (u : string) : tok := Var "MCLAUDE_SESSIONS_" u.
Definition kvSess (u : string) : tok := Var "KV_mclaude-sessions-" u.
Definition kvProj (u : string) : tok := Var "KV_mclaude-projects-" u.
Definition slug (v : string) : tok := Var "" v.

Definition get_tokens (stream bucket : tok) (key : list tok) : list tok :=
  Lit "$JS" :: Lit "API" :: Lit "DIRECT" :: Lit "GET" :: stream :: Lit "$KV" :: bucket :: key.
Definition create_tokens (stream consumer : tok) (filter : list tok) : list tok :=
  Lit "$JS" :: Lit "API" :: Lit "CONSUMER" :: Lit "CREATE" :: stream :: consumer :: filter.
Definition project_key (h p : string) : list tok := [Lit "hosts"; slug h; Lit "projects"; slug p].
Definition sessions_key (h p : string) (s : tok) : list tok := project_key h p ++ [Lit "sessions"; s].
Definition user_tokens (u : string) (l : list tok) : list tok := Lit "mclaude" :: Lit "users" :: slug u :: l.
Definition project_tokens (u h p : string) (l : list tok) : list tok := user_tokens u (project_key h p ++ l).

Definition subject_toks (x : subject) : list tok * list string :=
  match x with
  | SAPIProjectsCreate u => (user_tokens u [Lit "api"; Lit "projects"; Lit "create"], [])
  | SAPIProjectsUpdated u => (user_tokens u [Lit "api"; Lit "projects"; Lit "updated"], [])
  | SQuota u => (user_tokens u [Lit "quota"], [])
  | SHostStatus u h => (user_tokens u [Lit "hosts"; slug h; Lit "status"], [])
  | SHostCreate h u p => ([Lit "mclaude"; Lit "hosts"; slug h; Lit "users"; slug u; Lit "projects"; slug p; Lit "create"], [])
  | SHostDelete h u p => ([Lit "mclaude"; Lit "hosts"; slug h; Lit "users"; slug u; Lit "projects"; slug p; Lit "delete"], [])
  | SSessionsCreate u h p => (project_tokens u h p [Lit "sessions"; Lit "create"], [])
  | SEvents u h p s => (project_tokens u h p [Lit "sessions"; slug s; Lit "events"], [])
  | SInput u h p s => (project_tokens u h p [Lit "sessions"; slug s; Lit "input"], [])
  | SDelete u h p s => (project_tokens u h p [Lit "sessions"; slug s; Lit "delete"], [])
  | SControl u h p s x => (project_tokens u h p [Lit "sessions"; slug s; Lit "control"], tokens x)
  | SConfig u h p s => (project_tokens u h p [Lit "sessions"; slug s; Lit "config"], [])
  | SLifecycle u h p s x => (project_tokens u h p [Lit "sessions"; slug s; Lit "lifecycle"], tokens x)
  | STerminal u h p x => (project_tokens u h p [Lit "api"; Lit "terminal"], tokens x)
  end.

Definition stream_tok (st : js_stream) : tok :=
  match st with
  | StSessions u => kvSess u
  | StProjects u => kvProj u
  | StHistory u => sessS u
  | StHosts => Lit "KV_mclaude-hosts"
  end.

Definition resource_toks (r : resource) : list tok * list string :=
  match r with
  | RSubject x => subject_toks x
  | RProject u h p rest => (project_tokens u h p [], tokens rest)
  | RHost h rest => ([Lit "mclaude"; Lit "hosts"; slug h], tokens rest)
  | RManage u h action => (user_tokens u [Lit "hosts"; slug h; Lit "manage"; slug action], [])
  | RAgentRegister h => ([Lit "mclaude"; Lit "hosts"; slug h; Lit "api"; Lit "agents"; Lit "register"], [])
  | RSessionKV u h p s => (Lit "$KV" :: sessB u :: project_key h p ++ [Lit "sessions"], tokens s)
  | RProjectKV u h p => (Lit "$KV" :: projB u :: project_key h p, [])
  | RHostKV h => ([Lit "$KV"; Lit "mclaude-hosts"; slug h], [])
  | RGetSession u h p s => (get_tokens (kvSess u) (sessB u) (project_key h p ++ [Lit "sessions"]), tokens s)
  | RGetProject u h p => (get_tokens (kvProj u) (projB u) (project_key h p), [])
  | RGetHost h => (get_tokens "KV_mclaude-hosts" "mclaude-hosts" [slug h], [])
  | RWatchSessions u h p c f =>
    (create_tokens (kvSess u) (slug c) (Lit "$KV" :: sessB u :: project_key h p ++ [Lit "sessions"]), tokens f)
  | RWatchProject u h p c => (create_tokens (kvProj u) (slug c) (Lit "$KV" :: projB u :: project_key h p), [])
  | RWatchHost h c => (create_tokens "KV_mclaude-hosts" (slug c) [Lit "$KV"; Lit "mclaude-hosts"; slug h], [])
  | RReplay u h p c f => (create_tokens (sessS u) (slug c) (project_tokens u h p [Lit "sessions"]), tokens f)
  | RStreamInfo st => ([Lit "$JS"; Lit "API"; Lit "STREAM"; Lit "INFO"; stream_tok st], [])
  | RConsumerInfo st c => ([Lit "$JS"; Lit "API"; Lit "CONSUMER"; Lit "INFO"; stream_tok st; slug c], [])
  | RAck st rest => ([Lit "$JS"; Lit "ACK"; stream_tok st], tokens rest)
  | RFlow st rest => ([Lit "$JS"; Lit "FC"; stream_tok st], tokens rest)
  | RInbox rest => ([Lit "_INBOX"], tokens rest)
  | RAccountEvent account connect =>
    ([Lit "$SYS"; Lit "ACCOUNT"; slug account; Lit (if connect then "CONNECT" else "DISCONNECT")], [])
  end.

Definition resource_tokens (r : resource) : list string :=
  (denote <$> (resource_toks r).1) ++ (resource_toks r).2.

Definition valid (s : string) : Prop := Validate s = None.

Lemma valid_no_dot s : valid s → no_dot s.
Proof. apply valid_slug_no_dot. Qed.

Definition stream_wf (st : js_stream) : Prop :=
  match st with StSessions u | StProjects u | StHistory u => valid u | StHosts => True end.

(** Slugs are valid; consumer names, actions and accounts are single tokens. *)
Definition resource_wf (r : resource) : Prop :=
  match r with
  | RSubject x => well_formed x
  | RProject u h p _ | RSessionKV u h p _ | RGetSession u h p _ => valid u ∧ valid h ∧ valid p
  | RHost h _ => valid h
  | RManage u h a => valid u ∧ valid h ∧ no_dot a
  | RAgentRegister h | RHostKV h | RGetHost h => valid h
  | RProjectKV u h p | RGetProject u h p => valid u ∧ valid h ∧ valid p
  | RWatchSessions u h p c _ | RWatchProject u h p c | RReplay u h p c _ => valid u ∧ valid h ∧ valid p ∧ no_dot c
  | RWatchHost h c => valid h ∧ no_dot c
  | RStreamInfo st | RAck st _ | RFlow st _ => stream_wf st
  | RConsumerInfo st c => stream_wf st ∧ no_dot c
  | RInbox _ => True
  | RAccountEvent a _ => no_dot a
  end.

Lemma no_dot_prefixed pre s : no_dot pre → no_dot s → no_dot (pre ++. s).
Proof. unfold no_dot. intros H1 H2. change (pre ++. s) with (pre +:+ s). by rewrite has_char_app, H1, H2. Qed.

Ltac dots := repeat (apply Forall_cons; split); try apply Forall_nil; try exact I;
  first [done | by apply valid_slug_no_dot | (unfold no_dot; reflexivity)
        | (unfold no_dot; cbn [has_char]; first [assumption | by apply valid_slug_no_dot])
        | (apply no_dot_prefixed; [done|by apply valid_slug_no_dot])].

Lemma subject_toks_spec x : (denote <$> (subject_toks x).1) ++ (subject_toks x).2 = subject_tokens x.
Proof. by destruct x. Qed.

(** A string that starts with dot-terminated tokens. *)
Definition dotted (l : list string) (rest : string) : string := fold_right (λ x acc, x ++. "." ++. acc) rest l.

Lemma tokens_dotted l rest : Forall no_dot l → tokens (dotted l rest) = l ++ tokens rest.
Proof.
  induction 1 as [|x l Hx Hl IH]; [done|]. change (dotted (x :: l) rest) with (x +:+ String dot (dotted l rest)).
  unfold tokens. rewrite Split_app_sep, (Split_no_sep _ _ Hx). change (Split dot) with tokens. by rewrite IH.
Qed.

Lemma tokens_resource r : resource_wf r → tokens (render_resource r) = resource_tokens r.
Proof.
  intros Hw. unfold resource_tokens. destruct r;
    try match goal with st : js_stream |- _ => destruct st end; try destruct connect;
    cbn [resource_wf stream_wf] in Hw; split_and_all;
    [cbn [resource_toks]; rewrite subject_toks_spec; by apply tokens_render|..];
    cbn [resource_toks fst snd];
    (match goal with
     | |- tokens ?s = ?l ++ tokens ?rest => change (tokens (dotted l rest) = l ++ tokens rest); apply tokens_dotted
     | |- tokens ?s = ?l => change (tokens (Join "." l) = l); apply tokens_join; [done|]
     end); cbn; dots.
Qed.

(** ** The patterns of the allow-lists *)

(** Acknowledgement, flow control and stream and consumer info of the streams of
    a user: the same for users and agents. *)
Definition streams (u : string) : list tok := [kvSess u; kvProj u; Lit "KV_mclaude-hosts"; sessS u].
Definition own_streams (u : string) : list tok := [kvSess u; kvProj u; sessS u].

Definition ack_patterns (u : string) : list (list tok) := (λ s, [Lit "$JS"; Lit "ACK"; s; Lit ">"]) <$> streams u.
Definition fc_patterns (u : string) : list (list tok) := (λ s, [Lit "$JS"; Lit "FC"; s; Lit ">"]) <$> streams u.
Definition stream_info_patterns (u : string) : list (list tok) :=
  (λ s, [Lit "$JS"; Lit "API"; Lit "STREAM"; Lit "INFO"; s]) <$> own_streams u.
Definition consumer_info_patterns (u : string) : list (list tok) :=
  (λ s, [Lit "$JS"; Lit "API"; Lit "CONSUMER"; Lit "INFO"; s; Lit "*"]) <$> streams u.

Definition inbox : list tok := [Lit "_INBOX"; Lit ">"].

Definition user_patterns (u : string) : list (list tok) :=
  [ user_tokens u [Lit "hosts"; Lit "*"; Lit ">"]; inbox;
    [Lit "$JS"; Lit "API"; Lit "DIRECT"; Lit "GET"; kvSess u; Lit ">"];
    [Lit "$JS"; Lit "API"; Lit "DIRECT"; Lit "GET"; kvProj u; Lit ">"];
    create_tokens (kvSess u) ">" []; create_tokens (kvProj u) ">" []; create_tokens (sessS u) ">" [] ] ++
  stream_info_patterns u ++ consumer_info_patterns u ++ ack_patterns u ++ fc_patterns u.

Definition user_host_patterns (h : string) : list (list tok) :=
  [ get_tokens "KV_mclaude-hosts" "mclaude-hosts" [slug h];
    create_tokens "KV_mclaude-hosts" "*" [Lit "$KV"; Lit "mclaude-hosts"; slug h] ].

Definition user_sub_patterns (u : string) : list (list tok) :=
  [ user_tokens u [Lit "hosts"; Lit "*"; Lit ">"]; inbox;
    [Lit "$KV"; sessB u; Lit "hosts"; Lit ">"]; [Lit "$KV"; projB u; Lit "hosts"; Lit ">"] ] ++ fc_patterns u.

Definition user_host_sub_patterns (h : string) : list (list tok) := [ [Lit "$KV"; Lit "mclaude-hosts"; slug h] ].

Definition agent_patterns (u h p : string) : list (list tok) :=
  [ project_tokens u h p [Lit ">"]; inbox;
    Lit "$KV" :: sessB u :: sessions_key h p ">"; Lit "$KV" :: projB u :: project_key h p;
    get_tokens (kvSess u) (sessB u) (sessions_key h p ">"); get_tokens (kvProj u) (projB u) (project_key h p);
    get_tokens "KV_mclaude-hosts" "mclaude-hosts" [slug h];
    create_tokens (kvSess u) "*" (Lit "$KV" :: sessB u :: sessions_key h p ">");
    create_tokens (kvProj u) "*" (Lit "$KV" :: projB u :: project_key h p);
    create_tokens "KV_mclaude-hosts" "*" [Lit "$KV"; Lit "mclaude-hosts"; slug h];
    create_tokens (sessS u) "*" (project_tokens u h p [Lit "sessions"; Lit ">"]) ] ++
  stream_info_patterns u ++ consumer_info_patterns u ++ ack_patterns u ++ fc_patterns u ++ [ user_tokens u [Lit "quota"] ].

Definition agent_sub_patterns (u h p : string) : list (list tok) :=
  [ project_tokens u h p [Lit ">"]; user_tokens u [Lit "quota"]; inbox;
    Lit "$KV" :: sessB u :: sessions_key h p ">"; Lit "$KV" :: projB u :: project_key h p;
    [Lit "$KV"; Lit "mclaude-hosts"; slug h] ] ++ fc_patterns u.

Definition host_patterns (h : string) : list (list tok) := [ [Lit "mclaude"; Lit "hosts"; slug h; Lit ">"]; inbox ].

Definition host_sub_patterns (h : string) : list (list tok) :=
  host_patterns h ++ [ [Lit "$SYS"; Lit "ACCOUNT"; Lit "*"; Lit "CONNECT"]; [Lit "$SYS"; Lit "ACCOUNT"; Lit "*"; Lit "DISCONNECT"] ].

(** A list of pattern strings and its symbolic form. *)
Definition written (l : list string) (pats : list (list tok)) : Prop :=
  tokens <$> l = (λ p, denote <$> p) <$> pats ∧ Forall (Forall tok_ok) pats.

Definition tok_clean (t : tok) : Prop := no_dot (denote t).

Lemma written_intro (l : list string) (pats : list (list tok)) :
  l = (λ p, Join "." (denote <$> p)) <$> pats →
  Forall (λ p, p ≠ [] ∧ Forall tok_clean p) pats → Forall (Forall tok_ok) pats → written l pats.
Proof.
  intros -> Hf Hok. split; [|done]. clear Hok. induction Hf as [|p pats [Hn Hd] Hf IH]; [done|].
  cbn [fmap list_fmap]. rewrite tokens_join, IH; [done|by destruct p|]. by apply Forall_fmap.
Qed.

Lemma written_app l1 l2 p1 p2 : written l1 p1 → written l2 p2 → written (l1 ++ l2) (p1 ++ p2).
Proof. intros [A1 B1] [A2 B2]. split; [by rewrite !fmap_app, A1, A2|by apply Forall_app]. Qed.

Lemma written_flat_map {A} (f : A → list string) (g : A → list (list tok)) l :
  Forall (λ x, written (f x) (g x)) l → written (flat_map f l) (flat_map g l).
Proof. induction 1; cbn; [by split|]. by apply written_app. Qed.

Ltac clean_tok := first
  [ unfold tok_clean, no_dot; reflexivity
  | unfold tok_clean; cbn [denote slug sessB projB sessS kvSess kvProj];
    apply no_dot_prefixed; [done|by apply valid_slug_no_dot] ].

Ltac all_patterns tac := repeat (apply Forall_cons; split); try (apply Forall_nil; exact I); tac.

Ltac written := apply written_intro;
  [ first [ reflexivity
          | cbn [PubAllow SubAllow SessionAgentSubjectPermissions];
            repeat (apply (f_equal2 cons); [first [reflexivity | by rewrite !string_app_assoc]|]); reflexivity ]
  | cbn; all_patterns ltac:(split; [done|all_patterns clean_tok])
  | cbn; all_patterns ltac:(all_patterns ltac:(first [exact I|assumption])) ].

Lemma user_written u : valid u → written (PubAllow (UserSubjectPermissions u [])) (user_patterns u).
Proof. intros Hu. written. Qed.

Lemma user_host_written h : valid h → written (user_host_pub h) (user_host_patterns h).
Proof. intros Hh. written. Qed.

Lemma user_pub_written u hs : valid u → Forall valid hs →
  written (PubAllow (UserSubjectPermissions u hs)) (user_patterns u ++ flat_map user_host_patterns hs).
Proof.
  intros Hu Hhs. apply (written_app (PubAllow (UserSubjectPermissions u [])) (flat_map user_host_pub hs)); [by apply user_written|].
  apply written_flat_map. eapply Forall_impl; [done|]. apply user_host_written.
Qed.

Lemma user_sub_written u : valid u → written (SubAllow (UserSubjectPermissions u [])) (user_sub_patterns u).
Proof. intros Hu. written. Qed.

Lemma user_host_sub_written h : valid h → written ["$KV.mclaude-hosts." ++. h] (user_host_sub_patterns h).
Proof. intros Hh. written. Qed.

Lemma agent_written u h p :
  valid u → valid h → valid p → written (PubAllow (SessionAgentSubjectPermissions u h p)) (agent_patterns u h p).
Proof. intros Hu Hh Hp. written. Qed.

Lemma agent_sub_written u h p :
  valid u → valid h → valid p → written (SubAllow (SessionAgentSubjectPermissions u h p)) (agent_sub_patterns u h p).
Proof. intros Hu Hh Hp. written. Qed.

Lemma host_written h : valid h → written (PubAllow (HostSubjectPermissions h)) (host_patterns h).
Proof. intros Hh. written. Qed.

Lemma host_sub_written h : valid h → written (SubAllow (HostSubjectPermissions h)) (host_sub_patterns h).
Proof. intros Hh. written. Qed.

(** ** The scopes *)

Definition on_project (u0 h0 p0 u h p : string) : bool := String.eqb u0 u && String.eqb h0 h && String.eqb p0 p.

(** The streams of a user, and the shared one. *)
Definition own_stream (u0 : string) (st : js_stream) : bool :=
  match st with StSessions u | StProjects u | StHistory u => String.eqb u0 u | StHosts => false end.
Definition open_stream (u0 : string) (st : js_stream) : bool :=
  match st with StHosts => true | _ => own_stream u0 st end.

(** Users: everything under their own hosts, their own KV buckets and stream for
    reading, the entries of the hosts they have access to; no KV write. *)
Definition user_may_publish (u0 : string) (hs : list string) (r : resource) : bool :=
  match r with
  | RSubject (SHostStatus u _ | SSessionsCreate u _ _ | SEvents u _ _ _ | SInput u _ _ _ | SDelete u _ _ _
             | SControl u _ _ _ _ | SConfig u _ _ _ | SLifecycle u _ _ _ _ | STerminal u _ _ _) => String.eqb u0 u
  | RProject u _ _ _ | RManage u _ _ => String.eqb u0 u
  | RGetSession u _ _ _ | RGetProject u _ _ | RWatchSessions u _ _ _ _ | RWatchProject u _ _ _
  | RReplay u _ _ _ _ => String.eqb u0 u
  | RStreamInfo st => own_stream u0 st
  | RConsumerInfo st _ | RAck st _ | RFlow st _ => open_stream u0 st
  | RInbox _ => true
  | RGetHost h | RWatchHost h _ => existsb (λ h0, String.eqb h0 h) hs
  | _ => false
  end.

Definition user_may_receive (u0 : string) (hs : list string) (r : resource) : bool :=
  match r with
  | RSubject _ | RProject _ _ _ _ | RManage _ _ _ | RFlow _ _ | RInbox _ => user_may_publish u0 hs r
  | RSessionKV u _ _ _ | RProjectKV u _ _ => String.eqb u0 u
  | RHostKV h => existsb (λ h0, String.eqb h0 h) hs
  | _ => false
  end.

(** Session agents, of the things of a project: those of their own project on
    their own host.  Beyond the project: the quota subject of their user, the
    entry of their host, the names of the user's streams, and consumer names,
    acknowledgements and flow control of the user's streams and of the hosts
    bucket; and every inbox. *)
Definition agent_may_publish (u0 h0 p0 : string) (r : resource) : bool :=
  match r with
  | RSubject (SSessionsCreate u h p | SEvents u h p _ | SInput u h p _ | SDelete u h p _ | SControl u h p _ _
             | SConfig u h p _ | SLifecycle u h p _ _ | STerminal u h p _) => on_project u0 h0 p0 u h p
  | RProject u h p _ => on_project u0 h0 p0 u h p
  | RSessionKV u h p _ | RProjectKV u h p | RGetSession u h p _ | RGetProject u h p
  | RWatchSessions u h p _ _ | RWatchProject u h p _ | RReplay u h p _ _ => on_project u0 h0 p0 u h p
  | RSubject (SQuota u) => String.eqb u0 u
  | RGetHost h | RWatchHost h _ => String.eqb h0 h
  | RStreamInfo st => own_stream u0 st
  | RConsumerInfo st _ | RAck st _ | RFlow st _ => open_stream u0 st
  | RInbox _ => true
  | _ => false
  end.

Definition agent_may_receive (u0 h0 p0 : string) (r : resource) : bool :=
  match r with
  | RSubject _ | RProject _ _ _ _ | RSessionKV _ _ _ _ | RProjectKV _ _ _ | RFlow _ _ | RInbox _ =>
    agent_may_publish u0 h0 p0 r
  | RHostKV h => String.eqb h0 h
  | _ => false
  end.

(** Hosts: the provisioning and registration subjects of their slug, every inbox;
    and, as subscribers, the connections and disconnections of every account. *)
Definition host_may_publish (h0 : string) (r : resource) : bool :=
  match r with
  | RSubject (SHostCreate h _ _ | SHostDelete h _ _) | RHost h _ | RAgentRegister h => String.eqb h0 h
  | RInbox _ => true
  | _ => false
  end.

Definition host_may_receive (h0 : string) (r : resource) : bool :=
  match r with
  | RAccountEvent _ _ => true
  | _ => host_may_publish h0 r
  end.

(** ** Matching *)

Definition matches_any (pats : list (list tok)) (r : resource) : bool :=
  existsb (λ p, sym_matchb p (resource_toks r).1 (resource_toks r).2) pats.

Ltac by_resource r :=
  destruct r; try match goal with x : subject |- _ => destruct x end;
    try match goal with st : js_stream |- _ => destruct st end;
    try match goal with b : bool |- _ => destruct b end;
    cbv -[String.eqb tokens]; change (String.eqb ">" "*") with false; change (String.eqb ">" ">") with true; cbv iota;
    repeat match goal with
      | |- context [String.eqb ?a ?b] => destruct (String.eqb a b)
      | |- context [match tokens ?s with _ => _ end] => let E := fresh in destruct (tokens s) eqn:E; [by apply tokens_ne_nil in E|]
      end; reflexivity.

Lemma user_scope u0 r : matches_any (user_patterns u0) r = user_may_publish u0 [] r.
Proof. by_resource r. Qed.

Lemma user_sub_scope u0 r : matches_any (user_sub_patterns u0) r = user_may_receive u0 [] r.
Proof. by_resource r. Qed.

Lemma user_host_scope h0 r :
  matches_any (user_host_patterns h0) r = match r with RGetHost h | RWatchHost h _ => String.eqb h0 h | _ => false end.
Proof. by_resource r. Qed.

Lemma user_host_sub_scope h0 r :
  matches_any (user_host_sub_patterns h0) r = match r with RHostKV h => String.eqb h0 h | _ => false end.
Proof. by_resource r. Qed.

Lemma agent_scope u0 h0 p0 r : matches_any (agent_patterns u0 h0 p0) r = agent_may_publish u0 h0 p0 r.
Proof. by_resource r. Qed.

Lemma agent_sub_scope u0 h0 p0 r : matches_any (agent_sub_patterns u0 h0 p0) r = agent_may_receive u0 h0 p0 r.
Proof. by_resource r. Qed.

Lemma host_scope h0 r : matches_any (host_patterns h0) r = host_may_publish h0 r.
Proof. by_resource r. Qed.

Lemma host_sub_scope h0 r : matches_any (host_sub_patterns h0) r = host_may_receive h0 r.
Proof. by_resource r. Qed.

(** ** Every subject that a list allows is a resource *)

(** The subjects that match a pattern, token by token. *)
Fixpoint shape (p : list tok) (s : list string) : Prop :=
  match p with
  | [] => s = []
  | Lit l :: p' =>
    if leqb l "*" then match s with x :: s' => shape p' s' | [] => False end
    else if leqb l ">" then s ≠ [] ∧ p' = []
    else match s with x :: s' => x = l ∧ shape p' s' | [] => False end
  | t :: p' => match s with x :: s' => x = denote t ∧ shape p' s' | [] => False end
  end.

Lemma shape_match p s : Forall tok_ok p → token_matchb (denote <$> p) s = true → shape p s.
Proof.
  intros Hp. revert s. induction Hp as [|t p Ht Hp IH]; intros [|x s] H; try done.
  cbn [fmap list_fmap token_matchb] in H. cbn [shape]. destruct t as [l|pre v]; cbn [denote] in H |- *.
  - rewrite (leqb_eqb l "*"), (leqb_eqb l ">"). destruct (String.eqb l "*"); [by apply IH|]. destruct (String.eqb l ">"); [by destruct (denote <$> p) eqn:E; [apply fmap_nil_inv in E|]|].
    apply andb_true_iff in H as [He%String.eqb_eq H]. split; [done|by apply IH].
  - destruct (var_not_wild pre v Ht) as [E1 E2]. rewrite E1, E2 in H.
    apply andb_true_iff in H as [He%String.eqb_eq H]. split; [done|by apply IH].
Qed.

(** Every subject of the pattern's shape is a resource of the given scope. *)
Definition covered (scope : resource → bool) (p : list tok) : Prop :=
  ∀ s, shape p s → Forall no_dot s → ∃ r, resource_wf r ∧ resource_tokens r = s ∧ scope r = true.

Lemma on_project_refl u h p : on_project u h p u h p = true.
Proof. unfold on_project. by rewrite !String.eqb_refl. Qed.

Lemma open_own u st : own_stream u st = true → open_stream u st = true.
Proof. by destruct st. Qed.

(** The literal tokens of a shape are read off, the free ones are kept. *)
Ltac shaped :=
  let s := fresh "s" in let Hs := fresh "Hs" in let Hd := fresh "Hd" in
  intros s Hs Hd; cbn in Hs;
  repeat match type of Hs with
    | _ ∧ _ => let H := fresh in destruct Hs as [H Hs]; subst
    | match ?s with [] => False | _ => _ end => destruct s; [done|]; cbn in Hs
    | _ = _ => subst
    end;
  repeat (apply Forall_cons in Hd as [? Hd]).

Ltac covers r :=
  exists r; split; [cbn; split_and?; first [done|by repeat constructor]|split; [|cbn; by rewrite ?on_project_refl, ?String.eqb_refl]];
  unfold resource_tokens; cbn; rewrite ?tokens_join by done; reflexivity.

(** The resource [f] of the free end of the subject, and of a free token. *)
Ltac covers_rest f :=
  shaped; match goal with Hd : Forall no_dot ?l |- _ => let r := eval cbv beta in (f (Join "." l)) in covers r end.
Ltac covers_token f :=
  shaped; match goal with Hd : no_dot ?c |- _ => is_var c; let r := eval cbv beta in (f c) in covers r end.
Ltac covers_token_rest f :=
  shaped; match goal with Hd : Forall no_dot ?l, Hc : no_dot ?c |- _ => is_var c; is_var l; let r := eval cbv beta in (f c (Join "." l)) in covers r end.
Ltac covers_exact r := shaped; covers r.

(** The families of patterns that range over the streams of a user. *)
Section families.
Context (u : string) (Hu : valid u) (scope : resource → bool).

Lemma stream_info_covered : (∀ st, own_stream u st = true → scope (RStreamInfo st) = true) → Forall (covered scope) (stream_info_patterns u).
Proof.
  intros Hsc. assert (H : ∀ st, stream_wf st → own_stream u st = true → covered scope [Lit "$JS"; Lit "API"; Lit "STREAM"; Lit "INFO"; stream_tok st]).
  { intros st Hw Ho. destruct st; shaped; eexists (RStreamInfo _); (split; [exact Hw|]); (split; [reflexivity|by apply Hsc]). }
  repeat (apply Forall_cons; split); [..|done].
  - apply (H (StSessions u)); [done|apply String.eqb_refl].
  - apply (H (StProjects u)); [done|apply String.eqb_refl].
  - apply (H (StHistory u)); [done|apply String.eqb_refl].
Qed.

(** A family with one pattern for each of the four streams. *)
Lemma each_stream (f : tok → list tok) :
  (∀ st, stream_wf st → open_stream u st = true → covered scope (f (stream_tok st))) → Forall (covered scope) (f <$> streams u).
Proof.
  intros H. repeat (apply Forall_cons; split); [..|done].
  - apply (H (StSessions u)); [done|apply String.eqb_refl].
  - apply (H (StProjects u)); [done|apply String.eqb_refl].
  - by apply (H StHosts).
  - apply (H (StHistory u)); [done|apply String.eqb_refl].
Qed.

Lemma consumer_info_covered : (∀ st c, open_stream u st = true → scope (RConsumerInfo st c) = true) → Forall (covered scope) (consumer_info_patterns u).
Proof.
  intros Hsc. apply (each_stream (λ s, [Lit "$JS"; Lit "API"; Lit "CONSUMER"; Lit "INFO"; s; Lit "*"])). intros st Hw Ho.
  destruct st; shaped; match goal with Hd : no_dot ?c |- _ => is_var c; eexists (RConsumerInfo _ c) end; (split; [split; [exact Hw|done]|]);
    (split; [reflexivity|by apply Hsc]).
Qed.

Lemma ack_covered : (∀ st x, open_stream u st = true → scope (RAck st x) = true) → Forall (covered scope) (ack_patterns u).
Proof.
  intros Hsc. apply (each_stream (λ s, [Lit "$JS"; Lit "ACK"; s; Lit ">"])). intros st Hw Ho.
  destruct st; shaped; match goal with Hd : Forall no_dot ?l |- _ => eexists (RAck _ (Join "." l)) end; (split; [exact Hw|]);
    (split; [unfold resource_tokens; cbn; rewrite tokens_join by done; reflexivity|by apply Hsc]).
Qed.

Lemma fc_covered : (∀ st x, open_stream u st = true → scope (RFlow st x) = true) → Forall (covered scope) (fc_patterns u).
Proof.
  intros Hsc. apply (each_stream (λ s, [Lit "$JS"; Lit "FC"; s; Lit ">"])). intros st Hw Ho.
  destruct st; shaped; match goal with Hd : Forall no_dot ?l |- _ => eexists (RFlow _ (Join "." l)) end; (split; [exact Hw|]);
    (split; [unfold resource_tokens; cbn; rewrite tokens_join by done; reflexivity|by apply Hsc]).
Qed.
End families.

Section agent.
Context (u h p : string) (Hu : valid u) (Hh : valid h) (Hp : valid p).

Lemma agent_covered : Forall (covered (agent_may_publish u h p)) (agent_patterns u h p).
Proof.
  unfold agent_patterns. repeat (apply Forall_app; split);
    [|by apply stream_info_covered|by apply consumer_info_covered|by apply ack_covered|by apply fc_covered|].
  - repeat (apply Forall_cons; split); [..|done].
    + covers_rest (RProject u h p).
    + covers_rest RInbox.
    + covers_rest (RSessionKV u h p).
    + covers_exact (RProjectKV u h p).
    + covers_rest (RGetSession u h p).
    + covers_exact (RGetProject u h p).
    + covers_exact (RGetHost h).
    + covers_token_rest (RWatchSessions u h p).
    + covers_token (RWatchProject u h p).
    + covers_token (RWatchHost h).
    + covers_token_rest (RReplay u h p).
  - apply Forall_cons. split; [|done]. covers_exact (RSubject (SQuota u)).
Qed.

Lemma agent_sub_covered : Forall (covered (agent_may_receive u h p)) (agent_sub_patterns u h p).
Proof.
  unfold agent_sub_patterns. apply Forall_app; split; [|by apply fc_covered].
  repeat (apply Forall_cons; split); [..|done].
  - covers_rest (RProject u h p).
  - covers_exact (RSubject (SQuota u)).
  - covers_rest RInbox.
  - covers_rest (RSessionKV u h p).
  - covers_exact (RProjectKV u h p).
  - covers_exact (RHostKV h).
Qed.
End agent.

Lemma host_covered h : valid h → Forall (covered (host_may_publish h)) (host_patterns h).
Proof. intros Hh. repeat (apply Forall_cons; split); [covers_rest (RHost h)|covers_rest RInbox|done]. Qed.

Lemma host_sub_covered h : valid h → Forall (covered (host_may_receive h)) (host_sub_patterns h).
Proof.
  intros Hh. repeat (apply Forall_cons; split); [covers_rest (RHost h)|covers_rest RInbox| | |done].
  - covers_token (λ a, RAccountEvent a true).
  - covers_token (λ a, RAccountEvent a false).
Qed.

(** ** What a connection may do *)

Section server.
Context `{NS : NatsServer}.

(** Publishing on a subject, and being delivered a message on it. *)
Definition allows (pats : list string) (subject : string) : bool := existsb (λ p, nats_matches p subject) pats.
Definition may_publish (perms : NATSPermissions) (subject : string) : bool := allows (PubAllow perms) subject.
Definition may_receive (perms : NATSPermissions) (subject : string) : bool := allows (SubAllow perms) subject.

Lemma nats_tokens p s : nats_matches p s = token_matchb (tokens p) (tokens s).
Proof. apply eq_true_iff_eq. by rewrite nats_matches_spec, token_matchb_spec. Qed.

Lemma allows_written l pats s toks rest :
  written l pats → tokens s = (denote <$> toks) ++ rest →
  allows l s = existsb (λ p, sym_matchb p toks rest) pats.
Proof.
  intros [Hl Hok] Hs. unfold allows. revert l Hl. induction Hok as [|p pats Hp Hok IH]; intros [|x l] Hl; try done.
  cbn [fmap list_fmap] in Hl. injection Hl as Hx Hl. cbn [existsb]. rewrite (IH l Hl). f_equal.
  by rewrite nats_tokens, Hx, Hs, sym_matchb_spec.
Qed.

Lemma allows_resource l pats r : written l pats → resource_wf r → allows l (render_resource r) = matches_any pats r.
Proof. intros Hl Hr. apply allows_written; [done|]. by apply tokens_resource. Qed.

Lemma allows_covered l pats scope x :
  written l pats → Forall (covered scope) pats → allows l x = true →
  ∃ r, resource_wf r ∧ render_resource r = x ∧ scope r = true.
Proof.
  intros [Hl Hok] Hc Ha. unfold allows in Ha. revert l Hl Ha.
  induction Hok as [|p pats Hp Hok IH]; intros [|y l] Hl Ha; try done.
  apply Forall_cons in Hc as [Hcp Hc]. cbn [fmap list_fmap] in Hl. injection Hl as Hy Hl.
  cbn [existsb] in Ha. apply orb_true_iff in Ha as [Ha|Ha]; [|by apply (IH Hc l)].
  rewrite nats_tokens, Hy in Ha. destruct (Hcp (tokens x)) as (r & Hw & Ht & Hs); [by apply shape_match|apply tokens_no_dot|].
  exists r. split_and!; [done| |done]. apply tokens_inj. by rewrite tokens_resource.
Qed.

Lemma existsb_flat_map {A B} (f : B → bool) (g : A → list B) l :
  existsb f (flat_map g l) = existsb (λ x, existsb f (g x)) l.
Proof. induction l as [|x l IH]; [done|]. cbn. by rewrite existsb_app, IH. Qed.

Lemma user_allows u0 hs r :
  valid u0 → Forall valid hs → resource_wf r →
  may_publish (UserSubjectPermissions u0 hs) (render_resource r) = user_may_publish u0 hs r ∧
  may_receive (UserSubjectPermissions u0 hs) (render_resource r) = user_may_receive u0 hs r.
Proof.
  intros Hu Hhs Hr. unfold may_publish, may_receive. split.
  - rewrite (allows_resource _ _ _ (user_pub_written u0 hs Hu Hhs) Hr). unfold matches_any. rewrite existsb_app, existsb_flat_map.
    fold (matches_any (user_patterns u0) r). rewrite user_scope. clear -Hhs.
    induction hs as [|h hs IH]; [by rewrite orb_false_r|]. apply Forall_cons in Hhs as [_ Hhs].
    cbn [existsb]. fold (matches_any (user_host_patterns h) r). rewrite user_host_scope.
    specialize (IH Hhs). destruct r; try match goal with x : subject |- _ => destruct x end; cbn in *; first [done | by rewrite IH | by rewrite orb_false_r].
  - assert (Hw : written (SubAllow (UserSubjectPermissions u0 hs)) (user_sub_patterns u0 ++ flat_map user_host_sub_patterns hs)).
    { apply (written_app (SubAllow (UserSubjectPermissions u0 [])) ((λ h, "$KV.mclaude-hosts." ++. h) <$> hs));
        [by apply user_sub_written|].
      replace ((λ h, "$KV.mclaude-hosts." ++. h) <$> hs) with (flat_map (λ h, ["$KV.mclaude-hosts." ++. h]) hs)
        by (clear; induction hs as [|h hs IH]; [done|]; cbn; by rewrite IH).
      apply written_flat_map. eapply Forall_impl; [done|]. apply user_host_sub_written. }
    rewrite (allows_resource _ _ _ Hw Hr). unfold matches_any. rewrite existsb_app, existsb_flat_map.
    fold (matches_any (user_sub_patterns u0) r). rewrite user_sub_scope. clear -Hhs.
    induction hs as [|h hs IH]; [by rewrite orb_false_r|]. apply Forall_cons in Hhs as [_ Hhs].
    cbn [existsb]. fold (matches_any (user_host_sub_patterns h) r). rewrite user_host_sub_scope.
    specialize (IH Hhs). destruct r; try match goal with x : subject |- _ => destruct x end; cbn in *; first [done | by rewrite IH | by rewrite orb_false_r].
Qed.

Lemma agent_allows u0 h0 p0 r :
  valid u0 → valid h0 → valid p0 → resource_wf r →
  may_publish (SessionAgentSubjectPermissions u0 h0 p0) (render_resource r) = agent_may_publish u0 h0 p0 r ∧
  may_receive (SessionAgentSubjectPermissions u0 h0 p0) (render_resource r) = agent_may_receive u0 h0 p0 r.
Proof.
  intros Hu Hh Hp Hr. unfold may_publish, may_receive. split.
  - rewrite (allows_resource _ _ _ (agent_written u0 h0 p0 Hu Hh Hp) Hr). apply agent_scope.
  - rewrite (allows_resource _ _ _ (agent_sub_written u0 h0 p0 Hu Hh Hp) Hr). apply agent_sub_scope.
Qed.

Lemma host_allows h0 r :
  valid h0 → resource_wf r →
  may_publish (HostSubjectPermissions h0) (render_resource r) = host_may_publish h0 r ∧
  may_receive (HostSubjectPermissions h0) (render_resource r) = host_may_receive h0 r.
Proof.
  intros Hh Hr. unfold may_publish, may_receive. split.
  - rewrite (allows_resource _ _ _ (host_written h0 Hh) Hr). apply host_scope.
  - rewrite (allows_resource _ _ _ (host_sub_written h0 Hh) Hr). apply host_sub_scope.
Qed.

(** A user's credential, for any set of hosts, reaches exactly the subjects under
    the user's own hosts, reads exactly the user's own sessions, projects and
    stream and the entries of those hosts, and writes no KV entry at all. *)
Theorem user_credential_exact u0 hs r :
  valid u0 → Forall valid hs → resource_wf r →
  may_publish (UserSubjectPermissions u0 hs) (render_resource r) = user_may_publish u0 hs r ∧
  may_receive (UserSubjectPermissions u0 hs) (render_resource r) = user_may_receive u0 hs r.
Proof. apply user_allows. Qed.

(** C4. What a session agent's credential allows, over all subject strings: a
    subject may be published on exactly when it is one of these, and received
    exactly when it is one of these.  Of its own project on its own host: any
    subject below the project, the project's KV entry and session entries, their
    direct gets and consumers filtered to them, and consumers of the history
    filtered to the project's sessions.  Of its user: the quota subject, stream
    info, and consumer info, acknowledgements and flow control of the three
    per-user streams.  Of its host: the KV entry.  Of the hosts bucket: consumer
    info, acknowledgements and flow control.  And every inbox. *)
Theorem agent_credential_exact u0 h0 p0 x :
  valid u0 → valid h0 → valid p0 →
  (may_publish (SessionAgentSubjectPermissions u0 h0 p0) x = true ↔
     ∃ r, resource_wf r ∧ render_resource r = x ∧ agent_may_publish u0 h0 p0 r = true) ∧
  (may_receive (SessionAgentSubjectPermissions u0 h0 p0) x = true ↔
     ∃ r, resource_wf r ∧ render_resource r = x ∧ agent_may_receive u0 h0 p0 r = true) ∧
  (∀ r, resource_wf r → render_resource r = x →
     may_publish (SessionAgentSubjectPermissions u0 h0 p0) x = agent_may_publish u0 h0 p0 r ∧
     may_receive (SessionAgentSubjectPermissions u0 h0 p0) x = agent_may_receive u0 h0 p0 r).
Proof.
  intros Hu Hh Hp. assert (Hr : ∀ r, resource_wf r → render_resource r = x →
     may_publish (SessionAgentSubjectPermissions u0 h0 p0) x = agent_may_publish u0 h0 p0 r ∧
     may_receive (SessionAgentSubjectPermissions u0 h0 p0) x = agent_may_receive u0 h0 p0 r)
    by (intros r Hr <-; by apply agent_allows).
  split_and!; [split|split|done].
  - apply allows_covered with (pats := agent_patterns u0 h0 p0); [by apply agent_written|by apply agent_covered].
  - intros (r & Hw & Hx & <-). by apply Hr.
  - apply allows_covered with (pats := agent_sub_patterns u0 h0 p0); [by apply agent_sub_written|by apply agent_sub_covered].
  - intros (r & Hw & Hx & <-). by apply Hr.
Qed.

(** C5. A host's credential, over all subject strings: exactly the subjects below its
    own slug and the inboxes, and for receiving the connections and
    disconnections of the accounts; no user, KV or JetStream subject. *)
Theorem host_credential_exact h0 x :
  valid h0 →
  (may_publish (HostSubjectPermissions h0) x = true ↔
     ∃ r, resource_wf r ∧ render_resource r = x ∧ host_may_publish h0 r = true) ∧
  (may_receive (HostSubjectPermissions h0) x = true ↔
     ∃ r, resource_wf r ∧ render_resource r = x ∧ host_may_receive h0 r = true) ∧
  (∀ r, resource_wf r → render_resource r = x →
     may_publish (HostSubjectPermissions h0) x = host_may_publish h0 r ∧
     may_receive (HostSubjectPermissions h0) x = host_may_receive h0 r).
Proof.
  intros Hh. assert (Hr : ∀ r, resource_wf r → render_resource r = x →
     may_publish (HostSubjectPermissions h0) x = host_may_publish h0 r ∧
     may_receive (HostSubjectPermissions h0) x = host_may_receive h0 r)
    by (intros r Hr <-; by apply host_allows).
  split_and!; [split|split|done].
  - apply allows_covered with (pats := host_patterns h0); [by apply host_written|by apply host_covered].
  - intros (r & Hw & Hx & <-). by apply Hr.
  - apply allows_covered with (pats := host_sub_patterns h0); [by apply host_sub_written|by apply host_sub_covered].
  - intros (r & Hw & Hx & <-). by apply Hr.
Qed.

End server.

Lemma user_credential_exact_witness :
  may_publish (NS := doc_nats_server) (UserSubjectPermissions "alice" ["laptop"]) (render_resource (RReplay "bob" "laptop" "web" "c1" ">")) = false.
Proof.
  destruct (user_credential_exact (NS := doc_nats_server) "alice" ["laptop"] (RReplay "bob" "laptop" "web" "c1" ">")) as [H _].
  - vm_compute; reflexivity.
  - constructor; [vm_compute; reflexivity|constructor].
  - repeat split; vm_compute; reflexivity.
  - rewrite H. reflexivity.
Defined.

Lemma agent_credential_exact_witness :
  may_publish (NS := doc_nats_server) (SessionAgentSubjectPermissions "alice" "laptop" "web") (render_resource (RSessionKV "alice" "laptop" "blog" "s1")) = false ∧
  may_publish (NS := doc_nats_server) (SessionAgentSubjectPermissions "alice" "laptop" "web") (render_resource (RAck (StHistory "bob") "c.1")) = false.
Proof.
  split.
  - destruct (agent_credential_exact (NS := doc_nats_server) "alice" "laptop" "web" (render_resource (RSessionKV "alice" "laptop" "blog" "s1"))) as (_ & _ & H);
      [vm_compute; reflexivity..|]. destruct (H (RSessionKV "alice" "laptop" "blog" "s1")) as [-> _]; [|reflexivity|reflexivity].
    repeat split; vm_compute; reflexivity.
  - destruct (agent_credential_exact (NS := doc_nats_server) "alice" "laptop" "web" (render_resource (RAck (StHistory "bob") "c.1"))) as (_ & _ & H);
      [vm_compute; reflexivity..|]. destruct (H (RAck (StHistory "bob") "c.1")) as [-> _]; [|reflexivity|reflexivity].
    vm_compute; reflexivity.
Defined.

Lemma host_credential_exact_witness :
  may_receive (NS := doc_nats_server) (HostSubjectPermissions "laptop") (render_resource (RSubject (SHostCreate "desktop" "alice" "web"))) = false.
Proof.
  destruct (host_credential_exact (NS := doc_nats_server) "laptop" (render_resource (RSubject (SHostCreate "desktop" "alice" "web")))) as (_ & _ & H);
    [vm_compute; reflexivity|].
  destruct (H (RSubject (SHostCreate "desktop" "alice" "web"))) as [_ ->]; [|reflexivity|reflexivity].
  repeat constructor; vm_compute; reflexivity.
Defined.
