(* ===== verification/AgentTraffic.v ===== *)
(** * The agent's traffic under its own credential

    What the handlers, the crash watchers, the recovery and the shutdown of a session
    agent publish ([Agent.out]: answers to failed requests, lifecycle events and the
    input that shutdown sends), against the permissions the control plane issues to
    it (nkeys.go), and the consumers it asks for (createJetStreamConsumers).  Events
    of sessions, KV writes, quota samples and imports are not in that output. *)

From S2P Require Import Prelude GoStrings Slug Subjects Json SessionState Session QuotaMonitor Drivers Agent AgentSpec Permissions PermissionsSpec.
Open Scope Z_scope.

Definition agent_perms (c : agent_config) : NATSPermissions :=
  SessionAgentSubjectPermissions (ag_userSlug c) (ag_hostSlug c) (ag_projectSlug c).

(** ** Subjects below the project *)

Definition own_subject (c : agent_config) (s : string) : Prop := ∃ t, s = projBase c +:+ t.

Lemma projBase_split c :
  ("mclaude.users." +:+ ag_userSlug c +:+ ".hosts." +:+ ag_hostSlug c +:+ ".projects." +:+ ag_projectSlug c +:+ ".")%string = projBase c.
Proof. reflexivity. Qed.

Lemma own_intro c t :
  own_subject c ("mclaude.users." +:+ ag_userSlug c +:+ ".hosts." +:+ ag_hostSlug c +:+ ".projects." +:+ ag_projectSlug c +:+ String dot t).
Proof. exists t. unfold projBase. by rewrite !string_app_assoc. Qed.

Lemma own_lifecycle a id ev : own_subject (cfg a) (lifecycleSubject id ev a).
Proof. apply (own_intro (cfg a) ("sessions." +:+ id +:+ ".lifecycle." +:+ ev)). Qed.

Lemma own_api a : own_subject (cfg a) (apiSubject a).
Proof. apply (own_intro (cfg a) "sessions._api"). Qed.

Lemma own_input c s : own_subject c (Subjects.UserHostProjectSessionsInput (ag_userSlug c) (ag_hostSlug c) (ag_projectSlug c) s).
Proof. apply (own_intro c ("sessions." +:+ s +:+ ".input")). Qed.

Section traffic.
Context `{NS : NatsServer}.

Lemma tokens_snoc_dot s t : tokens (s +:+ String dot t) = tokens s ++ tokens t.
Proof.
  unfold tokens. induction s as [|a s IH]; [done|]. change (String a s +:+ String dot t) with (String a (s +:+ String dot t)).
  cbn [Split]. destruct (Ascii.eqb a dot); [by rewrite IH|]. rewrite IH.
  pose proof (Split_ne_nil dot s). by destruct (Split dot s).
Qed.

Lemma own_permitted c s :
  config_wf c → own_subject c s → may_publish (agent_perms c) s = true ∧ may_receive (agent_perms c) s = true.
Proof.
  intros (Hu & Hh & Hp) [t ->].
  assert (Ht : tokens (projBase c +:+ t) =
    (denote <$> project_tokens (ag_userSlug c) (ag_hostSlug c) (ag_projectSlug c) []) ++ tokens t).
  { unfold projBase. rewrite !string_app_assoc. change ("." +:+ t) with (String dot t).
    rewrite <- (tokens_join (denote <$> project_tokens (ag_userSlug c) (ag_hostSlug c) (ag_projectSlug c) [])).
    - rewrite <- tokens_snoc_dot. f_equal. cbn. by rewrite !string_app_assoc.
    - done.
    - cbn. repeat (apply Forall_cons; split); try (apply Forall_nil; exact I); first [done | by apply valid_slug_no_dot]. }
  unfold may_publish, may_receive, agent_perms.
  rewrite (allows_written _ _ _ _ _ (agent_written _ _ _ Hu Hh Hp) Ht), (allows_written _ _ _ _ _ (agent_sub_written _ _ _ Hu Hh Hp) Ht).
  pose proof (tokens_ne_nil t). destruct (tokens t) as [|x l]; [done|].
  assert (Hm : sym_matchb (project_tokens (ag_userSlug c) (ag_hostSlug c) (ag_projectSlug c) [Lit ">"])
    (project_tokens (ag_userSlug c) (ag_hostSlug c) (ag_projectSlug c) []) (x :: l) = true).
  { cbv -[String.eqb]. rewrite !String.eqb_refl. reflexivity. }
  unfold agent_patterns, agent_sub_patterns. cbn [existsb app]. by rewrite Hm.
Qed.

End traffic.

(** ** What a step adds to the output *)

Section outputs.
Context `{JT : JsonText, GT : GoTime, UT : UnicodeTables, NO : Normalizer}.
Variable c : agent_config.

(** A message of that output is below the agent's project; its other actions are not messages. *)
Definition below_project (o : agent_out) : Prop :=
  match o with
  | Published s _ => own_subject c s
  | _ => True
  end.

(** The agent of the configuration, whose output has messages below its project only. *)
Definition confined (a : Agent) : Prop := cfg a = c ∧ Forall below_project (out a).

Lemma confined_ext a a' : cfg a' = cfg a → out a' = out a → confined a → confined a'.
Proof. intros H1 H2 [A B]. split; [by rewrite H1|by rewrite H2]. Qed.

Lemma confined_put o a : below_project o → confined a → confined (put_out o a).
Proof. intros Ho [A B]. split; [done|]. apply Forall_app; split; [done|by constructor]. Qed.

Lemma confined_sessions v a : confined a → confined (set_sessions v a).
Proof. by apply confined_ext. Qed.
Lemma confined_session id s a : confined a → confined (set_session id s a).
Proof. by apply confined_ext. Qed.
Lemma confined_kv v a : confined a → confined (set_sessKV v a).
Proof. by apply confined_ext. Qed.
Lemma confined_write e st a : confined a → confined (writeSessionKV e st a).2.
Proof. unfold writeSessionKV. destruct (e_kvErr e st); [done|]. apply confined_kv. Qed.
Lemma confined_putKV e st a : confined a → confined (putKV e st a).
Proof. apply confined_write. Qed.
Lemma confined_lifecycle e id ev extra a : confined a → confined (publishLifecycleExtra e id ev extra a).
Proof. intros Ha. apply confined_put; [|done]. destruct Ha as [Hc _]. pose proof (own_lifecycle a id ev) as Ho. by rewrite Hc in Ho. Qed.
Lemma confined_exit e id ev code a : confined a → confined (publishLifecycleWithExitCode e id ev code a).
Proof. intros Ha. apply confined_put; [|done]. destruct Ha as [Hc _]. pose proof (own_lifecycle a id ev) as Ho. by rewrite Hc in Ho. Qed.
Lemma confined_api r op err a : confined a → confined (publishAPIError r op err a).
Proof. intros Ha. apply confined_put; [|done]. destruct Ha as [Hc _]. pose proof (own_api a) as Ho. by rewrite Hc in Ho. Qed.
Lemma confined_reply_err msg err a : confined a → confined (reply_err msg err a).
Proof. unfold reply_err. destruct (m_reply msg); [by apply confined_put|done]. Qed.
Lemma confined_reply_data msg d a : confined a → confined (reply_data msg d a).
Proof. unfold reply_data. destruct (m_reply msg); [by apply confined_put|done]. Qed.
Lemma confined_fail msg r op err a : confined a → confined (fail_request msg r op err a).
Proof. intros Ha. by apply confined_api, confined_reply_err. Qed.

Lemma confined_via id fn a : confined a → confined (via_driver id fn a).
Proof. unfold via_driver. destruct (sessions a !! id); [apply confined_session|done]. Qed.

Lemma confined_perform e id a ef : confined a → confined (perform e id a ef).
Proof. destruct ef; [apply confined_putKV|apply confined_lifecycle]. Qed.

Lemma confined_fold {B} (f : Agent → B → Agent) l a :
  (∀ a b, confined a → confined (f a b)) → confined a → confined (fold_left f l a).
Proof. intros Hf. revert a. induction l; intros a' Ha; cbn; auto. Qed.

Lemma confined_on_session e id f a : confined a → confined (on_session e id f a).
Proof.
  unfold on_session. destruct (sessions a !! id); [|done]. intros Ha.
  apply confined_fold; [intros; by apply confined_perform|by apply confined_session].
Qed.

Lemma confined_worktree e st a : confined a → confined (remove_worktree e st a).
Proof. unfold remove_worktree. intros Ha. repeat case_match; try done. by apply confined_put. Qed.

Create HintDb confine.
#[local] Hint Resolve confined_sessions confined_session confined_kv confined_write confined_putKV confined_lifecycle
  confined_exit confined_api confined_reply_err confined_reply_data confined_fail confined_via confined_on_session
  confined_worktree : confine.

Lemma confined_create_session e msg req a : confined a → confined (create_session e msg req a).
Proof.
  intros Ha. unfold create_session. pose proof (confined_write e (initial_state e a req) a Ha) as Hw.
  destruct (writeSessionKV e (initial_state e a req) a) as [[err|] a1]; cbn [snd] in Hw; [auto with confine|].
  case_match; [apply confined_fail, confined_lifecycle; done|]. destruct (start _ _ _) as [s|err].
  - apply confined_reply_data, confined_lifecycle, confined_session. done.
  - apply confined_fail, confined_lifecycle. done.
Qed.

Lemma confined_handleCreate e msg a : confined a → confined (handleCreate e msg a).
Proof.
  intros Ha. unfold handleCreate. destruct (if _ : bool then _ else _) as [req ok].
  destruct ok; [|by apply confined_fail]. cbn [negb]. cbv zeta.
  destruct (_ && negb (rq_JoinWorktree req)); [by apply confined_fail|].
  destruct (worktreeInUse _ _); [by apply confined_create_session|].
  assert (confined (put_out (GitWorktreeAdd (worktree_path a (SlugifyBranch (effective_branch req (e_uuid e))))
    (effective_branch req (e_uuid e))) a)) by (by apply confined_put).
  destruct (e_gitAdd e); [by apply confined_fail|by apply confined_create_session].
Qed.

Lemma confined_handleDelete e msg a a' : confined a → handleDelete e msg a = Done a' → confined a'.
Proof.
  intros Ha. unfold handleDelete. destruct (unmarshal_into _ _ _) as [[[id r] x] ok].
  case_match; [intros [= <-]; by apply confined_fail|].
  destruct (sessions a !! id) as [s|]; [|intros [= <-]; by apply confined_fail].
  destruct (stopAndWait _) as [s'|]; [|done]. intros [= <-]. apply confined_reply_data. cbv zeta.
  case_match; [apply confined_lifecycle|apply confined_exit]; apply confined_kv, confined_worktree, confined_sessions, Ha.
Qed.

Lemma confined_handleRestart e msg a a' : confined a → handleRestart e msg a = Done a' → confined a'.
Proof.
  intros Ha. unfold handleRestart. destruct (unmarshal_into _ _ _) as [[[id r] flags] ok].
  case_match; [intros [= <-]; by apply confined_fail|].
  destruct (sessions a !! id) as [s|]; [|intros [= <-]; by apply confined_fail].
  destruct (stopAndWait _) as [s'|]; [|done]. cbv zeta. destruct (relaunch _ _) as [s2|err]; intros [= <-].
  - apply confined_reply_data, confined_lifecycle, confined_session, confined_putKV, confined_session, confined_lifecycle, Ha.
  - apply confined_fail, confined_putKV, confined_session, confined_lifecycle, Ha.
Qed.

Lemma confined_handleInput e order msg a : confined a → confined (handleInput e order msg a).
Proof.
  intros Ha. unfold handleInput. destruct (payload_fields _); [|done]. destruct (input_session _ _ _ _); [|done].
  cbv zeta. repeat (case_match; auto with confine).
Qed.

Lemma confined_handleControl e order msg a : confined a → confined (handleControl e order msg a).
Proof.
  intros Ha. unfold handleControl. destruct (unmarshal _ _ _); [|done].
  repeat (case_match; auto with confine); apply confined_fold; intros; auto with confine.
Qed.

Lemma confined_crash e id a : confined a → confined (crash_begin e id a).1.
Proof.
  intros Ha. unfold crash_begin. destruct (sessions a !! id); [|done]. destruct (_ || _); [done|]. cbv zeta.
  destruct (relaunch _ _); cbn [fst]; [apply confined_putKV, confined_lifecycle, confined_session, Ha|].
  apply confined_lifecycle, confined_putKV, confined_lifecycle, confined_session, Ha.
Qed.

Lemma confined_step r r' : astep r r' → confined (ar_agent r) → confined (ar_agent r').
Proof.
  intros [e order h msg b b' Hr|e id now line b|e id b b' o Hb|e id s' l1 l2 b _|b] Ha; cbn [ar_agent].
  - destruct h; cbn in Hr; try (injection Hr as <-); auto using confined_handleCreate, confined_handleInput, confined_handleControl.
    + by eapply confined_handleDelete.
    + by eapply confined_handleRestart.
  - by apply confined_on_session.
  - apply (confined_crash e id) in Ha. by rewrite Hb in Ha.
  - by apply confined_lifecycle, confined_session.
  - by eapply confined_ext.
Qed.

(** The agent's shutdown. *)
Lemma confined_shutdown e a : confined a → confined (finish_shutdown e (begin_shutdown e a)).
Proof.
  intros Ha. unfold finish_shutdown. apply confined_put; [done|].
  apply confined_fold; [intros; by apply confined_lifecycle|].
  apply confined_fold.
  - intros b id Hb. unfold publish_killed. destruct (sessions b !! id) as [s|]; [|done].
    apply confined_fold; [|done]. intros b' sh Hb'. apply confined_put; [|done]. destruct Hb as [Hc _]. pose proof (own_input (cfg b) (or_else (st_Slug (state (as_sess s))) id)) as Ho. by rewrite Hc in Ho |- *.
  - apply confined_fold; [|done]. intros b id Hb. unfold mark_updating. destruct (sessions b !! id); [|done].
    by apply confined_putKV, confined_session.
Qed.

(** The agent's start. *)
Lemma confined_start e entries a : confined a → confined (clearUpdatingState e (recoverSessions e entries a)).
Proof.
  intros Ha. unfold clearUpdatingState, recoverSessions. apply confined_fold.
  { intros b [id st] Hb. unfold clear_orphan. eapply confined_ext; [reflexivity|reflexivity|]. by apply confined_putKV. }
  apply confined_fold.
  { intros b id Hb. unfold clear_resumed. destruct (sessions b !! id); [|done]. cbv zeta.
    case_match; [|done]. eapply confined_ext; [reflexivity|reflexivity|]. by apply confined_putKV. }
  apply confined_fold; [|done]. intros b st Hb. unfold recover_entry. case_match; [done|]. cbv zeta.
  assert (Hc : ∀ a0, confined a0 → confined match relaunch e (clearPendingControlsForResume st) with
      | Ok s => publishLifecycle e (st_ID (clearPendingControlsForResume st)) "session_resumed"
          (set_session (st_ID (clearPendingControlsForResume st)) (watch s) a0)
      | Err _ => a0 end).
  { intros a0 H0. destruct (relaunch _ _); [by apply confined_lifecycle, confined_session|done]. }
  apply Hc, confined_lifecycle. destruct (String.eqb (st_State st) StateUpdating); [by apply (confined_ext b)|by apply confined_putKV].
Qed.

End outputs.

(** ** Theorems *)

Section permitted.
Context `{NS : NatsServer, JT : JsonText, GT : GoTime, UT : UnicodeTables, NO : Normalizer}.

(** From the agent's start (recovery included) through any messages, events and crashes
    to its shutdown, every message of its output is one that its credential lets it
    publish. *)
Theorem agent_traffic_permitted c a0 e entries r e' :
  config_wf c → cfg a0 = c → out a0 = [] →
  rtc astep {| ar_agent := clearUpdatingState e (recoverSessions e entries a0); ar_restarts := [] |} r →
  ∀ s payload, Published s payload ∈ out (finish_shutdown e' (begin_shutdown e' (ar_agent r))) →
    may_publish (agent_perms c) s = true.
Proof.
  intros Hc Hcfg Ho Hr s payload Hin.
  assert (H0 : confined c a0) by (split; [done|rewrite Ho; constructor]).
  apply (confined_start c e entries) in H0.
  assert (Ha : confined c (ar_agent r)) by (refine (rtc_invariant astep (λ r, confined c (ar_agent r)) _ _ _ _ Hr); [intros x y Hx Hs; by eapply confined_step|exact H0]).
  apply (confined_shutdown c e') in Ha as [_ Ha].
  rewrite Forall_forall in Ha. apply (own_permitted c s Hc). apply (Ha _ Hin).
Qed.

Lemma creation_permitted c name f :
  config_wf c → no_dot name → (∃ t, f = projBase c +:+ "sessions." +:+ t) →
  may_publish (agent_perms c) (consumer_create (userSessionsStream (ag_userSlug c)) name f) = true.
Proof.
  intros (Hu & Hh & Hp) Hn [t ->]. unfold may_publish, agent_perms.
  assert (Ht : tokens (consumer_create (userSessionsStream (ag_userSlug c)) name (projBase c +:+ "sessions." +:+ t)) =
    (denote <$> create_tokens (sessS (ag_userSlug c)) (slug name)
      (project_tokens (ag_userSlug c) (ag_hostSlug c) (ag_projectSlug c) [Lit "sessions"])) ++ tokens t).
  { match goal with |- tokens ?s = (denote <$> ?l) ++ _ => assert (s = Join "." (denote <$> l) +:+ String dot t) as -> end.
    - unfold projBase. cbn. by rewrite !string_app_assoc.
    - rewrite tokens_snoc_dot. f_equal. rewrite <- (app_nil_r (_ <$> _)). apply tokens_join; [done|]. cbn. dots. }
  rewrite (allows_written _ _ _ _ _ (agent_written _ _ _ Hu Hh Hp) Ht).
  pose proof (tokens_ne_nil t). destruct (tokens t) as [|x l]; [done|].
  cbv -[String.eqb]. by rewrite !String.eqb_refl.
Qed.

Lemma unfiltered_refused c name :
  config_wf c → no_dot name →
  may_publish (agent_perms c) ("$JS.API.CONSUMER.CREATE." +:+ userSessionsStream (ag_userSlug c) +:+ "." +:+ name) = false.
Proof.
  intros (Hu & Hh & Hp) Hn. unfold may_publish, agent_perms.
  assert (Ht : tokens ("$JS.API.CONSUMER.CREATE." +:+ userSessionsStream (ag_userSlug c) +:+ "." +:+ name) =
    (denote <$> create_tokens (sessS (ag_userSlug c)) (slug name) []) ++ []).
  { rewrite app_nil_r. match goal with |- tokens ?s = ?l => change s with (Join "." l) end.
    apply tokens_join; [done|]. cbn. dots. }
  rewrite (allows_written _ _ _ _ _ (agent_written _ _ _ Hu Hh Hp) Ht).
  cbv -[String.eqb].
  repeat match goal with |- context [String.eqb ?x ?y] => destruct (String.eqb x y) end; reflexivity.
Qed.

(** C27. The agent's credential lets it create a consumer on its user's session stream when
    the request names any one filter of its two consumers in the subject; a request
    that names none is refused.  (The client library names the filter of a consumer
    that has one, and none for a consumer with several, as the command consumer.) *)
Theorem agent_consumers_permitted c name :
  config_wf c → no_dot name →
  let stream := userSessionsStream (ag_userSlug c) in
  (∀ f, f ∈ cmdFilters c ++ ctlFilters c → may_publish (agent_perms c) (consumer_create stream name f) = true) ∧
  may_publish (agent_perms c) ("$JS.API.CONSUMER.CREATE." +:+ stream +:+ "." +:+ name) = false.
Proof.
  intros (Hu & Hh & Hp) Hn stream. split.
  - intros f Hf. apply (creation_permitted c name f (conj Hu (conj Hh Hp)) Hn).
    unfold cmdFilters, ctlFilters in Hf. cbn [app] in Hf. rewrite !elem_of_cons, elem_of_nil in Hf.
    destruct Hf as [->|[->|[->|[->|[->|[]]]]]]; by eexists.
  - by apply unfiltered_refused.
Qed.

End permitted.

Lemma agent_traffic_permitted_witness :
  may_publish (NS := doc_nats_server) (agent_perms AgentDemo.config)
    "mclaude.users.alice.hosts.laptop.projects.web.sessions.0123456789.lifecycle.session_created" = true.
Proof.
  set (a := handleCreate (JT := AgentDemo.text) (GT := AgentDemo.time) (H := AgentDemo.tables) (H0 := AgentDemo.norm)
              AgentDemo.world (AgentDemo.msg "create") AgentDemo.empty).
  eapply (agent_traffic_permitted (NS := doc_nats_server) (JT := AgentDemo.text) (GT := AgentDemo.time)
    (UT := AgentDemo.tables) (NO := AgentDemo.norm) AgentDemo.config AgentDemo.empty AgentDemo.world [] {| ar_agent := a; ar_restarts := [] |} AgentDemo.world).
  - repeat split; vm_compute; reflexivity.
  - reflexivity.
  - reflexivity.
  - apply rtc_once. apply (as_message (JT := AgentDemo.text) (GT := AgentDemo.time) AgentDemo.world [] HCreate (AgentDemo.msg "create")). reflexivity.
  - apply (list_elem_of_lookup_2 _ 1%nat). vm_compute. reflexivity.
Defined.

Lemma agent_consumers_permitted_witness :
  may_publish (NS := doc_nats_server) (agent_perms AgentDemo.config) "$JS.API.CONSUMER.CREATE.MCLAUDE_SESSIONS_alice.c1" = false.
Proof.
  apply (agent_consumers_permitted (NS := doc_nats_server) AgentDemo.config "c1").
  - repeat split; vm_compute; reflexivity.
  - reflexivity.
Defined.
