(* ===== verification/Sha256.v ===== *)
(** * SHA-256 and HMAC (crypto/sha256, crypto/hmac)

    The hash with which the control plane signs its requests to the object
    store, on 32-bit words kept as natural numbers. *)

From S2P Require Import Prelude GoStrings.
Open Scope N_scope.

(** ** Words *)

Definition w32 (x : N) : N := N.land x 4294967295.
Definition add32 (x y : N) : N := w32 (x + y).
Definition rotr (n x : N) : N := N.lor (N.shiftr x n) (w32 (N.shiftl x (32 - n))).
Definition not32 (x : N) : N := N.lxor x 4294967295.

Definition Ch (x y z : N) : N := N.lxor (N.land x y) (N.land (not32 x) z).
Definition Maj (x y z : N) : N := N.lxor (N.lxor (N.land x y) (N.land x z)) (N.land y z).
Definition big_sigma0 (x : N) : N := N.lxor (N.lxor (rotr 2 x) (rotr 13 x)) (rotr 22 x).
Definition big_sigma1 (x : N) : N := N.lxor (N.lxor (rotr 6 x) (rotr 11 x)) (rotr 25 x).
Definition small_sigma0 (x : N) : N := N.lxor (N.lxor (rotr 7 x) (rotr 18 x)) (N.shiftr x 3).
Definition small_sigma1 (x : N) : N := N.lxor (N.lxor (rotr 17 x) (rotr 19 x)) (N.shiftr x 10).

(** The constants are the first 32 bits of the fractional parts of the cube roots
    of the first 64 primes, and of the square roots of the first eight. *)
Definition has_divisor (n : N) : bool := existsb (λ d, n mod (N.of_nat d) =? 0) (seq 2 (N.to_nat (N.sqrt n) - 1)).
Definition primes : list N := List.filter (λ n, negb (has_divisor n)) (N.of_nat <$> seq 2 310).

(** The largest [x] below [2^bits] with [x^3] at most [n], bit by bit. *)
Fixpoint cube_root (bits : nat) (n acc : N) : N :=
  match bits with
  | O => acc
  | S bits => let x := acc + 2 ^ N.of_nat bits in cube_root bits n (if x ^ 3 <=? n then x else acc)
  end.

Definition round_constants : list N := Eval vm_compute in (λ p, w32 (cube_root 35 (N.shiftl p 96) 0)) <$> primes.
Definition initial_hash : list N := Eval vm_compute in (λ p, w32 (N.sqrt (N.shiftl p 64))) <$> take 8 primes.

(** ** Padding and blocks *)

Definition be_bytes (n : nat) (x : N) : list N := (λ i, N.land (N.shiftr x (8 * N.of_nat i)) 255) <$> rev (seq 0 n).

(** One bit, zeros up to 56 modulo 64, and the length in bits. *)
Definition padded (m : list N) : list N :=
  let l := length m in
  m ++ [128] ++ replicate ((119 - l mod 64) mod 64) 0 ++ be_bytes 8 (8 * N.of_nat l).

Fixpoint words (l : list N) : list N :=
  match l with
  | a :: b :: c :: d :: rest => N.lor (N.lor (N.shiftl a 24) (N.shiftl b 16)) (N.lor (N.shiftl c 8) d) :: words rest
  | _ => []
  end.

(** ** Compression *)

(** The message schedule, newest word first. *)
Fixpoint schedule (n : nat) (w : list N) : list N :=
  match n with
  | O => w
  | S n =>
    let x := add32 (add32 (small_sigma1 (nth 1 w 0)) (nth 6 w 0)) (add32 (small_sigma0 (nth 14 w 0)) (nth 15 w 0)) in
    schedule n (x :: w)
  end.

Definition round (st : list N) (kw : N * N) : list N :=
  match st with
  | [a; b; c; d; e; f; g; h] =>
    let t1 := add32 (add32 h (big_sigma1 e)) (add32 (Ch e f g) (add32 kw.1 kw.2)) in
    let t2 := add32 (big_sigma0 a) (Maj a b c) in
    [add32 t1 t2; a; b; c; add32 d t1; e; f; g]
  | _ => st
  end.

Definition compress (st : list N) (block : list N) : list N :=
  let w := rev (schedule 48 (rev block)) in
  zip_with add32 st (fold_left round (zip round_constants w) st).

Fixpoint blocks (fuel : nat) (st : list N) (l : list N) : list N :=
  match fuel, l with
  | S fuel, _ :: _ => blocks fuel (compress st (take 16 l)) (drop 16 l)
  | _, _ => st
  end.

Definition sha256_bytes (m : list N) : list N :=
  let w := words (padded m) in
  mjoin (be_bytes 4 <$> blocks (length w) initial_hash w).

(** ** HMAC *)

Definition hmac_key (k : list N) : list N :=
  let k := if (64 <? length k)%nat then sha256_bytes k else k in
  k ++ replicate (64 - length k) 0.

Definition hmac_bytes (key data : list N) : list N :=
  let k := hmac_key key in
  sha256_bytes ((N.lxor 92 <$> k) ++ sha256_bytes ((N.lxor 54 <$> k) ++ data)).

(** ** On strings *)

Definition hex_digit (n : N) : ascii := char_of (if n <? 10 then 48 + n else 87 + n).

(** [hex.EncodeToString]. *)
Fixpoint hex_of (l : list N) : string :=
  match l with
  | [] => ""
  | b :: l => String (hex_digit (N.shiftr b 4)) (String (hex_digit (N.land b 15)) (hex_of l))
  end.

Definition hmacSHA256 (key data : string) : string := string_of (hmac_bytes (bytes_of key) (bytes_of data)).
Definition hexEncode (s : string) : string := hex_of (bytes_of s).
Definition sha256Hex (data : string) : string := hex_of (sha256_bytes (bytes_of data)).

(** The vectors of FIPS 180-4 and RFC 4231. *)
Example sha256_abc : sha256Hex "abc" = "ba7816bf8f01cfea414140de5dae2223b00361a396177a9cb410ff61f20015ad"%string.
Proof. vm_compute. reflexivity. Qed.

Example sha256_two_blocks : sha256Hex "abcdbcdecdefdefgefghfghighijhijkijkljklmklmnlmnomnopnopq" =
  "248d6a61d20638b8e5c026930c3e6039a33ce45964ff2167f6ecedd419db06c1"%string.
Proof. vm_compute. reflexivity. Qed.

Example hmac_jefe : hexEncode (hmacSHA256 "Jefe" "what do ya want for nothing?") =
  "5bdcc146bf60754e6a042426089575c75a003f089d2739839dec58b964ec3843"%string.
Proof. vm_compute. reflexivity. Qed.

(** A digest has 64 characters, whatever is hashed. *)
Lemma zip_with_same_length {A B C} (f : A → B → C) l k : length l = length k → length (zip_with f l k) = length l.
Proof. intros H. rewrite length_zip_with, H. lia. Qed.

Lemma round_length st kw : length st = 8%nat → length (round st kw) = 8%nat.
Proof. intros H. do 9 (destruct st as [|? st]; try discriminate H). reflexivity. Qed.

Lemma compress_length st b : length st = 8%nat → length (compress st b) = 8%nat.
Proof.
  intros H. unfold compress. cbv zeta. rewrite zip_with_same_length; [done|]. rewrite H. symmetry.
  generalize (zip round_constants (rev (schedule 48 (rev b)))). intros l. revert st H.
  induction l as [|kw l IH]; intros st H; [done|]. cbn. apply IH. by apply round_length.
Qed.

Lemma blocks_length n st l : length st = 8%nat → length (blocks n st l) = 8%nat.
Proof.
  revert st l. induction n as [|n IH]; intros st l H; [done|]. cbn. destruct l; [done|]. apply IH. by apply compress_length.
Qed.

Lemma be4_length l : length (mjoin (be_bytes 4 <$> l)) = (4 * length l)%nat.
Proof. induction l as [|x l IH]; [done|]. change (mjoin (be_bytes 4 <$> x :: l)) with (be_bytes 4 x ++ mjoin (be_bytes 4 <$> l)). rewrite length_app, IH. cbn. lia. Qed.

Lemma hex_length l : String.length (hex_of l) = (2 * length l)%nat.
Proof. induction l as [|b l IH]; [done|]. cbn. rewrite IH. lia. Qed.

Lemma sha256Hex_length data : String.length (sha256Hex data) = 64%nat.
Proof. unfold sha256Hex, sha256_bytes. cbv zeta. by rewrite hex_length, be4_length, blocks_length. Qed.
