(* ===== verification/Database.v ===== *)
(** * The control plane's database (mclaude-control-plane/db.go)

    The tables (users, hosts, host access, projects, agent credentials,
    attachments) as lists of rows, the constraints of the schema as decidable predicates, and
    the statements and queries of db.go.  A statement is checked against the
    constraints as PostgreSQL does: it either takes effect or fails and leaves
    the tables as they were.  A query without ORDER BY returns some row that
    matches; which one is the database's choice ([Postgres]).  The oauth
    connections table is not modelled. *)

From stdpp Require Import sorting.
From S2P Require Import Prelude GoStrings Slug Permissions.
Open Scope Z_scope.

(** ** Rows *)

Record User := {
  u_ID : string; u_Email : string; u_Name : string; u_PasswordHash : string; u_IsAdmin : bool;
  u_Slug : string; u_NKeyPublic : option string; u_CreatedAt : Z;
}.

Record Host := {
  h_ID : string; h_UserID : string; h_Slug : string; h_Name : string; h_Type : string; h_Role : string;
  h_DirectNATSURL : option string; h_PublicKey : option string; h_UserJWT : option jwt_claims; h_NatsJWT : option jwt_claims;
  h_CreatedAt : Z; h_LastSeenAt : option Z;
}.

(** [HostSlug] is not a column: the queries join it in. *)
Record Project := {
  p_ID : string; p_UserID : string; p_Name : string; p_Slug : string; p_GitURL : string; p_Status : string;
  p_HostID : string; p_GitIdentityID : option string; p_ImportRef : option string; p_CreatedAt : Z;
}.

Record AgentCredential := {
  ac_ID : string; ac_UserID : string; ac_HostSlug : string; ac_ProjectSlug : string; ac_NKeyPublic : string;
}.

Record Attachment := {
  at_ID : string; at_S3Key : string; at_Filename : string; at_MimeType : string; at_SizeBytes : Z;
  at_UserID : string; at_HostID : string; at_ProjectID : string; at_Confirmed : bool; at_CreatedAt : Z;
}.

(** The tables; a row of [host_access] is (host id, user id). *)
Record Tables := {
  users : list User;
  hosts : list Host;
  host_access : list (string * string);
  projects : list Project;
  agent_credentials : list AgentCredential;
  attachments : list Attachment;
}.

Definition set_users v t := {| users := v; hosts := hosts t; host_access := host_access t; projects := projects t; agent_credentials := agent_credentials t; attachments := attachments t |}.
Definition set_hosts v t := {| users := users t; hosts := v; host_access := host_access t; projects := projects t; agent_credentials := agent_credentials t; attachments := attachments t |}.
Definition set_host_access v t := {| users := users t; hosts := hosts t; host_access := v; projects := projects t; agent_credentials := agent_credentials t; attachments := attachments t |}.
Definition set_projects v t := {| users := users t; hosts := hosts t; host_access := host_access t; projects := v; agent_credentials := agent_credentials t; attachments := attachments t |}.
Definition set_agent_credentials v t := {| users := users t; hosts := hosts t; host_access := host_access t; projects := projects t; agent_credentials := v; attachments := attachments t |}.
Definition set_attachments v t := {| users := users t; hosts := hosts t; host_access := host_access t; projects := projects t; agent_credentials := agent_credentials t; attachments := v |}.

(** ** The schema's constraints *)

Definition uniqueb {K} `{EqDecision K} (l : list K) : bool := bool_decide (NoDup l).

(** CHECK (type IN (...)) and CHECK (role IN (...)). *)
Definition host_checks (h : Host) : bool :=
  (String.eqb (h_Type h) "machine" || String.eqb (h_Type h) "cluster") &&
  (String.eqb (h_Role h) "owner" || String.eqb (h_Role h) "user").

(** CHECK (size_bytes > 0). *)
Definition check_ok (t : Tables) : bool := forallb host_checks (hosts t) && forallb (λ a, 0 <? at_SizeBytes a) (attachments t).

(** Primary keys, UNIQUE columns and unique indexes; NULLs are distinct. *)
Definition unique_ok (t : Tables) : bool :=
  uniqueb (u_ID <$> users t) && uniqueb (u_Email <$> users t) && uniqueb (u_Slug <$> users t) &&
  uniqueb (omap u_NKeyPublic (users t)) &&
  uniqueb (h_ID <$> hosts t) && uniqueb ((λ h, (h_UserID h, h_Slug h)) <$> hosts t) &&
  uniqueb (omap h_PublicKey (hosts t)) &&
  uniqueb (host_access t) &&
  uniqueb (p_ID <$> projects t) && uniqueb ((λ p, (p_UserID p, p_HostID p, p_Slug p)) <$> projects t) &&
  uniqueb (ac_ID <$> agent_credentials t) && uniqueb (ac_NKeyPublic <$> agent_credentials t) &&
  uniqueb ((λ c, (ac_UserID c, ac_HostSlug c, ac_ProjectSlug c)) <$> agent_credentials t) &&
  uniqueb (at_ID <$> attachments t) && uniqueb (at_S3Key <$> attachments t).

Definition memb (x : string) (l : list string) : bool := bool_decide (x ∈ l).

(** REFERENCES users(id), hosts(id) and projects(id). *)
Definition foreign_ok (t : Tables) : bool :=
  let uids := u_ID <$> users t in
  let hids := h_ID <$> hosts t in
  forallb (λ h, memb (h_UserID h) uids) (hosts t) &&
  forallb (λ a : string * string, memb a.1 hids && memb a.2 uids) (host_access t) &&
  forallb (λ p, memb (p_UserID p) uids && memb (p_HostID p) hids) (projects t) &&
  forallb (λ c, memb (ac_UserID c) uids) (agent_credentials t) &&
  forallb (λ a, memb (at_UserID a) uids && memb (at_HostID a) hids && memb (at_ProjectID a) (p_ID <$> projects t)) (attachments t).

Definition tables_ok (t : Tables) : bool := check_ok t && unique_ok t && foreign_ok t.

(** ** Statements *)

Inductive pg_error := UniqueViolation | OtherViolation | ConnectionError.

(** [pool.Exec]: [down] says whether the connection fails. *)
Definition Exec (down : bool) (statement : Tables → Tables) (t : Tables) : result pg_error Tables :=
  if down then Err ConnectionError
  else
    let t' := statement t in
    if negb (check_ok t') then Err OtherViolation
    else if negb (unique_ok t') then Err UniqueViolation
    else if negb (foreign_ok t') then Err OtherViolation
    else Ok t'.

(** [strings.Contains(err.Error(), "unique")]: only the message of a unique
    violation has the word. *)
Definition is_unique_error (e : pg_error) : bool := match e with UniqueViolation => true | _ => false end.

(** [UPDATE ... WHERE]: the rows that match are changed where they stand. *)
Definition update_where {A} (p : A → bool) (f : A → A) (l : list A) : list A := (λ x, if p x then f x else x) <$> l.

(** [DELETE ... WHERE]. *)
Definition delete_where {A} (p : A → bool) (l : list A) : list A := List.filter (λ x, negb (p x)) l.

(** ON DELETE CASCADE from projects. *)
Definition delete_projects (p : Project → bool) (t : Tables) : Tables :=
  let gone := p_ID <$> List.filter p (projects t) in
  set_projects (delete_where p (projects t)) (set_attachments (delete_where (λ a, memb (at_ProjectID a) gone) (attachments t)) t).

(** ON DELETE CASCADE from hosts. *)
Definition delete_hosts (p : Host → bool) (t : Tables) : Tables :=
  let gone := h_ID <$> List.filter p (hosts t) in
  let t := delete_projects (λ q, memb (p_HostID q) gone) t in
  set_hosts (delete_where p (hosts t))
    (set_host_access (delete_where (λ a : string * string, memb a.1 gone) (host_access t))
      (set_attachments (delete_where (λ a, memb (at_HostID a) gone) (attachments t)) t)).

(** ON DELETE CASCADE from users. *)
Definition delete_users (p : User → bool) (t : Tables) : Tables :=
  let gone := u_ID <$> List.filter p (users t) in
  let t := delete_hosts (λ h, memb (h_UserID h) gone) t in
  let t := delete_projects (λ q, memb (p_UserID q) gone) t in
  set_users (delete_where p (users t))
    (set_host_access (delete_where (λ a : string * string, memb a.2 gone) (host_access t))
      (set_agent_credentials (delete_where (λ c, memb (ac_UserID c) gone) (agent_credentials t))
        (set_attachments (delete_where (λ a, memb (at_UserID a) gone) (attachments t)) t))).

Definition with_key (k : string) (h : Host) : Host :=
  {| h_ID := h_ID h; h_UserID := h_UserID h; h_Slug := h_Slug h; h_Name := h_Name h; h_Type := h_Type h; h_Role := h_Role h;
     h_DirectNATSURL := h_DirectNATSURL h; h_PublicKey := Some k; h_UserJWT := h_UserJWT h; h_NatsJWT := h_NatsJWT h; h_CreatedAt := h_CreatedAt h; h_LastSeenAt := h_LastSeenAt h |}.
Definition with_name (n : string) (h : Host) : Host :=
  {| h_ID := h_ID h; h_UserID := h_UserID h; h_Slug := h_Slug h; h_Name := n; h_Type := h_Type h; h_Role := h_Role h;
     h_DirectNATSURL := h_DirectNATSURL h; h_PublicKey := h_PublicKey h; h_UserJWT := h_UserJWT h; h_NatsJWT := h_NatsJWT h; h_CreatedAt := h_CreatedAt h; h_LastSeenAt := h_LastSeenAt h |}.
Definition with_jwts (user nats : option jwt_claims) (h : Host) : Host :=
  {| h_ID := h_ID h; h_UserID := h_UserID h; h_Slug := h_Slug h; h_Name := h_Name h; h_Type := h_Type h; h_Role := h_Role h;
     h_DirectNATSURL := h_DirectNATSURL h; h_PublicKey := h_PublicKey h; h_UserJWT := user; h_NatsJWT := nats; h_CreatedAt := h_CreatedAt h; h_LastSeenAt := h_LastSeenAt h |}.
Definition with_last_seen (now : Z) (h : Host) : Host :=
  {| h_ID := h_ID h; h_UserID := h_UserID h; h_Slug := h_Slug h; h_Name := h_Name h; h_Type := h_Type h; h_Role := h_Role h;
     h_DirectNATSURL := h_DirectNATSURL h; h_PublicKey := h_PublicKey h; h_UserJWT := h_UserJWT h; h_NatsJWT := h_NatsJWT h; h_CreatedAt := h_CreatedAt h; h_LastSeenAt := Some now |}.

(** INSERT ... ON CONFLICT: [same] is the arbiter index's test; the row it finds
    is updated, without one the new row is inserted. *)
Definition upsert {A} (same : A → bool) (f : A → A) (row : A) (l : list A) : list A :=
  if existsb same l then update_where same f l else l ++ [row].

Definition SetUserNKeyPublic (userID nkeyPublic : string) (t : Tables) : Tables :=
  set_users (update_where (λ u, String.eqb (u_ID u) userID)
    (λ u, {| u_ID := u_ID u; u_Email := u_Email u; u_Name := u_Name u; u_PasswordHash := u_PasswordHash u; u_IsAdmin := u_IsAdmin u;
             u_Slug := u_Slug u; u_NKeyPublic := Some nkeyPublic; u_CreatedAt := u_CreatedAt u |}) (users t)) t.

Definition SetUserAdmin (id : string) (isAdmin : bool) (t : Tables) : Tables :=
  set_users (update_where (λ u, String.eqb (u_ID u) id)
    (λ u, {| u_ID := u_ID u; u_Email := u_Email u; u_Name := u_Name u; u_PasswordHash := u_PasswordHash u; u_IsAdmin := isAdmin;
             u_Slug := u_Slug u; u_NKeyPublic := u_NKeyPublic u; u_CreatedAt := u_CreatedAt u |}) (users t)) t.

Definition DeleteUser (id : string) (t : Tables) : Tables := delete_users (λ u, String.eqb (u_ID u) id) t.

Definition UpdateProjectStatus (projectID status : string) (t : Tables) : Tables :=
  set_projects (update_where (λ p, String.eqb (p_ID p) projectID)
    (λ p, {| p_ID := p_ID p; p_UserID := p_UserID p; p_Name := p_Name p; p_Slug := p_Slug p; p_GitURL := p_GitURL p; p_Status := status;
             p_HostID := p_HostID p; p_GitIdentityID := p_GitIdentityID p; p_ImportRef := p_ImportRef p; p_CreatedAt := p_CreatedAt p |}) (projects t)) t.

Definition UpdateProjectGitIdentity (projectID : string) (gitIdentityID : option string) (t : Tables) : Tables :=
  set_projects (update_where (λ p, String.eqb (p_ID p) projectID)
    (λ p, {| p_ID := p_ID p; p_UserID := p_UserID p; p_Name := p_Name p; p_Slug := p_Slug p; p_GitURL := p_GitURL p; p_Status := p_Status p;
             p_HostID := p_HostID p; p_GitIdentityID := gitIdentityID; p_ImportRef := p_ImportRef p; p_CreatedAt := p_CreatedAt p |}) (projects t)) t.

Definition DeleteProject (projectID : string) (t : Tables) : Tables :=
  delete_projects (λ p, String.eqb (p_ID p) projectID) t.

(** The empty reference clears the column. *)
Definition SetProjectImportRef (projectID importRef : string) (t : Tables) : Tables :=
  set_projects (update_where (λ p, String.eqb (p_ID p) projectID)
    (λ p, {| p_ID := p_ID p; p_UserID := p_UserID p; p_Name := p_Name p; p_Slug := p_Slug p; p_GitURL := p_GitURL p; p_Status := p_Status p;
             p_HostID := p_HostID p; p_GitIdentityID := p_GitIdentityID p;
             p_ImportRef := (if String.eqb importRef "" then None else Some importRef); p_CreatedAt := p_CreatedAt p |}) (projects t)) t.

Definition CreateAttachment (a : Attachment) (t : Tables) : Tables := set_attachments (attachments t ++ [a]) t.

Definition user_attachment (id userID : string) (a : Attachment) : bool := String.eqb (at_ID a) id && String.eqb (at_UserID a) userID.

Definition confirmed (a : Attachment) : Attachment :=
  {| at_ID := at_ID a; at_S3Key := at_S3Key a; at_Filename := at_Filename a; at_MimeType := at_MimeType a; at_SizeBytes := at_SizeBytes a;
     at_UserID := at_UserID a; at_HostID := at_HostID a; at_ProjectID := at_ProjectID a; at_Confirmed := true; at_CreatedAt := at_CreatedAt a |}.

(** [ConfirmAttachment]: an update of no row is an error. *)
Definition ConfirmAttachment (down : bool) (id userID : string) (t : Tables) : result string Tables :=
  match Exec down (λ t, set_attachments (update_where (user_attachment id userID) confirmed (attachments t)) t) t with
  | Err _ => Err "database error"%string
  | Ok t' => if existsb (user_attachment id userID) (attachments t) then Ok t' else Err "attachment not found or unauthorized"%string
  end.

Definition GrantHostAccess (hostID userID : string) (t : Tables) : Tables :=
  set_host_access (if existsb (λ a, bool_decide (a = (hostID, userID))) (host_access t) then host_access t
                   else host_access t ++ [(hostID, userID)]) t.

Definition RevokeHostAccess (hostID userID : string) (t : Tables) : Tables :=
  set_host_access (delete_where (λ a, bool_decide (a = (hostID, userID))) (host_access t)) t.

Definition UpdateHostNatsJWT (hostID : string) (natsJWT : jwt_claims) (t : Tables) : Tables :=
  set_hosts (update_where (λ h, String.eqb (h_ID h) hostID) (with_jwts (Some natsJWT) (Some natsJWT)) (hosts t)) t.

Definition RegisterHostNKeyPublic (hostID publicKey : string) (t : Tables) : Tables :=
  set_hosts (update_where (λ h, String.eqb (h_ID h) hostID) (with_key publicKey) (hosts t)) t.

Definition UpsertAgentCredential (id userID hostSlug projectSlug nkeyPublic : string) (t : Tables) : Tables :=
  let row := {| ac_ID := id; ac_UserID := userID; ac_HostSlug := hostSlug; ac_ProjectSlug := projectSlug; ac_NKeyPublic := nkeyPublic |} in
  set_agent_credentials
    (upsert (λ c, String.eqb (ac_UserID c) userID && String.eqb (ac_HostSlug c) hostSlug && String.eqb (ac_ProjectSlug c) projectSlug)
            (λ c, row) row (agent_credentials t)) t.

Definition DeleteAgentCredentialsByHost (hostSlug : string) (t : Tables) : Tables :=
  set_agent_credentials (delete_where (λ c, String.eqb (ac_HostSlug c) hostSlug) (agent_credentials t)) t.

Definition DeleteAgentCredentialsByProject (userID hostSlug projectSlug : string) (t : Tables) : Tables :=
  set_agent_credentials
    (delete_where (λ c, String.eqb (ac_UserID c) userID && String.eqb (ac_HostSlug c) hostSlug && String.eqb (ac_ProjectSlug c) projectSlug)
      (agent_credentials t)) t.

(** ON CONFLICT DO NOTHING. *)
Definition id_host (h : Host) : Host := h.

(** INSERT INTO hosts (handleCreateHost). *)
Definition InsertHost (h : Host) (t : Tables) : Tables := set_hosts (hosts t ++ [h]) t.

(** INSERT INTO hosts ... ON CONFLICT (user_id, slug) DO UPDATE SET ... *)
Definition UpsertHost (h : Host) (f : Host → Host) (t : Tables) : Tables :=
  set_hosts (upsert (λ g, String.eqb (h_UserID g) (h_UserID h) && String.eqb (h_Slug g) (h_Slug h)) f h (hosts t)) t.

(** The row proposed for insertion is checked against the CHECK constraints even
    when a conflict turns the insertion into an update. *)
Definition ExecUpsertHost (down : bool) (h : Host) (f : Host → Host) (t : Tables) : result pg_error Tables :=
  if down then Err ConnectionError
  else if negb (host_checks h) then Err OtherViolation
  else Exec false (UpsertHost h f) t.

(** ** Queries *)

(** The choice among several matching rows. *)
Class Postgres := {
  first_row {A : Type} : list A → option A;
  first_row_in {A : Type} (l : list A) x : first_row l = Some x → x ∈ l;
  first_row_none {A : Type} (l : list A) : first_row l = None → l = [];
}.

Section queries.
Context `{PG : Postgres}.

Definition select {A} (p : A → bool) (l : list A) : list A := List.filter p l.

Definition GetUserByEmail (email : string) (t : Tables) : option User := first_row (select (λ u, String.eqb (u_Email u) email) (users t)).
Definition GetUserByID (id : string) (t : Tables) : option User := first_row (select (λ u, String.eqb (u_ID u) id) (users t)).
Definition GetUserBySlug (uslug : string) (t : Tables) : option User := first_row (select (λ u, String.eqb (u_Slug u) uslug) (users t)).

(** [col = $1] does not hold of NULL. *)
Definition opt_eqb (c : option string) (x : string) : bool := match c with Some y => String.eqb y x | None => false end.

Definition GetUserByNKeyPublic (nkeyPublic : string) (t : Tables) : option User :=
  first_row (select (λ u, opt_eqb (u_NKeyPublic u) nkeyPublic) (users t)).

Definition GetHostBySlug (hslug : string) (t : Tables) : option Host :=
  first_row (select (λ h, String.eqb (h_Slug h) hslug && String.eqb (h_Role h) "owner") (hosts t)).

Definition GetHostByPublicKey (publicKey : string) (t : Tables) : option Host :=
  first_row (select (λ h, opt_eqb (h_PublicKey h) publicKey) (hosts t)).

(** Owned and granted; UNION removes duplicates and ORDER BY sorts (here with the
    C collation). *)
Definition GetHostAccessSlugs (userID : string) (t : Tables) : list string :=
  let owned := h_Slug <$> select (λ h, String.eqb (h_UserID h) userID) (hosts t) in
  let granted := h_Slug <$> select (λ h, existsb (λ a, bool_decide (a = (h_ID h, userID))) (host_access t)) (hosts t) in
  merge_sort (λ x y, Is_true (String.leb x y)) (remove_dups (owned ++ granted)).

Definition GetAgentCredentialByNKeyPublic (nkeyPublic : string) (t : Tables) : option AgentCredential :=
  first_row (select (λ c, String.eqb (ac_NKeyPublic c) nkeyPublic) (agent_credentials t)).

Definition GetAgentCredentialsByHostUser (hostSlug userID : string) (t : Tables) : list AgentCredential :=
  select (λ c, String.eqb (ac_HostSlug c) hostSlug && String.eqb (ac_UserID c) userID) (agent_credentials t).

Definition GetAgentCredentialsByHost (hostSlug : string) (t : Tables) : list AgentCredential :=
  select (λ c, String.eqb (ac_HostSlug c) hostSlug) (agent_credentials t).

(** LEFT JOIN hosts h ON h.id = p.host_id, COALESCE(h.slug, ''). *)
Definition join_host (t : Tables) (p : Project) : Project * string :=
  (p, match find_first (λ h, String.eqb (h_ID h) (p_HostID p)) (hosts t) with Some h => h_Slug h | None => "" end).

Definition GetProjectByUserAndSlug (userID pslug : string) (t : Tables) : option (Project * string) :=
  first_row (join_host t <$> select (λ p, String.eqb (p_UserID p) userID && String.eqb (p_Slug p) pslug) (projects t)).

Definition GetProjectByID (id : string) (t : Tables) : option (Project * string) :=
  first_row (join_host t <$> select (λ p, String.eqb (p_ID p) id) (projects t)).

Definition GetAttachment (id userID : string) (t : Tables) : option Attachment :=
  first_row (select (user_attachment id userID) (attachments t)).

Definition GetProjectsByUser (userID : string) (t : Tables) : list (Project * string) :=
  merge_sort (λ x y : Project * string, Is_true (p_CreatedAt x.1 <=? p_CreatedAt y.1))
    (join_host t <$> select (λ p, String.eqb (p_UserID p) userID) (projects t)).

Definition GetHostsByUser (userID : string) (t : Tables) : list Host :=
  merge_sort (λ x y, Is_true (h_CreatedAt x <=? h_CreatedAt y)) (select (λ h, String.eqb (h_UserID h) userID) (hosts t)).

Definition GetProjectsByHostSlug (userID hostSlug : string) (t : Tables) : list (Project * string) :=
  merge_sort (λ x y : Project * string, Is_true (p_CreatedAt x.1 <=? p_CreatedAt y.1))
    (select (λ ph : Project * string, String.eqb ph.2 hostSlug)
      (join_host t <$> select (λ p, String.eqb (p_UserID p) userID) (projects t))).

(** ** Statements that query first *)

Context `{UT : UnicodeTables, NO : Normalizer}.

(** [CreateUser]: the user row, then a default host, whose failure is ignored.
    [uid] is the uuid of the slug fallback, [hostID] the one of the host. *)
Definition CreateUser (down down_host : bool) (uid : list N) (hostID id email name passwordHash : string) (now : Z) (t : Tables) :
    result pg_error (User * Tables) :=
  let u := {| u_ID := id; u_Email := email; u_Name := name; u_PasswordHash := passwordHash; u_IsAdmin := false;
              u_Slug := computeUserSlug uid email; u_NKeyPublic := None; u_CreatedAt := now |} in
  match Exec down (λ t, set_users (users t ++ [u]) t) t with
  | Err e => Err e
  | Ok t =>
    let h := {| h_ID := hostID; h_UserID := id; h_Slug := "local"; h_Name := "Local Machine"; h_Type := "machine"; h_Role := "owner";
                h_DirectNATSURL := None; h_PublicKey := None; h_UserJWT := None; h_NatsJWT := None; h_CreatedAt := now; h_LastSeenAt := None |} in
    match ExecUpsertHost down_host h id_host t with
    | Err _ => Ok (u, t)
    | Ok t => Ok (u, t)
    end
  end.

(** The project's slug: "project" for a name without usable characters. *)
Definition project_slug (uid : list N) (name : string) : string :=
  let s := Slugify name in
  let s := if String.eqb s "" then "project"%string else s in
  match Validate s with
  | None => s
  | Some _ => ValidateOrFallback s KindProject uid
  end.

(** The user's host "local", or the user's oldest host. *)
Definition default_host (down_local down_any : bool) (userID : string) (t : Tables) : option string :=
  let own := select (λ h, String.eqb (h_UserID h) userID) (hosts t) in
  match (if down_local then None else first_row (select (λ h, String.eqb (h_Slug h) "local") own)) with
  | Some h => Some (h_ID h)
  | None =>
    if down_any then None
    else h_ID <$> first_row (select (λ h, forallb (λ g, h_CreatedAt h <=? h_CreatedAt g) own) own)
  end.

(** [identity_ok]: the git identity is NULL or the id of an oauth connection
    (REFERENCES oauth_connections(id)). *)
Definition CreateProjectWithIdentity (down_local down_any down identity_ok : bool) (uid : list N) (id userID name gitURL : string)
    (gitIdentityID : option string) (now : Z) (t : Tables) : result pg_error (Project * Tables) :=
  match default_host down_local down_any userID t with
  | None => Err (if down then ConnectionError else OtherViolation)
  | Some hostID =>
    let p := {| p_ID := id; p_UserID := userID; p_Name := name; p_Slug := project_slug uid name; p_GitURL := gitURL;
                p_Status := "active"; p_HostID := hostID; p_GitIdentityID := gitIdentityID; p_ImportRef := None; p_CreatedAt := now |} in
    match Exec down (λ t, set_projects (projects t ++ [p]) t) t with
    | Err e => Err e
    | Ok t => if identity_ok then Ok (p, t) else Err OtherViolation
    end
  end.

End queries.

(** ** Facts *)

Lemma forallb_elem {A} (p : A → bool) l x : forallb p l = true → x ∈ l → p x = true.
Proof. intros H Hx. rewrite forallb_forall in H. apply H. by apply list_elem_of_In. Qed.

Lemma select_elem {A} (p : A → bool) l x : x ∈ select p l ↔ x ∈ l ∧ p x = true.
Proof. unfold select. rewrite !list_elem_of_In. apply filter_In. Qed.

Lemma delete_where_elem {A} (p : A → bool) l x : x ∈ delete_where p l ↔ x ∈ l ∧ p x = false.
Proof. unfold delete_where. rewrite !list_elem_of_In, filter_In. by rewrite negb_true_iff. Qed.

Lemma memb_spec x l : memb x l = true ↔ x ∈ l.
Proof. apply bool_decide_eq_true. Qed.

Lemma Exec_Ok down f t t' : Exec down f t = Ok t' → t' = f t ∧ tables_ok t' = true.
Proof.
  unfold Exec, tables_ok. destruct down; [done|]. destruct (check_ok (f t)) eqn:?; [|done]. destruct (unique_ok (f t)) eqn:?; [|done].
  destruct (foreign_ok (f t)) eqn:?; [|done]. cbn. intros [= <-]. split; [done|]. by rewrite Heqb, Heqb0, Heqb1.
Qed.

Lemma ExecUpsertHost_Ok down h f t t' : ExecUpsertHost down h f t = Ok t' → t' = UpsertHost h f t ∧ tables_ok t' = true.
Proof. unfold ExecUpsertHost. destruct down; [done|]. destruct (host_checks h); [|done]. apply Exec_Ok. Qed.

(** Rows with the same key are the same row. *)
Lemma unique_key {A K} `{EqDecision K} (f : A → K) l x y : NoDup (f <$> l) → x ∈ l → y ∈ l → f x = f y → x = y.
Proof.
  induction l as [|z l IH]; cbn; [intros _ Hx; by apply elem_of_nil in Hx|].
  rewrite NoDup_cons, !elem_of_cons. intros [Hz Hl] [->|Hx] [->|Hy] Hf; [done| | |by apply IH].
  - destruct Hz. rewrite Hf. by apply list_elem_of_fmap_2.
  - destruct Hz. rewrite <- Hf. by apply list_elem_of_fmap_2.
Qed.

Lemma unique_opt_key {A K} `{EqDecision K} (f : A → option K) l x y k :
  NoDup (omap f l) → x ∈ l → y ∈ l → f x = Some k → f y = Some k → x = y.
Proof.
  induction l as [|z l IH]; cbn; [intros _ Hx; by apply elem_of_nil in Hx|].
  assert (Hin : ∀ w, w ∈ l → f w = Some k → k ∈ omap f l) by (intros w Hw Hf; apply list_elem_of_omap; eauto).
  rewrite !elem_of_cons. intros Hn [->|Hx] [->|Hy] Hfx Hfy; [done| | |].
  - rewrite Hfx in Hn. apply NoDup_cons in Hn as [Hn _]. destruct Hn. by eapply Hin.
  - rewrite Hfy in Hn. apply NoDup_cons in Hn as [Hn _]. destruct Hn. by eapply Hin.
  - apply IH; [|done..]. destruct (f z); [by apply NoDup_cons in Hn as [_ ?]|done].
Qed.

Lemma uniqueb_NoDup {K} `{EqDecision K} (l : list K) : uniqueb l = true ↔ NoDup l.
Proof. apply bool_decide_eq_true. Qed.

(** *** Deletions keep the constraints *)

Lemma delete_where_sublist {A} (p : A → bool) l : sublist (delete_where p l) l.
Proof. unfold delete_where. induction l as [|x l IH]; cbn; [constructor|]. destruct (p x); cbn; by constructor. Qed.

Lemma omap_sublist {A B} (f : A → option B) l k : sublist l k → sublist (omap f l) (omap f k).
Proof. induction 1 as [|x l k H IH|x l k H IH]; cbn; [constructor| |]; destruct (f x); by try constructor. Qed.

Lemma fmap_sublist {A B} (f : A → B) l k : sublist l k → sublist (f <$> l) (f <$> k).
Proof. induction 1; cbn; by constructor. Qed.

Lemma uniqueb_sublist {K} `{EqDecision K} (l k : list K) : sublist l k → uniqueb k = true → uniqueb l = true.
Proof. rewrite !uniqueb_NoDup. intros Hs Hk. by eapply sublist_NoDup. Qed.

Lemma forallb_delete {A} (p q : A → bool) l : forallb q l = true → forallb q (delete_where p l) = true.
Proof. rewrite !forallb_forall. intros H x Hx. apply H. rewrite <- list_elem_of_In in *. by apply delete_where_elem in Hx as [? _]. Qed.

Lemma forallb_impl_elem {A} (q r : A → bool) l : (∀ x, x ∈ l → q x = true → r x = true) → forallb q l = true → forallb r l = true.
Proof. rewrite !forallb_forall. intros H Hq x Hx. apply H; [by apply list_elem_of_In|auto]. Qed.

Create HintDb tables discriminated.
#[export] Hint Resolve uniqueb_sublist omap_sublist fmap_sublist delete_where_sublist forallb_delete : tables.

Lemma delete_credentials_ok p t : tables_ok t = true → tables_ok (set_agent_credentials (delete_where p (agent_credentials t)) t) = true.
Proof.
  unfold tables_ok, unique_ok, check_ok, foreign_ok. cbn. rewrite !andb_true_iff. intros H. split_and_all. repeat split; eauto with tables.
Qed.

Lemma delete_attachments_ok p t : tables_ok t = true → tables_ok (set_attachments (delete_where p (attachments t)) t) = true.
Proof.
  unfold tables_ok, unique_ok, check_ok, foreign_ok. cbn. rewrite !andb_true_iff. intros H. split_and_all. repeat split; eauto with tables.
Qed.

(** Rows whose key is not among the deleted ones keep what they refer to. *)
Lemma memb_stays {A} (key : A → string) p l x :
  memb x (key <$> l) = true → memb x (key <$> List.filter p l) = false → memb x (key <$> delete_where p l) = true.
Proof.
  intros Hx Hn. apply memb_spec, list_elem_of_fmap in Hx as (y & -> & Hy). apply memb_spec, list_elem_of_fmap. exists y. split; [done|].
  apply delete_where_elem. split; [done|]. destruct (p y) eqn:E; [|done]. apply not_true_iff_false in Hn. destruct Hn.
  apply memb_spec, list_elem_of_fmap. exists y. split; [done|]. by apply select_elem.
Qed.

Lemma forallb_stays {A} (gone : A → bool) (q r : A → bool) l :
  (∀ x, gone x = false → q x = true → r x = true) → forallb q l = true → forallb r (delete_where gone l) = true.
Proof.
  intros H Hq. eapply forallb_impl_elem; [|eapply forallb_delete; exact Hq]. intros x [_ Hx]%delete_where_elem. by apply H.
Qed.

(** The rows that refer to a deleted project or host go with it. *)
Lemma delete_projects_ok p t : tables_ok t = true → tables_ok (delete_projects p t) = true.
Proof.
  unfold tables_ok, unique_ok, check_ok, foreign_ok. cbn. rewrite !andb_true_iff. intros H. split_and_all. repeat split; eauto with tables.
  eapply forallb_stays; [|eassumption]. intros a Ha. rewrite !andb_true_iff. intros [[? ?] ?]. auto using memb_stays.
Qed.

Lemma delete_hosts_ok p t : tables_ok t = true → tables_ok (delete_hosts p t) = true.
Proof.
  intros Hok. apply (delete_projects_ok (λ q, memb (p_HostID q) (h_ID <$> List.filter p (hosts t)))) in Hok as H.
  unfold delete_hosts. cbv zeta. set (gone := h_ID <$> List.filter p (hosts t)) in *. set (t1 := delete_projects _ t) in *.
  assert (Hp : ∀ q, q ∈ projects t1 → memb (p_HostID q) gone = false) by (intros q [_ Hq]%delete_where_elem; done).
  assert (Hg : gone = h_ID <$> List.filter p (hosts t1)) by done. clearbody t1.
  revert H. unfold tables_ok, unique_ok, check_ok, foreign_ok. cbn. rewrite !andb_true_iff. intros H. split_and_all.
  repeat split; eauto with tables.
  - eapply forallb_stays; [|eassumption]. intros a Ha. rewrite !andb_true_iff. rewrite Hg in *. intros [? ?]. auto using memb_stays.
  - eapply forallb_impl_elem; [|eassumption]. intros q Hq%Hp. rewrite !andb_true_iff. rewrite Hg in *. intros [? ?]. auto using memb_stays.
  - eapply forallb_stays; [|eassumption]. intros a Ha. rewrite !andb_true_iff. rewrite Hg in *. intros [[? ?] ?]. auto using memb_stays.
Qed.

Lemma delete_users_ok p t : tables_ok t = true → tables_ok (delete_users p t) = true.
Proof.
  intros Hok. set (gone := u_ID <$> List.filter p (users t)).
  apply (delete_hosts_ok (λ h, memb (h_UserID h) gone)), (delete_projects_ok (λ q, memb (p_UserID q) gone)) in Hok as H.
  unfold delete_users. cbv zeta. fold gone. set (t1 := delete_projects _ (delete_hosts _ t)) in *.
  assert (Hh : ∀ h, h ∈ hosts t1 → memb (h_UserID h) gone = false) by (intros h [_ Hq]%delete_where_elem; done).
  assert (Hp : ∀ q, q ∈ projects t1 → memb (p_UserID q) gone = false) by (intros q [_ Hq]%delete_where_elem; done).
  assert (Hg : gone = u_ID <$> List.filter p (users t1)) by done. clearbody t1 gone.
  revert H. unfold tables_ok, unique_ok, check_ok, foreign_ok. cbn. rewrite !andb_true_iff. intros H. split_and_all.
  repeat split; eauto with tables.
  - eapply forallb_impl_elem; [|eassumption]. intros h Hx%Hh. rewrite Hg in *. auto using memb_stays.
  - eapply forallb_stays; [|eassumption]. intros a Ha. rewrite !andb_true_iff. rewrite Hg in *. intros [? ?]. auto using memb_stays.
  - eapply forallb_impl_elem; [|eassumption]. intros q Hx%Hp. rewrite !andb_true_iff. rewrite Hg in *. intros [? ?]. auto using memb_stays.
  - eapply forallb_stays; [|eassumption]. intros a Ha. rewrite Hg in *. auto using memb_stays.
  - eapply forallb_stays; [|eassumption]. intros a Ha. rewrite !andb_true_iff. rewrite Hg in *. intros [[? ?] ?]. auto using memb_stays.
Qed.

(** A statement that keeps the constraints takes effect. *)
Lemma Exec_success f t : tables_ok (f t) = true → Exec false f t = Ok (f t).
Proof. unfold tables_ok, Exec. rewrite !andb_true_iff. by intros [[-> ->] ->]. Qed.

(** *** Replacing the only row with a key *)

Lemma update_where_const_fmap {A K} (same : A → bool) (row : A) (f : A → K) l :
  (∀ x, same x = true → f row = f x) → f <$> update_where same (λ _, row) l = f <$> l.
Proof.
  intros H. unfold update_where. rewrite <- list_fmap_compose. apply list_fmap_ext. intros _ x _. unfold compose.
  destruct (same x) eqn:E; [by apply H|done].
Qed.

Lemma update_where_const_unique {A K} (same : A → bool) (row : A) (f : A → K) l :
  NoDup (f <$> l) → f row ∉ f <$> l → (∀ x y, x ∈ l → y ∈ l → same x = true → same y = true → f x = f y) →
  NoDup (f <$> update_where same (λ _, row) l).
Proof.
  unfold update_where. induction l as [|x l IH]; cbn; [constructor|]. rewrite NoDup_cons, not_elem_of_cons. intros [Hx Hl] [Hr1 Hr2] Hs.
  assert (Hkeep : same x = true → (λ y, if same y then row else y) <$> l = l).
  { intros E. rewrite <- (list_fmap_id l) at 2. apply list_fmap_ext. intros i y Hy%list_elem_of_lookup_2. destruct (same y) eqn:Ey; [|done].
    destruct Hx. rewrite (Hs x y); [by apply list_elem_of_fmap_2|left|by right|done|done]. }
  apply NoDup_cons. destruct (same x) eqn:E.
  - by rewrite Hkeep.
  - split; [|apply IH; [done..|]; intros; apply Hs; by try right].
    intros (y & Hy & (z & Hz & Hin)%list_elem_of_fmap)%list_elem_of_fmap. destruct (same z) eqn:Ez; subst y.
    + by rewrite Hy in Hr1.
    + destruct Hx. rewrite Hy. by apply list_elem_of_fmap_2.
Qed.

(** Setting an optional key of the one row with an id keeps the key unique if no
    other row has the value. *)
Lemma update_where_omap_unique {A I K} `{EqDecision I} (id : A → I) (i : I) (same : A → bool) (f : A → A) (g : A → option K) k l :
  (∀ x, same x = true ↔ id x = i) → (∀ x, g (f x) = Some k) → (∀ x, x ∈ l → g x = Some k → same x = true) →
  NoDup (id <$> l) → NoDup (omap g l) → NoDup (omap g (update_where same f l)).
Proof.
  intros Hsame Hg. unfold update_where. induction l as [|x l IH]; intros Hk Hid Hn; [constructor|].
  apply NoDup_cons in Hid as [Hx Hid].
  assert (Hnl : NoDup (omap g l)) by (cbn in Hn; destruct (g x); [by apply NoDup_cons in Hn as [_ ?]|done]).
  assert (Hkl : ∀ y, y ∈ l → g y = Some k → same y = true) by (intros y Hy; apply Hk; by right).
  cbn. fold (update_where same f l). destruct (same x) eqn:E.
  - rewrite Hg. assert (Hno : ∀ y, y ∈ l → same y = false).
    { intros y Hy. apply not_true_iff_false. intros Hs. apply Hsame in Hs, E. destruct Hx. rewrite E, <- Hs. by apply list_elem_of_fmap_2. }
    assert (update_where same f l = l) as Hl.
    { unfold update_where. rewrite <- (list_fmap_id l) at 2. apply list_fmap_ext. intros j y Hy%list_elem_of_lookup_2. by rewrite Hno. }
    rewrite Hl. apply NoDup_cons. split; [|done]. intros (y & Hy & Hgy)%list_elem_of_omap. specialize (Hkl y Hy Hgy). by rewrite (Hno y Hy) in Hkl.
  - destruct (g x) as [c|] eqn:Hgx; [|by apply IH]. apply NoDup_cons. split; [|by apply IH].
    intros (z & (y & -> & Hy)%list_elem_of_fmap & Hgy)%list_elem_of_omap. cbn in Hn. rewrite Hgx in Hn. apply NoDup_cons in Hn as [Hn _].
    destruct (same y); [|destruct Hn; apply list_elem_of_omap; eauto].
    rewrite Hg in Hgy. injection Hgy as <-. by rewrite (Hk x (list_elem_of_here _ _) Hgx) in E.
Qed.

(** The key is given to the user, unless another user has it. *)
Lemma SetUserNKeyPublic_ok t id key :
  tables_ok t = true → (∀ v, v ∈ users t → u_NKeyPublic v = Some key → u_ID v = id) → tables_ok (SetUserNKeyPublic id key t) = true.
Proof.
  intros Hok Hfree. pose proof Hok as Hids. unfold tables_ok, unique_ok, check_ok, foreign_ok, SetUserNKeyPublic in *.
  set (f := λ v, {| u_ID := u_ID v; u_Email := u_Email v; u_Name := u_Name v; u_PasswordHash := u_PasswordHash v; u_IsAdmin := u_IsAdmin v;
    u_Slug := u_Slug v; u_NKeyPublic := Some key; u_CreatedAt := u_CreatedAt v |}).
  set (same := λ v, String.eqb (u_ID v) id).
  assert (Hproj : ∀ {K} (g : User → K), (∀ v, g (f v) = g v) → g <$> update_where same f (users t) = g <$> users t).
  { intros K g Hg. unfold update_where. change (map ?h ?l) with (h <$> l). rewrite <- list_fmap_compose. apply list_fmap_ext. intros _ v _. cbn. by destruct (same v). }
  cbn [users hosts host_access projects agent_credentials attachments set_users]. rewrite !(Hproj _ u_ID), (Hproj _ u_Email), (Hproj _ u_Slug) by done.
  rewrite !andb_true_iff, !uniqueb_NoDup in *. split_and_all. repeat split; try done.
  apply (update_where_omap_unique u_ID id _ _ _ key); try done.
  - intros x. apply String.eqb_eq.
  - intros x Hx Hkx. by apply String.eqb_eq, Hfree.
Qed.

Lemma upsert_credential_ok id userID hslug pslug key t :
  tables_ok t = true → id ∉ ac_ID <$> agent_credentials t → key ∉ ac_NKeyPublic <$> agent_credentials t → userID ∈ u_ID <$> users t →
  tables_ok (UpsertAgentCredential id userID hslug pslug key t) = true.
Proof.
  intros Hok Hid Hkey Hu. pose proof Hok as Hok'.
  unfold tables_ok, unique_ok, check_ok, foreign_ok, UpsertAgentCredential, upsert in *.
  cbn [users hosts host_access projects agent_credentials set_agent_credentials].
  rewrite !andb_true_iff, !uniqueb_NoDup in *. split_and_all.
  set (same := λ c, String.eqb (ac_UserID c) userID && String.eqb (ac_HostSlug c) hslug && String.eqb (ac_ProjectSlug c) pslug).
  set (row := {| ac_ID := id; ac_UserID := userID; ac_HostSlug := hslug; ac_ProjectSlug := pslug; ac_NKeyPublic := key |}).
  set (triple := λ c, (ac_UserID c, ac_HostSlug c, ac_ProjectSlug c)) in *.
  assert (Hsame : ∀ c, same c = true → triple c = triple row).
  { intros c. unfold same, triple. rewrite !andb_true_iff, !String.eqb_eq. by intros [[-> ->] ->]. }
  assert (Hone : ∀ x y, x ∈ agent_credentials t → y ∈ agent_credentials t → same x = true → same y = true → x = y).
  { intros x y Hx Hy E1%Hsame E2%Hsame. by apply (unique_key triple (agent_credentials t)); [..|congruence]. }
  destruct (existsb same (agent_credentials t)) eqn:E.
  - repeat split; try done.
    + apply update_where_const_unique; [done..|]. intros x y Hx Hy E1 E2. by rewrite (Hone x y).
    + apply update_where_const_unique; [done..|]. intros x y Hx Hy E1 E2. by rewrite (Hone x y).
    + rewrite update_where_const_fmap; [done|]. intros x Hx. symmetry. by apply Hsame.
    + apply forallb_forall. intros x (y & -> & Hy)%list_elem_of_In%list_elem_of_fmap. destruct (same y); [by apply memb_spec|].
      match goal with H : forallb _ (agent_credentials t) = true |- _ => exact (forallb_elem _ _ _ H Hy) end.
  - assert (Hn : triple row ∉ triple <$> agent_credentials t).
    { intros (c & Hc & Hin)%list_elem_of_fmap. assert (existsb same (agent_credentials t) = true); [|congruence].
      apply existsb_exists. exists c. split; [by apply list_elem_of_In|]. unfold triple in Hc. cbn in Hc. injection Hc as E1 E2 E3.
      subst same. cbn beta. by rewrite <- E1, <- E2, <- E3, !String.eqb_refl. }
    assert (Happ : ∀ {K} (f : AgentCredential → K), NoDup (f <$> agent_credentials t) → f row ∉ f <$> agent_credentials t →
      NoDup (f <$> agent_credentials t ++ [row])).
    { intros K f Hf Hr. rewrite fmap_app. apply NoDup_app. split; [done|]. split; [|by apply NoDup_singleton]. intros x Hx ->%list_elem_of_singleton. done. }
    repeat split; try done; [by apply Happ..|]. rewrite forallb_app. apply andb_true_iff. split; [done|]. cbn. rewrite andb_true_r. by apply memb_spec.
Qed.
