(* ===== verification/ControlServer.v ===== *)
(** * The control plane's server state

    The state behind the control plane's handlers (mclaude-control-plane,
    [Server] of auth.go): its configuration, the database, the hosts bucket, the
    account's revocation list, the pending challenges and device codes, and what
    it has sent.  A handler is a function from an environment (the clock, the
    fresh uuids and nonces, which calls fail) and a request to a state
    transformer. *)

From S2P Require Import Prelude GoStrings Slug Subjects Json Permissions ObjectStore Database.
Open Scope Z_scope.

(** ** Environment *)

(** Times are in nanoseconds since the epoch. *)
Definition Second : Z := 1000000000.
Definition Unix (t : Z) : Z := t / Second.

(** [ce_down]: the database call fails, by the name of the call (and its role
    where a handler makes it more than once); [ce_uuid] the uuid a handler draws,
    by its role, [ce_uuidBytes] the one that seeds a fallback slug; [ce_provision]
    the answer of a host to a request on a subject, [None] without one in time;
    [ce_connection] the oauth connections: the owner and base URL of each id;
    [ce_http] the answers of the object store. *)
Record cp_env := {
  ce_now : Z;
  ce_uuid : string → string;
  ce_uuidBytes : list N;
  ce_nonce : option string;
  ce_down : string → bool;
  ce_signErr : bool;
  ce_revokeErr : string → bool;
  ce_kvErr : string → bool;
  ce_provision : string → option string;
  ce_connection : string → option (string * string);
  ce_http : http_client;
}.

(** The dependencies that are optional at run time, and the settings. *)
Record server_config := {
  cf_db : bool; cf_nc : bool; cf_hostsKV : bool; cf_s3Config : option s3Config; cf_revocation : bool;
  cf_jwtExpiry : Z; cf_natsWsURL : string; cf_externalURL : string; cf_accountPub : string;
}.

Definition cf_s3 (c : server_config) : bool := match cf_s3Config c with Some _ => true | None => false end.

(** ** State *)

Record HostKVState := { hk_Slug : string; hk_Type : string; hk_Name : string; hk_Online : bool; hk_LastSeenAt : option Z }.

Record challengeEntry := { ch_NKeyPublic : string; ch_Nonce : string; ch_ExpiresAt : Z; ch_Used : bool }.

Record deviceCodeEntry := {
  dc_UserID : string; dc_PublicKey : string; dc_ExpiresAt : Z; dc_Completed : bool; dc_Slug : string; dc_JWT : option jwt_claims;
}.

(** A pending login of a command line client. *)
Record cliDeviceCodeEntry := {
  cd_UserCode : string; cd_ExpiresAt : Z; cd_Completed : bool; cd_PublicKey : string; cd_UserID : string; cd_UserSlug : string; cd_JWT : option jwt_claims;
}.

Record VerifyResponse := { vr_OK : bool; vr_JWT : option jwt_claims; vr_Error : string; vr_Code : string }.

(** HTTP bodies; a token is represented by its claims. *)
Inductive http_body :=
| HText (msg : string)
| HVerify (v : VerifyResponse)
| HChallenge (nonce : string)
| HHosts (hosts : list Host)
| HHost (id slug name : string) (jwt : jwt_claims)
| HRegistered (slug : string) (jwt : jwt_claims)
| HCode (code : string) (expiresAt : Z)
| HCodeStatus (status slug : string) (jwt : option jwt_claims) (expiresAt : Z)
| HStatus (status : string)
| HProjects (ps : list (Project * string))
| HProject (id slug name gitURL status hostSlug : string)
| HUpload (id url : string)
| HDownload (id filename mimeType : string) (sizeBytes : Z) (url : string)
| HOK
| HLogin (jwt : jwt_claims) (seed : bool) (userID userSlug : string) (expiresAt : Z) (hosts : list Host) (projects : list (Project * string))
| HDeviceCode (deviceCode userCode verificationURL : string)
| HPoll (status : string) (jwt : option jwt_claims) (userSlug : string)
| HRedirect (url : string)
| HRedirectURL (url : string)
| HProviders (entries : list (string * string * string * string))
| HConnection (id providerType displayName username : string)
| HUsers (users : list (string * string * string * string))
| HCluster (slug : string) (jwt : jwt_claims) (accountKey directURL : string)
| HClusters (clusters : list (string * string * option string))
| HScimUsers (users : list (string * string * string))
| HScimUser (id email name : string)
| HScimError (detail : string)
| HRepos (repos : list (string * string * bool * string * string * string)) (nextPage : option Z)
| HDoc (doc : json)
| HEmpty.

Inductive cp_out :=
| Replied (payload : json)
| Published (subject : string) (payload : json)
| Requested (subject : string) (payload : json)
| Responded (status : Z) (body : http_body)
| S3PrefixDeleted (prefix : string)
| S3ObjectDeleted (key : string)
| EnsuredUserResources (uslug : string).

(** [revocations]: the revocation list of the account token, by public key;
    [projectsKV]: the entries of the users' projects buckets, by bucket and key,
    with the project's status. *)
Record Server := {
  config : server_config;
  db : Tables;
  hostsKV : gmap string HostKVState;
  projectsKV : gmap (string * string) (Project * string);
  revocations : gmap string Z;
  challenges : gmap string challengeEntry;
  deviceCodes : gmap string deviceCodeEntry;
  cliCodes : gmap string cliDeviceCodeEntry;
  sent : list cp_out;
}.

Definition set_db v s := {| config := config s; db := v; hostsKV := hostsKV s; projectsKV := projectsKV s; revocations := revocations s; challenges := challenges s; deviceCodes := deviceCodes s; cliCodes := cliCodes s; sent := sent s |}.
Definition set_hostsKV v s := {| config := config s; db := db s; hostsKV := v; projectsKV := projectsKV s; revocations := revocations s; challenges := challenges s; deviceCodes := deviceCodes s; cliCodes := cliCodes s; sent := sent s |}.
Definition set_projectsKV v s := {| config := config s; db := db s; hostsKV := hostsKV s; projectsKV := v; revocations := revocations s; challenges := challenges s; deviceCodes := deviceCodes s; cliCodes := cliCodes s; sent := sent s |}.
Definition set_revocations v s := {| config := config s; db := db s; hostsKV := hostsKV s; projectsKV := projectsKV s; revocations := v; challenges := challenges s; deviceCodes := deviceCodes s; cliCodes := cliCodes s; sent := sent s |}.
Definition set_challenges v s := {| config := config s; db := db s; hostsKV := hostsKV s; projectsKV := projectsKV s; revocations := revocations s; challenges := v; deviceCodes := deviceCodes s; cliCodes := cliCodes s; sent := sent s |}.
Definition set_deviceCodes v s := {| config := config s; db := db s; hostsKV := hostsKV s; projectsKV := projectsKV s; revocations := revocations s; challenges := challenges s; deviceCodes := v; cliCodes := cliCodes s; sent := sent s |}.
Definition set_cliCodes v s := {| config := config s; db := db s; hostsKV := hostsKV s; projectsKV := projectsKV s; revocations := revocations s; challenges := challenges s; deviceCodes := deviceCodes s; cliCodes := v; sent := sent s |}.
Definition send o s := {| config := config s; db := db s; hostsKV := hostsKV s; projectsKV := projectsKV s; revocations := revocations s; challenges := challenges s; deviceCodes := deviceCodes s; cliCodes := cliCodes s; sent := sent s ++ [o] |}.

(** ** Requests and replies *)

(** A NATS message; [nm_Reply]: it has a reply subject. *)
Record nats_msg := { nm_Subject : string; nm_Data : string; nm_Reply : bool }.

Definition respond (msg : nats_msg) (payload : json) (s : Server) : Server :=
  if nm_Reply msg then send (Replied payload) s else s.

Definition replyNATSOK (msg : nats_msg) (s : Server) : Server := respond msg (JObj [("ok", JBool true)]) s.
Definition replyNATSError (msg : nats_msg) (err : string) (s : Server) : Server :=
  respond msg (JObj [("error", JStr err); ("ok", JBool false)]) s.
Definition replyNATSForbidden (msg : nats_msg) (err : string) (s : Server) : Server :=
  respond msg (JObj [("code", JStr "FORBIDDEN"); ("error", JStr err); ("ok", JBool false)]) s.
Definition replyNATSNotFound (msg : nats_msg) (err : string) (s : Server) : Server :=
  respond msg (JObj [("code", JStr "NOT_FOUND"); ("error", JStr err); ("ok", JBool false)]) s.
Definition replyError (msg : nats_msg) (err : string) (s : Server) : Server := respond msg (JObj [("error", JStr err)]) s.

Definition http_error (status : Z) (msg : string) (s : Server) : Server := send (Responded status (HText msg)) s.
Definition http_json (status : Z) (b : http_body) (s : Server) : Server := send (Responded status b) s.

(** A query: a failed one and one without rows are treated alike by most
    callers. *)
Definition lookup_row {A} (down : bool) (q : option A) : option A := if down then None else q.

(** A statement whose error is ignored. *)
Definition exec_ignored (down : bool) (f : Tables → Tables) (s : Server) : Server :=
  match Exec down f (db s) with Ok t => set_db t s | Err _ => s end.

(** ** Revocation *)

(** [revokeNKeyJWT]: every caller ignores its error.  The steps that can fail
    come before the cached account token is replaced. *)
Definition revokeNKeyJWT (e : cp_env) (nkeyPublic : string) (s : Server) : Server :=
  if String.eqb nkeyPublic "" then s
  else if negb (cf_nc (config s)) then s
  else if negb (cf_revocation (config s)) then s
  else if ce_revokeErr e nkeyPublic then s
  else set_revocations (<[nkeyPublic := Unix (ce_now e)]> (revocations s)) s.

Definition revoke_opt (e : cp_env) (nkeyPublic : option string) (s : Server) : Server :=
  match nkeyPublic with Some k => revokeNKeyJWT e k s | None => s end.

Definition revoke_all (e : cp_env) (creds : list AgentCredential) (s : Server) : Server :=
  fold_left (λ s c, revokeNKeyJWT e (ac_NKeyPublic c) s) creds s.

(** [hostsKV.Put]. *)
Definition put_hostKV (e : cp_env) (key : string) (v : HostKVState) (s : Server) : Server :=
  if ce_kvErr e key then s else set_hostsKV (<[key := v]> (hostsKV s)) s.

(** ** Facts *)

(** What a reply leaves alone. *)
Lemma respond_db msg p s : db (respond msg p s) = db s.
Proof. unfold respond. by destruct (nm_Reply msg). Qed.
Lemma respond_revocations msg p s : revocations (respond msg p s) = revocations s.
Proof. unfold respond. by destruct (nm_Reply msg). Qed.
Lemma respond_hostsKV msg p s : hostsKV (respond msg p s) = hostsKV s.
Proof. unfold respond. by destruct (nm_Reply msg). Qed.

Lemma revoke_db e k s : db (revokeNKeyJWT e k s) = db s.
Proof. unfold revokeNKeyJWT. by repeat case_match. Qed.
Lemma revoke_opt_db e k s : db (revoke_opt e k s) = db s.
Proof. destruct k; [apply revoke_db|done]. Qed.
Lemma revoke_all_db e cs s : db (revoke_all e cs s) = db s.
Proof. unfold revoke_all. revert s. induction cs as [|c cs IH]; intros s; cbn; [done|]. by rewrite IH, revoke_db. Qed.

Lemma revoke_hostsKV e k s : hostsKV (revokeNKeyJWT e k s) = hostsKV s.
Proof. unfold revokeNKeyJWT. by repeat case_match. Qed.

#[export] Hint Rewrite respond_db respond_revocations respond_hostsKV revoke_db revoke_opt_db revoke_all_db revoke_hostsKV : server.

(** Reduce a reply to the state it leaves. *)
Ltac replies_away := unfold replyNATSOK, replyNATSError, replyNATSForbidden, replyNATSNotFound; autorewrite with server.

(** Statements whose error is ignored. *)
Lemma exec_ignored_db d f s : db (exec_ignored d f s) = db s ∨ (db (exec_ignored d f s) = f (db s) ∧ tables_ok (db (exec_ignored d f s)) = true).
Proof. unfold exec_ignored. destruct (Exec d f (db s)) as [t|] eqn:E; [|by left]. right. by apply Exec_Ok in E as [-> ?]. Qed.

Lemma exec_ignored_ok d f s : d = false → tables_ok (f (db s)) = true → exec_ignored d f s = set_db (f (db s)) s.
Proof. intros -> H. unfold exec_ignored. by rewrite Exec_success. Qed.

(** Name the state after a statement whose error is ignored. *)
Ltac name_exec s s' H :=
  match goal with |- context [exec_ignored ?d ?f s] =>
    pose proof (exec_ignored_db d f s) as H; set (s' := exec_ignored d f s) in *; clearbody s' end.
