(* ===== verification/Challenge.v ===== *)
(** * Challenge-response authentication (mclaude-control-plane/challenge.go)

    A client proves possession of a registered key by signing a nonce, and is
    issued a token for the identity that the key is registered to. *)

From S2P Require Import Prelude GoStrings Base64 Slug Subjects Json Permissions Database ControlServer.
Open Scope Z_scope.

(** The nkeys library: whether a text is a public key, and Ed25519 verification. *)
Class NKeys := {
  valid_public_key : string → bool;
  nkey_verify : string → string → string → bool;
}.

Section challenge.
Context `{PG : Postgres, JS : JsonStream, NK : NKeys}.

Definition VerifyNKeySignature (publicKey challenge signature : string) : option string :=
  if negb (valid_public_key publicKey) then Some "invalid public key"%string
  else if negb (nkey_verify publicKey challenge signature) then Some "signature verification failed"%string
  else None.

Record ChallengeRequest := { cr_NKeyPublic : string }.
Definition ChallengeRequest_fields : list (field ChallengeRequest) :=
  [ fld "nkey_public" dec_string cr_NKeyPublic (λ v _, {| cr_NKeyPublic := v |}) ].

Record VerifyRequest := { vq_NKeyPublic : string; vq_Challenge : string; vq_Signature : string }.
Definition VerifyRequest_fields : list (field VerifyRequest) :=
  [ fld "nkey_public" dec_string vq_NKeyPublic (λ v r, {| vq_NKeyPublic := v; vq_Challenge := vq_Challenge r; vq_Signature := vq_Signature r |});
    fld "challenge" dec_string vq_Challenge (λ v r, {| vq_NKeyPublic := vq_NKeyPublic r; vq_Challenge := v; vq_Signature := vq_Signature r |});
    fld "signature" dec_string vq_Signature (λ v r, {| vq_NKeyPublic := vq_NKeyPublic r; vq_Challenge := vq_Challenge r; vq_Signature := v |}) ].

Definition zero_VerifyRequest : VerifyRequest := {| vq_NKeyPublic := ""; vq_Challenge := ""; vq_Signature := "" |}.

(** ** Registered keys *)

Definition isNKeyRegistered (e : cp_env) (nkeyPublic : string) (s : Server) : bool :=
  if negb (cf_db (config s)) then false
  else
    match lookup_row (ce_down e "GetUserByNKeyPublic") (GetUserByNKeyPublic nkeyPublic (db s)) with
    | Some _ => true
    | None =>
      match lookup_row (ce_down e "GetHostByPublicKey") (GetHostByPublicKey nkeyPublic (db s)) with
      | Some _ => true
      | None =>
        match lookup_row (ce_down e "GetAgentCredentialByNKeyPublic") (GetAgentCredentialByNKeyPublic nkeyPublic (db s)) with
        | Some _ => true
        | None => false
        end
      end
    end.

(** ** Step 1: the challenge *)

Definition challengeTTL : Z := 30 * Second.

Definition verify_error (msg code : string) : http_body :=
  HVerify {| vr_OK := false; vr_JWT := None; vr_Error := msg; vr_Code := code |}.

(** The pending challenges without those of the key, and the new one. *)
Definition store_challenge (now : Z) (nkeyPublic nonce : string) (m : gmap string challengeEntry) : gmap string challengeEntry :=
  <[base64_encode nonce := {| ch_NKeyPublic := nkeyPublic; ch_Nonce := nonce; ch_ExpiresAt := now + challengeTTL; ch_Used := false |}]>
    (filter (λ kv : string * challengeEntry, ch_NKeyPublic kv.2 ≠ nkeyPublic) m).

Definition handleAuthChallenge (e : cp_env) (method body : string) (s : Server) : Server :=
  if negb (String.eqb method "POST") then http_error 405 "method not allowed" s
  else
    match decode_body (dec_struct ChallengeRequest_fields) {| cr_NKeyPublic := "" |} body with
    | None => http_error 400 "invalid request body" s
    | Some req =>
      let key := cr_NKeyPublic req in
      if String.eqb key "" then http_error 400 "nkey_public is required" s
      else if negb (cf_db (config s)) then http_error 503 "service unavailable" s
      else if negb (isNKeyRegistered e key s) then http_json 404 (verify_error "unknown public key" "NOT_FOUND") s
      else
        match ce_nonce e with
        | None => http_error 500 "failed to generate challenge" s
        | Some nonce =>
          http_json 200 (HChallenge (base64_encode nonce)) (set_challenges (store_challenge (ce_now e) key nonce (challenges s)) s)
        end
    end.

(** ** Step 2: the token *)

Definition isHostRevoked (hostID : string) (s : Server) : bool := false.

Definition ensureUserResources (uslug : string) (s : Server) : Server :=
  if cf_nc (config s) then send (EnsuredUserResources uslug) s else s.

Definition authError : Type := string * string.

(** The identity is looked up among the users, the hosts, the agents. *)
Definition issueJWTForNKey (e : cp_env) (nkeyPublic : string) (s : Server) : result authError jwt_claims * Server :=
  let expirySecs := cf_jwtExpiry (config s) in
  let now := Unix (ce_now e) in
  match lookup_row (ce_down e "GetUserByNKeyPublic") (GetUserByNKeyPublic nkeyPublic (db s)) with
  | Some user =>
    let hostSlugs := if ce_down e "GetHostAccessSlugs" then [] else GetHostAccessSlugs (u_ID user) (db s) in
    match IssueUserJWT (ce_signErr e) now nkeyPublic (u_ID user) (u_Slug user) hostSlugs expirySecs with
    | None => (Err ("failed to issue user jwt", "INTERNAL_ERROR")%string, s)
    | Some jwt => (Ok jwt, ensureUserResources (u_Slug user) s)
    end
  | None =>
    match lookup_row (ce_down e "GetHostByPublicKey") (GetHostByPublicKey nkeyPublic (db s)) with
    | Some host =>
      if isHostRevoked (h_ID host) s then (Err ("host credential revoked", "FORBIDDEN")%string, s)
      else
        match IssueHostJWT (ce_signErr e) now nkeyPublic (h_Slug host) with
        | None => (Err ("failed to issue host jwt", "INTERNAL_ERROR")%string, s)
        | Some jwt => (Ok jwt, exec_ignored (ce_down e "UpdateHostNatsJWT") (UpdateHostNatsJWT (h_ID host) jwt) s)
        end
    | None =>
      match lookup_row (ce_down e "GetAgentCredentialByNKeyPublic") (GetAgentCredentialByNKeyPublic nkeyPublic (db s)) with
      | Some cred =>
        match lookup_row (ce_down e "GetUserByID") (GetUserByID (ac_UserID cred) (db s)) with
        | None => (Err ("agent user not found", "NOT_FOUND")%string, s)
        | Some user =>
          match IssueSessionAgentJWT (ce_signErr e) now nkeyPublic (u_Slug user) (ac_HostSlug cred) (ac_ProjectSlug cred) with
          | None => (Err ("failed to issue agent jwt", "INTERNAL_ERROR")%string, s)
          | Some jwt => (Ok jwt, s)
          end
        end
      | None => (Err ("unknown public key", "NOT_FOUND")%string, s)
      end
    end
  end.

(** The first verification marks the entry as used; [Used] is not looked at
    afterwards. *)
Definition mark_used (challenge nkeyPublic : string) (m : gmap string challengeEntry) : gmap string challengeEntry :=
  match m !! challenge with
  | Some entry =>
    if negb (ch_Used entry) && String.eqb (ch_NKeyPublic entry) nkeyPublic
    then <[challenge := {| ch_NKeyPublic := ch_NKeyPublic entry; ch_Nonce := ch_Nonce entry; ch_ExpiresAt := ch_ExpiresAt entry; ch_Used := true |}]> m
    else m
  | None => m
  end.

Definition handleAuthVerify (e : cp_env) (method body : string) (s : Server) : Server :=
  if negb (String.eqb method "POST") then http_error 405 "method not allowed" s
  else
    match decode_body (dec_struct VerifyRequest_fields) zero_VerifyRequest body with
    | None => http_error 400 "invalid request body" s
    | Some req =>
      if String.eqb (vq_NKeyPublic req) "" || String.eqb (vq_Challenge req) "" || String.eqb (vq_Signature req) ""
      then http_error 400 "nkey_public, challenge, and signature are required" s
      else
        match base64_decode (vq_Challenge req) with
        | None => http_json 400 (verify_error "invalid challenge encoding" "INVALID_CHALLENGE") s
        | Some nonce =>
          match base64_decode (vq_Signature req) with
          | None => http_json 400 (verify_error "invalid signature encoding" "INVALID_SIGNATURE") s
          | Some sig =>
            let s := set_challenges (mark_used (vq_Challenge req) (vq_NKeyPublic req) (challenges s)) s in
            match challenges s !! vq_Challenge req with
            | None => http_json 401 (verify_error "challenge not found" "NOT_FOUND") s
            | Some entry =>
              if negb (String.eqb (ch_NKeyPublic entry) (vq_NKeyPublic req))
              then http_json 401 (verify_error "challenge not found" "NOT_FOUND") s
              else if ch_ExpiresAt entry <? ce_now e
              then http_json 401 (verify_error "challenge expired" "EXPIRED") s
              else
                match VerifyNKeySignature (vq_NKeyPublic req) nonce sig with
                | Some _ => http_json 401 (verify_error "invalid signature" "UNAUTHORIZED") s
                | None =>
                  if negb (cf_db (config s)) then http_error 503 "service unavailable" s
                  else
                    match issueJWTForNKey e (vq_NKeyPublic req) s with
                    | (Err (msg, code), s) => http_json 403 (verify_error msg code) s
                    | (Ok jwt, s) => http_json 200 (HVerify {| vr_OK := true; vr_JWT := Some jwt; vr_Error := ""; vr_Code := "" |}) s
                    end
                end
            end
          end
        end
    end.

(** [cleanupExpiredChallenges]. *)
Definition cleanupExpiredChallenges (e : cp_env) (s : Server) : Server :=
  set_challenges (filter (λ kv : string * challengeEntry, (ch_ExpiresAt kv.2 <? ce_now e) = false ∧ ch_Used kv.2 = false) (challenges s)) s.

End challenge.
