(* ===== verification/ControlDemo.v ===== *)
(** * A small control plane for the examples

    Two users, two hosts, an access grant, two projects and an agent credential,
    with toy instances of the libraries the server calls. *)

From S2P Require Import Prelude GoStrings Base64 Slug Subjects Json Permissions ObjectStore Database ControlServer Challenge.
Open Scope Z_scope.

Definition demo_pg : Postgres.
Proof.
  refine {| first_row A l := head l |}.
  - intros A [|y l] x; [done|]. intros [= <-]. left.
  - by intros A [|y l].
Defined.

(** A signature is the key followed by the message. *)
Definition demo_nkeys : NKeys := {| valid_public_key k := true; nkey_verify k m s := String.eqb s (k +:+ m) |}.

Definition alice : User := {| u_ID := "id-alice"; u_Email := "alice@example.com"; u_Name := "Alice"; u_PasswordHash := ""; u_IsAdmin := false;
  u_Slug := "alice"; u_NKeyPublic := Some "UALICE"%string; u_CreatedAt := 1 |}.
Definition bob : User := {| u_ID := "id-bob"; u_Email := "bob@example.com"; u_Name := "Bob"; u_PasswordHash := "hash of secret"; u_IsAdmin := false;
  u_Slug := "bob"; u_NKeyPublic := Some "UBOB"%string; u_CreatedAt := 2 |}.

Definition mk_host (id user slug : string) (key : option string) (at_ : Z) : Host :=
  {| h_ID := id; h_UserID := user; h_Slug := slug; h_Name := slug; h_Type := "machine"; h_Role := "owner"; h_DirectNATSURL := None; h_PublicKey := key;
     h_UserJWT := None; h_NatsJWT := None; h_CreatedAt := at_; h_LastSeenAt := None |}.
Definition laptop : Host := mk_host "host-1" "id-alice" "laptop" (Some "HLAPTOP"%string) 3.
Definition alice_local : Host := mk_host "host-2" "id-alice" "local" None 1.
Definition bob_local : Host := mk_host "host-3" "id-bob" "local" None 2.

Definition mk_project (id user slug host : string) : Project :=
  {| p_ID := id; p_UserID := user; p_Name := slug; p_Slug := slug; p_GitURL := ""; p_Status := "active"; p_HostID := host;
     p_GitIdentityID := None; p_ImportRef := None; p_CreatedAt := 5 |}.

Definition tables : Tables := {|
  users := [alice; bob];
  hosts := [laptop; alice_local; bob_local];
  host_access := [("host-1", "id-bob")];
  projects := [mk_project "proj-1" "id-alice" "web" "host-1"; mk_project "proj-2" "id-bob" "api" "host-1"];
  agent_credentials := [{| ac_ID := "cred-1"; ac_UserID := "id-bob"; ac_HostSlug := "laptop"; ac_ProjectSlug := "api"; ac_NKeyPublic := "AAPI" |}];
  attachments := [{| at_ID := "att-1"; at_S3Key := "bob/laptop/api/attachments/att-1"; at_Filename := "a.png"; at_MimeType := "image/png"; at_SizeBytes := 7;
    at_UserID := "id-bob"; at_HostID := "host-1"; at_ProjectID := "proj-2"; at_Confirmed := true; at_CreatedAt := 6 |}];
|}.

Example tables_are_ok : tables_ok tables = true.
Proof. vm_compute. reflexivity. Qed.

Definition store : s3Config := {| s3_Endpoint := "http://minio:9000"; s3_Bucket := "mclaude"; s3_AccessID := "AKID"; s3_AccessSig := "secret"; s3_Region := "us-east-1" |}.

Definition settings : server_config :=
  {| cf_db := true; cf_nc := true; cf_hostsKV := true; cf_s3Config := Some store; cf_revocation := true; cf_jwtExpiry := 28800; cf_natsWsURL := ""; cf_externalURL := ""; cf_accountPub := "ACCOUNT" |}.

Definition server : Server := {| config := settings; db := tables;
  hostsKV := {[ "laptop"%string := {| hk_Slug := "laptop"; hk_Type := "machine"; hk_Name := "laptop"; hk_Online := true; hk_LastSeenAt := None |} ]};
  projectsKV := ∅; revocations := ∅; challenges := ∅; deviceCodes := ∅; cliCodes := ∅; sent := [] |}.

(** Everything succeeds, at a given second. *)
Definition env_at (t : Z) : cp_env := {| ce_now := t * Second; ce_uuid r := "uuid-" +:+ r; ce_uuidBytes := []; ce_nonce := Some "n0nce"%string;
  ce_down c := false; ce_signErr := false; ce_revokeErr k := false; ce_kvErr k := false; ce_provision s := None; ce_connection i := None;
  ce_http m u h := Some (200, ""%string) |}.

Lemma env_at_no_failures t : (∀ call, ce_down (env_at t) call = false) ∧ ce_signErr (env_at t) = false.
Proof. done. Qed.

(** Bodies and payloads are looked up in a table of documents. *)
Definition documents : list (string * json) := [
  ("challenge alice", JObj [("nkey_public", JStr "UALICE")]);
  ("verify alice", JObj [("nkey_public", JStr "UALICE"); ("challenge", JStr (base64_encode "n0nce")); ("signature", JStr (base64_encode "UALICEn0nce"))]);
  ("bob", JObj [("userSlug", JStr "bob")]);
  ("register web", JObj [("user_slug", JStr "alice"); ("project_slug", JStr "web"); ("nkey_public", JStr "AWEB")]);
  ("rekey", JObj [("nkeyPublic", JStr "HNEW")]);
  ("register host", JObj [("name", JStr "Laptop"); ("nkey_public", JStr "HBOB")]);
  ("create laptop", JObj [("slug", JStr "laptop"); ("name", JStr "Laptop"); ("publicKey", JStr "HEVE")]);
  ("create star", JObj [("slug", JStr "*"); ("name", JStr "Star"); ("publicKey", JStr "HEVE")]);
  ("new project", JObj [("name", JStr "Shop")]);
  ("register shop", JObj [("user_slug", JStr "bob"); ("project_slug", JStr "shop"); ("nkey_public", JStr "ASHOP")]);
  ("upload", JObj [("filename", JStr "a.png"); ("mimeType", JStr "image/png"); ("sizeBytes", JInt 7)]);
  ("download att-1", JObj [("id", JStr "att-1")]);
  ("import shop", JObj [("importId", JStr "imp-1"); ("name", JStr "My Shop")]);
  ("login bob", JObj [("email", JStr "bob@example.com"); ("password", JStr "secret"); ("nkey_public", JStr "HLAPTOP")]);
  ("login bob old", JObj [("email", JStr "bob@example.com"); ("password", JStr "secret")]);
  ("poll", JObj [("deviceCode", JStr "uuid-device code")]);
  ("device", JObj [("publicKey", JStr "UCLI")]);
  ("slug web", JObj [("slug", JStr "web")])
].

Definition demo_text : JsonText := table_json documents.
Definition demo_stream : JsonStream := {| json_first s := snd <$> find_first (λ kv, String.eqb kv.1 s) documents |}.
Definition demo_tables : UnicodeTables := ascii_tables.
Definition demo_norm : Normalizer := ascii_norm.

Definition msg (subject data : string) : nats_msg := {| nm_Subject := subject; nm_Data := data; nm_Reply := true |}.

Definition demo_urls : UrlParser := {| url_host s := Some "minio:9000"%string; url_hostname s := None |}.
