(* ===== verification/ChallengeSpec.v ===== *)
(** * What challenge-response authentication guarantees

    Soundness and completeness of the two steps, over every sequence of
    requests, and the reuse of a nonce. *)

From S2P Require Import Prelude GoStrings Base64 Slug Subjects Json Permissions Database ControlServer Challenge ControlDemo.
Open Scope Z_scope.

(** ** Vocabulary *)

(** What a handler sent. *)
Definition replies (s s' : Server) : list cp_out := drop (length (sent s)) (sent s').

Lemma replies_send s o s' : sent s' = sent s ++ [o] → replies s s' = [o].
Proof. intros H. unfold replies. by rewrite H, drop_app_length. Qed.

Definition accepted_with (s s' : Server) (jwt : jwt_claims) : Prop :=
  Responded 200 (HVerify {| vr_OK := true; vr_JWT := Some jwt; vr_Error := ""; vr_Code := "" |}) ∈ replies s s'.

(** The tokens that the holder of a key may get: those of the row the key is
    registered in. *)
Inductive entitled (t : Tables) (key : string) : NATSPermissions → Prop :=
| entitled_user u hs : u ∈ users t → u_NKeyPublic u = Some key → entitled t key (UserSubjectPermissions (u_Slug u) hs)
| entitled_host h : h ∈ hosts t → h_PublicKey h = Some key → entitled t key (HostSubjectPermissions (h_Slug h))
| entitled_agent c u : c ∈ agent_credentials t → ac_NKeyPublic c = key → u ∈ users t → u_ID u = ac_UserID c →
    entitled t key (SessionAgentSubjectPermissions (u_Slug u) (ac_HostSlug c) (ac_ProjectSlug c)).

(** The key is in one of the three tables. *)
Definition registered (t : Tables) (key : string) : Prop :=
  (∃ u, u ∈ users t ∧ u_NKeyPublic u = Some key) ∨ (∃ h, h ∈ hosts t ∧ h_PublicKey h = Some key) ∨
  (∃ c, c ∈ agent_credentials t ∧ ac_NKeyPublic c = key).

(** No call fails. *)
Definition no_failures (e : cp_env) : Prop := (∀ call, ce_down e call = false) ∧ ce_signErr e = false.

(** A pending challenge is stored under its encoded nonce. *)
Definition challenges_ok (s : Server) : Prop := ∀ k c, challenges s !! k = Some c → k = base64_encode (ch_Nonce c).

(** A key has at most one pending challenge. *)
Definition one_per_key (s : Server) : Prop :=
  ∀ k1 k2 c1 c2, challenges s !! k1 = Some c1 → challenges s !! k2 = Some c2 → ch_NKeyPublic c1 = ch_NKeyPublic c2 → k1 = k2.

Section spec.
Context `{PG : Postgres, JS : JsonStream, NK : NKeys}.

(** The server between two authentication requests may do anything that leaves
    the pending challenges alone. *)
Inductive auth_step : Server → Server → Prop :=
| step_challenge e m b s : auth_step s (handleAuthChallenge e m b s)
| step_verify e m b s : auth_step s (handleAuthVerify e m b s)
| step_cleanup e s : auth_step s (cleanupExpiredChallenges e s)
| step_other s s' : challenges s' = challenges s → auth_step s s'.

(** ** Queries *)

Lemma first_row_select {A} (p : A → bool) l x : first_row (select p l) = Some x → x ∈ l ∧ p x = true.
Proof. intros H. apply first_row_in in H. by apply select_elem. Qed.

Lemma first_row_exists {A} (p : A → bool) l x : x ∈ l → p x = true → ∃ y, first_row (select p l) = Some y.
Proof.
  intros Hx Hp. destruct (first_row (select p l)) as [y|] eqn:E; [eauto|]. apply first_row_none in E.
  assert (x ∈ select p l) by (by apply select_elem). rewrite E in H. by apply elem_of_nil in H.
Qed.

Lemma opt_eqb_spec c x : opt_eqb c x = true ↔ c = Some x.
Proof. destruct c; cbn; [|done]. rewrite String.eqb_eq. naive_solver. Qed.

Lemma lookup_row_Some {A} down (q : option A) x : lookup_row down q = Some x → q = Some x.
Proof. by destruct down. Qed.

(** Without failures the registration test is exact. *)
Lemma isNKeyRegistered_sound e key s : isNKeyRegistered e key s = true → registered (db s) key.
Proof.
  unfold isNKeyRegistered, registered. destruct (cf_db (config s)); [|done]. cbn.
  destruct (lookup_row _ (GetUserByNKeyPublic key (db s))) as [u|] eqn:E1.
  { apply lookup_row_Some, first_row_select in E1 as [? ?%opt_eqb_spec]. eauto. }
  destruct (lookup_row _ (GetHostByPublicKey key (db s))) as [h|] eqn:E2.
  { apply lookup_row_Some, first_row_select in E2 as [? ?%opt_eqb_spec]. eauto. }
  destruct (lookup_row _ (GetAgentCredentialByNKeyPublic key (db s))) as [c|] eqn:E3; [|done].
  apply lookup_row_Some, first_row_select in E3 as [? ?%String.eqb_eq]. eauto.
Qed.

(** ** Issuing *)

Lemma issued_claims e now key name secs perms jwt :
  issueJWT e now key name secs perms = Some jwt →
  jc_PublicKey jwt = key ∧ jc_IssuedAt jwt = now ∧ jc_Perms jwt = perms ∧ jc_Expires jwt = (if 0 <? secs then Some (now + secs) else None).
Proof. unfold issueJWT. destruct e; [done|]. intros [= <-]. done. Qed.

Lemma issue_sound e key s jwt s' :
  issueJWTForNKey e key s = (Ok jwt, s') →
  jc_PublicKey jwt = key ∧ jc_IssuedAt jwt = Unix (ce_now e) ∧ entitled (db s) key (jc_Perms jwt).
Proof.
  unfold issueJWTForNKey.
  destruct (lookup_row _ (GetUserByNKeyPublic key (db s))) as [u|] eqn:E1.
  { apply lookup_row_Some, first_row_select in E1 as [Hu Hk%opt_eqb_spec].
    destruct (IssueUserJWT _ _ _ _ _ _ _) as [j|] eqn:Ej; intros [= <- _]. apply issued_claims in Ej as (-> & -> & -> & _). eauto using entitled. }
  destruct (lookup_row _ (GetHostByPublicKey key (db s))) as [h|] eqn:E2.
  { apply lookup_row_Some, first_row_select in E2 as [Hh Hk%opt_eqb_spec]. cbn [isHostRevoked].
    destruct (IssueHostJWT _ _ _ _) as [j|] eqn:Ej; intros [= <- _]. apply issued_claims in Ej as (-> & -> & -> & _). eauto using entitled. }
  destruct (lookup_row _ (GetAgentCredentialByNKeyPublic key (db s))) as [c|] eqn:E3; [|done].
  apply lookup_row_Some, first_row_select in E3 as [Hc Hk%String.eqb_eq].
  destruct (lookup_row _ (GetUserByID (ac_UserID c) (db s))) as [u|] eqn:E4; [|done].
  apply lookup_row_Some, first_row_select in E4 as [Hu Hid%String.eqb_eq].
  destruct (IssueSessionAgentJWT _ _ _ _ _ _) as [j|] eqn:Ej; intros [= <- _]. apply issued_claims in Ej as (-> & -> & -> & _). eauto using entitled.
Qed.

(** A registered key is issued a token when nothing fails. *)
Lemma issue_complete e key s :
  no_failures e → tables_ok (db s) = true → registered (db s) key → ∃ jwt s', issueJWTForNKey e key s = (Ok jwt, s').
Proof.
  intros [Hd Hs] Hok Hr. unfold issueJWTForNKey, lookup_row, IssueUserJWT, IssueHostJWT, IssueSessionAgentJWT, issueJWT.
  rewrite !Hd, Hs. destruct (GetUserByNKeyPublic key (db s)) as [u|] eqn:E1; [eauto|].
  destruct (GetHostByPublicKey key (db s)) as [h|] eqn:E2; [cbn; eauto|].
  destruct (GetAgentCredentialByNKeyPublic key (db s)) as [c|] eqn:E3.
  - apply first_row_select in E3 as [Hc _].
    unfold tables_ok in Hok. apply andb_true_iff in Hok as [_ Hf]. unfold foreign_ok in Hf. rewrite !andb_true_iff in Hf. destruct Hf as [[_ Hf] _].
    pose proof (forallb_elem _ _ _ Hf Hc) as Hm. cbn in Hm. apply memb_spec, list_elem_of_fmap in Hm as (u & Hu & Hin).
    destruct (first_row_exists (λ u, String.eqb (u_ID u) (ac_UserID c)) (users (db s)) u) as [u' E4]; [done|by apply String.eqb_eq|].
    unfold GetUserByID. rewrite E4. eauto.
  - exfalso. destruct Hr as [(u & Hu & Hk)|[(h & Hh & Hk)|(c & Hc & Hk)]].
    + apply (first_row_exists (λ u, opt_eqb (u_NKeyPublic u) key)) in Hu as [? E]; [|by apply opt_eqb_spec].
      unfold GetUserByNKeyPublic in E1. by rewrite E in E1.
    + apply (first_row_exists (λ h, opt_eqb (h_PublicKey h) key)) in Hh as [? E]; [|by apply opt_eqb_spec].
      unfold GetHostByPublicKey in E2. by rewrite E in E2.
    + apply (first_row_exists (λ c, String.eqb (ac_NKeyPublic c) key)) in Hc as [? E]; [|by apply String.eqb_eq].
      unfold GetAgentCredentialByNKeyPublic in E3. by rewrite E in E3.
Qed.

Lemma exec_ignored_sent d f s : sent (exec_ignored d f s) = sent s.
Proof. unfold exec_ignored. by destruct (Exec d f (db s)). Qed.
Lemma exec_ignored_challenges d f s : challenges (exec_ignored d f s) = challenges s.
Proof. unfold exec_ignored. by destruct (Exec d f (db s)). Qed.

Lemma issue_sent e key s r s' :
  issueJWTForNKey e key s = (r, s') →
  challenges s' = challenges s ∧ config s' = config s ∧ ∃ outs, sent s' = sent s ++ outs ∧ ∀ st b, Responded st b ∉ outs.
Proof.
  assert (Hnil : ∀ s : Server, ∃ outs, sent s = sent s ++ outs ∧ ∀ st b, Responded st b ∉ outs).
  { intros s0. exists []. rewrite app_nil_r. split; [done|]. intros st b. apply not_elem_of_nil. }
  assert (He : ∀ d f s0, config (exec_ignored d f s0) = config s0) by (intros d f s0; unfold exec_ignored; by destruct (Exec d f (db s0))).
  unfold issueJWTForNKey. cbn [isHostRevoked]. repeat case_match; intros [= <- <-];
    rewrite ?exec_ignored_challenges, ?exec_ignored_sent, ?He; try (by eauto).
  all: unfold ensureUserResources; destruct (cf_nc (config s)); [|by eauto]; split; [done|]; split; [done|];
    eexists; split; [done|]; intros st b Hin; by apply list_elem_of_singleton in Hin.
Qed.

(** ** Verification *)

(** The conditions of an accepted verification. *)
Record verifies (e : cp_env) (body : string) (s : Server) (req : VerifyRequest) (nonce sig : string) (c : challengeEntry) : Prop := {
  vf_body : decode_body (dec_struct VerifyRequest_fields) zero_VerifyRequest body = Some req;
  vf_given : String.eqb (vq_NKeyPublic req) "" || String.eqb (vq_Challenge req) "" || String.eqb (vq_Signature req) "" = false;
  vf_nonce : base64_decode (vq_Challenge req) = Some nonce;
  vf_sig : base64_decode (vq_Signature req) = Some sig;
  vf_entry : challenges s !! vq_Challenge req = Some c;
  vf_key : ch_NKeyPublic c = vq_NKeyPublic req;
  vf_live : ce_now e ≤ ch_ExpiresAt c;
  vf_valid : VerifyNKeySignature (vq_NKeyPublic req) nonce sig = None;
  vf_db : cf_db (config s) = true;
}.

(** Marking an entry as used keeps its key, nonce and expiry. *)
Lemma mark_used_lookup k key m x :
  mark_used k key m !! x = (λ c, if negb (ch_Used c) && String.eqb (ch_NKeyPublic c) key && bool_decide (x = k)
    then {| ch_NKeyPublic := ch_NKeyPublic c; ch_Nonce := ch_Nonce c; ch_ExpiresAt := ch_ExpiresAt c; ch_Used := true |} else c) <$> m !! x.
Proof.
  unfold mark_used. destruct (decide (x = k)) as [->|Hx].
  - destruct (m !! k) as [c|] eqn:E; cbn; [|by rewrite E]. rewrite bool_decide_true, andb_true_r by done.
    destruct (negb (ch_Used c) && String.eqb (ch_NKeyPublic c) key); [by rewrite lookup_insert_eq|by rewrite E].
  - destruct (m !! k) as [c|]; [destruct (_ && _)|]; rewrite ?lookup_insert_ne by done;
      destruct (m !! x); cbn; rewrite ?bool_decide_false by done; by rewrite ?andb_false_r.
Qed.

Lemma mark_used_entry k key m c :
  m !! k = Some c → ∃ c', mark_used k key m !! k = Some c' ∧ ch_NKeyPublic c' = ch_NKeyPublic c ∧
    ch_Nonce c' = ch_Nonce c ∧ ch_ExpiresAt c' = ch_ExpiresAt c.
Proof. intros H. rewrite mark_used_lookup, H. cbn. eexists; split; [done|]. by destruct (_ && _). Qed.

Definition marked (req : VerifyRequest) (s : Server) : Server :=
  set_challenges (mark_used (vq_Challenge req) (vq_NKeyPublic req) (challenges s)) s.

Lemma verify_accepts e body s req nonce sig c jwt s' :
  verifies e body s req nonce sig c → issueJWTForNKey e (vq_NKeyPublic req) (marked req s) = (Ok jwt, s') →
  handleAuthVerify e "POST" body s = http_json 200 (HVerify {| vr_OK := true; vr_JWT := Some jwt; vr_Error := ""; vr_Code := "" |}) s'.
Proof.
  intros [Hb Hg Hn Hs Hc Hk Hl Hv Hd] Hi. unfold handleAuthVerify. rewrite Hb, Hg, Hn, Hs. cbn [String.eqb negb].
  change (negb (String.eqb "POST" "POST")) with false. cbv zeta. fold (marked req s).
  destruct (mark_used_entry _ (vq_NKeyPublic req) _ _ Hc) as (c' & Hc' & Hk' & _ & He').
  unfold marked at 1. cbn [challenges set_challenges]. rewrite Hc', Hk', Hk, String.eqb_refl. cbn [negb].
  rewrite He'. destruct (Z.ltb_spec (ch_ExpiresAt c) (ce_now e)); [lia|]. rewrite Hv.
  change (config (marked req s)) with (config s). rewrite Hd. cbn [negb]. by rewrite Hi.
Qed.

Lemma verify_inv e m body s jwt :
  accepted_with s (handleAuthVerify e m body s) jwt →
  m = "POST"%string ∧ ∃ req nonce sig c s', verifies e body s req nonce sig c ∧ issueJWTForNKey e (vq_NKeyPublic req) (marked req s) = (Ok jwt, s') ∧
    handleAuthVerify e m body s = http_json 200 (HVerify {| vr_OK := true; vr_JWT := Some jwt; vr_Error := ""; vr_Code := "" |}) s'.
Proof.
  unfold accepted_with, handleAuthVerify.
  assert (Hone : ∀ s' o r, sent s' = sent s → r ∈ replies s (send o s') → r = o).
  { intros s' o r Hs Hr. rewrite (replies_send s o) in Hr; [|cbn; by rewrite Hs]. by apply list_elem_of_singleton in Hr. }
  unfold http_error, http_json.
  destruct (String.eqb m "POST") eqn:Hm; cbn [negb]; [|intros H; by apply Hone in H].
  apply String.eqb_eq in Hm as ->.
  destruct (decode_body _ _ _) as [req|] eqn:Hb; [|intros H; by apply Hone in H].
  destruct (_ || _ || _) eqn:Hg; [intros H; by apply Hone in H|].
  destruct (base64_decode (vq_Challenge req)) as [nonce|] eqn:Hn; [|intros H; by apply Hone in H].
  destruct (base64_decode (vq_Signature req)) as [sig|] eqn:Hs; [|intros H; by apply Hone in H].
  cbv zeta. fold (marked req s).
  destruct (challenges (marked req s) !! vq_Challenge req) as [c'|] eqn:Hc; [|intros H; by apply Hone in H].
  destruct (String.eqb (ch_NKeyPublic c') (vq_NKeyPublic req)) eqn:Hk; cbn [negb]; [|intros H; by apply Hone in H].
  destruct (ch_ExpiresAt c' <? ce_now e) eqn:Hl; [intros H; by apply Hone in H|].
  destruct (VerifyNKeySignature _ nonce sig) as [|] eqn:Hv; [intros H; by apply Hone in H|].
  destruct (cf_db (config (marked req s))) eqn:Hd; cbn [negb]; [|intros H; by apply Hone in H].
  destruct (issueJWTForNKey e (vq_NKeyPublic req) (marked req s)) as [[jwt'|[msg code]] s'] eqn:Hi;
    pose proof (issue_sent _ _ _ _ _ Hi) as (_ & _ & outs & Ho & Hno); intros H; unfold replies in H;
    change (sent (marked req s)) with (sent s) in Ho; cbn [sent send] in H; rewrite Ho, <- app_assoc, drop_app_length, elem_of_app in H;
    (destruct H as [H|H]; [by apply Hno in H|]); apply list_elem_of_singleton in H; injection H as H; [|done].
  split; [done|]. unfold marked in Hc. cbn [challenges set_challenges] in Hc. rewrite mark_used_lookup in Hc.
  destruct (challenges s !! vq_Challenge req) as [c|] eqn:Hc0; [|done]. cbn in Hc. injection Hc as Hc.
  assert (Hsame : ch_NKeyPublic c' = ch_NKeyPublic c ∧ ch_ExpiresAt c' = ch_ExpiresAt c) by (rewrite <- Hc; by destruct (_ && _)).
  destruct Hsame as [Hk1 He1]. exists req, nonce, sig, c, s'. subst jwt'. split; [|done].
  apply String.eqb_eq in Hk. apply Z.ltb_ge in Hl. split; try done; congruence.
Qed.

(** ** Invariants *)

Lemma verify_challenges e m b s :
  challenges (handleAuthVerify e m b s) = challenges s ∨
  ∃ k key, challenges (handleAuthVerify e m b s) = mark_used k key (challenges s).
Proof.
  unfold handleAuthVerify, http_error, http_json. destruct (negb _); [by left|].
  destruct (decode_body _ _ _) as [req|]; [|by left]. destruct (_ || _ || _); [by left|].
  destruct (base64_decode (vq_Challenge req)) as [nonce|]; [|by left]. destruct (base64_decode (vq_Signature req)) as [sig|]; [|by left].
  cbv zeta. fold (marked req s). right. exists (vq_Challenge req), (vq_NKeyPublic req).
  destruct (challenges (marked req s) !! _); [|done]. destruct (negb _); [done|]. destruct (_ <? _); [done|].
  destruct (VerifyNKeySignature _ _ _); [done|]. destruct (negb _); [done|].
  destruct (issueJWTForNKey _ _ _) as [[jwt|[msg code]] s'] eqn:Hi; by apply issue_sent in Hi as (Hc & _ & _).
Qed.

Lemma challenge_challenges e m b s :
  challenges (handleAuthChallenge e m b s) = challenges s ∨
  ∃ key nonce, challenges (handleAuthChallenge e m b s) = store_challenge (ce_now e) key nonce (challenges s).
Proof.
  unfold handleAuthChallenge, http_error, http_json. destruct (negb _); [by left|].
  destruct (decode_body _ _ _) as [req|]; [|by left]. cbv zeta. destruct (String.eqb _ ""); [by left|].
  destruct (negb _); [by left|]. destruct (negb _); [by left|]. destruct (ce_nonce e); [|by left]. right. by eexists _, _.
Qed.

Lemma store_challenge_lookup now key nonce m k c :
  store_challenge now key nonce m !! k = Some c →
  (k = base64_encode nonce ∧ ch_Nonce c = nonce ∧ ch_NKeyPublic c = key) ∨ (m !! k = Some c ∧ ch_NKeyPublic c ≠ key).
Proof.
  unfold store_challenge. destruct (decide (base64_encode nonce = k)) as [<-|Hk].
  - rewrite lookup_insert_eq. intros [= <-]. by left.
  - rewrite lookup_insert_ne by done. rewrite map_lookup_filter_Some. auto.
Qed.

Definition auth_inv (s : Server) : Prop := challenges_ok s ∧ one_per_key s.

Lemma auth_inv_marked k key s s' : challenges s' = mark_used k key (challenges s) → auth_inv s → auth_inv s'.
Proof.
  intros Hs [Hok Hone]. unfold auth_inv, challenges_ok, one_per_key in *. rewrite Hs.
  assert (Hb : ∀ x c', mark_used k key (challenges s) !! x = Some c' →
    ∃ c, challenges s !! x = Some c ∧ ch_Nonce c' = ch_Nonce c ∧ ch_NKeyPublic c' = ch_NKeyPublic c).
  { intros x c'. rewrite mark_used_lookup. destruct (challenges s !! x) as [c|]; [|done]. intros [= <-]. exists c.
    split; [done|]. by destruct (_ && _). }
  split.
  - intros x c' (c & Hc & -> & _)%Hb. by apply Hok.
  - intros k1 k2 c1 c2 (d1 & H1 & _ & ->)%Hb (d2 & H2 & _ & ->)%Hb. by eapply Hone.
Qed.

Lemma auth_inv_step s s' : auth_inv s → auth_step s s' → auth_inv s'.
Proof.
  intros Hi Hst. revert Hi. destruct Hst as [e m b s0|e m b s0|e s0|s0 s0' Hs]; intros Hi;
    [| | |by unfold auth_inv, challenges_ok, one_per_key in *; rewrite Hs].
  - destruct (challenge_challenges e m b s0) as [Hs|(key & nonce & Hs)]; unfold auth_inv, challenges_ok, one_per_key in *; rewrite Hs; [done|].
    destruct Hi as [Hok Hone]. split.
    + intros k c [(-> & <- & _)|[H _]]%store_challenge_lookup; [done|by apply Hok].
    + intros k1 k2 c1 c2 [(-> & _ & Hk1)|[H1 Hk1]]%store_challenge_lookup [(-> & _ & Hk2)|[H2 Hk2]]%store_challenge_lookup He;
        [done|congruence|congruence|by eapply Hone].
  - destruct (verify_challenges e m b s0) as [Hs|(k & key & Hs)]; [|by eapply auth_inv_marked].
    unfold auth_inv, challenges_ok, one_per_key in *. by rewrite Hs.
  - destruct Hi as [Hok Hone]. split; unfold challenges_ok, one_per_key, cleanupExpiredChallenges in *; cbn [challenges set_challenges].
    + intros k c [H _]%map_lookup_filter_Some. by apply Hok.
    + intros k1 k2 c1 c2 [H1 _]%map_lookup_filter_Some [H2 _]%map_lookup_filter_Some. by eapply Hone.
Qed.

Lemma auth_inv_reachable s0 s : challenges s0 = ∅ → rtc auth_step s0 s → auth_inv s.
Proof.
  intros H0 Hr. apply (rtc_invariant auth_step auth_inv auth_inv_step s0 s); [|done].
  split; unfold challenges_ok, one_per_key; rewrite H0; intros ?; intros; by rewrite lookup_empty in *.
Qed.

(** ** Theorems *)

(** C3. Soundness: whatever requests were made before, a verification that answers
    with a token was given a signature, by the key it names, of a nonce that was
    issued to this key and has not expired; the token is for this key, issued
    now, and carries the permissions of the row the key is registered in. *)
Theorem verify_sound s0 s e m body jwt :
  challenges s0 = ∅ → rtc auth_step s0 s → accepted_with s (handleAuthVerify e m body s) jwt →
  ∃ nonce sig c, challenges s !! base64_encode nonce = Some c ∧ ch_Nonce c = nonce ∧ ch_NKeyPublic c = jc_PublicKey jwt ∧
    ce_now e ≤ ch_ExpiresAt c ∧ nkey_verify (jc_PublicKey jwt) nonce sig = true ∧
    jc_IssuedAt jwt = Unix (ce_now e) ∧ entitled (db s) (jc_PublicKey jwt) (jc_Perms jwt).
Proof.
  intros H0 Hr (-> & req & nonce & sig & c & s' & [Hb Hg Hn Hs Hc Hk Hl Hv Hd] & Hi & _)%verify_inv.
  apply issue_sound in Hi as (Hkey & Hat & He). pose proof (auth_inv_reachable _ _ H0 Hr) as [Hok _].
  pose proof (Hok _ _ Hc) as Hq. rewrite Hq, base64_roundtrip in Hn. injection Hn as <-. rewrite Hkey in *.
  exists (ch_Nonce c), sig, c. rewrite <- Hq. unfold VerifyNKeySignature in Hv.
  destruct (valid_public_key _); [|done]. cbn in Hv. destruct (nkey_verify _ _ _); [|done]. done.
Qed.

(** Completeness: the client that asks for a challenge with a registered key and
    returns a valid signature of the nonce within thirty seconds gets a token,
    whatever the server has done in between to other challenges. *)
Theorem challenge_verify_completes e1 e2 s body1 body2 key nonce s2 sig :
  let s1 := handleAuthChallenge e1 "POST" body1 s in
  decode_body (dec_struct ChallengeRequest_fields) {| cr_NKeyPublic := "" |} body1 = Some {| cr_NKeyPublic := key |} →
  key ≠ ""%string → cf_db (config s) = true → isNKeyRegistered e1 key s = true → ce_nonce e1 = Some nonce → nonce ≠ ""%string →
  challenges s2 !! base64_encode nonce = challenges s1 !! base64_encode nonce →
  no_failures e2 → cf_db (config s2) = true → tables_ok (db s2) = true → registered (db s2) key →
  ce_now e2 ≤ ce_now e1 + challengeTTL →
  sig ≠ ""%string → VerifyNKeySignature key nonce sig = None →
  decode_body (dec_struct VerifyRequest_fields) zero_VerifyRequest body2 =
    Some {| vq_NKeyPublic := key; vq_Challenge := base64_encode nonce; vq_Signature := base64_encode sig |} →
  Responded 200 (HChallenge (base64_encode nonce)) ∈ replies s s1 ∧ ∃ jwt, accepted_with s2 (handleAuthVerify e2 "POST" body2 s2) jwt.
Proof.
  intros s1 Hb1 Hkey Hdb Hreg Hn Hne Hsame Hnf Hdb2 Hok Hreg2 Ht Hsig Hv Hb2.
  assert (Hs1 : s1 = http_json 200 (HChallenge (base64_encode nonce)) (set_challenges (store_challenge (ce_now e1) key nonce (challenges s)) s)).
  { unfold s1, handleAuthChallenge. rewrite Hb1. cbn [cr_NKeyPublic]. cbv zeta. apply String.eqb_neq in Hkey.
    rewrite Hkey, Hdb, Hreg, Hn. done. }
  split.
  { rewrite Hs1, (replies_send s (Responded 200 (HChallenge (base64_encode nonce)))) by done. apply list_elem_of_singleton. done. }
  rewrite Hs1 in Hsame. cbn [challenges http_json send set_challenges] in Hsame. unfold store_challenge in Hsame.
  rewrite lookup_insert_eq in Hsame.
  set (req := {| vq_NKeyPublic := key; vq_Challenge := base64_encode nonce; vq_Signature := base64_encode sig |}).
  assert (Hvf : verifies e2 body2 s2 req nonce sig {| ch_NKeyPublic := key; ch_Nonce := nonce; ch_ExpiresAt := ce_now e1 + challengeTTL; ch_Used := false |}).
  { split; cbn [vq_NKeyPublic vq_Challenge vq_Signature ch_NKeyPublic ch_ExpiresAt req]; try done; try apply base64_roundtrip.
    apply String.eqb_neq in Hkey. rewrite Hkey, !base64_encode_nonempty by done. done. }
  destruct (issue_complete e2 key (marked req s2)) as (jwt & s' & Hi); [done..|].
  exists jwt. unfold accepted_with. rewrite (verify_accepts _ _ _ _ _ _ _ _ _ Hvf Hi).
  destruct (issue_sent _ _ _ _ _ Hi) as (_ & _ & outs & Ho & _). change (sent (marked req s2)) with (sent s2) in Ho.
  unfold replies. cbn [sent send http_json]. rewrite Ho, <- app_assoc, drop_app_length. apply elem_of_app. right. by apply list_elem_of_singleton.
Qed.

(** A nonce is not single-use: the same verification request is accepted again,
    with a new token, until the challenge expires. *)
Theorem nonce_replayed e1 e2 s body jwt req c :
  let s1 := handleAuthVerify e1 "POST" body s in
  accepted_with s s1 jwt →
  decode_body (dec_struct VerifyRequest_fields) zero_VerifyRequest body = Some req →
  challenges s !! vq_Challenge req = Some c →
  no_failures e2 → tables_ok (db s1) = true → registered (db s1) (vq_NKeyPublic req) →
  ce_now e2 ≤ ch_ExpiresAt c →
  ∃ jwt2, accepted_with s1 (handleAuthVerify e2 "POST" body s1) jwt2 ∧ jc_PublicKey jwt2 = jc_PublicKey jwt ∧
    jc_IssuedAt jwt2 = Unix (ce_now e2).
Proof.
  intros s1 (_ & req' & nonce & sig & c' & s' & [Hb Hg Hn Hs Hc Hk Hl Hv Hd] & Hi & Heq)%verify_inv Hb' Hc' Hnf Hok Hreg Ht.
  rewrite Hb in Hb'. injection Hb' as <-. rewrite Hc in Hc'. injection Hc' as <-.
  pose proof (issue_sound _ _ _ _ _ Hi) as (Hkey & _ & _). pose proof (issue_sent _ _ _ _ _ Hi) as (Hch & Hcf & outs & Ho & _).
  assert (Hs1 : challenges s1 = mark_used (vq_Challenge req') (vq_NKeyPublic req') (challenges s) ∧ cf_db (config s1) = true).
  { unfold s1. rewrite Heq. cbn [http_json send challenges config]. rewrite Hch, Hcf. done. }
  destruct Hs1 as [Hs1 Hd1]. destruct (mark_used_entry _ (vq_NKeyPublic req') _ _ Hc) as (c2 & Hc2 & Hk2 & _ & He2).
  assert (Hvf : verifies e2 body s1 req' nonce sig c2) by (split; rewrite ?Hs1; try done; congruence || lia).
  destruct (issue_complete e2 (vq_NKeyPublic req') (marked req' s1)) as (jwt2 & s2 & Hi2); [done..|].
  pose proof (issue_sound _ _ _ _ _ Hi2) as (Hkey2 & Hat2 & _). pose proof (issue_sent _ _ _ _ _ Hi2) as (_ & _ & outs2 & Ho2 & _).
  exists jwt2. split; [|by rewrite Hkey, Hkey2]. unfold accepted_with. rewrite (verify_accepts _ _ _ _ _ _ _ _ _ Hvf Hi2).
  change (sent (marked req' s1)) with (sent s1) in Ho2.
  unfold replies. cbn [sent send http_json]. rewrite Ho2, <- app_assoc, drop_app_length. apply elem_of_app. right. by apply list_elem_of_singleton.
Qed.

(** A key has at most one pending challenge: asking for a new one withdraws the
    one before. *)
Theorem one_challenge_per_key s0 s : challenges s0 = ∅ → rtc auth_step s0 s → one_per_key s.
Proof. intros H0 Hr. by apply (auth_inv_reachable s0). Qed.

End spec.

(** ** Examples *)

#[local] Existing Instances demo_pg demo_nkeys demo_text demo_stream demo_tables demo_norm.

Lemma elem_of_by_index {A} (l : list A) (i : nat) x : l !! i = Some x → x ∈ l.
Proof. apply list_elem_of_lookup_2. Qed.

Module Demo.
Definition asked : Server := handleAuthChallenge (env_at 100) "POST" "challenge alice" server.
Definition verified : Server := handleAuthVerify (env_at 110) "POST" "verify alice" asked.
Definition token (at_ : Z) : jwt_claims := {| jc_PublicKey := "UALICE"; jc_Name := "id-alice"; jc_Expires := Some (at_ + 28800); jc_IssuedAt := at_;
  jc_Perms := UserSubjectPermissions "alice" ["laptop"; "local"]%string |}.
Definition request : VerifyRequest := {| vq_NKeyPublic := "UALICE"; vq_Challenge := base64_encode "n0nce"; vq_Signature := base64_encode "UALICEn0nce" |}.
Definition pending (used : bool) : challengeEntry := {| ch_NKeyPublic := "UALICE"; ch_Nonce := "n0nce"; ch_ExpiresAt := 130 * Second; ch_Used := used |}.
End Demo.

Lemma verify_sound_witness : ∃ nonce sig c, challenges Demo.asked !! base64_encode nonce = Some c ∧ ch_Nonce c = nonce ∧
  ch_NKeyPublic c = "UALICE"%string ∧ 110 * Second ≤ ch_ExpiresAt c ∧ nkey_verify "UALICE" nonce sig = true ∧
  jc_IssuedAt (Demo.token 110) = 110 ∧ entitled tables "UALICE" (jc_Perms (Demo.token 110)).
Proof.
  apply (verify_sound server Demo.asked (env_at 110) "POST" "verify alice" (Demo.token 110)).
  - reflexivity.
  - apply rtc_once, step_challenge.
  - apply (elem_of_by_index _ 1%nat). vm_compute. reflexivity.
Defined.

Lemma challenge_verify_completes_witness :
  Responded 200 (HChallenge (base64_encode "n0nce")) ∈ replies server Demo.asked ∧ ∃ jwt, accepted_with Demo.asked Demo.verified jwt.
Proof.
  apply (challenge_verify_completes (env_at 100) (env_at 110) server "challenge alice" "verify alice" "UALICE" "n0nce" Demo.asked "UALICEn0nce");
    try (vm_compute; reflexivity); try done.
  - left. exists alice. split; [left|reflexivity].
Defined.

Lemma nonce_replayed_witness :
  ∃ jwt2, accepted_with Demo.verified (handleAuthVerify (env_at 120) "POST" "verify alice" Demo.verified) jwt2 ∧
    jc_PublicKey jwt2 = "UALICE"%string ∧ jc_IssuedAt jwt2 = 120.
Proof.
  apply (nonce_replayed (env_at 110) (env_at 120) Demo.asked "verify alice" (Demo.token 110) Demo.request (Demo.pending false));
    try (vm_compute; reflexivity); try done.
  - apply (elem_of_by_index _ 1%nat). vm_compute. reflexivity.
  - left. exists alice. split; [left|reflexivity].
Defined.

Lemma one_challenge_per_key_witness :
  one_per_key (handleAuthChallenge (env_at 120) "POST" "challenge alice" Demo.asked).
Proof.
  apply (one_challenge_per_key server).
  - reflexivity.
  - eapply rtc_l; [apply (step_challenge (env_at 100) "POST" "challenge alice")|]. apply rtc_once, step_challenge.
Defined.
