(* ===== verification/HostLifecycle.v ===== *)
(** * Host lifecycle over NATS (mclaude-control-plane/lifecycle.go)

    The registration of session agents and of hosts, and the management requests
    of a host's owner: grant and revocation of access, deregistration, emergency
    revocation, rotation of the host's key, renaming; and the availability check
    of project slugs.  The import and attachment handlers are in Attachments.v. *)

From S2P Require Import Prelude GoStrings Slug Subjects Json Permissions Database ControlServer.
Open Scope Z_scope.

(** The [i]-th token of a subject. *)
Definition part (i : nat) (parts : list string) : string := nth i parts "".

Section lifecycle.
Context `{PG : Postgres, JT : JsonText, UT : UnicodeTables, NO : Normalizer}.

(** ** Agent registration *)

Record AgentRegisterRequest := { ar_UserSlug : string; ar_ProjectSlug : string; ar_NKeyPublic : string }.
Definition AgentRegisterRequest_fields : list (field AgentRegisterRequest) :=
  [ fld "user_slug" dec_string ar_UserSlug (λ v r, {| ar_UserSlug := v; ar_ProjectSlug := ar_ProjectSlug r; ar_NKeyPublic := ar_NKeyPublic r |});
    fld "project_slug" dec_string ar_ProjectSlug (λ v r, {| ar_UserSlug := ar_UserSlug r; ar_ProjectSlug := v; ar_NKeyPublic := ar_NKeyPublic r |});
    fld "nkey_public" dec_string ar_NKeyPublic (λ v r, {| ar_UserSlug := ar_UserSlug r; ar_ProjectSlug := ar_ProjectSlug r; ar_NKeyPublic := v |}) ].

Definition handleAgentRegister (e : cp_env) (msg : nats_msg) (s : Server) : Server :=
  if negb (cf_db (config s)) then replyNATSError msg "service unavailable" s
  else
    let parts := Split "."%char (nm_Subject msg) in
    if (length parts <? 5)%nat then replyNATSError msg "malformed subject" s
    else
      let hslug := part 2 parts in
      match unmarshal (dec_struct AgentRegisterRequest_fields) {| ar_UserSlug := ""; ar_ProjectSlug := ""; ar_NKeyPublic := "" |} (nm_Data msg) with
      | None => replyNATSError msg "invalid request body" s
      | Some req =>
        if String.eqb (ar_UserSlug req) "" || String.eqb (ar_ProjectSlug req) "" || String.eqb (ar_NKeyPublic req) ""
        then replyNATSError msg "user_slug, project_slug, and nkey_public are required" s
        else
          match lookup_row (ce_down e "GetUserBySlug") (GetUserBySlug (ar_UserSlug req) (db s)) with
          | None => replyNATSError msg "user not found" s
          | Some user =>
            if ce_down e "GetHostAccessSlugs" then replyNATSError msg "internal error" s
            else if negb (existsb (λ h, String.eqb h hslug) (GetHostAccessSlugs (u_ID user) (db s)))
            then replyNATSForbidden msg "user does not have access to host" s
            else
              match lookup_row (ce_down e "GetProjectByUserAndSlug") (GetProjectByUserAndSlug (u_ID user) (ar_ProjectSlug req) (db s)) with
              | None => replyNATSError msg "project not found" s
              | Some (proj, projHostSlug) =>
                if negb (String.eqb projHostSlug hslug) then replyNATSNotFound msg "project not assigned to host" s
                else
                  match Exec (ce_down e "UpsertAgentCredential")
                          (UpsertAgentCredential (ce_uuid e "credential") (u_ID user) hslug (ar_ProjectSlug req) (ar_NKeyPublic req)) (db s) with
                  | Err _ => replyNATSError msg "failed to store agent credential" s
                  | Ok t => replyNATSOK msg (set_db t s)
                  end
              end
          end
      end.

(** ** Host registration *)

Record NATSHostRegisterRequest := { hr_Name : string; hr_Type : string; hr_NKeyPublic : string }.
Definition NATSHostRegisterRequest_fields : list (field NATSHostRegisterRequest) :=
  [ fld "name" dec_string hr_Name (λ v r, {| hr_Name := v; hr_Type := hr_Type r; hr_NKeyPublic := hr_NKeyPublic r |});
    fld "type" dec_string hr_Type (λ v r, {| hr_Name := hr_Name r; hr_Type := v; hr_NKeyPublic := hr_NKeyPublic r |});
    fld "nkey_public" dec_string hr_NKeyPublic (λ v r, {| hr_Name := hr_Name r; hr_Type := hr_Type r; hr_NKeyPublic := v |}) ].

(** The slug of a registered host: the first eight characters of a uuid when the
    name has no usable character. *)
Definition registered_slug (e : cp_env) (name : string) : string :=
  let hslug := slugify (ce_uuidBytes e) name in
  if String.eqb hslug "" then ("host-" +:+ take_str 8 (ce_uuid e "slug"))%string else hslug.

Definition handleNATSHostRegister (e : cp_env) (msg : nats_msg) (s : Server) : Server :=
  if negb (cf_db (config s)) then replyNATSError msg "service unavailable" s
  else
    let parts := Split "."%char (nm_Subject msg) in
    if (length parts <? 5)%nat then replyNATSError msg "malformed subject" s
    else
      let uslug := part 2 parts in
      match unmarshal (dec_struct NATSHostRegisterRequest_fields) {| hr_Name := ""; hr_Type := ""; hr_NKeyPublic := "" |} (nm_Data msg) with
      | None => replyNATSError msg "invalid request body" s
      | Some req =>
        if String.eqb (hr_Name req) "" || String.eqb (hr_NKeyPublic req) "" then replyNATSError msg "name and nkey_public are required" s
        else
          let type := if String.eqb (hr_Type req) "" then "machine"%string else hr_Type req in
          match lookup_row (ce_down e "GetUserBySlug") (GetUserBySlug uslug (db s)) with
          | None => replyNATSError msg "user not found" s
          | Some user =>
            let hslug := registered_slug e (hr_Name req) in
            let h := {| h_ID := ce_uuid e "host"; h_UserID := u_ID user; h_Slug := hslug; h_Name := hr_Name req; h_Type := type; h_Role := "owner";
                        h_DirectNATSURL := None; h_PublicKey := Some (hr_NKeyPublic req); h_UserJWT := None; h_NatsJWT := None; h_CreatedAt := ce_now e; h_LastSeenAt := None |} in
            match ExecUpsertHost (ce_down e "InsertHost") h (λ g, with_key (hr_NKeyPublic req) (with_name (hr_Name req) g)) (db s) with
            | Err _ => replyNATSError msg "failed to create host" s
            | Ok t => respond msg (JObj [("ok", JBool true); ("slug", JStr hslug)]) (set_db t s)
            end
          end
      end.

(** ** Management requests *)

(** The payload of grant and revoke-access; [None]: the request is rejected. *)
Definition userSlug_request (data : string) : option string :=
  match unmarshal (dec_struct [ ("userSlug", dec_string) ]) ""%string data with
  | Some u => if String.eqb u "" then None else Some u
  | None => None
  end.

(** The requester and the host of a management request, in the order in which the
    handlers look them up; [who] is the name the first error has. *)
Definition manage_parties (e : cp_env) (who uslug hslug : string) (s : Server) : result string (User * Host) :=
  match lookup_row (ce_down e "GetUserBySlug") (GetUserBySlug uslug (db s)) with
  | None => Err (who +:+ " not found")%string
  | Some u =>
    match lookup_row (ce_down e "GetHostBySlug") (GetHostBySlug hslug (db s)) with
    | None => Err "host not found"%string
    | Some h => Ok (u, h)
    end
  end.

Definition owns (u : User) (h : Host) : bool := String.eqb (h_UserID h) (u_ID u).

Definition handleManageGrant (e : cp_env) (msg : nats_msg) (s : Server) : Server :=
  if negb (cf_db (config s)) then replyNATSError msg "service unavailable" s
  else
    let '(uslug, hslug) := parseManageSubject (nm_Subject msg) in
    if String.eqb uslug "" || String.eqb hslug "" then replyNATSError msg "malformed subject" s
    else
      match userSlug_request (nm_Data msg) with
      | None => replyNATSError msg "userSlug is required" s
      | Some granteeSlug =>
        match manage_parties e "owner" uslug hslug s with
        | Err err => replyNATSError msg err s
        | Ok (owner, host) =>
          if negb (owns owner host) then replyNATSForbidden msg "only the host owner can grant access" s
          else
            match lookup_row (ce_down e "GetUserBySlug(grantee)") (GetUserBySlug granteeSlug (db s)) with
            | None => replyNATSError msg "grantee user not found" s
            | Some grantee =>
              match Exec (ce_down e "GrantHostAccess") (GrantHostAccess (h_ID host) (u_ID grantee)) (db s) with
              | Err _ => replyNATSError msg "failed to grant access" s
              | Ok t => replyNATSOK msg (revoke_opt e (u_NKeyPublic grantee) (set_db t s))
              end
            end
        end
      end.

Definition handleManageRevokeAccess (e : cp_env) (msg : nats_msg) (s : Server) : Server :=
  if negb (cf_db (config s)) then replyNATSError msg "service unavailable" s
  else
    let '(uslug, hslug) := parseManageSubject (nm_Subject msg) in
    if String.eqb uslug "" || String.eqb hslug "" then replyNATSError msg "malformed subject" s
    else
      match userSlug_request (nm_Data msg) with
      | None => replyNATSError msg "userSlug is required" s
      | Some granteeSlug =>
        match manage_parties e "owner" uslug hslug s with
        | Err err => replyNATSError msg err s
        | Ok (owner, host) =>
          if negb (owns owner host) then replyNATSForbidden msg "only the host owner can revoke access" s
          else
            match lookup_row (ce_down e "GetUserBySlug(grantee)") (GetUserBySlug granteeSlug (db s)) with
            | None => replyNATSError msg "grantee user not found" s
            | Some grantee =>
              match Exec (ce_down e "RevokeHostAccess") (RevokeHostAccess (h_ID host) (u_ID grantee)) (db s) with
              | Err _ => replyNATSError msg "failed to revoke access" s
              | Ok t =>
                let s := set_db t s in
                let creds := if ce_down e "GetAgentCredentialsByHostUser" then [] else GetAgentCredentialsByHostUser hslug (u_ID grantee) (db s) in
                replyNATSOK msg (revoke_opt e (u_NKeyPublic grantee) (revoke_all e creds s))
              end
            end
        end
      end.

(** *** Deregistration *)

(** [publishProjectsDeleteToHost]. *)
Definition publishProjectsDeleteToHost (userSlug hostSlug projectSlug projectID : string) (s : Server) : Server :=
  if negb (cf_nc (config s)) || String.eqb userSlug "" || String.eqb hostSlug "" then s
  else
    let subject := if negb (String.eqb projectSlug "") then HostUserProjectsDelete hostSlug userSlug projectSlug
                   else ("mclaude.users." +:+ userSlug +:+ ".hosts." +:+ hostSlug +:+ ".api.projects.delete")%string in
    send (Published subject (JObj [("event", JStr "deleted"); ("projectId", JStr projectID); ("projectSlug", JStr projectSlug)])) s.

(** The notification of a project's deletion and the removal of its objects. *)
Definition drain_project (userSlug hslug : string) (s : Server) (p : Project * string) : Server :=
  let s := publishProjectsDeleteToHost userSlug hslug (p_Slug p.1) (p_ID p.1) s in
  if cf_s3 (config s) && negb (String.eqb (p_Slug p.1) "")
  then send (S3PrefixDeleted (userSlug +:+ "/" +:+ hslug +:+ "/" +:+ p_Slug p.1 +:+ "/")%string) s else s.

Definition drain_host (e : cp_env) (host : Host) (hslug : string) (s : Server) : Server :=
  let projs := if ce_down e "GetProjectsByHostSlug" then [] else GetProjectsByHostSlug (h_UserID host) hslug (db s) in
  match lookup_row (ce_down e "GetUserByID") (GetUserByID (h_UserID host) (db s)) with
  | None => s
  | Some owner => fold_left (drain_project (u_Slug owner) hslug) projs s
  end.

Definition revoke_host (e : cp_env) (host : Host) (hslug : string) (s : Server) : Server :=
  let s := revoke_opt e (h_PublicKey host) s in
  revoke_all e (if ce_down e "GetAgentCredentialsByHost" then [] else GetAgentCredentialsByHost hslug (db s)) s.

Definition handleManageDeregister (e : cp_env) (msg : nats_msg) (s : Server) : Server :=
  if negb (cf_db (config s)) then replyNATSError msg "service unavailable" s
  else
    let '(uslug, hslug) := parseManageSubject (nm_Subject msg) in
    if String.eqb uslug "" || String.eqb hslug "" then replyNATSError msg "malformed subject" s
    else
      match manage_parties e "user" uslug hslug s with
      | Err err => replyNATSError msg err s
      | Ok (requester, host) =>
        if negb (owns requester host) && negb (u_IsAdmin requester)
        then replyNATSForbidden msg "only the host owner or platform operator can deregister" s
        else
          let s := drain_host e host hslug s in
          let s := revoke_host e host hslug s in
          let s := exec_ignored (ce_down e "DeleteAgentCredentialsByHost") (DeleteAgentCredentialsByHost hslug) s in
          let s := exec_ignored (ce_down e "DeleteHost") (delete_hosts (λ h, String.eqb (h_ID h) (h_ID host))) s in
          let s := if cf_hostsKV (config s) && negb (ce_kvErr e hslug) then set_hostsKV (delete hslug (hostsKV s)) s else s in
          replyNATSOK msg s
      end.

(** *** Emergency revocation *)

Definition offline (v : HostKVState) : HostKVState :=
  {| hk_Slug := hk_Slug v; hk_Type := hk_Type v; hk_Name := hk_Name v; hk_Online := false; hk_LastSeenAt := hk_LastSeenAt v |}.

Definition blank_host (hslug : string) : HostKVState :=
  {| hk_Slug := hslug; hk_Type := ""; hk_Name := ""; hk_Online := false; hk_LastSeenAt := None |}.

Definition handleManageRevoke (e : cp_env) (msg : nats_msg) (s : Server) : Server :=
  if negb (cf_db (config s)) then replyNATSError msg "service unavailable" s
  else
    let '(uslug, hslug) := parseManageSubject (nm_Subject msg) in
    if String.eqb uslug "" || String.eqb hslug "" then replyNATSError msg "malformed subject" s
    else
      match manage_parties e "user" uslug hslug s with
      | Err err => replyNATSError msg err s
      | Ok (requester, host) =>
        if negb (owns requester host) && negb (u_IsAdmin requester)
        then replyNATSForbidden msg "only the host owner or platform operator can revoke" s
        else
          let s := revoke_host e host hslug s in
          let s := if cf_hostsKV (config s)
                   then put_hostKV e hslug (offline (default (blank_host hslug) (hostsKV s !! hslug))) s else s in
          replyNATSOK msg s
      end.

(** *** Key rotation *)

Definition nkeyPublic_request (data : string) : option string :=
  match unmarshal (dec_struct [ ("nkeyPublic", dec_string) ]) ""%string data with
  | Some k => if String.eqb k "" then None else Some k
  | None => None
  end.

Definition handleManageRekey (e : cp_env) (msg : nats_msg) (s : Server) : Server :=
  if negb (cf_db (config s)) then replyNATSError msg "service unavailable" s
  else
    let '(uslug, hslug) := parseManageSubject (nm_Subject msg) in
    if String.eqb uslug "" || String.eqb hslug "" then replyNATSError msg "malformed subject" s
    else
      match nkeyPublic_request (nm_Data msg) with
      | None => replyNATSError msg "nkeyPublic is required" s
      | Some key =>
        match manage_parties e "user" uslug hslug s with
        | Err err => replyNATSError msg err s
        | Ok (requester, host) =>
          if negb (owns requester host) then replyNATSForbidden msg "only the host owner can rekey" s
          else
            let s := revoke_opt e (h_PublicKey host) s in
            match Exec (ce_down e "RegisterHostNKeyPublic") (RegisterHostNKeyPublic (h_ID host) key) (db s) with
            | Err _ => replyNATSError msg "failed to update host key" s
            | Ok t => replyNATSOK msg (set_db t s)
            end
        end
      end.

(** *** Renaming: the type of the request is checked for presence only. *)

Definition ManageUpdateRequest_fields : list (field (string * string)) :=
  [ fld "name" dec_string fst (λ v r, (v, r.2)); fld "type" dec_string snd (λ v r, (r.1, v)) ].

Definition renamed (name : string) (v : HostKVState) : HostKVState :=
  {| hk_Slug := hk_Slug v; hk_Type := hk_Type v; hk_Name := name; hk_Online := hk_Online v; hk_LastSeenAt := hk_LastSeenAt v |}.

Definition handleManageUpdate (e : cp_env) (msg : nats_msg) (s : Server) : Server :=
  if negb (cf_db (config s)) then replyNATSError msg "service unavailable" s
  else
    let '(uslug, hslug) := parseManageSubject (nm_Subject msg) in
    if String.eqb uslug "" || String.eqb hslug "" then replyNATSError msg "malformed subject" s
    else
      match unmarshal (dec_struct ManageUpdateRequest_fields) ("", "")%string (nm_Data msg) with
      | None => replyNATSError msg "invalid request body" s
      | Some (name, type) =>
        if String.eqb name "" && String.eqb type "" then replyNATSError msg "name or type is required" s
        else
          match manage_parties e "user" uslug hslug s with
          | Err err => replyNATSError msg err s
          | Ok (owner, host) =>
            if negb (owns owner host) && negb (u_IsAdmin owner)
            then replyNATSForbidden msg "only the host owner can update host" s
            else if String.eqb name "" then replyNATSOK msg s
            else
              let s := exec_ignored (ce_down e "UpdateHostName")
                         (λ t, set_hosts (update_where (λ h, String.eqb (h_ID h) (h_ID host)) (with_name name) (hosts t)) t) s in
              let s := if cf_hostsKV (config s) then
                         match hostsKV s !! hslug with Some v => put_hostKV e hslug (renamed name v) s | None => s end
                       else s in
              replyNATSOK msg s
          end
      end.

(** ** Slug availability *)

Definition slug_count (userID pslug : string) (t : Tables) : nat :=
  length (select (λ p, String.eqb (p_UserID p) userID && String.eqb (p_Slug p) pslug) (projects t)).

Definition candidate (slug : string) (i : nat) : string := (slug +:+ "-" +:+ pretty.pretty i)%string.

(** The first free candidate of [slug-2] .. [slug-99]; [slug-2] when none is. *)
Definition suggestion (e : cp_env) (userID slug : string) (t : Tables) : string :=
  match find_first (λ i, negb (ce_down e ("Count " +:+ candidate slug i)) && (slug_count userID (candidate slug i) t =? 0)%nat) (seq 2 98) with
  | Some i => candidate slug i
  | None => (slug +:+ "-2")%string
  end.

Definition handleCheckSlug (e : cp_env) (msg : nats_msg) (s : Server) : Server :=
  if negb (cf_db (config s)) then replyNATSError msg "service unavailable" s
  else
    let parts := Split "."%char (nm_Subject msg) in
    if (length parts <? 7)%nat then replyNATSError msg "malformed subject" s
    else
      let uslug := part 2 parts in
      match unmarshal (dec_struct [ ("slug", dec_string) ]) ""%string (nm_Data msg) with
      | None => replyNATSError msg "slug is required" s
      | Some slug =>
        if String.eqb slug "" then replyNATSError msg "slug is required" s
        else
          match lookup_row (ce_down e "GetUserBySlug") (GetUserBySlug uslug (db s)) with
          | None => replyNATSError msg "user not found" s
          | Some user =>
            if ce_down e "Count" then replyNATSError msg "database error" s
            else if (slug_count (u_ID user) slug (db s) =? 0)%nat then respond msg (JObj [("available", JBool true)]) s
            else respond msg (JObj [("available", JBool false); ("suggestion", JStr (suggestion e (u_ID user) slug (db s)))]) s
          end
      end.

(** ** Dispatch *)

Inductive lifecycle_request := RAgentRegister | RHostRegister | RGrant | RRevokeAccess | RDeregister | RRevoke | RRekey | RUpdate | RCheckSlug.

(** The subject patterns of [StartLifecycleSubscribers]. *)
Definition lifecycle_pattern (r : lifecycle_request) : string :=
  match r with
  | RAgentRegister => "mclaude.hosts.*.api.agents.register"
  | RHostRegister => "mclaude.users.*.hosts._.register"
  | RGrant => "mclaude.users.*.hosts.*.manage.grant"
  | RRevokeAccess => "mclaude.users.*.hosts.*.manage.revoke-access"
  | RDeregister => "mclaude.users.*.hosts.*.manage.deregister"
  | RRevoke => "mclaude.users.*.hosts.*.manage.revoke"
  | RRekey => "mclaude.users.*.hosts.*.manage.rekey"
  | RUpdate => "mclaude.users.*.hosts.*.manage.update"
  | RCheckSlug => "mclaude.users.*.hosts.*.projects.check-slug"
  end.

Definition handle_lifecycle (r : lifecycle_request) : cp_env → nats_msg → Server → Server :=
  match r with
  | RAgentRegister => handleAgentRegister
  | RHostRegister => handleNATSHostRegister
  | RGrant => handleManageGrant
  | RRevokeAccess => handleManageRevokeAccess
  | RDeregister => handleManageDeregister
  | RRevoke => handleManageRevoke
  | RRekey => handleManageRekey
  | RUpdate => handleManageUpdate
  | RCheckSlug => handleCheckSlug
  end.

End lifecycle.
