(* ===== verification/HostLifecycleSpec.v ===== *)
(** * What host management guarantees

    Who may change what: every management request is a step of an abstract
    access-control machine, taken by the owner of the host (or by an
    administrator where that is allowed).  Then the exact effect of the
    registration of agents and of deregistration, and what revocation does not
    reach. *)

From S2P Require Import Prelude GoStrings Base64 Slug Subjects Json Permissions Database ControlServer Challenge ControlDemo ChallengeSpec HostLifecycle.
From stdpp Require Import sorting.
Open Scope Z_scope.

Section spec.
Context `{PG : Postgres, JT : JsonText, UT : UnicodeTables, NO : Normalizer}.

(** ** The tables' keys *)

Lemma tables_ok_users t : tables_ok t = true → NoDup (u_ID <$> users t) ∧ NoDup (u_Slug <$> users t) ∧ NoDup (omap u_NKeyPublic (users t)).
Proof.
  unfold tables_ok, unique_ok. rewrite !andb_true_iff, !uniqueb_NoDup. tauto.
Qed.

Lemma tables_ok_hosts t : tables_ok t = true → NoDup (h_ID <$> hosts t) ∧
  NoDup ((λ h, (h_UserID h, h_Slug h)) <$> hosts t) ∧ NoDup (omap h_PublicKey (hosts t)).
Proof. unfold tables_ok, unique_ok. rewrite !andb_true_iff, !uniqueb_NoDup. tauto. Qed.

Lemma GetUserBySlug_elem uslug t u : GetUserBySlug uslug t = Some u → u ∈ users t ∧ u_Slug u = uslug.
Proof. intros [H1 H2%String.eqb_eq]%first_row_select. done. Qed.

Lemma GetHostBySlug_elem hslug t h : GetHostBySlug hslug t = Some h → h ∈ hosts t ∧ h_Slug h = hslug ∧ h_Role h = "owner"%string.
Proof. intros [H1 H2]%first_row_select. apply andb_true_iff in H2 as [?%String.eqb_eq ?%String.eqb_eq]. done. Qed.

Lemma manage_parties_Ok e who uslug hslug s u h :
  manage_parties e who uslug hslug s = Ok (u, h) →
  u ∈ users (db s) ∧ u_Slug u = uslug ∧ h ∈ hosts (db s) ∧ h_Slug h = hslug.
Proof.
  unfold manage_parties. destruct (lookup_row _ (GetUserBySlug uslug (db s))) as [u'|] eqn:E1; [|done].
  destruct (lookup_row _ (GetHostBySlug hslug (db s))) as [h'|] eqn:E2; [|done]. intros [= -> ->].
  apply lookup_row_Some, GetUserBySlug_elem in E1 as []. apply lookup_row_Some, GetHostBySlug_elem in E2 as (?&?&?). done.
Qed.

(** ** The abstract machine *)

(** What access depends on: of every host its owner, slug and key; and the
    grants. *)
Record Access := { ac_hosts : gmap string (string * string * option string); ac_grants : gset (string * string) }.

Definition abs_host (h : Host) : string * (string * string * option string) := (h_ID h, (h_UserID h, h_Slug h, h_PublicKey h)).

Definition abstract (t : Tables) : Access :=
  {| ac_hosts := list_to_map (abs_host <$> hosts t); ac_grants := list_to_set (host_access t) |}.

(** The requests, as made by the user [actor], who is an administrator or not. *)
Inductive access_step (actor : string) (admin : bool) (a : Access) : Access → Prop :=
| acc_grant host slug key user : ac_hosts a !! host = Some (actor, slug, key) →
    access_step actor admin a {| ac_hosts := ac_hosts a; ac_grants := ac_grants a ∪ {[ (host, user) ]} |}
| acc_revoke host slug key user : ac_hosts a !! host = Some (actor, slug, key) →
    access_step actor admin a {| ac_hosts := ac_hosts a; ac_grants := ac_grants a ∖ {[ (host, user) ]} |}
| acc_rekey host slug key key' : ac_hosts a !! host = Some (actor, slug, key) →
    access_step actor admin a {| ac_hosts := <[host := (actor, slug, Some key')]> (ac_hosts a); ac_grants := ac_grants a |}
| acc_deregister host owner slug key : ac_hosts a !! host = Some (owner, slug, key) → owner = actor ∨ admin = true →
    access_step actor admin a {| ac_hosts := delete host (ac_hosts a); ac_grants := filter (λ g : string * string, g.1 ≠ host) (ac_grants a) |}
| acc_register host slug key : ac_hosts a !! host = None →
    access_step actor admin a {| ac_hosts := <[host := (actor, slug, Some key)]> (ac_hosts a); ac_grants := ac_grants a |}
| acc_stutter : access_step actor admin a a.

(** *** The statements, on the abstract state *)

Lemma abs_lookup t id x : tables_ok t = true →
  ac_hosts (abstract t) !! id = Some x ↔ ∃ h, h ∈ hosts t ∧ abs_host h = (id, x).
Proof.
  intros (Hid & _ & _)%tables_ok_hosts. unfold abstract. cbn [ac_hosts].
  rewrite <- elem_of_list_to_map.
  - rewrite list_elem_of_fmap. naive_solver.
  - rewrite <- list_fmap_compose. by apply (eq_ind _ (λ l, NoDup l) Hid).
Qed.

Lemma abs_owner t h : tables_ok t = true → h ∈ hosts t → ac_hosts (abstract t) !! h_ID h = Some (h_UserID h, h_Slug h, h_PublicKey h).
Proof. intros Hok Hh. apply abs_lookup; [done|]. by exists h. Qed.

Lemma elem_of_update_where {A} (p : A → bool) f l x :
  x ∈ update_where p f l ↔ ∃ y, y ∈ l ∧ x = (if p y then f y else y).
Proof. unfold update_where. rewrite list_elem_of_fmap. naive_solver. Qed.

Lemma abs_same_hosts t t' : (abs_host <$> hosts t') = (abs_host <$> hosts t) → ac_hosts (abstract t') = ac_hosts (abstract t).
Proof. intros H. unfold abstract. cbn. by rewrite H. Qed.

Lemma abs_access_eq a a' : ac_hosts a = ac_hosts a' → ac_grants a = ac_grants a' → a = a'.
Proof. destruct a, a'; cbn. by intros -> ->. Qed.

Lemma abs_grant t hid uid : abstract (GrantHostAccess hid uid t) =
  {| ac_hosts := ac_hosts (abstract t); ac_grants := ac_grants (abstract t) ∪ {[ (hid, uid) ]} |}.
Proof.
  apply abs_access_eq; [done|]. cbn. destruct (existsb _ _) eqn:E.
  - apply existsb_exists in E as (x & Hx%list_elem_of_In & ->%bool_decide_eq_true). set_solver.
  - rewrite list_to_set_app_L. set_solver.
Qed.

Lemma abs_revoke t hid uid : abstract (RevokeHostAccess hid uid t) =
  {| ac_hosts := ac_hosts (abstract t); ac_grants := ac_grants (abstract t) ∖ {[ (hid, uid) ]} |}.
Proof.
  apply abs_access_eq; [done|]. cbn. apply set_eq. intros x. rewrite elem_of_difference, !elem_of_list_to_set, delete_where_elem, elem_of_singleton.
  by rewrite bool_decide_eq_false.
Qed.

Lemma abs_update_host t t' (p : Host → bool) f h0 :
  tables_ok t = true → tables_ok t' = true → hosts t' = update_where p f (hosts t) → h0 ∈ hosts t →
  (∀ h, h ∈ hosts t → p h = String.eqb (h_ID h) (h_ID h0)) →
  (∀ h, h_ID (f h) = h_ID h) → host_access t' = host_access t →
  abstract t' = {| ac_hosts := <[h_ID h0 := (abs_host (f h0)).2]> (ac_hosts (abstract t)); ac_grants := ac_grants (abstract t) |}.
Proof.
  intros Hok Hok' Hh Hin Hp Hf Ha. apply abs_access_eq; [|unfold abstract; cbn; by rewrite Ha]. cbn [ac_hosts].
  pose proof (proj1 (tables_ok_hosts _ Hok)) as Hid.
  apply map_eq. intros id. apply option_eq. intros x. rewrite abs_lookup by done. rewrite Hh. setoid_rewrite elem_of_update_where.
  destruct (decide (h_ID h0 = id)) as [<-|Hne].
  - rewrite lookup_insert_eq. split.
    + intros (h & (y & Hy & ->) & He). rewrite Hp in He by done. destruct (String.eqb (h_ID y) (h_ID h0)) eqn:E.
      * apply String.eqb_eq in E. assert (y = h0) as -> by by eapply (unique_key h_ID). rewrite (surjective_pairing (abs_host (f h0))) in He. congruence.
      * unfold abs_host in He. injection He as He _. rewrite He, String.eqb_refl in E. done.
    + intros [= <-]. exists (f h0). split; [exists h0; by rewrite Hp, String.eqb_refl by done|]. unfold abs_host. by rewrite Hf.
  - rewrite lookup_insert_ne, abs_lookup by done. split.
    + intros (h & (y & Hy & ->) & He). rewrite Hp in He by done. destruct (String.eqb (h_ID y) (h_ID h0)) eqn:E; [|by exists y].
      apply String.eqb_eq in E. unfold abs_host in He. injection He as He _. rewrite Hf in He. congruence.
    + intros (h & Hy & He). exists h. split; [|done]. exists h. split; [done|]. rewrite Hp by done.
      destruct (String.eqb_spec (h_ID h) (h_ID h0)) as [E|E]; [|done]. unfold abs_host in He. injection He as He _. congruence.
Qed.

Lemma abs_delete t h0 :
  tables_ok t = true → h0 ∈ hosts t →
  let t' := delete_hosts (λ h, String.eqb (h_ID h) (h_ID h0)) t in
  tables_ok t' = true →
  abstract t' = {| ac_hosts := delete (h_ID h0) (ac_hosts (abstract t));
                   ac_grants := filter (λ g : string * string, g.1 ≠ h_ID h0) (ac_grants (abstract t)) |}.
Proof.
  intros Hok Hin t' Hok'. apply abs_access_eq; cbn [ac_hosts ac_grants].
  - apply map_eq. intros id. apply option_eq. intros x. rewrite abs_lookup by done. unfold t'. cbn [delete_hosts hosts set_hosts].
    setoid_rewrite delete_where_elem. rewrite lookup_delete_Some, abs_lookup by done. split.
    + intros (h & [Hh Hne%String.eqb_neq] & He). split; [|by exists h]. unfold abs_host in He. injection He as He _. congruence.
    + intros [Hne (h & Hh & He)]. exists h. split; [split; [done|]|done]. apply String.eqb_neq. unfold abs_host in He. injection He as He _. congruence.
  - unfold t', abstract. cbn [delete_hosts host_access set_hosts set_host_access set_projects ac_grants]. apply set_eq. intros [a b].
    rewrite elem_of_filter, !elem_of_list_to_set, delete_where_elem, <- not_true_iff_false, memb_spec. cbn [fst].
    assert (Hg : a ∈ h_ID <$> List.filter (λ h, String.eqb (h_ID h) (h_ID h0)) (hosts t) ↔ a = h_ID h0).
    { rewrite list_elem_of_fmap. split.
      - by intros (h & -> & [_ He%String.eqb_eq]%select_elem).
      - intros ->. exists h0. split; [done|]. apply select_elem. by rewrite String.eqb_refl. }
    rewrite Hg. tauto.
Qed.

Lemma abs_upsert t h f k admin :
  tables_ok t = true → tables_ok (UpsertHost h f t) = true → h_PublicKey h = Some k →
  (∀ g, h_ID (f g) = h_ID g ∧ h_UserID (f g) = h_UserID g ∧ h_Slug (f g) = h_Slug g ∧ h_PublicKey (f g) = Some k) →
  access_step (h_UserID h) admin (abstract t) (abstract (UpsertHost h f t)).
Proof.
  intros Hok Hok' Hk Hf. unfold UpsertHost, upsert in *.
  set (same := λ g, String.eqb (h_UserID g) (h_UserID h) && String.eqb (h_Slug g) (h_Slug h)) in *.
  destruct (existsb same (hosts t)) eqn:E.
  - apply existsb_exists in E as (g0 & Hg0%list_elem_of_In & Hs). pose proof Hs as [Hu%String.eqb_eq Hl%String.eqb_eq]%andb_true_iff.
    rewrite (abs_update_host t (set_hosts (update_where same f (hosts t)) t) same f g0); try done.
    + destruct (Hf g0) as (Hi & Hu0 & Hl0 & Hk0). unfold abs_host. cbn [snd]. rewrite Hu0, Hu, Hk0, Hl0.
      apply (acc_rekey _ _ (abstract t) (h_ID g0) (h_Slug g0) (h_PublicKey g0) k). rewrite (abs_owner t g0) by done. by rewrite Hu.
    + intros g Hg. destruct (String.eqb_spec (h_ID g) (h_ID g0)) as [Hid|Hid].
      * assert (g = g0) as -> by (eapply (unique_key h_ID); [apply (tables_ok_hosts t Hok)|done..]). done.
      * destruct (same g) eqn:Hsg; [|done]. apply andb_true_iff in Hsg as [Hu'%String.eqb_eq Hl'%String.eqb_eq]. destruct Hid. f_equal.
        eapply (unique_key (λ h, (h_UserID h, h_Slug h))); [apply (tables_ok_hosts t Hok)|done..|cbn; congruence].
    + intros g. apply Hf.
  - assert (Hfresh : ac_hosts (abstract t) !! h_ID h = None).
    { destruct (ac_hosts (abstract t) !! h_ID h) as [x|] eqn:Ex; [|done]. apply abs_lookup in Ex as (g & Hg & He); [|done].
      pose proof (proj1 (tables_ok_hosts _ Hok')) as Hnd. cbn in Hnd. rewrite fmap_app in Hnd. apply NoDup_app in Hnd as (_ & Hd & _).
      unfold abs_host in He. injection He as He _. destruct (Hd (h_ID g)); [by apply list_elem_of_fmap_2|]. rewrite He. left. }
    assert (abstract (set_hosts (hosts t ++ [h]) t) =
      {| ac_hosts := <[h_ID h := (h_UserID h, h_Slug h, Some k)]> (ac_hosts (abstract t)); ac_grants := ac_grants (abstract t) |}) as ->.
    { apply abs_access_eq; [|done]. cbn. rewrite fmap_app. apply map_eq. intros id. apply option_eq. intros x.
      rewrite list_to_map_app, lookup_union_Some_raw. cbn. unfold abs_host at 3. rewrite Hk. cbn.
      fold (ac_hosts (abstract t)). change (list_to_map (abs_host <$> hosts t)) with (ac_hosts (abstract t)).
      destruct (decide (h_ID h = id)) as [<-|Hne].
      - rewrite !lookup_insert_eq, Hfresh. naive_solver.
      - rewrite !lookup_insert_ne, lookup_empty by done. naive_solver. }
    by apply acc_register.
Qed.


(** ** Every request is a step of the machine *)

Definition requester (subject : string) : string := part 2 (Split "."%char subject).

Lemma parse_requester subject uslug hslug :
  parseManageSubject subject = (uslug, hslug) → uslug = ""%string ∨ (uslug = requester subject ∧ hslug = part 4 (Split "."%char subject)).
Proof. unfold parseManageSubject, requester. cbv zeta. destruct (_ <=? _)%nat; intros [= <- <-]; auto. Qed.

(** The request left the tables' access state alone, or was a step of its
    requester. *)
Definition refines_access (subject : string) (t t' : Tables) : Prop :=
  tables_ok t' = true ∧
  (abstract t' = abstract t ∨ ∃ u, u ∈ users t ∧ u_Slug u = requester subject ∧ access_step (u_ID u) (u_IsAdmin u) (abstract t) (abstract t')).

Lemma refines_same subject t t' : tables_ok t = true → t' = t → refines_access subject t t'.
Proof. intros H ->. split; [done|by left]. Qed.

Lemma refines_by subject t t' u : tables_ok t' = true → u ∈ users t → u_Slug u = requester subject →
  access_step (u_ID u) (u_IsAdmin u) (abstract t) (abstract t') → refines_access subject t t'.
Proof. intros. split; [done|]. right. by exists u. Qed.

Ltac unchanged := solve [replies_away; by apply refines_same].

(** The parties of a request that got past the lookups. *)
Lemma parties_facts e who msg s uslug hslug u h :
  parseManageSubject (nm_Subject msg) = (uslug, hslug) → String.eqb uslug "" || String.eqb hslug "" = false →
  manage_parties e who uslug hslug s = Ok (u, h) →
  u ∈ users (db s) ∧ u_Slug u = requester (nm_Subject msg) ∧ h ∈ hosts (db s) ∧ h_Slug h = hslug ∧ hslug = part 4 (Split "."%char (nm_Subject msg)).
Proof.
  intros Hp [Hu Hh]%orb_false_iff (Hin & Hs & Hhin & Hhs)%manage_parties_Ok. apply parse_requester in Hp as [->|[-> Hl]]; [done|].
  by rewrite Hs.
Qed.

Lemma owns_eq u h : owns u h = true → h_UserID h = u_ID u.
Proof. apply String.eqb_eq. Qed.

Lemma refines_grant e msg s : tables_ok (db s) = true → refines_access (nm_Subject msg) (db s) (db (handleManageGrant e msg s)).
Proof.
  intros Hok. unfold handleManageGrant. destruct (negb (cf_db _)); [unchanged|].
  destruct (parseManageSubject _) as [uslug hslug] eqn:Hp. destruct (_ || _) eqn:Hne; [unchanged|].
  destruct (userSlug_request _) as [g|]; [|unchanged]. destruct (manage_parties _ _ _ _ _) as [[u h]|err] eqn:Hm; [|unchanged].
  destruct (owns u h) eqn:Ho; cbn [negb]; [|unchanged]. destruct (lookup_row _ _) as [grantee|]; [|unchanged].
  destruct (Exec _ _ _) as [t|] eqn:Hx; [|unchanged]. replies_away. cbn [db set_db].
  apply Exec_Ok in Hx as [-> Hok']. destruct (parties_facts _ _ _ _ _ _ _ _ Hp Hne Hm) as (Hu & Hs & Hh & _ & _).
  apply (refines_by _ _ _ u); [done..|]. rewrite abs_grant. apply owns_eq in Ho.
  apply (acc_grant _ _ _ (h_ID h) (h_Slug h) (h_PublicKey h)). rewrite abs_owner by done. by rewrite Ho.
Qed.

Lemma refines_revoke_access e msg s : tables_ok (db s) = true → refines_access (nm_Subject msg) (db s) (db (handleManageRevokeAccess e msg s)).
Proof.
  intros Hok. unfold handleManageRevokeAccess. destruct (negb (cf_db _)); [unchanged|].
  destruct (parseManageSubject _) as [uslug hslug] eqn:Hp. destruct (_ || _) eqn:Hne; [unchanged|].
  destruct (userSlug_request _) as [g|]; [|unchanged]. destruct (manage_parties _ _ _ _ _) as [[u h]|err] eqn:Hm; [|unchanged].
  destruct (owns u h) eqn:Ho; cbn [negb]; [|unchanged]. destruct (lookup_row _ _) as [grantee|]; [|unchanged].
  destruct (Exec _ _ _) as [t|] eqn:Hx; [|unchanged]. cbv zeta. replies_away. cbn [db set_db].
  apply Exec_Ok in Hx as [-> Hok']. destruct (parties_facts _ _ _ _ _ _ _ _ Hp Hne Hm) as (Hu & Hs & Hh & _ & _).
  apply (refines_by _ _ _ u); [done..|]. rewrite abs_revoke. apply owns_eq in Ho.
  apply (acc_revoke _ _ _ (h_ID h) (h_Slug h) (h_PublicKey h)). rewrite abs_owner by done. by rewrite Ho.
Qed.

Lemma refines_rekey e msg s : tables_ok (db s) = true → refines_access (nm_Subject msg) (db s) (db (handleManageRekey e msg s)).
Proof.
  intros Hok. unfold handleManageRekey. destruct (negb (cf_db _)); [unchanged|].
  destruct (parseManageSubject _) as [uslug hslug] eqn:Hp. destruct (_ || _) eqn:Hne; [unchanged|].
  destruct (nkeyPublic_request _) as [k|]; [|unchanged]. destruct (manage_parties _ _ _ _ _) as [[u h]|err] eqn:Hm; [|unchanged].
  destruct (owns u h) eqn:Ho; cbn [negb]; [|unchanged]. cbv zeta.
  destruct (Exec _ _ _) as [t|] eqn:Hx; [|unchanged]. replies_away. cbn [db set_db]. autorewrite with server in Hx.
  apply Exec_Ok in Hx as [-> Hok']. destruct (parties_facts _ _ _ _ _ _ _ _ Hp Hne Hm) as (Hu & Hs & Hh & _ & _).
  apply (refines_by _ _ _ u); [done..|]. apply owns_eq in Ho.
  rewrite (abs_update_host (db s) (RegisterHostNKeyPublic (h_ID h) k (db s)) (λ g, String.eqb (h_ID g) (h_ID h)) (with_key k) h) by done.
  replace (abs_host (with_key k h)).2 with (u_ID u, h_Slug h, Some k) by (cbn; by rewrite Ho).
  apply (acc_rekey _ _ _ (h_ID h) (h_Slug h) (h_PublicKey h)). rewrite abs_owner by done. by rewrite Ho.
Qed.

Lemma refines_rename e msg s : tables_ok (db s) = true → refines_access (nm_Subject msg) (db s) (db (handleManageUpdate e msg s)).
Proof.
  intros Hok. unfold handleManageUpdate. destruct (negb (cf_db _)); [unchanged|].
  destruct (parseManageSubject _) as [uslug hslug] eqn:Hp. destruct (_ || _) eqn:Hne; [unchanged|].
  destruct (unmarshal _ _ _) as [[name type]|]; [|unchanged]. destruct (_ && _); [unchanged|].
  destruct (manage_parties _ _ _ _ _) as [[u h]|err]; [|unchanged]. destruct (_ && _); [unchanged|]. destruct (String.eqb name ""); [unchanged|].
  cbv zeta. replies_away.
  name_exec s s1 Hs1.
  assert (Hdb : ∀ b : bool, db (if b then match hostsKV s1 !! hslug with Some v => put_hostKV e hslug (renamed name v) s1 | None => s1 end else s1) = db s1).
  { intros []; [|done]. destruct (hostsKV s1 !! hslug); [|done]. unfold put_hostKV. by destruct (ce_kvErr e hslug). }
  rewrite Hdb. destruct Hs1 as [->|[Heq Hok']]; [by apply refines_same|]. split; [done|]. left.
  apply abs_access_eq; [|by rewrite Heq]. apply abs_same_hosts. rewrite Heq. cbn [hosts set_hosts]. unfold update_where.
  rewrite <- list_fmap_compose. apply list_fmap_ext. intros _ g _. unfold compose. destruct (String.eqb (h_ID g) (h_ID h)); reflexivity.
Qed.

Lemma drain_project_db us h s p : db (drain_project us h s p) = db s.
Proof. unfold drain_project, publishProjectsDeleteToHost. cbv zeta. repeat case_match; done. Qed.

Lemma drain_db e host hslug s : db (drain_host e host hslug s) = db s.
Proof.
  unfold drain_host. destruct (lookup_row _ _) as [u|]; [|done]. generalize (if ce_down e "GetProjectsByHostSlug" then [] else GetProjectsByHostSlug (h_UserID host) hslug (db s)).
  intros l. revert s. induction l as [|p l IH]; intros s; cbn; [done|]. by rewrite IH, drain_project_db.
Qed.

Lemma revoke_host_db e host hslug s : db (revoke_host e host hslug s) = db s.
Proof. unfold revoke_host. cbv zeta. by autorewrite with server. Qed.

Lemma refines_revoke e msg s : tables_ok (db s) = true → refines_access (nm_Subject msg) (db s) (db (handleManageRevoke e msg s)).
Proof.
  intros Hok. unfold handleManageRevoke. destruct (negb (cf_db _)); [unchanged|].
  destruct (parseManageSubject _) as [uslug hslug]. destruct (_ || _); [unchanged|].
  destruct (manage_parties _ _ _ _ _) as [[u h]|err]; [|unchanged]. destruct (_ && _); [unchanged|].
  cbv zeta. replies_away. apply refines_same; [done|]. destruct (cf_hostsKV _); [|apply revoke_host_db].
  unfold put_hostKV. destruct (ce_kvErr e hslug); apply revoke_host_db.
Qed.

Lemma refines_deregister e msg s : tables_ok (db s) = true → refines_access (nm_Subject msg) (db s) (db (handleManageDeregister e msg s)).
Proof.
  intros Hok. unfold handleManageDeregister. destruct (negb (cf_db _)); [unchanged|].
  destruct (parseManageSubject _) as [uslug hslug] eqn:Hp. destruct (_ || _) eqn:Hne; [unchanged|].
  destruct (manage_parties _ _ _ _ _) as [[u h]|err] eqn:Hm; [|unchanged]. destruct (negb (owns u h) && negb (u_IsAdmin u)) eqn:Ho; [unchanged|].
  cbv zeta. replies_away. destruct (parties_facts _ _ _ _ _ _ _ _ Hp Hne Hm) as (Hu & Hs & Hh & _ & _).
  set (s1 := revoke_host e h hslug (drain_host e h hslug s)).
  assert (H1 : db s1 = db s) by (unfold s1; by rewrite revoke_host_db, drain_db).
  name_exec s1 s2 Hs2.
  name_exec s2 s3 Hs3.
  assert (Hdb : ∀ b : bool, db (if b then set_hostsKV (delete hslug (hostsKV s3)) s3 else s3) = db s3) by by intros [].
  rewrite Hdb. rewrite H1 in Hs2.
  assert (H2 : tables_ok (db s2) = true ∧ users (db s2) = users (db s) ∧ hosts (db s2) = hosts (db s) ∧ abstract (db s2) = abstract (db s)).
  { destruct Hs2 as [->|[Heq ?]]; [done|]. split; [done|]. by rewrite Heq. }
  destruct H2 as (Hok2 & _ & Hh2 & Ha2). destruct Hs3 as [Hs3|[Heq Hok3]].
  - rewrite Hs3. split; [done|by left].
  - apply (refines_by _ _ _ u); [by rewrite ?Heq in *|done..|]. rewrite <- Ha2, Heq.
    rewrite (abs_delete (db s2) h); [|done|by rewrite Hh2|by rewrite <- Heq].
    apply (acc_deregister _ _ _ (h_ID h) (h_UserID h) (h_Slug h) (h_PublicKey h)).
    + apply abs_owner; [done|by rewrite Hh2].
    + apply andb_false_iff in Ho as [Ho%negb_false_iff|Ho%negb_false_iff]; [left; by apply owns_eq|by right].
Qed.

Lemma refines_host_register e msg s : tables_ok (db s) = true → refines_access (nm_Subject msg) (db s) (db (handleNATSHostRegister e msg s)).
Proof.
  intros Hok. unfold handleNATSHostRegister. destruct (negb (cf_db _)); [unchanged|]. cbv zeta. destruct (_ <? _)%nat; [unchanged|].
  destruct (unmarshal _ _ _) as [req|]; [|unchanged]. destruct (_ || _); [unchanged|].
  destruct (lookup_row _ _) as [u|] eqn:Hl; [|unchanged]. apply lookup_row_Some, GetUserBySlug_elem in Hl as [Hu Hs].
  match goal with |- context [ExecUpsertHost _ ?h ?f _] => set (row := h); set (upd := f) end.
  destruct (ExecUpsertHost _ _ _ _) as [t|] eqn:Hx; [|unchanged]. apply ExecUpsertHost_Ok in Hx as [-> Hok']. replies_away. cbn [db set_db].
  apply (refines_by _ _ _ u); [done..|]. change (u_ID u) with (h_UserID row). by apply (abs_upsert _ _ _ (hr_NKeyPublic req)).
Qed.

Lemma refines_agent_register e msg s : tables_ok (db s) = true → refines_access (nm_Subject msg) (db s) (db (handleAgentRegister e msg s)).
Proof.
  intros Hok. unfold handleAgentRegister. destruct (negb (cf_db _)); [unchanged|]. cbv zeta. destruct (_ <? _)%nat; [unchanged|].
  destruct (unmarshal _ _ _) as [req|]; [|unchanged]. destruct (_ || _); [unchanged|]. destruct (lookup_row _ (GetUserBySlug _ _)) as [u|]; [|unchanged].
  destruct (ce_down e _); [unchanged|]. destruct (negb _); [unchanged|]. destruct (lookup_row _ _) as [[p ph]|]; [|unchanged].
  destruct (negb _); [unchanged|]. destruct (Exec _ _ _) as [t|] eqn:Hx; [|unchanged]. apply Exec_Ok in Hx as [-> Hok']. replies_away. cbn [db set_db].
  split; [done|by left].
Qed.

Lemma refines_check_slug e msg s : tables_ok (db s) = true → refines_access (nm_Subject msg) (db s) (db (handleCheckSlug e msg s)).
Proof. intros Hok. unfold handleCheckSlug. cbv zeta. repeat (case_match; try unchanged). Qed.

Lemma refines_request r e msg s :
  tables_ok (db s) = true → refines_access (nm_Subject msg) (db s) (db (handle_lifecycle r e msg s)).
Proof.
  destruct r; cbn [handle_lifecycle]; [apply refines_agent_register|apply refines_host_register|apply refines_grant|apply refines_revoke_access|
    apply refines_deregister|apply refines_revoke|apply refines_rekey|apply refines_rename|apply refines_check_slug].
Qed.

(** ** Theorems *)

(** C1. Refinement: every lifecycle request keeps the tables well formed and is a
    step of the access-control machine: it changes owners, keys and grants only
    as the user named in its subject may, on a host that this user owns, or,
    where the machine says so, as an administrator. *)
Theorem lifecycle_refines_access r e msg s :
  tables_ok (db s) = true → refines_access (nm_Subject msg) (db s) (db (handle_lifecycle r e msg s)).
Proof. apply refines_request. Qed.


(** ** Registration of agents *)

(** The user owns the host or has been granted access to it. *)
Definition has_access (t : Tables) (userID : string) (h : Host) : Prop := h_UserID h = userID ∨ (h_ID h, userID) ∈ host_access t.

Lemma GetHostAccessSlugs_elem userID t x :
  x ∈ GetHostAccessSlugs userID t ↔ ∃ h, h ∈ hosts t ∧ h_Slug h = x ∧ has_access t userID h.
Proof.
  unfold GetHostAccessSlugs, has_access. rewrite merge_sort_Permutation, elem_of_remove_dups, elem_of_app, !list_elem_of_fmap.
  setoid_rewrite select_elem. setoid_rewrite String.eqb_eq.
  assert (Hg : ∀ h, existsb (λ a, bool_decide (a = (h_ID h, userID))) (host_access t) = true ↔ (h_ID h, userID) ∈ host_access t).
  { intros h. rewrite existsb_exists. setoid_rewrite bool_decide_eq_true. setoid_rewrite <- list_elem_of_In. naive_solver. }
  setoid_rewrite Hg. naive_solver.
Qed.

Lemma foreign_project t p : tables_ok t = true → p ∈ projects t → ∃ h, h ∈ hosts t ∧ h_ID h = p_HostID p ∧ join_host t p = (p, h_Slug h).
Proof.
  intros Hok Hp. assert (Hf : foreign_ok t = true) by (by apply andb_true_iff in Hok as [_ ?]).
  unfold foreign_ok in Hf. rewrite !andb_true_iff in Hf. destruct Hf as [[[[_ _] Hf] _] _].
  pose proof (forallb_elem _ _ _ Hf Hp) as [_ Hm%memb_spec]%andb_true_iff. apply list_elem_of_fmap in Hm as (h & Hid & Hh).
  unfold join_host. destruct (find_first _ _) as [h'|] eqn:E.
  - apply find_first_Some in E as [Hh' Hid'%String.eqb_eq]. exists h'. done.
  - rewrite find_first_None in E. specialize (E h Hh). apply String.eqb_neq in E. congruence.
Qed.

Lemma GetProjectByUserAndSlug_elem userID pslug t p ph :
  tables_ok t = true → GetProjectByUserAndSlug userID pslug t = Some (p, ph) →
  p ∈ projects t ∧ p_UserID p = userID ∧ p_Slug p = pslug ∧ ∃ h, h ∈ hosts t ∧ h_ID h = p_HostID p ∧ h_Slug h = ph.
Proof.
  intros Hok H%first_row_in. apply list_elem_of_fmap in H as (q & Hq & [Hp Hb]%select_elem).
  apply andb_true_iff in Hb as [Hu%String.eqb_eq Hl%String.eqb_eq]. destruct (foreign_project t q Hok Hp) as (h & Hh & Hid & Hj).
  rewrite Hj in Hq. injection Hq as -> ->. eauto 10.
Qed.

(** The credentials after the registration of a key for a project. *)
Definition registered_for (t : Tables) (userID hslug pslug key : string) (c : AgentCredential) : Prop :=
  c ∈ agent_credentials t ∧ ac_UserID c = userID ∧ ac_HostSlug c = hslug ∧ ac_ProjectSlug c = pslug ∧ ac_NKeyPublic c = key.

Definition for_project (userID hslug pslug : string) (c : AgentCredential) : Prop :=
  ac_UserID c = userID ∧ ac_HostSlug c = hslug ∧ ac_ProjectSlug c = pslug.

Lemma upsert_credential_spec id userID hslug pslug key t c :
  c ∈ agent_credentials (UpsertAgentCredential id userID hslug pslug key t) ↔
  c = {| ac_ID := id; ac_UserID := userID; ac_HostSlug := hslug; ac_ProjectSlug := pslug; ac_NKeyPublic := key |} ∨
  (c ∈ agent_credentials t ∧ ¬ for_project userID hslug pslug c).
Proof.
  unfold UpsertAgentCredential, upsert. cbn [agent_credentials set_agent_credentials].
  set (same := λ c, String.eqb (ac_UserID c) userID && String.eqb (ac_HostSlug c) hslug && String.eqb (ac_ProjectSlug c) pslug).
  set (row := {| ac_ID := id; ac_UserID := userID; ac_HostSlug := hslug; ac_ProjectSlug := pslug; ac_NKeyPublic := key |}).
  assert (Hs : ∀ c, same c = true ↔ for_project userID hslug pslug c).
  { intros d. unfold same, for_project. rewrite !andb_true_iff, !String.eqb_eq. tauto. }
  setoid_rewrite <- Hs. setoid_rewrite not_true_iff_false. destruct (existsb same _) eqn:E.
  - rewrite elem_of_update_where. split.
    + intros (y & Hy & ->). destruct (same y) eqn:Hy'; [by left|by right].
    + intros [->|[Hc Hn]]; [|exists c; by rewrite Hn]. apply existsb_exists in E as (y & Hy%list_elem_of_In & Hsy). exists y. by rewrite Hsy.
  - rewrite elem_of_app, list_elem_of_singleton. split; [|naive_solver]. intros [Hc| ->]; [|by left]. right. split; [done|].
    apply not_true_iff_false. intros Hn. assert (existsb same (agent_credentials t) = true); [|congruence].
    apply existsb_exists. exists c. by rewrite <- list_elem_of_In.
Qed.

(** The conditions under which a registration stores the key, and what is stored. *)
Lemma agent_register_inv e msg s :
  tables_ok (db s) = true →
  let s' := handleAgentRegister e msg s in
  db s' = db s ∨
  ∃ req u p h hp, unmarshal (dec_struct AgentRegisterRequest_fields) {| ar_UserSlug := ""; ar_ProjectSlug := ""; ar_NKeyPublic := "" |} (nm_Data msg) = Some req ∧
    u ∈ users (db s) ∧ u_Slug u = ar_UserSlug req ∧
    h ∈ hosts (db s) ∧ h_Slug h = part 2 (Split "."%char (nm_Subject msg)) ∧ has_access (db s) (u_ID u) h ∧
    p ∈ projects (db s) ∧ p_UserID p = u_ID u ∧ p_Slug p = ar_ProjectSlug req ∧
    hp ∈ hosts (db s) ∧ h_ID hp = p_HostID p ∧ h_Slug hp = h_Slug h ∧
    db s' = UpsertAgentCredential (ce_uuid e "credential") (u_ID u) (h_Slug h) (ar_ProjectSlug req) (ar_NKeyPublic req) (db s).
Proof.
  intros Hok s'. unfold s', handleAgentRegister. clear s'. destruct (negb (cf_db _)); [left; by replies_away|]. cbv zeta.
  destruct (_ <? _)%nat; [left; by replies_away|]. destruct (unmarshal _ _ _) as [req|]; [|left; by replies_away].
  destruct (_ || _); [left; by replies_away|]. destruct (lookup_row _ (GetUserBySlug _ _)) as [u|] eqn:Hu; [|left; by replies_away].
  destruct (ce_down e "GetHostAccessSlugs"); [left; by replies_away|]. destruct (existsb _ _) eqn:Ha; cbn [negb]; [|left; by replies_away].
  destruct (lookup_row _ (GetProjectByUserAndSlug _ _ _)) as [[p ph]|] eqn:Hp; [|left; by replies_away].
  destruct (String.eqb ph _) eqn:Hh; cbn [negb]; [|left; by replies_away].
  destruct (Exec _ _ _) as [t|] eqn:Hx; [|left; by replies_away]. apply Exec_Ok in Hx as [-> _]. right. replies_away. cbn [db set_db].
  apply lookup_row_Some, GetUserBySlug_elem in Hu as [Hu Hus]. apply lookup_row_Some, GetProjectByUserAndSlug_elem in Hp as (Hp & Hpu & Hps & hp & Hhp & Hpid & Hphs); [|done].
  apply existsb_exists in Ha as (x & Hx%list_elem_of_In & ->%String.eqb_eq). apply GetHostAccessSlugs_elem in Hx as (h & Hhin & Hhs & Hacc).
  apply String.eqb_eq in Hh. exists req, u, p, h, hp. rewrite Hhs. repeat split; try done. congruence.
Qed.

(** The answer of the control plane to a request, as text. *)
Definition cp_answer (s s' : Server) : option string :=
  match last (replies s s') with Some (Replied payload) => Some (json_print payload) | _ => None end.

Lemma cp_answer_respond m payload s s1 : nm_Reply m = true → sent s1 = sent s → cp_answer s (respond m payload s1) = Some (json_print payload).
Proof. intros Hm Hs. unfold cp_answer, respond. rewrite Hm. by rewrite (replies_send s (Replied payload)) by (cbn; by rewrite Hs). Qed.

(** A registration that gets as far as looking for the project. *)
Record may_register (e : cp_env) (s : Server) (hslug u p key : string) (user : User) : Prop := {
  mr_db : cf_db (config s) = true;
  mr_host : Validate hslug = None;
  mr_given : u ≠ ""%string ∧ p ≠ ""%string ∧ key ≠ ""%string;
  mr_down : ∀ call, ce_down e call = false;
  mr_user : GetUserBySlug u (db s) = Some user;
  mr_access : hslug ∈ GetHostAccessSlugs (u_ID user) (db s);
}.

Definition register_request (hslug : string) (m : nats_msg) (u p key : string) : Prop :=
  nm_Subject m = ("mclaude.hosts." +:+ hslug +:+ ".api.agents.register")%string ∧
  unmarshal (dec_struct AgentRegisterRequest_fields) {| ar_UserSlug := ""; ar_ProjectSlug := ""; ar_NKeyPublic := "" |} (nm_Data m) =
    Some {| ar_UserSlug := u; ar_ProjectSlug := p; ar_NKeyPublic := key |}.

Lemma register_tokens hslug : Validate hslug = None →
  Split "."%char ("mclaude.hosts." +:+ hslug +:+ ".api.agents.register") = ["mclaude"; "hosts"; hslug; "api"; "agents"; "register"]%string.
Proof.
  intros Hv%valid_slug_no_dot. change (Split "."%char) with tokens.
  assert (("mclaude.hosts." +:+ hslug +:+ ".api.agents.register")%string = GoStrings.Join "." ["mclaude"; "hosts"; hslug; "api"; "agents"; "register"]%string) as -> by done.
  apply tokens_join; [done|]. by repeat (apply Forall_cons; split).
Qed.

Lemma register_reaches_project e s m hslug u p key user : may_register e s hslug u p key user → register_request hslug m u p key →
  handleAgentRegister e m s =
    match GetProjectByUserAndSlug (u_ID user) p (db s) with
    | None => replyNATSError m "project not found" s
    | Some (proj, projHostSlug) =>
      if negb (String.eqb projHostSlug hslug) then replyNATSNotFound m "project not assigned to host" s
      else match Exec false (UpsertAgentCredential (ce_uuid e "credential") (u_ID user) hslug p key) (db s) with
           | Err _ => replyNATSError m "failed to store agent credential" s
           | Ok t => replyNATSOK m (set_db t s)
           end
    end.
Proof.
  intros [Hdb Hh (Hu & Hp & Hk) Hdown Huser Hacc] [Hsub Hdec]. unfold handleAgentRegister, lookup_row. rewrite Hdb, Hsub, register_tokens, Hdec by done.
  change (length _ <? 5)%nat with false. change (part 2 _) with hslug. cbn [ar_UserSlug ar_ProjectSlug ar_NKeyPublic negb]. cbv iota zeta.
  apply String.eqb_neq in Hu, Hp, Hk. rewrite Hu, Hp, Hk, !Hdown, Huser. cbn [orb].
  assert (existsb (λ h, String.eqb h hslug) (GetHostAccessSlugs (u_ID user) (db s)) = true) as ->; [|done].
  apply existsb_exists. exists hslug. split; [by apply list_elem_of_In|apply String.eqb_refl].
Qed.

(** The registration of the key of a project on the host is stored. *)
Lemma registration_stored e s m hslug u p key user proj : may_register e s hslug u p key user → register_request hslug m u p key →
  GetProjectByUserAndSlug (u_ID user) p (db s) = Some (proj, hslug) →
  tables_ok (UpsertAgentCredential (ce_uuid e "credential") (u_ID user) hslug p key (db s)) = true →
  handleAgentRegister e m s = replyNATSOK m (set_db (UpsertAgentCredential (ce_uuid e "credential") (u_ID user) hslug p key (db s)) s).
Proof. intros Hmay Hreq Hproj Hok. by rewrite (register_reaches_project _ _ _ _ _ _ _ _ Hmay Hreq), Hproj, String.eqb_refl, Exec_success. Qed.

(** A key is stored only for a project of the user, on a host of the slug in the
    subject to which the user has access; it becomes the only key of this
    project there, and no other credential changes. *)
Theorem agent_register_sound e msg s c :
  tables_ok (db s) = true →
  let s' := handleAgentRegister e msg s in
  c ∈ agent_credentials (db s') → c ∉ agent_credentials (db s) →
  (∃ u h p hp, u ∈ users (db s) ∧ u_ID u = ac_UserID c ∧ h ∈ hosts (db s) ∧ h_Slug h = ac_HostSlug c ∧
     ac_HostSlug c = part 2 (Split "."%char (nm_Subject msg)) ∧ has_access (db s) (u_ID u) h ∧
     p ∈ projects (db s) ∧ p_UserID p = u_ID u ∧ p_Slug p = ac_ProjectSlug c ∧ hp ∈ hosts (db s) ∧ h_ID hp = p_HostID p ∧ h_Slug hp = ac_HostSlug c) ∧
  (∀ d, d ∈ agent_credentials (db s') ↔ d = c ∨ (d ∈ agent_credentials (db s) ∧ ¬ for_project (ac_UserID c) (ac_HostSlug c) (ac_ProjectSlug c) d)).
Proof.
  intros Hok s' Hin Hnew. destruct (agent_register_inv e msg s Hok) as [Hs|(req & u & p & h & hp & _ & Hu & Hus & Hh & Hhs & Ha & Hp & Hpu & Hps & Hhp & Hpid & Hphs & Hs)];
    fold s' in Hs; rewrite Hs in Hin |- *; [done|].
  apply upsert_credential_spec in Hin as [->|[? _]]; [|done]. cbn [ac_UserID ac_HostSlug ac_ProjectSlug]. split.
  - exists u, h, p, hp. by rewrite <- Hhs.
  - apply upsert_credential_spec.
Qed.

(** ** What revocation does not reach *)

(** The token a session agent gets. *)
Lemma agent_token e key s c u :
  no_failures e → NoDup (ac_NKeyPublic <$> agent_credentials (db s)) → NoDup (u_ID <$> users (db s)) →
  (∀ u, u ∈ users (db s) → u_NKeyPublic u ≠ Some key) → (∀ h, h ∈ hosts (db s) → h_PublicKey h ≠ Some key) →
  c ∈ agent_credentials (db s) → ac_NKeyPublic c = key → u ∈ users (db s) → u_ID u = ac_UserID c →
  ∃ jwt, issueJWTForNKey e key s = (Ok jwt, s) ∧ jc_IssuedAt jwt = Unix (ce_now e) ∧
    jc_Perms jwt = SessionAgentSubjectPermissions (u_Slug u) (ac_HostSlug c) (ac_ProjectSlug c).
Proof.
  intros [Hd Hsg] Hnc Hnu Hku Hkh Hc Hk Hu Hid. unfold issueJWTForNKey, lookup_row. rewrite !Hd.
  destruct (GetUserByNKeyPublic key (db s)) as [u'|] eqn:E1.
  { apply first_row_select in E1 as [? ?%opt_eqb_spec]. by destruct (Hku u'). }
  destruct (GetHostByPublicKey key (db s)) as [h'|] eqn:E2.
  { apply first_row_select in E2 as [? ?%opt_eqb_spec]. by destruct (Hkh h'). }
  destruct (first_row_exists (λ c, String.eqb (ac_NKeyPublic c) key) (agent_credentials (db s)) c) as [c' E3]; [done|by apply String.eqb_eq|].
  unfold GetAgentCredentialByNKeyPublic. rewrite E3. apply first_row_select in E3 as [Hc' Hk'%String.eqb_eq].
  assert (c' = c) as -> by (apply (unique_key ac_NKeyPublic (agent_credentials (db s))); [done..|congruence]).
  destruct (first_row_exists (λ u, String.eqb (u_ID u) (ac_UserID c)) (users (db s)) u) as [u' E4]; [done|by apply String.eqb_eq|].
  unfold GetUserByID. rewrite E4. apply first_row_select in E4 as [Hu' Hid'%String.eqb_eq].
  assert (u' = u) as -> by (apply (unique_key u_ID (users (db s))); [done..|congruence]).
  unfold IssueSessionAgentJWT, issueJWT. rewrite Hsg. eexists; split; [done|]. done.
Qed.

(** Withdrawing a user's access to a host does not end the access of the user's
    agents there: their credentials stay, and the next authentication gets the
    same permissions again. *)
Theorem revoked_access_returns e1 e2 msg s c u :
  tables_ok (db s) = true → no_failures e2 →
  c ∈ agent_credentials (db s) → u ∈ users (db s) → u_ID u = ac_UserID c →
  (∀ u, u ∈ users (db s) → u_NKeyPublic u ≠ Some (ac_NKeyPublic c)) → (∀ h, h ∈ hosts (db s) → h_PublicKey h ≠ Some (ac_NKeyPublic c)) →
  let s' := handleManageRevokeAccess e1 msg s in
  ∃ jwt, issueJWTForNKey e2 (ac_NKeyPublic c) s' = (Ok jwt, s') ∧ jc_IssuedAt jwt = Unix (ce_now e2) ∧
    jc_Perms jwt = SessionAgentSubjectPermissions (u_Slug u) (ac_HostSlug c) (ac_ProjectSlug c).
Proof.
  intros Hok Hnf Hc Hu Hid Hku Hkh s'.
  assert (Hsame : users (db s') = users (db s) ∧ hosts (db s') = hosts (db s) ∧ agent_credentials (db s') = agent_credentials (db s)).
  { unfold s', handleManageRevokeAccess. destruct (parseManageSubject _) as [us hs].
    repeat case_match; replies_away; try done; cbn [db set_db];
    match goal with H : Exec _ _ _ = Ok _ |- _ => by apply Exec_Ok in H as [-> _] end. }
  destruct Hsame as (Hsu & Hsh & Hsc). pose proof (tables_ok_users _ Hok) as (Hnu & _ & _).
  apply (agent_token e2 (ac_NKeyPublic c) s' c u); rewrite ?Hsu, ?Hsh, ?Hsc; try done.
  unfold tables_ok, unique_ok in Hok. rewrite !andb_true_iff, !uniqueb_NoDup in Hok. tauto.
Qed.


(** ** Deregistration *)

(** A management request that names a host by its slug, made by its owner or by an
    administrator. *)
Record authorised (s : Server) (msg : nats_msg) (u : User) (h : Host) : Prop := {
  au_db : cf_db (config s) = true;
  au_parse : parseManageSubject (nm_Subject msg) = (u_Slug u, h_Slug h);
  au_named : String.eqb (u_Slug u) "" || String.eqb (h_Slug h) "" = false;
  au_user : u ∈ users (db s);
  au_host : h ∈ hosts (db s);
  au_role : h_Role h = "owner"%string;
  au_only : ∀ g, g ∈ hosts (db s) → h_Slug g = h_Slug h → g = h;
  au_right : owns u h || u_IsAdmin u = true;
}.

Lemma GetUserBySlug_user t u : tables_ok t = true → u ∈ users t → GetUserBySlug (u_Slug u) t = Some u.
Proof.
  intros (_ & Hs & _)%tables_ok_users Hu.
  destruct (first_row_exists (λ v, String.eqb (u_Slug v) (u_Slug u)) (users t) u) as [v E]; [done|by apply String.eqb_eq|].
  unfold GetUserBySlug. rewrite E. apply first_row_select in E as [Hv Hvs%String.eqb_eq]. f_equal. by apply (unique_key u_Slug (users t)).
Qed.

Lemma authorised_parties e who s msg u h :
  tables_ok (db s) = true → (∀ c, ce_down e c = false) → authorised s msg u h →
  manage_parties e who (u_Slug u) (h_Slug h) s = Ok (u, h).
Proof.
  intros Hok Hd Ha. unfold manage_parties, lookup_row. rewrite !Hd, (GetUserBySlug_user _ u) by (done || apply Ha).
  destruct (first_row_exists (λ g, String.eqb (h_Slug g) (h_Slug h) && String.eqb (h_Role g) "owner") (hosts (db s)) h) as [g E];
    [apply Ha|by rewrite String.eqb_refl, (au_role _ _ _ _ Ha)|].
  unfold GetHostBySlug. rewrite E. apply first_row_select in E as [Hg [Hgs%String.eqb_eq _]%andb_true_iff].
  by rewrite (au_only _ _ _ _ Ha g).
Qed.

(** What is revoked, and since when. *)
Lemma revoke_spec e k s : revocations (revokeNKeyJWT e k s) =
  if negb (String.eqb k "") && cf_nc (config s) && cf_revocation (config s) && negb (ce_revokeErr e k)
  then <[k := Unix (ce_now e)]> (revocations s) else revocations s.
Proof.
  unfold revokeNKeyJWT. destruct (String.eqb k ""); [done|]. destruct (cf_nc (config s)); [|done].
  destruct (cf_revocation (config s)); [|done]. by destruct (ce_revokeErr e k).
Qed.

Definition can_revoke (e : cp_env) (s : Server) : Prop :=
  cf_nc (config s) = true ∧ cf_revocation (config s) = true ∧ ∀ k, ce_revokeErr e k = false.

Lemma revoke_config e k s : config (revokeNKeyJWT e k s) = config s.
Proof. unfold revokeNKeyJWT. by repeat case_match. Qed.

Lemma revoke_all_spec e cs s k :
  can_revoke e s → (∃ c, c ∈ cs ∧ ac_NKeyPublic c = k) → k ≠ ""%string → revocations (revoke_all e cs s) !! k = Some (Unix (ce_now e)).
Proof.
  assert (Hkeep : ∀ cs s, can_revoke e s → revocations s !! k = Some (Unix (ce_now e)) → revocations (revoke_all e cs s) !! k = Some (Unix (ce_now e))).
  { induction cs0 as [|c cs0 IH]; intros s0 Hc Hk; [done|]. cbn. apply IH; [by unfold can_revoke; rewrite revoke_config|].
    rewrite revoke_spec. destruct (_ && _); [|done]. destruct (decide (ac_NKeyPublic c = k)) as [->|]; by rewrite ?lookup_insert_eq, ?lookup_insert_ne. }
  revert s. induction cs as [|c cs IH]; intros s Hc (d & Hd & Hk) Hne; [by apply elem_of_nil in Hd|]. cbn.
  apply elem_of_cons in Hd as [->|Hd].
  - apply Hkeep; [by unfold can_revoke; rewrite revoke_config|]. rewrite revoke_spec, Hk. destruct Hc as (-> & -> & ->).
    apply String.eqb_neq in Hne. rewrite Hne. cbn. apply lookup_insert_eq.
  - apply IH; [by unfold can_revoke; rewrite revoke_config|by exists d|done].
Qed.

(** Other keys stay as they are. *)
Lemma revoke_all_other e cs s k : (∀ c, c ∈ cs → ac_NKeyPublic c ≠ k) → revocations (revoke_all e cs s) !! k = revocations s !! k.
Proof.
  revert s. induction cs as [|c cs IH]; intros s Hc; [done|].
  change (revocations (revoke_all e cs (revokeNKeyJWT e (ac_NKeyPublic c) s)) !! k = revocations s !! k).
  rewrite IH by (intros; apply Hc; by right).
  rewrite revoke_spec. destruct (_ && _); [|done]. rewrite lookup_insert_ne; [done|]. apply Hc. by left.
Qed.

Lemma drain_config e host hslug s : config (drain_host e host hslug s) = config s.
Proof.
  unfold drain_host. destruct (lookup_row _ _) as [u|]; [|done]. generalize (if ce_down e "GetProjectsByHostSlug" then [] else GetProjectsByHostSlug (h_UserID host) hslug (db s)).
  intros l. revert s. induction l as [|p l IH]; intros s; cbn; [done|]. rewrite IH. unfold drain_project, publishProjectsDeleteToHost. cbv zeta. repeat case_match; done.
Qed.

Lemma drain_revocations e host hslug s : revocations (drain_host e host hslug s) = revocations s ∧ hostsKV (drain_host e host hslug s) = hostsKV s.
Proof.
  unfold drain_host. destruct (lookup_row _ _) as [u|]; [|done]. generalize (if ce_down e "GetProjectsByHostSlug" then [] else GetProjectsByHostSlug (h_UserID host) hslug (db s)).
  intros l. revert s. induction l as [|p l IH]; intros s; cbn; [done|]. destruct (IH (drain_project (u_Slug u) hslug s p)) as [-> ->].
  unfold drain_project, publishProjectsDeleteToHost. cbv zeta. repeat case_match; done.
Qed.

Lemma can_revoke_opt e o s : can_revoke e s → can_revoke e (revoke_opt e o s).
Proof. unfold can_revoke, revoke_opt. destruct o; rewrite ?revoke_config; done. Qed.

Lemma revoke_opt_lookup e o s k : can_revoke e s → k ≠ ""%string →
  revocations (revoke_opt e o s) !! k = if decide (o = Some k) then Some (Unix (ce_now e)) else revocations s !! k.
Proof.
  intros (H1 & H2 & H3) Hne. destruct o as [x|]; cbn [revoke_opt]; [|by rewrite decide_False]. rewrite revoke_spec, H1, H2, H3.
  destruct (decide (Some x = Some k)) as [[= ->]|Hx].
  - apply String.eqb_neq in Hne. rewrite Hne. cbn. apply lookup_insert_eq.
  - destruct (_ && _); [|done]. rewrite lookup_insert_ne; [done|]. by intros ->.
Qed.

Lemma revoke_frame e k s : config (revokeNKeyJWT e k s) = config s ∧ hostsKV (revokeNKeyJWT e k s) = hostsKV s.
Proof. unfold revokeNKeyJWT. by repeat case_match. Qed.

Lemma revoke_host_frame e h hslug s : config (revoke_host e h hslug s) = config s ∧ hostsKV (revoke_host e h hslug s) = hostsKV s.
Proof.
  unfold revoke_host. cbv zeta. generalize (if ce_down e "GetAgentCredentialsByHost" then [] else GetAgentCredentialsByHost hslug (db (revoke_opt e (h_PublicKey h) s))).
  intros l. assert (Ho : config (revoke_opt e (h_PublicKey h) s) = config s ∧ hostsKV (revoke_opt e (h_PublicKey h) s) = hostsKV s)
    by (unfold revoke_opt; destruct (h_PublicKey h); [apply revoke_frame|done]).
  destruct Ho as [<- <-]. generalize (revoke_opt e (h_PublicKey h) s). induction l as [|c l IH]; intros s0; [done|].
  change (revoke_all e (c :: l) s0) with (revoke_all e l (revokeNKeyJWT e (ac_NKeyPublic c) s0)).
  destruct (IH (revokeNKeyJWT e (ac_NKeyPublic c) s0)) as [-> ->]. apply revoke_frame.
Qed.

(** The keys of a host: its own and those of the agents registered for its slug. *)
Definition host_keys (h : Host) (t : Tables) (k : string) : Prop :=
  k ≠ ""%string ∧ (h_PublicKey h = Some k ∨ ∃ c, c ∈ agent_credentials t ∧ ac_HostSlug c = h_Slug h ∧ ac_NKeyPublic c = k).

Lemma revoke_host_keys e h s k : (∀ c, ce_down e c = false) → can_revoke e s → k ≠ ""%string →
  (host_keys h (db s) k → revocations (revoke_host e h (h_Slug h) s) !! k = Some (Unix (ce_now e))) ∧
  (¬ host_keys h (db s) k → revocations (revoke_host e h (h_Slug h) s) !! k = revocations s !! k).
Proof.
  intros Hd Hcr Hne. unfold revoke_host, host_keys. cbv zeta. rewrite revoke_opt_db, Hd.
  assert (Hin : ∀ c, c ∈ GetAgentCredentialsByHost (h_Slug h) (db s) ↔ c ∈ agent_credentials (db s) ∧ ac_HostSlug c = h_Slug h)
    by (intros c; unfold GetAgentCredentialsByHost; by rewrite select_elem, String.eqb_eq).
  pose proof (can_revoke_opt e (h_PublicKey h) s Hcr) as Hcr'. pose proof (revoke_opt_lookup e (h_PublicKey h) s k Hcr Hne) as Ho.
  set (l := GetAgentCredentialsByHost (h_Slug h) (db s)) in *.
  destruct (decide (k ∈ ac_NKeyPublic <$> l)) as [(c & -> & Hc)%list_elem_of_fmap|Hno].
  - split; [intros _; apply revoke_all_spec; [done|by exists c|done]|]. apply Hin in Hc as [Hc1 Hc2]. intros []. split; [done|]. right. by exists c.
  - rewrite revoke_all_other by (intros c Hc <-; apply Hno, list_elem_of_fmap; by exists c). rewrite Ho. split.
    + intros [_ [Hk|(c & Hc & Hcs & <-)]]; [by rewrite decide_True|]. destruct Hno. apply list_elem_of_fmap. exists c. split; [done|]. by apply Hin.
    + intros Hnk. rewrite decide_False; [done|]. intros Hk. apply Hnk. split; [done|by left].
Qed.


(** ** Emergency revocation *)

(** An emergency revocation does not lock the host out: its key stays registered
    and the next authentication issues a token that is newer than the revocation. *)
Theorem emergency_revocation_returns e1 e2 msg s h key :
  tables_ok (db s) = true → no_failures e2 → h ∈ hosts (db s) → h_PublicKey h = Some key →
  (∀ u, u ∈ users (db s) → u_NKeyPublic u ≠ Some key) →
  let s' := handleManageRevoke e1 msg s in
  ∃ jwt s2, issueJWTForNKey e2 key s' = (Ok jwt, s2) ∧ jc_IssuedAt jwt = Unix (ce_now e2) ∧ jc_Perms jwt = HostSubjectPermissions (h_Slug h).
Proof.
  intros Hok [Hd Hs] Hh Hk Hku s'.
  assert (Hdb : db s' = db s).
  { unfold s', handleManageRevoke. destruct (parseManageSubject _). repeat case_match; replies_away; try done; unfold put_hostKV;
      repeat case_match; try done; apply revoke_host_db. }
  unfold issueJWTForNKey, lookup_row. rewrite !Hd, Hdb.
  destruct (GetUserByNKeyPublic key (db s)) as [u'|] eqn:E1.
  { apply first_row_select in E1 as [? ?%opt_eqb_spec]. by destruct (Hku u'). }
  destruct (first_row_exists (λ h, opt_eqb (h_PublicKey h) key) (hosts (db s)) h) as [h' E2]; [done|by apply opt_eqb_spec|].
  unfold GetHostByPublicKey. rewrite E2. apply first_row_select in E2 as [Hh' Hk'%opt_eqb_spec].
  assert (h' = h) as -> by (eapply (unique_opt_key h_PublicKey); [apply (tables_ok_hosts _ Hok)|done..]).
  cbn [isHostRevoked]. unfold IssueHostJWT, issueJWT. rewrite Hs. eexists _, _. done.
Qed.

End spec.

(** ** Examples *)

#[local] Existing Instances demo_pg demo_nkeys demo_text demo_stream demo_tables demo_norm.

Module LifecycleDemo.
Definition revoke_msg : nats_msg := msg "mclaude.users.alice.hosts.laptop.manage.revoke-access" "bob".
Definition register_msg : nats_msg := msg "mclaude.hosts.laptop.api.agents.register" "register web".
Definition api_credential : AgentCredential :=
  {| ac_ID := "cred-1"; ac_UserID := "id-bob"; ac_HostSlug := "laptop"; ac_ProjectSlug := "api"; ac_NKeyPublic := "AAPI" |}.
Definition web_credential : AgentCredential :=
  {| ac_ID := "uuid-credential"; ac_UserID := "id-alice"; ac_HostSlug := "laptop"; ac_ProjectSlug := "web"; ac_NKeyPublic := "AWEB" |}.
End LifecycleDemo.
Import LifecycleDemo.

Lemma lifecycle_refines_access_witness :
  refines_access (nm_Subject revoke_msg) tables (db (handle_lifecycle RRevokeAccess (env_at 100) revoke_msg server)).
Proof. apply (lifecycle_refines_access RRevokeAccess (env_at 100) revoke_msg server). vm_compute. reflexivity. Defined.

Lemma agent_register_sound_witness :
  let s' := handleAgentRegister (env_at 100) register_msg server in
  ∃ u h p hp, u ∈ users tables ∧ u_ID u = "id-alice"%string ∧ h ∈ hosts tables ∧ h_Slug h = "laptop"%string ∧
    "laptop"%string = part 2 (Split "."%char (nm_Subject register_msg)) ∧ has_access tables (u_ID u) h ∧
    p ∈ projects tables ∧ p_UserID p = u_ID u ∧ p_Slug p = "web"%string ∧ hp ∈ hosts tables ∧ h_ID hp = p_HostID p ∧ h_Slug hp = "laptop"%string.
Proof.
  refine (proj1 (agent_register_sound (env_at 100) register_msg server web_credential _ _ _)).
  - vm_compute. reflexivity.
  - apply (list_elem_of_lookup_2 _ 1%nat). vm_compute. reflexivity.
  - intros H%list_elem_of_singleton. discriminate H.
Defined.

Lemma revoked_access_returns_witness :
  ∃ jwt, issueJWTForNKey (env_at 200) "AAPI" (handleManageRevokeAccess (env_at 100) revoke_msg server) =
      (Ok jwt, handleManageRevokeAccess (env_at 100) revoke_msg server) ∧ jc_IssuedAt jwt = 200 ∧
    jc_Perms jwt = SessionAgentSubjectPermissions "bob" "laptop" "api".
Proof.
  apply (revoked_access_returns (env_at 100) (env_at 200) revoke_msg server api_credential bob).
  - vm_compute. reflexivity.
  - done.
  - left.
  - right. left.
  - done.
  - apply Forall_forall. repeat constructor; discriminate.
  - apply Forall_forall. repeat constructor; discriminate.
Defined.


Lemma emergency_revocation_returns_witness :
  ∃ jwt s2, issueJWTForNKey (env_at 200) "HLAPTOP"
      (handleManageRevoke (env_at 100) (msg "mclaude.users.alice.hosts.laptop.manage.revoke" "") server) = (Ok jwt, s2) ∧
    jc_IssuedAt jwt = 200 ∧ jc_Perms jwt = HostSubjectPermissions "laptop".
Proof.
  apply (emergency_revocation_returns (env_at 100) (env_at 200) _ server laptop "HLAPTOP").
  - vm_compute. reflexivity.
  - done.
  - left.
  - done.
  - apply Forall_forall. repeat constructor; discriminate.
Defined.
