(* ===== verification/HostApi.v ===== *)
(** * Hosts over HTTP and presence (mclaude-control-plane: hosts.go, sys_subscriber.go)

    Creation, renaming, listing and deletion of hosts by their owner, the
    registration of a host with a device code, and the bookkeeping of hosts that
    connect and disconnect. *)

From stdpp Require Import sorting.
From S2P Require Import Prelude GoStrings Slug Subjects Json Permissions Database ControlServer HostLifecycle.
Open Scope Z_scope.

Section hosts.
Context `{PG : Postgres, JS : JsonStream, UT : UnicodeTables, NO : Normalizer}.

(** ** Listing: the owned hosts, oldest first *)

Definition handleListHosts (e : cp_env) (userID : string) (s : Server) : Server :=
  if negb (cf_db (config s)) then http_error 503 "service unavailable" s
  else if ce_down e "ListHosts" then http_error 500 "query error" s
  else http_json 200 (HHosts (merge_sort (λ x y, Is_true (h_CreatedAt x <=? h_CreatedAt y))
         (select (λ h, String.eqb (h_UserID h) userID) (hosts (db s))))) s.

(** ** Creation *)

Record HostCreateRequest := { hc_Slug : string; hc_Name : string; hc_PublicKey : string }.
Definition HostCreateRequest_fields : list (field HostCreateRequest) :=
  [ fld "slug" dec_string hc_Slug (λ v r, {| hc_Slug := v; hc_Name := hc_Name r; hc_PublicKey := hc_PublicKey r |});
    fld "name" dec_string hc_Name (λ v r, {| hc_Slug := hc_Slug r; hc_Name := v; hc_PublicKey := hc_PublicKey r |});
    fld "publicKey" dec_string hc_PublicKey (λ v r, {| hc_Slug := hc_Slug r; hc_Name := hc_Name r; hc_PublicKey := v |}) ].

(** The token of a new host: for the key it brings, or for a generated one. *)
Definition host_token (e : cp_env) (publicKey userSlug hostSlug : string) : option jwt_claims :=
  if negb (String.eqb publicKey "") then IssueHostJWT (ce_signErr e) (Unix (ce_now e)) publicKey hostSlug
  else IssueHostJWTLegacy (ce_signErr e) (Unix (ce_now e)) (ce_uuid e "nkey") userSlug hostSlug.

Definition new_host (e : cp_env) (userID slug name publicKey : string) (jwt : jwt_claims) : Host :=
  {| h_ID := ce_uuid e "host"; h_UserID := userID; h_Slug := slug; h_Name := name; h_Type := "machine"; h_Role := "owner";
     h_DirectNATSURL := None; h_PublicKey := Some publicKey; h_UserJWT := Some jwt; h_NatsJWT := None; h_CreatedAt := ce_now e; h_LastSeenAt := None |}.

Definition handleCreateHost (e : cp_env) (body userID : string) (s : Server) : Server :=
  if negb (cf_db (config s)) then http_error 503 "service unavailable" s
  else
    match decode_body (dec_struct HostCreateRequest_fields) {| hc_Slug := ""; hc_Name := ""; hc_PublicKey := "" |} body with
    | None => http_error 400 "invalid request body" s
    | Some req =>
      if String.eqb (hc_Slug req) "" || String.eqb (hc_Name req) "" then http_error 400 "slug and name are required" s
      else
        match lookup_row (ce_down e "GetUserByID") (GetUserByID userID (db s)) with
        | None => http_error 404 "user not found" s
        | Some user =>
          match host_token e (hc_PublicKey req) (u_Slug user) (hc_Slug req) with
          | None => http_error 500 "failed to issue host jwt" s
          | Some jwt =>
            match Exec (ce_down e "InsertHost") (InsertHost (new_host e userID (hc_Slug req) (hc_Name req) (hc_PublicKey req) jwt)) (db s) with
            | Err err => if is_unique_error err then http_error 409 "host slug already exists" s else http_error 500 "failed to create host" s
            | Ok t => http_json 201 (HHost (ce_uuid e "host") (hc_Slug req) (hc_Name req) jwt) (set_db t s)
            end
          end
        end
    end.

(** ** Renaming and deletion: of the rows of the user with the slug *)

Definition user_host (userID hslug : string) (h : Host) : bool := String.eqb (h_UserID h) userID && String.eqb (h_Slug h) hslug.

Definition handleUpdateHost (e : cp_env) (body userID hslug : string) (s : Server) : Server :=
  if negb (cf_db (config s)) then http_error 503 "service unavailable" s
  else
    match decode_body (dec_struct [ ("name", dec_string) ]) ""%string body with
    | None => http_error 400 "invalid request body" s
    | Some name =>
      if String.eqb name "" then http_error 400 "name is required" s
      else
        match Exec (ce_down e "UpdateHost") (λ t, set_hosts (update_where (user_host userID hslug) (with_name name) (hosts t)) t) (db s) with
        | Err _ => http_error 500 "update error" s
        | Ok t =>
          if (length (select (user_host userID hslug) (hosts (db s))) =? 0)%nat then http_error 404 "host not found" (set_db t s)
          else http_json 200 (HStatus "updated") (set_db t s)
        end
    end.

(** [publishProjectsUpdated]. *)
Definition publishProjectsUpdated (userSlug : string) (s : Server) : Server :=
  if negb (cf_nc (config s)) || String.eqb userSlug "" then s
  else send (Published (UserAPIProjectsUpdated userSlug) (JObj [("event", JStr "updated")])) s.

Definition handleDeleteHost (e : cp_env) (userID hslug : string) (s : Server) : Server :=
  if negb (cf_db (config s)) then http_error 503 "service unavailable" s
  else
    let s :=
      if cf_nc (config s) || cf_s3 (config s) then
        match lookup_row (ce_down e "GetUserByID") (GetUserByID userID (db s)) with
        | None => s
        | Some user =>
          let projs := if ce_down e "GetProjectsByHostSlug" then [] else GetProjectsByHostSlug userID hslug (db s) in
          let s := fold_left (drain_project (u_Slug user) hslug) projs s in
          publishProjectsUpdated (u_Slug user) s
        end
      else s in
    match Exec (ce_down e "DeleteHost") (delete_hosts (user_host userID hslug)) (db s) with
    | Err _ => http_error 500 "delete error" s
    | Ok t =>
      if (length (select (user_host userID hslug) (hosts (db s))) =? 0)%nat then http_error 404 "host not found" (set_db t s)
      else http_json 204 HEmpty (set_db t s)
    end.

(** ** Device codes *)

Definition codeTTL : Z := 600 * Second.

(** The code is the six hexadecimal digits drawn as [ce_uuid "code"]; [None] of
    the nonce source means that drawing it fails. *)
Definition handleHostCodeCreate (e : cp_env) (body userID : string) (s : Server) : Server :=
  match decode_body (dec_struct [ ("publicKey", dec_string) ]) ""%string body with
  | None => http_error 400 "invalid request body" s
  | Some publicKey =>
    if String.eqb publicKey "" then http_error 400 "publicKey is required" s
    else
      match ce_nonce e with
      | None => http_error 500 "failed to generate code" s
      | Some _ =>
        let code := ce_uuid e "code" in
        let expiresAt := ce_now e + codeTTL in
        let entry := {| dc_UserID := userID; dc_PublicKey := publicKey; dc_ExpiresAt := expiresAt; dc_Completed := false; dc_Slug := ""; dc_JWT := None |} in
        http_json 201 (HCode code (Unix expiresAt)) (set_deviceCodes (<[code := entry]> (deviceCodes s)) s)
      end
  end.

Definition handleHostCodeStatus (e : cp_env) (userID code : string) (s : Server) : Server :=
  match deviceCodes s !! code with
  | None => http_error 404 "code not found" s
  | Some entry =>
    if dc_ExpiresAt entry <? ce_now e then http_error 410 "code expired" s
    else if negb (String.eqb (dc_UserID entry) userID) then http_error 403 "forbidden" s
    else if dc_Completed entry
    then http_json 200 (HCodeStatus "completed" (dc_Slug entry) (dc_JWT entry) (Unix (dc_ExpiresAt entry))) s
    else http_json 200 (HCodeStatus "pending" "" None (Unix (dc_ExpiresAt entry))) s
  end.

Definition HostRegisterRequest_fields : list (field (string * string)) :=
  [ fld "code" dec_string fst (λ v r, (v, r.2)); fld "name" dec_string snd (λ v r, (r.1, v)) ].

Definition complete_code (slug : string) (jwt : jwt_claims) (entry : deviceCodeEntry) : deviceCodeEntry :=
  {| dc_UserID := dc_UserID entry; dc_PublicKey := dc_PublicKey entry; dc_ExpiresAt := dc_ExpiresAt entry; dc_Completed := true;
     dc_Slug := slug; dc_JWT := Some jwt |}.

Definition code_host_slug (e : cp_env) (code name : string) : string :=
  let s := slugify (ce_uuidBytes e) name in
  if String.eqb s "" then ("host-" +:+ take_str 4 code)%string else s.

(** The row a redeemed code inserts, or what a conflict updates. *)
Definition redeem (e : cp_env) (code name : string) (entry : deviceCodeEntry) (s : Server) : Server :=
  if negb (cf_db (config s)) then http_error 503 "service unavailable" s
  else
    let hostSlug := code_host_slug e code name in
    match lookup_row (ce_down e "GetUserByID") (GetUserByID (dc_UserID entry) (db s)) with
    | None => http_error 500 "user not found" s
    | Some user =>
      match host_token e (dc_PublicKey entry) (u_Slug user) hostSlug with
      | None => http_error 500 "failed to issue host jwt" s
      | Some jwt =>
        let h := new_host e (dc_UserID entry) hostSlug name (dc_PublicKey entry) jwt in
        match ExecUpsertHost (ce_down e "InsertHost") h
                (λ g, with_jwts (Some jwt) (h_NatsJWT g) (with_key (dc_PublicKey entry) (with_name name g))) (db s) with
        | Err _ => http_error 500 "failed to register host" s
        | Ok t =>
          http_json 201 (HRegistered hostSlug jwt)
            (set_deviceCodes (<[code := complete_code hostSlug jwt entry]> (deviceCodes s)) (set_db t s))
        end
      end
    end.

(** [handleHostRegister], without a concurrent redemption of the same code: the
    lock is not held from the check to the completion. *)
Definition handleHostRegister (e : cp_env) (method body : string) (s : Server) : Server :=
  if negb (String.eqb method "POST") then http_error 405 "method not allowed" s
  else
    match decode_body (dec_struct HostRegisterRequest_fields) ("", "")%string body with
    | None => http_error 400 "invalid request body" s
    | Some (code, name) =>
      if String.eqb code "" || String.eqb name "" then http_error 400 "code and name are required" s
      else
        match deviceCodes s !! code with
        | None => http_error 404 "code not found" s
        | Some entry =>
          if dc_ExpiresAt entry <? ce_now e
          then http_error 410 "code expired, restart registration" (set_deviceCodes (delete code (deviceCodes s)) s)
          else if dc_Completed entry then http_error 409 "code already redeemed" s
          else redeem e code name entry s
        end
    end.

(** ** Presence *)

Record sysConnectEvent := { se_Kind : string; se_NKey : string }.

Definition sysConnectEvent_fields : list (field sysConnectEvent) :=
  [ ("client", λ j cur, dec_struct
      [ fld "kind" dec_string se_Kind (λ v r, {| se_Kind := v; se_NKey := se_NKey r |});
        fld "nkey" dec_string se_NKey (λ v r, {| se_Kind := se_Kind r; se_NKey := v |}) ] j cur) ].

Definition handleSysEvent `{JsonText} (e : cp_env) (data : string) (isConnect : bool) (s : Server) : Server :=
  if negb (cf_db (config s)) then s
  else
    match unmarshal (dec_struct sysConnectEvent_fields) {| se_Kind := ""; se_NKey := "" |} data with
    | None => s
    | Some evt =>
      let key := se_NKey evt in
      if String.eqb key "" then s
      else if negb (String.eqb (se_Kind evt) "Client") then s
      else
        let s := if isConnect
                 then exec_ignored (ce_down e "UpdateLastSeen")
                        (λ t, set_hosts (update_where (λ h, opt_eqb (h_PublicKey h) key) (with_last_seen (ce_now e)) (hosts t)) t) s
                 else s in
        if negb (cf_hostsKV (config s)) then s
        else
          match lookup_row (ce_down e "SelectHost") (GetHostByPublicKey key (db s)) with
          | None => s
          | Some h =>
            if isConnect
            then put_hostKV e (h_Slug h) {| hk_Slug := h_Slug h; hk_Type := h_Type h; hk_Name := h_Name h; hk_Online := true; hk_LastSeenAt := Some (ce_now e) |} s
            else
              match hostsKV s !! h_Slug h with
              | Some v => put_hostKV e (h_Slug h) (offline v) s
              | None => s
              end
          end
    end.

(** ** Routes *)

(** [handleHostRoutes], for an authenticated user. *)
Definition handleHostRoutes (e : cp_env) (method path body userID : string) (s : Server) : Server :=
  let parts := SplitN 4 (TrimPrefix path "/api/users/") in
  let n := length parts in
  if (n <? 2)%nat || negb (String.eqb (part 1 parts) "hosts") then http_error 404 "404 page not found" s
  else if String.eqb userID "" then http_error 401 "unauthorized" s
  else if (3 <=? n)%nat && String.eqb (part 2 parts) "code" then
    if String.eqb method "POST" && (n =? 3)%nat then handleHostCodeCreate e body userID s
    else if String.eqb method "GET" && (n =? 4)%nat then handleHostCodeStatus e userID (part 3 parts) s
    else http_error 404 "404 page not found" s
  else if String.eqb method "POST" && (n =? 2)%nat then handleCreateHost e body userID s
  else if String.eqb method "PUT" && (3 <=? n)%nat then handleUpdateHost e body userID (part 2 parts) s
  else if String.eqb method "DELETE" && (3 <=? n)%nat then handleDeleteHost e userID (part 2 parts) s
  else if String.eqb method "GET" && (n =? 2)%nat then handleListHosts e userID s
  else http_error 404 "404 page not found" s.

End hosts.
