(* ===== verification/HostSecurity.v ===== *)
(** * Credentials and host management together

    The permissions the control plane issues, composed with its handlers: whoever
    makes the control plane change a host's access is the user whose credential
    it is; and three ways in which host slugs break the isolation of hosts. *)

From S2P Require Import Prelude GoStrings Base64 Slug Subjects Json Permissions PermissionsSpec Database ControlServer Challenge ControlDemo ChallengeSpec HostLifecycle HostLifecycleSpec HostApi.
Open Scope Z_scope.

Section security.
Context `{PG : Postgres, JT : JsonText, JS : JsonStream, UT : UnicodeTables, NO : Normalizer, NS : NatsServer}.

(** A user's credential reaches below mclaude.users only the user's own name. *)
Lemma user_reaches u0 hs subject x rest :
  valid u0 → Forall valid hs → tokens subject = "mclaude"%string :: "users"%string :: x :: rest →
  may_publish (UserSubjectPermissions u0 hs) subject = true → x = u0.
Proof.
  intros Hu Hhs Ht. unfold may_publish.
  rewrite (allows_written _ _ _ [Lit "mclaude"; Lit "users"] (x :: rest) (user_pub_written u0 hs Hu Hhs)) by by rewrite Ht.
  rewrite existsb_app, existsb_flat_map. intros [H|H]%orb_true_iff.
  - cbn in H. rewrite !orb_false_r in H. destruct (var_not_wild "" u0 Hu) as [H1 H2]. cbn in H1, H2. rewrite H1, H2 in H.
    apply andb_true_iff in H as [H _]. by apply String.eqb_eq in H.
  - exfalso. clear -H. induction hs as [|h hs IH]; [done|]. cbn in H. auto.
Qed.

Lemma match_lit_inv t ps l : t ≠ "*"%string → t ≠ ">"%string → token_match (t :: ps) l → ∃ l', l = t :: l' ∧ token_match ps l'.
Proof. intros H1 H2 Hm. inversion Hm; subst; try done. eauto. Qed.

Lemma match_star_inv ps l : token_match ("*"%string :: ps) l → ∃ x l', l = x :: l' ∧ token_match ps l'.
Proof. intros Hm. inversion Hm; subst; try done. eauto. Qed.

(** The user part of a subject that a subscription for users delivers. *)
Lemma lifecycle_subject r subject :
  r ≠ RAgentRegister → nats_matches (lifecycle_pattern r) subject = true →
  ∃ rest, tokens subject = "mclaude"%string :: "users"%string :: requester subject :: rest.
Proof.
  intros Hr Hm%nats_matches_spec. unfold requester, part, tokens.
  fold (tokens subject).
  assert (Hp : ∃ ps, tokens (lifecycle_pattern r) = "mclaude"%string :: "users"%string :: "*"%string :: ps) by (destruct r; [by destruct Hr|..]; eexists; vm_compute; reflexivity).
  destruct Hp as [ps Hp]. rewrite Hp in Hm. apply match_lit_inv in Hm as (l1 & He1 & Hm); [|done..].
  apply match_lit_inv in Hm as (l2 & -> & Hm); [|done..]. apply match_star_inv in Hm as (x & l3 & -> & _).
  exists l3. change (Split "."%char subject) with (tokens subject). rewrite He1. reflexivity.
Qed.

(** Only the user whose credential it is can make the control plane change what
    hosts may be accessed by whom: a lifecycle message which that credential lets
    through and which changes owners, keys or grants is a step of this very user
    on an own host, or of an administrator. *)
Theorem credential_controls_own_hosts u0 hs r e msg s :
  valid u0 → Forall valid hs → r ≠ RAgentRegister → tables_ok (db s) = true →
  nats_matches (lifecycle_pattern r) (nm_Subject msg) = true →
  may_publish (UserSubjectPermissions u0 hs) (nm_Subject msg) = true →
  let s' := handle_lifecycle r e msg s in
  abstract (db s') ≠ abstract (db s) →
  ∃ u, u ∈ users (db s) ∧ u_Slug u = u0 ∧ access_step (u_ID u) (u_IsAdmin u) (abstract (db s)) (abstract (db s')).
Proof.
  intros Hu Hhs Hr Hok Hm Hp s' Hne. destruct (lifecycle_subject r _ Hr Hm) as [rest Ht].
  pose proof (user_reaches u0 hs _ _ _ Hu Hhs Ht Hp) as Hq.
  destruct (refines_request r e msg s Hok) as [_ [He|(u & Hin & Hs & Hstep)]]; [done|]. exists u. by rewrite <- Hq.
Qed.

(** ** Host slugs *)

(** Registration of a key for a host of the user [u]: after a successful one, the
    key is entitled to the host's credential. *)
Lemma host_registered e msg s hslug :
  let s' := handleNATSHostRegister e msg s in
  Replied (JObj [("ok", JBool true); ("slug", JStr hslug)]) ∈ replies s s' →
  ∃ req u, unmarshal (dec_struct NATSHostRegisterRequest_fields) {| hr_Name := ""; hr_Type := ""; hr_NKeyPublic := "" |} (nm_Data msg) = Some req ∧
    u ∈ users (db s) ∧ u_Slug u = requester (nm_Subject msg) ∧ hslug = registered_slug e (hr_Name req) ∧ tables_ok (db s') = true ∧
    agent_credentials (db s') = agent_credentials (db s) ∧ projects (db s') = projects (db s) ∧ users (db s') = users (db s) ∧
    host_access (db s') = host_access (db s) ∧
    (∀ h, h ∈ hosts (db s) → ∃ h', h' ∈ hosts (db s') ∧ h_ID h' = h_ID h ∧ h_UserID h' = h_UserID h ∧ h_Slug h' = h_Slug h) ∧
    ∃ h, h ∈ hosts (db s') ∧ h_UserID h = u_ID u ∧ h_Slug h = hslug ∧ h_PublicKey h = Some (hr_NKeyPublic req).
Proof.
  intros s'. unfold s', handleNATSHostRegister. clear s'.
  assert (Hone : ∀ p s0, sent s0 = sent s → Replied (JObj [("ok", JBool true); ("slug", JStr hslug)]) ∈ replies s (respond msg p s0) →
    p = JObj [("ok", JBool true); ("slug", JStr hslug)]).
  { intros p s0 Hs. unfold respond. destruct (nm_Reply msg).
    - rewrite (replies_send s (Replied p)); [|cbn; by rewrite Hs]. intros H%list_elem_of_singleton. by injection H.
    - unfold replies. rewrite Hs, drop_all. intros H. by apply elem_of_nil in H. }
  unfold replyNATSError. destruct (negb (cf_db _)); [intros H; by apply Hone in H|]. cbv zeta.
  destruct (_ <? _)%nat; [intros H; by apply Hone in H|]. destruct (unmarshal _ _ _) as [req|]; [|intros H; by apply Hone in H].
  destruct (_ || _); [intros H; by apply Hone in H|]. destruct (lookup_row _ _) as [u|] eqn:Hu; [|intros H; by apply Hone in H].
  apply lookup_row_Some, GetUserBySlug_elem in Hu as [Hu Hus].
  match goal with |- context [ExecUpsertHost _ ?h ?f _] => set (row := h); set (upd := f) end.
  destruct (ExecUpsertHost _ _ _ _) as [t|] eqn:Hx; [|intros H; by apply Hone in H]. intros H. apply Hone in H; [|done]. injection H as Hs.
  apply ExecUpsertHost_Ok in Hx as [-> Hok]. rewrite respond_db. cbn [db set_db].
  exists req, u. do 4 (split; [done|]). split; [done|]. do 4 (split; [done|]).
  unfold UpsertHost, upsert. cbn [hosts set_hosts]. destruct (existsb _ _) eqn:E; (split; [intros h Hh|]).
  - eexists. split; [apply elem_of_update_where; by exists h|]. by destruct (_ && _).
  - apply existsb_exists in E as (g & Hg%list_elem_of_In & Hsame). pose proof Hsame as [Hgu%String.eqb_eq Hgs%String.eqb_eq]%andb_true_iff.
    exists (upd g). split; [apply elem_of_update_where; exists g; by rewrite Hsame|]. cbn. by rewrite Hgu, Hgs.
  - exists h. split; [apply elem_of_app; by left|done].
  - exists row. split; [apply elem_of_app; right; by apply list_elem_of_singleton|]. done.
Qed.


(** Registration of an agent's key goes through for a project of the user that is
    the only one of its slug and lies on a host of the slug in the subject. *)
Lemma agent_register_succeeds e msg s v p hslug pslug key :
  tables_ok (db s) = true → no_failures e → cf_db (config s) = true →
  Split "."%char (nm_Subject msg) = ["mclaude"; "hosts"; hslug; "api"; "agents"; "register"]%string →
  unmarshal (dec_struct AgentRegisterRequest_fields) {| ar_UserSlug := ""; ar_ProjectSlug := ""; ar_NKeyPublic := "" |} (nm_Data msg) =
    Some {| ar_UserSlug := u_Slug v; ar_ProjectSlug := pslug; ar_NKeyPublic := key |} →
  u_Slug v ≠ ""%string → pslug ≠ ""%string → key ≠ ""%string →
  v ∈ users (db s) → (∃ h, h ∈ hosts (db s) ∧ h_Slug h = hslug ∧ has_access (db s) (u_ID v) h) →
  p ∈ projects (db s) → p_UserID p = u_ID v → p_Slug p = pslug → (∃ h, h ∈ hosts (db s) ∧ h_ID h = p_HostID p ∧ h_Slug h = hslug) →
  (∀ q, q ∈ projects (db s) → p_UserID q = u_ID v → p_Slug q = pslug → q = p) →
  ce_uuid e "credential" ∉ ac_ID <$> agent_credentials (db s) → key ∉ ac_NKeyPublic <$> agent_credentials (db s) →
  handleAgentRegister e msg s = replyNATSOK msg (set_db (UpsertAgentCredential (ce_uuid e "credential") (u_ID v) hslug pslug key (db s)) s).
Proof.
  intros Hok [Hd _] Hdb Hsub Hreq Hn1 Hn2 Hn3 Hv (h & Hh & Hhs & Ha) Hp Hpu Hps (hp & Hhp & Hhpid & Hhps) Honly Hid Hkey.
  unfold handleAgentRegister, lookup_row. rewrite Hdb, Hsub, Hreq. cbn [negb length part nth Nat.ltb Nat.leb ar_UserSlug ar_ProjectSlug ar_NKeyPublic]. cbv zeta.
  apply String.eqb_neq in Hn1, Hn2, Hn3. rewrite Hn1, Hn2, Hn3, !Hd. cbn [orb]. rewrite (GetUserBySlug_user _ v) by done.
  assert (existsb (λ x, String.eqb x hslug) (GetHostAccessSlugs (u_ID v) (db s)) = true) as ->.
  { apply existsb_exists. exists hslug. rewrite String.eqb_refl. split; [|done]. apply list_elem_of_In, GetHostAccessSlugs_elem. eauto. }
  cbn [negb]. destruct (GetProjectByUserAndSlug (u_ID v) pslug (db s)) as [[q qh]|] eqn:Hq.
  - apply GetProjectByUserAndSlug_elem in Hq as (Hq & Hqu & Hqs & h2 & Hh2 & Hh2id & Hh2s); [|done].
    assert (q = p) as -> by by apply Honly. assert (h2 = hp) as -> by (apply (unique_key h_ID (hosts (db s))); [apply (tables_ok_hosts _ Hok)|done..|congruence]).
    rewrite <- Hh2s, Hhps, String.eqb_refl. cbn [negb]. rewrite Exec_success; [done|]. apply upsert_credential_ok; try done.
    by apply list_elem_of_fmap_2.
  - exfalso. unfold GetProjectByUserAndSlug in Hq. apply first_row_none in Hq. apply fmap_nil_inv in Hq.
    assert (Hin : p ∈ select (λ p, String.eqb (p_UserID p) (u_ID v) && String.eqb (p_Slug p) pslug) (projects (db s))).
    { apply select_elem. split; [done|]. by rewrite Hpu, Hps, !String.eqb_refl. }
    rewrite Hq in Hin. by apply elem_of_nil in Hin.
Qed.

(** Host slugs are unique per user only, but credentials carry the bare slug.  Any
    user who registers a host with the slug of somebody else's host gets a key
    that is entitled to the same host credential; with it the user can register
    an agent key for a project on the other host, and this key is entitled to the
    credential of that project's agent. *)
Theorem same_slug_takeover e1 m1 e2 m2 s v p hslug pslug req kAgent :
  let s1 := handleNATSHostRegister e1 m1 s in
  let s2 := handleAgentRegister e2 m2 s1 in
  tables_ok (db s) = true → valid hslug →
  v ∈ users (db s) → u_Slug v ≠ ""%string → (∃ h, h ∈ hosts (db s) ∧ h_Slug h = hslug ∧ has_access (db s) (u_ID v) h) →
  p ∈ projects (db s) → p_UserID p = u_ID v → p_Slug p = pslug → pslug ≠ ""%string →
  (∃ h, h ∈ hosts (db s) ∧ h_ID h = p_HostID p ∧ h_Slug h = hslug) →
  (∀ q, q ∈ projects (db s) → p_UserID q = u_ID v → p_Slug q = pslug → q = p) →
  (* the attacker's registration is accepted *)
  unmarshal (dec_struct NATSHostRegisterRequest_fields) {| hr_Name := ""; hr_Type := ""; hr_NKeyPublic := "" |} (nm_Data m1) = Some req →
  Replied (JObj [("ok", JBool true); ("slug", JStr hslug)]) ∈ replies s s1 →
  (* the attacker's message as a host *)
  no_failures e2 → cf_db (config s1) = true → nm_Subject m2 = render_resource (PermissionsSpec.RAgentRegister hslug) →
  unmarshal (dec_struct AgentRegisterRequest_fields) {| ar_UserSlug := ""; ar_ProjectSlug := ""; ar_NKeyPublic := "" |} (nm_Data m2) =
    Some {| ar_UserSlug := u_Slug v; ar_ProjectSlug := pslug; ar_NKeyPublic := kAgent |} →
  kAgent ≠ ""%string → ce_uuid e2 "credential" ∉ ac_ID <$> agent_credentials (db s) → kAgent ∉ ac_NKeyPublic <$> agent_credentials (db s) →
  entitled (db s1) (hr_NKeyPublic req) (HostSubjectPermissions hslug) ∧
  may_publish (HostSubjectPermissions hslug) (nm_Subject m2) = true ∧
  entitled (db s2) kAgent (SessionAgentSubjectPermissions (u_Slug v) hslug pslug).
Proof.
  intros s1 s2 Hok Hvs Hv Hvne (h & Hh & Hhs & Ha) Hp Hpu Hps Hpne (hp & Hhp & Hhpid & Hhps) Honly Hreq Hrep Hnf Hdb Hsub Hreq2 Hkne Hid Hkey.
  destruct (host_registered e1 m1 s hslug Hrep) as (req' & u & Hreq' & _ & _ & _ & Hok1 & Hac & Hpr & Hus & Hacc & Hold & hn & Hhn & _ & Hhns & Hhnk).
  fold s1 in Hok1, Hac, Hpr, Hus, Hacc, Hold, Hhn. rewrite Hreq in Hreq'. injection Hreq' as <-.
  split; [rewrite <- Hhns; by apply entitled_host|]. split.
  { rewrite Hsub. rewrite (proj1 (host_allows hslug (PermissionsSpec.RAgentRegister hslug) Hvs Hvs)). cbn. apply String.eqb_refl. }
  assert (Hs2 : s2 = replyNATSOK m2 (set_db (UpsertAgentCredential (ce_uuid e2 "credential") (u_ID v) hslug pslug kAgent (db s1)) s1)).
  { unfold s2. destruct (Hold h Hh) as (h' & Hh' & Hi' & Hu' & Hl'). destruct (Hold hp Hhp) as (hp' & Hhp' & Hpi' & _ & Hpl').
    apply (agent_register_succeeds e2 m2 s1 v p hslug pslug kAgent); rewrite ?Hpr, ?Hac, ?Hus; try done.
    - rewrite Hsub. change (Split "."%char) with tokens. apply (tokens_join ["mclaude"; "hosts"; hslug; "api"; "agents"; "register"]%string); [done|].
      repeat (apply Forall_cons; split); try apply Forall_nil; try done. by apply valid_slug_no_dot.
    - exists h'. split; [done|]. split; [congruence|]. unfold has_access in *. by rewrite Hu', Hi', Hacc.
    - exists hp'. split; [done|]. split; congruence. }
  rewrite Hs2. replies_away. cbn [db set_db].
  apply (entitled_agent _ _ {| ac_ID := ce_uuid e2 "credential"; ac_UserID := u_ID v; ac_HostSlug := hslug; ac_ProjectSlug := pslug; ac_NKeyPublic := kAgent |} v); try done.
  - apply upsert_credential_spec. by left.
  - cbn. by rewrite Hus.
Qed.

(** The HTTP endpoint does not check the slug of a new host: the slug "*" gets a
    credential that reaches the subjects of every host. *)
Theorem star_host_reaches_all e body userID s id name jwt h u p :
  Responded 201 (HHost id "*" name jwt) ∈ replies s (handleCreateHost e body userID s) →
  valid h → valid u → valid p →
  may_publish (jc_Perms jwt) (render_resource (PermissionsSpec.RAgentRegister h)) = true ∧
  may_publish (jc_Perms jwt) (render (SHostCreate h u p)) = true ∧
  may_receive (jc_Perms jwt) (render (SHostCreate h u p)) = true.
Proof.
  intros Hin Hh Hu Hp.
  assert (Hperms : jc_Perms jwt = HostSubjectPermissions "*").
  { revert Hin. unfold handleCreateHost, http_error, http_json.
    assert (Hone : ∀ s' o r, sent s' = sent s → r ∈ replies s (send o s') → r = o).
    { intros s' o r Hs Hr. rewrite (replies_send s o) in Hr; [|cbn; by rewrite Hs]. by apply list_elem_of_singleton in Hr. }
    destruct (negb _); [intros H; by apply Hone in H|]. destruct (decode_body _ _ _) as [req|]; [|intros H; by apply Hone in H].
    destruct (_ || _); [intros H; by apply Hone in H|]. destruct (lookup_row _ _) as [v|]; [|intros H; by apply Hone in H].
    destruct (host_token _ _ _ _) as [j|] eqn:Hj; [|intros H; by apply Hone in H].
    destruct (Exec _ _ _) as [t|err]; [|destruct (is_unique_error err); intros H; by apply Hone in H].
    intros H. apply Hone in H; [|done]. injection H as _ Hs _ <-. unfold host_token in Hj. rewrite <- Hs in Hj.
    destruct (negb _); by apply issued_claims in Hj as (_ & _ & -> & _). }
  rewrite Hperms.
  assert (Ht : ∀ a, no_dot a → ∀ l, l ≠ [] → Forall no_dot l → tokens (Join "." ("mclaude"%string :: "hosts"%string :: a :: l)) = "mclaude"%string :: "hosts"%string :: a :: l).
  { intros a Ha l Hl Hf. apply tokens_join; [done|]. by repeat (apply Forall_cons; split). }
  assert (Hm : ∀ subject a l, tokens subject = "mclaude"%string :: "hosts"%string :: a :: l → l ≠ [] →
    may_publish (HostSubjectPermissions "*") subject = true ∧ may_receive (HostSubjectPermissions "*") subject = true).
  { intros subject a l Hs Hl. unfold may_publish, may_receive, allows. cbn [PubAllow SubAllow HostSubjectPermissions existsb].
    rewrite !nats_tokens, Hs. destruct l as [|b l]; [done|]. split; reflexivity. }
  assert (H1 : tokens (render_resource (PermissionsSpec.RAgentRegister h)) = ["mclaude"; "hosts"; h; "api"; "agents"; "register"]%string).
  { apply (Ht h (valid_slug_no_dot h Hh) ["api"; "agents"; "register"]%string); [done|]. by repeat (apply Forall_cons; split). }
  assert (H2 : tokens (render (SHostCreate h u p)) = ["mclaude"; "hosts"; h; "users"; u; "projects"; p; "create"]%string).
  { apply (Ht h (valid_slug_no_dot h Hh) ["users"; u; "projects"; p; "create"]%string); [done|].
    repeat (apply Forall_cons; split); try done; by apply valid_slug_no_dot. }
  split; [by eapply Hm; [exact H1|]|]. by eapply Hm; [exact H2|].
Qed.

(** ** Two hosts with one slug *)

Definition is_manage (r : lifecycle_request) : bool :=
  match r with RGrant | RRevokeAccess | RDeregister | RRevoke | RRekey | RUpdate => true | _ => false end.

(** Nothing but an answer. *)
Definition only_answers (msg : nats_msg) (s s' : Server) : Prop := ∃ p, s' = respond msg p s.

(** A requester without rights on the host that the slug stands for changes nothing. *)
Lemma stranger_only_answered r e msg s u h :
  is_manage r = true → owns u h = false → u_IsAdmin u = false →
  (∀ uslug hslug, parseManageSubject (nm_Subject msg) = (uslug, hslug) → GetUserBySlug uslug (db s) = Some u ∧ GetHostBySlug hslug (db s) = Some h) →
  only_answers msg s (handle_lifecycle r e msg s).
Proof.
  intros Hr Ho Ha Hp. destruct (parseManageSubject (nm_Subject msg)) as [uslug hslug] eqn:Hs. destruct (Hp _ _ eq_refl) as [Hu Hh].
  assert (Hm : ∀ who, (∃ err, manage_parties e who uslug hslug s = Err err) ∨ manage_parties e who uslug hslug s = Ok (u, h)).
  { intros who. unfold manage_parties, lookup_row. destruct (ce_down e "GetUserBySlug"); [left; by eexists|]. rewrite Hu.
    destruct (ce_down e "GetHostBySlug"); [left; by eexists|]. rewrite Hh. by right. }
  destruct r; try discriminate Hr; cbn [handle_lifecycle]; unfold handleManageGrant, handleManageRevokeAccess, handleManageDeregister, handleManageRevoke,
    handleManageRekey, handleManageUpdate, replyNATSError, replyNATSForbidden; rewrite Hs; (destruct (negb (cf_db _)); [by eexists|]); (destruct (_ || _); [by eexists|]).
  - destruct (userSlug_request _); [|by eexists]. destruct (Hm "owner"%string) as [[err ->]| ->]; [by eexists|]. rewrite Ho. by eexists.
  - destruct (userSlug_request _); [|by eexists]. destruct (Hm "owner"%string) as [[err ->]| ->]; [by eexists|]. rewrite Ho. by eexists.
  - destruct (Hm "user"%string) as [[err ->]| ->]; [by eexists|]. rewrite Ho, Ha. by eexists.
  - destruct (Hm "user"%string) as [[err ->]| ->]; [by eexists|]. rewrite Ho, Ha. by eexists.
  - destruct (nkeyPublic_request _); [|by eexists]. destruct (Hm "user"%string) as [[err ->]| ->]; [by eexists|]. rewrite Ho. by eexists.
  - destruct (unmarshal _ _ _) as [[n t]|]; [|by eexists]. destruct (_ && _); [by eexists|].
    destruct (Hm "user"%string) as [[err ->]| ->]; [by eexists|]. rewrite Ho, Ha. by eexists.
Qed.

(** Hosts of two users may have the same slug (every user has a host "local"), but
    management requests name a host by its slug alone: for any two owners of hosts
    with one slug, one of them can manage nothing.  Whatever this owner asks for
    is only answered. *)
Theorem one_owner_of_a_slug s u1 u2 h1 h2 hslug :
  tables_ok (db s) = true → u1 ∈ users (db s) → u2 ∈ users (db s) → u_ID u1 ≠ u_ID u2 → u_IsAdmin u1 = false → u_IsAdmin u2 = false →
  h1 ∈ hosts (db s) → h_UserID h1 = u_ID u1 → h_Slug h1 = hslug → h_Role h1 = "owner"%string →
  h2 ∈ hosts (db s) → h_UserID h2 = u_ID u2 → h_Slug h2 = hslug →
  ∃ loser, (loser = u1 ∨ loser = u2) ∧
    ∀ r e msg, is_manage r = true → parseManageSubject (nm_Subject msg) = (u_Slug loser, hslug) → only_answers msg s (handle_lifecycle r e msg s).
Proof.
  intros Hok Hu1 Hu2 Hne Ha1 Ha2 Hh1 Ho1 Hs1 Hr1 Hh2 Ho2 Hs2.
  destruct (first_row_exists (λ g, String.eqb (h_Slug g) hslug && String.eqb (h_Role g) "owner") (hosts (db s)) h1) as [g Hg];
    [done|by rewrite Hs1, Hr1, !String.eqb_refl|].
  assert (Hlose : ∀ u, u ∈ users (db s) → u_IsAdmin u = false → owns u g = false → ∀ r e msg, is_manage r = true →
    parseManageSubject (nm_Subject msg) = (u_Slug u, hslug) → only_answers msg s (handle_lifecycle r e msg s)).
  { intros u Hu Ha Ho r e msg Hr Hp. apply (stranger_only_answered _ _ _ _ u g); [done..|]. intros us hs Hp'. rewrite Hp in Hp'. injection Hp' as <- <-.
    split; [by apply GetUserBySlug_user|done]. }
  destruct (owns u1 g) eqn:Ho; [exists u2|exists u1]; (split; [tauto|]); apply Hlose; try done.
  apply String.eqb_eq in Ho. apply String.eqb_neq. congruence.
Qed.

End security.

(** ** Examples *)

#[local] Existing Instances demo_pg demo_nkeys demo_text demo_stream demo_tables demo_norm doc_nats_server.

Lemma credential_controls_own_hosts_witness :
  let m := msg "mclaude.users.alice.hosts.laptop.manage.revoke-access" "bob" in
  ∃ u, u ∈ users tables ∧ u_Slug u = "alice"%string ∧
    access_step (u_ID u) (u_IsAdmin u) (abstract tables) (abstract (db (handle_lifecycle RRevokeAccess (env_at 100) m server))).
Proof.
  apply (credential_controls_own_hosts "alice" ["laptop"]%string RRevokeAccess (env_at 100)
    (msg "mclaude.users.alice.hosts.laptop.manage.revoke-access" "bob") server); try (vm_compute; reflexivity); try discriminate.
  by repeat constructor.
Defined.

Module TakeoverDemo.
(** Bob registers a host with the slug of Alice's laptop. *)
Definition m1 : nats_msg := msg "mclaude.users.bob.hosts._.register" "register host".
Definition m2 : nats_msg := msg "mclaude.hosts.laptop.api.agents.register" "register web".
Definition s1 : Server := handleNATSHostRegister (env_at 100) m1 server.
Definition s2 : Server := handleAgentRegister (env_at 110) m2 s1.
Definition web : Project := mk_project "proj-1" "id-alice" "web" "host-1".
Definition starred : Server := handleCreateHost (env_at 100) "create star" "id-bob" server.
Definition star_token : jwt_claims := {| jc_PublicKey := "HEVE"; jc_Name := "host-*"; jc_Expires := Some (100 + 300); jc_IssuedAt := 100;
  jc_Perms := HostSubjectPermissions "*" |}.
End TakeoverDemo.
Import TakeoverDemo.

Lemma same_slug_takeover_witness :
  entitled (db s1) "HBOB" (HostSubjectPermissions "laptop") ∧
  may_publish (HostSubjectPermissions "laptop") (nm_Subject m2) = true ∧
  entitled (db s2) "AWEB" (SessionAgentSubjectPermissions "alice" "laptop" "web").
Proof.
  apply (same_slug_takeover (env_at 100) m1 (env_at 110) m2 server alice web "laptop" "web"
    {| hr_Name := "Laptop"; hr_Type := ""; hr_NKeyPublic := "HBOB" |} "AWEB");
    try (vm_compute; reflexivity); try discriminate; try done.
  - left.
  - exists laptop. split_and!; [left|done|by left].
  - left.
  - exists laptop. split_and!; [left|done|done].
  - apply (proj1 (Forall_forall (λ q, p_UserID q = u_ID alice → p_Slug q = "web"%string → q = web) _)). repeat constructor; done.
  - apply (list_elem_of_lookup_2 _ 0%nat). vm_compute. reflexivity.
  - intros H%list_elem_of_singleton. discriminate H.
  - intros H%list_elem_of_singleton. discriminate H.
Defined.

Lemma star_host_reaches_all_witness :
  may_publish (jc_Perms star_token) "mclaude.hosts.laptop.api.agents.register" = true.
Proof.
  refine (proj1 (star_host_reaches_all (env_at 100) "create star" "id-bob" server "uuid-host" "Star" star_token "laptop" "alice" "web" _ _ _ _));
    try (vm_compute; reflexivity).
  apply (list_elem_of_lookup_2 _ 0%nat). vm_compute. reflexivity.
Defined.

Lemma one_owner_of_a_slug_witness :
  ∃ loser, (loser = alice ∨ loser = bob) ∧
    ∀ r e msg, is_manage r = true → parseManageSubject (nm_Subject msg) = (u_Slug loser, "local"%string) → only_answers msg server (handle_lifecycle r e msg server).
Proof.
  apply (one_owner_of_a_slug server alice bob alice_local bob_local "local"); try (vm_compute; reflexivity); try discriminate.
  - left.
  - right. left.
  - right. left.
  - right. right. left.
Defined.

