(* ===== verification/ProjectApi.v ===== *)
(** * Projects (mclaude-control-plane: projects.go, project_http.go, providers.go)

    Creation of projects over NATS and over HTTP, with the provisioning request
    to the host's controller, their listing and deletion, and the change of a
    project's git identity.  Parsing URLs is a parameter. *)

From S2P Require Import Prelude GoStrings Slug Subjects Json Permissions ObjectStore Database ControlServer HostLifecycle HostApi.
Open Scope Z_scope.

Section projects.
Context `{PG : Postgres, JT : JsonText, JS : JsonStream, UT : UnicodeTables, NO : Normalizer, UP : UrlParser}.

Definition extractHost (rawURL : string) : string :=
  let rawURL := if Contains rawURL "://" then rawURL else ("https://" +:+ rawURL)%string in
  default ""%string (url_hostname rawURL).

(** The git identity may be used by the user for the project's URL. *)
Definition identity_error (e : cp_env) (userID gitURL : string) (gitIdentityID : option string) : option (bool) :=
  match gitIdentityID with
  | None => None
  | Some id =>
    if String.eqb id "" then None
    else
      match lookup_row (ce_down e "GetOAuthConnectionByID") (ce_connection e id) with
      | None => Some true
      | Some (owner, baseURL) =>
        if negb (String.eqb owner userID) then Some true
        else if String.eqb gitURL "" then None
        else
          let projHost := extractHost gitURL in
          let connHost := extractHost baseURL in
          if negb (String.eqb projHost "") && negb (String.eqb connHost "") && negb (String.eqb projHost connHost) then Some false else None
      end
  end.

(** [writeProjectKV]: the entry of the project in its user's bucket. *)
Definition projectKV_key (userSlug hostSlug projectSlug : string) : string * string :=
  (userProjectsBucket userSlug, "hosts." +:+ hostSlug +:+ ".projects." +:+ projectSlug)%string.

Definition writeProjectKV (e : cp_env) (userSlug hostSlug : string) (p : Project) (s : Server) : Server :=
  if String.eqb userSlug "" || String.eqb hostSlug "" || String.eqb (p_Slug p) "" then s
  else
    let key := projectKV_key userSlug hostSlug (p_Slug p) in
    if ce_kvErr e key.2 then s else set_projectsKV (<[key := (p, hostSlug)]> (projectsKV s)) s.

(** [json.Marshal] of a [ProvisionRequest]. *)
Definition omitempty (name value : string) : list (string * json) := if String.eqb value "" then [] else [(name, JStr value)].

Definition provision_request (userID userSlug hostSlug : string) (p : Project) (gitURL gitIdentityID : string) : json :=
  JObj ([("userId", JStr userID); ("userSlug", JStr userSlug); ("hostSlug", JStr hostSlug); ("projectId", JStr (p_ID p));
         ("projectSlug", JStr (p_Slug p))] ++ omitempty "gitUrl" gitURL ++ omitempty "gitIdentityId" gitIdentityID).

(** [nc.Request]: fails without an answer in time, or when the answer says so. *)
Definition provision_failed (e : cp_env) (subject : string) : bool :=
  match ce_provision e subject with
  | None => true
  | Some data =>
    match unmarshal (dec_struct [ ("ok", dec_bool); ("projectSlug", λ j ok, (ok, (dec_string j "").2)); ("error", λ j ok, (ok, (dec_string j "").2));
                                  ("code", λ j ok, (ok, (dec_string j "").2)) ]) false data with
    | Some ok => negb ok
    | None => false
    end
  end.

Definition set_status (status : string) (p : Project) : Project :=
  {| p_ID := p_ID p; p_UserID := p_UserID p; p_Name := p_Name p; p_Slug := p_Slug p; p_GitURL := p_GitURL p; p_Status := status;
     p_HostID := p_HostID p; p_GitIdentityID := p_GitIdentityID p; p_ImportRef := p_ImportRef p; p_CreatedAt := p_CreatedAt p |}.

Record ProjectCreateRequest := { pc_Name : string; pc_GitURL : string; pc_GitIdentityID : option string; pc_HostSlug : string }.
Definition ProjectCreateRequest_fields : list (field ProjectCreateRequest) :=
  [ fld "name" dec_string pc_Name (λ v r, {| pc_Name := v; pc_GitURL := pc_GitURL r; pc_GitIdentityID := pc_GitIdentityID r; pc_HostSlug := pc_HostSlug r |});
    fld "gitUrl" dec_string pc_GitURL (λ v r, {| pc_Name := pc_Name r; pc_GitURL := v; pc_GitIdentityID := pc_GitIdentityID r; pc_HostSlug := pc_HostSlug r |});
    fld "gitIdentityId" (dec_pointer ""%string dec_string) pc_GitIdentityID (λ v r, {| pc_Name := pc_Name r; pc_GitURL := pc_GitURL r; pc_GitIdentityID := v; pc_HostSlug := pc_HostSlug r |});
    fld "hostSlug" dec_string pc_HostSlug (λ v r, {| pc_Name := pc_Name r; pc_GitURL := pc_GitURL r; pc_GitIdentityID := pc_GitIdentityID r; pc_HostSlug := v |}) ].
Definition zero_ProjectCreateRequest : ProjectCreateRequest := {| pc_Name := ""; pc_GitURL := ""; pc_GitIdentityID := None; pc_HostSlug := "" |}.

(** The insertion, with the names of its database calls. *)
Definition identity_known (e : cp_env) (gitIdentityID : option string) : bool :=
  match gitIdentityID with None => true | Some id => match ce_connection e id with Some _ => true | None => false end end.

Definition create_project (e : cp_env) (userID : string) (req : ProjectCreateRequest) (t : Tables) : result pg_error (Project * Tables) :=
  CreateProjectWithIdentity (ce_down e "SelectLocalHost") (ce_down e "SelectAnyHost") (ce_down e "InsertProject") (identity_known e (pc_GitIdentityID req))
    (ce_uuidBytes e) (ce_uuid e "project") userID (pc_Name req) (pc_GitURL req) (pc_GitIdentityID req) (ce_now e) t.

(** The provisioning request; [true] when it failed. *)
Definition provision (e : cp_env) (userID userSlug hostSlug : string) (p : Project) (req : ProjectCreateRequest) (s : Server) : bool * Server :=
  if String.eqb hostSlug "" then (false, s)
  else
    let subject := HostUserProjectsCreate hostSlug userSlug (p_Slug p) in
    (provision_failed e subject,
     send (Requested subject (provision_request userID userSlug hostSlug p (pc_GitURL req) (default ""%string (pc_GitIdentityID req)))) s).

(** ** Creation over NATS *)

(** What follows the insertion: the request to the host, and the announcement. *)
Definition provision_project (e : cp_env) (msg : nats_msg) (userID userSlug hostSlug : string) (p : Project) (req : ProjectCreateRequest) (s : Server) : Server :=
  let '(failed, s) := provision e userID userSlug hostSlug p req s in
  if (failed : bool) then
    let s := exec_ignored (ce_down e "UpdateProjectStatus") (UpdateProjectStatus (p_ID p) "failed") s in
    let s := writeProjectKV e userSlug hostSlug (set_status "failed" p) s in
    let s := publishProjectsUpdated userSlug s in
    replyError msg ("host " +:+ hostSlug +:+ " unreachable")%string s
  else
    let s := writeProjectKV e userSlug hostSlug p s in
    let s := publishProjectsUpdated userSlug s in
    send (Replied (JObj [("id", JStr (p_ID p))])) s.

Definition handleProjectCreate (e : cp_env) (msg : nats_msg) (userSlug subjectHostSlug : string) (s : Server) : Server :=
  if negb (cf_db (config s)) then replyError msg "service unavailable" s
  else if ce_down e "GetUserBySlug" then replyError msg "internal error" s
  else
    match GetUserBySlug userSlug (db s) with
    | None => replyError msg "user not found" s
    | Some user =>
      let userID := u_ID user in
      match unmarshal (dec_struct ProjectCreateRequest_fields) zero_ProjectCreateRequest (nm_Data msg) with
      | None => replyError msg "name required" s
      | Some req =>
        if String.eqb (pc_Name req) "" then replyError msg "name required" s
        else
          let hostSlug := if String.eqb subjectHostSlug "" then pc_HostSlug req else subjectHostSlug in
          match identity_error e userID (pc_GitURL req) (pc_GitIdentityID req) with
          | Some true => replyError msg "invalid gitIdentityId" s
          | Some false => replyError msg "gitIdentityId hostname does not match gitUrl" s
          | None =>
            match create_project e userID req (db s) with
            | Err _ => replyError msg "failed to create project" s
            | Ok (p, t) => provision_project e msg userID userSlug hostSlug p req (set_db t s)
            end
          end
      end
    end.

(** The subscriptions of [StartProjectsSubscriber]. *)
Definition on_projects_create (e : cp_env) (msg : nats_msg) (s : Server) : Server :=
  let parts := Split "."%char (nm_Subject msg) in
  if (length parts <? 3)%nat then replyError msg "malformed subject" s
  else handleProjectCreate e msg (part 2 parts) "" s.

Definition on_host_projects_create (e : cp_env) (msg : nats_msg) (s : Server) : Server :=
  let parts := Split "."%char (nm_Subject msg) in
  if (length parts <? 5)%nat then replyError msg "malformed subject" s
  else handleProjectCreate e msg (part 2 parts) (part 4 parts) s.

(** ** Over HTTP *)

(** The project's [HostSlug] is not read back after the insertion: without a host
    in the request the host is unknown. *)
Definition handleCreateProjectHTTP (e : cp_env) (body userID : string) (s : Server) : Server :=
  if negb (cf_db (config s)) then http_error 503 "service unavailable" s
  else
    match decode_body (dec_struct ProjectCreateRequest_fields) zero_ProjectCreateRequest body with
    | None => http_error 400 "invalid request body" s
    | Some req =>
      if String.eqb (pc_Name req) "" then http_error 400 "name is required" s
      else
        match create_project e userID req (db s) with
        | Err err => if is_unique_error err then http_error 409 "project slug already exists" s else http_error 500 "failed to create project" s
        | Ok (p, t) =>
          let s := set_db t s in
          let userSlug := match lookup_row (ce_down e "GetUserByID") (GetUserByID userID (db s)) with Some u => u_Slug u | None => ""%string end in
          let hostSlug := pc_HostSlug req in
          let connected := cf_nc (config s) && negb (String.eqb userSlug "") in
          let s := if connected then writeProjectKV e userSlug hostSlug p s else s in
          let s := if connected then (provision e userID userSlug hostSlug p req s).2 else s in
          let s := if connected then publishProjectsUpdated userSlug s else s in
          http_json 201 (HProject (p_ID p) (p_Slug p) (p_Name p) (p_GitURL p) (p_Status p) hostSlug) s
        end
    end.

Definition handleListProjectsHTTP (e : cp_env) (userID : string) (s : Server) : Server :=
  if negb (cf_db (config s)) then http_error 503 "service unavailable" s
  else if ce_down e "GetProjectsByUser" then http_error 500 "query error" s
  else http_json 200 (HProjects (GetProjectsByUser userID (db s))) s.

Definition handleGetProjectHTTP (e : cp_env) (userID pslug : string) (s : Server) : Server :=
  if negb (cf_db (config s)) then http_error 503 "service unavailable" s
  else
    match lookup_row (ce_down e "SelectProject") (GetProjectByUserAndSlug userID pslug (db s)) with
    | None => http_error 404 "project not found" s
    | Some (p, hslug) => http_json 200 (HProject (p_ID p) (p_Slug p) (p_Name p) (p_GitURL p) (p_Status p) hslug) s
    end.

Definition user_project (userID pslug : string) (p : Project) : bool := String.eqb (p_UserID p) userID && String.eqb (p_Slug p) pslug.

(** One project is announced; all of the user's projects of the slug go. *)
Definition handleDeleteProjectHTTP (e : cp_env) (userID pslug : string) (s : Server) : Server :=
  if negb (cf_db (config s)) then http_error 503 "service unavailable" s
  else
    match lookup_row (ce_down e "SelectProject") (GetProjectByUserAndSlug userID pslug (db s)) with
    | None => http_error 404 "project not found" s
    | Some (p, hslug) =>
      let userSlug := if cf_nc (config s) || cf_s3 (config s)
                      then match lookup_row (ce_down e "GetUserByID") (GetUserByID userID (db s)) with Some u => u_Slug u | None => ""%string end
                      else ""%string in
      let s := if cf_nc (config s) && negb (String.eqb userSlug "") && negb (String.eqb hslug "")
               then publishProjectsDeleteToHost userSlug hslug pslug (p_ID p) s else s in
      match Exec (ce_down e "DeleteProject") (delete_projects (user_project userID pslug)) (db s) with
      | Err _ => http_error 500 "delete error" s
      | Ok t =>
        if (length (select (user_project userID pslug) (projects (db s))) =? 0)%nat then http_error 404 "project not found" (set_db t s)
        else
          let s := set_db t s in
          let s := if cf_s3 (config s) && negb (String.eqb userSlug "") && negb (String.eqb hslug "")
                   then send (S3PrefixDeleted (userSlug +:+ "/" +:+ hslug +:+ "/" +:+ pslug +:+ "/")%string) s else s in
          let s := if cf_nc (config s) && negb (String.eqb userSlug "") then publishProjectsUpdated userSlug s else s in
          http_json 204 HEmpty s
      end
    end.

(** [handleProjectHTTPRoutes]. *)
Definition handleProjectHTTPRoutes (e : cp_env) (method path body userID : string) (s : Server) : Server :=
  let parts := SplitN 4 (TrimPrefix path "/api/users/") in
  let n := length parts in
  if (n <? 2)%nat || negb (String.eqb (part 1 parts) "projects") then http_error 404 "404 page not found" s
  else if String.eqb userID "" then http_error 401 "unauthorized" s
  else if String.eqb method "GET" && (n =? 2)%nat then handleListProjectsHTTP e userID s
  else if String.eqb method "POST" && (n =? 2)%nat then handleCreateProjectHTTP e body userID s
  else if String.eqb method "GET" && (3 <=? n)%nat then handleGetProjectHTTP e userID (part 2 parts) s
  else if String.eqb method "DELETE" && (3 <=? n)%nat then handleDeleteProjectHTTP e userID (part 2 parts) s
  else http_error 404 "404 page not found" s.

(** [handleUserAPIRoutes]. *)
Definition handleUserAPIRoutes (e : cp_env) (method path body userID : string) (s : Server) : Server :=
  let parts := SplitN 4 (TrimPrefix path "/api/users/") in
  if (length parts <? 2)%nat then http_error 404 "404 page not found" s
  else if String.eqb (part 1 parts) "hosts" then handleHostRoutes e method path body userID s
  else if String.eqb (part 1 parts) "projects" then handleProjectHTTPRoutes e method path body userID s
  else http_error 404 "404 page not found" s.

(** ** The git identity *)

(** [publishProjectsUpdateToHost]. *)
Definition publishProjectsUpdateToHost (userSlug hostSlug : string) (s : Server) : Server :=
  if negb (cf_nc (config s)) || String.eqb userSlug "" || String.eqb hostSlug "" then s
  else send (Published ("mclaude.users." +:+ userSlug +:+ ".hosts." +:+ hostSlug +:+ ".api.projects.update")%string
               (JObj [("event", JStr "credentials_changed")])) s.

Definition handlePatchProject (e : cp_env) (method path body userID : string) (s : Server) : Server :=
  if negb (String.eqb method "PATCH") then http_error 405 "method not allowed" s
  else if String.eqb userID "" then http_error 401 "unauthorized" s
  else
    let projectID := TrimPrefix path "/api/projects/" in
    if String.eqb projectID "" then http_error 400 "project_id required" s
    else
      match decode_body (dec_struct [ ("gitIdentityId", dec_pointer ""%string dec_string) ]) None body with
      | None => http_error 400 "invalid request body" s
      | Some identity =>
        if negb (cf_db (config s)) then http_error 503 "service unavailable" s
        else
          match lookup_row (ce_down e "GetProjectByID") (GetProjectByID projectID (db s)) with
          | None => http_error 404 "not found" s
          | Some (proj, _) =>
            if negb (String.eqb (p_UserID proj) userID) then http_error 404 "not found" s
            else
              match identity_error e userID (p_GitURL proj) identity with
              | Some true => http_error 400 "connection not found" s
              | Some false => http_error 400 "connection hostname does not match project git URL" s
              | None =>
                match (if identity_known e identity then Exec (ce_down e "UpdateProjectGitIdentity") (UpdateProjectGitIdentity projectID identity) (db s)
                       else Err OtherViolation) with
                | Err _ => http_error 500 "failed to update project" s
                | Ok t =>
                  let s := set_db t s in
                  let s :=
                    if cf_nc (config s) then
                      match lookup_row (ce_down e "GetProjectByID(updated)") (GetProjectByID projectID (db s)),
                            lookup_row (ce_down e "GetUserByID") (GetUserByID userID (db s)) with
                      | Some (p, hslug), Some u =>
                        let s := writeProjectKV e (u_Slug u) hslug p s in
                        let s := publishProjectsUpdateToHost (u_Slug u) hslug s in
                        publishProjectsUpdated (u_Slug u) s
                      | _, _ => s
                      end
                    else s in
                  http_json 200 HEmpty s
                end
              end
          end
      end.

End projects.
