(* ===== verification/ProjectSpec.v ===== *)
(** * What the projects API guarantees

    Where a created project lies and what becomes of it, who is asked to
    provision it, which rows a user's HTTP requests can touch, and the
    availability check of project slugs. *)

From stdpp Require Import sorting.
From S2P Require Import Prelude GoStrings Base64 Slug Subjects Json Permissions PermissionsSpec ObjectStore Database ControlServer Challenge ControlDemo ChallengeSpec HostLifecycle HostLifecycleSpec HostApi HostSecurity ProjectApi.
Open Scope Z_scope.

Section spec.
Context `{PG : Postgres, JT : JsonText, JS : JsonStream, UT : UnicodeTables, NO : Normalizer, UP : UrlParser, NS : NatsServer}.

(** ** Creation *)

Lemma create_project_inv e userID req t p t' :
  create_project e userID req t = Ok (p, t') →
  p_UserID p = userID ∧ p_Slug p = project_slug (ce_uuidBytes e) (pc_Name req) ∧
  default_host (ce_down e "SelectLocalHost") (ce_down e "SelectAnyHost") userID t = Some (p_HostID p) ∧
  t' = set_projects (projects t ++ [p]) t ∧ tables_ok t' = true.
Proof.
  unfold create_project, CreateProjectWithIdentity. destruct (default_host _ _ _ _) as [hid|]; [|done].
  destruct (Exec _ _ _) as [t1|] eqn:Hx; [|done]. destruct (identity_known e _); [|done]. intros [= <- <-].
  apply Exec_Ok in Hx as [-> Hok]. done.
Qed.

Lemma provision_db e uid uslug hslug p req s : db (provision e uid uslug hslug p req s).2 = db s.
Proof. unfold provision. by destruct (String.eqb hslug ""). Qed.

Lemma writeProjectKV_db e us hs p s : db (writeProjectKV e us hs p s) = db s.
Proof. unfold writeProjectKV. by repeat case_match. Qed.

Lemma publishProjectsUpdated_db us s : db (publishProjectsUpdated us s) = db s.
Proof. unfold publishProjectsUpdated. by case_match. Qed.

Lemma replyError_db m err s : db (replyError m err s) = db s.
Proof. apply respond_db. Qed.

(** *** Messages already sent stay sent *)

Definition grows (s s' : Server) : Prop := ∃ l, sent s' = sent s ++ l.

Lemma grows_refl s : grows s s.
Proof. exists []. by rewrite app_nil_r. Qed.
Lemma grows_trans s1 s2 s3 : grows s1 s2 → grows s2 s3 → grows s1 s3.
Proof. intros [l1 H1] [l2 H2]. exists (l1 ++ l2). by rewrite H2, H1, app_assoc. Qed.
Lemma grows_send s s' o : grows s s' → grows s (send o s').
Proof. intros [l H]. exists (l ++ [o]). cbn. by rewrite H, app_assoc. Qed.
Lemma grows_sent s s' s2 : sent s2 = sent s' → grows s s' → grows s s2.
Proof. intros He [l H]. exists l. by rewrite He. Qed.
Lemma grows_respond s s' m p : grows s s' → grows s (respond m p s').
Proof. unfold respond. destruct (nm_Reply m); [by apply grows_send|done]. Qed.
Lemma grows_writeProjectKV s s' e us hs p : grows s s' → grows s (writeProjectKV e us hs p s').
Proof. unfold writeProjectKV. by repeat case_match. Qed.
Lemma grows_published s s' us : grows s s' → grows s (publishProjectsUpdated us s').
Proof. unfold publishProjectsUpdated. case_match; [done|by apply grows_send]. Qed.
Lemma grows_exec s s' d f : grows s s' → grows s (exec_ignored d f s').
Proof. unfold exec_ignored. case_match; [|done]. by apply grows_sent. Qed.

Lemma replies_grow s s0 s1 o : grows s s0 → grows s0 s1 → o ∈ replies s s0 → o ∈ replies s s1.
Proof.
  intros [l H] [l1 H1]. unfold replies. rewrite H1, H, <- app_assoc, !drop_app_length. intros Ho. apply elem_of_app. by left.
Qed.

(** *** Over NATS *)

(** The host that is asked to provision the project. *)
Definition asked_host (subjectHostSlug : string) (req : ProjectCreateRequest) : string :=
  if String.eqb subjectHostSlug "" then pc_HostSlug req else subjectHostSlug.

(** What follows the insertion changes at most the status of the project, and the
    named host is asked. *)
Lemma provision_project_spec e msg uid uslug host p req s :
  let s' := provision_project e msg uid uslug host p req s in
  (db s' = db s ∨ db s' = UpdateProjectStatus (p_ID p) "failed" (db s) ∧ tables_ok (db s') = true) ∧
  (host ≠ ""%string → ∃ payload, Requested (HostUserProjectsCreate host uslug (p_Slug p)) payload ∈ replies s s').
Proof.
  intros s'. unfold s', provision_project. clear s'. destruct (provision _ _ _ _ _ _ _) as [failed s1] eqn:Hp.
  assert (Hs1 : db s1 = db s ∧ grows s s1 ∧ (host ≠ ""%string →
    ∃ payload, Requested (HostUserProjectsCreate host uslug (p_Slug p)) payload ∈ replies s s1)).
  { unfold provision in Hp. destruct (String.eqb_spec host ""); injection Hp as <- <-; (split; [done|]).
    - split; [apply grows_refl|done].
    - split; [apply grows_send, grows_refl|]. intros _. eexists.
      unfold replies. cbn [sent send]. rewrite drop_app_length. by apply list_elem_of_singleton. }
  destruct Hs1 as (Hdb & Hg & Hsent).
  assert (Hkeep : ∀ s2, grows s1 s2 → host ≠ ""%string → ∃ payload, Requested (HostUserProjectsCreate host uslug (p_Slug p)) payload ∈ replies s s2).
  { intros s2 H2 [payload Hin]%Hsent. exists payload. by eapply replies_grow. }
  destruct failed.
  - split.
    + rewrite replyError_db, publishProjectsUpdated_db, writeProjectKV_db. name_exec s1 s2 Hs2. rewrite Hdb in Hs2.
      destruct Hs2 as [->|[-> ?]]; [by left|by right].
    + apply Hkeep. apply grows_respond, grows_published, grows_writeProjectKV, grows_exec, grows_refl.
  - split; [left; cbn; by rewrite publishProjectsUpdated_db, writeProjectKV_db|].
    apply Hkeep. apply grows_send, grows_published, grows_writeProjectKV, grows_refl.
Qed.

(** What a creation leaves in the database: nothing new, or one more project, as
    [create_project] makes it, up to its status. *)
Lemma project_create_db e msg uslug hslug s :
  let s' := handleProjectCreate e msg uslug hslug s in
  db s' = db s ∨
  ∃ u req p t, u ∈ users (db s) ∧ u_Slug u = uslug ∧
    unmarshal (dec_struct ProjectCreateRequest_fields) zero_ProjectCreateRequest (nm_Data msg) = Some req ∧
    create_project e (u_ID u) req (db s) = Ok (p, t) ∧
    (db s' = t ∨ db s' = UpdateProjectStatus (p_ID p) "failed" t ∧ tables_ok (db s') = true) ∧
    (asked_host hslug req ≠ ""%string → ∃ payload, Requested (HostUserProjectsCreate (asked_host hslug req) uslug (p_Slug p)) payload ∈ replies s s').
Proof.
  intros s'. unfold s', handleProjectCreate. clear s'. destruct (negb (cf_db _)); [left; by rewrite replyError_db|].
  destruct (ce_down e "GetUserBySlug"); [left; by rewrite replyError_db|].
  destruct (GetUserBySlug uslug (db s)) as [u|] eqn:Hu; [|left; by rewrite replyError_db]. cbv zeta.
  destruct (unmarshal _ _ _) as [req|] eqn:Hreq; [|left; by rewrite replyError_db].
  destruct (String.eqb (pc_Name req) ""); [left; by rewrite replyError_db|].
  destruct (identity_error _ _ _ _) as [[]|]; [left; by rewrite replyError_db..|].
  destruct (create_project _ _ _ _) as [[p t]|] eqn:Hc; [|left; by rewrite replyError_db].
  apply GetUserBySlug_elem in Hu as [Hu Hus]. right. exists u, req, p, t. do 4 (split; [done|]).
  apply (provision_project_spec e msg (u_ID u) uslug (asked_host hslug req) p req (set_db t s)).
Qed.

(** *** The host of a created project *)

(** The project's host is one of the user's own hosts: the one called "local",
    or without it the oldest. *)
Lemma default_host_own d1 d2 userID t id :
  default_host d1 d2 userID t = Some id → ∃ h, h ∈ hosts t ∧ h_ID h = id ∧ h_UserID h = userID.
Proof.
  unfold default_host. cbv zeta.
  assert (Hown : ∀ p h, first_row (select p (select (λ h, String.eqb (h_UserID h) userID) (hosts t))) = Some h → h ∈ hosts t ∧ h_UserID h = userID).
  { intros q h [Hh _]%first_row_select. by apply select_elem in Hh as [? ?%String.eqb_eq]. }
  destruct (if d1 then None else _) as [h|] eqn:E1.
  - destruct d1; [done|]. intros [= <-]. apply Hown in E1 as []. by exists h.
  - destruct d2; [done|]. intros (h & E2 & ->)%fmap_Some. apply Hown in E2 as []. by exists h.
Qed.

Lemma default_host_local d2 userID t h :
  tables_ok t = true → h ∈ hosts t → h_UserID h = userID → h_Slug h = "local"%string → default_host false d2 userID t = Some (h_ID h).
Proof.
  intros Hok Hh Hu Hl. unfold default_host.
  destruct (first_row_exists (λ h, String.eqb (h_Slug h) "local") (select (λ h, String.eqb (h_UserID h) userID) (hosts t)) h) as [g E];
    [apply select_elem; by rewrite Hu, String.eqb_refl|by rewrite Hl|].
  rewrite E. apply first_row_select in E as [[Hg Hgu%String.eqb_eq]%select_elem Hgs%String.eqb_eq].
  do 2 f_equal. apply (unique_key (λ h, (h_UserID h, h_Slug h)) (hosts t)); [apply (tables_ok_hosts _ Hok)|done..|congruence].
Qed.

(** Registration of an agent for a project of one slug whose rows all lie on other
    hosts changes nothing. *)
Lemma register_elsewhere e msg s u uslug hslug pslug req :
  tables_ok (db s) = true → u ∈ users (db s) → u_Slug u = uslug →
  (∀ q h, q ∈ projects (db s) → p_UserID q = u_ID u → p_Slug q = pslug → h ∈ hosts (db s) → h_ID h = p_HostID q → h_Slug h ≠ hslug) →
  part 2 (Split "."%char (nm_Subject msg)) = hslug →
  unmarshal (dec_struct AgentRegisterRequest_fields) {| ar_UserSlug := ""; ar_ProjectSlug := ""; ar_NKeyPublic := "" |} (nm_Data msg) = Some req →
  ar_UserSlug req = uslug → ar_ProjectSlug req = pslug →
  db (handleAgentRegister e msg s) = db s.
Proof.
  intros Hok Hu Hus Hno Hh Hreq Hru Hrp.
  destruct (agent_register_inv e msg s Hok) as [Hs|(req' & v & p & h & hp & Hreq' & Hv & Hvs & _ & Hhs & _ & Hp & Hpu & Hps & Hhp & Hpid & Hphs & _)]; [done|].
  rewrite Hreq in Hreq'. injection Hreq' as <-.
  assert (v = u) as -> by (apply (unique_key u_Slug (users (db s))); [apply (tables_ok_users _ Hok)|done..|congruence]).
  destruct (Hno p hp); congruence.
Qed.

(** Whose a project is, its slug and its host; a change of status leaves them. *)
Definition placed (p : Project) : string * string * string := (p_UserID p, p_Slug p, p_HostID p).

Lemma status_placed id st t : placed <$> projects (UpdateProjectStatus id st t) = placed <$> projects t.
Proof.
  cbn. unfold update_where. rewrite <- list_fmap_compose. apply list_fmap_ext. intros _ p _. unfold compose. by destruct (String.eqb _ _).
Qed.

(** A project asked for on a host is created on the user's host "local" instead,
    while the named host is told to provision it; the agent that this host then
    starts can never register its key. *)
Theorem created_project_cannot_register e1 m1 e2 m2 s u hl uslug hslug req key :
  let s1 := handleProjectCreate e1 m1 uslug hslug s in
  let pslug := project_slug (ce_uuidBytes e1) (pc_Name req) in
  tables_ok (db s) = true → no_failures e1 → hslug ≠ ""%string → db s1 ≠ db s →
  unmarshal (dec_struct ProjectCreateRequest_fields) zero_ProjectCreateRequest (nm_Data m1) = Some req →
  u ∈ users (db s) → u_Slug u = uslug → hl ∈ hosts (db s) → h_UserID hl = u_ID u → h_Slug hl = "local"%string → hslug ≠ "local"%string →
  (∀ q h, q ∈ projects (db s) → p_UserID q = u_ID u → p_Slug q = pslug → h ∈ hosts (db s) → h_ID h = p_HostID q → h_Slug h ≠ hslug) →
  part 2 (Split "."%char (nm_Subject m2)) = hslug →
  unmarshal (dec_struct AgentRegisterRequest_fields) {| ar_UserSlug := ""; ar_ProjectSlug := ""; ar_NKeyPublic := "" |} (nm_Data m2) =
    Some {| ar_UserSlug := uslug; ar_ProjectSlug := pslug; ar_NKeyPublic := key |} →
  (∃ payload, Requested (HostUserProjectsCreate hslug uslug pslug) payload ∈ replies s s1) ∧
  (∃ p, p ∈ projects (db s1) ∧ p_UserID p = u_ID u ∧ p_Slug p = pslug ∧ p_HostID p = h_ID hl) ∧
  db (handleAgentRegister e2 m2 s1) = db s1.
Proof.
  intros s1 pslug Hok [Hd _] Hne Hch Hreq Hu Hus Hl Hlu Hls Hnl Hno Hh2 Hreq2.
  destruct (project_create_db e1 m1 uslug hslug s) as [?|(v & req' & p & t & Hv & Hvs & Hreq' & Hc & Hdb & Hsent)]; [done|].
  fold s1 in Hdb, Hsent. rewrite Hreq in Hreq'. injection Hreq' as <-.
  assert (v = u) as -> by (apply (unique_key u_Slug (users (db s))); [apply (tables_ok_users _ Hok)|done..|congruence]).
  apply create_project_inv in Hc as (Hpu & Hps & Hph & -> & Hokt). rewrite !Hd, (default_host_local _ _ _ hl) in Hph by done. injection Hph as Hph.
  fold pslug in Hps. unfold asked_host in Hsent. apply String.eqb_neq in Hne as Hne'. rewrite Hne', Hps in Hsent.
  assert (Hs1 : tables_ok (db s1) = true ∧ users (db s1) = users (db s) ∧ hosts (db s1) = hosts (db s) ∧
    placed <$> projects (db s1) = placed <$> projects (db s) ++ [p]).
  { destruct Hdb as [->|[-> ?]]; [done|]. by rewrite status_placed. }
  destruct Hs1 as (Hok1 & Hus1 & Hh1 & Hp1).
  split; [by apply Hsent|]. split.
  - assert (Hin : placed p ∈ placed <$> projects (db s1)) by (rewrite Hp1; apply list_elem_of_fmap_2, elem_of_app; right; by apply list_elem_of_singleton).
    apply list_elem_of_fmap in Hin as (q & Hq & Hin). injection Hq as H1 H2 H3. exists q. split_and!; [done|congruence..].
  - eapply (register_elsewhere e2 m2 s1 u uslug hslug pslug); [done|by rewrite Hus1|done| |done|exact Hreq2|done..].
    intros q h Hq Hqu Hqs Hh Hqh. rewrite Hh1 in Hh.
    assert (Hin : placed q ∈ placed <$> projects (db s) ++ [p]) by (rewrite <- Hp1; by apply list_elem_of_fmap_2).
    apply list_elem_of_fmap in Hin as (r & Hr & Hin). injection Hr as H1 H2 H3. apply elem_of_app in Hin as [Hin| ->%list_elem_of_singleton].
    + apply (Hno r); congruence.
    + assert (h = hl) as -> by (apply (unique_key h_ID (hosts (db s))); [apply (tables_ok_hosts _ Hok)|done..|congruence]). congruence.
Qed.

(** ** Who is asked to provision *)

(** The control plane asks any host that the subject names: access to the host is
    not checked, and the user's own credential permits every name. *)
Theorem any_host_provisioned e msg s u hs hslug uslug req p t :
  tables_ok (db s) = true → no_failures e → cf_db (config s) = true → valid uslug → valid hslug → Forall valid hs →
  nm_Subject msg = Join "." ["mclaude"; "users"; uslug; "hosts"; hslug; "api"; "projects"; "create"]%string →
  u ∈ users (db s) → u_Slug u = uslug →
  unmarshal (dec_struct ProjectCreateRequest_fields) zero_ProjectCreateRequest (nm_Data msg) = Some req → pc_Name req ≠ ""%string →
  identity_error e (u_ID u) (pc_GitURL req) (pc_GitIdentityID req) = None → create_project e (u_ID u) req (db s) = Ok (p, t) →
  may_publish (UserSubjectPermissions uslug hs) (nm_Subject msg) = true ∧
  ∃ payload, Requested (HostUserProjectsCreate hslug uslug (p_Slug p)) payload ∈ replies s (on_host_projects_create e msg s).
Proof.
  intros Hok [Hd _] Hdb Hvu Hvh Hhs Hsub Hu Hus Hreq Hname Hid Hc.
  assert (Ht : tokens (nm_Subject msg) = ["mclaude"; "users"; uslug; "hosts"; hslug; "api"; "projects"; "create"]%string).
  { rewrite Hsub. apply tokens_join; [done|]. repeat (apply Forall_cons; split); try done; by apply valid_slug_no_dot. }
  split.
  - unfold may_publish.
    rewrite (allows_written _ _ _ [Lit "mclaude"; Lit "users"; Var "" uslug; Lit "hosts"; Var "" hslug; Lit "api"; Lit "projects"; Lit "create"] []
      (user_pub_written uslug hs Hvu Hhs)) by (by rewrite Ht).
    rewrite existsb_app. apply orb_true_iff. left. cbn [existsb user_patterns]. apply orb_true_iff. left. cbn.
    by rewrite String.eqb_refl.
  - unfold on_host_projects_create. change (Split "."%char) with tokens. rewrite Ht. cbn [length part nth Nat.ltb Nat.leb]. cbv zeta.
    unfold handleProjectCreate. rewrite Hdb, Hd, <- Hus, (GetUserBySlug_user _ u) by done. cbn [negb]. cbv zeta. rewrite Hreq.
    apply String.eqb_neq in Hname. rewrite Hname, Hid, Hc.
    assert (Hne : hslug ≠ ""%string) by (intros ->; by vm_compute in Hvh). apply String.eqb_neq in Hne as Hne'. rewrite Hne', Hus.
    by apply (provision_project_spec e msg (u_ID u) uslug hslug p req (set_db t s)).
Qed.

(** ** Availability of slugs *)

(** The slugs of a user's projects. *)
Definition taken (userID : string) (t : Tables) : list string := p_Slug <$> select (λ p, String.eqb (p_UserID p) userID) (projects t).

Lemma slug_count_free userID x t : slug_count userID x t = 0%nat ↔ x ∉ taken userID t.
Proof.
  unfold slug_count, taken. rewrite length_zero_iff_nil. split.
  - intros Hn (p & -> & [Hp Hu]%select_elem)%list_elem_of_fmap.
    assert (p ∈ select (λ q, String.eqb (p_UserID q) userID && String.eqb (p_Slug q) (p_Slug p)) (projects t)) as Hin
      by (apply select_elem; by rewrite Hu, String.eqb_refl).
    rewrite Hn in Hin. by apply elem_of_nil in Hin.
  - intros Hx. apply elem_of_nil_inv. intros p [Hp [Hu Hs%String.eqb_eq]%andb_true_iff]%select_elem. apply Hx. rewrite <- Hs.
    apply list_elem_of_fmap_2. by apply select_elem.
Qed.

Lemma candidate_inj slug i j : candidate slug i = candidate slug j → i = j.
Proof.
  unfold candidate. intros H. apply (inj pretty.pretty). revert H. induction slug as [|c slug IH]; cbn; [by intros [= H]|].
  intros [= H]. by apply IH.
Qed.

(** Fewer projects than candidates: one of them is free. *)
Lemma candidate_free userID slug t :
  (length (taken userID t) < 98)%nat → ∃ i, i ∈ seq 2 98 ∧ candidate slug i ∉ taken userID t.
Proof.
  intros Hlt.
  destruct (decide (Forall (λ i, candidate slug i ∈ taken userID t) (seq 2 98))) as [Hall|Hn].
  - exfalso. assert (Hsub : candidate slug <$> seq 2 98 ⊆+ taken userID t).
    { apply NoDup_submseteq; [apply NoDup_fmap_2; [intros i j; apply candidate_inj|apply NoDup_seq]|].
      intros x (i & -> & Hi)%list_elem_of_fmap. by apply (proj1 (Forall_forall _ _) Hall). }
    apply submseteq_length in Hsub. rewrite length_fmap, length_seq in Hsub. lia.
  - apply not_Forall_Exists, Exists_exists in Hn; [done|]. intros ?. apply _.
Qed.

Lemma suggestion_spec e userID slug t :
  (∀ c, ce_down e c = false) → (length (taken userID t) < 98)%nat → suggestion e userID slug t ∉ taken userID t.
Proof.
  intros Hd Hlt. unfold suggestion. destruct (find_first _ _) as [i|] eqn:E.
  - apply find_first_Some in E as [_ [_ Hz%Nat.eqb_eq]%andb_true_iff]. by apply slug_count_free.
  - exfalso. rewrite find_first_None in E. destruct (candidate_free userID slug t Hlt) as (i & Hi & Hf). specialize (E i Hi).
    rewrite Hd in E. apply slug_count_free in Hf. rewrite Hf in E. done.
Qed.

(** The answer is right: "available" exactly when the user has no project of the
    slug, and a suggestion that is itself free for every user with less than 98
    projects. *)
Theorem check_slug_answer e msg s u slug :
  tables_ok (db s) = true → no_failures e → cf_db (config s) = true → nm_Reply msg = true →
  (7 ≤ length (Split "."%char (nm_Subject msg)))%nat → u ∈ users (db s) → u_Slug u = requester (nm_Subject msg) →
  unmarshal (dec_struct [ ("slug", dec_string) ]) ""%string (nm_Data msg) = Some slug → slug ≠ ""%string →
  (slug ∉ taken (u_ID u) (db s) ∧ replies s (handleCheckSlug e msg s) = [Replied (JObj [("available", JBool true)])]) ∨
  (slug ∈ taken (u_ID u) (db s) ∧ ∃ x, replies s (handleCheckSlug e msg s) = [Replied (JObj [("available", JBool false); ("suggestion", JStr x)])] ∧
     ((length (taken (u_ID u) (db s)) < 98)%nat → x ∉ taken (u_ID u) (db s))).
Proof.
  intros Hok [Hd _] Hdb Hr Hlen Hu Hus Hreq Hne. unfold handleCheckSlug, lookup_row. rewrite Hdb. cbn [negb]. cbv zeta.
  apply Nat.ltb_ge in Hlen. rewrite Hlen, Hreq, !Hd. apply String.eqb_neq in Hne. rewrite Hne.
  fold (requester (nm_Subject msg)). rewrite <- Hus, (GetUserBySlug_user _ u) by done.
  assert (Hone : ∀ p, replies s (respond msg p s) = [Replied p]) by (intros p; unfold respond; rewrite Hr; by apply replies_send).
  destruct (slug_count _ _ _ =? 0)%nat eqn:E.
  - left. apply Nat.eqb_eq, slug_count_free in E. split; [done|]. apply Hone.
  - right. apply Nat.eqb_neq in E. split.
    + destruct (decide (slug ∈ taken (u_ID u) (db s))) as [|Hn]; [done|]. by apply slug_count_free in Hn.
    + eexists. split; [apply Hone|]. by apply suggestion_spec.
Qed.

(** ** What a user's HTTP requests can touch *)

(** The rows of other users stay as they are, with one exception: with a host of
    the user its projects, grants and attachments go, whose ever they are, and with
    a project of the user its attachments. *)
Record own_change (userID : string) (t t' : Tables) : Prop := {
  oc_users : users t' = users t;
  oc_credentials : agent_credentials t' = agent_credentials t;
  oc_hosts h : h_UserID h ≠ userID → h ∈ hosts t' ↔ h ∈ hosts t;
  oc_projects p : p_UserID p ≠ userID → p ∈ projects t' → p ∈ projects t;
  oc_projects_kept p : p_UserID p ≠ userID → p ∈ projects t →
    p ∈ projects t' ∨ ∃ h, h ∈ hosts t ∧ h_UserID h = userID ∧ h_ID h = p_HostID p;
  oc_access a : a ∈ host_access t' → a ∈ host_access t;
  oc_access_kept a : a ∈ host_access t → a ∈ host_access t' ∨ ∃ h, h ∈ hosts t ∧ h_UserID h = userID ∧ h_ID h = a.1;
  oc_attachments a : a ∈ attachments t' → a ∈ attachments t;
  oc_attachments_kept a : a ∈ attachments t → a ∈ attachments t' ∨
    (∃ h, h ∈ hosts t ∧ h_UserID h = userID ∧ h_ID h = at_HostID a) ∨
    ∃ p, p ∈ projects t ∧ p_ID p = at_ProjectID a ∧
      (p_UserID p = userID ∨ ∃ h, h ∈ hosts t ∧ h_UserID h = userID ∧ h_ID h = p_HostID p);
}.

Lemma own_same userID t t' : t' = t → own_change userID t t'.
Proof. intros ->. split; try done; auto. Qed.

(** Only the user's own hosts are inserted or updated. *)
Lemma own_hosts userID t l :
  (∀ h, h_UserID h ≠ userID → h ∈ l ↔ h ∈ hosts t) → own_change userID t (set_hosts l t).
Proof. intros H. split; cbn; try done; auto. Qed.

Lemma own_projects userID t l :
  (∀ p, p_UserID p ≠ userID → p ∈ l ↔ p ∈ projects t) → own_change userID t (set_projects l t).
Proof. intros H. split; cbn; try done; auto; intros p Hp Hin; [|left]; by apply H. Qed.

Lemma own_update {A} (owner : A → string) userID (p : A → bool) f (l : list A) x :
  (∀ y, y ∈ l → p y = true → owner y = userID ∧ owner (f y) = userID) → owner x ≠ userID → x ∈ update_where p f l ↔ x ∈ l.
Proof.
  intros Hp Hx. rewrite elem_of_update_where. split.
  - intros (y & Hy & ->). destruct (p y) eqn:E; [|done]. by apply Hp in E as [_ ?].
  - intros Hin. exists x. split; [done|]. destruct (p x) eqn:E; [|done]. by apply Hp in E as [? _].
Qed.

Lemma own_delete_hosts userID hslug t : own_change userID t (delete_hosts (user_host userID hslug) t).
Proof.
  assert (Hg : ∀ x, x ∈ h_ID <$> List.filter (user_host userID hslug) (hosts t) → ∃ h, h ∈ hosts t ∧ h_UserID h = userID ∧ h_ID h = x).
  { intros x (h & -> & [Hh [Hu%String.eqb_eq _]%andb_true_iff]%select_elem)%list_elem_of_fmap. by exists h. }
  split; cbn -[delete_where]; try done.
  - intros h Hh. rewrite delete_where_elem. split; [by intros []|]. intros Hin. split; [done|].
    apply andb_false_iff. left. by apply String.eqb_neq.
  - by intros p _ [? _]%delete_where_elem.
  - intros p _ Hp. destruct (memb (p_HostID p) (h_ID <$> List.filter (user_host userID hslug) (hosts t))) eqn:E; [right|left].
    + by apply memb_spec, Hg in E.
    + by apply delete_where_elem.
  - by intros a [? _]%delete_where_elem.
  - intros a Ha. destruct (memb a.1 (h_ID <$> List.filter (user_host userID hslug) (hosts t))) eqn:E; [right|left].
    + by apply memb_spec, Hg in E.
    + by apply delete_where_elem.
  - by intros a [[? _]%delete_where_elem _]%delete_where_elem.
  - intros a Ha. rewrite !delete_where_elem.
    destruct (memb (at_ProjectID a) _) eqn:E1; [right; right|destruct (memb (at_HostID a) _) eqn:E2; [right; left; by apply memb_spec, Hg in E2|by left]].
    apply memb_spec, list_elem_of_fmap in E1 as (p & Hid & [Hp Hph%memb_spec%Hg]%select_elem). exists p. split; [done|]. split; [done|]. by right.
Qed.

Lemma fold_drain_db us hs l s : db (fold_left (drain_project us hs) l s) = db s.
Proof. revert s. induction l as [|p l IH]; intros s; cbn; [done|]. by rewrite IH, drain_project_db. Qed.

Ltac own_nothing := by apply own_same.

Lemma own_host_routes e method path body userID s : own_change userID (db s) (db (handleHostRoutes e method path body userID s)).
Proof.
  unfold handleHostRoutes. cbv zeta. destruct (_ || _); [own_nothing|]. destruct (String.eqb userID ""); [own_nothing|].
  destruct (_ && _); [destruct (_ && _); [|destruct (_ && _); [|own_nothing]]|destruct (_ && _); [|destruct (_ && _); [|destruct (_ && _); [|destruct (_ && _); [|own_nothing]]]]].
  - unfold handleHostCodeCreate. repeat case_match; own_nothing.
  - unfold handleHostCodeStatus. repeat case_match; own_nothing.
  - unfold handleCreateHost. destruct (negb _); [own_nothing|]. destruct (decode_body _ _ _) as [req|]; [|own_nothing]. destruct (_ || _); [own_nothing|].
    destruct (lookup_row _ _) as [u|]; [|own_nothing]. destruct (host_token _ _ _ _) as [j|]; [|own_nothing].
    destruct (Exec _ _ _) as [t|err] eqn:Hx; [|destruct (is_unique_error err); own_nothing]. apply Exec_Ok in Hx as [-> _]. cbn [http_json db send set_db].
    apply own_hosts. intros h Hh. rewrite elem_of_app, list_elem_of_singleton. naive_solver.
  - unfold handleUpdateHost. destruct (negb _); [own_nothing|]. destruct (decode_body _ _ _) as [nm|]; [|own_nothing].
    destruct (String.eqb nm ""); [own_nothing|]. destruct (Exec _ _ _) as [t|err] eqn:Hx; [|own_nothing]. apply Exec_Ok in Hx as [-> _].
    assert (Hc : own_change userID (db s) (set_hosts (update_where (user_host userID (part 2 (SplitN 4 (TrimPrefix path "/api/users/")))) (with_name nm) (hosts (db s))) (db s))).
    { apply own_hosts. intros h Hh. apply (own_update h_UserID userID); [|done]. by intros y _ [Hy%String.eqb_eq _]%andb_true_iff. }
    destruct (_ =? _)%nat; exact Hc.
  - unfold handleDeleteHost. destruct (negb _); [own_nothing|]. cbv zeta.
    match goal with |- context [if cf_nc _ || cf_s3 _ then ?x else s] => set (s1 := if cf_nc (config s) || cf_s3 (config s) then x else s) end.
    assert (H1 : db s1 = db s).
    { unfold s1. destruct (_ || _); [|done]. destruct (lookup_row _ _); [|done]. by rewrite publishProjectsUpdated_db, fold_drain_db. }
    rewrite H1. destruct (Exec _ _ _) as [t|err] eqn:Hx; [|cbn; rewrite H1; own_nothing]. apply Exec_Ok in Hx as [-> _].
    destruct (_ =? _)%nat; apply own_delete_hosts.
  - unfold handleListHosts. repeat case_match; own_nothing.
Qed.

Lemma own_project_routes e method path body userID s : own_change userID (db s) (db (handleProjectHTTPRoutes e method path body userID s)).
Proof.
  unfold handleProjectHTTPRoutes. cbv zeta. destruct (_ || _); [own_nothing|]. destruct (String.eqb userID ""); [own_nothing|].
  destruct (_ && _); [|destruct (_ && _); [|destruct (_ && _); [|destruct (_ && _); [|own_nothing]]]].
  - unfold handleListProjectsHTTP. repeat case_match; own_nothing.
  - unfold handleCreateProjectHTTP. destruct (negb _); [own_nothing|]. destruct (decode_body _ _ _) as [req|]; [|own_nothing].
    destruct (String.eqb _ ""); [own_nothing|]. destruct (create_project _ _ _ _) as [[p t]|err] eqn:Hc; [|destruct (is_unique_error err); own_nothing].
    cbv zeta. cbn [http_json db send].
    set (us := match lookup_row _ _ with Some u => u_Slug u | None => ""%string end).
    assert (Hdb : ∀ b : bool, db (if b then publishProjectsUpdated us (if b then (provision e userID us (pc_HostSlug req) p req (if b then writeProjectKV e us (pc_HostSlug req) p (set_db t s) else set_db t s)).2
      else if b then writeProjectKV e us (pc_HostSlug req) p (set_db t s) else set_db t s)
      else if b then (provision e userID us (pc_HostSlug req) p req (if b then writeProjectKV e us (pc_HostSlug req) p (set_db t s) else set_db t s)).2
      else if b then writeProjectKV e us (pc_HostSlug req) p (set_db t s) else set_db t s) = t).
    { intros []; [|done]. by rewrite publishProjectsUpdated_db, provision_db, writeProjectKV_db. }
    rewrite Hdb. apply create_project_inv in Hc as (Hpu & _ & _ & -> & _).
    apply own_projects. intros q Hq. rewrite elem_of_app, list_elem_of_singleton. naive_solver.
  - unfold handleGetProjectHTTP. repeat case_match; own_nothing.
  - unfold handleDeleteProjectHTTP. destruct (negb _); [own_nothing|]. destruct (lookup_row _ _) as [[p hs]|]; [|own_nothing]. cbv zeta.
    set (us := if cf_nc (config s) || cf_s3 (config s) then _ else _).
    match goal with |- context [if ?b then publishProjectsDeleteToHost ?a ?b' ?c ?d s else s] => set (s1 := if b then publishProjectsDeleteToHost a b' c d s else s) end.
    assert (H1 : db s1 = db s) by (unfold s1, publishProjectsDeleteToHost; by repeat case_match).
    rewrite H1. destruct (Exec _ _ _) as [t|err] eqn:Hx; [|cbn; rewrite H1; own_nothing]. apply Exec_Ok in Hx as [-> _].
    set (t' := delete_projects _ _).
    assert (Hc : own_change userID (db s) t').
    { split; cbn -[delete_where]; try done; auto.
      - by intros q _ [? _]%delete_where_elem.
      - intros q Hq Hin. left. apply delete_where_elem. split; [done|]. apply andb_false_iff. left. by apply String.eqb_neq.
      - by intros a [? _]%delete_where_elem.
      - intros a Ha. rewrite delete_where_elem. destruct (memb (at_ProjectID a) _) eqn:E; [right; right|by left].
        apply memb_spec, list_elem_of_fmap in E as (q & Hid & [Hq [Hqu%String.eqb_eq _]%andb_true_iff]%select_elem). exists q. auto. }
    destruct (_ =? _)%nat; [exact Hc|]. cbn [http_json db send].
    match goal with |- own_change _ _ (db ?x) => assert (Hx : db x = t') by (unfold publishProjectsUpdated; by repeat case_match) end.
    by rewrite Hx.
Qed.

Lemma own_patch e method path body userID s :
  tables_ok (db s) = true → own_change userID (db s) (db (handlePatchProject e method path body userID s)).
Proof.
  intros Hok. unfold handlePatchProject. destruct (negb _); [own_nothing|]. destruct (String.eqb userID ""); [own_nothing|]. cbv zeta.
  destruct (String.eqb _ ""); [own_nothing|]. destruct (decode_body _ _ _) as [identity|]; [|own_nothing].
  destruct (negb _); [own_nothing|]. destruct (lookup_row _ (GetProjectByID _ _)) as [[p hs]|] eqn:Hp; [|own_nothing].
  destruct (String.eqb (p_UserID p) userID) eqn:Hu; [|own_nothing]. cbn [negb]. destruct (identity_error _ _ _ _) as [[]|]; [own_nothing..|].
  destruct (if identity_known e identity then _ else _) as [t|err] eqn:Hx; [|own_nothing].
  assert (Ht : t = UpdateProjectGitIdentity (TrimPrefix path "/api/projects/") identity (db s)).
  { destruct (identity_known e identity); [|done]. by apply Exec_Ok in Hx as [-> _]. }
  match goal with |- own_change _ _ (db (http_json _ _ ?x)) => assert (Hdb : db x = t) end.
  { cbn [config set_db]. destruct (cf_nc (config s)); [|done]. destruct (lookup_row _ _) as [[q h]|]; [|done]. destruct (lookup_row _ _) as [u|]; [|done].
    unfold publishProjectsUpdated, publishProjectsUpdateToHost. repeat case_match; cbn; by rewrite ?writeProjectKV_db. }
  cbn [http_json db send]. rewrite Hdb, Ht. apply own_projects. intros q Hq. apply (own_update p_UserID userID); [|done].
  intros y Hy Hid%String.eqb_eq. cbn. apply lookup_row_Some, first_row_in, list_elem_of_fmap in Hp as (r & Hr & [Hrin Hrid%String.eqb_eq]%select_elem).
  unfold join_host in Hr. injection Hr as -> _. apply String.eqb_eq in Hu.
  assert (y = r) as -> by (apply (unique_key p_ID (projects (db s))); [|done..|congruence];
    unfold tables_ok, unique_ok in Hok; rewrite !andb_true_iff, !uniqueb_NoDup in Hok; tauto). done.
Qed.

Lemma own_user_routes e method path body userID s : own_change userID (db s) (db (handleUserAPIRoutes e method path body userID s)).
Proof.
  unfold handleUserAPIRoutes. cbv zeta. destruct (_ <? _)%nat; [own_nothing|].
  destruct (String.eqb _ "hosts"); [apply own_host_routes|]. destruct (String.eqb _ "projects"); [apply own_project_routes|own_nothing].
Qed.

(** Isolation of the HTTP API: whatever the method, the path and the body, a request
    made as one user changes only rows of this user, and what lies on this
    user's hosts. *)
Theorem http_touches_own_rows e method path body userID s s' :
  tables_ok (db s) = true →
  s' = handleUserAPIRoutes e method path body userID s ∨ s' = handlePatchProject e method path body userID s →
  own_change userID (db s) (db s').
Proof.
  intros Hok [->| ->]; [apply own_user_routes|by apply own_patch].
Qed.

End spec.

(** ** Examples *)

#[local] Existing Instances demo_pg demo_nkeys demo_text demo_stream demo_tables demo_norm demo_urls doc_nats_server.

Module ProjectDemo.
Definition create_msg : nats_msg := msg "mclaude.users.bob.hosts.laptop.api.projects.create" "new project".
Definition register_msg : nats_msg := msg "mclaude.hosts.laptop.api.agents.register" "register shop".
Definition request : ProjectCreateRequest := {| pc_Name := "Shop"; pc_GitURL := ""; pc_GitIdentityID := None; pc_HostSlug := "" |}.
Definition created : Server := handleProjectCreate (env_at 100) create_msg "bob" "laptop" server.
Definition shop : Project := {| p_ID := "uuid-project"; p_UserID := "id-bob"; p_Name := "Shop"; p_Slug := "shop"; p_GitURL := "";
  p_Status := "active"; p_HostID := "host-3"; p_GitIdentityID := None; p_ImportRef := None; p_CreatedAt := 100 * Second |}.
End ProjectDemo.
Import ProjectDemo.

Lemma created_project_cannot_register_witness :
  project_slug [] "Shop" = "shop"%string ∧
  (∃ payload, Requested (HostUserProjectsCreate "laptop" "bob" (project_slug [] "Shop")) payload ∈ replies server created) ∧
  (∃ p, p ∈ projects (db created) ∧ p_UserID p = "id-bob"%string ∧ p_Slug p = project_slug [] "Shop" ∧ p_HostID p = "host-3"%string) ∧
  db (handleAgentRegister (env_at 110) register_msg created) = db created.
Proof.
  split; [vm_compute; reflexivity|].
  apply (created_project_cannot_register (env_at 100) create_msg (env_at 110) register_msg server bob bob_local "bob" "laptop" request "ASHOP");
    try (vm_compute; reflexivity); try discriminate; try done.
  - right. left.
  - right. right. left.
  - intros q h Hq Hu Hs _ _.
    assert (Hf : Forall (λ q, p_UserID q = "id-bob"%string → p_Slug q ≠ "shop"%string) (projects tables)) by (repeat constructor; discriminate).
    rewrite Forall_forall in Hf. destruct (Hf q Hq Hu). rewrite Hs. vm_compute. reflexivity.
Defined.

Lemma any_host_provisioned_witness :
  may_publish (UserSubjectPermissions "alice" ["laptop"]%string) "mclaude.users.alice.hosts.fortress.api.projects.create" = true ∧
  ∃ payload, Requested (HostUserProjectsCreate "fortress" "alice" "shop") payload ∈
    replies server (on_host_projects_create (env_at 100) (msg "mclaude.users.alice.hosts.fortress.api.projects.create" "new project") server).
Proof.
  apply (any_host_provisioned (env_at 100) (msg "mclaude.users.alice.hosts.fortress.api.projects.create" "new project") server alice
    ["laptop"]%string "fortress" "alice" request
    {| p_ID := "uuid-project"; p_UserID := "id-alice"; p_Name := "Shop"; p_Slug := "shop"; p_GitURL := ""; p_Status := "active";
       p_HostID := "host-2"; p_GitIdentityID := None; p_ImportRef := None; p_CreatedAt := 100 * Second |}
    (set_projects (projects tables ++ [{| p_ID := "uuid-project"; p_UserID := "id-alice"; p_Name := "Shop"; p_Slug := "shop"; p_GitURL := ""; p_Status := "active";
       p_HostID := "host-2"; p_GitIdentityID := None; p_ImportRef := None; p_CreatedAt := 100 * Second |}]) tables));
    try (vm_compute; reflexivity); try discriminate; try done.
  - by repeat constructor.
  - left.
Defined.

Lemma check_slug_answer_witness :
  let m := msg "mclaude.users.alice.hosts.laptop.projects.check-slug" "slug web" in
  ("web"%string ∉ taken "id-alice" tables ∧ replies server (handleCheckSlug (env_at 100) m server) = [Replied (JObj [("available", JBool true)])]) ∨
  ("web"%string ∈ taken "id-alice" tables ∧
   ∃ x, replies server (handleCheckSlug (env_at 100) m server) = [Replied (JObj [("available", JBool false); ("suggestion", JStr x)])] ∧
     ((length (taken "id-alice" tables) < 98)%nat → x ∉ taken "id-alice" tables)).
Proof.
  apply (check_slug_answer (env_at 100) (msg "mclaude.users.alice.hosts.laptop.projects.check-slug" "slug web") server alice "web");
    try (vm_compute; reflexivity); try discriminate; try done.
  left.
Defined.

Lemma http_touches_own_rows_witness :
  own_change "id-bob" tables (db (handleUserAPIRoutes (env_at 100) "DELETE" "/api/users/bob/hosts/local" "" "id-bob" server)).
Proof.
  apply (http_touches_own_rows (env_at 100) "DELETE" "/api/users/bob/hosts/local" "" "id-bob" server).
  - vm_compute. reflexivity.
  - left. reflexivity.
Defined.
