(* ===== verification/Attachments.v ===== *)
(** * Attachments and imports (mclaude-control-plane/attachments.go)

    Upload, confirmation and download of attachments, over HTTP for users and
    over NATS for agents, and the import of a session archive: request of an
    upload URL, confirmation with the creation of the project, download and
    completion by the agent.  Error texts of the object store are left out. *)

From S2P Require Import Prelude GoStrings Slug Subjects Json Permissions ObjectStore Database ControlServer HostLifecycle HostApi ProjectApi.
Open Scope Z_scope.

(** ** Requests *)

Record AttachmentUploadURLRequest := { au_Filename : string; au_MimeType : string; au_SizeBytes : Z; au_ProjectSlug : string; au_HostSlug : string }.
Definition zero_upload : AttachmentUploadURLRequest :=
  {| au_Filename := ""; au_MimeType := ""; au_SizeBytes := 0; au_ProjectSlug := ""; au_HostSlug := "" |}.

(** The fields a NATS upload request has, and those of the HTTP request. *)
Definition NATSAttachmentUploadRequest_fields : list (field AttachmentUploadURLRequest) :=
  [ fld "filename" dec_string au_Filename (λ v r, {| au_Filename := v; au_MimeType := au_MimeType r; au_SizeBytes := au_SizeBytes r; au_ProjectSlug := au_ProjectSlug r; au_HostSlug := au_HostSlug r |});
    fld "mimeType" dec_string au_MimeType (λ v r, {| au_Filename := au_Filename r; au_MimeType := v; au_SizeBytes := au_SizeBytes r; au_ProjectSlug := au_ProjectSlug r; au_HostSlug := au_HostSlug r |});
    fld "sizeBytes" dec_int au_SizeBytes (λ v r, {| au_Filename := au_Filename r; au_MimeType := au_MimeType r; au_SizeBytes := v; au_ProjectSlug := au_ProjectSlug r; au_HostSlug := au_HostSlug r |}) ].
Definition AttachmentUploadURLRequest_fields : list (field AttachmentUploadURLRequest) :=
  NATSAttachmentUploadRequest_fields ++
  [ fld "projectSlug" dec_string au_ProjectSlug (λ v r, {| au_Filename := au_Filename r; au_MimeType := au_MimeType r; au_SizeBytes := au_SizeBytes r; au_ProjectSlug := v; au_HostSlug := au_HostSlug r |});
    fld "hostSlug" dec_string au_HostSlug (λ v r, {| au_Filename := au_Filename r; au_MimeType := au_MimeType r; au_SizeBytes := au_SizeBytes r; au_ProjectSlug := au_ProjectSlug r; au_HostSlug := v |}) ].

Definition ImportRequestPayload_fields : list (field (string * Z)) :=
  [ fld "slug" dec_string fst (λ v r, (v, r.2)); fld "sizeBytes" dec_int snd (λ v r, (r.1, v)) ].

Definition ImportConfirm_fields : list (field (string * string)) :=
  [ fld "importId" dec_string fst (λ v r, (v, r.2)); fld "name" dec_string snd (λ v r, (r.1, v)) ].

(** The objects of a project. *)
Definition attachment_key (uslug hslug pslug attID : string) : string :=
  (uslug +:+ "/" +:+ hslug +:+ "/" +:+ pslug +:+ "/attachments/" +:+ attID)%string.
Definition import_key (uslug hslug pslug importID : string) : string :=
  (uslug +:+ "/" +:+ hslug +:+ "/" +:+ pslug +:+ "/imports/" +:+ importID +:+ ".tar.gz")%string.

Section attachments.
Context `{PG : Postgres, JT : JsonText, JS : JsonStream, UT : UnicodeTables, NO : Normalizer, UP : UrlParser}.

Definition att_id (e : cp_env) : string := ("att-" +:+ take_str 8 (ce_uuid e "attachment"))%string.

Definition new_attachment (e : cp_env) (key : string) (req : AttachmentUploadURLRequest) (userID hostID projectID : string) : Attachment :=
  {| at_ID := att_id e; at_S3Key := key; at_Filename := au_Filename req; at_MimeType := au_MimeType req; at_SizeBytes := au_SizeBytes req;
     at_UserID := userID; at_HostID := hostID; at_ProjectID := projectID; at_Confirmed := false; at_CreatedAt := ce_now e |}.

(** ** Over HTTP *)

Definition handleAttachmentUploadURL (e : cp_env) (body userID : string) (s : Server) : Server :=
  if negb (cf_db (config s)) then http_error 503 "service unavailable" s
  else
    match cf_s3Config (config s) with
    | None => http_error 503 "S3 not configured" s
    | Some cfg =>
      if String.eqb userID "" then http_error 401 "unauthorized" s
      else
        match decode_body (dec_struct AttachmentUploadURLRequest_fields) zero_upload body with
        | None => http_error 400 "invalid request body" s
        | Some req =>
          if String.eqb (au_Filename req) "" || String.eqb (au_MimeType req) "" || (au_SizeBytes req <=? 0) ||
             String.eqb (au_ProjectSlug req) "" || String.eqb (au_HostSlug req) ""
          then http_error 400 "filename, mimeType, sizeBytes, projectSlug, and hostSlug are required" s
          else if maxAttachmentBytes <? au_SizeBytes req
          then http_error 400 ("sizeBytes exceeds limit of " +:+ pretty.pretty maxAttachmentBytes +:+ " bytes")%string s
          else
            match lookup_row (ce_down e "GetUserByID") (GetUserByID userID (db s)) with
            | None => http_error 404 "user not found" s
            | Some user =>
              match lookup_row (ce_down e "GetProjectByUserAndSlug") (GetProjectByUserAndSlug userID (au_ProjectSlug req) (db s)) with
              | None => http_error 404 "project not found or unauthorized" s
              | Some (proj, projHostSlug) =>
                if negb (String.eqb projHostSlug (au_HostSlug req)) then http_error 400 "project is not on the specified host" s
                else
                  match lookup_row (ce_down e "GetHostBySlug") (GetHostBySlug (au_HostSlug req) (db s)) with
                  | None => http_error 404 "host not found" s
                  | Some host =>
                    let s3Key := attachment_key (u_Slug user) (au_HostSlug req) (au_ProjectSlug req) (att_id e) in
                    match Exec (ce_down e "CreateAttachment") (CreateAttachment (new_attachment e s3Key req userID (h_ID host) (p_ID proj))) (db s) with
                    | Err _ => http_error 500 "failed to create attachment" s
                    | Ok t =>
                      let s := set_db t s in
                      match presignPutURL cfg (Unix (ce_now e)) s3Key (5 * 60) with
                      | None => http_error 500 "failed to generate upload URL" s
                      | Some uploadURL => http_json 201 (HUpload (att_id e) uploadURL) s
                      end
                    end
                  end
              end
            end
        end
    end.

Definition handleAttachmentConfirm (e : cp_env) (userID attID : string) (s : Server) : Server :=
  if negb (cf_db (config s)) then http_error 503 "service unavailable" s
  else
    match cf_s3Config (config s) with
    | None => http_error 503 "S3 not configured" s
    | Some cfg =>
      if String.eqb userID "" then http_error 401 "unauthorized" s
      else
        match lookup_row (ce_down e "GetAttachment") (GetAttachment attID userID (db s)) with
        | None => http_error 404 "attachment not found or unauthorized" s
        | Some att =>
          if at_Confirmed att then http_json 200 HOK s
          else if negb (s3ObjectExists (ce_http e) cfg (Unix (ce_now e)) (at_S3Key att)).1
          then http_error 422 "S3 object not found — upload may not have completed" s
          else
            match ConfirmAttachment (ce_down e "ConfirmAttachment") attID userID (db s) with
            | Err _ => http_error 500 "failed to confirm attachment" s
            | Ok t => http_json 200 HOK (set_db t s)
            end
        end
    end.

Definition handleAttachmentGet (e : cp_env) (userID attID : string) (s : Server) : Server :=
  if negb (cf_db (config s)) then http_error 503 "service unavailable" s
  else
    match cf_s3Config (config s) with
    | None => http_error 503 "S3 not configured" s
    | Some cfg =>
      if String.eqb userID "" then http_error 401 "unauthorized" s
      else
        match lookup_row (ce_down e "GetAttachment") (GetAttachment attID userID (db s)) with
        | None => http_error 404 "attachment not found or unauthorized" s
        | Some att =>
          if negb (at_Confirmed att) then http_error 404 "attachment not yet confirmed" s
          else
            match presignGetURL cfg (Unix (ce_now e)) (at_S3Key att) (5 * 60) with
            | None => http_error 500 "failed to generate download URL" s
            | Some url => http_json 200 (HDownload (at_ID att) (at_Filename att) (at_MimeType att) (at_SizeBytes att) url) s
            end
        end
    end.

Definition handleAttachmentRoutes (e : cp_env) (method urlPath body userID : string) (s : Server) : Server :=
  let path := TrimPrefix urlPath "/api/attachments" in
  if String.eqb method "POST" && String.eqb path "/upload-url" then handleAttachmentUploadURL e body userID s
  else if String.eqb method "POST" && HasSuffix path "/confirm"
  then handleAttachmentConfirm e userID (TrimSuffix (TrimPrefix path "/") "/confirm") s
  else if String.eqb method "GET" && (1 <? String.length path)%nat then handleAttachmentGet e userID (TrimPrefix path "/") s
  else http_error 404 "404 page not found" s.

(** ** Over NATS: attachments *)

(** The reply with an id and a URL, and with a URL only. *)
Definition upload_reply (id url : string) : json := JObj [("id", JStr id); ("uploadUrl", JStr url)].
Definition download_reply (url : string) : json := JObj [("downloadUrl", JStr url)].

Definition handleNATSAttachmentUpload (e : cp_env) (msg : nats_msg) (s : Server) : Server :=
  match (if cf_db (config s) then cf_s3Config (config s) else None) with
  | None => replyNATSError msg "service unavailable" s
  | Some cfg =>
    match parseImportSubject (nm_Subject msg) with
    | None => replyNATSError msg "malformed subject" s
    | Some (uslug, hslug, pslug) =>
      match unmarshal (dec_struct NATSAttachmentUploadRequest_fields) zero_upload (nm_Data msg) with
      | None => replyNATSError msg "invalid request body" s
      | Some req =>
        if String.eqb (au_Filename req) "" || String.eqb (au_MimeType req) "" || (au_SizeBytes req <=? 0)
        then replyNATSError msg "filename, mimeType, sizeBytes required" s
        else if maxAttachmentBytes <? au_SizeBytes req
        then replyNATSError msg ("sizeBytes exceeds limit of " +:+ pretty.pretty maxAttachmentBytes)%string s
        else
          match lookup_row (ce_down e "GetUserBySlug") (GetUserBySlug uslug (db s)) with
          | None => replyNATSError msg "user not found" s
          | Some user =>
            match lookup_row (ce_down e "GetProjectByUserAndSlug") (GetProjectByUserAndSlug (u_ID user) pslug (db s)) with
            | None => replyNATSError msg "project not found or not on this host" s
            | Some (proj, projHostSlug) =>
              if negb (String.eqb projHostSlug hslug) then replyNATSError msg "project not found or not on this host" s
              else
                match lookup_row (ce_down e "GetHostBySlug") (GetHostBySlug hslug (db s)) with
                | None => replyNATSError msg "host not found" s
                | Some host =>
                  let s3Key := attachment_key uslug hslug pslug (att_id e) in
                  match Exec (ce_down e "CreateAttachment") (CreateAttachment (new_attachment e s3Key req (u_ID user) (h_ID host) (p_ID proj))) (db s) with
                  | Err _ => replyNATSError msg "failed to create attachment record" s
                  | Ok t =>
                    let s := set_db t s in
                    match presignPutURL cfg (Unix (ce_now e)) s3Key (5 * 60) with
                    | None => replyNATSError msg "failed to generate upload URL" s
                    | Some uploadURL => respond msg (upload_reply (att_id e) uploadURL) s
                    end
                  end
                end
            end
          end
      end
    end
  end.

(** The id of a confirmation or download; [None]: rejected. *)
Definition id_request (data : string) : option string :=
  match unmarshal (dec_struct [ ("id", dec_string) ]) ""%string data with
  | Some id => if String.eqb id "" then None else Some id
  | None => None
  end.

Definition handleNATSAttachmentConfirm (e : cp_env) (msg : nats_msg) (s : Server) : Server :=
  if negb (cf_db (config s)) then replyNATSError msg "service unavailable" s
  else
    match parseImportSubject (nm_Subject msg) with
    | None => replyNATSError msg "malformed subject" s
    | Some (uslug, _, _) =>
      match id_request (nm_Data msg) with
      | None => replyNATSError msg "id is required" s
      | Some id =>
        match lookup_row (ce_down e "GetUserBySlug") (GetUserBySlug uslug (db s)) with
        | None => replyNATSError msg "user not found" s
        | Some user =>
          match ConfirmAttachment (ce_down e "ConfirmAttachment") id (u_ID user) (db s) with
          | Err err => replyNATSError msg ("failed to confirm attachment: " +:+ err)%string s
          | Ok t => replyNATSOK msg (set_db t s)
          end
        end
      end
    end.

Definition handleNATSAttachmentDownload (e : cp_env) (msg : nats_msg) (s : Server) : Server :=
  match (if cf_db (config s) then cf_s3Config (config s) else None) with
  | None => replyNATSError msg "service unavailable" s
  | Some cfg =>
    match parseImportSubject (nm_Subject msg) with
    | None => replyNATSError msg "malformed subject" s
    | Some (uslug, _, _) =>
      match id_request (nm_Data msg) with
      | None => replyNATSError msg "id is required" s
      | Some id =>
        match lookup_row (ce_down e "GetUserBySlug") (GetUserBySlug uslug (db s)) with
        | None => replyNATSError msg "user not found" s
        | Some user =>
          match lookup_row (ce_down e "GetAttachment") (GetAttachment id (u_ID user) (db s)) with
          | None => replyNATSError msg "attachment not found or unauthorized" s
          | Some att =>
            match presignGetURL cfg (Unix (ce_now e)) (at_S3Key att) (5 * 60) with
            | None => replyNATSError msg "failed to generate download URL" s
            | Some url => respond msg (download_reply url) s
            end
          end
        end
      end
    end
  end.

(** ** Over NATS: imports *)

Definition import_id (e : cp_env) : string := ("imp-" +:+ take_str 8 (ce_uuid e "import"))%string.

Definition handleNATSImportRequest (e : cp_env) (msg : nats_msg) (s : Server) : Server :=
  match (if cf_db (config s) then cf_s3Config (config s) else None) with
  | None => replyNATSError msg "service unavailable" s
  | Some cfg =>
    match parseImportSubject (nm_Subject msg) with
    | None => replyNATSError msg "malformed subject" s
    | Some (uslug, hslug, pslug) =>
      match unmarshal (dec_struct ImportRequestPayload_fields) (""%string, 0) (nm_Data msg) with
      | None => replyNATSError msg "invalid request body" s
      | Some (_, sizeBytes) =>
        if sizeBytes <=? 0 then replyNATSError msg "sizeBytes required" s
        else if maxImportBytes <? sizeBytes then replyNATSError msg ("sizeBytes exceeds limit of " +:+ pretty.pretty maxImportBytes)%string s
        else
          match presignPutURL cfg (Unix (ce_now e)) (import_key uslug hslug pslug (import_id e)) (5 * 60) with
          | None => replyNATSError msg "failed to generate upload URL" s
          | Some uploadURL => respond msg (upload_reply (import_id e) uploadURL) s
          end
      end
    end
  end.

(** The project is created on the user's default host, with the slug of its name;
    the provisioning request goes out after the reply, and its answer is not
    looked at. *)
Definition handleNATSImportConfirm (e : cp_env) (msg : nats_msg) (s : Server) : Server :=
  match (if cf_db (config s) then cf_s3Config (config s) else None) with
  | None => replyNATSError msg "service unavailable" s
  | Some cfg =>
    match parseImportSubject (nm_Subject msg) with
    | None => replyNATSError msg "malformed subject" s
    | Some (uslug, hslug, pslug) =>
      match unmarshal (dec_struct ImportConfirm_fields) ("", "")%string (nm_Data msg) with
      | None => replyNATSError msg "importId is required" s
      | Some (importID, name) =>
        if String.eqb importID "" then replyNATSError msg "importId is required" s
        else
          match lookup_row (ce_down e "GetUserBySlug") (GetUserBySlug uslug (db s)) with
          | None => replyNATSError msg "user not found" s
          | Some user =>
            match s3ObjectExists (ce_http e) cfg (Unix (ce_now e)) (import_key uslug hslug pslug importID) with
            | (_, true) => replyNATSError msg "failed to verify S3 upload" s
            | (false, false) => replyNATSError msg "import archive not found in S3 — upload may not have completed" s
            | (true, false) =>
              let req := {| pc_Name := (if String.eqb name "" then pslug else name); pc_GitURL := ""; pc_GitIdentityID := None; pc_HostSlug := "" |} in
              match create_project e (u_ID user) req (db s) with
              | Err _ => replyNATSError msg "failed to create project" s
              | Ok (proj, t) =>
                let s := exec_ignored (ce_down e "SetProjectImportRef") (SetProjectImportRef (p_ID proj) importID) (set_db t s) in
                let s := if cf_nc (config s) then writeProjectKV e uslug hslug proj s else s in
                let s := respond msg (JObj [("ok", JBool true); ("projectId", JStr (p_ID proj)); ("projectSlug", JStr (p_Slug proj))]) s in
                if cf_nc (config s)
                then send (Requested (HostUserProjectsCreate hslug uslug (p_Slug proj)) (provision_request (u_ID user) uslug hslug proj "" "")) s
                else s
              end
            end
          end
      end
    end
  end.

(** The archive of the project of the subject. *)
Definition import_archive (e : cp_env) (uslug hslug pslug : string) (s : Server) : result string (Project * string) :=
  match lookup_row (ce_down e "GetUserBySlug") (GetUserBySlug uslug (db s)) with
  | None => Err "user not found"%string
  | Some user =>
    match lookup_row (ce_down e "GetProjectByUserAndSlug") (GetProjectByUserAndSlug (u_ID user) pslug (db s)) with
    | None => Err "project not found or not on this host"%string
    | Some (proj, projHostSlug) =>
      if negb (String.eqb projHostSlug hslug) then Err "project not found or not on this host"%string
      else
        match p_ImportRef proj with
        | None => Err "project has no import archive"%string
        | Some ref => if String.eqb ref "" then Err "project has no import archive"%string else Ok (proj, import_key uslug hslug pslug ref)
        end
    end
  end.

Definition handleNATSImportDownload (e : cp_env) (msg : nats_msg) (s : Server) : Server :=
  match (if cf_db (config s) then cf_s3Config (config s) else None) with
  | None => replyNATSError msg "service unavailable" s
  | Some cfg =>
    match parseImportSubject (nm_Subject msg) with
    | None => replyNATSError msg "malformed subject" s
    | Some (uslug, hslug, pslug) =>
      match import_archive e uslug hslug pslug s with
      | Err err => replyNATSError msg err s
      | Ok (_, s3Key) =>
        match presignGetURL cfg (Unix (ce_now e)) s3Key (5 * 60) with
        | None => replyNATSError msg "failed to generate download URL" s
        | Some url => respond msg (download_reply url) s
        end
      end
    end
  end.

(** The deletion of the archive is best effort. *)
Definition handleNATSImportComplete (e : cp_env) (msg : nats_msg) (s : Server) : Server :=
  match (if cf_db (config s) then cf_s3Config (config s) else None) with
  | None => s
  | Some cfg =>
    match parseImportSubject (nm_Subject msg) with
    | None => s
    | Some (uslug, hslug, pslug) =>
      match unmarshal (dec_struct [ ("id", λ j cur, (cur, (dec_string j "").2)); ("ts", λ j cur, (cur, (dec_string j "").2)) ]) tt (nm_Data msg) with
      | None => s
      | Some _ =>
        match import_archive e uslug hslug pslug s with
        | Err _ => s
        | Ok (proj, s3Key) =>
          let s := send (S3ObjectDeleted s3Key) s in
          exec_ignored (ce_down e "SetProjectImportRef") (SetProjectImportRef (p_ID proj) "") s
        end
      end
    end
  end.

(** ** Dispatch *)

Inductive transfer_request := RAttachmentUpload | RAttachmentConfirm | RAttachmentDownload | RImportRequest | RImportConfirm | RImportDownload | RImportComplete.

(** The subject patterns of [StartLifecycleSubscribers]. *)
Definition transfer_pattern (r : transfer_request) : string :=
  "mclaude.users.*.hosts.*.projects.*." +:+
  match r with
  | RAttachmentUpload => "attachments.upload" | RAttachmentConfirm => "attachments.confirm" | RAttachmentDownload => "attachments.download"
  | RImportRequest => "import.request" | RImportConfirm => "import.confirm" | RImportDownload => "import.download" | RImportComplete => "import.complete"
  end.

Definition handle_transfer (r : transfer_request) : cp_env → nats_msg → Server → Server :=
  match r with
  | RAttachmentUpload => handleNATSAttachmentUpload
  | RAttachmentConfirm => handleNATSAttachmentConfirm
  | RAttachmentDownload => handleNATSAttachmentDownload
  | RImportRequest => handleNATSImportRequest
  | RImportConfirm => handleNATSImportConfirm
  | RImportDownload => handleNATSImportDownload
  | RImportComplete => handleNATSImportComplete
  end.

End attachments.
