(* ===== verification/AttachmentsSpec.v ===== *)
(** * What the transfer of files guarantees

    The URLs that the control plane signs reach only objects of the user who
    asks; within a user, an agent of one project reaches the attachments of all;
    and when an imported archive is found again. *)

From S2P Require Import Prelude GoStrings Slug Subjects Json Permissions PermissionsSpec ObjectStore Database ControlServer Challenge ControlDemo ChallengeSpec HostLifecycle HostLifecycleSpec HostApi HostSecurity ProjectApi ProjectSpec Attachments.
Open Scope Z_scope.

(** ** Objects of a user *)

Definition own_object (uslug key : string) : Prop := ∃ rest, key = (uslug +:+ "/" +:+ rest)%string.

(** The attachments of a user have keys below the user's slug. *)
Definition keys_own (t : Tables) : Prop :=
  ∀ a u, a ∈ attachments t → u ∈ users t → u_ID u = at_UserID a → own_object (u_Slug u) (at_S3Key a).

(** The URLs in a reply. *)
Definition urls_of (o : cp_out) : list string :=
  match o with
  | Replied (JObj [(n, JStr url)]) => if String.eqb n "downloadUrl" then [url] else []
  | Replied (JObj [(_, JStr _); (n, JStr url)]) => if String.eqb n "uploadUrl" then [url] else []
  | Responded _ (HUpload _ url) => [url]
  | Responded _ (HDownload _ _ _ _ url) => [url]
  | _ => []
  end.

Section spec.
Context `{PG : Postgres, JT : JsonText, JS : JsonStream, UT : UnicodeTables, NO : Normalizer, UP : UrlParser, NS : NatsServer}.

(** [url] is signed, at the time of [e], for an object of the user. *)
Definition signed_for (e : cp_env) (s : Server) (uslug url : string) : Prop :=
  ∃ cfg method key, cf_s3Config (config s) = Some cfg ∧ presignURL cfg (Unix (ce_now e)) method key 300 = Some url ∧ own_object uslug key.

(** What a handler may do for the user [uslug]. *)
Record transfer_ok (e : cp_env) (s : Server) (uslug : string) (s' : Server) : Prop := {
  tr_keys : keys_own (db s');
  tr_sent : ∃ outs, sent s' = sent s ++ outs ∧ ∀ o url, o ∈ outs → url ∈ urls_of o → signed_for e s uslug url;
}.

Lemma ok_same e s uslug : keys_own (db s) → transfer_ok e s uslug s.
Proof. intros H. split; [done|]. exists []. rewrite app_nil_r. split; [done|]. intros o url Ho. by apply elem_of_nil in Ho. Qed.

Lemma ok_send e s uslug s' o : transfer_ok e s uslug s' → (∀ url, url ∈ urls_of o → signed_for e s uslug url) → transfer_ok e s uslug (send o s').
Proof.
  intros [Hk (outs & Hs & Ho)] Hu. split; [done|]. exists (outs ++ [o]). cbn. rewrite Hs, app_assoc. split; [done|].
  intros o' url [H|H%list_elem_of_singleton]%elem_of_app; [by apply Ho|subst; apply Hu].
Qed.

Lemma ok_respond e s uslug s' m p : transfer_ok e s uslug s' → (∀ url, url ∈ urls_of (Replied p) → signed_for e s uslug url) →
  transfer_ok e s uslug (respond m p s').
Proof. intros. unfold respond. destruct (nm_Reply m); [by apply ok_send|done]. Qed.

Lemma ok_db e s uslug s' t : transfer_ok e s uslug s' → keys_own t → transfer_ok e s uslug (set_db t s').
Proof. intros [_ H] Hk. by split. Qed.

Lemma ok_error e s uslug s' m err : transfer_ok e s uslug s' → transfer_ok e s uslug (replyNATSError m err s').
Proof. intros H. apply ok_respond; [done|]. intros url Hu. by apply elem_of_nil in Hu. Qed.

Lemma ok_http_error e s uslug s' status m : transfer_ok e s uslug s' → transfer_ok e s uslug (http_error status m s').
Proof. intros H. apply ok_send; [done|]. intros url Hu. by apply elem_of_nil in Hu. Qed.

Lemma ok_fine e s uslug s' m : transfer_ok e s uslug s' → transfer_ok e s uslug (replyNATSOK m s').
Proof. intros H. apply ok_respond; [done|]. intros url Hu. by apply elem_of_nil in Hu. Qed.

Lemma ok_url e s uslug cfg method key url : cf_s3Config (config s) = Some cfg → presignURL cfg (Unix (ce_now e)) method key 300 = Some url →
  own_object uslug key → ∀ x, x ∈ [url] → signed_for e s uslug x.
Proof. intros ? ? ? x ->%list_elem_of_singleton. by exists cfg, method, key. Qed.

(** *** Keys *)

Lemma own_attachment_key u h p a : own_object u (attachment_key u h p a).
Proof. eexists. reflexivity. Qed.
Lemma own_import_key u h p a : own_object u (import_key u h p a).
Proof. eexists. reflexivity. Qed.

Lemma keys_create e key req u hid pid t t' :
  keys_own t → u ∈ users t → own_object (u_Slug u) key →
  Exec (ce_down e "CreateAttachment") (CreateAttachment (new_attachment e key req (u_ID u) hid pid)) t = Ok t' → keys_own t'.
Proof.
  intros Hk Hu Ho [-> Hok]%Exec_Ok a v Ha Hv Hid. cbn in Ha, Hv. apply elem_of_app in Ha as [Ha| ->%list_elem_of_singleton]; [by apply Hk|].
  cbn in *. assert (v = u) as -> by (apply (unique_key u_ID (users t)); [apply (tables_ok_users _ Hok)|done..]). done.
Qed.

Lemma keys_confirm down id uid t t' : keys_own t → ConfirmAttachment down id uid t = Ok t' → keys_own t'.
Proof.
  unfold ConfirmAttachment. intros Hk. destruct (Exec _ _ _) as [t1|] eqn:Hx; [|done]. destruct (existsb _ _); [|done]. intros [= <-].
  apply Exec_Ok in Hx as [-> _]. intros a u Ha Hu Hid. cbn in Ha, Hu. apply elem_of_update_where in Ha as (b & Hb & ->).
  destruct (user_attachment id uid b); by apply (Hk b u).
Qed.

Lemma keys_same t t' : keys_own t → users t' = users t → attachments t' = attachments t → keys_own t'.
Proof. unfold keys_own. intros H -> ->. done. Qed.

Lemma GetAttachment_elem id uid t a : GetAttachment id uid t = Some a → a ∈ attachments t ∧ at_ID a = id ∧ at_UserID a = uid.
Proof. intros [H1 H2]%first_row_select. apply andb_true_iff in H2 as [?%String.eqb_eq ?%String.eqb_eq]. done. Qed.

Lemma GetUserByID_elem id t u : GetUserByID id t = Some u → u ∈ users t ∧ u_ID u = id.
Proof. intros [H1 H2%String.eqb_eq]%first_row_select. done. Qed.

(** *** The handlers *)

Lemma parse_import_requester subject uslug hslug pslug : parseImportSubject subject = Some (uslug, hslug, pslug) → uslug = requester subject.
Proof. unfold parseImportSubject. destruct (_ <? _)%nat; [done|]. by intros [= <- _ _]. Qed.

Ltac tr_err := solve [apply ok_error; by apply ok_same | apply ok_http_error; by apply ok_same | by apply ok_same].

(** The configuration of a handler that needs the database and the store. *)
Lemma store_config s cfg : (if cf_db (config s) then cf_s3Config (config s) else None) = Some cfg → cf_s3Config (config s) = Some cfg.
Proof. by destruct (cf_db (config s)). Qed.

Lemma tr_upload e msg s : tables_ok (db s) = true → keys_own (db s) →
  transfer_ok e s (requester (nm_Subject msg)) (handleNATSAttachmentUpload e msg s).
Proof.
  intros Hok Hk. unfold handleNATSAttachmentUpload. destruct (if cf_db (config s) then _ else _) as [cfg|] eqn:Hc; [|tr_err].
  destruct (parseImportSubject _) as [[[uslug hslug] pslug]|] eqn:Hp; [|tr_err]. rewrite <- (parse_import_requester _ _ _ _ Hp).
  destruct (unmarshal _ _ _) as [req|]; [|tr_err]. destruct (_ || _); [tr_err|]. destruct (_ <? _); [tr_err|].
  destruct (lookup_row _ (GetUserBySlug _ _)) as [u|] eqn:Hu; [|tr_err]. destruct (lookup_row _ (GetProjectByUserAndSlug _ _ _)) as [[q qh]|]; [|tr_err].
  destruct (negb _); [tr_err|]. destruct (lookup_row _ (GetHostBySlug _ _)) as [h|]; [|tr_err]. cbv zeta.
  apply lookup_row_Some, GetUserBySlug_elem in Hu as [Hu Hus].
  destruct (Exec _ _ _) as [t|] eqn:Hx; [|tr_err]. apply keys_create in Hx; [|done..|rewrite Hus; apply own_attachment_key].
  assert (Ht : transfer_ok e s uslug (set_db t s)) by (apply ok_db; [by apply ok_same|done]).
  destruct (presignPutURL _ _ _ _) as [url|] eqn:Hurl; [|by apply ok_error]. apply ok_respond; [done|].
  by eapply ok_url; [apply store_config|exact Hurl|apply own_attachment_key].
Qed.

Lemma tr_confirm e msg s : keys_own (db s) → transfer_ok e s (requester (nm_Subject msg)) (handleNATSAttachmentConfirm e msg s).
Proof.
  intros Hk. unfold handleNATSAttachmentConfirm. destruct (negb _); [tr_err|]. destruct (parseImportSubject _) as [[[uslug hslug] pslug]|]; [|tr_err].
  destruct (id_request _) as [id|]; [|tr_err]. destruct (lookup_row _ _) as [u|]; [|tr_err].
  destruct (ConfirmAttachment _ _ _ _) as [t|err] eqn:Hx; [|tr_err]. apply keys_confirm in Hx; [|done].
  apply ok_fine, ok_db; [by apply ok_same|done].
Qed.

Lemma tr_download e msg s : keys_own (db s) → transfer_ok e s (requester (nm_Subject msg)) (handleNATSAttachmentDownload e msg s).
Proof.
  intros Hk. unfold handleNATSAttachmentDownload. destruct (if cf_db (config s) then _ else _) as [cfg|] eqn:Hc; [|tr_err].
  destruct (parseImportSubject _) as [[[uslug hslug] pslug]|] eqn:Hp; [|tr_err]. rewrite <- (parse_import_requester _ _ _ _ Hp).
  destruct (id_request _) as [id|]; [|tr_err]. destruct (lookup_row _ (GetUserBySlug _ _)) as [u|] eqn:Hu; [|tr_err].
  destruct (lookup_row _ (GetAttachment _ _ _)) as [a|] eqn:Ha; [|tr_err]. destruct (presignGetURL _ _ _ _) as [url|] eqn:Hurl; [|tr_err].
  apply lookup_row_Some, GetUserBySlug_elem in Hu as [Hu Hus]. apply lookup_row_Some, GetAttachment_elem in Ha as (Ha & _ & Hau).
  apply ok_respond; [by apply ok_same|]. eapply ok_url; [by apply store_config|exact Hurl|]. rewrite <- Hus. by apply Hk.
Qed.

Lemma tr_import_request e msg s : keys_own (db s) → transfer_ok e s (requester (nm_Subject msg)) (handleNATSImportRequest e msg s).
Proof.
  intros Hk. unfold handleNATSImportRequest. destruct (if cf_db (config s) then _ else _) as [cfg|] eqn:Hc; [|tr_err].
  destruct (parseImportSubject _) as [[[uslug hslug] pslug]|] eqn:Hp; [|tr_err]. rewrite <- (parse_import_requester _ _ _ _ Hp).
  destruct (unmarshal _ _ _) as [[sl size]|]; [|tr_err]. destruct (_ <=? _); [tr_err|]. destruct (_ <? _); [tr_err|].
  destruct (presignPutURL _ _ _ _) as [url|] eqn:Hurl; [|tr_err]. apply ok_respond; [by apply ok_same|].
  eapply ok_url; [by apply store_config|exact Hurl|apply own_import_key].
Qed.

Lemma ref_same id ref t : users (SetProjectImportRef id ref t) = users t ∧ attachments (SetProjectImportRef id ref t) = attachments t.
Proof. done. Qed.

Lemma ok_exec_ref e s uslug s' d id ref : transfer_ok e s uslug s' → transfer_ok e s uslug (exec_ignored d (SetProjectImportRef id ref) s').
Proof.
  intros [Hk Hs]. unfold exec_ignored. destruct (Exec _ _ _) as [t|] eqn:Hx; [|done]. apply Exec_Ok in Hx as [-> _]. split; [|done].
  by eapply keys_same.
Qed.

Lemma ok_writeKV e s uslug s' us hs p : transfer_ok e s uslug s' → transfer_ok e s uslug (writeProjectKV e us hs p s').
Proof. intros [Hk Hs]. unfold writeProjectKV. repeat case_match; by split. Qed.

Lemma tr_import_confirm e msg s : keys_own (db s) → transfer_ok e s (requester (nm_Subject msg)) (handleNATSImportConfirm e msg s).
Proof.
  intros Hk. unfold handleNATSImportConfirm. destruct (if cf_db (config s) then _ else _) as [cfg|]; [|tr_err].
  destruct (parseImportSubject _) as [[[uslug hslug] pslug]|] eqn:Hp; [|tr_err]. rewrite <- (parse_import_requester _ _ _ _ Hp).
  destruct (unmarshal _ _ _) as [[iid name]|]; [|tr_err]. destruct (String.eqb iid ""); [tr_err|].
  destruct (lookup_row _ _) as [u|]; [|tr_err]. destruct (s3ObjectExists _ _ _ _) as [[] []]; [tr_err| |tr_err..]. cbv zeta.
  destruct (create_project _ _ _ _) as [[p t]|] eqn:Hc; [|tr_err]. apply create_project_inv in Hc as (_ & _ & _ & -> & _).
  set (s1 := exec_ignored _ _ _).
  assert (H1 : transfer_ok e s uslug s1) by (apply ok_exec_ref, ok_db; [by apply ok_same|by eapply keys_same]).
  set (s2 := if cf_nc (config s1) then _ else _). assert (H2 : transfer_ok e s uslug s2) by (unfold s2; destruct (cf_nc _); [by apply ok_writeKV|done]).
  set (s3 := respond _ _ s2). assert (H3 : transfer_ok e s uslug s3) by (apply ok_respond; [done|]; intros url Hu; by apply elem_of_nil in Hu).
  destruct (cf_nc (config s3)); [|done]. apply ok_send; [done|]. intros url Hu. by apply elem_of_nil in Hu.
Qed.

Lemma import_archive_key e uslug hslug pslug s p key : import_archive e uslug hslug pslug s = Ok (p, key) → own_object uslug key.
Proof.
  unfold import_archive. destruct (lookup_row _ _) as [u|]; [|done]. destruct (lookup_row _ _) as [[q qh]|]; [|done]. destruct (negb _); [done|].
  destruct (p_ImportRef q) as [r|]; [|done]. destruct (String.eqb r ""); [done|]. intros [= _ <-]. apply own_import_key.
Qed.

Lemma tr_import_download e msg s : keys_own (db s) → transfer_ok e s (requester (nm_Subject msg)) (handleNATSImportDownload e msg s).
Proof.
  intros Hk. unfold handleNATSImportDownload. destruct (if cf_db (config s) then _ else _) as [cfg|] eqn:Hc; [|tr_err].
  destruct (parseImportSubject _) as [[[uslug hslug] pslug]|] eqn:Hp; [|tr_err]. rewrite <- (parse_import_requester _ _ _ _ Hp).
  destruct (import_archive _ _ _ _ _) as [[p key]|err] eqn:Ha; [|tr_err]. destruct (presignGetURL _ _ _ _) as [url|] eqn:Hurl; [|tr_err].
  apply ok_respond; [by apply ok_same|]. eapply ok_url; [by apply store_config|exact Hurl|by eapply import_archive_key].
Qed.

Lemma tr_import_complete e msg s : keys_own (db s) → transfer_ok e s (requester (nm_Subject msg)) (handleNATSImportComplete e msg s).
Proof.
  intros Hk. unfold handleNATSImportComplete. destruct (if cf_db (config s) then _ else _) as [cfg|]; [|tr_err].
  destruct (parseImportSubject _) as [[[uslug hslug] pslug]|]; [|tr_err]. destruct (unmarshal _ _ _); [|tr_err].
  destruct (import_archive _ _ _ _ _) as [[p key]|err]; [|tr_err]. cbv zeta. apply ok_exec_ref, ok_send; [by apply ok_same|].
  intros url Hu. by apply elem_of_nil in Hu.
Qed.

Lemma tr_http e method path body s u : tables_ok (db s) = true → keys_own (db s) → u ∈ users (db s) →
  transfer_ok e s (u_Slug u) (handleAttachmentRoutes e method path body (u_ID u) s).
Proof.
  intros Hok Hk Hu. pose proof (proj1 (tables_ok_users _ Hok)) as Hid.
  assert (Hme : ∀ v, v ∈ users (db s) → u_ID v = u_ID u → v = u) by (intros; by apply (unique_key u_ID (users (db s)))).
  unfold handleAttachmentRoutes. cbv zeta. destruct (_ && _); [|destruct (_ && _); [|destruct (_ && _); [|tr_err]]].
  - unfold handleAttachmentUploadURL. destruct (negb _); [tr_err|]. destruct (cf_s3Config _) as [cfg|] eqn:Hc; [|tr_err]. destruct (String.eqb _ ""); [tr_err|].
    destruct (decode_body _ _ _) as [req|]; [|tr_err]. destruct (_ || _); [tr_err|]. destruct (_ <? _); [tr_err|].
    destruct (lookup_row _ (GetUserByID _ _)) as [v|] eqn:Hv; [|tr_err]. destruct (lookup_row _ (GetProjectByUserAndSlug _ _ _)) as [[q qh]|]; [|tr_err].
    destruct (negb _); [tr_err|]. destruct (lookup_row _ (GetHostBySlug _ _)) as [h|]; [|tr_err]. cbv zeta.
    apply lookup_row_Some, GetUserByID_elem in Hv as [Hv Hvi]. apply Hme in Hvi as ->; [|done].
    destruct (Exec _ _ _) as [t|] eqn:Hx; [|tr_err]. apply keys_create in Hx; [|done..|apply own_attachment_key].
    assert (Ht : transfer_ok e s (u_Slug u) (set_db t s)) by (apply ok_db; [by apply ok_same|done]).
    destruct (presignPutURL _ _ _ _) as [url|] eqn:Hurl; [|by apply ok_http_error]. apply ok_send; [done|].
    eapply ok_url; [done|exact Hurl|apply own_attachment_key].
  - unfold handleAttachmentConfirm. destruct (negb _); [tr_err|]. destruct (cf_s3Config _) as [cfg|]; [|tr_err]. destruct (String.eqb _ ""); [tr_err|].
    destruct (lookup_row _ _) as [a|]; [|tr_err].
    assert (Hnil : ∀ s', transfer_ok e s (u_Slug u) s' → transfer_ok e s (u_Slug u) (http_json 200 HOK s'))
      by (intros s' Hs'; apply ok_send; [done|]; intros url Hx; by apply elem_of_nil in Hx).
    destruct (at_Confirmed a); [by apply Hnil, ok_same|].
    destruct (negb _); [tr_err|]. destruct (ConfirmAttachment _ _ _ _) as [t|err] eqn:Hx; [|tr_err]. apply keys_confirm in Hx; [|done].
    apply Hnil, ok_db; [by apply ok_same|done].
  - unfold handleAttachmentGet. destruct (negb _); [tr_err|]. destruct (cf_s3Config _) as [cfg|] eqn:Hc; [|tr_err]. destruct (String.eqb _ ""); [tr_err|].
    destruct (lookup_row _ _) as [a|] eqn:Ha; [|tr_err]. destruct (negb _); [tr_err|]. destruct (presignGetURL _ _ _ _) as [url|] eqn:Hurl; [|tr_err].
    apply lookup_row_Some, GetAttachment_elem in Ha as (Ha & _ & Hau). apply ok_send; [by apply ok_same|].
    eapply ok_url; [done|exact Hurl|]. by apply Hk.
Qed.

(** C20. Every URL that the control plane signs, over NATS and over HTTP, is for an
    object below the slug of the user who asks: the one of the subject, or the
    authenticated one; and requests keep it that way. *)
Theorem urls_confined e s s' uslug :
  tables_ok (db s) = true → keys_own (db s) →
  (∃ r msg, s' = handle_transfer r e msg s ∧ uslug = requester (nm_Subject msg)) ∨
  (∃ u method path body, u ∈ users (db s) ∧ uslug = u_Slug u ∧ s' = handleAttachmentRoutes e method path body (u_ID u) s) →
  keys_own (db s') ∧ ∀ o url, o ∈ replies s s' → url ∈ urls_of o → signed_for e s uslug url.
Proof.
  intros Hok Hk Hreq.
  assert (Ht : transfer_ok e s uslug s').
  { destruct Hreq as [(r & msg & -> & ->)|(u & method & path & body & Hu & -> & ->)]; [|by apply tr_http].
    destruct r; cbn [handle_transfer]; [by apply tr_upload|by apply tr_confirm|by apply tr_download|by apply tr_import_request|
      by apply tr_import_confirm|by apply tr_import_download|by apply tr_import_complete]. }
  destruct Ht as [Hk' (outs & Hs & Ho)]. split; [done|]. unfold replies. rewrite Hs, drop_app_length. exact Ho.
Qed.

(** ** Agents of one user *)

(** The project in the subject of a download is not compared with the project of
    the attachment, nor is its confirmation: an agent, whose credential is for one
    project, gets a URL for every attachment of its user. *)
Theorem agent_reads_other_project e msg s cfg u a hslug pslug url :
  tables_ok (db s) = true → no_failures e → cf_db (config s) = true → cf_s3Config (config s) = Some cfg → nm_Reply msg = true →
  u ∈ users (db s) → valid (u_Slug u) → valid hslug → valid pslug →
  nm_Subject msg = Join "." ["mclaude"; "users"; u_Slug u; "hosts"; hslug; "projects"; pslug; "attachments"; "download"]%string →
  id_request (nm_Data msg) = Some (at_ID a) → a ∈ attachments (db s) → at_UserID a = u_ID u →
  presignGetURL cfg (Unix (ce_now e)) (at_S3Key a) 300 = Some url →
  may_publish (SessionAgentSubjectPermissions (u_Slug u) hslug pslug) (nm_Subject msg) = true ∧
  replies s (handleNATSAttachmentDownload e msg s) = [Replied (download_reply url)].
Proof.
  intros Hok [Hd _] Hdb Hcfg Hr Hu Hvu Hvh Hvp Hsub Hreq Ha Hau Hurl.
  assert (Ht : tokens (nm_Subject msg) = ["mclaude"; "users"; u_Slug u; "hosts"; hslug; "projects"; pslug; "attachments"; "download"]%string).
  { rewrite Hsub. apply tokens_join; [done|]. repeat (apply Forall_cons; split); try done; by apply valid_slug_no_dot. }
  split.
  - unfold may_publish.
    rewrite (allows_written _ _ _ [Lit "mclaude"; Lit "users"; Var "" (u_Slug u); Lit "hosts"; Var "" hslug; Lit "projects"; Var "" pslug; Lit "attachments"; Lit "download"] []
      (agent_written _ hslug pslug Hvu Hvh Hvp)) by (by rewrite Ht).
    unfold agent_patterns. cbn [existsb app]. apply orb_true_iff. left. cbn. by rewrite !String.eqb_refl.
  - unfold handleNATSAttachmentDownload, lookup_row. rewrite Hdb, Hcfg, !Hd. unfold parseImportSubject. rewrite Ht. cbn [length Nat.ltb Nat.leb nth].
    rewrite Hreq, (GetUserBySlug_user _ u) by done. unfold GetAttachment.
    destruct (first_row_exists (user_attachment (at_ID a) (u_ID u)) (attachments (db s)) a) as [b Hb]; [done|unfold user_attachment; by rewrite Hau, !String.eqb_refl|].
    rewrite Hb. apply first_row_select in Hb as [Hb [Hbi%String.eqb_eq _]%andb_true_iff].
    assert (b = a) as ->.
    { apply (unique_key at_ID (attachments (db s))); [|done..]. unfold tables_ok, unique_ok in Hok. rewrite !andb_true_iff, !uniqueb_NoDup in Hok. tauto. }
    change (5 * 60) with 300. rewrite Hurl. unfold respond. rewrite Hr. by apply replies_send.
Qed.

(** ** Imports *)

Lemma update_where_fmap {A K} (k : A → K) p f l : (∀ x, k (f x) = k x) → k <$> update_where p f l = k <$> l.
Proof.
  intros H. unfold update_where. rewrite <- list_fmap_compose. apply list_fmap_ext. intros _ x _. unfold compose. by destruct (p x).
Qed.

Lemma forallb_fmap_key {A K} (k : A → K) (q : K → bool) l l' : k <$> l = k <$> l' → forallb (λ x, q (k x)) l = forallb (λ x, q (k x)) l'.
Proof.
  revert l'. induction l as [|x l IH]; intros [|y l'] H; try done. cbn in *. injection H as H1 H2. by rewrite H1, (IH l').
Qed.

Lemma set_ref_ok id ref t : tables_ok t = true → tables_ok (SetProjectImportRef id ref t) = true.
Proof.
  unfold tables_ok, unique_ok, check_ok, foreign_ok, SetProjectImportRef. cbn [users hosts host_access projects agent_credentials attachments set_projects].
  rewrite !update_where_fmap by done. set (l := update_where _ _ _).
  rewrite (forallb_fmap_key (λ p, (p_UserID p, p_HostID p)) (λ k, memb k.1 (u_ID <$> users t) && memb k.2 (h_ID <$> hosts t)) l (projects t)); [done|].
  by apply update_where_fmap.
Qed.

(** The only project of its user and slug is the one found. *)
Lemma GetProject_only t p h :
  tables_ok t = true → p ∈ projects t → (∀ q, q ∈ projects t → p_UserID q = p_UserID p → p_Slug q = p_Slug p → q = p) →
  h ∈ hosts t → h_ID h = p_HostID p → GetProjectByUserAndSlug (p_UserID p) (p_Slug p) t = Some (p, h_Slug h).
Proof.
  intros Hok Hp Honly Hh Hid. destruct (GetProjectByUserAndSlug _ _ t) as [[q qh]|] eqn:E.
  - apply GetProjectByUserAndSlug_elem in E as (Hq & Hqu & Hqs & g & Hg & Hgi & Hgs); [|done].
    assert (q = p) as -> by by apply Honly. assert (g = h) as -> by (apply (unique_key h_ID (hosts t)); [apply (tables_ok_hosts _ Hok)|done..|congruence]).
    by rewrite <- Hgs.
  - unfold GetProjectByUserAndSlug in E. apply first_row_none, fmap_nil_inv in E.
    assert (Hin : p ∈ select (λ q, String.eqb (p_UserID q) (p_UserID p) && String.eqb (p_Slug q) (p_Slug p)) (projects t))
      by (apply select_elem; by rewrite !String.eqb_refl).
    rewrite E in Hin. by apply elem_of_nil in Hin.
Qed.

Lemma slash_inj (a b c d : string) : has_char "/" a = false → has_char "/" c = false →
  (a +:+ "/" +:+ b = c +:+ "/" +:+ d)%string → a = c ∧ b = d.
Proof.
  intros Ha Hc H. assert (a = c) as ->.
  { apply (f_equal (λ s, hd ""%string (Split "/"%char s))) in H. change ("/" +:+ b)%string with (String "/" b) in H. change ("/" +:+ d)%string with (String "/" d) in H.
    by rewrite !Split_app in H. }
  split; [done|]. apply string_app_inj_l in H. by injection H.
Qed.

Lemma import_key_inj u h p h' p' id :
  has_char "/" h = false → has_char "/" h' = false → has_char "/" p = false → has_char "/" p' = false →
  import_key u h p id = import_key u h' p' id → h = h' ∧ p = p'.
Proof.
  intros Hh Hh' Hp Hp' H. unfold import_key in H. apply string_app_inj_l in H. injection H as H.
  apply slash_inj in H as [-> H]; [|done..]. by apply slash_inj in H as [-> _].
Qed.

Definition with_ref (ref : string) (p : Project) : Project :=
  {| p_ID := p_ID p; p_UserID := p_UserID p; p_Name := p_Name p; p_Slug := p_Slug p; p_GitURL := p_GitURL p; p_Status := p_Status p;
     p_HostID := p_HostID p; p_GitIdentityID := p_GitIdentityID p; p_ImportRef := Some ref; p_CreatedAt := p_CreatedAt p |}.

(** Import round trip: after the confirmation of an uploaded archive the agent of
    the created project finds an archive; it is the uploaded one exactly when
    the project was created on the host of the upload and its name has the slug
    that the upload was made under. *)
Theorem import_found e1 m1 e2 s u h uslug hslug pslug id name p t cfg :
  let s1 := handleNATSImportConfirm e1 m1 s in
  tables_ok (db s) = true → no_failures e1 → no_failures e2 → cf_db (config s) = true → cf_s3Config (config s) = Some cfg →
  parseImportSubject (nm_Subject m1) = Some (uslug, hslug, pslug) →
  unmarshal (dec_struct ImportConfirm_fields) ("", "")%string (nm_Data m1) = Some (id, name) → id ≠ ""%string →
  u ∈ users (db s) → u_Slug u = uslug →
  s3ObjectExists (ce_http e1) cfg (Unix (ce_now e1)) (import_key uslug hslug pslug id) = (true, false) →
  create_project e1 (u_ID u) {| pc_Name := (if String.eqb name "" then pslug else name); pc_GitURL := ""; pc_GitIdentityID := None; pc_HostSlug := "" |} (db s) = Ok (p, t) →
  (∀ q, q ∈ projects (db s) → p_UserID q = u_ID u → p_Slug q ≠ p_Slug p) → h ∈ hosts (db s) → h_ID h = p_HostID p →
  has_char "/" (h_Slug h) = false → has_char "/" (p_Slug p) = false → has_char "/" hslug = false → has_char "/" pslug = false →
  import_archive e2 uslug (h_Slug h) (p_Slug p) s1 = Ok (with_ref id p, import_key uslug (h_Slug h) (p_Slug p) id) ∧
  (import_key uslug (h_Slug h) (p_Slug p) id = import_key uslug hslug pslug id ↔ h_Slug h = hslug ∧ p_Slug p = pslug).
Proof.
  intros s1 Hok [Hd _] [Hd2 _] Hdb Hcfg Hsub Hreq Hne Hu Hus Hex Hc Hnew Hh Hhid S1 S2 S3 S4.
  pose proof (create_project_inv _ _ _ _ _ _ Hc) as (Hpu & _ & _ & Ht & Hokt).
  apply String.eqb_neq in Hne as Hne'.
  assert (Hdb1 : db s1 = SetProjectImportRef (p_ID p) id t).
  { unfold s1, handleNATSImportConfirm. rewrite Hdb, Hcfg, Hsub, Hreq, Hne'. unfold lookup_row at 1. rewrite Hd, <- Hus, (GetUserBySlug_user _ u) by done.
    rewrite Hus, Hex, Hc. cbv zeta.
    rewrite (exec_ignored_ok (ce_down e1 "SetProjectImportRef") _ (set_db t s)); [|apply Hd|by apply set_ref_ok]. cbn [db set_db config].
    assert (Hw : ∀ (b : bool) s0, db (if b then writeProjectKV e1 uslug hslug p s0 else s0) = db s0)
      by (intros [] s0; [apply writeProjectKV_db|done]).
    match goal with |- db (if ?b then send _ ?x else _) = _ => transitivity (db x); [by destruct b|] end.
    by rewrite respond_db, Hw. }
  split; [|split; [by apply import_key_inj|by intros [-> ->]]].
  assert (Hok1 : tables_ok (db s1) = true) by (rewrite Hdb1; by apply set_ref_ok).
  assert (Hpid : ∀ q, q ∈ projects (db s) → String.eqb (p_ID q) (p_ID p) = false).
  { intros q Hq. apply String.eqb_neq. intros He. unfold tables_ok, unique_ok in Hokt. rewrite !andb_true_iff, !uniqueb_NoDup in Hokt.
    assert (q = p) as ->; [|by destruct (Hnew p)]. rewrite Ht in Hokt.
    apply (unique_key p_ID (projects (db s) ++ [p])); [cbn in Hokt; tauto|apply elem_of_app; by left|apply elem_of_app; right; by apply list_elem_of_singleton|done]. }
  assert (Hpr : ∀ q, q ∈ projects (db s1) ↔ q ∈ projects (db s) ∨ q = with_ref id p).
  { intros q. rewrite Hdb1, Ht. unfold SetProjectImportRef. cbn [projects set_projects]. rewrite elem_of_update_where, Hne'. setoid_rewrite elem_of_app. setoid_rewrite list_elem_of_singleton. split.
    - intros (y & [Hy| ->] & ->); [left; by rewrite Hpid|right; by rewrite String.eqb_refl].
    - intros [Hq| ->]; [exists q; split; [by left|by rewrite Hpid]|exists p; split; [by right|by rewrite String.eqb_refl]]. }
  assert (Hus1 : users (db s1) = users (db s) ∧ hosts (db s1) = hosts (db s)) by (by rewrite Hdb1, Ht).
  destruct Hus1 as [Hus1 Hh1].
  unfold import_archive, lookup_row. rewrite !Hd2, <- Hus, (GetUserBySlug_user _ u) by (done || by rewrite Hus1).
  rewrite <- Hpu. change (p_UserID p) with (p_UserID (with_ref id p)). change (p_Slug p) with (p_Slug (with_ref id p)) at 1.
  rewrite (GetProject_only _ (with_ref id p) h); [|done|apply Hpr; by right| |by rewrite Hh1|done].
  - rewrite String.eqb_refl. cbn [negb with_ref p_ImportRef p_Slug]. by rewrite Hne'.
  - intros q [Hq| ->]%Hpr Hqu Hqs; [|done]. cbn in Hqu, Hqs. destruct (Hnew q); congruence.
Qed.

End spec.

(** ** Examples *)

#[local] Existing Instances demo_pg demo_nkeys demo_text demo_stream demo_tables demo_norm demo_urls doc_nats_server.

Module TransferDemo.
Definition att : Attachment := {| at_ID := "att-1"; at_S3Key := "bob/laptop/api/attachments/att-1"; at_Filename := "a.png"; at_MimeType := "image/png";
  at_SizeBytes := 7; at_UserID := "id-bob"; at_HostID := "host-1"; at_ProjectID := "proj-2"; at_Confirmed := true; at_CreatedAt := 6 |}.
Definition download_msg : nats_msg := msg "mclaude.users.bob.hosts.laptop.projects.other.attachments.download" "download att-1".
Definition url : string := default ""%string (presignGetURL store 100 "bob/laptop/api/attachments/att-1" 300).
Definition confirm_msg : nats_msg := msg "mclaude.users.bob.hosts.laptop.projects.shop.import.confirm" "import shop".
Definition imported : Server := handleNATSImportConfirm (env_at 100) confirm_msg server.
Definition shop : Project := {| p_ID := "uuid-project"; p_UserID := "id-bob"; p_Name := "My Shop"; p_Slug := project_slug [] "My Shop"; p_GitURL := "";
  p_Status := "active"; p_HostID := "host-3"; p_GitIdentityID := None; p_ImportRef := None; p_CreatedAt := 100 * Second |}.
End TransferDemo.
Import TransferDemo.

Lemma demo_keys_own : keys_own tables.
Proof.
  intros a u ->%list_elem_of_singleton Hu.
  assert (Hf : Forall (λ u, u_ID u = "id-bob"%string → own_object (u_Slug u) "bob/laptop/api/attachments/att-1") (users tables)).
  { constructor; [intros H; discriminate H|]. constructor; [intros _|constructor]. by exists "laptop/api/attachments/att-1"%string. }
  rewrite Forall_forall in Hf. by apply Hf.
Qed.

Lemma urls_confined_witness :
  let s' := handleNATSAttachmentDownload (env_at 100) download_msg server in
  replies server s' = [Replied (download_reply url)] ∧ signed_for (env_at 100) server "bob" url.
Proof.
  assert (Hr : replies server (handle_transfer RAttachmentDownload (env_at 100) download_msg server) = [Replied (download_reply url)])
    by (vm_compute; reflexivity).
  split; [exact Hr|].
  destruct (urls_confined (env_at 100) server (handle_transfer RAttachmentDownload (env_at 100) download_msg server) "bob") as [_ H].
  - vm_compute. reflexivity.
  - exact demo_keys_own.
  - left. exists RAttachmentDownload, download_msg. split; reflexivity.
  - apply (H (Replied (download_reply url)) url); [rewrite Hr; left|]. change (url ∈ [url]). left.
Defined.

Lemma agent_reads_other_project_witness :
  may_publish (SessionAgentSubjectPermissions "bob" "laptop" "other") (nm_Subject download_msg) = true ∧
  replies server (handleNATSAttachmentDownload (env_at 100) download_msg server) = [Replied (download_reply url)].
Proof.
  apply (agent_reads_other_project (env_at 100) download_msg server store bob att "laptop" "other" url); try (vm_compute; reflexivity); try done.
  - right. left.
  - left.
Defined.

Lemma import_found_witness :
  import_archive (env_at 110) "bob" "local" (p_Slug shop) imported = Ok (with_ref "imp-1" shop, import_key "bob" "local" (p_Slug shop) "imp-1") ∧
  (import_key "bob" "local" (p_Slug shop) "imp-1" = import_key "bob" "laptop" "shop" "imp-1" ↔ "local" = "laptop" ∧ p_Slug shop = "shop")%string.
Proof.
  apply (import_found (env_at 100) confirm_msg (env_at 110) server bob bob_local "bob" "laptop" "shop" "imp-1" "My Shop" shop
    (set_projects (projects tables ++ [shop]) tables) store); try (vm_compute; reflexivity); try discriminate; try done.
  - right. left.
  - intros q Hq Hu.
    assert (Hf : Forall (λ q, p_UserID q = "id-bob"%string → p_Slug q ≠ "my-shop"%string) (projects tables)) by (repeat constructor; discriminate).
    rewrite Forall_forall in Hf. replace (p_Slug shop) with "my-shop"%string by (vm_compute; reflexivity). by apply Hf.
  - right. right. left.
Defined.
