(* ===== verification/Accounts.v ===== *)
(** * Accounts (mclaude-control-plane: auth.go, device_auth.go)

    Login with a password, renewal of tokens, the middleware that identifies the
    user of an HTTP request, and the device codes with which a command line
    client logs in through a browser. *)

From S2P Require Import Prelude GoStrings Slug Subjects Json Permissions ObjectStore Database ControlServer Challenge HostApi ProjectApi.
Open Scope Z_scope.

(** [bcrypt.CompareHashAndPassword]. *)
Class Bcrypt := { bcrypt_check : string → string → bool }.

(** [natsjwt.DecodeUserClaims]: the issuer and the claims of a token with a good
    signature, and whether it is well formed otherwise. *)
Record jwt_token := { jt_Issuer : string; jt_Claims : jwt_claims; jt_WellFormed : bool }.
Class JwtText := { jwt_decode : string → option jwt_token }.

Section accounts.
Context `{PG : Postgres, JS : JsonStream, BC : Bcrypt, JW : JwtText, MR : MapRange}.

(** [DecodeUserJWT]; an expired token is rejected by [Validate]. *)
Definition DecodeUserJWT (e : cp_env) (token accountPubKey : string) : option jwt_claims :=
  match jwt_decode token with
  | None => None
  | Some t =>
    if negb (String.eqb accountPubKey "") && negb (String.eqb (jt_Issuer t) accountPubKey) then None
    else if negb (jt_WellFormed t) then None
    else
      match jc_Expires (jt_Claims t) with
      | Some x => if x <? Unix (ce_now e) then None else Some (jt_Claims t)
      | None => Some (jt_Claims t)
      end
  end.

(** The header value. *)
Definition bearerToken (header : string) : string := if HasPrefix header "Bearer " then TrimPrefix header "Bearer " else "".

Definition checkPassword (password hash : string) : bool := if String.eqb hash "" then false else bcrypt_check password hash.

Definition getUserHostSlugs (e : cp_env) (userID : string) (s : Server) : list string :=
  if negb (cf_db (config s)) then [] else if ce_down e "GetHostAccessSlugs" then [] else GetHostAccessSlugs userID (db s).
Definition getLoginHosts (e : cp_env) (userID : string) (s : Server) : list Host :=
  if negb (cf_db (config s)) then [] else if ce_down e "GetHostsByUser" then [] else GetHostsByUser userID (db s).
Definition getLoginProjects (e : cp_env) (userID : string) (s : Server) : list (Project * string) :=
  if negb (cf_db (config s)) then [] else if ce_down e "GetProjectsByUser" then [] else GetProjectsByUser userID (db s).

(** ** Login and renewal *)

Record LoginRequest := { lr_Email : string; lr_Password : string; lr_NKeyPublic : string }.
Definition zero_LoginRequest : LoginRequest := {| lr_Email := ""; lr_Password := ""; lr_NKeyPublic := "" |}.
Definition LoginRequest_fields : list (field LoginRequest) :=
  [ fld "email" dec_string lr_Email (λ v r, {| lr_Email := v; lr_Password := lr_Password r; lr_NKeyPublic := lr_NKeyPublic r |});
    fld "password" dec_string lr_Password (λ v r, {| lr_Email := lr_Email r; lr_Password := v; lr_NKeyPublic := lr_NKeyPublic r |});
    fld "nkey_public" dec_string lr_NKeyPublic (λ v r, {| lr_Email := lr_Email r; lr_Password := lr_Password r; lr_NKeyPublic := v |}) ].

(** The answer to a login or renewal; [seed]: a generated seed is included. *)
Definition login_response (e : cp_env) (jwt : jwt_claims) (seed : bool) (user : User) (s : Server) : Server :=
  http_json 200 (HLogin jwt seed (u_ID user) (u_Slug user) (Unix (ce_now e) + cf_jwtExpiry (config s))
    (getLoginHosts e (u_ID user) s) (getLoginProjects e (u_ID user) s)) s.

Definition handleLogin (e : cp_env) (body : string) (s : Server) : Server :=
  match decode_body (dec_struct LoginRequest_fields) zero_LoginRequest body with
  | None => http_error 400 "invalid request body" s
  | Some req =>
    if String.eqb (lr_Email req) "" || String.eqb (lr_Password req) "" then http_error 400 "email and password required" s
    else if negb (cf_db (config s)) then http_error 503 "service unavailable" s
    else if ce_down e "GetUserByEmail" then http_error 500 "internal error" s
    else
      match GetUserByEmail (lr_Email req) (db s) with
      | None => http_error 401 "invalid credentials" s
      | Some user =>
        if negb (checkPassword (lr_Password req) (u_PasswordHash user)) then http_error 401 "invalid credentials" s
        else
          let now := Unix (ce_now e) in
          let expirySecs := cf_jwtExpiry (config s) in
          if negb (String.eqb (lr_NKeyPublic req) "") then
            let s := exec_ignored (ce_down e "SetUserNKeyPublic") (SetUserNKeyPublic (u_ID user) (lr_NKeyPublic req)) s in
            let hostSlugs := getUserHostSlugs e (u_ID user) s in
            match IssueUserJWT (ce_signErr e) now (lr_NKeyPublic req) (u_ID user) (u_Slug user) hostSlugs expirySecs with
            | None => http_error 500 "failed to issue jwt" s
            | Some jwt =>
              let s := if cf_nc (config s) then send (EnsuredUserResources (u_Slug user)) s else s in
              login_response e jwt false user s
            end
          else
            match IssueUserJWTLegacy (ce_signErr e) now (ce_uuid e "nkey") (u_ID user) (u_Slug user) expirySecs with
            | None => http_error 500 "failed to issue jwt" s
            | Some jwt => login_response e jwt true user s
            end
      end
  end.

Definition handleRefresh (e : cp_env) (header : string) (s : Server) : Server :=
  let oldJWT := bearerToken header in
  if String.eqb oldJWT "" then http_error 401 "authorization required" s
  else
    match DecodeUserJWT e oldJWT (cf_accountPub (config s)) with
    | None => http_error 401 "invalid jwt" s
    | Some claims =>
      if negb (cf_db (config s)) then http_error 503 "service unavailable" s
      else if ce_down e "GetUserByID" then http_error 500 "internal error" s
      else
        match GetUserByID (jc_Name claims) (db s) with
        | None => http_error 401 "user not found" s
        | Some user =>
          let now := Unix (ce_now e) in
          let expirySecs := cf_jwtExpiry (config s) in
          match u_NKeyPublic user with
          | Some key =>
            if String.eqb key "" then
              match IssueUserJWTLegacy (ce_signErr e) now (ce_uuid e "nkey") (u_ID user) (u_Slug user) expirySecs with
              | None => http_error 500 "failed to issue jwt" s
              | Some jwt => login_response e jwt true user s
              end
            else
              match IssueUserJWT (ce_signErr e) now key (u_ID user) (u_Slug user) (getUserHostSlugs e (u_ID user) s) expirySecs with
              | None => http_error 500 "failed to issue jwt" s
              | Some jwt => login_response e jwt false user s
              end
          | None =>
            match IssueUserJWTLegacy (ce_signErr e) now (ce_uuid e "nkey") (u_ID user) (u_Slug user) expirySecs with
            | None => http_error 500 "failed to issue jwt" s
            | Some jwt => login_response e jwt true user s
            end
          end
        end
    end.

(** ** Identification of requests *)

(** The first segment of the path below /api/users/. *)
Definition url_user (path : string) : string := nth 0 (SplitN 2 (TrimPrefix path "/api/users/")) "".

Definition authMiddleware (e : cp_env) (header path : string) (next : string → Server → Server) (s : Server) : Server :=
  let token := bearerToken header in
  if String.eqb token "" then http_error 401 "authorization required" s
  else
    match DecodeUserJWT e token (cf_accountPub (config s)) with
    | None => http_error 401 "invalid token" s
    | Some claims =>
      let userID := jc_Name claims in
      let forbidden :=
        HasPrefix path "/api/users/" && negb (String.eqb (url_user path) "") && cf_db (config s) &&
        match lookup_row (ce_down e "GetUserByID(auth)") (GetUserByID userID (db s)) with
        | Some user => negb (String.eqb (u_Slug user) (url_user path)) && negb (u_IsAdmin user)
        | None => false
        end in
      if forbidden then http_error 403 "forbidden" s else next userID s
    end.

(** The routes below /api/users/, behind the middleware. *)
Definition users_api `{JT : JsonText, UT : UnicodeTables, NO : Normalizer, UP : UrlParser} (e : cp_env) (method header path body : string) : Server → Server :=
  authMiddleware e header path (handleUserAPIRoutes e method path body).

(** ** Device codes of command line clients *)

Definition cliCodeTTL : Z := 15 * 60 * Second.

(** Drawing either code may fail ([ce_nonce] is [None]); a body that does not
    decode is taken as empty. *)
Definition handleCLIDeviceCodeCreate (e : cp_env) (method body : string) (s : Server) : Server :=
  if negb (String.eqb method "POST") then http_error 405 "method not allowed" s
  else
    let publicKey := match json_first body with
                     | Some j => (dec_struct [ fld "publicKey" dec_string id (λ v _, v) ] j ""%string).1
                     | None => ""%string
                     end in
    match ce_nonce e with
    | None => http_error 500 "failed to generate device code" s
    | Some _ =>
      let deviceCode := ce_uuid e "device code" in
      let userCode := ce_uuid e "user code" in
      let entry := {| cd_UserCode := userCode; cd_ExpiresAt := ce_now e + cliCodeTTL; cd_Completed := false; cd_PublicKey := publicKey;
                      cd_UserID := ""; cd_UserSlug := ""; cd_JWT := None |} in
      http_json 200 (HDeviceCode deviceCode userCode (cf_externalURL (config s) +:+ "/api/auth/device-code/verify?code=" +:+ userCode)%string)
        (set_cliCodes (<[deviceCode := entry]> (cliCodes s)) s)
    end.

Definition handleCLIDeviceCodePoll (e : cp_env) (method body : string) (s : Server) : Server :=
  if negb (String.eqb method "POST") then http_error 405 "method not allowed" s
  else
    match decode_body (dec_struct [ ("deviceCode", dec_string) ]) ""%string body with
    | None => http_error 400 "invalid request body" s
    | Some code =>
      if String.eqb code "" then http_error 400 "deviceCode is required" s
      else
        match cliCodes s !! code with
        | None => http_error 404 "device code not found" s
        | Some entry =>
          if cd_ExpiresAt entry <? ce_now e then http_json 410 (HPoll "expired" None "") s
          else if cd_Completed entry then http_json 200 (HPoll "authorized" (cd_JWT entry) (cd_UserSlug entry)) s
          else http_json 200 (HPoll "pending" None "") s
        end
    end.

(** The page of a GET request contains the code of the query as it is. *)
Definition verification_page (userCode : string) : string :=
  "<!DOCTYPE html>
<html>
<head><title>MClaude CLI Authorization</title></head>
<body>
<h1>Authorize CLI Access</h1>
<p>Enter the code shown in your terminal:</p>
<form method=" +:+ dquote +:+ "POST" +:+ dquote +:+ " action=" +:+ dquote +:+ "/api/auth/device-code/verify" +:+ dquote +:+ ">
  <input type=" +:+ dquote +:+ "hidden" +:+ dquote +:+ " name=" +:+ dquote +:+ "code" +:+ dquote +:+ " value=" +:+ dquote +:+ userCode +:+ dquote +:+ ">
  <input type=" +:+ dquote +:+ "text" +:+ dquote +:+ " name=" +:+ dquote +:+ "user_code" +:+ dquote +:+ " placeholder=" +:+ dquote +:+ "Enter code" +:+ dquote +:+ " value=" +:+ dquote +:+ userCode +:+ dquote +:+ ">
  <input type=" +:+ dquote +:+ "password" +:+ dquote +:+ " name=" +:+ dquote +:+ "password" +:+ dquote +:+ " placeholder=" +:+ dquote +:+ "Password" +:+ dquote +:+ ">
  <input type=" +:+ dquote +:+ "email" +:+ dquote +:+ " name=" +:+ dquote +:+ "email" +:+ dquote +:+ " placeholder=" +:+ dquote +:+ "Email" +:+ dquote +:+ ">
  <button type=" +:+ dquote +:+ "submit" +:+ dquote +:+ ">Authorize</button>
</form>
</body>
</html>".

(** The key of the token: the client's, or the one stored for the user. *)
Definition cli_key (entry : cliDeviceCodeEntry) (user : User) : string :=
  if negb (String.eqb (cd_PublicKey entry) "") then cd_PublicKey entry else default ""%string (u_NKeyPublic user).

Definition complete_cli (user : User) (jwt : option jwt_claims) (entry : cliDeviceCodeEntry) : cliDeviceCodeEntry :=
  {| cd_UserCode := cd_UserCode entry; cd_ExpiresAt := cd_ExpiresAt entry; cd_Completed := true; cd_PublicKey := cd_PublicKey entry;
     cd_UserID := u_ID user; cd_UserSlug := u_Slug user; cd_JWT := jwt |}.

Definition authorized_page : string :=
  "<!DOCTYPE html>
<html>
<head><title>CLI Authorized</title></head>
<body>
<h1>✓ CLI Authorized</h1>
<p>You can close this tab. Your CLI is now authenticated.</p>
</body>
</html>".

(** The values of the submitted form. *)
Record verify_form := { vf_userCode : string; vf_email : string; vf_password : string }.

Definition redeemable (e : cp_env) (userCode : string) (ce : string * cliDeviceCodeEntry) : bool :=
  String.eqb (cd_UserCode ce.2) userCode && negb (cd_Completed ce.2) && (ce_now e <? cd_ExpiresAt ce.2).

(** The token of an entry is of the user who submits the form. *)
Definition cli_token (e : cp_env) (entry : cliDeviceCodeEntry) (user : User) (s : Server) : option jwt_claims :=
  let publicKey := cli_key entry user in
  if negb (String.eqb publicKey "")
  then IssueUserJWT (ce_signErr e) (Unix (ce_now e)) publicKey (u_ID user) (u_Slug user)
         (if ce_down e "GetHostAccessSlugs" then [] else GetHostAccessSlugs (u_ID user) (db s)) (cf_jwtExpiry (config s))
  else None.

(** [form] is [None] when the body is not a form; [queryCode] is the code of the
    URL of a GET request. *)
Definition handleCLIDeviceCodeVerify (e : cp_env) (method queryCode : string) (form : option verify_form) (s : Server) : Server :=
  if String.eqb method "GET" then send (Responded 200 (HText (verification_page queryCode))) s
  else if negb (String.eqb method "POST") then http_error 405 "method not allowed" s
  else
  match form with
  | None => http_error 400 "invalid form" s
  | Some (Build_verify_form userCode email password) =>
  if String.eqb userCode "" || String.eqb email "" || String.eqb password "" then http_error 400 "user_code, email, and password are required" s
  else if negb (cf_db (config s)) then http_error 503 "service unavailable" s
  else
    match lookup_row (ce_down e "GetUserByEmail") (GetUserByEmail email (db s)) with
    | None => http_error 401 "invalid credentials" s
    | Some user =>
      if negb (checkPassword password (u_PasswordHash user)) then http_error 401 "invalid credentials" s
      else
        match range_first (List.filter (redeemable e userCode) (map_to_list (cliCodes s))) with
        | None => http_error 400 "invalid or expired user code" s
        | Some (deviceCode, entry) =>
          let jwt := cli_token e entry user s in
          let s := set_cliCodes (<[deviceCode := complete_cli user jwt entry]> (cliCodes s)) s in
          if String.eqb deviceCode "" then http_error 400 "invalid or expired user code" s
          else
            match jwt with
            | None => http_error 400 "no public key available for JWT issuance" s
            | Some _ => send (Responded 200 (HText authorized_page)) s
            end
        end
    end
  end.

End accounts.
