(* ===== verification/AccountsSpec.v ===== *)
(** * What logins guarantee

    Tokens are given to users who prove their password, the HTTP interface acts
    for the user of the token, and what the key of a login takes from a host. *)

From S2P Require Import Prelude GoStrings Base64 Slug Subjects Json Permissions PermissionsSpec ObjectStore Database ControlServer Challenge ControlDemo ChallengeSpec HostLifecycle HostLifecycleSpec HostApi ProjectApi ProjectSpec Accounts.
Open Scope Z_scope.

(** The row and the password of a login. *)
Definition proves (email password : string) (u : User) (t : Tables) `{Bcrypt} : Prop :=
  u ∈ users t ∧ u_Email u = email ∧ u_PasswordHash u ≠ "" ∧ bcrypt_check password (u_PasswordHash u) = true.

Section spec.
Context `{PG : Postgres, JS : JsonStream, BC : Bcrypt, JW : JwtText, MR : MapRange}.

Lemma checkPassword_spec p h : checkPassword p h = true ↔ h ≠ "" ∧ bcrypt_check p h = true.
Proof. unfold checkPassword. destruct (String.eqb_spec h ""); naive_solver. Qed.

(** ** Login *)

(** The slugs that a token lists are of hosts the user has access to. *)
Lemma getUserHostSlugs_sound e userID s x :
  x ∈ getUserHostSlugs e userID s → ∃ h, h ∈ hosts (db s) ∧ h_Slug h = x ∧ has_access (db s) userID h.
Proof.
  unfold getUserHostSlugs. destruct (negb _); [by intros ?%elem_of_nil|]. destruct (ce_down e _); [by intros ?%elem_of_nil|].
  by intros ?%GetHostAccessSlugs_elem.
Qed.

(** The tokens of a login: bound to the client's key, or to a generated one. *)
Definition login_token (e : cp_env) (key : string) (u : User) (s : Server) (jwt : jwt_claims) : Prop :=
  jc_Name jwt = u_ID u ∧ jc_IssuedAt jwt = Unix (ce_now e) ∧
  (if String.eqb key ""
   then jc_PublicKey jwt = ce_uuid e "nkey" ∧ jc_Perms jwt = legacy_user_permissions (u_ID u) (u_Slug u)
   else jc_PublicKey jwt = key ∧ ∃ hs, jc_Perms jwt = UserSubjectPermissions (u_Slug u) hs ∧
          ∀ x, x ∈ hs → ∃ h, h ∈ hosts (db s) ∧ h_Slug h = x ∧ has_access (db s) (u_ID u) h).

(** Everyone else's row stays. *)
Definition others_kept (u : User) (t t' : Tables) : Prop :=
  (∀ v, u_ID v ≠ u_ID u → v ∈ users t' ↔ v ∈ users t) ∧ hosts t' = hosts t ∧ host_access t' = host_access t ∧ projects t' = projects t ∧
  agent_credentials t' = agent_credentials t ∧ attachments t' = attachments t.

Lemma set_key_others u key t : others_kept u t (SetUserNKeyPublic (u_ID u) key t).
Proof.
  split; [|done]. intros v Hv. cbn. apply (own_update u_ID (u_ID u)); [|done]. by intros y _ Hy%String.eqb_eq.
Qed.

Lemma exec_key_others u key d s : others_kept u (db s) (db (exec_ignored d (SetUserNKeyPublic (u_ID u) key) s)).
Proof. destruct (exec_ignored_db d (SetUserNKeyPublic (u_ID u) key) s) as [->|[-> _]]; [done|apply set_key_others]. Qed.

Lemma exec_ignored_config d f s : config (exec_ignored d f s) = config s.
Proof. unfold exec_ignored. by destruct (Exec d f (db s)). Qed.

Lemma replies_one s s0 o : sent s0 = sent s → replies s (send o s0) = [o].
Proof. intros H. apply replies_send. cbn. by rewrite H. Qed.

Lemma answered_once s s0 o r : sent s0 = sent s → r ∈ replies s (send o s0) → r = o.
Proof. intros H Hr. rewrite (replies_one s s0 o H) in Hr. by apply list_elem_of_singleton in Hr. Qed.

(** The answer of a login follows at most the creation of the user's streams. *)
Lemma login_answer s s1 s2 e jwt seed u r :
  s2 = login_response e jwt seed u s1 → sent s1 = sent s ∨ (∃ x, sent s1 = sent s ++ [EnsuredUserResources x]) →
  Responded 200 r ∈ replies s s2 →
  r = HLogin jwt seed (u_ID u) (u_Slug u) (Unix (ce_now e) + cf_jwtExpiry (config s1)) (getLoginHosts e (u_ID u) s1) (getLoginProjects e (u_ID u) s1).
Proof.
  intros -> Hs Hr. unfold login_response, http_json in Hr. destruct Hs as [Hs|[x Hs]].
  - apply answered_once in Hr; [|done]. by injection Hr.
  - unfold replies in Hr. cbn [sent send] in Hr. rewrite Hs, <- app_assoc, drop_app_length in Hr. cbn [app] in Hr.
    apply elem_of_cons in Hr as [?|Hr]; [done|]. apply list_elem_of_singleton in Hr. by injection Hr.
Qed.

Lemma GetUserByEmail_elem email t u : GetUserByEmail email t = Some u → u ∈ users t ∧ u_Email u = email.
Proof. by intros [? ?%String.eqb_eq]%first_row_select. Qed.

Lemma issued_name e now key name secs perms jwt : issueJWT e now key name secs perms = Some jwt → jc_Name jwt = name.
Proof. unfold issueJWT. destruct e; [done|]. by intros [= <-]. Qed.

(** Follow the branches that answer with an error. *)
Ltac error_branch := let H := fresh in intros H; by apply answered_once in H.

(** Everything about an answer with a token. *)
Record login_granted (e : cp_env) (body : string) (s s' : Server) (b : http_body) (req : LoginRequest) (u : User) : Prop := {
  lg_body : decode_body (dec_struct LoginRequest_fields) zero_LoginRequest body = Some req;
  lg_proves : proves (lr_Email req) (lr_Password req) u (db s);
  lg_answer : ∃ jwt ex hs ps, b = HLogin jwt (String.eqb (lr_NKeyPublic req) "") (u_ID u) (u_Slug u) ex hs ps ∧ login_token e (lr_NKeyPublic req) u s jwt;
  lg_others : others_kept u (db s) (db s');
}.

Lemma login_inv e body s jwt seed uid uslug ex hs ps :
  Responded 200 (HLogin jwt seed uid uslug ex hs ps) ∈ replies s (handleLogin e body s) →
  ∃ req u, login_granted e body s (handleLogin e body s) (HLogin jwt seed uid uslug ex hs ps) req u.
Proof.
  unfold handleLogin, http_error. destruct (decode_body _ _ body) as [req|] eqn:Hb; [|error_branch]. destruct (_ || _); [error_branch|].
  destruct (cf_db (config s)) eqn:Hdb; [|error_branch]. destruct (ce_down e "GetUserByEmail"); [error_branch|].
  destruct (GetUserByEmail _ _) as [u|] eqn:Hu; [|error_branch]. apply GetUserByEmail_elem in Hu as [Hu Hem].
  destruct (checkPassword _ _) eqn:Hp; [|error_branch]. apply checkPassword_spec in Hp as [Hne Hp]. cbn [negb].
  assert (Hpr : proves (lr_Email req) (lr_Password req) u (db s)) by done. cbv zeta.
  destruct (String.eqb (lr_NKeyPublic req) "") eqn:Hk; cbn [negb].
  - destruct (IssueUserJWTLegacy _ _ _ _ _ _) as [j|] eqn:Hj; [|error_branch]. intros H. eapply login_answer in H; [|done|by left].
    injection H as -> -> -> -> -> -> ->. exists req, u. split; [done|done| |by repeat split]. rewrite Hk. do 4 eexists. split; [done|].
    apply issued_name in Hj as Hn. apply issued_claims in Hj as (Hkey & Hat & Hperms & _). split; [done|]. split; [done|]. by rewrite Hk.
  - destruct (IssueUserJWT _ _ _ _ _ _ _) as [j|] eqn:Hj.
    2: { intros H. by apply answered_once in H; [|rewrite exec_ignored_sent]. }
    intros H. eapply login_answer in H; [|done|].
    2: { destruct (cf_nc _); [right; eexists; cbn; by rewrite exec_ignored_sent|left; by rewrite exec_ignored_sent]. }
    injection H as -> -> -> -> -> -> ->. exists req, u.
    pose proof (exec_key_others u (lr_NKeyPublic req) (ce_down e "SetUserNKeyPublic") s) as Hex.
    rewrite exec_ignored_config. split; [done|done| |by destruct (cf_nc (config s))]. rewrite Hk. do 4 eexists. split; [done|].
    apply issued_name in Hj as Hn. apply issued_claims in Hj as (Hkey & Hat & Hperms & _). split; [done|]. split; [done|].
    rewrite Hk. split; [done|]. eexists; split; [done|]. intros x Hx%getUserHostSlugs_sound. destruct Hex as (_ & Hh & Ha & _). unfold has_access in *. by rewrite Hh, Ha in Hx.
Qed.

(** A login answers with a token only to a client that sent the password of the
    account with the email; the token is of this account, bound to the client's
    key when it sent one and then listing only hosts the user has access to; and
    of the tables only the account's own row changes. *)
Theorem login_sound e body s jwt seed uid uslug ex hs ps :
  Responded 200 (HLogin jwt seed uid uslug ex hs ps) ∈ replies s (handleLogin e body s) →
  ∃ req u, decode_body (dec_struct LoginRequest_fields) zero_LoginRequest body = Some req ∧
    proves (lr_Email req) (lr_Password req) u (db s) ∧ login_token e (lr_NKeyPublic req) u s jwt ∧
    uid = u_ID u ∧ uslug = u_Slug u ∧ seed = String.eqb (lr_NKeyPublic req) "" ∧
    others_kept u (db s) (db (handleLogin e body s)).
Proof.
  intros (req & u & [Hb Hp (j & ex' & hs' & ps' & Heq & Ht) Ho])%login_inv. injection Heq as -> -> -> -> _ _ _. by exists req, u.
Qed.

(** A login whose credentials are right and during which nothing fails. *)
Record logs_in (e : cp_env) (body : string) (s : Server) (req : LoginRequest) (u : User) : Prop := {
  li_body : decode_body (dec_struct LoginRequest_fields) zero_LoginRequest body = Some req;
  li_proves : proves (lr_Email req) (lr_Password req) u (db s);
  li_given : lr_Email req ≠ "" ∧ lr_Password req ≠ "";
  li_db : cf_db (config s) = true;
  li_works : no_failures e;
  li_tables : tables_ok (db s) = true;
}.

Lemma tables_ok_emails t : tables_ok t = true → NoDup (u_Email <$> users t).
Proof. unfold tables_ok, unique_ok. rewrite !andb_true_iff, !uniqueb_NoDup. tauto. Qed.

Lemma logs_in_user e body s req u : logs_in e body s req u → GetUserByEmail (lr_Email req) (db s) = Some u.
Proof.
  intros H. destruct (li_proves _ _ _ _ _ H) as (Hu & Hem & _).
  destruct (first_row_exists (λ v, String.eqb (u_Email v) (lr_Email req)) (users (db s)) u) as [v E]; [done|by apply String.eqb_eq|].
  unfold GetUserByEmail. rewrite E. apply first_row_select in E as [Hv Hve%String.eqb_eq]. f_equal.
  apply (unique_key u_Email (users (db s))); [|done..|congruence]. by apply tables_ok_emails, (li_tables _ _ _ _ _ H).
Qed.

(** What such a login amounts to. *)
Lemma login_with_key e body s req u :
  logs_in e body s req u → lr_NKeyPublic req ≠ "" →
  db (handleLogin e body s) = db (exec_ignored false (SetUserNKeyPublic (u_ID u) (lr_NKeyPublic req)) s) ∧
  config (handleLogin e body s) = config s.
Proof.
  intros H Hk. unfold handleLogin. rewrite (li_body _ _ _ _ _ H). destruct (li_given _ _ _ _ _ H) as [H1 H2].
  apply String.eqb_neq in H1 as ->, H2 as ->, Hk as Hk'. rewrite (li_db _ _ _ _ _ H). destruct (li_works _ _ _ _ _ H) as [Hd Hs].
  rewrite !Hd, (logs_in_user e body s req u H). cbn [orb negb]. destruct (li_proves _ _ _ _ _ H) as (_ & _ & Hne & Hp).
  assert (checkPassword (lr_Password req) (u_PasswordHash u) = true) as -> by (by apply checkPassword_spec). cbn [negb].
  rewrite Hk'. cbn [negb]. cbv zeta. unfold IssueUserJWT, issueJWT. rewrite Hs. rewrite !exec_ignored_config.
  destruct (cf_nc (config s)); unfold login_response, http_json; cbn [db config send]; split; try done; by rewrite exec_ignored_config.
Qed.

(** The identity a key stands for once a user has it. *)
Lemma user_key_token e key s u :
  no_failures e → tables_ok (db s) = true → u ∈ users (db s) → u_NKeyPublic u = Some key →
  ∃ jwt s' hs, issueJWTForNKey e key s = (Ok jwt, s') ∧ jc_Name jwt = u_ID u ∧ jc_Perms jwt = UserSubjectPermissions (u_Slug u) hs.
Proof.
  intros [Hd Hs] Hok Hu Hk. unfold issueJWTForNKey, lookup_row. rewrite !Hd.
  destruct (first_row_exists (λ v, opt_eqb (u_NKeyPublic v) key) (users (db s)) u) as [v E]; [done|by apply opt_eqb_spec|].
  unfold GetUserByNKeyPublic. rewrite E. apply first_row_select in E as [Hv Hvk%opt_eqb_spec].
  assert (v = u) as -> by (eapply (unique_opt_key u_NKeyPublic (users (db s))); [by apply tables_ok_users in Hok as (_ & _ & ?)|done..]).
  unfold IssueUserJWT, issueJWT. rewrite Hs. do 3 eexists. by repeat split.
Qed.

Lemma host_key_token e key s h :
  no_failures e → tables_ok (db s) = true → (∀ v, v ∈ users (db s) → u_NKeyPublic v ≠ Some key) → h ∈ hosts (db s) → h_PublicKey h = Some key →
  ∃ jwt s', issueJWTForNKey e key s = (Ok jwt, s') ∧ jc_Perms jwt = HostSubjectPermissions (h_Slug h).
Proof.
  intros [Hd Hs] Hok Hno Hh Hk. unfold issueJWTForNKey, lookup_row. rewrite !Hd.
  destruct (GetUserByNKeyPublic key (db s)) as [v|] eqn:E1. { apply first_row_select in E1 as [? ?%opt_eqb_spec]. by destruct (Hno v). }
  destruct (first_row_exists (λ v, opt_eqb (h_PublicKey v) key) (hosts (db s)) h) as [g E]; [done|by apply opt_eqb_spec|].
  unfold GetHostByPublicKey. rewrite E. apply first_row_select in E as [Hg Hgk%opt_eqb_spec].
  assert (g = h) as -> by (eapply (unique_opt_key h_PublicKey (hosts (db s))); [by apply tables_ok_hosts in Hok as (_ & _ & ?)|done..]).
  cbn [isHostRevoked]. unfold IssueHostJWT, issueJWT. rewrite Hs. do 2 eexists. by repeat split.
Qed.

(** Keys are unique in each table but not across the tables: any user who logs in
    with the public key of a host takes the key over.  Before the login the
    host's key gets the host's permissions, afterwards it gets those of the
    user, and the host's controller cannot do its work any more. *)
Theorem login_takes_host_key e1 e2 body s req u h key :
  logs_in e1 body s req u → lr_NKeyPublic req = key → key ≠ "" → no_failures e2 →
  h ∈ hosts (db s) → h_PublicKey h = Some key → (∀ v, v ∈ users (db s) → u_NKeyPublic v ≠ Some key) →
  (∃ jwt s', issueJWTForNKey e2 key s = (Ok jwt, s') ∧ jc_Perms jwt = HostSubjectPermissions (h_Slug h)) ∧
  ∃ jwt s' hs, issueJWTForNKey e2 key (handleLogin e1 body s) = (Ok jwt, s') ∧ jc_Perms jwt = UserSubjectPermissions (u_Slug u) hs.
Proof.
  intros Hl Hreq Hne Hw Hh Hk Hno. pose proof (li_tables _ _ _ _ _ Hl) as Hok. split; [by apply host_key_token|].
  destruct (login_with_key _ _ _ _ _ Hl) as [Hdb _]; [by rewrite Hreq|]. rewrite Hreq in Hdb.
  assert (Hset : tables_ok (SetUserNKeyPublic (u_ID u) key (db s)) = true).
  { apply SetUserNKeyPublic_ok; [done|]. intros v Hv Hvk. by destruct (Hno v). }
  rewrite exec_ignored_ok in Hdb by done. cbn [db set_db] in Hdb.
  destruct (user_key_token e2 key (handleLogin e1 body s)
    {| u_ID := u_ID u; u_Email := u_Email u; u_Name := u_Name u; u_PasswordHash := u_PasswordHash u; u_IsAdmin := u_IsAdmin u;
       u_Slug := u_Slug u; u_NKeyPublic := Some key; u_CreatedAt := u_CreatedAt u |}) as (jwt & s' & hs & Hi & _ & Hp); try done.
  - by rewrite Hdb.
  - rewrite Hdb. cbn. apply elem_of_update_where. exists u. split; [apply (li_proves _ _ _ _ _ Hl)|]. by rewrite String.eqb_refl.
  - by exists jwt, s', hs.
Qed.

(** The subjects of the JetStream API. *)
Lemma legacy_api userID uslug x `{NS : NatsServer} : may_publish (legacy_user_permissions userID uslug) ("$JS.API." +:+ x) = true.
Proof.
  unfold may_publish, allows. cbn [PubAllow legacy_user_permissions existsb]. rewrite !orb_true_iff. right. right. left.
  rewrite nats_tokens. unfold tokens. change ("$JS.API." +:+ x) with ("$JS" +:+ String "."%char ("API" +:+ String "."%char x)).
  rewrite !Split_app by done. destruct (Split "." x) eqn:E; [by apply Split_ne_nil in E|]. reflexivity.
Qed.

(** A login without a key gets the old token, whose permissions are not confined
    to the user: with it any user may read the sessions and projects of every
    other user, and delete their streams. *)
Theorem legacy_login_reaches_all `{NS : NatsServer} e body s jwt uid uslug ex hs ps v h p n c :
  Responded 200 (HLogin jwt true uid uslug ex hs ps) ∈ replies s (handleLogin e body s) →
  may_publish (jc_Perms jwt) (render_resource (RGetSession v h p n)) = true ∧
  may_publish (jc_Perms jwt) (render_resource (RGetProject v h p)) = true ∧
  may_publish (jc_Perms jwt) (render_resource (RWatchSessions v h p c ">")) = true ∧
  may_publish (jc_Perms jwt) (render_resource (RReplay v h p c ">")) = true ∧
  may_publish (jc_Perms jwt) ("$JS.API.STREAM.DELETE." +:+ userSessionsStream v) = true ∧
  may_receive (jc_Perms jwt) "_INBOX.reply" = true.
Proof.
  intros Hin. assert (Hp : ∃ u, jc_Perms jwt = legacy_user_permissions (u_ID u) (u_Slug u)).
  { apply login_inv in Hin as (req & u & [_ _ (j & ex' & hs' & ps' & Heq & Ht) _]). injection Heq as -> Hseed _ _ _ _ _.
    destruct Ht as (_ & _ & Ht). rewrite <- Hseed in Ht. exists u. by destruct Ht. }
  destruct Hp as [u ->]. repeat split; try apply legacy_api.
  unfold may_receive, allows. cbn [SubAllow legacy_user_permissions existsb]. rewrite !orb_true_iff. right. left. rewrite nats_tokens. reflexivity.
Qed.

(** ** The HTTP interface *)

Section http.
Context `{JT : JsonText, UT : UnicodeTables, NO : Normalizer, UP : UrlParser}.

(** The user whose token the header carries. *)
Definition identified (e : cp_env) (header : string) (s : Server) (claims : jwt_claims) : Prop :=
  bearerToken header ≠ "" ∧ DecodeUserJWT e (bearerToken header) (cf_accountPub (config s)) = Some claims.

Lemma SplitN_slash n x rest : has_char "/" x = false → SplitN (S (S n)) (x +:+ "/" +:+ rest) = x :: SplitN (S n) rest.
Proof.
  intros Hx. assert (Hd : drop_str (String.length x + 1) (x +:+ String "/"%char rest) = rest).
  { change (x +:+ String "/"%char rest) with (x +:+ ("/" +:+ rest)). rewrite <- string_app_assoc.
    replace (String.length x + 1)%nat with (String.length (x +:+ "/")) by (by rewrite length_app_str). apply drop_str_app. }
  change (x +:+ "/" +:+ rest) with (x +:+ String "/"%char rest).
  remember (S n) as m. cbn [SplitN]. rewrite Split_app by done. subst m.
  destruct (Split "/" rest) eqn:E; [by apply Split_ne_nil in E|]. by rewrite Hd.
Qed.

(** Below the user's slug the routes do not look at the path's first segment. *)
Lemma routes_ignore_user e method u v rest body userID s :
  has_char "/" u = false → has_char "/" v = false →
  handleUserAPIRoutes e method ("/api/users/" +:+ u +:+ "/" +:+ rest) body userID s =
  handleUserAPIRoutes e method ("/api/users/" +:+ v +:+ "/" +:+ rest) body userID s.
Proof.
  intros Hu Hv. unfold handleUserAPIRoutes, handleHostRoutes, handleProjectHTTPRoutes. rewrite !TrimPrefix_app, !SplitN_slash by done.
  cbv zeta. unfold part. cbn [length nth]. reflexivity.
Qed.

Lemma url_user_path u rest : has_char "/" u = false → url_user ("/api/users/" +:+ u +:+ "/" +:+ rest) = u.
Proof. intros Hu. unfold url_user. rewrite TrimPrefix_app, (SplitN_slash 0) by done. reflexivity. Qed.

(** C12. The middleware and the routes together, over tables that satisfy the
    schema, whichever database calls fail: a request below /api/users/ that changes
    a table comes with a valid token and changes only rows of the token's user,
    what lies on this user's hosts (with a deleted host go its projects, grants and
    attachments, whose ever they are) and the attachments of this user's projects.
    When the middleware's lookup of the user answers, the slug of the path is the
    user's own or the user is an administrator; the check is skipped when that
    lookup fails, but the request acts on the token's user all the same. *)
Theorem users_api_confined e method header path body s u rest :
  path = "/api/users/" +:+ u +:+ "/" +:+ rest → has_char "/" u = false → u ≠ "" → cf_db (config s) = true →
  tables_ok (db s) = true →
  db (users_api e method header path body s) ≠ db s →
  ∃ claims, identified e header s claims ∧ own_change (jc_Name claims) (db s) (db (users_api e method header path body s)) ∧
    (ce_down e "GetUserByID(auth)" = false →
     ∀ v, v ∈ users (db s) → u_ID v = jc_Name claims → u_Slug v = u ∨ u_IsAdmin v = true).
Proof.
  intros -> Hu Hne Hdb Hok. unfold users_api, authMiddleware. destruct (String.eqb_spec (bearerToken header) ""); [done|].
  destruct (DecodeUserJWT _ _ _) as [claims|] eqn:Hc; [|done]. rewrite url_user_path, Hdb by done. unfold HasPrefix. rewrite prefix_app.
  apply String.eqb_neq in Hne as Hne'. rewrite Hne'. cbn [negb andb].
  destruct (match lookup_row _ _ with Some _ => _ | None => _ end) eqn:Hf; [done|]. intros _. exists claims. split; [done|]. split; [apply own_user_routes|].
  intros Hd v Hv Hid. rewrite Hd in Hf. cbn [lookup_row] in Hf. destruct (GetUserByID (jc_Name claims) (db s)) as [w|] eqn:Hw.
  - apply first_row_select in Hw as [Hw Hwid%String.eqb_eq].
    assert (v = w) as -> by (apply (unique_key u_ID (users (db s))); [by apply tables_ok_users in Hok as (? & _ & _)|done..|congruence]).
    destruct (String.eqb_spec (u_Slug w) u); [by left|]. right. cbn in Hf. by destruct (u_IsAdmin w).
  - apply (first_row_exists (λ v, String.eqb (u_ID v) (jc_Name claims))) in Hv as [y Hy]; [|by apply String.eqb_eq].
    unfold GetUserByID in Hw. by rewrite Hw in Hy.
Qed.

(** The other side: when the middleware's lookup of the user fails, a request below
    a foreign slug passes as one of the token's user. *)
Theorem failing_lookup_skips_check e method header body s u rest claims :
  identified e header s claims → has_char "/" u = false → ce_down e "GetUserByID(auth)" = true →
  users_api e method header ("/api/users/" +:+ u +:+ "/" +:+ rest) body s =
  handleUserAPIRoutes e method ("/api/users/" +:+ u +:+ "/" +:+ rest) body (jc_Name claims) s.
Proof.
  intros [Hb Hc] Hu Hd. unfold users_api, authMiddleware. apply String.eqb_neq in Hb as ->. rewrite Hc, Hd. cbn [lookup_row].
  by rewrite !andb_false_r.
Qed.

(** What an administrator asks for another user happens to the administrator: the
    slug of the path decides whether the request passes, and nothing else, so a
    request below another user's slug is the same request below the
    administrator's own. *)
Theorem admin_acts_on_own_rows e method header body s admin u rest claims :
  identified e header s claims → tables_ok (db s) = true → admin ∈ users (db s) → u_ID admin = jc_Name claims → u_IsAdmin admin = true →
  has_char "/" u = false → has_char "/" (u_Slug admin) = false →
  users_api e method header ("/api/users/" +:+ u +:+ "/" +:+ rest) body s =
  users_api e method header ("/api/users/" +:+ u_Slug admin +:+ "/" +:+ rest) body s.
Proof.
  intros [Hb Hc] Hok Ha Hid Hadm Hu Hs. unfold users_api, authMiddleware. apply String.eqb_neq in Hb as ->. rewrite Hc. rewrite !url_user_path by done.
  assert (Hpass : ∀ d x, match lookup_row d (GetUserByID (jc_Name claims) (db s)) with
     | Some v => negb (String.eqb (u_Slug v) x) && negb (u_IsAdmin v) | None => false end = false).
  { intros d x. destruct d; [done|]. cbn. destruct (GetUserByID _ _) as [v|] eqn:Hv; [|done]. apply first_row_select in Hv as [Hv Hvid%String.eqb_eq].
    assert (v = admin) as -> by (apply (unique_key u_ID (users (db s))); [by apply tables_ok_users in Hok as (? & _ & _)|done..|congruence]).
    by rewrite Hadm, andb_false_r. }
  rewrite !Hpass, !andb_false_r. by apply routes_ignore_user.
Qed.

End http.

(** ** Device codes *)

(** A submitted form, when and in which state. *)
Record submission := { sb_env : cp_env; sb_form : verify_form; sb_state : Server }.

(** The requests on device codes in any order, with the forms submitted so far;
    in between, the server may do anything that leaves the codes alone. *)
Inductive device_run : list submission → Server → Prop :=
| run_start s : cliCodes s = ∅ → device_run [] s
| run_create e m b h s : device_run h s → device_run h (handleCLIDeviceCodeCreate e m b s)
| run_poll e m b h s : device_run h s → device_run h (handleCLIDeviceCodePoll e m b s)
| run_page e q f h s : device_run h s → device_run h (handleCLIDeviceCodeVerify e "GET" q f s)
| run_submit e q f h s : device_run h s →
    device_run ({| sb_env := e; sb_form := f; sb_state := s |} :: h) (handleCLIDeviceCodeVerify e "POST" q (Some f) s)
| run_other h s s' : cliCodes s' = cliCodes s → device_run h s → device_run h s'.

(** The token of an entry comes from a submitted form. *)
Definition vouched (h : list submission) (entry : cliDeviceCodeEntry) (j : jwt_claims) : Prop :=
  ∃ sb u hs, sb ∈ h ∧ proves (vf_email (sb_form sb)) (vf_password (sb_form sb)) u (db (sb_state sb)) ∧
    vf_userCode (sb_form sb) = cd_UserCode entry ∧ ce_now (sb_env sb) < cd_ExpiresAt entry ∧
    cd_UserSlug entry = u_Slug u ∧ jc_Name j = u_ID u ∧ jc_Perms j = UserSubjectPermissions (u_Slug u) hs ∧
    jc_PublicKey j = (if String.eqb (cd_PublicKey entry) "" then default "" (u_NKeyPublic u) else cd_PublicKey entry).

Definition codes_vouched (h : list submission) (s : Server) : Prop :=
  ∀ code entry j, cliCodes s !! code = Some entry → cd_JWT entry = Some j → cd_Completed entry = true ∧ vouched h entry j.

Lemma vouched_mono sb h entry j : vouched h entry j → vouched (sb :: h) entry j.
Proof. intros (sb' & u & hs & H & H'). exists sb', u, hs. split; [by right|done]. Qed.

Lemma create_codes e m b s : cliCodes (handleCLIDeviceCodeCreate e m b s) = cliCodes s ∨
  ∃ code entry, cliCodes (handleCLIDeviceCodeCreate e m b s) = <[code := entry]> (cliCodes s) ∧ cd_JWT entry = None.
Proof.
  unfold handleCLIDeviceCodeCreate. destruct (negb _); [by left|]. destruct (ce_nonce e); [|by left]. right. eexists _, _. by split.
Qed.

Lemma poll_codes e m b s : cliCodes (handleCLIDeviceCodePoll e m b s) = cliCodes s.
Proof. unfold handleCLIDeviceCodePoll. by repeat case_match. Qed.

(** What a submitted form completes. *)
Lemma submit_codes e q f s :
  let s' := handleCLIDeviceCodeVerify e "POST" q (Some f) s in
  cliCodes s' = cliCodes s ∨
  ∃ u code entry, proves (vf_email f) (vf_password f) u (db s) ∧ cliCodes s !! code = Some entry ∧ redeemable e (vf_userCode f) (code, entry) = true ∧
    cliCodes s' = <[code := complete_cli u (cli_token e entry u s) entry]> (cliCodes s).
Proof.
  cbv zeta. unfold handleCLIDeviceCodeVerify. cbn [String.eqb Ascii.eqb Bool.eqb negb]. destruct f as [userCode email password]. cbn [vf_userCode vf_email vf_password].
  destruct (_ || _); [by left|]. destruct (negb _); [by left|].
  destruct (lookup_row _ _) as [u|] eqn:Hu; [|by left]. apply lookup_row_Some, GetUserByEmail_elem in Hu as [Hu Hem].
  destruct (checkPassword _ _) eqn:Hp; [|by left]. apply checkPassword_spec in Hp as [Hne Hp]. cbn [negb].
  destruct (range_first _) as [[code entry]|] eqn:Hr; [|by left].
  apply range_first_in, list_elem_of_In, filter_In in Hr as [Hin Hre]. apply list_elem_of_In, elem_of_map_to_list in Hin.
  right. exists u, code, entry. split; [done|]. split; [done|]. split; [done|]. cbv zeta. destruct (String.eqb code ""); [done|]. by destruct (cli_token e entry u s).
Qed.

Lemma run_vouched h s : device_run h s → codes_vouched h s.
Proof.
  induction 1 as [s H|e m b h s _ IH|e m b h s _ IH|e q f h s _ IH|e q f h s _ IH|h s s' H _ IH]; intros code entry j.
  - by rewrite H.
  - destruct (create_codes e m b s) as [->|(c & en & -> & Hno)]; [apply IH|].
    destruct (decide (c = code)) as [->|Hc]; [rewrite lookup_insert_eq; intros [= <-]; congruence|]. rewrite lookup_insert_ne by done. apply IH.
  - rewrite poll_codes. apply IH.
  - apply IH.
  - destruct (submit_codes e q f s) as [->|(u & c & en & Hp & Hin & Hr & ->)].
    { intros Hl Hj. destruct (IH _ _ _ Hl Hj). split; [done|by apply vouched_mono]. }
    destruct (decide (c = code)) as [->|Hc].
    + rewrite lookup_insert_eq. intros [= <-] Hj. cbn in Hj. split; [done|]. unfold redeemable in Hr. cbn in Hr.
      rewrite !andb_true_iff, String.eqb_eq, Z.ltb_lt in Hr. destruct Hr as [[Hcode _] Hlive].
      unfold cli_token in Hj. destruct (negb _); [|done]. apply issued_name in Hj as Hn. apply issued_claims in Hj as (Hkey & _ & Hperms & _).
      eexists _, u, _. split; [left|]. split; [done|]. split; [done|]. split; [done|]. split; [done|]. split; [done|]. split; [done|].
      rewrite Hkey. unfold cli_key. cbn. by destruct (String.eqb (cd_PublicKey en) "").
    + rewrite lookup_insert_ne by done. intros Hl Hj. destruct (IH _ _ _ Hl Hj). split; [done|by apply vouched_mono].
  - rewrite H. apply IH.
Qed.

(** C18. A command line client gets a token by its device code only after somebody
    submitted the code shown to the user together with the email and the
    password of an account, before the code expired; the token is of this
    account and bound to the client's own key, or to the account's when the
    client gave none.  This holds in every state the requests can reach. *)
Theorem device_token_proved h e m b s jwt uslug :
  device_run h s → Responded 200 (HPoll "authorized" (Some jwt) uslug) ∈ replies s (handleCLIDeviceCodePoll e m b s) →
  ∃ code entry, decode_body (dec_struct [ ("deviceCode", dec_string) ]) "" b = Some code ∧ cliCodes s !! code = Some entry ∧
    ce_now e ≤ cd_ExpiresAt entry ∧ uslug = cd_UserSlug entry ∧ vouched h entry jwt.
Proof.
  intros Hrun. unfold handleCLIDeviceCodePoll, http_error, http_json. destruct (negb _); [error_branch|].
  destruct (decode_body _ _ b) as [code|] eqn:Hb; [|error_branch]. destruct (String.eqb code ""); [error_branch|].
  destruct (cliCodes s !! code) as [entry|] eqn:Hc; [|error_branch]. destruct (Z.ltb_spec (cd_ExpiresAt entry) (ce_now e)); [error_branch|].
  destruct (cd_Completed entry); [|error_branch]. intros Hr. apply answered_once in Hr; [|done]. injection Hr as Hj ->.
  exists code, entry. repeat (split; [done|]). by eapply run_vouched.
Qed.

(** A submission for an account without a key, by a client that sent none, is
    refused, yet it consumes the code: the client is told that it is authorized,
    without a token, and the code cannot be used again. *)
Theorem device_code_consumed e1 e2 e3 q1 q3 f f' b s u code entry :
  cf_db (config s) = true → ce_down e1 "GetUserByEmail" = false →
  vf_userCode f ≠ "" → vf_email f ≠ "" → vf_password f ≠ "" →
  GetUserByEmail (vf_email f) (db s) = Some u → checkPassword (vf_password f) (u_PasswordHash u) = true → u_NKeyPublic u = None →
  cliCodes s !! code = Some entry → code ≠ "" → cd_PublicKey entry = "" → redeemable e1 (vf_userCode f) (code, entry) = true →
  (∀ code' entry', cliCodes s !! code' = Some entry' → cd_UserCode entry' = cd_UserCode entry → code' = code) →
  decode_body (dec_struct [ ("deviceCode", dec_string) ]) "" b = Some code → ce_now e2 ≤ cd_ExpiresAt entry →
  vf_userCode f' = cd_UserCode entry →
  let s1 := handleCLIDeviceCodeVerify e1 "POST" q1 (Some f) s in
  Responded 400 (HText "no public key available for JWT issuance") ∈ replies s s1 ∧
  Responded 200 (HPoll "authorized" None (u_Slug u)) ∈ replies s1 (handleCLIDeviceCodePoll e2 "POST" b s1) ∧
  cliCodes (handleCLIDeviceCodeVerify e3 "POST" q3 (Some f') s1) = cliCodes s1.
Proof.
  intros Hdb Hup Hn1 Hn2 Hn3 Hu Hp Hk Hc Hcode Hpk Hre Honly Hb Hlive Hcode'. cbv zeta.
  set (s1 := handleCLIDeviceCodeVerify e1 "POST" q1 (Some f) s).
  assert (Hfirst : range_first (List.filter (redeemable e1 (vf_userCode f)) (map_to_list (cliCodes s))) = Some (code, entry)).
  { destruct (range_first _) as [[c en]|] eqn:E.
    - apply range_first_in, list_elem_of_In, filter_In in E as [Hin Hr]. apply list_elem_of_In, elem_of_map_to_list in Hin.
      unfold redeemable in Hre, Hr. cbn in Hre, Hr. rewrite !andb_true_iff, !String.eqb_eq in Hre, Hr. destruct Hre as [[Hre _] _], Hr as [[Hr _] _].
      assert (c = code) as -> by (eapply Honly; [done|congruence]). congruence.
    - apply range_first_none in E. assert (Hin : In (code, entry) []); [|done]. rewrite <- E. apply filter_In. split; [|done].
      by apply list_elem_of_In, elem_of_map_to_list. }
  assert (Hs1 : s1 = http_error 400 "no public key available for JWT issuance" (set_cliCodes (<[code := complete_cli u None entry]> (cliCodes s)) s)).
  { unfold s1, handleCLIDeviceCodeVerify. cbn [String.eqb Ascii.eqb Bool.eqb negb]. destruct f as [userCode email password]. cbn [vf_userCode vf_email vf_password] in *.
    apply String.eqb_neq in Hn1 as ->, Hn2 as ->, Hn3 as ->. rewrite Hdb, Hup. cbn [orb negb lookup_row]. rewrite Hu, Hp. cbn [negb]. rewrite Hfirst.
    assert (cli_token e1 entry u s = None) as -> by (unfold cli_token, cli_key; by rewrite Hpk, Hk).
    apply String.eqb_neq in Hcode as ->. done. }
  split; [|split].
  - rewrite Hs1. unfold http_error. rewrite replies_one by done. left.
  - unfold handleCLIDeviceCodePoll. cbn [String.eqb Ascii.eqb Bool.eqb negb]. rewrite Hb. apply String.eqb_neq in Hcode as ->.
    rewrite Hs1 at 2. cbn [cliCodes http_error send set_cliCodes]. rewrite lookup_insert_eq. cbn [cd_ExpiresAt cd_Completed cd_JWT cd_UserSlug complete_cli].
    destruct (Z.ltb_spec (cd_ExpiresAt entry) (ce_now e2)); [lia|]. unfold http_json. rewrite replies_one by done. left.
  - destruct (submit_codes e3 q3 f' s1) as [H|(v & c & en & _ & Hin & Hr & _)]; [done|]. exfalso.
    rewrite Hs1 in Hin. cbn [cliCodes http_error send set_cliCodes] in Hin. unfold redeemable in Hr. cbn in Hr.
    rewrite !andb_true_iff, String.eqb_eq in Hr. destruct Hr as [[Hr Hnc] _]. destruct (decide (c = code)) as [->|Hne].
    + rewrite lookup_insert_eq in Hin. injection Hin as <-. done.
    + rewrite lookup_insert_ne in Hin by done. destruct Hne. eapply Honly; [done|congruence].
Qed.

End spec.

(** ** Examples *)

Definition demo_bcrypt : Bcrypt := {| bcrypt_check p h := String.eqb h ("hash of " +:+ p) |}.

Definition alice_claims : jwt_claims := {| jc_PublicKey := "UALICE"; jc_Name := "id-alice"; jc_Expires := Some 1000; jc_IssuedAt := 0;
  jc_Perms := UserSubjectPermissions "alice" [] |}.
Definition demo_tokens : JwtText := {| jwt_decode t := if String.eqb t "t-alice"
  then Some {| jt_Issuer := "ACCOUNT"; jt_Claims := alice_claims; jt_WellFormed := true |} else None |}.

#[local] Existing Instances demo_pg demo_nkeys demo_text demo_stream demo_tables demo_norm demo_urls doc_nats_server demo_bcrypt demo_tokens head_range.

Module AccountsDemo.
Definition admin_server : Server := set_db (SetUserAdmin "id-alice" true tables) server.
Definition admin_alice : User := {| u_ID := "id-alice"; u_Email := "alice@example.com"; u_Name := "Alice"; u_PasswordHash := ""; u_IsAdmin := true;
  u_Slug := "alice"; u_NKeyPublic := Some "UALICE"%string; u_CreatedAt := 1 |}.
Definition bob_request : LoginRequest := {| lr_Email := "bob@example.com"; lr_Password := "secret"; lr_NKeyPublic := "HLAPTOP" |}.
Definition token_of (o : list cp_out) : option jwt_claims :=
  match o with [_; Responded _ (HLogin j _ _ _ _ _ _)] => Some j | [Responded _ (HLogin j _ _ _ _ _ _)] => Some j | _ => None end.
Definition bob_form : verify_form := {| vf_userCode := "uuid-user code"; vf_email := "bob@example.com"; vf_password := "secret" |}.
Definition with_code : Server := handleCLIDeviceCodeCreate (env_at 100) "POST" "device" server.
Definition authorized : Server := handleCLIDeviceCodeVerify (env_at 110) "POST" "" (Some bob_form) with_code.
Definition keyless_bob : User := {| u_ID := "id-bob"; u_Email := "bob@example.com"; u_Name := "Bob"; u_PasswordHash := "hash of secret"; u_IsAdmin := false;
  u_Slug := "bob"; u_NKeyPublic := None; u_CreatedAt := 2 |}.
Definition keyless_entry : cliDeviceCodeEntry := {| cd_UserCode := "uuid-user code"; cd_ExpiresAt := 1000 * Second; cd_Completed := false; cd_PublicKey := "";
  cd_UserID := ""; cd_UserSlug := ""; cd_JWT := None |}.
Definition keyless : Server := handleCLIDeviceCodeCreate (env_at 100) "POST" "none" (set_db (set_users [alice; keyless_bob] tables) server).
End AccountsDemo.
Import AccountsDemo.

Definition the_token (s : Server) (b : string) : jwt_claims :=
  default alice_claims (token_of (replies s (handleLogin (env_at 100) b s))).

Lemma login_sound_witness :
  ∃ req u, decode_body (dec_struct LoginRequest_fields) zero_LoginRequest "login bob" = Some req ∧
    proves (lr_Email req) (lr_Password req) u tables ∧ login_token (env_at 100) (lr_NKeyPublic req) u server (the_token server "login bob") ∧
    "id-bob"%string = u_ID u ∧ "bob"%string = u_Slug u ∧ false = String.eqb (lr_NKeyPublic req) "" ∧
    others_kept u tables (db (handleLogin (env_at 100) "login bob" server)).
Proof.
  eapply (login_sound (env_at 100) "login bob" server). vm_compute. right. left.
Defined.

Lemma login_takes_host_key_witness :
  (∃ jwt s', issueJWTForNKey (env_at 120) "HLAPTOP" server = (Ok jwt, s') ∧ jc_Perms jwt = HostSubjectPermissions "laptop") ∧
  ∃ jwt s' hs, issueJWTForNKey (env_at 120) "HLAPTOP" (handleLogin (env_at 100) "login bob" server) = (Ok jwt, s') ∧ jc_Perms jwt = UserSubjectPermissions "bob" hs.
Proof.
  apply (login_takes_host_key (env_at 100) (env_at 120) "login bob" server bob_request bob laptop "HLAPTOP");
    try (vm_compute; reflexivity); try discriminate; try apply env_at_no_failures.
  - split; try (vm_compute; reflexivity); try apply env_at_no_failures; [|by split].
    split; [right; left|]. split; [done|]. split; [done|vm_compute; reflexivity].
  - left.
  - intros v Hv. assert (Hf : Forall (λ v, u_NKeyPublic v ≠ Some "HLAPTOP"%string) (users tables)) by (repeat constructor; discriminate).
    rewrite Forall_forall in Hf. by apply Hf.
Defined.

Lemma legacy_login_reaches_all_witness :
  may_publish (jc_Perms (the_token server "login bob old")) (render_resource (RGetSession "alice" "laptop" "web" "s-1")) = true ∧
  may_publish (jc_Perms (the_token server "login bob old")) (render_resource (RGetProject "alice" "laptop" "web")) = true ∧
  may_publish (jc_Perms (the_token server "login bob old")) (render_resource (RWatchSessions "alice" "laptop" "web" "c1" ">")) = true ∧
  may_publish (jc_Perms (the_token server "login bob old")) (render_resource (RReplay "alice" "laptop" "web" "c1" ">")) = true ∧
  may_publish (jc_Perms (the_token server "login bob old")) ("$JS.API.STREAM.DELETE." +:+ userSessionsStream "alice") = true ∧
  may_receive (jc_Perms (the_token server "login bob old")) "_INBOX.reply" = true.
Proof.
  eapply (legacy_login_reaches_all (env_at 100) "login bob old" server). vm_compute. left.
Defined.

Lemma users_api_confined_witness :
  ∃ claims, identified (env_at 100) "Bearer t-alice" server claims ∧
    own_change (jc_Name claims) tables (db (users_api (env_at 100) "DELETE" "Bearer t-alice" "/api/users/alice/hosts/laptop" "" server)) ∧
    (ce_down (env_at 100) "GetUserByID(auth)" = false →
     ∀ v, v ∈ users tables → u_ID v = jc_Name claims → u_Slug v = "alice"%string ∨ u_IsAdmin v = true).
Proof.
  apply (users_api_confined (env_at 100) "DELETE" "Bearer t-alice" "/api/users/alice/hosts/laptop" "" server "alice" "hosts/laptop");
    try (vm_compute; reflexivity); try discriminate.
Defined.

Lemma admin_acts_on_own_rows_witness :
  users_api (env_at 100) "DELETE" "Bearer t-alice" "/api/users/bob/hosts/local" "" admin_server =
  users_api (env_at 100) "DELETE" "Bearer t-alice" "/api/users/alice/hosts/local" "" admin_server ∧
  length (hosts (db (users_api (env_at 100) "DELETE" "Bearer t-alice" "/api/users/bob/hosts/local" "" admin_server))) = 2%nat.
Proof.
  split; [|vm_compute; reflexivity].
  apply (admin_acts_on_own_rows (env_at 100) "DELETE" "Bearer t-alice" "" admin_server admin_alice "bob" "hosts/local" alice_claims);
    try (vm_compute; reflexivity).
  - split; [discriminate|vm_compute; reflexivity].
  - left.
Defined.

Lemma device_token_proved_witness :
  ∃ jwt code entry, decode_body (dec_struct [ ("deviceCode", dec_string) ]) "" "poll" = Some code ∧ cliCodes authorized !! code = Some entry ∧
    ce_now (env_at 120) ≤ cd_ExpiresAt entry ∧ "bob"%string = cd_UserSlug entry ∧
    vouched [ {| sb_env := env_at 110; sb_form := bob_form; sb_state := with_code |} ] entry jwt.
Proof.
  eexists. eapply (device_token_proved _ (env_at 120) "POST" "poll" authorized).
  - apply run_submit, run_create, run_start. done.
  - vm_compute. left.
Defined.

Lemma device_code_consumed_witness :
  let s1 := handleCLIDeviceCodeVerify (env_at 110) "POST" "" (Some bob_form) keyless in
  Responded 400 (HText "no public key available for JWT issuance") ∈ replies keyless s1 ∧
  Responded 200 (HPoll "authorized" None "bob") ∈ replies s1 (handleCLIDeviceCodePoll (env_at 120) "POST" "poll" s1) ∧
  cliCodes (handleCLIDeviceCodeVerify (env_at 130) "POST" "" (Some bob_form) s1) = cliCodes s1.
Proof.
  apply (device_code_consumed (env_at 110) (env_at 120) (env_at 130) "" "" bob_form bob_form "poll" keyless keyless_bob "uuid-device code" keyless_entry);
    try (vm_compute; reflexivity); try discriminate.
  intros code' entry' H _. unfold keyless, handleCLIDeviceCodeCreate in H. cbn in H. by apply lookup_singleton_Some in H as [<- _].
Defined.
