(* ===== verification/DaemonJobs.v ===== *)
(** * Scheduled jobs (mclaude-session-agent: daemon_jobs.go, daemon.go)

    The daemon keeps a queue of jobs in a KV bucket.  It takes jobs over a
    loopback HTTP interface, starts a session for each through the session agent,
    pauses jobs while the quota is exceeded, and follows lifecycle events.  Also
    here: the quota reports and the daemon's credentials file. *)

From Stdlib Require Import SpecFloat.
From stdpp Require Import sorting.
From S2P Require Import Prelude GoStrings GoPath Slug Subjects Json SessionState QuotaMonitor Agent ObjectStore.
Open Scope Z_scope.

(** ** Jobs *)

(** Times are in nanoseconds.  [jb_adr0034]: the members that the daemon does not
    look at, which a rewrite of the entry keeps. *)
Record JobEntry := {
  jb_ID : string; jb_UserID : string; jb_ProjectID : string; jb_ProjectSlug : string; jb_SessionID : string; jb_SpecPath : string;
  jb_Priority : Z; jb_Threshold : Z; jb_AutoContinue : bool; jb_Status : string; jb_Branch : string; jb_PRUrl : string; jb_FailedTool : string;
  jb_Error : string; jb_RetryCount : Z; jb_ResumeAt : option Z; jb_CreatedAt : Z; jb_StartedAt : option Z; jb_CompletedAt : option Z;
  jb_adr0034 : list (string * json);
}.

(** The parts the daemon changes: the status with the session, and the rest. *)
Definition with_status (status sessionID : string) (j : JobEntry) : JobEntry :=
  {| jb_ID := jb_ID j; jb_UserID := jb_UserID j; jb_ProjectID := jb_ProjectID j; jb_ProjectSlug := jb_ProjectSlug j; jb_SessionID := sessionID;
     jb_SpecPath := jb_SpecPath j; jb_Priority := jb_Priority j; jb_Threshold := jb_Threshold j; jb_AutoContinue := jb_AutoContinue j;
     jb_Status := status; jb_Branch := jb_Branch j; jb_PRUrl := jb_PRUrl j; jb_FailedTool := jb_FailedTool j; jb_Error := jb_Error j;
     jb_RetryCount := jb_RetryCount j; jb_ResumeAt := jb_ResumeAt j; jb_CreatedAt := jb_CreatedAt j; jb_StartedAt := jb_StartedAt j;
     jb_CompletedAt := jb_CompletedAt j; jb_adr0034 := jb_adr0034 j |}.
Definition set_status (status : string) (j : JobEntry) : JobEntry := with_status status (jb_SessionID j) j.
Definition with_branch (branch : string) (j : JobEntry) : JobEntry :=
  {| jb_ID := jb_ID j; jb_UserID := jb_UserID j; jb_ProjectID := jb_ProjectID j; jb_ProjectSlug := jb_ProjectSlug j; jb_SessionID := jb_SessionID j;
     jb_SpecPath := jb_SpecPath j; jb_Priority := jb_Priority j; jb_Threshold := jb_Threshold j; jb_AutoContinue := jb_AutoContinue j;
     jb_Status := jb_Status j; jb_Branch := branch; jb_PRUrl := jb_PRUrl j; jb_FailedTool := jb_FailedTool j; jb_Error := jb_Error j;
     jb_RetryCount := jb_RetryCount j; jb_ResumeAt := jb_ResumeAt j; jb_CreatedAt := jb_CreatedAt j; jb_StartedAt := jb_StartedAt j;
     jb_CompletedAt := jb_CompletedAt j; jb_adr0034 := jb_adr0034 j |}.
Definition with_outcome (prURL failedTool error : string) (completedAt : option Z) (j : JobEntry) : JobEntry :=
  {| jb_ID := jb_ID j; jb_UserID := jb_UserID j; jb_ProjectID := jb_ProjectID j; jb_ProjectSlug := jb_ProjectSlug j; jb_SessionID := jb_SessionID j;
     jb_SpecPath := jb_SpecPath j; jb_Priority := jb_Priority j; jb_Threshold := jb_Threshold j; jb_AutoContinue := jb_AutoContinue j;
     jb_Status := jb_Status j; jb_Branch := jb_Branch j; jb_PRUrl := prURL; jb_FailedTool := failedTool; jb_Error := error;
     jb_RetryCount := jb_RetryCount j; jb_ResumeAt := jb_ResumeAt j; jb_CreatedAt := jb_CreatedAt j; jb_StartedAt := jb_StartedAt j;
     jb_CompletedAt := completedAt; jb_adr0034 := jb_adr0034 j |}.
Definition with_times (retryCount : Z) (resumeAt startedAt : option Z) (j : JobEntry) : JobEntry :=
  {| jb_ID := jb_ID j; jb_UserID := jb_UserID j; jb_ProjectID := jb_ProjectID j; jb_ProjectSlug := jb_ProjectSlug j; jb_SessionID := jb_SessionID j;
     jb_SpecPath := jb_SpecPath j; jb_Priority := jb_Priority j; jb_Threshold := jb_Threshold j; jb_AutoContinue := jb_AutoContinue j;
     jb_Status := jb_Status j; jb_Branch := jb_Branch j; jb_PRUrl := jb_PRUrl j; jb_FailedTool := jb_FailedTool j; jb_Error := jb_Error j;
     jb_RetryCount := retryCount; jb_ResumeAt := resumeAt; jb_CreatedAt := jb_CreatedAt j; jb_StartedAt := startedAt;
     jb_CompletedAt := jb_CompletedAt j; jb_adr0034 := jb_adr0034 j |}.
Definition resume_at (t : option Z) (j : JobEntry) : JobEntry := with_times (jb_RetryCount j) t (jb_StartedAt j) j.

(** ** Names *)

Definition jobQueueKVKey (userSlug jobID : string) : string := (userSlug +:+ "." +:+ jobID)%string.

(** The slice [ProjectID[:8]] panics on a shorter identifier. *)
Definition jobProjectSlug `{UnicodeTables, Normalizer} (job : JobEntry) : outcome string :=
  if negb (String.eqb (jb_ProjectSlug job) "") then Done (jb_ProjectSlug job)
  else
    let s := Slugify (jb_ProjectID job) in
    if negb (String.eqb s "") then Done s
    else if (String.length (jb_ProjectID job) <? 8)%nat then Panicked
    else Done ("p-" +:+ take_str 8 (jb_ProjectID job))%string.

Definition specPathToSlug (specPath : string) : string := TrimSuffix (TrimPrefix (path_Base specPath) "plan-") ".md".

Definition specPathToComponent (specPath : string) : string :=
  let base := specPathToSlug specPath in
  if String.eqb base "spa" || String.eqb base "client-architecture" then "spa"
  else if String.eqb base "session-agent" then "session-agent"
  else if String.eqb base "k8s-integration" || String.eqb base "github-oauth" then "control-plane"
  else "all".

Definition scheduledSessionPrompt (specPath component priority branch : string) (otherJobs : list string) : string :=
  let concurrent := if (0 <? length otherJobs)%nat then Join nl otherJobs else "none"%string in
  ("You are running as an unattended scheduled dev-harness session.

Spec: " +:+ specPath +:+ "
Component: " +:+ component +:+ "
Priority: " +:+ priority +:+ "
Branch: " +:+ branch +:+ "

Concurrent sessions also running:
" +:+ concurrent +:+ "

Instructions:
1. Run: /dev-harness " +:+ component +:+ "
2. When your work is complete (all spec gaps closed, all tests passing), run:
   gh pr create --base main --head " +:+ branch +:+ " --title " +:+ dquote +:+ "feat(" +:+ component +:+ "): scheduled dev-harness [auto]" +:+ dquote +:+
   " --body " +:+ dquote +:+ "Auto-created by scheduled dev-harness session for " +:+ specPath +:+ "." +:+ dquote +:+ "
   Then output on its own line: SESSION_JOB_COMPLETE:{prUrl}
3. If you receive a message starting with QUOTA_THRESHOLD_REACHED, immediately:
   a. Finish your current task and commit.
   b. Run: /dev-harness " +:+ component +:+ " --audit-only
   c. Output the full gap report.
   d. Stop without starting new work.")%string.

Definition quota_stop_text : string :=
  "QUOTA_THRESHOLD_REACHED: The 5-hour API quota threshold has been reached. Please finish your current task and commit all changes, run --audit-only to generate a gap report and output the full results, then stop. Do not start any new tasks.".

(** ** The daemon's state *)

Inductive daemon_out :=
| DPublished (subject : string) (payload : json)
| DRequested (subject : string) (payload : json)
| DJobs (jobs : list JobEntry)
| DJob (job : JobEntry)
| DCreated (id status : string)
| DProjects (ps : list (string * string))
| DDone
| DError (status : Z) (msg : string).

(** [dm_jobs]: the bucket of the queue, in which a value that does not decode
    ([None]) is skipped; [dm_updates]: the puts that the dispatcher's watcher
    has received and not yet handled; [dm_quotas]: the same for the quota. *)
Record Daemon := {
  dm_userID : string; dm_userSlug : string; dm_hostSlug : string;
  dm_jobs : gmap string (option JobEntry);
  dm_updates : list JobEntry;
  dm_quotas : list QuotaStatus;
  dm_lastQuota : QuotaStatus;
  dm_out : list daemon_out;
}.
Definition set_jobs jobs updates (d : Daemon) : Daemon :=
  {| dm_userID := dm_userID d; dm_userSlug := dm_userSlug d; dm_hostSlug := dm_hostSlug d; dm_jobs := jobs; dm_updates := updates;
     dm_quotas := dm_quotas d; dm_lastQuota := dm_lastQuota d; dm_out := dm_out d |}.
Definition set_quotas qs last (d : Daemon) : Daemon :=
  {| dm_userID := dm_userID d; dm_userSlug := dm_userSlug d; dm_hostSlug := dm_hostSlug d; dm_jobs := dm_jobs d; dm_updates := dm_updates d;
     dm_quotas := qs; dm_lastQuota := last; dm_out := dm_out d |}.
Definition emit (o : daemon_out) (d : Daemon) : Daemon :=
  {| dm_userID := dm_userID d; dm_userSlug := dm_userSlug d; dm_hostSlug := dm_hostSlug d; dm_jobs := dm_jobs d; dm_updates := dm_updates d;
     dm_quotas := dm_quotas d; dm_lastQuota := dm_lastQuota d; dm_out := dm_out d ++ [o] |}.

(** The environment of one handler.  [de_kvErr]: a put with this status of this
    job fails; [de_create]: the reply to a session request, [None] without one
    within ten seconds; [de_session]: the state that the [i]-th read of a session
    entry finds, [None] when reading fails, [Some None] when the entry does not
    decode; [de_polls]: the polls that fit into the time-out. *)
Record daemon_env := {
  de_now : Z;
  de_uuid : string;
  de_kvErr : string → string → bool;
  de_watchErr : bool;
  de_create : option string;
  de_session : string → nat → option (option string);
  de_polls : nat;
}.

(** The order in which a watcher delivers the entries of a bucket, and the one
    [sort.Slice] leaves, which is not stable. *)
Class JobOrder := {
  watch_all {A : Type} : gmap string A → list (string * A);
  watch_all_perm {A : Type} (m : gmap string A) : watch_all m ≡ₚ map_to_list m;
  sort_slice {A : Type} (key : A → Z) : list A → list A;
  sort_slice_perm {A : Type} (key : A → Z) (l : list A) : sort_slice key l ≡ₚ l;
  sort_slice_sorted {A : Type} (key : A → Z) (l : list A) : StronglySorted (λ x y, key x ≤ key y) (sort_slice key l);
}.

(** A panic in one of the daemon's goroutines ends the process. *)
Inductive progress := Running (d : Daemon) | Crashed (d : Daemon).
Definition after (p : progress) : Daemon := match p with Running d | Crashed d => d end.
Definition andThen (p : progress) (f : Daemon → progress) : progress := match p with Running d => f d | Crashed d => Crashed d end.

Section jobs.
Context `{UT : UnicodeTables, NO : Normalizer, JT : JsonText, JS : JsonStream, GT : GoTime, JO : JobOrder}.

Definition own_job (d : Daemon) (job : JobEntry) : bool := String.eqb (jb_UserID job) (dm_userID d).

(** The user's jobs, as a watcher delivers them. *)
Definition watched_jobs (d : Daemon) : list JobEntry := omap snd (watch_all (dm_jobs d)).
Definition own_jobs (d : Daemon) (p : JobEntry → bool) : list JobEntry := List.filter (λ j, own_job d j && p j) (watched_jobs d).

Definition readJobEntry (jobID : string) (d : Daemon) : option JobEntry := mjoin (dm_jobs d !! jobQueueKVKey (dm_userSlug d) jobID).

(** The put is seen by the dispatcher's watcher, which forwards the user's own
    jobs. *)
Definition writeJobEntry (e : daemon_env) (job : JobEntry) (d : Daemon) : bool * Daemon :=
  if de_kvErr e (jb_Status job) (jb_ID job) then (false, d)
  else (true, set_jobs (<[jobQueueKVKey (dm_userSlug d) (jb_ID job) := Some job]> (dm_jobs d))
                (if own_job d job then dm_updates d ++ [job] else dm_updates d) d).
Definition put_job (e : daemon_env) (job : JobEntry) (d : Daemon) : Daemon := (writeJobEntry e job d).2.

(** ** Lifecycle events *)

Definition lifecycle_subscription (d : Daemon) : string :=
  ("mclaude.users." +:+ dm_userSlug d +:+ ".hosts." +:+ dm_hostSlug d +:+ ".projects.*.lifecycle.*")%string.

(** A map of strings: a member of another type is an error. *)
Definition dec_string_map : decoder (gmap string string) := λ j cur,
  match j with
  | JNull => (cur, true)
  | JObj ms => fold_left (λ '(m, ok) '(k, v), let '(s, ok1) := dec_string v "" in (if ok1 then <[k := s]> m else m, ok && ok1)) ms (cur, true)
  | _ => (cur, false)
  end.

Definition ev_get (k : string) (ev : gmap string string) : string := default ""%string (ev !! k).

(** What an event makes of the job; [None]: nothing is written. *)
Definition lifecycle_update (e : daemon_env) (ev : gmap string string) (job : JobEntry) : option JobEntry :=
  let evType := ev_get "type" ev in
  if String.eqb evType "session_job_complete"
  then Some (with_outcome (ev_get "prUrl" ev) (jb_FailedTool job) (jb_Error job) (Some (de_now e)) (set_status "completed" job))
  else if String.eqb evType "session_job_paused" then
    if String.eqb (jb_Status job) "paused" then None
    else if jb_AutoContinue job then
      let job := set_status "paused" job in
      if String.eqb (ev_get "r5" ev) "" then Some job
      else match parse_rfc3339 (ev_get "r5" ev) with Some t => Some (resume_at (Some t) job) | None => Some job end
    else Some (set_status "queued" job)
  else if String.eqb evType "session_permission_denied"
  then Some (with_outcome (jb_PRUrl job) (ev_get "tool" ev) (jb_Error job) (jb_CompletedAt job) (set_status "needs_spec_fix" job))
  else if String.eqb evType "session_job_failed"
  then Some (with_outcome (jb_PRUrl job) (jb_FailedTool job) (ev_get "error" ev) (jb_CompletedAt job) (set_status "failed" job))
  else None.

Definition handle_lifecycle_event (e : daemon_env) (data : string) (d : Daemon) : Daemon :=
  match unmarshal dec_string_map ∅ data with
  | None => d
  | Some ev =>
    let jobID := ev_get "jobId" ev in
    if String.eqb jobID "" then d
    else
      match readJobEntry jobID d with
      | None => d
      | Some job => match lifecycle_update e ev job with Some job => put_job e job d | None => d end
      end
  end.

(** ** Starting a job *)

Definition maxJobStartRetries : Z := 3.

Definition short_id (id : string) : string := take_str 8 id.

Definition create_payload (branch : string) (job : JobEntry) : json :=
  JObj [("branch", JStr branch); ("permPolicy", JStr "strict-allowlist");
        ("quotaMonitor", JObj [("autoContinue", JBool (jb_AutoContinue job)); ("jobId", JStr (jb_ID job));
                               ("priority", JInt (jb_Priority job)); ("threshold", JInt (jb_Threshold job))])].

Definition createReply_fields : list (field (string * string)) :=
  [ fld "id" dec_string fst (λ v r, (v, r.2)); fld "error" dec_string snd (λ v r, (r.1, v)) ].

(** The session of a reply; [None]: the job is left as it is. *)
Definition created_session (e : daemon_env) : option string :=
  match de_create e with
  | None => None
  | Some data =>
    match unmarshal (dec_struct createReply_fields) ("", "")%string data with
    | None => None
    | Some (id, err) => if negb (String.eqb err "") then None else if String.eqb id "" then None else Some id
    end
  end.

(** The number of reads that waiting for the idle state takes. *)
Fixpoint wait_idle (polls : nat) (read : nat → option (option string)) (i : nat) : nat :=
  match polls with
  | O => i
  | S polls => match read i with Some (Some st) => if String.eqb st StateIdle then S i else wait_idle polls read (S i) | _ => wait_idle polls read (S i) end
  end.

Definition session_idle (e : daemon_env) (key : string) : bool :=
  match de_session e key (wait_idle (de_polls e) (de_session e key) 0) with Some (Some st) => String.eqb st StateIdle | _ => false end.

Definition retry_or_fail (e : daemon_env) (job : JobEntry) (d : Daemon) : Daemon :=
  let retries := i64_add (jb_RetryCount job) 1 in
  let job := with_times retries (jb_ResumeAt job) (jb_StartedAt job) (with_status "queued" "" job) in
  let job := if maxJobStartRetries <=? retries
             then with_outcome (jb_PRUrl job) (jb_FailedTool job) ("session failed to start after 3 attempts")%string (jb_CompletedAt job) (set_status "failed" job)
             else job in
  put_job e job d.

Definition user_message (content sessionID : string) : json :=
  JObj [("message", JObj [("content", JStr content); ("role", JStr "user")]); ("session_id", JStr sessionID); ("type", JStr "user")].

Definition active (j : JobEntry) : bool := String.eqb (jb_Status j) "running" || String.eqb (jb_Status j) "queued".

Definition start_session (e : daemon_env) (job : JobEntry) (pslug sessionID : string) (d : Daemon) : Daemon :=
  if negb (session_idle e (SessionsKVKey (dm_hostSlug d) pslug sessionID)) then retry_or_fail e job d
  else
    let others := if de_watchErr e then [] else jb_SpecPath <$> own_jobs d (λ j, negb (String.eqb (jb_ID j) (jb_ID job)) && active j) in
    let prompt := scheduledSessionPrompt (jb_SpecPath job) (specPathToComponent (jb_SpecPath job)) (pretty.pretty (jb_Priority job)) (jb_Branch job) others in
    let d := emit (DPublished (UserHostProjectSessionsInput (dm_userSlug d) (dm_hostSlug d) pslug sessionID) (user_message prompt sessionID)) d in
    put_job e (with_times (jb_RetryCount job) (jb_ResumeAt job) (Some (de_now e)) (with_status "running" sessionID job)) d.

Definition job_branch (job : JobEntry) : string := ("schedule/" +:+ specPathToSlug (jb_SpecPath job) +:+ "-" +:+ short_id (jb_ID job))%string.

Definition dispatchQueuedJob (e : daemon_env) (job : JobEntry) (d : Daemon) : progress :=
  let job := set_status "starting" (with_branch (job_branch job) job) in
  match writeJobEntry e job d with
  | (false, d) => Running d
  | (true, d) =>
    match jobProjectSlug job with
    | Panicked => Crashed d
    | Done pslug =>
      let d := emit (DRequested (UserHostProjectSessionsCreate (dm_userSlug d) (dm_hostSlug d) pslug) (create_payload (job_branch job) job)) d in
      match created_session e with
      | None => Running d
      | Some sessionID => Running (start_session e job pslug sessionID d)
      end
    end
  end.

(** ** Recovery at startup *)

Definition recover_job (e : daemon_env) (job : JobEntry) (d : Daemon) : progress :=
  if String.eqb (jb_Status job) "starting" then Running (put_job e (with_status "queued" "" job) d)
  else if String.eqb (jb_Status job) "running" then
    if String.eqb (jb_SessionID job) "" then Running d
    else
      match jobProjectSlug job with
      | Panicked => Crashed d
      | Done pslug =>
        match de_session e (SessionsKVKey (dm_hostSlug d) pslug (jb_SessionID job)) 0 with
        | None => Running (put_job e (with_status "queued" "" job) d)
        | Some _ => Running d
        end
      end
  else if String.eqb (jb_Status job) "paused" then
    match jb_ResumeAt job with
    | Some t => if t <? de_now e then Running (put_job e (resume_at None (set_status "queued" job)) d) else Running d
    | None => Running d
    end
  else Running d.

Definition startupRecovery (e : daemon_env) (d : Daemon) : progress :=
  if de_watchErr e then Running d
  else fold_left (λ p job, andThen p (recover_job e job)) (own_jobs d (λ _, true)) (Running d).

(** The dispatcher's start: recovery, and then a watcher, taken to start, that
    delivers every entry of the bucket first.  What an earlier watcher had queued
    is gone. *)
Definition start_dispatcher (e : daemon_env) (d : Daemon) : progress :=
  andThen (startupRecovery e d) (λ d, Running (set_jobs (dm_jobs d) (own_jobs d (λ _, true)) (set_quotas (dm_quotas d) no_quota d))).

(** ** The quota *)

Definition paused_payload (e : daemon_env) (quota : QuotaStatus) (job : JobEntry) : json :=
  JObj [("jobId", JStr (jb_ID job)); ("outputTokensSinceSoftMark", JInt 0); ("pausedVia", JStr "quota_threshold");
        ("r5", JStr (format_rfc3339 (qs_R5 quota))); ("sessionId", JStr (jb_SessionID job)); ("ts", JStr (format_rfc3339 (de_now e)));
        ("type", JStr "session_job_paused")].

Definition pause_job (e : daemon_env) (quota : QuotaStatus) (job : JobEntry) (d : Daemon) : progress :=
  match jobProjectSlug job with
  | Panicked => Crashed d
  | Done pslug =>
    let d := emit (DPublished (UserHostProjectSessionsInput (dm_userSlug d) (dm_hostSlug d) pslug (jb_SessionID job)) (user_message quota_stop_text (jb_SessionID job))) d in
    let d := emit (DPublished (UserHostProjectSessionsLifecycle (dm_userSlug d) (dm_hostSlug d) pslug (jb_SessionID job) "session_job_paused") (paused_payload e quota job)) d in
    Running (put_job e (set_status "paused" job) d)
  end.

(** The jobs are stopped in order of priority, up to the first whose threshold is
    not reached. *)
Fixpoint pause_while_exceeded (e : daemon_env) (quota : QuotaStatus) (jobs : list JobEntry) (d : Daemon) : progress :=
  match jobs with
  | [] => Running d
  | job :: jobs =>
    if qs_U5 quota <? jb_Threshold job then Running d
    else andThen (pause_job e quota job d) (pause_while_exceeded e quota jobs)
  end.

Definition requeue_paused (e : daemon_env) (d : Daemon) (job : JobEntry) : Daemon :=
  match jb_ResumeAt job with
  | Some t => if de_now e <? t then d else put_job e (resume_at None (set_status "queued" job)) d
  | None => put_job e (resume_at None (set_status "queued" job)) d
  end.

Definition has_status (st : string) (j : JobEntry) : bool := String.eqb (jb_Status j) st.

Definition exceeded (quota : QuotaStatus) (j : JobEntry) : bool := jb_Threshold j <=? qs_U5 quota.

Definition apply_quota (e : daemon_env) (quota : QuotaStatus) (d : Daemon) : progress :=
  let running := if de_watchErr e then [] else own_jobs d (has_status "running") in
  if existsb (exceeded quota) running then pause_while_exceeded e quota (sort_slice jb_Priority running) d
  else if de_watchErr e then Running d
  else Running (fold_left (requeue_paused e) (sort_slice (λ j, - jb_Priority j) (own_jobs d (has_status "paused"))) d).

Definition processDispatch (e : daemon_env) (quota : QuotaStatus) (changedJob : option JobEntry) (d : Daemon) : progress :=
  andThen (if qs_HasData quota then apply_quota e quota d else Running d) (λ d,
    match changedJob with
    | Some job =>
      if String.eqb (jb_Status job) "queued" && (negb (qs_HasData quota) || (qs_U5 quota <? jb_Threshold job))
      then dispatchQueuedJob e job d else Running d
    | None => Running d
    end).

(** The two triggers of [runJobDispatcher]. *)
Definition take_update (e : daemon_env) (d : Daemon) : option progress :=
  match dm_updates d with
  | [] => None
  | job :: updates => Some (processDispatch e (dm_lastQuota d) (Some job) (set_jobs (dm_jobs d) updates d))
  end.
Definition take_quota (e : daemon_env) (d : Daemon) : option progress :=
  match dm_quotas d with
  | [] => None
  | q :: qs => Some (processDispatch e q None (set_quotas qs q d))
  end.

(** ** The HTTP interface *)

Record JobRequest := { jr_SpecPath : string; jr_Priority : Z; jr_Threshold : Z; jr_AutoContinue : bool; jr_ProjectID : string }.
Definition zero_JobRequest : JobRequest := {| jr_SpecPath := ""; jr_Priority := 0; jr_Threshold := 0; jr_AutoContinue := false; jr_ProjectID := "" |}.
Definition JobRequest_fields : list (field JobRequest) :=
  [ fld "specPath" dec_string jr_SpecPath (λ v r, {| jr_SpecPath := v; jr_Priority := jr_Priority r; jr_Threshold := jr_Threshold r; jr_AutoContinue := jr_AutoContinue r; jr_ProjectID := jr_ProjectID r |});
    fld "priority" dec_int jr_Priority (λ v r, {| jr_SpecPath := jr_SpecPath r; jr_Priority := v; jr_Threshold := jr_Threshold r; jr_AutoContinue := jr_AutoContinue r; jr_ProjectID := jr_ProjectID r |});
    fld "threshold" dec_int jr_Threshold (λ v r, {| jr_SpecPath := jr_SpecPath r; jr_Priority := jr_Priority r; jr_Threshold := v; jr_AutoContinue := jr_AutoContinue r; jr_ProjectID := jr_ProjectID r |});
    fld "autoContinue" dec_bool jr_AutoContinue (λ v r, {| jr_SpecPath := jr_SpecPath r; jr_Priority := jr_Priority r; jr_Threshold := jr_Threshold r; jr_AutoContinue := v; jr_ProjectID := jr_ProjectID r |});
    fld "projectId" dec_string jr_ProjectID (λ v r, {| jr_SpecPath := jr_SpecPath r; jr_Priority := jr_Priority r; jr_Threshold := jr_Threshold r; jr_AutoContinue := jr_AutoContinue r; jr_ProjectID := v |}) ].

Definition new_job (e : daemon_env) (req : JobRequest) (d : Daemon) : JobEntry :=
  {| jb_ID := de_uuid e; jb_UserID := dm_userID d; jb_ProjectID := jr_ProjectID req; jb_ProjectSlug := ""; jb_SessionID := "";
     jb_SpecPath := jr_SpecPath req; jb_Priority := (if jr_Priority req =? 0 then 5 else jr_Priority req);
     jb_Threshold := (if jr_Threshold req =? 0 then 75 else jr_Threshold req); jb_AutoContinue := jr_AutoContinue req; jb_Status := "queued";
     jb_Branch := ""; jb_PRUrl := ""; jb_FailedTool := ""; jb_Error := ""; jb_RetryCount := 0; jb_ResumeAt := None; jb_CreatedAt := de_now e;
     jb_StartedAt := None; jb_CompletedAt := None; jb_adr0034 := [] |}.

Definition handleJobsRoute (e : daemon_env) (method body : string) (d : Daemon) : Daemon :=
  if String.eqb method "POST" then
    match decode_body (dec_struct JobRequest_fields) zero_JobRequest body with
    | None => emit (DError 400 "invalid request") d
    | Some req =>
      match writeJobEntry e (new_job e req d) d with
      | (false, d) => emit (DError 500 "KV write failed") d
      | (true, d) => emit (DCreated (de_uuid e) "queued") d
      end
    end
  else if String.eqb method "GET" then
    if de_watchErr e then emit (DError 500 "KV error") d
    else emit (DJobs (sort_slice (λ j, - jb_CreatedAt j) (own_jobs d (λ _, true)))) d
  else emit (DError 405 "method not allowed") d.

Definition cancelled_payload (e : daemon_env) (job : JobEntry) : json :=
  JObj [("jobId", JStr (jb_ID job)); ("sessionId", JStr (jb_SessionID job)); ("ts", JStr (format_rfc3339 (de_now e))); ("type", JStr "session_job_cancelled")].

(** The HTTP server recovers from a panic of a handler: the connection is closed
    without an answer and the daemon goes on. *)
Definition cancel_job (e : daemon_env) (job : JobEntry) (d : Daemon) : Daemon :=
  let stopped := String.eqb (jb_Status job) "running" && negb (String.eqb (jb_SessionID job) "") in
  match (if stopped then jobProjectSlug job else Done ""%string) with
  | Panicked => d
  | Done pslug =>
    let d := if stopped
             then emit (DPublished (UserHostProjectSessionsDelete (dm_userSlug d) (dm_hostSlug d) pslug (jb_SessionID job)) (JObj [("sessionId", JStr (jb_SessionID job))])) d
             else d in
    match writeJobEntry e (set_status "cancelled" job) d with
    | (false, d) => emit (DError 500 "KV write failed") d
    | (true, d) =>
      if String.eqb (jb_SessionID job) "" then emit DDone d
      else
        match jobProjectSlug job with
        | Panicked => d
        | Done pslug =>
          emit DDone (emit (DPublished (UserHostProjectSessionsLifecycle (dm_userSlug d) (dm_hostSlug d) pslug (jb_SessionID job) "session_job_cancelled")
            (cancelled_payload e job)) d)
        end
    end
  end.

Definition handleJobByID (e : daemon_env) (method path : string) (d : Daemon) : Daemon :=
  let jobID := nth 0 (Split "/"%char (TrimPrefix path "/jobs/")) ""%string in
  if String.eqb jobID "" || String.eqb jobID "projects" then emit (DError 404 "404 page not found") d
  else if String.eqb method "GET" then
    match readJobEntry jobID d with None => emit (DError 404 "job not found") d | Some job => emit (DJob job) d end
  else if String.eqb method "DELETE" then
    match readJobEntry jobID d with None => emit (DError 404 "job not found") d | Some job => cancel_job e job d end
  else emit (DError 405 "method not allowed") d.

(** [handleJobsProjects]: the id and name of the projects in the bucket under the
    user's identifier. *)
Definition handleJobsProjects (e : daemon_env) (method : string) (projects : gmap string (option (string * string))) (d : Daemon) : Daemon :=
  if negb (String.eqb method "GET") then emit (DError 405 "method not allowed") d
  else if de_watchErr e then emit (DError 500 "KV error") d
  else emit (DProjects (omap snd (List.filter (λ kv, HasPrefix kv.1 (dm_userID d +:+ ".")%string) (watch_all projects)))) d.

(** The mux of [runJobsHTTP]. *)
Definition jobs_http (e : daemon_env) (method path body : string) (projects : gmap string (option (string * string))) (d : Daemon) : Daemon :=
  if String.eqb path "/jobs" then handleJobsRoute e method body d
  else if String.eqb path "/jobs/projects" then handleJobsProjects e method projects d
  else if HasPrefix path "/jobs/" then handleJobByID e method path d
  else emit (DError 404 "404 page not found") d.

End jobs.

(** ** The quota of the account *)

Definition f64_mul (x y : float64) : float64 := SFmul 53 1024 x y.

(** 100 as a double. *)
Definition f64_hundred : float64 := S754_finite false 7036874417766400 (-46).

(** The conversion of a double to an [int] drops the fraction.  Outside the range
    of 64 bits its result depends on the machine; [None] stands for any. *)
Definition f64_to_int (x : float64) : option Z :=
  match x with
  | S754_zero _ => Some 0
  | S754_finite s m ex =>
    let v := if 0 <=? ex then Z.shiftl (Zpos m) ex else Z.shiftr (Zpos m) (- ex) in
    let v := if s then - v else v in
    if int64_rangeb v then Some v else None
  | _ => None
  end.

Definition quotaAPIResponse_window_fields : list (field (float64 * string)) :=
  [ fld "utilization" dec_float fst (λ v r, (v, r.2)); fld "resets_at" dec_string snd (λ v r, (r.1, v)) ].
Definition quotaAPIResponse_fields : list (field ((float64 * string) * (float64 * string))) :=
  [ fld "five_hour" (dec_struct quotaAPIResponse_window_fields) fst (λ v r, (v, r.2));
    fld "seven_day" (dec_struct quotaAPIResponse_window_fields) snd (λ v r, (r.1, v)) ].
Definition zero_quotaAPIResponse : (float64 * string) * (float64 * string) := ((f64_zero, ""), (f64_zero, ""))%string.

Definition credentialsFile_fields : list (field string) :=
  [ fld "claudeAiOauth" (dec_struct [ fld "accessToken" dec_string id (λ v _, v) ]) id (λ v _, v) ].

(** [home]: the home directory, if there is one; [read]: the content of a file. *)
Definition readOAuthToken `{JsonText} (home : option string) (read : string → option string) (credentialsPath : string) : option string :=
  match (if String.eqb credentialsPath "" then (λ h, h +:+ "/.claude/.credentials.json")%string <$> home else Some credentialsPath) with
  | None => None
  | Some path =>
    match read path with
    | None => None
    | Some data =>
      match unmarshal (dec_struct credentialsFile_fields) ""%string data with
      | None => None
      | Some token => if String.eqb token "" then None else Some token
      end
    end
  end.

Definition reset_time `{GoTime} (s : string) : Z := default 0 (parse_rfc3339 s).

(** [get]: status and body that the usage end point answers to a token; [weird]:
    the conversion of doubles out of range; 0 stands for the zero time. *)
Definition fetchQuotaStatus `{JsonText, GoTime} (home : option string) (read : string → option string)
    (get : string → option (Z * string)) (weird : float64 → Z) (now : Z) (credentialsPath : string) : QuotaStatus :=
  match readOAuthToken home read credentialsPath with
  | None => no_quota
  | Some token =>
    match get token with
    | Some (200, body) =>
      match unmarshal (dec_struct quotaAPIResponse_fields) zero_quotaAPIResponse body with
      | None => no_quota
      | Some ((u5, r5), (u7, r7)) =>
        let percent u := let x := f64_mul u f64_hundred in default (weird x) (f64_to_int x) in
        {| qs_HasData := true; qs_U5 := percent u5; qs_R5 := reset_time r5; qs_U7 := percent u7; qs_R7 := reset_time r7; qs_TS := now |}
      end
    | _ => no_quota
    end
  end.

(** The publication that [runQuotaPublisher] makes at every tick: to the agents,
    and to the dispatcher unless eight reports are waiting already.  [time_json]
    is the text of a time in JSON. *)
Definition quota_payload (time_json : Z → string) (q : QuotaStatus) : json :=
  JObj [("hasData", JBool (qs_HasData q)); ("u5", JInt (qs_U5 q)); ("r5", JStr (time_json (qs_R5 q)));
        ("u7", JInt (qs_U7 q)); ("r7", JStr (time_json (qs_R7 q))); ("ts", JStr (time_json (qs_TS q)))].
Definition publish_quota (time_json : Z → string) (q : QuotaStatus) (d : Daemon) : Daemon :=
  let d := emit (DPublished (UserQuota (dm_userSlug d)) (quota_payload time_json q)) d in
  if (length (dm_quotas d) <? 8)%nat then set_quotas (dm_quotas d ++ [q]) (dm_lastQuota d) d else d.

(** ** The credentials file (daemon.go) *)

Definition is_begin (line : string) : bool := Contains (TrimSpace line) "BEGIN NATS USER JWT".
Definition is_end (line : string) : bool := Contains (TrimSpace line) "END NATS USER JWT".

Fixpoint find_jwt (lines : list string) (inJWT : bool) : option string :=
  match lines with
  | [] => None
  | line :: lines =>
    if is_begin line then find_jwt lines true
    else if is_end line then None
    else if inJWT && negb (String.eqb (TrimSpace line) "") then Some (TrimSpace line)
    else find_jwt lines inJWT
  end.

Definition lines_of (text : string) : list string := Split (char_of 10) text.

(** [readJWTFromCredsFile], of the content of the file. *)
Definition readJWTFromCreds (text : string) : option string := find_jwt (lines_of text) false.

Fixpoint replace_jwt (newJWT : string) (lines : list string) (inJWT : bool) : list string :=
  match lines with
  | [] => []
  | line :: lines =>
    if is_begin line then line :: newJWT :: replace_jwt newJWT lines true
    else if is_end line then line :: replace_jwt newJWT lines false
    else if inJWT then replace_jwt newJWT lines inJWT
    else line :: replace_jwt newJWT lines inJWT
  end.

(** [writeJWTToCredsFile], from the content of the file. *)
Definition writeJWTToCreds (text newJWT : string) : string := Join nl (replace_jwt newJWT (lines_of text) false).

Definition jwtRefreshThreshold : Z := 15 * 60 * 1000000000.

(** [maybeRefreshJWT] with [refreshJWT]: the new content of the file.  [ttl] is the
    remaining life of a token that parses and expires; [post] the answer of the
    refresh end point to a token; [None] of [text]: the file cannot be read. *)
Definition maybeRefreshJWT `{JsonStream} (credsFile refreshURL : string) (ttl : string → option Z) (post : string → option (Z * string))
    (text : option string) : option string :=
  if String.eqb credsFile "" || String.eqb refreshURL "" then text
  else
    match text with
    | None => None
    | Some content =>
      match readJWTFromCreds content with
      | None => text
      | Some jwt =>
        match ttl jwt with
        | None => text
        | Some remaining =>
          if jwtRefreshThreshold <? Z.max 0 remaining then text
          else
            match post jwt with
            | Some (status, body) =>
              if negb (status =? 200) then text
              else
                match decode_body (dec_struct [ ("jwt", dec_string) ]) ""%string body with
                | None => text
                | Some newJWT => if String.eqb newJWT "" then text else Some (writeJWTToCreds content newJWT)
                end
            | None => text
            end
        end
      end
    end.
