(* ===== verification/DaemonJobsSpec.v ===== *)
(** * What becomes of scheduled jobs

    The effect of the daemon's triggers on the queue, jobs that are never started
    and jobs that are started although they were cancelled, crashes that repeat,
    and the credentials file. *)

From Stdlib Require Import SpecFloat.
From stdpp Require Import sorting.
From S2P Require Import Prelude GoStrings Slug Subjects Json Permissions PermissionsSpec SessionState QuotaMonitor Agent AgentSpec ObjectStore DaemonJobs.
Open Scope Z_scope.

(** ** Vocabulary *)

Definition job_key (d : Daemon) (j : JobEntry) : string := jobQueueKVKey (dm_userSlug d) (jb_ID j).

(** What no handler changes in a job. *)
Definition identity (j : JobEntry) : string * string * string * string := (jb_ID j, jb_UserID j, jb_ProjectID j, jb_ProjectSlug j).

(** The user's jobs lie under their keys. *)
Definition keyed (d : Daemon) : Prop :=
  ∀ k j, dm_jobs d !! k = Some (Some j) → jb_UserID j = dm_userID d → k = job_key d j.

(** What stays besides the queue and the output. *)
Definition frame (d : Daemon) : string * string * string * list QuotaStatus * QuotaStatus :=
  (dm_userID d, dm_userSlug d, dm_hostSlug d, dm_quotas d, dm_lastQuota d).

(** Messages and puts of jobs with a property. *)
Inductive writes (P : JobEntry → Prop) (d : Daemon) : Daemon → Prop :=
| writes_refl : writes P d d
| writes_emit o d' : writes P d d' → writes P d (emit o d')
| writes_put e j d' : P j → writes P d d' → writes P d (put_job e j d').

Section spec.
Context `{UT : UnicodeTables, NO : Normalizer, JT : JsonText, JS : JsonStream, GT : GoTime, JO : JobOrder}.

(** ** Writes *)

Lemma put_jobs e j d : dm_jobs (put_job e j d) = if de_kvErr e (jb_Status j) (jb_ID j) then dm_jobs d else <[job_key d j := Some j]> (dm_jobs d).
Proof. unfold put_job, writeJobEntry. by destruct (de_kvErr _ _ _). Qed.

Lemma put_updates e j d : dm_updates (put_job e j d) = dm_updates d ∨ dm_updates (put_job e j d) = dm_updates d ++ [j].
Proof. unfold put_job, writeJobEntry. destruct (de_kvErr _ _ _); [by left|]. cbn. destruct (own_job d j); [by right|by left]. Qed.

Lemma put_frame e j d : frame (put_job e j d) = frame d.
Proof. unfold put_job, writeJobEntry. by destruct (de_kvErr _ _ _). Qed.

Lemma writes_frame P d d' : writes P d d' → frame d' = frame d.
Proof. induction 1 as [|o d' _ IH|e j d' _ _ IH]; [done|done|]. by rewrite put_frame. Qed.

Lemma frame_eq d d' : frame d' = frame d → dm_userID d' = dm_userID d ∧ dm_userSlug d' = dm_userSlug d ∧ dm_hostSlug d' = dm_hostSlug d ∧
  dm_quotas d' = dm_quotas d ∧ dm_lastQuota d' = dm_lastQuota d.
Proof. by intros [= -> -> -> -> ->]. Qed.

Lemma writes_updates P d d' : writes P d d' → ∃ l, dm_updates d' = dm_updates d ++ l ∧ Forall P l.
Proof.
  induction 1 as [|o d' _ IH|e j d' Hj _ (l & Hl & Hf)]; [exists []; by rewrite app_nil_r|done|].
  destruct (put_updates e j d') as [->| ->]; [by exists l|]. exists (l ++ [j]). rewrite Hl, app_assoc. split; [done|].
  apply Forall_app. by split; [|constructor].
Qed.

Lemma writes_other P d d' k : (∀ j, P j → job_key d j ≠ k) → writes P d d' → dm_jobs d' !! k = dm_jobs d !! k.
Proof.
  intros HP. induction 1 as [|o d' _ IH|e j d' Hj Hw IH]; [done|done|]. rewrite put_jobs. destruct (de_kvErr _ _ _); [done|].
  apply writes_frame, frame_eq in Hw as (_ & Hs & _). rewrite lookup_insert_ne; [done|]. unfold job_key. rewrite Hs. by apply HP.
Qed.

Lemma writes_keyed P d d' : keyed d → writes P d d' → keyed d'.
Proof.
  intros Hk. induction 1 as [|o d' _ IH|e j d' Hj Hw IH]; [done|done|]. intros k x. rewrite put_jobs.
  pose proof (put_frame e j d') as Hf. apply frame_eq in Hf as (Hu & Hs & _). unfold job_key. rewrite Hu, Hs.
  destruct (de_kvErr _ _ _); [apply IH|]. destruct (decide (k = job_key d' j)) as [->|Hne].
  - rewrite lookup_insert_eq. by intros [= ->].
  - rewrite lookup_insert_ne by done. apply IH.
Qed.

Lemma writes_trans P d d' d'' : writes P d d' → writes P d' d'' → writes P d d''.
Proof. intros H1. induction 1 as [|o d2 _ IH|e j d2 Hj _ IH]; [done|by constructor|by constructor]. Qed.

Lemma writes_mono (P Q : JobEntry → Prop) d d' : (∀ j, P j → Q j) → writes P d d' → writes Q d d'.
Proof. intros HPQ. induction 1; constructor; auto. Qed.

Lemma writes_one (P : JobEntry → Prop) e j d : P j → writes P d (put_job e j d).
Proof. intros. constructor; [done|constructor]. Qed.

(** A job written by the handling of [job]. *)
Definition same_job (job j : JobEntry) : Prop := identity j = identity job.

Lemma same_job_key d job j : same_job job j → job_key d j = job_key d job.
Proof. unfold same_job, identity, job_key. intros H. by injection H as -> _ _ _. Qed.

Lemma retry_writes e job d : writes (same_job job) d (retry_or_fail e job d).
Proof. unfold retry_or_fail. apply writes_one. by destruct (maxJobStartRetries <=? _). Qed.

Lemma start_writes e job p sid d : writes (same_job job) d (start_session e job p sid d).
Proof.
  unfold start_session. destruct (negb _); [apply retry_writes|]. cbv zeta. apply writes_put; [done|]. apply writes_emit, writes_refl.
Qed.

Lemma write_entry e job d b d' : writeJobEntry e job d = (b, d') → d' = put_job e job d ∧ b = negb (de_kvErr e (jb_Status job) (jb_ID job)).
Proof. unfold put_job, writeJobEntry. destruct (de_kvErr _ _ _); by intros [= <- <-]. Qed.

Lemma dispatch_writes e job d : writes (same_job job) d (after (dispatchQueuedJob e job d)).
Proof.
  unfold dispatchQueuedJob. cbv zeta. destruct (writeJobEntry _ _ _) as [[] d1] eqn:Hw; apply write_entry in Hw as [-> _].
  2: { by apply writes_one. }
  destruct (jobProjectSlug _) as [p|]; [|by apply writes_one].
  destruct (created_session e) as [sid|]; cbn [after]; [|apply writes_emit; by apply writes_one].
  eapply writes_trans; [|eapply writes_mono; [|apply start_writes]; done]. apply writes_emit. by apply writes_one.
Qed.

Lemma recover_writes e job d : writes (same_job job) d (after (recover_job e job d)).
Proof.
  unfold recover_job. repeat case_match; cbn [after]; try constructor; try done; try apply writes_refl.
Qed.

(** The jobs that a watcher delivers. *)
Lemma own_jobs_elem d p j : j ∈ own_jobs d p ↔ ∃ k, dm_jobs d !! k = Some (Some j) ∧ jb_UserID j = dm_userID d ∧ p j = true.
Proof.
  unfold own_jobs, watched_jobs, own_job. rewrite list_elem_of_In, filter_In, <- list_elem_of_In, list_elem_of_omap, andb_true_iff, String.eqb_eq.
  setoid_rewrite (watch_all_perm (dm_jobs d)). split.
  - intros (([k o] & Hin%elem_of_map_to_list & Ho) & Hu & Hp). cbn in Ho. subst o. by exists k.
  - intros (k & Hk & Hu & Hp). split; [|done]. exists (k, Some j). split; [by apply elem_of_map_to_list|done].
Qed.

Lemma pause_writes e q job d : writes (same_job job) d (after (pause_job e q job d)).
Proof. unfold pause_job. destruct (jobProjectSlug job); [|apply writes_refl]. cbn [after]. apply writes_put; [done|]. apply writes_emit, writes_emit, writes_refl. Qed.

Definition one_of (l : list JobEntry) (j : JobEntry) : Prop := ∃ job, job ∈ l ∧ same_job job j.

Lemma pauses_writes e q l d : writes (one_of l) d (after (pause_while_exceeded e q l d)).
Proof.
  revert d. induction l as [|job l IH]; intros d; cbn [pause_while_exceeded]; [apply writes_refl|]. destruct (_ <? _); [apply writes_refl|].
  pose proof (pause_writes e q job d) as Hp. destruct (pause_job e q job d) as [d1|d1]; cbn [andThen after] in *.
  - eapply writes_trans; [eapply writes_mono; [|exact Hp]|eapply writes_mono; [|apply IH]].
    + intros j Hj. exists job. split; [left|done].
    + intros j (x & Hx & Hj). exists x. split; [by right|done].
  - eapply writes_mono; [|exact Hp]. intros j Hj. exists job. split; [left|done].
Qed.

Lemma requeue_writes e l d : writes (one_of l) d (fold_left (requeue_paused e) l d).
Proof.
  revert d. induction l as [|job l IH]; intros d; cbn [fold_left]; [apply writes_refl|].
  eapply writes_trans; [|eapply writes_mono; [|apply IH]; intros j (x & Hx & Hj); exists x; split; [by right|done]].
  assert (Hj : ∀ j, identity j = identity job → one_of (job :: l) j) by (intros j H; exists job; split; [left|done]).
  unfold requeue_paused. destruct (jb_ResumeAt job) as [t|]; [destruct (_ <? _)|]; [apply writes_refl|by apply writes_one, Hj..].
Qed.

(** A quota report rewrites running and paused jobs only. *)
Definition quota_target (d : Daemon) (j : JobEntry) : Prop :=
  ∃ k job, dm_jobs d !! k = Some (Some job) ∧ jb_UserID job = dm_userID d ∧ (jb_Status job = "running" ∨ jb_Status job = "paused")%string ∧ same_job job j.

Lemma sorted_target d st key j : st = "running"%string ∨ st = "paused"%string → one_of (sort_slice key (own_jobs d (has_status st))) j → quota_target d j.
Proof.
  intros Hst (job & Hin & Hj). rewrite sort_slice_perm in Hin. apply own_jobs_elem in Hin as (k & Hk & Hu & Hs%String.eqb_eq).
  exists k, job. split; [done|]. split; [done|]. split; [|done]. rewrite Hs. by destruct Hst; [left|right].
Qed.

Lemma quota_writes e q d : writes (quota_target d) d (after (apply_quota e q d)).
Proof.
  unfold apply_quota. destruct (de_watchErr e); [apply writes_refl|]. destruct (existsb _ _).
  - eapply writes_mono; [|apply pauses_writes]. intros j. apply sorted_target. by left.
  - cbn [after]. eapply writes_mono; [|apply requeue_writes]. intros j. apply sorted_target. by right.
Qed.

(** ** Jobs that are never started *)

(** Quota reports arrive, and the dispatcher handles reports and updates. *)
Inductive dispatcher_step : Daemon → Daemon → Prop :=
| step_report q d : dispatcher_step d (set_quotas (dm_quotas d ++ [q]) (dm_lastQuota d) d)
| step_quota e d p : take_quota e d = Some p → dispatcher_step d (after p)
| step_update e d p : take_update e d = Some p → dispatcher_step d (after p).

(** A queued job which no pending update is about. *)
Record forgotten (k : string) (job : JobEntry) (d : Daemon) : Prop := {
  fg_keyed : keyed d;
  fg_own : jb_UserID job = dm_userID d;
  fg_entry : dm_jobs d !! k = Some (Some job);
  fg_queued : jb_Status job = "queued"%string;
  fg_updates : ∀ u, u ∈ dm_updates d → job_key d u ≠ k;
}.

Lemma forgotten_writes P k job d d' : (∀ j, P j → job_key d j ≠ k) → writes P d d' → forgotten k job d → forgotten k job d'.
Proof.
  intros HP Hw [Hk Ho He Hq Hu]. pose proof (writes_frame _ _ _ Hw) as Hf. apply frame_eq in Hf as (Hfu & Hfs & _). split; [by eapply writes_keyed|by rewrite Hfu| |done|].
  - by rewrite (writes_other P d d' k).
  - destruct (writes_updates _ _ _ Hw) as (l & -> & Hl). intros u [Hin|Hin]%elem_of_app; unfold job_key; rewrite Hfs; [by apply Hu|].
    rewrite Forall_forall in Hl. by apply HP, Hl.
Qed.

Lemma quota_target_other k job d j : keyed d → dm_jobs d !! k = Some (Some job) → jb_Status job = "queued"%string → quota_target d j → job_key d j ≠ k.
Proof.
  intros Hk He Hq (k' & x & Hx & Hu & Hs & Hj). rewrite (same_job_key d x j Hj). intros Heq. rewrite <- (Hk k' x Hx Hu) in Heq. subst k'.
  rewrite Hx in He. injection He as ->. destruct Hs; congruence.
Qed.

Lemma forgotten_dispatch e q changed k job d :
  (∀ u, changed = Some u → job_key d u ≠ k) → forgotten k job d → forgotten k job (after (processDispatch e q changed d)).
Proof.
  intros Hc Hf. unfold processDispatch.
  assert (H1 : forgotten k job (after (if qs_HasData q then apply_quota e q d else Running d)) ∧
               frame (after (if qs_HasData q then apply_quota e q d else Running d)) = frame d).
  { destruct (qs_HasData q); [|done]. split; [|apply (writes_frame _ _ _ (quota_writes e q d))].
    eapply forgotten_writes; [|apply quota_writes|done]. intros j. by eapply quota_target_other; apply Hf. }
  destruct (if qs_HasData q then _ else _) as [d1|d1]; cbn [andThen after] in *; [|by apply H1]. destruct H1 as [H1 Hfr].
  destruct changed as [u|]; [|done]. destruct (_ && _); [|done]. eapply forgotten_writes; [|apply dispatch_writes|done].
  intros j Hj. rewrite (same_job_key d1 u j Hj). apply frame_eq in Hfr as (_ & Hs & _). unfold job_key. rewrite Hs. by apply Hc.
Qed.

Lemma forgotten_step k job d d' : forgotten k job d → dispatcher_step d d' → forgotten k job d'.
Proof.
  intros Hf Hs. inversion Hs as [q d0 | e d0 p Hp | e d0 p Hp]; subst.
  - by destruct Hf.
  - unfold take_quota in Hp. destruct (dm_quotas d) as [|q qs]; [done|]. injection Hp as <-. apply forgotten_dispatch; [done|by destruct Hf].
  - unfold take_update in Hp. destruct (dm_updates d) as [|u us] eqn:Hu; [done|]. injection Hp as <-.
    destruct Hf as [Hk Ho He Hq Hup]. rewrite Hu in Hup. apply forgotten_dispatch.
    + intros x [= <-]. apply Hup. left.
    + split; try done. intros x Hx. apply Hup. by right.
Qed.

(** A queued job is looked at once, when its entry is written.  If the quota is
    exceeded at that time it is never started: no report of a recovered quota and
    no update of another job brings it back, in any order of events. *)
Theorem queued_job_starves e d job rest d1 d2 :
  keyed d → dm_updates d = job :: rest → dm_jobs d !! job_key d job = Some (Some job) → jb_UserID job = dm_userID d →
  jb_Status job = "queued"%string → (∀ u, u ∈ rest → job_key d u ≠ job_key d job) →
  qs_HasData (dm_lastQuota d) = true → jb_Threshold job ≤ qs_U5 (dm_lastQuota d) →
  take_update e d = Some (Running d1) → rtc dispatcher_step d1 d2 →
  dm_jobs d2 !! job_key d job = Some (Some job).
Proof.
  intros Hk Hup He Ho Hq Hrest Hdata Hthr Ht Hrun.
  assert (H1 : forgotten (job_key d job) job d1).
  { unfold take_update in Ht. rewrite Hup in Ht. injection Ht as Ht. unfold processDispatch in Ht. rewrite Hdata, Hq in Ht.
    set (d0 := set_jobs (dm_jobs d) rest d) in *. assert (H0 : forgotten (job_key d job) job d0) by (split; try done).
    pose proof (quota_writes e (dm_lastQuota d) d0) as Hw. destruct (apply_quota e (dm_lastQuota d) d0) as [d'|d']; [|done]. cbn [andThen after] in *.
    destruct (Z.ltb_spec (qs_U5 (dm_lastQuota d)) (jb_Threshold job)); [lia|]. cbn in Ht. injection Ht as <-.
    eapply forgotten_writes; [|exact Hw|done]. intros j. by eapply quota_target_other; apply H0. }
  apply fg_entry. eapply rtc_invariant; [|exact H1|exact Hrun]. intros x y. apply forgotten_step.
Qed.

(** ** Cancelled jobs *)

Definition works (e : daemon_env) : Prop := (∀ st id, de_kvErr e st id = false) ∧ de_watchErr e = false.

Lemma put_works e j d : works e → dm_jobs (put_job e j d) = <[job_key d j := Some j]> (dm_jobs d).
Proof. intros [H _]. by rewrite put_jobs, H. Qed.

Lemma write_works e j d : works e → writeJobEntry e j d = (true, put_job e j d).
Proof. intros [H _]. unfold put_job, writeJobEntry. by rewrite H. Qed.

Lemma read_put e j d : works e → readJobEntry (jb_ID j) (put_job e j d) = Some j.
Proof.
  intros H. pose proof (put_frame e j d) as Hf. apply frame_eq in Hf as (_ & Hs & _). unfold readJobEntry. rewrite put_works by done.
  rewrite Hs. unfold job_key. by rewrite lookup_insert_eq.
Qed.

Lemma put_own_updates e j d : works e → jb_UserID j = dm_userID d → dm_updates (put_job e j d) = dm_updates d ++ [j].
Proof. intros [H _] Ho. unfold put_job, writeJobEntry, own_job. rewrite H, Ho. cbn. by rewrite String.eqb_refl. Qed.

(** What starting a session leaves when everything works. *)
Lemma dispatch_runs e job d p sid :
  works e → jobProjectSlug job = Done p → created_session e = Some sid → session_idle e (SessionsKVKey (dm_hostSlug d) p sid) = true →
  ∃ d' j, dispatchQueuedJob e job d = Running d' ∧ readJobEntry (jb_ID job) d' = Some j ∧ jb_Status j = "running"%string ∧ jb_SessionID j = sid ∧
    jb_Branch j = job_branch job ∧ jb_StartedAt j = Some (de_now e).
Proof.
  intros Hw Hp Hc Hi. unfold dispatchQueuedJob. cbv zeta. rewrite write_works by done.
  change (jobProjectSlug (set_status "starting" (with_branch (job_branch job) job))) with (jobProjectSlug job). rewrite Hp, Hc.
  unfold start_session. cbn [dm_hostSlug emit]. pose proof (put_frame e (set_status "starting" (with_branch (job_branch job) job)) d) as Hf.
  apply frame_eq in Hf as (_ & _ & -> & _). rewrite Hi. cbn [negb]. cbv zeta. eexists _, _. split; [reflexivity|].
  match goal with |- context [put_job e ?j ?x] => split; [apply (read_put e j x Hw)|by repeat split] end.
Qed.

(** Cancelling a job before its turn has no effect but a delay: the update that the
    dispatcher has pending still says that the job is queued, and the job is
    started and marked as running. *)
Theorem cancelled_job_runs e1 e2 e3 body req d p sid :
  works e1 → works e2 → works e3 → decode_body (dec_struct JobRequest_fields) zero_JobRequest body = Some req →
  dm_updates d = [] → qs_HasData (dm_lastQuota d) = false →
  has_char "/" (de_uuid e1) = false → de_uuid e1 ≠ "" → de_uuid e1 ≠ "projects" →
  jobProjectSlug (new_job e1 req d) = Done p → created_session e3 = Some sid → session_idle e3 (SessionsKVKey (dm_hostSlug d) p sid) = true →
  let d2 := handleJobByID e2 "DELETE" ("/jobs/" +:+ de_uuid e1) (handleJobsRoute e1 "POST" body d) in
  (∃ j, readJobEntry (de_uuid e1) d2 = Some j ∧ jb_Status j = "cancelled"%string) ∧
  ∃ d3 j, take_update e3 d2 = Some (Running d3) ∧ readJobEntry (de_uuid e1) d3 = Some j ∧ jb_Status j = "running"%string ∧ jb_SessionID j = sid.
Proof.
  intros Hw1 Hw2 Hw3 Hb Hup Hq Hsl Hne Hnp Hp Hc Hi. cbv zeta.
  set (job := new_job e1 req d). set (d1 := put_job e1 job d).
  assert (H1 : handleJobsRoute e1 "POST" body d = emit (DCreated (de_uuid e1) "queued") d1) by (unfold handleJobsRoute; cbn [String.eqb Ascii.eqb Bool.eqb]; rewrite Hb, write_works by done; done).
  assert (Hd1 : dm_updates d1 = [job]) by (unfold d1; rewrite put_own_updates, Hup by done; done).
  assert (H2 : handleJobByID e2 "DELETE" ("/jobs/" +:+ de_uuid e1) (emit (DCreated (de_uuid e1) "queued") d1) =
    emit DDone (put_job e2 (set_status "cancelled" job) (emit (DCreated (de_uuid e1) "queued") d1))).
  { unfold handleJobByID. rewrite TrimPrefix_app, Split_no_sep by done. cbn [nth]. apply String.eqb_neq in Hne as ->, Hnp as ->.
    cbn [orb]. change (String.eqb "DELETE" "GET") with false. change (String.eqb "DELETE" "DELETE") with true. cbv iota.
    change (readJobEntry (de_uuid e1) (emit _ d1)) with (readJobEntry (jb_ID job) d1). unfold d1. rewrite read_put by done.
    unfold cancel_job. change (String.eqb (jb_Status job) "running") with false. cbn [andb]. cbv iota. rewrite write_works by done. done. }
  rewrite H1, H2. set (d2 := emit DDone _).
  assert (Hf : frame d2 = frame d).
  { transitivity (frame (put_job e2 (set_status "cancelled" job) (emit (DCreated (de_uuid e1) "queued") d1))); [done|]. rewrite put_frame.
    transitivity (frame d1); [done|]. apply put_frame. } apply frame_eq in Hf as (_ & Hs & Hh & _ & Hl).
  split.
  - exists (set_status "cancelled" job). split; [|done]. change (readJobEntry (de_uuid e1) d2) with (readJobEntry (jb_ID (set_status "cancelled" job)) (put_job e2 (set_status "cancelled" job) (emit (DCreated (de_uuid e1) "queued") d1))). by apply read_put.
  - assert (Hd2 : dm_updates d2 = [job; set_status "cancelled" job]).
    { unfold d2. cbn [dm_updates emit]. rewrite put_own_updates; [|done|]. { cbn. by rewrite Hd1. }
      pose proof (put_frame e1 job d) as Hf. apply frame_eq in Hf as (Hu & _). change (dm_userID d = dm_userID d1). by rewrite <- Hu. }
    unfold take_update. rewrite Hd2. unfold processDispatch. rewrite Hl, Hq. cbn [andThen]. change (String.eqb (jb_Status job) "queued") with true. cbn [negb andb orb].
    destruct (dispatch_runs e3 job (set_jobs (dm_jobs d2) [set_status "cancelled" job] d2) p sid) as (d3 & j & Hd & Hr & Hst & Hsid & _); try done.
    { cbn [dm_hostSlug set_jobs]. by rewrite Hh. }
    exists d3, j. rewrite Hd. by split.
Qed.

(** ** A job that brings the daemon down *)

Definition unstarted (j : JobEntry) : Prop := (jb_Status j = "queued" ∨ jb_Status j = "starting")%string.

(** In the queue lies a job whose project has no slug. *)
Definition fatal_at (k : string) (d : Daemon) : Prop :=
  ∃ job, dm_jobs d !! k = Some (Some job) ∧ jb_UserID job = dm_userID d ∧ unstarted job ∧ jobProjectSlug job = Panicked.
Definition doomed (d : Daemon) : Prop := keyed d ∧ ∃ k, fatal_at k d.

Fixpoint updates_done (n : nat) (e : daemon_env) (d : Daemon) : progress :=
  match n with
  | O => Running d
  | S n => match take_update e d with None => Running d | Some p => andThen p (updates_done n e) end
  end.

Lemma slug_same job j : same_job job j → jobProjectSlug j = jobProjectSlug job.
Proof. unfold same_job, identity, jobProjectSlug. intros H. by injection H as _ _ -> ->. Qed.

Lemma dispatch_fatal e job d : works e → jb_UserID job = dm_userID d → keyed d → jobProjectSlug job = Panicked →
  ∃ d', dispatchQueuedJob e job d = Crashed d' ∧ doomed d'.
Proof.
  intros Hw Ho Hk Hp. unfold dispatchQueuedJob. cbv zeta. rewrite write_works by done.
  change (jobProjectSlug (set_status "starting" (with_branch (job_branch job) job))) with (jobProjectSlug job). rewrite Hp.
  eexists. split; [done|]. set (j := set_status "starting" (with_branch (job_branch job) job)). split.
  - eapply writes_keyed; [exact Hk|]. by apply (writes_one (same_job job)).
  - exists (job_key d j), j. rewrite put_works, lookup_insert_eq by done. pose proof (put_frame e j d) as Hf. apply frame_eq in Hf as (Hu & _).
    split; [done|]. rewrite Hu. split; [done|]. split; [by right|done].
Qed.

(** The dispatcher at work on a queue with a fatal job. *)
Record fatal_queue (k : string) (d : Daemon) : Prop := {
  fq_keyed : keyed d;
  fq_entry : fatal_at k d;
  fq_quota : qs_HasData (dm_lastQuota d) = false;
  fq_updates : ∀ u, u ∈ dm_updates d → job_key d u = k → jb_UserID u = dm_userID d ∧ jobProjectSlug u = Panicked;
}.

Lemma fatal_writes k P d d' : (∀ j, P j → job_key d j ≠ k) → writes P d d' → fatal_queue k d → fatal_queue k d'.
Proof.
  intros HP Hw [Hk (job & He & Ho & Hs & Hp) Hq Hu]. pose proof (writes_frame _ _ _ Hw) as Hf. apply frame_eq in Hf as (Hfu & Hfs & _ & _ & Hfl). split.
  - by eapply writes_keyed.
  - exists job. rewrite (writes_other P d d' k), Hfu by done. done.
  - by rewrite Hfl.
  - destruct (writes_updates _ _ _ Hw) as (l & -> & Hl). unfold job_key. rewrite Hfs, Hfu. intros u [Hin|Hin]%elem_of_app Hkey; [by apply Hu|].
    rewrite Forall_forall in Hl. by destruct (HP u (Hl u Hin)).
Qed.

Lemma fatal_step k e d u us : works e → fatal_queue k d → dm_updates d = u :: us →
  (∃ d', take_update e d = Some (Crashed d') ∧ doomed d') ∨
  (∃ d' l, take_update e d = Some (Running d') ∧ fatal_queue k d' ∧ dm_updates d' = us ++ l ∧ ¬ (job_key d u = k ∧ jb_Status u = "queued"%string)).
Proof.
  intros Hw [Hk He Hq Hu] Hup. unfold take_update. rewrite Hup. unfold processDispatch. rewrite Hq. cbn [andThen negb orb]. rewrite andb_true_r.
  set (d0 := set_jobs (dm_jobs d) us d). assert (H0 : fatal_queue k d0).
  { split; try done. intros x Hx. apply Hu. rewrite Hup. by right. }
  destruct (String.eqb_spec (jb_Status u) "queued") as [Hs|Hs].
  2: { right. exists d0, []. rewrite app_nil_r. repeat (split; [done|]). by intros [_ ?]. }
  destruct (decide (job_key d u = k)) as [Hkey|Hkey].
  - left. destruct (Hu u) as [Ho Hp]; [rewrite Hup; left|done|]. destruct (dispatch_fatal e u d0) as (d' & -> & Hd); try done. by exists d'.
  - assert (HP : ∀ j, same_job u j → job_key d0 j ≠ k) by (intros j Hj; by rewrite (same_job_key d0 u j Hj)).
    pose proof (dispatch_writes e u d0) as Hwr. destruct (dispatchQueuedJob e u d0) as [d'|d']; cbn [after] in Hwr.
    + right. destruct (writes_updates _ _ _ Hwr) as (l & Hl & _). exists d', l. split; [done|]. split; [by eapply fatal_writes|]. split; [done|]. by intros [? _].
    + left. exists d'. split; [done|]. eapply fatal_writes in Hwr; [|done|done]. split; [apply Hwr|]. exists k. apply Hwr.
Qed.

Lemma fatal_run k e pre : works e → ∀ d u post, fatal_queue k d → dm_updates d = pre ++ u :: post → job_key d u = k → jb_Status u = "queued"%string →
  ∃ n d', updates_done n e d = Crashed d' ∧ doomed d'.
Proof.
  intros Hw. induction pre as [|x pre IH]; intros d u post Hf Hup Hkey Hs; cbn [app] in Hup.
  - destruct (fatal_step k e d u post Hw Hf Hup) as [(d' & Ht & Hd)|(d' & l & _ & _ & _ & Hno)]; [|by destruct Hno].
    exists 1%nat, d'. cbn. by rewrite Ht.
  - destruct (fatal_step k e d x (pre ++ u :: post) Hw Hf Hup) as [(d' & Ht & Hd)|(d' & l & Ht & Hf' & Hup' & _)].
    + exists 1%nat, d'. cbn. by rewrite Ht.
    + assert (Hfr : frame d' = frame (set_jobs (dm_jobs d) (pre ++ u :: post) d)).
      { unfold take_update in Ht. rewrite Hup in Ht. injection Ht as Ht. unfold processDispatch in Ht. rewrite (fq_quota _ _ Hf) in Ht. cbn [andThen] in Ht.
        destruct (_ && _); [|by injection Ht as <-]. pose proof (dispatch_writes e x (set_jobs (dm_jobs d) (pre ++ u :: post) d)) as Hwr.
        rewrite Ht in Hwr. by apply writes_frame in Hwr. }
      apply frame_eq in Hfr as (_ & Hsl & _). destruct (IH d' u (post ++ l)) as (n & d2 & Hn & Hd2); [done| | |done|].
      * by rewrite Hup', <- app_assoc.
      * unfold job_key. by rewrite Hsl.
      * exists (S n), d2. cbn [updates_done]. rewrite Ht. done.
Qed.

(** Recovery puts the fatal job back into the queue, unless it crashes itself. *)
Record fatal_recovery (k : string) (job : JobEntry) (d0 d : Daemon) : Prop := {
  fr_keyed : keyed d;
  fr_frame : frame d = frame d0;
  fr_entry : ∃ j, dm_jobs d !! k = Some (Some j) ∧ same_job job j ∧ unstarted j;
}.

Lemma fatal_recovery_doomed k job d0 d : jb_UserID job = dm_userID d0 → jobProjectSlug job = Panicked → fatal_recovery k job d0 d → doomed d.
Proof.
  intros Ho Hp [Hk Hf (j & He & Hsame & Hu)]. split; [done|]. exists k, j. apply frame_eq in Hf as (-> & _). split; [done|].
  split; [|split; [done|by rewrite (slug_same job j)]]. unfold same_job, identity in Hsame. injection Hsame as _ -> _ _. done.
Qed.

Definition entry_queued (k : string) (job : JobEntry) (d : Daemon) : Prop :=
  ∃ j, dm_jobs d !! k = Some (Some j) ∧ same_job job j ∧ jb_Status j = "queued"%string.

Lemma recovery_step k job e d0 j d :
  works e → unstarted job → k = job_key d0 job → (job_key d0 j = k → j = job) → fatal_recovery k job d0 d → (jb_Status job = "queued"%string → entry_queued k job d) →
  fatal_recovery k job d0 (after (recover_job e j d)) ∧ (entry_queued k job d ∨ j = job → entry_queued k job (after (recover_job e j d))).
Proof.
  intros Hw Hu Hkey Hj Hf Hq. destruct Hf as [Hk Hfr He]. pose proof (recover_writes e j d) as Hwr. pose proof (frame_eq _ _ Hfr) as (_ & Hs & _).
  destruct (decide (job_key d0 j = k)) as [Heq|Hne].
  - rewrite (Hj Heq) in *. unfold recover_job in *. destruct Hu as [Hu|Hu]; rewrite Hu in *; cbn [String.eqb Ascii.eqb Bool.eqb after] in *; [by split; auto|].
    change (String.eqb "starting" "starting") with true in *. cbv iota in *. cbn [after] in *.
    assert (Hin : dm_jobs (put_job e (with_status "queued" "" job) d) !! k = Some (Some (with_status "queued" "" job))).
    { rewrite put_works, Hkey by done. unfold job_key. rewrite Hs. cbn. by rewrite lookup_insert_eq. }
    split; [split|intros _].
    + by eapply writes_keyed.
    + by rewrite put_frame.
    + eexists. split; [exact Hin|]. split; [done|by left].
    + eexists. split; [exact Hin|]. by split.
  - assert (HP : ∀ x, same_job j x → job_key d x ≠ k). { intros x Hx. rewrite (same_job_key d j x Hx). unfold job_key. by rewrite Hs. }
    pose proof (writes_other _ _ _ k HP Hwr) as Hsame. split; [split|].
    + by eapply writes_keyed.
    + by rewrite (writes_frame _ _ _ Hwr).
    + by rewrite Hsame.
    + unfold entry_queued. rewrite Hsame. intros [?|Heq]; [done|]. by destruct Hne; rewrite Heq.
Qed.

Lemma fold_crashed e l d : fold_left (λ p j, andThen p (recover_job e j)) l (Crashed d) = Crashed d.
Proof. by induction l. Qed.

Lemma recovery_fold k job e d0 l : works e → unstarted job → k = job_key d0 job → (∀ j, j ∈ l → job_key d0 j = k → j = job) →
  ∀ d, fatal_recovery k job d0 d → (jb_Status job = "queued"%string → entry_queued k job d) →
  let p := fold_left (λ p j, andThen p (recover_job e j)) l (Running d) in
  fatal_recovery k job d0 (after p) ∧ ∀ d', p = Running d' → entry_queued k job d ∨ job ∈ l → entry_queued k job d'.
Proof.
  intros Hw Hu Hkey. induction l as [|j l IH]; intros Hl d Hf Hq; cbn [fold_left].
  - split; [done|]. intros d' [= ->] [?|Hin]; [done|]. by apply elem_of_nil in Hin.
  - destruct (recovery_step k job e d0 j d) as [Hf' Hq']; try done; [apply Hl; left|].
    cbn [andThen]. destruct (recover_job e j d) as [d1|d1]; cbn [after] in *.
    + destruct (IH (λ x Hx, Hl x (list_elem_of_further _ _ _ Hx)) d1 Hf') as [H1 H2]; [auto|]. split; [done|].
      intros d' Hp [?|[->|Hin]%elem_of_cons]; apply (H2 d' Hp); auto.
    + rewrite fold_crashed. by split.
Qed.

(** A job of a project whose name has no slug and whose identifier is shorter than
    eight bytes, as is the empty one of a request without a project, brings the
    daemon down when its turn comes, and again after every restart: recovery puts
    it back into the queue first. *)
Theorem missing_project_crash_loop e1 e2 d :
  works e1 → works e2 → doomed d →
  ∃ d', doomed d' ∧
    (start_dispatcher e1 d = Crashed d' ∨ ∃ d1 n, start_dispatcher e1 d = Running d1 ∧ updates_done n e2 d1 = Crashed d').
Proof.
  intros Hw1 Hw2 [Hk (k & job & He & Ho & Hu & Hp)]. pose proof (Hk k job He Ho) as Hkey.
  unfold start_dispatcher, startupRecovery. destruct Hw1 as [Hkv Hwatch]. rewrite Hwatch.
  destruct (recovery_fold k job e1 d (own_jobs d (λ _, true))) with (d := d) as [H1 H2]; try done.
  { intros j Hj Hjk. apply own_jobs_elem in Hj as (k' & Hk' & Hju & _). pose proof (Hk k' j Hk' Hju) as Hjk'. rewrite Hjk in Hjk'. subst k'. congruence. }
  { split; try done. by exists job. }
  { intros Hs. by exists job. }
  destruct (fold_left _ _ _) as [d1|d1]; cbn [andThen after] in *; [|exists d1; split; [by eapply fatal_recovery_doomed|by left]].
  destruct (H2 d1 eq_refl) as (j & Hj & Hsame & Hs).
  { right. apply own_jobs_elem. by exists k. }
  destruct H1 as [Hk1 Hf1 _]. pose proof (frame_eq _ _ Hf1) as (Hfu & Hfs & _).
  set (d2 := set_jobs (dm_jobs d1) (own_jobs d1 (λ _, true)) (set_quotas (dm_quotas d1) no_quota d1)).
  assert (Hju : jb_UserID j = dm_userID d1). { rewrite Hfu. unfold same_job, identity in Hsame. injection Hsame as _ -> _ _. done. }
  assert (Hjk : job_key d1 j = k) by (symmetry; by apply Hk1).
  assert (Hfq : fatal_queue k d2).
  { split; [done| |done|].
    - exists j. split; [done|]. split; [done|]. split; [by left|by rewrite (slug_same job j)].
    - intros u Hin Huk. apply own_jobs_elem in Hin as (k' & Hk' & Huu & _). split; [done|]. pose proof (Hk1 k' u Hk' Huu) as Huk'.
      change (job_key d2 u) with (job_key d1 u) in Huk. rewrite Huk in Huk'. subst k'. rewrite Hj in Hk'. injection Hk' as <-. by rewrite (slug_same job j). }
  assert (Hin : j ∈ dm_updates d2) by (apply own_jobs_elem; by exists k).
  apply list_elem_of_split in Hin as (pre & post & Hup).
  destruct (fatal_run k e2 pre Hw2 d2 j post Hfq Hup Hjk Hs) as (n & d' & Hn & Hd). exists d'. split; [done|]. right. by exists d2, n.
Qed.

(** A request without a project makes such a job. *)
Lemma posted_doomed e body req d : works e → keyed d → decode_body (dec_struct JobRequest_fields) zero_JobRequest body = Some req →
  Slugify (jr_ProjectID req) = "" → (String.length (jr_ProjectID req) < 8)%nat → doomed (handleJobsRoute e "POST" body d).
Proof.
  intros Hw Hk Hb Hs Hl. unfold handleJobsRoute. cbn [String.eqb Ascii.eqb Bool.eqb]. rewrite Hb, write_works by done.
  set (job := new_job e req d). change (doomed (put_job e job d)). split; [eapply writes_keyed; [done|]; by apply (writes_one (same_job job))|].
  exists (job_key d job), job. rewrite put_works, lookup_insert_eq by done. pose proof (put_frame e job d) as (Hu & _)%frame_eq. rewrite Hu.
  split; [done|]. split; [done|]. split; [by left|]. unfold jobProjectSlug. cbn [jb_ProjectSlug jb_ProjectID new_job job]. rewrite Hs. cbn [String.eqb negb].
  by apply Nat.ltb_lt in Hl as ->.
Qed.

(** ** Jobs that run have sessions *)

Definition job_ok (j : JobEntry) : Prop :=
  jb_Status j = "running"%string → jb_SessionID j ≠ "" ∧ jb_Branch j = job_branch j ∧ is_Some (jb_StartedAt j).

(** Everything the daemon does: requests, events, triggers and restarts. *)
Inductive daemon_step : Daemon → Daemon → Prop :=
| do_http e m path b ps d : daemon_step d (jobs_http e m path b ps d)
| do_event e data d : daemon_step d (handle_lifecycle_event e data d)
| do_trigger d d' : dispatcher_step d d' → daemon_step d d'
| do_restart e d : daemon_step d (after (start_dispatcher e d)).

Lemma put_not_running (P : JobEntry → Prop) e j d : (jb_Status j ≠ "running"%string → P j) → jb_Status j ≠ "running"%string → writes P d (put_job e j d).
Proof. intros HP Hs. apply writes_one. by apply HP. Qed.

Lemma idle_job j : jb_Status j ≠ "running"%string → job_ok j.
Proof. by intros Hs H. Qed.

Lemma created_nonempty e sid : created_session e = Some sid → sid ≠ "".
Proof. unfold created_session. repeat case_match; try done. intros [= <-]. by apply String.eqb_neq. Qed.

Lemma ok_dispatch e job d : writes job_ok d (after (dispatchQueuedJob e job d)).
Proof.
  unfold dispatchQueuedJob. cbv zeta. destruct (writeJobEntry _ _ _) as [[] d1] eqn:Hw; apply write_entry in Hw as [-> _].
  2: { apply writes_one. by apply idle_job. }
  set (j := set_status "starting" _). assert (Hj : writes job_ok d (put_job e j d)) by (apply writes_one; by apply idle_job).
  destruct (jobProjectSlug j) as [p|]; [|done]. destruct (created_session e) as [sid|] eqn:Hc; cbn [after]; [|by apply writes_emit].
  unfold start_session. destruct (negb _).
  - unfold retry_or_fail. apply writes_put; [|by apply writes_emit]. apply idle_job. by destruct (maxJobStartRetries <=? _).
  - cbv zeta. apply writes_put; [|by apply writes_emit, writes_emit]. intros _. cbn. split; [by eapply created_nonempty|]. split; [done|by eexists].
Qed.

Lemma ok_recover e l : ∀ d, writes job_ok d (after (fold_left (λ p job, andThen p (recover_job e job)) l (Running d))).
Proof.
  induction l as [|job l IH]; intros d; cbn [fold_left andThen]; [apply writes_refl|].
  assert (H : writes job_ok d (after (recover_job e job d))).
  { unfold recover_job. repeat case_match; cbn [after]; try apply writes_refl; apply writes_one; by apply idle_job. }
  destruct (recover_job e job d) as [d1|d1]; cbn [after] in H; [eapply writes_trans; [exact H|apply IH]|]. by rewrite fold_crashed.
Qed.

Lemma ok_quota e q d : writes job_ok d (after (apply_quota e q d)).
Proof.
  unfold apply_quota. destruct (de_watchErr e); [apply writes_refl|]. destruct (existsb _ _); cbn [after].
  - generalize (sort_slice jb_Priority (own_jobs d (has_status "running"))). intros l. revert d. induction l as [|j l IH]; intros d; cbn [pause_while_exceeded]; [apply writes_refl|].
    destruct (_ <? _); [apply writes_refl|]. unfold pause_job. destruct (jobProjectSlug j); cbn [andThen after]; [|apply writes_refl].
    eapply writes_trans; [|apply IH]. apply writes_put; [by apply idle_job|]. apply writes_emit, writes_emit, writes_refl.
  - generalize (sort_slice (λ j, - jb_Priority j) (own_jobs d (has_status "paused"))). intros l. revert d. induction l as [|j l IH]; intros d; cbn [fold_left]; [apply writes_refl|].
    eapply writes_trans; [|apply IH]. unfold requeue_paused. destruct (jb_ResumeAt j) as [t|]; [destruct (_ <? _)|]; [apply writes_refl|apply writes_one; by apply idle_job..].
Qed.

Lemma ok_process e q c d : writes job_ok d (after (processDispatch e q c d)).
Proof.
  unfold processDispatch. assert (H : writes job_ok d (after (if qs_HasData q then apply_quota e q d else Running d))) by (destruct (qs_HasData q); [apply ok_quota|apply writes_refl]).
  destruct (if qs_HasData q then _ else _) as [d1|d1]; cbn [andThen after] in *; [|done]. destruct c as [u|]; [|done]. destruct (_ && _); [|done].
  eapply writes_trans; [exact H|apply ok_dispatch].
Qed.

Lemma ok_http e m path b ps d : writes job_ok d (jobs_http e m path b ps d).
Proof.
  unfold jobs_http. destruct (String.eqb path "/jobs").
  { unfold handleJobsRoute. repeat case_match; try (by apply writes_emit, writes_refl).
    - match goal with H : writeJobEntry _ _ _ = _ |- _ => apply write_entry in H as [-> _] end. apply writes_emit, writes_one. by apply idle_job.
    - match goal with H : writeJobEntry _ _ _ = _ |- _ => apply write_entry in H as [-> _] end. apply writes_emit, writes_one. by apply idle_job. }
  destruct (String.eqb path "/jobs/projects"); [unfold handleJobsProjects; repeat case_match; apply writes_emit, writes_refl|].
  destruct (HasPrefix path "/jobs/"); [|apply writes_emit, writes_refl]. unfold handleJobByID. destruct (_ || _); [apply writes_emit, writes_refl|].
  destruct (String.eqb m "GET"); [destruct (readJobEntry _ _); apply writes_emit, writes_refl|]. destruct (String.eqb m "DELETE"); [|apply writes_emit, writes_refl].
  destruct (readJobEntry _ _) as [job|]; [|apply writes_emit, writes_refl]. unfold cancel_job. cbv zeta.
  destruct (if _ && _ then _ else Done _) as [p|]; [|apply writes_refl]. set (d1 := if _ && _ then _ else d).
  assert (H1 : writes job_ok d d1) by (unfold d1; destruct (_ && _); [apply writes_emit|]; apply writes_refl).
  destruct (writeJobEntry _ _ _) as [ok d2] eqn:Hw. apply write_entry in Hw as [-> _].
  assert (H2 : writes job_ok d (put_job e (set_status "cancelled" job) d1)) by (apply writes_put; [by apply idle_job|done]).
  destruct ok; [|by apply writes_emit]. destruct (String.eqb _ ""); [by apply writes_emit|]. destruct (jobProjectSlug job); [|done]. by apply writes_emit, writes_emit.
Qed.

Lemma ok_event e data d : writes job_ok d (handle_lifecycle_event e data d).
Proof.
  unfold handle_lifecycle_event. destruct (unmarshal _ _ _) as [ev|]; [|apply writes_refl]. cbv zeta. destruct (String.eqb _ ""); [apply writes_refl|].
  destruct (readJobEntry _ _) as [job|]; [|apply writes_refl]. destruct (lifecycle_update e ev job) as [j|] eqn:Hl; [|apply writes_refl]. apply writes_one, idle_job.
  unfold lifecycle_update in Hl. repeat case_match; try done; by injection Hl as <-.
Qed.

(** The jobs in the bucket, pending ones aside. *)
Definition jobs_ok (d : Daemon) : Prop := ∀ k j, dm_jobs d !! k = Some (Some j) → job_ok j.

Lemma writes_ok d d' : writes job_ok d d' → jobs_ok d → jobs_ok d'.
Proof.
  intros Hw Hd. induction Hw as [|o d' _ IH|e j d' Hj _ IH]; [done|done|]. intros k x. rewrite put_jobs. destruct (de_kvErr _ _ _); [apply IH|].
  destruct (decide (k = job_key d' j)) as [->|Hne]; [rewrite lookup_insert_eq; by intros [= <-]|]. rewrite lookup_insert_ne by done. apply IH.
Qed.

(** C19. In every state that requests, lifecycle events, quota reports, failures and
    restarts can lead to, in any order, a job that is marked as running has a
    session, the branch of its specification and a start time; and the user's
    jobs lie under their keys. *)
Theorem running_jobs_have_sessions d d' :
  keyed d → jobs_ok d → rtc daemon_step d d' → keyed d' ∧ jobs_ok d'.
Proof.
  intros Hk Hj Hr. refine (rtc_invariant daemon_step (λ x, keyed x ∧ jobs_ok x) _ _ _ (conj Hk Hj) Hr). clear. intros x y [Hk Hj] Hs.
  assert (Hws : ∀ z, writes job_ok x z → keyed z ∧ jobs_ok z) by (intros z Hz; split; [by eapply writes_keyed|by eapply writes_ok]).
  destruct Hs as [e m path b ps d|e data d|d d' Hs|e d].
  - apply Hws, ok_http.
  - apply Hws, ok_event.
  - destruct Hs as [q d|e d p Hp|e d p Hp]; [done| |].
    + unfold take_quota in Hp. destruct (dm_quotas d) as [|q qs]; [done|]. injection Hp as <-. pose proof (ok_process e q None (set_quotas qs q d)) as Hw.
      split; [by eapply writes_keyed in Hw|by eapply writes_ok in Hw].
    + unfold take_update in Hp. destruct (dm_updates d) as [|u us]; [done|]. injection Hp as <-.
      pose proof (ok_process e (dm_lastQuota d) (Some u) (set_jobs (dm_jobs d) us d)) as Hw. split; [by eapply writes_keyed in Hw|by eapply writes_ok in Hw].
  - unfold start_dispatcher, startupRecovery. destruct (de_watchErr e); [done|].
    pose proof (ok_recover e (own_jobs d (λ _, true)) d) as Hw. apply Hws in Hw. by destruct (fold_left _ _ _).
Qed.

(** ** Jobs whose session does not start *)

Definition requests (d : Daemon) : nat := length (List.filter (λ o, match o with DRequested _ _ => true | _ => false end) (dm_out d)).

Lemma requests_put e j d : requests (put_job e j d) = requests d.
Proof. unfold put_job, writeJobEntry. by destruct (de_kvErr _ _ _). Qed.

Lemma requests_emit s p d : requests (emit (DRequested s p) d) = S (requests d).
Proof. unfold requests. cbn [dm_out emit]. rewrite List.filter_app, length_app. cbn. lia. Qed.

(** One attempt: the job is put back with one more retry, or fails. *)
Lemma attempt e job d p sid :
  works e → dm_updates d = [job] → jb_Status job = "queued"%string → jb_UserID job = dm_userID d → qs_HasData (dm_lastQuota d) = false →
  jobProjectSlug job = Done p → created_session e = Some sid → session_idle e (SessionsKVKey (dm_hostSlug d) p sid) = false →
  int64_range (jb_RetryCount job + 1) →
  ∃ d' j, updates_done 2 e d = Running d' ∧ dm_updates d' = [j] ∧ readJobEntry (jb_ID job) d' = Some j ∧ same_job job j ∧ frame d' = frame d ∧
    jb_RetryCount j = jb_RetryCount job + 1 ∧ requests d' = S (requests d) ∧
    jb_Status j = (if (3 <=? jb_RetryCount job + 1)%Z then "failed" else "queued")%string.
Proof.
  intros Hw Hup Hs Ho Hq Hp Hc Hi Hrange. cbn [updates_done]. unfold take_update at 1. rewrite Hup. unfold processDispatch at 1. rewrite Hq, Hs.
  set (d0 := set_jobs (dm_jobs d) [] d). set (st := set_status "starting" (with_branch (job_branch job) job)). cbn [andThen negb orb andb]. change (String.eqb "queued" "queued") with true. cbv iota.
  unfold dispatchQueuedJob. cbv zeta. fold st. rewrite write_works by done. change (jobProjectSlug st) with (jobProjectSlug job). rewrite Hp, Hc.
  set (d1 := emit _ (put_job e st d0)). unfold start_session.
  assert (Hf1 : frame d1 = frame d) by (transitivity (frame (put_job e st d0)); [done|by rewrite put_frame]). pose proof (frame_eq _ _ Hf1) as (Hu1 & Hs1 & Hh1 & _ & _).
  rewrite Hh1, Hi. cbn [negb andThen]. unfold retry_or_fail, i64_add. cbv zeta. rewrite wrap64_id by done. change (jb_RetryCount st) with (jb_RetryCount job).
  set (qj := if maxJobStartRetries <=? _ then _ else _). set (d2 := put_job e qj d1).
  assert (Hqj : same_job job qj ∧ jb_RetryCount qj = jb_RetryCount job + 1 ∧ jb_Status qj = (if (3 <=? jb_RetryCount job + 1)%Z then "failed" else "queued")%string).
  { unfold qj, maxJobStartRetries. by destruct (3 <=? _). }
  destruct Hqj as (Hsame & Hrc & Hst). assert (Hoq : jb_UserID qj = dm_userID d1). { rewrite Hu1. unfold same_job, identity in Hsame. injection Hsame as _ -> _ _. done. }
  assert (Hup1 : dm_updates d1 = [st]) by (unfold d1; cbn [dm_updates emit]; by rewrite put_own_updates).
  assert (Hup2 : dm_updates d2 = [st; qj]) by (unfold d2; by rewrite put_own_updates, Hup1).
  assert (Hf2 : frame d2 = frame d) by (unfold d2; by rewrite put_frame). pose proof (frame_eq _ _ Hf2) as (_ & Hs2 & _ & _ & Hl2).
  cbn [andb andThen]. unfold take_update. rewrite Hup2. unfold processDispatch. rewrite Hl2, Hq. cbn [andThen negb orb].
  change (String.eqb (jb_Status st) "queued") with false. cbn [andb updates_done andThen].
  exists (set_jobs (dm_jobs d2) [qj] d2), qj. split; [done|]. split; [done|]. split.
  - change (readJobEntry (jb_ID job) (set_jobs (dm_jobs d2) [qj] d2)) with (readJobEntry (jb_ID job) d2).
    assert (jb_ID job = jb_ID qj) as -> by (unfold same_job, identity in Hsame; by injection Hsame). by apply read_put.
  - split; [done|]. split; [done|]. split; [done|]. split; [|done]. change (requests (set_jobs (dm_jobs d2) [qj] d2)) with (requests d2).
    unfold d2, d1. by rewrite requests_put, requests_emit, requests_put.
Qed.

Lemma updates_done_app n m e d d' : updates_done n e d = Running d' → updates_done (n + m) e d = updates_done m e d'.
Proof.
  revert d. induction n as [|n IH]; intros d; cbn; [by intros [= ->]|]. destruct (take_update e d) as [[x|x]|] eqn:Ht; cbn; [apply IH|done|].
  intros [= ->]. destruct m; cbn; [done|]. by rewrite Ht.
Qed.

(** A job whose session is created but never becomes idle, in a world that stays the
    same ([works]: no call fails), without quota data and with no other update under
    way: after three attempts, each with one request for a session, it is marked as
    failed, and nothing is left to be done for it.  (A quota report between two
    attempts leaves it queued.) *)
Theorem failing_job_ends e job d p sid :
  works e → dm_updates d = [job] → jb_Status job = "queued"%string → jb_UserID job = dm_userID d → qs_HasData (dm_lastQuota d) = false →
  jobProjectSlug job = Done p → created_session e = Some sid → (∀ i, de_session e (SessionsKVKey (dm_hostSlug d) p sid) i ≠ Some (Some StateIdle)) →
  jb_RetryCount job = 0 →
  ∃ n d' j, updates_done n e d = Running d' ∧ dm_updates d' = [] ∧ readJobEntry (jb_ID job) d' = Some j ∧
    jb_Status j = "failed"%string ∧ jb_RetryCount j = 3 ∧ requests d' = (requests d + 3)%nat.
Proof.
  intros Hw Hup Hs Ho Hq Hp Hc Hi Hr.
  assert (Hidle : ∀ d0, frame d0 = frame d → session_idle e (SessionsKVKey (dm_hostSlug d0) p sid) = false).
  { intros d0 (_ & _ & -> & _)%frame_eq. unfold session_idle. destruct (de_session _ _ _) as [[st|]|] eqn:E; try done.
    destruct (String.eqb_spec st StateIdle) as [->|]; [|done]. by apply Hi in E. }
  assert (Hround : ∀ j0 d0, same_job job j0 → frame d0 = frame d → dm_updates d0 = [j0] → jb_Status j0 = "queued"%string → 0 ≤ jb_RetryCount j0 < 3 →
    ∃ d1 j1, updates_done 2 e d0 = Running d1 ∧ dm_updates d1 = [j1] ∧ readJobEntry (jb_ID job) d1 = Some j1 ∧ same_job job j1 ∧ frame d1 = frame d ∧
      jb_RetryCount j1 = jb_RetryCount j0 + 1 ∧ requests d1 = S (requests d0) ∧ jb_Status j1 = (if (3 <=? jb_RetryCount j0 + 1)%Z then "failed" else "queued")%string).
  { intros j0 d0 Hsame Hf Hup0 Hs0 Hr0. pose proof (frame_eq _ _ Hf) as (Hu & _ & Hh & _ & Hl).
    pose proof Hsame as Hsame'. unfold same_job, identity in Hsame'. injection Hsame' as Hid Huid _ _.
    destruct (attempt e j0 d0 p sid) as (d1 & j1 & H1 & H2 & H3 & H4 & H5 & H6 & H7 & H8); try done.
    - congruence.
    - by rewrite Hl.
    - by rewrite (slug_same job j0).
    - by apply Hidle.
    - unfold int64_range. lia.
    - exists d1, j1. rewrite <- Hid. repeat (split; [first [done|congruence]|]). done. }
  destruct (Hround job d) as (d1 & j1 & U1 & P1 & _ & S1 & F1 & R1 & Q1 & T1); [done..|lia|]. rewrite Hr in *. cbn in R1, T1.
  destruct (Hround j1 d1) as (d2 & j2 & U2 & P2 & _ & S2 & F2 & R2 & Q2 & T2); [done..|lia|]. rewrite R1 in *. cbn in R2, T2.
  destruct (Hround j2 d2) as (d3 & j3 & U3 & P3 & E3 & S3 & F3 & R3 & Q3 & T3); [done..|lia|]. rewrite R2 in *. cbn in R3, T3.
  exists 7%nat, (set_jobs (dm_jobs d3) [] d3), j3. split.
  - refine (eq_trans (updates_done_app 2 5 e d d1 U1) (eq_trans (updates_done_app 2 3 e d1 d2 U2) (eq_trans (updates_done_app 2 1 e d2 d3 U3) _))). cbn [updates_done].
    unfold take_update. rewrite P3. unfold processDispatch. apply frame_eq in F3 as (_ & _ & _ & _ & ->). rewrite Hq, T3. done.
  - split; [done|]. split; [done|]. split; [done|]. split; [done|]. change (requests (set_jobs (dm_jobs d3) [] d3)) with (requests d3). lia.
Qed.

(** ** Pausing *)

(** The jobs of a sorted list up to the first whose threshold is not reached. *)
Fixpoint stopped (q : QuotaStatus) (l : list JobEntry) : list JobEntry :=
  match l with
  | [] => []
  | j :: l => if exceeded q j then j :: stopped q l else []
  end.

Lemma pause_done e q job d p : works e → jobProjectSlug job = Done p →
  ∃ d', pause_job e q job d = Running d' ∧ dm_jobs d' = <[job_key d job := Some (set_status "paused" job)]> (dm_jobs d) ∧ frame d' = frame d.
Proof.
  intros Hw Hp. unfold pause_job. rewrite Hp. eexists. split; [done|]. rewrite put_works, put_frame by done. done.
Qed.

Lemma pauses_done e q l : works e → (∀ j, j ∈ l → ∃ p, jobProjectSlug j = Done p) → ∀ d,
  ∃ d', pause_while_exceeded e q l d = Running d' ∧ frame d' = frame d ∧
    ∀ k, dm_jobs d' !! k = fold_left (λ m j, <[job_key d j := Some (set_status "paused" j)]> m) (stopped q l) (dm_jobs d) !! k.
Proof.
  intros Hw. induction l as [|j l IH]; intros Hl d; cbn [pause_while_exceeded stopped]; [by exists d|]. unfold exceeded.
  destruct (Z.ltb_spec (qs_U5 q) (jb_Threshold j)); [destruct (Z.leb_spec (jb_Threshold j) (qs_U5 q)); [lia|]; by exists d|].
  destruct (Z.leb_spec (jb_Threshold j) (qs_U5 q)); [|lia]. destruct (Hl j) as [p Hp]; [left|].
  destruct (pause_done e q j d p Hw Hp) as (d1 & -> & Hj & Hf). cbn [andThen].
  destruct (IH (λ x Hx, Hl x (list_elem_of_further _ _ _ Hx)) d1) as (d' & -> & Hf' & Hjobs). exists d'. split; [done|]. split; [congruence|].
  intros k. rewrite Hjobs, Hj. cbn [fold_left]. apply frame_eq in Hf as (_ & Hs & _). unfold job_key. by rewrite Hs.
Qed.

Lemma pauses_other d k l (m : gmap string (option JobEntry)) :
  (∀ j, j ∈ l → job_key d j ≠ k) → fold_left (λ m j, <[job_key d j := Some (set_status "paused" j)]> m) l m !! k = m !! k.
Proof.
  revert m. induction l as [|j l IH]; intros m Hl; cbn [fold_left]; [done|]. rewrite IH; [|intros x Hx; apply Hl; by right].
  rewrite lookup_insert_ne; [done|]. apply Hl. left.
Qed.

(** The stopped jobs have no greater priority than one that goes on. *)
Lemma stopped_priority q (l : list JobEntry) j1 : StronglySorted (λ x y, jb_Priority x ≤ jb_Priority y) l → j1 ∈ l → qs_U5 q < jb_Threshold j1 →
  ∀ j, j ∈ stopped q l → j ∈ l ∧ jb_Priority j ≤ jb_Priority j1.
Proof.
  intros Hsort Hin Ht. induction Hsort as [|x l Hl IH Hx]; intros j Hj; cbn [stopped] in Hj; [by apply elem_of_nil in Hj|].
  destruct (exceeded q x) eqn:Ex; [|by apply elem_of_nil in Hj].
  apply elem_of_cons in Hin as [->|Hin]; [unfold exceeded in Ex; apply Z.leb_le in Ex; lia|].
  apply elem_of_cons in Hj as [->|Hj].
  - split; [left|]. rewrite Forall_forall in Hx. by apply Hx.
  - destruct (IH Hin j Hj). split; [by right|done].
Qed.

(** The jobs are gone through in the order of priority and the search ends at the
    first that may go on, but the thresholds are not ordered like the priorities:
    a job over its threshold keeps running whenever a running job of lower
    priority is below its own. *)
Theorem exceeded_job_keeps_running e q d k1 j1 k2 j2 :
  works e → keyed d → (∀ k j, dm_jobs d !! k = Some (Some j) → ∃ p, jobProjectSlug j = Done p) →
  dm_jobs d !! k1 = Some (Some j1) → jb_UserID j1 = dm_userID d → jb_Status j1 = "running"%string → qs_U5 q < jb_Threshold j1 →
  dm_jobs d !! k2 = Some (Some j2) → jb_UserID j2 = dm_userID d → jb_Status j2 = "running"%string → jb_Threshold j2 ≤ qs_U5 q →
  jb_Priority j1 < jb_Priority j2 →
  ∃ d', apply_quota e q d = Running d' ∧ dm_jobs d' !! k2 = Some (Some j2).
Proof.
  intros Hw Hk Hslug H1 Ho1 Hs1 Ht1 H2 Ho2 Hs2 Ht2 Hprio. unfold apply_quota. destruct Hw as [Hkv Hwatch]. rewrite Hwatch.
  set (running := own_jobs d (has_status "running")).
  assert (Hin1 : j1 ∈ running) by (apply own_jobs_elem; exists k1; rewrite Ho1; unfold has_status; by rewrite Hs1).
  assert (Hin2 : j2 ∈ running) by (apply own_jobs_elem; exists k2; rewrite Ho2; unfold has_status; by rewrite Hs2).
  assert (existsb (exceeded q) running = true) as ->.
  { apply existsb_exists. exists j2. split; [by apply list_elem_of_In|]. unfold exceeded. by apply Z.leb_le. }
  destruct (pauses_done e q (sort_slice jb_Priority running) (conj Hkv Hwatch)) with (d := d) as (d' & -> & _ & Hjobs).
  { intros j Hj. rewrite sort_slice_perm in Hj. apply own_jobs_elem in Hj as (k & Hkj & _). by eapply Hslug. }
  exists d'. split; [done|]. rewrite Hjobs.
  assert (Hpre : ∀ j, j ∈ stopped q (sort_slice jb_Priority running) → j ∈ running ∧ jb_Priority j ≤ jb_Priority j1).
  { intros j Hj. destruct (stopped_priority q _ j1 (sort_slice_sorted jb_Priority running)) with (j := j) as [Hin Hle]; try done; [by rewrite sort_slice_perm|].
    by rewrite sort_slice_perm in Hin. }
  rewrite pauses_other; [done|]. intros j [Hj Hjp]%Hpre Heq. apply own_jobs_elem in Hj as (k & Hkj & Hju & _).
  pose proof (Hk k j Hkj Hju) as Hkey. rewrite Heq in Hkey. subst k. rewrite H2 in Hkj. injection Hkj as <-. lia.
Qed.

(** ** The agent's side *)

Section agent.
Context `{NS : NatsServer}.

(** The daemon never sees a lifecycle event: it subscribes to subjects in which the
    event follows the project, while agents and the daemon itself publish below
    the session.  So no job is ever marked as completed, failed or denied. *)
Theorem lifecycle_events_unseen d u h p sid ev :
  u = dm_userSlug d → h = dm_hostSlug d → Validate u = None → Validate h = None → no_dot p →
  nats_matches (lifecycle_subscription d) (UserHostProjectSessionsLifecycle u h p sid ev) = false.
Proof.
  intros -> -> Hvu Hvh Hp. rewrite nats_tokens. destruct (valid_slug_ne_wild _ Hvu) as [Hu1 Hu2], (valid_slug_ne_wild _ Hvh) as [Hh1 Hh2].
  apply valid_slug_no_dot in Hvu as Hu, Hvh as Hh.
  assert (Hpat : tokens (lifecycle_subscription d) = ["mclaude"; "users"; dm_userSlug d; "hosts"; dm_hostSlug d; "projects"; "*"; "lifecycle"; "*"]%string).
  { change (lifecycle_subscription d) with (Join "." ["mclaude"; "users"; dm_userSlug d; "hosts"; dm_hostSlug d; "projects"; "*"; "lifecycle"; "*"]%string).
    apply tokens_join; [done|]. by repeat (apply Forall_cons; split). }
  assert (Hsub : ∃ rest, tokens (UserHostProjectSessionsLifecycle (dm_userSlug d) (dm_hostSlug d) p sid ev) =
    ["mclaude"; "users"; dm_userSlug d; "hosts"; dm_hostSlug d; "projects"; p; "sessions"]%string ++ rest).
  { unfold UserHostProjectSessionsLifecycle, tokens, no_dot in *. change ("mclaude.users." +:+ dm_userSlug d +:+ ".hosts." +:+ dm_hostSlug d +:+ ".projects." +:+ p +:+ ".sessions." +:+ sid +:+ ".lifecycle." +:+ ev)%string with
      ("mclaude" +:+ String dot ("users" +:+ String dot (dm_userSlug d +:+ String dot ("hosts" +:+ String dot (dm_hostSlug d +:+ String dot ("projects" +:+ String dot (p +:+ String dot ("sessions" +:+ String dot (sid +:+ ".lifecycle." +:+ ev)))))))))%string.
    rewrite !Split_app by done. eexists. reflexivity. }
  destruct Hsub as [rest Hsub]. rewrite Hpat, Hsub. apply not_true_iff_false. intros Hm%token_matchb_spec.
  cbn [app] in Hm. do 6 (apply token_match_lit in Hm as [_ Hm]; [|done..]). apply token_match_star in Hm.
  apply token_match_lit in Hm as [? _]; done.
Qed.

(** What the agent adds to its output answers with errors only. *)
Definition answers_errors (a a' : Agent) : Prop :=
  ∃ l, Agent.out a' = Agent.out a ++ l ∧ ∀ p, Replied p ∈ l → ∃ err, p = marshal_strings [("error", err)]%string.

Lemma answers_refl a : answers_errors a a.
Proof. exists []. rewrite app_nil_r. split; [done|]. intros p Hp. by apply elem_of_nil in Hp. Qed.

Lemma answers_put o a a' : (∀ p, o = Replied p → ∃ err, p = marshal_strings [("error", err)]%string) → answers_errors a a' → answers_errors a (put_out o a').
Proof.
  intros Ho (l & Hl & Hp). exists (l ++ [o]). cbn. rewrite Hl, app_assoc. split; [done|]. intros p [Hin|Hin]%elem_of_app; [by apply Hp|].
  apply list_elem_of_singleton in Hin. by apply Ho.
Qed.

Lemma answers_fail msg rid op err a a' : answers_errors a a' → answers_errors a (fail_request msg rid op err a').
Proof.
  intros H. unfold fail_request, publishAPIError, reply_err. apply answers_put; [done|]. destruct (m_reply msg); [|done].
  apply answers_put; [|done]. intros p [= <-]. by eexists.
Qed.

Lemma answers_kv e st a a' r : writeSessionKV e st a' = r → answers_errors a a' → answers_errors a r.2.
Proof. intros <- H. unfold writeSessionKV. destruct (e_kvErr e st); done. Qed.

(** The agent refuses a strict allowlist without tools, however far it gets. *)
Lemma strict_refused e msg req a a' : rq_PermPolicy req = PermissionPolicyStrictAllowlist → rq_AllowedTools req = [] →
  answers_errors a a' → sessions a' = sessions a →
  answers_errors a (create_session e msg req a') ∧ sessions (create_session e msg req a') = sessions a.
Proof.
  intros Hp Ht Ha Hs. unfold create_session, writeSessionKV. destruct (e_kvErr e _).
  - split; [by apply answers_fail|]. by rewrite sessions_fail.
  - rewrite Hp, Ht. cbn [length Nat.eqb andb]. change (String.eqb PermissionPolicyStrictAllowlist _) with true. cbv iota. rewrite sessions_fail. split; [|done].
    apply answers_fail, answers_put; [done|]. destruct Ha as (l & Hl & Hr). by exists l.
Qed.

(** What is printed is parsed again. *)
(** An answer of the agent with an error gives no session. *)
Lemma error_no_session ed err : parses (marshal_strings [("error", err)]%string) →
  de_create ed = Some (json_print (marshal_strings [("error", err)]%string)) → created_session ed = None.
Proof.
  intros Hlaw Hc. unfold created_session, unmarshal. rewrite Hc, Hlaw.
  change (marshal_strings [("error", err)]%string) with (JObj [("error", JStr err)]%string). cbn. by destruct (String.eqb err "").
Qed.

(** The request with which the daemon starts a job asks for a strict allowlist and
    names no tools, which the agent refuses in every state: it starts no session,
    its only answer is an error, and on this answer, or on none, the daemon
    leaves the job marked as starting. *)
Theorem scheduled_job_never_starts ea msg a ed job d p :
  parses (create_payload (job_branch job) job) → (∀ err, parses (marshal_strings [("error", err)]%string)) → m_data msg = json_print (create_payload (job_branch job) job) → m_data msg ≠ "" →
  works ed → jobProjectSlug job = Done p →
  let a' := handleCreate ea msg a in
  sessions a' = sessions a ∧
  ∃ outs, Agent.out a' = Agent.out a ++ outs ∧
    ∀ reply, de_create ed = None ∨ (Replied reply ∈ outs ∧ de_create ed = Some (json_print reply)) →
      ∃ d' j, dispatchQueuedJob ed job d = Running d' ∧ readJobEntry (jb_ID job) d' = Some j ∧ jb_Status j = "starting"%string ∧ jb_SessionID j = jb_SessionID job.
Proof.
  unfold parses at 1. intros Hlaw Hlaw' Hdata Hne Hw Hp. cbv zeta. unfold handleCreate. apply String.eqb_neq in Hne as ->. rewrite Hdata. unfold unmarshal_into. rewrite Hlaw.
  destruct (dec_struct createRequest_fields (create_payload (job_branch job) job) zero_createRequest) as [req ok] eqn:Hreq.
  assert (Hpol : rq_PermPolicy req = PermissionPolicyStrictAllowlist) by (change req with (req, ok).1; rewrite <- Hreq; reflexivity).
  assert (Htools : rq_AllowedTools req = []) by (change req with (req, ok).1; rewrite <- Hreq; reflexivity).
  assert (Hagent : ∀ a', answers_errors a a' → sessions a' = sessions a → sessions a' = sessions a ∧ ∃ outs, Agent.out a' = Agent.out a ++ outs ∧
    ∀ reply, de_create ed = None ∨ (Replied reply ∈ outs ∧ de_create ed = Some (json_print reply)) →
      ∃ d' j, dispatchQueuedJob ed job d = Running d' ∧ readJobEntry (jb_ID job) d' = Some j ∧ jb_Status j = "starting"%string ∧ jb_SessionID j = jb_SessionID job).
  { intros a' (outs & Ho & Herr) Hs. split; [done|]. exists outs. split; [done|]. intros reply Hr.
    assert (Hc : created_session ed = None).
    { destruct Hr as [Hr|[Hin Hr]]; [unfold created_session; by rewrite Hr|]. destruct (Herr _ Hin) as [err ->]. by eapply error_no_session; [apply Hlaw'|]. }
    unfold dispatchQueuedJob. cbv zeta. rewrite write_works by done.
    change (jobProjectSlug (set_status "starting" (with_branch (job_branch job) job))) with (jobProjectSlug job). rewrite Hp, Hc.
    eexists _, (set_status "starting" (with_branch (job_branch job) job)). split; [done|]. split; [|by split].
    apply (read_put ed (set_status "starting" (with_branch (job_branch job) job)) d Hw). }
  destruct ok; cbn [negb].
  2: { apply Hagent; [apply answers_fail, answers_refl|by rewrite sessions_fail]. }
  destruct (worktreeInUse a _); [destruct (negb (rq_JoinWorktree req)) eqn:Hj|]; cbn [andb].
  - apply Hagent; [apply answers_fail, answers_refl|by rewrite sessions_fail].
  - destruct (strict_refused ea msg req a a Hpol Htools (answers_refl a) eq_refl) as [H1 H2]. by apply Hagent.
  - assert (Hadd : answers_errors a (put_out (GitWorktreeAdd (worktree_path a (SlugifyBranch (effective_branch req (e_uuid ea)))) (effective_branch req (e_uuid ea))) a))
      by (apply answers_put; [done|apply answers_refl]).
    destruct (e_gitAdd ea).
    + apply Hagent; [by apply answers_fail|by rewrite sessions_fail].
    + destruct (strict_refused ea msg req a _ Hpol Htools Hadd eq_refl) as [H1 H2]. by apply Hagent.
Qed.

End agent.

(** ** The quota *)

(** The double nearest to a number of hundredths. *)
Definition f64_of_Z (z : Z) : float64 := binary_normalize 53 1024 z 0 false.
Definition hundredths (p : Z) : float64 := SFdiv 53 1024 (f64_of_Z p) (f64_of_Z 100).

Definition usage_answer (u5 u7 : number) (r5 r7 : string) : json :=
  JObj [("five_hour", JObj [("utilization", JNum u5); ("resets_at", JStr r5)]); ("seven_day", JObj [("utilization", JNum u7); ("resets_at", JStr r7)])].

Definition truncated (p : Z) : Z := if bool_decide (p ∈ [29; 57; 58]) then p - 1 else p.

Lemma hundredths_truncated p : 0 ≤ p ≤ 100 → f64_to_int (f64_mul (hundredths p) f64_hundred) = Some (truncated p).
Proof.
  intros Hp. assert (Hall : forallb (λ p, bool_decide (f64_to_int (f64_mul (hundredths p) f64_hundred) = Some (truncated p))) (seqZ 0 101) = true) by (vm_compute; reflexivity).
  rewrite forallb_forall in Hall. eapply bool_decide_eq_true_1, Hall, list_elem_of_In, elem_of_seqZ. lia.
Qed.

Lemma fetch_answer home read get weird now path token body u5 u7 r5 r7 :
  readOAuthToken home read path = Some token → get token = Some (200, body) → json_parse body = Some (usage_answer u5 u7 r5 r7) →
  fetchQuotaStatus home read get weird now path =
    let percent u := default (weird (f64_mul (num_float u) f64_hundred)) (f64_to_int (f64_mul (num_float u) f64_hundred)) in
    {| qs_HasData := true; qs_U5 := percent u5; qs_R5 := reset_time r5; qs_U7 := percent u7; qs_R7 := reset_time r7; qs_TS := now |}.
Proof. intros Ht Hg Hb. unfold fetchQuotaStatus. rewrite Ht, Hg. unfold unmarshal. by rewrite Hb. Qed.

(** The utilization is multiplied by a hundred as a double and cut off: the
    percentage that agents and dispatcher see is the one of the answer, but 29, 57
    and 58 percent are seen as one less, so that a job with exactly such a
    threshold goes on. *)
Theorem quota_percentage home read get weird now path token body p u5 u7 r5 r7 job :
  readOAuthToken home read path = Some token → get token = Some (200, body) → json_parse body = Some (usage_answer u5 u7 r5 r7) →
  0 ≤ p ≤ 100 → num_float u5 = hundredths p → jb_Threshold job = p →
  let q := fetchQuotaStatus home read get weird now path in
  qs_HasData q = true ∧ qs_U5 q = truncated p ∧ exceeded q job = bool_decide (p ∉ [29; 57; 58]).
Proof.
  intros Ht Hg Hb Hp Hu Hth. cbv zeta. rewrite (fetch_answer _ _ _ weird now _ _ _ _ _ _ _ Ht Hg Hb). cbv beta zeta. rewrite Hu, hundredths_truncated by done.
  split; [done|]. split; [done|]. unfold exceeded, truncated. cbn [qs_U5 default]. rewrite Hth. unfold not at 1.
  destruct (decide (p ∈ [29; 57; 58])) as [Hin|Hin]; [rewrite (bool_decide_eq_true_2 (p ∈ _)) by done|rewrite (bool_decide_eq_false_2 (p ∈ _)) by done].
  - rewrite bool_decide_eq_false_2 by tauto. apply Z.leb_gt. cbn. lia.
  - rewrite bool_decide_eq_true_2 by tauto. apply Z.leb_le. cbn. lia.
Qed.

(** Daemon and monitors agree on the quota: whatever the usage end point answers,
    the monitors decode from the report on the bus what the daemon fetched, and
    the dispatcher gets the same report unless eight others are waiting. *)
Theorem quota_reaches_monitors home read get weird now path time_json d :
  (∀ x, int64_range (weird x)) →
  let q := fetchQuotaStatus home read get weird now path in
  parses (quota_payload time_json q) → (∀ t, t ∈ [qs_R5 q; qs_R7 q; qs_TS q] → parse_rfc3339 (time_json t) = Some t) →
  let d' := publish_quota time_json q d in
  (∃ payload, dm_out d' = dm_out d ++ [DPublished (UserQuota (dm_userSlug d)) payload] ∧ decode_quota (json_print payload) = Some q) ∧
  (dm_quotas d' = dm_quotas d ++ [q] ∨ length (dm_quotas d) ≥ 8 ∧ dm_quotas d' = dm_quotas d)%nat.
Proof.
  intros Hweird q Hlaw Htime d'.
  assert (Hq : int64_range (qs_U5 q) ∧ int64_range (qs_U7 q)).
  { assert (Hp : ∀ x, int64_range (default (weird x) (f64_to_int x))).
    { intros x. destruct (f64_to_int x) as [v|] eqn:E; [|apply Hweird]. unfold f64_to_int in E. repeat case_match; try done; injection E as <-; first [done|by apply int64_rangeb_spec]. }
    unfold q, fetchQuotaStatus. repeat case_match; cbn [qs_U5 qs_U7 no_quota]; by split. }
  split.
  - exists (quota_payload time_json q). split; [unfold d', publish_quota; by destruct (_ <? _)%nat|].
    unfold decode_quota, unmarshal. rewrite Hlaw. destruct Hq as [H5 H7]. apply int64_rangeb_spec in H5, H7.
    pose proof (Htime (qs_R5 q) ltac:(set_solver)) as T5. pose proof (Htime (qs_R7 q) ltac:(set_solver)) as T7. pose proof (Htime (qs_TS q) ltac:(set_solver)) as Tt.
    clearbody q. clear d' Hlaw Htime. destruct q as [b u5 r5 u7 r7 ts]. cbn [qs_U5 qs_U7 qs_R5 qs_R7 qs_TS] in *. cbv -[int64_rangeb parse_rfc3339]. by rewrite H5, T5, H7, T7, Tt.
  - unfold d', publish_quota. cbn [dm_quotas emit]. destruct (Nat.ltb_spec (length (dm_quotas d)) 8); [by left|right; by split].
Qed.

(** ** The credentials file *)

(** A token that fits into a line of its own. *)
Record is_token (jwt : string) : Prop := {
  it_line : has_char (char_of 10) jwt = false;
  it_trim : TrimSpace jwt = jwt;
  it_some : jwt ≠ "";
  it_begin : is_begin jwt = false;
  it_end : is_end jwt = false;
}.

Lemma replace_lines jwt ls b : has_char (char_of 10) jwt = false → Forall (λ x, has_char (char_of 10) x = false) ls →
  Forall (λ x, has_char (char_of 10) x = false) (replace_jwt jwt ls b).
Proof.
  intros Hj Hf. revert b. induction Hf as [|x ls Hx _ IH]; intros b; cbn [replace_jwt]; [constructor|].
  destruct (is_begin x); [by repeat constructor|]. destruct (is_end x); [by constructor|]. destruct b; [done|]. by constructor.
Qed.

Lemma replace_find jwt ls old : is_token jwt → find_jwt ls false = Some old → find_jwt (replace_jwt jwt ls false) false = Some jwt.
Proof.
  intros [_ Ht Hs Hb He]. induction ls as [|x ls IH]; cbn [find_jwt replace_jwt]; [done|].
  destruct (is_begin x) eqn:Hx.
  - intros _. cbn [find_jwt]. rewrite Hx. cbn [find_jwt]. rewrite Hb, He, Ht. apply String.eqb_neq in Hs. by rewrite Hs.
  - destruct (is_end x) eqn:Hxe; [done|]. cbn [andb]. intros H. cbn [find_jwt]. rewrite Hx, Hxe. cbn [andb]. by apply IH.
Qed.

Lemma replace_twice j1 j2 ls b : is_begin j1 = false → is_end j1 = false → replace_jwt j2 (replace_jwt j1 ls b) b = replace_jwt j2 ls b.
Proof.
  intros Hb He. revert b. induction ls as [|x ls IH]; intros b; [done|]. cbn [replace_jwt]. destruct (is_begin x) eqn:Hx.
  - cbn [replace_jwt]. rewrite Hx, Hb, He. cbn [replace_jwt]. by rewrite IH.
  - destruct (is_end x) eqn:Hxe; [cbn [replace_jwt]; by rewrite Hx, Hxe, IH|]. destruct b; [apply IH|]. cbn [replace_jwt]. by rewrite Hx, Hxe, IH.
Qed.

Lemma replace_ne jwt ls old : find_jwt ls false = Some old → replace_jwt jwt ls false ≠ [].
Proof.
  destruct ls as [|x ls]; [done|]. cbn [find_jwt replace_jwt]. destruct (is_begin x); [done|]. by destruct (is_end x).
Qed.

(** Round trip of the credentials file: in a file from which a token can be read,
    the token that was written last is the one that is read, and what an earlier
    write left is gone. *)
Theorem credentials_roundtrip text old j1 j2 :
  readJWTFromCreds text = Some old → is_token j1 → is_token j2 →
  readJWTFromCreds (writeJWTToCreds text j1) = Some j1 ∧
  writeJWTToCreds (writeJWTToCreds text j1) j2 = writeJWTToCreds text j2.
Proof.
  intros Hr H1 H2. unfold readJWTFromCreds, writeJWTToCreds, lines_of in *. change nl with (String (char_of 10) "").
  assert (Hs : Split (char_of 10) (Join (String (char_of 10) "") (replace_jwt j1 (Split (char_of 10) text) false)) = replace_jwt j1 (Split (char_of 10) text) false).
  { apply Split_Join; [by eapply replace_ne|]. apply replace_lines; [apply H1|apply Split_free]. }
  rewrite Hs. split; [by eapply replace_find|]. by rewrite replace_twice by apply H1.
Qed.

End spec.

(** ** Examples *)

Module DaemonDemo.

Definition quota (u5 : Z) : QuotaStatus := {| qs_HasData := true; qs_U5 := u5; qs_R5 := 0; qs_U7 := 0; qs_R7 := 0; qs_TS := 0 |}.

Definition mk_job (id status : string) (priority threshold : Z) : JobEntry :=
  {| jb_ID := id; jb_UserID := "u1"; jb_ProjectID := "project-one"; jb_ProjectSlug := "web"; jb_SessionID := "s-" +:+ id; jb_SpecPath := "docs/plan-spa.md";
     jb_Priority := priority; jb_Threshold := threshold; jb_AutoContinue := false; jb_Status := status; jb_Branch := ""; jb_PRUrl := ""; jb_FailedTool := "";
     jb_Error := ""; jb_RetryCount := 0; jb_ResumeAt := None; jb_CreatedAt := 0; jb_StartedAt := None; jb_CompletedAt := None; jb_adr0034 := [] |}.

Definition daemon (jobs : list JobEntry) (updates : list JobEntry) (last : QuotaStatus) : Daemon :=
  {| dm_userID := "u1"; dm_userSlug := "alice"; dm_hostSlug := "laptop"; dm_jobs := list_to_map ((λ j, ("alice." +:+ jb_ID j, Some j)) <$> jobs);
     dm_updates := updates; dm_quotas := []; dm_lastQuota := last; dm_out := [] |}.

Definition world (now : Z) : daemon_env := {| de_now := now; de_uuid := "0123456789"; de_kvErr st id := false; de_watchErr := false;
  de_create := Some "created"; de_session key i := Some (Some "idle"); de_polls := 60 |}.

Definition documents : list (string * json) := [
  ("created", JObj [("id", JStr "sess-1")]);
  ("post", JObj [("specPath", JStr "docs/plan-spa.md"); ("projectId", JStr "Project One")]);
  ("post nothing", JObj [("specPath", JStr "docs/plan-spa.md")]);
  ("token", JObj [("claudeAiOauth", JObj [("accessToken", JStr "tok")])]);
  ("usage", usage_answer {| num_int := None; num_float := hundredths 57 |} {| num_int := None; num_float := hundredths 10 |} "T5" "T7")]%string.

(** Errors are printed with a mark, everything else as the one request. *)
Definition request_job : JobEntry := mk_job "j1" "queued" 5 75.
Definition two_documents : JsonText := {|
  json_print j := match j with JObj [(k, JStr s)] => if String.eqb k "error" then "E" +:+ s else "P" | _ => "P" end;
  json_parse s := match s with String c r => if Ascii.eqb c "E" then Some (JObj [("error", JStr r)]) else Some (create_payload (job_branch request_job) request_job)
                             | "" => None end;
|}%string.

Definition creds : string := "-----BEGIN NATS USER JWT-----
old
------END NATS USER JWT------
seed
".
End DaemonDemo.
Import DaemonDemo.

#[local] Instance demo_order : JobOrder.
Proof.
  refine {| watch_all A m := map_to_list m; sort_slice A key l := merge_sort (λ x y, Is_true (key x <=? key y)) l |}.
  - done.
  - intros A key l. apply merge_sort_Permutation.
  - intros A key l. assert (Hs : StronglySorted (λ x y, Is_true (key x <=? key y)) (merge_sort (λ x y, Is_true (key x <=? key y)) l)).
    { apply StronglySorted_merge_sort.
      - intros x y z. rewrite !Is_true_true, !Z.leb_le. lia.
      - intros x y. rewrite !Is_true_true, !Z.leb_le. lia. }
    induction Hs as [|x k _ IH Hx]; constructor; [done|]. rewrite Forall_forall in Hx |- *. intros y Hy. apply Z.leb_le, Is_true_true. by apply Hx.
Defined.

#[local] Instance demo_json : JsonText := table_json documents.
#[local] Instance demo_body : JsonStream := {| json_first s := snd <$> find_first (λ kv, String.eqb kv.1 s) documents |}.
#[local] Instance demo_time : GoTime := {| parse_rfc3339 s := None; format_rfc3339 z := pretty.pretty z |}.
#[local] Existing Instances ascii_tables ascii_norm doc_nats_server.

(** After a request without a project. *)
Definition later : Daemon := handleJobsRoute (world 1) "POST" "post nothing" (daemon [] [] no_quota).

Lemma world_works now : works (world now).
Proof. done. Qed.

Lemma daemon_keyed l u q : keyed (daemon l u q).
Proof.
  intros k j H _. cbn in H. apply elem_of_list_to_map_2, list_elem_of_fmap in H as (x & [= -> ->] & _). done.
Qed.

Lemma queued_job_starves_witness :
  ∃ d1, take_update (world 1) (daemon [mk_job "j1" "queued" 5 75] [mk_job "j1" "queued" 5 75] (quota 80)) = Some (Running d1) ∧
    (∀ d2, rtc dispatcher_step d1 d2 → dm_jobs d2 !! "alice.j1"%string = Some (Some (mk_job "j1" "queued" 5 75))).
Proof.
  eexists. split; [vm_compute; reflexivity|]. intros d2 Hr.
  eapply (queued_job_starves (world 1) (daemon [mk_job "j1" "queued" 5 75] [mk_job "j1" "queued" 5 75] (quota 80)) (mk_job "j1" "queued" 5 75) []);
    [apply daemon_keyed|done|vm_compute; reflexivity|done|done|intros u Hu; by apply elem_of_nil in Hu|done|done| |exact Hr].
  vm_compute. reflexivity.
Defined.

Lemma cancelled_job_runs_witness :
  let d2 := handleJobByID (world 2) "DELETE" "/jobs/0123456789" (handleJobsRoute (world 1) "POST" "post" (daemon [] [] no_quota)) in
  (∃ j, readJobEntry "0123456789" d2 = Some j ∧ jb_Status j = "cancelled"%string) ∧
  ∃ d3 j, take_update (world 3) d2 = Some (Running d3) ∧ readJobEntry "0123456789" d3 = Some j ∧ jb_Status j = "running"%string ∧ jb_SessionID j = "sess-1"%string.
Proof.
  eapply (cancelled_job_runs (world 1) (world 2) (world 3) "post" _ (daemon [] [] no_quota) "project-one" "sess-1");
    try apply world_works; try (vm_compute; reflexivity); try discriminate.
Defined.

Lemma missing_project_crash_loop_witness :
  ∃ d', doomed d' ∧ (start_dispatcher (world 2) later = Crashed d' ∨ ∃ d1 n, start_dispatcher (world 2) later = Running d1 ∧ updates_done n (world 2) d1 = Crashed d').
Proof.
  apply (missing_project_crash_loop (world 2) (world 2) later (world_works 2) (world_works 2)).
  eapply posted_doomed; [apply world_works|apply (daemon_keyed [] [])|vm_compute; reflexivity|vm_compute; reflexivity|vm_compute; lia].
Defined.

Lemma running_jobs_have_sessions_witness :
  let d0 := daemon [] [] no_quota in
  let d2 := handleJobsRoute (world 1) "POST" "post" d0 in
  rtc daemon_step d0 d2 ∧ keyed d2 ∧ jobs_ok d2.
Proof.
  assert (Hr : rtc daemon_step (daemon [] [] no_quota) (handleJobsRoute (world 1) "POST" "post" (daemon [] [] no_quota))).
  { apply rtc_once. apply (do_http (world 1) "POST" "/jobs" "post" ∅). }
  split; [exact Hr|]. apply (running_jobs_have_sessions (daemon [] [] no_quota)); [apply daemon_keyed|intros k j H; done|exact Hr].
Defined.

(** A session that is created and stays busy. *)
Definition busy : daemon_env := {| de_now := 1; de_uuid := "0123456789"; de_kvErr st id := false; de_watchErr := false;
  de_create := Some "created"%string; de_session key i := Some (Some "running"%string); de_polls := 60 |}.

Lemma failing_job_ends_witness :
  ∃ n d' j, updates_done n busy (daemon [mk_job "j1" "queued" 5 75] [mk_job "j1" "queued" 5 75] no_quota) = Running d' ∧ dm_updates d' = [] ∧
    readJobEntry "j1" d' = Some j ∧ jb_Status j = "failed"%string ∧ jb_RetryCount j = 3 ∧ requests d' = 3%nat.
Proof.
  apply (failing_job_ends busy (mk_job "j1" "queued" 5 75) (daemon [mk_job "j1" "queued" 5 75] [mk_job "j1" "queued" 5 75] no_quota) "web" "sess-1"); try done.
Defined.

Lemma exceeded_job_keeps_running_witness :
  ∃ d', apply_quota (world 1) (quota 60) (daemon [mk_job "low" "running" 1 90; mk_job "high" "running" 9 50] [] no_quota) = Running d' ∧
    dm_jobs d' !! "alice.high"%string = Some (Some (mk_job "high" "running" 9 50)).
Proof.
  apply (exceeded_job_keeps_running (world 1) (quota 60) _ "alice.low" (mk_job "low" "running" 1 90) "alice.high" (mk_job "high" "running" 9 50));
    try apply world_works; try apply daemon_keyed; try (vm_compute; reflexivity); try done.
  intros k j H. exists "web"%string. apply elem_of_list_to_map_2, elem_of_cons in H as [[= -> ->]|[[= -> ->]|H%elem_of_nil]%elem_of_cons]; done.
Defined.

Lemma lifecycle_events_unseen_witness :
  nats_matches (lifecycle_subscription (daemon [] [] no_quota)) (UserHostProjectSessionsLifecycle "alice" "laptop" "web" "s-1" "session_job_complete") = false.
Proof. by apply (lifecycle_events_unseen (daemon [] [] no_quota) "alice" "laptop"). Defined.

Lemma scheduled_job_never_starts_witness :
  let msg := {| m_subject := ""; m_data := "P"; m_reply := true |} in
  let a' := handleCreate (JT := two_documents) AgentDemo.world msg AgentDemo.agent in
  sessions a' = sessions AgentDemo.agent ∧
  ∃ outs, Agent.out a' = Agent.out AgentDemo.agent ++ outs ∧
    ∀ reply, de_create (world 1) = None ∨ (Replied reply ∈ outs ∧ de_create (world 1) = Some (json_print (JsonText := two_documents) reply)) →
      ∃ d' j, dispatchQueuedJob (JT := two_documents) (world 1) request_job (daemon [] [] no_quota) = Running d' ∧
        readJobEntry "j1" d' = Some j ∧ jb_Status j = "starting"%string ∧ jb_SessionID j = "s-j1"%string.
Proof.
  apply (scheduled_job_never_starts (JT := two_documents) AgentDemo.world {| m_subject := ""; m_data := "P"; m_reply := true |} AgentDemo.agent
    (world 1) request_job (daemon [] [] no_quota) "web"); try done.
Defined.

Lemma credentials_roundtrip_witness :
  readJWTFromCreds (writeJWTToCreds creds "new") = Some "new"%string ∧
  writeJWTToCreds (writeJWTToCreds creds "new") "newer" = writeJWTToCreds creds "newer".
Proof.
  apply (credentials_roundtrip creds "old" "new" "newer"); [vm_compute; reflexivity|split; (vm_compute; reflexivity || discriminate)..].
Defined.

Definition files (path : string) : option string := if String.eqb path "/h/.claude/.credentials.json" then Some "token"%string else None.
Definition usage (token : string) : option (Z * string) := Some (200, "usage"%string).

Lemma quota_percentage_witness :
  let q := fetchQuotaStatus (Some "/h"%string) files usage (λ _, 0) 1 "" in
  qs_HasData q = true ∧ qs_U5 q = truncated 57 ∧ exceeded q (mk_job "j1" "running" 5 57) = bool_decide (57 ∉ [29; 57; 58]).
Proof.
  eapply (quota_percentage (Some "/h"%string) files usage (λ _, 0) 1 "" "tok" "usage" 57); try (vm_compute; reflexivity). lia.
Defined.

(** The text of the one report and its times. *)
#[local] Instance report_json : JsonText := {|
  json_print j := "report";
  json_parse s := if String.eqb s "report" then Some (JObj [("hasData", JBool true); ("u5", JInt 56); ("r5", JStr "0"); ("u7", JInt 10); ("r7", JStr "0"); ("ts", JStr "1")])
                  else snd <$> find_first (λ kv, String.eqb kv.1 s) documents |}%string.
#[local] Instance report_time : GoTime := {| parse_rfc3339 s := if String.eqb s "0" then Some 0 else if String.eqb s "1" then Some 1 else None; format_rfc3339 z := pretty.pretty z |}.

Lemma quota_reaches_monitors_witness :
  let q := fetchQuotaStatus (Some "/h"%string) files usage (λ _, 0) 1 "" in
  let d' := publish_quota format_rfc3339 q (daemon [] [] no_quota) in
  (∃ payload, dm_out d' = [DPublished "mclaude.users.alice.quota" payload] ∧ decode_quota (json_print payload) = Some q) ∧ (dm_quotas d' = [q] ∨ (0 ≥ 8)%nat ∧ dm_quotas d' = []).
Proof.
  apply (quota_reaches_monitors (Some "/h"%string) files usage (λ _, 0) 1 "" format_rfc3339 (daemon [] [] no_quota)); [intros x; done|vm_compute; reflexivity|].
  intros x Hx. assert (x = 0 ∨ x = 1) as [-> | ->] by (vm_compute in Hx; set_solver). all: vm_compute; reflexivity.
Defined.
