(* ===== verification/HostAuth.v ===== *)
(** * Clients of the challenge-response protocol

    How hosts (mclaude-common/pkg/hostauth) and session agents
    (mclaude-session-agent/agent_auth.go) get their tokens from the control
    plane, the first refresh of the Kubernetes controller, and the format of
    credentials files (mclaude-common/pkg/nats/creds.go).  The HTTP connection is
    a state [T] with a function that posts a body to a URL. *)

From S2P Require Import Prelude GoStrings Base64 Json.
Open Scope Z_scope.

(** A key pair of the nkeys library: the public key, and signing with the seed. *)
Record KeyPair := { kp_Public : string; kp_Sign : string → string }.

(** Errors; of nested ones the innermost text. *)
Inductive auth_error :=
| ErrNotRegistered
| AuthError (msg : string).

Section clients.
Context `{JT : JsonText, JS : JsonStream}.

(** The answer to a request: status and body; [None]: no answer. *)
Context {T : Type} (post : string → string → T → option (Z * string) * T).

(** ** The two requests

    Both packages have them, and differ in how they take a 404. *)

Definition challenge_request (pubKey : string) : json := JObj [("nkey_public", JStr pubKey)].
Definition verify_request (pubKey challenge sig : string) : json :=
  JObj [("challenge", JStr challenge); ("nkey_public", JStr pubKey); ("signature", JStr (base64_encode sig))].

Definition challenge_result (data : string) : result auth_error string :=
  match decode_body (dec_struct [ fld "challenge" dec_string id (λ v _, v) ]) ""%string data with
  | None => Err (AuthError "decode challenge response")
  | Some challenge => if String.eqb challenge "" then Err (AuthError "challenge response missing 'challenge' field") else Ok challenge
  end.

Definition requestChallenge (known404 : bool) (url pubKey : string) (t : T) : result auth_error string * T :=
  match post (url +:+ "/api/auth/challenge") (json_print (challenge_request pubKey)) t with
  | (None, t) => (Err (AuthError "POST /api/auth/challenge"), t)
  | (Some (status, data), t) =>
    if known404 && (status =? 404) then (Err ErrNotRegistered, t)
    else if negb (status =? 200) then (Err (AuthError "challenge returned HTTP"), t)
    else (challenge_result data, t)
  end.

Record verify_reply := { vy_OK : bool; vy_JWT : string; vy_Error : string }.
Definition verify_reply_fields : list (field verify_reply) :=
  [ fld "ok" dec_bool vy_OK (λ v r, {| vy_OK := v; vy_JWT := vy_JWT r; vy_Error := vy_Error r |});
    fld "jwt" dec_string vy_JWT (λ v r, {| vy_OK := vy_OK r; vy_JWT := v; vy_Error := vy_Error r |});
    fld "error" dec_string vy_Error (λ v r, {| vy_OK := vy_OK r; vy_JWT := vy_JWT r; vy_Error := v |}) ].

Definition verify_result (data : string) : result auth_error string :=
  match decode_body (dec_struct verify_reply_fields) {| vy_OK := false; vy_JWT := ""; vy_Error := "" |} data with
  | None => Err (AuthError "decode verify response")
  | Some r =>
    if negb (vy_OK r) then Err (AuthError (vy_Error r))
    else if String.eqb (vy_JWT r) "" then Err (AuthError "verify response missing 'jwt' field")
    else Ok (vy_JWT r)
  end.

Definition verifyChallenge (url pubKey challenge sig : string) (t : T) : result auth_error string * T :=
  match post (url +:+ "/api/auth/verify") (json_print (verify_request pubKey challenge sig)) t with
  | (None, t) => (Err (AuthError "POST /api/auth/verify"), t)
  | (Some (status, data), t) => if negb (status =? 200) then (Err (AuthError "verify returned HTTP"), t) else (verify_result data, t)
  end.

(** ** Hosts *)

Record HostAuth := { ha_kp : KeyPair; ha_cpURL : string; ha_currentJWT : string }.

(** [read] the file; [parse_key] and [parse_jwt]: the parts of a decorated file,
    by the nkeys library. *)
Definition NewHostAuthFromCredsFile (read : string → option string) (parse_key : string → option KeyPair) (parse_jwt : string → option string)
    (credsPath cpURL : string) : option HostAuth :=
  match read credsPath with
  | None => None
  | Some data =>
    match parse_key data with
    | None => None
    | Some kp => match parse_jwt data with None => None | Some jwt => Some {| ha_kp := kp; ha_cpURL := cpURL; ha_currentJWT := jwt |} end
    end
  end.
Definition NewHostAuthFromSeed (read : string → option string) (parse_key : string → option KeyPair) (seedPath cpURL : string) : option HostAuth :=
  match read seedPath with
  | None => None
  | Some data => match parse_key data with None => None | Some kp => Some {| ha_kp := kp; ha_cpURL := cpURL; ha_currentJWT := "" |} end
  end.

(** The callback for the token of a connection. *)
Definition HostAuth_JWT (h : HostAuth) : string := ha_currentJWT h.

Definition Refresh (h : HostAuth) (t : T) : result auth_error string * (HostAuth * T) :=
  if String.eqb (ha_cpURL h) "" then (Err (AuthError "no CP URL configured"), (h, t))
  else
    let pubKey := kp_Public (ha_kp h) in
    match requestChallenge true (ha_cpURL h) pubKey t with
    | (Err e, t) => (Err e, (h, t))
    | (Ok challenge, t) =>
      match base64_decode challenge with
      | None => (Err (AuthError "decode challenge nonce"), (h, t))
      | Some nonceBytes =>
        match verifyChallenge (ha_cpURL h) pubKey challenge (kp_Sign (ha_kp h) nonceBytes) t with
        | (Err e, t) => (Err e, (h, t))
        | (Ok newJWT, t) => (Ok newJWT, ({| ha_kp := ha_kp h; ha_cpURL := ha_cpURL h; ha_currentJWT := newJWT |}, t))
        end
      end
    end.

(** One tick of the refresh loop: errors are logged. *)
Definition refresh_tick (h : HostAuth) (t : T) : HostAuth * T := (Refresh h t).2.

Definition Minute : Z := 60 * 1000000000.
Definition hostJWTTTL : Z := 5 * Minute.
Definition hostJWTRefreshBuffer : Z := 60 * 1000000000.
(** The interval of the loop; [None]: there is none. *)
Definition StartRefreshLoop (h : HostAuth) : option Z :=
  if String.eqb (ha_cpURL h) "" then None else Some (hostJWTTTL - hostJWTRefreshBuffer).

(** [bootRefresh] of the Kubernetes controller: attempts until the first token,
    and the waits between them. *)
Definition bootInterval : Z := 5 * 1000000000.
Definition bootMaxInterval : Z := 60 * 1000000000.
Fixpoint boot_loop (fuel : nat) (interval : Z) (h : HostAuth) (t : T) : option (string * list Z * (HostAuth * T)) :=
  match fuel with
  | O => None
  | S fuel =>
    match Refresh h t with
    | (Ok jwt, ht) => Some (jwt, [], ht)
    | (Err _, (h, t)) =>
      let next := if bootMaxInterval <? interval * 2 then bootMaxInterval else interval * 2 in
      match boot_loop fuel next h t with
      | None => None
      | Some (jwt, waits, ht) => Some (jwt, interval :: waits, ht)
      end
    end
  end.
Definition bootRefresh (fuel : nat) (h : HostAuth) (t : T) : option (string * list Z * (HostAuth * T)) := boot_loop fuel bootInterval h t.

(** ** Session agents *)

Record AgentAuth := { aa_kp : KeyPair; aa_currentJWT : string }.

(** [NewAgentAuth]: a fresh key pair, unless none can be made. *)
Definition NewAgentAuth (fresh : option KeyPair) : option AgentAuth := (λ kp, {| aa_kp := kp; aa_currentJWT := "" |}) <$> fresh.

Definition AgentAuth_JWT (a : AgentAuth) : option string := if String.eqb (aa_currentJWT a) "" then None else Some (aa_currentJWT a).

Definition Authenticate (authURL : string) (a : AgentAuth) (t : T) : result auth_error string * (AgentAuth * T) :=
  let pubKey := kp_Public (aa_kp a) in
  match requestChallenge false authURL pubKey t with
  | (Err e, t) => (Err e, (a, t))
  | (Ok challenge, t) =>
    match verifyChallenge authURL pubKey challenge (kp_Sign (aa_kp a) challenge) t with
    | (Err e, t) => (Err e, (a, t))
    | (Ok jwt, t) => (Ok jwt, ({| aa_kp := aa_kp a; aa_currentJWT := jwt |}, t))
    end
  end.

Definition agentJWTTTL : Z := 5 * Minute.
Definition agentJWTRefreshBuffer : Z := 60 * 1000000000.

(** The file with the public key that the host's controller reads. *)
Definition WritePublicKeyToFile (a : AgentAuth) : string := (kp_Public (aa_kp a) +:+ nl)%string.

(** The first token of an agent (main.go): ten attempts; the process ends if all
    of them fail ([Err]). *)
Fixpoint first_token (attempts : nat) (authURL : string) (a : AgentAuth) (t : T) : result auth_error string * (AgentAuth * T) :=
  match attempts with
  | O => (Err (AuthError "failed to authenticate with control-plane after retries"), (a, t))
  | S attempts =>
    match Authenticate authURL a t with
    | (Ok jwt, at_) => (Ok jwt, at_)
    | (Err _, (a, t)) => first_token attempts authURL a t
    end
  end.
Definition agent_start (authURL : string) (a : AgentAuth) (t : T) : result auth_error string * (AgentAuth * T) := first_token 10 authURL a t.

End clients.

(** ** Tokens and files *)

(** The controllers' test for a permissions violation in a connection error. *)
Definition isPermissionsViolation `{UnicodeTables} (msg : string) : bool :=
  let msg := string_of (strings_ToLower (bytes_of msg)) in
  Contains msg "permissions violation" || Contains msg "authorization violation".

(** [FormatNATSCredentials]. *)
Definition FormatNATSCredentials (jwt seed : string) : string :=
  ("-----BEGIN NATS USER JWT-----" +:+ nl +:+
   jwt +:+ nl +:+
   "------END NATS USER JWT------" +:+ nl +:+
   nl +:+
   "************************* IMPORTANT *************************" +:+ nl +:+
   "NKEY Seed printed below can be used to sign and prove identity." +:+ nl +:+
   "NKEYs are sensitive and should be treated as secrets." +:+ nl +:+
   nl +:+
   "-----BEGIN USER NKEY SEED-----" +:+ nl +:+
   seed +:+ nl +:+
   "------END USER NKEY SEED------" +:+ nl +:+
   nl +:+
   "*************************************************************" +:+ nl)%string.

(** The host slug in the name of a token (controller-k8s main.go);
    [raw_url_decode]: base64 without padding, in the alphabet for URLs. *)
Definition hostSlugFromJWT `{JsonText} (raw_url_decode : string → option string) (token : string) : option string :=
  match Split "."%char token with
  | [_; p; _] =>
    match raw_url_decode p with
    | None => None
    | Some payload =>
      match unmarshal (dec_struct [ fld "name" dec_string id (λ v _, v) ]) ""%string payload with
      | None => None
      | Some name => if HasPrefix name "host-" then Some (TrimPrefix name "host-") else None
      end
    end
  | _ => None
  end.
