(* ===== verification/HostAuthSpec.v ===== *)
(** * Hosts, agents and the control plane

    The two clients of the challenge-response protocol against the server: what a
    host gets, and what a session agent does not; the waits of the first refresh;
    credentials files. *)

From S2P Require Import Prelude GoStrings Base64 Slug Subjects Json Permissions ObjectStore Database ControlServer Challenge ControlDemo ChallengeSpec QuotaMonitor DaemonJobs DaemonJobsSpec HostAuth.
Open Scope Z_scope.

(** ** The server as a client sees it *)

Definition omitempty (k v : string) : list (string * json) := if String.eqb v "" then [] else [(k, JStr v)].

Section wire.
Context `{PG : Postgres, JS : JsonStream, NK : NKeys, JT : JsonText}.

(** [jwt_text]: the encoding of a token. *)
Variable jwt_text : jwt_claims → string.

Definition verify_doc (v : VerifyResponse) : json :=
  JObj (("ok"%string, JBool (vr_OK v)) :: omitempty "jwt" (default ""%string (jwt_text <$> vr_JWT v)) ++
        omitempty "error" (vr_Error v) ++ omitempty "code" (vr_Code v)).

Definition body_text (b : http_body) : string :=
  match b with
  | HText m => m +:+ nl
  | HChallenge c => json_print (JObj [("challenge"%string, JStr c)])
  | HVerify v => json_print (verify_doc v)
  | _ => ""%string
  end.

(** The answer that a request got. *)
Definition answer_of (s s' : Server) : option (Z * string) :=
  match last (replies s s') with Some (Responded status b) => Some (status, body_text b) | _ => None end.

Definition auth_routes (base : string) (e : cp_env) (url body : string) (s : Server) : Server :=
  if String.eqb url (base +:+ "/api/auth/challenge") then handleAuthChallenge e "POST" body s
  else if String.eqb url (base +:+ "/api/auth/verify") then handleAuthVerify e "POST" body s
  else http_error 404 "404 page not found" s.

(** A connection over which the requests still to come are answered in the given
    environments, each after something else has happened at the server. *)
Definition link : Type := list ((Server → Server) * cp_env) * Server.
Definition ask (base url body : string) (t : link) : option (Z * string) * link :=
  match t with
  | ([], s) => (None, ([], s))
  | ((f, e) :: l, s) => let s' := auth_routes base e url body (f s) in (answer_of (f s) s', (l, s'))
  end.

(** Any connection whose answers are the control plane's, in whatever state. *)
Definition served {T} (base : string) (post : string → string → T → option (Z * string) * T) : Prop :=
  ∀ url body t a, (post url body t).1 = Some a → ∃ e s, answer_of s (auth_routes base e url body s) = Some a.

Definition decodes (j : json) : Prop := json_first (json_print j) = Some j.

Lemma routes_challenge base e body s : auth_routes base e (base +:+ "/api/auth/challenge") body s = handleAuthChallenge e "POST" body s.
Proof. unfold auth_routes. by rewrite String.eqb_refl. Qed.
Lemma routes_verify base e body s : auth_routes base e (base +:+ "/api/auth/verify") body s = handleAuthVerify e "POST" body s.
Proof.
  unfold auth_routes. rewrite String.eqb_refl. destruct (String.eqb_spec (base +:+ "/api/auth/verify") (base +:+ "/api/auth/challenge")) as [H|]; [|done].
  by apply string_app_inj_l in H.
Qed.

Lemma answer_send s s0 status b : sent s0 = sent s → answer_of s (http_json status b s0) = Some (status, body_text b).
Proof. intros H. unfold answer_of. by rewrite (replies_send s (Responded status b)) by (cbn; by rewrite H). Qed.

(** ** Hosts *)

Lemma challenge_decodes c : decodes (JObj [("challenge"%string, JStr c)]) → c ≠ ""%string → challenge_result (json_print (JObj [("challenge"%string, JStr c)])) = Ok c.
Proof. intros Hd Hc%String.eqb_neq. unfold challenge_result, decode_body. rewrite Hd. cbn. by rewrite Hc. Qed.

Definition granted (jwt : jwt_claims) : VerifyResponse := {| vr_OK := true; vr_JWT := Some jwt; vr_Error := ""; vr_Code := "" |}.

Lemma granted_decodes jwt : decodes (verify_doc (granted jwt)) → jwt_text jwt ≠ ""%string → verify_result (json_print (verify_doc (granted jwt))) = Ok (jwt_text jwt).
Proof.
  intros Hd Hj%String.eqb_neq. unfold verify_result, decode_body. rewrite Hd. unfold verify_doc, omitempty. cbn [vr_OK vr_JWT vr_Error vr_Code granted fmap option_fmap option_map default].
  change (id (jwt_text jwt)) with (jwt_text jwt). rewrite Hj. cbn. by rewrite Hj.
Qed.

Lemma last_snoc_answer (s s0 s1 : Server) outs status b : sent s0 = sent s ++ outs → answer_of s (http_json status b s0) = Some (status, body_text b).
Proof. intros H. unfold answer_of, replies. cbn [sent http_json send]. by rewrite H, <- app_assoc, drop_app_length, last_snoc. Qed.

(** A host with a registered key gets a token from the control plane: for its key
    and with the permissions of the key's row.  Between its two requests the server
    may do anything that keeps the pending challenge and the registration, for up
    to thirty seconds. *)
Theorem host_refresh_completes h f1 e1 f2 e2 s nonce :
  let base := ha_cpURL h in let key := kp_Public (ha_kp h) in
  let s1 := f1 s in
  let s2 := handleAuthChallenge e1 "POST" (json_print (challenge_request key)) s1 in
  let s3 := f2 s2 in
  base ≠ ""%string → key ≠ ""%string →
  decodes (challenge_request key) → decodes (JObj [("challenge"%string, JStr (base64_encode nonce))]) →
  decodes (verify_request key (base64_encode nonce) (kp_Sign (ha_kp h) nonce)) → (∀ jwt, decodes (verify_doc (granted jwt)) ∧ jwt_text jwt ≠ ""%string) →
  cf_db (config s1) = true → isNKeyRegistered e1 key s1 = true → ce_nonce e1 = Some nonce → nonce ≠ ""%string →
  challenges s3 !! base64_encode nonce = challenges s2 !! base64_encode nonce →
  no_failures e2 → cf_db (config s3) = true → tables_ok (db s3) = true → registered (db s3) key → ce_now e2 ≤ ce_now e1 + challengeTTL →
  kp_Sign (ha_kp h) nonce ≠ ""%string → VerifyNKeySignature key nonce (kp_Sign (ha_kp h) nonce) = None →
  ∃ jwt t, Refresh (ask base) h ([(f1, e1); (f2, e2)], s) = (Ok (jwt_text jwt), ({| ha_kp := ha_kp h; ha_cpURL := base; ha_currentJWT := jwt_text jwt |}, t)) ∧
    jc_PublicKey jwt = key ∧ jc_IssuedAt jwt = Unix (ce_now e2) ∧ entitled (db s3) key (jc_Perms jwt).
Proof.
  intros base key s1 s2 s3 Hbase Hkey D1 D2 D3 D4 Hdb Hreg Hn Hne Hsame Hnf Hdb2 Hok Hreg2 Ht Hsig Hv.
  assert (Hs2 : s2 = http_json 200 (HChallenge (base64_encode nonce)) (set_challenges (store_challenge (ce_now e1) key nonce (challenges s1)) s1)).
  { unfold s2, handleAuthChallenge, decode_body. rewrite D1.
    change (decode (dec_struct ChallengeRequest_fields) {| cr_NKeyPublic := "" |} (challenge_request key)) with (Some {| cr_NKeyPublic := key |}).
    change (negb (String.eqb "POST" "POST")) with false. cbn [cr_NKeyPublic]. cbv zeta. apply String.eqb_neq in Hkey. by rewrite Hkey, Hdb, Hreg, Hn. }
  rewrite Hs2 in Hsame. cbn [challenges http_json send set_challenges] in Hsame. unfold store_challenge in Hsame. rewrite lookup_insert_eq in Hsame.
  set (sig := kp_Sign (ha_kp h) nonce) in *.
  set (req := {| vq_NKeyPublic := key; vq_Challenge := base64_encode nonce; vq_Signature := base64_encode sig |}).
  assert (Hvf : verifies e2 (json_print (verify_request key (base64_encode nonce) sig)) s3 req nonce sig
    {| ch_NKeyPublic := key; ch_Nonce := nonce; ch_ExpiresAt := ce_now e1 + challengeTTL; ch_Used := false |}).
  { split; cbn [vq_NKeyPublic vq_Challenge vq_Signature ch_NKeyPublic ch_ExpiresAt req]; try done; try apply base64_roundtrip.
    - unfold decode_body. by rewrite D3.
    - apply String.eqb_neq in Hkey. by rewrite Hkey, !base64_encode_nonempty. }
  destruct (issue_complete e2 key (marked req s3)) as (jwt & s' & Hi); [done..|].
  pose proof (issue_sound _ _ _ _ _ Hi) as (Hjk & Hat & Hent). destruct (issue_sent _ _ _ _ _ Hi) as (_ & _ & outs & Ho & _).
  assert (Hc : base64_encode nonce ≠ ""%string) by (by apply String.eqb_neq, base64_encode_nonempty).
  exists jwt, ([], http_json 200 (HVerify (granted jwt)) s'). split; [|by rewrite Hjk].
  unfold Refresh. apply String.eqb_neq in Hbase. fold base. rewrite Hbase. cbv zeta. fold key. unfold requestChallenge. cbn [ask]. rewrite routes_challenge. fold s1 s2.
  rewrite Hs2, answer_send by done. change (true && (200 =? 404)) with false. change (negb (200 =? 200)) with false. cbv iota. cbn [body_text].
  rewrite challenge_decodes, base64_roundtrip by done. cbv iota. fold sig. unfold verifyChallenge. cbn [ask]. rewrite routes_verify, <- Hs2. fold s3.
  rewrite (verify_accepts _ _ _ _ _ _ _ _ _ Hvf Hi), (last_snoc_answer s3 s' s3 outs) by done. change (negb (200 =? 200)) with false. cbv iota. cbn [body_text].
  destruct (D4 jwt) as [Dj Hj]. fold (granted jwt). by rewrite (granted_decodes jwt Dj Hj).
Qed.

(** ** Agents *)

Lemma strip_newlines_length s : (String.length (strip_newlines s) ≤ String.length s)%nat.
Proof. induction s as [|c s IH]; cbn; [lia|]. destruct (_ || _); cbn; lia. Qed.

Lemma base64_quanta_length s : ∀ t, base64_quanta s = Some t → (String.length t < String.length s)%nat ∨ s = ""%string ∧ t = ""%string.
Proof.
  induction s as [s IH] using (well_founded_induction (Wf_nat.well_founded_ltof _ String.length)).
  destruct s as [|a [|b [|c [|d rest]]]]; cbn [base64_quanta]; try done; intros t.
  { intros [= <-]. by right. }
  destruct (base64_value a), (base64_value b); try done. left. cbn [String.length].
  destruct (_ && _).
  { destruct rest; [|done]. by injection H as <-; cbn; lia. }
  destruct (base64_value c); [|done]. destruct (Ascii.eqb d pad).
  { destruct rest; [|done]. injection H as <-. cbn. lia. }
  destruct (base64_value d); [|done]. destruct (base64_quanta rest) as [u|] eqn:Hu; [|done]. injection H as <-. cbn [String.length].
  apply IH in Hu as [|[-> ->]]; [lia|cbn; lia|]. unfold Wf_nat.ltof. cbn. lia.
Qed.

(** No text is its own encoding. *)
Lemma base64_decode_self s : base64_decode s = Some s → s = ""%string.
Proof.
  unfold base64_decode. intros [H|[_ H]]%base64_quanta_length; [|done]. pose proof (strip_newlines_length s). lia.
Qed.

(** The server answers with status 200 to an accepted verification only. *)
Lemma verify_answer_200 e body s data : answer_of s (handleAuthVerify e "POST" body s) = Some (200, data) →
  ∃ jwt, accepted_with s (handleAuthVerify e "POST" body s) jwt.
Proof.
  intros H. unfold answer_of in H. destruct (last (replies s (handleAuthVerify e "POST" body s))) as [[p|sub p|sub p|st b|pre|key|us]|] eqn:Hl; try done. injection H as -> _.
  apply last_Some_elem_of in Hl as Hin. revert Hin. unfold accepted_with.
  assert (Hone : ∀ s' o r, sent s' = sent s → r ∈ replies s (send o s') → r = o).
  { intros s' o r Hs Hr. rewrite (replies_send s o) in Hr; [|cbn; by rewrite Hs]. by apply list_elem_of_singleton in Hr. }
  clear Hl. unfold handleAuthVerify, http_error, http_json. change (negb (String.eqb "POST" "POST")) with false. cbv iota.
  destruct (decode_body _ _ _) as [req|]; [|intros Hin; by apply Hone in Hin]. destruct (_ || _ || _); [intros Hin; by apply Hone in Hin|].
  destruct (base64_decode (vq_Challenge req)) as [nonce|]; [|intros Hin; by apply Hone in Hin].
  destruct (base64_decode (vq_Signature req)) as [sig|]; [|intros Hin; by apply Hone in Hin]. cbv zeta. fold (marked req s).
  destruct (challenges (marked req s) !! _) as [c|]; [|intros Hin; by apply Hone in Hin]. destruct (negb _); [intros Hin; by apply Hone in Hin|].
  destruct (_ <? _); [intros Hin; by apply Hone in Hin|]. destruct (VerifyNKeySignature _ _ _); [intros Hin; by apply Hone in Hin|].
  destruct (negb _); [intros Hin; by apply Hone in Hin|]. destruct (issueJWTForNKey e _ (marked req s)) as [[jwt|[msg code]] s'] eqn:Hi;
    pose proof (issue_sent _ _ _ _ _ Hi) as (_ & _ & outs & Ho & Hno); change (sent (marked req s)) with (sent s) in Ho;
    unfold replies; cbn [sent send]; rewrite Ho, <- app_assoc, drop_app_length; intros [Hin|Hin%list_elem_of_singleton]%elem_of_app;
    try (by apply Hno in Hin); [|done]. exists jwt. apply elem_of_app. right. by apply list_elem_of_singleton.
Qed.

Section agent.
Context {T : Type} (base : string) (post : string → string → T → option (Z * string) * T) (a : AgentAuth).
Hypothesis Hserved : served base post.

(** The requests decode, and a signature is valid for the text that was signed
    only. *)
Hypothesis Hdecodes : ∀ c, decodes (verify_request (kp_Public (aa_kp a)) c (kp_Sign (aa_kp a) c)).
Hypothesis Hunforgeable : ∀ m m', nkey_verify (kp_Public (aa_kp a)) m' (kp_Sign (aa_kp a) m) = true → m' = m.

Lemma authenticate_fails t : ∃ err t', Authenticate post base a t = (Err err, (a, t')).
Proof.
  unfold Authenticate. cbv zeta. destruct (requestChallenge _ _ _ _ t) as [[c|err] t1] eqn:Hc; [|eauto].
  assert (Hne : c ≠ ""%string).
  { revert Hc. unfold requestChallenge, challenge_result. repeat case_match; intros [= <- _]; try done. by apply String.eqb_neq. }
  unfold verifyChallenge. destruct (post _ _ t1) as [[[status data]|] t2] eqn:Hp; [|eauto].
  destruct (Z.eqb_spec status 200) as [->|]; cbn [negb]; [|eauto].
  destruct (Hserved (base +:+ "/api/auth/verify")%string (json_print (verify_request (kp_Public (aa_kp a)) c (kp_Sign (aa_kp a) c))) t1 (200, data)) as (e & s & Ha); [by rewrite Hp|]. rewrite routes_verify in Ha.
  apply verify_answer_200 in Ha as (jwt & Hacc). exfalso.
  apply verify_inv in Hacc as (_ & req & nonce & sig & ce & s' & [Hb _ Hn Hs _ _ _ Hv _] & _).
  unfold decode_body in Hb. rewrite Hdecodes in Hb. injection Hb as <-. cbn [vq_NKeyPublic vq_Challenge vq_Signature] in *.
  rewrite base64_roundtrip in Hs. injection Hs as <-. unfold VerifyNKeySignature in Hv. destruct (valid_public_key _); [|done].
  destruct (nkey_verify _ _ _) eqn:Hk; [|done]. apply Hunforgeable in Hk. subst nonce. by apply base64_decode_self in Hn.
Qed.

(** C37. A session agent never gets a token from the control plane: it signs the text
    of the challenge, which is encoded, and not the nonce.  Whatever state the
    server is in at each of its requests, all attempts fail, and the agent is left
    without a token. *)
Theorem agent_never_authenticates t : AgentAuth_JWT a = None →
  ∃ err t', agent_start post base a t = (Err err, (a, t')) ∧ AgentAuth_JWT a = None.
Proof.
  intros Ha. unfold agent_start. assert (Hloop : ∀ n t, ∃ err t', first_token post n base a t = (Err err, (a, t'))).
  { intros n. induction n as [|n IH]; intros t0; cbn [first_token]; [eauto|]. destruct (authenticate_fails t0) as (err & t1 & ->). apply IH. }
  destruct (Hloop 10%nat t) as (err & t' & H). eauto.
Qed.

End agent.
End wire.

(** ** Waits *)

Section boot.
Context `{JT : JsonText, JS : JsonStream} {T : Type} (post : string → string → T → option (Z * string) * T).

Definition boot_wait (i : nat) : Z := Z.min (bootInterval * 2 ^ Z.of_nat i) bootMaxInterval.

Lemma boot_wait_next i : (if bootMaxInterval <? boot_wait i * 2 then bootMaxInterval else boot_wait i * 2) = boot_wait (S i).
Proof.
  unfold boot_wait, bootInterval, bootMaxInterval. rewrite Nat2Z.inj_succ, Z.pow_succ_r by lia. set (p := 2 ^ Z.of_nat i).
  assert (0 < p) by (apply Z.pow_pos_nonneg; lia). destruct (Z.ltb_spec (60 * 1000000000) (Z.min (5 * 1000000000 * p) (60 * 1000000000) * 2)); lia.
Qed.

(** The first refresh waits five seconds after the first failure and twice as long
    after each further one, but never more than a minute; it ends as soon as an
    attempt succeeds, after any number of failures. *)
Theorem boot_refresh_waits h t n jwt t' (state : nat → T) :
  state 0%nat = t → (∀ i, (i < n)%nat → ∃ e, Refresh post h (state i) = (Err e, (h, state (S i)))) → Refresh post h (state n) = (Ok jwt, t') →
  bootRefresh post (S n) h t = Some (jwt, boot_wait <$> seq 0 n, t').
Proof.
  intros <- Hf Hs. unfold bootRefresh. change bootInterval with (boot_wait 0).
  assert (Hgo : ∀ k i, (i + k = n)%nat → boot_loop post (S k) (boot_wait i) h (state i) = Some (jwt, boot_wait <$> seq i k, t')).
  { intros k. induction k as [|k IH]; intros i Hi.
    - rewrite Nat.add_0_r in Hi. subst i. cbn [boot_loop]. by rewrite Hs.
    - destruct (Hf i) as [e He]; [lia|]. change (boot_loop post (S (S k)) (boot_wait i) h (state i)) with
        (match Refresh post h (state i) with (Ok jwt, ht) => Some (jwt, [], ht) | (Err _, (h, t)) =>
           match boot_loop post (S k) (if bootMaxInterval <? boot_wait i * 2 then bootMaxInterval else boot_wait i * 2) h t with
           None => None | Some (jwt, waits, ht) => Some (jwt, boot_wait i :: waits, ht) end end).
      rewrite He, boot_wait_next, (IH (S i)) by lia. done. }
  by apply Hgo.
Qed.

End boot.

(** ** Files *)

Definition creds_lines (jwt seed : string) : list string :=
  ["-----BEGIN NATS USER JWT-----"; jwt; "------END NATS USER JWT------"; ""; "************************* IMPORTANT *************************";
   "NKEY Seed printed below can be used to sign and prove identity."; "NKEYs are sensitive and should be treated as secrets."; "";
   "-----BEGIN USER NKEY SEED-----"; seed; "------END USER NKEY SEED------"; ""; "*************************************************************"; ""]%string.

Lemma format_lines jwt seed : FormatNATSCredentials jwt seed = Join nl (creds_lines jwt seed).
Proof. reflexivity. Qed.

Lemma lines_of_format jwt seed : has_char (char_of 10) jwt = false → has_char (char_of 10) seed = false → lines_of (FormatNATSCredentials jwt seed) = creds_lines jwt seed.
Proof. intros Hj Hs. rewrite format_lines. apply Split_Join; [done|]. repeat (constructor; [done|]). constructor. Qed.

Lemma replace_plain jwt x ls : is_begin x = false → is_end x = false → replace_jwt jwt (x :: ls) false = x :: replace_jwt jwt ls false.
Proof. intros Hb He. cbn [replace_jwt]. by rewrite Hb, He. Qed.
Lemma replace_begin jwt x ls b : is_begin x = true → replace_jwt jwt (x :: ls) b = x :: jwt :: replace_jwt jwt ls true.
Proof. intros Hb. cbn [replace_jwt]. by rewrite Hb. Qed.
Lemma replace_old jwt x ls : is_begin x = false → is_end x = false → replace_jwt jwt (x :: ls) true = replace_jwt jwt ls true.
Proof. intros Hb He. cbn [replace_jwt]. by rewrite Hb, He. Qed.
Lemma replace_end jwt x ls b : is_begin x = false → is_end x = true → replace_jwt jwt (x :: ls) b = x :: replace_jwt jwt ls false.
Proof. intros Hb He. cbn [replace_jwt]. by rewrite Hb, He. Qed.

(** The daemon and the tools agree on credentials files: from a file made for a
    token and a seed the daemon reads the token, and writing a new token gives the
    file made for the new token and the same seed. *)
Theorem formatted_credentials_updated jwt1 jwt2 seed :
  is_token jwt1 → is_token jwt2 → has_char (char_of 10) seed = false → is_begin seed = false → is_end seed = false →
  readJWTFromCreds (FormatNATSCredentials jwt1 seed) = Some jwt1 ∧
  writeJWTToCreds (FormatNATSCredentials jwt1 seed) jwt2 = FormatNATSCredentials jwt2 seed.
Proof.
  intros [Hl1 Ht1 Hn1 Hb1 He1] [Hl2 Ht2 Hn2 Hb2 He2] Hs Hsb Hse. unfold readJWTFromCreds, writeJWTToCreds. rewrite lines_of_format, format_lines by done. split.
  - unfold creds_lines. change (find_jwt (jwt1 :: tl (tl (creds_lines jwt1 seed))) true = Some jwt1). cbn [find_jwt].
    rewrite Hb1, He1, Ht1. apply String.eqb_neq in Hn1. by rewrite Hn1.
  - f_equal. unfold creds_lines. rewrite replace_begin, replace_old, replace_end by done. by rewrite !replace_plain by done.
Qed.

(** ** Examples *)

#[local] Existing Instances demo_pg demo_nkeys demo_tables demo_norm.

Module AuthDemo.
Definition key_of (k : string) : KeyPair := {| kp_Public := k; kp_Sign m := (k +:+ m)%string |}.
Definition host : HostAuth := {| ha_kp := key_of "HLAPTOP"; ha_cpURL := "https://cp"; ha_currentJWT := "" |}.
Definition agent : AgentAuth := {| aa_kp := key_of "AAPI"; aa_currentJWT := "" |}.
Definition token (j : jwt_claims) : string := "token".
Definition documents : list json := [
  challenge_request "HLAPTOP"; challenge_request "AAPI";
  JObj [("challenge", JStr (base64_encode "n0nce"))];
  verify_request "HLAPTOP" (base64_encode "n0nce") "HLAPTOPn0nce";
  verify_doc token (granted {| jc_PublicKey := ""; jc_Name := ""; jc_Expires := None; jc_IssuedAt := 0; jc_Perms := HostSubjectPermissions "" |}) ]%string.
Definition table : list (string * json) := (λ j, (print_plain j, j)) <$> documents.
Definition text : JsonText := table_json table.
Definition stream : JsonStream := {| json_first s := snd <$> find_first (λ kv, String.eqb kv.1 s) table |}.
(** Documents of which the agent's requests are printed as their challenge. *)
Definition agent_text : JsonText := {|
  json_print j := match j with JObj [(_, JStr c); _; _] => "V" +:+ c | _ => print_plain j end;
  json_parse s := None |}%string.
Definition agent_stream : JsonStream := {| json_first s := match s with
  | String c r => if Ascii.eqb c "V" then Some (verify_request "AAPI" r ("AAPI" +:+ r)) else snd <$> find_first (λ kv, String.eqb kv.1 s) table
  | "" => None end |}%string.
End AuthDemo.
Import AuthDemo.

Lemma host_refresh_completes_witness :
  ∃ jwt t, Refresh (JT := text) (JS := stream) (ask (JS := stream) (JT := text) token "https://cp") host ([(id, env_at 100); (id, env_at 110)], server) =
      (Ok "token"%string, ({| ha_kp := ha_kp host; ha_cpURL := "https://cp"; ha_currentJWT := "token" |}, t)) ∧
    jc_PublicKey jwt = "HLAPTOP"%string ∧ jc_IssuedAt jwt = 110 ∧
    entitled (db (handleAuthChallenge (JS := stream) (env_at 100) "POST" (print_plain (challenge_request "HLAPTOP")) server)) "HLAPTOP" (jc_Perms jwt).
Proof.
  apply (host_refresh_completes (JS := stream) (JT := text) token host id (env_at 100) id (env_at 110) server "n0nce"); try (vm_compute; reflexivity); try done.
  right. left. exists laptop. split; [apply (elem_of_by_index _ 0%nat); vm_compute; reflexivity|reflexivity].
Defined.

Lemma ask_served base : served (JS := agent_stream) (JT := agent_text) token base (ask (JS := agent_stream) (JT := agent_text) token base).
Proof. intros url body [[|[f e] l] s] a; cbn; [done|]. intros H. by exists e, (f s). Qed.

Lemma agent_never_authenticates_witness :
  ∃ err t', agent_start (JT := agent_text) (JS := agent_stream) (ask (JS := agent_stream) (JT := agent_text) token "https://cp") "https://cp" agent
      (replicate 20 (id, env_at 100), server) = (Err err, (agent, t')) ∧ AgentAuth_JWT agent = None.
Proof.
  apply (agent_never_authenticates (JS := agent_stream) (JT := agent_text) token "https://cp" (ask (JS := agent_stream) (JT := agent_text) token "https://cp") agent).
  - apply ask_served.
  - done.
  - intros m m' H%String.eqb_eq. symmetry. by apply (string_app_inj_l "AAPI").
  - reflexivity.
Defined.

(** The control plane answers the third attempt. *)
Definition flaky (url body : string) (t : nat) : option (Z * string) * nat :=
  if (t <? 2)%nat then (None, S t)
  else if HasSuffix url "/challenge" then (Some (200, print_plain (JObj [("challenge"%string, JStr (base64_encode "n0nce"))])), S t)
  else (Some (200, print_plain (JObj [("ok"%string, JBool true); ("jwt"%string, JStr "token")])), S t).

Lemma boot_refresh_waits_witness :
  bootRefresh (JT := text) (JS := stream) flaky 3 host 0%nat =
    Some ("token"%string, [5000000000; 10000000000], ({| ha_kp := ha_kp host; ha_cpURL := "https://cp"; ha_currentJWT := "token" |}, 4%nat)).
Proof.
  apply (boot_refresh_waits (JT := text) (JS := stream) flaky host 0%nat 2 "token" _ id); [reflexivity| |vm_compute; reflexivity].
  intros i Hi. assert (i = 0 ∨ i = 1)%nat as [-> | ->] by lia; eexists; vm_compute; reflexivity.
Defined.

Lemma formatted_credentials_updated_witness :
  readJWTFromCreds (FormatNATSCredentials "old" "SUASEED") = Some "old"%string ∧
  writeJWTToCreds (FormatNATSCredentials "old" "SUASEED") "new" = FormatNATSCredentials "new" "SUASEED".
Proof.
  apply (formatted_credentials_updated "old" "new" "SUASEED"); try (split; (vm_compute; reflexivity || discriminate)); vm_compute; reflexivity.
Defined.
