(* ===== verification/LocalController.v ===== *)
(** * The controller of a machine (mclaude-controller-local)

    Projects of users are provisioned on the machine on request of the control
    plane: a directory, a clone, a supervised session agent, whose key is
    registered.  The messages are handled one after the other.  At the end, the
    supervision of one agent process (supervisor.go) as a step relation. *)

From stdpp Require Import gmap sets.
From S2P Require Import Prelude GoStrings GoPath Slug Subjects Json.
Open Scope Z_scope.

(** ** Data *)

Record ProvisionRequest := { pv_UserID : string; pv_UserSlug : string; pv_HostSlug : string; pv_ProjectID : string; pv_ProjectSlug : string;
  pv_GitURL : string; pv_GitIdentityID : string }.
Definition zero_ProvisionRequest : ProvisionRequest :=
  {| pv_UserID := ""; pv_UserSlug := ""; pv_HostSlug := ""; pv_ProjectID := ""; pv_ProjectSlug := ""; pv_GitURL := ""; pv_GitIdentityID := "" |}.
Definition ProvisionRequest_fields : list (field ProvisionRequest) :=
  [ fld "userID" dec_string pv_UserID (λ v r, {| pv_UserID := v; pv_UserSlug := pv_UserSlug r; pv_HostSlug := pv_HostSlug r; pv_ProjectID := pv_ProjectID r; pv_ProjectSlug := pv_ProjectSlug r; pv_GitURL := pv_GitURL r; pv_GitIdentityID := pv_GitIdentityID r |});
    fld "userSlug" dec_string pv_UserSlug (λ v r, {| pv_UserID := pv_UserID r; pv_UserSlug := v; pv_HostSlug := pv_HostSlug r; pv_ProjectID := pv_ProjectID r; pv_ProjectSlug := pv_ProjectSlug r; pv_GitURL := pv_GitURL r; pv_GitIdentityID := pv_GitIdentityID r |});
    fld "hostSlug" dec_string pv_HostSlug (λ v r, {| pv_UserID := pv_UserID r; pv_UserSlug := pv_UserSlug r; pv_HostSlug := v; pv_ProjectID := pv_ProjectID r; pv_ProjectSlug := pv_ProjectSlug r; pv_GitURL := pv_GitURL r; pv_GitIdentityID := pv_GitIdentityID r |});
    fld "projectID" dec_string pv_ProjectID (λ v r, {| pv_UserID := pv_UserID r; pv_UserSlug := pv_UserSlug r; pv_HostSlug := pv_HostSlug r; pv_ProjectID := v; pv_ProjectSlug := pv_ProjectSlug r; pv_GitURL := pv_GitURL r; pv_GitIdentityID := pv_GitIdentityID r |});
    fld "projectSlug" dec_string pv_ProjectSlug (λ v r, {| pv_UserID := pv_UserID r; pv_UserSlug := pv_UserSlug r; pv_HostSlug := pv_HostSlug r; pv_ProjectID := pv_ProjectID r; pv_ProjectSlug := v; pv_GitURL := pv_GitURL r; pv_GitIdentityID := pv_GitIdentityID r |});
    fld "gitUrl" dec_string pv_GitURL (λ v r, {| pv_UserID := pv_UserID r; pv_UserSlug := pv_UserSlug r; pv_HostSlug := pv_HostSlug r; pv_ProjectID := pv_ProjectID r; pv_ProjectSlug := pv_ProjectSlug r; pv_GitURL := v; pv_GitIdentityID := pv_GitIdentityID r |});
    fld "gitIdentityId" dec_string pv_GitIdentityID (λ v r, {| pv_UserID := pv_UserID r; pv_UserSlug := pv_UserSlug r; pv_HostSlug := pv_HostSlug r; pv_ProjectID := pv_ProjectID r; pv_ProjectSlug := pv_ProjectSlug r; pv_GitURL := pv_GitURL r; pv_GitIdentityID := v |}) ].

Record ProvisionReply := { py_OK : bool; py_ProjectSlug : string; py_Error : string; py_Code : string }.
Definition ok_reply (pslug : string) : ProvisionReply := {| py_OK := true; py_ProjectSlug := pslug; py_Error := ""; py_Code := "" |}.
Definition error_reply (pslug err code : string) : ProvisionReply := {| py_OK := false; py_ProjectSlug := pslug; py_Error := err; py_Code := code |}.

(** [json.Marshal] of a reply. *)
Definition opt_member (k v : string) : list (string * json) := if String.eqb v "" then [] else [(k, JStr v)].
Definition reply_json (r : ProvisionReply) : json :=
  JObj (("ok"%string, JBool (py_OK r)) :: opt_member "projectSlug" (py_ProjectSlug r) ++ opt_member "error" (py_Error r) ++ opt_member "code" (py_Code r)).

(** What the supervisor of a child is started with. *)
Record supervisedChild := { sc_projectSlug : string; sc_userSlug : string; sc_dataDir : string; sc_hostSlug : string; sc_authURL : string; sc_nkeyPubFile : string }.

(** [childKey]: user slug and project slug. *)
Definition childKey : Type := string * string.

Inductive controller_out :=
| CReply (r : ProvisionReply)
| CStarted (c : supervisedChild)
| CStopped (c : supervisedChild)
| CCloned (url dir : string)
| CRequested (subject : string) (payload : json).

Record Controller := {
  lc_hostSlug : string; lc_dataDir : string; lc_cpURL : string;
  lc_children : gmap childKey supervisedChild;
  lc_files : files;
  lc_out : list controller_out;
}.
Definition set_files fs (c : Controller) : Controller :=
  {| lc_hostSlug := lc_hostSlug c; lc_dataDir := lc_dataDir c; lc_cpURL := lc_cpURL c; lc_children := lc_children c; lc_files := fs; lc_out := lc_out c |}.
Definition set_children m (c : Controller) : Controller :=
  {| lc_hostSlug := lc_hostSlug c; lc_dataDir := lc_dataDir c; lc_cpURL := lc_cpURL c; lc_children := m; lc_files := lc_files c; lc_out := lc_out c |}.
Definition out (o : controller_out) (c : Controller) : Controller :=
  {| lc_hostSlug := lc_hostSlug c; lc_dataDir := lc_dataDir c; lc_cpURL := lc_cpURL c; lc_children := lc_children c; lc_files := lc_files c; lc_out := lc_out c ++ [o] |}.

(** A NATS message; [lm_reply]: it has a reply subject. *)
Record local_msg := { lm_subject : string; lm_data : string; lm_reply : bool }.

(** The environment of one handler.  [le_mkdir], [le_remove]: error texts of the
    two calls; [le_stat]: finding out whether there is a repository fails; [le_clone]:
    the error of the clone; [le_nkey]: what the [i]-th reading of the key file gives,
    of [le_polls] that fit into the time-out; [le_register]: the answers of the
    control plane to the attempts, from 1. *)
Record local_env := {
  le_mkdir : option string; le_remove : option string; le_stat : bool; le_clone : option string;
  le_nkey : nat → option string; le_polls : nat;
  le_register : nat → option string;
}.

Section controller.
Context `{JT : JsonText}.

Definition subscriptionSubject (c : Controller) : string := ("mclaude.hosts." +:+ lc_hostSlug c +:+ ".>")%string.
Definition agentRegisterSubject (c : Controller) : string := ("mclaude.hosts." +:+ lc_hostSlug c +:+ ".api.agents.register")%string.

Definition reply (msg : local_msg) (r : ProvisionReply) (c : Controller) : Controller := if lm_reply msg then out (CReply r) c else c.

(** ** Registration of the agent's key *)

Fixpoint poll_nkey (polls : nat) (read : nat → option string) (i : nat) : option string :=
  match polls with
  | O => None
  | S polls =>
    match read i with
    | Some data => if String.eqb data "" then poll_nkey polls read (S i) else Some (TrimSpace data)
    | None => poll_nkey polls read (S i)
    end
  end.
Definition waitForNKeyFile (e : local_env) : option string := poll_nkey (le_polls e) (le_nkey e) 0.

Definition agentRegisterRetries : nat := 10.
Definition Millisecond : Z := 1000000.
Definition agentRegisterInitDelay : Z := 100 * Millisecond.
Definition agentRegisterMaxDelay : Z := 5000 * Millisecond.
Definition minDuration (a b : Z) : Z := if a <? b then a else b.

Definition register_payload (c : Controller) (uslug pslug nkeyPublic : string) : json :=
  JObj [("user_slug", JStr uslug); ("host_slug", JStr (lc_hostSlug c)); ("project_slug", JStr pslug); ("nkey_public", JStr nkeyPublic)].

Record agentRegisterReply := { rr_OK : bool; rr_Error : string; rr_Code : string }.
Definition agentRegisterReply_fields : list (field agentRegisterReply) :=
  [ fld "ok" dec_bool rr_OK (λ v r, {| rr_OK := v; rr_Error := rr_Error r; rr_Code := rr_Code r |});
    fld "error" dec_string rr_Error (λ v r, {| rr_OK := rr_OK r; rr_Error := v; rr_Code := rr_Code r |});
    fld "code" dec_string rr_Code (λ v r, {| rr_OK := rr_OK r; rr_Error := rr_Error r; rr_Code := v |}) ].

(** The outcome with the attempts made and the waits after them. *)
Fixpoint register_loop (more : nat) (answer : nat → option string) (attempt : nat) (delay : Z) : result string unit * (nat * list Z) :=
  match more with
  | O => (Err "agent register failed after 10 attempts (last code: NOT_FOUND)"%string, (O, []))
  | S more =>
    let again := let '(r, (n, waits)) := register_loop more answer (S attempt) (minDuration (delay * 2) agentRegisterMaxDelay) in (r, (S n, delay :: waits)) in
    match answer attempt with
    | None => again
    | Some data =>
      match unmarshal (dec_struct agentRegisterReply_fields) {| rr_OK := false; rr_Error := ""; rr_Code := "" |} data with
      | None => (Err "unmarshal agent register reply"%string, (1%nat, []))
      | Some rep =>
        if rr_OK rep then (Ok (), (1%nat, []))
        else if String.eqb (rr_Code rep) "NOT_FOUND" then again
        else (Err ("agent register rejected: " +:+ rr_Error rep +:+ " (code: " +:+ rr_Code rep +:+ ")")%string, (1%nat, []))
      end
    end
  end.
Definition registerAgentKey (e : local_env) : result string unit * (nat * list Z) :=
  register_loop agentRegisterRetries (le_register e) 1 agentRegisterInitDelay.

(** The requests of the attempts. *)
Definition register_key (e : local_env) (uslug pslug nkeyPublic : string) (c : Controller) : Controller :=
  Nat.iter (registerAgentKey e).2.1 (out (CRequested (agentRegisterSubject c) (register_payload c uslug pslug nkeyPublic))) c.

(** ** Creation *)

Definition projectDir (c : Controller) (uslug pslug : string) : string := path_Join [lc_dataDir c; uslug; pslug].
Definition worktreeDir (c : Controller) (uslug pslug : string) : string := path_Join [projectDir c uslug pslug; "worktree"]%string.
Definition nkeyPubFile (c : Controller) (uslug pslug : string) : string := path_Join [projectDir c uslug pslug; ".nkey-pub"]%string.

Definition startChild (c : Controller) (pslug uslug dataDir nkeyFile : string) : supervisedChild :=
  {| sc_projectSlug := pslug; sc_userSlug := uslug; sc_dataDir := dataDir; sc_hostSlug := lc_hostSlug c; sc_authURL := lc_cpURL c; sc_nkeyPubFile := nkeyFile |}.

Definition start_agent (e : local_env) (msg : local_msg) (uslug pslug : string) (c : Controller) : Controller :=
  let worktree := worktreeDir c uslug pslug in
  let keyFile := nkeyPubFile c uslug pslug in
  let c := set_files (lc_files c ∖ {[keyFile]}) c in
  let child := startChild c pslug uslug worktree keyFile in
  let c := set_children (<[(uslug, pslug) := child]> (lc_children c)) (out (CStarted child) c) in
  let c := match waitForNKeyFile e with
           | None => c
           | Some key => register_key e uslug pslug key c
           end in
  reply msg (ok_reply pslug) c.

Definition handleCreate (e : local_env) (msg : local_msg) (uslug pslug : string) (c : Controller) : Controller :=
  match (if String.eqb (lm_data msg) "" then Some zero_ProvisionRequest else unmarshal (dec_struct ProvisionRequest_fields) zero_ProvisionRequest (lm_data msg)) with
  | None => reply msg (error_reply "" "invalid request payload" "invalid_payload") c
  | Some req =>
    match Validate uslug with
    | Some _ => reply msg (error_reply "" "invalid user slug in subject" "invalid_payload") c
    | None =>
      match Validate pslug with
      | Some _ => reply msg (error_reply "" "invalid project slug in subject" "invalid_payload") c
      | None =>
        let worktree := worktreeDir c uslug pslug in
        match le_mkdir e with
        | Some err => reply msg (error_reply pslug ("mkdir: " +:+ err) "filesystem_error") c
        | None =>
          let c := set_files (mkdir_all worktree (lc_files c)) c in
          match lc_children c !! (uslug, pslug) with
          | Some _ => reply msg (ok_reply pslug) c
          | None =>
            let gitDir := path_Join [worktree; ".git"]%string in
            if negb (String.eqb (pv_GitURL req) "") && negb (le_stat e) && negb (bool_decide (gitDir ∈ lc_files c)) then
              match le_clone e with
              | Some err => reply msg (error_reply pslug ("git clone: " +:+ err) "git_clone_failed") c
              | None => start_agent e msg uslug pslug (set_files ({[gitDir]} ∪ lc_files c) (out (CCloned (pv_GitURL req) worktree) c))
              end
            else start_agent e msg uslug pslug c
          end
        end
      end
    end
  end.

(** ** Deletion *)

Definition handleDelete (e : local_env) (msg : local_msg) (uslug pslug : string) (c : Controller) : Controller :=
  let c := match lc_children c !! (uslug, pslug) with
           | Some child => out (CStopped child) (set_children (delete (uslug, pslug) (lc_children c)) c)
           | None => c
           end in
  match le_remove e with
  | Some err => reply msg (error_reply pslug ("rmdir: " +:+ err) "filesystem_error") c
  | None => reply msg (ok_reply pslug) (set_files (remove_all (projectDir c uslug pslug) (lc_files c)) c)
  end.

(** ** Dispatch *)

Definition handleMessage (e : local_env) (msg : local_msg) (c : Controller) : Controller :=
  match tokens (lm_subject msg) with
  | [t0; t1; _; t3; uslug; t5; pslug; action] =>
    if String.eqb t0 "mclaude" && String.eqb t1 "hosts" && String.eqb t3 "users" && String.eqb t5 "projects" then
      if String.eqb action "create" then handleCreate e msg uslug pslug c
      else if String.eqb action "delete" then handleDelete e msg uslug pslug c
      else reply msg (error_reply "" ("unknown action: " +:+ action) "unknown_action") c
    else c
  | _ => c
  end.

(** [shutdownChildren]. *)
Definition shutdownChildren (c : Controller) : Controller :=
  fold_left (λ c kv, out (CStopped kv.2) c) (map_to_list (lc_children c)) c.

(** ** The agent's command line *)

Definition build_args (s : supervisedChild) : list string :=
  (["--mode"; "standalone"; "--user-slug"; sc_userSlug s; "--host"; sc_hostSlug s; "--project-slug"; sc_projectSlug s; "--data-dir"; sc_dataDir s]%string
   ++ (if String.eqb (sc_nkeyPubFile s) "" then [] else ["--nkey-pub-file"; sc_nkeyPubFile s]%string)
   ++ (if String.eqb (sc_authURL s) "" then [] else ["--auth-url"; sc_authURL s]%string)).
Definition build_env (s : supervisedChild) : list (string * string) :=
  [("USER_SLUG"%string, sc_userSlug s); ("HOST_SLUG"%string, sc_hostSlug s); ("PROJECT_SLUG"%string, sc_projectSlug s)]
   ++ (if String.eqb (sc_nkeyPubFile s) "" then [] else [("NKEY_PUB_FILE"%string, sc_nkeyPubFile s)])
   ++ (if String.eqb (sc_authURL s) "" then [] else [("AUTH_URL"%string, sc_authURL s)]).

End controller.

(** ** The supervisor of one child

    [run] and [stop] are two threads of steps over the stop channel, the pointer
    to the command, and the process. *)

Module Supervisor.

(** Where [run] is: before its test of the channel, before it stores the command,
    before it starts it, waiting for the process, before it forgets the command, in
    the pause, at its end. *)
Inductive run_at := AtTop | Built | Stored | Waiting | Exited | Pausing | Finished.

(** Where [stop] is: not called, channel closed, waiting for the process it has
    interrupted, or killed, waiting for [run] only, at its end. *)
Inductive stop_at := NotCalled | Closed | Interrupted | Killed | WaitingOnly | Returned.

(** [s_cmd]: the command, and whether it has a process; [s_alive]: that process. *)
Record state := { s_run : run_at; s_stop : stop_at; s_closed : bool; s_cmd : option bool; s_alive : bool }.
Definition init : state := {| s_run := AtTop; s_stop := NotCalled; s_closed := false; s_cmd := None; s_alive := false |}.

Definition at_run r s : state := {| s_run := r; s_stop := s_stop s; s_closed := s_closed s; s_cmd := s_cmd s; s_alive := s_alive s |}.
Definition at_stop p s : state := {| s_run := s_run s; s_stop := p; s_closed := s_closed s; s_cmd := s_cmd s; s_alive := s_alive s |}.
Definition with_cmd c s : state := {| s_run := s_run s; s_stop := s_stop s; s_closed := s_closed s; s_cmd := c; s_alive := s_alive s |}.
Definition with_alive b s : state := {| s_run := s_run s; s_stop := s_stop s; s_closed := s_closed s; s_cmd := s_cmd s; s_alive := b |}.
Definition close_stopCh s : state := {| s_run := s_run s; s_stop := s_stop s; s_closed := true; s_cmd := s_cmd s; s_alive := s_alive s |}.

(** What [stop] finds in the command. *)
Definition stop_next (c : option bool) : stop_at := match c with Some true => Interrupted | _ => WaitingOnly end.

Inductive event := RunStep | StopStep | ProcessExits.

Inductive step : event → state → state → Prop :=
| run_sees_stop s : s_run s = AtTop → s_closed s = true → step RunStep s (at_run Finished s)
| run_goes_on s : s_run s = AtTop → s_closed s = false → step RunStep s (at_run Built s)
| run_stores s : s_run s = Built → step RunStep s (with_cmd (Some false) (at_run Stored s))
| run_starts s : s_run s = Stored → step RunStep s (with_alive true (with_cmd (Some true) (at_run Waiting s)))
| run_start_fails s : s_run s = Stored → step RunStep s (at_run Exited s)
| run_waited s : s_run s = Waiting → s_alive s = false → step RunStep s (at_run Exited s)
| run_clears s : s_run s = Exited → step RunStep s (with_cmd None (at_run Pausing s))
| run_pause_stops s : s_run s = Pausing → s_closed s = true → step RunStep s (at_run Finished s)
| run_pause_ends s : s_run s = Pausing → step RunStep s (at_run AtTop s)
| process_exits s : s_alive s = true → step ProcessExits s (with_alive false s)
| stop_closes s : s_stop s = NotCalled → step StopStep s (close_stopCh (at_stop Closed s))
| stop_reads s : s_stop s = Closed → step StopStep s (at_stop (stop_next (s_cmd s)) s)
| stop_kills s : s_stop s = Interrupted → step StopStep s (with_alive false (at_stop Killed s))
| stop_returns s : s_run s = Finished → (s_stop s = Interrupted ∨ s_stop s = Killed ∨ s_stop s = WaitingOnly) → step StopStep s (at_stop Returned s).

Definition any_step (s s' : state) : Prop := ∃ e, step e s s'.

End Supervisor.
