(* ===== verification/LocalControllerSpec.v ===== *)
(** * What the controller of a machine guarantees

    Creation and deletion of projects, their isolation from each other, the
    registration of agent keys against the control plane, and the supervisor. *)

From stdpp Require Import gmap sets.
From S2P Require Import Prelude GoStrings GoPath Slug Subjects Json Permissions ObjectStore Database ControlServer Challenge ControlDemo ChallengeSpec HostLifecycle HostLifecycleSpec LocalController.
Open Scope Z_scope.

(** ** Vocabulary *)

Definition fresh_outs (c c' : Controller) : list controller_out := drop (length (lc_out c)) (lc_out c').

(** The data directory is a clean absolute path. *)
Definition clean_data (c : Controller) (ds : list string) : Prop := ds ≠ [] ∧ Forall plain ds ∧ lc_dataDir c = root ds.

(** Children have the identity of their key. *)
Definition children_ok (c : Controller) : Prop :=
  ∀ u p child, lc_children c !! (u, p) = Some child →
    child = startChild c p u (worktreeDir c u p) (nkeyPubFile c u p) ∧ Validate u = None ∧ Validate p = None.

Definition settings (c : Controller) : string * string * string := (lc_hostSlug c, lc_dataDir c, lc_cpURL c).

Section spec.
Context `{JT : JsonText}.

Lemma projectDir_root c ds u p : clean_data c ds → Validate u = None → Validate p = None → projectDir c u p = root (ds ++ [u; p]).
Proof.
  intros (Hne & Hp & Hd) Hu%valid_plain Hv%valid_plain. unfold projectDir. rewrite Hd. apply Join_root; [done..|by rewrite !Forall_cons].
Qed.

Lemma plain_dirs c ds u p : clean_data c ds → Validate u = None → Validate p = None → Forall plain (ds ++ [u; p]).
Proof. intros (_ & Hp & _) Hu%valid_plain Hv%valid_plain. apply Forall_app. split; [done|by rewrite !Forall_cons]. Qed.

Lemma plain_worktree : plain "worktree".
Proof. by split. Qed.
Lemma plain_git : plain ".git".
Proof. by split. Qed.
Lemma plain_keyfile : plain ".nkey-pub".
Proof. by split. Qed.

Lemma inside_root c ds u p x : clean_data c ds → Validate u = None → Validate p = None → plain x →
  path_Join [projectDir c u p; x] = root (ds ++ [u; p; x]).
Proof.
  intros Hc Hu Hp Hx. rewrite (projectDir_root c ds) by done. rewrite Join_root; [by rewrite <- app_assoc|by destruct ds|by eapply plain_dirs|by rewrite !Forall_cons].
Qed.

(** Everything at or below a directory has its elements first. *)
Lemma below_elems a x : a ≠ [] → Forall plain a → below (root a) x = true → ∃ k, Split path_sep x = ""%string :: a ++ k.
Proof.
  intros Ha Hp. unfold below. rewrite orb_true_iff, String.eqb_eq. intros [->|[k ->]%prefix_spec].
  - exists []. by rewrite app_nil_r, Split_root.
  - exists (Split path_sep k). rewrite string_app_assoc. change ("/" +:+ k)%string with (String path_sep k). by rewrite Split_app_sep, Split_root.
Qed.

(** Nothing is below the directories of two projects. *)
Lemma dirs_disjoint c ds u p u' p' x :
  clean_data c ds → Validate u = None → Validate p = None → Validate u' = None → Validate p' = None → (u, p) ≠ (u', p') →
  below (projectDir c u p) x = true → below (projectDir c u' p') x = true → False.
Proof.
  intros Hc Hu Hp Hu' Hp' Hne H1 H2. rewrite (projectDir_root c ds) in H1, H2 by done.
  apply below_elems in H1 as [k1 H1]; [|by destruct ds|by eapply plain_dirs]. apply below_elems in H2 as [k2 H2]; [|by destruct ds|by eapply plain_dirs].
  rewrite H1 in H2. injection H2 as H2. rewrite <- !app_assoc in H2. apply app_inv_head in H2. injection H2 as -> -> _. done.
Qed.

(** ** Handlers keep the settings *)

Lemma reply_settings m r c : settings (reply m r c) = settings c.
Proof. unfold reply. by destruct (lm_reply m). Qed.
Lemma reply_children m r c : lc_children (reply m r c) = lc_children c.
Proof. unfold reply. by destruct (lm_reply m). Qed.
Lemma reply_files m r c : lc_files (reply m r c) = lc_files c.
Proof. unfold reply. by destruct (lm_reply m). Qed.

Lemma iter_out n o c : lc_children (Nat.iter n (out o) c) = lc_children c ∧ lc_files (Nat.iter n (out o) c) = lc_files c ∧
  settings (Nat.iter n (out o) c) = settings c ∧ lc_out (Nat.iter n (out o) c) = lc_out c ++ replicate n o.
Proof.
  induction n as [|n (H1 & H2 & H3 & H4)]; [cbn; by rewrite app_nil_r|]. cbn [Nat.iter nat_rect]. change (nat_rect _ c (λ _, out o) n) with (Nat.iter n (out o) c).
  cbn [lc_children lc_files lc_out out settings]. rewrite H1, H2, H4. split; [done|]. split; [done|]. split; [exact H3|].
  by rewrite replicate_S_end, app_assoc.
Qed.

(** The state after an agent was started. *)
Lemma start_agent_state e m u p c :
  let c' := start_agent e m u p c in
  settings c' = settings c ∧ lc_files c' = lc_files c ∖ {[nkeyPubFile c u p]} ∧
  lc_children c' = <[(u, p) := startChild c p u (worktreeDir c u p) (nkeyPubFile c u p)]> (lc_children c) ∧
  ∃ n k, lc_out c' = lc_out c ++ CStarted (startChild c p u (worktreeDir c u p) (nkeyPubFile c u p)) ::
    replicate n (CRequested (agentRegisterSubject c) (register_payload c u p k)) ++ (if lm_reply m then [CReply (ok_reply p)] else []).
Proof.
  unfold start_agent. cbv zeta. destruct (waitForNKeyFile e) as [key|].
  - unfold register_key. set (c1 := set_children _ _). destruct (iter_out (registerAgentKey e).2.1 (CRequested (agentRegisterSubject c1) (register_payload c1 u p key)) c1) as (H1 & H2 & H3 & H4).
    rewrite reply_settings, reply_children, reply_files, H1, H2, H3. split; [done|]. split; [done|]. split; [done|]. exists (registerAgentKey e).2.1, key.
    unfold reply. destruct (lm_reply m); cbn [lc_out out]; rewrite H4; unfold c1; cbn [lc_out out set_children set_files]; rewrite <- !app_assoc; [done|by rewrite app_nil_r].
  - rewrite reply_settings, reply_children, reply_files. split; [done|]. split; [done|]. split; [done|]. exists 0%nat, ""%string.
    unfold reply. destruct (lm_reply m); cbn [lc_out out set_children set_files replicate app]; by rewrite <- ?app_assoc.
Qed.

(** ** Creation *)

Definition is_reply (o : controller_out) : option ProvisionReply := match o with CReply r => Some r | _ => None end.
Definition is_start (o : controller_out) : option supervisedChild := match o with CStarted x => Some x | _ => None end.

(** The outcomes of a request for a project. *)
Inductive created (m : local_msg) (u p : string) (c c' : Controller) : Prop :=
| refused r : py_OK r = false → lc_children c' = lc_children c → lc_out c' = lc_out c ++ (if lm_reply m then [CReply r] else []) →
    (lc_files c' = lc_files c ∨ Validate u = None ∧ Validate p = None ∧ lc_files c' = mkdir_all (worktreeDir c u p) (lc_files c)) → created m u p c c'
| present child : Validate u = None → Validate p = None → lc_children c !! (u, p) = Some child → lc_children c' = lc_children c →
    lc_out c' = lc_out c ++ (if lm_reply m then [CReply (ok_reply p)] else []) → lc_files c' = mkdir_all (worktreeDir c u p) (lc_files c) → created m u p c c'
| started fs cl n k : Validate u = None → Validate p = None → lc_children c !! (u, p) = None →
    (fs = mkdir_all (worktreeDir c u p) (lc_files c) ∧ cl = [] ∨
     ∃ url, fs = {[path_Join [worktreeDir c u p; ".git"%string]]} ∪ mkdir_all (worktreeDir c u p) (lc_files c) ∧ cl = [CCloned url (worktreeDir c u p)]) →
    lc_children c' = <[(u, p) := startChild c p u (worktreeDir c u p) (nkeyPubFile c u p)]> (lc_children c) →
    lc_files c' = fs ∖ {[nkeyPubFile c u p]} →
    lc_out c' = lc_out c ++ cl ++ CStarted (startChild c p u (worktreeDir c u p) (nkeyPubFile c u p)) ::
      replicate n (CRequested (agentRegisterSubject c) (register_payload c u p k)) ++ (if lm_reply m then [CReply (ok_reply p)] else []) → created m u p c c'.

Lemma reply_out m r c : lc_out (reply m r c) = lc_out c ++ (if lm_reply m then [CReply r] else []).
Proof. unfold reply. destruct (lm_reply m); [done|]. by rewrite app_nil_r. Qed.

Ltac refuse := split; [eapply refused; [|by rewrite reply_children|by rewrite reply_out|];
  [done|first [left; by rewrite reply_files|right; by rewrite reply_files]]|by rewrite reply_settings].

Lemma handleCreate_created e m u p c : created m u p c (handleCreate e m u p c) ∧ settings (handleCreate e m u p c) = settings c.
Proof.
  unfold handleCreate. destruct (if String.eqb (lm_data m) "" then _ else _) as [req|]; [|refuse].
  destruct (Validate u) eqn:Hu; [refuse|].
  destruct (Validate p) eqn:Hp; [refuse|].
  cbv zeta. destruct (le_mkdir e); [refuse|].
  set (c1 := set_files (mkdir_all (worktreeDir c u p) (lc_files c)) c). change (lc_children c1) with (lc_children c).
  destruct (lc_children c !! (u, p)) as [child|] eqn:Hc; [split; [eapply present; [done|done|done|by rewrite reply_children|by rewrite reply_out|by rewrite reply_files]|by rewrite reply_settings]|].
  destruct (negb (String.eqb (pv_GitURL req) "") && _ && _).
  - destruct (le_clone e).
    + refuse.
    + set (c2 := set_files _ (out _ c1)). destruct (start_agent_state e m u p c2) as (Hs & Hf & Hch & n & k & Ho). split; [|by rewrite Hs].
      eapply (started _ _ _ _ _ (lc_files c2) [CCloned (pv_GitURL req) (worktreeDir c u p)] n k); try done; [right; by exists (pv_GitURL req)|].
      rewrite Ho. unfold c2. cbn [lc_out set_files out c1]. by rewrite <- app_assoc.
  - destruct (start_agent_state e m u p c1) as (Hs & Hf & Hch & n & k & Ho). split; [|by rewrite Hs].
    eapply (started _ _ _ _ _ (lc_files c1) [] n k); try done. by left.
Qed.

Lemma fresh_outs_app c c' l : lc_out c' = lc_out c ++ l → fresh_outs c c' = l.
Proof. intros H. unfold fresh_outs. by rewrite H, drop_app_length. Qed.

(** All or nothing: a request for a project is answered once.  When the answer is
    positive an agent is supervised for the project, in its directory and with
    its identity; when it is negative no agent was started and the supervised ones
    are the same.  Agents of other projects are left alone in any case. *)
Theorem provision_all_or_nothing e m u p c :
  children_ok c → lm_reply m = true →
  let c' := handleCreate e m u p c in
  ∃ r, omap is_reply (fresh_outs c c') = [r] ∧
    (if py_OK r then lc_children c' !! (u, p) = Some (startChild c p u (worktreeDir c u p) (nkeyPubFile c u p)) ∧ (∀ k, k ≠ (u, p) → lc_children c' !! k = lc_children c !! k)
     else lc_children c' = lc_children c ∧ omap is_start (fresh_outs c c') = []).
Proof.
  intros Hok Hm c'. destruct (handleCreate_created e m u p c) as [Hc _]. fold c' in Hc. destruct Hc as [r Hr Hch Ho _|child Hu Hp Hin Hch Ho _|fs cl n k Hu Hp Hin Hcl Hch _ Ho];
    rewrite Hm in Ho; rewrite (fresh_outs_app _ _ _ Ho).
  - exists r. by rewrite Hr.
  - exists (ok_reply p). split; [done|]. cbn [py_OK ok_reply]. rewrite Hch, Hin. by destruct (Hok _ _ _ Hin) as (-> & _).
  - exists (ok_reply p). split.
    + assert (omap is_reply cl = []) as Hn by (destruct Hcl as [[_ ->]|(url & _ & ->)]; done). rewrite omap_app, Hn. cbn [app].
      change (omap is_reply (CStarted ?x :: ?l)) with (omap is_reply l). rewrite omap_app.
      assert (∀ n o, is_reply o = None → omap is_reply (replicate n o) = []) as Hrep by (intros n0 o Ho'; induction n0 as [|n0 IH]; cbn; [done|by rewrite Ho', IH]).
      by rewrite Hrep.
    + cbn [py_OK ok_reply]. rewrite Hch, lookup_insert_eq. split; [done|]. intros k0 Hk. by rewrite lookup_insert_ne.
Qed.

(** ** Isolation *)

(** Nothing that is named after one project lies in the directory of another. *)
Lemma elems_disjoint (ds k l : list string) (u p u' p' : string) : (u, p) ≠ (u', p') → (ds ++ [u'; p']) `prefix_of` l → l `prefix_of` (ds ++ [u; p] ++ k) → False.
Proof.
  intros Hne H1 H2. assert (H : (ds ++ [u'; p']) `prefix_of` (ds ++ [u; p] ++ k)) by (by trans l). destruct H as [r H]. rewrite <- !app_assoc in H.
  apply app_inv_head in H. by injection H as <- <- _.
Qed.

Lemma outside c ds u p u' p' k x l :
  clean_data c ds → Validate u = None → Validate p = None → Validate u' = None → Validate p' = None → (u, p) ≠ (u', p') → Forall plain k →
  l `prefix_of` (ds ++ [u; p] ++ k) → l ≠ [] → x = root l → below (projectDir c u' p') x = true → False.
Proof.
  intros Hc Hu Hp Hu' Hp' Hne Hk Hl Hnil -> Hb. rewrite (projectDir_root c ds) in Hb by done.
  assert (Hpl : Forall plain l).
  { destruct Hl as [r Hr]. pose proof (plain_dirs c ds u p Hc Hu Hp) as Hd. assert (Ha : Forall plain (ds ++ [u; p] ++ k)) by (rewrite app_assoc; by apply Forall_app).
    rewrite Hr in Ha. by apply Forall_app in Ha as [? _]. }
  apply below_root in Hb; [|by destruct ds|done|by eapply plain_dirs|done]. by eapply elems_disjoint.
Qed.

(** Where the files of a project lie. *)
Lemma worktree_root c ds u p : clean_data c ds → Validate u = None → Validate p = None → worktreeDir c u p = root (ds ++ [u; p] ++ ["worktree"%string]).
Proof. intros Hc Hu Hp. by apply (inside_root c ds u p "worktree" Hc Hu Hp plain_worktree). Qed.
Lemma keyfile_root c ds u p : clean_data c ds → Validate u = None → Validate p = None → nkeyPubFile c u p = root (ds ++ [u; p] ++ [".nkey-pub"%string]).
Proof. intros Hc Hu Hp. by apply (inside_root c ds u p ".nkey-pub" Hc Hu Hp plain_keyfile). Qed.
Lemma gitdir_root c ds u p : clean_data c ds → Validate u = None → Validate p = None →
  path_Join [worktreeDir c u p; ".git"%string] = root (ds ++ [u; p] ++ ["worktree"%string; ".git"%string]).
Proof.
  intros Hc Hu Hp. rewrite (worktree_root c ds) by done. rewrite Join_root; [by rewrite <- !app_assoc|by destruct ds| |by rewrite !Forall_cons; split; [apply plain_git|]].
  rewrite app_assoc. apply Forall_app. split; [by eapply plain_dirs|]. rewrite !Forall_cons. by split; [apply plain_worktree|].
Qed.

Lemma mkdir_outside c ds u p u' p' x fs :
  clean_data c ds → Validate u = None → Validate p = None → Validate u' = None → Validate p' = None → (u, p) ≠ (u', p') →
  below (projectDir c u' p') x = true → x ∈ mkdir_all (worktreeDir c u p) fs ↔ x ∈ fs.
Proof.
  intros Hc Hu Hp Hu' Hp' Hne Hb. unfold mkdir_all. rewrite elem_of_union, elem_of_list_to_set, (worktree_root c ds) by done. split; [|by right].
  intros [H|H]; [|done]. exfalso. apply parents_root in H as (n & Hn & ->); [| |].
  - eapply (outside c ds u p u' p' ["worktree"%string] _ (take n (ds ++ [u; p] ++ ["worktree"%string]))); try done; [rewrite Forall_cons; by split; [apply plain_worktree|]|apply prefix_take|].
    intros H0. apply (f_equal length) in H0. rewrite length_take in H0. change (length (@nil string)) with 0%nat in H0. lia.
  - by destruct ds.
  - rewrite app_assoc. apply Forall_app. split; [by eapply plain_dirs|]. rewrite Forall_cons. by split; [apply plain_worktree|].
Qed.

Lemma not_the_file c ds u p u' p' k x :
  clean_data c ds → Validate u = None → Validate p = None → Validate u' = None → Validate p' = None → (u, p) ≠ (u', p') → Forall plain k →
  below (projectDir c u' p') x = true → x ≠ root (ds ++ [u; p] ++ k).
Proof. intros Hc Hu Hp Hu' Hp' Hne Hk Hb ->. eapply (outside c ds u p u' p' k _ (ds ++ [u; p] ++ k)); try done. by destruct ds. Qed.

(** A provisioning message for a project. *)
Definition message_for (m : local_msg) (h u p action : string) : Prop :=
  tokens (lm_subject m) = ["mclaude"; "hosts"; h; "users"; u; "projects"; p; action]%string.

Lemma handle_for m h u p action e c : message_for m h u p action →
  handleMessage e m c = if String.eqb action "create" then handleCreate e m u p c else if String.eqb action "delete" then handleDelete e m u p c
    else reply m (error_reply "" ("unknown action: " +:+ action) "unknown_action") c.
Proof. unfold handleMessage. by intros ->. Qed.

(** Projects are isolated: whatever a message for one project makes the controller
    do, the agent of every other project stays supervised as it is, and no file
    appears or disappears in its directory. *)
Theorem projects_isolated ds e m h u p action c u' p' :
  clean_data c ds → message_for m h u p action → Validate u = None → Validate p = None → Validate u' = None → Validate p' = None → (u, p) ≠ (u', p') →
  let c' := handleMessage e m c in
  lc_children c' !! (u', p') = lc_children c !! (u', p') ∧
  ∀ x, below (projectDir c u' p') x = true → x ∈ lc_files c' ↔ x ∈ lc_files c.
Proof.
  intros Hc Hm Hu Hp Hu' Hp' Hne c'. unfold c'. rewrite (handle_for _ _ _ _ _ _ _ Hm). clear c' Hm.
  destruct (String.eqb action "create"); [|destruct (String.eqb action "delete"); [|by rewrite reply_children, reply_files]].
  - destruct (handleCreate_created e m u p c) as [Hcr _]. destruct Hcr as [r _ Hch _ Hf|child _ _ _ Hch _ Hf|fs cl n k _ _ _ Hcl Hch Hf _]; rewrite Hch.
    + split; [done|]. intros x Hx. destruct Hf as [->|(_ & _ & ->)]; [done|by apply (mkdir_outside c ds u p u' p')].
    + split; [done|]. intros x Hx. rewrite Hf. by apply (mkdir_outside c ds u p u' p').
    + split; [by rewrite lookup_insert_ne|]. intros x Hx. rewrite Hf, elem_of_difference, elem_of_singleton, (keyfile_root c ds) by done.
      assert (Hk : x ≠ root (ds ++ [u; p] ++ [".nkey-pub"%string])) by (eapply (not_the_file c ds u p u' p'); try done; rewrite Forall_cons; by split; [apply plain_keyfile|]).
      assert (Hfs : x ∈ fs ↔ x ∈ lc_files c); [|by rewrite Hfs; tauto].
      destruct Hcl as [[-> _]|(url & -> & _)]; [by apply (mkdir_outside c ds u p u' p')|]. rewrite elem_of_union, elem_of_singleton, (gitdir_root c ds), (mkdir_outside c ds u p u' p' x) by done.
      assert (Hg : x ≠ root (ds ++ [u; p] ++ ["worktree"%string; ".git"%string])); [|tauto].
      eapply (not_the_file c ds u p u' p'); try done. rewrite !Forall_cons. split; [apply plain_worktree|]. by split; [apply plain_git|].
  - unfold handleDelete. cbv zeta. set (c1 := match lc_children c !! (u, p) with Some child => _ | None => c end).
    assert (H1 : lc_children c1 !! (u', p') = lc_children c !! (u', p') ∧ lc_files c1 = lc_files c ∧ projectDir c1 u p = projectDir c u p).
    { unfold c1. destruct (lc_children c !! (u, p)); [|done]. split; [|done]. cbn. by rewrite lookup_delete_ne. }
    destruct H1 as (Hch & Hf & Hd). destruct (le_remove e); rewrite reply_children, reply_files; [by rewrite Hf|]. split; [done|]. intros x Hx.
    cbn [lc_files set_files]. rewrite remove_all_elem, Hf, Hd. split; [tauto|]. intros Hin. split; [done|]. apply not_true_iff_false. intros Hb.
    by eapply (dirs_disjoint c ds u p u' p').
Qed.

(** ** Deletion *)

(** Deletion is complete and can be repeated: if the files can be removed, no agent
    and no file of the project is left, its agent was stopped if there was one, and
    the answer is positive also when there was nothing to delete. *)
Theorem delete_complete e m h u p c :
  message_for m h u p "delete" → le_remove e = None → lm_reply m = true →
  let c' := handleMessage e m c in
  lc_children c' = delete (u, p) (lc_children c) ∧
  (∀ x, x ∈ lc_files c' ↔ x ∈ lc_files c ∧ below (projectDir c u p) x = false) ∧
  fresh_outs c c' = (match lc_children c !! (u, p) with Some child => [CStopped child] | None => [] end) ++ [CReply (ok_reply p)].
Proof.
  intros Hm Hr Hl c'. unfold c'. rewrite (handle_for _ _ _ _ _ _ _ Hm).
  change (String.eqb "delete" "create") with false. change (String.eqb "delete" "delete") with true. unfold handleDelete. cbv iota zeta. rewrite Hr.
  destruct (lc_children c !! (u, p)) as [child|] eqn:Hc.
  - rewrite reply_children, reply_files. split; [done|]. split; [intros x; cbn; by rewrite remove_all_elem|].
    apply fresh_outs_app. rewrite reply_out, Hl. cbn. by rewrite <- app_assoc.
  - rewrite reply_children, reply_files. split; [by rewrite delete_id|]. split; [intros x; cbn; by rewrite remove_all_elem|].
    apply fresh_outs_app. by rewrite reply_out, Hl.
Qed.

(** ** Registration *)

Definition reg_wait (i : nat) : Z := Z.min (agentRegisterInitDelay * 2 ^ Z.of_nat i) agentRegisterMaxDelay.

Lemma reg_wait_next i : minDuration (reg_wait i * 2) agentRegisterMaxDelay = reg_wait (S i).
Proof.
  unfold reg_wait, minDuration, agentRegisterInitDelay, agentRegisterMaxDelay, Millisecond. rewrite Nat2Z.inj_succ, Z.pow_succ_r by lia. set (x := 2 ^ Z.of_nat i).
  assert (0 < x) by (apply Z.pow_pos_nonneg; lia). destruct (Z.ltb_spec (Z.min (100 * 1000000 * x) (5000 * 1000000) * 2) (5000 * 1000000)); lia.
Qed.

(** The answer to an attempt. *)
Definition answered (answer : nat → option string) (i : nat) (rep : agentRegisterReply) : Prop :=
  ∃ data, answer i = Some data ∧ unmarshal (dec_struct agentRegisterReply_fields) {| rr_OK := false; rr_Error := ""; rr_Code := "" |} data = Some rep.

Lemma register_loop_spec more answer a i :
  let '(r, (n, waits)) := register_loop more answer a (reg_wait i) in
  (n ≤ more)%nat ∧ waits = reg_wait <$> seq i (length waits) ∧ (length waits ≤ n)%nat ∧
  (r = Ok () → ∃ rep, (1 ≤ n)%nat ∧ answered answer (a + n - 1) rep ∧ rr_OK rep = true).
Proof.
  revert a i. induction more as [|more IH]; intros a i; cbn [register_loop]; [split; [lia|by repeat split]|]. cbv zeta. rewrite reg_wait_next.
  specialize (IH (S a) (S i)). destruct (register_loop more answer (S a) (reg_wait (S i))) as [r [n waits]]. destruct IH as (H1 & H2 & H3 & H4).
  assert (Hagain : (S n ≤ S more)%nat ∧ reg_wait i :: waits = reg_wait <$> seq i (length (reg_wait i :: waits)) ∧ (length (reg_wait i :: waits) ≤ S n)%nat ∧
    (r = Ok () → ∃ rep, (1 ≤ S n)%nat ∧ answered answer (a + S n - 1) rep ∧ rr_OK rep = true)).
  { split; [lia|]. split; [cbn; f_equal; exact H2|]. split; [cbn; lia|]. intros (rep & Hn & Ha & Hok)%H4. exists rep. split; [lia|].
    by replace (a + S n - 1)%nat with (S a + n - 1)%nat by lia. }
  destruct (answer a) as [data|] eqn:Ha; [|done]. destruct (unmarshal _ _ data) as [rep|] eqn:Hu; [|split; [lia|]; split; [done|]; split; [cbn; lia|done]].
  destruct (rr_OK rep) eqn:Hok.
  - split; [lia|]. split; [done|]. split; [cbn; lia|]. intros _. exists rep. split; [lia|]. split; [|done]. exists data. by replace (a + 1 - 1)%nat with a by lia.
  - destruct (String.eqb (rr_Code rep) "NOT_FOUND"); [done|]. split; [lia|]. split; [done|]. split; [cbn; lia|done].
Qed.

Definition total (l : list Z) : Z := foldr Z.add 0 l.

Lemma total_waits n : (n ≤ 10)%nat → total (reg_wait <$> seq 0 n) ≤ 26300 * Millisecond.
Proof.
  intros Hn. assert (Hall : forallb (λ n, total (reg_wait <$> seq 0 n) <=? 26300 * Millisecond) (seq 0 11) = true) by (vm_compute; reflexivity).
  rewrite forallb_forall in Hall. apply Z.leb_le, Hall, in_seq. lia.
Qed.

(** C39. The registration of a key takes at most ten requests.  The waits between them
    double from a tenth of a second up to five seconds and add up to at most 26.3
    seconds.  It succeeds only if the last request was accepted. *)
Theorem registration_bounded e :
  let '(r, (n, waits)) := registerAgentKey e in
  (n ≤ 10)%nat ∧ waits = reg_wait <$> seq 0 (length waits) ∧ total waits ≤ 26300 * Millisecond ∧
  (r = Ok () → ∃ rep, answered (le_register e) n rep ∧ rr_OK rep = true).
Proof.
  unfold registerAgentKey. change agentRegisterInitDelay with (reg_wait 0). pose proof (register_loop_spec agentRegisterRetries (le_register e) 1 0) as H.
  destruct (register_loop agentRegisterRetries (le_register e) 1 (reg_wait 0)) as [r [n waits]]. destruct H as (H1 & H2 & H3 & H4). unfold agentRegisterRetries in *.
  split; [done|]. split; [done|]. split; [rewrite H2; apply total_waits; lia|]. intros (rep & Hn & Ha & Hok)%H4. exists rep. split; [|done].
  by replace (1 + n - 1)%nat with n in Ha by lia.
Qed.

(** ** Registration at the control plane *)

Section registrar.
Context `{PG : Postgres}.

Definition register_msg (c : Controller) (u p key : string) : nats_msg :=
  {| nm_Subject := agentRegisterSubject c; nm_Data := json_print (register_payload c u p key); nm_Reply := true |}.

Lemma register_decodes c u p key : parses (register_payload c u p key) →
  unmarshal (dec_struct AgentRegisterRequest_fields) {| ar_UserSlug := ""; ar_ProjectSlug := ""; ar_NKeyPublic := "" |} (json_print (register_payload c u p key)) =
    Some {| ar_UserSlug := u; ar_ProjectSlug := p; ar_NKeyPublic := key |}.
Proof. intros H. unfold unmarshal. by rewrite H. Qed.

Lemma register_msg_request c u p key : parses (register_payload c u p key) → register_request (lc_hostSlug c) (register_msg c u p key) u p key.
Proof. intros H. split; [done|by apply register_decodes]. Qed.

(** The race the retries are meant for is lost: when the message about a new project
    arrives before the control plane has stored the project, the registration of the
    agent's key is refused with an answer that has no code, which the controller
    takes as final.  It asks once, and no credential is stored. *)
Theorem registration_race_lost e ecp s c u p key user :
  may_register ecp s (lc_hostSlug c) u p key user → parses (register_payload c u p key) → GetProjectByUserAndSlug (u_ID user) p (db s) = None →
  parses (JObj [("error", JStr "project not found"); ("ok", JBool false)])%string →
  let s' := handleAgentRegister ecp (register_msg c u p key) s in
  le_register e 1 = cp_answer s s' →
  (∃ err, registerAgentKey e = (Err err, (1%nat, []))) ∧ db s' = db s.
Proof.
  intros Hmay Hpar Hproj Hans s'. unfold s'. rewrite (register_reaches_project _ _ _ _ _ _ _ _ Hmay (register_msg_request _ _ _ _ Hpar)), Hproj. unfold replyNATSError. intros Hreg.
  rewrite (cp_answer_respond _ _ s s) in Hreg by done. split; [|by rewrite respond_db].
  unfold registerAgentKey, agentRegisterRetries. cbn [register_loop]. rewrite Hreg. unfold unmarshal. rewrite Hans. by eexists.
Qed.

(** The registration of the key of a project that the control plane has assigned to
    the host succeeds with the first request, and afterwards the control plane
    knows the key as the one of this user's project on this host. *)
Theorem registration_completes e ecp s c u p key user proj :
  may_register ecp s (lc_hostSlug c) u p key user → parses (register_payload c u p key) → GetProjectByUserAndSlug (u_ID user) p (db s) = Some (proj, lc_hostSlug c) →
  tables_ok (UpsertAgentCredential (ce_uuid ecp "credential") (u_ID user) (lc_hostSlug c) p key (db s)) = true →
  parses (JObj [("ok", JBool true)])%string →
  let s' := handleAgentRegister ecp (register_msg c u p key) s in
  le_register e 1 = cp_answer s s' →
  registerAgentKey e = (Ok (), (1%nat, [])) ∧
  ∃ cred, cred ∈ agent_credentials (db s') ∧ ac_UserID cred = u_ID user ∧ ac_HostSlug cred = lc_hostSlug c ∧ ac_ProjectSlug cred = p ∧ ac_NKeyPublic cred = key.
Proof.
  intros Hmay Hpar Hproj Hok Hans s'. unfold s'. rewrite (registration_stored _ _ _ _ _ _ _ _ _ Hmay (register_msg_request _ _ _ _ Hpar) Hproj Hok).
  unfold replyNATSOK. intros Hreg. rewrite (cp_answer_respond _ _ s) in Hreg by done. split.
  - unfold registerAgentKey, agentRegisterRetries. cbn [register_loop]. rewrite Hreg. unfold unmarshal. by rewrite Hans.
  - rewrite respond_db. eexists. split; [apply upsert_credential_spec; by left|]. done.
Qed.

End registrar.
End spec.

(** ** The supervisor *)

Module Supervision.
Import Supervisor.

Definition reachable (s : state) : Prop := rtc any_step init s.

(** What holds between the two threads and the process: the process is alive only
    while [run] waits for it, the stored command follows [run], a process that was
    interrupted is not followed by another one. *)
Definition inv (s : state) : bool :=
  match s_run s, s_cmd s with
  | (AtTop | Built | Pausing | Finished), None | Stored, Some false => negb (s_alive s)
  | Waiting, Some true => true
  | Exited, Some _ => negb (s_alive s)
  | _, _ => false
  end &&
  match s_stop s, s_run s with
  | NotCalled, Finished => false
  | NotCalled, _ => negb (s_closed s)
  | (Interrupted | Killed), (Built | Stored) => false
  | Killed, _ => s_closed s && negb (s_alive s)
  | Returned, Finished => s_closed s
  | Returned, _ => false
  | _, _ => s_closed s
  end.

Lemma inv_step s s' : any_step s s' → inv s = true → inv s' = true.
Proof.
  intros [e Hs]. destruct s as [r p cl c a]. inversion Hs; subst; cbn in *; subst.
  all: unfold inv; cbn; try (destruct H0 as [->|[->| ->]]); destruct c as [[]|]; cbn; try done.
  all: first [destruct r|idtac]; try done; first [destruct p|idtac]; try done; first [destruct cl|idtac]; try done; first [destruct a|idtac]; done.
Qed.

Lemma inv_reachable s : reachable s → inv s = true.
Proof. intros Hr. apply (rtc_ind_r (R:=any_step) (λ s, inv s = true) init); [done| |done]. intros y z _ Hyz Hy. by eapply inv_step. Qed.

(** When the stopping of a child has returned, its supervisor is at its end and there
    is no agent process; and none is started afterwards. *)
Theorem stopped_child_stays_stopped s s' : reachable s → s_stop s = Returned → rtc any_step s s' → s_run s' = Finished ∧ s_stop s' = Returned ∧ s_alive s' = false.
Proof.
  intros Hr Hp Hrun. pose proof (inv_reachable _ Hr) as Hi. clear Hr.
  assert (s_run s = Finished ∧ s_stop s = Returned ∧ s_alive s = false) as H.
  { destruct s as [r p cl c a]. cbn in Hp. subst p. destruct r, c as [[]|], cl, a; done. }
  clear Hp Hi. induction Hrun as [|x y z [e Hs] _ IH]; [done|]. apply IH. destruct H as (H1 & H2 & H3). inversion Hs; subst; cbn; try congruence; try done.
Qed.

(** The steps of the two threads; the process takes its steps when it wants. *)
Definition thread_step (s s' : state) : Prop := step RunStep s s' ∨ step StopStep s s'.

(** The threads reach [P] whatever the order of the steps and whatever the process does. *)
Inductive inevitable (P : state → Prop) (s : state) : Prop :=
| inevitable_now : P s → inevitable P s
| inevitable_later : (∃ s', thread_step s s') → (∀ s', any_step s s' → inevitable P s') → inevitable P s.

Definition run_rank (r : run_at) : nat := match r with Built => 7 | Stored => 6 | Waiting => 4 | Exited => 3 | Pausing => 2 | AtTop => 1 | Finished => 0 end.
Definition stop_rank (p : stop_at) : nat := match p with NotCalled => 4 | Closed => 3 | Interrupted => 2 | Killed | WaitingOnly => 1 | Returned => 0 end.
Definition rank (s : state) : nat := run_rank (s_run s) + stop_rank (s_stop s) + (if s_alive s then 1 else 0).

(** Once [stop] has been called every step brings both closer to their end. *)
Lemma rank_decreases s s' : inv s = true → s_closed s = true → any_step s s' → s_closed s' = true ∧ (rank s' < rank s)%nat.
Proof.
  intros Hi Hc [e Hs]. destruct s as [r p cl c a]. cbn in Hc. subst cl. inversion Hs; subst; cbn in *; subst; unfold rank; cbn; (split; [done|]).
  all: try discriminate; try (destruct H0 as [->|[->| ->]]); destruct c as [[]|]; first [destruct a|idtac]; try done; cbn; lia.
Qed.

(** [stop] has interrupted, or even killed, the process. *)
Definition signalled (s : state) : Prop := s_stop s = Interrupted ∨ s_stop s = Killed.

Lemma signalled_moves s : inv s = true → signalled s → ∃ s', thread_step s s'.
Proof.
  intros Hi Hp. destruct s as [r p cl c a]. destruct Hp as [Hp|Hp]; cbn in Hp; subst p; destruct r, c as [[]|], cl, a; try discriminate.
  all: first [eexists; left; by apply run_sees_stop | eexists; right; apply stop_kills; done | eexists; left; by apply run_waited
    | eexists; left; by apply run_clears | eexists; left; by apply run_pause_ends | eexists; right; apply stop_returns; auto].
Qed.

Lemma signalled_step s s' : signalled s → any_step s s' → signalled s' ∨ s_stop s' = Returned.
Proof. intros Hp [e Hs]. unfold signalled in *. inversion Hs; subst; cbn in *; destruct Hp; try congruence; auto. Qed.

(** C40. The stopping of a child that has reached the process ends: once the process has
    been interrupted, [stop] returns in every order of the steps, even if the process
    ignores the signal, because it is killed after the grace period. *)
Theorem signalled_stop_returns s : reachable s → signalled s → inevitable (λ s, s_stop s = Returned) s.
Proof.
  intros Hr Hp. apply inv_reachable in Hr.
  assert (s_closed s = true) as Hc.
  { destruct s as [r p cl c a]. destruct Hp as [Hp|Hp]; cbn in Hp; subst p; destruct r, c as [[]|], cl, a; done. } remember (rank s) as n eqn:Hn. revert s Hr Hp Hc Hn.
  induction n as [n IH] using lt_wf_ind. intros s Hi Hp Hc ->. apply inevitable_later; [by apply signalled_moves|].
  intros s' Hs. destruct (rank_decreases _ _ Hi Hc Hs) as [Hc' Hlt].
  destruct (signalled_step _ _ Hp Hs) as [Hp'|Hret]; [|by apply inevitable_now].
  eapply IH; [exact Hlt| |done|done|done]. by eapply inv_step.
Qed.

(** The trace in which [stop] comes between the storing of the command and its start. *)
Definition early_stop : state := {| s_run := Waiting; s_stop := WaitingOnly; s_closed := true; s_cmd := Some true; s_alive := true |}.

Lemma early_stop_reachable : reachable early_stop.
Proof.
  unfold reachable, early_stop. change init with {| s_run := AtTop; s_stop := NotCalled; s_closed := false; s_cmd := None; s_alive := false |}.
  eapply rtc_l; [exists RunStep; by apply run_goes_on|]. eapply rtc_l; [exists RunStep; by apply run_stores|].
  eapply rtc_l; [exists StopStep; by apply stop_closes|]. eapply rtc_l; [exists StopStep; by apply stop_reads|].
  eapply rtc_l; [exists RunStep; by apply run_starts|]. done.
Qed.

(** The stopping of a child may never return: if it reads the command before the
    process has been started, it sends no signal and waits for the supervisor, which
    starts the process all the same.  Then neither of the two can make a step, and
    only the agent's own end would free them; no kill follows. *)
Theorem early_stop_hangs :
  ∃ s, reachable s ∧ s_stop s = WaitingOnly ∧ s_alive s = true ∧ (∀ s', ¬ thread_step s s') ∧ ¬ inevitable (λ s, s_stop s = Returned) s.
Proof.
  assert (Hno : ∀ s', ¬ thread_step early_stop s') by (intros s' [H|H]; inversion H; subst; cbn in *; naive_solver).
  exists early_stop. split; [apply early_stop_reachable|]. split_and!; [done|done|done|].
  intros H. inversion H as [?|[s' Hs] _]; [done|]. by eapply Hno.
Qed.

End Supervision.

(** ** Examples *)

#[local] Existing Instances demo_pg.

Module ControllerDemo.
Definition answers : list json := [
  JObj [("error", JStr "project not found"); ("ok", JBool false)]; JObj [("ok", JBool true)];
  JObj [("user_slug", JStr "alice"); ("host_slug", JStr "laptop"); ("project_slug", JStr "web"); ("nkey_public", JStr "AWEB")];
  JObj [("user_slug", JStr "alice"); ("host_slug", JStr "laptop"); ("project_slug", JStr "shop"); ("nkey_public", JStr "ASHOP")];
  JObj [("projectSlug", JStr "web"); ("gitUrl", JStr "https://git/web.git")] ]%string.
Definition text : JsonText := table_json ((λ j, (print_plain j, j)) <$> answers).
Definition bare : Controller := {| lc_hostSlug := "laptop"; lc_dataDir := "/data"; lc_cpURL := "https://cp"; lc_children := ∅;
  lc_files := {["/"; "/data"; "/data/bob"; "/data/bob/site"; "/data/bob/site/worktree"; "/data/bob/site/worktree/main.go"]}; lc_out := [] |}.
Definition api_child : supervisedChild := startChild bare "site" "bob" (worktreeDir bare "bob" "site") (nkeyPubFile bare "bob" "site").
Definition controller : Controller := set_children {[ ("bob", "site")%string := api_child ]} bare.
Definition env : local_env := {| le_mkdir := None; le_remove := None; le_stat := false; le_clone := None;
  le_nkey i := if (i <? 2)%nat then None else Some "AWEB"%string; le_polls := 150;
  le_register i := if (i <? 3)%nat then None else Some (print_plain (JObj [("ok"%string, JBool true)])) |}.
Definition on (action u p data : string) : local_msg :=
  {| lm_subject := Join "." ["mclaude"; "hosts"; "laptop"; "users"; u; "projects"; p; action]%string; lm_data := data; lm_reply := true |}.
Definition create_web : local_msg := on "create" "alice" "web" (print_plain (JObj [("projectSlug", JStr "web"); ("gitUrl", JStr "https://git/web.git")]%string)).
End ControllerDemo.
Import ControllerDemo.

(** A clone, an agent, and the registration of its key at the third attempt. *)
Example create_web_runs :
  let c' := handleMessage (JT := text) env create_web controller in
  length (lc_out c') = 6%nat ∧ is_Some (lc_children c' !! ("alice", "web")%string) ∧ ("/data/alice/web/worktree/.git"%string ∈ lc_files c').
Proof. split; [vm_compute; reflexivity|]. split; [vm_compute; by eexists|]. apply (bool_decide_unpack _). vm_compute. exact I. Qed.

Lemma demo_children_ok : children_ok controller.
Proof. intros u p child H. change (({[ ("bob", "site")%string := api_child ]} : gmap childKey supervisedChild) !! (u, p) = Some child) in H. apply lookup_singleton_Some in H as [[= <- <-] <-]. split; [reflexivity|]. split; vm_compute; reflexivity. Qed.

Lemma demo_clean : clean_data controller ["data"%string].
Proof. split; [done|]. split; [|done]. rewrite Forall_cons. split; [by split|done]. Qed.

Lemma provision_all_or_nothing_witness :
  ∃ r, omap is_reply (fresh_outs controller (handleCreate (JT := text) env create_web "alice" "web" controller)) = [r] ∧
    (if py_OK r then lc_children (handleCreate (JT := text) env create_web "alice" "web" controller) !! ("alice", "web")%string =
       Some (startChild controller "web" "alice" (worktreeDir controller "alice" "web") (nkeyPubFile controller "alice" "web")) ∧
       (∀ k, k ≠ ("alice", "web")%string → lc_children (handleCreate (JT := text) env create_web "alice" "web" controller) !! k = lc_children controller !! k)
     else lc_children (handleCreate (JT := text) env create_web "alice" "web" controller) = lc_children controller ∧
       omap is_start (fresh_outs controller (handleCreate (JT := text) env create_web "alice" "web" controller)) = []).
Proof. apply (provision_all_or_nothing (JT := text) env create_web "alice" "web" controller); [apply demo_children_ok|done]. Defined.

Lemma projects_isolated_witness :
  lc_children (handleMessage (JT := text) env (on "delete" "alice" "site" "") controller) !! ("bob", "site")%string = lc_children controller !! ("bob", "site")%string ∧
  ∀ x, below (projectDir controller "bob" "site") x = true →
    x ∈ lc_files (handleMessage (JT := text) env (on "delete" "alice" "site" "") controller) ↔ x ∈ lc_files controller.
Proof.
  apply (projects_isolated (JT := text) ["data"%string] env (on "delete" "alice" "site" "") "laptop" "alice" "site" "delete" controller "bob" "site").
  all: first [apply demo_clean|discriminate|vm_compute; reflexivity].
Defined.

Lemma delete_complete_witness :
  let c' := handleMessage (JT := text) env (on "delete" "bob" "site" "") controller in
  lc_children c' = delete ("bob", "site")%string (lc_children controller) ∧
  (∀ x, x ∈ lc_files c' ↔ x ∈ lc_files controller ∧ below (projectDir controller "bob" "site") x = false) ∧
  fresh_outs controller c' = [CStopped api_child; CReply (ok_reply "site")].
Proof. apply (delete_complete (JT := text) env (on "delete" "bob" "site" "") "laptop" "bob" "site" controller); first [done|vm_compute; reflexivity]. Defined.

Definition with_answers (f : nat → option string) (e : local_env) : local_env :=
  {| le_mkdir := le_mkdir e; le_remove := le_remove e; le_stat := le_stat e; le_clone := le_clone e; le_nkey := le_nkey e; le_polls := le_polls e; le_register := f |}.

Lemma demo_may p key : (p ≠ "")%string → (key ≠ "")%string → may_register (env_at 100) server "laptop" "alice" p key alice.
Proof. intros Hp Hk. split; try done; try (split_and!; done); vm_compute; try reflexivity. left. Qed.

Lemma registration_race_lost_witness :
  let s' := handleAgentRegister (JT := text) (env_at 100) (register_msg (JT := text) controller "alice" "shop" "ASHOP") server in
  (∃ err, registerAgentKey (JT := text) (with_answers (λ i, cp_answer (JT := text) server s') env) = (Err err, (1%nat, []))) ∧ db s' = db server.
Proof.
  apply (registration_race_lost (JT := text) (with_answers (λ i, cp_answer (JT := text) server (handleAgentRegister (JT := text) (env_at 100) (register_msg (JT := text) controller "alice" "shop" "ASHOP") server)) env)
    (env_at 100) server controller "alice" "shop" "ASHOP" alice); try (vm_compute; reflexivity). by apply demo_may.
Defined.

Lemma registration_completes_witness :
  let s' := handleAgentRegister (JT := text) (env_at 100) (register_msg (JT := text) controller "alice" "web" "AWEB") server in
  registerAgentKey (JT := text) (with_answers (λ i, cp_answer (JT := text) server s') env) = (Ok (), (1%nat, [])) ∧
  ∃ cred, cred ∈ agent_credentials (db s') ∧ ac_UserID cred = "id-alice"%string ∧ ac_HostSlug cred = "laptop"%string ∧ ac_ProjectSlug cred = "web"%string ∧ ac_NKeyPublic cred = "AWEB"%string.
Proof.
  apply (registration_completes (JT := text) (with_answers (λ i, cp_answer (JT := text) server (handleAgentRegister (JT := text) (env_at 100) (register_msg (JT := text) controller "alice" "web" "AWEB") server)) env)
    (env_at 100) server controller "alice" "web" "AWEB" alice (mk_project "proj-1" "id-alice" "web" "host-1")); try (vm_compute; reflexivity). by apply demo_may.
Defined.

Module SupervisionDemo.
Import Supervisor Supervision.

(** The process was interrupted, and ends by itself. *)
Definition interrupted : state := {| s_run := Waiting; s_stop := Interrupted; s_closed := true; s_cmd := Some true; s_alive := true |}.
Lemma interrupted_reachable : reachable interrupted.
Proof.
  eapply rtc_l; [exists RunStep; by apply run_goes_on|]. eapply rtc_l; [exists RunStep; by apply run_stores|]. eapply rtc_l; [exists RunStep; by apply run_starts|].
  eapply rtc_l; [exists StopStep; by apply stop_closes|]. eapply rtc_l; [exists StopStep; by apply stop_reads|]. done.
Qed.

Definition returned : state := {| s_run := Finished; s_stop := Returned; s_closed := true; s_cmd := None; s_alive := false |}.
Lemma returned_reachable : reachable returned.
Proof.
  unfold reachable. etrans; [apply interrupted_reachable|]. eapply rtc_l; [exists ProcessExits; by apply process_exits|].
  eapply rtc_l; [exists RunStep; by apply run_waited|]. eapply rtc_l; [exists RunStep; by apply run_clears|]. eapply rtc_l; [exists RunStep; by apply run_pause_stops|].
  eapply rtc_l; [exists StopStep; apply stop_returns; [done|by left]|]. done.
Qed.

Lemma stopped_child_stays_stopped_witness : s_run returned = Finished ∧ s_stop returned = Returned ∧ s_alive returned = false.
Proof. apply (stopped_child_stays_stopped returned returned); [apply returned_reachable|reflexivity|reflexivity]. Defined.

Lemma signalled_stop_returns_witness : inevitable (λ s, s_stop s = Returned) interrupted.
Proof. apply (signalled_stop_returns interrupted); [apply interrupted_reachable|by left]. Defined.
End SupervisionDemo.
