(* ===== verification/K8sController.v ===== *)
(** * The controller of a cluster (mclaude-controller-k8s)

    Requests for projects become MCProject resources (nats_subscriber.go), which
    the reconciler turns into the objects of the user's namespace (reconciler.go).
    The API server is a store of objects; what a call does is what its
    documentation says, which calls fail is up to the environment, and reads come
    from the client's cache, which may lag behind. *)

From stdpp Require Import gmap sorting.
From S2P Require Import Prelude GoStrings Json Sha256.
Open Scope Z_scope.

(** ** Objects of the API server *)

Inductive kind := KNamespace | KServiceAccount | KRole | KRoleBinding | KConfigMap | KSecret | KPersistentVolumeClaim | KDeployment | KMCProject.
#[export] Instance kind_eq_dec : EqDecision kind.
Proof. solve_decision. Defined.
#[export] Instance kind_countable : Countable kind.
Proof.
  refine (inj_countable' (λ k, match k with KNamespace => 0 | KServiceAccount => 1 | KRole => 2 | KRoleBinding => 3 | KConfigMap => 4 | KSecret => 5
      | KPersistentVolumeClaim => 6 | KDeployment => 7 | KMCProject => 8 end%nat)
    (λ n, match n with 0 => KNamespace | 1 => KServiceAccount | 2 => KRole | 3 => KRoleBinding | 4 => KConfigMap | 5 => KSecret
      | 6 => KPersistentVolumeClaim | 7 => KDeployment | _ => KMCProject end%nat) _).
  by intros [].
Defined.

(** Kind, namespace (empty for a namespace itself) and name. *)
Definition okey : Type := kind * (string * string).

Record policy_rule := { pr_Resources : list string; pr_ResourceNames : list string; pr_Verbs : list string }.

Inductive volume_source :=
| VPersistentVolumeClaim (claim : string)
| VEmptyDir
| VConfigMap (name : string)
| VSecret (name : string).
Record volume_mount := { vm_Name : string; vm_MountPath : string; vm_SubPath : string; vm_ReadOnly : bool }.

(** CPU and memory, requested and as limits; [None]: nil. *)
Record resource_requirements := { rq_Requests : option (list (string * string)); rq_Limits : option (list (string * string)) }.

Record pod_template := {
  pt_Labels : list (string * string); pt_Annotations : list (string * string);
  pt_ImagePullSecrets : list string; pt_GracePeriod : Z;
  pt_Volumes : list (string * volume_source); pt_Mounts : list volume_mount;
  pt_Env : list (string * string); pt_Image : string; pt_ImagePullPolicy : string; pt_Resources : resource_requirements;
}.

#[export] Instance policy_rule_eq_dec : EqDecision policy_rule.
Proof. solve_decision. Defined.
#[export] Instance volume_source_eq_dec : EqDecision volume_source.
Proof. solve_decision. Defined.
#[export] Instance volume_mount_eq_dec : EqDecision volume_mount.
Proof. solve_decision. Defined.
#[export] Instance resource_requirements_eq_dec : EqDecision resource_requirements.
Proof. solve_decision. Defined.
#[export] Instance pod_template_eq_dec : EqDecision pod_template.
Proof. solve_decision. Defined.

Inductive kbody :=
| BData (type : string) (data binary : gmap string string)
| BRules (rules : list policy_rule)
| BBinding (account namespace role : string)
| BClaim (size : string) (class : option string)
| BDeployment (template : pod_template)
| BPlain.

Record kobj := { ko_owners : list string; ko_labels : gmap string string; ko_body : kbody }.
#[export] Instance kbody_eq_dec : EqDecision kbody.
Proof. solve_decision. Defined.
#[export] Instance kobj_eq_dec : EqDecision kobj.
Proof. solve_decision. Defined.
Definition plain_obj (b : kbody) : kobj := {| ko_owners := []; ko_labels := ∅; ko_body := b |}.
Definition with_owner (uid : string) (o : kobj) : kobj := {| ko_owners := ko_owners o ++ [uid]; ko_labels := ko_labels o; ko_body := ko_body o |}.
Definition with_labels l (o : kobj) : kobj := {| ko_owners := ko_owners o; ko_labels := l; ko_body := ko_body o |}.
Definition with_body b (o : kobj) : kobj := {| ko_owners := ko_owners o; ko_labels := ko_labels o; ko_body := b |}.
Definition data_of (o : kobj) : gmap string string := match ko_body o with BData _ d _ => d | _ => ∅ end.
Definition binary_of (o : kobj) : gmap string string := match ko_body o with BData _ _ b => b | _ => ∅ end.
Definition type_of (o : kobj) : string := match ko_body o with BData t _ _ => t | _ => "" end.

(** ** The project resource (mcproject_types.go) *)

Record MCProjectSpec := { ms_UserID : string; ms_ProjectID : string; ms_UserSlug : string; ms_ProjectSlug : string; ms_GitURL : string; ms_GitIdentityID : string }.
Record condition := { cn_Status : bool; cn_Reason : string; cn_Message : string }.
Record MCProjectStatus := { st_Phase : string; st_UserNamespace : string; st_Conditions : gmap string condition; st_LastReconciledAt : option Z }.
Record MCProject := { mp_Namespace : string; mp_Name : string; mp_UID : string; mp_Spec : MCProjectSpec; mp_Status : MCProjectStatus }.

Definition PhasePending : string := "Pending".
Definition PhaseProvisioning : string := "Provisioning".
Definition PhaseReady : string := "Ready".
Definition PhaseFailed : string := "Failed".
Definition ConditionNamespaceReady : string := "NamespaceReady".
Definition ConditionRBACReady : string := "RBACReady".
Definition ConditionSecretsReady : string := "SecretsReady".
Definition ConditionDeploymentReady : string := "DeploymentReady".

Definition zero_status : MCProjectStatus := {| st_Phase := ""; st_UserNamespace := ""; st_Conditions := ∅; st_LastReconciledAt := None |}.
Definition with_status st (m : MCProject) : MCProject :=
  {| mp_Namespace := mp_Namespace m; mp_Name := mp_Name m; mp_UID := mp_UID m; mp_Spec := mp_Spec m; mp_Status := st |}.
Definition with_phase p (m : MCProject) : MCProject :=
  with_status {| st_Phase := p; st_UserNamespace := st_UserNamespace (mp_Status m); st_Conditions := st_Conditions (mp_Status m); st_LastReconciledAt := st_LastReconciledAt (mp_Status m) |} m.
Definition with_condition ty c (m : MCProject) : MCProject :=
  with_status {| st_Phase := st_Phase (mp_Status m); st_UserNamespace := st_UserNamespace (mp_Status m); st_Conditions := <[ty := c]> (st_Conditions (mp_Status m)); st_LastReconciledAt := st_LastReconciledAt (mp_Status m) |} m.
Definition with_reconciled ns now (m : MCProject) : MCProject :=
  with_status {| st_Phase := st_Phase (mp_Status m); st_UserNamespace := ns; st_Conditions := st_Conditions (mp_Status m); st_LastReconciledAt := Some now |} m.

(** ** The world of the controller *)

Record ProvisionReply := { py_OK : bool; py_ProjectSlug : string; py_Error : string; py_Code : string }.

Inductive k_out :=
| KRequested (subject : string) (payload : json)
| KReplied (r : ProvisionReply).

Record World := { w_projects : gmap (string * string) MCProject; w_objects : gmap okey kobj; w_out : list k_out }.
Definition set_projects m (w : World) : World := {| w_projects := m; w_objects := w_objects w; w_out := w_out w |}.
Definition set_objects m (w : World) : World := {| w_projects := w_projects w; w_objects := m; w_out := w_out w |}.
Definition emit o (w : World) : World := {| w_projects := w_projects w; w_objects := w_objects w; w_out := w_out w ++ [o] |}.

Inductive verb := VGet | VList | VCreate | VUpdate | VDelete.

(** The environment of one handler: the error of a call (other than that an object
    is missing or present already), the errors of status updates, what the cache
    shows, the clock, the identifier of a new resource, a new key pair (public key
    and seed), the answer to the registration of a key ([None]: no answer), whether
    there is a connection, and what the polls for readiness see. *)
Record kube_env := {
  kv_down : verb → okey → option string; kv_status : string → option string; kv_view : World → World;
  kv_now : Z; kv_uid : string; kv_nkey : option (string * string); kv_nc : bool; kv_register : option string;
  kv_polls : nat; kv_poll : nat → option MCProject;
}.

Record settings := {
  cs_controlPlaneNs : string; cs_sessionAgentTemplateCM : string; cs_sessionAgentNATSURL : string; cs_controlPlaneURL : string;
  cs_devOAuthToken : string; cs_clusterSlug : string;
}.

(** *** A state monad with errors *)

Definition K (A : Type) : Type := World → result string A * World.
#[export] Instance K_ret : MRet K := λ A a w, (Ok a, w).
#[export] Instance K_bind : MBind K := λ A B f m w, match m w with (Ok a, w) => f a w | (Err e, w) => (Err e, w) end.
Definition fail {A} (err : string) : K A := λ w, (Err err, w).
(** [fmt.Errorf("...: %w", err)] *)
Definition wrap {A} (ctx : string) (m : K A) : K A := λ w, match m w with (Err e, w) => (Err (ctx +:+ e)%string, w) | r => r end.
(** A call whose error is looked at. *)
Definition tries {A} (m : K A) : K (result string A) := λ w, (Ok (m w).1, (m w).2).
Fixpoint for_each {A} (f : A → K unit) (l : list A) : K unit := match l with [] => mret () | x :: l => f x;; for_each f l end.

(** *** Calls *)

(** [Get]: [None] is a NotFound error. *)
Definition kget (e : kube_env) (k : okey) : K (option kobj) := λ w,
  match kv_down e VGet k with Some err => (Err err, w) | None => (Ok (w_objects (kv_view e w) !! k), w) end.

(** [Create], where an AlreadyExists error is no error. *)
Definition create_if_absent (e : kube_env) (k : okey) (o : kobj) : K unit := λ w,
  match kv_down e VCreate k with
  | Some err => (Err err, w)
  | None =>
    match w_objects w !! k with
    | Some _ => (Ok (), w)
    | None =>
      if bool_decide (k.1 = KNamespace) || bool_decide (is_Some (w_objects w !! (KNamespace, ("", k.2.1))%string)) then (Ok (), set_objects (<[k := o]> (w_objects w)) w)
      else (Err ("namespaces " +:+ k.2.1 +:+ " not found")%string, w)
    end
  end.

(** [Update] of the object that was read as [was]: a version that is not the stored
    one is refused. *)
Definition kupdate (e : kube_env) (k : okey) (was o : kobj) : K unit := λ w,
  match kv_down e VUpdate k with
  | Some err => (Err err, w)
  | None =>
    match w_objects w !! k with
    | None => (Err (k.2.2 +:+ " not found")%string, w)
    | Some cur => if bool_decide (cur = was) then (Ok (), set_objects (<[k := o]> (w_objects w)) w) else (Err "the object has been modified"%string, w)
    end
  end.

(** The order in which a list comes from the cache; the decoder of the resources of
    containers, with what it has decoded before an error; quantities. *)
Class KubeLibs := {
  list_order : list (string * kobj) → list (string * kobj);
  list_order_perm l : list_order l ≡ₚ l;
  dec_resources : string → resource_requirements;
  ParseQuantity : string → option string;
}.

(** [SetControllerReference], [SetOwnerReference]: whether an object of the namespace
    [ns] may be owned by one of [owner]; owners are in the same namespace. *)
Class OwnerRules := {
  owner_allowed (owner ns : string) : bool;
  owner_same ns : owner_allowed ns ns = true;
  owner_cross owner ns : owner ≠ ns → owner_allowed owner ns = false;
}.

Definition SecretTypeDockerConfigJson : string := "kubernetes.io/dockerconfigjson".

Definition secrets_in (ns : string) (m : gmap okey kobj) : list (string * kobj) :=
  omap (λ ko : okey * kobj, if bool_decide (ko.1.1 = KSecret) && bool_decide (ko.1.2.1 = ns) then Some (ko.1.2.2, ko.2) else None) (map_to_list m).

Section controller.
Context `{KL : KubeLibs, OR : OwnerRules, JT : JsonText}.
Context (c : settings).

Definition klist_secrets (e : kube_env) (ns : string) : K (list (string * kobj)) := λ w,
  match kv_down e VList (KSecret, (ns, ""%string)) with
  | Some err => (Err err, w)
  | None => (Ok (list_order (secrets_in ns (w_objects (kv_view e w)))), w)
  end.

(** ** Ownership *)

(** A refused owner is logged only. *)
Definition set_owner (mcp : MCProject) (ns : string) (o : kobj) : kobj := if owner_allowed (mp_Namespace mcp) ns then with_owner (mp_UID mcp) o else o.

(** Whether [addOwnerIfMissing] changes the object. *)
Definition owner_missing (mcp : MCProject) (ns : string) (o : kobj) : bool :=
  negb (bool_decide (mp_UID mcp ∈ ko_owners o)) && owner_allowed (mp_Namespace mcp) ns.
Definition addOwnerIfMissing (e : kube_env) (mcp : MCProject) (k : okey) (was o : kobj) : K unit :=
  if owner_missing mcp k.2.1 o then kupdate e k was (with_owner (mp_UID mcp) o) else mret ().

Definition ensureOwned (e : kube_env) (mcp : MCProject) (k : okey) (o : kobj) : K unit :=
  cur ← kget e k;
  match cur with
  | Some existing => addOwnerIfMissing e mcp k existing existing
  | None => create_if_absent e k (set_owner mcp k.2.1 o)
  end.

(** ** The template *)

Record sessionAgentTpl := {
  tp_image : string; tp_imagePullPolicy : string; tp_grace : Z; tp_resources : resource_requirements;
  tp_projectPvcSize : string; tp_projectPvcStorageClass : string; tp_nixPvcSize : string; tp_nixPvcStorageClass : string;
  tp_caEnabled : bool; tp_caName : string; tp_caKey : string; tp_hostSlug : string;
}.

Definition default_requests : list (string * string) := [("cpu", "200m"); ("memory", "64Mi")]%string.
Definition default_limits : list (string * string) := [("cpu", "2000m"); ("memory", "2Gi")]%string.
Definition applyDefaultResources (r : resource_requirements) : resource_requirements :=
  {| rq_Requests := Some (default default_requests (rq_Requests r)); rq_Limits := Some (default default_limits (rq_Limits r)) |}.
Definition no_resources : resource_requirements := {| rq_Requests := None; rq_Limits := None |}.

Definition defaultTemplate (hostSlug : string) : sessionAgentTpl := {|
  tp_image := "mclaude-session-agent:latest"; tp_imagePullPolicy := "IfNotPresent"; tp_grace := 30; tp_resources := applyDefaultResources no_resources;
  tp_projectPvcSize := "10Gi"; tp_projectPvcStorageClass := ""; tp_nixPvcSize := "10Gi"; tp_nixPvcStorageClass := "";
  tp_caEnabled := false; tp_caName := ""; tp_caKey := ""; tp_hostSlug := hostSlug |}.

Definition or_default (d s : string) : string := if String.eqb s "" then d else s.

Definition read_template (data : gmap string string) : sessionAgentTpl :=
  let get k := default ""%string (data !! k) in
  let grace := if String.eqb (get "terminationGracePeriodSeconds"%string) "" then 0 else default 0 (Sscanf_d (get "terminationGracePeriodSeconds"%string)) in
  {| tp_image := get "image"%string; tp_imagePullPolicy := get "imagePullPolicy"%string;
     tp_grace := if grace =? 0 then 30 else grace;
     tp_resources := applyDefaultResources (if String.eqb (get "resourcesJson"%string) "" then no_resources else dec_resources (get "resourcesJson"%string));
     tp_projectPvcSize := or_default "10Gi" (get "projectPvcSize"%string); tp_projectPvcStorageClass := get "projectPvcStorageClass"%string;
     tp_nixPvcSize := or_default "10Gi" (get "nixPvcSize"%string); tp_nixPvcStorageClass := get "nixPvcStorageClass"%string;
     tp_caEnabled := String.eqb (get "corporateCAEnabled"%string) "true"; tp_caName := get "corporateCAConfigMapName"%string;
     tp_caKey := or_default "ca-certificates.crt" (get "corporateCAConfigMapKey"%string); tp_hostSlug := cs_clusterSlug c |}.

Definition loadTemplate (e : kube_env) : K sessionAgentTpl :=
  cm ← wrap ("get configmap " +:+ cs_sessionAgentTemplateCM c +:+ ": ") (kget e (KConfigMap, (cs_controlPlaneNs c, cs_sessionAgentTemplateCM c)));
  mret (match cm with None => defaultTemplate (cs_clusterSlug c) | Some o => read_template (data_of o) end).

(** ** Namespace, accounts, secrets *)

Definition namespace_key (userNs : string) : okey := (KNamespace, (""%string, userNs)).

Definition ns_labels (mcp : MCProject) (tpl : sessionAgentTpl) (l : gmap string string) : gmap string string :=
  let l := <["mclaude.io/managed" := "true"]> (<["mclaude.io/user-id" := ms_UserID (mp_Spec mcp)]> l) in
  if tp_caEnabled tpl then <["mclaude.io/user-namespace" := "true"]> l else l.

Definition reconcileNamespace (e : kube_env) (mcp : MCProject) (userNs : string) (tpl : sessionAgentTpl) : K unit :=
  ns ← wrap "get namespace: " (kget e (namespace_key userNs));
  match ns with
  | Some ns => kupdate e (namespace_key userNs) ns (with_labels (ns_labels mcp tpl (ko_labels ns)) ns)
  | None => wrap "create namespace: " (create_if_absent e (namespace_key userNs) (with_labels (ns_labels mcp tpl ∅) (plain_obj BPlain)))
  end.

Definition role_rules : list policy_rule := [
  {| pr_Resources := ["configmaps"]; pr_ResourceNames := ["user-config"]; pr_Verbs := ["get"; "watch"; "patch"] |};
  {| pr_Resources := ["secrets"]; pr_ResourceNames := ["user-secrets"]; pr_Verbs := ["get"] |} ]%string.

Definition reconcileRBAC (e : kube_env) (mcp : MCProject) (userNs : string) : K unit :=
  wrap "serviceaccount: " (ensureOwned e mcp (KServiceAccount, (userNs, "mclaude-sa"%string)) (plain_obj BPlain));;
  wrap "role: " (ensureOwned e mcp (KRole, (userNs, "mclaude-role"%string)) (plain_obj (BRules role_rules)));;
  wrap "rolebinding: " (ensureOwned e mcp (KRoleBinding, (userNs, "mclaude-role"%string)) (plain_obj (BBinding "mclaude-sa" userNs "mclaude-role"))).

Definition user_secrets_key (userNs : string) : okey := (KSecret, (userNs, "user-secrets"%string)).

Definition oauth_stale (data : gmap string string) : bool :=
  negb (String.eqb (cs_devOAuthToken c) "") && negb (String.eqb (default ""%string (data !! "oauth-token"%string)) (cs_devOAuthToken c)).

Definition refresh_user_secrets (e : kube_env) (mcp : MCProject) (userNs : string) (existing : kobj) : K unit :=
  let data := data_of existing in
  let stale_creds := bool_decide (is_Some (data !! "nats-creds"%string)) in
  let data := delete "nats-creds"%string data in
  let stale_token := oauth_stale data in
  let data := if stale_token then <["oauth-token" := cs_devOAuthToken c]> data else data in
  let local := with_body (BData (type_of existing) data (binary_of existing)) existing in
  let missing := owner_missing mcp userNs local in
  r ← tries (addOwnerIfMissing e mcp (user_secrets_key userNs) existing local);
  let local := if missing then with_owner (mp_UID mcp) local else local in
  let was := if missing && is_ok r then local else existing in
  if stale_creds || stale_token then wrap "patch user-secrets: " (kupdate e (user_secrets_key userNs) was local) else mret ().

Definition copy_pull_secret (e : kube_env) (userNs : string) (src : string * kobj) : K unit := λ w,
  let copy := plain_obj (BData (type_of src.2) (data_of src.2) ∅) in
  if negb (String.eqb (type_of src.2) SecretTypeDockerConfigJson) then (Ok (), w)
  else match kget e (KSecret, (userNs, src.1)) w with
       | (Ok (Some _), w) => (Ok (), w)
       | (_, w) => wrap ("copy imagePullSecret " +:+ src.1 +:+ ": ") (create_if_absent e (KSecret, (userNs, src.1)) copy) w
       end.

Definition reconcileSecrets (e : kube_env) (mcp : MCProject) (userNs : string) : K unit :=
  wrap "user-config configmap: " (ensureOwned e mcp (KConfigMap, (userNs, "user-config"%string)) (plain_obj (BData "" ∅ ∅)));;
  existing ← wrap "get user-secrets: " (kget e (user_secrets_key userNs));
  match existing with
  | Some existing => refresh_user_secrets e mcp userNs existing
  | None =>
    let data := if String.eqb (cs_devOAuthToken c) "" then ∅ else {["oauth-token"%string := cs_devOAuthToken c]} in
    wrap "create user-secrets: " (create_if_absent e (user_secrets_key userNs) (set_owner mcp userNs (plain_obj (BData "" data ∅))))
  end;;
  secrets ← wrap ("list secrets in " +:+ cs_controlPlaneNs c +:+ ": ") (klist_secrets e (cs_controlPlaneNs c));
  for_each (copy_pull_secret e userNs) secrets.

(** ** The agent's key *)

Definition agentNKeySecretName (projectID : string) : string := ("agent-nkey-" +:+ projectID)%string.
Definition agent_key (userNs : string) (mcp : MCProject) : okey := (KSecret, (userNs, agentNKeySecretName (ms_ProjectID (mp_Spec mcp)))).

Definition register_subject : string := ("mclaude.hosts." +:+ cs_clusterSlug c +:+ ".api.agents.register")%string.
Definition register_payload (mcp : MCProject) (pubKey : string) : json :=
  JObj [("nkey_public", JStr pubKey); ("user_slug", JStr (ms_UserSlug (mp_Spec mcp))); ("project_slug", JStr (ms_ProjectSlug (mp_Spec mcp)))]%string.

Record agentRegisterReply := { gr_OK : bool; gr_Error : string }.
Definition agentRegisterReply_fields : list (field agentRegisterReply) :=
  [ fld "ok" dec_bool gr_OK (λ v r, {| gr_OK := v; gr_Error := gr_Error r |});
    fld "error" dec_string gr_Error (λ v r, {| gr_OK := gr_OK r; gr_Error := v |}) ].

Definition registerAgentNKey (e : kube_env) (mcp : MCProject) (pubKey : string) : K unit := λ w,
  let w := emit (KRequested register_subject (register_payload mcp pubKey)) w in
  match kv_register e with
  | None => (Err "NATS agents.register request"%string, w)
  | Some data =>
    match unmarshal (dec_struct agentRegisterReply_fields) {| gr_OK := false; gr_Error := "" |} data with
    | None => (Err "unmarshal agents.register reply"%string, w)
    | Some resp => if gr_OK resp then (Ok (), w) else (Err ("agents.register failed: " +:+ gr_Error resp)%string, w)
    end
  end.

Definition seed_of (o : kobj) : string := default ""%string (data_of o !! "nkey_seed"%string).
Definition with_seed (seed : string) (o : kobj) : kobj := with_body (BData (type_of o) (<["nkey_seed" := seed]> (data_of o)) (binary_of o)) o.

Definition store_seed (e : kube_env) (mcp : MCProject) (userNs : string) (existing : option kobj) (seed : string) : K unit :=
  match existing with
  | None => wrap "create agent-nkey secret: " (create_if_absent e (agent_key userNs mcp) (set_owner mcp userNs (plain_obj (BData "" {["nkey_seed"%string := seed]} ∅))))
  | Some o => wrap "update agent-nkey secret: " (kupdate e (agent_key userNs mcp) o (with_seed seed o))
  end.

Definition reconcileAgentNKey (e : kube_env) (mcp : MCProject) (userNs : string) : K unit :=
  existing ← wrap "get agent-nkey secret: " (kget e (agent_key userNs mcp));
  if match existing with Some o => negb (String.eqb (seed_of o) "") | None => false end then mret ()
  else match kv_nkey e with
       | None => fail "generate agent NKey"
       | Some (pubKey, seed) =>
         (if kv_nc e then registerAgentNKey e mcp pubKey else mret ());;
         store_seed e mcp userNs existing seed
       end.

(** ** The deployment *)

(** The sorted pairs of the map, written into the hash without separators. *)
Definition hash_input (m : gmap string string) : string :=
  foldr (λ kv s, kv.1 +:+ kv.2 +:+ s)%string ""%string (merge_sort (λ a b, String.le a.1 b.1) (map_to_list m)).
Definition reconcilerCAConfigMapHash (cm : kobj) : string := sha256Hex (hash_input (data_of cm) +:+ hash_input (binary_of cm)).

Definition pod_env (mcp : MCProject) (tpl : sessionAgentTpl) : list (string * string) :=
  let sp := mp_Spec mcp in
  [("USER_ID", ms_UserID sp); ("PROJECT_ID", ms_ProjectID sp); ("NATS_URL", cs_sessionAgentNATSURL c); ("CONTROL_PLANE_URL", cs_controlPlaneURL c);
   ("USER_SLUG", ms_UserSlug sp); ("HOST_SLUG", tp_hostSlug tpl); ("PROJECT_SLUG", ms_ProjectSlug sp);
   ("CLAUDE_CODE_TMPDIR", "/data/claude-tmp"); ("AGENT_NKEY_PATH", "/etc/mclaude/agent-nkey/nkey_seed")]%string
  ++ (if String.eqb (ms_GitURL sp) "" then [] else [("GIT_URL"%string, ms_GitURL sp)])
  ++ (if String.eqb (ms_GitIdentityID sp) "" then [] else [("GIT_IDENTITY_ID"%string, ms_GitIdentityID sp)]).

Definition pod_volumes (projectID : string) : list (string * volume_source) :=
  [("project-data", VPersistentVolumeClaim ("project-" +:+ projectID)); ("nix-store", VPersistentVolumeClaim ("nix-" +:+ projectID)); ("claude-home", VEmptyDir);
   ("user-config", VConfigMap "user-config"); ("user-secrets", VSecret "user-secrets"); ("agent-nkey", VSecret (agentNKeySecretName projectID))]%string.
Definition mount (name path sub : string) (ro : bool) : volume_mount := {| vm_Name := name; vm_MountPath := path; vm_SubPath := sub; vm_ReadOnly := ro |}.
Definition pod_mounts : list volume_mount :=
  [mount "project-data" "/data" "" false; mount "nix-store" "/nix" "" false; mount "claude-home" "/home/node/.claude" "" false;
   mount "user-config" "/home/node/.claude-seed" "" true; mount "user-secrets" "/home/node/.user-secrets" "" true;
   mount "project-data" "/data/claude-tmp" "claude-tmp" false; mount "agent-nkey" "/etc/mclaude/agent-nkey/" "" true].

Definition buildPodTemplate (e : kube_env) (mcp : MCProject) (userNs : string) (tpl : sessionAgentTpl) (w : World) : pod_template :=
  let projectID := ms_ProjectID (mp_Spec mcp) in
  let pull := match (klist_secrets e userNs w).1 with
              | Ok l => fst <$> filter (λ s, type_of s.2 = SecretTypeDockerConfigJson) l
              | Err _ => []
              end in
  let ca := if tp_caEnabled tpl && negb (String.eqb (tp_caName tpl) "")
            then match (kget e (KConfigMap, (userNs, tp_caName tpl)) w).1 with Ok cm => cm | Err _ => None end
            else None in
  {| pt_Labels := [("app", "mclaude-project"); ("project", projectID)]%string;
     pt_Annotations := match ca with None => [] | Some cm => [("mclaude.io/ca-bundle-hash"%string, reconcilerCAConfigMapHash cm)] end;
     pt_ImagePullSecrets := pull; pt_GracePeriod := tp_grace tpl;
     pt_Volumes := pod_volumes projectID ++ match ca with None => [] | Some _ => [("corporate-ca"%string, VConfigMap (tp_caName tpl))] end;
     pt_Mounts := pod_mounts ++ match ca with None => [] | Some _ =>
       [mount "corporate-ca" "/etc/ssl/certs/corporate-ca-certificates.crt" (or_default "ca-certificates.crt" (tp_caKey tpl)) true] end;
     pt_Env := pod_env mcp tpl ++ match ca with None => [] | Some _ => [("NODE_EXTRA_CA_CERTS", "/etc/ssl/certs/corporate-ca-certificates.crt")%string] end;
     pt_Image := tp_image tpl; pt_ImagePullPolicy := tp_imagePullPolicy tpl; pt_Resources := tp_resources tpl |}.

Definition ensurePVCCR (e : kube_env) (mcp : MCProject) (ns name size storageClass : string) : K unit :=
  existing ← wrap ("get pvc " +:+ name +:+ ": ") (kget e (KPersistentVolumeClaim, (ns, name)));
  match existing with
  | Some _ => mret ()
  | None =>
    let qty := default "10Gi"%string (ParseQuantity size) in
    let class := if String.eqb storageClass "" then None else Some storageClass in
    wrap ("create pvc " +:+ name +:+ ": ") (create_if_absent e (KPersistentVolumeClaim, (ns, name)) (set_owner mcp ns (plain_obj (BClaim qty class))))
  end.

Definition deployment_key (userNs : string) (mcp : MCProject) : okey := (KDeployment, (userNs, "project-" +:+ ms_ProjectID (mp_Spec mcp)))%string.
Definition deployment_labels (projectID : string) : gmap string string := <["project" := projectID]> {["app"%string := "mclaude-project"%string]}.

Definition reconcileDeployment (e : kube_env) (mcp : MCProject) (userNs : string) (tpl : sessionAgentTpl) : K unit :=
  let projectID := ms_ProjectID (mp_Spec mcp) in
  wrap "project pvc: " (ensurePVCCR e mcp userNs ("project-" +:+ projectID) (tp_projectPvcSize tpl) (tp_projectPvcStorageClass tpl));;
  wrap "nix pvc: " (ensurePVCCR e mcp userNs ("nix-" +:+ projectID) (tp_nixPvcSize tpl) (tp_nixPvcStorageClass tpl));;
  existing ← wrap "get deployment: " (kget e (deployment_key userNs mcp));
  template ← (λ w, (Ok (buildPodTemplate e mcp userNs tpl w), w));
  match existing with
  | Some d => kupdate e (deployment_key userNs mcp) d (with_body (BDeployment template) d)
  | None => wrap "create deployment: " (create_if_absent e (deployment_key userNs mcp)
      (set_owner mcp userNs (with_labels (deployment_labels projectID) (plain_obj (BDeployment template)))))
  end.

(** ** The loop *)

Inductive reconcile_result := RDone | RRequeue | RRequeueAfter (seconds : Z) | RError (err : string).

(** [Status().Update], under the name of what is written; its errors are logged at
    most.  The resource in the store must be the one that was read. *)
Definition write_status (e : kube_env) (what : string) (mcp : MCProject) (w : World) : World :=
  match kv_status e what with
  | Some _ => w
  | None =>
    let k := (mp_Namespace mcp, mp_Name mcp) in
    match w_projects w !! k with
    | Some m => if String.eqb (mp_UID m) (mp_UID mcp) then set_projects (<[k := with_status (mp_Status mcp) m]> (w_projects w)) w else w
    | None => w
    end
  end.

Definition setPhase (e : kube_env) (phase : string) (mcp : MCProject) (w : World) : MCProject * World :=
  let mcp := with_phase phase mcp in (mcp, write_status e phase mcp w).
Definition setCondition (e : kube_env) (ty : string) (cond : condition) (mcp : MCProject) (w : World) : MCProject * World :=
  let mcp := with_condition ty cond mcp in (mcp, write_status e ty mcp w).
Definition updateCondition (e : kube_env) (ty : string) (r : result string unit) (mcp : MCProject) (w : World) : MCProject * World :=
  setCondition e ty (match r with
    | Ok _ => {| cn_Status := true; cn_Reason := "Reconciled"; cn_Message := "" |}
    | Err err => {| cn_Status := false; cn_Reason := "ReconcileError"; cn_Message := err |}
    end) mcp w.

Definition user_namespace (userSlug : string) : string := ("mclaude-" +:+ userSlug)%string.

(** The part after the namespace. *)
Definition reconcile_objects (e : kube_env) (mcp : MCProject) (userNs : string) (tpl : sessionAgentTpl) (w : World) : reconcile_result * World :=
  let '(rbacErr, w) := reconcileRBAC e mcp userNs w in
  let '(mcp, w) := updateCondition e ConditionRBACReady rbacErr mcp w in
  let '(secretsErr, w) := reconcileSecrets e mcp userNs w in
  let '(mcp, w) := updateCondition e ConditionSecretsReady secretsErr mcp w in
  let '(agentNKeyErr, w) := reconcileAgentNKey e mcp userNs w in
  let '(deployErr, w) := reconcileDeployment e mcp userNs tpl w in
  let '(mcp, w) := updateCondition e ConditionDeploymentReady deployErr mcp w in
  if is_ok rbacErr && is_ok secretsErr && is_ok agentNKeyErr && is_ok deployErr
  then (RDone, (setPhase e PhaseReady (with_reconciled userNs (kv_now e) mcp) w).2)
  else (RRequeueAfter 15, (setPhase e PhaseProvisioning mcp w).2).

Definition reconcile_project (e : kube_env) (mcp : MCProject) (w : World) : reconcile_result * World :=
  let userNs := user_namespace (ms_UserSlug (mp_Spec mcp)) in
  match loadTemplate e w with
  | (Err err, w) =>
    (RRequeueAfter 30, (setCondition e ConditionDeploymentReady {| cn_Status := false; cn_Reason := "TemplateError"; cn_Message := err |} mcp w).2)
  | (Ok tpl, w) =>
    let '(nsErr, w) := reconcileNamespace e mcp userNs tpl w in
    let '(mcp, w) := updateCondition e ConditionNamespaceReady nsErr mcp w in
    match nsErr with
    | Err _ => (RRequeueAfter 30, (setPhase e PhaseFailed mcp w).2)
    | Ok _ => reconcile_objects e mcp userNs tpl w
    end
  end.

Definition Reconcile (e : kube_env) (req : string * string) (w : World) : reconcile_result * World :=
  match kv_down e VGet (KMCProject, req) with
  | Some err => (RError ("get MCProject: " +:+ err)%string, w)
  | None =>
    match w_projects (kv_view e w) !! req with
    | None => (RDone, w)
    | Some mcp =>
      if String.eqb (st_Phase (mp_Status mcp)) "" then (RRequeue, (setPhase e PhasePending mcp w).2)
      else
        let '(mcp, w) := if String.eqb (st_Phase (mp_Status mcp)) PhasePending then setPhase e PhaseProvisioning mcp w else (mcp, w) in
        reconcile_project e mcp w
    end
  end.

(** ** Requests over NATS *)

Record ProvisionRequest := { kr_UserID : string; kr_ProjectID : string; kr_UserSlug : string; kr_HostSlug : string; kr_ProjectSlug : string;
  kr_GitURL : string; kr_GitIdentityID : string }.
Definition zero_ProvisionRequest : ProvisionRequest :=
  {| kr_UserID := ""; kr_ProjectID := ""; kr_UserSlug := ""; kr_HostSlug := ""; kr_ProjectSlug := ""; kr_GitURL := ""; kr_GitIdentityID := "" |}.
Definition ProvisionRequest_fields : list (field ProvisionRequest) :=
  [ fld "userId" dec_string kr_UserID (λ v r, {| kr_UserID := v; kr_ProjectID := kr_ProjectID r; kr_UserSlug := kr_UserSlug r; kr_HostSlug := kr_HostSlug r; kr_ProjectSlug := kr_ProjectSlug r; kr_GitURL := kr_GitURL r; kr_GitIdentityID := kr_GitIdentityID r |});
    fld "projectId" dec_string kr_ProjectID (λ v r, {| kr_UserID := kr_UserID r; kr_ProjectID := v; kr_UserSlug := kr_UserSlug r; kr_HostSlug := kr_HostSlug r; kr_ProjectSlug := kr_ProjectSlug r; kr_GitURL := kr_GitURL r; kr_GitIdentityID := kr_GitIdentityID r |});
    fld "userSlug" dec_string kr_UserSlug (λ v r, {| kr_UserID := kr_UserID r; kr_ProjectID := kr_ProjectID r; kr_UserSlug := v; kr_HostSlug := kr_HostSlug r; kr_ProjectSlug := kr_ProjectSlug r; kr_GitURL := kr_GitURL r; kr_GitIdentityID := kr_GitIdentityID r |});
    fld "hostSlug" dec_string kr_HostSlug (λ v r, {| kr_UserID := kr_UserID r; kr_ProjectID := kr_ProjectID r; kr_UserSlug := kr_UserSlug r; kr_HostSlug := v; kr_ProjectSlug := kr_ProjectSlug r; kr_GitURL := kr_GitURL r; kr_GitIdentityID := kr_GitIdentityID r |});
    fld "projectSlug" dec_string kr_ProjectSlug (λ v r, {| kr_UserID := kr_UserID r; kr_ProjectID := kr_ProjectID r; kr_UserSlug := kr_UserSlug r; kr_HostSlug := kr_HostSlug r; kr_ProjectSlug := v; kr_GitURL := kr_GitURL r; kr_GitIdentityID := kr_GitIdentityID r |});
    fld "gitUrl" dec_string kr_GitURL (λ v r, {| kr_UserID := kr_UserID r; kr_ProjectID := kr_ProjectID r; kr_UserSlug := kr_UserSlug r; kr_HostSlug := kr_HostSlug r; kr_ProjectSlug := kr_ProjectSlug r; kr_GitURL := v; kr_GitIdentityID := kr_GitIdentityID r |});
    fld "gitIdentityId" dec_string kr_GitIdentityID (λ v r, {| kr_UserID := kr_UserID r; kr_ProjectID := kr_ProjectID r; kr_UserSlug := kr_UserSlug r; kr_HostSlug := kr_HostSlug r; kr_ProjectSlug := kr_ProjectSlug r; kr_GitURL := kr_GitURL r; kr_GitIdentityID := v |}) ].

Record kube_msg := { km_Subject : string; km_Data : string; km_Reply : bool }.

(** What follows the last dot. *)
Fixpoint after_last_dot (s : string) : option string :=
  match s with
  | EmptyString => None
  | String a r => match after_last_dot r with Some t => Some t | None => if Ascii.eqb a "." then Some r else None end
  end.
Definition extractOperation (subject : string) : string := default subject (after_last_dot subject).

Definition cr_name (req : ProvisionRequest) : string := (kr_UserSlug req +:+ "-" +:+ kr_ProjectSlug req)%string.
Definition cr_key (req : ProvisionRequest) : string * string := (cs_controlPlaneNs c, cr_name req).

Definition new_project (e : kube_env) (req : ProvisionRequest) : MCProject :=
  {| mp_Namespace := cs_controlPlaneNs c; mp_Name := cr_name req; mp_UID := kv_uid e;
     mp_Spec := {| ms_UserID := kr_UserID req; ms_ProjectID := kr_ProjectID req; ms_UserSlug := kr_UserSlug req; ms_ProjectSlug := kr_ProjectSlug req;
                   ms_GitURL := kr_GitURL req; ms_GitIdentityID := kr_GitIdentityID req |};
     mp_Status := zero_status |}.

Fixpoint wait_loop (polls : nat) (poll : nat → option MCProject) (i : nat) (name : string) : result string unit :=
  match polls with
  | O => Err ("timed out (30s) waiting for MCProject " +:+ name +:+ " to reach Ready phase")%string
  | S polls =>
    match poll i with
    | None => wait_loop polls poll (S i) name
    | Some m =>
      if String.eqb (st_Phase (mp_Status m)) PhaseReady then Ok ()
      else if String.eqb (st_Phase (mp_Status m)) PhaseFailed then Err ("MCProject " +:+ name +:+ " reached Failed phase")%string
      else wait_loop polls poll (S i) name
    end
  end.
Definition waitForReady (e : kube_env) (name : string) : result string unit := wait_loop (kv_polls e) (kv_poll e) 0 name.

Definition handleCreate (e : kube_env) (req : ProvisionRequest) : K unit := λ w,
  match kv_down e VCreate (KMCProject, cr_key req) with
  | Some err => (Err ("create MCProject CR: " +:+ err)%string, w)
  | None =>
    let w := match w_projects w !! cr_key req with
             | Some _ => w
             | None => set_projects (<[cr_key req := new_project e req]> (w_projects w)) w
             end in
    (waitForReady e (cr_name req), w)
  end.

Definition handleUpdate (e : kube_env) (req : ProvisionRequest) : K unit := λ w,
  match kv_down e VGet (KMCProject, cr_key req) with
  | Some err => (Err ("get MCProject CR: " +:+ err)%string, w)
  | None =>
    match w_projects (kv_view e w) !! cr_key req with
    | None => (Err ("get MCProject CR: " +:+ cr_name req +:+ " not found")%string, w)
    | Some mcp => wrap "reconcile secrets: " (reconcileSecrets e mcp (user_namespace (ms_UserSlug (mp_Spec mcp)))) w
    end
  end.

(** An object goes when it has owners and none of them is left. *)
Definition collect_garbage (w : World) : World :=
  let uids := (λ kv : (string * string) * MCProject, mp_UID kv.2) <$> map_to_list (w_projects w) in
  set_objects (filter (λ ko, ko_owners ko.2 = [] ∨ Exists (λ u, u ∈ uids) (ko_owners ko.2)) (w_objects w)) w.

Definition handleDelete (e : kube_env) (req : ProvisionRequest) : K unit := λ w,
  match kv_down e VDelete (KMCProject, cr_key req) with
  | Some err => (Err ("delete MCProject CR: " +:+ err)%string, w)
  | None =>
    match w_projects w !! cr_key req with
    | None => (Ok (), w)
    | Some _ => (Ok (), collect_garbage (set_projects (delete (cr_key req) (w_projects w)) w))
    end
  end.

Definition replyOK (msg : kube_msg) (projectSlug : string) (w : World) : World :=
  if km_Reply msg then emit (KReplied {| py_OK := true; py_ProjectSlug := projectSlug; py_Error := ""; py_Code := "" |}) w else w.
Definition replyError (msg : kube_msg) (errMsg code : string) (w : World) : World :=
  if km_Reply msg then emit (KReplied {| py_OK := false; py_ProjectSlug := ""; py_Error := errMsg; py_Code := code |}) w else w.

Definition answer (msg : kube_msg) (req : ProvisionRequest) (code : string) (r : result string unit * World) : World :=
  match r with (Ok _, w) => replyOK msg (kr_ProjectSlug req) w | (Err err, w) => replyError msg err code w end.

Definition handleProvisionRequest (e : kube_env) (msg : kube_msg) (w : World) : World :=
  match unmarshal (dec_struct ProvisionRequest_fields) zero_ProvisionRequest (km_Data msg) with
  | None => replyError msg "invalid request payload" "parse_error" w
  | Some req =>
    let operation := extractOperation (km_Subject msg) in
    if String.eqb operation "create" then answer msg req "provision_failed" (handleCreate e req w)
    else if String.eqb operation "update" then answer msg req "update_failed" (handleUpdate e req w)
    else if String.eqb operation "delete" then answer msg req "delete_failed" (handleDelete e req w)
    else w
  end.

(** [StartNATSSubscriber]. *)
Definition hostSubject : string := ("mclaude.hosts." +:+ cs_clusterSlug c +:+ ".>")%string.

End controller.
