(* ===== verification/K8sSpec.v ===== *)
(** * What the controller of a cluster guarantees

    Confinement of users to their namespaces, completion of provisioning, the keys
    of agents, deletion, and the requests of the control plane. *)

From stdpp Require Import gmap sorting.
From S2P Require Import Prelude GoStrings Slug Json Subjects Permissions ObjectStore Database ControlServer Challenge ControlDemo HostLifecycle HostLifecycleSpec ProjectApi K8sController.
Open Scope Z_scope.

(** The object with a key. *)
Notation obj w k := (w_objects w !! (k : okey)).

Section spec.
Context `{KL : KubeLibs, OR : OwnerRules, JT : JsonText}.
Context (c : settings).

(** ** What computations leave alone

    [frames P m]: only objects with a key in [P] change, nothing that was there
    disappears, and the projects stay as they are, whatever the environment does. *)

Definition frames (P : okey → Prop) {A} (m : K A) : Prop := ∀ w,
  (∀ k, ¬ P k → w_objects (m w).2 !! k = w_objects w !! k) ∧
  (∀ k, is_Some (w_objects w !! k) → is_Some (w_objects (m w).2 !! k)) ∧
  w_projects (m w).2 = w_projects w.

Lemma frames_same P {A} (m : K A) : (∀ w, w_objects (m w).2 = w_objects w ∧ w_projects (m w).2 = w_projects w) → frames P m.
Proof. intros H w. destruct (H w) as [-> ->]. done. Qed.

Lemma frames_ret P {A} (a : A) : frames P (mret a : K A).
Proof. by apply frames_same. Qed.

Lemma frames_fail P {A} err : frames P (fail err : K A).
Proof. by apply frames_same. Qed.

Lemma frames_bind P {A B} (m : K A) (f : A → K B) : frames P m → (∀ a, frames P (f a)) → frames P (m ≫= f).
Proof.
  intros Hm Hf w. unfold mbind, K_bind. specialize (Hm w). destruct (m w) as [[a|err] w1]; [|done]. cbn [snd] in Hm.
  destruct (Hf a w1) as (H1 & H2 & H3), Hm as (H4 & H5 & H6). split_and!; [|by auto|congruence].
  intros k Hk. by rewrite H1, H4.
Qed.

Lemma wrap_world {A} ctx (m : K A) w : (wrap ctx m w).2 = (m w).2.
Proof. unfold wrap. by destruct (m w) as [[a|err] w1]. Qed.
Lemma wrap_ok {A} ctx (m : K A) w a w' : m w = (Ok a, w') → wrap ctx m w = (Ok a, w').
Proof. unfold wrap. by intros ->. Qed.

Lemma frames_wrap P {A} ctx (m : K A) : frames P m → frames P (wrap ctx m).
Proof. intros H w. rewrite wrap_world. apply H. Qed.

Lemma frames_tries P {A} (m : K A) : frames P m → frames P (tries m).
Proof. intros H w. apply H. Qed.

Lemma frames_for_each P {A} (f : A → K unit) l : (∀ x, frames P (f x)) → frames P (for_each f l).
Proof. intros H. induction l as [|x l IH]; [apply frames_ret|]. apply frames_bind; [apply H|done]. Qed.

Lemma frames_get P e k : frames P (kget e k).
Proof. apply frames_same. intros w. unfold kget. by destruct (kv_down e VGet k). Qed.

Lemma frames_list P e ns : frames P (klist_secrets e ns).
Proof. apply frames_same. intros w. unfold klist_secrets. by destruct (kv_down e VList _). Qed.

Lemma frames_insert (P : okey → Prop) k o w : P k → let w' := set_objects (<[k := o]> (w_objects w)) w in
  (∀ k', ¬ P k' → w_objects w' !! k' = w_objects w !! k') ∧ (∀ k', is_Some (w_objects w !! k') → is_Some (w_objects w' !! k')) ∧ w_projects w' = w_projects w.
Proof.
  intros Hk. cbn. split_and!; [|intros k'; rewrite lookup_insert_is_Some'; auto|done].
  intros k' Hk'. apply lookup_insert_ne. by intros ->.
Qed.

Lemma frames_create (P : okey → Prop) e k o : P k → frames P (create_if_absent e k o).
Proof.
  intros Hk w. unfold create_if_absent. destruct (kv_down e VCreate k); [done|]. destruct (w_objects w !! k); [done|].
  destruct (_ || _); [|done]. by apply frames_insert.
Qed.

Lemma frames_update (P : okey → Prop) e k was o : P k → frames P (kupdate e k was o).
Proof.
  intros Hk w. unfold kupdate. destruct (kv_down e VUpdate k); [done|]. destruct (w_objects w !! k); [|done].
  destruct (bool_decide _); [|done]. by apply frames_insert.
Qed.

Lemma frames_register P e mcp pub : frames P (registerAgentNKey c e mcp pub).
Proof.
  apply frames_same. intros w. unfold registerAgentNKey. cbv zeta. destruct (kv_register e) as [data|]; [|done].
  destruct (unmarshal _ _ data) as [resp|]; [|done]. by destruct (gr_OK resp).
Qed.

#[local] Create HintDb frames.
#[local] Hint Resolve frames_ret frames_fail frames_get frames_list frames_create frames_update frames_register : frames.

Ltac frames_tac := repeat (intros; lazymatch goal with
  | |- frames _ (_ ≫= _) => apply frames_bind
  | |- frames _ (wrap _ _) => apply frames_wrap
  | |- frames _ (tries _) => apply frames_tries
  | |- frames _ (for_each _ _) => apply frames_for_each
  | |- frames _ (match _ with _ => _ end) => case_match; subst
  | |- _ => solve [eauto with frames]
  end).

(** The objects of a user: the namespace and what is in it. *)
Definition of_user (userNs : string) (k : okey) : Prop := k = namespace_key userNs ∨ k.2.1 = userNs.

Lemma frames_addOwner (P : okey → Prop) e mcp k was o : P k → frames P (addOwnerIfMissing e mcp k was o).
Proof. intros Hk. unfold addOwnerIfMissing. case_match; eauto with frames. Qed.

Lemma frames_ensureOwned (P : okey → Prop) e mcp k o : P k → frames P (ensureOwned e mcp k o).
Proof. intros Hk. unfold ensureOwned. apply frames_bind; [apply frames_get|]. intros [a|]; [by apply frames_addOwner|by apply frames_create]. Qed.
#[local] Hint Resolve frames_addOwner frames_ensureOwned : frames.

Lemma frames_namespace e mcp ns tpl : frames (of_user ns) (reconcileNamespace e mcp ns tpl).
Proof. assert (of_user ns (namespace_key ns)) by (by left). unfold reconcileNamespace. frames_tac. Qed.

Lemma in_ns kd ns name : of_user ns (kd, (ns, name)).
Proof. by right. Qed.
#[local] Hint Resolve in_ns : frames.

Lemma frames_rbac e mcp ns : frames (of_user ns) (reconcileRBAC e mcp ns).
Proof. unfold reconcileRBAC. frames_tac. Qed.

Lemma frames_refresh e mcp ns o : frames (of_user ns) (refresh_user_secrets c e mcp ns o).
Proof. unfold refresh_user_secrets, user_secrets_key. cbv zeta. frames_tac. Qed.

Lemma frames_copy e ns src : frames (of_user ns) (copy_pull_secret e ns src).
Proof.
  intros w. unfold copy_pull_secret. cbv zeta. destruct (negb _); [done|]. pose proof (frames_get (of_user ns) e (KSecret, (ns, src.1)) w) as Hg.
  destruct (kget e _ w) as [[[o|]|err] w1]; cbn [snd] in Hg; [done| |];
    rewrite wrap_world; destruct (frames_create (of_user ns) e (KSecret, (ns, src.1)) (plain_obj (BData (type_of src.2) (data_of src.2) ∅)) (in_ns _ _ _) w1) as (H1 & H2 & H3), Hg as (H4 & H5 & H6);
    (split_and!; [intros k Hk; by rewrite H1, H4|by auto|congruence]).
Qed.

Lemma frames_secrets e mcp ns : frames (of_user ns) (reconcileSecrets c e mcp ns).
Proof. pose proof frames_copy. pose proof frames_refresh. unfold reconcileSecrets, user_secrets_key. cbv zeta. frames_tac. Qed.

Lemma frames_agent_key e mcp ns : frames (of_user ns) (reconcileAgentNKey c e mcp ns).
Proof. unfold reconcileAgentNKey, store_seed, agent_key. frames_tac. Qed.

Lemma frames_pvc e mcp ns name size cl : frames (of_user ns) (ensurePVCCR e mcp ns name size cl).
Proof. unfold ensurePVCCR. cbv zeta. frames_tac. Qed.

Lemma frames_deployment e mcp ns tpl : frames (of_user ns) (reconcileDeployment c e mcp ns tpl).
Proof.
  pose proof frames_pvc. unfold reconcileDeployment, deployment_key. cbv zeta. frames_tac; try (by apply frames_same).
Qed.

Lemma frames_template e : frames (λ _, False) (loadTemplate c e).
Proof. unfold loadTemplate. frames_tac. Qed.

(** ** Confinement *)

(** The projects are the same, but for the status of the one with key [k0]. *)
Definition specs_kept (k0 : string * string) (w w' : World) : Prop := ∀ k,
  match w_projects w !! k with
  | None => w_projects w' !! k = None
  | Some m => ∃ st, w_projects w' !! k = Some (with_status st m) ∧ (k ≠ k0 → st = mp_Status m)
  end.

Definition confined (userNs : string) (k0 : string * string) (w w' : World) : Prop :=
  (∀ k, ¬ of_user userNs k → w_objects w' !! k = w_objects w !! k) ∧
  (∀ k, is_Some (w_objects w !! k) → is_Some (w_objects w' !! k)) ∧ specs_kept k0 w w'.

Lemma with_same_status m : with_status (mp_Status m) m = m.
Proof. by destruct m. Qed.

Lemma specs_kept_same k0 w w' : w_projects w' = w_projects w → specs_kept k0 w w'.
Proof. intros H k. rewrite H. destruct (w_projects w !! k) as [m|]; [|done]. exists (mp_Status m). by rewrite with_same_status. Qed.

#[local] Instance confined_preorder ns k0 : PreOrder (confined ns k0).
Proof.
  split; [intros w; split_and!; [done|done|by apply specs_kept_same]|]. intros w1 w2 w3 (H1 & H2 & H3) (H4 & H5 & H6).
  split_and!; [intros k Hk; by rewrite H4, H1|by auto|]. intros k. specialize (H3 k). specialize (H6 k).
  destruct (w_projects w1 !! k) as [m|]; [|rewrite H3 in H6; exact H6]. destruct H3 as (st & H3 & Hst). rewrite H3 in H6. destruct H6 as (st' & H6 & Hst'). exists st'.
  split; [by rewrite H6|]. intros Hk. rewrite Hst' by done. by apply Hst.
Qed.

Lemma frames_confined ns k0 {A} (m : K A) w : frames (of_user ns) m → confined ns k0 w (m w).2.
Proof. intros H. destruct (H w) as (H1 & H2 & H3). split_and!; [done|done|by apply specs_kept_same]. Qed.

Lemma frames_weaken P {A} (m : K A) : frames (λ _, False) m → frames P m.
Proof. intros H w. destruct (H w) as (H1 & H2 & H3). split_and!; [|done|done]. intros k _. apply H1. by intros []. Qed.

Definition key_of (m : MCProject) : string * string := (mp_Namespace m, mp_Name m).

Lemma write_status_confined ns e what m w : confined ns (key_of m) w (write_status e what m w).
Proof.
  unfold write_status. destruct (kv_status e what); [done|]. change (mp_Namespace m, mp_Name m) with (key_of m).
  destruct (w_projects w !! key_of m) as [m0|] eqn:Hm; [|done]. destruct (String.eqb _ _); [|done].
  split_and!; [done|done|]. intros k. cbn. destruct (decide (k = key_of m)) as [->|Hk].
  - rewrite Hm, lookup_insert_eq. by eexists.
  - rewrite lookup_insert_ne by done. destruct (w_projects w !! k) as [m1|]; [|done]. exists (mp_Status m1). by rewrite with_same_status.
Qed.

(** Steps that change the local copy of the project and write its status. *)
Lemma setPhase_spec ns e p m w m' w' : setPhase e p m w = (m', w') → m' = with_phase p m ∧ confined ns (key_of m) w w'.
Proof. unfold setPhase. cbv zeta. intros [= <- <-]. split; [done|]. apply (write_status_confined ns e p (with_phase p m) w). Qed.
Lemma updateCondition_spec ns e ty r m w m' w' : updateCondition e ty r m w = (m', w') → key_of m' = key_of m ∧ mp_Spec m' = mp_Spec m ∧ mp_UID m' = mp_UID m ∧ confined ns (key_of m) w w'.
Proof.
  unfold updateCondition, setCondition. cbv zeta. set (cd := match r with Ok _ => _ | Err _ => _ end). intros [= <- <-]. split_and!; [done..|].
  apply (write_status_confined ns e ty (with_condition ty cd m) w).
Qed.

(** One more step. *)
Lemma confined_frames ns k0 {A} (m : K A) w0 w r w' : m w = (r, w') → frames (of_user ns) m → confined ns k0 w0 w → confined ns k0 w0 w'.
Proof. intros Hm Hf Hc. trans w; [done|]. pose proof (frames_confined ns k0 m w Hf) as H. by rewrite Hm in H. Qed.

Lemma objects_confined e m ns tpl w : confined ns (key_of m) w (reconcile_objects c e m ns tpl w).2.
Proof.
  unfold reconcile_objects.
  destruct (reconcileRBAC e m ns w) as [r1 w1] eqn:E1. destruct (updateCondition e ConditionRBACReady r1 m w1) as [m1 w2] eqn:E2.
  destruct (reconcileSecrets c e m1 ns w2) as [r3 w3] eqn:E3. destruct (updateCondition e ConditionSecretsReady r3 m1 w3) as [m2 w4] eqn:E4.
  destruct (reconcileAgentNKey c e m2 ns w4) as [r5 w5] eqn:E5. destruct (reconcileDeployment c e m2 ns tpl w5) as [r6 w6] eqn:E6.
  destruct (updateCondition e ConditionDeploymentReady r6 m2 w6) as [m3 w7] eqn:E7.
  apply (updateCondition_spec ns) in E2 as (K2 & _ & _ & C2), E4 as (K4 & _ & _ & C4), E7 as (K7 & _ & _ & C7). rewrite K4, K2 in C7. rewrite K2 in C4.
  assert (C : confined ns (key_of m) w w7).
  { trans w6; [|done]. eapply confined_frames; [exact E6|apply frames_deployment|]. eapply confined_frames; [exact E5|apply frames_agent_key|].
    trans w3; [|done]. eapply confined_frames; [exact E3|apply frames_secrets|]. trans w1; [|done]. eapply confined_frames; [exact E1|apply frames_rbac|done]. }
  assert (K3 : key_of m3 = key_of m) by (by rewrite K7, K4, K2).
  destruct (_ && _).
  - trans w7; [done|]. rewrite <- K3. apply (write_status_confined ns e PhaseReady (with_phase PhaseReady (with_reconciled ns (kv_now e) m3)) w7).
  - trans w7; [done|]. rewrite <- K3. apply (write_status_confined ns e PhaseProvisioning (with_phase PhaseProvisioning m3) w7).
Qed.

Lemma project_confined e m w : confined (user_namespace (ms_UserSlug (mp_Spec m))) (key_of m) w (reconcile_project c e m w).2.
Proof.
  unfold reconcile_project. set (ns := user_namespace _). destruct (loadTemplate c e w) as [[tpl|err] w1] eqn:E1.
  - assert (C1 : confined ns (key_of m) w w1) by (eapply confined_frames; [exact E1|apply frames_weaken, frames_template|done]).
    destruct (reconcileNamespace e m ns tpl w1) as [r2 w2] eqn:E2. destruct (updateCondition e ConditionNamespaceReady r2 m w2) as [m1 w3] eqn:E3.
    apply (updateCondition_spec ns) in E3 as (K3 & _ & _ & C3).
    assert (C : confined ns (key_of m) w w3) by (trans w2; [eapply confined_frames; [exact E2|apply frames_namespace|done]|done]).
    destruct r2; trans w3; [done| |done|].
    + rewrite <- K3. apply objects_confined.
    + rewrite <- K3. apply (write_status_confined ns e PhaseFailed (with_phase PhaseFailed m1) w3).
  - trans w1; [eapply confined_frames; [exact E1|apply frames_weaken, frames_template|done]|].
    cbn [snd]. set (cd := {| cn_Status := false; cn_Reason := _; cn_Message := _ |}). apply (write_status_confined ns e ConditionDeploymentReady (with_condition ConditionDeploymentReady cd m) w1).
Qed.

(** Resources are stored under their own names. *)
Definition named (w : World) : Prop := ∀ k m, w_projects w !! k = Some m → key_of m = k.

Lemma user_namespace_inj u v : user_namespace u = user_namespace v → u = v.
Proof. apply (string_app_inj_l "mclaude-"). Qed.

Lemma of_user_disjoint u v k : u ≠ v → of_user (user_namespace u) k → ¬ of_user (user_namespace v) k.
Proof.
  intros Hne [->|Hu] [Hv|Hv].
  - apply Hne, user_namespace_inj. exact (f_equal (λ k : okey, k.2.2) Hv).
  - discriminate Hv.
  - by subst k.
  - rewrite Hu in Hv. by apply user_namespace_inj in Hv.
Qed.

(** C7. Users are confined: whatever calls fail and however outdated the cache is, the
    reconciling of a project changes no object outside the namespace of its user, in
    particular none in the namespace of another user, makes no object disappear, and
    changes no project but the status of its own. *)
Theorem reconcile_confined e req w m :
  named (kv_view e w) → w_projects (kv_view e w) !! req = Some m →
  let u := ms_UserSlug (mp_Spec m) in let w' := (Reconcile c e req w).2 in
  (∀ k, ¬ of_user (user_namespace u) k → w_objects w' !! k = w_objects w !! k) ∧
  (∀ v k, v ≠ u → of_user (user_namespace v) k → w_objects w' !! k = w_objects w !! k) ∧
  (∀ k, is_Some (w_objects w !! k) → is_Some (w_objects w' !! k)) ∧ specs_kept req w w'.
Proof.
  intros Hn Hm u w'. assert (H : confined (user_namespace u) req w w').
  { unfold w', Reconcile. destruct (kv_down e VGet (KMCProject, req)); [done|]. rewrite Hm. pose proof (Hn _ _ Hm) as Hk.
    destruct (String.eqb _ ""); [rewrite <- Hk; apply (write_status_confined _ e PhasePending (with_phase PhasePending m) w)|].
    destruct (String.eqb _ PhasePending); [|rewrite <- Hk; apply project_confined].
    destruct (setPhase e PhaseProvisioning m w) as [m1 w1] eqn:E1. apply (setPhase_spec (user_namespace u)) in E1 as [-> C1].
    trans w1; [by rewrite <- Hk|]. rewrite <- Hk. apply (project_confined e (with_phase PhaseProvisioning m)). }
  destruct H as (H1 & H2 & H3). split_and!; [done| |done|done]. intros v k Hne Hv. apply H1. by eapply of_user_disjoint.
Qed.

(** ** Completion *)

(** No call fails and the cache is up to date. *)
Record calm (e : kube_env) : Prop := {
  calm_down v k : kv_down e v k = None;
  calm_status s : kv_status e s = None;
  calm_view w : kv_view e w = w;
}.

(** A key pair can be made and the control plane accepts it. *)
Definition accepts (e : kube_env) (pub seed : string) : Prop :=
  kv_nkey e = Some (pub, seed) ∧ seed ≠ ""%string ∧
  (kv_nc e = true → ∃ data rep, kv_register e = Some data ∧ unmarshal (dec_struct agentRegisterReply_fields) {| gr_OK := false; gr_Error := "" |} data = Some rep ∧ gr_OK rep = true).

Definition present (w : World) (k : okey) : Prop := is_Some (obj w k).

Lemma kget_calm e (k : okey) w : calm e → kget e k w = (Ok (obj w k), w).
Proof. intros [Hd _ Hv]. unfold kget. by rewrite Hd, Hv. Qed.

Lemma create_calm e (k : okey) o w : calm e → k.1 = KNamespace ∨ present w (namespace_key k.2.1) →
  ∃ w', create_if_absent e k o w = (Ok (), w') ∧ present w' k ∧ (obj w k = None → obj w' k = Some o).
Proof.
  intros [Hd _ _] Hns. unfold create_if_absent. rewrite Hd. destruct (obj w k) as [o'|] eqn:Hk; [exists w; split; [done|]; split; [by exists o'|congruence]|].
  assert (bool_decide (k.1 = KNamespace) || bool_decide (is_Some (w_objects w !! (KNamespace, (""%string, k.2.1)))) = true) as ->.
  { apply orb_true_iff. destruct Hns; [left|right]; by apply bool_decide_eq_true. }
  eexists. split; [done|]. unfold present. cbn. rewrite lookup_insert_eq. split; [by eexists|done].
Qed.

Lemma update_calm e (k : okey) was o w : calm e → obj w k = Some was → kupdate e k was o w = (Ok (), set_objects (<[k := o]> (w_objects w)) w).
Proof. intros [Hd _ _] Hk. unfold kupdate. by rewrite Hd, Hk, bool_decide_eq_true_2. Qed.

(** [m] succeeds in [w], and then the objects are there. *)
Definition provides (m : K unit) (ks : list okey) (w : World) : Prop := ∃ w', m w = (Ok (), w') ∧ Forall (present w') ks.

Lemma provides_bind P ns m1 m2 ks1 ks2 w : frames P m1 → frames P m2 → present w (namespace_key ns) →
  provides m1 ks1 w → (∀ w', present w' (namespace_key ns) → provides m2 ks2 w') → provides (m1;; m2) (ks1 ++ ks2) w.
Proof.
  intros F1 F2 Hns (w1 & E1 & H1) H2. specialize (F1 w). rewrite E1 in F1. destruct F1 as (_ & G1 & _).
  destruct (H2 w1) as (w2 & E2 & H3); [by apply G1|]. exists w2. unfold mbind, K_bind. rewrite E1. split; [done|].
  specialize (F2 w1). rewrite E2 in F2. destruct F2 as (_ & G2 & _). apply Forall_app. split; [|done]. eapply Forall_impl; [exact H1|]. intros k. apply G2.
Qed.

Lemma provides_wrap ctx m ks w : provides m ks w → provides (wrap ctx m) ks w.
Proof. intros (w' & E & H). exists w'. split; [by apply wrap_ok|done]. Qed.

Lemma addOwner_calm e mcp (k : okey) o w : calm e → obj w k = Some o → provides (addOwnerIfMissing e mcp k o o) [k] w.
Proof.
  intros Hc Hk. unfold addOwnerIfMissing. destruct (owner_missing mcp k.2.1 o).
  - eexists. split; [by apply update_calm|]. apply Forall_singleton. unfold present. cbn. by rewrite lookup_insert_eq.
  - exists w. split; [done|]. apply Forall_singleton. by exists o.
Qed.

Lemma ensureOwned_calm e mcp kd ns name o w : calm e → present w (namespace_key ns) → provides (ensureOwned e mcp (kd, (ns, name)) o) [(kd, (ns, name))] w.
Proof.
  intros Hc Hns. unfold provides, ensureOwned, mbind, K_bind. rewrite kget_calm by done. destruct (obj w (kd, (ns, name))) as [o'|] eqn:Hk.
  - by apply addOwner_calm.
  - destruct (create_calm e (kd, (ns, name)) (set_owner mcp ns o) w Hc) as (w' & E & H & _); [by right|]. exists w'. split; [done|]. by apply Forall_singleton.
Qed.

Definition rbac_keys (ns : string) : list okey := [(KServiceAccount, (ns, "mclaude-sa")); (KRole, (ns, "mclaude-role")); (KRoleBinding, (ns, "mclaude-role"))]%string.

Lemma rbac_calm e mcp ns w : calm e → present w (namespace_key ns) → provides (reconcileRBAC e mcp ns) (rbac_keys ns) w.
Proof.
  intros Hc Hns. unfold reconcileRBAC. change (rbac_keys ns) with ([(KServiceAccount, (ns, "mclaude-sa"%string)) : okey] ++ [(KRole, (ns, "mclaude-role"%string)) : okey] ++ [(KRoleBinding, (ns, "mclaude-role"%string)) : okey]).
  apply (provides_bind (of_user ns) ns); [frames_tac|frames_tac|done|by apply provides_wrap, ensureOwned_calm|]. intros w1 H1.
  apply (provides_bind (of_user ns) ns); [frames_tac|frames_tac|done|by apply provides_wrap, ensureOwned_calm|]. intros w2 H2.
  by apply provides_wrap, ensureOwned_calm.
Qed.

Lemma refresh_calm e mcp ns o w : calm e → obj w (user_secrets_key ns) = Some o → provides (refresh_user_secrets c e mcp ns o) [user_secrets_key ns] w.
Proof.
  intros Hc Hk. unfold refresh_user_secrets. cbv zeta. set (stale := bool_decide _). set (local := with_body _ o). set (tok := oauth_stale c _). clearbody stale local tok.
  unfold provides, mbind, K_bind, tries, addOwnerIfMissing. change ((user_secrets_key ns).2.1) with ns. destruct (owner_missing mcp ns local); cbn [andb fst snd].
  - rewrite (update_calm e _ o _ w Hc Hk). cbn [is_ok fst snd]. set (w1 := set_objects _ w).
    assert (H1 : obj w1 (user_secrets_key ns) = Some (with_owner (mp_UID mcp) local)) by (cbn; by rewrite lookup_insert_eq).
    destruct (stale || tok).
    + eexists. split; [apply wrap_ok; by apply update_calm|]. apply Forall_singleton. unfold present. cbn. by rewrite lookup_insert_eq.
    + exists w1. split; [done|]. apply Forall_singleton. by eexists.
  - destruct (stale || tok).
    + eexists. split; [apply wrap_ok; by apply update_calm|]. apply Forall_singleton. unfold present. cbn. by rewrite lookup_insert_eq.
    + exists w. split; [done|]. apply Forall_singleton. by eexists.
Qed.

Lemma copies_calm e ns l w : calm e → present w (namespace_key ns) → provides (for_each (copy_pull_secret e ns) l) [] w.
Proof.
  intros Hc Hns. revert w Hns. induction l as [|x l IH]; intros w Hns; cbn [for_each]; [by exists w|].
  apply (provides_bind (of_user ns) ns _ _ [] []); [apply frames_copy|apply frames_for_each; intros; apply frames_copy|done| |by apply IH].
  unfold provides, copy_pull_secret. cbv zeta. destruct (negb _); [by exists w|]. rewrite kget_calm by done. destruct (obj w (KSecret, (ns, x.1))); [by exists w|].
  destruct (create_calm e (KSecret, (ns, x.1)) (plain_obj (BData (type_of x.2) (data_of x.2) ∅)) w Hc) as (w' & E & _); [by right|].
  exists w'. split; [by apply wrap_ok|done].
Qed.

Definition secret_keys (ns : string) : list okey := [(KConfigMap, (ns, "user-config"%string)); user_secrets_key ns].

Lemma secrets_calm e mcp ns w : calm e → present w (namespace_key ns) → provides (reconcileSecrets c e mcp ns) (secret_keys ns) w.
Proof.
  intros Hc Hns. unfold reconcileSecrets.
  change (secret_keys ns) with ([(KConfigMap, (ns, "user-config"%string)) : okey] ++ [user_secrets_key ns]).
  pose proof frames_copy as Fc. pose proof frames_refresh as Fr.
  apply (provides_bind (of_user ns) ns); [frames_tac|unfold user_secrets_key; cbv zeta; frames_tac|done|by apply provides_wrap, ensureOwned_calm|]. intros w1 H1.
  unfold provides, mbind, K_bind. rewrite (wrap_ok _ _ _ _ _ (kget_calm e (user_secrets_key ns) w1 Hc)). cbv zeta.
  change [user_secrets_key ns] with ([user_secrets_key ns] ++ [])%list.
  set (data := if String.eqb (cs_devOAuthToken c) "" then _ else _).
  assert (Hs : provides (match obj w1 (user_secrets_key ns) with Some existing => refresh_user_secrets c e mcp ns existing
     | None => wrap "create user-secrets: " (create_if_absent e (user_secrets_key ns) (set_owner mcp ns (plain_obj (BData "" data ∅)))) end) [user_secrets_key ns] w1).
  { destruct (obj w1 (user_secrets_key ns)) as [o|] eqn:Hk; [by apply refresh_calm|]. apply provides_wrap.
    destruct (create_calm e (user_secrets_key ns) (set_owner mcp ns (plain_obj (BData "" data ∅))) w1 Hc) as (w' & E & H & _); [by right|].
    exists w'. split; [done|by apply Forall_singleton]. }
  destruct Hs as (w2 & E2 & H2). rewrite E2.
  assert (Hns2 : present w2 (namespace_key ns)).
  { assert (F : frames (of_user ns) (match obj w1 (user_secrets_key ns) with Some existing => refresh_user_secrets c e mcp ns existing
     | None => wrap "create user-secrets: " (create_if_absent e (user_secrets_key ns) (set_owner mcp ns (plain_obj (BData "" data ∅)))) end)) by (unfold user_secrets_key; frames_tac).
    specialize (F w1). rewrite E2 in F. by apply F. }
  unfold klist_secrets, wrap. rewrite (calm_down e Hc). set (l := list_order _).
  destruct (copies_calm e ns l w2 Hc Hns2) as (w3 & E3 & _). exists w3. split; [done|]. apply Forall_app. split; [|done].
  assert (F : frames (of_user ns) (for_each (copy_pull_secret e ns) l)) by (apply frames_for_each; intros; apply frames_copy).
  specialize (F w2). rewrite E3 in F. eapply Forall_impl; [exact H2|]. intros k. apply F.
Qed.

(** *** The agent's key *)

Lemma register_calm e m pub seed w : accepts e pub seed → kv_nc e = true →
  registerAgentNKey c e m pub w = (Ok (), emit (KRequested (register_subject c) (register_payload m pub)) w).
Proof. intros (_ & _ & Hr) Hn. destruct (Hr Hn) as (data & rep & H1 & H2 & H3). unfold registerAgentNKey. cbv zeta. by rewrite H1, H2, H3. Qed.

Lemma seed_with_seed seed o : seed_of (with_seed seed o) = seed.
Proof. unfold seed_of, with_seed. cbn. by rewrite lookup_insert_eq. Qed.

(** The secret holds a seed afterwards. *)
Definition has_seed (w : World) (k : okey) : Prop := ∃ o, obj w k = Some o ∧ seed_of o ≠ ""%string.

Lemma store_seed_calm e m ns seed w : calm e → present w (namespace_key ns) → seed ≠ ""%string →
  ∃ w', store_seed e m ns (obj w (agent_key ns m)) seed w = (Ok (), w') ∧ has_seed w' (agent_key ns m).
Proof.
  intros Hc Hns Hs. unfold store_seed. destruct (obj w (agent_key ns m)) as [o|] eqn:Hk.
  - eexists. split; [apply wrap_ok; by apply update_calm|]. exists (with_seed seed o). cbn. by rewrite lookup_insert_eq, seed_with_seed.
  - destruct (create_calm e (agent_key ns m) (set_owner m ns (plain_obj (BData "" {["nkey_seed"%string := seed]} ∅))) w Hc) as (w' & E & _ & H); [by right|].
    exists w'. split; [by apply wrap_ok|]. eexists. split; [by apply H|]. unfold seed_of, set_owner. destruct (owner_allowed _ _); cbn; by rewrite lookup_singleton_eq.
Qed.

Lemma agent_key_calm e m ns pub seed w : calm e → accepts e pub seed → present w (namespace_key ns) →
  ∃ w', reconcileAgentNKey c e m ns w = (Ok (), w') ∧ has_seed w' (agent_key ns m).
Proof.
  intros Hc Ha Hns. unfold reconcileAgentNKey, mbind, K_bind. rewrite (wrap_ok _ _ _ _ _ (kget_calm e (agent_key ns m) w Hc)).
  destruct (match obj w (agent_key ns m) with Some o => negb (String.eqb (seed_of o) "") | None => false end) eqn:Hs.
  - exists w. split; [done|]. destruct (obj w (agent_key ns m)) as [o|] eqn:Hk; [|done]. exists o. split; [done|]. by apply negb_true_iff, String.eqb_neq in Hs.
  - pose proof Ha as (Hk & Hseed & _). rewrite Hk. destruct (kv_nc e) eqn:Hnc.
    + rewrite (register_calm e m pub seed w Ha Hnc). apply (store_seed_calm e m ns seed (emit (KRequested (register_subject c) (register_payload m pub)) w)); done.
    + by apply (store_seed_calm e m ns seed w).
Qed.

(** *** The deployment *)

Lemma pvc_calm e m ns name size cl w : calm e → present w (namespace_key ns) → provides (ensurePVCCR e m ns name size cl) [(KPersistentVolumeClaim, (ns, name))] w.
Proof.
  intros Hc Hns. unfold provides, ensurePVCCR, mbind, K_bind. rewrite (wrap_ok _ _ _ _ _ (kget_calm e (KPersistentVolumeClaim, (ns, name)) w Hc)).
  destruct (obj w (KPersistentVolumeClaim, (ns, name))) as [o|] eqn:Hk.
  - exists w. split; [done|]. apply Forall_singleton. by exists o.
  - cbv zeta. set (o := set_owner _ _ _). destruct (create_calm e (KPersistentVolumeClaim, (ns, name)) o w Hc) as (w' & E & H & _); [by right|].
    exists w'. split; [by apply wrap_ok|]. by apply Forall_singleton.
Qed.

(** The deployment runs an agent with the identity of the project and its key. *)
Definition runs_agent (w : World) (ns : string) (m : MCProject) : Prop := ∃ d t,
  obj w (deployment_key ns m) = Some d ∧ ko_body d = BDeployment t ∧
  ("USER_SLUG", ms_UserSlug (mp_Spec m))%string ∈ pt_Env t ∧ ("PROJECT_SLUG", ms_ProjectSlug (mp_Spec m))%string ∈ pt_Env t ∧
  ("agent-nkey"%string, VSecret (agentNKeySecretName (ms_ProjectID (mp_Spec m)))) ∈ pt_Volumes t.

Lemma template_identity e m ns tpl w : let t := buildPodTemplate c e m ns tpl w in
  ("USER_SLUG", ms_UserSlug (mp_Spec m))%string ∈ pt_Env t ∧ ("PROJECT_SLUG", ms_ProjectSlug (mp_Spec m))%string ∈ pt_Env t ∧
  ("agent-nkey"%string, VSecret (agentNKeySecretName (ms_ProjectID (mp_Spec m)))) ∈ pt_Volumes t.
Proof.
  unfold buildPodTemplate. cbv zeta. cbn [pt_Env pt_Volumes]. unfold pod_env, pod_volumes. split_and!; apply elem_of_app; left; [apply elem_of_app; left..|].
  - by do 4 right; left.
  - by do 6 right; left.
  - by do 5 right; left.
Qed.

Definition claim_keys (ns pid : string) : list okey := [(KPersistentVolumeClaim, (ns, "project-" +:+ pid)); (KPersistentVolumeClaim, (ns, "nix-" +:+ pid))]%string.

Lemma deployment_calm e m ns tpl w : calm e → present w (namespace_key ns) →
  ∃ w', reconcileDeployment c e m ns tpl w = (Ok (), w') ∧ Forall (present w') (claim_keys ns (ms_ProjectID (mp_Spec m))) ∧ runs_agent w' ns m.
Proof.
  intros Hc Hns. unfold reconcileDeployment. cbv zeta. set (pid := ms_ProjectID (mp_Spec m)). unfold mbind, K_bind.
  destruct (pvc_calm e m ns ("project-" +:+ pid) (tp_projectPvcSize tpl) (tp_projectPvcStorageClass tpl) w Hc Hns) as (w1 & E1 & H1). rewrite (wrap_ok _ _ _ _ _ E1).
  pose proof (frames_pvc e m ns ("project-" +:+ pid) (tp_projectPvcSize tpl) (tp_projectPvcStorageClass tpl) w) as (_ & G1 & _). rewrite E1 in G1. cbn [snd] in G1.
  destruct (pvc_calm e m ns ("nix-" +:+ pid) (tp_nixPvcSize tpl) (tp_nixPvcStorageClass tpl) w1 Hc) as (w2 & E2 & H2); [by apply G1|]. rewrite (wrap_ok _ _ _ _ _ E2).
  pose proof (frames_pvc e m ns ("nix-" +:+ pid) (tp_nixPvcSize tpl) (tp_nixPvcStorageClass tpl) w1) as (_ & G2 & _). rewrite E2 in G2. cbn [snd] in G2.
  rewrite (wrap_ok _ _ _ _ _ (kget_calm e (deployment_key ns m) w2 Hc)).
  pose proof (template_identity e m ns tpl w2) as Ht. cbv zeta in Ht. set (t := buildPodTemplate c e m ns tpl w2) in *.
  assert (Hd : ∃ w3, match obj w2 (deployment_key ns m) with
     | Some d => kupdate e (deployment_key ns m) d (with_body (BDeployment t) d)
     | None => wrap "create deployment: " (create_if_absent e (deployment_key ns m) (set_owner m ns (with_labels (deployment_labels pid) (plain_obj (BDeployment t)))))
     end w2 = (Ok (), w3) ∧ (∀ k, present w2 k → present w3 k) ∧ ∃ d, obj w3 (deployment_key ns m) = Some d ∧ ko_body d = BDeployment t).
  { destruct (obj w2 (deployment_key ns m)) as [d|] eqn:Hk.
    - eexists. split; [by apply update_calm|]. split; [intros k; unfold present; cbn; rewrite lookup_insert_is_Some'; auto|].
      eexists. cbn. by rewrite lookup_insert_eq.
    - set (o := set_owner _ _ _). destruct (create_calm e (deployment_key ns m) o w2 Hc) as (w3 & E3 & _ & H3); [right; by apply G2, G1|].
      exists w3. split; [by apply wrap_ok|]. split; [|exists o; split; [by apply H3|unfold o, set_owner; by destruct (owner_allowed _ _)]].
      pose proof (frames_create (λ _, True) e (deployment_key ns m) o I w2) as (_ & G3 & _). by rewrite E3 in G3. }
  destruct Hd as (w3 & E3 & G3 & d & Hd & Hb). exists w3. split; [exact E3|]. split.
  - change (claim_keys ns pid) with ([(KPersistentVolumeClaim, (ns, "project-" +:+ pid)%string) : okey] ++ [(KPersistentVolumeClaim, (ns, "nix-" +:+ pid)%string) : okey]).
    apply Forall_app. split; (eapply Forall_impl; [|intros k; apply G3]); [eapply Forall_impl; [exact H1|]; intros k; apply G2|exact H2].
  - exists d, t. split; [done|]. by split.
Qed.

(** The deployment changes no secret. *)
Definition workload (k : okey) : Prop := k.1 = KPersistentVolumeClaim ∨ k.1 = KDeployment.
Lemma frames_workload e m ns tpl : frames workload (reconcileDeployment c e m ns tpl).
Proof.
  assert (Hp : ∀ x, workload (KPersistentVolumeClaim, x)) by (by left). assert (Hd : workload (deployment_key ns m)) by (by right).
  assert (Hc : ∀ name size cl, frames workload (ensurePVCCR e m ns name size cl)) by (intros; unfold ensurePVCCR; cbv zeta; frames_tac).
  unfold reconcileDeployment. cbv zeta. frames_tac; by apply frames_same.
Qed.

(** *** Status *)

(** The same resource, whatever its status. *)
Definition ident (m m' : MCProject) : Prop := key_of m' = key_of m ∧ mp_Spec m' = mp_Spec m ∧ mp_UID m' = mp_UID m.
#[local] Instance ident_preorder : PreOrder ident.
Proof. split; [by intros m|]. intros m1 m2 m3 (H1 & H2 & H3) (H4 & H5 & H6). split_and!; congruence. Qed.

(** The store holds the resource that the local copy is of. *)
Definition tracks (w : World) (m : MCProject) : Prop := ∃ m0, w_projects w !! key_of m = Some m0 ∧ ident m m0.

Lemma tracks_ident w m m' : ident m m' → tracks w m → tracks w m'.
Proof. intros (H1 & H2 & H3) (m0 & Hm & H4 & H5 & H6). exists m0. rewrite H1. split; [done|]. split_and!; congruence. Qed.

Lemma write_calm e what m w : (∀ s, kv_status e s = None) → tracks w m → let w' := write_status e what m w in
  w_objects w' = w_objects w ∧ w_out w' = w_out w ∧ ∃ m', w_projects w' !! key_of m = Some m' ∧ ident m m' ∧ mp_Status m' = mp_Status m.
Proof.
  intros Hs (m0 & Hm & H1 & H2 & H3). unfold write_status. rewrite Hs. cbv zeta. change (mp_Namespace m, mp_Name m) with (key_of m).
  rewrite Hm, H3, String.eqb_refl. split; [done|]. split; [done|]. exists (with_status (mp_Status m) m0). cbn. rewrite lookup_insert_eq.
  split; [done|]. split; [|done]. by split_and!.
Qed.

Lemma condition_calm e ty r m w m1 w1 : (∀ s, kv_status e s = None) → tracks w m → updateCondition e ty r m w = (m1, w1) → ident m m1 ∧ w_objects w1 = w_objects w ∧ tracks w1 m1.
Proof.
  unfold updateCondition, setCondition. cbv zeta. set (cd := match r with Ok _ => _ | Err _ => _ end). intros Hc Ht [= <- <-].
  assert (Hi : ident m (with_condition ty cd m)) by (by split_and!). split; [done|].
  destruct (write_calm e ty (with_condition ty cd m) w Hc) as (H1 & _ & m' & H2 & H3 & _); [by eapply tracks_ident|]. split; [done|]. by exists m'.
Qed.

Lemma provides_frames ks ns (m : K unit) w : frames (of_user ns) m → provides m ks w → ∃ w', m w = (Ok (), w') ∧ Forall (present w') ks ∧ (∀ k, present w k → present w' k) ∧ w_projects w' = w_projects w.
Proof. intros F (w' & E & H). specialize (F w). rewrite E in F. destruct F as (_ & G & P). by exists w'. Qed.

(** Everything a project needs. *)
Definition provisioned (w : World) (ns : string) (m : MCProject) : Prop :=
  Forall (present w) (namespace_key ns :: rbac_keys ns ++ secret_keys ns ++ claim_keys ns (ms_ProjectID (mp_Spec m))) ∧
  has_seed w (agent_key ns m) ∧ runs_agent w ns m.

Lemma provisioned_same w w' ns m m' : w_objects w' = w_objects w → mp_Spec m' = mp_Spec m → provisioned w ns m → provisioned w' ns m'.
Proof.
  intros Hw Hm. unfold provisioned, has_seed, runs_agent, agent_key, deployment_key. rewrite Hm. setoid_rewrite Hw. intros (H1 & H2 & H3).
  split; [|by split]. eapply Forall_impl; [exact H1|]. intros k. unfold present. by rewrite Hw.
Qed.

Lemma objects_calm e m ns tpl pub seed w : calm e → accepts e pub seed → tracks w m → present w (namespace_key ns) →
  ∃ w' m', reconcile_objects c e m ns tpl w = (RDone, w') ∧ w_projects w' !! key_of m = Some m' ∧ ident m m' ∧
    st_Phase (mp_Status m') = PhaseReady ∧ st_UserNamespace (mp_Status m') = ns ∧ provisioned w' ns m.
Proof.
  intros Hc Ha Ht Hns. unfold reconcile_objects.
  destruct (provides_frames _ ns _ w (frames_rbac e m ns) (rbac_calm e m ns w Hc Hns)) as (w1 & E1 & K1 & G1 & P1). rewrite E1.
  destruct (updateCondition e ConditionRBACReady (Ok ()) m w1) as [m1 w2] eqn:E2.
  apply condition_calm in E2 as (I1 & O2 & T2); [|apply Hc|by unfold tracks; rewrite P1]. assert (Hs1 : mp_Spec m1 = mp_Spec m) by apply I1.
  assert (N2 : present w2 (namespace_key ns)) by (unfold present; rewrite O2; by apply G1).
  destruct (provides_frames _ ns _ w2 (frames_secrets e m1 ns) (secrets_calm e m1 ns w2 Hc N2)) as (w3 & E3 & K3 & G3 & P3). rewrite E3.
  destruct (updateCondition e ConditionSecretsReady (Ok ()) m1 w3) as [m2 w4] eqn:E4.
  apply condition_calm in E4 as (I2 & O4 & T4); [|apply Hc|by unfold tracks; rewrite P3]. assert (Hs2 : mp_Spec m2 = mp_Spec m) by (rewrite <- Hs1; apply I2).
  assert (N4 : present w4 (namespace_key ns)) by (unfold present; rewrite O4; by apply G3).
  destruct (agent_key_calm e m2 ns pub seed w4 Hc Ha N4) as (w5 & E5 & S5). rewrite E5.
  pose proof (frames_agent_key e m2 ns w4) as (_ & G5 & P5). rewrite E5 in G5, P5. cbn [snd] in G5, P5.
  destruct (deployment_calm e m2 ns tpl w5 Hc) as (w6 & E6 & K6 & R6); [by apply G5|]. rewrite E6.
  pose proof (frames_deployment e m2 ns tpl w5) as (_ & G6 & P6). rewrite E6 in G6, P6. cbn [snd] in G6, P6.
  destruct (updateCondition e ConditionDeploymentReady (Ok ()) m2 w6) as [m3 w7] eqn:E7.
  apply condition_calm in E7 as (I3 & O7 & T7); [|apply Hc|by unfold tracks; rewrite P6, P5].
  assert (I : ident m m3) by (by trans m1; [|trans m2]). cbn [is_ok andb].
  destruct (write_calm e PhaseReady (with_phase PhaseReady (with_reconciled ns (kv_now e) m3)) w7 (calm_status e Hc)) as (O8 & _ & m8 & L8 & I8 & S8).
  { eapply tracks_ident; [|exact T7]. by split_and!. }
  exists (write_status e PhaseReady (with_phase PhaseReady (with_reconciled ns (kv_now e) m3)) w7), m8.
  split; [done|]. change (key_of (with_phase _ _)) with (key_of m3) in L8. split; [by destruct I as [<- _]|].
  split; [trans m3; [done|]; destruct I8 as (? & ? & ?); by split_and!|]. rewrite S8. split; [done|]. split; [done|].
  apply (provisioned_same w6 _ ns m2); [by rewrite O8, O7|done|].
  assert (G36 : ∀ k, present w3 k → present w6 k) by (intros k Hk; apply G6, G5; unfold present; by rewrite O4).
  assert (G16 : ∀ k, present w1 k → present w6 k) by (intros k Hk; apply G36, G3; unfold present; by rewrite O2).
  split; [|split; [|done]].
  - apply Forall_cons. split; [by apply G6, G5|]. apply Forall_app. split; [eapply Forall_impl; [exact K1|apply G16]|]. apply Forall_app.
    split; [eapply Forall_impl; [exact K3|apply G36]|done].
  - destruct S5 as (o & Ho & Hseed). exists o. split; [|done]. pose proof (frames_workload e m2 ns tpl w5) as (F & _). rewrite E6 in F. cbn [snd] in F.
    rewrite (F (agent_key ns m2)); [done|]. by intros [].
Qed.

Lemma namespace_calm e m ns tpl w : calm e → ∃ w', reconcileNamespace e m ns tpl w = (Ok (), w') ∧ present w' (namespace_key ns) ∧ w_projects w' = w_projects w.
Proof.
  intros Hc. unfold reconcileNamespace, mbind, K_bind. rewrite (wrap_ok _ _ _ _ _ (kget_calm e (namespace_key ns) w Hc)).
  destruct (obj w (namespace_key ns)) as [o|] eqn:Hk.
  - eexists. split; [by apply update_calm|]. split; [|done]. unfold present. cbn. by rewrite lookup_insert_eq.
  - set (o := with_labels _ _). destruct (create_calm e (namespace_key ns) o w Hc) as (w' & E & H & _); [by left|]. exists w'. split; [by apply wrap_ok|]. split; [done|].
    pose proof (frames_create (λ _, True) e (namespace_key ns) o I w) as (_ & _ & P). by rewrite E in P.
Qed.

(** The outcome of a complete reconciling. *)
Definition completed (w' : World) (m m' : MCProject) : Prop :=
  let ns := user_namespace (ms_UserSlug (mp_Spec m)) in
  w_projects w' !! key_of m = Some m' ∧ ident m m' ∧ st_Phase (mp_Status m') = PhaseReady ∧ st_UserNamespace (mp_Status m') = ns ∧ provisioned w' ns m.

Lemma completed_ident w' m1 m m' : ident m m1 → completed w' m1 m' → completed w' m m'.
Proof.
  intros Hi. pose proof Hi as (I1 & I2 & I3). unfold completed. cbv zeta. rewrite I1, I2. intros (H1 & H2 & H3 & H4 & H5).
  split; [done|]. split; [by trans m1|]. split; [done|]. split; [done|]. eapply provisioned_same; [done| |exact H5]. done.
Qed.

Lemma project_calm e pub seed w m : calm e → accepts e pub seed → tracks w m → ∃ w' m', reconcile_project c e m w = (RDone, w') ∧ completed w' m m'.
Proof.
  intros Hc Ha Ht. unfold reconcile_project. cbv zeta. set (ns := user_namespace _).
  assert (Etpl : ∃ tpl, loadTemplate c e w = (Ok tpl, w)).
  { unfold loadTemplate, mbind, K_bind. rewrite (wrap_ok _ _ _ _ _ (kget_calm e _ w Hc)). by eexists. }
  destruct Etpl as [tpl ->]. destruct (namespace_calm e m ns tpl w Hc) as (w1 & E1 & N1 & P1). rewrite E1.
  destruct (updateCondition e ConditionNamespaceReady (Ok ()) m w1) as [m1 w2] eqn:E2.
  apply condition_calm in E2 as (I1 & O2 & T2); [|apply Hc|by unfold tracks; rewrite P1].
  destruct (objects_calm e m1 ns tpl pub seed w2 Hc Ha T2) as (w3 & m3 & E3 & H3); [unfold present; by rewrite O2|].
  exists w3, m3. split; [done|]. apply (completed_ident _ m1); [done|]. unfold completed. cbv zeta. unfold ns in *. by destruct I1 as (_ & -> & _).
Qed.

Lemma phase_calm e pub seed w m : calm e → accepts e pub seed → w_projects w !! key_of m = Some m → st_Phase (mp_Status m) ≠ ""%string →
  ∃ w' m', Reconcile c e (key_of m) w = (RDone, w') ∧ completed w' m m'.
Proof.
  intros Hc Ha Hm Hp. assert (Ht : tracks w m) by (by exists m). unfold Reconcile. rewrite (calm_down e Hc), (calm_view e Hc), Hm. apply String.eqb_neq in Hp. rewrite Hp.
  destruct (String.eqb (st_Phase (mp_Status m)) PhasePending); [|by apply (project_calm e pub seed)].
  unfold setPhase. cbv zeta. destruct (write_calm e PhaseProvisioning (with_phase PhaseProvisioning m) w (calm_status e Hc)) as (_ & _ & m' & L' & I' & _); [by apply (tracks_ident w m)|].
  destruct (project_calm e pub seed (write_status e PhaseProvisioning (with_phase PhaseProvisioning m) w) (with_phase PhaseProvisioning m)) as (w2 & m2 & H); [done|done|by exists m'|].
  by exists w2, m2.
Qed.

(** C8. Provisioning completes: when no call fails, the cache is current and the control
    plane accepts the agent's key, reconciling a project once, and a new one twice,
    makes it ready, whatever objects were there before.  Then all objects of the
    project exist, the agent's secret holds a seed, and the deployment runs an agent
    with the identity of the project. *)
Theorem reconcile_completes e req pub seed w m :
  calm e → accepts e pub seed → named w → w_projects w !! req = Some m →
  let ns := user_namespace (ms_UserSlug (mp_Spec m)) in
  let w1 := if String.eqb (st_Phase (mp_Status m)) "" then (Reconcile c e req w).2 else w in
  ∃ w' m', Reconcile c e req w1 = (RDone, w') ∧ w_projects w' !! req = Some m' ∧ ident m m' ∧
    st_Phase (mp_Status m') = PhaseReady ∧ st_UserNamespace (mp_Status m') = ns ∧ provisioned w' ns m.
Proof.
  intros Hc Ha Hn Hm ns. pose proof (Hn _ _ Hm) as Hk. assert (Ht : tracks w m) by (exists m; rewrite Hk; by split). unfold ns. clear ns.
  destruct (String.eqb_spec (st_Phase (mp_Status m)) "") as [Hp|Hp]; [|rewrite <- Hk in *; by apply (phase_calm e pub seed)]. cbv zeta.
  unfold Reconcile at 2. rewrite (calm_down e Hc), (calm_view e Hc), Hm, Hp, String.eqb_refl. unfold setPhase. cbn [snd].
  destruct (write_calm e PhasePending (with_phase PhasePending m) w (calm_status e Hc)) as (_ & _ & m' & L' & I' & S'); [by apply (tracks_ident w m)|].
  change (key_of (with_phase PhasePending m)) with (key_of m) in L'. assert (Hi : ident m m') by (destruct I' as (? & ? & ?); by split_and!). clear I'.
  assert (Hk' : key_of m' = key_of m) by apply Hi. rewrite <- Hk, <- Hk'.
  destruct (phase_calm e pub seed (write_status e PhasePending (with_phase PhasePending m) w) m') as (w2 & m2 & E2 & H2); [done|done|by rewrite Hk'|by rewrite S'|].
  exists w2, m2. split; [done|]. rewrite Hk'. by apply (completed_ident w2 m').
Qed.

(** ** Seeds are kept

    [keeps_seeds m]: a seed that a secret holds is the same afterwards. *)

Definition keeps_seeds {A} (m : K A) : Prop := ∀ w x o, obj w (KSecret, x) = Some o → seed_of o ≠ ""%string →
  ∃ o', obj (m w).2 (KSecret, x) = Some o' ∧ seed_of o' = seed_of o.

Lemma seeds_same {A} (m : K A) : (∀ w, w_objects (m w).2 = w_objects w) → keeps_seeds m.
Proof. intros H w x o Ho Hs. exists o. by rewrite H. Qed.
Lemma seeds_ret {A} (a : A) : keeps_seeds (mret a : K A).
Proof. by apply seeds_same. Qed.
Lemma seeds_fail {A} err : keeps_seeds (fail err : K A).
Proof. by apply seeds_same. Qed.
Lemma seeds_bind {A B} (m : K A) (f : A → K B) : keeps_seeds m → (∀ a, keeps_seeds (f a)) → keeps_seeds (m ≫= f).
Proof.
  intros Hm Hf w x o Ho Hs. destruct (Hm w x o Ho Hs) as (o1 & H1 & H2). unfold mbind, K_bind. destruct (m w) as [[a|err] w1]; [|by exists o1]. cbn [snd] in H1.
  destruct (Hf a w1 x o1 H1) as (o2 & H3 & H4); [by rewrite H2|]. exists o2. split; [done|]. by rewrite H4.
Qed.
Lemma seeds_wrap {A} ctx (m : K A) : keeps_seeds m → keeps_seeds (wrap ctx m).
Proof. intros H w. rewrite wrap_world. apply H. Qed.
Lemma seeds_tries {A} (m : K A) : keeps_seeds m → keeps_seeds (tries m).
Proof. intros H w. apply H. Qed.
Lemma seeds_for_each {A} (f : A → K unit) l : (∀ x, keeps_seeds (f x)) → keeps_seeds (for_each f l).
Proof. intros H. induction l as [|x l IH]; [apply seeds_ret|]. apply seeds_bind; [apply H|done]. Qed.
Lemma seeds_get e k : keeps_seeds (kget e k).
Proof. apply seeds_same. intros w. unfold kget. by destruct (kv_down e VGet k). Qed.
Lemma seeds_list e ns : keeps_seeds (klist_secrets e ns).
Proof. apply seeds_same. intros w. unfold klist_secrets. by destruct (kv_down e VList _). Qed.

Lemma seeds_create e k o : keeps_seeds (create_if_absent e k o).
Proof.
  intros w x o0 Ho Hs. exists o0. split; [|done]. unfold create_if_absent. destruct (kv_down e VCreate k); [done|]. destruct (obj w k) eqn:Hk; [done|].
  destruct (_ || _); [|done]. cbn. rewrite lookup_insert_ne; [done|]. intros ->. congruence.
Qed.

Lemma seeds_update e k was o : (k.1 = KSecret → seed_of was ≠ ""%string → seed_of o = seed_of was) → keeps_seeds (kupdate e k was o).
Proof.
  intros Hk w x o0 Ho Hs. unfold kupdate. destruct (kv_down e VUpdate k); [by exists o0|]. destruct (obj w k) as [cur|] eqn:Hc; [|by exists o0].
  destruct (bool_decide_reflect (cur = was)) as [->|]; [|by exists o0]. cbn. destruct (decide ((KSecret, x) = k)) as [<-|Hne].
  - rewrite lookup_insert_eq. exists o. split; [done|]. assert (was = o0) as -> by congruence. by apply Hk.
  - rewrite lookup_insert_ne by done. by exists o0.
Qed.

Lemma seeds_register e m pub : keeps_seeds (registerAgentNKey c e m pub).
Proof.
  apply seeds_same. intros w. unfold registerAgentNKey. cbv zeta. destruct (kv_register e) as [data|]; [|done].
  destruct (unmarshal _ _ data) as [resp|]; [|done]. by destruct (gr_OK resp).
Qed.

#[local] Create HintDb seeds.
#[local] Hint Resolve seeds_ret seeds_fail seeds_get seeds_list seeds_create seeds_register : seeds.
Ltac seeds_tac := repeat (intros; lazymatch goal with
  | |- keeps_seeds (_ ≫= _) => apply seeds_bind
  | |- keeps_seeds (wrap _ _) => apply seeds_wrap
  | |- keeps_seeds (tries _) => apply seeds_tries
  | |- keeps_seeds (for_each _ _) => apply seeds_for_each
  | |- keeps_seeds (match _ with _ => _ end) => case_match; subst
  | |- keeps_seeds (kupdate _ _ _ _) => apply seeds_update; try done
  | |- _ => solve [eauto with seeds]
  end).

Lemma seeds_addOwner e m k was o : (k.1 = KSecret → seed_of was ≠ ""%string → seed_of o = seed_of was) → keeps_seeds (addOwnerIfMissing e m k was o).
Proof. intros H. unfold addOwnerIfMissing. case_match; [|apply seeds_ret]. by apply seeds_update. Qed.

Lemma seeds_ensureOwned e m k o : keeps_seeds (ensureOwned e m k o).
Proof. unfold ensureOwned. apply seeds_bind; [apply seeds_get|]. intros [a|]; [by apply seeds_addOwner|apply seeds_create]. Qed.
#[local] Hint Resolve seeds_ensureOwned : seeds.

Lemma seeds_refresh e m ns o : keeps_seeds (refresh_user_secrets c e m ns o).
Proof.
  unfold refresh_user_secrets. cbv zeta. set (data := if oauth_stale c _ then _ else _). set (local := with_body (BData (type_of o) data (binary_of o)) o).
  assert (Hl : seed_of local = seed_of o).
  { unfold seed_of, local, data. cbn. destruct (oauth_stale c _); [rewrite lookup_insert_ne by done|]; by rewrite lookup_delete_ne. }
  assert (Ho : ∀ l, seed_of (with_owner (mp_UID m) l) = seed_of l) by done.
  apply seeds_bind; [by apply seeds_tries, seeds_addOwner|]. intros r. case_match; [|apply seeds_ret]. apply seeds_wrap, seeds_update. intros _.
  destruct (owner_missing m ns local); cbn [andb]; [|done]. destruct (is_ok r); by rewrite ?Ho.
Qed.

Lemma seeds_copy e ns src : keeps_seeds (copy_pull_secret e ns src).
Proof.
  intros w x o Ho Hs. unfold copy_pull_secret. cbv zeta. destruct (negb _); [by exists o|]. unfold kget.
  destruct (kv_down e VGet _); [|destruct (w_objects (kv_view e w) !! _); [by exists o|]]; rewrite wrap_world; by apply seeds_create.
Qed.

Lemma seeds_secrets e m ns : keeps_seeds (reconcileSecrets c e m ns).
Proof. pose proof seeds_copy. pose proof seeds_refresh. unfold reconcileSecrets, user_secrets_key. cbv zeta. seeds_tac. Qed.

Lemma seeds_agent_key e m ns : keeps_seeds (reconcileAgentNKey c e m ns).
Proof.
  unfold reconcileAgentNKey. apply seeds_bind; [seeds_tac|]. intros existing.
  destruct (match existing with Some o => negb (String.eqb (seed_of o) "") | None => false end) eqn:He; [apply seeds_ret|].
  destruct (kv_nkey e) as [[pub seed]|]; [|apply seeds_fail]. apply seeds_bind; [seeds_tac|]. intros _. unfold store_seed.
  destruct existing as [o|]; [|seeds_tac]. apply seeds_wrap, seeds_update. intros _ Hs. apply String.eqb_neq in Hs. by rewrite Hs in He.
Qed.

Lemma seeds_deployment e m ns tpl : keeps_seeds (reconcileDeployment c e m ns tpl).
Proof.
  assert (Hp : ∀ name size cl, keeps_seeds (ensurePVCCR e m ns name size cl)) by (intros; unfold ensurePVCCR; cbv zeta; seeds_tac).
  unfold reconcileDeployment. cbv zeta. seeds_tac. by apply seeds_same.
Qed.

(** Between two worlds. *)
Definition seeds_kept (w w' : World) : Prop := ∀ x o, obj w (KSecret, x) = Some o → seed_of o ≠ ""%string → ∃ o', obj w' (KSecret, x) = Some o' ∧ seed_of o' = seed_of o.
#[local] Instance seeds_kept_preorder : PreOrder seeds_kept.
Proof.
  split; [intros w x o Ho _; by exists o|]. intros w1 w2 w3 H12 H23 x o Ho Hs. destruct (H12 x o Ho Hs) as (o2 & H2 & E2).
  destruct (H23 x o2 H2) as (o3 & H3 & E3); [by rewrite E2|]. exists o3. split; [done|]. by rewrite E3.
Qed.
Lemma seeds_kept_step {A} (m : K A) w r w' : m w = (r, w') → keeps_seeds m → seeds_kept w w'.
Proof. intros E H x o Ho Hs. specialize (H w x o Ho Hs). by rewrite E in H. Qed.
Lemma write_status_objects e what m w : w_objects (write_status e what m w) = w_objects w.
Proof. unfold write_status. destruct (kv_status e what); [done|]. destruct (w_projects w !! _) as [m0|]; [|done]. by destruct (String.eqb _ _). Qed.
Lemma seeds_kept_objects w w' : w_objects w' = w_objects w → seeds_kept w w'.
Proof. intros E x o Ho _. exists o. by rewrite E. Qed.

(** The key of an agent is stable: a seed that a secret holds survives every
    reconciling of any project, whatever calls fail and however outdated the cache is. *)
Theorem agent_seed_stable e req w ns name o :
  obj w (KSecret, (ns, name)) = Some o → seed_of o ≠ ""%string →
  ∃ o', obj (Reconcile c e req w).2 (KSecret, (ns, name)) = Some o' ∧ seed_of o' = seed_of o.
Proof.
  enough (H : seeds_kept w (Reconcile c e req w).2) by (intros; by eapply H). clear ns name o.
  assert (Hw : ∀ what m w w1, w_objects w = w_objects w1 → seeds_kept w1 (write_status e what m w)) by (intros; apply seeds_kept_objects; by rewrite write_status_objects).
  assert (Hobj : ∀ m ns tpl w, seeds_kept w (reconcile_objects c e m ns tpl w).2).
  { clear -Hw. intros m ns tpl w. unfold reconcile_objects, updateCondition, setCondition, setPhase. cbv zeta.
    destruct (reconcileRBAC e m ns w) as [r1 w1] eqn:E1. trans w1; [eapply seeds_kept_step; [exact E1|unfold reconcileRBAC; seeds_tac]|].
    set (w2 := write_status _ _ _ w1). trans w2; [by apply Hw|]. set (m1 := with_condition _ _ m).
    destruct (reconcileSecrets c e m1 ns w2) as [r3 w3] eqn:E3. trans w3; [eapply seeds_kept_step; [exact E3|apply seeds_secrets]|].
    set (w4 := write_status _ _ _ w3). trans w4; [by apply Hw|]. set (m2 := with_condition _ _ m1).
    destruct (reconcileAgentNKey c e m2 ns w4) as [r5 w5] eqn:E5. trans w5; [eapply seeds_kept_step; [exact E5|apply seeds_agent_key]|].
    destruct (reconcileDeployment c e m2 ns tpl w5) as [r6 w6] eqn:E6. trans w6; [eapply seeds_kept_step; [exact E6|apply seeds_deployment]|].
    set (w7 := write_status _ _ _ w6). trans w7; [by apply Hw|]. destruct (_ && _); by apply Hw. }
  unfold Reconcile. destruct (kv_down e VGet _); [done|]. destruct (w_projects (kv_view e w) !! req) as [m|]; [|done].
  destruct (String.eqb _ ""); [by apply Hw|]. set (mw := if String.eqb _ PhasePending then _ else _).
  assert (H0 : seeds_kept w mw.2) by (unfold mw; destruct (String.eqb _ PhasePending); [by apply Hw|done]). destruct mw as [m1 w0]. cbn [snd] in H0. trans w0; [done|].
  unfold reconcile_project, updateCondition, setCondition, setPhase. cbv zeta. destruct (loadTemplate c e w0) as [[tpl|err] w1] eqn:E1.
  - trans w1; [eapply seeds_kept_step; [exact E1|unfold loadTemplate; seeds_tac]|].
    destruct (reconcileNamespace e m1 _ tpl w1) as [r2 w2] eqn:E2. trans w2; [eapply seeds_kept_step; [exact E2|unfold reconcileNamespace; seeds_tac]|].
    set (w3 := write_status _ _ _ w2). trans w3; [by apply Hw|]. destruct r2; [apply Hobj|by apply Hw].
  - trans w1; [eapply seeds_kept_step; [exact E1|unfold loadTemplate; seeds_tac]|]. by apply Hw.
Qed.

(** ** Deletion *)

(** Objects outside the namespace of the control plane have no owners. *)
Definition unowned_objects (m : gmap okey kobj) : Prop := ∀ k o, m !! k = Some o → k.2.1 ≠ cs_controlPlaneNs c → ko_owners o = [].
Definition unowned (w : World) : Prop := unowned_objects (w_objects w).

(** [m] makes none that has. *)
Definition keeps_unowned {A} (m : K A) : Prop := ∀ w, unowned w → unowned (m w).2.

Lemma unowned_same {A} (m : K A) : (∀ w, w_objects (m w).2 = w_objects w) → keeps_unowned m.
Proof. intros H w. unfold unowned. by rewrite H. Qed.
Lemma unowned_bind {A B} (m : K A) (f : A → K B) : keeps_unowned m → (∀ a, keeps_unowned (f a)) → keeps_unowned (m ≫= f).
Proof. intros Hm Hf w Hw. specialize (Hm w Hw). unfold mbind, K_bind. destruct (m w) as [[a|err] w1]; [|done]. by apply Hf. Qed.
Lemma unowned_wrap {A} ctx (m : K A) : keeps_unowned m → keeps_unowned (wrap ctx m).
Proof. intros H w. rewrite wrap_world. apply H. Qed.
Lemma unowned_for_each {A} (f : A → K unit) l : (∀ x, keeps_unowned (f x)) → keeps_unowned (for_each f l).
Proof. intros H. induction l as [|x l IH]; [by apply unowned_same|]. apply unowned_bind; [apply H|done]. Qed.
Lemma unowned_get e k : keeps_unowned (kget e k).
Proof. apply unowned_same. intros w. unfold kget. by destruct (kv_down e VGet k). Qed.
Lemma unowned_list e ns : keeps_unowned (klist_secrets e ns).
Proof. apply unowned_same. intros w. unfold klist_secrets. by destruct (kv_down e VList _). Qed.

Lemma unowned_insert k o m : unowned_objects m → (k.2.1 ≠ cs_controlPlaneNs c → ko_owners o = []) → unowned_objects (<[k := o]> m).
Proof. intros Hm Ho k' o'. destruct (decide (k' = k)) as [->|Hne]; [rewrite lookup_insert_eq; intros [= <-]; apply Ho|]. rewrite lookup_insert_ne by done. apply Hm. Qed.

Lemma unowned_create e k o : (k.2.1 ≠ cs_controlPlaneNs c → ko_owners o = []) → keeps_unowned (create_if_absent e k o).
Proof.
  intros Ho w Hw. unfold create_if_absent. destruct (kv_down e VCreate k); [done|]. destruct (obj w k); [done|]. destruct (_ || _); [|done].
  by apply unowned_insert.
Qed.

Lemma unowned_update e k was o : (k.2.1 ≠ cs_controlPlaneNs c → ko_owners was = [] → ko_owners o = []) → keeps_unowned (kupdate e k was o).
Proof.
  intros Ho w Hw. unfold kupdate. destruct (kv_down e VUpdate k); [done|]. destruct (obj w k) as [cur|] eqn:Hc; [|done].
  destruct (bool_decide_reflect (cur = was)) as [->|]; [|done]. apply unowned_insert; [done|]. intros Hk. apply Ho; [done|]. by eapply Hw.
Qed.

Section project.
Context (m : MCProject) (Hns : mp_Namespace m = cs_controlPlaneNs c).

Lemma cross_refused ns : ns ≠ cs_controlPlaneNs c → owner_allowed (mp_Namespace m) ns = false.
Proof. intros H. rewrite Hns. apply owner_cross. congruence. Qed.

Lemma set_owner_unowned ns o : ko_owners o = [] → ns ≠ cs_controlPlaneNs c → ko_owners (set_owner m ns o) = [].
Proof. intros Ho Hc. unfold set_owner. by rewrite cross_refused. Qed.

Lemma unowned_addOwner e k was o : keeps_unowned (addOwnerIfMissing e m k was o).
Proof.
  unfold addOwnerIfMissing, owner_missing. destruct (owner_allowed (mp_Namespace m) k.2.1) eqn:Ha; [|rewrite andb_false_r; by apply unowned_same].
  destruct (negb _); [|by apply unowned_same]. apply unowned_update. intros Hk. by rewrite cross_refused in Ha.
Qed.

Lemma unowned_ensureOwned e k o : ko_owners o = [] → keeps_unowned (ensureOwned e m k o).
Proof.
  intros Ho. unfold ensureOwned. apply unowned_bind; [apply unowned_get|]. intros [a|]; [apply unowned_addOwner|]. apply unowned_create. intros Hk. by apply set_owner_unowned.
Qed.

#[local] Create HintDb unowned.
#[local] Hint Resolve unowned_get unowned_list unowned_addOwner unowned_ensureOwned set_owner_unowned : unowned.
Ltac unowned_tac := repeat (intros; lazymatch goal with
  | |- keeps_unowned (_ ≫= _) => apply unowned_bind
  | |- keeps_unowned (wrap _ _) => apply unowned_wrap
  | |- keeps_unowned (for_each _ _) => apply unowned_for_each
  | |- keeps_unowned (mret _) => by apply unowned_same
  | |- keeps_unowned (fail _) => by apply unowned_same
  | |- keeps_unowned (match _ with _ => _ end) => case_match; subst
  | |- keeps_unowned (kupdate _ _ _ _) => apply unowned_update; try done
  | |- keeps_unowned (create_if_absent _ _ _) => apply unowned_create
  | |- _ => solve [eauto with unowned]
  end).

Lemma unowned_refresh e ns o : keeps_unowned (refresh_user_secrets c e m ns o).
Proof.
  unfold refresh_user_secrets. cbv zeta. set (local := with_body _ o). apply unowned_bind; [intros w Hw; by apply unowned_addOwner|]. intros r.
  case_match; [|by apply unowned_same]. apply unowned_wrap, unowned_update. change ((user_secrets_key ns).2.1) with ns. intros Hk.
  unfold owner_missing. rewrite cross_refused, andb_false_r by done. done.
Qed.

Lemma unowned_copy e ns src : keeps_unowned (copy_pull_secret e ns src).
Proof.
  intros w Hw. unfold copy_pull_secret. cbv zeta. destruct (negb _); [done|]. unfold kget.
  destruct (kv_down e VGet _); [|destruct (w_objects (kv_view e w) !! _); [done|]]; rewrite wrap_world; by apply unowned_create.
Qed.

Lemma unowned_secrets e ns : keeps_unowned (reconcileSecrets c e m ns).
Proof. pose proof unowned_copy. pose proof unowned_refresh. unfold reconcileSecrets, user_secrets_key. cbv zeta. unowned_tac. Qed.

Lemma unowned_rbac e ns : keeps_unowned (reconcileRBAC e m ns).
Proof. unfold reconcileRBAC. unowned_tac. Qed.

Lemma unowned_namespace e ns tpl : keeps_unowned (reconcileNamespace e m ns tpl).
Proof. unfold reconcileNamespace. unowned_tac. Qed.

Lemma unowned_agent_key e ns : keeps_unowned (reconcileAgentNKey c e m ns).
Proof.
  assert (Hr : ∀ pub, keeps_unowned (registerAgentNKey c e m pub)).
  { intros pub. apply unowned_same. intros w. unfold registerAgentNKey. cbv zeta. destruct (kv_register e) as [data|]; [|done].
    destruct (unmarshal _ _ data) as [resp|]; [|done]. by destruct (gr_OK resp). }
  unfold reconcileAgentNKey, store_seed, agent_key. unowned_tac.
Qed.

Lemma unowned_deployment e ns tpl : keeps_unowned (reconcileDeployment c e m ns tpl).
Proof.
  assert (Hp : ∀ name size cl, keeps_unowned (ensurePVCCR e m ns name size cl)) by (intros; unfold ensurePVCCR; cbv zeta; unowned_tac).
  unfold reconcileDeployment, deployment_key. cbv zeta. unowned_tac. by apply unowned_same.
Qed.

End project.

Lemma unowned_status e what m w : unowned w → unowned (write_status e what m w).
Proof. unfold unowned. by rewrite write_status_objects. Qed.

Lemma unowned_step {A} (m : K A) w r w' : m w = (r, w') → keeps_unowned m → unowned w → unowned w'.
Proof. intros E H Hw. specialize (H w Hw). by rewrite E in H. Qed.

Lemma unowned_objects_part e m ns tpl w : mp_Namespace m = cs_controlPlaneNs c → unowned w → unowned (reconcile_objects c e m ns tpl w).2.
Proof.
  intros Hns Hw. unfold reconcile_objects, updateCondition, setCondition, setPhase. cbv zeta.
  destruct (reconcileRBAC e m ns w) as [r1 w1] eqn:E1. apply unowned_step in E1; [|by apply unowned_rbac|done].
  set (m1 := with_condition _ _ m). set (w2 := write_status _ _ _ w1). assert (H2 : unowned w2) by by apply unowned_status.
  destruct (reconcileSecrets c e m1 ns w2) as [r3 w3] eqn:E3. apply unowned_step in E3; [|by apply unowned_secrets|done].
  set (m2 := with_condition _ _ m1). set (w4 := write_status _ _ _ w3). assert (H4 : unowned w4) by by apply unowned_status.
  destruct (reconcileAgentNKey c e m2 ns w4) as [r5 w5] eqn:E5. apply unowned_step in E5; [|by apply unowned_agent_key|done].
  destruct (reconcileDeployment c e m2 ns tpl w5) as [r6 w6] eqn:E6. apply unowned_step in E6; [|by apply unowned_deployment|done].
  destruct (_ && _); by repeat apply unowned_status.
Qed.

Lemma unowned_project e m w : mp_Namespace m = cs_controlPlaneNs c → unowned w → unowned (reconcile_project c e m w).2.
Proof.
  intros Hns Hw. unfold reconcile_project, updateCondition, setCondition, setPhase. cbv zeta. set (ns := user_namespace _).
  destruct (loadTemplate c e w) as [[tpl|err] w1] eqn:E1; apply unowned_step in E1; [|apply unowned_bind; [apply unowned_wrap, unowned_get|intros; by apply unowned_same]|done| |
    apply unowned_bind; [apply unowned_wrap, unowned_get|intros; by apply unowned_same]|done].
  - destruct (reconcileNamespace e m ns tpl w1) as [r2 w2] eqn:E2. apply unowned_step in E2; [|by apply unowned_namespace|done].
    destruct r2; [apply unowned_objects_part; [done|]; by apply unowned_status|by repeat apply unowned_status].
  - by apply unowned_status.
Qed.

(** The steps of the controller; the projects that the cache shows are in the
    namespace of the control plane. *)
Definition local_view (e : kube_env) (w : World) : Prop := ∀ k m, w_projects (kv_view e w) !! k = Some m → mp_Namespace m = cs_controlPlaneNs c.
Inductive kube_step : World → World → Prop :=
| reconciles e req w : local_view e w → kube_step w (Reconcile c e req w).2
| provisions e msg w : local_view e w → kube_step w (handleProvisionRequest c e msg w).

Lemma unowned_reconcile e req w : local_view e w → unowned w → unowned (Reconcile c e req w).2.
Proof.
  intros Hv Hw. unfold Reconcile. destruct (kv_down e VGet _); [done|]. destruct (w_projects (kv_view e w) !! req) as [m|] eqn:Hm; [|done]. apply Hv in Hm.
  destruct (String.eqb _ ""); [by apply unowned_status|]. destruct (String.eqb _ PhasePending); [|by apply unowned_project].
  unfold setPhase. cbv zeta. apply unowned_project; [done|]. by apply unowned_status.
Qed.

Lemma emit_objects o w : w_objects (emit o w) = w_objects w.
Proof. done. Qed.
Lemma replyOK_same msg p w : w_objects (replyOK msg p w) = w_objects w ∧ w_projects (replyOK msg p w) = w_projects w.
Proof. unfold replyOK. by destruct (km_Reply msg). Qed.
Lemma replyError_same msg err code w : w_objects (replyError msg err code w) = w_objects w ∧ w_projects (replyError msg err code w) = w_projects w.
Proof. unfold replyError. by destruct (km_Reply msg). Qed.
Lemma answer_same msg req code r : w_objects (answer msg req code r) = w_objects r.2 ∧ w_projects (answer msg req code r) = w_projects r.2.
Proof. destruct r as [[a|err] w]; [apply replyOK_same|apply replyError_same]. Qed.

Lemma garbage_lookup w k o : obj (collect_garbage w) k = Some o ↔
  obj w k = Some o ∧ (ko_owners o = [] ∨ Exists (λ u, u ∈ (λ kv : (string * string) * MCProject, mp_UID kv.2) <$> map_to_list (w_projects w)) (ko_owners o)).
Proof. unfold collect_garbage. cbn. by rewrite map_lookup_filter_Some. Qed.

Lemma unowned_provision e msg w : local_view e w → unowned w → unowned (handleProvisionRequest c e msg w).
Proof.
  intros Hv Hw. unfold handleProvisionRequest. destruct (unmarshal _ _ _) as [req|]; [|unfold unowned; by destruct (replyError_same msg "invalid request payload" "parse_error" w) as [-> _]].
  cbv zeta. destruct (String.eqb _ "create"); [|destruct (String.eqb _ "update"); [|destruct (String.eqb _ "delete"); [|done]]]; unfold unowned; destruct (answer_same msg req "provision_failed" (handleCreate c e req w)) as [E1 _],
    (answer_same msg req "update_failed" (handleUpdate c e req w)) as [E2 _], (answer_same msg req "delete_failed" (handleDelete c e req w)) as [E3 _].
  - rewrite E1. unfold handleCreate. destruct (kv_down e VCreate _); [done|]. by destruct (w_projects w !! _).
  - rewrite E2. unfold handleUpdate. destruct (kv_down e VGet _); [done|]. destruct (w_projects (kv_view e w) !! _) as [m|] eqn:Hm; [|done]. rewrite wrap_world.
    apply unowned_secrets; [by eapply Hv|done].
  - rewrite E3. unfold handleDelete. destruct (kv_down e VDelete _); [done|]. destruct (w_projects w !! _); [|done]. cbn [snd].
    intros k o. change (obj (collect_garbage (set_projects (delete (cr_key c req) (w_projects w)) w)) k = Some o → k.2.1 ≠ cs_controlPlaneNs c → ko_owners o = []).
    rewrite garbage_lookup. intros [Ho _]. by eapply Hw.
Qed.

Lemma unowned_reachable w0 w : rtc kube_step w0 w → unowned w0 → unowned w.
Proof. induction 1 as [|w1 w2 w3 [e req w Hv|e msg w Hv] _ IH]; [done| |]; intros Hw; apply IH; [by apply unowned_reconcile|by apply unowned_provision]. Qed.

(** What a request asks for. *)
Definition requests (msg : kube_msg) (operation : string) (req : ProvisionRequest) : Prop :=
  unmarshal (dec_struct ProvisionRequest_fields) zero_ProvisionRequest (km_Data msg) = Some req ∧ extractOperation (km_Subject msg) = operation.

Lemma handle_delete e msg req w : requests msg "delete" req → handleProvisionRequest c e msg w = answer msg req "delete_failed" (handleDelete c e req w).
Proof. intros [H1 H2]. unfold handleProvisionRequest. rewrite H1, H2. done. Qed.
Lemma handle_create e msg req w : requests msg "create" req → handleProvisionRequest c e msg w = answer msg req "provision_failed" (handleCreate c e req w).
Proof. intros [H1 H2]. unfold handleProvisionRequest. rewrite H1, H2. done. Qed.

(** Deleted projects keep running: the owner that every object is meant to have is
    in another namespace and is therefore refused, so that in every run of the
    controller, with any failures, the deletion of a project is answered with success
    and removes the resource, but no object outside the namespace of the control
    plane, neither the deployment nor the secret of the agent; and reconciling does
    nothing for it any more. *)
Theorem deleted_project_keeps_running w0 w e msg req m :
  rtc kube_step w0 w → unowned w0 → requests msg "delete" req → kv_down e VDelete (KMCProject, cr_key c req) = None → w_projects w !! cr_key c req = Some m →
  let w' := handleProvisionRequest c e msg w in
  w_projects w' = delete (cr_key c req) (w_projects w) ∧
  (km_Reply msg = true → w_out w' = w_out w ++ [KReplied {| py_OK := true; py_ProjectSlug := kr_ProjectSlug req; py_Error := ""; py_Code := "" |}]) ∧
  (∀ k, k.2.1 ≠ cs_controlPlaneNs c → obj w' k = obj w k) ∧
  (∀ e', kv_down e' VGet (KMCProject, cr_key c req) = None → kv_view e' w' = w' → Reconcile c e' (cr_key c req) w' = (RDone, w')).
Proof.
  intros Hr H0 Hreq Hd Hm w'. pose proof (unowned_reachable _ _ Hr H0) as Hu. assert (Ew : w' = replyOK msg (kr_ProjectSlug req) (collect_garbage (set_projects (delete (cr_key c req) (w_projects w)) w))).
  { unfold w'. rewrite (handle_delete e msg req w Hreq). unfold handleDelete. by rewrite Hd, Hm. }
  destruct (replyOK_same msg (kr_ProjectSlug req) (collect_garbage (set_projects (delete (cr_key c req) (w_projects w)) w))) as [Eo Ep]. rewrite <- Ew in Eo, Ep.
  split; [done|]. split; [intros Hm'; rewrite Ew; unfold replyOK; by rewrite Hm'|]. split.
  - intros k Hk. rewrite Eo. apply option_eq. intros o. rewrite garbage_lookup. cbn [w_objects set_projects]. split; [by intros [? _]|].
    intros Ho. split; [done|]. left. by eapply Hu.
  - intros e' Hd' Hv'. unfold Reconcile. rewrite Hd', Hv', Ep. cbn. by rewrite lookup_delete_eq.
Qed.

(** ** Names of resources *)

(** Resources of different users can have one name: user and project slug are joined
    with a dash, which slugs may contain.  When the resource of one user's project is
    ready, a request for the other user's project of the same name is answered with
    success although nothing is made for it, and its deletion removes the resource
    of the first project. *)
Theorem resource_names_collide w m req e msg :
  w_projects w !! cr_key c req = Some m → ms_UserSlug (mp_Spec m) ≠ kr_UserSlug req → st_Phase (mp_Status m) = PhaseReady →
  (∀ v, kv_down e v (KMCProject, cr_key c req) = None) → (0 < kv_polls e)%nat → (∀ i, kv_poll e i = Some m) → km_Reply msg = true →
  (requests msg "create" req → handleProvisionRequest c e msg w = emit (KReplied {| py_OK := true; py_ProjectSlug := kr_ProjectSlug req; py_Error := ""; py_Code := "" |}) w) ∧
  (requests msg "delete" req → w_projects (handleProvisionRequest c e msg w) !! cr_key c req = None).
Proof.
  intros Hm _ Hp Hd Hn Hpoll Hr. split; intros Hreq.
  - rewrite (handle_create e msg req w Hreq). unfold handleCreate, waitForReady. rewrite Hd, Hm. destruct (kv_polls e); [lia|]. cbn [wait_loop]. rewrite Hpoll, Hp.
    change (String.eqb PhaseReady PhaseReady) with true. cbv iota. unfold answer, replyOK. by rewrite Hr.
  - rewrite (handle_delete e msg req w Hreq). destruct (answer_same msg req "delete_failed" (handleDelete c e req w)) as [_ ->].
    unfold handleDelete. rewrite Hd, Hm. cbn. apply lookup_delete_eq.
Qed.

(** ** Requests of the control plane *)

Lemma after_last_dot_app s t : after_last_dot t = None → after_last_dot (s +:+ String dot t) = Some t.
Proof.
  intros Ht. induction s as [|a s IH]; [change (match after_last_dot t with Some t' => Some t' | None => if Ascii.eqb dot "." then Some t else None end = Some t); by rewrite Ht|]. change ((String a s +:+ String dot t)%string) with (String a (s +:+ String dot t)%string). change (match after_last_dot (s +:+ String dot t) with Some t' => Some t' | None => if Ascii.eqb a "." then Some (s +:+ String dot t)%string else None end = Some t). by rewrite IH.
Qed.

Lemma operation_create h u p : extractOperation (HostUserProjectsCreate h u p) = "create"%string.
Proof.
  unfold extractOperation. assert (∃ s, HostUserProjectsCreate h u p = (s +:+ String dot "create")%string) as [s ->]; [|by rewrite after_last_dot_app].
  exists ("mclaude.hosts." +:+ h +:+ ".users." +:+ u +:+ ".projects." +:+ p)%string. unfold HostUserProjectsCreate. by rewrite !string_app_assoc.
Qed.

Definition request_of (userID userSlug hostSlug : string) (p : Project) (gitURL gitIdentityID : string) : ProvisionRequest :=
  {| kr_UserID := userID; kr_ProjectID := p_ID p; kr_UserSlug := userSlug; kr_HostSlug := hostSlug; kr_ProjectSlug := p_Slug p; kr_GitURL := gitURL; kr_GitIdentityID := gitIdentityID |}.

Lemma request_decodes userID userSlug hostSlug p gitURL gitID :
  decode (dec_struct ProvisionRequest_fields) zero_ProvisionRequest (provision_request userID userSlug hostSlug p gitURL gitID) = Some (request_of userID userSlug hostSlug p gitURL gitID).
Proof.
  unfold provision_request, omitempty, request_of. destruct (String.eqb_spec gitURL "") as [->|H1], (String.eqb_spec gitID "") as [->|H2]; reflexivity.
Qed.

(** C38. The request that the control plane sends for a project becomes exactly the
    resource of this project: its user, identifier, slugs and repository, not yet in
    any phase; the other projects and all objects stay as they are. *)
Theorem requested_project_created e msg w userID userSlug hostSlug p gitURL gitID :
  parses (provision_request userID userSlug hostSlug p gitURL gitID) →
  km_Subject msg = HostUserProjectsCreate hostSlug userSlug (p_Slug p) → km_Data msg = json_print (provision_request userID userSlug hostSlug p gitURL gitID) →
  let k := (cs_controlPlaneNs c, userSlug +:+ "-" +:+ p_Slug p)%string in
  kv_down e VCreate (KMCProject, k) = None → w_projects w !! k = None →
  let w' := handleProvisionRequest c e msg w in
  w_projects w' = <[k := {| mp_Namespace := cs_controlPlaneNs c; mp_Name := k.2; mp_UID := kv_uid e;
    mp_Spec := {| ms_UserID := userID; ms_ProjectID := p_ID p; ms_UserSlug := userSlug; ms_ProjectSlug := p_Slug p; ms_GitURL := gitURL; ms_GitIdentityID := gitID |};
    mp_Status := zero_status |}]> (w_projects w) ∧ w_objects w' = w_objects w.
Proof.
  intros Hp Hs Hd k Hdown Hk w'. set (req := request_of userID userSlug hostSlug p gitURL gitID).
  assert (Hreq : requests msg "create" req).
  { split; [unfold unmarshal; rewrite Hd, Hp; apply request_decodes|rewrite Hs; apply operation_create]. }
  unfold w'. rewrite (handle_create e msg req w Hreq). destruct (answer_same msg req "provision_failed" (handleCreate c e req w)) as [-> ->].
  unfold handleCreate. change (cr_key c req) with k. by rewrite Hdown, Hk.
Qed.

(** A creation is answered with success exactly when one of the polls finds the
    project ready and none before it found it failed. *)
Theorem creation_waits polls poll name :
  wait_loop polls poll 0 name = Ok () ↔
  ∃ i m, (i < polls)%nat ∧ poll i = Some m ∧ st_Phase (mp_Status m) = PhaseReady ∧
    ∀ j m', (j < i)%nat → poll j = Some m' → st_Phase (mp_Status m') ≠ PhaseFailed.
Proof.
  assert (H : ∀ a, wait_loop polls poll a name = Ok () ↔ ∃ i m, (a ≤ i < a + polls)%nat ∧ poll i = Some m ∧ st_Phase (mp_Status m) = PhaseReady ∧
    ∀ j m', (a ≤ j < i)%nat → poll j = Some m' → st_Phase (mp_Status m') ≠ PhaseFailed).
  { induction polls as [|n IH]; intros a; cbn [wait_loop]; [split; [done|]; intros (i & m & Hi & _); lia|].
    assert (Hnext : (∀ m, poll a = Some m → st_Phase (mp_Status m) ≠ PhaseReady ∧ st_Phase (mp_Status m) ≠ PhaseFailed) →
      wait_loop n poll (S a) name = Ok () ↔ ∃ i m, (a ≤ i < a + S n)%nat ∧ poll i = Some m ∧ st_Phase (mp_Status m) = PhaseReady ∧
        ∀ j m', (a ≤ j < i)%nat → poll j = Some m' → st_Phase (mp_Status m') ≠ PhaseFailed).
    { intros Ha. rewrite IH. split; intros (i & m & Hi & Hm & Hr & Hj); exists i, m.
      - split; [lia|]. split; [done|]. split; [done|]. intros j m' Hj' Hm'. destruct (decide (j = a)) as [->|]; [by apply Ha|]. apply (Hj j); [lia|done].
      - assert (i ≠ a) by (intros ->; by apply Ha in Hm as [? _]). split; [lia|]. split; [done|]. split; [done|]. intros j m' Hj'. apply Hj. lia. }
    destruct (poll a) as [m|] eqn:Hm; [|by apply Hnext].
    destruct (String.eqb_spec (st_Phase (mp_Status m)) PhaseReady) as [Hr|Hr].
    { split; [intros _|done]. exists a, m. split; [lia|]. split; [done|]. split; [done|]. intros j m' Hj. lia. }
    destruct (String.eqb_spec (st_Phase (mp_Status m)) PhaseFailed) as [Hf|Hf]; [|apply Hnext; by intros m' [= <-]].
    split; [done|]. intros (i & m' & Hi & Hm' & Hr' & Hj). exfalso. destruct (decide (i = a)) as [->|]; [congruence|]. by apply (Hj a m); [lia|..]. }
  rewrite H. split; intros (i & m & Hi & Hm & Hr & Hj); exists i, m; (split; [lia|]); (split; [done|]); (split; [done|]); intros j m' Hj'; apply Hj; lia.
Qed.

(** ** Outdated caches *)

Lemma seed_kept_idle e m ns w o : kv_down e VGet (agent_key ns m) = None → kv_view e w = w → obj w (agent_key ns m) = Some o → seed_of o ≠ ""%string →
  reconcileAgentNKey c e m ns w = (Ok (), w).
Proof.
  intros Hd Hv Ho Hs. unfold reconcileAgentNKey, mbind, K_bind. rewrite (wrap_ok _ _ _ (obj w (agent_key ns m)) w) by (unfold kget; by rewrite Hd, Hv).
  rewrite Ho. apply String.eqb_neq in Hs. by rewrite Hs.
Qed.

Section registrar.
Context `{PG : Postgres}.

Definition agent_register_msg (m : MCProject) (pub : string) : nats_msg :=
  {| nm_Subject := register_subject c; nm_Data := json_print (register_payload m pub); nm_Reply := true |}.

Lemma agent_register_request m pub : parses (register_payload m pub) →
  register_request (cs_clusterSlug c) (agent_register_msg m pub) (ms_UserSlug (mp_Spec m)) (ms_ProjectSlug (mp_Spec m)) pub.
Proof. intros H. split; [done|]. unfold unmarshal. cbn [nm_Data agent_register_msg]. by rewrite H. Qed.

(** The key of an agent can be lost: when the cache does not show the agent's secret
    yet, a second key is made and registered, and the secret, which exists, keeps the
    first seed.  The step counts as a success, the control plane then knows only the
    second key, whose seed is nowhere, and no later step repairs this. *)
Theorem agent_key_forgotten e w m ns o pub seed ecp s user proj :
  obj (kv_view e w) (agent_key ns m) = None → obj w (agent_key ns m) = Some o → seed_of o ≠ ""%string →
  (∀ v, kv_down e v (agent_key ns m) = None) → kv_nkey e = Some (pub, seed) → kv_nc e = true →
  may_register ecp s (cs_clusterSlug c) (ms_UserSlug (mp_Spec m)) (ms_ProjectSlug (mp_Spec m)) pub user → parses (register_payload m pub) →
  GetProjectByUserAndSlug (u_ID user) (ms_ProjectSlug (mp_Spec m)) (db s) = Some (proj, cs_clusterSlug c) →
  tables_ok (UpsertAgentCredential (ce_uuid ecp "credential") (u_ID user) (cs_clusterSlug c) (ms_ProjectSlug (mp_Spec m)) pub (db s)) = true → parses (JObj [("ok", JBool true)])%string →
  let s' := handleAgentRegister ecp (agent_register_msg m pub) s in
  kv_register e = cp_answer s s' →
  ∃ w', reconcileAgentNKey c e m ns w = (Ok (), w') ∧ obj w' (agent_key ns m) = Some o ∧
    (∀ cred, cred ∈ agent_credentials (db s') → for_project (u_ID user) (cs_clusterSlug c) (ms_ProjectSlug (mp_Spec m)) cred → ac_NKeyPublic cred = pub) ∧
    (∀ e', kv_down e' VGet (agent_key ns m) = None → kv_view e' w' = w' → reconcileAgentNKey c e' m ns w' = (Ok (), w')).
Proof.
  intros Hview Ho Hs Hd Hk Hnc Hmay Hpar Hproj Hok Hans s'. unfold s'. rewrite (registration_stored _ _ _ _ _ _ _ _ _ Hmay (agent_register_request m pub Hpar) Hproj Hok).
  unfold replyNATSOK. intros Hreg. rewrite (cp_answer_respond _ _ s) in Hreg by done.
  exists (emit (KRequested (register_subject c) (register_payload m pub)) w).
  assert (Hrun : reconcileAgentNKey c e m ns w = (Ok (), emit (KRequested (register_subject c) (register_payload m pub)) w)).
  { unfold reconcileAgentNKey, mbind, K_bind. rewrite (wrap_ok _ _ _ None w) by (unfold kget; by rewrite Hd, Hview). rewrite Hk, Hnc.
    unfold registerAgentNKey. cbv zeta. rewrite Hreg. unfold unmarshal. rewrite Hans. cbn [decode].
    change (decode _ _ _) with (Some {| gr_OK := true; gr_Error := "" |}). cbv iota. cbn [gr_OK].
    apply wrap_ok. unfold create_if_absent. rewrite Hd. change (w_objects (emit _ w)) with (w_objects w). by rewrite Ho. }
  split; [exact Hrun|]. split; [done|]. split.
  - intros cred. rewrite respond_db. cbn [db set_db]. rewrite upsert_credential_spec. intros [->|[_ Hn]] Hf; [done|by destruct Hn].
  - intros e' Hd' Hv'. by apply (seed_kept_idle e' m ns _ o).
Qed.

End registrar.

(** ** Long names *)

(** A user whose slug has more than 55 characters gets no project on a cluster: the
    API server refuses namespaces of more than 63 characters, so that reconciling
    makes no object and ends in the phase Failed, every time. *)
Theorem long_user_fails e w m :
  (∀ name, (63 < String.length name)%nat → ∃ err, kv_down e VCreate (namespace_key name) = Some err) →
  (∀ v k, v ≠ VCreate → kv_down e v k = None) → (∀ s, kv_status e s = None) → (∀ w, kv_view e w = w) →
  w_projects w !! key_of m = Some m → st_Phase (mp_Status m) ≠ ""%string → (55 < String.length (ms_UserSlug (mp_Spec m)))%nat →
  obj w (namespace_key (user_namespace (ms_UserSlug (mp_Spec m)))) = None →
  ∃ w' m', Reconcile c e (key_of m) w = (RRequeueAfter 30, w') ∧ w_objects w' = w_objects w ∧
    w_projects w' !! key_of m = Some m' ∧ ident m m' ∧ st_Phase (mp_Status m') = PhaseFailed.
Proof.
  intros Hlim Hd Hst Hv Hm Hp Hlen Hns. set (ns := user_namespace _) in *. unfold Reconcile. rewrite Hd, Hv, Hm by done. apply String.eqb_neq in Hp. rewrite Hp.
  set (mw := if String.eqb _ PhasePending then _ else _).
  assert (H0 : ident m mw.1 ∧ w_objects mw.2 = w_objects w ∧ tracks mw.2 mw.1).
  { unfold mw, setPhase. cbv zeta. destruct (String.eqb _ PhasePending); [|split; [done|]; split; [done|]; by exists m]. cbn [fst snd]. split; [by split_and!|].
    destruct (write_calm e PhaseProvisioning (with_phase PhaseProvisioning m) w Hst) as (H1 & _ & m' & H2 & H3 & _); [apply (tracks_ident w m); [by split_and!|by exists m]|].
    split; [done|]. by exists m'. }
  destruct mw as [m1 w1]. cbn [fst snd] in H0. destruct H0 as (I1 & O1 & T1). unfold reconcile_project. assert (Hspec : mp_Spec m1 = mp_Spec m) by apply I1.
  assert (Etpl : ∃ tpl, loadTemplate c e w1 = (Ok tpl, w1)).
  { unfold loadTemplate, mbind, K_bind. rewrite (wrap_ok _ _ _ _ w1) by (unfold kget; by rewrite Hd). by eexists. }
  destruct Etpl as [tpl ->]. rewrite Hspec. fold ns. destruct (Hlim ns) as [err Herr].
  { unfold ns, user_namespace. rewrite length_app_str. change (String.length "mclaude-") with 8%nat. lia. }
  assert (Ens : reconcileNamespace e m1 ns tpl w1 = (Err ("create namespace: " +:+ err)%string, w1)).
  { unfold reconcileNamespace, mbind, K_bind. rewrite (wrap_ok _ _ _ None w1) by (unfold kget; rewrite Hd, Hv, O1 by done; by rewrite Hns).
    unfold wrap, create_if_absent. by rewrite Herr. }
  rewrite Ens. cbv zeta. destruct (updateCondition e ConditionNamespaceReady (Err ("create namespace: " +:+ err)%string) m1 w1) as [m2 w2] eqn:E2.
  apply condition_calm in E2 as (I2 & O2 & T2); [|done|done]. unfold setPhase. cbv zeta.
  destruct (write_calm e PhaseFailed (with_phase PhaseFailed m2) w2 Hst) as (O3 & _ & m3 & L3 & I3 & S3); [by apply (tracks_ident w2 m2)|].
  assert (I : ident m m2) by (by trans m1). eexists. exists m3. split; [done|]. cbn [snd]. split; [by rewrite O3, O2, O1|].
  change (key_of (with_phase PhaseFailed m2)) with (key_of m2) in L3. split; [by destruct I as [<- _]|]. split; [trans m2; [done|]; destruct I3 as (? & ? & ?); by split_and!|].
  by rewrite S3.
Qed.

End spec.

(** ** Examples *)

#[local] Existing Instances demo_pg.

Module KubeDemo.
#[export] Instance libs : KubeLibs.
Proof. by refine {| list_order l := l; dec_resources s := no_resources; ParseQuantity s := Some s |}. Defined.
#[export] Instance rules : OwnerRules.
Proof.
  refine {| owner_allowed := String.eqb |}; [apply String.eqb_refl|]. intros o n H. by apply String.eqb_neq.
Defined.
Definition cfg : settings := {| cs_controlPlaneNs := "mclaude-system"; cs_sessionAgentTemplateCM := "template"; cs_sessionAgentNATSURL := "nats://hub"; cs_controlPlaneURL := "https://cp";
  cs_devOAuthToken := ""; cs_clusterSlug := "laptop" |}.
Definition ok_json : json := JObj [("ok"%string, JBool true)].
Definition request_doc (user uslug pid pslug : string) : json :=
  JObj [("userId", JStr user); ("userSlug", JStr uslug); ("hostSlug", JStr "laptop"); ("projectId", JStr pid); ("projectSlug", JStr pslug)]%string.
Definition register_doc (key : string) : json := JObj [("nkey_public", JStr key); ("user_slug", JStr "alice"); ("project_slug", JStr "web")]%string.
Definition docs : list json := [ok_json; request_doc "id-alice" "alice" "proj-1" "web"; request_doc "id-alice" "alice" "p-2" "b-site"; request_doc "id-eve" "alice-b" "p-3" "site"; register_doc "ANEW"].
Definition text : JsonText := table_json ((λ j, (print_plain j, j)) <$> docs).
Definition env : kube_env := {| kv_down v k := None; kv_status s := None; kv_view w := w; kv_now := 100; kv_uid := "uid-1"; kv_nkey := Some ("AWEB", "SEED")%string; kv_nc := true;
  kv_register := Some (print_plain ok_json); kv_polls := 60; kv_poll i := None |}.
Definition empty : World := {| w_projects := ∅; w_objects := ∅; w_out := [] |}.
Definition message (subject : string) (doc : json) : kube_msg := {| km_Subject := subject; km_Data := print_plain doc; km_Reply := true |}.
Definition create_web : kube_msg := message "mclaude.hosts.laptop.users.alice.projects.web.create" (request_doc "id-alice" "alice" "proj-1" "web").
(** After the request, after the first and after the second reconciling. *)
Definition requested : World := handleProvisionRequest (JT := text) cfg env create_web empty.
Definition web_key : string * string := ("mclaude-system", "alice-web")%string.
Definition pending : World := (Reconcile (JT := text) cfg env web_key requested).2.
Definition ready : World := (Reconcile (JT := text) cfg env web_key pending).2.
Definition web : MCProject := default {| mp_Namespace := ""; mp_Name := ""; mp_UID := ""; mp_Spec := {| ms_UserID := ""; ms_ProjectID := ""; ms_UserSlug := ""; ms_ProjectSlug := ""; ms_GitURL := ""; ms_GitIdentityID := "" |};
  mp_Status := zero_status |} (w_projects requested !! web_key).
End KubeDemo.
Import KubeDemo.

Example web_is_ready : option_map (λ m, st_Phase (mp_Status m)) (w_projects ready !! web_key) = Some PhaseReady ∧ size (w_objects ready) = 10%nat ∧ length (w_out ready) = 2%nat.
Proof. vm_compute. done. Qed.

Lemma demo_calm : calm env.
Proof. by split. Qed.
Lemma demo_accepts : accepts (JT := text) env "AWEB" "SEED".
Proof. split; [done|]. split; [done|]. intros _. exists (print_plain ok_json), {| gr_OK := true; gr_Error := "" |}. by split_and!. Qed.
Lemma demo_named : named requested.
Proof. intros k m H. assert (Hk : w_projects requested = {[ web_key := web ]}) by (vm_compute; reflexivity). rewrite Hk in H. apply lookup_singleton_Some in H as [<- <-]. vm_compute. reflexivity. Qed.

Lemma reconcile_confined_witness :
  let bob := (KSecret, ("mclaude-bob", "user-secrets")%string) in
  w_objects (Reconcile (JT := text) cfg env web_key requested).2 !! bob = w_objects requested !! bob.
Proof.
  intros bob. destruct (reconcile_confined (JT := text) cfg env web_key requested web) as (_ & H & _).
  - apply demo_named.
  - vm_compute. reflexivity.
  - apply (H "bob"%string); [discriminate|]. right. vm_compute. reflexivity.
Defined.

Lemma reconcile_completes_witness :
  ∃ w' m', Reconcile (JT := text) cfg env web_key pending = (RDone, w') ∧ w_projects w' !! web_key = Some m' ∧ ident web m' ∧
    st_Phase (mp_Status m') = PhaseReady ∧ st_UserNamespace (mp_Status m') = "mclaude-alice"%string ∧ provisioned w' "mclaude-alice" web.
Proof.
  apply (reconcile_completes (JT := text) cfg env web_key "AWEB" "SEED" requested web); [apply demo_calm|apply demo_accepts|apply demo_named|vm_compute; reflexivity].
Defined.

(** The secret of the agent. *)
Definition web_secret : kobj := plain_obj (BData "" {["nkey_seed"%string := "SEED"%string]} ∅).

Lemma agent_seed_stable_witness :
  ∃ o', obj (Reconcile (JT := text) cfg env web_key ready).2 (KSecret, ("mclaude-alice", "agent-nkey-proj-1")%string) = Some o' ∧ seed_of o' = "SEED"%string.
Proof. apply (agent_seed_stable (JT := text) cfg env web_key ready "mclaude-alice" "agent-nkey-proj-1" web_secret); [vm_compute; reflexivity|discriminate]. Defined.

Definition delete_web : kube_msg := message "mclaude.hosts.laptop.users.alice.projects.web.delete" (request_doc "id-alice" "alice" "proj-1" "web").
Definition web_request : ProvisionRequest := {| kr_UserID := "id-alice"; kr_ProjectID := "proj-1"; kr_UserSlug := "alice"; kr_HostSlug := "laptop"; kr_ProjectSlug := "web"; kr_GitURL := ""; kr_GitIdentityID := "" |}.

Lemma empty_unowned : unowned cfg empty.
Proof. intros k o H. change ((∅ : gmap okey kobj) !! k = Some o) in H. by rewrite lookup_empty in H. Qed.
Lemma local_requested e w : kv_view e w = w → (∀ k m, w_projects w !! k = Some m → k = web_key ∧ mp_Namespace m = "mclaude-system"%string) → local_view cfg e w.
Proof. intros Hv H k m. rewrite Hv. intros Hm. by apply H in Hm as [_ ?]. Qed.
Lemma only_web w m : w_projects w = {[ web_key := m ]} → mp_Namespace m = "mclaude-system"%string → ∀ k m', w_projects w !! k = Some m' → k = web_key ∧ mp_Namespace m' = "mclaude-system"%string.
Proof. intros -> Hm k m' [<- <-]%lookup_singleton_Some. done. Qed.
Lemma ready_reachable : rtc (kube_step (JT := text) cfg) empty ready.
Proof.
  eapply rtc_l; [apply (provisions (JT := text) cfg env create_web empty); intros k m H; change ((∅ : gmap (string * string) MCProject) !! k = Some m) in H; by rewrite lookup_empty in H|].
  eapply rtc_l; [apply (reconciles (JT := text) cfg env web_key requested); apply local_requested; [done|]; apply (only_web _ web); vm_compute; reflexivity|].
  eapply rtc_l; [apply (reconciles (JT := text) cfg env web_key pending); apply local_requested; [done|]; apply (only_web _ (with_phase PhasePending web)); vm_compute; reflexivity|]. done.
Qed.

Lemma deleted_project_keeps_running_witness :
  let w' := handleProvisionRequest (JT := text) cfg env delete_web ready in
  w_projects w' !! web_key = None ∧ is_Some (obj w' (KDeployment, ("mclaude-alice", "project-proj-1")%string)).
Proof.
  destruct (deleted_project_keeps_running (JT := text) cfg empty ready env delete_web web_request (default web (w_projects ready !! web_key))) as (H1 & _ & H3 & _).
  - apply ready_reachable.
  - apply empty_unowned.
  - split; vm_compute; reflexivity.
  - reflexivity.
  - vm_compute. reflexivity.
  - cbv zeta. rewrite H1. split; [apply lookup_delete_eq|]. rewrite H3 by discriminate. vm_compute. by eexists.
Defined.

(** The project [b-site] of alice and the project [site] of alice-b. *)
Definition alice_b_site : MCProject := {| mp_Namespace := "mclaude-system"; mp_Name := "alice-b-site"; mp_UID := "uid-2";
  mp_Spec := {| ms_UserID := "id-alice"; ms_ProjectID := "p-2"; ms_UserSlug := "alice"; ms_ProjectSlug := "b-site"; ms_GitURL := ""; ms_GitIdentityID := "" |};
  mp_Status := mp_Status (with_phase PhaseReady web) |}.
Definition taken : World := {| w_projects := {[ ("mclaude-system", "alice-b-site")%string := alice_b_site ]}; w_objects := ∅; w_out := [] |}.
Definition seeing (m : MCProject) : kube_env := {| kv_down v k := None; kv_status s := None; kv_view w := w; kv_now := 100; kv_uid := "uid-3"; kv_nkey := None; kv_nc := true;
  kv_register := None; kv_polls := 60; kv_poll i := Some m |}.
Definition eve_request : ProvisionRequest := {| kr_UserID := "id-eve"; kr_ProjectID := "p-3"; kr_UserSlug := "alice-b"; kr_HostSlug := "laptop"; kr_ProjectSlug := "site"; kr_GitURL := ""; kr_GitIdentityID := "" |}.
Definition eve_message (op : string) : kube_msg := message ("mclaude.hosts.laptop.users.alice-b.projects.site." +:+ op) (request_doc "id-eve" "alice-b" "p-3" "site").

Lemma resource_names_collide_witness :
  Validate (ms_UserSlug (mp_Spec alice_b_site)) = None ∧ Validate (kr_UserSlug eve_request) = None ∧
  handleProvisionRequest (JT := text) cfg (seeing alice_b_site) (eve_message "create") taken = emit (KReplied {| py_OK := true; py_ProjectSlug := "site"; py_Error := ""; py_Code := "" |}) taken ∧
  w_projects (handleProvisionRequest (JT := text) cfg (seeing alice_b_site) (eve_message "delete") taken) !! ("mclaude-system", "alice-b-site")%string = None.
Proof.
  split; [vm_compute; reflexivity|]. split; [vm_compute; reflexivity|]. split.
  - apply (resource_names_collide (JT := text) cfg taken alice_b_site eve_request (seeing alice_b_site) (eve_message "create")); try (vm_compute; reflexivity); try (split; vm_compute; reflexivity); try done; cbn; lia.
  - apply (resource_names_collide (JT := text) cfg taken alice_b_site eve_request (seeing alice_b_site) (eve_message "delete")); try (vm_compute; reflexivity); try (split; vm_compute; reflexivity); try done; cbn; lia.
Defined.

Lemma requested_project_created_witness :
  w_projects (handleProvisionRequest (JT := text) cfg env create_web empty) = {[ web_key := web ]}.
Proof.
  refine (proj1 (requested_project_created (JT := text) cfg env create_web empty "id-alice" "alice" "laptop" (mk_project "proj-1" "id-alice" "web" "host-1") "" "" _ _ _ _ _)); try (vm_compute; reflexivity).
Defined.

(** A cache without the secret. *)
Definition lagging : kube_env := {| kv_down v k := None; kv_status s := None; kv_view w := empty; kv_now := 100; kv_uid := "uid-1"; kv_nkey := Some ("ANEW", "SEED2")%string; kv_nc := true;
  kv_register := cp_answer (JT := text) server (handleAgentRegister (JT := text) (env_at 100) (agent_register_msg (JT := text) cfg web "ANEW") server); kv_polls := 60; kv_poll i := None |}.

Lemma agent_key_forgotten_witness :
  ∃ w', reconcileAgentNKey (JT := text) cfg lagging web "mclaude-alice" ready = (Ok (), w') ∧ obj w' (agent_key "mclaude-alice" web) = Some web_secret ∧
    ∀ cred, cred ∈ agent_credentials (db (handleAgentRegister (JT := text) (env_at 100) (agent_register_msg (JT := text) cfg web "ANEW") server)) →
      for_project "id-alice" "laptop" "web" cred → ac_NKeyPublic cred = "ANEW"%string.
Proof.
  destruct (agent_key_forgotten (JT := text) cfg lagging ready web "mclaude-alice" web_secret "ANEW" "SEED2" (env_at 100) server alice (mk_project "proj-1" "id-alice" "web" "host-1")) as (w' & H1 & H2 & H3 & _).
  - vm_compute. reflexivity.
  - vm_compute. reflexivity.
  - discriminate.
  - reflexivity.
  - reflexivity.
  - reflexivity.
  - split; [reflexivity|vm_compute; reflexivity|split_and!; discriminate|reflexivity|vm_compute; reflexivity|vm_compute; left].
  - vm_compute. reflexivity.
  - vm_compute. reflexivity.
  - vm_compute. reflexivity.
  - vm_compute. reflexivity.
  - reflexivity.
  - exists w'. split; [exact H1|]. split; [exact H2|]. intros cred Hc Hf. apply H3; [exact Hc|].
    assert (Ew : ms_ProjectSlug (mp_Spec web) = "web"%string) by (vm_compute; reflexivity). rewrite Ew. exact Hf.
Defined.

(** A user with a slug of 56 letters. *)
Definition long_slug : string := "aaaaaaaaaaaaaaaaaaaaaaaaaaaaaaaaaaaaaaaaaaaaaaaaaaaaaaaa".
Definition long_project : MCProject := {| mp_Namespace := "mclaude-system"; mp_Name := long_slug +:+ "-web"; mp_UID := "uid-4";
  mp_Spec := {| ms_UserID := "id-long"; ms_ProjectID := "p-4"; ms_UserSlug := long_slug; ms_ProjectSlug := "web"; ms_GitURL := ""; ms_GitIdentityID := "" |};
  mp_Status := mp_Status (with_phase PhasePending web) |}.
Definition strict : kube_env := {| kv_down v k := match v, k with VCreate, (KNamespace, (_, name)) => if (63 <? String.length name)%nat then Some "must be no more than 63 characters"%string else None | _, _ => None end;
  kv_status s := None; kv_view w := w; kv_now := 100; kv_uid := "uid-1"; kv_nkey := None; kv_nc := true; kv_register := None; kv_polls := 60; kv_poll i := None |}.
Definition long_world : World := {| w_projects := {[ key_of long_project := long_project ]}; w_objects := ∅; w_out := [] |}.

Lemma long_user_fails_witness : Validate long_slug = None ∧
  ∃ w' m', Reconcile (JT := text) cfg strict (key_of long_project) long_world = (RRequeueAfter 30, w') ∧ w_objects w' = w_objects long_world ∧
    w_projects w' !! key_of long_project = Some m' ∧ ident long_project m' ∧ st_Phase (mp_Status m') = PhaseFailed.
Proof.
  split; [vm_compute; reflexivity|]. apply (long_user_fails (JT := text) cfg strict long_world long_project); try done; try (vm_compute; reflexivity).
  - intros name H. exists "must be no more than 63 characters"%string. apply Nat.ltb_lt in H. unfold strict, namespace_key. cbn [kv_down]. by rewrite H.
  - intros [] k H; try done.
Defined.
