(* ===== verification/GitCreds.v ===== *)
(** * Git credentials of the session agent (gitcreds.go)

    The agent of a pod prepares git before any session runs: it links the
    configuration directory of the persistent volume to ~/.config, merges the
    accounts of the mounted user-secrets into the files of the gh and glab
    command line tools, registers both as credential helpers and then clones,
    or makes, the bare repository of the project. The YAML library and the
    programs the agent starts are parameters. *)

From stdpp Require Import gmap sets strings.
From S2P Require Import Prelude GoStrings GoPath.

(** ** Configuration files *)

(** [ghUserEntry]: the token of an account. [ghHostEntry]: a host of gh's
    hosts.yml. A map is its entries: a field that is absent and an empty map
    are written and read alike. *)
Record ghUserEntry := { gu_OAuthToken : string }.
Record ghHostEntry := {
  Users : gmap string ghUserEntry;
  User : string;
  OAuthToken : string;
  GitProtocol : string;
}.
Notation ghHostsConfig := (gmap string ghHostEntry).

(** [glabHostEntry] and the hosts of [glabHostsConfig]. *)
Record glabHostEntry := { Token : string; APIHost : string; gl_User : string }.
Notation glabHostsConfig := (gmap string glabHostEntry).

#[global] Instance ghUserEntry_eq_dec : EqDecision ghUserEntry.
Proof. solve_decision. Defined.
#[global] Instance ghHostEntry_eq_dec : EqDecision ghHostEntry.
Proof. solve_decision. Defined.
#[global] Instance glabHostEntry_eq_dec : EqDecision glabHostEntry.
Proof. solve_decision. Defined.

(** The YAML library (gopkg.in/yaml.v3), for the two types of files. *)
Class YamlText := {
  parse_gh : string → option ghHostsConfig;
  marshal_gh : ghHostsConfig → string;
  parse_glab : string → option glabHostsConfig;
  marshal_glab : glabHostsConfig → string;
  parse_marshal_gh c : parse_gh (marshal_gh c) = Some c;
  parse_marshal_glab c : parse_glab (marshal_glab c) = Some c;
  parse_gh_empty : parse_gh "" = Some ∅;
}.

(** [gitAuthErrPatterns] and [IsGitAuthError]. *)
Definition gitAuthErrPatterns : list string :=
  ["Authentication failed"; "HTTP Basic: Access denied"; "Invalid username or password"; "could not read Username"]%string.

Definition IsGitAuthError (exitCode : Z) (stderr : string) : bool :=
  if negb (exitCode =? 128)%Z then false else existsb (Contains stderr) gitAuthErrPatterns.

(** [NormalizeGitURL]: the hosts are the keys of the Go map. *)
Definition NormalizeGitURL (rawURL : string) (registeredHosts : gset string) : string :=
  if negb (HasPrefix rawURL "git@") then rawURL
  else if Contains rawURL "://" then rawURL
  else
    let after := TrimPrefix rawURL "git@" in
    match Index after ":" with
    | None => rawURL
    | Some colonIdx =>
      let host := take_str colonIdx after in
      let path := drop_str (S colonIdx) after in
      if bool_decide (host ∈ registeredHosts) then ("https://" +:+ host +:+ "/" +:+ path)%string else rawURL
    end.

Example normalize_cases :
  (λ u, NormalizeGitURL u {["github.com"%string]}) <$>
    ["git@github.com:rsong/mclaude"; "git@github.com:rsong/mclaude.git"; "ssh://git@github.com/rsong/mclaude"; "https://github.com/rsong/mclaude"; "git@gitlab.com:a/b"; "git@github.com"]%string =
  ["https://github.com/rsong/mclaude"; "https://github.com/rsong/mclaude.git"; "ssh://git@github.com/rsong/mclaude"; "https://github.com/rsong/mclaude"; "git@gitlab.com:a/b"; "git@github.com"]%string.
Proof. vm_compute. reflexivity. Qed.

(** ** Accounts and merging *)

Section files.
Context `{MR : MapRange, YT : YamlText}.

(** The account of one host that [ConvertGHHostsToOldFormat] selects: the
    token and the user; each step runs when the ones before left no token. *)
Definition bound_account (activeUsername activeHost host : string) (entry : ghHostEntry) : string * string :=
  if negb (String.eqb activeUsername "") && String.eqb host activeHost then
    match Users entry !! activeUsername with
    | Some u => (gu_OAuthToken u, activeUsername)
    | None => ("", "")%string
    end
  else ("", "")%string.

Definition default_account (entry : ghHostEntry) (sel : string * string) : string * string :=
  if String.eqb sel.1 "" && negb (String.eqb (User entry) "") then
    match Users entry !! User entry with
    | Some u => (gu_OAuthToken u, User entry)
    | None => sel
    end
  else sel.

Definition first_account (entry : ghHostEntry) (sel : string * string) : string * string :=
  if String.eqb sel.1 "" then
    match range_first (map_to_list (Users entry)) with
    | Some (username, u) => (gu_OAuthToken u, username)
    | None => sel
    end
  else sel.

Definition select_account (activeUsername activeHost host : string) (entry : ghHostEntry) : string * string :=
  if decide (Users entry = ∅) then (OAuthToken entry, User entry)
  else first_account entry (default_account entry (bound_account activeUsername activeHost host entry)).

Definition old_entry (activeUsername activeHost host : string) (entry : ghHostEntry) : ghHostEntry :=
  let sel := select_account activeUsername activeHost host entry in
  {| Users := ∅; User := sel.2; OAuthToken := sel.1; GitProtocol := "https" |}.

Definition ConvertGHHostsToOldFormat (managed : string) (activeUsername activeHost : string) : result string string :=
  if String.eqb managed "" then Ok ""%string
  else match parse_gh managed with
  | None => Err "parse managed gh-hosts.yml"%string
  | Some managedCfg => Ok (marshal_gh (map_imap (λ host entry, Some (old_entry activeUsername activeHost host entry)) managedCfg))
  end.

(** [findHostForUsernameInManaged]: the first host that matches, in the order
    of the iteration. *)
Definition has_account (username : string) (entry : ghHostEntry) : bool :=
  bool_decide (is_Some (Users entry !! username)) || (String.eqb (User entry) username && bool_decide (Users entry = ∅)).

Definition findHostForUsernameInManaged (managedCfg : ghHostsConfig) (username : string) : string :=
  match range_first (List.filter (λ he, has_account username he.2) (map_to_list managedCfg)) with
  | Some (host, _) => host
  | None => ""
  end.

(** [MergeGHHostsYAML] and [MergeGLabConfigYAML]; an empty slice is not parsed. *)
Definition parse_existing {A} (parse : string → option (gmap string A)) (existing : string) : gmap string A :=
  if String.eqb existing "" then ∅ else default ∅ (parse existing).

Definition MergeGHHostsYAML (existing managed : string) : result string string :=
  let existingCfg := parse_existing parse_gh existing in
  match (if String.eqb managed "" then Some ∅ else parse_gh managed) with
  | None => Err "parse managed gh-hosts.yml"%string
  | Some managedCfg => Ok (marshal_gh (managedCfg ∪ existingCfg))
  end.

Definition MergeGLabConfigYAML (existing managed : string) : result string string :=
  let existingCfg := parse_existing parse_glab existing in
  match (if String.eqb managed "" then Some ∅ else parse_glab managed) with
  | None => Err "parse managed glab-config.yml"%string
  | Some managedCfg => Ok (marshal_glab (managedCfg ∪ existingCfg))
  end.

(** ** The disk *)

(** A directory with what is below it, by relative path. *)
Record Tree := { t_dirs : gset string; t_files : gmap string string }.
Definition empty_tree : Tree := {| t_dirs := ∅; t_files := ∅ |}.

(** ~/.config: absent, a directory of the home directory, or a link to the
    directory on the volume, /data/.config, which may itself be absent. *)
Inductive ConfigHome := NoConfig | OwnDir (t : Tree) | Linked.
Record Disk := { d_home : ConfigHome; d_volume : option Tree }.

(** What ~/.config holds. *)
Definition config_tree (d : Disk) : option Tree :=
  match d_home d with NoConfig => None | OwnDir t => Some t | Linked => d_volume d end.
Definition set_config_tree (t : Tree) (d : Disk) : Disk :=
  match d_home d with
  | Linked => {| d_home := Linked; d_volume := Some t |}
  | _ => {| d_home := OwnDir t; d_volume := d_volume d |}
  end.

Definition config_file (d : Disk) (name : string) : option string := config_tree d ≫= λ t, t_files t !! name.

(** The outcome of a write: a failed one leaves the file as it was, or with
    part of what was to be written. *)
Inductive write_outcome := Written | NotOpened | PartWritten (part : string).

(** A file of the mount of user-secrets. *)
Inductive secret_file := Missing | Unreadable (err : string) | Content (data : string).

(** What the operating system answers during a call. *)
Record cred_env := {
  ce_secret : string → secret_file;
  ce_remove : option string;
  ce_volume : option string;
  ce_link : option string;
  ce_mkdir : string → option string;
  ce_read : string → bool;
  ce_write : string → write_outcome;
}.

(** [os.MkdirAll] of a directory of ~/.config: a dangling link is an error. *)
Definition config_MkdirAll (e : cred_env) (dir : string) (d : Disk) : option string * Disk :=
  match ce_mkdir e dir with
  | Some err => (Some err, d)
  | None =>
    match d_home d, config_tree d with
    | Linked, None => (Some "file exists"%string, d)
    | _, t => let t := default empty_tree t in (None, set_config_tree {| t_dirs := {[dir]} ∪ t_dirs t; t_files := t_files t |} d)
    end
  end.

(** [os.ReadFile] of a file of ~/.config, its error dropped; [os.WriteFile]:
    the result says whether it succeeded. *)
Definition config_ReadFile (e : cred_env) (name : string) (d : Disk) : string :=
  if ce_read e name then default ""%string (config_file d name) else ""%string.

Definition config_WriteFile (e : cred_env) (dir name data : string) (d : Disk) : bool * Disk :=
  match config_tree d with
  | Some t =>
    if decide (dir ∈ t_dirs t) then
      match ce_write e name with
      | Written => (true, set_config_tree {| t_dirs := t_dirs t; t_files := <[ name := data ]> (t_files t) |} d)
      | NotOpened => (false, d)
      | PartWritten part => (false, set_config_tree {| t_dirs := t_dirs t; t_files := <[ name := part ]> (t_files t) |} d)
      end
    else (false, d)
  | None => (false, d)
  end.

(** [ReadSecretFile]: [nil] when there is no such file. *)
Definition ReadSecretFile (e : cred_env) (name : string) : result string (option string) :=
  match ce_secret e name with
  | Missing => Ok None
  | Unreadable err => Err err
  | Content data => Ok (Some data)
  end.

(** ** The credential manager *)

(** [CredentialManager]: the last managed contents, and whether the helpers
    were registered. The world is its disk and the programs it started. *)
Record CredentialManager := {
  lastGHHosts : option string;
  lastGLabConfig : option string;
  setupRan : bool;
}.
Definition NewCredentialManager : CredentialManager := {| lastGHHosts := None; lastGLabConfig := None; setupRan := false |}.

Definition equalBytes (a b : option string) : bool := String.eqb (default ""%string a) (default ""%string b).

Record cred_world := { cw_disk : Disk; cw_runs : list (list string) }.
Definition on_disk (f : Disk → Disk) (w : cred_world) : cred_world := {| cw_disk := f (cw_disk w); cw_runs := cw_runs w |}.
Definition runs (argv : list string) (w : cred_world) : cred_world := {| cw_disk := cw_disk w; cw_runs := cw_runs w ++ [argv] |}.

(** [resolveIdentityFromManaged]: the account and its host, or empty; an
    unreadable name is an error, with empty names too. *)
Definition resolveIdentityFromManaged (e : cred_env) (gitIdentityID : string) (managedCfg : ghHostsConfig) : string * string :=
  if String.eqb gitIdentityID "" then ("", "")%string
  else match ReadSecretFile e ("conn-" +:+ gitIdentityID +:+ "-username")%string with
  | Err _ => ("", "")%string
  | Ok data =>
    if String.eqb (default ""%string data) "" then ("", "")%string
    else
      let resolvedUsername := TrimSpace (default ""%string data) in
      let resolvedHost := findHostForUsernameInManaged managedCfg resolvedUsername in
      if String.eqb resolvedHost "" then ("", "")%string else (resolvedUsername, resolvedHost)
  end.

Definition gh_dir : string := "gh".
Definition gh_main : string := "gh/config.yml".
Definition gh_hosts : string := "gh/hosts.yml".
Definition glab_dir : string := "glab-cli".
Definition glab_config : string := "glab-cli/config.yml".

(** gh's config.yml, written once. *)
Definition write_gh_main (e : cred_env) (d : Disk) : Disk :=
  match config_MkdirAll e gh_dir d with
  | (Some _, d) => d
  | (None, d) =>
    match config_file d gh_main with
    | Some _ => d
    | None => (config_WriteFile e gh_dir gh_main ("version: " +:+ dquote +:+ "1" +:+ dquote +:+ nl)%string d).2
    end
  end.

(** The merge of gh-hosts.yml and the one of glab-config.yml: the error and
    the disk; a write that fails is only logged. *)
Definition merge_gh (e : cred_env) (gitIdentityID : string) (managedGHHosts : option string) (d : Disk) : option string * Disk :=
  match managedGHHosts with
  | None => (None, d)
  | Some managed =>
    match config_MkdirAll e gh_dir d with
    | (Some _, d) => (None, d)
    | (None, d) =>
      match parse_gh managed with
      | None => (Some "parse managed gh-hosts.yml"%string, d)
      | Some managedCfg =>
        let '(activeUsername, activeHost) := resolveIdentityFromManaged e gitIdentityID managedCfg in
        match ConvertGHHostsToOldFormat managed activeUsername activeHost with
        | Err err => (Some err, d)
        | Ok convertedManaged =>
          match MergeGHHostsYAML (config_ReadFile e gh_hosts d) convertedManaged with
          | Err err => (Some err, d)
          | Ok merged => (None, (config_WriteFile e gh_dir gh_hosts merged d).2)
          end
        end
      end
    end
  end.

Definition merge_glab (e : cred_env) (managedGLabConfig : option string) (d : Disk) : option string * Disk :=
  match managedGLabConfig with
  | None => (None, d)
  | Some managed =>
    match MergeGLabConfigYAML (config_ReadFile e glab_config d) managed with
    | Err err => (Some err, d)
    | Ok merged =>
      match config_MkdirAll e glab_dir d with
      | (Some _, d) => (None, d)
      | (None, d) => (None, (config_WriteFile e glab_dir glab_config merged d).2)
      end
    end
  end.

Definition merge_files (e : cred_env) (gitIdentityID : string) (gh glab : option string) (d : Disk) : option string * Disk :=
  let d := write_gh_main e d in
  let '(ghErr, d) := merge_gh e gitIdentityID gh d in
  let '(glabErr, d) := merge_glab e glab d in
  (match ghErr with Some err => Some err | None => glabErr end, d).

Definition setup_commands : list (list string) := [["gh"; "auth"; "setup-git"]; ["glab"; "auth"; "setup-git"]]%string.

(** [mergeAndSetup]: whether anything changed, or an error. Both are computed
    before the helpers are registered. *)
Definition mergeAndSetup (e : cred_env) (gitIdentityID : string) (cm : CredentialManager) (w : cred_world) :
    (bool * option string) * CredentialManager * cred_world :=
  match ReadSecretFile e "gh-hosts.yml" with
  | Err err => (false, Some err, cm, w)
  | Ok managedGHHosts =>
    match ReadSecretFile e "glab-config.yml" with
    | Err err => (false, Some err, cm, w)
    | Ok managedGLabConfig =>
      let ghChanged := negb (equalBytes (lastGHHosts cm) managedGHHosts) in
      let glabChanged := negb (equalBytes (lastGLabConfig cm) managedGLabConfig) in
      if negb ghChanged && negb glabChanged && setupRan cm then (false, None, cm, w)
      else
        let '(mergeErr, cm1, w) :=
          if ghChanged || glabChanged then
            let '(err, d) := merge_files e gitIdentityID managedGHHosts managedGLabConfig (cw_disk w) in
            (err, {| lastGHHosts := managedGHHosts; lastGLabConfig := managedGLabConfig; setupRan := setupRan cm |}, on_disk (const d) w)
          else (None, cm, w) in
        (* the condition of the second step is the negation of the early return *)
        let w := fold_left (λ w argv, runs argv w) setup_commands w in
        (true, mergeErr, {| lastGHHosts := lastGHHosts cm1; lastGLabConfig := lastGLabConfig cm1; setupRan := true |}, w)
    end
  end.

(** [symlinkPVCConfig]: what ~/.config was is removed, a link itself and not
    what it points to; the directory on the volume is made if needed. *)
Definition symlinkPVCConfig (e : cred_env) (d : Disk) : option string * Disk :=
  match ce_remove e with
  | Some err => (Some err, d)
  | None =>
    let d := {| d_home := NoConfig; d_volume := d_volume d |} in
    match ce_volume e with
    | Some err => (Some err, d)
    | None =>
      let d := {| d_home := NoConfig; d_volume := Some (default empty_tree (d_volume d)) |} in
      match ce_link e with
      | Some err => (Some err, d)
      | None => (None, {| d_home := Linked; d_volume := d_volume d |})
      end
    end
  end.

(** [Setup] and [RefreshIfChanged]. *)
Definition Setup (e : cred_env) (gitIdentityID : string) (cm : CredentialManager) (w : cred_world) : option string * CredentialManager * cred_world :=
  match symlinkPVCConfig e (cw_disk w) with
  | (Some err, d) => (Some ("symlink PVC config: " +:+ err)%string, cm, on_disk (const d) w)
  | (None, d) => let '(_, cm, w) := mergeAndSetup e gitIdentityID cm (on_disk (const d) w) in (None, cm, w)
  end.

Definition RefreshIfChanged (e : cred_env) (gitIdentityID : string) (cm : CredentialManager) (w : cred_world) : CredentialManager * cred_world :=
  let '(_, cm, w) := mergeAndSetup e gitIdentityID cm w in (cm, w).

(** [RegisteredHosts]: the hosts of the last managed content. *)
Definition RegisteredHosts (cm : CredentialManager) : gset string :=
  let content := default ""%string (lastGHHosts cm) in
  if String.eqb content "" then ∅ else match parse_gh content with Some cfg => dom cfg | None => ∅ end.

End files.

(** ** The repository of the project *)

(** The outcome of a program: its output, an exit code other than zero with its
    output, or an error to start it. *)
Inductive run_outcome := Exited0 (out : string) | ExitedWith (code : Z) (out : string) | NotRun (err : string).

(** The programs on a machine: a run changes its state. *)
Class Programs := {
  machine : Type;
  run : machine → list string → machine * run_outcome;
  exists_file : machine → string → bool;
  (** [os.MkdirAll] outside ~/.config. *)
  make_dirs : machine → string → machine * option string;
}.

(** [InitRepo] returns nothing, an authentication error or another error. *)
Inductive repo_error := GitAuthError (URL Stderr : string) | RepoFailed (msg : string).

Section repo.
Context `{MR : MapRange, YT : YamlText, PR : Programs}.

(** [runCmd]. *)
Definition runCmd (argv : list string) (m : machine) : option string * machine :=
  match run m argv with
  | (m, Exited0 _) => (None, m)
  | (m, ExitedWith _ out) => (Some (Join " " argv +:+ ": " +:+ out)%string, m)
  | (m, NotRun err) => (Some (Join " " argv +:+ ": " +:+ err)%string, m)
  end.

(** [cmd.Output]: the trimmed output or an error. *)
Definition cmd_output (argv : list string) (m : machine) : result string string * machine :=
  match run m argv with
  | (m, Exited0 out) => (Ok (TrimSpace out), m)
  | (m, ExitedWith _ out) => (Err out, m)
  | (m, NotRun err) => (Err err, m)
  end.

(** [initScratchRepo]: the author of the commit is set through its environment. *)
Definition initScratchRepo (repoPath : string) (m : machine) : option string * machine :=
  match runCmd ["git"; "init"; "--bare"; repoPath]%string m with
  | (Some err, m) => (Some ("git init --bare: " +:+ err)%string, m)
  | (None, m) =>
    match runCmd ["git"; "-C"; repoPath; "symbolic-ref"; "HEAD"; "refs/heads/main"]%string m with
    | (Some err, m) => (Some ("set default branch: " +:+ err)%string, m)
    | (None, m) =>
      match cmd_output ["git"; "-C"; repoPath; "hash-object"; "-t"; "tree"; "/dev/null"]%string m with
      | (Err err, m) => (Some ("hash-object tree: " +:+ err)%string, m)
      | (Ok treeHash, m) =>
        match cmd_output ["git"; "-C"; repoPath; "commit-tree"; treeHash; "-m"; "init"]%string m with
        | (Err err, m) => (Some ("commit-tree: " +:+ err)%string, m)
        | (Ok commitHash, m) =>
          match runCmd ["git"; "-C"; repoPath; "update-ref"; "refs/heads/main"; commitHash]%string m with
          | (Some err, m) => (Some ("update-ref: " +:+ err)%string, m)
          | (None, m) => (None, m)
          end
        end
      end
    end
  end.

(** The world of [InitRepo]: the credential manager, when there is one, with its
    files, and the machine. *)
Record repo_world := { rw_cm : option (CredentialManager * cred_world); rw_machine : machine }.

Definition refresh (e : cred_env) (gitIdentityID : string) (w : repo_world) : repo_world :=
  {| rw_cm := (λ c : CredentialManager * cred_world, RefreshIfChanged e gitIdentityID c.1 c.2) <$> rw_cm w; rw_machine := rw_machine w |}.
Definition on_machine (m : machine) (w : repo_world) : repo_world := {| rw_cm := rw_cm w; rw_machine := m |}.

(** The clone of the repository. *)
Definition clone_repo (e : cred_env) (repoPath gitURL gitIdentityID : string) (w : repo_world) : option repo_error * repo_world :=
  let w := refresh e gitIdentityID w in
  let cloneURL := match rw_cm w with Some (cm, _) => NormalizeGitURL gitURL (RegisteredHosts cm) | None => gitURL end in
  match run (rw_machine w) ["git"; "clone"; "--bare"; cloneURL; repoPath]%string with
  | (m, Exited0 _) => (None, on_machine m w)
  | (m, ExitedWith exitCode out) =>
    (Some (if IsGitAuthError exitCode out then GitAuthError cloneURL out else RepoFailed ("git clone --bare " +:+ cloneURL +:+ ": " +:+ out)%string), on_machine m w)
  | (m, NotRun err) => (Some (RepoFailed ("git clone --bare " +:+ cloneURL +:+ ": " +:+ err)%string), on_machine m w)
  end.

(** [InitRepo]; a fetch that fails is only logged. *)
Definition InitRepo (e : cred_env) (dataDir gitURL gitIdentityID : string) (w : repo_world) : option repo_error * repo_world :=
  let repoPath := path_Join [dataDir; "repo"%string] in
  let worktreesPath := path_Join [dataDir; "worktrees"%string] in
  let '(err, w) :=
    if exists_file (rw_machine w) (path_Join [repoPath; "HEAD"%string]) then
      if String.eqb gitURL "" then (None, w)
      else
        let w := refresh e gitIdentityID w in
        (None, on_machine (run (rw_machine w) ["git"; "-C"; repoPath; "fetch"; "--all"; "--prune"]%string).1 w)
    else if negb (String.eqb gitURL "") then clone_repo e repoPath gitURL gitIdentityID w
    else match initScratchRepo repoPath (rw_machine w) with
    | (Some err, m) => (Some (RepoFailed ("init scratch repo: " +:+ err)%string), on_machine m w)
    | (None, m) => (None, on_machine m w)
    end in
  match err with
  | Some err => (Some err, w)
  | None =>
    match make_dirs (rw_machine w) worktreesPath with
    | (m, Some err) => (Some (RepoFailed ("mkdir worktrees: " +:+ err)%string), on_machine m w)
    | (m, None) => (None, on_machine m w)
    end
  end.

End repo.
