(* ===== verification/GitCredsSpec.v ===== *)
(** * What the credential setup promises (gitcreds.go)

    Which account reaches a host, which logins survive the merge, what a refresh
    skips, and when the repository of a project is ready. *)

From stdpp Require Import gmap sets strings.
From S2P Require Import Prelude GoStrings GoPath GitCreds.

(** ** URLs *)

Lemma index_char_app c (h p : string) : has_char c h = false → Index (h +:+ String c p) (String c "") = Some (String.length h).
Proof.
  unfold Index. induction h as [|a h IH]; simpl.
  - intros _. destruct (ascii_dec c c); [|done]. by destruct p.
  - intros [Ha Hh]%orb_false_iff. destruct (ascii_dec c a) as [->|Hne]; [by rewrite Ascii.eqb_refl in Ha|].
    by rewrite (IH Hh).
Qed.

Lemma index_char c s n :
  Index s (String c "") = Some n → s = take_str n s +:+ String c (drop_str (S n) s) ∧ has_char c (take_str n s) = false.
Proof.
  unfold Index. revert n. induction s as [|a s IH]; intros n; simpl; [done|].
  destruct (ascii_dec c a) as [<-|Hne].
  - assert (String.prefix "" s = true) as -> by (destruct s; reflexivity). intros [= <-]. split; reflexivity.
  - destruct (String.index 0 (String c "") s) as [k|] eqn:Hk; [|done]. intros [= <-].
    destruct (IH k eq_refl) as [E1 E2]. simpl. split; [by rewrite E1 at 1|].
    rewrite E2, orb_false_r. apply Ascii.eqb_neq. congruence.
Qed.

(** An SCP-style URL of a host. *)
Definition scp_url (host path : string) : string := "git@" +:+ host +:+ ":" +:+ path.

Lemma normalize_scp host path hosts :
  has_char ":" host = false → Contains (scp_url host path) "://" = false → host ∈ hosts →
  NormalizeGitURL (scp_url host path) hosts = "https://" +:+ host +:+ "/" +:+ path.
Proof.
  intros Hh Hc Hin. unfold NormalizeGitURL. rewrite Hc.
  assert (HasPrefix (scp_url host path) "git@" = true) as -> by apply prefix_app.
  unfold scp_url. rewrite TrimPrefix_app. simpl negb. cbv iota.
  change (":" +:+ path) with (String ":" path). rewrite index_char_app by done. cbv zeta.
  rewrite take_str_app. rewrite bool_decide_eq_true_2 by done.
  f_equal. f_equal. f_equal. clear. induction host as [|a host IH]; simpl; [by destruct path|done].
Qed.

(** Normalisation of a URL: it is left alone unless it is the SCP-style address of a
    host with registered credentials; such an address becomes the HTTPS URL of the
    same host and path, and normalising again changes nothing. *)
Theorem normalize_exact url hosts :
  (∀ host path, url = scp_url host path → has_char ":" host = false → Contains url "://" = false → host ∈ hosts →
     NormalizeGitURL url hosts = "https://" +:+ host +:+ "/" +:+ path) ∧
  (NormalizeGitURL url hosts ≠ url → ∃ host path, url = scp_url host path ∧ has_char ":" host = false ∧ Contains url "://" = false ∧ host ∈ hosts) ∧
  NormalizeGitURL (NormalizeGitURL url hosts) hosts = NormalizeGitURL url hosts.
Proof.
  assert (H2 : NormalizeGitURL url hosts ≠ url → ∃ host path, url = scp_url host path ∧ has_char ":" host = false ∧ Contains url "://" = false ∧ host ∈ hosts).
  { unfold NormalizeGitURL. destruct (HasPrefix url "git@") eqn:Hp; [|done]. destruct (Contains url "://") eqn:Hc; [done|].
    apply prefix_spec in Hp as [k ->]. rewrite TrimPrefix_app. simpl negb. cbv iota.
    destruct (Index k ":") as [n|] eqn:Hi; [|done]. apply index_char in Hi as [E1 E2].
    case_bool_decide; [|done]. intros _. exists (take_str n k), (drop_str (S n) k). unfold scp_url. split_and!; try done.
    by rewrite E1 at 1. }
  split_and!; [|done|].
  - intros host path -> Hh Hc Hin. by apply normalize_scp.
  - destruct (decide (NormalizeGitURL url hosts = url)) as [E|Hne]; [by rewrite E, E|].
    destruct (H2 Hne) as (host & path & -> & Hh & Hc & Hin). rewrite (normalize_scp host path hosts) by done. done.
Qed.

(** ** Accounts *)

Section files.
Context `{MR : MapRange, YT : YamlText}.

(** An account of a host entry: its own token, or one of its users. *)
Definition account_of (entry : ghHostEntry) (token user : string) : Prop :=
  if decide (Users entry = ∅) then token = OAuthToken entry ∧ user = User entry
  else ∃ u, Users entry !! user = Some u ∧ gu_OAuthToken u = token.

Lemma select_account_sound au ah host entry : account_of entry (select_account au ah host entry).1 (select_account au ah host entry).2.
Proof.
  unfold account_of, select_account. case_decide as He; [done|].
  assert (Hb : let b := bound_account au ah host entry in b.1 ≠ "" → ∃ u, Users entry !! b.2 = Some u ∧ gu_OAuthToken u = b.1).
  { unfold bound_account. repeat case_match; simpl; eauto; done. }
  revert Hb. generalize (bound_account au ah host entry). intros b Hb.
  assert (Hd : let d := default_account entry b in d.1 ≠ "" → ∃ u, Users entry !! d.2 = Some u ∧ gu_OAuthToken u = d.1).
  { unfold default_account. repeat case_match; simpl; eauto. }
  revert Hd. generalize (default_account entry b). intros d Hd. unfold first_account.
  destruct (String.eqb_spec d.1 ""); [|by apply Hd].
  destruct (range_first _) as [[user u]|] eqn:Hr.
  - apply range_first_in, elem_of_map_to_list in Hr. eauto.
  - apply range_first_none, map_to_list_empty_iff in Hr. done.
Qed.

(** The account of the identity when it has a token. *)
Lemma select_bound au host entry u :
  au ≠ ""%string → Users entry !! au = Some u → gu_OAuthToken u ≠ ""%string → select_account au host host entry = (gu_OAuthToken u, au).
Proof.
  intros Hau Hu Ht. unfold select_account, bound_account. rewrite decide_False; [|intros E; by rewrite E in Hu].
  rewrite (proj2 (String.eqb_neq _ _) Hau), String.eqb_refl, Hu. simpl.
  unfold default_account, first_account. simpl. rewrite (proj2 (String.eqb_neq _ _) Ht). simpl. by rewrite (proj2 (String.eqb_neq _ _) Ht).
Qed.

(** On any other host, the default account when it has a token. *)
Lemma select_default au ah host entry u :
  au = ""%string ∨ host ≠ ah → User entry ≠ ""%string → Users entry !! User entry = Some u → gu_OAuthToken u ≠ ""%string →
  select_account au ah host entry = (gu_OAuthToken u, User entry).
Proof.
  intros Hau Hn Hu Ht. unfold select_account. rewrite decide_False; [|intros E; by rewrite E in Hu].
  assert (bound_account au ah host entry = ("", "")%string) as ->.
  { unfold bound_account. destruct Hau as [->|Hh]; [done|]. rewrite (proj2 (String.eqb_neq _ _) Hh), andb_false_r. done. }
  unfold default_account, first_account. simpl. rewrite (proj2 (String.eqb_neq _ _) Hn), Hu. simpl. by rewrite (proj2 (String.eqb_neq _ _) Ht).
Qed.

(** ** The files *)

Lemma config_file_mkdir e dir d name : config_file (config_MkdirAll e dir d).2 name = config_file d name.
Proof. unfold config_MkdirAll. destruct (ce_mkdir e dir); [done|]. destruct d as [[|t|] [v|]]; done. Qed.

Lemma config_file_set t d name : is_Some (config_tree d) → config_file (set_config_tree t d) name = t_files t !! name.
Proof. destruct d as [[|t'|] [v|]]; intros [? H]; done. Qed.

Lemma config_file_write_ne e dir name data d name' : name' ≠ name → config_file (config_WriteFile e dir name data d).2 name' = config_file d name'.
Proof.
  intros Hne. unfold config_WriteFile. destruct (config_tree d) as [t|] eqn:Ht; [|done].
  case_decide; [|done]. destruct (ce_write e name); try done; simpl; (rewrite config_file_set; [|by rewrite Ht]);
    simpl; rewrite lookup_insert_ne by done; unfold config_file; by rewrite Ht.
Qed.

Lemma config_file_write e dir name data d :
  (∀ part, ce_write e name ≠ PartWritten part) →
  config_file (config_WriteFile e dir name data d).2 name = config_file d name ∨ config_file (config_WriteFile e dir name data d).2 name = Some data.
Proof.
  intros Hp. unfold config_WriteFile. destruct (config_tree d) as [t|] eqn:Ht; [|by left].
  case_decide; [|by left]. destruct (ce_write e name) eqn:Hw; [|by left|by destruct (Hp part)].
  right. simpl. rewrite config_file_set by (by rewrite Ht). simpl. by rewrite lookup_insert_eq.
Qed.

(** The write of a file whose directory was just made. *)
Lemma config_file_written e dir name data d d1 :
  config_MkdirAll e dir d = (None, d1) → ce_write e name = Written → config_file (config_WriteFile e dir name data d1).2 name = Some data.
Proof.
  intros Hm Hw. assert (∃ t, config_tree d1 = Some t ∧ dir ∈ t_dirs t) as (t & Ht & Hd).
  { unfold config_MkdirAll in Hm. destruct (ce_mkdir e dir); [done|].
    destruct d as [[|t'|] [v|]]; simpl in Hm; simplify_eq; simpl; eexists; (split; [done|]); simpl; set_solver. }
  unfold config_WriteFile. rewrite Ht, decide_True, Hw by done. simpl. rewrite config_file_set by (by rewrite Ht). simpl. by rewrite lookup_insert_eq.
Qed.

(** The logins that hosts.yml holds. *)
Definition logins (d : Disk) : ghHostsConfig := parse_existing parse_gh (default ""%string (config_file d gh_hosts)).

Lemma parse_existing_marshal c : parse_existing parse_gh (marshal_gh c) = c.
Proof.
  unfold parse_existing. destruct (String.eqb_spec (marshal_gh c) "") as [E|]; [|by rewrite parse_marshal_gh].
  pose proof (parse_marshal_gh c) as H. rewrite E, parse_gh_empty in H. by injection H.
Qed.

(** The managed hosts as they are written. *)
Definition selected (au ah : string) (managedCfg : ghHostsConfig) : ghHostsConfig := map_imap (λ host entry, Some (old_entry au ah host entry)) managedCfg.

Lemma merge_converted existing managed cfg au ah :
  parse_gh managed = Some cfg → ∃ converted merged, ConvertGHHostsToOldFormat managed au ah = Ok converted ∧
    MergeGHHostsYAML existing converted = Ok merged ∧ parse_existing parse_gh merged = selected au ah cfg ∪ parse_existing parse_gh existing.
Proof.
  intros Hp. unfold ConvertGHHostsToOldFormat. destruct (String.eqb_spec managed "") as [->|].
  - rewrite parse_gh_empty in Hp. injection Hp as <-. exists ""%string. unfold MergeGHHostsYAML. simpl.
    eexists. split; [done|]. split; [done|]. by rewrite parse_existing_marshal.
  - rewrite Hp. exists (marshal_gh (selected au ah cfg)). unfold MergeGHHostsYAML.
    destruct (String.eqb_spec (marshal_gh (selected au ah cfg)) "") as [E|].
    + pose proof (parse_marshal_gh (selected au ah cfg)) as H. rewrite E, parse_gh_empty in H. injection H as H.
      eexists. split; [done|]. split; [done|]. by rewrite parse_existing_marshal, <-H.
    + rewrite parse_marshal_gh. eexists. split; [done|]. split; [done|]. by rewrite parse_existing_marshal.
Qed.

Lemma write_gh_main_file e d name : name ≠ gh_main → config_file (write_gh_main e d) name = config_file d name.
Proof.
  intros Hne. unfold write_gh_main. pose proof (config_file_mkdir e gh_dir d name) as H. destruct (config_MkdirAll e gh_dir d) as [[err|] d1]; [done|].
  simpl in H. destruct (config_file d1 gh_main); [done|]. by rewrite config_file_write_ne.
Qed.

Lemma merge_glab_file e glab d name : name ≠ glab_config → config_file (merge_glab e glab d).2 name = config_file d name.
Proof.
  intros Hne. unfold merge_glab. destruct glab as [managed|]; [|done]. destruct (MergeGLabConfigYAML _ _); [|done].
  pose proof (config_file_mkdir e glab_dir d name) as H. destruct (config_MkdirAll e glab_dir d) as [[err|] d1]; [done|]. simpl in *. by rewrite config_file_write_ne.
Qed.

(** What the merges do to the logins, whatever fails: they stay, or the managed
    hosts are laid over them. *)
Definition laid_over (e : cred_env) (gitIdentityID : string) (managed : option string) (d d' : Disk) : Prop :=
  ∃ content cfg, managed = Some content ∧ parse_gh content = Some cfg ∧
    let '(au, ah) := resolveIdentityFromManaged e gitIdentityID cfg in logins d' = selected au ah cfg ∪ logins d.

Lemma logins_eq d d' : config_file d' gh_hosts = config_file d gh_hosts → logins d' = logins d.
Proof. unfold logins. by intros ->. Qed.

Lemma merge_gh_logins e gid managed d :
  ce_read e gh_hosts = true → (∀ part, ce_write e gh_hosts ≠ PartWritten part) →
  logins (merge_gh e gid managed d).2 = logins d ∨ laid_over e gid managed d (merge_gh e gid managed d).2.
Proof.
  intros Hr Hw. unfold merge_gh. destruct managed as [content|]; [|by left].
  pose proof (logins_eq _ _ (config_file_mkdir e gh_dir d gh_hosts)) as Hm. destruct (config_MkdirAll e gh_dir d) as [[err|] d1]; [by left|]. simpl in Hm.
  destruct (parse_gh content) as [cfg|] eqn:Hp; [|by left].
  destruct (resolveIdentityFromManaged e gid cfg) as [au ah] eqn:Hi.
  destruct (merge_converted (config_ReadFile e gh_hosts d1) content cfg au ah Hp) as (conv & merged & -> & -> & Hg). simpl.
  destruct (config_file_write e gh_dir gh_hosts merged d1 Hw) as [E|E].
  - left. rewrite <- Hm. by apply logins_eq.
  - right. exists content, cfg. split; [done|]. split; [done|]. rewrite Hi. unfold logins at 1. rewrite E. simpl. rewrite Hg.
    f_equal. rewrite <- Hm. unfold config_ReadFile. by rewrite Hr.
Qed.

Lemma merge_files_logins e gid gh glab d :
  ce_read e gh_hosts = true → (∀ part, ce_write e gh_hosts ≠ PartWritten part) →
  logins (merge_files e gid gh glab d).2 = logins d ∨ laid_over e gid gh d (merge_files e gid gh glab d).2.
Proof.
  intros Hr Hw. unfold merge_files.
  assert (Hd : logins (write_gh_main e d) = logins d) by (apply logins_eq; by apply write_gh_main_file).
  pose proof (merge_gh_logins e gid gh (write_gh_main e d) Hr Hw) as H.
  destruct (merge_gh e gid gh (write_gh_main e d)) as [ghErr d1]. simpl in H.
  pose proof (logins_eq d1 _ (merge_glab_file e glab d1 gh_hosts ltac:(done))) as Hg.
  destruct (merge_glab e glab d1) as [glabErr d2]. simpl in *. rewrite <- Hd, Hg.
  unfold laid_over in *. rewrite Hg, <- Hd. done.
Qed.

(** The same of a whole setup. *)
Lemma mergeAndSetup_logins e gid cm w :
  ce_read e gh_hosts = true → (∀ part, ce_write e gh_hosts ≠ PartWritten part) →
  let w' := (mergeAndSetup e gid cm w).2 in
  logins (cw_disk w') = logins (cw_disk w) ∨
  ∃ managed, ce_secret e "gh-hosts.yml" = Content managed ∧ laid_over e gid (Some managed) (cw_disk w) (cw_disk w').
Proof.
  intros Hr Hw. unfold mergeAndSetup, ReadSecretFile.
  destruct (ce_secret e "gh-hosts.yml") as [|err|gh] eqn:Hs; [|by left|];
    (destruct (ce_secret e "glab-config.yml") as [|err'|glab]; [|by left|]);
    (match goal with |- context [if ?b then (false, None, cm, w) else _] => destruct b; [by left|] end);
    (match goal with |- context [if ?b then let '(_, _) := _ in _ else _] => destruct b; [|by left] end);
    match goal with |- context [merge_files e gid ?a ?b ?d] => pose proof (merge_files_logins e gid a b d Hr Hw) as H; destruct (merge_files e gid a b d) as [err1 d1] end;
    simpl in *; (destruct H as [H|H]; [by left|]); try (destruct H as (? & ? & ? & _); done); right; eauto.
Qed.

(** Every login that the setup writes is an account of the same host. *)
Lemma selected_lookup au ah cfg host entry :
  selected au ah cfg !! host = Some entry ↔ ∃ m, cfg !! host = Some m ∧ entry = old_entry au ah host m.
Proof.
  unfold selected. rewrite map_lookup_imap. destruct (cfg !! host) as [m|]; simpl; [|naive_solver]. naive_solver.
Qed.

(** The merge is safe for every account: whatever the system refuses, as long as
    hosts.yml is read and no write of it is torn, each login of ~/.config after a
    setup is the one it held before or an account the secret has for the very same
    host, over HTTPS; and a login made by hand stays for every host the secret does
    not manage. *)
Theorem hosts_file_sound e gid cm w :
  ce_read e gh_hosts = true → (∀ part, ce_write e gh_hosts ≠ PartWritten part) →
  let before := logins (cw_disk w) in let after := logins (cw_disk (RefreshIfChanged e gid cm w).2) in
  let managed := match ce_secret e "gh-hosts.yml" with Content data => default ∅ (parse_gh data) | _ => ∅ end in
  (∀ host entry, after !! host = Some entry → before !! host = Some entry ∨
     ∃ m, managed !! host = Some m ∧ Users entry = ∅ ∧ GitProtocol entry = "https"%string ∧ account_of m (OAuthToken entry) (User entry)) ∧
  (∀ host entry, before !! host = Some entry → managed !! host = None → after !! host = Some entry) ∧
  (∀ host, is_Some (before !! host) → is_Some (after !! host)).
Proof.
  intros Hr Hw. pose proof (mergeAndSetup_logins e gid cm w Hr Hw) as H. unfold RefreshIfChanged.
  destruct (mergeAndSetup e gid cm w) as [[res cm'] w']. simpl in H |- *.
  destruct H as [->|(content & Hs & content' & cfg & [= <-] & Hp & H)]; [split_and!; eauto|].
  rewrite Hs, Hp. simpl. destruct (resolveIdentityFromManaged e gid cfg) as [au ah]. rewrite H. split_and!.
  - intros host entry [Hl|[_ Hl]]%lookup_union_Some_raw; [|by left].
    apply selected_lookup in Hl as (m & Hm & ->). right. exists m. split_and!; try done. simpl. apply select_account_sound.
  - intros host entry Hb Hn. rewrite lookup_union_r; [done|]. destruct (selected au ah cfg !! host) eqn:E; [|done].
    apply selected_lookup in E as (m & Hm & _). congruence.
  - intros host Hb. apply lookup_union_is_Some. by right.
Qed.

(** ** The identity of the project *)

(** [u] is an account of [h] alone. *)
Definition only_host (cfg : ghHostsConfig) (u h : string) : Prop :=
  (∃ m, cfg !! h = Some m ∧ has_account u m = true) ∧ ∀ h' m', cfg !! h' = Some m' → has_account u m' = true → h' = h.

Lemma find_only_host cfg u h : only_host cfg u h → findHostForUsernameInManaged cfg u = h.
Proof.
  intros [(m & Hm & Ha) Honly]. unfold findHostForUsernameInManaged. destruct (range_first _) as [[h' m']|] eqn:Hr.
  - apply range_first_in, list_elem_of_In, filter_In in Hr as [Hin Hh]. apply list_elem_of_In, elem_of_map_to_list in Hin. eauto.
  - apply range_first_none in Hr. assert (Hin : In (h, m) []); [|done]. rewrite <- Hr. apply filter_In. split; [|done].
    by apply list_elem_of_In, elem_of_map_to_list.
Qed.

Lemma resolve_identity e gid cfg name u h :
  gid ≠ ""%string → ce_secret e ("conn-" +:+ gid +:+ "-username") = Content name → name ≠ ""%string → TrimSpace name = u →
  only_host cfg u h → h ≠ ""%string → resolveIdentityFromManaged e gid cfg = (u, h).
Proof.
  intros Hg Hs Hn <- Ho Hh. unfold resolveIdentityFromManaged, ReadSecretFile. rewrite (proj2 (String.eqb_neq _ _) Hg), Hs. simpl.
  rewrite (proj2 (String.eqb_neq _ _) Hn), (find_only_host _ _ _ Ho), (proj2 (String.eqb_neq _ _) Hh). done.
Qed.

(** A disk and a system on which hosts.yml can be replaced. *)
Record replaceable (e : cred_env) (d : Disk) : Prop := {
  rp_mkdir dir : ce_mkdir e dir = None;
  rp_read : ce_read e gh_hosts = true;
  rp_write : ce_write e gh_hosts = Written;
  rp_home : d_home d = Linked → is_Some (d_volume d);
}.

Lemma replaceable_mkdir e dir d : replaceable e d → ∃ d1, config_MkdirAll e dir d = (None, d1) ∧ (d_home d1 = Linked → is_Some (d_volume d1)).
Proof.
  intros [Hm _ _ Hh]. unfold config_MkdirAll. rewrite Hm. destruct d as [[|t|] [v|]]; simpl in *;
    try (eexists; split; [reflexivity|]; done); by destruct (Hh eq_refl).
Qed.

Lemma replaceable_write e dir name data d : (d_home d = Linked → is_Some (d_volume d)) →
  let d' := (config_WriteFile e dir name data d).2 in d_home d' = Linked → is_Some (d_volume d').
Proof. intros H. unfold config_WriteFile. destruct d as [[|t|] [v|]]; simpl in *; try (by repeat case_match; simpl; eauto). Qed.

Lemma replaceable_main e d : replaceable e d → replaceable e (write_gh_main e d).
Proof.
  intros He. split; try apply He. unfold write_gh_main. destruct (replaceable_mkdir e gh_dir d He) as (d1 & -> & H1).
  destruct (config_file d1 gh_main); [done|]. by apply replaceable_write.
Qed.

Lemma merge_gh_written e gid content cfg d :
  replaceable e d → parse_gh content = Some cfg →
  let r := merge_gh e gid (Some content) d in
  let i := resolveIdentityFromManaged e gid cfg in r.1 = None ∧ logins r.2 = selected i.1 i.2 cfg ∪ logins d.
Proof.
  intros He Hp. unfold merge_gh. pose proof (logins_eq _ _ (config_file_mkdir e gh_dir d gh_hosts)) as Hm.
  destruct (replaceable_mkdir e gh_dir d He) as (d1 & Hd1 & H1). rewrite Hd1 in Hm |- *. simpl in Hm. rewrite Hp.
  destruct (resolveIdentityFromManaged e gid cfg) as [au ah].
  destruct (merge_converted (config_ReadFile e gh_hosts d1) content cfg au ah Hp) as (conv & merged & -> & -> & Hg). simpl.
  split; [done|]. unfold logins at 1. rewrite (config_file_written e gh_dir gh_hosts merged d d1 Hd1 (rp_write _ _ He)). simpl.
  rewrite Hg. f_equal. rewrite <- Hm. unfold config_ReadFile. by rewrite (rp_read _ _ He).
Qed.

(** The logins after a setup that finds new content. *)
Lemma mergeAndSetup_written e gid cm w content cfg glab :
  replaceable e (cw_disk w) → ce_secret e "gh-hosts.yml" = Content content → ReadSecretFile e "glab-config.yml" = Ok glab →
  equalBytes (lastGHHosts cm) (Some content) = false → parse_gh content = Some cfg →
  let i := resolveIdentityFromManaged e gid cfg in
  logins (cw_disk (mergeAndSetup e gid cm w).2) = selected i.1 i.2 cfg ∪ logins (cw_disk w).
Proof.
  intros He Hs Hg Hc Hp. unfold mergeAndSetup. unfold ReadSecretFile at 1. rewrite Hs, Hg, Hc. simpl. unfold merge_files.
  destruct (merge_gh_written e gid content cfg _ (replaceable_main _ _ He) Hp) as [_ H].
  destruct (merge_gh e gid (Some content) (write_gh_main e (cw_disk w))) as [ghErr d1]. simpl in H.
  pose proof (logins_eq d1 _ (merge_glab_file e glab d1 gh_hosts ltac:(done))) as Hl.
  destruct (merge_glab e glab d1) as [glabErr d2]. simpl in *. rewrite Hl, H. f_equal. apply logins_eq. by apply write_gh_main_file.
Qed.

(** The identity of a project decides its account: when new content is merged and
    the user name of the connection is an account of one host only, the login of that
    host becomes the token of that account, and every other managed host keeps its
    default account. *)
Theorem identity_applied e gid cm w content cfg glab name u h m acc :
  replaceable e (cw_disk w) → ce_secret e "gh-hosts.yml" = Content content → ReadSecretFile e "glab-config.yml" = Ok glab →
  equalBytes (lastGHHosts cm) (Some content) = false → parse_gh content = Some cfg →
  gid ≠ ""%string → ce_secret e ("conn-" +:+ gid +:+ "-username") = Content name → TrimSpace name = u → name ≠ ""%string → u ≠ ""%string →
  only_host cfg u h → h ≠ ""%string → cfg !! h = Some m → Users m !! u = Some acc → gu_OAuthToken acc ≠ ""%string →
  let after := logins (cw_disk (RefreshIfChanged e gid cm w).2) in
  after !! h = Some {| Users := ∅; User := u; OAuthToken := gu_OAuthToken acc; GitProtocol := "https" |} ∧
  (∀ h' m' acc', cfg !! h' = Some m' → h' ≠ h → User m' ≠ ""%string → Users m' !! User m' = Some acc' → gu_OAuthToken acc' ≠ ""%string →
     after !! h' = Some {| Users := ∅; User := User m'; OAuthToken := gu_OAuthToken acc'; GitProtocol := "https" |}).
Proof.
  intros He Hs Hg Hc Hp Hgid Hconn Htrim Hname Hu Ho Hh Hm Hacc Ht.
  assert (E : resolveIdentityFromManaged e gid cfg = (u, h)) by (eapply resolve_identity; eauto).
  pose proof (mergeAndSetup_written e gid cm w content cfg glab He Hs Hg Hc Hp) as H. rewrite E in H. unfold RefreshIfChanged.
  destruct (mergeAndSetup e gid cm w) as [[res cm'] w']. simpl in H |- *. rewrite H. split.
  - apply lookup_union_Some_l, selected_lookup. exists m. split; [done|]. unfold old_entry. by rewrite (select_bound u h m acc).
  - intros h' m' acc' Hm' Hne Hn Hacc' Ht'. apply lookup_union_Some_l, selected_lookup. exists m'. split; [done|].
    unfold old_entry. rewrite (select_default u h h' m' acc'); auto.
Qed.

(** ** What a refresh skips *)

Lemma equalBytes_refl a : equalBytes a a = true.
Proof. apply String.eqb_refl. Qed.

Lemma mergeAndSetup_seen e gid cm w gh glab :
  ReadSecretFile e "gh-hosts.yml" = Ok gh → ReadSecretFile e "glab-config.yml" = Ok glab →
  let cm' := (mergeAndSetup e gid cm w).1.2 in
  equalBytes (lastGHHosts cm') gh = true ∧ equalBytes (lastGLabConfig cm') glab = true ∧ setupRan cm' = true.
Proof.
  intros Hg Hl. unfold mergeAndSetup. rewrite Hg, Hl.
  destruct (equalBytes (lastGHHosts cm) gh) eqn:E1, (equalBytes (lastGLabConfig cm) glab) eqn:E2, (setupRan cm) eqn:E3; simpl;
    try (destruct (merge_files _ _ _ _ _) as [err d]; simpl; by rewrite !equalBytes_refl); done.
Qed.

(** A refresh settles: once the mounted files were looked at, a later refresh with
    the same files touches neither the disk nor git, whatever came of the first merge
    and whatever the identity now is. *)
Theorem refresh_settled e e' gid gid' cm w gh glab :
  ReadSecretFile e "gh-hosts.yml" = Ok gh → ReadSecretFile e "glab-config.yml" = Ok glab →
  ReadSecretFile e' "gh-hosts.yml" = Ok gh → ReadSecretFile e' "glab-config.yml" = Ok glab →
  let '(cm1, w1) := RefreshIfChanged e gid cm w in RefreshIfChanged e' gid' cm1 w1 = (cm1, w1).
Proof.
  intros Hg Hl Hg' Hl'. unfold RefreshIfChanged at 1. pose proof (mergeAndSetup_seen e gid cm w gh glab Hg Hl) as (H1 & H2 & H3).
  destruct (mergeAndSetup e gid cm w) as [[res cm1] w1]. simpl in *. unfold RefreshIfChanged, mergeAndSetup.
  by rewrite Hg', Hl', H1, H2, H3.
Qed.

(** ** The first setup of a pod *)


(** ** The first setup of a pod *)

Lemma mkdir_linked e dir d : d_home d = Linked → d_home (config_MkdirAll e dir d).2 = Linked.
Proof. intros H. unfold config_MkdirAll. destruct (ce_mkdir e dir); [done|]. rewrite H. destruct (config_tree d); simpl; [|done]. unfold set_config_tree. by rewrite H. Qed.

Lemma write_linked e dir name data d : d_home d = Linked → d_home (config_WriteFile e dir name data d).2 = Linked.
Proof.
  intros H. unfold config_WriteFile, set_config_tree. destruct (config_tree d); [|done]. case_decide; [|done]. destruct (ce_write e name); simpl; by rewrite ?H.
Qed.

Lemma merge_files_linked e gid gh glab d : d_home d = Linked → d_home (merge_files e gid gh glab d).2 = Linked.
Proof.
  intros H. unfold merge_files.
  assert (H0 : d_home (write_gh_main e d) = Linked).
  { unfold write_gh_main. pose proof (mkdir_linked e gh_dir d H) as H1. destruct (config_MkdirAll e gh_dir d) as [[err|] d1]; [done|].
    destruct (config_file d1 gh_main); [done|]. by apply write_linked. }
  assert (H1 : d_home (merge_gh e gid gh (write_gh_main e d)).2 = Linked).
  { revert H0. generalize (write_gh_main e d). intros d0 H0. unfold merge_gh. destruct gh; [|done].
    pose proof (mkdir_linked e gh_dir d0 H0) as H1. destruct (config_MkdirAll e gh_dir d0) as [[err|] d1]; [done|].
    repeat (case_match; try done). by apply write_linked. }
  destruct (merge_gh e gid gh (write_gh_main e d)) as [ghErr d1]. simpl in H1.
  assert (H2 : d_home (merge_glab e glab d1).2 = Linked).
  { unfold merge_glab. destruct glab; [|done]. destruct (MergeGLabConfigYAML _ _); [|done].
    pose proof (mkdir_linked e glab_dir d1 H1) as H2. destruct (config_MkdirAll e glab_dir d1) as [[err|] d2]; [done|]. by apply write_linked. }
  by destruct (merge_glab e glab d1).
Qed.

Lemma laid_over_keeps e gid managed d d' host : laid_over e gid managed d d' → is_Some (logins d !! host) → is_Some (logins d' !! host).
Proof.
  intros (content & cfg & _ & _ & H) Hs. destruct (resolveIdentityFromManaged e gid cfg). rewrite H. apply lookup_union_is_Some. by right.
Qed.

(** The setup of a pod that starts: ~/.config becomes the link to the volume, the
    helpers of gh and glab are registered, once each, with or without managed files,
    and no host that the volume had a login for loses it. *)
Theorem setup_ready e gid w gh glab :
  ce_remove e = None → ce_volume e = None → ce_link e = None →
  ReadSecretFile e "gh-hosts.yml" = Ok gh → ReadSecretFile e "glab-config.yml" = Ok glab →
  ce_read e gh_hosts = true → (∀ part, ce_write e gh_hosts ≠ PartWritten part) →
  let '(err, cm', w') := Setup e gid NewCredentialManager w in
  err = None ∧ setupRan cm' = true ∧ cw_runs w' = cw_runs w ++ setup_commands ∧ d_home (cw_disk w') = Linked ∧
  (∀ host, is_Some (logins {| d_home := Linked; d_volume := d_volume (cw_disk w) |} !! host) → is_Some (logins (cw_disk w') !! host)).
Proof.
  intros Hrm Hv Hl Hgh Hglab Hr Hw. unfold Setup, symlinkPVCConfig. rewrite Hrm, Hv, Hl. simpl. unfold on_disk. simpl.
  set (d0 := {| d_home := Linked; d_volume := Some (default empty_tree (d_volume (cw_disk w))) |}).
  assert (E0 : logins d0 = logins {| d_home := Linked; d_volume := d_volume (cw_disk w) |}).
  { apply logins_eq. unfold d0. by destruct (d_volume (cw_disk w)). }
  unfold mergeAndSetup. rewrite Hgh, Hglab. simpl. rewrite andb_false_r. rewrite <- E0.
  pose proof (merge_files_linked e gid gh glab d0 eq_refl) as Hlink. pose proof (merge_files_logins e gid gh glab d0 Hr Hw) as Hm.
  destruct (negb _ || negb _); simpl.
  - destruct (merge_files e gid gh glab d0) as [err d1]. simpl in *. split_and!; try done.
    { by rewrite <- app_assoc. }
    destruct Hm as [->|Hm]; [done|]. intros host. by apply (laid_over_keeps e gid gh).
  - split_and!; try done. by rewrite <- app_assoc.
Qed.

(** A mount that cannot be read: nothing is registered, and the setup still
    reports success. *)
Theorem unreadable_mount_registers_nothing e gid cm w err :
  ce_remove e = None → ce_volume e = None → ce_link e = None → ce_secret e "gh-hosts.yml" = Unreadable err →
  let '(res, cm', w') := Setup e gid cm w in res = None ∧ cm' = cm ∧ cw_runs w' = cw_runs w.
Proof.
  intros Hrm Hv Hl Hs. unfold Setup, symlinkPVCConfig. rewrite Hrm, Hv, Hl. simpl. unfold mergeAndSetup, ReadSecretFile. by rewrite Hs.
Qed.

End files.

(** ** The repository *)

(** What the agent relies on of git: a repository that was cloned or made has its
    HEAD, and neither the commands on it nor a new directory remove it. *)
Class GitRules `{PR : Programs} := {
  clone_makes_head m url path out : (run m ["git"; "clone"; "--bare"; url; path]%string).2 = Exited0 out →
    exists_file (run m ["git"; "clone"; "--bare"; url; path]%string).1 (path_Join [path; "HEAD"%string]) = true;
  init_makes_head m path out : (run m ["git"; "init"; "--bare"; path]%string).2 = Exited0 out →
    exists_file (run m ["git"; "init"; "--bare"; path]%string).1 (path_Join [path; "HEAD"%string]) = true;
  in_repo_keeps m path args f : exists_file m f = true → exists_file (run m ("git" :: "-C" :: path :: args)%string).1 f = true;
  make_dirs_keeps m dir f : exists_file m f = true → exists_file (make_dirs m dir).1 f = true;
}.

Section repo.
Context `{MR : MapRange, YT : YamlText, PR : Programs, GI : !GitRules}.

Lemma runCmd_run argv m : (runCmd argv m).2 = (run m argv).1 ∧ ((runCmd argv m).1 = None → ∃ out, (run m argv).2 = Exited0 out).
Proof. unfold runCmd. destruct (run m argv) as [m' []]; simpl; (split; [done|]); by eauto. Qed.
Lemma output_run argv m : (cmd_output argv m).2 = (run m argv).1.
Proof. unfold cmd_output. by destruct (run m argv) as [m' []]. Qed.

(** After a first step that succeeded HEAD stays, whatever the later ones do. *)
Lemma initScratch_head repo m :
  (runCmd ["git"; "init"; "--bare"; repo]%string m).1 = None → exists_file (initScratchRepo repo m).2 (path_Join [repo; "HEAD"%string]) = true.
Proof.
  intros Hi. unfold initScratchRepo. destruct (runCmd_run ["git"; "init"; "--bare"; repo]%string m) as [Em Ho].
  destruct (runCmd ["git"; "init"; "--bare"; repo]%string m) as [r m1]. simpl in *. subst r. destruct (Ho eq_refl) as [out Hout].
  pose proof (init_makes_head m repo out Hout) as H1. rewrite <- Em in H1.
  assert (Hcmd : ∀ m args, exists_file m (path_Join [repo; "HEAD"%string]) = true → exists_file (runCmd ("git" :: "-C" :: repo :: args)%string m).2 (path_Join [repo; "HEAD"%string]) = true).
  { intros m0 args H. rewrite (proj1 (runCmd_run _ _)). by apply in_repo_keeps. }
  assert (Hout' : ∀ m args, exists_file m (path_Join [repo; "HEAD"%string]) = true → exists_file (cmd_output ("git" :: "-C" :: repo :: args)%string m).2 (path_Join [repo; "HEAD"%string]) = true).
  { intros m0 args H. rewrite output_run. by apply in_repo_keeps. }
  pose proof (Hcmd m1 ["symbolic-ref"; "HEAD"; "refs/heads/main"]%string H1) as H2. destruct (runCmd _ m1) as [[e1|] m2]; [done|]. simpl in H2.
  pose proof (Hout' m2 ["hash-object"; "-t"; "tree"; "/dev/null"]%string H2) as H3. destruct (cmd_output _ m2) as [[tree|e2] m3]; [|done]. simpl in H3.
  pose proof (Hout' m3 ["commit-tree"; tree; "-m"; "init"]%string H3) as H4. destruct (cmd_output _ m3) as [[commit|e3] m4]; [|done]. simpl in H4.
  pose proof (Hcmd m4 ["update-ref"; "refs/heads/main"; commit]%string H4) as H5. by destruct (runCmd _ m4) as [[e4|] m5].
Qed.

Lemma initScratch_done repo m : (initScratchRepo repo m).1 = None → (runCmd ["git"; "init"; "--bare"; repo]%string m).1 = None.
Proof. unfold initScratchRepo. by destruct (runCmd ["git"; "init"; "--bare"; repo]%string m) as [[e|] m1]. Qed.

Definition repo_head (dataDir : string) : string := path_Join [path_Join [dataDir; "repo"%string]; "HEAD"%string].

(** A repository is ready or the pod stops: when the initialisation reports no error
    the bare repository is there; a failed clone is an authentication error exactly
    when git exits with 128 and one of the known messages; and the address that is
    cloned is the project's, normalised for the hosts of the managed file. *)
Theorem repo_ready e dataDir gitURL gid w :
  let '(err, w') := InitRepo e dataDir gitURL gid w in
  (err = None → exists_file (rw_machine w') (repo_head dataDir) = true) ∧
  (∀ url out, err = Some (GitAuthError url out) → exists_file (rw_machine w) (repo_head dataDir) = false ∧ gitURL ≠ ""%string ∧
     IsGitAuthError 128 out = true ∧ url = match rw_cm (refresh e gid w) with Some (cm, _) => NormalizeGitURL gitURL (RegisteredHosts cm) | None => gitURL end).
Proof.
  unfold InitRepo. fold (repo_head dataDir). set (repo := path_Join [dataDir; "repo"%string]).
  assert (Hfin : ∀ w1 : repo_world, exists_file (rw_machine w1) (repo_head dataDir) = true →
    let '(err, w') := match make_dirs (rw_machine w1) (path_Join [dataDir; "worktrees"%string]) with
      | (m, Some err) => (Some (RepoFailed ("mkdir worktrees: " +:+ err)%string), on_machine m w1) | (m, None) => (None, on_machine m w1) end in
    (err = None → exists_file (rw_machine w') (repo_head dataDir) = true) ∧ (∀ url out, err ≠ Some (GitAuthError url out))).
  { intros w1 H. pose proof (make_dirs_keeps (rw_machine w1) (path_Join [dataDir; "worktrees"%string]) _ H) as Hk.
    destruct (make_dirs _ _) as [m [err|]]; split; done. }
  destruct (exists_file (rw_machine w) (repo_head dataDir)) eqn:Hx.
  - destruct (String.eqb gitURL "").
    + specialize (Hfin w Hx). destruct (make_dirs _ _) as [m [err|]]; (split; [apply Hfin|intros url out E; by destruct (proj2 Hfin url out)]).
    + set (w1 := on_machine _ _). assert (H1 : exists_file (rw_machine w1) (repo_head dataDir) = true) by by apply in_repo_keeps.
      specialize (Hfin w1 H1). destruct (make_dirs _ _) as [m [err|]]; (split; [apply Hfin|intros url out E; by destruct (proj2 Hfin url out)]).
  - destruct (String.eqb_spec gitURL "") as [->|Hu]; simpl.
    + pose proof (initScratch_head repo (rw_machine w)) as Hh. pose proof (initScratch_done repo (rw_machine w)) as Hd.
      destruct (initScratchRepo repo (rw_machine w)) as [[err|] m]; [split; done|]. simpl in *.
      specialize (Hfin (on_machine m w) (Hh (Hd eq_refl))). simpl in Hfin.
      destruct (make_dirs _ _) as [m' [err|]]; (split; [apply Hfin|intros url out E; by destruct (proj2 Hfin url out)]).
    + unfold clone_repo. set (w1 := refresh e gid w). set (url := match rw_cm w1 with Some _ => _ | None => _ end).
      pose proof (clone_makes_head (rw_machine w1) url repo) as Hc.
      destruct (run (rw_machine w1) ["git"; "clone"; "--bare"; url; repo]%string) as [m [out|code out|err]]; simpl in *.
      * specialize (Hfin (on_machine m w1) (Hc out eq_refl)). simpl in Hfin.
        destruct (make_dirs _ _) as [m' [err|]]; (split; [apply Hfin|intros u o E; by destruct (proj2 Hfin u o)]).
      * split; [done|]. intros u o. destruct (IsGitAuthError code out) eqn:Ha; [|done]. intros [= <- <-]. split_and!; try done.
        revert Ha. unfold IsGitAuthError. by destruct (Z.eqb_spec code 128) as [->|].
      * done.
Qed.

(** A repository that was made but has no first commit, because a later step
    failed, passes for a ready one when the pod starts again: no command runs. *)
Theorem half_made_repo_passes e e' dataDir gid gid' w :
  exists_file (rw_machine w) (repo_head dataDir) = false →
  (runCmd ["git"; "init"; "--bare"; path_Join [dataDir; "repo"]]%string (rw_machine w)).1 = None →
  (initScratchRepo (path_Join [dataDir; "repo"%string]) (rw_machine w)).1 ≠ None →
  let '(err, w1) := InitRepo e dataDir "" gid w in
  err ≠ None ∧ InitRepo e' dataDir "" gid' w1 =
    match make_dirs (rw_machine w1) (path_Join [dataDir; "worktrees"%string]) with
    | (m, Some err) => (Some (RepoFailed ("mkdir worktrees: " +:+ err)%string), on_machine m w1)
    | (m, None) => (None, on_machine m w1)
    end.
Proof.
  intros Hx Hi Hf. unfold InitRepo at 1. fold (repo_head dataDir). rewrite Hx.
  assert (Hh := initScratch_head _ (rw_machine w) Hi : exists_file _ (repo_head dataDir) = true). revert Hi Hf Hh.
  unfold InitRepo. fold (repo_head dataDir). set (repo := path_Join [dataDir; "repo"%string]). set (trees := path_Join [dataDir; "worktrees"%string]).
  intros _. destruct (initScratchRepo repo (rw_machine w)) as [[err|] m]; [|by intros Hf]. simpl. intros _ ->. split; [done|]. done.
Qed.

End repo.

(** ** Witnesses *)

Module CredDemo.

#[global] Instance gu_countable : Countable ghUserEntry := inj_countable' gu_OAuthToken (λ t, {| gu_OAuthToken := t |}) ltac:(by intros []).
#[global] Instance gh_countable : Countable ghHostEntry :=
  inj_countable' (λ h, (Users h, User h, OAuthToken h, GitProtocol h)) (λ '(us, u, t, p), {| Users := us; User := u; OAuthToken := t; GitProtocol := p |}) ltac:(by intros []).
#[global] Instance glab_countable : Countable glabHostEntry :=
  inj_countable' (λ h, (Token h, APIHost h, gl_User h)) (λ '(t, a, u), {| Token := t; APIHost := a; gl_User := u |}) ltac:(by intros []).

(** A text for every configuration: the digits of its number. *)
Fixpoint digits (p : positive) : string := match p with xH => "." | xO p => String "0" (digits p) | xI p => String "1" (digits p) end.
Fixpoint undigits (s : string) : option positive :=
  match s with
  | "."%string => Some xH
  | String c s => if Ascii.eqb c "0" then xO <$> undigits s else if Ascii.eqb c "1" then xI <$> undigits s else None
  | EmptyString => None
  end.
Lemma undigits_digits p : undigits (digits p) = Some p.
Proof. induction p as [p IH|p IH|]; simpl; rewrite ?IH; done. Qed.

Definition parse {A} `{Countable A} (s : string) : option (gmap string A) := if String.eqb s "" then Some ∅ else undigits s ≫= decode.
Definition marshal {A} `{Countable A} (c : gmap string A) : string := digits (encode c).
Lemma parse_marshal {A} `{Countable A} (c : gmap string A) : parse (marshal c) = Some c.
Proof.
  unfold parse, marshal. destruct (String.eqb_spec (digits (encode c)) "") as [E|]; [by destruct (encode c)|].
  rewrite undigits_digits. simpl. apply decode_encode.
Qed.

Definition yaml : YamlText.
Proof. refine {| parse_gh := parse; marshal_gh := marshal; parse_glab := parse; marshal_glab := marshal |}; [apply parse_marshal|apply parse_marshal|done]. Defined.
#[global] Existing Instance yaml.
#[global] Existing Instance head_range.

(** A secret with two accounts on one host and one on another. *)
Definition token (t : string) : ghUserEntry := {| gu_OAuthToken := t |}.
Definition multi (users : list (string * string)) (user : string) : ghHostEntry :=
  {| Users := token <$> list_to_map users; User := user; OAuthToken := ""; GitProtocol := "" |}.
Definition managed : ghHostsConfig := {["github.com" := multi [("alice", "T1"); ("work", "T2")] "alice"; "ghe.corp" := multi [("al", "T3")] "al"]}%string.
(** A login made by hand, on the volume. *)
Definition manual : ghHostsConfig := {["git.home" := {| Users := ∅; User := "me"; OAuthToken := "T0"; GitProtocol := "ssh" |}]}%string.

Definition env : cred_env := {|
  ce_secret name := if String.eqb name "gh-hosts.yml" then Content (marshal managed) else if String.eqb name "conn-c2-username" then Content ("work" +:+ nl) else Missing;
  ce_remove := None; ce_volume := None; ce_link := None; ce_mkdir _ := None; ce_read _ := true; ce_write _ := Written |}.
(** The same system when hosts.yml cannot be written. *)
Definition read_only : cred_env := {|
  ce_secret := ce_secret env; ce_remove := None; ce_volume := None; ce_link := None; ce_mkdir _ := None; ce_read _ := true; ce_write _ := NotOpened |}.

Definition volume : Tree := {| t_dirs := {["gh"%string]}; t_files := {["gh/hosts.yml"%string := marshal manual]} |}.
Definition fresh : cred_world := {| cw_disk := {| d_home := NoConfig; d_volume := Some volume |}; cw_runs := [] |}.
Definition linked : cred_world := {| cw_disk := {| d_home := Linked; d_volume := Some volume |}; cw_runs := [] |}.

(** A machine that knows which files there are: git clone and git init make a HEAD;
    the commands named [bad] fail. *)
Definition git_machine (bad : list string → bool) : Programs := {|
  machine := gset string;
  run m argv :=
    if bad argv then (m, ExitedWith 128 "fatal: could not read Username"%string)
    else match argv with
    | ["git"; "clone"; "--bare"; _; path]%string | ["git"; "init"; "--bare"; path]%string => ({[path_Join [path; "HEAD"%string]]} ∪ m, Exited0 "abc")
    | _ => (m, Exited0 "abc")
    end;
  exists_file m f := bool_decide (f ∈ m);
  make_dirs m dir := ({[dir]} ∪ m, None) |}.

Lemma git_machine_rules bad : @GitRules (git_machine bad).
Proof.
  split.
  - intros m url path out. cbn -[path_Join]. destruct (bad _); [done|]. intros _. cbn -[path_Join]. apply bool_decide_eq_true_2. set_solver.
  - intros m path out. cbn -[path_Join]. destruct (bad _); [done|]. intros _. cbn -[path_Join]. apply bool_decide_eq_true_2. set_solver.
  - intros m path args f. cbn. destruct (bad _); done.
  - intros m dir f. cbn. intros H%bool_decide_eq_true_1. apply bool_decide_eq_true_2. set_solver.
Qed.
End CredDemo.

Section demo.
Import CredDemo.

Lemma hosts_file_sound_witness :
  logins (cw_disk (RefreshIfChanged read_only "c2" NewCredentialManager linked).2) !! "git.home"%string = manual !! "git.home"%string ∧
  logins (cw_disk (RefreshIfChanged env "c2" NewCredentialManager linked).2) !! "git.home"%string = manual !! "git.home"%string.
Proof.
  split.
  - apply (hosts_file_sound read_only "c2" NewCredentialManager linked); [reflexivity|discriminate|vm_compute; reflexivity|vm_compute; reflexivity].
  - apply (hosts_file_sound env "c2" NewCredentialManager linked); [reflexivity|discriminate|vm_compute; reflexivity|vm_compute; reflexivity].
Defined.

Lemma demo_only_host : only_host managed "work" "github.com".
Proof.
  split.
  - eexists. split; [vm_compute; reflexivity|vm_compute; reflexivity].
  - intros h m Hm. unfold managed in Hm. apply lookup_insert_Some in Hm as [[<- _]|[_ Hm]]; [done|].
    apply lookup_singleton_Some in Hm as [<- <-]. vm_compute. discriminate.
Qed.

Lemma identity_applied_witness :
  logins (cw_disk (RefreshIfChanged env "c2" NewCredentialManager linked).2) !! "github.com"%string =
    Some {| Users := ∅; User := "work"; OAuthToken := "T2"; GitProtocol := "https" |} ∧
  logins (cw_disk (RefreshIfChanged env "c2" NewCredentialManager linked).2) !! "ghe.corp"%string =
    Some {| Users := ∅; User := "al"; OAuthToken := "T3"; GitProtocol := "https" |}.
Proof.
  destruct (identity_applied env "c2" NewCredentialManager linked (marshal managed) managed None ("work" +:+ nl) "work" "github.com"
    (multi [("alice", "T1"); ("work", "T2")] "alice")%string (token "T2")) as [H1 H2].
  - split; [reflexivity|reflexivity|reflexivity|intros _; eexists; reflexivity].
  - vm_compute. reflexivity.
  - reflexivity.
  - vm_compute. reflexivity.
  - apply parse_marshal.
  - discriminate.
  - vm_compute. reflexivity.
  - vm_compute. reflexivity.
  - discriminate.
  - discriminate.
  - apply demo_only_host.
  - discriminate.
  - vm_compute. reflexivity.
  - vm_compute. reflexivity.
  - discriminate.
  - split; [exact H1|]. apply (H2 "ghe.corp"%string (multi [("al", "T3")] "al")%string (token "T3")); [vm_compute; reflexivity|discriminate|discriminate|vm_compute; reflexivity|discriminate].
Defined.

(** The first refresh could not write; the second could, and does nothing. *)
Lemma refresh_settled_witness :
  let '(cm1, w1) := RefreshIfChanged read_only "c1" NewCredentialManager linked in
  logins (cw_disk w1) !! "github.com"%string = None ∧ RefreshIfChanged env "c2" cm1 w1 = (cm1, w1).
Proof.
  pose proof (refresh_settled read_only env "c1" "c2" NewCredentialManager linked (Some (marshal managed)) None eq_refl eq_refl eq_refl eq_refl) as H.
  assert (E : logins (cw_disk (RefreshIfChanged read_only "c1" NewCredentialManager linked).2) !! "github.com"%string = None) by (vm_compute; reflexivity).
  destruct (RefreshIfChanged read_only "c1" NewCredentialManager linked) as [cm1 w1]. split; [exact E|exact H].
Defined.

Lemma setup_ready_witness :
  let '(err, cm', w') := Setup env "c2" NewCredentialManager fresh in
  err = None ∧ setupRan cm' = true ∧ cw_runs w' = setup_commands ∧ is_Some (logins (cw_disk w') !! "git.home"%string).
Proof.
  pose proof (setup_ready env "c2" fresh (Some (marshal managed)) None eq_refl eq_refl eq_refl eq_refl eq_refl eq_refl) as H.
  destruct (Setup env "c2" NewCredentialManager fresh) as [[err cm'] w'].
  destruct H as (H1 & H2 & H3 & _ & H5); [discriminate|]. split; [exact H1|]. split; [exact H2|]. split; [exact H3|].
  apply H5. eexists. vm_compute. reflexivity.
Defined.

Lemma unreadable_mount_registers_nothing_witness :
  let e := {| ce_secret _ := Unreadable "permission denied"; ce_remove := None; ce_volume := None; ce_link := None; ce_mkdir _ := None; ce_read _ := true; ce_write _ := Written |} in
  let '(res, _, w') := Setup e "" NewCredentialManager fresh in res = None ∧ cw_runs w' = [].
Proof.
  intros e. pose proof (unreadable_mount_registers_nothing e "" NewCredentialManager fresh "permission denied" eq_refl eq_refl eq_refl eq_refl) as H.
  destruct (Setup e "" NewCredentialManager fresh) as [[res cm'] w']. destruct H as (H1 & _ & H3). split; [exact H1|exact H3].
Defined.

Lemma repo_ready_witness :
  let P := git_machine (λ _, false) in
  let w := {| rw_cm := Some (NewCredentialManager, linked); rw_machine := ∅ |} in
  let '(err, w') := InitRepo (PR := P) env "/data" "git@github.com:alice/web" "c2" w in
  err = None ∧ exists_file (Programs := P) (rw_machine (PR := P) w') "/data/repo/HEAD" = true.
Proof.
  intros P w. assert (E : (InitRepo (PR := P) env "/data" "git@github.com:alice/web" "c2" w).1 = None) by (vm_compute; reflexivity).
  pose proof (repo_ready (PR := P) (GI := git_machine_rules _) env "/data" "git@github.com:alice/web" "c2" w) as H.
  destruct (InitRepo (PR := P) env "/data" "git@github.com:alice/web" "c2" w) as [err w']. simpl in E. destruct H as [H _]. split; [exact E|exact (H E)].
Defined.

Lemma half_made_repo_passes_witness :
  let P := git_machine (λ argv, existsb (String.eqb "commit-tree") argv) in
  let w := {| rw_cm := None; rw_machine := ∅ |} in
  let '(err, w1) := InitRepo (PR := P) env "/data" "" "" w in err ≠ None ∧ (InitRepo (PR := P) env "/data" "" "" w1).1 = None.
Proof.
  intros P w. pose proof (half_made_repo_passes (PR := P) (GI := git_machine_rules _) env env "/data" "" "" w) as H.
  destruct (InitRepo (PR := P) env "/data" "" "" w) as [err w1].
  destruct H as [H1 H2]; [vm_compute; reflexivity|vm_compute; reflexivity|vm_compute; discriminate|]. split; [exact H1|]. rewrite H2. reflexivity.
Defined.

End demo.
