(* ===== verification/Providers.v ===== *)
(** * Git providers (mclaude-control-plane: providers.go, db.go)

    Accounts of GitHub and GitLab that users connect to: the OAuth flow with its
    state tokens, personal access tokens, disconnecting, the listing of
    repositories and the refresh of GitLab tokens, over the control plane's
    server state and the table oauth_connections. The answers of the providers
    and the parsing of URLs are parameters. *)

From stdpp Require Import sorting.
From S2P Require Import Prelude GoStrings Slug Subjects Json Permissions ObjectStore Database ControlServer HostLifecycle HostApi ProjectApi.
Open Scope Z_scope.

(** ** Data *)

Record ProviderConfig := {
  pv_ID : string; pv_Type : string; pv_DisplayName : string; pv_BaseURL : string; pv_APIURL : string;
  pv_ClientID : string; pv_ClientSecret : string; pv_Scopes : string;
}.

Record oauthState := { os_ReturnURL : string; os_UserID : string; os_ProviderID : string; os_ExpiresAt : Z }.

Record OAuthConnection := {
  oc_ID : string; oc_UserID : string; oc_ProviderID : string; oc_ProviderType : string; oc_AuthType : string; oc_BaseURL : string;
  oc_DisplayName : string; oc_ProviderUserID : string; oc_Username : string; oc_Scopes : string;
  oc_TokenExpiresAt : option Z; oc_ConnectedAt : Z;
}.

(** [providerRegistry] without its state store, which changes. *)
Record providerRegistry := { rg_providers : list ProviderConfig; rg_externalURL : string }.

(** A request to a provider: its credentials are a bearer token, or the form and
    the basic authentication of the client. The answer has the header
    X-Next-Page; [None] is a request that fails. *)
Record api_request := { aq_Method : string; aq_URL : string; aq_Bearer : string; aq_Basic : option (string * string); aq_Form : list (string * string) }.
Record api_response := { as_Status : Z; as_Body : string; as_NextPage : string }.

(** [pe_state]: the state token that is drawn (64 hexadecimal digits), [None] when
    that fails. *)
Record p_env := { pe_cp : cp_env; pe_state : option string; pe_api : api_request → option api_response }.

(** The server with the table of connections, the column oauth_id of the users,
    and the states of the flows under way. *)
Record PServer := {
  ps_server : Server;
  ps_conns : list OAuthConnection;
  ps_oauthIDs : gmap string string;
  ps_states : gmap string oauthState;
}.

Definition set_ps_server v s := {| ps_server := v; ps_conns := ps_conns s; ps_oauthIDs := ps_oauthIDs s; ps_states := ps_states s |}.
Definition set_ps_conns v s := {| ps_server := ps_server s; ps_conns := v; ps_oauthIDs := ps_oauthIDs s; ps_states := ps_states s |}.
Definition set_ps_oauthIDs v s := {| ps_server := ps_server s; ps_conns := ps_conns s; ps_oauthIDs := v; ps_states := ps_states s |}.
Definition set_ps_states v s := {| ps_server := ps_server s; ps_conns := ps_conns s; ps_oauthIDs := ps_oauthIDs s; ps_states := v |}.
Definition on_server (f : Server → Server) (s : PServer) : PServer := set_ps_server (f (ps_server s)) s.

(** ** The table oauth_connections *)

Definition same_account (c d : OAuthConnection) : bool :=
  String.eqb (oc_UserID c) (oc_UserID d) && String.eqb (oc_BaseURL c) (oc_BaseURL d) && String.eqb (oc_ProviderUserID c) (oc_ProviderUserID d).

(** The row of an account that is connected again keeps its id. *)
Definition reconnected (c old : OAuthConnection) : OAuthConnection :=
  {| oc_ID := oc_ID old; oc_UserID := oc_UserID old; oc_ProviderID := oc_ProviderID c; oc_ProviderType := oc_ProviderType c; oc_AuthType := oc_AuthType c;
     oc_BaseURL := oc_BaseURL old; oc_DisplayName := oc_DisplayName c; oc_ProviderUserID := oc_ProviderUserID old; oc_Username := oc_Username c;
     oc_Scopes := oc_Scopes c; oc_TokenExpiresAt := oc_TokenExpiresAt c; oc_ConnectedAt := oc_ConnectedAt c |}.

Definition CreateOAuthConnection (down : bool) (c : OAuthConnection) (t : Tables) (l : list OAuthConnection) : result pg_error (list OAuthConnection) :=
  if down then Err ConnectionError
  else if existsb (same_account c) l then Ok (update_where (same_account c) (reconnected c) l)
  else if memb (oc_ID c) (oc_ID <$> l) then Err UniqueViolation
  else if negb (memb (oc_UserID c) (u_ID <$> users t)) then Err OtherViolation
  else Ok (l ++ [c]).

Definition GetOAuthConnectionByID (id : string) (l : list OAuthConnection) : option OAuthConnection := find_first (λ c, String.eqb (oc_ID c) id) l.

Definition GetOAuthConnectionsByUser (userID : string) (l : list OAuthConnection) : list OAuthConnection :=
  merge_sort (λ x y, Is_true (oc_ConnectedAt x <=? oc_ConnectedAt y)) (List.filter (λ c, String.eqb (oc_UserID c) userID) l).

(** ON DELETE SET NULL of the projects' git identities. *)
Definition clear_identity (id : string) (t : Tables) : Tables :=
  set_projects (update_where (λ p, match p_GitIdentityID p with Some i => String.eqb i id | None => false end)
    (λ p, {| p_ID := p_ID p; p_UserID := p_UserID p; p_Name := p_Name p; p_Slug := p_Slug p; p_GitURL := p_GitURL p; p_Status := p_Status p;
             p_HostID := p_HostID p; p_GitIdentityID := None; p_ImportRef := p_ImportRef p; p_CreatedAt := p_CreatedAt p |}) (projects t)) t.

(** [DeleteOAuthConnection]: [false] when it fails. *)
Definition DeleteOAuthConnection (down : bool) (id : string) (s : PServer) : bool * PServer :=
  if down then (false, s)
  else
    (true, if memb id (oc_ID <$> ps_conns s)
           then set_ps_conns (delete_where (λ c, String.eqb (oc_ID c) id) (ps_conns s)) (on_server (λ v, set_db (clear_identity id (db v)) v) s)
           else s).

Definition expiring (now within : Z) (c : OAuthConnection) : bool :=
  String.eqb (oc_ProviderType c) "gitlab" && match oc_TokenExpiresAt c with Some x => x <? now + within | None => false end.
Definition GetExpiringGitLabConnections (now within : Z) (l : list OAuthConnection) : list OAuthConnection :=
  merge_sort (λ x y, Is_true (default 0 (oc_TokenExpiresAt x) <=? default 0 (oc_TokenExpiresAt y))) (List.filter (expiring now within) l).

Definition with_expiry (x : Z) (c : OAuthConnection) : OAuthConnection :=
  {| oc_ID := oc_ID c; oc_UserID := oc_UserID c; oc_ProviderID := oc_ProviderID c; oc_ProviderType := oc_ProviderType c; oc_AuthType := oc_AuthType c;
     oc_BaseURL := oc_BaseURL c; oc_DisplayName := oc_DisplayName c; oc_ProviderUserID := oc_ProviderUserID c; oc_Username := oc_Username c;
     oc_Scopes := oc_Scopes c; oc_TokenExpiresAt := Some x; oc_ConnectedAt := oc_ConnectedAt c |}.
Definition UpdateTokenExpiry (down : bool) (id : string) (x : Z) (s : PServer) : PServer :=
  if down then s else set_ps_conns (update_where (λ c, String.eqb (oc_ID c) id) (with_expiry x) (ps_conns s)) s.

(** The environment of the handlers of projects, with the connections of the
    table. *)
Definition with_connections (l : list OAuthConnection) (e : cp_env) : cp_env :=
  {| ce_now := ce_now e; ce_uuid := ce_uuid e; ce_uuidBytes := ce_uuidBytes e; ce_nonce := ce_nonce e; ce_down := ce_down e; ce_signErr := ce_signErr e;
     ce_revokeErr := ce_revokeErr e; ce_kvErr := ce_kvErr e; ce_provision := ce_provision e;
     ce_connection id := (λ c, (oc_UserID c, oc_BaseURL c)) <$> GetOAuthConnectionByID id l; ce_http := ce_http e |}.

(** ** States of flows *)

Definition stateTTL : Z := 600 * Second.

Definition Put (e : p_env) (userID providerID returnURL : string) (s : PServer) : option (string * PServer) :=
  match pe_state e with
  | None => None
  | Some token =>
    Some (token, set_ps_states (<[ token := {| os_ReturnURL := returnURL; os_UserID := userID; os_ProviderID := providerID;
                                               os_ExpiresAt := ce_now (pe_cp e) + stateTTL |} ]> (ps_states s)) s)
  end.

Definition Consume (e : p_env) (token : string) (s : PServer) : option oauthState * PServer :=
  match ps_states s !! token with
  | None => (None, s)
  | Some st =>
    let s := set_ps_states (delete token (ps_states s)) s in
    if os_ExpiresAt st <? ce_now (pe_cp e) then (None, s) else (Some st, s)
  end.

Definition Cleanup (e : p_env) (s : PServer) : PServer :=
  set_ps_states (filter (λ kv : string * oauthState, os_ExpiresAt kv.2 <? ce_now (pe_cp e) = false) (ps_states s)) s.

Definition findProvider (reg : providerRegistry) (id : string) : option ProviderConfig := find_first (λ p, String.eqb (pv_ID p) id) (rg_providers reg).

(** ** Return URLs *)

(** What net/url and fmt do: the query of a parsed reference, the reference with
    another query, the values of a query by name, and the text of a JSON value. *)
Class UrlRefs := {
  url_raw_query : string → option string;
  url_with_query : string → string → string;
  parse_query : string → gmap string (list string);
  sprint_value : option json → string;
}.

Section providers.
Context `{PG : Postgres, JT : JsonText, JS : JsonStream, UT : UnicodeTables, NO : Normalizer, UP : UrlParser, UR : UrlRefs}.

Definition returnURLAllowedParams : list string := ["provider"; "connected"; "goto"; "error"]%string.

(** [validateReturnURL]: the error. *)
Definition validateReturnURL (u : string) : option string :=
  if negb (HasPrefix u "/") then Some "returnUrl must start with /"%string
  else if HasPrefix u "//" then Some "returnUrl must not be a protocol-relative URL (//...)"%string
  else if Contains u "://" then Some "returnUrl must be a relative path"%string
  else None.

(** [url.Values.Encode]: by name, the values of a name in their order. *)
Definition encode_values (q : gmap string (list string)) : string :=
  Values_Encode (mjoin ((λ kv : string * list string, (λ v, (kv.1, v)) <$> kv.2) <$> map_to_list q)).

Definition allowed_params (q : gmap string (list string)) : gmap string (list string) :=
  filter (λ kv : string * list string, memb kv.1 returnURLAllowedParams = true) q.

Definition sanitizeReturnURL (u : string) : string :=
  match url_raw_query u with
  | None => u
  | Some raw => if String.eqb raw "" then u else url_with_query u (encode_values (allowed_params (parse_query raw)))
  end.

(** [strings.ReplaceAll] of a string that is not empty. *)
Fixpoint replace_all (fuel : nat) (s old new : string) : string :=
  match fuel with
  | O => s
  | S fuel =>
    match Index s old with
    | None => s
    | Some n => (take_str n s +:+ new +:+ replace_all fuel (drop_str (n + String.length old) s) old new)%string
    end
  end.
Definition ReplaceAll (s old new : string) : string := replace_all (String.length s) s old new.

Definition error_url (returnURL code : string) : string :=
  let modified := ReplaceAll returnURL "connected=true" ("error=" +:+ code) in
  if String.eqb modified returnURL
  then (returnURL +:+ (if Contains returnURL "?" then "&" else "?") +:+ "error=" +:+ code)%string
  else modified.

Definition redirect (url : string) (s : PServer) : PServer := on_server (http_json 302 (HRedirect url)) s.
Definition redirectWithError (externalURL returnURL code : string) (s : PServer) : PServer := redirect (externalURL +:+ error_url returnURL code) s.

(** ** Requests to providers *)

Definition buildAuthorizeURL (p : ProviderConfig) (state callbackURL : string) : string :=
  let authorizeURL :=
    if String.eqb (pv_Type p) "gitlab" then (pv_BaseURL p +:+ "/oauth/authorize")%string
    else if String.eqb (pv_BaseURL p) "https://github.com" then "https://github.com/login/oauth/authorize"%string
    else (pv_BaseURL p +:+ "/login/oauth/authorize")%string in
  (authorizeURL +:+ "?" +:+ Values_Encode [("client_id", pv_ClientID p); ("scope", pv_Scopes p); ("state", state); ("redirect_uri", callbackURL)])%string.

Record tokenResponse := { tr_AccessToken : string; tr_RefreshToken : string; tr_ExpiresIn : Z; tr_TokenType : string; tr_Error : string; tr_ErrorDescription : string }.
Definition zero_tokenResponse : tokenResponse := {| tr_AccessToken := ""; tr_RefreshToken := ""; tr_ExpiresIn := 0; tr_TokenType := ""; tr_Error := ""; tr_ErrorDescription := "" |}.
Definition tokenResponse_fields : list (field tokenResponse) :=
  [ fld "access_token" dec_string tr_AccessToken (λ v r, {| tr_AccessToken := v; tr_RefreshToken := tr_RefreshToken r; tr_ExpiresIn := tr_ExpiresIn r; tr_TokenType := tr_TokenType r; tr_Error := tr_Error r; tr_ErrorDescription := tr_ErrorDescription r |});
    fld "refresh_token" dec_string tr_RefreshToken (λ v r, {| tr_AccessToken := tr_AccessToken r; tr_RefreshToken := v; tr_ExpiresIn := tr_ExpiresIn r; tr_TokenType := tr_TokenType r; tr_Error := tr_Error r; tr_ErrorDescription := tr_ErrorDescription r |});
    fld "expires_in" dec_int tr_ExpiresIn (λ v r, {| tr_AccessToken := tr_AccessToken r; tr_RefreshToken := tr_RefreshToken r; tr_ExpiresIn := v; tr_TokenType := tr_TokenType r; tr_Error := tr_Error r; tr_ErrorDescription := tr_ErrorDescription r |});
    fld "token_type" dec_string tr_TokenType (λ v r, {| tr_AccessToken := tr_AccessToken r; tr_RefreshToken := tr_RefreshToken r; tr_ExpiresIn := tr_ExpiresIn r; tr_TokenType := v; tr_Error := tr_Error r; tr_ErrorDescription := tr_ErrorDescription r |});
    fld "error" dec_string tr_Error (λ v r, {| tr_AccessToken := tr_AccessToken r; tr_RefreshToken := tr_RefreshToken r; tr_ExpiresIn := tr_ExpiresIn r; tr_TokenType := tr_TokenType r; tr_Error := v; tr_ErrorDescription := tr_ErrorDescription r |});
    fld "error_description" dec_string tr_ErrorDescription (λ v r, {| tr_AccessToken := tr_AccessToken r; tr_RefreshToken := tr_RefreshToken r; tr_ExpiresIn := tr_ExpiresIn r; tr_TokenType := tr_TokenType r; tr_Error := tr_Error r; tr_ErrorDescription := v |}) ].

(** [exchangeCode]; the texts of its errors are only logged. *)
Definition exchange_request (p : ProviderConfig) (code callbackURL : string) : api_request :=
  let gitlab := String.eqb (pv_Type p) "gitlab" in
  {| aq_Method := "POST";
     aq_URL := if gitlab then (pv_BaseURL p +:+ "/oauth/token")%string
               else if String.eqb (pv_BaseURL p) "https://github.com" then "https://github.com/login/oauth/access_token"%string
               else (pv_BaseURL p +:+ "/login/oauth/access_token")%string;
     aq_Bearer := ""; aq_Basic := None;
     aq_Form := [("client_id", pv_ClientID p); ("client_secret", pv_ClientSecret p); ("code", code); ("redirect_uri", callbackURL)]%string ++
                (if gitlab then [("grant_type", "authorization_code")]%string else []) |}.

Definition exchangeCode (e : p_env) (p : ProviderConfig) (code callbackURL : string) : option tokenResponse :=
  match pe_api e (exchange_request p code callbackURL) with
  | None => None
  | Some resp =>
    if negb (as_Status resp =? 200) then None
    else match decode_body (dec_struct tokenResponse_fields) zero_tokenResponse (as_Body resp) with
    | None => None
    | Some tr => if negb (String.eqb (tr_Error tr) "") then None else if String.eqb (tr_AccessToken tr) "" then None else Some tr
    end
  end.

Record providerProfile := { pp_ProviderUserID : string; pp_Username : string }.

(** The profile of either provider: GitHub names the user in "login", GitLab in
    "username". *)
Definition profile_fields : list (field (option json * string * string)) :=
  [ fld "id" dec_raw (λ r, r.1.1) (λ v r, (v, r.1.2, r.2)); fld "login" dec_string (λ r, r.1.2) (λ v r, (r.1.1, v, r.2)); fld "username" dec_string snd (λ v r, (r.1, v)) ].
Definition decode_profile (body : string) : option providerProfile :=
  match decode_body (dec_struct profile_fields) (None, ""%string, ""%string) body with
  | None => None
  | Some (id, login, name) => Some {| pp_ProviderUserID := sprint_value id; pp_Username := if String.eqb login "" then name else login |}
  end.

Definition bearer_get (url token : string) : api_request := {| aq_Method := "GET"; aq_URL := url; aq_Bearer := token; aq_Basic := None; aq_Form := [] |}.

Definition fetchUserProfile (e : p_env) (p : ProviderConfig) (token : string) : option providerProfile :=
  let profileURL :=
    if String.eqb (pv_Type p) "gitlab" then (pv_BaseURL p +:+ "/api/v4/user")%string
    else if negb (String.eqb (pv_APIURL p) "") then (pv_APIURL p +:+ "/user")%string else "https://api.github.com/user"%string in
  match pe_api e (bearer_get profileURL token) with
  | None => None
  | Some resp => if negb (as_Status resp =? 200) then None else decode_profile (as_Body resp)
  end.

(** [fetchProfileWithToken]: the error says whether the token was refused. *)
Definition fetchProfileWithToken (e : p_env) (apiURL token : string) : result bool providerProfile :=
  match pe_api e (bearer_get apiURL token) with
  | None => Err false
  | Some resp =>
    if negb (as_Status resp =? 200) then Err ((as_Status resp =? 401) || (as_Status resp =? 403))
    else match decode_profile (as_Body resp) with None => Err false | Some pr => Ok pr end
  end.

Definition detectPATProvider (e : p_env) (baseURL token : string) : result string (string * providerProfile) :=
  let githubURL := if String.eqb baseURL "https://github.com" then "https://api.github.com/user"%string else (baseURL +:+ "/api/v3/user")%string in
  match fetchProfileWithToken e githubURL token with
  | Ok profile => Ok ("github"%string, profile)
  | Err refused =>
    match fetchProfileWithToken e (baseURL +:+ "/api/v4/user") token with
    | Ok profile => Ok ("gitlab"%string, profile)
    | Err refused' =>
      Err (if refused || refused' then "invalid token — check that the token has at least read access"
           else "could not reach provider — check the base URL")%string
    end
  end.

(** ** The stubs for secrets (ADR-0035) *)

Definition patchUserSecret (userID : string) (data : list (string * string)) (s : PServer) : PServer := s.
Definition removeSecretKeys (userID : string) (keys : list string) (s : PServer) : PServer := s.
Definition readSecretKey (userID key : string) (s : PServer) : string := "".
Definition reconcileUserCLIConfig (userID : string) (s : PServer) : PServer := s.

(** [notifyHostsCredentialsChanged]. *)
Definition notifyHostsCredentialsChanged (e : p_env) (userID : string) (s : PServer) : PServer :=
  let v := ps_server s in
  if negb (cf_nc (config v)) || negb (cf_db (config v)) then s
  else match lookup_row (ce_down (pe_cp e) "GetUserByID(notify)") (GetUserByID userID (db v)) with
  | None => s
  | Some user =>
    if ce_down (pe_cp e) "GetHostsByUser" then s
    else
      let v := fold_left (λ v h, publishProjectsUpdateToHost (u_Slug user) (h_Slug h) v) (GetHostsByUser userID (db v)) v in
      set_ps_server (publishProjectsUpdated (u_Slug user) v) s
  end.

(** ** Handlers *)

Definition p_error (status : Z) (msg : string) (s : PServer) : PServer := on_server (http_error status msg) s.

Definition handleGetProviders (reg : option providerRegistry) (s : PServer) : PServer :=
  let entries := match reg with Some r => (λ p, (pv_ID p, pv_Type p, pv_DisplayName p, pv_BaseURL p)) <$> rg_providers r | None => [] end in
  on_server (http_json 200 (HProviders entries)) s.

Definition callback_url (externalURL providerID : string) : string := (externalURL +:+ "/auth/providers/" +:+ providerID +:+ "/callback")%string.

Definition handleConnectProvider (reg : option providerRegistry) (e : p_env) (method path body userID : string) (s : PServer) : PServer :=
  if negb (String.eqb method "POST") then p_error 405 "method not allowed" s
  else if String.eqb userID "" then p_error 401 "unauthorized" s
  else
    let providerID := TrimSuffix (TrimPrefix path "/api/providers/") "/connect" in
    if String.eqb providerID "pat" then p_error 400 "PAT providers do not use the OAuth connect flow — use POST /api/providers/pat instead" s
    else match reg with
    | None => p_error 404 "no providers configured" s
    | Some r =>
      match findProvider r providerID with
      | None => p_error 404 "provider not found" s
      | Some p =>
        match decode_body (dec_struct [ ("returnUrl", dec_string) ]) ""%string body with
        | None => p_error 400 "returnUrl required" s
        | Some returnURL =>
          if String.eqb returnURL "" then p_error 400 "returnUrl required" s
          else match validateReturnURL returnURL with
          | Some err => p_error 400 err s
          | None =>
            match Put e userID providerID (sanitizeReturnURL returnURL) s with
            | None => p_error 500 "failed to generate state" s
            | Some (stateToken, s) =>
              on_server (http_json 200 (HRedirectURL (buildAuthorizeURL p stateToken (callback_url (rg_externalURL r) providerID)))) s
            end
          end
        end
      end
    end.

(** [now.Add(time.Duration(n) * time.Second)]: the product wraps around. *)
Definition after_seconds (now n : Z) : Z := now + wrap64 (n * Second).

Definition oauth_connection (e : p_env) (st : oauthState) (p : ProviderConfig) (providerID : string) (tr : tokenResponse) (profile : providerProfile) : OAuthConnection :=
  let now := ce_now (pe_cp e) in
  {| oc_ID := ce_uuid (pe_cp e) "connection"; oc_UserID := os_UserID st; oc_ProviderID := providerID; oc_ProviderType := pv_Type p; oc_AuthType := "oauth";
     oc_BaseURL := pv_BaseURL p; oc_DisplayName := pv_DisplayName p; oc_ProviderUserID := pp_ProviderUserID profile; oc_Username := pp_Username profile;
     oc_Scopes := pv_Scopes p; oc_TokenExpiresAt := if 0 <? tr_ExpiresIn tr then Some (after_seconds now (tr_ExpiresIn tr)) else None; oc_ConnectedAt := now |}.

(** UPDATE users SET oauth_id = $1 WHERE id = $2 AND oauth_id IS NULL. *)
Definition set_oauth_id (e : p_env) (userID providerUserID : string) (s : PServer) : PServer :=
  if String.eqb providerUserID "" || ce_down (pe_cp e) "SetOAuthID" || negb (memb userID (u_ID <$> users (db (ps_server s)))) then s
  else match ps_oauthIDs s !! userID with
  | Some _ => s
  | None => set_ps_oauthIDs (<[ userID := providerUserID ]> (ps_oauthIDs s)) s
  end.

Definition gitlab_taken (e : p_env) (p : ProviderConfig) (userID : string) (s : PServer) : bool :=
  String.eqb (pv_Type p) "gitlab" && cf_db (config (ps_server s)) && negb (ce_down (pe_cp e) "GetOAuthConnectionsByUser") &&
  existsb (λ c, String.eqb (oc_ProviderType c) "gitlab" && String.eqb (oc_BaseURL c) (pv_BaseURL p)) (GetOAuthConnectionsByUser userID (ps_conns s)).

Definition conn_key (connID name : string) : string := ("conn-" +:+ connID +:+ "-" +:+ name)%string.

(** What follows the profile: the connection is stored, the controllers are told. *)
Definition finish_callback (reg : providerRegistry) (e : p_env) (st : oauthState) (p : ProviderConfig) (providerID : string) (tr : tokenResponse)
    (profile : providerProfile) (s : PServer) : PServer :=
  let externalURL := rg_externalURL reg in
  if gitlab_taken e p (os_UserID st) s then redirectWithError externalURL (os_ReturnURL st) "gitlab_one_identity" s
  else
    let conn := oauth_connection e st p providerID tr profile in
    let s := patchUserSecret (os_UserID st) ([(conn_key (oc_ID conn) "token", tr_AccessToken tr); (conn_key (oc_ID conn) "username", pp_Username profile)] ++
               if String.eqb (tr_RefreshToken tr) "" then [] else [(conn_key (oc_ID conn) "refresh-token", tr_RefreshToken tr)]) s in
    if cf_db (config (ps_server s)) then
      match CreateOAuthConnection (ce_down (pe_cp e) "CreateOAuthConnection") conn (db (ps_server s)) (ps_conns s) with
      | Err _ => redirectWithError externalURL (os_ReturnURL st) "storage" (removeSecretKeys (os_UserID st) (conn_key (oc_ID conn) <$> ["token"; "username"; "refresh-token"]%string) s)
      | Ok l =>
        let s := set_oauth_id e (os_UserID st) (pp_ProviderUserID profile) (reconcileUserCLIConfig (os_UserID st) (set_ps_conns l s)) in
        redirect (externalURL +:+ os_ReturnURL st) (notifyHostsCredentialsChanged e (os_UserID st) s)
      end
    else redirect (externalURL +:+ os_ReturnURL st) (notifyHostsCredentialsChanged e (os_UserID st) s).

(** The query of the callback. *)
Record callback_query := { cq_error : string; cq_code : string; cq_state : string }.

(** [handleOAuthCallback]: without a registry the state store is looked up in a
    nil pointer. *)
Definition handleOAuthCallback (reg : option providerRegistry) (e : p_env) (path : string) (q : callback_query) (s : PServer) : outcome PServer :=
  let providerID := TrimSuffix (TrimPrefix path "/auth/providers/") "/callback" in
  match reg with
  | None => Panicked
  | Some r =>
    let externalURL := rg_externalURL r in
    Done match Consume e (cq_state q) s with
    | (None, s) => redirect (externalURL +:+ "/?error=csrf") s
    | (Some st, s) =>
      let returnURL := os_ReturnURL st in
      if String.eqb (cq_error q) "access_denied" then redirectWithError externalURL returnURL "denied" s
      else match findProvider r providerID with
      | None => redirectWithError externalURL returnURL "csrf" s
      | Some p =>
        match exchangeCode e p (cq_code q) (callback_url externalURL providerID) with
        | None => redirectWithError externalURL returnURL "exchange_failed" s
        | Some tr =>
          match fetchUserProfile e p (tr_AccessToken tr) with
          | None => redirectWithError externalURL returnURL "profile_failed" s
          | Some profile => finish_callback r e st p providerID tr profile s
          end
        end
      end
    end
  end.

Record pat_request := { pr_BaseURL : string; pr_DisplayName : string; pr_Token : string }.
Definition pat_fields : list (field pat_request) :=
  [ fld "baseUrl" dec_string pr_BaseURL (λ v r, {| pr_BaseURL := v; pr_DisplayName := pr_DisplayName r; pr_Token := pr_Token r |});
    fld "displayName" dec_string pr_DisplayName (λ v r, {| pr_BaseURL := pr_BaseURL r; pr_DisplayName := v; pr_Token := pr_Token r |});
    fld "token" dec_string pr_Token (λ v r, {| pr_BaseURL := pr_BaseURL r; pr_DisplayName := pr_DisplayName r; pr_Token := v |}) ].

Definition pat_connection (e : p_env) (userID provType : string) (body : pat_request) (profile : providerProfile) : OAuthConnection :=
  {| oc_ID := ce_uuid (pe_cp e) "connection"; oc_UserID := userID; oc_ProviderID := "pat"; oc_ProviderType := provType; oc_AuthType := "pat"; oc_BaseURL := pr_BaseURL body;
     oc_DisplayName := if String.eqb (pr_DisplayName body) "" then pr_BaseURL body else pr_DisplayName body;
     oc_ProviderUserID := pp_ProviderUserID profile; oc_Username := pp_Username profile; oc_Scopes := ""; oc_TokenExpiresAt := None; oc_ConnectedAt := ce_now (pe_cp e) |}.

Definition handleAddPAT (e : p_env) (method body userID : string) (s : PServer) : PServer :=
  if negb (String.eqb method "POST") then p_error 405 "method not allowed" s
  else if String.eqb userID "" then p_error 401 "unauthorized" s
  else match decode_body (dec_struct pat_fields) {| pr_BaseURL := ""; pr_DisplayName := ""; pr_Token := "" |} body with
  | None => p_error 400 "invalid request body" s
  | Some req =>
    if String.eqb (pr_BaseURL req) "" || String.eqb (pr_Token req) "" then p_error 400 "baseUrl and token required" s
    else match detectPATProvider e (pr_BaseURL req) (pr_Token req) with
    | Err err => p_error 400 err s
    | Ok (provType, profile) =>
      let existing := if ce_down (pe_cp e) "GetOAuthConnectionsByUser" then [] else GetOAuthConnectionsByUser userID (ps_conns s) in
      if cf_db (config (ps_server s)) && existsb (λ c, String.eqb (oc_BaseURL c) (pr_BaseURL req) && String.eqb (oc_ProviderUserID c) (pp_ProviderUserID profile)) existing
      then p_error 409 "connection already exists for this account on this host — disconnect the existing one first" s
      else
        let conn := pat_connection e userID provType req profile in
        let s := patchUserSecret userID [(conn_key (oc_ID conn) "token", pr_Token req); (conn_key (oc_ID conn) "username", pp_Username profile)] s in
        let finish s := on_server (http_json 201 (HConnection (oc_ID conn) provType (oc_DisplayName conn) (pp_Username profile))) (notifyHostsCredentialsChanged e userID s) in
        if cf_db (config (ps_server s)) then
          match CreateOAuthConnection (ce_down (pe_cp e) "CreateOAuthConnection") conn (db (ps_server s)) (ps_conns s) with
          | Err _ => p_error 500 "failed to save connection" (removeSecretKeys userID (conn_key (oc_ID conn) <$> ["token"; "username"]%string) s)
          | Ok l => finish (reconcileUserCLIConfig userID (set_ps_conns l s))
          end
        else finish s
    end
  end.

(** [revokeToken]: the request it makes. *)
Definition revokeToken (conn : OAuthConnection) (token : string) (reg : option providerRegistry) : option api_request :=
  match reg with
  | None => None
  | Some r =>
    match findProvider r (oc_ProviderID conn) with
    | None => None
    | Some p =>
      if String.eqb (pv_Type p) "github" then
        let api := if String.eqb (pv_BaseURL p) "https://github.com" then "https://api.github.com"%string else pv_APIURL p in
        Some {| aq_Method := "DELETE"; aq_URL := (api +:+ "/applications/" +:+ pv_ClientID p +:+ "/token")%string; aq_Bearer := "";
                aq_Basic := Some (pv_ClientID p, pv_ClientSecret p); aq_Form := [("access_token"%string, token)] |}
      else if String.eqb (pv_Type p) "gitlab" then
        Some {| aq_Method := "POST"; aq_URL := (pv_BaseURL p +:+ "/oauth/revoke")%string; aq_Bearer := ""; aq_Basic := None;
                aq_Form := [("token", token); ("client_id", pv_ClientID p); ("client_secret", pv_ClientSecret p)]%string |}
      else None
    end
  end.

(** The bucket entries that are written after a connection went: those of every
    project of the user without an identity. *)
Definition rewrite_projects (e : p_env) (userID : string) (s : PServer) : PServer :=
  let v := ps_server s in
  if cf_nc (config v) && cf_db (config v) then
    match lookup_row (ce_down (pe_cp e) "GetUserByID") (GetUserByID userID (db v)) with
    | Some kvUser =>
      if ce_down (pe_cp e) "GetProjectsByUser" then s
      else set_ps_server (fold_left (λ v (ph : Project * string), match p_GitIdentityID ph.1 with
                                     | None => writeProjectKV (pe_cp e) (u_Slug kvUser) ph.2 ph.1 v
                                     | Some _ => v
                                     end) (GetProjectsByUser userID (db v)) v) s
    | None => s
    end
  else s.

(** [handleDeleteConnection], with the requests it makes to the provider. *)
Definition handleDeleteConnection (reg : option providerRegistry) (e : p_env) (method path userID : string) (s : PServer) : list api_request * PServer :=
  if negb (String.eqb method "DELETE") then ([], p_error 405 "method not allowed" s)
  else if String.eqb userID "" then ([], p_error 401 "unauthorized" s)
  else
    let connID := TrimSuffix (TrimPrefix path "/api/connections/") "/repos" in
    if String.eqb connID "" then ([], p_error 400 "connection_id required" s)
    else if negb (cf_db (config (ps_server s))) then ([], p_error 503 "service unavailable" s)
    else match lookup_row (ce_down (pe_cp e) "GetOAuthConnectionByID") (GetOAuthConnectionByID connID (ps_conns s)) with
    | None => ([], p_error 404 "not found" s)
    | Some conn =>
      if negb (String.eqb (oc_UserID conn) userID) then ([], p_error 404 "not found" s)
      else
        let token := readSecretKey userID (conn_key connID "token") s in
        let revocations := if String.eqb (oc_AuthType conn) "oauth" && negb (String.eqb token "") then option_list (revokeToken conn token reg) else [] in
        let s := removeSecretKeys userID (conn_key connID <$> ["token"; "username"; "refresh-token"]%string) s in
        match DeleteOAuthConnection (ce_down (pe_cp e) "DeleteOAuthConnection") connID s with
        | (false, s) => (revocations, p_error 500 "failed to delete connection" s)
        | (true, s) =>
          (revocations, on_server (http_json 204 HEmpty) (notifyHostsCredentialsChanged e userID (reconcileUserCLIConfig userID (rewrite_projects e userID s))))
        end
    end.

(** ** Repositories of a connection *)

(** Name, full name, private, description, clone URL, time of the last update. *)
Definition repoEntry : Type := string * string * bool * string * string * string.

(** The members of a repository that GitHub and GitLab answer with. *)
Definition github_repo_fields : list (field repoEntry) :=
  [ fld "name" dec_string (λ r : repoEntry, r.1.1.1.1.1) (λ v '(_, f, p, d, c, u), (v, f, p, d, c, u));
    fld "full_name" dec_string (λ r : repoEntry, r.1.1.1.1.2) (λ v '(n, _, p, d, c, u), (n, v, p, d, c, u));
    fld "private" dec_bool (λ r : repoEntry, r.1.1.1.2) (λ v '(n, f, _, d, c, u), (n, f, v, d, c, u));
    fld "description" dec_string (λ r : repoEntry, r.1.1.2) (λ v '(n, f, p, _, c, u), (n, f, p, v, c, u));
    fld "clone_url" dec_string (λ r : repoEntry, r.1.2) (λ v '(n, f, p, d, _, u), (n, f, p, d, v, u));
    fld "updated_at" dec_string (λ r : repoEntry, r.2) (λ v '(n, f, p, d, c, _), (n, f, p, d, c, v)) ].
Definition gitlab_repo_fields : list (field repoEntry) :=
  [ fld "name" dec_string (λ r : repoEntry, r.1.1.1.1.1) (λ v '(_, f, p, d, c, u), (v, f, p, d, c, u));
    fld "path_with_namespace" dec_string (λ r : repoEntry, r.1.1.1.1.2) (λ v '(n, _, p, d, c, u), (n, v, p, d, c, u));
    fld "description" dec_string (λ r : repoEntry, r.1.1.2) (λ v '(n, f, p, _, c, u), (n, f, p, v, c, u));
    fld "http_url_to_repo" dec_string (λ r : repoEntry, r.1.2) (λ v '(n, f, p, d, _, u), (n, f, p, d, v, u));
    fld "last_activity_at" dec_string (λ r : repoEntry, r.2) (λ v '(n, f, p, d, c, _), (n, f, p, d, c, v));
    fld "visibility" (λ j vis, let '(v, ok) := dec_string j (if vis : bool then "private" else "")%string in (String.eqb v "private", ok))
      (λ r : repoEntry, r.1.1.1.2) (λ v '(n, f, _, d, c, u), (n, f, v, d, c, u)) ].
Definition zero_repo : repoEntry := ("", "", false, "", "", "")%string.

(** The result: the repositories and the next page; an error by its text. *)
Definition listGitHubRepos (e : p_env) (conn : OAuthConnection) (token query : string) (page : Z) : result string (list repoEntry * option Z) :=
  let apiURL := if String.eqb (oc_BaseURL conn) "https://github.com" then "https://api.github.com"%string else (oc_BaseURL conn +:+ "/api/v3")%string in
  let reqURL := if negb (String.eqb query "")
    then (apiURL +:+ "/search/repositories?q=" +:+ QueryEscape query +:+ "&page=" +:+ pretty.pretty page +:+ "&per_page=30")%string
    else (apiURL +:+ "/user/repos?sort=pushed&page=" +:+ pretty.pretty page +:+ "&per_page=30")%string in
  match pe_api e (bearer_get reqURL token) with
  | None => Err "request failed"%string
  | Some resp =>
    if (as_Status resp =? 429) || (as_Status resp =? 403) then Err "429"%string
    else if negb (as_Status resp =? 200) then Err ("status " +:+ pretty.pretty (as_Status resp))%string
    else
      let repos := if negb (String.eqb query "") then unmarshal (dec_struct [ ("items", dec_slice zero_repo (dec_struct github_repo_fields)) ]) [] (as_Body resp)
                   else unmarshal (dec_slice zero_repo (dec_struct github_repo_fields)) [] (as_Body resp) in
      match repos with
      | None => Err "invalid JSON"%string
      | Some repos => Ok (repos, if (length repos =? 30)%nat then Some (i64_add page 1) else None)
      end
  end.

Definition listGitLabRepos (e : p_env) (conn : OAuthConnection) (token query : string) (page : Z) : result string (list repoEntry * option Z) :=
  let apiURL := (oc_BaseURL conn +:+ "/api/v4")%string in
  let reqURL := if negb (String.eqb query "")
    then (apiURL +:+ "/projects?search=" +:+ QueryEscape query +:+ "&page=" +:+ pretty.pretty page +:+ "&per_page=30&membership=true")%string
    else (apiURL +:+ "/projects?order_by=last_activity_at&page=" +:+ pretty.pretty page +:+ "&per_page=30&membership=true")%string in
  match pe_api e (bearer_get reqURL token) with
  | None => Err "request failed"%string
  | Some resp =>
    if as_Status resp =? 429 then Err "429"%string
    else if negb (as_Status resp =? 200) then Err ("status " +:+ pretty.pretty (as_Status resp))%string
    else match unmarshal (dec_slice zero_repo (dec_struct gitlab_repo_fields)) [] (as_Body resp) with
    | None => Err "invalid JSON"%string
    | Some repos => Ok (repos, if String.eqb (as_NextPage resp) "" then None else Some (i64_add page 1))
    end
  end.

Definition listRepos (e : p_env) (conn : OAuthConnection) (token query : string) (page : Z) : result string (list repoEntry * option Z) :=
  if String.eqb (oc_ProviderType conn) "github" then listGitHubRepos e conn token query page
  else if String.eqb (oc_ProviderType conn) "gitlab" then listGitLabRepos e conn token query page
  else Err ("unknown provider type: " +:+ oc_ProviderType conn)%string.

(** The page of the query, at least 1. *)
Definition repos_page (pageStr : string) : Z :=
  if String.eqb pageStr "" then 1 else let page := default 1 (Sscanf_d pageStr) in if page <? 1 then 1 else page.

Definition not_connected : string := "{" +:+ dquote +:+ "error" +:+ dquote +:+ ":" +:+ dquote +:+ "not_connected" +:+ dquote +:+ "}".

Definition handleGetConnectionRepos (e : p_env) (method path userID q pageStr : string) (s : PServer) : PServer :=
  if negb (String.eqb method "GET") then p_error 405 "method not allowed" s
  else if String.eqb userID "" then p_error 401 "unauthorized" s
  else
    let connID := TrimSuffix (TrimPrefix path "/api/connections/") "/repos" in
    if negb (cf_db (config (ps_server s))) then p_error 404 not_connected s
    else match lookup_row (ce_down (pe_cp e) "GetOAuthConnectionByID") (GetOAuthConnectionByID connID (ps_conns s)) with
    | None => p_error 404 not_connected s
    | Some conn =>
      if negb (String.eqb (oc_UserID conn) userID) then p_error 404 not_connected s
      else
        let token := readSecretKey userID (conn_key connID "token") s in
        if String.eqb token "" then p_error 404 not_connected s
        else match listRepos e conn token q (repos_page pageStr) with
        | Err err => if Contains err "429" || Contains err "403" then p_error 429 "rate limited" s else p_error 502 "provider unavailable" s
        | Ok (repos, next) => on_server (http_json 200 (HRepos repos next)) s
        end
    end.

(** ** Tokens of GitLab *)

Definition exchangeRefreshToken (e : p_env) (p : ProviderConfig) (refreshToken : string) : option tokenResponse :=
  match pe_api e {| aq_Method := "POST"; aq_URL := (pv_BaseURL p +:+ "/oauth/token")%string; aq_Bearer := ""; aq_Basic := None;
                    aq_Form := [("grant_type", "refresh_token"); ("refresh_token", refreshToken); ("client_id", pv_ClientID p); ("client_secret", pv_ClientSecret p)]%string |} with
  | None => None
  | Some resp => if negb (as_Status resp =? 200) then None else decode_body (dec_struct tokenResponse_fields) zero_tokenResponse (as_Body resp)
  end.

(** [refreshGitLabToken]: its errors are only logged; a nil registry is a nil
    pointer. *)
Definition refreshGitLabToken (reg : option providerRegistry) (e : p_env) (conn : OAuthConnection) (s : PServer) : outcome PServer :=
  let key := conn_key (oc_ID conn) "refresh-token" in
  let refreshToken := readSecretKey (oc_UserID conn) key s in
  if String.eqb refreshToken "" then Done s
  else match reg with
  | None => Panicked
  | Some r =>
    match findProvider r (oc_ProviderID conn) with
    | None => Done s
    | Some p =>
      let again := let refreshToken2 := readSecretKey (oc_UserID conn) key s in
                   if negb (String.eqb refreshToken2 refreshToken) then exchangeRefreshToken e p refreshToken2 else None in
      Done match (match exchangeRefreshToken e p refreshToken with Some tr => Some tr | None => again end) with
      | None =>
        let s := removeSecretKeys (oc_UserID conn) (conn_key (oc_ID conn) <$> ["token"; "refresh-token"; "username"]%string) s in
        reconcileUserCLIConfig (oc_UserID conn) (DeleteOAuthConnection (ce_down (pe_cp e) "DeleteOAuthConnection") (oc_ID conn) s).2
      | Some tr =>
        let s := patchUserSecret (oc_UserID conn) ((conn_key (oc_ID conn) "token", tr_AccessToken tr) ::
                   if String.eqb (tr_RefreshToken tr) "" then [] else [(key, tr_RefreshToken tr)]) s in
        let s := if 0 <? tr_ExpiresIn tr
                 then UpdateTokenExpiry (ce_down (pe_cp e) "UpdateTokenExpiry") (oc_ID conn) (after_seconds (ce_now (pe_cp e)) (tr_ExpiresIn tr)) s else s in
        notifyHostsCredentialsChanged e (oc_UserID conn) (reconcileUserCLIConfig (oc_UserID conn) s)
      end
    end
  end.

Definition refreshExpiringGitLabTokens (reg : option providerRegistry) (e : p_env) (s : PServer) : outcome PServer :=
  if negb (cf_db (config (ps_server s))) then Done s
  else if ce_down (pe_cp e) "GetExpiringGitLabConnections" then Done s
  else fold_left (λ o c, outcome_bind o (refreshGitLabToken reg e c)) (GetExpiringGitLabConnections (ce_now (pe_cp e)) (30 * 60 * Second) (ps_conns s)) (Done s).

(** [ReconcileAllUserCLIConfigs]: connections of providers that are no longer
    configured go. *)
Definition orphaned (reg : option providerRegistry) (c : OAuthConnection) : bool :=
  String.eqb (oc_AuthType c) "oauth" && negb (memb (oc_ProviderID c) (match reg with Some r => pv_ID <$> rg_providers r | None => [] end)).

Definition remove_orphans (reg : option providerRegistry) (e : p_env) (userID : string) (s : PServer) : PServer :=
  if ce_down (pe_cp e) "GetOAuthConnectionsByUser" then s
  else fold_left (λ s c, if orphaned reg c
                         then (DeleteOAuthConnection (ce_down (pe_cp e) "DeleteOAuthConnection") (oc_ID c)
                                 (removeSecretKeys userID (conn_key (oc_ID c) <$> ["token"; "refresh-token"; "username"]%string) s)).2
                         else s) (GetOAuthConnectionsByUser userID (ps_conns s)) s.

Definition ReconcileAllUserCLIConfigs (reg : option providerRegistry) (e : p_env) (s : PServer) : PServer :=
  if negb (cf_db (config (ps_server s))) then s
  else if ce_down (pe_cp e) "ListUsers" then s
  else fold_left (λ s userID, reconcileUserCLIConfig userID (remove_orphans reg e userID s)) (u_ID <$> users (db (ps_server s))) s.

(** ** Routes of the provider pages, behind the middleware (server.go) *)

Definition providers_routes (reg : option providerRegistry) (e : p_env) (method path body userID q page : string) (s : PServer) : PServer :=
  if String.eqb path "/api/providers" then
    if String.eqb method "GET" then handleGetProviders reg s else p_error 405 "method not allowed" s
  else if String.eqb path "/api/providers/pat" then handleAddPAT e method body userID s
  else if HasPrefix path "/api/providers/" then
    if HasSuffix (TrimPrefix path "/api/providers/") "/connect" then handleConnectProvider reg e method path body userID s
    else p_error 404 "404 page not found" s
  else if HasPrefix path "/api/connections/" then
    if HasSuffix (TrimPrefix path "/api/connections/") "/repos" && String.eqb method "GET" then handleGetConnectionRepos e method path userID q page s
    else if String.eqb method "DELETE" then (handleDeleteConnection reg e method path userID s).2
    else p_error 404 "404 page not found" s
  else if HasPrefix path "/api/projects/" then
    if String.eqb method "PATCH" then on_server (handlePatchProject (with_connections (ps_conns s) (pe_cp e)) method path body userID) s
    else p_error 404 "404 page not found" s
  else p_error 404 "404 page not found" s.

End providers.
