(* ===== verification/ProvidersSpec.v ===== *)
(** * What the provider accounts guarantee (providers.go)

    Which accounts end up connected, where a browser is sent, what disconnecting
    removes, whose identities projects use, and what becomes of the tokens. *)

From stdpp Require Import sorting.
From S2P Require Import Prelude GoStrings Base64 Slug Subjects Json Permissions PermissionsSpec ObjectStore Database ControlServer Challenge ControlDemo ChallengeSpec HostLifecycle HostLifecycleSpec HostApi HostSecurity ProjectApi ProjectSpec Providers.
Open Scope Z_scope.

(** ** Requests and runs *)

(** What a server is asked: a request of a user to the provider routes and to the
    routes below /api/users/ (hosts and projects), a callback, the background tasks,
    and the creation of a project over NATS. *)
Inductive p_label :=
| LRoute (e : p_env) (method path body userID q page : string)
| LUserAPI (e : p_env) (method path body userID : string)
| LCallback (e : p_env) (path : string) (q : callback_query)
| LRefresh (e : p_env)
| LCleanup (e : p_env)
| LOrphans (e : p_env)
| LCreate (e : p_env) (msg : nats_msg) (userSlug hostSlug : string).

Definition label_env (l : p_label) : p_env :=
  match l with LRoute e _ _ _ _ _ _ | LUserAPI e _ _ _ _ | LCallback e _ _ | LRefresh e | LCleanup e | LOrphans e | LCreate e _ _ _ => e end.

(** A path on the server itself. *)
Definition local (u : string) : Prop := HasPrefix u "/" = true ∧ HasPrefix u "//" = false.

Section spec.
Context `{PG : Postgres, JT : JsonText, JS : JsonStream, UT : UnicodeTables, NO : Normalizer, UP : UrlParser, UR : UrlRefs}.
Context (reg : option providerRegistry).

Definition p_exec (l : p_label) (s : PServer) : outcome PServer :=
  match l with
  | LRoute e method path body userID q page => Done (providers_routes reg e method path body userID q page s)
  | LUserAPI e method path body userID => Done (on_server (handleUserAPIRoutes (with_connections (ps_conns s) (pe_cp e)) method path body userID) s)
  | LCallback e path q => handleOAuthCallback reg e path q s
  | LRefresh e => refreshExpiringGitLabTokens reg e s
  | LCleanup e => Done (Cleanup e s)
  | LOrphans e => Done (ReconcileAllUserCLIConfigs reg e s)
  | LCreate e msg us hs => Done (on_server (handleProjectCreate (with_connections (ps_conns s) (pe_cp e)) msg us hs) s)
  end.

Definition p_run (ls : list p_label) (s : PServer) : outcome PServer := fold_left (λ o l, outcome_bind o (p_exec l)) ls (Done s).

Lemma p_run_snoc ls l s s2 : p_run (ls ++ [l]) s = Done s2 ↔ ∃ s1, p_run ls s = Done s1 ∧ p_exec l s1 = Done s2.
Proof. unfold p_run. rewrite fold_left_app. cbn. apply outcome_bind_Done. Qed.

(** Invariants of single steps hold after runs. *)
Lemma p_run_invariant (I : PServer → Prop) (ok : p_label → Prop) ls s s' :
  (∀ l s1 s2, ok l → I s1 → p_exec l s1 = Done s2 → I s2) → Forall ok ls → I s → p_run ls s = Done s' → I s'.
Proof.
  intros Hstep. revert s'. induction ls as [|l ls IH] using rev_ind; intros s' Hok Hs H.
  - unfold p_run in H. cbn in H. by injection H as <-.
  - apply p_run_snoc in H as (s1 & H1 & H2). apply Forall_app in Hok as [Hls Hl]. inversion Hl; subst. eauto.
Qed.

(** ** What a step leaves alone *)

(** Only messages were sent and bucket entries written. *)
Record same_data (s s' : PServer) : Prop := {
  sd_conns : ps_conns s' = ps_conns s;
  sd_states : ps_states s' = ps_states s;
  sd_db : db (ps_server s') = db (ps_server s);
  sd_config : config (ps_server s') = config (ps_server s);
}.

Lemma same_refl s : same_data s s.
Proof. by split. Qed.
Lemma same_trans s1 s2 s3 : same_data s1 s2 → same_data s2 s3 → same_data s1 s3.
Proof. intros [] []. split; congruence. Qed.
Lemma same_server s v : db v = db (ps_server s) → config v = config (ps_server s) → same_data s (set_ps_server v s).
Proof. by split. Qed.
Lemma same_error st msg s : same_data s (p_error st msg s).
Proof. by split. Qed.
Lemma same_json st b s : same_data s (on_server (http_json st b) s).
Proof. by split. Qed.
Lemma same_redirect u s : same_data s (redirect u s).
Proof. by split. Qed.
Lemma same_redirectError x u c s : same_data s (redirectWithError x u c s).
Proof. by split. Qed.

Lemma updateToHost_data us hs v : db (publishProjectsUpdateToHost us hs v) = db v ∧ config (publishProjectsUpdateToHost us hs v) = config v.
Proof. unfold publishProjectsUpdateToHost. by case_match. Qed.
Lemma updated_data us v : db (publishProjectsUpdated us v) = db v ∧ config (publishProjectsUpdated us v) = config v.
Proof. unfold publishProjectsUpdated. by case_match. Qed.
Lemma writeKV_data e us hs p v : db (writeProjectKV e us hs p v) = db v ∧ config (writeProjectKV e us hs p v) = config v.
Proof. unfold writeProjectKV. by repeat case_match. Qed.

Lemma fold_data {A} (f : Server → A → Server) l v :
  (∀ v x, db (f v x) = db v ∧ config (f v x) = config v) → db (fold_left f l v) = db v ∧ config (fold_left f l v) = config v.
Proof. intros H. revert v. induction l as [|x l IH]; intros v; cbn; [done|]. destruct (IH (f v x)) as [-> ->]. apply H. Qed.

Lemma same_notify e u s : same_data s (notifyHostsCredentialsChanged e u s).
Proof.
  unfold notifyHostsCredentialsChanged. destruct (_ || _); [apply same_refl|]. destruct (lookup_row _ _) as [user|]; [|apply same_refl].
  destruct (ce_down _ _); [apply same_refl|].
  destruct (fold_data (λ v h, publishProjectsUpdateToHost (u_Slug user) (h_Slug h) v) (GetHostsByUser u (db (ps_server s))) (ps_server s)) as [H1 H2];
    [intros; apply updateToHost_data|].
  apply same_server; (etrans; [apply updated_data|]); assumption.
Qed.

Lemma same_rewrite e u s : same_data s (rewrite_projects e u s).
Proof.
  unfold rewrite_projects. destruct (_ && _); [|apply same_refl]. destruct (lookup_row _ _) as [user|]; [|apply same_refl].
  destruct (ce_down _ _); [apply same_refl|].
  match goal with |- context [fold_left ?f ?l ?v] => destruct (fold_data f l v) as [H1 H2] end; [|by apply same_server].
  intros v [p h]. cbn. destruct (p_GitIdentityID p); [done|apply writeKV_data].
Qed.

Create HintDb same discriminated.
#[local] Hint Resolve same_refl same_error same_json same_redirect same_redirectError same_notify same_rewrite : same.

(** *** Connecting *)

(** The effects of the steps on the data. *)
Definition connected_by (r : providerRegistry) (e : p_env) (path : string) (q : callback_query) (s s' : PServer) : Prop :=
  ∃ st p tr profile l, let providerID := TrimSuffix (TrimPrefix path "/auth/providers/") "/callback" in
    let conn := oauth_connection e st p providerID tr profile in
    (Consume e (cq_state q) s).1 = Some st ∧ findProvider r providerID = Some p ∧
    exchangeCode e p (cq_code q) (callback_url (rg_externalURL r) providerID) = Some tr ∧ fetchUserProfile e p (tr_AccessToken tr) = Some profile ∧
    gitlab_taken e p (os_UserID st) (Consume e (cq_state q) s).2 = false ∧
    CreateOAuthConnection (ce_down (pe_cp e) "CreateOAuthConnection") conn (db (ps_server s)) (ps_conns s) = Ok l ∧
    ps_conns s' = l ∧ ps_states s' = ps_states (Consume e (cq_state q) s).2 ∧ db (ps_server s') = db (ps_server s).

Definition token_added (e : p_env) (method body u : string) (s s' : PServer) : Prop :=
  ∃ req provType profile l, let conn := pat_connection e u provType req profile in
    (u ≠ ""%string ∧ method = "POST"%string ∧ decode_body (dec_struct pat_fields) {| pr_BaseURL := ""; pr_DisplayName := ""; pr_Token := "" |} body = Some req) ∧
    detectPATProvider e (pr_BaseURL req) (pr_Token req) = Ok (provType, profile) ∧
    CreateOAuthConnection (ce_down (pe_cp e) "CreateOAuthConnection") conn (db (ps_server s)) (ps_conns s) = Ok l ∧
    ps_conns s' = l ∧ ps_states s' = ps_states s ∧ db (ps_server s') = db (ps_server s).

Definition flow_started (e : p_env) (u : string) (s s' : PServer) : Prop :=
  ∃ token providerID returnURL, u ≠ ""%string ∧ pe_state e = Some token ∧ validateReturnURL returnURL = None ∧
    ps_conns s' = ps_conns s ∧ db (ps_server s') = db (ps_server s) ∧
    ps_states s' = <[ token := {| os_ReturnURL := sanitizeReturnURL returnURL; os_UserID := u; os_ProviderID := providerID;
                                  os_ExpiresAt := ce_now (pe_cp e) + stateTTL |} ]> (ps_states s).

Definition disconnected (id u : string) (s s' : PServer) : Prop :=
  (∃ conn, GetOAuthConnectionByID id (ps_conns s) = Some conn ∧ oc_UserID conn = u) ∧
  ps_conns s' = delete_where (λ c, String.eqb (oc_ID c) id) (ps_conns s) ∧ ps_states s' = ps_states s ∧
  db (ps_server s') = clear_identity id (db (ps_server s)).

Lemma callback_inv r e path q s s' :
  reg = Some r → handleOAuthCallback reg e path q s = Done s' →
  let s1 := (Consume e (cq_state q) s).2 in
  same_data s1 s' ∨ connected_by r e path q s s'.
Proof.
  intros -> H. cbv zeta. unfold handleOAuthCallback in H. injection H as <-.
  assert (Hdb : db (ps_server (Consume e (cq_state q) s).2) = db (ps_server s) ∧ ps_conns (Consume e (cq_state q) s).2 = ps_conns s).
  { unfold Consume. by repeat case_match. }
  destruct (Consume e (cq_state q) s) as [[st|] s1] eqn:Hcons; cbn [fst snd] in *; [|left; auto with same].
  destruct (String.eqb (cq_error q) "access_denied"); [left; auto with same|].
  destruct (findProvider r _) as [p|] eqn:Hp; [|left; auto with same].
  destruct (exchangeCode e p _ _) as [tr|] eqn:Ht; [|left; auto with same].
  destruct (fetchUserProfile e p _) as [profile|] eqn:Hf; [|left; auto with same].
  unfold finish_callback. destruct (gitlab_taken e p (os_UserID st) s1) eqn:Hg; [left; auto with same|]. unfold patchUserSecret, removeSecretKeys, reconcileUserCLIConfig.
  destruct (cf_db (config (ps_server s1))).
  - destruct (CreateOAuthConnection _ _ _ _) as [l|err] eqn:Hc; [|left; auto with same]. right.
    destruct Hdb as [Hdb Hcs]. rewrite Hdb, Hcs in Hc. exists st, p, tr, profile, l. rewrite Hcons. do 6 (split; [done|]).
    set (s2 := set_oauth_id _ _ _ _). assert (H2 : ps_conns s2 = l ∧ ps_states s2 = ps_states s1 ∧ db (ps_server s2) = db (ps_server s1)).
    { unfold s2, set_oauth_id. by repeat case_match. }
    destruct (same_notify e (os_UserID st) s2) as [N1 N2 N3 _]. cbn. rewrite N1, N2, N3. destruct H2 as (-> & -> & ->). done.
  - left. eapply same_trans; [apply same_notify|]. auto with same.
Qed.

Lemma pat_inv e method body u s :
  let s' := handleAddPAT e method body u s in
  same_data s s' ∨ token_added e method body u s s'.
Proof.
  cbv zeta. unfold handleAddPAT. destruct (String.eqb_spec method "POST") as [Hm|]; cbn [negb]; [|left; auto with same]. destruct (String.eqb_spec u ""); [left; auto with same|].
  destruct (decode_body _ _ _) as [req|] eqn:Hb; [|left; auto with same]. destruct (_ || _); [left; auto with same|].
  destruct (detectPATProvider e _ _) as [[pt profile]|err] eqn:Hd; [|left; auto with same]. cbv zeta. destruct (_ && existsb _ _); [left; auto with same|].
  unfold patchUserSecret, removeSecretKeys, reconcileUserCLIConfig. destruct (cf_db _).
  - destruct (CreateOAuthConnection _ _ _ _) as [l|err] eqn:Hc; [|left; auto with same]. right. exists req, pt, profile, l. do 3 (split; [done|]).
    destruct (same_notify e u (set_ps_conns l s)) as [N1 N2 N3 _]. cbn. by rewrite N1, N2, N3.
  - left. eapply same_trans; [apply same_notify|]. auto with same.
Qed.

Lemma connect_inv e method path body u s :
  let s' := handleConnectProvider reg e method path body u s in
  same_data s s' ∨ flow_started e u s s'.
Proof.
  cbv zeta. unfold handleConnectProvider. destruct (negb _); [left; auto with same|]. destruct (String.eqb_spec u ""); [left; auto with same|].
  destruct (String.eqb _ "pat"); [left; auto with same|]. destruct reg as [r|]; [|left; auto with same].
  destruct (findProvider r _); [|left; auto with same]. destruct (decode_body _ _ _) as [ret|]; [|left; auto with same].
  destruct (String.eqb ret ""); [left; auto with same|]. destruct (validateReturnURL ret) eqn:Hv; [left; auto with same|].
  unfold Put. destruct (pe_state e) as [token|] eqn:Ht; [|left; auto with same]. right.
    exists token. do 2 eexists. do 3 (split; [done|]). split_and!; done.
Qed.

Lemma delete_inv e method path u s :
  let r := handleDeleteConnection reg e method path u s in
  r.1 = [] ∧ (same_data s r.2 ∨ u ≠ ""%string ∧ disconnected (TrimSuffix (TrimPrefix path "/api/connections/") "/repos") u s r.2).
Proof.
  cbv zeta. unfold handleDeleteConnection. destruct (negb _); [split; [done|left; apply same_error]|]. destruct (String.eqb_spec u ""); [split; [done|left; apply same_error]|].
  set (id := TrimSuffix (TrimPrefix path "/api/connections/") "/repos").
  destruct (String.eqb id ""); [split; [done|left; apply same_error]|]. destruct (negb _); [split; [done|left; apply same_error]|].
  destruct (lookup_row _ _) as [conn|] eqn:Hc; [|split; [done|left; apply same_error]]. destruct (String.eqb_spec (oc_UserID conn) u) as [Hu|]; [|split; [done|left; apply same_error]].
  cbn [negb]. unfold readSecretKey, removeSecretKeys, reconcileUserCLIConfig. cbn [String.eqb negb]. rewrite andb_false_r.
  apply lookup_row_Some in Hc. unfold DeleteOAuthConnection. destruct (ce_down _ _); [split; [done|left; apply same_error]|]. cbn [fst snd]. split; [done|]. right. split; [done|].
  pose proof Hc as Hm. apply find_first_Some in Hm as [Hin Hid%String.eqb_eq].
  rewrite (proj2 (memb_spec _ _)); [|apply list_elem_of_fmap; by exists conn].
  set (s2 := set_ps_conns _ _). destruct (same_rewrite e u s2) as [R1 R2 R3 _]. destruct (same_notify e u (rewrite_projects e u s2)) as [N1 N2 N3 _].
  split; [by exists conn|]. unfold on_server, http_json, set_ps_server in *. cbn [ps_conns ps_states ps_server] in *. cbn [db send]. rewrite N1, N2, N3, R1, R2, R3. done.
Qed.

Lemma routes_inv e method path body u q pg s :
  let s' := providers_routes reg e method path body u q pg s in
  same_data s s' ∨ flow_started e u s s' ∨ (path = "/api/providers/pat"%string ∧ token_added e method body u s s') ∨ (u ≠ ""%string ∧ ∃ id, disconnected id u s s') ∨
  s' = on_server (handlePatchProject (with_connections (ps_conns s) (pe_cp e)) method path body u) s.
Proof.
  cbv zeta. unfold providers_routes. destruct (String.eqb path "/api/providers"); [left; unfold handleGetProviders; destruct (String.eqb method "GET"); auto with same|].
  destruct (String.eqb_spec path "/api/providers/pat"); [destruct (pat_inv e method body u s); auto|].
  destruct (HasPrefix path "/api/providers/").
  { destruct (HasSuffix _ "/connect"); [destruct (connect_inv e method path body u s); auto|left; auto with same]. }
  destruct (HasPrefix path "/api/connections/").
  { destruct (_ && String.eqb method "GET").
    - left. unfold handleGetConnectionRepos. repeat (case_match; auto with same).
    - destruct (String.eqb method "DELETE"); [|left; auto with same]. destruct (delete_inv e method path u s) as [_ [H|[Hu H]]]; [by left|]. right. right. right. left. eauto. }
  destruct (HasPrefix path "/api/projects/"); [|left; auto with same].
  destruct (String.eqb method "PATCH"); [|left; auto with same]. by repeat right.
Qed.

(** The refresh of tokens finds no token to refresh. *)
Lemma refresh_nothing e s : refreshExpiringGitLabTokens reg e s = Done s.
Proof.
  unfold refreshExpiringGitLabTokens. destruct (negb _); [done|]. destruct (ce_down _ _); [done|].
  generalize (GetExpiringGitLabConnections (ce_now (pe_cp e)) (30 * 60 * Second) (ps_conns s)). intros l. induction l as [|c l IH]; [done|]. cbn. exact IH.
Qed.

(** What deletions of connections keep, the removal of orphans keeps. *)
Lemma orphans_invariant (I : PServer → Prop) e s :
  (∀ id down s, I s → I (DeleteOAuthConnection down id s).2) → I s → I (ReconcileAllUserCLIConfigs reg e s).
Proof.
  intros Hd Hs. unfold ReconcileAllUserCLIConfigs. destruct (negb _); [done|]. destruct (ce_down _ _); [done|].
  generalize (u_ID <$> users (db (ps_server s))). intros us. revert s Hs.
  assert (Hu : ∀ u s, I s → I (remove_orphans reg e u s)).
  { intros u s Hs. unfold remove_orphans. destruct (ce_down _ _); [done|]. generalize (GetOAuthConnectionsByUser u (ps_conns s)). intros l. revert s Hs.
    induction l as [|c l IH]; intros s Hs; cbn; [done|]. apply IH. destruct (orphaned reg c); [by apply Hd|done]. }
  induction us as [|u us IH]; intros s Hs; cbn; [done|]. apply IH, Hu, Hs.
Qed.

(** ** Who is connected *)

(** The request of a user that started a flow with this state token. *)
Definition started (l : p_label) (token : string) (st : oauthState) : Prop :=
  ∃ e method path body q pg ret, l = LRoute e method path body (os_UserID st) q pg ∧ os_UserID st ≠ ""%string ∧ pe_state e = Some token ∧
    os_ExpiresAt st = ce_now (pe_cp e) + stateTTL ∧ validateReturnURL ret = None ∧ os_ReturnURL st = sanitizeReturnURL ret.

Lemma consume_states e t s token st : ps_states (Consume e t s).2 !! token = Some st → ps_states s !! token = Some st.
Proof. unfold Consume. destruct (ps_states s !! t); [|done]. destruct (_ <? _); cbn; intros H; by apply lookup_delete_Some in H as [_ H]. Qed.

Lemma consume_some e t s st : (Consume e t s).1 = Some st → ps_states s !! t = Some st ∧ ce_now (pe_cp e) ≤ os_ExpiresAt st.
Proof. unfold Consume. destruct (ps_states s !! t) as [st'|]; [|done]. destruct (Z.ltb_spec (os_ExpiresAt st') (ce_now (pe_cp e))); [done|]. by intros [= <-]. Qed.

Lemma consume_data e t s : ps_conns (Consume e t s).2 = ps_conns s ∧ db (ps_server (Consume e t s).2) = db (ps_server s).
Proof. unfold Consume. by repeat case_match. Qed.

Lemma delete_states id down s : ps_states (DeleteOAuthConnection down id s).2 = ps_states s.
Proof. unfold DeleteOAuthConnection. destruct down; [done|]. by destruct (memb _ _). Qed.

Lemma states_step l s s' token st : p_exec l s = Done s' → ps_states s' !! token = Some st → ps_states s !! token = Some st ∨ started l token st.
Proof.
  destruct l as [e m path body u q pg|e m path body u|e path q|e|e|e|e msg us hs]; cbn [p_exec].
  - intros [= <-] H. destruct (routes_inv e m path body u q pg s) as [Hs|[Hs|[Hs|[Hs|Hs]]]].
    + left. by rewrite <- (sd_states _ _ Hs).
    + destruct Hs as (token' & pid & ret & Hu & Ht & Hv & _ & _ & Hst). rewrite Hst in H. apply lookup_insert_Some in H as [[<- <-]|[_ H]]; [|by left].
      right. exists e, m, path, body, q, pg, ret. done.
    + destruct Hs as (_ & req & pt & pr & l & _ & _ & _ & _ & Hst & _). left. by rewrite <- Hst.
    + destruct Hs as (_ & id & _ & _ & Hst & _). left. by rewrite <- Hst.
    + left. by rewrite Hs in H.
  - intros [= <-] H. by left.
  - intros He H. left. destruct reg as [r|] eqn:Hr; [|done]. rewrite <- Hr in He. destruct (callback_inv r e path q s s' Hr He) as [Hs|Hs].
    + rewrite (sd_states _ _ Hs) in H. by apply consume_states in H.
    + destruct Hs as (st1 & p & tr & pr & l & _ & _ & _ & _ & _ & _ & _ & Hst & _). rewrite Hst in H. by apply consume_states in H.
  - rewrite refresh_nothing. intros [= <-]. by left.
  - intros [= <-] H. left. cbn in H. by apply map_lookup_filter_Some in H as [H _].
  - intros [= <-] H. left. revert H. apply (orphans_invariant (λ s1, ps_states s1 !! token = Some st → ps_states s !! token = Some st)); [|done].
    intros id down s1 H1. by rewrite delete_states.
  - intros [= <-] H. by left.
Qed.

(** The account of a connection. *)
Definition account (c : OAuthConnection) : string * string * string * string := (oc_UserID c, oc_BaseURL c, oc_ProviderUserID c, oc_Username c).
Definition profile_of (c : OAuthConnection) : providerProfile := {| pp_ProviderUserID := oc_ProviderUserID c; pp_Username := oc_Username c |}.

Lemma create_conn_elem down c t l l' d :
  CreateOAuthConnection down c t l = Ok l' → d ∈ l' → d ∈ l ∨ account d = account c.
Proof.
  unfold CreateOAuthConnection. destruct down; [done|]. destruct (existsb _ _).
  - intros [= <-] Hd. unfold update_where in Hd. apply list_elem_of_fmap in Hd as (old & -> & Hold). destruct (same_account c old) eqn:E; [|by left].
    right. unfold same_account in E. rewrite !andb_true_iff, !String.eqb_eq in E. destruct E as [[E1 E2] E3]. unfold account. cbn. congruence.
  - destruct (memb _ _); [done|]. destruct (negb _); [done|]. intros [= <-] [H|H%list_elem_of_singleton]%elem_of_app; [by left|right; by subst].
Qed.

(** The provider at [url] says that the token belongs to the account of [c]. *)
Definition answers_profile (e : p_env) (url token : string) (c : OAuthConnection) : Prop :=
  ∃ resp, pe_api e {| aq_Method := "GET"; aq_URL := url; aq_Bearer := token; aq_Basic := None; aq_Form := [] |} = Some resp ∧
    as_Status resp = 200 ∧ decode_profile (as_Body resp) = Some (profile_of c).

(** Where a provider with this address tells whose a token is: GitHub, a GitHub
    Enterprise server, GitLab. *)
Definition profile_pages (base : string) : list string :=
  (if decide (base = "https://github.com"%string) then ["https://api.github.com/user"%string] else [base +:+ "/api/v3/user"]) ++ [base +:+ "/api/v4/user"].

(** The same for a configured provider, and where it exchanges codes. *)
Definition profile_page (p : ProviderConfig) : string :=
  if decide (pv_Type p = "gitlab"%string) then pv_BaseURL p +:+ "/api/v4/user"
  else if decide (pv_APIURL p = ""%string) then "https://api.github.com/user" else pv_APIURL p +:+ "/user".
Definition token_page (p : ProviderConfig) : string :=
  if decide (pv_Type p = "gitlab"%string) then pv_BaseURL p +:+ "/oauth/token" else pv_BaseURL p +:+ "/login/oauth/access_token".

(** The provider exchanges the code, presented with the client's credentials, for
    the token. *)
Definition exchanges (e : p_env) (p : ProviderConfig) (code callback token : string) : Prop :=
  ∃ rq resp tr, pe_api e rq = Some resp ∧ aq_Method rq = "POST"%string ∧ aq_URL rq = token_page p ∧
    [("client_id", pv_ClientID p); ("client_secret", pv_ClientSecret p); ("code", code); ("redirect_uri", callback)]%string ⊆ aq_Form rq ∧
    as_Status resp = 200 ∧ decode_body (dec_struct tokenResponse_fields) zero_tokenResponse (as_Body resp) = Some tr ∧
    tr_Error tr = ""%string ∧ tr_AccessToken tr = token ∧ token ≠ ""%string.

(** How a connection came to be: the user posted a token with the address of the
    connection, and the provider at this address says that this token belongs to
    this account; or the user came back from a configured provider with a state that
    the user drew less than ten minutes before and a code, which the provider
    exchanges for a token of this account. *)
Definition by_token (l : p_label) (c : OAuthConnection) : Prop :=
  ∃ e body q pg req url, l = LRoute e "POST" "/api/providers/pat" body (oc_UserID c) q pg ∧ oc_UserID c ≠ ""%string ∧
    decode_body (dec_struct pat_fields) {| pr_BaseURL := ""; pr_DisplayName := ""; pr_Token := "" |} body = Some req ∧
    pr_BaseURL req = oc_BaseURL c ∧ url ∈ profile_pages (oc_BaseURL c) ∧ answers_profile e url (pr_Token req) c.

Definition by_flow (before : p_label → Prop) (l : p_label) (c : OAuthConnection) : Prop :=
  ∃ e providerID path q r p token st l0, l = LCallback e path q ∧ reg = Some r ∧ providerID = TrimSuffix (TrimPrefix path "/auth/providers/") "/callback" ∧
    p ∈ rg_providers r ∧ pv_ID p = providerID ∧ oc_BaseURL c = pv_BaseURL p ∧
    exchanges e p (cq_code q) (rg_externalURL r +:+ "/auth/providers/" +:+ providerID +:+ "/callback") token ∧ answers_profile e (profile_page p) token c ∧
    before l0 ∧ started l0 (cq_state q) st ∧ os_UserID st = oc_UserID c ∧ ce_now (pe_cp e) ≤ os_ExpiresAt st.

Lemma by_token_account l c d : account c = account d → by_token l d → by_token l c.
Proof.
  destruct c, d. unfold account. cbn. intros [= -> -> -> ->] (e & body & q & pg & req & url & H). exists e, body, q, pg, req, url. exact H.
Qed.
Lemma by_flow_account b l c d : account c = account d → by_flow b l d → by_flow b l c.
Proof.
  destruct c, d. unfold account. cbn. intros [= -> -> -> ->] (e & pid & path & q & r & p & tk & st & l0 & H).
  exists e, pid, path, q, r, p, tk, st, l0. exact H.
Qed.

Lemma exchange_ok e p code cb tr : exchangeCode e p code cb = Some tr → exchanges e p code cb (tr_AccessToken tr).
Proof.
  unfold exchangeCode. destruct (pe_api e _) as [resp|] eqn:Ha; [|done]. destruct (Z.eqb_spec (as_Status resp) 200) as [Hs|]; [cbn [negb]|done].
  destruct (decode_body _ _ _) as [tr'|] eqn:Hd; [|done]. destruct (String.eqb_spec (tr_Error tr') "") as [He|]; [cbn [negb]|done].
  destruct (String.eqb_spec (tr_AccessToken tr') "") as [|Ht]; [done|]. intros [= <-]. exists (exchange_request p code cb), resp, tr'. split_and!; try done.
  - unfold exchange_request, token_page. cbn [aq_URL]. destruct (String.eqb_spec (pv_Type p) "gitlab") as [->|Hg]; [done|]. rewrite decide_False by done.
    by destruct (String.eqb_spec (pv_BaseURL p) "https://github.com") as [->|].
  - unfold exchange_request. cbn [aq_Form]. intros x Hx. apply elem_of_app. by left.
Qed.

Lemma fetch_profile_ok e p token pr c : fetchUserProfile e p token = Some pr → profile_of c = pr → answers_profile e (profile_page p) token c.
Proof.
  unfold fetchUserProfile. cbv zeta. intros H Hc.
  assert (Hu : (if String.eqb (pv_Type p) "gitlab" then (pv_BaseURL p +:+ "/api/v4/user")%string
    else if negb (String.eqb (pv_APIURL p) "") then (pv_APIURL p +:+ "/user")%string else "https://api.github.com/user"%string) = profile_page p).
  { unfold profile_page. destruct (String.eqb_spec (pv_Type p) "gitlab"); [by rewrite decide_True|]. rewrite decide_False by done.
    by destruct (String.eqb_spec (pv_APIURL p) ""); [rewrite decide_True|rewrite decide_False]. }
  rewrite Hu in H. destruct (pe_api e _) as [resp|] eqn:Ha; [|done]. destruct (Z.eqb_spec (as_Status resp) 200) as [Hs|]; [|done]. cbn [negb] in H.
  exists resp. by rewrite Hc.
Qed.

Lemma fetch_ok e url token pr : fetchProfileWithToken e url token = Ok pr →
  ∃ resp, pe_api e (bearer_get url token) = Some resp ∧ as_Status resp = 200 ∧ decode_profile (as_Body resp) = Some pr.
Proof.
  unfold fetchProfileWithToken. destruct (pe_api e _) as [resp|]; [|done]. destruct (Z.eqb_spec (as_Status resp) 200); [|done]. cbn [negb].
  destruct (decode_profile _) as [pr'|] eqn:E; [|done]. intros [= <-]. eauto.
Qed.

Lemma detect_ok e base token pt pr : detectPATProvider e base token = Ok (pt, pr) →
  ∃ url, url ∈ profile_pages base ∧ ∃ resp, pe_api e (bearer_get url token) = Some resp ∧ as_Status resp = 200 ∧ decode_profile (as_Body resp) = Some pr.
Proof.
  unfold detectPATProvider, profile_pages. cbv zeta. destruct (fetchProfileWithToken e (if String.eqb base "https://github.com" then "https://api.github.com/user"%string else base +:+ "/api/v3/user") token) as [pr1|b1] eqn:E1.
  - intros [= _ <-]. apply fetch_ok in E1. eexists. split; [|exact E1]. apply elem_of_app. left.
    destruct (String.eqb_spec base "https://github.com"); [rewrite decide_True by done|rewrite decide_False by done]; by apply list_elem_of_singleton.
  - destruct (fetchProfileWithToken e (base +:+ "/api/v4/user") token) as [pr1|b2] eqn:E2; [|done]. intros [= _ <-]. apply fetch_ok in E2.
    eexists. split; [|exact E2]. apply elem_of_app. right. by apply list_elem_of_singleton.
Qed.

Lemma conns_step (before : p_label → Prop) l s s' c :
  (∀ token st, ps_states s !! token = Some st → ∃ l0, before l0 ∧ started l0 token st) →
  p_exec l s = Done s' → c ∈ ps_conns s' → (∃ d, d ∈ ps_conns s ∧ account c = account d) ∨ by_token l c ∨ by_flow before l c.
Proof.
  intros Hst. destruct l as [e m path body u q pg|e m path body u|e path q|e|e|e|e msg us hs]; cbn [p_exec].
  - intros [= <-] H. destruct (routes_inv e m path body u q pg s) as [Hs|[Hs|[Hs|[Hs|Hs]]]].
    + left. exists c. by rewrite <- (sd_conns _ _ Hs).
    + destruct Hs as (? & ? & ? & _ & _ & _ & Hc & _). left. exists c. by rewrite <- Hc.
    + destruct Hs as (-> & req & pt & pr & l & (Hu & -> & Hb) & Hd & Hc & Hl & _). rewrite Hl in H. destruct (create_conn_elem _ _ _ _ _ _ Hc H) as [Hold|Ha]; [left; eauto|].
      right. left. apply (by_token_account _ _ _ Ha). destruct (detect_ok _ _ _ _ _ Hd) as (url & Hurl & resp & F1 & F2 & F3).
      exists e, body, q, pg, req, url. split; [done|]. split; [done|]. split; [done|]. split; [done|]. split; [done|].
      exists resp. split; [exact F1|]. split; [done|]. rewrite F3. by destruct pr.
    + destruct Hs as (_ & id & _ & Hc & _). left. exists c. split; [|done]. rewrite Hc in H. by apply delete_where_elem in H as [H _].
    + left. exists c. by rewrite Hs in H.
  - intros [= <-] H. left. eauto.
  - intros He H. destruct reg as [r|] eqn:Hr; [|done]. rewrite <- Hr in He. destruct (callback_inv r e path q s s' Hr He) as [Hs|Hs].
    + left. exists c. split; [|done]. rewrite (sd_conns _ _ Hs) in H. by rewrite (proj1 (consume_data e (cq_state q) s)) in H.
    + destruct Hs as (st1 & p & tr & pr & l & Hcs & Hp & Hx & Hf & _ & Hc & Hl & _). rewrite Hl in H.
      destruct (create_conn_elem _ _ _ _ _ _ Hc H) as [Hold|Ha]; [left; eauto|]. right. right. apply (by_flow_account _ _ _ _ Ha).
      apply consume_some in Hcs as [Hin Hexp]. destruct (Hst _ _ Hin) as (l0 & Hb & Hs0).
      pose proof Hp as [Hpin Hpid%String.eqb_eq]%find_first_Some.
      exists e, (TrimSuffix (TrimPrefix path "/auth/providers/") "/callback"), path, q, r, p, (tr_AccessToken tr), st1, l0. rewrite Hr. do 6 (split; [done|]).
      split; [by apply exchange_ok|]. split; [|done]. eapply fetch_profile_ok; [exact Hf|]. by destruct pr.
  - rewrite refresh_nothing. intros [= <-]. left. eauto.
  - intros [= <-] H. left. eauto.
  - intros [= <-] H. left. exists c. split; [|done]. revert H. apply (orphans_invariant (λ s1, c ∈ ps_conns s1 → c ∈ ps_conns s)); [|done].
    intros id down s1 H1 H. apply H1. revert H. unfold DeleteOAuthConnection. destruct down; [done|]. destruct (memb _ _); [|done]. cbn. by intros [H _]%delete_where_elem.
  - intros [= <-] H. left. eauto.
Qed.

(** C24. No connection without proof: after every run of requests, callbacks and
    background tasks, each connected account was proved for its user, either with a
    token that the provider accepted as that account's, or by a callback whose code
    the provider exchanged for a token of that account, with a state token that the
    same user, logged in, had drawn at most ten minutes before. *)
Theorem connection_sound ls s s' c :
  ps_states s = ∅ → ps_conns s = [] → p_run ls s = Done s' → c ∈ ps_conns s' →
  ∃ before l after, ls = before ++ l :: after ∧ (by_token l c ∨ by_flow (λ l0, l0 ∈ before) l c).
Proof.
  intros Hs Hc. assert (Hst : ∀ ls s', p_run ls s = Done s' → ∀ token st, ps_states s' !! token = Some st → ∃ l0, l0 ∈ ls ∧ started l0 token st).
  { clear ls s' c. intros ls. induction ls as [|l ls IH] using rev_ind; intros s' H token st Hin.
    - injection H as <-. rewrite Hs in Hin. by rewrite lookup_empty in Hin.
    - apply p_run_snoc in H as (s1 & H1 & H2). destruct (states_step l s1 s' token st H2 Hin) as [Hold|Hnew].
      + destruct (IH s1 H1 token st Hold) as (l0 & Hl0 & Hs0). exists l0. split; [|done]. apply elem_of_app. by left.
      + exists l. split; [|done]. apply elem_of_app. right. left. }
  revert s' c. induction ls as [|l ls IH] using rev_ind; intros s' c H Hin.
  - injection H as <-. rewrite Hc in Hin. by apply elem_of_nil in Hin.
  - apply p_run_snoc in H as (s1 & H1 & H2). destruct (conns_step (λ l0, l0 ∈ ls) l s1 s' c (Hst ls s1 H1) H2 Hin) as [(d & Hd & Ha)|Hnew].
    + destruct (IH s1 d H1 Hd) as (before & l1 & after & -> & Hp). exists before, l1, (after ++ [l]). split; [by rewrite <- app_assoc|].
      destruct Hp as [Hp|Hp]; [left; by eapply by_token_account|right; by eapply by_flow_account].
    + exists ls, l, []. done.
Qed.

(** *** The provider of a flow is not compared *)

Definition other_provider (p : string) (st : oauthState) : oauthState :=
  {| os_ReturnURL := os_ReturnURL st; os_UserID := os_UserID st; os_ProviderID := p; os_ExpiresAt := os_ExpiresAt st |}.

(** A callback does the same for every provider that the flow was started with: the
    account of the provider that is named in the path is connected. *)
Theorem provider_not_compared r e path q s st p :
  ps_states s !! cq_state q = Some st →
  let s2 := set_ps_states (<[ cq_state q := other_provider p st ]> (ps_states s)) s in
  handleOAuthCallback (Some r) e path q s2 = handleOAuthCallback (Some r) e path q s.
Proof.
  intros Hst s2. unfold handleOAuthCallback. f_equal.
  assert (E : Consume e (cq_state q) s2 = match Consume e (cq_state q) s with (Some st', s') => (Some (other_provider p st'), s') | (None, s') => (None, s') end).
  { unfold Consume. unfold s2 at 1. cbn [ps_states set_ps_states]. rewrite lookup_insert_eq, Hst. cbn [os_ExpiresAt other_provider].
    unfold s2. cbn. rewrite delete_insert_eq. by destruct (os_ExpiresAt st <? _). }
  rewrite E. by destruct (Consume e (cq_state q) s) as [[st'|] s'].
Qed.

(** ** Where browsers are sent *)

(** The path ends after the first slash, or goes on with another character. *)
Lemma local_iff u : local u ↔ u = "/"%string ∨ ∃ b r, u = String "/" (String b r) ∧ b ≠ "/"%char.
Proof.
  unfold local, HasPrefix. rewrite prefix_spec, <- not_true_iff_false, prefix_spec. cbn [String.append]. split.
  - intros [[[|b r] ->] Hn]; [by left|]. right. exists b, r. split; [done|]. intros ->. destruct Hn. by exists r.
  - intros [->|(b & r & -> & Hb)].
    + split; [by exists ""%string|]. by intros [k Hk].
    + split; [by eexists|]. intros [k [= Hk _]]. done.
Qed.

Lemma local_app u x : local u → u ≠ "/"%string → local (u +:+ x).
Proof. rewrite !local_iff. intros [->|(b & r & -> & Hb)] Hu; [done|]. right. by exists b, (r +:+ x)%string. Qed.

Lemma index_take s t n : Index s t = Some n → ∃ k, s = take_str n s +:+ t +:+ k.
Proof.
  unfold Index. revert n. induction s as [|a s IH]; intros n; cbn [String.index].
  - destruct t; [|done]. intros [= <-]. by exists ""%string.
  - destruct (String.prefix t (String a s)) eqn:Hp.
    + intros [= <-]. apply prefix_spec in Hp as [k Hk]. by exists k.
    + destruct (String.index 0 t s) as [m|] eqn:Hm; [|done]. intros [= <-]. destruct (IH m eq_refl) as [k Hk]. exists k. cbn. by rewrite Hk at 1.
Qed.

Lemma local_error_url u code : local u → local (error_url u code).
Proof.
  intros Hu. unfold error_url, ReplaceAll. set (new := ("error=" +:+ code)%string).
  assert (Hr : local (replace_all (String.length u) u "connected=true" new)).
  { destruct (String.length u) as [|n]; [done|]. cbn [replace_all]. destruct (Index u "connected=true") as [m|] eqn:Hi; [|done].
    destruct (index_take _ _ _ Hi) as [k Hk]. apply local_iff in Hu. apply local_iff.
    destruct m as [|[|m]], Hu as [->|(b & r & -> & Hb)]; cbn in Hk |- *; simplify_eq; try done; right; eauto. }
  destruct (String.eqb_spec (replace_all (String.length u) u "connected=true" new) u) as [E|]; [|done].
  destruct (decide (u = "/"%string)) as [->|Hne]; [|by apply local_app]. by split.
Qed.

Lemma validate_local u : validateReturnURL u = None → local u.
Proof.
  unfold validateReturnURL, local. destruct (HasPrefix u "/"); [|done]. cbn. destruct (HasPrefix u "//"); done.
Qed.

(** A query does not change where a path leads. *)
Definition query_local : Prop := ∀ u q, local u → local (url_with_query u q).

Lemma sanitize_local u : query_local → local u → local (sanitizeReturnURL u).
Proof. intros Hq Hu. unfold sanitizeReturnURL. destruct (url_raw_query u); [|done]. destruct (String.eqb _ ""); [done|]. by apply Hq. Qed.

Lemma redirect_last u s : last (sent (ps_server (redirect u s))) = Some (Responded 302 (HRedirect u)).
Proof. cbn. by rewrite last_snoc. Qed.

(** No open redirect: whatever requests came before, a callback sends the browser
    to the external address followed by a path of the server itself. *)
Theorem redirects_local r ls s s1 e path q s2 :
  query_local → ps_states s = ∅ → p_run ls s = Done s1 → handleOAuthCallback (Some r) e path q s1 = Done s2 →
  ∃ rest, local rest ∧ last (sent (ps_server s2)) = Some (Responded 302 (HRedirect (rg_externalURL r +:+ rest))).
Proof.
  intros Hq Hs Hrun. assert (Hl : ∀ token st, ps_states s1 !! token = Some st → local (os_ReturnURL st)).
  { revert s1 Hrun. induction ls as [|l ls IH] using rev_ind; intros s1 H token st Hin.
    - injection H as <-. rewrite Hs in Hin. by rewrite lookup_empty in Hin.
    - apply p_run_snoc in H as (s0 & H0 & H1). destruct (states_step l s0 s1 token st H1 Hin) as [Hold|Hnew]; [by eapply IH|].
      destruct Hnew as (? & ? & ? & ? & ? & ? & ret & _ & _ & _ & _ & Hv & ->). by apply sanitize_local, validate_local. }
  unfold handleOAuthCallback. intros [= <-].
  destruct (Consume e (cq_state q) s1) as [[st|] sc] eqn:Hc.
  - assert (Hret : local (os_ReturnURL st)). { apply (Hl (cq_state q)). apply (consume_some e (cq_state q) s1 st). by rewrite Hc. }
    assert (Herr : ∀ code sx, ∃ rest, local rest ∧ last (sent (ps_server (redirectWithError (rg_externalURL r) (os_ReturnURL st) code sx))) =
      Some (Responded 302 (HRedirect (rg_externalURL r +:+ rest)))).
    { intros code sx. exists (error_url (os_ReturnURL st) code). split; [by apply local_error_url|apply redirect_last]. }
    destruct (String.eqb (cq_error q) "access_denied"); [apply Herr|]. destruct (findProvider r _) as [p|]; [|apply Herr].
    destruct (exchangeCode e p _ _) as [tr|]; [|apply Herr]. destruct (fetchUserProfile e p _) as [profile|]; [|apply Herr].
    unfold finish_callback. destruct (gitlab_taken _ _ _ _); [apply Herr|].
    destruct (cf_db _); [destruct (CreateOAuthConnection _ _ _ _); [|apply Herr]|]; (exists (os_ReturnURL st); split; [done|apply redirect_last]).
  - exists "/?error=csrf"%string. split; [by split|apply redirect_last].
Qed.

(** ** What becomes of the tokens *)

(** The tokens of connections are lost: since secrets moved to the controllers no
    token can be read back, so the repositories of a connection are never listed,
    whatever the provider would answer, no token is refreshed, and disconnecting
    revokes nothing. *)
Theorem stored_tokens_lost e method path userID q pg s :
  (∀ api, handleGetConnectionRepos {| pe_cp := pe_cp e; pe_state := pe_state e; pe_api := api |} method path userID q pg s = handleGetConnectionRepos e method path userID q pg s) ∧
  (∃ status msg, handleGetConnectionRepos e method path userID q pg s = p_error status msg s ∧ 400 ≤ status) ∧
  refreshExpiringGitLabTokens reg e s = Done s ∧
  (handleDeleteConnection reg e method path userID s).1 = [].
Proof.
  split_and!.
  - intros api. unfold handleGetConnectionRepos. cbn [pe_cp]. repeat case_match; try done; cbn in *; congruence.
  - unfold handleGetConnectionRepos. destruct (negb _); [by do 2 eexists|]. destruct (String.eqb userID ""); [by do 2 eexists|].
    destruct (negb _); [by do 2 eexists|]. destruct (lookup_row _ _); [|by do 2 eexists]. destruct (negb _); by do 2 eexists.
  - apply refresh_nothing.
  - apply delete_inv.
Qed.

(** ** Whose identities projects use *)

Record identities_owned (s : PServer) : Prop := {
  io_ids : NoDup (oc_ID <$> ps_conns s);
  io_named c : c ∈ ps_conns s → oc_ID c ≠ ""%string;
  io_owned p id : p ∈ projects (db (ps_server s)) → p_GitIdentityID p = Some id →
    ∃ c, c ∈ ps_conns s ∧ oc_ID c = id ∧ oc_UserID c = p_UserID p;
}.

Lemma owned_same s s' : ps_conns s' = ps_conns s → projects (db (ps_server s')) = projects (db (ps_server s)) → identities_owned s → identities_owned s'.
Proof. intros Hc Hp [H1 H2 H3]. split; rewrite ?Hc, ?Hp; done. Qed.

Lemma owned_created down c t l s s' :
  oc_ID c ≠ ""%string → CreateOAuthConnection down c t (ps_conns s) = Ok l → ps_conns s' = l → projects (db (ps_server s')) = projects (db (ps_server s)) →
  identities_owned s → identities_owned s'.
Proof.
  intros Hc Hcr Hl Hp [H1 H2 H3]. unfold CreateOAuthConnection in Hcr. destruct down; [done|].
  assert (Hids : NoDup (oc_ID <$> l) ∧ (∀ d, d ∈ l → oc_ID d ≠ ""%string) ∧ (∀ d, d ∈ ps_conns s → ∃ d', d' ∈ l ∧ oc_ID d' = oc_ID d ∧ oc_UserID d' = oc_UserID d)).
  { destruct (existsb _ _); [|destruct (memb _ _) eqn:Hm; [done|]; destruct (negb _); [done|]]; injection Hcr as <-.
    - unfold update_where. split_and!.
      + rewrite <- list_fmap_compose. erewrite list_fmap_ext; [exact H1|]. intros i d _. unfold compose. by destruct (same_account c d).
      + intros d (d0 & -> & Hd)%list_elem_of_fmap. destruct (same_account c d0); [cbn|]; by apply H2.
      + intros d Hd. eexists. split; [by apply list_elem_of_fmap_2|]. by destruct (same_account c d).
    - split_and!.
      + rewrite fmap_app. apply NoDup_app. split; [done|]. split; [|by apply NoDup_singleton]. intros x Hx ->%list_elem_of_singleton.
        apply memb_spec in Hx. cbn in Hx. congruence.
      + intros d [Hd| ->%list_elem_of_singleton]%elem_of_app; [by apply H2|done].
      + intros d Hd. exists d. split; [apply elem_of_app; by left|done]. }
  destruct Hids as (N1 & N2 & N3). split; rewrite ?Hl, ?Hp; try done. intros p id Hin Hid. destruct (H3 p id Hin Hid) as (d & Hd & E1 & E2).
  destruct (N3 d Hd) as (d' & Hd' & F1 & F2). exists d'. split; [done|]. split; congruence.
Qed.

Lemma clear_identity_elem id t p : p ∈ projects (clear_identity id t) →
  ∃ q, q ∈ projects t ∧ p_UserID p = p_UserID q ∧ p_ID p = p_ID q ∧
    (p_GitIdentityID p = None ∨ p = q) ∧ p_GitIdentityID p ≠ Some id.
Proof.
  unfold clear_identity, update_where. cbn. intros (q & -> & Hq)%list_elem_of_fmap. exists q. split; [done|].
  destruct (p_GitIdentityID q) as [i|] eqn:E; [destruct (String.eqb_spec i id)|]; cbn; split_and!; try done; auto; rewrite E; congruence.
Qed.

Lemma owned_deleted id s s' :
  ps_conns s' = delete_where (λ c, String.eqb (oc_ID c) id) (ps_conns s) → projects (db (ps_server s')) = projects (clear_identity id (db (ps_server s))) →
  identities_owned s → identities_owned s'.
Proof.
  intros Hc Hp [H1 H2 H3]. split; rewrite ?Hc.
  - eapply sublist_NoDup; [exact H1|]. apply fmap_sublist, delete_where_sublist.
  - intros c [Hin _]%delete_where_elem. by apply H2.
  - rewrite Hp. intros p i Hin Hi. apply clear_identity_elem in Hin as (q & Hq & Hu & _ & [Hn| ->] & Hne); [congruence|].
    destruct (H3 q i Hq Hi) as (c & Hcin & E1 & E2). exists c. split; [|done]. apply delete_where_elem. split; [done|]. apply String.eqb_neq. congruence.
Qed.

Lemma owned_delete_conn id down s : identities_owned s → identities_owned (DeleteOAuthConnection down id s).2.
Proof.
  intros H. unfold DeleteOAuthConnection. destruct down; [done|]. destruct (memb _ _); [|done]. by apply (owned_deleted id s).
Qed.

(** The identity that the checks let pass. *)
Lemma identity_passes l e uid url i id :
  (∀ c, c ∈ l → oc_ID c ≠ ""%string) → identity_error (with_connections l e) uid url i = None → identity_known (with_connections l e) i = true → i = Some id →
  ∃ c, c ∈ l ∧ oc_ID c = id ∧ oc_UserID c = uid.
Proof.
  intros Hn He Hk ->. unfold identity_known in Hk. cbn in Hk. destruct (GetOAuthConnectionByID id l) as [c|] eqn:Hc; [|done].
  pose proof Hc as Hf. apply find_first_Some in Hf as [Hin Hid%String.eqb_eq]. exists c. split; [done|]. split; [done|].
  unfold identity_error in He. destruct (String.eqb_spec id ""); [specialize (Hn c Hin); congruence|].
  unfold lookup_row in He. destruct (ce_down _ _); [done|]. cbn in He. rewrite Hc in He. cbn in He. by destruct (String.eqb_spec (oc_UserID c) uid).
Qed.

Lemma patch_db e method path body u v :
  let v' := handlePatchProject e method path body u v in
  db v' = db v ∨ ∃ p identity, p ∈ projects (db v) ∧ p_UserID p = u ∧ identity_error e u (p_GitURL p) identity = None ∧ identity_known e identity = true ∧
    db v' = UpdateProjectGitIdentity (p_ID p) identity (db v) ∧ tables_ok (db v') = true.
Proof.
  cbv zeta. unfold handlePatchProject. destruct (negb _); [by left|]. destruct (String.eqb u ""); [by left|]. destruct (String.eqb _ ""); [by left|].
  destruct (decode_body _ _ _) as [identity|]; [|by left]. destruct (negb _); [by left|].
  destruct (lookup_row _ (GetProjectByID _ _)) as [[p hs]|] eqn:Hp; [|by left]. destruct (String.eqb_spec (p_UserID p) u) as [Hu|]; [|by left]. cbn [negb].
  destruct (identity_error _ _ _ _) as [[]|] eqn:He; [by left..|]. destruct (identity_known e identity) eqn:Hk; [|by left].
  destruct (Exec _ _ _) as [t|err] eqn:Hx; [|by left]. apply Exec_Ok in Hx as [-> Hok].
  apply lookup_row_Some, first_row_in, list_elem_of_fmap in Hp as (r & Hr & [Hrin Hrid%String.eqb_eq]%select_elem). unfold join_host in Hr. injection Hr as <- _.
  right. exists p, identity. do 4 (split; [done|]). rewrite Hrid.
  match goal with |- db (http_json _ _ ?x) = _ ∧ _ => assert (Hdb : db x = UpdateProjectGitIdentity (TrimPrefix path "/api/projects/") identity (db v)) end.
  { cbn [config set_db]. destruct (cf_nc (config v)); [|done]. destruct (lookup_row _ _) as [[q h]|]; [|done]. destruct (lookup_row _ _) as [us|]; [|done].
    rewrite publishProjectsUpdated_db, (proj1 (updateToHost_data _ _ _)), writeProjectKV_db. done. }
  cbn [http_json db send]. by rewrite Hdb.
Qed.


Lemma create_identity_db e msg us hs v :
  let v' := handleProjectCreate e msg us hs v in
  db v' = db v ∨ ∃ p (f : Project → Project) url, projects (db v') = f <$> (projects (db v) ++ [p]) ∧
    (∀ x, p_UserID (f x) = p_UserID x ∧ p_GitIdentityID (f x) = p_GitIdentityID x) ∧
    identity_error e (p_UserID p) url (p_GitIdentityID p) = None ∧ identity_known e (p_GitIdentityID p) = true.
Proof.
  cbv zeta. unfold handleProjectCreate. destruct (negb (cf_db _)); [left; by rewrite replyError_db|].
  destruct (ce_down e "GetUserBySlug"); [left; by rewrite replyError_db|].
  destruct (GetUserBySlug us (db v)) as [u|]; [|left; by rewrite replyError_db].
  destruct (unmarshal _ _ _) as [req|]; [|left; by rewrite replyError_db].
  destruct (String.eqb (pc_Name req) ""); [left; by rewrite replyError_db|].
  destruct (identity_error _ _ _ _) as [[]|] eqn:Hi; [left; by rewrite replyError_db..|].
  destruct (create_project _ _ _ _) as [[p t]|] eqn:Hc; [|left; by rewrite replyError_db].
  right. exists p. pose proof (provision_project_spec e msg (u_ID u) us (asked_host hs req) p req (set_db t v)) as [Hdb _].
  unfold create_project, CreateProjectWithIdentity in Hc. destruct (default_host _ _ _ _) as [hid|]; [|done].
  destruct (Exec _ _ _) as [t1|] eqn:Hx; [|done]. destruct (identity_known e _) eqn:Hk; [|done]. injection Hc as <- <-. apply Exec_Ok in Hx as [-> _].
  unfold asked_host in Hdb. cbn [db set_db] in Hdb. destruct Hdb as [Hdb|[Hdb _]].
  - exists id, (pc_GitURL req). rewrite Hdb. cbn [projects set_projects]. by rewrite list_fmap_id.
  - exists (λ x, if String.eqb (p_ID x) (ce_uuid e "project") then set_status "failed" x else x), (pc_GitURL req). rewrite Hdb. unfold UpdateProjectStatus, update_where. cbn [projects set_projects]. split; [reflexivity|]. split; [|done].
    intros x. cbv beta. by destruct (String.eqb (p_ID x) _).
Qed.

(** Below /api/users/, only the creation of a project adds one, and none is changed. *)
Lemma host_routes_projects e method path body u v p :
  p ∈ projects (db (handleHostRoutes e method path body u v)) → p ∈ projects (db v).
Proof.
  unfold handleHostRoutes. cbv zeta. destruct (_ || _); [done|]. destruct (String.eqb u ""); [done|].
  destruct (_ && _); [destruct (_ && _); [|destruct (_ && _); [|done]]|destruct (_ && _); [|destruct (_ && _); [|destruct (_ && _); [|destruct (_ && _); [|done]]]]].
  - unfold handleHostCodeCreate. by repeat case_match.
  - unfold handleHostCodeStatus. by repeat case_match.
  - unfold handleCreateHost. destruct (negb _); [done|]. destruct (decode_body _ _ _) as [req|]; [|done]. destruct (_ || _); [done|].
    destruct (lookup_row _ _) as [w|]; [|done]. destruct (host_token _ _ _ _) as [j|]; [|done].
    destruct (Exec _ _ _) as [t|err] eqn:Hx; [|by destruct (is_unique_error err)]. by apply Exec_Ok in Hx as [-> _].
  - unfold handleUpdateHost. destruct (negb _); [done|]. destruct (decode_body _ _ _) as [nm|]; [|done]. destruct (String.eqb nm ""); [done|].
    destruct (Exec _ _ _) as [t|err] eqn:Hx; [|done]. apply Exec_Ok in Hx as [-> _]. by destruct (_ =? _)%nat.
  - unfold handleDeleteHost. destruct (negb _); [done|]. cbv zeta.
    match goal with |- context [if cf_nc _ || cf_s3 _ then ?x else v] => set (s1 := if cf_nc (config v) || cf_s3 (config v) then x else v) end.
    assert (H1 : db s1 = db v).
    { unfold s1. destruct (_ || _); [|done]. destruct (lookup_row _ _); [|done]. by rewrite publishProjectsUpdated_db, fold_drain_db. }
    rewrite H1. destruct (Exec _ _ _) as [t|err] eqn:Hx; [|cbn; by rewrite H1]. apply Exec_Ok in Hx as [-> _].
    destruct (_ =? _)%nat; by intros [? _]%delete_where_elem.
  - unfold handleListHosts. by repeat case_match.
Qed.

(** The request that creates a project over HTTP. *)
Definition http_creation (method path : string) : Prop :=
  method = "POST"%string ∧ part 1 (SplitN 4 (TrimPrefix path "/api/users/")) = "projects"%string.

Lemma user_api_projects e method path body u v p : ¬ http_creation method path →
  p ∈ projects (db (handleUserAPIRoutes e method path body u v)) → p ∈ projects (db v).
Proof.
  intros Hn. unfold handleUserAPIRoutes. cbv zeta. destruct (_ <? _)%nat; [done|]. destruct (String.eqb _ "hosts"); [apply host_routes_projects|].
  destruct (String.eqb_spec (part 1 (SplitN 4 (TrimPrefix path "/api/users/"))) "projects") as [Hp|]; [|done].
  unfold handleProjectHTTPRoutes. cbv zeta. rewrite Hp. destruct (_ || _); [done|]. destruct (String.eqb u ""); [done|].
  destruct (_ && _); [|destruct (String.eqb_spec method "POST") as [->|]; [by destruct Hn|cbn [andb]; destruct (_ && _); [|destruct (_ && _); [|done]]]].
  - unfold handleListProjectsHTTP. by repeat case_match.
  - unfold handleGetProjectHTTP. by repeat case_match.
  - unfold handleDeleteProjectHTTP. destruct (negb _); [done|]. destruct (lookup_row _ _) as [[q hs]|]; [|done]. cbv zeta.
    set (us := if cf_nc (config v) || cf_s3 (config v) then _ else _).
    match goal with |- context [if ?b then publishProjectsDeleteToHost ?a ?b' ?c ?d v else v] => set (s1 := if b then publishProjectsDeleteToHost a b' c d v else v) end.
    assert (H1 : db s1 = db v) by (unfold s1, publishProjectsDeleteToHost; by repeat case_match).
    rewrite H1. destruct (Exec _ _ _) as [t|err] eqn:Hx; [|cbn; by rewrite H1]. apply Exec_Ok in Hx as [-> _].
    set (t' := delete_projects _ _). assert (Hsub : p ∈ projects t' → p ∈ projects (db v)) by by intros [? _]%delete_where_elem.
    destruct (_ =? _)%nat; [exact Hsub|]. cbn [http_json db send].
    match goal with |- p ∈ projects (db ?x) → _ => assert (Hx : db x = t') by (unfold publishProjectsUpdated; by repeat case_match) end. by rewrite Hx.
Qed.

(** Steps other than the creation of a project over HTTP, with identifiers of new
    connections that are not empty. *)
Definition label_ok (l : p_label) : Prop :=
  ce_uuid (pe_cp (label_env l)) "connection" ≠ ""%string ∧ match l with LUserAPI _ method path _ _ => ¬ http_creation method path | _ => True end.

Lemma owned_step l s s' : label_ok l → identities_owned s → p_exec l s = Done s' → identities_owned s'.
Proof.
  intros [Hl Hpost] Hs. destruct l as [e m path body u q pg|e m path body u|e path q|e|e|e|e msg us hs]; cbn [p_exec label_env] in *.
  - intros [= <-]. destruct (routes_inv e m path body u q pg s) as [H|[H|[H|[H|H]]]].
    + apply (owned_same s); [apply H|by rewrite (sd_db _ _ H)|done].
    + destruct H as (? & ? & ? & _ & _ & _ & Hc & Hd & _). apply (owned_same s); [done|by rewrite Hd|done].
    + destruct H as (_ & req & pt & pr & l & _ & _ & Hc & Hl' & _ & Hd). eapply (owned_created _ _ _ _ s); [|exact Hc|exact Hl'|by rewrite Hd|done]. done.
    + destruct H as (_ & id & _ & Hc & _ & Hd). apply (owned_deleted id s); [done|by rewrite Hd|done].
    + rewrite H. destruct (patch_db (with_connections (ps_conns s) (pe_cp e)) m path body u (ps_server s)) as [Hd|(p & i & Hin & Hu & He & Hk & Hd & Hok)];
        [apply (owned_same s); [done|by cbn; rewrite Hd|done]|].
      destruct Hs as [H1 H2 H3]. split; [done|done|]. cbn [on_server ps_server ps_conns set_ps_server]. intros x id. rewrite Hd.
      unfold UpdateProjectGitIdentity, update_where. cbn [projects set_projects]. intros (y & -> & Hy)%list_elem_of_fmap.
      destruct (String.eqb_spec (p_ID y) (p_ID p)) as [Eid|]; [|by apply H3]. cbn. intros Hi.
      assert (y = p) as ->.
      { apply (unique_key p_ID (projects (db (ps_server s)))); [|done..]. rewrite Hd in Hok. unfold tables_ok, unique_ok in Hok. rewrite !andb_true_iff, !uniqueb_NoDup in Hok.
        unfold UpdateProjectGitIdentity, update_where in Hok. cbn [projects set_projects] in Hok. split_and_all.
        match goal with H : NoDup (p_ID <$> (_ <$> _)) |- _ => rewrite <- list_fmap_compose in H; erewrite list_fmap_ext in H; [exact H|] end.
        intros j z _. unfold compose. by destruct (String.eqb _ _). }
      rewrite Hu. by eapply identity_passes.
  - intros [= <-]. destruct Hs as [H1 H2 H3]. split; [done|done|]. intros p id Hp. exact (H3 p id (user_api_projects _ _ _ _ _ _ _ Hpost Hp)).
  - intros He. destruct reg as [r|] eqn:Hr; [|done]. rewrite <- Hr in He. pose proof (consume_data e (cq_state q) s) as [C1 C2].
    destruct (callback_inv r e path q s s' Hr He) as [H|H].
    + apply (owned_same s); [by rewrite (sd_conns _ _ H)|by rewrite (sd_db _ _ H), C2|done].
    + destruct H as (st1 & p & tr & pr & l & _ & _ & _ & _ & _ & Hc & Hl' & _ & Hd). eapply (owned_created _ _ _ _ s); [|exact Hc|exact Hl'|by rewrite Hd|done]. done.
  - rewrite refresh_nothing. by intros [= <-].
  - intros [= <-]. by apply (owned_same s).
  - intros [= <-]. apply orphans_invariant; [|done]. intros. by apply owned_delete_conn.
  - intros [= <-]. destruct (create_identity_db (with_connections (ps_conns s) (pe_cp e)) msg us hs (ps_server s)) as [Hd|(p & f & url & Hd & Hf & He & Hk)];
      [apply (owned_same s); [done|by cbn; rewrite Hd|done]|].
    destruct Hs as [H1 H2 H3]. split; [done|done|]. cbn [on_server ps_server ps_conns set_ps_server]. intros x id. rewrite Hd.
    intros (y & -> & [Hy| ->%list_elem_of_singleton]%elem_of_app)%list_elem_of_fmap; destruct (Hf y) as [-> ->] || destruct (Hf p) as [-> ->]; [by apply H3|].
    intros Hi. by eapply identity_passes.
Qed.

(** Projects use identities of their own user only: an invariant of every step but
    the creation of a project over HTTP, deletions of connections that are in use
    included. *)
Theorem identities_stay_owned ls s s' :
  Forall label_ok ls → identities_owned s → p_run ls s = Done s' → identities_owned s'.
Proof. apply (p_run_invariant identities_owned label_ok). intros. by eapply owned_step. Qed.

(** The creation of a project over HTTP does not look whose connection the identity
    is: whatever connection the request names, the project has it. *)
Theorem created_identity_unchecked e u v req p t body path :
  part 1 (SplitN 4 (TrimPrefix path "/api/users/")) = "projects"%string → length (SplitN 4 (TrimPrefix path "/api/users/")) = 2%nat →
  u ≠ ""%string → cf_db (config v) = true →
  decode_body (dec_struct ProjectCreateRequest_fields) zero_ProjectCreateRequest body = Some req → pc_Name req ≠ ""%string →
  create_project e u req (db v) = Ok (p, t) →
  db (handleUserAPIRoutes e "POST" path body u v) = t ∧ p ∈ projects t ∧ p_GitIdentityID p = pc_GitIdentityID req ∧ p_UserID p = u.
Proof.
  intros Hpath Hlen Hu%String.eqb_neq Hdb Hbody Hname%String.eqb_neq Hc.
  unfold handleUserAPIRoutes, handleProjectHTTPRoutes. cbv zeta. rewrite Hlen, Hpath, Hu. cbn -[handleCreateProjectHTTP].
  assert (Hc' := Hc). unfold create_project, CreateProjectWithIdentity in Hc. destruct (default_host _ _ _ _) as [hid|]; [|done].
  destruct (Exec _ _ _) as [t1|] eqn:Hx; [|done]. destruct (identity_known e _); [|done]. injection Hc as <- <-. apply Exec_Ok in Hx as [-> _].
  split; [|split; [apply elem_of_app; right; by left|done]].
  unfold handleCreateProjectHTTP. rewrite Hdb, Hbody, Hname, Hc'. cbv zeta. cbn [negb http_json db send].
  destruct (_ && _); [|done]. by rewrite publishProjectsUpdated_db, provision_db, writeProjectKV_db.
Qed.

(** ** Disconnecting *)

(** Disconnecting is exact: for its owner the connection goes, every project that
    used it loses its identity, and nothing else of the tables changes; for anyone
    else there is no such connection. *)
Theorem disconnect_exact e id userID s c :
  cf_db (config (ps_server s)) = true → (∀ call, ce_down (pe_cp e) call = false) → userID ≠ ""%string → id ≠ ""%string → HasSuffix id "/repos" = false →
  NoDup (oc_ID <$> ps_conns s) → c ∈ ps_conns s → oc_ID c = id →
  let s' := (handleDeleteConnection reg e "DELETE" ("/api/connections/" +:+ id) userID s).2 in
  (oc_UserID c ≠ userID → s' = p_error 404 "not found" s) ∧
  (oc_UserID c = userID →
    (∀ d, d ∈ ps_conns s' ↔ d ∈ ps_conns s ∧ d ≠ c) ∧
    (∀ p, p ∈ projects (db (ps_server s')) → p_GitIdentityID p ≠ Some id) ∧
    (∀ p, p ∈ projects (db (ps_server s)) → p_GitIdentityID p ≠ Some id → p ∈ projects (db (ps_server s'))) ∧
    db (ps_server s') = clear_identity id (db (ps_server s)) ∧ ps_states s' = ps_states s).
Proof.
  intros Hdb Hup Hu Hid Hsuf Hnd Hc Hcid. cbv zeta.
  assert (Hget : GetOAuthConnectionByID id (ps_conns s) = Some c).
  { unfold GetOAuthConnectionByID. destruct (find_first _ _) as [d|] eqn:Hf.
    - apply find_first_Some in Hf as [Hd Hdid%String.eqb_eq]. f_equal. apply (unique_key oc_ID (ps_conns s)); [done|done|done|congruence].
    - apply find_first_None with (x := c) in Hf; [|done]. by rewrite Hcid, String.eqb_refl in Hf. }
  assert (Hpath : TrimSuffix (TrimPrefix ("/api/connections/" +:+ id) "/api/connections/") "/repos" = id).
  { rewrite TrimPrefix_app. unfold TrimSuffix. by rewrite Hsuf. }
  unfold handleDeleteConnection. rewrite String.eqb_refl. cbn [negb]. rewrite Hpath, (proj2 (String.eqb_neq _ _) Hu), (proj2 (String.eqb_neq _ _) Hid), Hdb. cbn [negb].
  rewrite !Hup, Hget. cbn [lookup_row]. split; intros Huser.
  - rewrite (proj2 (String.eqb_neq _ _) Huser). done.
  - rewrite (proj2 (String.eqb_eq _ _) Huser). cbn [negb]. unfold removeSecretKeys, reconcileUserCLIConfig, DeleteOAuthConnection.
    rewrite (proj2 (memb_spec _ _)); [|apply list_elem_of_fmap; by exists c].
    set (s2 := set_ps_conns _ _). destruct (same_rewrite e userID s2) as [R1 R2 R3 _]. destruct (same_notify e userID (rewrite_projects e userID s2)) as [N1 N2 N3 _].
    unfold on_server, http_json, set_ps_server in *. cbn [snd ps_conns ps_states ps_server db send] in *. rewrite N1, N2, N3, R1, R2, R3. cbn. split_and!; try done.
    + intros d. rewrite delete_where_elem. split; intros [Hd Hne]; (split; [done|]).
      * intros ->. by rewrite Hcid, String.eqb_refl in Hne.
      * apply String.eqb_neq. intros Hdid. apply Hne. apply (unique_key oc_ID (ps_conns s)); [done|done|done|congruence].
    + intros p Hp. by apply clear_identity_elem in Hp as (q & _ & _ & _ & _ & Hq).
    + intros p Hp Hne. unfold clear_identity, update_where. cbn. apply list_elem_of_fmap. exists p. split; [|done].
      destruct (p_GitIdentityID p) as [i|] eqn:E; [|done]. destruct (String.eqb_spec i id); [by subst|done].
Qed.

End spec.

(** ** Witnesses *)

#[local] Existing Instances demo_pg demo_text demo_tables demo_norm demo_urls.

Module ProviderDemo.

(** The bodies of users and providers. *)
Definition bodies : list (string * json) := [
  ("connect", JObj [("returnUrl", JStr "/settings?connected=true")]);
  ("pat", JObj [("baseUrl", JStr "https://ghe.corp"); ("token", JStr "T9")]);
  ("token", JObj [("access_token", JStr "T1"); ("expires_in", JInt 7200)]);
  ("profile", JObj [("id", JStr "583231"); ("login", JStr "octo")])]%string.
#[export] Instance stream : JsonStream := {| json_first s := snd <$> find_first (λ kv, String.eqb kv.1 s) bodies |}.
#[export] Instance refs : UrlRefs := {| url_raw_query u := Some ""%string; url_with_query u q := u; parse_query q := ∅;
  sprint_value j := match j with Some (JStr s) => s | _ => "<nil>"%string end |}.

Definition github : ProviderConfig := {| pv_ID := "github"; pv_Type := "github"; pv_DisplayName := "GitHub"; pv_BaseURL := "https://github.com"; pv_APIURL := "https://api.github.com";
  pv_ClientID := "client"; pv_ClientSecret := "secret"; pv_Scopes := "repo" |}.
Definition gitlab : ProviderConfig := {| pv_ID := "gitlab"; pv_Type := "gitlab"; pv_DisplayName := "GitLab"; pv_BaseURL := "https://gitlab.com"; pv_APIURL := "";
  pv_ClientID := "client"; pv_ClientSecret := "secret"; pv_Scopes := "api" |}.
Definition registry : providerRegistry := {| rg_providers := [github; gitlab]; rg_externalURL := "https://mclaude.internal" |}.

(** A provider that accepts everything, at a given second. *)
Definition penv (t : Z) : p_env := {| pe_cp := env_at t; pe_state := Some "S1"%string;
  pe_api r := Some {| as_Status := 200; as_Body := (if String.eqb (aq_Method r) "POST" then "token" else "profile")%string; as_NextPage := "" |} |}.

Definition fresh_server : PServer := {| ps_server := server; ps_conns := []; ps_oauthIDs := ∅; ps_states := ∅ |}.
Definition connect : p_label := LRoute (penv 100) "POST" "/api/providers/github/connect" "connect" "id-alice" "" "".
Definition came_back : callback_query := {| cq_error := ""; cq_code := "code"; cq_state := "S1" |}.
Definition back : p_label := LCallback (penv 160) "/auth/providers/github/callback" came_back.

(** The state after a run that does not panic. *)
Definition done_or_start (o : outcome PServer) : PServer := match o with Done s => s | Panicked => fresh_server end.
Definition pending : PServer := Eval vm_compute in done_or_start (p_run (Some registry) [connect] fresh_server).
Definition connected : PServer := Eval vm_compute in done_or_start (p_run (Some registry) [connect; back] fresh_server).
Definition octo : OAuthConnection := {| oc_ID := "uuid-connection"; oc_UserID := "id-alice"; oc_ProviderID := "github"; oc_ProviderType := "github"; oc_AuthType := "oauth";
  oc_BaseURL := "https://github.com"; oc_DisplayName := "GitHub"; oc_ProviderUserID := "583231"; oc_Username := "octo"; oc_Scopes := "repo";
  oc_TokenExpiresAt := Some ((160 + 7200) * Second); oc_ConnectedAt := 160 * Second |}.
End ProviderDemo.
Import ProviderDemo.

Lemma connection_sound_witness :
  p_run (Some registry) [connect; back] fresh_server = Done connected ∧ ps_conns connected = [octo] ∧
  ∃ before l after, [connect; back] = before ++ l :: after ∧ (by_token l octo ∨ by_flow (Some registry) (λ l0, l0 ∈ before) l octo).
Proof.
  assert (E : p_run (Some registry) [connect; back] fresh_server = Done connected) by (vm_compute; reflexivity).
  assert (C : ps_conns connected = [octo]) by (vm_compute; reflexivity).
  split; [exact E|]. split; [exact C|]. apply (connection_sound (Some registry) [connect; back] fresh_server connected octo); [reflexivity|reflexivity|exact E|].
  rewrite C. left.
Defined.

Lemma provider_not_compared_witness :
  ∃ st, ps_states pending !! "S1"%string = Some st ∧ os_ProviderID st = "github"%string ∧
  let s2 := set_ps_states (<[ "S1"%string := other_provider "gitlab" st ]> (ps_states pending)) pending in
  handleOAuthCallback (Some registry) (penv 160) "/auth/providers/github/callback" came_back s2 =
  handleOAuthCallback (Some registry) (penv 160) "/auth/providers/github/callback" came_back pending.
Proof.
  eexists. split; [vm_compute; reflexivity|]. split; [reflexivity|].
  apply (provider_not_compared registry (penv 160) "/auth/providers/github/callback" came_back pending). vm_compute. reflexivity.
Defined.

Lemma redirects_local_witness :
  ∃ rest, local rest ∧ last (sent (ps_server connected)) = Some (Responded 302 (HRedirect ("https://mclaude.internal" +:+ rest))).
Proof.
  apply (redirects_local (Some registry) registry [connect] fresh_server pending (penv 160) "/auth/providers/github/callback" came_back connected).
  - intros u q Hu. exact Hu.
  - reflexivity.
  - vm_compute. reflexivity.
  - vm_compute. reflexivity.
Defined.

Lemma identities_stay_owned_witness : identities_owned fresh_server ∧ identities_owned connected.
Proof.
  assert (H0 : identities_owned fresh_server).
  { split; [constructor|intros c Hc; by apply elem_of_nil in Hc|].
    assert (Hn : Forall (λ p, p_GitIdentityID p = None) (projects tables)) by (repeat constructor).
    intros p id Hp Hi. rewrite Forall_forall in Hn. rewrite (Hn p Hp) in Hi. discriminate. }
  split; [exact H0|]. apply (identities_stay_owned (Some registry) [connect; back] fresh_server connected); [|exact H0|vm_compute; reflexivity].
  repeat constructor; try discriminate; intros [[=] _].
Defined.

Lemma disconnect_exact_witness :
  let s' := (handleDeleteConnection (Some registry) (penv 200) "DELETE" "/api/connections/uuid-connection" "id-alice" connected).2 in
  (∀ p, p ∈ projects (db (ps_server s')) → p_GitIdentityID p ≠ Some "uuid-connection"%string) ∧ db (ps_server s') = clear_identity "uuid-connection" (db (ps_server connected)).
Proof.
  intros s'. destruct (disconnect_exact (Some registry) (penv 200) "uuid-connection" "id-alice" connected octo) as [_ H].
  - reflexivity.
  - reflexivity.
  - discriminate.
  - discriminate.
  - vm_compute. reflexivity.
  - vm_compute. repeat constructor. intros H. inversion H.
  - left.
  - reflexivity.
  - destruct (H eq_refl) as (_ & H2 & _ & H4 & _). split; [exact H2|exact H4].
Defined.
