(* ===== verification/Admin.v ===== *)
(** * Administration (mclaude-control-plane: admin.go, scim.go)

    The administrators' port: users, clusters and the break-glass stop of a
    session, and the provisioning of users by an identity provider (SCIM).  All
    of it is behind one static bearer token. *)

From stdpp Require Import sorting.
From S2P Require Import Prelude GoStrings Slug Subjects Json Permissions Database ControlServer Challenge HostLifecycle HostApi Accounts.
Open Scope Z_scope.

(** [bcrypt.GenerateFromPassword] with the salt it draws: an error for passwords
    over 72 bytes. *)
Class BcryptHash := { bcrypt_hash : string → option string }.

(** [AdminUserRequest], [AdminSessionStopRequest], [AdminClusterRegisterRequest]. *)
Record AdminUserRequest := { au_ID : string; au_Email : string; au_Name : string; au_Password : string; au_IsAdmin : bool }.
Definition zero_AdminUserRequest : AdminUserRequest := {| au_ID := ""; au_Email := ""; au_Name := ""; au_Password := ""; au_IsAdmin := false |}.
Definition AdminUserRequest_fields : list (field AdminUserRequest) :=
  [ fld "id" dec_string au_ID (λ v r, {| au_ID := v; au_Email := au_Email r; au_Name := au_Name r; au_Password := au_Password r; au_IsAdmin := au_IsAdmin r |});
    fld "email" dec_string au_Email (λ v r, {| au_ID := au_ID r; au_Email := v; au_Name := au_Name r; au_Password := au_Password r; au_IsAdmin := au_IsAdmin r |});
    fld "name" dec_string au_Name (λ v r, {| au_ID := au_ID r; au_Email := au_Email r; au_Name := v; au_Password := au_Password r; au_IsAdmin := au_IsAdmin r |});
    fld "password" dec_string au_Password (λ v r, {| au_ID := au_ID r; au_Email := au_Email r; au_Name := au_Name r; au_Password := v; au_IsAdmin := au_IsAdmin r |});
    fld "isAdmin" dec_bool au_IsAdmin (λ v r, {| au_ID := au_ID r; au_Email := au_Email r; au_Name := au_Name r; au_Password := au_Password r; au_IsAdmin := v |}) ].

Record AdminSessionStopRequest := { ss_UserID : string; ss_ProjectID : string; ss_SessionID : string }.
Definition AdminSessionStopRequest_fields : list (field AdminSessionStopRequest) :=
  [ fld "userId" dec_string ss_UserID (λ v r, {| ss_UserID := v; ss_ProjectID := ss_ProjectID r; ss_SessionID := ss_SessionID r |});
    fld "projectId" dec_string ss_ProjectID (λ v r, {| ss_UserID := ss_UserID r; ss_ProjectID := v; ss_SessionID := ss_SessionID r |});
    fld "sessionId" dec_string ss_SessionID (λ v r, {| ss_UserID := ss_UserID r; ss_ProjectID := ss_ProjectID r; ss_SessionID := v |}) ].

Record AdminClusterRegisterRequest := { cr_Slug : string; cr_Name : string; cr_DirectNATSURL : string; cr_UserSlug : string }.
Definition AdminClusterRegisterRequest_fields : list (field AdminClusterRegisterRequest) :=
  [ fld "slug" dec_string cr_Slug (λ v r, {| cr_Slug := v; cr_Name := cr_Name r; cr_DirectNATSURL := cr_DirectNATSURL r; cr_UserSlug := cr_UserSlug r |});
    fld "name" dec_string cr_Name (λ v r, {| cr_Slug := cr_Slug r; cr_Name := v; cr_DirectNATSURL := cr_DirectNATSURL r; cr_UserSlug := cr_UserSlug r |});
    fld "directNatsUrl" dec_string cr_DirectNATSURL (λ v r, {| cr_Slug := cr_Slug r; cr_Name := cr_Name r; cr_DirectNATSURL := v; cr_UserSlug := cr_UserSlug r |});
    fld "userSlug" dec_string cr_UserSlug (λ v r, {| cr_Slug := cr_Slug r; cr_Name := cr_Name r; cr_DirectNATSURL := cr_DirectNATSURL r; cr_UserSlug := v |}) ].

(** ** SCIM resources *)

Record SCIMName := { sn_Formatted : string; sn_GivenName : string; sn_FamilyName : string }.
Definition zero_SCIMName : SCIMName := {| sn_Formatted := ""; sn_GivenName := ""; sn_FamilyName := "" |}.
Definition SCIMName_fields : list (field SCIMName) :=
  [ fld "formatted" dec_string sn_Formatted (λ v r, {| sn_Formatted := v; sn_GivenName := sn_GivenName r; sn_FamilyName := sn_FamilyName r |});
    fld "givenName" dec_string sn_GivenName (λ v r, {| sn_Formatted := sn_Formatted r; sn_GivenName := v; sn_FamilyName := sn_FamilyName r |});
    fld "familyName" dec_string sn_FamilyName (λ v r, {| sn_Formatted := sn_Formatted r; sn_GivenName := sn_GivenName r; sn_FamilyName := v |}) ].

Record SCIMEmail := { se_Value : string; se_Primary : bool; se_Type : string }.
Definition zero_SCIMEmail : SCIMEmail := {| se_Value := ""; se_Primary := false; se_Type := "" |}.
Definition SCIMEmail_fields : list (field SCIMEmail) :=
  [ fld "value" dec_string se_Value (λ v r, {| se_Value := v; se_Primary := se_Primary r; se_Type := se_Type r |});
    fld "primary" dec_bool se_Primary (λ v r, {| se_Value := se_Value r; se_Primary := v; se_Type := se_Type r |});
    fld "type" dec_string se_Type (λ v r, {| se_Value := se_Value r; se_Primary := se_Primary r; se_Type := v |}) ].

Record SCIMMeta := { sm_ResourceType : string; sm_Location : string }.
Definition zero_SCIMMeta : SCIMMeta := {| sm_ResourceType := ""; sm_Location := "" |}.
Definition SCIMMeta_fields : list (field SCIMMeta) :=
  [ fld "resourceType" dec_string sm_ResourceType (λ v r, {| sm_ResourceType := v; sm_Location := sm_Location r |});
    fld "location" dec_string sm_Location (λ v r, {| sm_ResourceType := sm_ResourceType r; sm_Location := v |}) ].

Record SCIMUser := {
  su_Schemas : list string; su_ID : string; su_UserName : string; su_Name : option SCIMName; su_Emails : list SCIMEmail;
  su_Active : bool; su_Meta : option SCIMMeta;
}.
Definition zero_SCIMUser : SCIMUser :=
  {| su_Schemas := []; su_ID := ""; su_UserName := ""; su_Name := None; su_Emails := []; su_Active := false; su_Meta := None |}.
Definition SCIMUser_fields : list (field SCIMUser) :=
  [ fld "schemas" (dec_slice ""%string dec_string) su_Schemas (λ v r, {| su_Schemas := v; su_ID := su_ID r; su_UserName := su_UserName r; su_Name := su_Name r; su_Emails := su_Emails r; su_Active := su_Active r; su_Meta := su_Meta r |});
    fld "id" dec_string su_ID (λ v r, {| su_Schemas := su_Schemas r; su_ID := v; su_UserName := su_UserName r; su_Name := su_Name r; su_Emails := su_Emails r; su_Active := su_Active r; su_Meta := su_Meta r |});
    fld "userName" dec_string su_UserName (λ v r, {| su_Schemas := su_Schemas r; su_ID := su_ID r; su_UserName := v; su_Name := su_Name r; su_Emails := su_Emails r; su_Active := su_Active r; su_Meta := su_Meta r |});
    fld "name" (dec_pointer zero_SCIMName (dec_struct SCIMName_fields)) su_Name (λ v r, {| su_Schemas := su_Schemas r; su_ID := su_ID r; su_UserName := su_UserName r; su_Name := v; su_Emails := su_Emails r; su_Active := su_Active r; su_Meta := su_Meta r |});
    fld "emails" (dec_slice zero_SCIMEmail (dec_struct SCIMEmail_fields)) su_Emails (λ v r, {| su_Schemas := su_Schemas r; su_ID := su_ID r; su_UserName := su_UserName r; su_Name := su_Name r; su_Emails := v; su_Active := su_Active r; su_Meta := su_Meta r |});
    fld "active" dec_bool su_Active (λ v r, {| su_Schemas := su_Schemas r; su_ID := su_ID r; su_UserName := su_UserName r; su_Name := su_Name r; su_Emails := su_Emails r; su_Active := v; su_Meta := su_Meta r |});
    fld "meta" (dec_pointer zero_SCIMMeta (dec_struct SCIMMeta_fields)) su_Meta (λ v r, {| su_Schemas := su_Schemas r; su_ID := su_ID r; su_UserName := su_UserName r; su_Name := su_Name r; su_Emails := su_Emails r; su_Active := su_Active r; su_Meta := v |}) ].

(** An operation of a PATCH; [Value] is any JSON value. *)
Record SCIMPatchOpItem := { po_Op : string; po_Path : string; po_Value : option json }.
Definition zero_SCIMPatchOpItem : SCIMPatchOpItem := {| po_Op := ""; po_Path := ""; po_Value := None |}.
Definition SCIMPatchOpItem_fields : list (field SCIMPatchOpItem) :=
  [ fld "op" dec_string po_Op (λ v r, {| po_Op := v; po_Path := po_Path r; po_Value := po_Value r |});
    fld "path" dec_string po_Path (λ v r, {| po_Op := po_Op r; po_Path := v; po_Value := po_Value r |});
    fld "value" dec_raw po_Value (λ v r, {| po_Op := po_Op r; po_Path := po_Path r; po_Value := v |}) ].

Definition SCIMPatchOp_fields : list (field (list string * list SCIMPatchOpItem)) :=
  [ fld "schemas" (dec_slice ""%string dec_string) fst (λ v r, (v, snd r));
    fld "Operations" (dec_slice zero_SCIMPatchOpItem (dec_struct SCIMPatchOpItem_fields)) snd (λ v r, (fst r, v)) ].

(** ** Rows the handlers build *)

(** A cluster's row: of the owner who registers it, and of a user it is granted to. *)
Definition cluster_host (e : cp_env) (owner slug name : string) (directURL : option string) (key : option string) (role : string) (jwt : jwt_claims) : Host :=
  {| h_ID := ce_uuid e "host"; h_UserID := owner; h_Slug := slug; h_Name := name; h_Type := "cluster"; h_Role := role;
     h_DirectNATSURL := directURL; h_PublicKey := key; h_UserJWT := Some jwt; h_NatsJWT := None; h_CreatedAt := ce_now e; h_LastSeenAt := None |}.

Definition is_cluster (cslug : string) (h : Host) : bool := String.eqb (h_Slug h) cslug && String.eqb (h_Type h) "cluster".

(** UPDATE users SET name = $1 WHERE id = $2. *)
Definition SetUserName (id name : string) (t : Tables) : Tables :=
  set_users (update_where (λ u, String.eqb (u_ID u) id)
    (λ u, {| u_ID := u_ID u; u_Email := u_Email u; u_Name := name; u_PasswordHash := u_PasswordHash u; u_IsAdmin := u_IsAdmin u;
             u_Slug := u_Slug u; u_NKeyPublic := u_NKeyPublic u; u_CreatedAt := u_CreatedAt u |}) (users t)) t.

(** The rows in the order of their creation. *)
Definition users_by_creation (t : Tables) : list User := merge_sort (λ x y, Is_true (u_CreatedAt x <=? u_CreatedAt y)) (users t).

(** The parts of the resource that depend on the user. *)
Definition userToSCIM (u : User) : string * string * string := (u_ID u, u_Email u, u_Name u).

Section admin.
Context `{PG : Postgres, JS : JsonStream, UT : UnicodeTables, NO : Normalizer, BH : BcryptHash}.

(** SELECT id FROM users ... ORDER BY created_at LIMIT 1. *)
Definition oldest (l : list User) : option User := first_row (select (λ u, forallb (λ v, u_CreatedAt u <=? u_CreatedAt v) l) l).

(** ** Users *)

Definition adminListUsers (e : cp_env) (s : Server) : Server :=
  if negb (cf_db (config s)) then http_error 503 "database not configured" s
  else if ce_down e "ListUsers" then http_error 500 "query error" s
  else http_json 200 (HUsers ((λ u, (u_ID u, u_Email u, u_Name u, u_Slug u)) <$> users_by_creation (db s))) s.

Definition adminCreateUser (e : cp_env) (body : string) (s : Server) : Server :=
  match decode_body (dec_struct AdminUserRequest_fields) zero_AdminUserRequest body with
  | None => http_error 400 "invalid request body" s
  | Some req =>
    if String.eqb (au_ID req) "" || String.eqb (au_Email req) "" || String.eqb (au_Name req) "" then http_error 400 "id, email, and name are required" s
    else if negb (cf_db (config s)) then http_error 503 "database not configured" s
    else
      match (if String.eqb (au_Password req) "" then Some ""%string else bcrypt_hash (au_Password req)) with
      | None => http_error 500 "failed to hash password" s
      | Some passwordHash =>
        match CreateUser (ce_down e "CreateUser") (ce_down e "CreateUser(host)") (ce_uuidBytes e) (ce_uuid e "host") (au_ID req) (au_Email req) (au_Name req)
                passwordHash (ce_now e) (db s) with
        | Err err => if is_unique_error err then http_error 409 "email already exists" s else http_error 500 "create user error" s
        | Ok (user, t) =>
          let s := set_db t s in
          let s := if au_IsAdmin req then exec_ignored (ce_down e "SetUserAdmin") (SetUserAdmin (u_ID user) true) s else s in
          http_json 201 (HUsers [(u_ID user, u_Email user, u_Name user, u_Slug user)]) s
        end
      end
  end.

(** The hosts the user owns are told of the deletion of the user's projects. *)
Definition notify_user_deleted (e : cp_env) (userID : string) (s : Server) : Server :=
  if negb (cf_nc (config s)) then s
  else
    match lookup_row (ce_down e "GetUserByID") (GetUserByID userID (db s)) with
    | None => s
    | Some user =>
      let hs := if ce_down e "GetHostsByUser" then [] else GetHostsByUser userID (db s) in
      let s := fold_left (λ s h,
        let ps := if ce_down e ("GetProjectsByHostSlug " +:+ h_Slug h) then [] else GetProjectsByHostSlug userID (h_Slug h) (db s) in
        fold_left (λ s p, publishProjectsDeleteToHost (u_Slug user) (h_Slug h) (p_Slug p.1) (p_ID p.1) s) ps s) hs s in
      publishProjectsUpdated (u_Slug user) s
    end.

Definition adminDeleteUser (e : cp_env) (userID : string) (s : Server) : Server :=
  if negb (cf_db (config s)) then http_error 503 "database not configured" s
  else if String.eqb userID "" then http_error 400 "user id required" s
  else
    let s := notify_user_deleted e userID s in
    match Exec (ce_down e "DeleteUser") (DeleteUser userID) (db s) with
    | Err _ => http_error 500 "delete error" s
    | Ok t => http_json 204 HEmpty (set_db t s)
    end.

Definition adminPromoteUser (e : cp_env) (uslug : string) (s : Server) : Server :=
  if negb (cf_db (config s)) then http_error 503 "database not configured" s
  else if String.eqb uslug "" then http_error 400 "user slug required" s
  else
    match lookup_row (ce_down e "GetUserBySlug") (GetUserBySlug uslug (db s)) with
    | None => http_error 404 "user not found" s
    | Some user =>
      match Exec (ce_down e "SetUserAdmin") (SetUserAdmin (u_ID user) true) (db s) with
      | Err _ => http_error 500 "failed to promote user" s
      | Ok t => http_json 200 (HStatus "promoted") (set_db t s)
      end
    end.

(** ** The break-glass stop of a session *)

(** Where the stop goes and what it says. *)
Definition stop_message (e : cp_env) (userSlug hostSlug projectSlug sessionID : string) : string * json :=
  (UserHostProjectSessionsDelete userSlug hostSlug projectSlug sessionID,
   JObj [("requestId", JStr (ce_uuid e "request")); ("sessionId", JStr sessionID); ("sessionSlug", JStr sessionID)]).

Definition publish_stop (e : cp_env) (req : AdminSessionStopRequest) (s : Server) : Server :=
  if cf_nc (config s) && cf_db (config s) then
    let userSlug := match lookup_row (ce_down e "GetUserByID") (GetUserByID (ss_UserID req) (db s)) with Some u => u_Slug u | None => ""%string end in
    let '(projectSlug, hostSlug) := match lookup_row (ce_down e "GetProjectByID") (GetProjectByID (ss_ProjectID req) (db s)) with
                                    | Some (p, hslug) => (p_Slug p, hslug) | None => (""%string, ""%string) end in
    if negb (String.eqb userSlug "") && negb (String.eqb hostSlug "") && negb (String.eqb projectSlug "") then
      if ce_down e "Publish" then s
      else let m := stop_message e userSlug hostSlug projectSlug (ss_SessionID req) in send (Published m.1 m.2) s
    else s
  else s.

Definition adminStopSession (e : cp_env) (body : string) (s : Server) : Server :=
  match decode_body (dec_struct AdminSessionStopRequest_fields) {| ss_UserID := ""; ss_ProjectID := ""; ss_SessionID := "" |} body with
  | None => http_error 400 "invalid request body" s
  | Some req =>
    if String.eqb (ss_UserID req) "" || String.eqb (ss_ProjectID req) "" || String.eqb (ss_SessionID req) ""
    then http_error 400 "userId, projectId, and sessionId are required" s
    else http_json 202 (HStatus "accepted") (publish_stop e req s)
  end.

(** ** Clusters *)

(** The owner of a new cluster: the user asked for, or the oldest administrator,
    or the oldest user. *)
Definition cluster_owner (e : cp_env) (userSlug : string) (t : Tables) : result (Z * string) string :=
  if negb (String.eqb userSlug "") then
    match lookup_row (ce_down e "GetUserBySlug") (GetUserBySlug userSlug t) with
    | None => Err (404, "owner user not found"%string)
    | Some u => Ok (u_ID u)
    end
  else
    match lookup_row (ce_down e "first admin") (oldest (select u_IsAdmin (users t))) with
    | Some u => Ok (u_ID u)
    | None =>
      match lookup_row (ce_down e "first user") (oldest (users t)) with
      | Some u => Ok (u_ID u)
      | None => Err (400, "no users exist to own the cluster"%string)
      end
    end.

(** The key pair [ce_uuid e "cluster nkey"] is generated for the row, and the
    token is issued for another one, [ce_uuid e "nkey"], whose seed is in the answer. *)
Definition adminRegisterCluster (e : cp_env) (body : string) (s : Server) : Server :=
  if negb (cf_db (config s)) then http_error 503 "database not configured" s
  else
    match decode_body (dec_struct AdminClusterRegisterRequest_fields) {| cr_Slug := ""; cr_Name := ""; cr_DirectNATSURL := ""; cr_UserSlug := "" |} body with
    | None => http_error 400 "invalid request body" s
    | Some req =>
      if String.eqb (cr_Slug req) "" then http_error 400 "slug is required" s
      else
        let name := if String.eqb (cr_Name req) "" then cr_Slug req else cr_Name req in
        if ce_down e "GenerateUserNKey" then http_error 500 "failed to generate cluster nkey" s
        else
          match IssueHostJWTLegacy (ce_signErr e) (Unix (ce_now e)) (ce_uuid e "nkey") "*" (cr_Slug req) with
          | None => http_error 500 "failed to issue cluster jwt" s
          | Some jwt =>
            match cluster_owner e (cr_UserSlug req) (db s) with
            | Err (status, msg) => http_error status msg s
            | Ok owner =>
              match Exec (ce_down e "InsertHost") (InsertHost (cluster_host e owner (cr_Slug req) name (Some (cr_DirectNATSURL req)) (Some (ce_uuid e "cluster nkey")) "owner" jwt)) (db s) with
              | Err err => if is_unique_error err then http_error 409 "cluster slug already exists" s else http_error 500 "failed to create cluster" s
              | Ok t => http_json 201 (HCluster (cr_Slug req) jwt (cf_accountPub (config s)) (cr_DirectNATSURL req)) (set_db t s)
              end
            end
          end
    end.

(** SELECT DISTINCT ... ORDER BY slug. *)
Definition adminListClusters (e : cp_env) (s : Server) : Server :=
  if negb (cf_db (config s)) then http_error 503 "database not configured" s
  else if ce_down e "ListClusters" then http_error 500 "query error" s
  else
    let rows := (λ h, (h_Slug h, h_Name h, h_DirectNATSURL h)) <$> select (λ h, String.eqb (h_Type h) "cluster") (hosts (db s)) in
    http_json 200 (HClusters (merge_sort (λ x y : string * string * option string, Is_true (String.leb x.1.1 y.1.1)) (remove_dups rows))) s.

Definition adminGrantCluster (e : cp_env) (cslug body : string) (s : Server) : Server :=
  if negb (cf_db (config s)) then http_error 503 "database not configured" s
  else
    match decode_body (dec_struct [ ("userSlug", dec_string) ]) ""%string body with
    | None => http_error 400 "invalid request body" s
    | Some userSlug =>
      if String.eqb userSlug "" then http_error 400 "userSlug is required" s
      else
        match lookup_row (ce_down e "cluster") (first_row (select (is_cluster cslug) (hosts (db s)))) with
        | None => http_error 404 "cluster not found" s
        | Some cluster =>
          match lookup_row (ce_down e "GetUserBySlug") (GetUserBySlug userSlug (db s)) with
          | None => http_error 404 "user not found" s
          | Some user =>
            match IssueHostJWTLegacy (ce_signErr e) (Unix (ce_now e)) (ce_uuid e "nkey") (u_Slug user) cslug with
            | None => http_error 500 "failed to issue user jwt" s
            | Some jwt =>
              match ExecUpsertHost (ce_down e "InsertHost") (cluster_host e (u_ID user) cslug cslug (h_DirectNATSURL cluster) None "user" jwt) id_host (db s) with
              | Err _ => http_error 500 "failed to grant cluster access" s
              | Ok t => http_json 201 (HStatus "granted") (set_db t s)
              end
            end
          end
        end
    end.

Definition adminDeleteCluster (e : cp_env) (cslug : string) (s : Server) : Server :=
  if negb (cf_db (config s)) then http_error 503 "database not configured" s
  else if String.eqb cslug "" then http_error 400 "cluster slug required" s
  else
    match Exec (ce_down e "DeleteHost") (delete_hosts (is_cluster cslug)) (db s) with
    | Err _ => http_error 500 "delete error" s
    | Ok t =>
      if (length (select (is_cluster cslug) (hosts (db s))) =? 0)%nat then http_error 404 "cluster not found" (set_db t s)
      else http_json 204 HEmpty (set_db t s)
    end.

(** ** Routes *)

Definition handleAdminRoutes (e : cp_env) (method path body : string) (s : Server) : Server :=
  if String.eqb method "GET" && String.eqb path "/admin/users" then adminListUsers e s
  else if String.eqb method "POST" && String.eqb path "/admin/users" then adminCreateUser e body s
  else if String.eqb method "DELETE" && HasPrefix path "/admin/users/" then adminDeleteUser e (TrimPrefix path "/admin/users/") s
  else if String.eqb method "POST" && String.eqb path "/admin/sessions/stop" then adminStopSession e body s
  else if String.eqb method "POST" && String.eqb path "/admin/clusters" then adminRegisterCluster e body s
  else if String.eqb method "GET" && String.eqb path "/admin/clusters" then adminListClusters e s
  else if String.eqb method "POST" && HasPrefix path "/admin/clusters/" && HasSuffix path "/grants"
  then adminGrantCluster e (TrimSuffix (TrimPrefix path "/admin/clusters/") "/grants") body s
  else if String.eqb method "DELETE" && HasPrefix path "/admin/clusters/" then adminDeleteCluster e (TrimPrefix path "/admin/clusters/") s
  else if String.eqb method "POST" && HasPrefix path "/admin/users/" && HasSuffix path "/promote"
  then adminPromoteUser e (TrimSuffix (TrimPrefix path "/admin/users/") "/promote") s
  else http_error 404 "not found" s.

(** ** SCIM *)

(** The text between the first two quotes. *)
Definition quoted (filter : string) : option string :=
  match Split "034"%char filter with _ :: email :: _ => Some email | _ => None end.

Definition scimListUsers (e : cp_env) (filter : string) (s : Server) : Server :=
  if negb (cf_db (config s)) then http_error 503 "service unavailable" s
  else if negb (String.eqb filter "") && Contains filter "userName eq" then
    let found := match quoted filter with
                 | None => []
                 | Some email => match lookup_row (ce_down e "GetUserByEmail") (GetUserByEmail email (db s)) with Some u => [u] | None => [] end
                 end in
    http_json 200 (HScimUsers (userToSCIM <$> found)) s
  else if ce_down e "ListUsers" then http_error 500 "query error" s
  else http_json 200 (HScimUsers (userToSCIM <$> users_by_creation (db s))) s.

Definition scim_user (u : User) : http_body := HScimUser (u_ID u) (u_Email u) (u_Name u).

Definition scimGetUser (e : cp_env) (id : string) (s : Server) : Server :=
  if negb (cf_db (config s)) then http_error 503 "service unavailable" s
  else
    match lookup_row (ce_down e "GetUserByID") (GetUserByID id (db s)) with
    | None => http_json 404 (HScimError "User not found") s
    | Some user => http_json 200 (scim_user user) s
    end.

(** The address and the name of a new user. *)
Definition scim_email (u : SCIMUser) : string :=
  if String.eqb (su_UserName u) "" then match su_Emails u with m :: _ => se_Value m | [] => ""%string end else su_UserName u.

Definition scim_name (u : SCIMUser) : string :=
  let name := match su_Name u with
              | None => ""%string
              | Some n => if String.eqb (sn_Formatted n) "" then TrimSpace (sn_GivenName n +:+ " " +:+ sn_FamilyName n) else sn_Formatted n
              end in
  if String.eqb name "" then scim_email u else name.

Definition scimCreateUser (e : cp_env) (body : string) (s : Server) : Server :=
  if negb (cf_db (config s)) then http_error 503 "service unavailable" s
  else
    match decode_body (dec_struct SCIMUser_fields) zero_SCIMUser body with
    | None => http_error 400 "invalid request body" s
    | Some req =>
      if String.eqb (scim_email req) "" then http_error 400 "userName or emails[0].value is required" s
      else
        match CreateUser (ce_down e "CreateUser") (ce_down e "CreateUser(host)") (ce_uuidBytes e) (ce_uuid e "host") (ce_uuid e "user") (scim_email req)
                (scim_name req) "" (ce_now e) (db s) with
        | Err err => if is_unique_error err then http_json 409 (HScimError "User already exists") s else http_error 500 "create user error" s
        | Ok (user, t) => http_json 201 (scim_user user) (set_db t s)
        end
    end.

(** The operations that change something replace the display name. *)
Definition patch_name (op : SCIMPatchOpItem) : option string :=
  if String.eqb (string_of (strings_ToLower (bytes_of (po_Op op)))) "replace" then
    if String.eqb (po_Path op) "active" then None
    else if String.eqb (po_Path op) "displayName" || String.eqb (po_Path op) "name.formatted" then
      match po_Value op with Some (JStr val) => if String.eqb val "" then None else Some val | _ => None end
    else None
  else None.

(** The answer shows the new name whether the update succeeds or not. *)
Definition apply_patch (e : cp_env) (id : string) (us : User * Server) (op : SCIMPatchOpItem) : User * Server :=
  match patch_name op with
  | None => us
  | Some name =>
    let u := us.1 in
    ({| u_ID := u_ID u; u_Email := u_Email u; u_Name := name; u_PasswordHash := u_PasswordHash u; u_IsAdmin := u_IsAdmin u;
        u_Slug := u_Slug u; u_NKeyPublic := u_NKeyPublic u; u_CreatedAt := u_CreatedAt u |},
     exec_ignored (ce_down e "SetUserName") (SetUserName id name) us.2)
  end.

Definition scimPatchUser (e : cp_env) (id body : string) (s : Server) : Server :=
  if negb (cf_db (config s)) then http_error 503 "service unavailable" s
  else
    match lookup_row (ce_down e "GetUserByID") (GetUserByID id (db s)) with
    | None => http_json 404 (HScimError "User not found") s
    | Some user =>
      match decode_body (dec_struct SCIMPatchOp_fields) ([], []) body with
      | None => http_error 400 "invalid request body" s
      | Some (_, ops) =>
        let '(user, s) := fold_left (apply_patch e id) ops (user, s) in
        http_json 200 (scim_user user) s
      end
    end.

Definition scimDeleteUser (e : cp_env) (id : string) (s : Server) : Server :=
  if negb (cf_db (config s)) then http_error 503 "service unavailable" s
  else
    match Exec (ce_down e "DeleteUser") (DeleteUser id) (db s) with
    | Err _ => http_error 500 "delete error" s
    | Ok t => http_json 204 HEmpty (set_db t s)
    end.

(** [filter]: the query parameter. *)
Definition handleSCIMRoutes (e : cp_env) (method path filter body : string) (s : Server) : Server :=
  let path := TrimPrefix path "/scim/v2/" in
  if HasPrefix path "Users" then
    let userPath := TrimPrefix (TrimPrefix path "Users") "/" in
    let root := String.eqb userPath "" in
    if String.eqb method "GET" && root then scimListUsers e filter s
    else if String.eqb method "GET" && negb root then scimGetUser e userPath s
    else if String.eqb method "POST" && root then scimCreateUser e body s
    else if String.eqb method "PATCH" && negb root then scimPatchUser e userPath body s
    else if String.eqb method "DELETE" && negb root then scimDeleteUser e userPath s
    else http_error 405 "method not allowed" s
  else http_error 404 "not found" s.

(** ** The administrators' token *)

Definition adminAuthMiddleware (adminToken header : string) (next : Server → Server) (s : Server) : Server :=
  let token := bearerToken header in
  if String.eqb token "" || negb (String.eqb token adminToken) then http_error 403 "forbidden" s else next s.

(** Both sets of routes, by the path's prefix. *)
Definition admin_routes (adminToken : string) (e : cp_env) (method header path filter body : string) (s : Server) : Server :=
  if HasPrefix path "/admin/" then adminAuthMiddleware adminToken header (handleAdminRoutes e method path body) s
  else if HasPrefix path "/scim/v2/" then adminAuthMiddleware adminToken header (handleSCIMRoutes e method path filter body) s
  else http_error 404 "404 page not found" s.

End admin.
