(* ===== verification/AdminSpec.v ===== *)
(** * What administration guarantees (admin.go, scim.go)

    What the deletion of a user takes with it, who is told and what the user's
    token still does; which key a registered cluster can sign in with; where the
    break-glass stop of a session arrives; and that users provisioned over SCIM
    are found again. *)

From stdpp Require Import sorting.
From S2P Require Import Prelude GoStrings Slug SessionState Session QuotaMonitor Drivers Agent AgentSpec Subjects Json Permissions PermissionsSpec ObjectStore Database ControlServer Challenge ControlDemo ChallengeSpec HostLifecycle HostLifecycleSpec HostApi HostSecurity ProjectApi ProjectSpec Accounts AccountsSpec Admin.
Open Scope Z_scope.

Section spec.
Context `{PG : Postgres, JS : JsonStream, UT : UnicodeTables, NO : Normalizer, BH : BcryptHash}.

(** ** Deleting a user *)

Lemma users_with_id id t v : memb v (u_ID <$> List.filter (λ u, String.eqb (u_ID u) id) (users t)) = true ↔ v = id ∧ id ∈ u_ID <$> users t.
Proof.
  rewrite memb_spec, !list_elem_of_fmap. split.
  - intros (u & -> & Hu). apply select_elem in Hu as [Hu <-%String.eqb_eq]. eauto.
  - intros (-> & u & -> & Hu). exists u. split; [done|]. apply select_elem. by rewrite String.eqb_refl.
Qed.

Lemma not_with_id id t v : id ∈ u_ID <$> users t → memb v (u_ID <$> List.filter (λ u, String.eqb (u_ID u) id) (users t)) = false ↔ v ≠ id.
Proof. intros Hid. rewrite <- not_true_iff_false, users_with_id. naive_solver. Qed.

(** The rows that stay. *)
Record user_gone (id : string) (t t' : Tables) : Prop := {
  ug_users : ∀ v, v ∈ users t' ↔ v ∈ users t ∧ u_ID v ≠ id;
  ug_hosts : ∀ h, h ∈ hosts t' ↔ h ∈ hosts t ∧ h_UserID h ≠ id;
  ug_projects : ∀ p, p ∈ projects t' ↔ p ∈ projects t ∧ p_UserID p ≠ id ∧ ∀ h, h ∈ hosts t → h_ID h = p_HostID p → h_UserID h ≠ id;
  ug_access : ∀ a, a ∈ host_access t' ↔ a ∈ host_access t ∧ a.2 ≠ id ∧ ∀ h, h ∈ hosts t → h_ID h = a.1 → h_UserID h ≠ id;
  ug_credentials : ∀ c, c ∈ agent_credentials t' ↔ c ∈ agent_credentials t ∧ ac_UserID c ≠ id;
  ug_attachments : ∀ a, a ∈ attachments t' ↔ a ∈ attachments t ∧ at_UserID a ≠ id ∧
    (∀ h, h ∈ hosts t → h_ID h = at_HostID a → h_UserID h ≠ id) ∧
    ∀ p, p ∈ projects t → p_ID p = at_ProjectID a → p_UserID p ≠ id ∧ ∀ h, h ∈ hosts t → h_ID h = p_HostID p → h_UserID h ≠ id;
}.

Lemma not_of_rows {A} (key : A → string) (f : A → bool) (l : list A) x :
  memb x (key <$> List.filter f l) = false ↔ ∀ r, r ∈ l → key r = x → f r = false.
Proof.
  rewrite <- not_true_iff_false, memb_spec, list_elem_of_fmap. split.
  - intros Hn r Hr <-. apply not_true_iff_false. intros Hf. apply Hn. exists r. split; [done|]. by apply select_elem.
  - intros H (r & -> & Hr). apply select_elem in Hr as [Hr Hf]. specialize (H r Hr eq_refl). congruence.
Qed.

Lemma DeleteUser_gone id t : id ∈ u_ID <$> users t → user_gone id t (DeleteUser id t).
Proof.
  intros Hid. assert (Hkeep : ∀ v, memb v (u_ID <$> List.filter (λ u, String.eqb (u_ID u) id) (users t)) = false ↔ v ≠ id)
    by (intros v; by apply not_with_id).
  assert (Hgone : ∀ x, memb x (h_ID <$> List.filter (λ h, memb (h_UserID h) (u_ID <$> List.filter (λ u, String.eqb (u_ID u) id) (users t))) (hosts t)) = false ↔
    ∀ h, h ∈ hosts t → h_ID h = x → h_UserID h ≠ id).
  { intros x. rewrite <- not_true_iff_false, memb_spec, list_elem_of_fmap. split.
    - intros Hn h Hh <- Hu. apply Hn. exists h. split; [done|]. apply select_elem. split; [done|]. by apply users_with_id.
    - intros H (h & -> & Hh). apply select_elem in Hh as [Hh [Hu _]%users_with_id]. by apply (H h). }
  split; intros x; unfold DeleteUser, delete_users, delete_hosts, delete_projects; cbn [users hosts projects host_access agent_credentials attachments
    set_users set_hosts set_projects set_host_access set_agent_credentials set_attachments]; rewrite !delete_where_elem.
  - by rewrite String.eqb_neq.
  - by rewrite Hkeep.
  - rewrite Hgone, Hkeep. tauto.
  - rewrite Hgone, Hkeep. tauto.
  - by rewrite Hkeep.
  - rewrite Hgone, Hkeep, !not_of_rows. setoid_rewrite delete_where_elem. setoid_rewrite Hgone. setoid_rewrite Hkeep. split.
    + intros [[[[Ha Hp1] Hh] Hp2] Hu]. split_and!; [done..|]. intros p Hp He. pose proof (Hp1 p Hp He) as Hn. split; [|exact Hn]. apply Hp2; [|done]. by split.
    + intros (Ha & Hu & Hh & Hp). split_and!; [done| |done| |done].
      * intros p Hp1 He. by apply (Hp p).
      * intros p [Hp1 _] He. by apply (Hp p).
Qed.

Lemma GetUserByID_user t u : tables_ok t = true → u ∈ users t → GetUserByID (u_ID u) t = Some u.
Proof.
  intros (Hi & _)%tables_ok_users Hu.
  destruct (first_row_exists (λ v, String.eqb (u_ID v) (u_ID u)) (users t) u) as [v E]; [done|by apply String.eqb_eq|].
  unfold GetUserByID. rewrite E. apply first_row_select in E as [Hv Hvs%String.eqb_eq]. f_equal. by apply (unique_key u_ID (users t)).
Qed.

Lemma GetUserByID_none id t : id ∉ u_ID <$> users t → GetUserByID id t = None.
Proof.
  intros Hn. unfold GetUserByID. destruct (first_row _) as [u|] eqn:E; [|done]. apply first_row_select in E as [Hu <-%String.eqb_eq].
  destruct Hn. by apply list_elem_of_fmap_2.
Qed.

(** *** Who is told *)

(** The notice of a project's deletion. *)
Definition notice (uslug hslug : string) (p : Project) : cp_out :=
  Published (HostUserProjectsDelete hslug uslug (p_Slug p)) (JObj [("event", JStr "deleted"); ("projectId", JStr (p_ID p)); ("projectSlug", JStr (p_Slug p))]).

(** Some host is told that the project is deleted. *)
Definition told (p : Project) (s s' : Server) : Prop :=
  ∃ subject slug, Published subject (JObj [("event", JStr "deleted"); ("projectId", JStr (p_ID p)); ("projectSlug", JStr slug)]) ∈ replies s s'.

Lemma fold_sent_sum {A} (f : Server → A → Server) (g : A → list cp_out) l s :
  (∀ s x, db (f s x) = db s ∧ config (f s x) = config s) → (∀ s0 x, db s0 = db s → config s0 = config s → sent (f s0 x) = sent s0 ++ g x) →
  db (fold_left f l s) = db s ∧ config (fold_left f l s) = config s ∧ sent (fold_left f l s) = sent s ++ (l ≫= g).
Proof.
  intros Hd Hs. assert (H : ∀ l s0, db s0 = db s → config s0 = config s →
    db (fold_left f l s0) = db s ∧ config (fold_left f l s0) = config s ∧ sent (fold_left f l s0) = sent s0 ++ (l ≫= g)).
  { clear l. induction l as [|x l IH]; intros s0 H1 H2; cbn; [by rewrite app_nil_r|]. destruct (Hd s0 x) as [Hd1 Hd2].
    destruct (IH (f s0 x)) as (-> & -> & ->); [congruence..|]. by rewrite Hs, <- app_assoc. }
  by apply H.
Qed.

Lemma bind_ext_elem {A B} (f g : A → list B) l : (∀ x, x ∈ l → f x = g x) → l ≫= f = l ≫= g.
Proof. induction l as [|x l IH]; intros H; [done|]. rewrite !bind_cons, H, IH; [done| |by left]. intros y Hy. apply H. by right. Qed.

(** The notices of the projects. *)
Definition notices (u : User) (t : Tables) : list cp_out :=
  GetHostsByUser (u_ID u) t ≫= λ h, (λ p : Project * string, notice (u_Slug u) (h_Slug h) p.1) <$> GetProjectsByHostSlug (u_ID u) (h_Slug h) t.

(** Hosts, users and projects have slugs. *)
Definition slugs_given (t : Tables) : Prop :=
  Forall (λ u, u_Slug u ≠ ""%string) (users t) ∧ Forall (λ h, h_Slug h ≠ ""%string) (hosts t) ∧ Forall (λ p, p_Slug p ≠ ""%string) (projects t).

Lemma notify_sent e u s :
  tables_ok (db s) = true → slugs_given (db s) → cf_nc (config s) = true → (∀ c, ce_down e c = false) → u ∈ users (db s) →
  let s1 := notify_user_deleted e (u_ID u) s in
  db s1 = db s ∧ config s1 = config s ∧
  sent s1 = sent s ++ notices u (db s) ++ [Published (UserAPIProjectsUpdated (u_Slug u)) (JObj [("event", JStr "updated")])].
Proof.
  intros Hok (Hus & Hhs & Hps) Hnc Hd Hu. cbv zeta. unfold notify_user_deleted, lookup_row. rewrite Hnc, !Hd, (GetUserByID_user _ u) by done. cbn [negb].
  rewrite Forall_forall in Hus. rewrite Forall_forall in Hhs. rewrite Forall_forall in Hps. pose proof (Hus u Hu) as Hun. apply String.eqb_neq in Hun.
  match goal with |- context [fold_left ?f ?l s] => destruct (fold_sent_sum f (λ h, if String.eqb (h_Slug h) "" then [] else
    (λ p : Project * string, notice (u_Slug u) (h_Slug h) p.1) <$> GetProjectsByHostSlug (u_ID u) (h_Slug h) (db s)) l s) as (H1 & H2 & H3) end.
  - intros s0 h. rewrite Hd. generalize (GetProjectsByHostSlug (u_ID u) (h_Slug h) (db s0)). intros l. revert s0.
    induction l as [|p l IH]; intros s0; cbn; [done|]. destruct (IH (publishProjectsDeleteToHost (u_Slug u) (h_Slug h) (p_Slug p.1) (p_ID p.1) s0)) as [-> ->].
    unfold publishProjectsDeleteToHost. by case_match.
  - intros s0 h H1 H2. rewrite Hd, H1.
    assert (Hl : ∀ p, p ∈ GetProjectsByHostSlug (u_ID u) (h_Slug h) (db s) → p_Slug p.1 ≠ ""%string).
    { intros p. unfold GetProjectsByHostSlug. rewrite merge_sort_Permutation. intros [Hp _]%select_elem.
      apply list_elem_of_fmap in Hp as (q & -> & [Hq _]%select_elem). by apply Hps. }
    revert Hl. generalize (GetProjectsByHostSlug (u_ID u) (h_Slug h) (db s)). intros l Hl.
    assert (Hc : cf_nc (config s0) = true) by (by rewrite H2). clear H1 H2. revert s0 Hc. induction l as [|p l IH]; intros s0 Hc; cbn.
    { destruct (String.eqb (h_Slug h) ""); by rewrite app_nil_r. }
    rewrite IH; [|intros q Hq; apply Hl; by right|unfold publishProjectsDeleteToHost; by destruct (_ || _)].
    unfold publishProjectsDeleteToHost. rewrite Hc, Hun. cbn [orb negb]. destruct (String.eqb (h_Slug h) ""); [done|].
    assert (String.eqb (p_Slug p.1) "" = false) as -> by (apply String.eqb_neq, Hl; left). cbn. by rewrite <- app_assoc.
  - unfold publishProjectsUpdated. rewrite H2, Hnc, Hun. cbn [negb orb]. cbn [db config sent send]. rewrite H1, H2, H3. split; [done|]. split; [done|].
    rewrite <- app_assoc. do 2 f_equal. unfold notices. apply bind_ext_elem. intros h. unfold GetHostsByUser.
    rewrite merge_sort_Permutation. intros [Hh%Hhs _]%select_elem. by apply String.eqb_neq in Hh as ->.
Qed.

Lemma projects_by_host_slug userID hslug t p : tables_ok t = true → p ∈ projects t →
  (∃ x, (p, x) ∈ GetProjectsByHostSlug userID hslug t) ↔ p_UserID p = userID ∧ ∃ g, g ∈ hosts t ∧ h_ID g = p_HostID p ∧ h_Slug g = hslug.
Proof.
  intros Hok Hp. pose proof Hok as (Hids & _)%tables_ok_hosts. unfold GetProjectsByHostSlug. setoid_rewrite merge_sort_Permutation. setoid_rewrite select_elem.
  setoid_rewrite list_elem_of_fmap. setoid_rewrite select_elem. setoid_rewrite String.eqb_eq.
  destruct (foreign_project t p Hok Hp) as (g & Hg & Hgi & Hj). split.
  - intros (x & (q & Hq & Hqt & Hu) & Hx). cbn in Hx. subst x.
    assert (q = p) as -> by (unfold join_host in Hq; by injection Hq). rewrite Hj in Hq. injection Hq as ->. eauto.
  - intros (Hu & g' & Hg' & Hgi' & Hs). assert (g' = g) as -> by (apply (unique_key h_ID (hosts t)); [done..|congruence]).
    exists hslug. split; [|done]. exists p. by rewrite Hj, Hs.
Qed.

Lemma GetHostsByUser_elem id t h : h ∈ GetHostsByUser id t ↔ h ∈ hosts t ∧ h_UserID h = id.
Proof. unfold GetHostsByUser. by rewrite merge_sort_Permutation, select_elem, String.eqb_eq. Qed.

(** The payload of a notice names its project. *)
Lemma notices_name u t p : tables_ok t = true → p ∈ projects t →
  (∃ subject slug, Published subject (JObj [("event", JStr "deleted"); ("projectId", JStr (p_ID p)); ("projectSlug", JStr slug)]) ∈ notices u t) ↔
  p_UserID p = u_ID u ∧ ∃ g h, g ∈ hosts t ∧ h_ID g = p_HostID p ∧ h ∈ hosts t ∧ h_UserID h = u_ID u ∧ h_Slug h = h_Slug g.
Proof.
  intros Hok Hp. unfold notices. setoid_rewrite list_elem_of_bind. setoid_rewrite GetHostsByUser_elem. split.
  - intros (subject & slug & h & Hin & Hh & Hu). apply list_elem_of_fmap in Hin as ([q x] & Hn & Hq). unfold notice in Hn. cbn in Hn.
    injection Hn as _ Hid _. assert (Hqt : q ∈ projects t).
    { unfold GetProjectsByHostSlug in Hq. rewrite merge_sort_Permutation in Hq. apply select_elem in Hq as [Hq _].
      apply list_elem_of_fmap in Hq as (r & Hr & [Hrt _]%select_elem). unfold join_host in Hr. by injection Hr as -> _. }
    assert (q = p) as ->.
    { apply (unique_key p_ID (projects t)); [|done..]. unfold tables_ok, unique_ok in Hok. rewrite !andb_true_iff, !uniqueb_NoDup in Hok. tauto. }
    destruct (projects_by_host_slug (u_ID u) (h_Slug h) t p Hok Hp) as [[Hpu (g & ? & ? & Hs)] _]; [by exists x|]. split; [done|]. by exists g, h.
  - intros (Hpu & g & h & Hg & Hgi & Hh & Hu & Hs). exists (HostUserProjectsDelete (h_Slug h) (u_Slug u) (p_Slug p)), (p_Slug p), h. split; [|done].
    destruct (projects_by_host_slug (u_ID u) (h_Slug h) t p Hok Hp) as [_ [x Hx]]; [eauto|]. apply list_elem_of_fmap. by exists (p, x).
Qed.

(** The deletion with the database up: the notices first, the rows afterwards. *)
Lemma adminDeleteUser_spec e s u :
  tables_ok (db s) = true → slugs_given (db s) → cf_db (config s) = true → cf_nc (config s) = true → (∀ c, ce_down e c = false) → u ∈ users (db s) →
  let s' := adminDeleteUser e (u_ID u) s in
  (u_ID u = ""%string ∨ db s' = DeleteUser (u_ID u) (db s) ∧ config s' = config s ∧
   replies s s' = notices u (db s) ++ [Published (UserAPIProjectsUpdated (u_Slug u)) (JObj [("event", JStr "updated")]); Responded 204 HEmpty]).
Proof.
  intros Hok Hsl Hdb Hnc Hd Hu. cbv zeta. unfold adminDeleteUser. rewrite Hdb, !Hd. cbn [negb]. destruct (String.eqb_spec (u_ID u) ""); [by left|right].
  destruct (notify_sent e u s) as (H1 & H2 & H3); [done..|]. rewrite H1, Exec_success by (by apply delete_users_ok).
  cbn [http_json send set_db db config sent]. rewrite H2. split; [done|]. split; [done|]. unfold replies.
  cbn [http_json send set_db db config sent]. by rewrite H3, <- app_assoc, drop_app_length, <- app_assoc.
Qed.


(** ** The token of a deleted user *)

Context `{JW : JwtText}.

(** The deletion of a user does not end the user's sessions over HTTP: as long
    as the token is valid the middleware passes every request on with the
    deleted user's id, now below the slug of any user. *)
Theorem deleted_user_token_accepted e e' header path next s u claims :
  tables_ok (db s) = true → slugs_given (db s) → cf_db (config s) = true → cf_nc (config s) = true → (∀ c, ce_down e c = false) →
  u ∈ users (db s) → u_ID u ≠ ""%string → identified e' header s claims → jc_Name claims = u_ID u →
  let s' := adminDeleteUser e (u_ID u) s in
  ¬ (∃ v, v ∈ users (db s') ∧ u_ID v = u_ID u) ∧ authMiddleware e' header path next s' = next (u_ID u) s'.
Proof.
  intros Hok Hsl Hdb Hnc Hd Hu Hne [Hb Hj] Hn s'. destruct (adminDeleteUser_spec e s u) as [?|(Hdb' & Hc & _)]; [done..|]. fold s' in Hdb', Hc.
  assert (Hg : u_ID u ∉ u_ID <$> users (db s')).
  { rewrite Hdb'. intros (v & Hv & [_ Hx%String.eqb_neq]%delete_where_elem)%list_elem_of_fmap. congruence. }
  split; [intros (v & Hv & Hvu); apply Hg; rewrite <- Hvu; by apply list_elem_of_fmap_2|].
  unfold authMiddleware. apply String.eqb_neq in Hb as ->. rewrite Hc, Hj. cbv zeta. rewrite Hn.
  rewrite (GetUserByID_none (u_ID u)) by done. unfold lookup_row. destruct (ce_down e' _); by rewrite andb_false_r.
Qed.

(** ** Clusters *)

(** A branch that answers something else. *)
Ltac refused := by intros Hrefused; apply answered_once in Hrefused.

Context `{NK : NKeys}.

(** A challenge for a key that is not registered is refused. *)
Lemma challenge_refused e body key s :
  decode_body (dec_struct ChallengeRequest_fields) {| cr_NKeyPublic := "" |} body = Some {| cr_NKeyPublic := key |} →
  key ≠ ""%string → cf_db (config s) = true → ¬ registered (db s) key →
  handleAuthChallenge e "POST" body s = http_json 404 (verify_error "unknown public key" "NOT_FOUND") s.
Proof.
  intros Hb Hk Hdb Hr. unfold handleAuthChallenge. rewrite Hb, Hdb. cbn [String.eqb Ascii.eqb Bool.eqb negb Challenge.cr_NKeyPublic].
  apply String.eqb_neq in Hk as ->. destruct (isNKeyRegistered e key s) eqn:E; [|done]. by apply isNKeyRegistered_sound in E.
Qed.

(** What an accepted registration stores and answers. *)
Lemma register_cluster_inv e body s slug jwt acc url :
  Responded 201 (HCluster slug jwt acc url) ∈ replies s (adminRegisterCluster e body s) →
  ∃ owner name, IssueHostJWTLegacy (ce_signErr e) (Unix (ce_now e)) (ce_uuid e "nkey") "*" slug = Some jwt ∧ cf_db (config s) = true ∧
    db (adminRegisterCluster e body s) = InsertHost (cluster_host e owner slug name (Some url) (Some (ce_uuid e "cluster nkey")) "owner" jwt) (db s) ∧
    tables_ok (db (adminRegisterCluster e body s)) = true ∧ config (adminRegisterCluster e body s) = config s.
Proof.
  unfold adminRegisterCluster, http_error. destruct (cf_db (config s)) eqn:Hdb; [|refused]. cbn [negb].
  destruct (decode_body _ _ body) as [req|]; [|refused]. destruct (String.eqb (cr_Slug req) ""); [refused|]. cbv zeta.
  destruct (ce_down e "GenerateUserNKey"); [refused|]. destruct (IssueHostJWTLegacy _ _ _ _ _) as [j|] eqn:Hj; [|refused].
  destruct (cluster_owner e (cr_UserSlug req) (db s)) as [owner|[status msg]]; [|refused].
  destruct (Exec _ _ _) as [t|err] eqn:Ht; [|destruct (is_unique_error err); refused].
  intros H. apply answered_once in H; [|done]. injection H as -> -> _ ->. apply Exec_Ok in Ht as [-> Hok].
  exists owner, (if String.eqb (cr_Name req) "" then cr_Slug req else cr_Name req). done.
Qed.

(** Registering a cluster answers with a token and its seed, and stores the key
    of another, discarded seed: unless the keys coincide, the cluster's
    controller is refused at the first challenge for the key it holds, so its
    token, which is valid for five minutes, is never renewed. *)
Theorem registered_cluster_locked_out e body s slug jwt acc url e' body' :
  let s' := adminRegisterCluster e body s in
  Responded 201 (HCluster slug jwt acc url) ∈ replies s s' →
  ce_uuid e "nkey" ≠ ce_uuid e "cluster nkey" → ce_uuid e "nkey" ≠ ""%string → ¬ registered (db s) (ce_uuid e "nkey") →
  decode_body (dec_struct ChallengeRequest_fields) {| cr_NKeyPublic := "" |} body' = Some {| cr_NKeyPublic := jc_PublicKey jwt |} →
  (∃ h, h ∈ hosts (db s') ∧ h_Slug h = slug ∧ h_Type h = "cluster"%string ∧ h_Role h = "owner"%string ∧
    h_PublicKey h = Some (ce_uuid e "cluster nkey") ∧ h_UserJWT h = Some jwt) ∧
  jc_Perms jwt = HostSubjectPermissions slug ∧ jc_Expires jwt = Some (Unix (ce_now e) + 300) ∧
  handleAuthChallenge e' "POST" body' s' = http_json 404 (verify_error "unknown public key" "NOT_FOUND") s'.
Proof.
  intros s' H Hne Hnil Hr Hb. apply register_cluster_inv in H as (owner & name & Hj & Hdb & Ht & _ & Hc). fold s' in Ht, Hc.
  apply issued_claims in Hj as (Hkey & _ & Hp & Hx). split.
  { eexists. split; [rewrite Ht; apply elem_of_app; right; left|]. done. }
  split; [done|]. split; [done|]. rewrite Hkey in Hb. apply (challenge_refused _ _ (ce_uuid e "nkey")); [done|done|by rewrite Hc|].
  rewrite Ht. intros [(v & Hv & Hk)|[(h & Hh & Hk)|(c & Hcr & Hk)]]; apply Hr; [left; eauto| |right; right; eauto].
  cbn in Hh. apply elem_of_app in Hh as [Hh| ->%list_elem_of_singleton]; [right; left; eauto|]. cbn in Hk. congruence.
Qed.

(** *** Grants *)

(** The user's hosts with the slug of the cluster. *)
Definition has_slug (userID cslug : string) (t : Tables) : Prop := ∃ h, h ∈ hosts t ∧ h_UserID h = userID ∧ h_Slug h = cslug.

(** Inserting a host without a key, for a user who exists and has none of that slug. *)
Lemma insert_keyless_ok h t :
  tables_ok t = true → host_checks h = true → h_PublicKey h = None → h_ID h ∉ h_ID <$> hosts t → h_UserID h ∈ u_ID <$> users t →
  ¬ has_slug (h_UserID h) (h_Slug h) t → tables_ok (set_hosts (hosts t ++ [h]) t) = true.
Proof.
  intros Hok Hc Hk Hid Hu Hs. unfold tables_ok, unique_ok, check_ok, foreign_ok in *.
  cbn [users hosts host_access projects agent_credentials attachments set_hosts]. rewrite !fmap_app, !omap_app. cbn [fmap list_fmap omap list_omap].
  rewrite Hk, app_nil_r, !forallb_app. cbn [forallb]. rewrite !andb_true_iff, !uniqueb_NoDup in *. split_and_all.
  assert (Hmono : ∀ x, memb x (h_ID <$> hosts t) = true → memb x ((h_ID <$> hosts t) ++ [h_ID h]) = true)
    by (intros x; rewrite !memb_spec, elem_of_app; by left).
  repeat split; try done.
  - apply NoDup_app. split; [done|]. split; [|apply NoDup_singleton]. by intros x Hx ->%list_elem_of_singleton.
  - apply NoDup_app. split; [done|]. split; [|apply NoDup_singleton]. intros x (g & -> & Hg)%list_elem_of_fmap [= He1 He2]%list_elem_of_singleton.
    apply Hs. by exists g.
  - by apply memb_spec.
  - eapply forallb_impl_elem; [|eassumption]. intros a _. rewrite !andb_true_iff. intros [? ?]; auto.
  - eapply forallb_impl_elem; [|eassumption]. intros a _. rewrite !andb_true_iff. intros [? ?]; auto.
  - eapply forallb_impl_elem; [|eassumption]. intros a _. rewrite !andb_true_iff. intros [[? ?] ?]; auto.
Qed.

Lemma update_where_id {A} (p : A → bool) l : update_where p (λ x, x) l = l.
Proof. unfold update_where. etrans; [|apply list_fmap_id]. apply list_fmap_ext. intros _ x _. by destruct (p x). Qed.

(** INSERT ... ON CONFLICT (user_id, slug) DO NOTHING. *)
Lemma insert_or_nothing h t :
  tables_ok t = true → host_checks h = true → h_PublicKey h = None → h_ID h ∉ h_ID <$> hosts t → h_UserID h ∈ u_ID <$> users t →
  (has_slug (h_UserID h) (h_Slug h) t ∧ ExecUpsertHost false h id_host t = Ok t) ∨
  (¬ has_slug (h_UserID h) (h_Slug h) t ∧ ExecUpsertHost false h id_host t = Ok (set_hosts (hosts t ++ [h]) t)).
Proof.
  intros Hok Hc Hk Hid Hu. unfold ExecUpsertHost. rewrite Hc. cbn [negb].
  assert (He : existsb (λ g, String.eqb (h_UserID g) (h_UserID h) && String.eqb (h_Slug g) (h_Slug h)) (hosts t) = true ↔ has_slug (h_UserID h) (h_Slug h) t).
  { rewrite existsb_exists. setoid_rewrite andb_true_iff. setoid_rewrite String.eqb_eq. unfold has_slug. setoid_rewrite list_elem_of_In. done. }
  destruct (existsb _ (hosts t)) eqn:E.
  - left. split; [by apply He|]. assert (Hu' : UpsertHost h id_host t = t).
    { unfold UpsertHost, upsert. rewrite E. rewrite update_where_id. by destruct t. }
    rewrite Exec_success; by rewrite Hu'.
  - assert (Hn : ¬ has_slug (h_UserID h) (h_Slug h) t) by (intros H; by apply He in H). right. split; [done|].
    assert (Hu' : UpsertHost h id_host t = set_hosts (hosts t ++ [h]) t) by (unfold UpsertHost, upsert; by rewrite E).
    rewrite Exec_success; rewrite Hu'; [done|]. by apply insert_keyless_ok.
Qed.

(** A cluster that exists is granted to a user who exists, with the database
    up: the user's next credential covers the cluster's slug, the user gets a row
    of role "user" without a key, and nobody else's rows change.  A user who has
    a host of that slug already, of whatever type, is answered the same, and
    nothing is stored. *)
Theorem grant_cluster_exact e cslug body s u c :
  tables_ok (db s) = true → cf_db (config s) = true → no_failures e → u ∈ users (db s) → u_Slug u ≠ ""%string →
  decode_body (dec_struct [ ("userSlug", dec_string) ]) ""%string body = Some (u_Slug u) →
  c ∈ hosts (db s) → is_cluster cslug c = true → ce_uuid e "host" ∉ h_ID <$> hosts (db s) →
  let s' := adminGrantCluster e cslug body s in
  replies s s' = [Responded 201 (HStatus "granted")] ∧ cslug ∈ GetHostAccessSlugs (u_ID u) (db s') ∧
  (has_slug (u_ID u) cslug (db s) ∧ db s' = db s ∨
   ¬ has_slug (u_ID u) cslug (db s) ∧ ∃ url jwt, (∃ d, d ∈ hosts (db s) ∧ is_cluster cslug d = true ∧ h_DirectNATSURL d = url) ∧
     db s' = set_hosts (hosts (db s) ++ [cluster_host e (u_ID u) cslug cslug url None "user" jwt]) (db s)).
Proof.
  intros Hok Hdb [Hd Hsg] Hu Hus Hb Hc Hcl Hid s'. unfold s', adminGrantCluster. rewrite Hdb, Hb. cbn [negb].
  apply String.eqb_neq in Hus as ->. unfold lookup_row. rewrite !Hd.
  destruct (first_row_exists (is_cluster cslug) (hosts (db s)) c) as [d Hdr]; [done..|]. rewrite Hdr. apply first_row_select in Hdr as [Hdh Hdc].
  rewrite (GetUserBySlug_user _ u) by done. unfold IssueHostJWTLegacy, issueJWT. rewrite Hsg.
  match goal with |- context [cluster_host e ?a ?b ?c ?d ?f ?g ?h] => set (row := cluster_host e a b c d f g h) end.
  assert (Hacc : ∀ t, has_slug (u_ID u) cslug t → cslug ∈ GetHostAccessSlugs (u_ID u) t).
  { intros t (h & Hh & Hhu & Hhs). apply GetHostAccessSlugs_elem. exists h. split; [done|]. split; [done|]. by left. }
  destruct (insert_or_nothing row (db s)) as [[Hs He]|[Hs He]]; [done|done|done|done|by apply (list_elem_of_fmap_2 u_ID)| |]; rewrite He.
  - split; [by apply replies_send|]. split; [by apply Hacc|]. left. split; [done|]. done.
  - split; [by apply replies_send|]. split; [apply Hacc; exists row; split; [cbn; apply elem_of_app; right; left|done]|].
    right. split; [done|]. do 2 eexists. split; [exists d; split; [done|by split]|]. reflexivity.
Qed.

(** ** Provisioning over SCIM *)

Lemma delete_where_none {A} (p : A → bool) l : (∀ x, x ∈ l → p x = false) → delete_where p l = l.
Proof.
  intros H. unfold delete_where. induction l as [|x l IH]; [done|]. cbn. rewrite (H x) by left. cbn. f_equal. apply IH. intros y Hy. apply H. by right.
Qed.

Definition local_host (hostID id : string) (now : Z) : Host :=
  {| h_ID := hostID; h_UserID := id; h_Slug := "local"; h_Name := "Local Machine"; h_Type := "machine"; h_Role := "owner";
     h_DirectNATSURL := None; h_PublicKey := None; h_UserJWT := None; h_NatsJWT := None; h_CreatedAt := now; h_LastSeenAt := None |}.

(** What the rows refer to. *)
Lemma foreign_refs t : tables_ok t = true →
  (∀ h, h ∈ hosts t → h_UserID h ∈ u_ID <$> users t) ∧
  (∀ a, a ∈ host_access t → a.1 ∈ h_ID <$> hosts t ∧ a.2 ∈ u_ID <$> users t) ∧
  (∀ p, p ∈ projects t → p_UserID p ∈ u_ID <$> users t ∧ p_HostID p ∈ h_ID <$> hosts t) ∧
  (∀ c, c ∈ agent_credentials t → ac_UserID c ∈ u_ID <$> users t) ∧
  (∀ a, a ∈ attachments t → (at_UserID a ∈ u_ID <$> users t ∧ at_HostID a ∈ h_ID <$> hosts t) ∧ at_ProjectID a ∈ p_ID <$> projects t).
Proof.
  intros Hok. apply andb_true_iff in Hok as [_ Hf]. unfold foreign_ok in Hf. rewrite !andb_true_iff in Hf. destruct Hf as ((((H1 & H2) & H3) & H4) & H5).
  split_and!; intros x Hx.
  - by apply memb_spec, (forallb_elem _ _ _ H1).
  - pose proof (forallb_elem _ _ _ H2 Hx) as H. cbn beta in H. by rewrite andb_true_iff, !memb_spec in H.
  - pose proof (forallb_elem _ _ _ H3 Hx) as H. cbn beta in H. by rewrite andb_true_iff, !memb_spec in H.
  - by apply memb_spec, (forallb_elem _ _ _ H4).
  - pose proof (forallb_elem _ _ _ H5 Hx) as H. cbn beta in H. by rewrite !andb_true_iff, !memb_spec in H.
Qed.

(** Nothing refers to an id that is not a user's, or not a host's. *)
Lemma foreign_users t id : tables_ok t = true → id ∉ u_ID <$> users t →
  (∀ h, h ∈ hosts t → h_UserID h ≠ id) ∧ (∀ a, a ∈ host_access t → a.2 ≠ id) ∧ (∀ p, p ∈ projects t → p_UserID p ≠ id) ∧
  (∀ c, c ∈ agent_credentials t → ac_UserID c ≠ id) ∧ (∀ a, a ∈ attachments t → at_UserID a ≠ id).
Proof.
  intros (Fh & Fa & Fp & Fc & Fat)%foreign_refs Hn. split_and!; intros x Hx Hid; apply Hn; rewrite <- Hid; [by apply Fh|by apply Fa|by apply Fp|by apply Fc|by apply Fat].
Qed.

Lemma foreign_hosts t hid : tables_ok t = true → hid ∉ h_ID <$> hosts t →
  (∀ a, a ∈ host_access t → a.1 ≠ hid) ∧ (∀ p, p ∈ projects t → p_HostID p ≠ hid) ∧ (∀ a, a ∈ attachments t → at_HostID a ≠ hid).
Proof.
  intros (Fh & Fa & Fp & Fc & Fat)%foreign_refs Hn. split_and!; intros x Hx Hid; apply Hn; rewrite <- Hid; [by apply Fa|by apply Fp|by apply Fat].
Qed.

(** The rows a creation adds. *)
Record user_created (u : User) (hid : string) (now : Z) (t t' : Tables) : Prop := {
  uc_new : u_ID u ∉ u_ID <$> users t;
  uc_ok : tables_ok t' = true;
  uc_rows : t' = set_users (users t ++ [u]) t ∨
            (hid ∉ h_ID <$> hosts t) ∧ t' = set_hosts (hosts t ++ [local_host hid (u_ID u) now]) (set_users (users t ++ [u]) t);
}.

Lemma CreateUser_inv d dh uid hid id email name hash now t u t' :
  tables_ok t = true → CreateUser d dh uid hid id email name hash now t = Ok (u, t') →
  user_created u hid now t t' ∧ u_ID u = id ∧ u_Email u = email ∧ u_Name u = name ∧ u_Slug u = computeUserSlug uid email.
Proof.
  intros Hok H. unfold CreateUser in H. cbv zeta in H. destruct (Exec d _ t) as [t1|] eqn:H1; [|done]. apply Exec_Ok in H1 as [Ht1 Hok1].
  assert (Hu : u = {| u_ID := id; u_Email := email; u_Name := name; u_PasswordHash := hash; u_IsAdmin := false; u_Slug := computeUserSlug uid email;
                      u_NKeyPublic := None; u_CreatedAt := now |}) by (destruct (ExecUpsertHost _ _ _ _); by injection H as <- _).
  rewrite <- Hu in Ht1. assert (Hid : u_ID u = id) by (by rewrite Hu). split; [|by rewrite Hu].
  assert (Hnew : u_ID u ∉ u_ID <$> users t).
  { pose proof Hok1 as (Hn & _)%tables_ok_users. rewrite Ht1 in Hn. cbn [users set_users] in Hn. rewrite fmap_app in Hn. apply NoDup_app in Hn as (_ & Hn & _).
    intros Hx. apply (Hn _ Hx). left. }
  destruct (ExecUpsertHost _ _ _ _) as [t2|] eqn:H2; injection H as _ <-; [|split; [done|done|by left]].
  apply ExecUpsertHost_Ok in H2 as [Ht2 Hok2]. split; [done|done|right]. fold (local_host hid id now) in Ht2. unfold UpsertHost, upsert in Ht2.
  destruct (existsb _ (hosts t1)) eqn:E.
  { exfalso. apply existsb_exists in E as (h & Hh%list_elem_of_In & [Hhu%String.eqb_eq _]%andb_true_iff). rewrite Ht1 in Hh. cbn in Hh.
    destruct (foreign_users t (u_ID u) Hok Hnew) as [Hf _]. apply (Hf h Hh). by rewrite Hid. }
  rewrite Ht2, Ht1, Hid. split; [|done]. pose proof Hok2 as (Hn & _)%tables_ok_hosts. rewrite Ht2, Ht1 in Hn. cbn [hosts set_hosts set_users] in Hn.
  rewrite fmap_app in Hn. apply NoDup_app in Hn as (_ & Hn & _). intros Hx. apply (Hn _ Hx). left.
Qed.

(** Deleting what a predicate picks among the new rows only. *)
Lemma delete_where_new {A} (p : A → bool) l new :
  (∀ x, x ∈ l → p x = false) → (∀ x, x ∈ new → p x = true) → delete_where p (l ++ new) = l ∧ List.filter p (l ++ new) = new.
Proof.
  intros Hl Hn. unfold delete_where. rewrite !List.filter_app. split.
  - change (delete_where p l ++ delete_where p new = l). rewrite (delete_where_none p l) by done.
    destruct (delete_where p new) as [|x k] eqn:E; [by rewrite app_nil_r|]. assert (Hx : x ∈ delete_where p new) by (rewrite E; left).
    apply delete_where_elem in Hx as [Hx Hp]. by rewrite Hn in Hp.
  - destruct (List.filter p l) as [|x k] eqn:E.
    + cbn. clear Hl E. induction new as [|y new IH]; [done|]. cbn. rewrite (Hn y) by left. f_equal. apply IH. intros z Hz. apply Hn. by right.
    + assert (Hx : x ∈ List.filter p l) by (rewrite E; left). apply select_elem in Hx as [Hx Hp]. by rewrite Hl in Hp.
Qed.

Lemma memb_none x (l : list string) : x ∉ l → memb x l = false.
Proof. intros H. by apply not_true_iff_false; rewrite memb_spec. Qed.

Lemma delete_projects_none p t : (∀ q, q ∈ projects t → p q = false) → delete_projects p t = t.
Proof.
  intros H. destruct (delete_where_new p (projects t) []) as [D F]; [done|by intros x Hx%elem_of_nil|]. rewrite app_nil_r in D, F.
  unfold delete_projects. rewrite D, F. rewrite delete_where_none by done. by destruct t.
Qed.

(** Hosts that nothing refers to. *)
Lemma delete_hosts_new p t l new :
  hosts t = l ++ new → (∀ h, h ∈ l → p h = false) → (∀ h, h ∈ new → p h = true) →
  (∀ q, q ∈ projects t → p_HostID q ∉ h_ID <$> new) → (∀ a, a ∈ host_access t → a.1 ∉ h_ID <$> new) →
  (∀ a, a ∈ attachments t → at_HostID a ∉ h_ID <$> new) → delete_hosts p t = set_hosts l t.
Proof.
  intros Hh Hl Hn Hp Ha Hat. destruct (delete_where_new p l new) as [D F]; [done..|]. unfold delete_hosts. rewrite Hh, F. cbv zeta.
  rewrite delete_projects_none by (intros q Hq; by apply memb_none, Hp). rewrite Hh, D.
  rewrite !delete_where_none; [by destruct t| |]; intros a Hin; apply memb_none; auto.
Qed.

(** Deleting the user again leaves what was there before. *)
Lemma delete_created u hid now t t' : tables_ok t = true → user_created u hid now t t' → DeleteUser (u_ID u) t' = t.
Proof.
  intros Hok [Hnew _ Hrows]. destruct (foreign_users t (u_ID u) Hok Hnew) as (Fh & Fa & Fp & Fc & Fat).
  destruct (delete_where_new (λ v, String.eqb (u_ID v) (u_ID u)) (users t) [u]) as [Du Fu].
  { intros v Hv. apply String.eqb_neq. intros Hx. apply Hnew. rewrite <- Hx. by apply list_elem_of_fmap_2. }
  { intros v ->%list_elem_of_singleton. apply String.eqb_refl. }
  assert (Hone : ∀ x, x ≠ u_ID u → memb x [u_ID u] = false) by (intros x Hx; apply memb_none; by rewrite list_elem_of_singleton).
  assert (Hd : delete_hosts (λ h, memb (h_UserID h) [u_ID u]) t' = set_users (users t ++ [u]) t ∧ users t' = users t ++ [u]).
  { destruct Hrows as [->|[Hhid ->]].
    - split; [|done]. rewrite (delete_hosts_new _ _ (hosts t) []); [by destruct t|by rewrite app_nil_r|auto|by intros x Hx%elem_of_nil|..];
        intros x _ Hx; by apply elem_of_nil in Hx.
    - split; [|done]. destruct (foreign_hosts t hid Hok Hhid) as (Ga & Gp & Gat).
      rewrite (delete_hosts_new _ _ (hosts t) [local_host hid (u_ID u) now]); [by destruct t|done|auto| |..].
      { intros x ->%list_elem_of_singleton. apply memb_spec. by apply list_elem_of_singleton. }
      all: intros x Hx Hi%list_elem_of_singleton; cbn in Hi; revert Hi; first [by apply Gp|by apply Ga|by apply Gat]. }
  destruct Hd as [Hd Hu]. unfold DeleteUser, delete_users. rewrite Hu, Fu. cbn [fmap list_fmap]. rewrite Hd. cbv zeta.
  rewrite delete_projects_none by (intros q Hq; by apply Hone, Fp). cbn [users host_access agent_credentials attachments set_users]. rewrite Du.
  rewrite !delete_where_none; [by destruct t| | |]; intros x Hx; apply Hone; auto.
Qed.

(** *** The round trip *)

(** What is between the quotes of a filter. *)
Lemma quoted_filter email : has_char "034"%char email = false → quoted ("userName eq " +:+ dquote +:+ email +:+ dquote) = Some email.
Proof.
  intros H. unfold quoted. change ("userName eq " +:+ dquote +:+ email +:+ dquote) with ("userName eq " +:+ String "034"%char (email +:+ String "034"%char "")).
  rewrite Split_app by done. by rewrite Split_app by done.
Qed.

Lemma scim_create_inv e body s id email name :
  tables_ok (db s) = true → Responded 201 (HScimUser id email name) ∈ replies s (scimCreateUser e body s) →
  ∃ u, user_created u (ce_uuid e "host") (ce_now e) (db s) (db (scimCreateUser e body s)) ∧ u_ID u = id ∧ u_Email u = email ∧ u_Name u = name ∧
    id = ce_uuid e "user" ∧ cf_db (config s) = true ∧ config (scimCreateUser e body s) = config s.
Proof.
  intros Hok. unfold scimCreateUser, http_error. destruct (cf_db (config s)) eqn:Hdb; [|refused]. cbn [negb].
  destruct (decode_body _ _ body) as [req|]; [|refused]. destruct (String.eqb (scim_email req) ""); [refused|].
  destruct (CreateUser _ _ _ _ _ _ _ _ _ _) as [[u t]|err] eqn:Hc; [|destruct (is_unique_error err); refused].
  intros H. apply answered_once in H; [|done]. injection H as -> -> ->. apply CreateUser_inv in Hc as (Hcr & Hid & _); [|done].
  exists u. cbn [http_json send set_db db config]. done.
Qed.

Lemma created_found u hid now t t' : user_created u hid now t t' → u ∈ users t'.
Proof. intros [_ _ [->|[_ ->]]]; cbn; apply elem_of_app; right; left. Qed.

(** A user provisioned over SCIM is found by the id that was answered and by
    the filter on the address, with the same data, and deleting it leaves the
    tables exactly as they were before, the default host included. *)
Theorem scim_roundtrip e e' body s id email name :
  let s' := scimCreateUser e body s in
  tables_ok (db s) = true → Responded 201 (HScimUser id email name) ∈ replies s s' → (∀ c, ce_down e' c = false) →
  replies s' (scimGetUser e' id s') = [Responded 200 (HScimUser id email name)] ∧
  (has_char "034"%char email = false →
   replies s' (scimListUsers e' ("userName eq " +:+ dquote +:+ email +:+ dquote) s') = [Responded 200 (HScimUsers [(id, email, name)])]) ∧
  replies s' (scimDeleteUser e' id s') = [Responded 204 HEmpty] ∧ db (scimDeleteUser e' id s') = db s.
Proof.
  intros s' Hok H Hd. apply scim_create_inv in H as (u & Hcr & <- & <- & <- & Hid & Hdb & Hc); [|done]. fold s' in Hcr, Hc.
  pose proof (created_found _ _ _ _ _ Hcr) as Hu. pose proof (uc_ok _ _ _ _ _ Hcr) as Hok'. unfold scimGetUser, scimListUsers, scimDeleteUser, lookup_row.
  rewrite !Hc, !Hdb, !Hd, (GetUserByID_user _ u) by done. cbn [negb]. split; [by apply replies_send|]. split.
  - intros Hq. assert (Contains ("userName eq " +:+ dquote +:+ u_Email u +:+ dquote) "userName eq" = true) as -> by reflexivity.
    rewrite quoted_filter by done.
    destruct (first_row_exists (λ v, String.eqb (u_Email v) (u_Email u)) (users (db s')) u) as [v E]; [done|by apply String.eqb_eq|].
    unfold GetUserByEmail. rewrite E. apply first_row_select in E as [Hv Hve%String.eqb_eq].
    assert (v = u) as -> by (apply (unique_key u_Email (users (db s'))); [by apply tables_ok_emails|done..]). by apply replies_send.
  - assert (Hdel : DeleteUser (u_ID u) (db s') = db s) by (by eapply delete_created). rewrite Exec_success by (by rewrite Hdel). rewrite Hdel.
    split; [by apply replies_send|done].
Qed.

(** ** The break-glass stop *)

Context `{JT : JsonText, GT : GoTime, NS : NatsServer}.

Lemma GetProjectByID_project t p h : tables_ok t = true → p ∈ projects t → h ∈ hosts t → h_ID h = p_HostID p →
  GetProjectByID (p_ID p) t = Some (p, h_Slug h).
Proof.
  intros Hok Hp Hh Hi. pose proof Hok as (Hids & _)%tables_ok_hosts. assert (Hpids : NoDup (p_ID <$> projects t)).
  { unfold tables_ok, unique_ok in Hok. rewrite !andb_true_iff, !uniqueb_NoDup in Hok. tauto. }
  destruct (foreign_project t p Hok Hp) as (g & Hg & Hgi & Hj). assert (g = h) as -> by (apply (unique_key h_ID (hosts t)); [done..|congruence]).
  unfold GetProjectByID. destruct (first_row _) as [r|] eqn:E.
  - apply first_row_in, list_elem_of_fmap in E as (q & -> & [Hq Hqi%String.eqb_eq]%select_elem).
    assert (q = p) as -> by (by apply (unique_key p_ID (projects t))). by rewrite Hj.
  - apply first_row_none in E. assert (Hin : join_host t p ∈ join_host t <$> select (λ q, String.eqb (p_ID q) (p_ID p)) (projects t)).
    { apply list_elem_of_fmap_2, select_elem. by rewrite String.eqb_refl. }
    rewrite E in Hin. by apply elem_of_nil in Hin.
Qed.

(** The agent of a project on a host. *)
Definition agent_of (u : User) (p : Project) (h : Host) (a : Agent) : Prop :=
  config_wf (cfg a) ∧ ag_userSlug (cfg a) = u_Slug u ∧ ag_hostSlug (cfg a) = h_Slug h ∧ ag_projectSlug (cfg a) = p_Slug p.

Lemma agent_of_slugs u p h a : agent_of u p h a → Validate (u_Slug u) = None ∧ Validate (h_Slug h) = None ∧ Validate (p_Slug p) = None.
Proof. intros ((? & ? & ?) & <- & <- & <-). done. Qed.

Lemma valid_nonempty x : Validate x = None → String.eqb x "" = false.
Proof. intros H. apply String.eqb_neq. by intros ->. Qed.

(** The message is published when user, project and host are known. *)
Lemma adminStopSession_sent e body s u p h a sid :
  let req := {| ss_UserID := u_ID u; ss_ProjectID := p_ID p; ss_SessionID := sid |} in
  decode_body (dec_struct AdminSessionStopRequest_fields) {| ss_UserID := ""; ss_ProjectID := ""; ss_SessionID := "" |} body = Some req →
  u_ID u ≠ ""%string → p_ID p ≠ ""%string → sid ≠ ""%string → tables_ok (db s) = true → cf_db (config s) = true → cf_nc (config s) = true →
  (∀ c, ce_down e c = false) → u ∈ users (db s) → p ∈ projects (db s) → h ∈ hosts (db s) → h_ID h = p_HostID p → agent_of u p h a →
  let m := stop_message e (u_Slug u) (h_Slug h) (p_Slug p) sid in
  replies s (adminStopSession e body s) = [ControlServer.Published m.1 m.2; Responded 202 (HStatus "accepted")].
Proof.
  intros req Hb H1 H2 H3 Hok Hdb Hnc Hd Hu Hp Hh Hi (Hvu & Hvh & Hvp)%agent_of_slugs m. unfold adminStopSession. rewrite Hb. cbn [req ss_UserID ss_ProjectID ss_SessionID].
  apply String.eqb_neq in H1 as ->, H2 as ->, H3 as ->. cbn [orb]. unfold publish_stop, lookup_row. rewrite Hnc, Hdb, !Hd. cbn [andb req ss_UserID ss_ProjectID ss_SessionID].
  rewrite (GetUserByID_user _ u), (GetProjectByID_project _ p h) by done. rewrite !valid_nonempty by done. cbn [negb andb].
  unfold replies, http_json, ControlServer.send. cbn [sent]. by rewrite <- app_assoc, drop_app_length.
Qed.

(** The administrators' stop of a session of a project, with the server's
    dependencies up, is received by the command consumer of the agent of the
    project and dispatched to the deletion of sessions: a running session with
    that id ends and is forgotten.  An id the agent does not know, the slug of
    a session included, is accepted all the same and stops nothing. *)
Theorem stop_reaches_session e body s u p h a sid :
  let req := {| ss_UserID := u_ID u; ss_ProjectID := p_ID p; ss_SessionID := sid |} in
  decode_body (dec_struct AdminSessionStopRequest_fields) {| ss_UserID := ""; ss_ProjectID := ""; ss_SessionID := "" |} body = Some req →
  u_ID u ≠ ""%string → p_ID p ≠ ""%string → Validate sid = None → tables_ok (db s) = true → cf_db (config s) = true → cf_nc (config s) = true →
  (∀ c, ce_down e c = false) → u ∈ users (db s) → p ∈ projects (db s) → h ∈ hosts (db s) → h_ID h = p_HostID p → agent_of u p h a →
  parses (stop_message e (u_Slug u) (h_Slug h) (p_Slug p) sid).2 →
  ∃ subject payload, replies s (adminStopSession e body s) = [ControlServer.Published subject payload; Responded 202 (HStatus "accepted")] ∧
    cmd_receives (cfg a) subject = true ∧ dispatchCmd subject = HDelete ∧
    let msg := {| m_subject := subject; m_data := json_print payload; m_reply := false |} in
    ∀ ev order,
      (∀ r, Agent.sessions a !! sid = Some r → as_started r = true → as_stopClosed r = false →
        ∃ a', run_handler ev order HDelete msg a = Done a' ∧ Agent.sessions a' = delete sid (Agent.sessions a)) ∧
      (Agent.sessions a !! sid = None → ∃ a', run_handler ev order HDelete msg a = Done a' ∧ Agent.sessions a' = Agent.sessions a).
Proof.
  intros req Hb H1 H2 Hsid Hok Hdb Hnc Hd Hu Hp Hh Hi Ha Hparse. pose proof (agent_of_slugs _ _ _ _ Ha) as (Hvu & Hvh & Hvp).
  assert (Hne : sid ≠ ""%string) by (by apply valid_nonempty, String.eqb_neq in Hsid).
  exists (stop_message e (u_Slug u) (h_Slug h) (p_Slug p) sid).1, (stop_message e (u_Slug u) (h_Slug h) (p_Slug p) sid).2.
  split; [by apply (adminStopSession_sent e body s u p h a sid)|]. cbn [stop_message fst snd].
  destruct Ha as (Hwf & Hcu & Hch & Hcp). split.
  { change (UserHostProjectSessionsDelete ?u ?h ?p ?x) with (render (SDelete u h p x)). rewrite cmd_receives_tokens by (done || by repeat constructor).
    unfold filter_tails. cbn [existsb subject_tokens]. rewrite !(under_match (cfg a)) by done. rewrite !bool_decide_true by done. cbn. by rewrite ?andb_false_r, ?orb_true_r. }
  split; [exact (proj1 (proj2 (dispatchCmd_session (u_Slug u) (h_Slug h) (p_Slug p) sid)))|]. intros ev order. set (msg := {| m_subject := _ |}).
  assert (Hdec : decodes_delete msg sid (ce_uuid e "request")).
  { unfold decodes_delete, unmarshal_into. unfold parses in Hparse. cbn [m_data msg]. cbn [stop_message snd] in Hparse. rewrite Hparse. reflexivity. }
  split.
  - intros r Hr Hst Ho. destruct (handleDelete_running ev msg a sid _ r Hdec Hne Hr Hst Ho) as (a' & pl & Hx & Hs & _). by exists a'.
  - intros Hn. cbn [run_handler]. unfold handleDelete. rewrite Hdec. apply String.eqb_neq in Hne. rewrite Hne, Hn. cbn [negb orb].
    eexists. split; [done|]. reflexivity.
Qed.

End spec.

(** ** Examples *)

Module AdminDemo.
Definition requests : list (string * json) := [
  ("register hub", JObj [("slug", JStr "hub"); ("directNatsUrl", JStr "wss://hub")]);
  ("challenge hub", JObj [("nkey_public", JStr "first-nkey")]);
  ("bob", JObj [("userSlug", JStr "bob")]);
  ("stop a", JObj [("userId", JStr "id-alice"); ("projectId", JStr "proj-1"); ("sessionId", JStr "a")]);
  ("carol", JObj [("userName", JStr "carol@example.com"); ("name", JObj [("givenName", JStr "Carol"); ("familyName", JStr "Doe")])])].
#[local] Instance stream : JsonStream := {| json_first s := snd <$> find_first (λ kv, String.eqb kv.1 s) requests |}.
#[local] Existing Instances demo_pg demo_nkeys demo_tables demo_norm demo_tokens doc_nats_server AgentDemo.time.
Definition hashes : BcryptHash := {| bcrypt_hash p := Some ("hash of " +:+ p) |}.

Definition deleted : Server := adminDeleteUser (env_at 100) "id-alice" server.
Definition first_env : cp_env := {| ce_now := 100 * Second; ce_uuid r := "first-" +:+ r; ce_uuidBytes := []; ce_nonce := None; ce_down c := false; ce_signErr := false;
  ce_revokeErr k := false; ce_kvErr k := false; ce_provision s := None; ce_connection i := None; ce_http m u h := None |}.
Definition registered_hub : Server := adminRegisterCluster first_env "register hub" server.
Definition hub_token : jwt_claims := {| jc_PublicKey := "first-nkey"; jc_Name := "host-*-hub"; jc_Expires := Some 400; jc_IssuedAt := 100;
  jc_Perms := HostSubjectPermissions "hub" |}.
Definition granted : Server := adminGrantCluster (env_at 200) "hub" "bob" (set_db (db registered_hub) server).
Definition hub_row : Host := cluster_host first_env "id-alice" "hub" "hub" (Some "wss://hub"%string) (Some "first-cluster nkey"%string) "owner" hub_token.
Definition carol : Server := scimCreateUser (env_at 100) "carol" server.
Definition stop : json := (stop_message (env_at 100) "alice" "laptop" "web" "a").2.
Definition text : JsonText := table_json [(print_plain stop, stop)].
End AdminDemo.

#[local] Existing Instances demo_pg demo_nkeys demo_tables demo_norm demo_tokens doc_nats_server AgentDemo.time AdminDemo.stream.

Lemma demo_slugs : slugs_given tables.
Proof. repeat split; repeat (constructor; [discriminate|]); constructor. Qed.


Lemma deleted_user_token_accepted_witness :
  authMiddleware (env_at 200) "Bearer t-alice" "/api/users/bob/hosts" (λ userID s, http_json 200 (HStatus userID) s) AdminDemo.deleted =
  http_json 200 (HStatus "id-alice") AdminDemo.deleted.
Proof.
  apply (deleted_user_token_accepted (env_at 100) (env_at 200) "Bearer t-alice" "/api/users/bob/hosts" (λ userID s, http_json 200 (HStatus userID) s) server alice alice_claims);
    try reflexivity; try discriminate; [exact demo_slugs|left|]. split; [discriminate|reflexivity].
Defined.

Lemma registered_cluster_locked_out_witness :
  handleAuthChallenge (env_at 200) "POST" "challenge hub" AdminDemo.registered_hub =
  http_json 404 (verify_error "unknown public key" "NOT_FOUND") AdminDemo.registered_hub.
Proof.
  apply (registered_cluster_locked_out AdminDemo.first_env "register hub" server "hub" AdminDemo.hub_token "ACCOUNT" "wss://hub" (env_at 200) "challenge hub").
  - vm_compute. left.
  - discriminate.
  - discriminate.
  - assert (Hu : Forall (λ v, u_NKeyPublic v ≠ Some "first-nkey"%string) (users tables)) by (repeat (constructor; [discriminate|]); constructor).
    assert (Hh : Forall (λ h, h_PublicKey h ≠ Some "first-nkey"%string) (hosts tables)) by (repeat (constructor; [discriminate|]); constructor).
    assert (Hc : Forall (λ c, ac_NKeyPublic c ≠ "first-nkey"%string) (agent_credentials tables)) by (repeat (constructor; [discriminate|]); constructor).
    rewrite Forall_forall in Hu. rewrite Forall_forall in Hh. rewrite Forall_forall in Hc.
    intros [(v & Hv & Hk)|[(h & Hin & Hk)|(c & Hin & Hk)]]; [exact (Hu v Hv Hk)|exact (Hh h Hin Hk)|exact (Hc c Hin Hk)].
  - reflexivity.
Defined.

Lemma grant_cluster_exact_witness :
  let s := set_db (db AdminDemo.registered_hub) server in
  replies s AdminDemo.granted = [Responded 201 (HStatus "granted")] ∧ "hub"%string ∈ GetHostAccessSlugs "id-bob" (db AdminDemo.granted).
Proof.
  intros s. destruct (grant_cluster_exact (env_at 200) "hub" "bob" s bob AdminDemo.hub_row) as (H1 & H2 & _);
    [vm_compute; reflexivity|reflexivity|by split|right; left|discriminate|reflexivity| |reflexivity| |by split].
  - vm_compute. do 3 right. left.
  - assert (Hu : Forall (λ h, h_ID h ≠ "uuid-host"%string) (hosts (db s))) by (repeat (constructor; [discriminate|]); constructor).
    rewrite Forall_forall in Hu. intros (h & He & Hh)%list_elem_of_fmap. exact (Hu h Hh (eq_sym He)).
Defined.

Lemma scim_roundtrip_witness :
  replies AdminDemo.carol (scimListUsers (env_at 200) ("userName eq " +:+ dquote +:+ "carol@example.com" +:+ dquote) AdminDemo.carol) =
    [Responded 200 (HScimUsers [("uuid-user", "carol@example.com", "Carol Doe")%string])] ∧ db (scimDeleteUser (env_at 200) "uuid-user" AdminDemo.carol) = tables.
Proof.
  destruct (scim_roundtrip (env_at 100) (env_at 200) "carol" server "uuid-user" "carol@example.com" "Carol Doe") as (_ & H1 & _ & H2);
    [vm_compute; reflexivity|vm_compute; left|reflexivity|]. split; [by apply H1|exact H2].
Defined.

Lemma stop_reaches_session_witness :
  ∃ subject payload a', let msg := {| m_subject := subject; m_data := json_print (JsonText := AdminDemo.text) payload; m_reply := false |} in
    replies server (adminStopSession (env_at 100) "stop a" server) = [ControlServer.Published subject payload; Responded 202 (HStatus "accepted")] ∧
    run_handler (JT := AdminDemo.text) AgentDemo.world [] HDelete msg AgentDemo.agent = Done a' ∧ Agent.sessions a' !! "a"%string = None.
Proof.
  destruct (stop_reaches_session (JT := AdminDemo.text) (env_at 100) "stop a" server alice (mk_project "proj-1" "id-alice" "web" "host-1") laptop AgentDemo.agent "a")
    as (subject & payload & H1 & _ & _ & H2); try reflexivity; try discriminate; try by left.
  - repeat split; vm_compute; reflexivity.
  - destruct (H2 AgentDemo.world []) as [H3 _]. destruct (H3 (AgentDemo.running "a")) as (a' & Ha & Hs); [reflexivity..|].
    exists subject, payload, a'. split; [exact H1|]. split; [exact Ha|]. rewrite Hs. apply lookup_delete_eq.
Defined.
