(* ===== verification/RelayUsers.v ===== *)
(** * Users of the relay (mclaude-relay: users.go, admin.go)

    The relay's users with their bearer tokens and the laptops they may reach,
    kept in a JSON file, and the administrators' requests on them. *)

From stdpp Require Import sorting.
From S2P Require Import Prelude GoStrings Json.

(** ** Users *)

Record User := {
  ru_ID : string; ru_Name : string; ru_Email : string; ru_Token : string; ru_Laptops : list string; ru_Role : string;
  ru_Source : string; ru_Disabled : bool;
}.

Notation UserStore := (gmap string User).

(** What the calls of a request answer: the ids and tokens drawn, and whether the
    file can be written. *)
Record users_env := { ue_id : string; ue_token : string; ue_saveErr : bool }.

Definition zero_User : User :=
  {| ru_ID := ""; ru_Name := ""; ru_Email := ""; ru_Token := ""; ru_Laptops := []; ru_Role := ""; ru_Source := ""; ru_Disabled := false |}.

(** Fields of an update; the empty string, the nil slice and the nil pointer leave
    a field alone. *)
Record user_update := { uu_Name : string; uu_Email : string; uu_Role : string; uu_Laptops : option (list string); uu_Disabled : option bool }.

Definition updated (x : user_update) (u : User) : User :=
  {| ru_ID := ru_ID u; ru_Name := if String.eqb (uu_Name x) "" then ru_Name u else uu_Name x;
     ru_Email := if String.eqb (uu_Email x) "" then ru_Email u else uu_Email x; ru_Token := ru_Token u;
     ru_Laptops := default (ru_Laptops u) (uu_Laptops x); ru_Role := if String.eqb (uu_Role x) "" then ru_Role u else uu_Role x;
     ru_Source := ru_Source u; ru_Disabled := default (ru_Disabled u) (uu_Disabled x) |}.

Definition with_token (token : string) (u : User) : User :=
  {| ru_ID := ru_ID u; ru_Name := ru_Name u; ru_Email := ru_Email u; ru_Token := token; ru_Laptops := ru_Laptops u; ru_Role := ru_Role u;
     ru_Source := ru_Source u; ru_Disabled := ru_Disabled u |}.

(** A laptops list with "*" is access to all of them. *)
Definition CanAccessLaptop (user : User) (hostname : string) : bool :=
  existsb (λ l, String.eqb l "*" || String.eqb l hostname) (ru_Laptops user).

(** The store and the content of its file. *)
Record store := { st_users : UserStore; st_file : option string }.

Section users.
Context `{JT : JsonText, MR : MapRange}.

(** Some enabled user with the token. *)
Definition Authenticate (token : string) (s : store) : option User :=
  range_first (List.filter (λ u, String.eqb (ru_Token u) token && negb (ru_Disabled u)) (map_to_list (st_users s)).*2).

(** ** The file *)

Definition omitempty (name value : string) : list (string * json) := if String.eqb value "" then [] else [(name, JStr value)].

Definition user_json (u : User) : json :=
  JObj ([("id"%string, JStr (ru_ID u)); ("name"%string, JStr (ru_Name u))] ++ omitempty "email" (ru_Email u) ++
        [("token"%string, JStr (ru_Token u)); ("laptops"%string, JArr (JStr <$> ru_Laptops u)); ("role"%string, JStr (ru_Role u))] ++
        omitempty "source" (ru_Source u) ++ (if ru_Disabled u then [("disabled"%string, JBool true)] else [])).

Definition User_fields : list (field User) :=
  [ fld "id" dec_string ru_ID (λ v u, {| ru_ID := v; ru_Name := ru_Name u; ru_Email := ru_Email u; ru_Token := ru_Token u; ru_Laptops := ru_Laptops u; ru_Role := ru_Role u; ru_Source := ru_Source u; ru_Disabled := ru_Disabled u |});
    fld "name" dec_string ru_Name (λ v u, {| ru_ID := ru_ID u; ru_Name := v; ru_Email := ru_Email u; ru_Token := ru_Token u; ru_Laptops := ru_Laptops u; ru_Role := ru_Role u; ru_Source := ru_Source u; ru_Disabled := ru_Disabled u |});
    fld "email" dec_string ru_Email (λ v u, {| ru_ID := ru_ID u; ru_Name := ru_Name u; ru_Email := v; ru_Token := ru_Token u; ru_Laptops := ru_Laptops u; ru_Role := ru_Role u; ru_Source := ru_Source u; ru_Disabled := ru_Disabled u |});
    fld "token" dec_string ru_Token (λ v u, with_token v u);
    fld "laptops" (dec_slice ""%string dec_string) ru_Laptops (λ v u, {| ru_ID := ru_ID u; ru_Name := ru_Name u; ru_Email := ru_Email u; ru_Token := ru_Token u; ru_Laptops := v; ru_Role := ru_Role u; ru_Source := ru_Source u; ru_Disabled := ru_Disabled u |});
    fld "role" dec_string ru_Role (λ v u, {| ru_ID := ru_ID u; ru_Name := ru_Name u; ru_Email := ru_Email u; ru_Token := ru_Token u; ru_Laptops := ru_Laptops u; ru_Role := v; ru_Source := ru_Source u; ru_Disabled := ru_Disabled u |});
    fld "source" dec_string ru_Source (λ v u, {| ru_ID := ru_ID u; ru_Name := ru_Name u; ru_Email := ru_Email u; ru_Token := ru_Token u; ru_Laptops := ru_Laptops u; ru_Role := ru_Role u; ru_Source := v; ru_Disabled := ru_Disabled u |});
    fld "disabled" dec_bool ru_Disabled (λ v u, {| ru_ID := ru_ID u; ru_Name := ru_Name u; ru_Email := ru_Email u; ru_Token := ru_Token u; ru_Laptops := ru_Laptops u; ru_Role := ru_Role u; ru_Source := ru_Source u; ru_Disabled := v |}) ].

Definition users_json (m : UserStore) : json := marshal_map (user_json <$> m).

(** The file is left as it was when it cannot be written. *)
Definition save (e : users_env) (m : UserStore) (s : store) : store :=
  {| st_users := m; st_file := if ue_saveErr e then st_file s else Some (json_print (users_json m)) |}.

(** [load]: the members decoded before an error stay; a file that is not there or
    does not parse leaves the store empty.  A member [null] would be a nil
    pointer; [save] writes none. *)
Definition load (file : option string) : UserStore :=
  match file with
  | None => ∅
  | Some text =>
    match json_parse text with
    | Some (JObj l) => list_to_map (reverse ((λ kv : string * json, (kv.1, (dec_struct User_fields kv.2 zero_User).1)) <$> l))
    | _ => ∅
    end
  end.

Definition NewUserStore (file : option string) : store := {| st_users := load file; st_file := file |}.

(** ** Operations *)

Definition CreateUserWithToken (e : users_env) (name email role token : string) (laptops : list string) (s : store) : User * store :=
  let u := {| ru_ID := ue_id e; ru_Name := name; ru_Email := email; ru_Token := token; ru_Laptops := laptops; ru_Role := role;
              ru_Source := "managed"; ru_Disabled := false |} in
  (u, save e (<[ru_ID u := u]> (st_users s)) s).

Definition CreateUser (e : users_env) (name email role : string) (laptops : list string) (s : store) : User * store :=
  CreateUserWithToken e name email role (ue_token e) laptops s.

Definition UpdateUser (e : users_env) (id : string) (x : user_update) (s : store) : option (User * store) :=
  match st_users s !! id with
  | None => None
  | Some u => let u := updated x u in Some (u, save e (<[id := u]> (st_users s)) s)
  end.

Definition DeleteUser (e : users_env) (id : string) (s : store) : option store :=
  match st_users s !! id with
  | None => None
  | Some _ => Some (save e (delete id (st_users s)) s)
  end.

Definition RotateToken (e : users_env) (id : string) (s : store) : option (User * store) :=
  match st_users s !! id with
  | None => None
  | Some u => let u := with_token (ue_token e) u in Some (u, save e (<[id := u]> (st_users s)) s)
  end.

Definition IsEmpty (s : store) : bool := match map_to_list (st_users s) with [] => true | _ => false end.

(** The start of the relay: an administrator with the legacy token for an empty
    store. *)
Definition bootstrap (e : users_env) (webToken : string) (s : store) : store :=
  if IsEmpty s && negb (String.eqb webToken "") then (CreateUserWithToken e "Admin" "" "admin" webToken ["*"%string] s).2 else s.

(** ** Authentication *)

(** The user of the legacy token. *)
Definition legacy_user : User :=
  {| ru_ID := "legacy"; ru_Name := "Admin (legacy token)"; ru_Email := ""; ru_Token := ""; ru_Laptops := ["*"%string]; ru_Role := "admin";
     ru_Source := "byoc"; ru_Disabled := false |}.

Definition authenticate (legacyWebToken token : string) (s : store) : option User :=
  if String.eqb token "" then None
  else
    match Authenticate token s with
    | Some u => Some u
    | None => if negb (String.eqb legacyWebToken "") && String.eqb token legacyWebToken then Some legacy_user else None
    end.

(** ** The administrators' requests *)

Inductive admin_reply :=
| AErr (status : Z) (msg : string)
| AUser (status : Z) (u : User)
| AUsers (l : list User)
| AMe (u : User)
| ADeleted
| ANewToken (id name token : string).

(** A token is shown by its last eight bytes. *)
Definition redact (u : User) : User :=
  if (8 <? String.length (ru_Token u))%nat then with_token ("…" +:+ drop_str (String.length (ru_Token u) - 8) (ru_Token u)) u else u.

(** The bodies of a creation and an update. *)
Definition update_fields : list (field user_update) :=
  [ fld "name" dec_string uu_Name (λ v x, {| uu_Name := v; uu_Email := uu_Email x; uu_Role := uu_Role x; uu_Laptops := uu_Laptops x; uu_Disabled := uu_Disabled x |});
    fld "email" dec_string uu_Email (λ v x, {| uu_Name := uu_Name x; uu_Email := v; uu_Role := uu_Role x; uu_Laptops := uu_Laptops x; uu_Disabled := uu_Disabled x |});
    fld "role" dec_string uu_Role (λ v x, {| uu_Name := uu_Name x; uu_Email := uu_Email x; uu_Role := v; uu_Laptops := uu_Laptops x; uu_Disabled := uu_Disabled x |});
    fld "laptops" (dec_pointer [] (dec_slice ""%string dec_string)) uu_Laptops (λ v x, {| uu_Name := uu_Name x; uu_Email := uu_Email x; uu_Role := uu_Role x; uu_Laptops := v; uu_Disabled := uu_Disabled x |}) ].
Definition disabled_field : field user_update :=
  fld "disabled" (dec_pointer false dec_bool) uu_Disabled (λ v x, {| uu_Name := uu_Name x; uu_Email := uu_Email x; uu_Role := uu_Role x; uu_Laptops := uu_Laptops x; uu_Disabled := v |}).
Definition zero_update : user_update := {| uu_Name := ""; uu_Email := ""; uu_Role := ""; uu_Laptops := None; uu_Disabled := None |}.

Definition adminCreateUser (e : users_env) (body : string) (s : store) : admin_reply * store :=
  match unmarshal (dec_struct update_fields) zero_update (LimitRead (1024 * 1024) body) with
  | None => (AErr 400 "invalid JSON", s)
  | Some x =>
    if String.eqb (uu_Name x) "" then (AErr 400 "name is required", s)
    else
      let role := if String.eqb (uu_Role x) "" then "user"%string else uu_Role x in
      let '(u, s) := CreateUser e (uu_Name x) (uu_Email x) role (default [] (uu_Laptops x)) s in
      (AUser 201 u, s)
  end.

Definition adminUpdateUser (e : users_env) (id body : string) (s : store) : admin_reply * store :=
  match unmarshal (dec_struct (update_fields ++ [disabled_field])) zero_update (LimitRead (1024 * 1024) body) with
  | None => (AErr 400 "invalid JSON", s)
  | Some x =>
    match UpdateUser e id x s with
    | None => (AErr 404 "user not found", s)
    | Some (u, s) => (AUser 200 (with_token "" u), s)
    end
  end.

Definition adminDeleteUser (e : users_env) (id : string) (s : store) : admin_reply * store :=
  match DeleteUser e id s with None => (AErr 404 "user not found", s) | Some s => (ADeleted, s) end.

Definition adminGetUser (id : string) (s : store) : admin_reply * store :=
  match st_users s !! id with None => (AErr 404 "user not found", s) | Some u => (AUser 200 (redact u), s) end.

Definition adminRotateToken (e : users_env) (id : string) (s : store) : admin_reply * store :=
  match RotateToken e id s with
  | None => (AErr 404 "user not found", s)
  | Some (u, s) => (ANewToken (ru_ID u) (ru_Name u) (ru_Token u), s)
  end.

(** In the order of the map. *)
Definition adminListUsers (s : store) : admin_reply * store := (AUsers (redact <$> (map_to_list (st_users s)).*2), s).

Definition HandleAdminUsers (e : users_env) (user : option User) (method path body : string) (s : store) : admin_reply * store :=
  match user with
  | None => (AErr 401 "unauthorized", s)
  | Some user =>
    if negb (String.eqb (ru_Role user) "admin") then (AErr 403 "forbidden: admin role required", s)
    else if String.eqb path "/admin/users" && String.eqb method "POST" then adminCreateUser e body s
    else if String.eqb path "/admin/users" && String.eqb method "GET" then adminListUsers s
    else
      let trimmed := TrimPrefix path "/admin/users/" in
      if String.eqb trimmed path then (AErr 404 "not found", s)
      else
        match SplitN 2 trimmed with
        | [userID; rest] =>
          if String.eqb rest "rotate-token" && String.eqb method "POST" then adminRotateToken e userID s else (AErr 404 "not found", s)
        | [userID] =>
          if String.eqb method "PUT" then adminUpdateUser e userID body s
          else if String.eqb method "DELETE" then adminDeleteUser e userID s
          else if String.eqb method "GET" then adminGetUser userID s
          else (AErr 404 "not found", s)
        | _ => (AErr 404 "not found", s)
        end
  end.

Definition HandleAuthMe (user : option User) : admin_reply := match user with None => AErr 401 "unauthorized" | Some u => AMe u end.

End users.
