(* ===== verification/Relay.v ===== *)
(** * The relay (mclaude-relay: relay.go, main.go)

    The relay joins browsers to laptops that are not reachable: the connector of
    every laptop keeps a tunnel open, over which the relay multiplexes HTTP
    requests, WebSockets and terminals.  A handler is a function on the relay's
    state; a request that waits for a laptop is registered and finished by a
    later step (the laptop's answer, the end of the tunnel or a timeout).  The
    writes of a handler to several tunnels are listed in the order of the map;
    the program's order is unspecified. *)

From S2P Require Import Prelude GoStrings Base64 Json RelayUsers.
Open Scope Z_scope.
Open Scope go_scope.

(** ** Messages *)

(** Both ends encode the struct as JSON; [None] stands for no message. *)
Record TunnelMsg := {
  tm_Type : string; tm_ID : string;
  tm_Method : string; tm_Path : string; tm_Query : string; tm_Headers : list (string * list string); tm_Body : string;
  tm_Status : Z; tm_Data : string; tm_Binary : bool; tm_Code : Z; tm_Reason : string; tm_Rows : Z; tm_Cols : Z; tm_Command : string;
}.

Definition tunnel_msg (type id data : string) (binary : bool) (code : Z) (reason : string) : TunnelMsg :=
  {| tm_Type := type; tm_ID := id; tm_Method := ""; tm_Path := ""; tm_Query := ""; tm_Headers := []; tm_Body := ""; tm_Status := 0; tm_Data := data;
     tm_Binary := binary; tm_Code := code; tm_Reason := reason; tm_Rows := 0; tm_Cols := 0; tm_Command := "" |}.
Definition http_request (id method path query : string) (headers : list (string * list string)) (body : string) : TunnelMsg :=
  {| tm_Type := "http_request"; tm_ID := id; tm_Method := method; tm_Path := path; tm_Query := query; tm_Headers := headers; tm_Body := body;
     tm_Status := 0; tm_Data := ""; tm_Binary := false; tm_Code := 0; tm_Reason := ""; tm_Rows := 0; tm_Cols := 0; tm_Command := "" |}.
Definition http_response (id : string) (status : Z) (headers : list (string * list string)) (body : string) : TunnelMsg :=
  {| tm_Type := "http_response"; tm_ID := id; tm_Method := ""; tm_Path := ""; tm_Query := ""; tm_Headers := headers; tm_Body := body;
     tm_Status := status; tm_Data := ""; tm_Binary := false; tm_Code := 0; tm_Reason := ""; tm_Rows := 0; tm_Cols := 0; tm_Command := "" |}.
Definition ws_connect (id query : string) : TunnelMsg :=
  {| tm_Type := "ws_connect"; tm_ID := id; tm_Method := ""; tm_Path := ""; tm_Query := query; tm_Headers := []; tm_Body := ""; tm_Status := 0;
     tm_Data := ""; tm_Binary := false; tm_Code := 0; tm_Reason := ""; tm_Rows := 0; tm_Cols := 0; tm_Command := "" |}.
Definition ws_message (id data : string) (binary : bool) : TunnelMsg := tunnel_msg "ws_message" id data binary 0 "".
Definition ws_close (id : string) (code : Z) (reason : string) : TunnelMsg := tunnel_msg "ws_close" id "" false code reason.
Definition pty_data (id data : string) : TunnelMsg := tunnel_msg "pty_data" id data false 0 "".
Definition pty_close (id reason : string) : TunnelMsg := tunnel_msg "pty_close" id "" false 0 reason.
Definition pty_size (type id : string) (rows cols : Z) (command : string) : TunnelMsg :=
  {| tm_Type := type; tm_ID := id; tm_Method := ""; tm_Path := ""; tm_Query := ""; tm_Headers := []; tm_Body := ""; tm_Status := 0; tm_Data := "";
     tm_Binary := false; tm_Code := 0; tm_Reason := ""; tm_Rows := rows; tm_Cols := cols; tm_Command := command |}.

(** ** Requests and answers *)

(** An HTTP request, identified by a number: [hq_Query] are the parameters of the
    raw query, names of headers are in canonical form. *)
Record http_req := {
  hq_rid : nat; hq_Method : string; hq_Path : string; hq_RawQuery : string; hq_Query : string → string;
  hq_Headers : list (string * list string); hq_Body : string;
}.

Definition header_Get (name : string) (hs : list (string * list string)) : string :=
  match find_first (λ kv, String.eqb kv.1 name) hs with Some (_, v :: _) => v | _ => ""%string end.

(** Connections are numbered; [RJson] answers a JSON document. *)
Inductive r_out :=
| RError (rid : nat) (status : Z) (msg : string)
| RJson (rid : nat) (body : json)
| RAdmin (rid : nat) (a : admin_reply)
| RProxied (rid : nat) (status : Z) (headers : list (string * list string)) (body : string)
| RAborted (rid : nat)
| RPreflight (rid : nat)
| RStaticFile (rid : nat) (path : string)
| ToTunnel (conn : nat) (m : TunnelMsg)
| CloseTunnel (conn : nat)
| ToClient (conn : nat) (binary : bool) (payload : string)
| CloseClient (conn : nat)
| ToPty (conn : nat) (payload : string)
| ClosePty (conn : nat) (reason : string).

(** ** State *)

(** A tunnel whose handler runs: its connection is the key; [te_pending] the ids of
    its requests that wait. *)
Record tunnelEntry := { te_hostname : string; te_pending : gset string }.

(** What to do with an answer: proxy it to the browser, or merge it into the
    answer of a fanned out request ([prefix]: its session ids are prefixed). *)
Inductive waiter := WProxy (rid : nat) | WFan (rid : nat) (hostname : string) (prefix : bool).

Record fan := { fn_left : nat; fn_merged : list (gmap string json) }.

(** [wc_user], [ps_user]: the user of the handler. *)
Record wsClient := { wc_conn : nat; wc_user : User; wc_tunnelIDs : gmap string string; wc_ch : list TunnelMsg }.
Record ptySession := { ps_conn : nat; ps_user : User; ps_hostname : string }.

Record relay_config := { rc_tunnelToken : string; rc_legacyWebToken : string; rc_staticHost : option string }.

(** [tunnels]: the connection in use for a laptop; [closed]: the connections the
    relay has closed while their handler still runs; [waiting]: the requests that
    wait, with the connection they were sent on; [ptyHandlers]: the terminals whose
    handler runs, registered or not. *)
Record Relay := {
  rcfg : relay_config;
  users : store;
  tunnels : gmap string nat;
  entries : gmap nat tunnelEntry;
  closed : gset nat;
  waiting : gmap string (nat * waiter);
  fans : gmap nat fan;
  wsClients : gmap string wsClient;
  ptySessions : gmap string ptySession;
  ptyHandlers : gmap string ptySession;
  reqSeq : N; wsSeq : N; ptySeq : N;
  out : list r_out;
}.

Definition set_users v r := {| rcfg := rcfg r; users := v; tunnels := tunnels r; entries := entries r; closed := closed r; waiting := waiting r; fans := fans r; wsClients := wsClients r; ptySessions := ptySessions r; ptyHandlers := ptyHandlers r; reqSeq := reqSeq r; wsSeq := wsSeq r; ptySeq := ptySeq r; out := out r |}.
Definition set_tunnels v r := {| rcfg := rcfg r; users := users r; tunnels := v; entries := entries r; closed := closed r; waiting := waiting r; fans := fans r; wsClients := wsClients r; ptySessions := ptySessions r; ptyHandlers := ptyHandlers r; reqSeq := reqSeq r; wsSeq := wsSeq r; ptySeq := ptySeq r; out := out r |}.
Definition set_entries v r := {| rcfg := rcfg r; users := users r; tunnels := tunnels r; entries := v; closed := closed r; waiting := waiting r; fans := fans r; wsClients := wsClients r; ptySessions := ptySessions r; ptyHandlers := ptyHandlers r; reqSeq := reqSeq r; wsSeq := wsSeq r; ptySeq := ptySeq r; out := out r |}.
Definition set_closed v r := {| rcfg := rcfg r; users := users r; tunnels := tunnels r; entries := entries r; closed := v; waiting := waiting r; fans := fans r; wsClients := wsClients r; ptySessions := ptySessions r; ptyHandlers := ptyHandlers r; reqSeq := reqSeq r; wsSeq := wsSeq r; ptySeq := ptySeq r; out := out r |}.
Definition set_waiting v r := {| rcfg := rcfg r; users := users r; tunnels := tunnels r; entries := entries r; closed := closed r; waiting := v; fans := fans r; wsClients := wsClients r; ptySessions := ptySessions r; ptyHandlers := ptyHandlers r; reqSeq := reqSeq r; wsSeq := wsSeq r; ptySeq := ptySeq r; out := out r |}.
Definition set_fans v r := {| rcfg := rcfg r; users := users r; tunnels := tunnels r; entries := entries r; closed := closed r; waiting := waiting r; fans := v; wsClients := wsClients r; ptySessions := ptySessions r; ptyHandlers := ptyHandlers r; reqSeq := reqSeq r; wsSeq := wsSeq r; ptySeq := ptySeq r; out := out r |}.
Definition set_wsClients v r := {| rcfg := rcfg r; users := users r; tunnels := tunnels r; entries := entries r; closed := closed r; waiting := waiting r; fans := fans r; wsClients := v; ptySessions := ptySessions r; ptyHandlers := ptyHandlers r; reqSeq := reqSeq r; wsSeq := wsSeq r; ptySeq := ptySeq r; out := out r |}.
Definition set_ptySessions v r := {| rcfg := rcfg r; users := users r; tunnels := tunnels r; entries := entries r; closed := closed r; waiting := waiting r; fans := fans r; wsClients := wsClients r; ptySessions := v; ptyHandlers := ptyHandlers r; reqSeq := reqSeq r; wsSeq := wsSeq r; ptySeq := ptySeq r; out := out r |}.
Definition set_ptyHandlers v r := {| rcfg := rcfg r; users := users r; tunnels := tunnels r; entries := entries r; closed := closed r; waiting := waiting r; fans := fans r; wsClients := wsClients r; ptySessions := ptySessions r; ptyHandlers := v; reqSeq := reqSeq r; wsSeq := wsSeq r; ptySeq := ptySeq r; out := out r |}.
Definition set_reqSeq v r := {| rcfg := rcfg r; users := users r; tunnels := tunnels r; entries := entries r; closed := closed r; waiting := waiting r; fans := fans r; wsClients := wsClients r; ptySessions := ptySessions r; ptyHandlers := ptyHandlers r; reqSeq := v; wsSeq := wsSeq r; ptySeq := ptySeq r; out := out r |}.
Definition set_wsSeq v r := {| rcfg := rcfg r; users := users r; tunnels := tunnels r; entries := entries r; closed := closed r; waiting := waiting r; fans := fans r; wsClients := wsClients r; ptySessions := ptySessions r; ptyHandlers := ptyHandlers r; reqSeq := reqSeq r; wsSeq := v; ptySeq := ptySeq r; out := out r |}.
Definition set_ptySeq v r := {| rcfg := rcfg r; users := users r; tunnels := tunnels r; entries := entries r; closed := closed r; waiting := waiting r; fans := fans r; wsClients := wsClients r; ptySessions := ptySessions r; ptyHandlers := ptyHandlers r; reqSeq := reqSeq r; wsSeq := wsSeq r; ptySeq := v; out := out r |}.
Definition emit o r := {| rcfg := rcfg r; users := users r; tunnels := tunnels r; entries := entries r; closed := closed r; waiting := waiting r; fans := fans r; wsClients := wsClients r; ptySessions := ptySessions r; ptyHandlers := ptyHandlers r; reqSeq := reqSeq r; wsSeq := wsSeq r; ptySeq := ptySeq r; out := out r ++ [o] |}.

Definition NewRelay (cfg : relay_config) (us : store) : Relay :=
  {| rcfg := cfg; users := us; tunnels := ∅; entries := ∅; closed := ∅; waiting := ∅; fans := ∅; wsClients := ∅; ptySessions := ∅; ptyHandlers := ∅;
     reqSeq := 0; wsSeq := 0; ptySeq := 0; out := [] |}.

(** Failures: writing to a connection, upgrading one, reading a request's body. *)
Record relay_env := { re_sendErr : nat → bool; re_upgradeErr : bool; re_bodyErr : bool; re_users : users_env }.

(** ** Prefixed session ids *)

Definition laptopSep : ascii := "~"%char.
Definition prefixSessionID (hostname sessionID : string) : string := hostname +:+ String laptopSep sessionID.
Definition parsePrefixedID (prefixedID : string) : string * string :=
  match Index prefixedID (String laptopSep "") with
  | Some i => (take_str i prefixedID, drop_str (i + 1) prefixedID)
  | None => ("default"%string, prefixedID)
  end.

(** A map of a list in the outcome monad. *)
Fixpoint outcome_map {A B} (f : A → outcome B) (l : list A) : outcome (list B) :=
  match l with
  | [] => Done []
  | x :: l => let! y := f x in let! ys := outcome_map f l in Done (y :: ys)
  end.

(** The members added to a laptop's sessions and other items; the assignment to a
    nil map panics. *)
Definition prefix_id (hostname : string) (m : gmap string json) : gmap string json :=
  match m !! "id"%string with Some (JStr id) => <["id"%string := JStr (prefixSessionID hostname id)]> m | _ => m end.
Definition label_item (prefix : bool) (hostname : string) (item : option (gmap string json)) : outcome (gmap string json) :=
  match item with
  | None => Panicked
  | Some m => Done (<["laptop"%string := JStr hostname]> (if prefix then prefix_id hostname m else m))
  end.

Section relay.
Context `{JT : JsonText, UT : UnicodeTables, MR : MapRange}.

(** The items of an answer, none if it is not a list of objects with status 200. *)
Definition fan_items (prefix : bool) (hostname : string) (resp : option TunnelMsg) : outcome (list (gmap string json)) :=
  match resp with
  | None => Done []
  | Some m =>
    if negb (tm_Status m =? 200) then Done []
    else
      match base64_decode (tm_Body m) with
      | None => Done []
      | Some body =>
        match unmarshal (dec_slice None dec_any_map) [] body with
        | None => Done []
        | Some items => outcome_map (label_item prefix hostname) items
        end
      end
  end.

(** *** In WebSocket messages

    The payload is an object whose member [data] is a text of JSON.  The panic on
    a nil map leaves the clients locked, so nothing is routed after it. *)

Definition rewrite_data (envelope : gmap string json) (data : json) : gmap string json :=
  <["data"%string := JStr (json_print data)]> envelope.

Definition rewrite_sessions (hostname dataStr : string) (envelope : gmap string json) : outcome (gmap string json) :=
  match unmarshal (dec_slice None dec_any_map) [] dataStr with
  | None => Done envelope
  | Some sessions =>
    let! items := outcome_map (label_item true hostname) sessions in
    Done (rewrite_data envelope (JArr (marshal_map <$> items)))
  end.

(** [null] decodes to the nil map, which is written as [null] again. *)
Definition rewrite_event (hostname dataStr : string) (envelope : gmap string json) : gmap string json :=
  match unmarshal dec_any_map None dataStr with
  | None => envelope
  | Some None => rewrite_data envelope JNull
  | Some (Some m) => rewrite_data envelope (marshal_map (prefix_id hostname m))
  end.

Definition prefixWSMessage (msg : TunnelMsg) (hostname : string) : outcome TunnelMsg :=
  if String.eqb (tm_Data msg) "" then Done msg
  else
    match base64_decode (tm_Data msg) with
    | None => Done msg
    | Some decoded =>
      match json_parse decoded with
      | Some (JObj l) =>
        let envelope := object_map l in
        let msgType := match envelope !! "type"%string with Some j => (dec_string j ""%string).1 | None => ""%string end in
        let '(dataStr, dataOK) := match envelope !! "data"%string with Some j => dec_string j ""%string | None => (""%string, true) end in
        if negb dataOK then Done msg
        else
          let again m := tunnel_msg (tm_Type msg) (tm_ID msg) (base64_encode (json_print (marshal_map m))) (tm_Binary msg) 0 "" in
          if String.eqb msgType "sessions" then let! m := rewrite_sessions hostname dataStr envelope in Done (again m)
          else if String.eqb msgType "output" || String.eqb msgType "event" || String.eqb msgType "more_output"
          then Done (again (rewrite_event hostname dataStr envelope))
          else Done msg
      | _ => Done msg
      end
    end.

(** ** Access *)

Definition extractToken (req : http_req) : string :=
  let auth := header_Get "Authorization" (hq_Headers req) in
  if HasPrefix auth "Bearer " then TrimPrefix auth "Bearer " else hq_Query req "token".

Definition authenticateRequest (req : http_req) (r : Relay) : option User :=
  authenticate (rc_legacyWebToken (rcfg r)) (extractToken req) (users r).

Definition filterTunnelsByUser (ts : gmap string nat) (user : User) : gmap string nat :=
  filter (λ kv : string * nat, CanAccessLaptop user kv.1 = true) ts.

Definition getTunnelsForFilter (hostname : string) (r : Relay) : gmap string nat :=
  if String.eqb hostname "" then tunnels r
  else match tunnels r !! hostname with Some c => {[ hostname := c ]} | None => ∅ end.

(** Some laptop the user may use; the empty name without one. *)
Definition default_laptop (user : User) (r : Relay) : string :=
  default ""%string (range_first (map_to_list (filterTunnelsByUser (tunnels r) user)).*1).

(** ** Requests over a tunnel *)

Definition is_open (conn : nat) (r : Relay) : bool := bool_decide (is_Some (entries r !! conn)) && negb (bool_decide (conn ∈ closed r)).

(** Whether it was sent. *)
Definition send (e : relay_env) (conn : nat) (m : TunnelMsg) (r : Relay) : bool * Relay :=
  if re_sendErr e conn || negb (is_open conn r) then (false, r) else (true, emit (ToTunnel conn m) r).

Definition add_pending (id : string) (conn : nat) (r : Relay) : Relay :=
  set_entries (alter (λ t, {| te_hostname := te_hostname t; te_pending := {[ id ]} ∪ te_pending t |}) conn (entries r)) r.
Definition drop_pending (id : string) (conn : nat) (r : Relay) : Relay :=
  set_entries (alter (λ t, {| te_hostname := te_hostname t; te_pending := te_pending t ∖ {[ id ]} |}) conn (entries r)) r.

(** The answer of a laptop is written to the browser; net/http panics on a status
    out of range and drops the browser's connection. *)
Definition finish_proxy (rid : nat) (resp : option TunnelMsg) (r : Relay) : Relay :=
  match resp with
  | None => emit (RError rid 503 "tunnel unavailable") r
  | Some m =>
    if (tm_Status m <? 100) || (999 <? tm_Status m) then emit (RAborted rid) r
    else emit (RProxied rid (tm_Status m) (tm_Headers m) (default ""%string (base64_decode (tm_Body m)))) r
  end.

(** One of the answers of a fanned out request; the last one completes it. *)
Definition finish_fan (rid : nat) (items : list (gmap string json)) (r : Relay) : Relay :=
  match fans r !! rid with
  | None => r
  | Some f =>
    let merged := fn_merged f ++ items in
    match fn_left f with
    | S (S n) => set_fans (<[rid := {| fn_left := S n; fn_merged := merged |}]> (fans r)) r
    | _ => emit (RJson rid (JArr (marshal_map <$> merged))) (set_fans (delete rid (fans r)) r)
    end
  end.

Definition finish (w : waiter) (resp : option TunnelMsg) (r : Relay) : outcome Relay :=
  match w with
  | WProxy rid => Done (finish_proxy rid resp r)
  | WFan rid hostname prefix => let! items := fan_items prefix hostname resp in Done (finish_fan rid items r)
  end.

Definition sendHTTPViaTunnel (e : relay_env) (w : waiter) (conn : nat) (method path query : string) (headers : list (string * list string))
    (body : string) (r : Relay) : outcome Relay :=
  let seq := (reqSeq r + 1)%N in
  let id := ("req-" +:+ pretty.pretty seq)%string in
  let r := add_pending id conn (set_reqSeq seq r) in
  let bodyB64 := if String.eqb body "" then ""%string else base64_encode body in
  match send e conn (http_request id method path query headers bodyB64) r with
  | (true, r) => Done (set_waiting (<[id := (conn, w)]> (waiting r)) r)
  | (false, r) => finish w None (drop_pending id conn r)
  end.

(** Twenty-five seconds without an answer. *)
Definition request_timeout (id : string) (r : Relay) : outcome Relay :=
  match waiting r !! id with
  | None => Done r
  | Some (conn, w) => finish w None (drop_pending id conn (set_waiting (delete id (waiting r)) r))
  end.

Definition hop_header (lk : string) : bool :=
  existsb (String.eqb lk) ["authorization"; "host"; "connection"; "content-length"; "transfer-encoding"; "upgrade"; "te"; "trailers"]%string.

Definition ToLower (s : string) : string := string_of (strings_ToLower (bytes_of s)).

Definition fwdHeaders (hs : list (string * list string)) : list (string * list string) :=
  List.filter (λ kv, negb (hop_header kv.1)) ((λ kv : string * list string, (ToLower kv.1, kv.2)) <$> hs).

Definition proxyToTunnel (e : relay_env) (conn : nat) (path : string) (req : http_req) (r : Relay) : outcome Relay :=
  if re_bodyErr e then Done (emit (RError (hq_rid req) 500 "body read error") r)
  else sendHTTPViaTunnel e (WProxy (hq_rid req)) conn (hq_Method req) path (hq_RawQuery req) (fwdHeaders (hq_Headers req))
         (LimitRead (32 * 1024 * 1024) (hq_Body req)) r.

(** ** The HTTP API *)

Definition fanOut (e : relay_env) (prefix : bool) (path laptopFilter : string) (user : User) (req : http_req) (r : Relay) : outcome Relay :=
  let ts := map_to_list (filterTunnelsByUser (getTunnelsForFilter laptopFilter r) user) in
  match ts with
  | [] => Done (emit (RJson (hq_rid req) (JArr [])) r)
  | _ =>
    fold_left (λ (o : outcome Relay) (t : string * nat), let! r := o in sendHTTPViaTunnel e (WFan (hq_rid req) t.1 prefix) t.2 "GET" path (hq_RawQuery req) [] "" r)
      ts (Done (set_fans (<[hq_rid req := {| fn_left := length ts; fn_merged := [] |}]> (fans r)) r))
  end.

Definition fanOutSessions (e : relay_env) (laptopFilter : string) (user : User) (req : http_req) (r : Relay) : outcome Relay :=
  fanOut e true "/sessions" laptopFilter user req r.
Definition fanOutJSON (e : relay_env) (path laptopFilter : string) (user : User) (req : http_req) (r : Relay) : outcome Relay :=
  fanOut e false path laptopFilter user req r.

(** To the named laptop, if the user may use it and it is connected. *)
Definition proxy_to_laptop (e : relay_env) (user : User) (hostname path missing : string) (req : http_req) (r : Relay) : outcome Relay :=
  if negb (CanAccessLaptop user hostname) then Done (emit (RError (hq_rid req) 403 ("access denied to laptop: " +:+ hostname)) r)
  else
    match tunnels r !! hostname with
    | None => Done (emit (RError (hq_rid req) 503 missing) r)
    | Some conn => proxyToTunnel e conn path req r
    end.

(** The laptop of the header, or some laptop. *)
Definition header_laptop (user : User) (req : http_req) (r : Relay) : string :=
  let h := header_Get "X-Laptop-Id" (hq_Headers req) in
  if String.eqb h "" then default_laptop user r else h.

Definition HandleAPI (e : relay_env) (req : http_req) (r : Relay) : outcome Relay :=
  match authenticateRequest req r with
  | None => Done (emit (RError (hq_rid req) 401 "unauthorized") r)
  | Some user =>
    let path := hq_Path req in
    let laptopFilter := header_Get "X-Laptop-Id" (hq_Headers req) in
    if String.eqb path "/sessions" && String.eqb (hq_Method req) "GET" then fanOutSessions e laptopFilter user req r
    else if String.eqb path "/projects" && String.eqb (hq_Method req) "GET" then fanOutJSON e "/projects" laptopFilter user req r
    else if String.eqb path "/skills" && String.eqb (hq_Method req) "GET" then fanOutJSON e "/skills" laptopFilter user req r
    else if HasPrefix path "/sessions/" then
      let parts := SplitN 2 (TrimPrefix path "/sessions/") in
      let '(hostname, realID) := parsePrefixedID (nth 0 parts ""%string) in
      let newPath := ("/sessions/" +:+ realID +:+ match parts with [_; rest] => "/" +:+ rest | _ => "" end)%string in
      proxy_to_laptop e user hostname newPath ("laptop not connected: " +:+ hostname) req r
    else if String.eqb path "/sessions" && String.eqb (hq_Method req) "POST" then
      let hostname := header_laptop user req r in proxy_to_laptop e user hostname path ("laptop not connected: " +:+ hostname) req r
    else if HasPrefix path "/screenshots" || HasPrefix path "/files" then
      proxy_to_laptop e user (header_laptop user req r) path "laptop not connected" req r
    else
      match range_first (map_to_list (filterTunnelsByUser (tunnels r) user)).*2 with
      | Some conn => proxyToTunnel e conn path req r
      | None => Done (emit (RError (hq_rid req) 503 "no tunnel available") r)
      end
  end.

(** Files of the web app are served without a token, from any laptop if the one
    chosen is not connected. *)
Definition HandleTunnelStatic (e : relay_env) (staticHost : string) (req : http_req) (r : Relay) : outcome Relay :=
  match tunnels r !! staticHost with
  | Some conn => proxyToTunnel e conn (hq_Path req) req r
  | None =>
    match range_first (map_to_list (tunnels r)).*2 with
    | Some conn => proxyToTunnel e conn (hq_Path req) req r
    | None => Done (emit (RError (hq_rid req) 503 "no tunnel available for static files") r)
    end
  end.

(** ** Tunnels *)

(** The handler up to its read loop: [conn] is the new connection. *)
Definition HandleTunnel (e : relay_env) (conn : nat) (req : http_req) (r : Relay) : Relay :=
  if negb (String.eqb (extractToken req) (rc_tunnelToken (rcfg r))) then emit (RError (hq_rid req) 401 "unauthorized") r
  else
    let h := header_Get "X-Hostname" (hq_Headers req) in
    let hostname := if String.eqb h "" then "default"%string else h in
    if re_upgradeErr e then r
    else
      let r := match tunnels r !! hostname with
               | Some old => emit (CloseTunnel old) (set_closed ({[ old ]} ∪ closed r) r)
               | None => r
               end in
      set_tunnels (<[hostname := conn]> (tunnels r)) (set_entries (<[conn := {| te_hostname := hostname; te_pending := ∅ |}]> (entries r)) r).

(** A client's channel holds 256 messages; what does not fit is dropped. *)
Definition enqueue (m : TunnelMsg) (c : wsClient) : wsClient :=
  if (length (wc_ch c) <? 256)%nat
  then {| wc_conn := wc_conn c; wc_user := wc_user c; wc_tunnelIDs := wc_tunnelIDs c; wc_ch := wc_ch c ++ [m] |} else c.

Definition owns_ws (hostname wsID : string) (c : wsClient) : bool := bool_decide (wc_tunnelIDs c !! hostname = Some wsID).

(** One message of a tunnel. *)
Definition dispatchTunnelMsg (hostname : string) (conn : nat) (msg : TunnelMsg) (r : Relay) : outcome Relay :=
  let id := tm_ID msg in
  if String.eqb (tm_Type msg) "http_response" then
    match entries r !! conn with
    | Some t =>
      if bool_decide (id ∈ te_pending t) then
        let r := drop_pending id conn r in
        match waiting r !! id with
        | Some (_, w) => finish w (Some msg) (set_waiting (delete id (waiting r)) r)
        | None => Done r
        end
      else Done r
    | None => Done r
    end
  else if String.eqb (tm_Type msg) "pty_data" then
    match ptySessions r !! id, base64_decode (tm_Data msg) with
    | Some ps, Some data => Done (emit (ToPty (ps_conn ps) data) r)
    | _, _ => Done r
    end
  else if String.eqb (tm_Type msg) "pty_close" then
    match ptySessions r !! id with
    | Some ps => Done (emit (ClosePty (ps_conn ps) (tm_Reason msg)) (set_ptySessions (delete id (ptySessions r)) r))
    | None => Done r
    end
  else if String.eqb (tm_Type msg) "ws_message" || String.eqb (tm_Type msg) "ws_close" then
    if existsb (owns_ws hostname id) (map_to_list (wsClients r)).*2 then
      let! prefixed := prefixWSMessage msg hostname in
      Done (set_wsClients ((λ c, if owns_ws hostname id c then enqueue prefixed c else c) <$> wsClients r) r)
    else Done r
  else Done r.

(** A message read from a connection; a closed one reads nothing. *)
Definition tunnel_read (conn : nat) (msg : TunnelMsg) (r : Relay) : outcome Relay :=
  match entries r !! conn with
  | Some t => if is_open conn r then dispatchTunnelMsg (te_hostname t) conn msg r else Done r
  | None => Done r
  end.

(** What the handler does when its connection ends. *)
Definition fail_pending (ids : list string) (r : Relay) : outcome Relay :=
  fold_left (λ (o : outcome Relay) id, let! r := o in
    match waiting r !! id with
    | Some (_, w) => finish w None (set_waiting (delete id (waiting r)) r)
    | None => Done r
    end) ids (Done r).

Definition detach (hostname : string) (c : wsClient) : wsClient :=
  match wc_tunnelIDs c !! hostname with
  | Some tunnelWsID =>
    enqueue (ws_close tunnelWsID 0 "") {| wc_conn := wc_conn c; wc_user := wc_user c; wc_tunnelIDs := delete hostname (wc_tunnelIDs c); wc_ch := wc_ch c |}
  | None => c
  end.

Definition tunnel_end (conn : nat) (r : Relay) : outcome Relay :=
  match entries r !! conn with
  | None => Done r
  | Some t =>
    let hostname := te_hostname t in
    let r := if bool_decide (tunnels r !! hostname = Some conn) then set_tunnels (delete hostname (tunnels r)) r else r in
    let r := set_entries (delete conn (entries r)) r in
    let! r := fail_pending (elements (te_pending t)) r in
    Done (set_wsClients (detach hostname <$> wsClients r) r)
  end.

(** ** WebSockets *)

(** To the laptop's tunnel in use, errors ignored. *)
Definition send_to_laptop (e : relay_env) (hostname : string) (m : TunnelMsg) (r : Relay) : Relay :=
  match tunnels r !! hostname with Some conn => (send e conn m r).2 | None => r end.

Definition HandleClientWS (e : relay_env) (conn : nat) (req : http_req) (r : Relay) : Relay :=
  match authenticateRequest req r with
  | None => emit (RError (hq_rid req) 401 "unauthorized") r
  | Some user =>
    if re_upgradeErr e then r
    else
      let seq := (wsSeq r + 1)%N in
      let clientID := ("ws-" +:+ pretty.pretty seq)%string in
      let ts := map_to_list (filterTunnelsByUser (getTunnelsForFilter (hq_Query req "laptop") r) user) in
      let ids := list_to_map ((λ t : string * nat, (t.1, clientID +:+ "-" +:+ t.1)) <$> ts) in
      let client := {| wc_conn := conn; wc_user := user; wc_tunnelIDs := ids; wc_ch := [] |} in
      let r := set_wsClients (<[clientID := client]> (wsClients r)) (set_wsSeq seq r) in
      fold_left (λ r (t : string * nat), (send e t.2 (ws_connect (clientID +:+ "-" +:+ t.1) (hq_RawQuery req)) r).2) ts r
  end.

(** The command that is routed to one laptop. *)
Record ws_command := { wm_Type : string; wm_ID : string; wm_Lines : Z }.
Definition ws_command_fields : list (field ws_command) :=
  [ fld "type" dec_string wm_Type (λ v c, {| wm_Type := v; wm_ID := wm_ID c; wm_Lines := wm_Lines c |});
    fld "id" dec_string wm_ID (λ v c, {| wm_Type := wm_Type c; wm_ID := v; wm_Lines := wm_Lines c |});
    fld "lines" dec_int wm_Lines (λ v c, {| wm_Type := wm_Type c; wm_ID := wm_ID c; wm_Lines := v |}) ].

Definition load_more (binary : bool) (data : string) : option ws_command :=
  if binary then None
  else
    match unmarshal (dec_struct ws_command_fields) {| wm_Type := ""; wm_ID := ""; wm_Lines := 0 |} data with
    | Some cmd => if String.eqb (wm_Type cmd) "load_more" && negb (String.eqb (wm_ID cmd) "") then Some cmd else None
    | None => None
    end.

Definition client_frame (e : relay_env) (clientID : string) (binary : bool) (data : string) (r : Relay) : Relay :=
  match wsClients r !! clientID with
  | None => r
  | Some c =>
    match load_more binary data with
    | Some cmd =>
      let '(hostname, realID) := parsePrefixedID (wm_ID cmd) in
      match wc_tunnelIDs c !! hostname with
      | Some tunnelWsID =>
        let rewritten := JObj [("id", JStr realID); ("lines", JInt (wm_Lines cmd)); ("type", JStr "load_more")]%string in
        send_to_laptop e hostname (ws_message tunnelWsID (base64_encode (json_print rewritten)) false) r
      | None => r
      end
    | None =>
      fold_left (λ r (t : string * string), send_to_laptop e t.1 (ws_message t.2 (base64_encode data) binary) r) (map_to_list (wc_tunnelIDs c)) r
    end
  end.

(** The end of the browser's connection. *)
Definition client_end (e : relay_env) (clientID : string) (r : Relay) : Relay :=
  match wsClients r !! clientID with
  | None => r
  | Some c =>
    let r := set_wsClients (delete clientID (wsClients r)) r in
    let r := fold_left (λ r (t : string * string), send_to_laptop e t.1 (ws_close t.2 1000 "client disconnected") r) (map_to_list (wc_tunnelIDs c)) r in
    emit (CloseClient (wc_conn c)) r
  end.

(** The next message of the client's channel. *)
Definition client_deliver (e : relay_env) (clientID : string) (r : Relay) : Relay :=
  match wsClients r !! clientID with
  | None => r
  | Some c =>
    match wc_ch c with
    | [] => r
    | msg :: ch =>
      let r := set_wsClients (<[clientID := {| wc_conn := wc_conn c; wc_user := wc_user c; wc_tunnelIDs := wc_tunnelIDs c; wc_ch := ch |}]> (wsClients r)) r in
      if String.eqb (tm_Type msg) "ws_close" then
        if bool_decide (wc_tunnelIDs c = ∅) then client_end e clientID r else r
      else if String.eqb (tm_Type msg) "ws_message" then
        match base64_decode (tm_Data msg) with
        | None => r
        | Some payload => if re_sendErr e (wc_conn c) then client_end e clientID r else emit (ToClient (wc_conn c) (tm_Binary msg) payload) r
        end
      else r
    end
  end.

(** ** Terminals *)

(** The end of the browser's connection. *)
Definition pty_end (e : relay_env) (ptyID : string) (r : Relay) : Relay :=
  match ptyHandlers r !! ptyID with
  | None => r
  | Some ps =>
    let r := set_ptyHandlers (delete ptyID (ptyHandlers r)) (set_ptySessions (delete ptyID (ptySessions r)) r) in
    send_to_laptop e (ps_hostname ps) (pty_close ptyID "") r
  end.

Definition number_param (v : string) (dflt : Z) : Z := if String.eqb v "" then dflt else default dflt (Sscanf_d v).

Definition HandlePtyWS (e : relay_env) (conn : nat) (req : http_req) (r : Relay) : Relay :=
  match authenticateRequest req r with
  | None => emit (RError (hq_rid req) 401 "unauthorized") r
  | Some user =>
    let h := hq_Query req "laptop" in
    let hostname := if String.eqb h "" then default_laptop user r else h in
    if negb (CanAccessLaptop user hostname) then emit (RError (hq_rid req) 403 ("access denied to laptop: " +:+ hostname)) r
    else
      match tunnels r !! hostname with
      | None => emit (RError (hq_rid req) 503 ("laptop not connected: " +:+ hostname)) r
      | Some tconn =>
        if re_upgradeErr e then r
        else
          let seq := (ptySeq r + 1)%N in
          let ptyID := ("pty-" +:+ pretty.pretty seq)%string in
          let ps := {| ps_conn := conn; ps_user := user; ps_hostname := hostname |} in
          let r := set_ptyHandlers (<[ptyID := ps]> (ptyHandlers r)) (set_ptySessions (<[ptyID := ps]> (ptySessions r)) (set_ptySeq seq r)) in
          let rows := number_param (hq_Query req "rows") 24 in
          let cols := number_param (hq_Query req "cols") 80 in
          match send e tconn (pty_size "pty_connect" ptyID rows cols (hq_Query req "command")) r with
          | (true, r) => r
          | (false, r) => pty_end e ptyID r
          end
      end
  end.

Record resize_command := { rz_Type : string; rz_Rows : Z; rz_Cols : Z }.
Definition resize_fields : list (field resize_command) :=
  [ fld "type" dec_string rz_Type (λ v c, {| rz_Type := v; rz_Rows := rz_Rows c; rz_Cols := rz_Cols c |});
    fld "rows" dec_int rz_Rows (λ v c, {| rz_Type := rz_Type c; rz_Rows := v; rz_Cols := rz_Cols c |});
    fld "cols" dec_int rz_Cols (λ v c, {| rz_Type := rz_Type c; rz_Rows := rz_Rows c; rz_Cols := v |}) ].

Definition resize (binary : bool) (data : string) : option (Z * Z) :=
  if binary then None
  else
    match unmarshal (dec_struct resize_fields) {| rz_Type := ""; rz_Rows := 0; rz_Cols := 0 |} data with
    | Some cmd => if String.eqb (rz_Type cmd) "resize" then Some (rz_Rows cmd, rz_Cols cmd) else None
    | None => None
    end.

(** A frame of the browser; nothing is read once the connection is closed. *)
Definition pty_frame (e : relay_env) (ptyID : string) (binary : bool) (data : string) (r : Relay) : Relay :=
  match ptySessions r !! ptyID with
  | None => r
  | Some ps =>
    match resize binary data with
    | Some (rows, cols) => send_to_laptop e (ps_hostname ps) (pty_size "pty_resize" ptyID rows cols "") r
    | None => send_to_laptop e (ps_hostname ps) (pty_data ptyID (base64_encode data)) r
    end
  end.

(** ** Routes *)

Definition apiPrefixes : list string := ["/sessions"; "/projects"; "/skills"; "/screenshots"; "/files"; "/telemetry"]%string.
Definition isAPIPath (path : string) : bool := existsb (λ p, String.eqb path p || HasPrefix path (p +:+ "/") || HasPrefix path p) apiPrefixes.

Definition ConnectedLaptops (r : Relay) : list string := (map_to_list (tunnels r)).*1.

Definition laptops_json (l : list string) : json :=
  JArr ((λ h, JObj [("id", JStr h); ("connected", JBool true)]%string) <$> l).

(** All requests that are not upgraded to a connection. *)
Definition routes (e : relay_env) (req : http_req) (r : Relay) : outcome Relay :=
  let path := hq_Path req in
  let rid := hq_rid req in
  if String.eqb (hq_Method req) "OPTIONS" then Done (emit (RPreflight rid) r)
  else if String.eqb path "/auth/me" then Done (emit (RAdmin rid (HandleAuthMe (authenticateRequest req r))) r)
  else if HasPrefix path "/admin/" then
    let '(a, us) := HandleAdminUsers (re_users e) (authenticateRequest req r) (hq_Method req) path (hq_Body req) (users r) in
    Done (emit (RAdmin rid a) (set_users us r))
  else if String.eqb path "/health" then
    let laptops := ConnectedLaptops r in
    Done (emit (RJson rid (JObj [("laptops", JArr (JStr <$> laptops)); ("status", JStr "ok"); ("tunnels", JInt (Z.of_nat (length laptops)))]%string)) r)
  else if String.eqb path "/laptops" then
    let laptops := match authenticateRequest req r with
                   | Some user => List.filter (CanAccessLaptop user) (ConnectedLaptops r)
                   | None => ConnectedLaptops r
                   end in
    Done (emit (RJson rid (laptops_json laptops)) r)
  else if isAPIPath path then HandleAPI e req r
  else
    match rc_staticHost (rcfg r) with
    | Some h => HandleTunnelStatic e (if String.eqb h "" then "default"%string else h) req r
    | None => Done (emit (RStaticFile rid path) r)
    end.

End relay.
