(* ===== verification/RelaySpec.v ===== *)
(** * What the relay guarantees (relay.go)

    Whose messages reach which laptop, who answers a request, what the end of a
    tunnel does, and where the relay fails: terminals of other laptops, a race
    of reconnections, and a document that stops it. *)

From stdpp Require Import sorting.
From S2P Require Import Prelude GoStrings Slug Base64 Json RelayUsers Relay.
Open Scope Z_scope.
Open Scope go_scope.

(** ** Runs *)

(** What happens to the relay; connections are numbered by whoever makes them. *)
Inductive r_label :=
| LHttp (e : relay_env) (req : http_req)
| LTunnel (e : relay_env) (conn : nat) (req : http_req)
| LTunnelMsg (conn : nat) (msg : TunnelMsg)
| LTunnelEnd (conn : nat)
| LTimeout (id : string)
| LClient (e : relay_env) (conn : nat) (req : http_req)
| LFrame (e : relay_env) (clientID : string) (binary : bool) (data : string)
| LDeliver (e : relay_env) (clientID : string)
| LClientEnd (e : relay_env) (clientID : string)
| LPty (e : relay_env) (conn : nat) (req : http_req)
| LPtyFrame (e : relay_env) (ptyID : string) (binary : bool) (data : string)
| LPtyEnd (e : relay_env) (ptyID : string).

Section spec.
Context `{JT : JsonText, UT : UnicodeTables, MR : MapRange}.

Definition r_exec (l : r_label) (r : Relay) : outcome Relay :=
  match l with
  | LHttp e req => routes e req r
  | LTunnel e conn req => Done (HandleTunnel e conn req r)
  | LTunnelMsg conn msg => tunnel_read conn msg r
  | LTunnelEnd conn => tunnel_end conn r
  | LTimeout id => request_timeout id r
  | LClient e conn req => Done (HandleClientWS e conn req r)
  | LFrame e cid binary data => Done (client_frame e cid binary data r)
  | LDeliver e cid => Done (client_deliver e cid r)
  | LClientEnd e cid => Done (client_end e cid r)
  | LPty e conn req => Done (HandlePtyWS e conn req r)
  | LPtyFrame e id binary data => Done (pty_frame e id binary data r)
  | LPtyEnd e id => Done (pty_end e id r)
  end.

(** A new tunnel has a connection of its own, and a request a number that no request
    under way has. *)
Definition fresh_conn (l : r_label) (r : Relay) : Prop :=
  match l with LTunnel _ conn _ => entries r !! conn = None | LHttp _ req => fans r !! hq_rid req = None | _ => True end.

Inductive r_step : relation Relay :=
| r_step_intro l r r' : fresh_conn l r → r_exec l r = Done r' → r_step r r'.

(** ** What handlers leave alone *)

(** Only requests, connections, fan-outs and outputs changed, and what was sent into tunnels
    went to connections in [P]. *)
Record quiet (P : nat → Prop) (r r' : Relay) : Prop := {
  qt_cfg : rcfg r' = rcfg r;
  qt_users : users r' = users r;
  qt_tunnels : tunnels r' = tunnels r;
  qt_clients : wsClients r' = wsClients r;
  qt_ptys : ptySessions r' = ptySessions r ∧ ptyHandlers r' = ptyHandlers r;
  qt_out : ∃ l, out r' = out r ++ l ∧ ∀ conn m, ToTunnel conn m ∈ l → P conn;
}.

Lemma quiet_refl P r : quiet P r r.
Proof. split; try done. exists []. rewrite app_nil_r. split; [done|]. by intros conn m ?%elem_of_nil. Qed.

Lemma quiet_trans P r1 r2 r3 : quiet P r1 r2 → quiet P r2 r3 → quiet P r1 r3.
Proof.
  intros [A1 A2 A3 A4 [A5 A6] (l1 & A7 & A8)] [B1 B2 B3 B4 [B5 B6] (l2 & B7 & B8)]. split; try congruence; [split; congruence|].
  exists (l1 ++ l2). split; [by rewrite B7, A7, app_assoc|]. intros conn m [?|?]%elem_of_app; eauto.
Qed.

Lemma quiet_weaken (P Q : nat → Prop) r r' : (∀ c, P c → Q c) → quiet P r r' → quiet Q r r'.
Proof. intros H [A1 A2 A3 A4 A5 (l & A6 & A7)]. split; try done. exists l. split; [done|]. eauto. Qed.

Lemma quiet_emit P o r : (∀ conn m, o = ToTunnel conn m → P conn) → quiet P r (emit o r).
Proof. intros H. split; try done. exists [o]. split; [done|]. intros conn m <-%list_elem_of_singleton. eauto. Qed.

Lemma quiet_answer P o r : (∀ conn m, o ≠ ToTunnel conn m) → quiet P r (emit o r).
Proof. intros H. apply quiet_emit. intros conn m ->. by destruct (H conn m). Qed.

Create HintDb quiet discriminated.
#[local] Hint Resolve quiet_refl : quiet.
#[local] Hint Extern 2 (quiet _ _ (emit _ _)) => apply quiet_answer; intros ?? [=] : quiet.

(** A change of fields [quiet] does not mention. *)
Ltac quiet_fields := split; try done; exists []; rewrite app_nil_r; split; [done|intros ?? ?%elem_of_nil; done].

Lemma quiet_waiting P v r : quiet P r (set_waiting v r).
Proof. quiet_fields. Qed.
Lemma quiet_entries P v r : quiet P r (set_entries v r).
Proof. quiet_fields. Qed.
Lemma quiet_fans P v r : quiet P r (set_fans v r).
Proof. quiet_fields. Qed.
Lemma quiet_reqSeq P v r : quiet P r (set_reqSeq v r).
Proof. quiet_fields. Qed.
#[local] Hint Resolve quiet_waiting quiet_entries quiet_fans quiet_reqSeq : quiet.

Lemma quiet_send e conn m r : quiet (λ c, c = conn) r (send e conn m r).2.
Proof. unfold send. destruct (_ || _); cbn; [auto with quiet|]. apply quiet_emit. congruence. Qed.

Lemma quiet_finish P w resp r r' : finish w resp r = Done r' → quiet P r r'.
Proof.
  destruct w as [rid|rid h pre]; cbn.
  - intros [= <-]. unfold finish_proxy. destruct resp as [m|]; [|auto with quiet]. destruct (_ || _); auto with quiet.
  - intros (items & _ & [= <-])%outcome_bind_Done. unfold finish_fan. destruct (fans r !! rid) as [f|]; [|auto with quiet].
    destruct (fn_left f) as [|[|n]]; [| |auto with quiet]; (eapply quiet_trans; [|apply quiet_answer; intros ?? [=]]; auto with quiet).
Qed.

Lemma quiet_sendHTTP e w conn method path query headers body r r' :
  sendHTTPViaTunnel e w conn method path query headers body r = Done r' → quiet (λ c, c = conn) r r'.
Proof.
  unfold sendHTTPViaTunnel. cbv zeta. set (id := "req-" +:+ _). set (r0 := add_pending _ _ _).
  assert (H0 : quiet (λ c, c = conn) r r0) by (eapply quiet_trans; [apply quiet_reqSeq|apply quiet_entries]).
  pose proof (quiet_send e conn (http_request id method path query headers (if String.eqb body "" then "" else base64_encode body)) r0) as H1.
  destruct (send _ _ _ r0) as [[|] r1]; cbn [snd] in H1.
  - intros [= <-]. eapply quiet_trans; [exact H0|]. eapply quiet_trans; [exact H1|]. apply quiet_waiting.
  - intros H2. eapply quiet_trans; [exact H0|]. eapply quiet_trans; [exact H1|]. eapply quiet_trans; [apply quiet_entries|]. by eapply quiet_finish.
Qed.

Lemma quiet_proxy e conn path req r r' : proxyToTunnel e conn path req r = Done r' → quiet (λ c, c = conn) r r'.
Proof. unfold proxyToTunnel. destruct (re_bodyErr e); [intros [= <-]; auto with quiet|apply quiet_sendHTTP]. Qed.

(** ** Laptops a user may use *)

(** The connection of a laptop the user may use. *)
Definition usable (user : User) (r : Relay) (conn : nat) : Prop := ∃ h, tunnels r !! h = Some conn ∧ CanAccessLaptop user h = true.

Lemma filter_usable user ts h conn : (h, conn) ∈ map_to_list (filterTunnelsByUser ts user) → ts !! h = Some conn ∧ CanAccessLaptop user h = true.
Proof. rewrite elem_of_map_to_list. unfold filterTunnelsByUser. by rewrite map_lookup_filter_Some. Qed.

Lemma filtered_conn user r h conn x :
  (h, conn) ∈ map_to_list (filterTunnelsByUser (getTunnelsForFilter x r) user) → usable user r conn.
Proof.
  intros [H Ha]%filter_usable. exists h. split; [|done]. unfold getTunnelsForFilter in H. destruct (String.eqb x ""); [done|].
  destruct (tunnels r !! x) as [c|] eqn:E; [|by rewrite lookup_empty in H]. apply lookup_singleton_Some in H as [<- <-]. done.
Qed.

(** A fold of steps that may panic. *)
Lemma fold_outcome {A} (Q : relation Relay) `{!Transitive Q, !Reflexive Q} (f : A → Relay → outcome Relay) l r r' :
  (∀ x r1 r2, x ∈ l → f x r1 = Done r2 → Q r1 r2) →
  fold_left (λ o x, let! r := o in f x r) l (Done r) = Done r' → Q r r'.
Proof.
  revert r'. induction l as [|x l IH] using rev_ind; intros r' Hf; [intros [= <-]; reflexivity|].
  rewrite fold_left_app. cbn. intros (r1 & H1 & H2)%outcome_bind_Done. etrans; [apply IH; [|exact H1]|].
  - intros y r2 r3 Hy. apply Hf, elem_of_app. by left.
  - eapply Hf; [|exact H2]. apply elem_of_app. right. left.
Qed.

#[local] Instance quiet_reflexive P : Reflexive (quiet P).
Proof. intros r. apply quiet_refl. Qed.
#[local] Instance quiet_transitive P : Transitive (quiet P).
Proof. intros r1 r2 r3. apply quiet_trans. Qed.

Lemma quiet_fanOut e pre path x user req r r' : fanOut e pre path x user req r = Done r' → quiet (usable user r) r r'.
Proof.
  unfold fanOut. set (ts := map_to_list _).
  assert (Hts : ∀ t, t ∈ ts → usable user r t.2) by (intros [h c] Ht; by apply filtered_conn in Ht).
  destruct ts as [|t0 ts0] eqn:Ets; [intros [= <-]; auto with quiet|]. rewrite <- Ets in *. intros H.
  eapply quiet_trans; [apply quiet_fans|]. eapply (fold_outcome (quiet (usable user r))); [|exact H].
  intros t r1 r2 Ht Hs. eapply quiet_weaken; [|eapply quiet_sendHTTP, Hs]. intros c ->. auto.
Qed.

Lemma quiet_to_laptop e user h path missing req r r' : proxy_to_laptop e user h path missing req r = Done r' → quiet (usable user r) r r'.
Proof.
  unfold proxy_to_laptop. destruct (CanAccessLaptop user h) eqn:Ha; cbn [negb]; [|intros [= <-]; auto with quiet].
  destruct (tunnels r !! h) as [conn|] eqn:Ht; [|intros [= <-]; auto with quiet]. intros H.
  eapply quiet_weaken; [|eapply quiet_proxy, H]. intros c ->. by exists h.
Qed.

Lemma quiet_api e req r r' : HandleAPI e req r = Done r' →
  quiet (λ c, ∃ user, authenticateRequest req r = Some user ∧ usable user r c) r r'.
Proof.
  unfold HandleAPI. destruct (authenticateRequest req r) as [user|] eqn:Hu; [|intros [= <-]; auto with quiet].
  intros H. apply (quiet_weaken (usable user r)); [eauto|]. revert H.
  repeat case_match; intros Hdone; try (by eapply quiet_fanOut); try (by eapply quiet_to_laptop).
  all: try (injection Hdone as <-; auto with quiet).
  match goal with E : range_first _ = Some ?c |- _ => apply range_first_in, list_elem_of_fmap in E as ([h c'] & -> & Hc) end.
  eapply quiet_weaken; [|eapply quiet_proxy, Hdone]. intros c ->. apply filter_usable in Hc. by exists h.
Qed.

(** *** Connections of browsers *)

Record access_ok (r : Relay) : Prop := {
  ao_clients : ∀ cid c h id, wsClients r !! cid = Some c → wc_tunnelIDs c !! h = Some id → CanAccessLaptop (wc_user c) h = true ∧ id = cid +:+ "-" +:+ h;
  ao_ptys : ∀ id ps, ptyHandlers r !! id = Some ps → CanAccessLaptop (ps_user ps) (ps_hostname ps) = true;
  ao_sessions : ∀ id ps, ptySessions r !! id = Some ps → ptyHandlers r !! id = Some ps;
}.

Lemma access_same r r' : wsClients r' = wsClients r → ptySessions r' = ptySessions r → ptyHandlers r' = ptyHandlers r → access_ok r → access_ok r'.
Proof. intros H1 H2 H3 [A B C]. split; rewrite ?H1, ?H2, ?H3; done. Qed.

Lemma access_quiet P r r' : quiet P r r' → access_ok r → access_ok r'.
Proof. intros [_ _ _ H1 [H2 H3] _]. by apply access_same. Qed.

(** Clients that keep their user and have no more laptops than before. *)
Lemma access_clients r r' (f : wsClient → wsClient) :
  wsClients r' = f <$> wsClients r → ptySessions r' = ptySessions r → ptyHandlers r' = ptyHandlers r →
  (∀ c, wc_user (f c) = wc_user c ∧ wc_tunnelIDs (f c) ⊆ wc_tunnelIDs c) → access_ok r → access_ok r'.
Proof.
  intros H1 H2 H3 Hf [A B C]. split; rewrite ?H1, ?H2, ?H3; [|done..]. intros cid c h id Hc Hh. rewrite lookup_fmap in Hc.
  destruct (wsClients r !! cid) as [c0|] eqn:E; [|done]. injection Hc as <-. destruct (Hf c0) as [-> Hs].
  apply (A cid c0 h id E). eapply lookup_weaken; eassumption.
Qed.

Lemma enqueue_same m c : wc_user (enqueue m c) = wc_user c ∧ wc_tunnelIDs (enqueue m c) = wc_tunnelIDs c.
Proof. unfold enqueue. by destruct (_ <? _)%nat. Qed.

Lemma detach_shrinks h c : wc_user (detach h c) = wc_user c ∧ wc_tunnelIDs (detach h c) ⊆ wc_tunnelIDs c.
Proof.
  unfold detach. destruct (wc_tunnelIDs c !! h); [|done]. destruct (enqueue_same (ws_close s 0 "") {| wc_conn := wc_conn c; wc_user := wc_user c;
    wc_tunnelIDs := delete h (wc_tunnelIDs c); wc_ch := wc_ch c |}) as [-> ->]. split; [done|]. apply delete_subseteq.
Qed.

Lemma quiet_send_to_laptop e h m r : quiet (λ c, tunnels r !! h = Some c) r (send_to_laptop e h m r).
Proof.
  unfold send_to_laptop. destruct (tunnels r !! h) as [conn|] eqn:E; [|apply quiet_refl].
  eapply quiet_weaken; [|apply quiet_send]. intros c ->. done.
Qed.

(** Sending something to several laptops. *)
Lemma quiet_fold_laptops {A} e (host : A → string) (m : A → TunnelMsg) l r :
  quiet (λ c, ∃ x, x ∈ l ∧ tunnels r !! host x = Some c) r (fold_left (λ r x, send_to_laptop e (host x) (m x) r) l r).
Proof.
  induction l as [|x l IH] using rev_ind; [apply quiet_refl|]. rewrite fold_left_app. cbn. eapply quiet_trans.
  - eapply quiet_weaken; [|exact IH]. intros c (y & Hy & Ht). exists y. split; [|done]. apply elem_of_app. by left.
  - eapply quiet_weaken; [|apply quiet_send_to_laptop]. intros c Hc. rewrite (qt_tunnels _ _ _ IH) in Hc. exists x. split; [|done].
    apply elem_of_app. right. left.
Qed.

Lemma quiet_fold_conns {A} e (conn : A → nat) (m : A → TunnelMsg) l r :
  quiet (λ c, ∃ x, x ∈ l ∧ conn x = c) r (fold_left (λ r x, (send e (conn x) (m x) r).2) l r).
Proof.
  induction l as [|x l IH] using rev_ind; [apply quiet_refl|]. rewrite fold_left_app. cbn. eapply quiet_trans.
  - eapply quiet_weaken; [|exact IH]. intros c (y & Hy & Ht). exists y. split; [|done]. apply elem_of_app. by left.
  - eapply quiet_weaken; [|apply quiet_send]. intros c ->. exists x. split; [|done]. apply elem_of_app. right. left.
Qed.

(** *** One step *)

Lemma quiet_fail_pending P ids r r' : fail_pending ids r = Done r' → quiet P r r'.
Proof.
  apply (fold_outcome (quiet P) (λ id r, match waiting r !! id with
    | Some (_, w) => finish w None (set_waiting (delete id (waiting r)) r) | None => Done r end)).
  intros id r1 r2 _. destruct (waiting r1 !! id) as [[c w]|]; [|intros [= <-]; apply quiet_refl]. intros H.
  eapply quiet_trans; [apply quiet_waiting|]. by eapply quiet_finish.
Qed.

Lemma quiet_timeout P id r r' : request_timeout id r = Done r' → quiet P r r'.
Proof.
  unfold request_timeout. destruct (waiting r !! id) as [[conn w]|]; [|intros [= <-]; apply quiet_refl]. intros H.
  eapply quiet_trans; [apply quiet_waiting|]. eapply quiet_trans; [apply quiet_entries|]. by eapply quiet_finish.
Qed.

(** A message of a laptop changes the channels of the browsers attached to it only. *)
Lemma dispatch_effect h conn msg r r' : dispatchTunnelMsg h conn msg r = Done r' →
  ∃ f, wsClients r' = f <$> wsClients r ∧ (∀ c, wc_user (f c) = wc_user c ∧ wc_tunnelIDs (f c) = wc_tunnelIDs c) ∧
    (∀ c, f c ≠ c → wc_tunnelIDs c !! h = Some (tm_ID msg)) ∧ ptyHandlers r' = ptyHandlers r ∧ ptySessions r' ⊆ ptySessions r ∧
    (∃ l, out r' = out r ++ l ∧ ∀ c m, ToTunnel c m ∉ l).
Proof.
  assert (Hq : quiet (λ _, False) r r' → ∃ f, wsClients r' = f <$> wsClients r ∧ (∀ c, wc_user (f c) = wc_user c ∧ wc_tunnelIDs (f c) = wc_tunnelIDs c) ∧
    (∀ c, f c ≠ c → wc_tunnelIDs c !! h = Some (tm_ID msg)) ∧ ptyHandlers r' = ptyHandlers r ∧ ptySessions r' ⊆ ptySessions r ∧
    (∃ l, out r' = out r ++ l ∧ ∀ c m, ToTunnel c m ∉ l)).
  { intros [_ _ _ H1 [H2 H3] (l & H4 & H5)]. exists id. rewrite map_fmap_id, H1, H2, H3. split_and!; try done. exists l. split; [done|].
    intros c m Hin. by apply H5 in Hin. }
  unfold dispatchTunnelMsg. cbv zeta. destruct (String.eqb (tm_Type msg) "http_response").
  { destruct (entries r !! conn) as [t|]; [|intros [= <-]; apply Hq, quiet_refl]. case_bool_decide; [|intros [= <-]; apply Hq, quiet_refl].
    destruct (waiting _ !! _) as [[c w]|]; intros Hx; apply Hq; [|injection Hx as <-; apply quiet_entries].
    eapply quiet_trans; [apply quiet_entries|]. eapply quiet_trans; [apply quiet_waiting|]. by eapply quiet_finish. }
  destruct (String.eqb (tm_Type msg) "pty_data").
  { destruct (ptySessions r !! _); [destruct (base64_decode _)|]; intros [= <-]; apply Hq; auto with quiet. }
  destruct (String.eqb (tm_Type msg) "pty_close").
  { destruct (ptySessions r !! _) as [ps|] eqn:E; intros [= <-]; [|apply Hq, quiet_refl]. exists id. rewrite map_fmap_id. split_and!; try done.
    - apply delete_subseteq.
    - eexists. split; [done|]. by intros c m ?%list_elem_of_singleton. }
  destruct (_ || _); [|intros [= <-]; apply Hq, quiet_refl]. destruct (existsb _ _); [|intros [= <-]; apply Hq, quiet_refl].
  intros (m & _ & [= <-])%outcome_bind_Done. eexists. split; [reflexivity|]. split; [|split_and!; try done].
  - intros c. destruct (owns_ws _ _ c); [apply enqueue_same|done].
  - intros c. unfold owns_ws. by case_bool_decide.
  - exists []. rewrite app_nil_r. split; [done|]. by intros c m' ?%elem_of_nil.
Qed.

Lemma read_effect conn msg r r' : tunnel_read conn msg r = Done r' → r' = r ∨ ∃ t, entries r !! conn = Some t ∧ dispatchTunnelMsg (te_hostname t) conn msg r = Done r'.
Proof. unfold tunnel_read. destruct (entries r !! conn) as [t|]; [|intros [= <-]; by left]. destruct (is_open conn r); [|intros [= <-]; by left]. eauto. Qed.

Lemma end_effect conn r r' : tunnel_end conn r = Done r' →
  (r' = r ∨ ∃ h, wsClients r' = detach h <$> wsClients r) ∧ ptyHandlers r' = ptyHandlers r ∧ ptySessions r' = ptySessions r ∧
  (∃ l, out r' = out r ++ l ∧ ∀ c m, ToTunnel c m ∉ l).
Proof.
  unfold tunnel_end. destruct (entries r !! conn) as [t|]; [|intros [= <-]; split_and!; [by left|done|done|]; exists []; rewrite app_nil_r; split; [done|]; by intros c m ?%elem_of_nil].
  cbv zeta. set (r0 := set_entries _ _). assert (H0 : wsClients r0 = wsClients r ∧ ptyHandlers r0 = ptyHandlers r ∧ ptySessions r0 = ptySessions r ∧ out r0 = out r)
    by (subst r0; by case_bool_decide). clearbody r0. destruct H0 as (H1 & H2 & H3 & H4).
  intros (r1 & Hp & [= <-])%outcome_bind_Done. apply (quiet_fail_pending (λ _, False)) in Hp as [_ _ _ A [B C] (l & D & E)]. cbn.
  split_and!; [right; exists (te_hostname t); congruence|congruence|congruence|]. exists l. split; [congruence|]. intros c m Hin. by apply E in Hin.
Qed.

(** The client of a new connection and the messages that announce it. *)
Lemma open_client e conn req r :
  HandleClientWS e conn req r = emit (RError (hq_rid req) 401 "unauthorized") r ∧ authenticateRequest req r = None ∨
  HandleClientWS e conn req r = r ∨
  ∃ user cid ids r0, authenticateRequest req r = Some user ∧
    wsClients r0 = <[cid := {| wc_conn := conn; wc_user := user; wc_tunnelIDs := ids; wc_ch := [] |}]> (wsClients r) ∧
    ptySessions r0 = ptySessions r ∧ ptyHandlers r0 = ptyHandlers r ∧ out r0 = out r ∧ tunnels r0 = tunnels r ∧
    (∀ h id, ids !! h = Some id → CanAccessLaptop user h = true ∧ id = cid +:+ "-" +:+ h) ∧
    quiet (usable user r) r0 (HandleClientWS e conn req r).
Proof.
  unfold HandleClientWS. destruct (authenticateRequest req r) as [user|]; [|by left]. right. destruct (re_upgradeErr e); [by left|right].
  cbv zeta. set (cid := "ws-" +:+ _). set (ts := map_to_list _). set (ids := list_to_map _).
  exists user, cid, ids, (set_wsClients (<[cid := {| wc_conn := conn; wc_user := user; wc_tunnelIDs := ids; wc_ch := [] |}]> (wsClients r)) (set_wsSeq (wsSeq r + 1)%N r)).
  do 6 (split; [done|]). split.
  - intros h id Hid. apply elem_of_list_to_map_2, list_elem_of_fmap in Hid as ([h' c] & [= -> ->] & Hin). by apply filter_usable in Hin as [_ ?].
  - eapply quiet_weaken; [|apply (quiet_fold_conns e snd)]. intros c ([h c'] & Hin & <-). by apply filtered_conn in Hin.
Qed.

Lemma quiet_frame e cid b d r :
  quiet (λ conn, ∃ c h, wsClients r !! cid = Some c ∧ is_Some (wc_tunnelIDs c !! h) ∧ tunnels r !! h = Some conn) r (client_frame e cid b d r).
Proof.
  unfold client_frame. destruct (wsClients r !! cid) as [c|]; [|apply quiet_refl]. destruct (load_more b d) as [cmd|].
  - destruct (parsePrefixedID (wm_ID cmd)) as [h rid]. destruct (wc_tunnelIDs c !! h) as [w|] eqn:E; [|apply quiet_refl].
    eapply quiet_weaken; [|apply quiet_send_to_laptop]. intros conn Ht. exists c, h. rewrite E. eauto.
  - eapply quiet_weaken; [|apply (quiet_fold_laptops e fst)]. intros conn ([h w] & Hin%elem_of_map_to_list & Ht). exists c, h. rewrite Hin. eauto.
Qed.

Lemma quiet_pty_frame e id b d r : quiet (λ conn, ∃ ps, ptySessions r !! id = Some ps ∧ tunnels r !! ps_hostname ps = Some conn) r (pty_frame e id b d r).
Proof.
  unfold pty_frame. destruct (ptySessions r !! id) as [ps|]; [|apply quiet_refl].
  destruct (resize b d) as [[rows cols]|]; (eapply quiet_weaken; [|apply quiet_send_to_laptop]); eauto.
Qed.

(** The end of a browser's WebSocket: its state without the client, then messages to
    the laptops it was attached to. *)
Lemma client_end_effect e cid r :
  client_end e cid r = r ∧ wsClients r !! cid = None ∨
  ∃ c, wsClients r !! cid = Some c ∧
    quiet (λ conn, ∃ h, is_Some (wc_tunnelIDs c !! h) ∧ tunnels r !! h = Some conn) (set_wsClients (delete cid (wsClients r)) r) (client_end e cid r).
Proof.
  unfold client_end. destruct (wsClients r !! cid) as [c|] eqn:E; [right; exists c|by left]. split; [done|]. cbv zeta.
  eapply quiet_trans; [|apply quiet_answer; intros ?? [=]]. eapply quiet_weaken; [|apply (quiet_fold_laptops e fst)].
  intros conn ([h w] & Hin%elem_of_map_to_list & Ht). exists h. rewrite Hin. eauto.
Qed.

Lemma access_client_end e cid r : access_ok r → access_ok (client_end e cid r).
Proof.
  intros Hok. destruct (client_end_effect e cid r) as [[-> _]|(c & _ & Hq)]; [done|]. eapply access_quiet; [exact Hq|]. destruct Hok as [A B C].
  split; [|done..]. intros c0 c1 h id Hc Hh. cbn in Hc. apply lookup_delete_Some in Hc as [_ Hc]. by eapply A.
Qed.

Definition shorter (ch : list TunnelMsg) (cid : string) (clients : gmap string wsClient) : gmap string wsClient :=
  alter (λ c, {| wc_conn := wc_conn c; wc_user := wc_user c; wc_tunnelIDs := wc_tunnelIDs c; wc_ch := ch |}) cid clients.

(** A delivery takes a message from the channel, and may end the client. *)
Lemma deliver_effect e cid r : ∃ ch r0, wsClients r0 = shorter ch cid (wsClients r) ∧ ptySessions r0 = ptySessions r ∧ ptyHandlers r0 = ptyHandlers r ∧
  tunnels r0 = tunnels r ∧ (∃ l, out r0 = out r ++ l ∧ ∀ c m, ToTunnel c m ∉ l) ∧ (client_deliver e cid r = r0 ∨ client_deliver e cid r = client_end e cid r0).
Proof.
  unfold client_deliver. assert (Hnil : ∃ l, out r = out r ++ l ∧ ∀ c m, ToTunnel c m ∉ l) by (exists []; rewrite app_nil_r; split; [done|by intros c m ?%elem_of_nil]).
  destruct (wsClients r !! cid) as [c|] eqn:E.
  2: { exists [], r. split_and!; try done; [|by left]. unfold shorter. symmetry. apply map_eq. intros k. destruct (decide (cid = k)) as [<-|]; [by rewrite lookup_alter_eq, E|by rewrite lookup_alter_ne]. }
  assert (Hs : ∀ ch, shorter ch cid (wsClients r) = <[cid := {| wc_conn := wc_conn c; wc_user := wc_user c; wc_tunnelIDs := wc_tunnelIDs c; wc_ch := ch |}]> (wsClients r)).
  { intros ch. unfold shorter. apply map_eq. intros k. destruct (decide (cid = k)) as [<-|]; [by rewrite lookup_alter_eq, E, lookup_insert_eq|].
    by rewrite lookup_alter_ne, lookup_insert_ne. }
  destruct (wc_ch c) as [|msg ch] eqn:Ech.
  { exists [], r. rewrite Hs, insert_id by (rewrite E; f_equal; destruct c; cbn in *; by subst). split_and!; try done. by left. }
  exists ch. cbv zeta. set (r1 := set_wsClients _ r). assert (H1 : wsClients r1 = shorter ch cid (wsClients r)) by (by rewrite Hs).
  destruct (String.eqb (tm_Type msg) "ws_close"); [exists r1; case_bool_decide; split_and!; try done; tauto|].
  destruct (String.eqb (tm_Type msg) "ws_message"); [|exists r1; split_and!; try done; tauto].
  destruct (base64_decode _) as [payload|]; [|exists r1; split_and!; try done; tauto].
  destruct (re_sendErr e (wc_conn c)); [exists r1; split_and!; try done; tauto|]. exists (emit (ToClient (wc_conn c) (tm_Binary msg) payload) r1).
  split; [exact H1|]. do 3 (split; [done|]). split; [|by left].  eexists. split; [done|]. by intros c' m ?%list_elem_of_singleton.
Qed.

Lemma access_shorter ch cid r r0 :
  wsClients r0 = shorter ch cid (wsClients r) → ptySessions r0 = ptySessions r → ptyHandlers r0 = ptyHandlers r → access_ok r → access_ok r0.
Proof.
  intros H1 H2 H3 [A B C]. split; rewrite ?H1, ?H2, ?H3; [|done..]. intros k c h id Hc Hh. unfold shorter in Hc. rewrite lookup_alter in Hc.
  destruct (decide (cid = k)) as [<-|]; [|by eapply A]. destruct (wsClients r !! cid) as [c0|] eqn:E; [|done]. injection Hc as <-. by apply (A cid c0).
Qed.

(** *** Terminals *)

Lemma pty_end_effect e id r :
  pty_end e id r = r ∨ ∃ ps, ptyHandlers r !! id = Some ps ∧
    quiet (λ conn, tunnels r !! ps_hostname ps = Some conn) (set_ptyHandlers (delete id (ptyHandlers r)) (set_ptySessions (delete id (ptySessions r)) r)) (pty_end e id r).
Proof.
  unfold pty_end. destruct (ptyHandlers r !! id) as [ps|]; [right; exists ps; split; [done|]|by left].
  exact (quiet_send_to_laptop e (ps_hostname ps) (pty_close id "") (set_ptyHandlers (delete id (ptyHandlers r)) (set_ptySessions (delete id (ptySessions r)) r))).
Qed.

Lemma access_pty_end e id r : access_ok r → access_ok (pty_end e id r).
Proof.
  intros Hok. destruct (pty_end_effect e id r) as [->|(ps & _ & Hq)]; [done|]. eapply access_quiet; [exact Hq|]. destruct Hok as [A B C]. split; [done|..]; cbn.
  - intros k p Hp. apply lookup_delete_Some in Hp as [_ Hp]. eauto.
  - intros k p Hp. apply lookup_delete_Some in Hp as [Hk Hp]. apply lookup_delete_Some. eauto.
Qed.

(** Opening a terminal: refused, or announced to the laptop, and possibly ended at once. *)
Lemma pty_open_effect e conn req r :
  quiet (λ _, False) r (HandlePtyWS e conn req r) ∨
  ∃ user ps id r0 r1, authenticateRequest req r = Some user ∧ CanAccessLaptop user (ps_hostname ps) = true ∧ ps_user ps = user ∧
    wsClients r0 = wsClients r ∧ ptySessions r0 = <[id := ps]> (ptySessions r) ∧ ptyHandlers r0 = <[id := ps]> (ptyHandlers r) ∧
    tunnels r0 = tunnels r ∧ out r0 = out r ∧ quiet (usable user r) r0 r1 ∧ (HandlePtyWS e conn req r = r1 ∨ HandlePtyWS e conn req r = pty_end e id r1).
Proof.
  unfold HandlePtyWS. destruct (authenticateRequest req r) as [user|] eqn:Hu; [|left; auto with quiet]. cbv zeta.
  set (hostname := if String.eqb _ "" then _ else _). destruct (CanAccessLaptop user hostname) eqn:Ha; cbn [negb]; [|left; auto with quiet].
  destruct (tunnels r !! hostname) as [tconn|] eqn:Ht; [|left; auto with quiet]. destruct (re_upgradeErr e); [left; auto with quiet|right].
  set (id := "pty-" +:+ _). set (ps := {| ps_hostname := hostname |}).
  match goal with |- context [send e tconn ?m ?r0] => set (msg := m); set (r2 := r0); pose proof (quiet_send e tconn msg r2) as Hq end.
  exists user, ps, id, r2. destruct (send e tconn msg r2) as [ok r1]. exists r1. split; [done|]. split; [done|]. do 6 (split; [done|]).
  split; [|destruct ok; tauto]. eapply quiet_weaken; [|exact Hq]. intros c ->. by exists hostname.
Qed.

Lemma access_pty_open e conn req r : access_ok r → access_ok (HandlePtyWS e conn req r).
Proof.
  intros Hok. destruct (pty_open_effect e conn req r) as [Hq|(user & ps & id & r0 & r1 & Hu & Ha & Hps & H1 & H2 & H3 & _ & _ & Hq & He)];
    [by eapply access_quiet|].
  assert (access_ok r1).
  { eapply access_quiet; [exact Hq|]. destruct Hok as [A B C]. split; rewrite ?H1, ?H2, ?H3; [done|..]; intros k p; rewrite !lookup_insert; case_decide; [|eauto|done|eauto].
    intros [= <-]. by rewrite Hps. }
  destruct He as [->| ->]; [done|by apply access_pty_end].
Qed.

(** What a step does to the browsers' connections. *)
Lemma access_step l r r' : access_ok r → r_exec l r = Done r' → access_ok r'.
Proof.
  intros Hok. destruct l as [e req|e conn req|conn msg|conn|id|e conn req|e cid b d|e cid|e cid|e conn req|e id b d|e id]; cbn.
  - unfold routes. intros H. repeat case_match; simplify_eq; try (injection H as <-); try (by eapply access_quiet; [|exact Hok]; apply (quiet_answer (λ _, False)); intros ? ?);
      try (by eapply access_same; [..|exact Hok]).
    all: try (by eapply access_quiet; [eapply quiet_api; eassumption|exact Hok]).
    all: unfold HandleTunnelStatic in *; repeat case_match; simplify_eq; try (by eapply access_same; [..|exact Hok]);
      by eapply access_quiet; [eapply quiet_proxy; eassumption|exact Hok].
  - intros [= <-]. unfold HandleTunnel. destruct (negb _); [by eapply access_same; [..|exact Hok]|]. destruct (re_upgradeErr e); [done|].
    eapply access_same; [..|exact Hok]; cbv zeta; by destruct (tunnels r !! _).
  - intros [-> |(t & _ & Hd)]%read_effect; [done|]. apply dispatch_effect in Hd as (f & H1 & H2 & _ & H4 & H5 & _).
    destruct Hok as [A B C]. split.
    + intros c0 c h id Hc Hh. rewrite H1, lookup_fmap in Hc. destruct (wsClients r !! c0) as [c1|] eqn:E; [|done]. injection Hc as <-.
      destruct (H2 c1) as [-> Hi]. rewrite Hi in Hh. eauto.
    + rewrite H4. done.
    + intros id ps Hs. rewrite H4. apply C. by eapply lookup_weaken.
  - intros ([-> |[h H1]] & H2 & H3 & _)%end_effect; [done|]. eapply access_clients; [exact H1|exact H3|exact H2| |exact Hok]. apply detach_shrinks.
  - intros H. eapply access_quiet; [by eapply (quiet_timeout (λ _, False))|exact Hok].
  - intros [= <-]. destruct (open_client e conn req r) as [[-> _]|[->|(user & cid & ids & r0 & _ & H1 & H2 & H3 & _ & _ & Hids & Hq)]];
      [by eapply access_same; [..|exact Hok]|done|]. eapply access_quiet; [exact Hq|]. destruct Hok as [A B C]. split.
    + intros c0 c h id Hc Hh. rewrite H1, lookup_insert in Hc. destruct (decide (cid = c0)) as [<-|]; [|by eapply A]. injection Hc as <-. by apply Hids.
    + rewrite H3. done.
    + rewrite H2, H3. done.
  - intros [= <-]. eapply access_quiet; [apply (quiet_frame e cid b d r)|exact Hok].
  - intros [= <-]. destruct (deliver_effect e cid r) as (ch & r0 & H1 & H2 & H3 & _ & _ & [->| ->]); [|apply access_client_end]; by eapply access_shorter.
  - intros [= <-]. by apply access_client_end.
  - intros [= <-]. by apply access_pty_open.
  - intros [= <-]. eapply access_quiet; [apply (quiet_pty_frame e id b d r)|exact Hok].
  - intros [= <-]. by apply access_pty_end.
Qed.

Lemma access_reachable cfg us r : rtc r_step (NewRelay cfg us) r → access_ok r.
Proof.
  apply (rtc_invariant r_step access_ok).
  - intros r1 r2 H1 H2. inversion H2; subst. by eapply access_step.
  - split; [intros ???? H|intros ?? H..]; cbn in H; by rewrite lookup_empty in H.
Qed.

(** The user on whose behalf a step acts: of the request's token, or of the handler
    whose connection it belongs to. *)
Inductive acting (r : Relay) (user : User) : r_label → Prop :=
| act_http e req : authenticateRequest req r = Some user → acting r user (LHttp e req)
| act_client e conn req : authenticateRequest req r = Some user → acting r user (LClient e conn req)
| act_frame e cid b d c : wsClients r !! cid = Some c → wc_user c = user → acting r user (LFrame e cid b d)
| act_deliver e cid c : wsClients r !! cid = Some c → wc_user c = user → acting r user (LDeliver e cid)
| act_end e cid c : wsClients r !! cid = Some c → wc_user c = user → acting r user (LClientEnd e cid)
| act_pty e conn req : authenticateRequest req r = Some user → acting r user (LPty e conn req)
| act_pty_frame e id b d ps : ptySessions r !! id = Some ps → ps_user ps = user → acting r user (LPtyFrame e id b d)
| act_pty_end e id ps : ptyHandlers r !! id = Some ps → ps_user ps = user → acting r user (LPtyEnd e id).

(** A request for a file of the web app that is fetched from a laptop. *)
Definition serves_static (r : Relay) (l : r_label) : Prop :=
  match l with LHttp e req => isAPIPath (hq_Path req) = false ∧ is_Some (rc_staticHost (rcfg r)) | _ => False end.

Definition new_out (r r' : Relay) : list r_out := drop (length (out r)) (out r').

Lemma new_out_app r r' l : out r' = out r ++ l → new_out r r' = l.
Proof. intros H. unfold new_out. by rewrite H, drop_app_length. Qed.

Lemma quiet_new_out P r0 r r' conn m : quiet P r r' → out r = out r0 → ToTunnel conn m ∈ new_out r0 r' → P conn.
Proof. intros [_ _ _ _ _ (l & H & Hl)] Ho. unfold new_out. rewrite H, Ho, drop_app_length. apply Hl. Qed.

Lemma silent_new_out r r' l conn m : out r' = out r ++ l → (∀ c m, ToTunnel c m ∉ l) → ToTunnel conn m ∉ new_out r r'.
Proof. intros H Hl. by rewrite (new_out_app _ _ _ H). Qed.

Lemma same_new_out r o : o ∉ new_out r r.
Proof. rewrite (new_out_app _ _ []) by (by rewrite app_nil_r). by intros ?%elem_of_nil. Qed.

Lemma open_tunnel_silent e conn req r : ∃ l, out (HandleTunnel e conn req r) = out r ++ l ∧ ∀ c m, ToTunnel c m ∉ l.
Proof.
  unfold HandleTunnel. destruct (negb _); [eexists; split; [done|]; by intros c m ?%list_elem_of_singleton|]. cbv zeta.
  destruct (re_upgradeErr e); [exists []; rewrite app_nil_r; split; [done|]; by intros c m ?%elem_of_nil|].
  destruct (tunnels r !! _) as [old|]; [eexists; split; [done|]; by intros c m ?%list_elem_of_singleton|].
  exists []. rewrite app_nil_r. split; [done|]. by intros c m ?%elem_of_nil.
Qed.

Lemma routes_sends e req r r' conn m : routes e req r = Done r' → ToTunnel conn m ∈ new_out r r' →
  serves_static r (LHttp e req) ∨ ∃ user, authenticateRequest req r = Some user ∧ usable user r conn.
Proof.
  assert (Hone : ∀ o r1, out r1 = out r ++ [o] → (∀ c m, o ≠ ToTunnel c m) → ToTunnel conn m ∉ new_out r r1).
  { intros o r1 H Ho. rewrite (new_out_app _ _ _ H), list_elem_of_singleton. intros Hx. by apply (Ho conn m). }
  unfold routes, serves_static. destruct (String.eqb (hq_Method req) "OPTIONS"); [intros [= <-] Hx; by eapply Hone in Hx|].
  destruct (String.eqb (hq_Path req) "/auth/me"); [intros [= <-] Hx; by eapply Hone in Hx|].
  destruct (HasPrefix (hq_Path req) "/admin/"); [destruct (HandleAdminUsers _ _ _ _ _ _); intros [= <-] Hx; by eapply Hone in Hx|].
  destruct (String.eqb (hq_Path req) "/health"); [intros [= <-] Hx; by eapply Hone in Hx|].
  destruct (String.eqb (hq_Path req) "/laptops"); [intros [= <-] Hx; by eapply Hone in Hx|].
  destruct (isAPIPath (hq_Path req)).
  - intros H Hx. right. eapply quiet_api in H. eapply (quiet_new_out _ r r) in H; [|done|exact Hx]. done.
  - destruct (rc_staticHost (rcfg r)) as [h|]; [by left; eauto|]. intros [= <-] Hx. by eapply Hone in Hx.
Qed.

Lemma new_out_trans r0 r1 r2 o : (∃ x, out r1 = out r0 ++ x) → (∃ y, out r2 = out r1 ++ y) →
  o ∈ new_out r0 r2 → o ∈ new_out r0 r1 ∨ o ∈ new_out r1 r2.
Proof.
  intros [x Hx] [y Hy]. rewrite (new_out_app r0 r1 x), (new_out_app r1 r2 y), (new_out_app r0 r2 (x ++ y)) by (by rewrite ?Hy, ?Hx, ?app_assoc).
  by rewrite elem_of_app.
Qed.

Lemma quiet_grows P r r' : quiet P r r' → ∃ x, out r' = out r ++ x.
Proof. intros [_ _ _ _ _ (x & Hx & _)]. by exists x. Qed.

Lemma pty_end_grows e id r : ∃ l, out (pty_end e id r) = out r ++ l.
Proof. destruct (pty_end_effect e id r) as [->|(ps & _ & H%quiet_grows)]; [exists []; by rewrite app_nil_r|done]. Qed.

Lemma pty_end_sends e id r conn m : ToTunnel conn m ∈ new_out r (pty_end e id r) →
  ∃ ps, ptyHandlers r !! id = Some ps ∧ tunnels r !! ps_hostname ps = Some conn.
Proof.
  intros Hm. destruct (pty_end_effect e id r) as [He|(ps & Hps & Hq)]; [rewrite He in Hm; by apply same_new_out in Hm|].
  exists ps. split; [done|]. by eapply (quiet_new_out _ r) in Hq.
Qed.

Lemma client_end_grows e cid r : ∃ l, out (client_end e cid r) = out r ++ l.
Proof.
  destruct (client_end_effect e cid r) as [[-> _]|(c & _ & [_ _ _ _ _ (l & H & _)])]; [exists []; by rewrite app_nil_r|by exists l].
Qed.

Lemma client_end_sends e cid r conn m : ToTunnel conn m ∈ new_out r (client_end e cid r) →
  ∃ c h, wsClients r !! cid = Some c ∧ is_Some (wc_tunnelIDs c !! h) ∧ tunnels r !! h = Some conn.
Proof.
  intros Hm. destruct (client_end_effect e cid r) as [[He _]|(c & Hc & Hq)]; [rewrite He in Hm; by apply same_new_out in Hm|].
  eapply (quiet_new_out _ r) in Hm; [|exact Hq|done]. destruct Hm as (h & ? & ?). by exists c, h.
Qed.

(** C9. In every run, whatever the relay sends into a tunnel is sent for some user,
    of the request's token or of the session connection or terminal it belongs to, and
    goes to a laptop that this user may use; the exception are the files of the web
    app, which are fetched for anyone.  And a message of a laptop changes the queue of
    a browser's session connection only if its user may use that laptop.  The user of
    a connection is as it was when the connection was opened, so rights that are taken
    away later stay while it is open; what laptops write to terminals is not confined
    ([terminals_shared]). *)
Theorem requests_confined cfg us r l r' :
  rtc r_step (NewRelay cfg us) r → r_exec l r = Done r' →
  (∀ conn m, ToTunnel conn m ∈ new_out r r' → serves_static r l ∨ ∃ user, acting r user l ∧ usable user r conn) ∧
  (∀ conn msg t cid c c', l = LTunnelMsg conn msg → entries r !! conn = Some t → wsClients r !! cid = Some c → wsClients r' !! cid = Some c' →
     c' ≠ c → CanAccessLaptop (wc_user c) (te_hostname t) = true).
Proof.
  intros Hr H. apply access_reachable in Hr as Hok. split.
  2: { intros conn msg t cid c c' -> Ht Hc Hc' Hne. apply read_effect in H as [->|(t' & Ht' & Hd)]; [congruence|]. replace t' with t in * by congruence.
       apply dispatch_effect in Hd as (f & H1 & _ & H3 & _). rewrite H1, lookup_fmap, Hc in Hc'. injection Hc' as <-.
       by destruct (ao_clients _ Hok cid c (te_hostname t) (tm_ID msg) Hc (H3 c Hne)). }
  intros conn m Hm. destruct l as [e req|e tc req|tc msg|tc|id|e bc req|e cid b d|e cid|e cid|e bc req|e id b d|e id]; cbn in H.
  - destruct (routes_sends _ _ _ _ _ _ H Hm) as [?|(user & Hu & Hus)]; [by left|right]. exists user. split; [by constructor|done].
  - exfalso. injection H as <-. destruct (open_tunnel_silent e tc req r) as (x & Ho & Hx). by eapply silent_new_out in Hm.
  - exfalso. apply read_effect in H as [->|(t & _ & Hd)].
    + by apply same_new_out in Hm.
    + apply dispatch_effect in Hd as (_ & _ & _ & _ & _ & _ & x & Ho & Hx). by eapply silent_new_out in Hm.
  - exfalso. apply end_effect in H as (_ & _ & _ & x & Ho & Hx). by eapply silent_new_out in Hm.
  - exfalso. eapply (quiet_timeout (λ _, False)) in H. by eapply (quiet_new_out _ r r) in H.
  - injection H as <-. right. destruct (open_client e bc req r) as [[He _]|[He|(user & cid & ids & r0 & Hu & _ & _ & _ & Ho & Ht & _ & Hq)]].
    + exfalso. rewrite He, (new_out_app _ _ [RError (hq_rid req) 401 "unauthorized"]) in Hm by done. by apply list_elem_of_singleton in Hm.
    + exfalso. rewrite He in Hm. by apply same_new_out in Hm.
    + exists user. split; [by constructor|]. by eapply quiet_new_out in Hq.
  - injection H as <-. right. eapply (quiet_new_out _ r) in Hm; [|apply quiet_frame|done]. destruct Hm as (c & h & Hc & [w Hw] & Ht).
    exists (wc_user c). split; [by econstructor|]. exists h. split; [done|]. by destruct (ao_clients _ Hok _ _ _ _ Hc Hw).
  - injection H as <-. right. destruct (deliver_effect e cid r) as (ch & r0 & Hc & _ & _ & Ht & (x & Ho & Hx) & [He|He]).
    + rewrite He in Hm. by eapply silent_new_out in Hm.
    + assert (Hm' : ToTunnel conn m ∈ x ∨ ToTunnel conn m ∈ new_out r0 (client_end e cid r0)).
      { destruct (client_end_grows e cid r0) as [y Hy]. rewrite He, (new_out_app _ _ (x ++ y)) in Hm by (by rewrite Hy, Ho, app_assoc).
        rewrite (new_out_app _ _ _ Hy). by apply elem_of_app. }
      destruct Hm' as [Hm'|Hm']; [by apply Hx in Hm'|]. apply client_end_sends in Hm' as (c & h & Hc0 & [w Hw] & Hth).
      rewrite Hc in Hc0. unfold shorter in Hc0. rewrite lookup_alter_eq in Hc0. destruct (wsClients r !! cid) as [c1|] eqn:E; [|done]. injection Hc0 as <-.
      exists (wc_user c1). split; [by econstructor|]. exists h. split; [by rewrite <- Ht|]. by destruct (ao_clients _ Hok _ _ _ _ E Hw).
  - injection H as <-. right. apply client_end_sends in Hm as (c & h & Hc & [w Hw] & Ht). exists (wc_user c). split; [by econstructor|].
    exists h. split; [done|]. by destruct (ao_clients _ Hok _ _ _ _ Hc Hw).
  - injection H as <-. right. destruct (pty_open_effect e bc req r) as [Hq|(user & ps & id & r0 & r1 & Hu & Ha & _ & _ & _ & Hh & Ht & Ho & Hq & He)].
    { by eapply (quiet_new_out _ r r) in Hq. }
    exists user. split; [by constructor|]. unfold new_out in Hm. rewrite <- Ho in Hm. apply (new_out_trans r0 r1) in Hm.
    + destruct Hm as [Hm|Hm]; [by eapply (quiet_new_out _ r0 r0) in Hq|]. destruct He as [He|He]; rewrite He in Hm; [by apply same_new_out in Hm|].
      apply pty_end_sends in Hm as (ps' & Hps & Hc). destruct (qt_ptys _ _ _ Hq) as [_ Hh1]. rewrite Hh1, Hh, lookup_insert_eq in Hps. injection Hps as <-.
      exists (ps_hostname ps). split; [|done]. by rewrite <- Ht, <- (qt_tunnels _ _ _ Hq).
    + by eapply quiet_grows.
    + destruct He as [->| ->]; [exists []; by rewrite app_nil_r|apply pty_end_grows].
  - injection H as <-. right. eapply (quiet_new_out _ r) in Hm; [|apply quiet_pty_frame|done]. destruct Hm as (ps & Hps & Ht).
    exists (ps_user ps). split; [by econstructor|]. exists (ps_hostname ps). split; [done|]. by apply (ao_ptys _ Hok id), (ao_sessions _ Hok).
  - injection H as <-. right. destruct (pty_end_effect e id r) as [He|(ps & Hps & Hq)].
    + rewrite He in Hm. by apply same_new_out in Hm.
    + exists (ps_user ps). split; [by econstructor|]. exists (ps_hostname ps). split; [by eapply quiet_new_out in Hq|]. by apply (ao_ptys _ Hok id).
Qed.

(** ** Requests that wait *)

(** What waits is registered with the connection it was sent on, under an id of its own. *)
Record pend_ok (r : Relay) : Prop := {
  po_pending : ∀ id conn w, waiting r !! id = Some (conn, w) → ∃ t, entries r !! conn = Some t ∧ id ∈ te_pending t;
  po_waiting : ∀ conn t id, entries r !! conn = Some t → id ∈ te_pending t → ∃ w, waiting r !! id = Some (conn, w);
  po_ids : ∀ id x, waiting r !! id = Some x → ∃ n, id = "req-" +:+ pretty.pretty n ∧ (n <= reqSeq r)%N;
}.

Definition same_pending (r r' : Relay) : Prop := waiting r' = waiting r ∧ entries r' = entries r ∧ reqSeq r' = reqSeq r.

#[local] Instance same_pending_reflexive : Reflexive same_pending.
Proof. by intros r. Qed.
#[local] Instance same_pending_transitive : Transitive same_pending.
Proof. intros r1 r2 r3 (A & B & C) (D & E & F). split_and!; congruence. Qed.

Lemma pend_same r r' : same_pending r r' → pend_ok r → pend_ok r'.
Proof. intros (H1 & H2 & H3) [A B C]. split; rewrite ?H1, ?H2, ?H3; done. Qed.

Lemma pending_send e conn m r : same_pending r (send e conn m r).2.
Proof. unfold send. by destruct (_ || _). Qed.

Lemma pending_finish w resp r r' : finish w resp r = Done r' → same_pending r r'.
Proof.
  destruct w as [rid|rid h pre]; cbn.
  - intros [= <-]. unfold finish_proxy. destruct resp; [by destruct (_ || _)|done].
  - intros (items & _ & [= <-])%outcome_bind_Done. unfold finish_fan. destruct (fans r !! rid) as [f|]; [|done]. by destruct (fn_left f) as [|[|n]].
Qed.

Lemma pending_to_laptop e h m r : same_pending r (send_to_laptop e h m r).
Proof. unfold send_to_laptop. destruct (tunnels r !! h); [apply pending_send|done]. Qed.

Lemma pending_fold {A} (f : Relay → A → Relay) l r : (∀ r x, same_pending r (f r x)) → same_pending r (fold_left f l r).
Proof. intros Hf. revert r. induction l as [|x l IH]; intros r; [done|]. cbn. by rewrite (Hf r x) at 1. Qed.

Lemma pending_client_end e cid r : same_pending r (client_end e cid r).
Proof.
  unfold client_end. destruct (wsClients r !! cid) as [c|]; [|done]. cbv zeta. etrans; [|by apply (reflexivity (R := same_pending))]. 
  trans (set_wsClients (delete cid (wsClients r)) r); [done|]. apply (pending_fold (λ r (t : string * string), send_to_laptop e t.1 _ r)). intros. apply pending_to_laptop.
Qed.

Lemma pending_pty_end e id r : same_pending r (pty_end e id r).
Proof.
  unfold pty_end. destruct (ptyHandlers r !! id) as [ps|]; [|done]. etrans; [|apply pending_to_laptop]. done.
Qed.

Create HintDb pending discriminated.
#[local] Hint Resolve pending_send pending_to_laptop pending_client_end pending_pty_end : pending.

(** A step that keeps what waits, and may add to it. *)
Definition pend_grow (r r' : Relay) : Prop := pend_ok r → pend_ok r' ∧ waiting r ⊆ waiting r'.

#[local] Instance pend_grow_reflexive : Reflexive pend_grow.
Proof. by intros r. Qed.
#[local] Instance pend_grow_transitive : Transitive pend_grow.
Proof. intros r1 r2 r3 H1 H2 H. destruct (H1 H) as [H3 H4]. destruct (H2 H3) as [H5 H6]. split; [done|]. by etrans. Qed.

Lemma same_pend_grow r r' : same_pending r r' → pend_grow r r'.
Proof. intros Hs Hok. split; [by eapply pend_same|]. destruct Hs as [-> _]. done. Qed.

Lemma next_id_fresh r : pend_ok r → waiting r !! ("req-" +:+ pretty.pretty (reqSeq r + 1)%N) = None.
Proof.
  intros [_ _ C]. destruct (waiting r !! _) as [x|] eqn:E; [|done]. apply C in E as (n & Hn & Hle). cbn in Hn. injection Hn as Hn.
  assert ((reqSeq r + 1)%N = n) by (apply (inj pretty.pretty), Hn). lia.
Qed.

Lemma grow_sendHTTP e w conn method path query headers body r r' :
  sendHTTPViaTunnel e w conn method path query headers body r = Done r' → pend_grow r r'.
Proof.
  unfold sendHTTPViaTunnel. cbv zeta. intros H Hok. pose proof (next_id_fresh r Hok) as Hnew. revert H Hnew. set (id := "req-" +:+ _). intros H Hnew. set (r0 := add_pending _ _ _) in H.
  assert (Hne : ∀ t c, entries r !! c = Some t → id ∉ te_pending t).
  { intros t c Ht Hin. destruct (po_waiting _ Hok _ _ _ Ht Hin) as [w0 Hw0]. congruence. }
  unfold send in H. destruct (_ || _) eqn:Hs.
  - apply pending_finish in H as (H1 & H2 & H3). apply (same_pend_grow (set_reqSeq (reqSeq r + 1)%N r)).
    + split_and!; [exact H1| |exact H3]. rewrite H2. cbn. apply map_eq. intros c. rewrite !lookup_alter. destruct (decide (conn = c)) as [<-|]; [|done].
      rewrite decide_True by done. destruct (entries r !! conn) as [t|] eqn:Et; [|done]. cbn. f_equal. destruct t as [h p]. cbn. f_equal. apply Hne in Et. cbn in Et. set_solver.
    + destruct Hok as [A B C]. split; [exact A|exact B|]. intros k x Hx. destruct (C k x Hx) as (n & -> & Hn). exists n. split; [done|]. cbn. lia.
  - injection H as <-. cbn. split; [|by apply insert_subseteq]. destruct Hok as [A B C]. apply orb_false_iff in Hs as [_ Hs]. apply negb_false_iff in Hs.
    unfold is_open in Hs. apply andb_true_iff in Hs as [[t0 Ht0]%bool_decide_eq_true _]. cbn in Ht0. split; cbn.
    + intros k c w0. rewrite lookup_insert. case_decide as Hk.
      * intros [= <- <-]. subst k. exists t0. split; [done|]. rewrite lookup_alter_eq in Ht0. destruct (entries r !! conn); [|done]. injection Ht0 as <-. set_solver.
      * intros Hw. destruct (A _ _ _ Hw) as (t & Ht & Hin). destruct (decide (conn = c)) as [<-|]; [|rewrite lookup_alter_ne by done; by eauto].
        rewrite lookup_alter_eq, Ht. eexists. split; [done|]. set_solver.
    + intros c t k. rewrite lookup_alter. case_decide as Hc; [subst c|].
      * destruct (entries r !! conn) as [t1|] eqn:E; [|done]. intros [= <-] Hin. cbn in Hin. rewrite lookup_insert. case_decide; [eauto|]. apply (B _ _ _ E). set_solver.
      * intros Ht Hin. rewrite lookup_insert_ne by (intros <-; by eapply Hne). eauto.
    + intros k x. rewrite lookup_insert. case_decide as Hk; [intros _; subst k; exists (reqSeq r + 1)%N; split; [done|lia]|].
      intros Hx. destruct (C k x Hx) as (n & -> & Hn). exists n. split; [done|]. lia.
Qed.

Lemma grow_proxy e conn path req r r' : proxyToTunnel e conn path req r = Done r' → pend_grow r r'.
Proof. unfold proxyToTunnel. destruct (re_bodyErr e); [intros [= <-]; by apply same_pend_grow|apply grow_sendHTTP]. Qed.

Lemma grow_fanOut e pre path x user req r r' : fanOut e pre path x user req r = Done r' → pend_grow r r'.
Proof.
  unfold fanOut. destruct (map_to_list _) as [|t0 ts]; [intros [= <-]; by apply same_pend_grow|]. intros H.
  etrans; [|eapply (fold_outcome pend_grow); [|exact H]]; [by apply same_pend_grow|]. intros t r1 r2 _. apply grow_sendHTTP.
Qed.

Lemma grow_to_laptop e user h path missing req r r' : proxy_to_laptop e user h path missing req r = Done r' → pend_grow r r'.
Proof.
  unfold proxy_to_laptop. destruct (negb _); [intros [= <-]; by apply same_pend_grow|]. destruct (tunnels r !! h); [apply grow_proxy|].
  intros [= <-]; by apply same_pend_grow.
Qed.

Lemma grow_routes e req r r' : routes e req r = Done r' → pend_grow r r'.
Proof.
  unfold routes, HandleAPI, HandleTunnelStatic, fanOutSessions, fanOutJSON. intros H. repeat case_match; simplify_eq; try (by apply same_pend_grow).
  all: first [by eapply grow_fanOut|by eapply grow_to_laptop|by eapply grow_proxy|injection H as <-; by apply same_pend_grow].
Qed.

(** *** The end of a tunnel *)

(** A request that waits gets no answer. *)
Definition expire (w : waiter) (r : Relay) : Relay :=
  match w with WProxy rid => finish_proxy rid None r | WFan rid _ _ => finish_fan rid [] r end.
Definition unanswered (r : Relay) (id : string) : Relay :=
  match waiting r !! id with Some (_, w) => expire w (set_waiting (delete id (waiting r)) r) | None => r end.

Lemma finish_None w r : finish w None r = Done (expire w r).
Proof. by destruct w. Qed.

Lemma fail_pending_eq ids r : fail_pending ids r = Done (fold_left unanswered ids r).
Proof.
  unfold fail_pending. revert r. induction ids as [|id ids IH]; intros r; [done|]. cbn. rewrite <- IH. unfold unanswered.
  destruct (waiting r !! id) as [[c w]|]; [|done]. by rewrite finish_None.
Qed.

Lemma expire_effect w r : same_pending r (expire w r) ∧ (∃ l, out (expire w r) = out r ++ l) ∧
  (∀ rid, w = WProxy rid → RError rid 503 "tunnel unavailable" ∈ new_out r (expire w r)).
Proof.
  pose proof (finish_None w r) as H. split; [by eapply pending_finish|]. split; [exact (quiet_grows _ _ _ (quiet_finish (λ _, False) _ _ _ _ H))|].
  intros rid ->. rewrite (new_out_app _ _ [RError rid 503 "tunnel unavailable"]) by done. by apply list_elem_of_singleton.
Qed.

Lemma fail_effect ids r : let r' := fold_left unanswered ids r in
  entries r' = entries r ∧ reqSeq r' = reqSeq r ∧ (∃ l, out r' = out r ++ l) ∧
  (∀ id, waiting r' !! id = if bool_decide (id ∈ ids) then None else waiting r !! id) ∧
  (∀ id c rid, id ∈ ids → waiting r !! id = Some (c, WProxy rid) → RError rid 503 "tunnel unavailable" ∈ new_out r r').
Proof.
  cbv zeta. revert r. induction ids as [|k ids IH]; intros r.
  - cbn. split_and!; [done|done|exists []; by rewrite app_nil_r|intros id; by rewrite bool_decide_eq_false_2 by (by intros ?%elem_of_nil)|by intros ??? ?%elem_of_nil].
  - cbn. assert (H : ∃ l0, entries (unanswered r k) = entries r ∧ reqSeq (unanswered r k) = reqSeq r ∧ out (unanswered r k) = out r ++ l0 ∧
      waiting (unanswered r k) = delete k (waiting r) ∧ ∀ c rid, waiting r !! k = Some (c, WProxy rid) → RError rid 503 "tunnel unavailable" ∈ l0).
    { unfold unanswered. destruct (waiting r !! k) as [[c w]|] eqn:E.
      - destruct (expire_effect w (set_waiting (delete k (waiting r)) r)) as ((H1 & H2 & H3) & [l0 H4] & H5). exists l0. split_and!; try done.
        intros c' rid Hw. injection Hw as _ Hw. rewrite <- (new_out_app _ _ _ H4). by apply H5.
      - exists []. rewrite app_nil_r, delete_id by done. by split_and!. }
    destruct H as (l0 & H1 & H2 & H3 & H4 & H5). destruct (IH (unanswered r k)) as (A & B & [l C] & D & E).
    assert (Hout : out (fold_left unanswered ids (unanswered r k)) = out r ++ l0 ++ l) by (by rewrite C, H3, app_assoc).
    split_and!; [congruence|congruence|by eexists| |].
    + intros id. rewrite D, H4. destruct (decide (k = id)) as [<-|Hne].
      * rewrite lookup_delete_eq, (bool_decide_eq_true_2 (k ∈ k :: ids)) by left. by case_bool_decide.
      * rewrite lookup_delete_ne by done. by rewrite (bool_decide_ext (id ∈ k :: ids) (id ∈ ids)) by (rewrite elem_of_cons; naive_solver).
    + intros id c rid Hid Hw. rewrite (new_out_app _ _ _ Hout), elem_of_app. destruct (decide (id = k)) as [->|Hne]; [left; by eapply H5|right].
      apply elem_of_cons in Hid as [?|Hid]; [done|]. rewrite <- (new_out_app _ _ _ C). apply (E id c); [done|]. by rewrite H4, lookup_delete_ne.
Qed.

(** *** What ends a request *)

(** An answer to the browser. *)
Definition answers (rid : nat) (o : r_out) : Prop :=
  match o with RError k _ _ | RProxied k _ _ _ | RAborted k => k = rid | _ => False end.

(** The laptop's answer on the request's connection, the end of that connection, a timeout. *)
Definition ended_by (l : r_label) (id : string) (conn : nat) : Prop :=
  (∃ msg, l = LTunnelMsg conn msg ∧ tm_Type msg = "http_response"%string ∧ tm_ID msg = id) ∨ l = LTunnelEnd conn ∨ l = LTimeout id.

Definition pend_progress (l : r_label) (r r' : Relay) : Prop :=
  pend_ok r' ∧ ∀ id conn w, waiting r !! id = Some (conn, w) → waiting r' !! id = Some (conn, w) ∨
    waiting r' !! id = None ∧ ended_by l id conn ∧ ∀ rid, w = WProxy rid → ∃ o, answers rid o ∧ o ∈ new_out r r'.

Lemma grow_progress l r r' : pend_ok r → pend_grow r r' → pend_progress l r r'.
Proof. intros Hok Hg. destruct (Hg Hok) as [H1 H2]. split; [done|]. intros id conn w Hw. left. by eapply lookup_weaken. Qed.

Lemma same_progress l r r' : pend_ok r → same_pending r r' → pend_progress l r r'.
Proof. intros Hok Hs. by apply grow_progress, same_pend_grow. Qed.

Lemma finish_proxy_answers rid resp r : ∃ o, answers rid o ∧ out (finish_proxy rid resp r) = out r ++ [o].
Proof. unfold finish_proxy. destruct resp; [destruct (_ || _)|]; (eexists; split; [|reflexivity]; done). Qed.

(** A request that is finished is no longer registered. *)
Lemma drop_ok id conn w r : pend_ok r → waiting r !! id = Some (conn, w) →
  pend_ok (drop_pending id conn (set_waiting (delete id (waiting r)) r)).
Proof.
  intros [A B C] Hw. split; cbn.
  - intros k c w0 [Hk Hw0]%lookup_delete_Some. destruct (A _ _ _ Hw0) as (t & Ht & Hin). destruct (decide (conn = c)) as [<-|Hc].
    + rewrite lookup_alter_eq, Ht. eexists. split; [done|]. cbn. set_solver.
    + rewrite lookup_alter_ne by done. eauto.
  - intros c t k. rewrite lookup_alter. case_decide as Hc; [subst c|].
    + destruct (entries r !! conn) as [t1|] eqn:E; [|done]. intros [= <-] Hin. cbn in Hin. rewrite lookup_delete_ne by set_solver. apply (B _ _ _ E). set_solver.
    + intros Ht Hin. destruct (B _ _ _ Ht Hin) as [w0 Hw0]. rewrite lookup_delete_ne by congruence. eauto.
  - intros k x [_ Hx]%lookup_delete_Some. eauto.
Qed.

Lemma finish_progress l id conn w resp r r' : pend_ok r → waiting r !! id = Some (conn, w) → ended_by l id conn →
  finish w resp (drop_pending id conn (set_waiting (delete id (waiting r)) r)) = Done r' → pend_progress l r r'.
Proof.
  intros Hok Hw Hl Hf. pose proof (pending_finish _ _ _ _ Hf) as Hs. split; [eapply pend_same, drop_ok; eassumption|]. intros k c w0 Hk.
  destruct Hs as (H1 & _). rewrite H1. cbn. destruct (decide (id = k)) as [<-|Hne]; [right|left; by rewrite lookup_delete_ne].
  rewrite Hw in Hk. injection Hk as <- <-. rewrite lookup_delete_eq. split_and!; [done..|]. intros rid ->. injection Hf as <-.
  match goal with |- context [finish_proxy rid resp ?r1] => destruct (finish_proxy_answers rid resp r1) as (o & Ho & Hout) end.
  exists o. split; [done|]. rewrite (new_out_app r _ [o]) by exact Hout. by apply list_elem_of_singleton.
Qed.

Lemma dispatch_progress h conn msg r r' : pend_ok r → dispatchTunnelMsg h conn msg r = Done r' → pend_progress (LTunnelMsg conn msg) r r'.
Proof.
  intros Hok. unfold dispatchTunnelMsg. cbv zeta. destruct (String.eqb_spec (tm_Type msg) "http_response") as [Ht|_].
  - destruct (entries r !! conn) as [t|] eqn:E; [|intros [= <-]; by apply same_progress]. case_bool_decide as Hin; [|intros [= <-]; by apply same_progress].
    destruct (po_waiting _ Hok _ _ _ E Hin) as [w Hw]. assert (waiting (drop_pending (tm_ID msg) conn r) !! tm_ID msg = Some (conn, w)) as -> by done.
    intros Hf. eapply finish_progress; [done|exact Hw|left; by exists msg|exact Hf].
  - repeat case_match; intros H'; simplify_eq; try (by apply same_progress). apply outcome_bind_Done in H' as (m & _ & [= <-]). by apply same_progress.
Qed.

Lemma end_progress conn r r' : pend_ok r → tunnel_end conn r = Done r' → pend_progress (LTunnelEnd conn) r r'.
Proof.
  intros Hok. unfold tunnel_end. destruct (entries r !! conn) as [t|] eqn:E; [|intros [= <-]; by apply same_progress]. cbv zeta.
  set (r0 := set_entries _ _). assert (H0 : waiting r0 = waiting r ∧ entries r0 = delete conn (entries r) ∧ reqSeq r0 = reqSeq r ∧ out r0 = out r)
    by (subst r0; by case_bool_decide). clearbody r0. destruct H0 as (H1 & H2 & H3 & H4). rewrite fail_pending_eq. cbn [outcome_bind]. intros [= <-].
  destruct (fail_effect (elements (te_pending t)) r0) as (A & B & [l C] & D & F). set (r1 := fold_left _ _ _) in *.
  assert (Hw : ∀ k c w, waiting r !! k = Some (c, w) → k ∈ elements (te_pending t) ↔ c = conn).
  { intros k c w Hk. rewrite elem_of_elements. destruct (po_pending _ Hok _ _ _ Hk) as (t' & Ht' & Hin). split; [|intros ->; congruence].
    intros Hin'. destruct (po_waiting _ Hok _ _ _ E Hin') as [w' Hw']. congruence. }
  split.
  - split; cbn.
    + intros k c w. rewrite D. case_bool_decide as Hk; [done|]. rewrite H1. intros Hkw. rewrite A, H2.
      destruct (po_pending _ Hok _ _ _ Hkw) as (t' & Ht' & Hin). exists t'. split; [|done]. rewrite lookup_delete_ne; [done|].
      intros ->. apply Hk. by eapply Hw.
    + intros c t' k. rewrite A, H2. intros [Hc Ht']%lookup_delete_Some Hin. destruct (po_waiting _ Hok _ _ _ Ht' Hin) as [w Hkw]. exists w.
      rewrite D, bool_decide_eq_false_2; [by rewrite H1|]. intros Hk. by apply (Hw _ _ _ Hkw) in Hk.
    + intros k x. rewrite D, B, H3, H1. case_bool_decide; [done|]. apply (po_ids _ Hok).
  - intros k c w Hk. cbn. rewrite D, H1. case_bool_decide as Hin; [right|by left]. apply (Hw _ _ _ Hk) in Hin as Hc. subst c.
    split_and!; [done|right; by left|]. intros rid ->. rewrite <- H1 in Hk. eexists. split; [|unfold new_out; rewrite <- H4; by eapply F]. done.
Qed.

Lemma pend_step l r r' : fresh_conn l r → pend_ok r → r_exec l r = Done r' → pend_progress l r r'.
Proof.
  intros Hf Hok. destruct l as [e req|e conn req|conn msg|conn|id|e conn req|e cid b d|e cid|e cid|e conn req|e id b d|e id]; cbn [r_exec].
  - intros H. eapply grow_progress, grow_routes; eassumption.
  - intros [= <-]. unfold HandleTunnel. destruct (negb _); [by apply same_progress|]. cbv zeta. destruct (re_upgradeErr e); [by apply same_progress|].
    cbn in Hf. apply grow_progress; [done|]. intros _. split; [|by destruct (tunnels r !! _)]. destruct Hok as [A B C].
    assert (Hr : ∀ h, pend_ok (set_tunnels h (set_entries (<[conn := {| te_hostname := if String.eqb (header_Get "X-Hostname" (hq_Headers req)) ""
        then "default"%string else header_Get "X-Hostname" (hq_Headers req); te_pending := ∅ |}]> (entries r)) r))).
    { intros h. split; cbn; [| |done].
      - intros k c w Hk. destruct (A _ _ _ Hk) as (t & Ht & Hin). exists t. split; [|done]. by rewrite lookup_insert_ne by congruence.
      - intros c t k. rewrite lookup_insert. case_decide; [intros [= <-]; cbn; set_solver|]. eauto. }
    destruct (tunnels r !! _); [|apply Hr]. eapply pend_same; [|apply (Hr (tunnels r))]. done.
  - intros [->|(t & _ & Hd)]%read_effect; [by apply same_progress|]. by eapply dispatch_progress.
  - by apply end_progress.
  - unfold request_timeout. destruct (waiting r !! id) as [[conn w]|] eqn:E; [|intros [= <-]; by apply same_progress].
    intros H. eapply finish_progress; [done|exact E|by right; right|exact H].
  - intros [= <-]. apply same_progress; [done|]. unfold HandleClientWS. destruct (authenticateRequest req r); [|done]. destruct (re_upgradeErr e); [done|].
    cbv zeta. etrans; [|apply (pending_fold (λ r (t : string * nat), (send e t.2 _ r).2)); intros; apply pending_send]. done.
  - intros [= <-]. apply same_progress; [done|]. unfold client_frame. repeat case_match; try done; [apply pending_to_laptop|].
    apply (pending_fold (λ r (t : string * string), send_to_laptop e t.1 _ r)). intros. apply pending_to_laptop.
  - intros [= <-]. apply same_progress; [done|]. unfold client_deliver. cbv zeta. repeat case_match; try done;
      (etrans; [|apply pending_client_end]); done.
  - intros [= <-]. apply same_progress; [done|apply pending_client_end].
  - intros [= <-]. apply same_progress; [done|]. unfold HandlePtyWS. cbv zeta. repeat case_match; try done.
    all: match goal with H : send ?e ?c ?m ?r0 = _ |- _ => pose proof (pending_send e c m r0) as Hs; rewrite H in Hs; cbn in Hs end.
    all: first [exact Hs|etrans; [|apply pending_pty_end]; exact Hs].
  - intros [= <-]. apply same_progress; [done|]. unfold pty_frame. repeat case_match; try done; apply pending_to_laptop.
  - intros [= <-]. apply same_progress; [done|apply pending_pty_end].
Qed.

Lemma pend_reachable cfg us r : rtc r_step (NewRelay cfg us) r → pend_ok r.
Proof.
  apply (rtc_invariant r_step pend_ok).
  - intros r1 r2 H1 H2. inversion H2 as [l ? ? Hf H]; subst. by destruct (pend_step _ _ _ Hf H1 H).
  - split; [intros ??? H|intros ??? H|intros ?? H]; cbn in H; by rewrite lookup_empty in H.
Qed.

(** *** Fanned out requests *)

(** The requests to single laptops that wait for the browser's request [rid]. *)
Definition waits_for (rid : nat) (x : nat * waiter) : Prop := match x.2 with WFan k _ _ => k = rid | WProxy _ => False end.
#[local] Instance waits_for_dec rid x : Decision (waits_for rid x).
Proof. unfold waits_for. destruct x.2; apply _. Defined.

Definition fan_waiting (rid : nat) (r : Relay) : nat := size (filter (λ kv : string * (nat * waiter), waits_for rid kv.2) (waiting r)).
Definition owes (w : waiter) (rid : nat) : nat := match w with WFan k _ _ => if decide (k = rid) then 1 else 0 | WProxy _ => 0 end.

(** A fan-out counts the requests that wait for it, and [d] more that are about to. *)
Definition fan_ok (d : nat → nat) (r : Relay) : Prop := ∀ rid,
  match fans r !! rid with
  | Some f => fn_left f = (fan_waiting rid r + d rid)%nat ∧ (0 < fn_left f)%nat
  | None => (fan_waiting rid r + d rid)%nat = 0%nat
  end.

Definition owed (rid n k : nat) : nat := if decide (rid = k) then n else 0%nat.

Lemma fan_ok_ext (d1 d2 : nat → nat) r : (∀ k, d1 k = d2 k) → fan_ok d1 r → fan_ok d2 r.
Proof. intros Hd Hok rid. rewrite <- Hd. apply Hok. Qed.

Lemma owed_none rid k : owed rid 0 k = 0%nat.
Proof. unfold owed. by case_decide. Qed.

Lemma owed_one rid h pre n k : owed rid (S n) k = (owes (WFan rid h pre) k + owed rid n k)%nat.
Proof. unfold owed, owes. by destruct (decide (rid = k)). Qed.

(** A fan-out is under way until its browser is answered. *)
Definition fans_kept (r r' : Relay) : Prop :=
  (∃ l, out r' = out r ++ l) ∧ ∀ rid, is_Some (fans r !! rid) → is_Some (fans r' !! rid) ∨ ∃ js, RJson rid (JArr js) ∈ new_out r r'.

#[local] Instance fans_kept_reflexive : Reflexive fans_kept.
Proof. intros r. split; [exists []; by rewrite app_nil_r|by left]. Qed.
#[local] Instance fans_kept_transitive : Transitive fans_kept.
Proof.
  intros r1 r2 r3 [[l1 H1] A] [[l2 H2] B]. assert (H3 : out r3 = out r1 ++ l1 ++ l2) by (by rewrite H2, H1, app_assoc).
  split; [by eexists|]. intros rid Hr. rewrite (new_out_app _ _ _ H3). destruct (A rid Hr) as [Hr'|[js Hj]].
  - destruct (B rid Hr') as [?|[js Hj]]; [by left|right; exists js]. rewrite (new_out_app _ _ _ H2) in Hj. apply elem_of_app. by right.
  - right. exists js. rewrite (new_out_app _ _ _ H1) in Hj. apply elem_of_app. by left.
Qed.

Definition same_fans (r r' : Relay) : Prop := fans r' = fans r ∧ waiting r' = waiting r ∧ ∃ l, out r' = out r ++ l.

#[local] Instance same_fans_reflexive : Reflexive same_fans.
Proof. intros r. split_and!; [done..|]. exists []. by rewrite app_nil_r. Qed.
#[local] Instance same_fans_transitive : Transitive same_fans.
Proof. intros r1 r2 r3 (A & B & l1 & C) (D & E & l2 & F). split_and!; [congruence..|]. exists (l1 ++ l2). by rewrite F, C, app_assoc. Qed.

Lemma same_fan_ok d r r' : same_fans r r' → fan_ok d r → fan_ok d r'.
Proof. intros (H1 & H2 & _) Hok rid. unfold fan_waiting. rewrite H1, H2. apply Hok. Qed.

Lemma grown_fans_kept r r' : fans r' = fans r → (∃ l, out r' = out r ++ l) → fans_kept r r'.
Proof. intros H1 H2. split; [done|]. intros rid Hr. left. by rewrite H1. Qed.

Lemma same_fans_kept r r' : same_fans r r' → fans_kept r r'.
Proof. intros (H1 & _ & H2). by apply grown_fans_kept. Qed.

Lemma fans_emit o r : same_fans r (emit o r).
Proof. split_and!; [done..|]. by exists [o]. Qed.

Lemma fans_send e conn m r : same_fans r (send e conn m r).2.
Proof. unfold send. destruct (_ || _); [done|]. apply fans_emit. Qed.

Lemma fans_to_laptop e h m r : same_fans r (send_to_laptop e h m r).
Proof. unfold send_to_laptop. destruct (tunnels r !! h); [apply fans_send|done]. Qed.

Lemma fans_fold {A} (f : Relay → A → Relay) l r : (∀ r x, same_fans r (f r x)) → same_fans r (fold_left f l r).
Proof. intros Hf. revert r. induction l as [|x l IH]; intros r; [done|]. cbn. etrans; [apply Hf|apply IH]. Qed.

Lemma fans_fields r r' : fans r' = fans r → waiting r' = waiting r → out r' = out r → same_fans r r'.
Proof. intros H1 H2 H3. split_and!; [done..|]. exists []. by rewrite H3, app_nil_r. Qed.

Lemma fans_client_end e cid r : same_fans r (client_end e cid r).
Proof.
  unfold client_end. destruct (wsClients r !! cid) as [c|]; [|done]. cbv zeta.
  etrans; [|by apply fans_emit || apply fans_fields]. 
  trans (set_wsClients (delete cid (wsClients r)) r); [by apply fans_fields|]. apply (fans_fold (λ r (t : string * string), send_to_laptop e t.1 _ r)). intros. apply fans_to_laptop.
Qed.

Lemma fans_pty_end e id r : same_fans r (pty_end e id r).
Proof.
  unfold pty_end. destruct (ptyHandlers r !! id) as [ps|]; [|done]. etrans; [|apply fans_to_laptop]. by apply fans_fields.
Qed.

(** A request that waits no longer is owed to its fan-out. *)
Lemma fan_taken d r id conn w :
  fan_ok d r → waiting r !! id = Some (conn, w) → fan_ok (λ k, owes w k + d k)%nat (set_waiting (delete id (waiting r)) r).
Proof.
  intros Hok Hw rid. specialize (Hok rid). cbn. unfold fan_waiting in *. cbn.
  assert (size (filter (λ kv : string * (nat * waiter), waits_for rid kv.2) (waiting r)) =
    size (filter (λ kv : string * (nat * waiter), waits_for rid kv.2) (delete id (waiting r))) + owes w rid)%nat as Hs.
  { rewrite map_filter_delete. destruct (decide (waits_for rid (conn, w))) as [Hd|Hd].
    - rewrite map_size_delete_Some by (eexists; by apply map_lookup_filter_Some).
      assert (size (filter (λ kv : string * (nat * waiter), waits_for rid kv.2) (waiting r)) ≠ 0%nat) as Hne.
      { intros He%map_size_empty_inv. assert (filter (λ kv : string * (nat * waiter), waits_for rid kv.2) (waiting r) !! id = Some (conn, w)) as Hx
          by (by apply map_lookup_filter_Some). rewrite He in Hx. by rewrite lookup_empty in Hx. }
      unfold waits_for in Hd. unfold owes. destruct w as [|k h pre]; [done|]. cbn in Hd. rewrite decide_True by done. lia.
    - rewrite delete_id; [|apply map_lookup_filter_None; right; intros x Hx; rewrite Hw in Hx; by injection Hx as <-].
      unfold waits_for in Hd. unfold owes. destruct w as [|k h pre]; [lia|]. cbn in Hd. rewrite decide_False by done. lia. }
  destruct (fans r !! rid) as [f|]; lia.
Qed.

Lemma fan_added d r id conn w :
  fan_ok (λ k, owes w k + d k)%nat r → waiting r !! id = None → fan_ok d (set_waiting (<[id := (conn, w)]> (waiting r)) r).
Proof.
  intros Hok Hw rid. specialize (Hok rid). cbn. unfold fan_waiting in *. cbn.
  assert (size (filter (λ kv : string * (nat * waiter), waits_for rid kv.2) (<[id := (conn, w)]> (waiting r))) =
    size (filter (λ kv : string * (nat * waiter), waits_for rid kv.2) (waiting r)) + owes w rid)%nat as ->.
  { destruct (decide (waits_for rid (conn, w))) as [Hd|Hd].
    - rewrite map_filter_insert_True by done. rewrite map_size_insert_None by (apply map_lookup_filter_None; by left).
      unfold waits_for in Hd. unfold owes. destruct w as [|k h pre]; [done|]. cbn in Hd. rewrite decide_True by done. lia.
    - rewrite map_filter_insert_False, delete_id by done. unfold waits_for in Hd. unfold owes.
      destruct w as [|k h pre]; [lia|]. cbn in Hd. rewrite decide_False by done. lia. }
  destruct (fans r !! rid) as [f|]; lia.
Qed.

(** The answer that is owed is counted, and the last one completes the request. *)
Lemma fan_finish d w resp r r' :
  finish w resp r = Done r' → fan_ok (λ k, owes w k + d k)%nat r → fan_ok d r' ∧ fans_kept r r'.
Proof.
  destruct w as [rid|rid h pre]; cbn [finish].
  - intros [= <-] Hok. assert (Hs : same_fans r (finish_proxy rid resp r)).
    { unfold finish_proxy. destruct resp; [destruct (_ || _)|]; apply fans_emit. }
    split; [|by apply same_fans_kept]. eapply same_fan_ok; [exact Hs|]. intros k. apply Hok.
  - intros (items & _ & [= <-])%outcome_bind_Done Hok. pose proof (Hok rid) as Hr. unfold finish_fan. unfold owes in Hr, Hok. rewrite decide_True in Hr by done.
    destruct (fans r !! rid) as [f|] eqn:E; [|lia]. destruct Hr as [Hl Hp].
    assert (Hother : ∀ k, rid ≠ k → match fans r !! k with Some f0 => fn_left f0 = (fan_waiting k r + d k)%nat ∧ (0 < fn_left f0)%nat | None => (fan_waiting k r + d k)%nat = 0%nat end).
    { intros k Hk. specialize (Hok k). cbv beta in Hok. by rewrite decide_False in Hok. }
    destruct (fn_left f) as [|[|n]] eqn:El; [lia| |].
    + split.
      * intros k. cbn. destruct (decide (rid = k)) as [<-|Hk]; [rewrite lookup_delete_eq|rewrite lookup_delete_ne by done; by apply Hother].
        unfold fan_waiting in *. cbn. lia.
      * split; [by eexists|]. intros k Hk. cbn. destruct (decide (rid = k)) as [<-|Hne]; [right|left; by rewrite lookup_delete_ne].
        eexists. rewrite (new_out_app r _ [_]) by reflexivity. by apply list_elem_of_singleton.
    + split.
      * intros k. cbn. destruct (decide (rid = k)) as [<-|Hk]; [rewrite lookup_insert_eq|rewrite lookup_insert_ne by done; by apply Hother].
        unfold fan_waiting in *. cbn. lia.
      * split; [exists []; by rewrite app_nil_r|]. intros k Hk. left. cbn. destruct (decide (rid = k)) as [<-|Hne]; [rewrite lookup_insert_eq; by eexists|].
        by rewrite lookup_insert_ne.
Qed.

Lemma fan_sendHTTP d e w conn method path query headers body r r' :
  pend_ok r → sendHTTPViaTunnel e w conn method path query headers body r = Done r' →
  fan_ok (λ k, owes w k + d k)%nat r → fan_ok d r' ∧ fans_kept r r'.
Proof.
  intros Hp. unfold sendHTTPViaTunnel. cbv zeta. pose proof (next_id_fresh r Hp) as Hnew. revert Hnew. set (id := "req-" +:+ _). intros Hnew.
  set (r0 := add_pending _ _ _). intros H Hok. assert (H0 : same_fans r r0) by (split_and!; [done..|]; exists []; by rewrite app_nil_r).
  unfold send in H. destruct (_ || _).
  - assert (H1 : same_fans r (drop_pending id conn r0)) by (split_and!; [done..|]; exists []; by rewrite app_nil_r).
    apply (fan_finish d) in H as [A B]; [|by eapply same_fan_ok]. split; [done|]. etrans; [by apply same_fans_kept|exact B].
  - injection H as <-. set (m := http_request _ _ _ _ _ _). assert (H1 : same_fans r (emit (ToTunnel conn m) r0)) by (etrans; [exact H0|apply fans_emit]).
    split; [|by apply grown_fans_kept; [|eexists]].
    apply (fan_added d (emit (ToTunnel conn m) r0)); [by eapply same_fan_ok|done].
Qed.

(** What a handler does to the fan-outs under way. *)
Definition fan_steps (r r' : Relay) : Prop := pend_ok r → fan_ok (λ _, 0%nat) r → fan_ok (λ _, 0%nat) r' ∧ fans_kept r r'.

Lemma same_fan_steps r r' : same_fans r r' → fan_steps r r'.
Proof. intros Hs _ Hok. split; [by eapply same_fan_ok|by apply same_fans_kept]. Qed.

Lemma fan_steps_proxy e conn path req r r' : proxyToTunnel e conn path req r = Done r' → fan_steps r r'.
Proof.
  unfold proxyToTunnel. destruct (re_bodyErr e); [intros [= <-]; apply same_fan_steps, fans_emit|]. intros H Hp Hok.
  by eapply (fan_sendHTTP (λ _, 0%nat)) in H.
Qed.

Lemma fan_steps_fanOut e pre path x user req r r' : fans r !! hq_rid req = None → fanOut e pre path x user req r = Done r' → fan_steps r r'.
Proof.
  intros Hn. unfold fanOut. destruct (map_to_list _) as [|t0 ts0] eqn:Ets; [intros [= <-]; apply same_fan_steps, fans_emit|]. clear Ets.
  set (ts := t0 :: ts0). assert (Hpos : (0 < length ts)%nat) by (cbn; lia). clearbody ts. clear t0 ts0.
  set (r0 := set_fans _ _). intros H Hp Hok. assert (Hp0 : pend_ok r0) by (by apply (pend_same r)).
  assert (H0 : fans_kept r r0).
  { split; [exists []; by rewrite app_nil_r|]. intros rid Hr. left. cbn. destruct (decide (hq_rid req = rid)) as [<-|]; [rewrite lookup_insert_eq; by eexists|].
    by rewrite lookup_insert_ne. }
  assert (Hok0 : fan_ok (owed (hq_rid req) (length ts)) r0).
  { intros k. specialize (Hok k). unfold fan_waiting, owed in *. cbn. destruct (decide (hq_rid req = k)) as [<-|Hk]; [rewrite lookup_insert_eq|by rewrite lookup_insert_ne].
    rewrite Hn in Hok. cbn. lia. }
  clearbody r0. clear Hpos Hok Hp. revert r0 H H0 Hp0 Hok0. induction ts as [|t ts IH]; intros r0 H H0 Hp0 Hok0.
  { injection H as <-. split; [|done]. eapply fan_ok_ext; [|exact Hok0]. apply owed_none. }
  cbn [fold_left outcome_bind] in H. destruct (sendHTTPViaTunnel _ _ _ _ _ _ _ _ r0) as [r1|] eqn:E.
  2: { exfalso. clear -H. induction ts as [|t' ts IH]; [done|]. by apply IH. }
  destruct (fan_sendHTTP (owed (hq_rid req) (length ts)) _ _ _ _ _ _ _ _ _ _ Hp0 E) as [A B].
  { eapply fan_ok_ext; [|exact Hok0]. intros k. apply owed_one. }
  apply (IH r1 H); [by etrans| |done]. by eapply grow_sendHTTP.
Qed.

Lemma fan_steps_to_laptop e user h path missing req r r' : proxy_to_laptop e user h path missing req r = Done r' → fan_steps r r'.
Proof.
  unfold proxy_to_laptop. destruct (negb _); [intros [= <-]; apply same_fan_steps, fans_emit|]. destruct (tunnels r !! h); [apply fan_steps_proxy|].
  intros [= <-]; apply same_fan_steps, fans_emit.
Qed.

Lemma fan_steps_routes e req r r' : fans r !! hq_rid req = None → routes e req r = Done r' → fan_steps r r'.
Proof.
  intros Hn. unfold routes, HandleAPI, HandleTunnelStatic, fanOutSessions, fanOutJSON. intros H. repeat case_match; simplify_eq; try (by apply same_fan_steps, fans_emit).
  all: first [by eapply fan_steps_fanOut|by eapply fan_steps_to_laptop|by eapply fan_steps_proxy|injection H as <-; by apply same_fan_steps, fans_emit|idtac].
  all: try (apply same_fan_steps; split_and!; [done..|by eexists]).
Qed.

(** Finishing a request that waits. *)
Lemma fan_steps_finish id conn w resp (f : Relay → Relay) r r' :
  (∀ r, same_fans r (f r)) → waiting r !! id = Some (conn, w) → finish w resp (f (set_waiting (delete id (waiting r)) r)) = Done r' → fan_steps r r'.
Proof.
  intros Hf Hw H Hp Hok. pose proof (fan_taken _ _ _ _ _ Hok Hw) as Hok1. eapply (same_fan_ok _ _ _ (Hf _)) in Hok1. apply (fan_finish _ _ _ _ _ H) in Hok1 as [A B].
  split; [done|]. etrans; [|exact B]. etrans; [|apply same_fans_kept, Hf]. apply grown_fans_kept; [done|]. exists []. by rewrite app_nil_r.
Qed.

Lemma fan_steps_unanswered ids r : fan_ok (λ _, 0%nat) r → fan_ok (λ _, 0%nat) (fold_left unanswered ids r) ∧ fans_kept r (fold_left unanswered ids r).
Proof.
  revert r. induction ids as [|id ids IH]; intros r Hok; [done|]. cbn [fold_left]. assert (fan_ok (λ _, 0%nat) (unanswered r id) ∧ fans_kept r (unanswered r id)) as [A B].
  { unfold unanswered. destruct (waiting r !! id) as [[c w]|] eqn:E; [|done]. pose proof (fan_taken _ _ _ _ _ Hok E) as Hok1.
    apply (fan_finish _ _ _ _ _ (finish_None w _)) in Hok1 as [A B]. split; [done|]. etrans; [|exact B]. apply grown_fans_kept; [done|]. exists []. by rewrite app_nil_r. }
  destruct (IH _ A) as [C D]. split; [done|]. by etrans.
Qed.

Lemma fan_step l r r' : fresh_conn l r → r_exec l r = Done r' → fan_steps r r'.
Proof.
  intros Hf. destruct l as [e req|e conn req|conn msg|conn|id|e conn req|e cid b d|e cid|e cid|e conn req|e id b d|e id]; cbn [r_exec].
  - by apply fan_steps_routes.
  - intros [= <-]. apply same_fan_steps. unfold HandleTunnel. destruct (negb _); [apply fans_emit|]. cbv zeta. destruct (re_upgradeErr e); [done|].
    destruct (tunnels r !! _); (split_and!; [done..|]); [by eexists|exists []; by rewrite app_nil_r].
  - intros [->|(t & _ & Hd)]%read_effect; [by apply same_fan_steps|]. revert Hd. unfold dispatchTunnelMsg. cbv zeta.
    destruct (String.eqb (tm_Type msg) "http_response").
    + destruct (entries r !! conn) as [t'|] eqn:E; [|intros [= <-]; by apply same_fan_steps].
      case_bool_decide as Hin; [|intros [= <-]; by apply same_fan_steps]. change (waiting (drop_pending _ _ r)) with (waiting r).
      destruct (waiting r !! tm_ID msg) as [[c w]|] eqn:Ew.
      * intros H. eapply (fan_steps_finish _ _ _ (Some msg) (drop_pending (tm_ID msg) conn)); [|exact Ew|exact H].
        intros r0. split_and!; [done..|]. exists []. by rewrite app_nil_r.
      * intros [= <-]. apply same_fan_steps. split_and!; [done..|]. exists []. by rewrite app_nil_r.
    + intros Hd. apply same_fan_steps. repeat case_match; simplify_eq; try done.
      all: try (by apply outcome_bind_Done in Hd as (m & _ & [= <-])).
      all: try (split_and!; [done..|]); try (by eexists); try (exists []; by rewrite app_nil_r).
      all: try (apply outcome_bind_Done in Hd as (m & _ & [= <-]); split_and!; [done..|]; exists []; by rewrite app_nil_r).
  - unfold tunnel_end. destruct (entries r !! conn) as [t|] eqn:E; [|intros [= <-]; by apply same_fan_steps]. cbv zeta.
    set (r0 := set_entries _ _). assert (H0 : same_fans r r0).
    { subst r0. case_bool_decide; (split_and!; [done..|]; exists []; by rewrite app_nil_r). }
    clearbody r0. rewrite fail_pending_eq. cbn [outcome_bind]. intros [= <-] _ Hok. apply (same_fan_ok _ _ _ H0) in Hok.
    destruct (fan_steps_unanswered (elements (te_pending t)) r0 Hok) as [A B].
    assert (H1 : ∀ v r1, same_fans r1 (set_wsClients v r1)) by (intros v r1; split_and!; [done..|]; exists []; by rewrite app_nil_r).
    split; [eapply same_fan_ok; [apply H1|exact A]|]. etrans; [apply same_fans_kept, H0|]. etrans; [exact B|]. apply same_fans_kept, H1.
  - unfold request_timeout. destruct (waiting r !! id) as [[conn w]|] eqn:Ew; [|intros [= <-]; by apply same_fan_steps].
    intros H. eapply (fan_steps_finish _ _ _ None (drop_pending id conn)); [|exact Ew|exact H]. intros r0. split_and!; [done..|]. exists []. by rewrite app_nil_r.
  - intros [= <-]. apply same_fan_steps. unfold HandleClientWS. destruct (authenticateRequest req r); [|apply fans_emit]. destruct (re_upgradeErr e); [done|].
    cbv zeta. etrans; [|apply (fans_fold (λ r (t : string * nat), (send e t.2 _ r).2)); intros; apply fans_send].
    split_and!; [done..|]. exists []. by rewrite app_nil_r.
  - intros [= <-]. apply same_fan_steps. unfold client_frame. repeat case_match; try done; [apply fans_to_laptop|].
    apply (fans_fold (λ r (t : string * string), send_to_laptop e t.1 _ r)). intros. apply fans_to_laptop.
  - intros [= <-]. apply same_fan_steps. unfold client_deliver. cbv zeta. repeat case_match; try done; try (by apply fans_fields);
      try (etrans; [|apply fans_client_end]; by apply fans_fields). etrans; [|apply fans_emit]. by apply fans_fields.
  - intros [= <-]. apply same_fan_steps, fans_client_end.
  - intros [= <-]. apply same_fan_steps. unfold HandlePtyWS. cbv zeta. repeat case_match; try done; try (by apply fans_emit).
    all: match goal with H : send ?e ?c ?m ?r0 = _ |- _ => pose proof (fans_send e c m r0) as Hs; rewrite H in Hs; cbn in Hs end.
    all: first [etrans; [|exact Hs]; by apply fans_fields|etrans; [|apply fans_pty_end]; etrans; [|exact Hs]; by apply fans_fields].
  - intros [= <-]. apply same_fan_steps. unfold pty_frame. repeat case_match; try done; apply fans_to_laptop.
  - intros [= <-]. apply same_fan_steps, fans_pty_end.
Qed.

Lemma fan_reachable cfg us r : rtc r_step (NewRelay cfg us) r → fan_ok (λ _, 0%nat) r.
Proof.
  intros Hr. assert (pend_ok r ∧ fan_ok (λ _, 0%nat) r) as [_ ?]; [|done]. revert Hr.
  apply (rtc_invariant r_step (λ r, pend_ok r ∧ fan_ok (λ _, 0%nat) r)).
  - intros r1 r2 [H1 H2] Hs. inversion Hs as [l ? ? Hf H]; subst. split; [by destruct (pend_step _ _ _ Hf H1 H)|]. by destruct (fan_step _ _ _ Hf H H1 H2).
  - split; [split; [intros ??? H|intros ??? H|intros ?? H]; cbn in H; by rewrite lookup_empty in H|]. intros rid. cbn. unfold fan_waiting. cbn. by rewrite map_filter_empty.
Qed.

Lemma fan_waits rid r id conn h pre : waiting r !! id = Some (conn, WFan rid h pre) → (0 < fan_waiting rid r)%nat.
Proof.
  intros Hw. unfold fan_waiting. apply Nat.neq_0_lt_0. intros He%map_size_empty_inv.
  assert (filter (λ kv : string * (nat * waiter), waits_for rid kv.2) (waiting r) !! id = Some (conn, WFan rid h pre)) as Hx by (by apply map_lookup_filter_Some).
  rewrite He in Hx. by rewrite lookup_empty in Hx.
Qed.

Lemma fan_waiters rid r : (0 < fan_waiting rid r)%nat → ∃ id conn h pre, waiting r !! id = Some (conn, WFan rid h pre).
Proof.
  intros Hp. unfold fan_waiting in Hp. destruct (decide (filter (λ kv : string * (nat * waiter), waits_for rid kv.2) (waiting r) = ∅)) as [He|Hne].
  { rewrite He, map_size_empty in Hp. lia. }
  apply map_choose in Hne as (id & [conn w] & [Hw Hx]%map_lookup_filter_Some). destruct w as [|k h pre]; [done|]. cbn in Hx. subst k. eauto.
Qed.

Lemma timeout_ends r id conn w : waiting r !! id = Some (conn, w) → ∃ r', r_exec (LTimeout id) r = Done r' ∧ waiting r' !! id = None.
Proof.
  intros Hw. cbn. unfold request_timeout. rewrite Hw, finish_None. eexists. split; [done|]. destruct (expire_effect w (drop_pending id conn (set_waiting (delete id (waiting r)) r))) as ((-> & _) & _).
  apply lookup_delete_eq.
Qed.


(** When a laptop's connection ends, its handler runs to its end, and none of the
    laptop's requests is left waiting: the browser of each proxied one gets a 503.
    The laptop is no longer connected, unless it has connected again meanwhile. *)
Theorem disconnect_answers cfg us r conn t :
  rtc r_step (NewRelay cfg us) r → entries r !! conn = Some t →
  ∃ r', tunnel_end conn r = Done r' ∧ entries r' !! conn = None ∧ tunnels r' !! te_hostname t ≠ Some conn ∧
    (∀ id w, waiting r' !! id ≠ Some (conn, w)) ∧
    (∀ id rid, waiting r !! id = Some (conn, WProxy rid) → RError rid 503 "tunnel unavailable" ∈ new_out r r').
Proof.
  intros Hr%pend_reachable E. unfold tunnel_end. rewrite E. cbv zeta. set (r0 := set_entries _ _).
  assert (H0 : waiting r0 = waiting r ∧ entries r0 = delete conn (entries r) ∧ tunnels r0 !! te_hostname t ≠ Some conn ∧ out r0 = out r).
  { subst r0. case_bool_decide; cbn; split_and!; try done. by rewrite lookup_delete_eq. }
  clearbody r0. destruct H0 as (H1 & H2 & H3 & H4). rewrite fail_pending_eq. cbn [outcome_bind].
  pose proof (quiet_fail_pending (λ _, False) _ _ _ (fail_pending_eq (elements (te_pending t)) r0)) as Hq.
  destruct (fail_effect (elements (te_pending t)) r0) as (A & B & [l C] & D & F). set (r1 := fold_left _ _ _) in *.
  eexists. split; [reflexivity|]. cbn. split; [by rewrite A, H2, lookup_delete_eq|]. split; [by rewrite (qt_tunnels _ _ _ Hq)|].
  assert (Hin : ∀ id w, waiting r !! id = Some (conn, w) → id ∈ elements (te_pending t)).
  { intros id w Hw. apply elem_of_elements. destruct (po_pending _ Hr _ _ _ Hw) as (t' & Ht' & Hin). congruence. }
  split; intros id.
  - intros w. rewrite D, H1. case_bool_decide as Hk; [done|]. intros Hw. by eapply Hk, Hin.
  - intros rid Hw. unfold new_out. cbn. rewrite <- H4. apply (F id conn); [by eapply Hin|by rewrite H1].
Qed.

(** ** Prefixed ids *)

Definition no_sep (h : string) : Prop := laptopSep ∉ String.list_ascii_of_string h.

Lemma index_prefixed h id : no_sep h → String.index 0 (String laptopSep "") (h +:+ String laptopSep id) = Some (String.length h).
Proof.
  intros Hh. induction h as [|c h IH]; [by destruct id|]. unfold no_sep in Hh. cbn [String.list_ascii_of_string] in Hh.
  apply not_elem_of_cons in Hh as [Hc Hh]. change ((String c h) +:+ String laptopSep id) with (String c (h +:+ String laptopSep id)).
  cbn [String.index String.prefix String.length]. destruct (ascii_dec laptopSep c); [done|]. by rewrite IH.
Qed.

(** A session's id prefixed with its laptop's name is taken apart again, whatever
    the id, for a name without the separator. *)
Theorem prefixed_roundtrip h id : no_sep h → parsePrefixedID (prefixSessionID h id) = (h, id).
Proof.
  intros Hh. unfold parsePrefixedID, prefixSessionID, Index. rewrite index_prefixed by done. f_equal.
  - clear Hh. induction h as [|c h IH]; [by destruct id|]. cbn in *. by f_equal.
  - clear Hh. induction h as [|c h IH]; [done|]. exact IH.
Qed.

(** ** Users *)

Lemma user_decodes u : dec_struct User_fields (user_json u) zero_User = (u, true).
Proof.
  destruct u as [id name email token laptops role source disabled]. unfold user_json, omitempty. cbn [ru_ID ru_Name ru_Email ru_Token ru_Laptops ru_Role ru_Source ru_Disabled].
  pose proof (names_decode laptops) as Hl. set (j := JArr _) in *. clearbody j.
  destruct (String.eqb_spec email "") as [->|_], (String.eqb_spec source "") as [->|_], disabled.
  all: cbn -[dec_slice]; rewrite ?Hl; reflexivity.
Qed.

(** Every operation on the users writes them to the file, from which a relay that
    is started again reads the same users: all tokens keep their users and
    laptops.  If the file cannot be written, nothing is reported, and the change is
    lost with the process. *)
Theorem restart_keeps_users e m s : parses (users_json m) →
  load (st_file (save e m s)) = if ue_saveErr e then load (st_file s) else m.
Proof.
  intros Hp. unfold save. cbn. destruct (ue_saveErr e); [done|]. unfold load. rewrite Hp. unfold users_json, marshal_map.
  set (l := merge_sort name_le _). assert (Hl : l ≡ₚ map_to_list (user_json <$> m)) by apply merge_sort_Permutation. clearbody l.
  rewrite map_to_list_fmap in Hl. set (f := λ kv : string * json, _). assert (Hf : f <$> l ≡ₚ map_to_list m).
  { rewrite Hl. rewrite <- list_fmap_compose. apply Permutation_refl'. etrans; [|apply list_fmap_id]. apply list_fmap_ext.
    intros i [k u] _. unfold f. cbn [compose prod_map fst snd]. by rewrite user_decodes. }
  rewrite <- (list_to_map_to_list m). apply list_to_map_proper; [|by rewrite reverse_Permutation].
  rewrite fmap_reverse, reverse_Permutation, Hf. apply NoDup_fst_map_to_list.
Qed.

(** The users change only on a request of an administrator, and no list, lookup
    or update shows a token: at most the last eight bytes of a longer one. *)
Theorem admin_confined e user method path body s :
  let '(a, s') := HandleAdminUsers e user method path body s in
  (s' ≠ s → ∃ u, user = Some u ∧ ru_Role u = "admin"%string) ∧
  (String.eqb method "POST" = false → ∀ u, (∃ status, a = AUser status u) ∨ (∃ l, a = AUsers l ∧ u ∈ l) →
    ru_Token u = "" ∨ (∃ id v, st_users s !! id = Some v ∧ u = redact v)).
Proof.
  unfold HandleAdminUsers. destruct user as [u0|].
  2: { split; [done|]. intros _ u [[status H]|(l & H & _)]; done. }
  destruct (String.eqb_spec (ru_Role u0) "admin") as [Hadmin|Hadmin]; cbn [negb].
  2: { split; [done|]. intros _ u [[status H]|(l & H & _)]; done. }
  match goal with |- let '(a, s') := ?x in _ => destruct x as [a s'] eqn:E end. split; [by eauto|]. intros Hm u Hu. rewrite Hm, !andb_false_r in E. revert E.
  assert (Hbad : (AErr 404 "not found", s) = (a, s') → ru_Token u = ""%string ∨ ∃ id v, st_users s !! id = Some v ∧ u = redact v).
  { intros [= <- <-]. destruct Hu as [[status H]|(l & H & _)]; done. }
  destruct (_ && _).
  { unfold adminListUsers. intros [= <- <-]. destruct Hu as [[status H]|(l & [= <-] & Hin)]; [done|right].
    apply list_elem_of_fmap in Hin as (v & -> & ([k v'] & -> & Hv)%list_elem_of_fmap). apply elem_of_map_to_list in Hv. by exists k, v'. }
  destruct (String.eqb (TrimPrefix path "/admin/users/") path); [done|]. destruct (SplitN 2 _) as [|id [|rest [|??]]]; try (rewrite ?andb_false_r; exact Hbad).
  destruct (String.eqb method "PUT").
  { unfold adminUpdateUser. destruct (unmarshal _ _ _) as [x|]; [destruct (UpdateUser e id x s) as [[v s1]|]|]; intros [= <- <-];
      destruct Hu as [[status H]|(l & H & _)]; try done. injection H as _ <-. by left. }
  destruct (String.eqb method "DELETE").
  { unfold adminDeleteUser. destruct (DeleteUser e id s); intros [= <- <-]; destruct Hu as [[status H]|(l & H & _)]; done. }
  destruct (String.eqb method "GET"); [|done].
  unfold adminGetUser. destruct (st_users s !! id) as [v|] eqn:Ev; intros [= <- <-]; destruct Hu as [[status H]|(l & H & _)]; try done.
  injection H as _ <-. right. by exists id, v.
Qed.

(** ** Where the relay fails *)

(** The owner of a terminal is not asked when a laptop sends to it: any laptop's
    message with the terminal's number is shown to the terminal's browser, and any
    laptop can end it. *)
Theorem terminals_shared r id ps conn t msg :
  ptySessions r !! id = Some ps → entries r !! conn = Some t → is_open conn r = true → tm_ID msg = id →
  (∀ data, tm_Type msg = "pty_data"%string → base64_decode (tm_Data msg) = Some data → tunnel_read conn msg r = Done (emit (ToPty (ps_conn ps) data) r)) ∧
  (tm_Type msg = "pty_close"%string → ∃ r', tunnel_read conn msg r = Done r' ∧ ClosePty (ps_conn ps) (tm_Reason msg) ∈ new_out r r' ∧ ptySessions r' !! id = None).
Proof.
  intros Hps Ht Ho <-. unfold tunnel_read. rewrite Ht, Ho. split.
  - intros data Hty Hd. unfold dispatchTunnelMsg. rewrite Hty. cbn [String.eqb Ascii.eqb Bool.eqb]. by rewrite Hps, Hd.
  - intros Hty. unfold dispatchTunnelMsg. rewrite Hty. cbn [String.eqb Ascii.eqb Bool.eqb]. rewrite Hps. eexists. split; [reflexivity|]. split.
    + rewrite (new_out_app _ _ [ClosePty (ps_conn ps) (tm_Reason msg)]) by done. by apply list_elem_of_singleton.
    + apply lookup_delete_eq.
Qed.

(** A laptop that answers a fanned out request with a list that has a [null]
    stops the relay. *)
Theorem null_item_panics cfg us r conn id rid h pre status headers body items :
  rtc r_step (NewRelay cfg us) r → waiting r !! id = Some (conn, WFan rid h pre) → is_open conn r = true →
  status = 200 → unmarshal (dec_slice None dec_any_map) [] body = Some items → None ∈ items →
  tunnel_read conn (http_response id status headers (base64_encode body)) r = Panicked.
Proof.
  intros Hr%pend_reachable Hw Ho -> Hb Hin. destruct (po_pending _ Hr _ _ _ Hw) as (t & Ht & Hp). unfold tunnel_read. rewrite Ht, Ho.
  unfold dispatchTunnelMsg, http_response. cbn [tm_Type tm_ID tm_Status tm_Body String.eqb Ascii.eqb Bool.eqb]. rewrite Ht, bool_decide_eq_true_2 by done.
  cbv zeta. assert (waiting (drop_pending id conn r) !! id = Some (conn, WFan rid h pre)) as -> by done. unfold finish, fan_items.
  cbn [tm_Status tm_Body Z.eqb Pos.eqb negb]. rewrite base64_roundtrip, Hb. assert (outcome_map (label_item pre h) items = Panicked) as ->; [|done].
  clear -Hin. induction items as [|[m|] items IH]; [by apply elem_of_nil in Hin| |done]. apply elem_of_cons in Hin as [?|Hin]; [done|].
  cbn. by rewrite IH.
Qed.

(** The end of a connection that a newer one has replaced leaves the newer one in
    use and yet detaches every browser from the laptop, those of the newer
    connection too: they get nothing from it any more. *)
Theorem stale_end_detaches cfg us r conn t newer :
  rtc r_step (NewRelay cfg us) r → entries r !! conn = Some t → tunnels r !! te_hostname t = Some newer → newer ≠ conn →
  ∃ r', tunnel_end conn r = Done r' ∧ tunnels r' !! te_hostname t = Some newer ∧
    ∀ cid c, wsClients r' !! cid = Some c → wc_tunnelIDs c !! te_hostname t = None.
Proof.
  intros Hr E Hn Hne. destruct (tunnel_end conn r) as [r'|] eqn:He.
  2: { exfalso. unfold tunnel_end in He. rewrite E in He. cbv zeta in He. by rewrite fail_pending_eq in He. }
  exists r'. split; [done|]. unfold tunnel_end in He. rewrite E in He. cbv zeta in He. rewrite bool_decide_eq_false_2 in He by congruence.
  rewrite fail_pending_eq in He. injection He as <-. cbn.
  pose proof (quiet_fail_pending (λ _, False) _ _ _ (fail_pending_eq (elements (te_pending t)) (set_entries (delete conn (entries r)) r))) as Hq.
  split; [by rewrite (qt_tunnels _ _ _ Hq)|]. intros cid c Hc. rewrite lookup_fmap in Hc. destruct (wsClients _ !! cid) as [c0|]; [|done]. injection Hc as <-.
  unfold detach. destruct (wc_tunnelIDs c0 !! te_hostname t) eqn:Et; [|done].
  match goal with |- wc_tunnelIDs (enqueue ?m ?x) !! _ = _ => destruct (enqueue_same m x) as [_ ->] end. apply lookup_delete_eq.
Qed.

(** A run of the relay, for examples. *)
Fixpoint r_run (ls : list r_label) (r : Relay) : outcome Relay :=
  match ls with
  | [] => Done r
  | l :: ls =>
    if match l with LTunnel _ conn _ => bool_decide (entries r !! conn = None) | LHttp _ req => bool_decide (fans r !! hq_rid req = None) | _ => true end
    then let! r1 := r_exec l r in r_run ls r1 else Panicked
  end.

Lemma run_reaches ls r r' : r_run ls r = Done r' → rtc r_step r r'.
Proof.
  revert r. induction ls as [|l ls IH]; intros r; cbn; [intros [= <-]; apply rtc_refl|].
  destruct (match l with LTunnel _ _ _ => _ | _ => _ end) eqn:Hf; [|done]. intros (r1 & H1 & H2)%outcome_bind_Done.
  eapply rtc_l; [|by apply IH]. exists l; [|done]. destruct l; cbn; [by apply bool_decide_eq_true in Hf|by apply bool_decide_eq_true in Hf|done..].
Qed.

End spec.

(** ** Examples

    Alice may use the laptop [work], an administrator every laptop. *)
#[local] Existing Instances ascii_tables head_range.

Module RelayDemo.

Definition text : JsonText := table_json [("[null]", JArr [JNull])]%string.
#[global] Existing Instance text.

Definition alice : User :=
  {| ru_ID := "u1"; ru_Name := "Alice"; ru_Email := ""; ru_Token := "ta"; ru_Laptops := ["work"%string]; ru_Role := "user"; ru_Source := "managed"; ru_Disabled := false |}.
Definition root : User :=
  {| ru_ID := "u2"; ru_Name := "Root"; ru_Email := ""; ru_Token := "tr"; ru_Laptops := ["*"%string]; ru_Role := "admin"; ru_Source := "managed"; ru_Disabled := false |}.
Definition config : relay_config := {| rc_tunnelToken := "tt"; rc_legacyWebToken := ""; rc_staticHost := None |}.
Definition accounts : store := {| st_users := {[ "u1"%string := alice; "u2"%string := root ]}; st_file := None |}.
Definition calm : relay_env :=
  {| re_sendErr _ := false; re_upgradeErr := false; re_bodyErr := false; re_users := {| ue_id := "u3"; ue_token := "t3"; ue_saveErr := false |} |}.

Definition request (rid : nat) (method path token laptop : string) : http_req :=
  {| hq_rid := rid; hq_Method := method; hq_Path := path; hq_RawQuery := ""; hq_Query k := if String.eqb k "laptop" then laptop else ""%string;
     hq_Headers := [("Authorization", ["Bearer " +:+ token])]%string; hq_Body := "" |}.
Definition join (conn : nat) (hostname : string) : r_label :=
  LTunnel calm conn {| hq_rid := 0; hq_Method := "GET"; hq_Path := "/tunnel"; hq_RawQuery := ""; hq_Query _ := ""%string;
    hq_Headers := [("Authorization", ["Bearer tt"]); ("X-Hostname", [hostname])]%string; hq_Body := "" |}.
Definition browse (rid : nat) (path token : string) : r_label := LHttp calm (request rid "GET" path token "").

Definition empty_relay : Relay := NewRelay config accounts.
Definition after (ls : list r_label) : Relay := match r_run ls empty_relay with Done r => r | Panicked => empty_relay end.
Definition works (ls : list r_label) : bool := match r_run ls empty_relay with Done _ => true | Panicked => false end.

Lemma reached ls : works ls = true → rtc r_step empty_relay (after ls).
Proof. unfold works, after. intros H. apply (run_reaches ls). by destruct (r_run ls empty_relay). Qed.

(** Both laptops are connected, and Alice has a request that waits. *)
Definition joined : list r_label := [join 1 "work"; join 2 "home"].
Definition asked : list r_label := joined ++ [browse 7 "/sessions/work~s1" "ta"].
Definition all_asked : list r_label := joined ++ [browse 8 "/sessions" "ta"].

(** What a step sends to a connection. *)
Definition sends (conn : nat) (ls : list r_label) (l : r_label) : bool :=
  match r_exec l (after ls) with
  | Done r => existsb (λ o, match o with ToTunnel c _ => Nat.eqb c conn | _ => false end) (new_out (after ls) r)
  | Panicked => false
  end.

End RelayDemo.
Import RelayDemo.

Lemma requests_confined_witness :
  ∃ m r', r_exec (browse 8 "/sessions" "ta") (after joined) = Done r' ∧ ToTunnel 1 m ∈ new_out (after joined) r' ∧
    ∃ user, acting (after joined) user (browse 8 "/sessions" "ta") ∧ usable user (after joined) 1.
Proof.
  destruct (r_exec (browse 8 "/sessions" "ta") (after joined)) as [r'|] eqn:E; [|vm_compute in E; discriminate].
  assert (Hm : ∃ m, ToTunnel 1 m ∈ new_out (after joined) r') by (vm_compute in E; injection E as <-; eexists; left).
  destruct Hm as [m Hm]. exists m, r'. split; [done|]. split; [done|].
  destruct (requests_confined config accounts (after joined) (browse 8 "/sessions" "ta") r') as [H _]; [by apply reached; vm_compute|exact E|].
  destruct (H 1%nat m Hm) as [[Hs _]|Hu]; [vm_compute in Hs; discriminate|exact Hu].
Defined.

(** An answer of the other laptop does not end Alice's request. *)
Definition forged : TunnelMsg := http_response "req-1" 200 [] "".


Lemma disconnect_answers_witness :
  ∃ r', tunnel_end 1 (after asked) = Done r' ∧ RError 7 503 "tunnel unavailable" ∈ new_out (after asked) r'.
Proof.
  assert (Ht : ∃ t, entries (after asked) !! 1%nat = Some t) by (eexists; vm_compute; reflexivity). destruct Ht as [t Ht].
  destruct (disconnect_answers config accounts (after asked) 1 t) as (r' & H1 & _ & _ & _ & H2); [by apply reached; vm_compute|exact Ht|].
  exists r'. split; [done|]. apply (H2 "req-1"). by vm_compute.
Defined.

Lemma prefixed_roundtrip_witness : parsePrefixedID (prefixSessionID "work" "a~b") = ("work", "a~b")%string.
Proof. apply (prefixed_roundtrip "work" "a~b"). unfold no_sep. apply (bool_decide_unpack _). by vm_compute. Defined.

(** A text level that knows the file of the users. *)
Definition users_text : JsonText := {| json_parse _ := Some (users_json (st_users accounts)); json_print _ := "users" |}.

Lemma restart_keeps_users_witness :
  load (JT := users_text) (st_file (save (JT := users_text) (re_users calm) (st_users accounts) accounts)) = st_users accounts.
Proof. apply (restart_keeps_users (JT := users_text) (re_users calm) (st_users accounts) accounts). vm_compute. reflexivity. Defined.

(** Root's terminal on the other laptop gets what Alice's laptop sends. *)
Definition terminal : list r_label := joined ++ [LPty calm 9 (request 8 "GET" "/pty" "tr" "home")].

Lemma terminals_shared_witness :
  tunnel_read 1 (pty_data "pty-1" "aGk=") (after terminal) = Done (emit (ToPty 9 "hi") (after terminal)).
Proof.
  assert (Hp : ∃ ps, ptySessions (after terminal) !! "pty-1"%string = Some ps ∧ ps_conn ps = 9%nat) by (eexists; split; vm_compute; reflexivity).
  destruct Hp as (ps & Hps & <-). assert (Ht : ∃ t, entries (after terminal) !! 1%nat = Some t) by (eexists; vm_compute; reflexivity). destruct Ht as [t Ht].
  destruct (terminals_shared (after terminal) "pty-1" ps 1 t (pty_data "pty-1" "aGk=")) as [H _]; [exact Hps|exact Ht|by vm_compute|done|].
  apply H; by vm_compute.
Defined.

(** Alice's laptop answers her list of sessions. *)
Definition listed : list r_label := joined ++ [browse 8 "/sessions" "ta"].

Lemma null_item_panics_witness : tunnel_read 1 (http_response "req-1" 200 [] (base64_encode "[null]")) (after listed) = Panicked.
Proof.
  apply (null_item_panics config accounts (after listed) 1 "req-1" 8 "work" true 200 [] "[null]" [None]); try (by vm_compute); [by apply reached; vm_compute|left].
Defined.

(** The laptop connects again before the handler of its first connection ends. *)
Definition again : list r_label := joined ++ [join 3 "work"; LClient calm 9 (request 8 "GET" "/ws" "ta" "")].

Lemma stale_end_detaches_witness :
  ∃ r' c, tunnel_end 1 (after again) = Done r' ∧ tunnels r' !! "work"%string = Some 3%nat ∧
    wsClients r' !! "ws-1"%string = Some c ∧ wc_tunnelIDs c !! "work"%string = None.
Proof.
  destruct (entries (after again) !! 1%nat) as [t|] eqn:Ht; [|vm_compute in Ht; discriminate].
  assert (te_hostname t = "work"%string) as Hh by (vm_compute in Ht; by injection Ht as <-).
  destruct (stale_end_detaches config accounts (after again) 1 t 3) as (r' & H1 & H2 & H3);
    [by apply reached; vm_compute|exact Ht|rewrite Hh; by vm_compute|done|]. rewrite Hh in H2, H3.
  destruct (wsClients r' !! "ws-1"%string) as [c|] eqn:Ec; [exists r', c; eauto|].
  vm_compute in H1. injection H1 as <-. vm_compute in Ec. discriminate.
Defined.
