(* ===== verification/Connector.v ===== *)
(** * The connector of a laptop (mclaude-connector: main.go)

    The laptop's end of the relay's tunnel: every message of the tunnel is handled
    in a goroutine of its own, against the laptop's mclaude-server, its static files
    and terminals.  The messages in hand are a list from which any may come next;
    a handler that waits (for a server's answer, for a connection) is one step at
    its end.  Readers of connections and terminals outlive the tables that list
    them, and the tunnel. *)

From S2P Require Import Prelude GoStrings GoPath Base64 ObjectStore RelayUsers Relay.
Open Scope Z_scope.

(** ** Data *)

(** A parsed address: [u_rest] are the parts the connector leaves alone. *)
Record url := { u_Scheme : string; u_rest : string; u_Path : string; u_RawQuery : string }.

Record connector_config := {
  relayURL : string; tunnelToken : string; mclaudeURL : string; serviceToken : string; staticDir : string; hostname : string;
}.

(** A request to mclaude-server. *)
Record local_request := { lr_Method : string; lr_URL : string; lr_Headers : gmap string (list string); lr_Body : string }.

(** What the connector does outside, in order. *)
Inductive c_out :=
| CDialTunnel (u : url) (authorization hostname : string)
| CSend (m : TunnelMsg)
| CRequest (req : local_request)
| CReadFile (path : string)
| CDialWS (u : url)
| CWriteWS (conn : nat) (binary : bool) (data : string)
| CCloseWS (conn : nat)
| CStartPty (argv : list string)
| CSetSize (pty : nat) (rows cols : Z)
| CWritePty (pty : nat) (data : string)
| CKillPty (pty : nat).

(** [wsReaders], [ptyReaders]: the connections and terminals whose reader runs, with
    the id it works for. *)
Record connector := {
  ccfg : connector_config;
  connected : bool;
  wsConns : gmap string nat;
  ptyEntries : gmap string nat;
  wsReaders : gmap nat string;
  ptyReaders : gmap nat string;
  inflight : list TunnelMsg;
  couts : list c_out;
}.

Definition NewConnector (cfg : connector_config) : connector :=
  {| ccfg := cfg; connected := false; wsConns := ∅; ptyEntries := ∅; wsReaders := ∅; ptyReaders := ∅; inflight := []; couts := [] |}.

Definition set_connected v c := {| ccfg := ccfg c; connected := v; wsConns := wsConns c; ptyEntries := ptyEntries c; wsReaders := wsReaders c; ptyReaders := ptyReaders c; inflight := inflight c; couts := couts c |}.
Definition set_wsConns v c := {| ccfg := ccfg c; connected := connected c; wsConns := v; ptyEntries := ptyEntries c; wsReaders := wsReaders c; ptyReaders := ptyReaders c; inflight := inflight c; couts := couts c |}.
Definition set_ptyEntries v c := {| ccfg := ccfg c; connected := connected c; wsConns := wsConns c; ptyEntries := v; wsReaders := wsReaders c; ptyReaders := ptyReaders c; inflight := inflight c; couts := couts c |}.
Definition set_wsReaders v c := {| ccfg := ccfg c; connected := connected c; wsConns := wsConns c; ptyEntries := ptyEntries c; wsReaders := v; ptyReaders := ptyReaders c; inflight := inflight c; couts := couts c |}.
Definition set_ptyReaders v c := {| ccfg := ccfg c; connected := connected c; wsConns := wsConns c; ptyEntries := ptyEntries c; wsReaders := wsReaders c; ptyReaders := v; inflight := inflight c; couts := couts c |}.
Definition set_inflight v c := {| ccfg := ccfg c; connected := connected c; wsConns := wsConns c; ptyEntries := ptyEntries c; wsReaders := wsReaders c; ptyReaders := ptyReaders c; inflight := v; couts := couts c |}.
Definition act o c := {| ccfg := ccfg c; connected := connected c; wsConns := wsConns c; ptyEntries := ptyEntries c; wsReaders := wsReaders c; ptyReaders := ptyReaders c; inflight := inflight c; couts := couts c ++ [o] |}.

(** What the world answers: [ce_new] is the error of [http.NewRequest] for a method
    and an address, [ce_do] the answer of the server (redirects followed) or the
    error of the request; [ce_quote] is the verb %q. *)
Record connector_env := {
  ce_sendErr : bool;
  ce_new : string → string → option string;
  ce_do : local_request → string + Z * list (string * list string) * string;
  ce_read : string → option string;
  ce_type : string → string → string;
  ce_mtime : string → option Z;
  ce_parse : string → option url;
  ce_dial : option nat;
  ce_pty : string + nat;
  ce_shell : string;
  ce_quote : string → string;
}.

(** ** Tunnel *)

Definition apiPrefixes : list string :=
  ["/sessions"; "/projects"; "/skills"; "/screenshots"; "/files"; "/telemetry"; "/auth/"; "/ws"; "/tunnel"; "/health"; "/usage"; "/admin";
   "/laptops"; "/tmux-sessions"]%string.
Definition isAPIPath (path : string) : bool := existsb (λ p, String.eqb path p || HasPrefix path (p +:+ "/") || HasPrefix path p) apiPrefixes.

(** To the tunnel in use; errors are ignored by all callers. *)
Definition csend (e : connector_env) (m : TunnelMsg) (c : connector) : connector :=
  if connected c && negb (ce_sendErr e) then act (CSend m) c else c.

Definition ws_scheme (s : string) : string := if String.eqb s "http" then "ws" else if String.eqb s "https" then "wss" else s.

(** [url.Parse] of an address, made the address of a WebSocket below it. *)
Definition ws_url (e : connector_env) (base path : string) : option url :=
  match ce_parse e base with
  | None => None
  | Some u => Some {| u_Scheme := ws_scheme (u_Scheme u); u_rest := u_rest u; u_Path := TrimSuffix (u_Path u) "/" +:+ path; u_RawQuery := u_RawQuery u |}
  end.

(** [connect] up to its read loop; [ok]: the relay accepts. *)
Definition connect (e : connector_env) (ok : bool) (c : connector) : connector :=
  match ws_url e (relayURL (ccfg c)) "/tunnel" with
  | None => c
  | Some u =>
    let c := act (CDialTunnel u ("Bearer " +:+ tunnelToken (ccfg c)) (hostname (ccfg c))) c in
    if ok then set_connected true c else c
  end.

(** The end of the tunnel. *)
Definition connect_end (c : connector) : connector :=
  let c := set_connected false c in
  let c := fold_left (λ c n, act (CCloseWS n) c) (map_to_list (wsConns c)).*2 c in
  let c := set_wsConns ∅ c in
  let c := fold_left (λ c n, act (CKillPty n) c) (map_to_list (ptyEntries c)).*2 c in
  set_ptyEntries ∅ c.

(** A message read from the tunnel is handled later. *)
Definition tunnel_recv (msg : TunnelMsg) (c : connector) : connector :=
  if connected c then set_inflight (inflight c ++ [msg]) c else c.

(** ** HTTP *)

(** [textproto.CanonicalMIMEHeaderKey]. *)
Definition header_byte (b : N) : bool :=
  is_lower b || is_upper b || is_digit b || existsb (N.eqb b) [33; 35; 36; 37; 38; 39; 42; 43; 45; 46; 94; 95; 96; 124; 126]%N.

Fixpoint canonical_bytes (upper : bool) (l : list N) : list N :=
  match l with
  | [] => []
  | b :: l => (if upper && is_lower b then b - 32 else if negb upper && is_upper b then b + 32 else b)%N :: canonical_bytes (b =? 45)%N l
  end.
Definition CanonicalHeaderKey (s : string) : string :=
  if forallb header_byte (bytes_of s) then string_of (canonical_bytes true (bytes_of s)) else s.

Definition header_Add (k v : string) (h : gmap string (list string)) : gmap string (list string) :=
  partial_alter (λ vs, Some (default [] vs ++ [v])) (CanonicalHeaderKey k) h.
Definition header_Set (k v : string) (h : gmap string (list string)) : gmap string (list string) := <[CanonicalHeaderKey k := [v]]> h.

Definition add_headers (hs : list (string * list string)) : gmap string (list string) :=
  fold_left (λ h kv, fold_left (λ h v, header_Add kv.1 v h) kv.2 h) hs ∅.

Definition sendErrorResp (e : connector_env) (id : string) (status : Z) (errMsg : string) (c : connector) : connector :=
  csend e (http_response id status [("content-type", ["application/json"])]%string
    (base64_encode ("{" +:+ dquote +:+ "error" +:+ dquote +:+ ":" +:+ ce_quote e errMsg +:+ "}"))) c.

(** A file of the static directory. *)
Definition static_path (dir path : string) : option string :=
  let path := if String.eqb path "" || String.eqb path "/" then "/index.html"%string else path in
  let cleaned := path_Clean path in
  if Contains cleaned ".." then None else Some (path_Join [dir; cleaned]).

Definition serveStaticFile (e : connector_env) (msg : TunnelMsg) (c : connector) : connector :=
  match static_path (staticDir (ccfg c)) (tm_Path msg) with
  | None => sendErrorResp e (tm_ID msg) 403 "invalid path" c
  | Some filePath =>
    let c := act (CReadFile filePath) c in
    match ce_read e filePath with
    | None => sendErrorResp e (tm_ID msg) 404 "not found" c
    | Some data =>
      csend e (http_response (tm_ID msg) 200 [("content-type", [ce_type e filePath data]); ("cache-control", ["no-cache, no-store, must-revalidate"])]%string
        (base64_encode data)) c
    end
  end.

Definition serveStaticVersion (e : connector_env) (msg : TunnelMsg) (c : connector) : connector :=
  match ce_mtime e (path_Join [staticDir (ccfg c); "index.html"%string]) with
  | None => sendErrorResp e (tm_ID msg) 404 "index.html not found" c
  | Some t =>
    csend e (http_response (tm_ID msg) 200 [("content-type", ["application/json"]); ("cache-control", ["no-cache, no-store"])]%string
      (base64_encode ("{" +:+ dquote +:+ "mtime" +:+ dquote +:+ ":" +:+ pretty.pretty t +:+ "}"))) c
  end.

Section connector.
Context `{UT : UnicodeTables}.

Definition local_url (base : string) (msg : TunnelMsg) : string :=
  TrimSuffix base "/" +:+ tm_Path msg +:+ (if String.eqb (tm_Query msg) "" then "" else "?" +:+ tm_Query msg).

(** The request made for a message; a body that does not decode is empty. *)
Definition local_of (cfg : connector_config) (msg : TunnelMsg) : local_request :=
  let h := add_headers (tm_Headers msg) in
  {| lr_Method := tm_Method msg; lr_URL := local_url (mclaudeURL cfg) msg;
     lr_Headers := if String.eqb (serviceToken cfg) "" then h else header_Set "Authorization" ("Bearer " +:+ serviceToken cfg) h;
     lr_Body := default ""%string (base64_decode (tm_Body msg)) |}.

(** The names of the headers of an answer in lower case, without those of the connection. *)
Definition resp_headers (hs : list (string * list string)) : list (string * list string) :=
  List.filter (λ kv, negb (String.eqb kv.1 "connection" || String.eqb kv.1 "transfer-encoding"))
    ((λ kv : string * list string, (ToLower kv.1, kv.2)) <$> hs).

Definition handleHTTP (e : connector_env) (msg : TunnelMsg) (c : connector) : connector :=
  if negb (String.eqb (staticDir (ccfg c)) "") && negb (isAPIPath (tm_Path msg)) then
    if String.eqb (tm_Path msg) "/__static-version" then serveStaticVersion e msg c else serveStaticFile e msg c
  else
    let req := local_of (ccfg c) msg in
    match ce_new e (lr_Method req) (lr_URL req) with
    | Some err => sendErrorResp e (tm_ID msg) 500 err c
    | None =>
      let c := act (CRequest req) c in
      match ce_do e req with
      | inl err => sendErrorResp e (tm_ID msg) 502 err c
      | inr (status, headers, body) => csend e (http_response (tm_ID msg) status (resp_headers headers) (base64_encode body)) c
      end
    end.

(** ** WebSockets *)

Definition notifyWSClose (e : connector_env) (id : string) (code : Z) (reason : string) (c : connector) : connector :=
  csend e (ws_close id code reason) c.

Definition handleWSConnect (e : connector_env) (msg : TunnelMsg) (c : connector) : connector :=
  match ws_url e (mclaudeURL (ccfg c)) "/ws" with
  | None => notifyWSClose e (tm_ID msg) 1011 "bad mclaude url" c
  | Some u =>
    let q := if String.eqb (serviceToken (ccfg c)) "" then [] else [("token"%string, serviceToken (ccfg c))] in
    let c := act (CDialWS {| u_Scheme := u_Scheme u; u_rest := u_rest u; u_Path := u_Path u; u_RawQuery := Values_Encode q |}) c in
    match ce_dial e with
    | None => notifyWSClose e (tm_ID msg) 1011 "upstream connect failed" c
    | Some n => set_wsReaders (<[n := tm_ID msg]> (wsReaders c)) (set_wsConns (<[tm_ID msg := n]> (wsConns c)) c)
    end
  end.

Definition handleWSMessage (msg : TunnelMsg) (c : connector) : connector :=
  match wsConns c !! tm_ID msg, base64_decode (tm_Data msg) with
  | Some n, Some data => act (CWriteWS n (tm_Binary msg) data) c
  | _, _ => c
  end.

Definition handleWSClose (msg : TunnelMsg) (c : connector) : connector :=
  match wsConns c !! tm_ID msg with
  | Some n => act (CCloseWS n) (set_wsConns (delete (tm_ID msg) (wsConns c)) c)
  | None => c
  end.

(** The reader of a connection: a message of the server, and the end. *)
Definition ws_upstream (e : connector_env) (n : nat) (binary : bool) (data : string) (c : connector) : connector :=
  match wsReaders c !! n with Some id => csend e (ws_message id (base64_encode data) binary) c | None => c end.

Definition ws_upstream_end (e : connector_env) (n : nat) (c : connector) : connector :=
  match wsReaders c !! n with
  | None => c
  | Some id =>
    let c := act (CCloseWS n) (set_wsReaders (delete n (wsReaders c)) c) in
    notifyWSClose e id 1000 "upstream closed" (set_wsConns (delete id (wsConns c)) c)
  end.

(** ** Terminals *)

(** [uint16(n)]. *)
Definition to_uint16 (n : Z) : Z := n mod 65536.

(** The program that is started: a tmux command or the user's shell. *)
Definition pty_argv (e : connector_env) (command : string) : list string :=
  if negb (String.eqb command "") && HasPrefix command "tmux " then Fields command
  else [if String.eqb (ce_shell e) "" then "/bin/bash"%string else ce_shell e].

Definition resized (n : nat) (msg : TunnelMsg) (c : connector) : connector :=
  if (0 <? tm_Rows msg) && (0 <? tm_Cols msg) then act (CSetSize n (to_uint16 (tm_Rows msg)) (to_uint16 (tm_Cols msg))) c else c.

Definition handlePtyConnect (e : connector_env) (msg : TunnelMsg) (c : connector) : connector :=
  let c := act (CStartPty (pty_argv e (tm_Command msg))) c in
  match ce_pty e with
  | inl err => csend e (pty_close (tm_ID msg) err) c
  | inr n =>
    let c := resized n msg c in
    set_ptyReaders (<[n := tm_ID msg]> (ptyReaders c)) (set_ptyEntries (<[tm_ID msg := n]> (ptyEntries c)) c)
  end.

Definition handlePtyData (msg : TunnelMsg) (c : connector) : connector :=
  match ptyEntries c !! tm_ID msg, base64_decode (tm_Data msg) with
  | Some n, Some data => act (CWritePty n data) c
  | _, _ => c
  end.

Definition handlePtyResize (msg : TunnelMsg) (c : connector) : connector :=
  match ptyEntries c !! tm_ID msg with Some n => resized n msg c | None => c end.

Definition handlePtyClose (msg : TunnelMsg) (c : connector) : connector :=
  match ptyEntries c !! tm_ID msg with
  | Some n => act (CKillPty n) (set_ptyEntries (delete (tm_ID msg) (ptyEntries c)) c)
  | None => c
  end.

(** The reader of a terminal: at most 32 KiB at a time, and the end. *)
Definition pty_output (e : connector_env) (n : nat) (data : string) (c : connector) : connector :=
  match ptyReaders c !! n with
  | Some id => if String.eqb data "" then c else csend e (pty_data id (base64_encode data)) c
  | None => c
  end.

Definition pty_exit (e : connector_env) (n : nat) (c : connector) : connector :=
  match ptyReaders c !! n with
  | None => c
  | Some id => csend e (pty_close id "exited") (set_ptyEntries (delete id (ptyEntries c)) (set_ptyReaders (delete n (ptyReaders c)) c))
  end.

(** ** Messages *)

Definition handle (e : connector_env) (msg : TunnelMsg) (c : connector) : connector :=
  let typed := String.eqb (tm_Type msg) in
  if typed "http_request"%string then handleHTTP e msg c
  else if typed "ws_connect"%string then handleWSConnect e msg c
  else if typed "ws_message"%string then handleWSMessage msg c
  else if typed "ws_close"%string then handleWSClose msg c
  else if typed "pty_connect"%string then handlePtyConnect e msg c
  else if typed "pty_data"%string then handlePtyData msg c
  else if typed "pty_resize"%string then handlePtyResize msg c
  else if typed "pty_close"%string then handlePtyClose msg c
  else c.

(** The goroutine of one of the messages in hand. *)
Definition run_handler (e : connector_env) (i : nat) (c : connector) : connector :=
  match inflight c !! i with
  | None => c
  | Some msg => handle e msg (set_inflight (delete i (inflight c)) c)
  end.

End connector.

(** ** Start

    The configuration from the environment; [None]: the program exits. *)
Definition short_name (h : string) : string :=
  match Index h "." with Some (S i) => take_str (S i) h | _ => h end.

Definition main_config (getenv : string → string) (os_hostname : option string) : option connector_config :=
  if String.eqb (getenv "RELAY_URL"%string) "" || String.eqb (getenv "TUNNEL_TOKEN"%string) "" then None
  else
    let m := getenv "MCLAUDE_URL"%string in
    let n := getenv "CONNECTOR_NAME"%string in
    Some {| relayURL := getenv "RELAY_URL"%string; tunnelToken := getenv "TUNNEL_TOKEN"%string;
            mclaudeURL := if String.eqb m "" then "http://localhost:8377" else m; serviceToken := getenv "SERVICE_TOKEN"%string;
            staticDir := getenv "STATIC_DIR"%string;
            hostname := if String.eqb n "" then short_name (default "unknown"%string os_hostname) else n |}.
