(* ===== verification/Import.v ===== *)
(** * Imports and attachments of projects (mclaude-cli: cmd/import.go;
    mclaude-session-agent: import.go, attachment.go)

    The client packs the transcripts of a directory into an archive, uploads it and
    has the control plane make a project; the project's agent unpacks it before
    its first session.  The agent's files that come with messages are fetched and
    stored the same way.  The disk, the store and the replies of the control plane
    are arguments; of files only the contents are kept, not the directories. *)

From S2P Require Import Prelude GoStrings GoPath Slug Subjects Json SessionState QuotaMonitor Agent.
Open Scope Z_scope.

(** ** Archives *)

Inductive tar_type := TypeReg | TypeDir | TypeOther.
Record tar_entry := { hdr_Name : string; hdr_Type : tar_type; hdr_Data : string }.

Definition tar_file (name data : string) : tar_entry := {| hdr_Name := name; hdr_Type := TypeReg; hdr_Data := data |}.

(** archive/tar over compress/gzip: [unpack] is [None] for a bad gzip header; the
    second component says that the archive ends as it should. *)
Class Archiver := {
  pack : list tar_entry → string;
  unpack : string → option (list tar_entry * bool);
  unpack_pack l : unpack (pack l) = Some (l, true);
}.

(** The description of an archive. *)
Record ImportMetadata := {
  im_CWD : string; im_GitRemote : string; im_GitBranch : string; im_ImportedAt : string; im_SessionIDs : list string; im_ClaudeCodeVersion : string;
}.

Definition zero_ImportMetadata : ImportMetadata :=
  {| im_CWD := ""; im_GitRemote := ""; im_GitBranch := ""; im_ImportedAt := ""; im_SessionIDs := []; im_ClaudeCodeVersion := "" |}.

Definition ImportMetadata_fields : list (field ImportMetadata) :=
  [ fld "cwd" dec_string im_CWD (λ v x, {| im_CWD := v; im_GitRemote := im_GitRemote x; im_GitBranch := im_GitBranch x; im_ImportedAt := im_ImportedAt x; im_SessionIDs := im_SessionIDs x; im_ClaudeCodeVersion := im_ClaudeCodeVersion x |});
    fld "gitRemote" dec_string im_GitRemote (λ v x, {| im_CWD := im_CWD x; im_GitRemote := v; im_GitBranch := im_GitBranch x; im_ImportedAt := im_ImportedAt x; im_SessionIDs := im_SessionIDs x; im_ClaudeCodeVersion := im_ClaudeCodeVersion x |});
    fld "gitBranch" dec_string im_GitBranch (λ v x, {| im_CWD := im_CWD x; im_GitRemote := im_GitRemote x; im_GitBranch := v; im_ImportedAt := im_ImportedAt x; im_SessionIDs := im_SessionIDs x; im_ClaudeCodeVersion := im_ClaudeCodeVersion x |});
    fld "importedAt" dec_string im_ImportedAt (λ v x, {| im_CWD := im_CWD x; im_GitRemote := im_GitRemote x; im_GitBranch := im_GitBranch x; im_ImportedAt := v; im_SessionIDs := im_SessionIDs x; im_ClaudeCodeVersion := im_ClaudeCodeVersion x |});
    fld "sessionIds" (dec_slice ""%string dec_string) im_SessionIDs (λ v x, {| im_CWD := im_CWD x; im_GitRemote := im_GitRemote x; im_GitBranch := im_GitBranch x; im_ImportedAt := im_ImportedAt x; im_SessionIDs := v; im_ClaudeCodeVersion := im_ClaudeCodeVersion x |});
    fld "claudeCodeVersion" dec_string im_ClaudeCodeVersion (λ v x, {| im_CWD := im_CWD x; im_GitRemote := im_GitRemote x; im_GitBranch := im_GitBranch x; im_ImportedAt := im_ImportedAt x; im_SessionIDs := im_SessionIDs x; im_ClaudeCodeVersion := v |}) ].

Definition some_member (name value : string) : list (string * json) := if String.eqb value "" then [] else [(name, JStr value)].

Definition metadata_json (x : ImportMetadata) : json :=
  JObj ([("cwd"%string, JStr (im_CWD x))] ++ some_member "gitRemote" (im_GitRemote x) ++ some_member "gitBranch" (im_GitBranch x) ++
        [("importedAt"%string, JStr (im_ImportedAt x)); ("sessionIds"%string, JArr (JStr <$> im_SessionIDs x))] ++
        some_member "claudeCodeVersion" (im_ClaudeCodeVersion x)).

(** ** The client: packing *)

(** The disk: the content of a file; the names in a directory, sorted, with whether
    they are directories ([Ok None]: there is none); the paths of the files below a
    directory, in their order; whether a path exists. *)
Record disk := {
  dk_read : string → option string;
  dk_dir : string → result string (option (list (string * bool)));
  dk_walk : string → list string;
  dk_exists : string → bool;
}.

(** Without an error, the ids of the sessions in the order of the directory. *)
Definition DiscoverSessions (dk : disk) (claudeProjectsDir encodedCWD : string) : result string (list string) :=
  match dk_dir dk (path_Join [claudeProjectsDir; encodedCWD]) with
  | Err err => Err err
  | Ok None => Err "no Claude Code session data found"%string
  | Ok (Some entries) =>
    Ok ((λ en : string * bool, TrimSuffix en.1 ".jsonl") <$> List.filter (λ en : string * bool, negb en.2 && HasSuffix en.1 ".jsonl") entries)
  end.

(** What cannot be read is left out. *)
Definition disk_file (dk : disk) (diskPath archiveName : string) : list tar_entry :=
  match dk_read dk diskPath with Some data => [tar_file archiveName data] | None => [] end.

Definition disk_dir (dk : disk) (diskDir archivePrefix : string) : list tar_entry :=
  if dk_exists dk diskDir
  then concat ((λ rel, disk_file dk (path_Join [diskDir; rel]) (path_Join [archivePrefix; rel])) <$> dk_walk dk diskDir)
  else [].

Definition session_entries (dk : disk) (projectDir sessionID : string) : list tar_entry :=
  disk_file dk (path_Join [projectDir; sessionID +:+ ".jsonl"])%string (path_Join ["sessions"; sessionID +:+ ".jsonl"])%string ++
  disk_dir dk (path_Join [projectDir; sessionID; "subagents"])%string (path_Join ["sessions"; sessionID; "subagents"])%string.

(** The first of the two files that exists. *)
Definition claude_md (dk : disk) (cwd : string) : list tar_entry :=
  match find_first (dk_exists dk) [path_Join [cwd; ".claude"; "CLAUDE.md"]; path_Join [cwd; "CLAUDE.md"]]%string with
  | Some p => disk_file dk p "claude.md"
  | None => []
  end.

(** The entries of an archive; [metaData] is the text of the description. *)
Definition archive_entries (dk : disk) (claudeProjectsDir encodedCWD metaData : string) (meta : ImportMetadata) : list tar_entry :=
  let projectDir := path_Join [claudeProjectsDir; encodedCWD] in
  [tar_file "metadata.json" metaData] ++ concat (session_entries dk projectDir <$> im_SessionIDs meta) ++
  disk_dir dk (path_Join [projectDir; "memory"%string]) "memory" ++ claude_md dk (im_CWD meta).

(** *** A line of input

    A scanner reads a chunk at a time and is dropped with what it holds after the
    line; a line of 64 KiB is too long. *)
Definition drop_cr (s : string) : string := if HasSuffix s (String (char_of 13) "") then TrimSuffix s (String (char_of 13) "") else s.

Fixpoint scan_line (buf : string) (chunks : list string) : option string * list string :=
  match Split (char_of 10) buf with
  | line :: _ :: _ => (Some (drop_cr line), chunks)
  | _ =>
    if (65536 <=? Z.of_nat (String.length buf)) then (None, chunks)
    else match chunks with
         | [] => (if String.eqb buf "" then None else Some (drop_cr buf), [])
         | c :: chunks => scan_line (buf +:+ c) chunks
         end
  end.

(** ** The client: the flow *)

Record checkSlugResponse := { cs_Available : bool; cs_Suggestion : string }.
Definition checkSlugResponse_fields : list (field checkSlugResponse) :=
  [ fld "available" dec_bool cs_Available (λ v x, {| cs_Available := v; cs_Suggestion := cs_Suggestion x |});
    fld "suggestion" dec_string cs_Suggestion (λ v x, {| cs_Available := cs_Available x; cs_Suggestion := v |}) ].

Record importRequestResponse := { ir_ID : string; ir_UploadURL : string; ir_Error : string; ir_Code : string }.
Definition importRequestResponse_fields : list (field importRequestResponse) :=
  [ fld "id" dec_string ir_ID (λ v x, {| ir_ID := v; ir_UploadURL := ir_UploadURL x; ir_Error := ir_Error x; ir_Code := ir_Code x |});
    fld "uploadUrl" dec_string ir_UploadURL (λ v x, {| ir_ID := ir_ID x; ir_UploadURL := v; ir_Error := ir_Error x; ir_Code := ir_Code x |});
    fld "error" dec_string ir_Error (λ v x, {| ir_ID := ir_ID x; ir_UploadURL := ir_UploadURL x; ir_Error := v; ir_Code := ir_Code x |});
    fld "code" dec_string ir_Code (λ v x, {| ir_ID := ir_ID x; ir_UploadURL := ir_UploadURL x; ir_Error := ir_Error x; ir_Code := v |}) ].

Record importConfirmResponse := { ic_OK : bool; ic_Error : string }.
Definition importConfirmResponse_fields : list (field importConfirmResponse) :=
  [ fld "ok" dec_bool ic_OK (λ v x, {| ic_OK := v; ic_Error := ic_Error x |});
    fld "error" dec_string ic_Error (λ v x, {| ic_OK := ic_OK x; ic_Error := v |}) ].

(** What is sent, and what is uploaded. *)
Inductive import_out := IRequest (subject : string) (payload : json) | IUpload (url data : string).

(** The reply to a request, if there is one; the status of an upload; the id and time
    of a request; the chunks of the input. *)
Record client_env := {
  cl_request : string → json → option string;
  cl_put : string → string → option Z;
  cl_id : string;
  cl_ts : Z;
}.

Section client.
Context `{JT : JsonText, UT : UnicodeTables, AR : Archiver}.

Definition check_subject (uslug hslug : string) : string := ("mclaude.users." +:+ uslug +:+ ".hosts." +:+ hslug +:+ ".projects.check-slug")%string.
Definition import_subject (uslug hslug pslug verb : string) : string :=
  ("mclaude.users." +:+ uslug +:+ ".hosts." +:+ hslug +:+ ".projects." +:+ pslug +:+ ".import." +:+ verb)%string.

Definition check_payload (pslug : string) : json := JObj [("slug"%string, JStr pslug)].

Definition checkSlugAvailability (e : client_env) (uslug hslug pslug : string) : result string bool :=
  match cl_request e (check_subject uslug hslug) (check_payload pslug) with
  | None => Err "check-slug request"%string
  | Some data =>
    match unmarshal (dec_struct checkSlugResponse_fields) {| cs_Available := false; cs_Suggestion := "" |} data with
    | None => Err "parse check-slug response"%string
    | Some resp => Ok (cs_Available resp)
    end
  end.

(** Until a slug is free: every taken one costs a line of the input, so [fuel] is
    their number. *)
Fixpoint slug_loop (fuel : nat) (e : client_env) (uslug hslug pslug : string) (input : list string) (outs : list import_out) :
    result string string * list import_out :=
  let outs := outs ++ [IRequest (check_subject uslug hslug) (check_payload pslug)] in
  match checkSlugAvailability e uslug hslug pslug with
  | Err err => (Err err, outs)
  | Ok true => (Ok pslug, outs)
  | Ok false =>
    match fuel with
    | O => (Err "no input provided"%string, outs)
    | S fuel =>
      match scan_line "" input with
      | (None, _) => (Err "no input provided"%string, outs)
      | (Some line, input) =>
        let newName := TrimSpace line in
        if String.eqb newName "" then (Err "no project name provided"%string, outs)
        else
          let pslug := slugifyProjectName newName in
          if String.eqb pslug "" then (Err "could not derive a valid slug"%string, outs) else slug_loop fuel e uslug hslug pslug input outs
      end
    end
  end.

Definition request_payload (e : client_env) (pslug : string) (sizeBytes : Z) : json :=
  JObj [("id", JStr (cl_id e)); ("ts", JInt (cl_ts e)); ("slug", JStr pslug); ("sizeBytes", JInt sizeBytes)]%string.

Definition requestImportURL (e : client_env) (uslug hslug pslug : string) (sizeBytes : Z) : result string (string * string) :=
  match cl_request e (import_subject uslug hslug pslug "request") (request_payload e pslug sizeBytes) with
  | None => Err "import.request"%string
  | Some data =>
    match unmarshal (dec_struct importRequestResponse_fields) {| ir_ID := ""; ir_UploadURL := ""; ir_Error := ""; ir_Code := "" |} data with
    | None => Err "parse import.request response"%string
    | Some resp =>
      if negb (String.eqb (ir_Error resp) "") then Err ("import.request rejected: " +:+ ir_Error resp +:+ " (code: " +:+ ir_Code resp +:+ ")")%string
      else if String.eqb (ir_UploadURL resp) "" then Err "import.request: server returned empty uploadUrl"%string
      else Ok (ir_ID resp, ir_UploadURL resp)
    end
  end.

Definition UploadToS3 (e : client_env) (signedURL data : string) : result string unit :=
  match cl_put e signedURL data with
  | None => Err "S3 PUT"%string
  | Some status => if (status <? 200) || (300 <=? status) then Err "S3 PUT returned an error"%string else Ok ()
  end.

Definition confirm_payload (e : client_env) (importID : string) : json :=
  JObj [("id", JStr (cl_id e)); ("ts", JInt (cl_ts e)); ("importId", JStr importID)]%string.

Definition confirmImport (e : client_env) (uslug hslug pslug importID : string) : result string unit :=
  match cl_request e (import_subject uslug hslug pslug "confirm") (confirm_payload e importID) with
  | None => Err "import.confirm"%string
  | Some data =>
    match unmarshal (dec_struct importConfirmResponse_fields) {| ic_OK := false; ic_Error := "" |} data with
    | None => Err "parse import.confirm response"%string
    | Some resp => if ic_OK resp then Ok () else Err ("import.confirm failed: " +:+ ic_Error resp)%string
    end
  end.

(** [RunImport] once the user, the host, the directory and the connection are there:
    the flag wins over the active host, that over the context. *)
Definition first_set (l : list string) : option string := find_first (λ s, negb (String.eqb s "")) l.

Record import_flags := { if_HostSlug : string; if_activeHost : string; if_ctxHost : string; if_credsUser : string; if_ctxUser : string; if_CWD : string; if_ProjectsDir : string }.

(** [describe] adds what git and the clock say to the sessions; [text] is the text of
    the description. *)
Definition RunImport (e : client_env) (dk : disk) (fl : import_flags) (describe : list string → ImportMetadata) (text : ImportMetadata → string)
    (input : list string) : result string (string * nat) * list import_out :=
  match first_set [if_HostSlug fl; if_activeHost fl; if_ctxHost fl], first_set [if_credsUser fl; if_ctxUser fl] with
  | None, _ => (Err "no active host"%string, [])
  | _, None => (Err "user slug not found"%string, [])
  | Some hslug, Some uslug =>
    let encodedCWD := EncodeCWD (if_CWD fl) in
    match DiscoverSessions dk (if_ProjectsDir fl) encodedCWD with
    | Err err => (Err err, [])
    | Ok [] => (Err "no JSONL session files found"%string, [])
    | Ok sessionIDs =>
      let s := slugifyProjectName (path_Base (if_CWD fl)) in
      match slug_loop (length input) e uslug hslug (if String.eqb s "" then "imported-project"%string else s) input [] with
      | (Err err, outs) => (Err err, outs)
      | (Ok pslug, outs) =>
        let meta := describe sessionIDs in
        let archive := pack (archive_entries dk (if_ProjectsDir fl) encodedCWD (text meta) meta) in
        let size := Z.of_nat (String.length archive) in
        let outs := outs ++ [IRequest (import_subject uslug hslug pslug "request") (request_payload e pslug size)] in
        match requestImportURL e uslug hslug pslug size with
        | Err err => (Err err, outs)
        | Ok (importID, uploadURL) =>
          let outs := outs ++ [IUpload uploadURL archive] in
          match UploadToS3 e uploadURL archive with
          | Err err => (Err err, outs)
          | Ok _ =>
            let outs := outs ++ [IRequest (import_subject uslug hslug pslug "confirm") (confirm_payload e importID)] in
            match confirmImport e uslug hslug pslug importID with
            | Err err => (Err err, outs)
            | Ok _ => (Ok (pslug, length sessionIDs), outs)
            end
          end
        end
      end
    end
  end.

End client.

(** ** The agent: unpacking *)

(** What fails: making a directory, creating a file. *)
Record unpack_env := { un_mkdirErr : string → bool; un_createErr : string → bool }.

Notation contents := (gmap string string).

(** The lines of a scanner: a final line end starts no line. *)
Definition scan_lines (data : string) : list string :=
  let ls := Split (char_of 10) data in
  match last ls with Some EmptyString => removelast ls | _ => ls end.

(** [filepath.Dir]. *)
Definition path_Dir (p : string) : string :=
  if has_char path_sep p then path_Clean (Join "/" (removelast (Split path_sep p)) +:+ "/") else "."%string.

Section agent_import.
Context `{JT : JsonText, GT : GoTime, AR : Archiver}.

(** What is written, and whether all lines are documents shorter than 16 MiB. *)
Fixpoint validateJSONLLines (ls : list string) (written : string) : string * bool :=
  match ls with
  | [] => (written, true)
  | l :: ls =>
    if 16 * 1024 * 1024 <=? Z.of_nat (String.length l) then (written, false)
    else
      let line := drop_cr l in
      if String.eqb line "" then validateJSONLLines ls written
      else
        match json_parse line with
        | None => (written, false)
        | Some _ => validateJSONLLines ls (written +:+ line +:+ nl)
        end
  end.

Definition unpack_target (dir name : string) : string := path_Join [dir; path_Clean ("/" +:+ name)].

(** One entry: the contents of the files after it, and the description if the entry
    is one. *)
Definition extract_entry (e : unpack_env) (dir : string) (x : tar_entry) (fs : contents) (meta : option ImportMetadata) :
    contents * result string (option ImportMetadata) :=
  let target := unpack_target dir (hdr_Name x) in
  if negb (HasPrefix target dir) then (fs, Ok meta)
  else
    match hdr_Type x with
    | TypeDir => if un_mkdirErr e target then (fs, Err "mkdir"%string) else (fs, Ok meta)
    | TypeOther => (fs, Ok meta)
    | TypeReg =>
      if un_mkdirErr e (path_Dir target) then (fs, Err "mkdir parent"%string)
      else if un_createErr e target then (fs, Err "create"%string)
      else if HasSuffix (hdr_Name x) ".jsonl" then
        let '(written, ok) := validateJSONLLines (scan_lines (hdr_Data x)) "" in
        (<[target := written]> fs, if ok then Ok meta else Err ("JSONL validation for " +:+ hdr_Name x)%string)
      else if String.eqb (path_Base (hdr_Name x)) "metadata.json" then
        match unmarshal (dec_struct ImportMetadata_fields) zero_ImportMetadata (hdr_Data x) with
        | None => (<[target := ""%string]> fs, Err "metadata.json invalid JSON"%string)
        | Some m => (<[target := hdr_Data x]> fs, Ok (Some m))
        end
      else (<[target := hdr_Data x]> fs, Ok meta)
    end.

Fixpoint extract (e : unpack_env) (dir : string) (l : list tar_entry) (fs : contents) (meta : option ImportMetadata) :
    contents * result string (option ImportMetadata) :=
  match l with
  | [] => (fs, Ok meta)
  | x :: l =>
    match extract_entry e dir x fs meta with
    | (fs, Ok meta) => extract e dir l fs meta
    | (fs, Err err) => (fs, Err err)
    end
  end.

(** ** The agent: importing *)

(** The project's document in the store, the sessions', the files, and what was
    published. *)
Record import_state := { is_projKV : option string; is_sessKV : gmap string SessionState; is_files : contents; is_sent : list (string * json) }.

Definition with_files (v : contents) (s : import_state) : import_state :=
  {| is_projKV := is_projKV s; is_sessKV := is_sessKV s; is_files := v; is_sent := is_sent s |}.
Definition put_sessions (v : gmap string SessionState) (s : import_state) : import_state :=
  {| is_projKV := is_projKV s; is_sessKV := v; is_files := is_files s; is_sent := is_sent s |}.
Definition set_project (v : string) (s : import_state) : import_state :=
  {| is_projKV := Some v; is_sessKV := is_sessKV s; is_files := is_files s; is_sent := is_sent s |}.

(** [ie_reply n]: the reply to the request number [n] for an address, [ie_get] the
    archive behind one; [ie_down]: a call to the stores or the bus fails. *)
Record import_env := {
  ie_reply : nat → option string;
  ie_get : string → option string;
  ie_unpack : unpack_env;
  ie_down : string → bool;
  ie_dataDir : string;
  ie_isDir : string → bool;
  ie_home : option string;
  ie_now : Z;
}.

Definition importSessionDataDir (e : import_env) : string :=
  let effectiveDataDir := if String.eqb (ie_dataDir e) "" then "/data"%string else ie_dataDir e in
  let projDir := path_Join [effectiveDataDir; "projects"%string] in
  if ie_isDir e projDir then projDir
  else match ie_home e with Some home => path_Join [home; ".claude"; "projects"]%string | None => projDir end.

Definition project_subject (c : agent_config) (rest : string) : string :=
  ("mclaude.users." +:+ ag_userSlug c +:+ ".hosts." +:+ ag_hostSlug c +:+ ".projects." +:+ ag_projectSlug c +:+ "." +:+ rest)%string.

Definition publish (e : import_env) (subject : string) (payload : json) (s : import_state) : import_state :=
  if ie_down e "Publish" then s
  else {| is_projKV := is_projKV s; is_sessKV := is_sessKV s; is_files := is_files s; is_sent := is_sent s ++ [(subject, payload)] |}.

Definition publishImportFailed (e : import_env) (c : agent_config) (errMsg : string) : import_state → import_state :=
  publish e (project_subject c "sessions._import.lifecycle.session_import_failed")
    (marshal_strings [("type", "session_import_failed"); ("error", errMsg); ("ts", format_rfc3339 (ie_now e))]%string).
Definition publishImportComplete (e : import_env) (c : agent_config) : import_state → import_state :=
  publish e (project_subject c "sessions._import.lifecycle.session_import_complete")
    (marshal_strings [("type", "session_import_complete"); ("ts", format_rfc3339 (ie_now e))]%string).

Definition imported_session (e : import_env) (c : agent_config) (sessionID : string) : SessionState :=
  {| st_ID := sessionID; st_Slug := sessionID; st_UserSlug := ag_userSlug c; st_HostSlug := ag_hostSlug c; st_ProjectSlug := ag_projectSlug c;
     st_ProjectID := ag_projectID c; st_Branch := ""; st_Worktree := ""; st_CWD := ""; st_Name := "Imported session"; st_State := StatusCompleted;
     st_StateSince := ie_now e; st_CreatedAt := ie_now e; st_Backend := ""; st_Model := ""; st_Capabilities := zero_Capabilities; st_Tools := [];
     st_Skills := []; st_Agents := []; st_PendingControls := None; st_Usage := zero_Usage; st_ReplayFromSeq := 0%N; st_JoinWorktree := false;
     st_ExtraFlags := ""; st_SoftThreshold := 0; st_HardHeadroomTokens := 0; st_AutoContinue := false; st_BranchSlug := ""; st_PausedVia := "";
     st_ClaudeSessionID := ""; st_FailedTool := ""; st_ResumeAt := None |}.

(** Any failure of the first call, not only a missing entry, leads to the second. *)
Definition createImportedSessionKVEntry (e : import_env) (c : agent_config) (kv : gmap string SessionState) (sessionID : string) : gmap string SessionState :=
  let key := sessionKVKey (ag_hostSlug c) (ag_projectSlug c) sessionID in
  match (if ie_down e ("sessKV.Get " +:+ key) then None else kv !! key) with
  | Some _ => kv
  | None => if ie_down e ("sessKV.Put " +:+ key) then kv else <[key := imported_session e c sessionID]> kv
  end.

Definition unpackImportArchive (e : import_env) (c : agent_config) (archive dir : string) (s : import_state) : result string unit * import_state :=
  match unpack archive with
  | None => (Err "gzip reader"%string, s)
  | Some (l, ok) =>
    match extract (ie_unpack e) dir l (is_files s) None with
    | (fs, Err err) => (Err err, with_files fs s)
    | (fs, Ok meta) =>
      let s := with_files fs s in
      if negb ok then (Err "tar next"%string, s)
      else
        match meta with
        | None => (Err "archive missing metadata.json"%string, s)
        | Some m => (Ok (), put_sessions (fold_left (createImportedSessionKVEntry e c) (im_SessionIDs m) (is_sessKV s)) s)
        end
    end
  end.

Definition import_ref_fields : list (field string) := [ fld "importRef" dec_string (λ x, x) (λ v _, v) ].

(** The document without the reference; what fails is logged. *)
Definition clearImportRef (e : import_env) (s : import_state) : import_state :=
  if ie_down e "projKV.Get again" then s
  else
    match is_projKV s with
    | None => s
    | Some text =>
      match json_parse text with
      | Some (JObj l) => if ie_down e "projKV.Put" then s else set_project (json_print (marshal_map (delete "importRef"%string (object_map l)))) s
      | _ => s
      end
    end.

Definition download_fields : list (field string) := [ fld "downloadUrl" dec_string (λ x, x) (λ v _, v) ].

(** An address from the control plane. *)
Definition reply_url (data : option string) : option string :=
  match data with
  | None => None
  | Some data =>
    match unmarshal (dec_struct download_fields) ""%string data with
    | Some u => if String.eqb u "" then None else Some u
    | None => None
    end
  end.

(** The archive, from a second address if the first gives none; whether a failure
    is announced. *)
Definition fetch_twice (e : import_env) : result (string * bool) string :=
  match reply_url (ie_reply e 0) with
  | None => Err ("import.download"%string, false)
  | Some u =>
    if ie_down e "CreateTemp" then Err ("create temp file"%string, false) else
    match ie_get e u with
    | Some data => Ok data
    | None =>
      match reply_url (ie_reply e 1) with
      | None => Err ("import.download retry"%string, false)
      | Some u => match ie_get e u with Some data => Ok data | None => Err ("S3 download failed after retry"%string, true) end
      end
    end
  end.

Definition complete_payload (e : import_env) (ref : string) : json := JObj [("id", JStr ref); ("ts", JInt (ie_now e))]%string.

Definition checkImport (e : import_env) (c : agent_config) (s : import_state) : result string unit * import_state :=
  if ie_down e "projKV.Get" then (Err "projects KV get"%string, s)
  else
    match is_projKV s with
    | None => (Ok (), s)
    | Some text =>
      match unmarshal (dec_struct import_ref_fields) ""%string text with
      | None => (Err "projects KV unmarshal"%string, s)
      | Some ref =>
        if String.eqb ref "" then (Ok (), s)
        else
          match fetch_twice e with
          | Err (err, announce) => (Err err, if announce then publishImportFailed e c err s else s)
          | Ok archive =>
            match unpackImportArchive e c archive (importSessionDataDir e) s with
            | (Err err, s) => (Err err, publishImportFailed e c ("archive unpack failed: " +:+ err) s)
            | (Ok _, s) =>
              let s := clearImportRef e s in
              let s := publish e (project_subject c "import.complete") (complete_payload e ref) s in
              (Ok (), publishImportComplete e c s)
            end
          end
      end
    end.

(** ** Attachments *)

Record AttachmentRef := { ar_ID : string; ar_Filename : string; ar_MimeType : string; ar_SizeBytes : Z }.
Definition AttachmentRef_fields : list (field AttachmentRef) :=
  [ fld "id" dec_string ar_ID (λ v x, {| ar_ID := v; ar_Filename := ar_Filename x; ar_MimeType := ar_MimeType x; ar_SizeBytes := ar_SizeBytes x |});
    fld "filename" dec_string ar_Filename (λ v x, {| ar_ID := ar_ID x; ar_Filename := v; ar_MimeType := ar_MimeType x; ar_SizeBytes := ar_SizeBytes x |});
    fld "mimeType" dec_string ar_MimeType (λ v x, {| ar_ID := ar_ID x; ar_Filename := ar_Filename x; ar_MimeType := v; ar_SizeBytes := ar_SizeBytes x |});
    fld "sizeBytes" dec_int ar_SizeBytes (λ v x, {| ar_ID := ar_ID x; ar_Filename := ar_Filename x; ar_MimeType := ar_MimeType x; ar_SizeBytes := v |}) ].
Definition zero_ref : AttachmentRef := {| ar_ID := ""; ar_Filename := ""; ar_MimeType := ""; ar_SizeBytes := 0 |}.

(** [at_reply id n]: the reply to the request number [n] for an attachment; [at_temp]
    the temporary file made for a file name. *)
Record attach_env := {
  at_reply : string → nat → option string;
  at_get : string → option string;
  at_put : string → string → string → option Z;
  at_temp : string → option string;
  at_writeErr : string → bool;
}.

Definition downloadAttachment (e : attach_env) (attachmentID : string) : option string :=
  match reply_url (at_reply e attachmentID 0) with
  | None => None
  | Some u =>
    match at_get e u with
    | Some data => Some data
    | None => match reply_url (at_reply e attachmentID 1) with Some u => at_get e u | None => None end
    end
  end.

Record upload_reply_doc := { ud_ID : string; ud_URL : string }.
Definition upload_reply_fields : list (field upload_reply_doc) :=
  [ fld "id" dec_string ud_ID (λ v x, {| ud_ID := v; ud_URL := ud_URL x |}); fld "uploadUrl" dec_string ud_URL (λ v x, {| ud_ID := ud_ID x; ud_URL := v |}) ].

Definition upload_reply_of (data : option string) : option upload_reply_doc :=
  match data with
  | None => None
  | Some data =>
    match unmarshal (dec_struct upload_reply_fields) {| ud_ID := ""; ud_URL := "" |} data with
    | Some r => if String.eqb (ud_URL r) "" then None else Some r
    | None => None
    end
  end.

Definition put_ok (e : attach_env) (url data mimeType : string) : bool :=
  match at_put e url data mimeType with Some status => (200 <=? status) && (status <? 300) | None => false end.

(** The reference of the uploaded file; the confirmation's failure is ignored. *)
Definition uploadAttachment (e : attach_env) (data filename mimeType : string) : option AttachmentRef :=
  let ref r := Some {| ar_ID := ud_ID r; ar_Filename := filename; ar_MimeType := mimeType; ar_SizeBytes := Z.of_nat (String.length data) |} in
  match upload_reply_of (at_reply e "" 0) with
  | None => None
  | Some r =>
    if put_ok e (ud_URL r) data mimeType then ref r
    else match upload_reply_of (at_reply e "" 1) with
         | Some r => if put_ok e (ud_URL r) data mimeType then ref r else None
         | None => None
         end
  end.

(** The temporary files of a message's attachments, by id; [os.CreateTemp] fails for
    a name with a separator. *)
Definition attachment_file (e : attach_env) (m : contents) (ref : AttachmentRef) : contents :=
  match downloadAttachment e (ar_ID ref) with
  | None => m
  | Some data =>
    if has_char path_sep (ar_Filename ref) then m
    else match at_temp e (ar_Filename ref) with
         | None => m
         | Some path => if at_writeErr e path then m else <[ar_ID ref := path]> m
         end
  end.

Definition attachments_fields : list (field (list AttachmentRef)) := [ fld "attachments" (dec_slice zero_ref (dec_struct AttachmentRef_fields)) (λ x, x) (λ v _, v) ].

Definition processInputAttachments (e : attach_env) (messageData : string) : contents :=
  match unmarshal (dec_struct attachments_fields) [] messageData with
  | None => ∅
  | Some refs => fold_left (attachment_file e) refs ∅
  end.

End agent_import.
