(* ===== verification/ImportSpec.v ===== *)
(** * What an import guarantees (mclaude-cli: cmd/import.go; mclaude-session-agent:
    import.go)

    Unpacking writes below its directory only; a failed import changes nothing but
    files and is tried again; what the client packs the agent unpacks; and where a
    transcript or a name on its way breaks an import. *)

From S2P Require Import Prelude GoStrings GoPath Slug Subjects Json SessionState QuotaMonitor Agent Import.
Open Scope Z_scope.

Section spec.
Context `{JT : JsonText, GT : GoTime, UT : UnicodeTables, AR : Archiver}.

(** ** Where files go *)

Definition name_elems (name : string) : list string := clean_elems true (Split path_sep ("/" +:+ name)).

Lemma name_elems_plain name : Forall plain (name_elems name).
Proof. apply clean_elems_plain, Split_free. Qed.

Lemma target_root ds name : ds ≠ [] → Forall plain ds → unpack_target (root ds) name = root (ds ++ name_elems name).
Proof. apply Join_Clean_rooted. Qed.

Lemma target_below ds name : ds ≠ [] → Forall plain ds → below (root ds) (unpack_target (root ds) name) = true.
Proof.
  intros Hne Hd. rewrite target_root by done. apply below_root; [done|by destruct ds|done|apply Forall_app; split; [done|apply name_elems_plain]|].
  by exists (name_elems name).
Qed.

(** The content of an entry that is written, and one that is written without an error. *)
Definition stored (x : tar_entry) : string :=
  if HasSuffix (hdr_Name x) ".jsonl" then (validateJSONLLines (scan_lines (hdr_Data x)) "").1 else hdr_Data x.

(** An entry changes the file of its name only. *)
Lemma extract_entry_other e dir x fs meta p : p ≠ unpack_target dir (hdr_Name x) → (extract_entry e dir x fs meta).1 !! p = fs !! p.
Proof.
  intros Hp. unfold extract_entry. cbv zeta. repeat case_match; cbn; try done; by rewrite lookup_insert_ne.
Qed.

Lemma extract_below e ds l fs meta p : ds ≠ [] → Forall plain ds → below (root ds) p = false → (extract e (root ds) l fs meta).1 !! p = fs !! p.
Proof.
  intros Hne Hd Hp. revert fs meta. induction l as [|x l IH]; intros fs meta; [done|]. cbn.
  assert (Hx : (extract_entry e (root ds) x fs meta).1 !! p = fs !! p).
  { apply extract_entry_other. intros ->. by rewrite target_below in Hp. }
  destruct (extract_entry e (root ds) x fs meta) as [fs' [meta'|err]]; cbn in Hx; [by rewrite IH|done].
Qed.

(** ** Failures *)

Lemma unpack_failed e c archive dir s err s' : unpackImportArchive e c archive dir s = (Err err, s') →
  is_projKV s' = is_projKV s ∧ is_sessKV s' = is_sessKV s ∧ is_sent s' = is_sent s.
Proof.
  unfold unpackImportArchive. destruct (unpack archive) as [[l ok]|]; [|by intros [= _ <-]].
  destruct (extract _ _ _ _ _) as [fs [meta|er]]; [|by intros [= _ <-]]. cbv zeta. destruct (negb ok); [by intros [= _ <-]|].
  destruct meta; [done|by intros [= _ <-]].
Qed.

Lemma publish_same e subject payload s : is_projKV (publish e subject payload s) = is_projKV s ∧ is_sessKV (publish e subject payload s) = is_sessKV s ∧
  is_files (publish e subject payload s) = is_files s.
Proof. unfold publish. by destruct (ie_down e "Publish"). Qed.

Lemma clear_same e s : is_sessKV (clearImportRef e s) = is_sessKV s ∧ is_files (clearImportRef e s) = is_files s.
Proof. unfold clearImportRef. repeat case_match; done. Qed.

(** What becomes of a session that is there: it stays unless the store failed to
    answer for it; then it may be replaced by an imported one. *)
Definition kept_or_unanswered (e : import_env) (c : agent_config) (ids : list string) (k : string) (v : SessionState) (kv : gmap string SessionState) : Prop :=
  kv !! k = Some v ∨
  ie_down e ("sessKV.Get " +:+ k) = true ∧
  ∃ id, id ∈ ids ∧ k = sessionKVKey (ag_hostSlug c) (ag_projectSlug c) id ∧ kv !! k = Some (imported_session e c id).

Lemma create_keeps e c kv id k v : kv !! k = Some v → kept_or_unanswered e c [id] k v (createImportedSessionKVEntry e c kv id).
Proof.
  intros Hk. unfold createImportedSessionKVEntry. cbv zeta.
  destruct (decide (k = sessionKVKey (ag_hostSlug c) (ag_projectSlug c) id)) as [->|Hne].
  - destruct (ie_down e ("sessKV.Get " +:+ _)) eqn:Hg; [|rewrite Hk; by left].
    destruct (ie_down e ("sessKV.Put " +:+ _)); [by left|]. right. split; [done|]. exists id. split; [left|]. split; [done|]. apply lookup_insert_eq.
  - left. destruct (if ie_down e ("sessKV.Get " +:+ _) then _ else _); [done|]. destruct (ie_down e ("sessKV.Put " +:+ _)); [done|].
    by rewrite lookup_insert_ne.
Qed.

Lemma creates_keep e c ids kv k v : kv !! k = Some v → kept_or_unanswered e c ids k v (fold_left (createImportedSessionKVEntry e c) ids kv).
Proof.
  assert (Hgen : ∀ ids' kv, (∀ x, x ∈ ids' → x ∈ ids) → kept_or_unanswered e c ids k v kv →
    kept_or_unanswered e c ids k v (fold_left (createImportedSessionKVEntry e c) ids' kv)).
  { induction ids' as [|id ids' IH]; intros kv' Hs Hk; [done|]. cbn. apply IH; [intros; apply Hs; by right|].
    destruct Hk as [Hk|(Hd & id' & Hid & Hkey & Hk)].
    - destruct (create_keeps e c kv' id k v Hk) as [?|(? & y & ->%list_elem_of_singleton & ? & ?)]; [by left|]. right. split; [done|]. exists id. split; [|done]. apply Hs. left.
    - right. split; [done|]. destruct (create_keeps e c kv' id k _ Hk) as [?|(? & y & ->%list_elem_of_singleton & ? & ?)]; [by exists id'|].
      exists id. split; [|done]. apply Hs. left. }
  intros Hk. apply Hgen; [done|by left].
Qed.

Lemma creates_keep_calm e c ids kv k v : (∀ k, ie_down e k = false) → kv !! k = Some v → fold_left (createImportedSessionKVEntry e c) ids kv !! k = Some v.
Proof. intros Hup Hk. destruct (creates_keep e c ids kv k v Hk) as [?|[Hd _]]; [done|]. by rewrite Hup in Hd. Qed.

Lemma creates_all e c ids kv id : id ∈ ids → (∀ k, ie_down e k = false) → is_Some (fold_left (createImportedSessionKVEntry e c) ids kv !! sessionKVKey (ag_hostSlug c) (ag_projectSlug c) id).
Proof.
  intros Hin Hup. revert kv. induction ids as [|x ids IH]; intros kv; [by apply elem_of_nil in Hin|]. cbn. apply elem_of_cons in Hin as [<-|Hin]; [|by apply IH].
  assert (is_Some (createImportedSessionKVEntry e c kv id !! sessionKVKey (ag_hostSlug c) (ag_projectSlug c) id)) as [v Hv].
  { unfold createImportedSessionKVEntry. cbv zeta. rewrite !Hup. destruct (kv !! sessionKVKey _ _ _) eqn:E; [rewrite E; by eexists|]. rewrite lookup_insert_eq. by eexists. }
  exists v. by apply creates_keep_calm.
Qed.

(** The directory of the sessions is clean and absolute. *)
Definition clean_target (e : import_env) : Prop := ∃ ds, ds ≠ [] ∧ Forall plain ds ∧ importSessionDataDir e = root ds.

(** C21. Whatever an archive holds, an import writes files below the directory of the
    sessions only.  A session that is there stays as it is, unless the store failed
    to answer when it was looked up: then it may be replaced by an imported one,
    under the same key.  When the import fails, the project still refers to the
    archive and the sessions are unchanged: the next start of the agent tries
    again. *)
Theorem import_confined e c s :
  clean_target e →
  let '(r, s') := checkImport e c s in
  (∀ p, is_files s' !! p ≠ is_files s !! p → below (importSessionDataDir e) p = true) ∧
  (∀ k v, is_sessKV s !! k = Some v →
     is_sessKV s' !! k = Some v ∨
     ie_down e ("sessKV.Get " +:+ k) = true ∧
     ∃ id, k = sessionKVKey (ag_hostSlug c) (ag_projectSlug c) id ∧ is_sessKV s' !! k = Some (imported_session e c id)) ∧
  (∀ err, r = Err err → is_projKV s' = is_projKV s ∧ is_sessKV s' = is_sessKV s).
Proof.
  intros (ds & Hne & Hd & Hdir). unfold checkImport. destruct (ie_down e "projKV.Get"); [by auto|]. destruct (is_projKV s) as [text|] eqn:Ek; [|by auto].
  destruct (unmarshal _ _ text) as [ref|]; [|by auto]. destruct (String.eqb ref ""); [by auto|].
  destruct (fetch_twice e) as [archive|[err ann]].
  2: { destruct ann; [|by auto]. unfold publishImportFailed.
       match goal with |- context [publish e ?su ?pa s] => destruct (publish_same e su pa s) as (H1 & H2 & H3) end. rewrite H1, H2, H3, Ek. by auto. }
  destruct (unpackImportArchive e c archive (importSessionDataDir e) s) as [r s1] eqn:Hu.
  assert (Hf : ∀ p, is_files s1 !! p ≠ is_files s !! p → below (importSessionDataDir e) p = true).
  { intros p Hp. unfold unpackImportArchive in Hu. destruct (unpack archive) as [[l ok]|]; [|by injection Hu as _ <-].
    destruct (below (importSessionDataDir e) p) eqn:Hb; [done|]. rewrite Hdir in Hb, Hu. pose proof (extract_below (ie_unpack e) ds l (is_files s) None p Hne Hd Hb) as Hx.
    destruct (extract _ _ _ _ _) as [fs [meta|er]]; cbn in Hx; [|injection Hu as _ <-; cbn in Hp; congruence]. cbv zeta in Hu.
    destruct (negb ok); [injection Hu as _ <-; cbn in Hp; congruence|]. destruct meta; injection Hu as _ <-; cbn in Hp; congruence. }
  destruct r as [|err].
  - pose proof (clear_same e s1) as [C1 C2]. unfold publishImportComplete.
    match goal with |- context [publish e ?su ?pa (publish e ?su2 ?pa2 ?s2)] =>
      destruct (publish_same e su pa (publish e su2 pa2 s2)) as (H1 & H2 & H3); destruct (publish_same e su2 pa2 s2) as (H4 & H5 & H6) end.
    rewrite H2, H3, H5, H6, C1, C2. split; [exact Hf|split; [|done]]. intros k v Hk. unfold unpackImportArchive in Hu.
    destruct (unpack archive) as [[l ok]|]; [|done]. destruct (extract _ _ _ _ _) as [fs [meta|er]]; [|done]. cbv zeta in Hu. destruct (negb ok); [done|].
    destruct meta as [mt|]; [|done]. injection Hu as _ <-. destruct (creates_keep e c (im_SessionIDs mt) _ k v Hk) as [?|(? & id & _ & ? & ?)]; [by left|right; eauto].
  - destruct (unpack_failed _ _ _ _ _ _ _ Hu) as (P1 & P2 & _). unfold publishImportFailed.
    match goal with |- context [publish e ?su ?pa s1] => destruct (publish_same e su pa s1) as (H1 & H2 & H3) end. rewrite H1, H2, H3, P1, P2.
    split; [exact Hf|]. split; [by auto|]. intros ? _. by rewrite Ek.
Qed.

(** A session whose lookup fails is overwritten: whatever its state was, it becomes a
    completed one. *)
Theorem failing_lookup_overwrites e c kv id v :
  let key := sessionKVKey (ag_hostSlug c) (ag_projectSlug c) id in
  kv !! key = Some v → ie_down e ("sessKV.Get " +:+ key) = true → ie_down e ("sessKV.Put " +:+ key) = false →
  createImportedSessionKVEntry e c kv id !! key = Some (imported_session e c id) ∧ st_State (imported_session e c id) = StatusCompleted.
Proof. intros key Hk Hg Hp. unfold createImportedSessionKVEntry. cbv zeta. fold key. rewrite Hg, Hp, lookup_insert_eq. done. Qed.

(** ** What is packed is unpacked *)

Lemma metadata_decodes x : decode (dec_struct ImportMetadata_fields) zero_ImportMetadata (metadata_json x) = Some x.
Proof.
  destruct x as [cwd remote branch at_ ids version]. unfold metadata_json, some_member. cbn [im_CWD im_GitRemote im_GitBranch im_ImportedAt im_SessionIDs im_ClaudeCodeVersion].
  pose proof (names_decode ids) as Hl. set (j := JArr _) in *. clearbody j. unfold decode.
  destruct (String.eqb_spec remote "") as [->|_], (String.eqb_spec branch "") as [->|_], (String.eqb_spec version "") as [->|_].
  all: cbn -[dec_slice]; rewrite ?Hl; reflexivity.
Qed.

(** The lines of a transcript that are kept. *)
Definition transcript (data : string) : string :=
  fold_left (λ w l, w +:+ l +:+ nl) (List.filter (λ l, negb (String.eqb l "")) (drop_cr <$> scan_lines data)) ""%string.

Lemma validate_written ls w w' : validateJSONLLines ls w = (w', true) →
  w' = fold_left (λ w l, w +:+ l +:+ nl) (List.filter (λ l, negb (String.eqb l "")) (drop_cr <$> ls)) w.
Proof.
  revert w. induction ls as [|l ls IH]; intros w; [by intros [= <-]|]. cbn [validateJSONLLines fmap list_fmap List.filter].
  destruct (_ <=? _); [done|]. cbv zeta. destruct (String.eqb (drop_cr l) ""); cbn [negb]; [apply IH|]. destruct (json_parse _); [|done]. apply IH.
Qed.

(** An entry that is unpacked without an error, not a description. *)
Record unpacked (e : unpack_env) (dir : string) (x : tar_entry) : Prop := {
  up_reg : hdr_Type x = TypeReg;
  up_ok : HasSuffix (hdr_Name x) ".jsonl" = true → (validateJSONLLines (scan_lines (hdr_Data x)) "").2 = true;
  up_name : path_Base (hdr_Name x) ≠ "metadata.json"%string ∨ HasSuffix (hdr_Name x) ".jsonl" = true;
}.

Definition calm_unpack (e : unpack_env) : Prop := ∀ p, un_mkdirErr e p = false ∧ un_createErr e p = false.

Lemma below_HasPrefix d p : below d p = true → HasPrefix p d = true.
Proof. unfold below. intros [->%String.eqb_eq|[k Hk]%prefix_spec]%orb_true_iff; unfold HasPrefix; apply prefix_spec; [exists ""%string; by rewrite string_app_nil|eexists; by rewrite Hk, string_app_assoc]. Qed.

Lemma extract_entry_ok e ds x fs meta : ds ≠ [] → Forall plain ds → calm_unpack e → unpacked e (root ds) x →
  extract_entry e (root ds) x fs meta = (<[unpack_target (root ds) (hdr_Name x) := stored x]> fs, Ok meta).
Proof.
  intros Hne Hd Hc [H1 H2 H3]. unfold extract_entry, stored. cbv zeta. rewrite (below_HasPrefix _ _ (target_below ds _ Hne Hd)). cbn [negb].
  rewrite H1. destruct (Hc (path_Dir (unpack_target (root ds) (hdr_Name x)))) as [-> _]. destruct (Hc (unpack_target (root ds) (hdr_Name x))) as [_ ->].
  destruct (HasSuffix (hdr_Name x) ".jsonl").
  - specialize (H2 eq_refl). destruct (validateJSONLLines _ _) as [w ok]. cbn in *. by rewrite H2.
  - destruct H3 as [H3%String.eqb_neq|?]; [|done]. by rewrite H3.
Qed.

Lemma extract_ok e ds l fs meta : ds ≠ [] → Forall plain ds → calm_unpack e → Forall (unpacked e (root ds)) l →
  extract e (root ds) l fs meta = (fold_left (λ fs x, <[unpack_target (root ds) (hdr_Name x) := stored x]> fs) l fs, Ok meta).
Proof.
  intros Hne Hd Hc Hl. revert fs. induction Hl as [|x l Hx _ IH]; intros fs; [done|]. cbn. rewrite extract_entry_ok by done. apply IH.
Qed.

(** A file whose entries all have one content has that content. *)
Lemma inserts_agree (t : tar_entry → string) l (fs : contents) p v :
  (∀ y, y ∈ l → t y = p → stored y = v) → fs !! p = Some v ∨ (∃ y, y ∈ l ∧ t y = p) →
  fold_left (λ (fs : contents) x, <[t x := stored x]> fs) l fs !! p = Some v.
Proof.
  revert fs. induction l as [|x l IH]; intros fs Hv Hp; cbn.
  - destruct Hp as [?|(y & ?%elem_of_nil & _)]; done.
  - apply IH; [intros y Hy; apply Hv; by right|]. destruct (decide (t x = p)) as [He|He].
    + left. rewrite He, lookup_insert_eq. f_equal. apply Hv; [left|done].
    + destruct Hp as [Hp|(y & [->|Hy]%elem_of_cons & Ht)]; [left; by rewrite lookup_insert_ne|done|right; eauto].
Qed.

(** *** The names of an archive *)

Definition at_path (x : tar_entry) (k : list string) : Prop := hdr_Name x = Join "/" k ∧ k ≠ [] ∧ Forall plain k.

Lemma at_path_elems x k : at_path x k → name_elems (hdr_Name x) = k.
Proof. intros (-> & Hk & Hp). unfold name_elems. by apply clean_elems_root. Qed.

Lemma plain_jsonl id : plain id → plain (id +:+ ".jsonl").
Proof.
  intros [H1 _ _ H4]. split; [by destruct id|by destruct id as [|a [|b id]]|by destruct id as [|a [|b [|d id]]]|]. rewrite has_char_app. by rewrite H4.
Qed.

Lemma jsonl_name id : HasSuffix (Join "/" ["sessions"; id +:+ ".jsonl"]%string) ".jsonl" = true.
Proof. apply HasSuffix_spec. exists ("sessions/" +:+ id). by rewrite string_app_assoc. Qed.

Lemma base_rel k : k ≠ [] → Forall plain k → path_Base (Join "/" k) = default "/"%string (last k).
Proof.
  intros Hk Hp. unfold path_Base. assert (String.eqb (Join "/" k) "" = false) as ->.
  { apply String.eqb_neq. destruct k as [|x k]; [done|]. apply Forall_cons in Hp as [[Hx _ _ _] _]. by destruct x, k. }
  rewrite Split_Join; [|done|eapply Forall_impl; [exact Hp|by intros x []]]. f_equal. clear Hk. f_equal. induction Hp as [|x k [Hx%String.eqb_neq _ _ _] _ IH]; [done|].
  cbn. rewrite Hx. cbn. by f_equal.
Qed.

Lemma disk_file_in dk p name y : y ∈ disk_file dk p name → ∃ data, dk_read dk p = Some data ∧ y = tar_file name data.
Proof. unfold disk_file. destruct (dk_read dk p) as [data|]; [intros ->%list_elem_of_singleton; eauto|by intros ?%elem_of_nil]. Qed.

(** Paths of a walk: relative, and no description among them. *)
Definition walk_ok (dk : disk) : Prop :=
  ∀ d rel, rel ∈ dk_walk dk d → ∃ k, k ≠ [] ∧ Forall plain k ∧ rel = Join "/" k ∧ last k ≠ Some "metadata.json"%string.

Lemma disk_dir_in dk d pre y : walk_ok dk → pre ≠ [] → Forall plain pre → y ∈ disk_dir dk d (Join "/" pre) →
  hdr_Type y = TypeReg ∧ ∃ k, k ≠ [] ∧ last k ≠ Some "metadata.json"%string ∧ at_path y (pre ++ k).
Proof.
  intros Hw Hne Hp. unfold disk_dir. destruct (dk_exists dk d); [|by intros ?%elem_of_nil]. intros Hy.
  apply list_elem_of_In, in_concat in Hy as (l & Hl & Hy). apply list_elem_of_In, list_elem_of_fmap in Hl as (rel & -> & Hrel).
  apply list_elem_of_In, disk_file_in in Hy as (data & _ & ->). destruct (Hw _ _ Hrel) as (k & Hk & Hpk & -> & Hlast).
  split; [done|]. exists k. split; [done|]. split; [done|]. split; [cbn; by apply Join_rel|]. split; [by destruct pre|by apply Forall_app].
Qed.

Lemma target_inj ds a b : ds ≠ [] → Forall plain ds → Forall plain b → Forall plain a → root (ds ++ a) = root (ds ++ b) → a = b.
Proof.
  intros Hne Hd Hb Ha H. apply root_inj in H; [by apply app_inv_head in H|by destruct ds|by destruct ds|by apply Forall_app..].
Qed.

(** ** A transcript that is not valid *)

Lemma extract_invalid e dir l fs meta x : x ∈ l → hdr_Type x = TypeReg → HasSuffix (hdr_Name x) ".jsonl" = true → HasPrefix (unpack_target dir (hdr_Name x)) dir = true →
  (validateJSONLLines (scan_lines (hdr_Data x)) "").2 = false → ∃ err, (extract e dir l fs meta).2 = Err err.
Proof.
  intros Hin Hreg Hj Hpre Hv. revert fs meta. induction l as [|y l IH]; intros fs meta; [by apply elem_of_nil in Hin|]. cbn. apply elem_of_cons in Hin as [<-|Hin].
  - assert (∃ err, (extract_entry e dir x fs meta).2 = Err err) as [err He].
    { unfold extract_entry. cbv zeta. rewrite Hpre, Hreg, Hj. cbn [negb]. destruct (un_mkdirErr _ _); [by eexists|]. destruct (un_createErr _ _); [by eexists|].
      destruct (validateJSONLLines _ _) as [w ok]. cbn in Hv. subst ok. by eexists. }
    destruct (extract_entry e dir x fs meta) as [fs' r]. cbn in He. subst r. by exists err.
  - destruct (extract_entry e dir y fs meta) as [fs' [m|err]]; [by apply IH|by exists err].
Qed.

(** A transcript with a line that is not a document, as the last one of a session
    that is being written, or a line of 16 MiB, fails the import, and every later
    start of the agent with the same archive fails again; the client packs such a
    transcript without a word. *)
Theorem broken_transcript_blocks e c s text ref archive l ok x :
  clean_target e → ie_down e "projKV.Get" = false → is_projKV s = Some text → unmarshal (dec_struct import_ref_fields) ""%string text = Some ref → ref ≠ ""%string →
  fetch_twice e = Ok archive → unpack archive = Some (l, ok) → x ∈ l → hdr_Type x = TypeReg → HasSuffix (hdr_Name x) ".jsonl" = true →
  (validateJSONLLines (scan_lines (hdr_Data x)) "").2 = false →
  ∃ err s', checkImport e c s = (Err err, s') ∧ is_projKV s' = Some text ∧ is_sessKV s' = is_sessKV s ∧ ∃ err' s'', checkImport e c s' = (Err err', s'').
Proof.
  intros (ds & Hne & Hd & Hdir) Hup Hk Href Hne2%String.eqb_neq Hf Hl Hx Hreg Hj Hv.
  assert (Hpre : HasPrefix (unpack_target (importSessionDataDir e) (hdr_Name x)) (importSessionDataDir e) = true) by (rewrite Hdir; by apply below_HasPrefix, target_below).
  assert (H : ∀ s, is_projKV s = Some text → ∃ err s', checkImport e c s = (Err err, s') ∧ is_projKV s' = Some text ∧ is_sessKV s' = is_sessKV s).
  { clear s Hk. intros s Hk. unfold checkImport. rewrite Hup, Hk, Href, Hne2, Hf. unfold unpackImportArchive. rewrite Hl.
    destruct (extract_invalid (ie_unpack e) (importSessionDataDir e) l (is_files s) None x Hx Hreg Hj Hpre Hv) as [err He].
    destruct (extract _ _ _ _ _) as [fs r]. cbn in He. subst r. unfold publishImportFailed.
    match goal with |- context [publish e ?su ?pa ?s1] => destruct (publish_same e su pa s1) as (H1 & H2 & _) end. eexists _, _. split; [reflexivity|].
    rewrite H1, H2. by split. }
  destruct (H s Hk) as (err & s' & H1 & H2 & H3). destruct (H s' H2) as (err' & s'' & H4 & _). exists err, s'. split_and!; [done..|by exists err', s''].
Qed.

(** ** The client *)

Lemma slug_loop_Ok fuel e uslug hslug pslug input outs p outs' :
  slug_loop fuel e uslug hslug pslug input outs = (Ok p, outs') →
  checkSlugAvailability e uslug hslug p = Ok true ∧
  ∃ asked, outs' = outs ++ ((λ q, IRequest (check_subject uslug hslug) (check_payload q)) <$> asked) ∧ last asked = Some p.
Proof.
  revert pslug input outs. induction fuel as [|fuel IH]; intros pslug input outs; cbn [slug_loop]; cbv zeta;
    (destruct (checkSlugAvailability e uslug hslug pslug) as [[|]|err] eqn:Hc; [intros [= <- <-]; split; [done|by exists [pslug]]| |done]); [done|].
  destruct (scan_line "" input) as [[line|] input']; [|done]. destruct (String.eqb (TrimSpace line) ""); [done|]. destruct (String.eqb (slugifyProjectName _) ""); [done|].
  intros (H1 & asked & -> & H2)%IH. split; [done|]. exists (pslug :: asked). split; [by rewrite <- app_assoc|]. by destruct asked.
Qed.

(** An import that is reported as done has asked for a slug until one was free,
    uploaded an archive of all sessions of the directory to the address it was given
    and had the control plane confirm that very import; nothing else was sent. *)
Theorem import_uploads e dk fl describe text input pslug n outs :
  RunImport e dk fl describe text input = (Ok (pslug, n), outs) →
  ∃ uslug hslug ids asked importID url,
    DiscoverSessions dk (if_ProjectsDir fl) (EncodeCWD (if_CWD fl)) = Ok ids ∧ n = length ids ∧ last asked = Some pslug ∧
    checkSlugAvailability e uslug hslug pslug = Ok true ∧ requestImportURL e uslug hslug pslug (Z.of_nat (String.length (pack (archive_entries dk (if_ProjectsDir fl) (EncodeCWD (if_CWD fl)) (text (describe ids)) (describe ids))))) = Ok (importID, url) ∧
    confirmImport e uslug hslug pslug importID = Ok () ∧
    outs = ((λ q, IRequest (check_subject uslug hslug) (check_payload q)) <$> asked) ++
      let archive := pack (archive_entries dk (if_ProjectsDir fl) (EncodeCWD (if_CWD fl)) (text (describe ids)) (describe ids)) in
      [IRequest (import_subject uslug hslug pslug "request") (request_payload e pslug (Z.of_nat (String.length archive))); IUpload url archive;
       IRequest (import_subject uslug hslug pslug "confirm") (confirm_payload e importID)].
Proof.
  unfold RunImport. destruct (first_set [if_HostSlug fl; _; _]) as [hslug|]; [|done]. destruct (first_set _) as [uslug|]; [|done].
  destruct (DiscoverSessions _ _ _) as [ids|err]; [|done]. destruct ids as [|id0 ids0] eqn:Eids; [done|]. rewrite <- Eids. clear Eids id0 ids0. cbv zeta.
  destruct (slug_loop _ _ _ _ _ _ _) as [[p|err] outs1] eqn:Hs; [|done]. apply slug_loop_Ok in Hs as (Hav & asked & -> & Hl).
  destruct (requestImportURL _ _ _ _ _) as [[importID url]|err] eqn:Hr; [|done]. destruct (UploadToS3 _ _ _); [|done].
  destruct (confirmImport _ _ _ _ _) as [[]|err] eqn:Hc; [|done]. intros [= <- <- <-]. exists uslug, hslug, ids, asked, importID, url.
  split_and!; try done. cbn [app]. by rewrite <- !app_assoc.
Qed.

(** When the input comes as one piece, as from a pipe, the first prompt takes all of
    it: a second name is never read, and the import fails although it is there. *)
Theorem piped_names_lost e uslug hslug pslug name rest fuel :
  has_char (char_of 10) name = false → checkSlugAvailability e uslug hslug pslug = Ok false → TrimSpace (drop_cr name) ≠ ""%string →
  slugifyProjectName (TrimSpace (drop_cr name)) ≠ ""%string →
  checkSlugAvailability e uslug hslug (slugifyProjectName (TrimSpace (drop_cr name))) = Ok false →
  (slug_loop (S fuel) e uslug hslug pslug [name +:+ nl +:+ rest] []).1 = Err "no input provided"%string.
Proof.
  intros Hn H1 H2%String.eqb_neq H3%String.eqb_neq H4. cbn [slug_loop]. cbv zeta. rewrite H1.
  assert (scan_line "" [name +:+ nl +:+ rest] = (Some (drop_cr name), [])) as ->.
  { cbn [scan_line]. change (Split (char_of 10) "") with [""%string]. cbv iota. change (65536 <=? Z.of_nat (String.length "")) with false. cbv iota.
    change ("" +:+ (name +:+ nl +:+ rest)) with (name +:+ String (char_of 10) rest). cbn [scan_line]. rewrite Split_app by done.
    destruct (Split (char_of 10) rest) eqn:E; [by apply Split_ne_nil in E|done]. }
  rewrite H2, H3. destruct fuel; cbn [slug_loop]; cbv zeta; rewrite H4; [done|]. done.
Qed.

Section roundtrip.
Context (dk : disk) (projects encoded text : string) (meta : ImportMetadata).
Context (Hids : Forall plain (im_SessionIDs meta)) (Hwalk : walk_ok dk).

Let entries := archive_entries dk projects encoded text meta.
Let transcript_path id := path_Join [path_Join [projects; encoded]; id +:+ ".jsonl"]%string.

(** The entries after the description. *)
Lemma entry_cases y : y ∈ tail entries →
  hdr_Type y = TypeReg ∧
  ((∃ id data, id ∈ im_SessionIDs meta ∧ dk_read dk (transcript_path id) = Some data ∧ y = tar_file (Join "/" ["sessions"; id +:+ ".jsonl"])%string data) ∨
   ∃ k, at_path y k ∧ last k ≠ Some "metadata.json"%string ∧ (∀ id, k ≠ ["sessions"; id +:+ ".jsonl"]%string)).
Proof.
  unfold entries, archive_entries. cbn [app tail]. intros [Hy|[Hy|Hy]%elem_of_app]%elem_of_app.
  - apply list_elem_of_In, in_concat in Hy as (l & Hl & Hy). apply list_elem_of_In, list_elem_of_fmap in Hl as (id & -> & Hid).
    rewrite Forall_forall in Hids. pose proof (Hids id Hid) as Hplain. apply list_elem_of_In in Hy. unfold session_entries in Hy. apply elem_of_app in Hy as [Hy|Hy].
    + rewrite (path_Join_rel ["sessions"; id +:+ ".jsonl"]%string) in Hy by (try done; repeat constructor; try done; by apply plain_jsonl).
      apply disk_file_in in Hy as (data & Hr & ->). split; [done|]. left. by exists id, data.
    + assert (Forall plain ["sessions"; id; "subagents"]%string) by (repeat constructor; try done; apply Hplain). rewrite (path_Join_rel ["sessions"; id; "subagents"]%string) in Hy by done.
      apply disk_dir_in in Hy as (Hreg & k & Hk & Hlast & Ha); [|done..]. split; [done|right]. exists (["sessions"; id; "subagents"]%string ++ k).
      split; [done|]. split; [by destruct k as [|x k]|]. by destruct k.
  - change "memory"%string with (Join "/" ["memory"%string]) in Hy. apply disk_dir_in in Hy as (Hreg & k & Hk & Hlast & Ha); [|done|done|by repeat constructor].
    split; [done|right]. exists (["memory"%string] ++ k). split; [done|]. split; [by destruct k as [|x k]|done].
  - unfold claude_md in Hy. destruct (find_first _ _); [|by apply elem_of_nil in Hy]. apply disk_file_in in Hy as (data & _ & ->). split; [done|right].
    exists ["claude.md"%string]. split; [by split_and!; repeat constructor|done].
Qed.

(** C25. What the client packs the agent unpacks, on any clean directory: every
    transcript that could be read is there with its lines, without the empty ones,
    and every session is listed.  It needs all transcripts, those of subagents too, to
    be documents line by line, and no other file named like the description. *)
Theorem import_roundtrip e c s ds :
  ds ≠ [] → Forall plain ds → calm_unpack (ie_unpack e) → (∀ k, ie_down e k = false) →
  json_parse text = Some (metadata_json meta) →
  (∀ x, x ∈ entries → HasSuffix (hdr_Name x) ".jsonl" = true → (validateJSONLLines (scan_lines (hdr_Data x)) "").2 = true) →
  ∃ s', unpackImportArchive e c (pack entries) (root ds) s = (Ok (), s') ∧
    (∀ id data, id ∈ im_SessionIDs meta → dk_read dk (transcript_path id) = Some data →
       is_files s' !! root (ds ++ ["sessions"; id +:+ ".jsonl"]%string) = Some (transcript data)) ∧
    (∀ id, id ∈ im_SessionIDs meta → is_Some (is_sessKV s' !! sessionKVKey (ag_hostSlug c) (ag_projectSlug c) id)).
Proof.
  intros Hne Hd Hc Hup Hparse Hvalid. unfold unpackImportArchive. rewrite unpack_pack.
  assert (entries = tar_file "metadata.json" text :: tail entries) as Hent by done. rewrite Hent. cbn [extract].
  assert (Hhead : extract_entry (ie_unpack e) (root ds) (tar_file "metadata.json" text) (is_files s) None =
    (<[unpack_target (root ds) "metadata.json" := text]> (is_files s), Ok (Some meta))).
  { unfold extract_entry. cbn [tar_file hdr_Name hdr_Type hdr_Data]. cbv zeta. rewrite (below_HasPrefix _ _ (target_below ds _ Hne Hd)). cbn [negb].
    destruct (Hc (path_Dir (unpack_target (root ds) "metadata.json"))) as [-> _]. destruct (Hc (unpack_target (root ds) "metadata.json")) as [_ ->].
    change (HasSuffix "metadata.json" ".jsonl") with false. change (String.eqb (path_Base "metadata.json") "metadata.json") with true. cbv iota.
    unfold unmarshal. by rewrite Hparse, metadata_decodes. }
  rewrite Hhead. rewrite extract_ok; [|done..|].
  2: { apply Forall_forall. intros y Hy. assert (y ∈ entries) as Hin by (rewrite Hent; by right). pose proof (entry_cases y Hy) as [Hreg Hcase]. split; [done|by apply Hvalid|].
       destruct Hcase as [(id & data & _ & _ & ->)|(k & (Hn & Hk & Hp) & Hlast & _)].
       - right. apply jsonl_name.
       - left. rewrite Hn, base_rel by done. destruct (last k) as [x|] eqn:El; [cbn; congruence|by apply last_None in El]. }
  cbn [negb]. cbv zeta. eexists. split; [reflexivity|]. split; [|intros id Hid; by apply creates_all]. intros id data Hid Hr. cbn [is_files with_files put_sessions].
  pose proof Hids as Hall. rewrite Forall_forall in Hall. assert (Hpl : Forall plain ["sessions"; id +:+ ".jsonl"]%string) by (repeat constructor; try done; by apply plain_jsonl, Hall).
  set (x := tar_file (Join "/" ["sessions"; id +:+ ".jsonl"])%string data). assert (Hx : at_path x ["sessions"; id +:+ ".jsonl"]%string) by done.
  assert (Hin : x ∈ tail entries).
  { unfold entries, archive_entries. cbn [app tail]. apply elem_of_app. left. apply list_elem_of_In, in_concat. exists (session_entries dk (path_Join [projects; encoded]) id).
    split; [apply list_elem_of_In, list_elem_of_fmap; by exists id|]. apply list_elem_of_In, elem_of_app. left. unfold disk_file. unfold transcript_path in Hr. rewrite Hr.
    rewrite (path_Join_rel ["sessions"; id +:+ ".jsonl"]%string) by done. by left. }
  assert (Hst : stored x = transcript data).
  { unfold stored. assert (HasSuffix (hdr_Name x) ".jsonl" = true) as Hs by apply jsonl_name. rewrite Hs.
    assert (x ∈ entries) as Hx2 by (rewrite Hent; by right). specialize (Hvalid x Hx2 Hs). cbn [x tar_file hdr_Data] in *. destruct (validateJSONLLines _ _) as [w ok] eqn:E. cbn in Hvalid. subst ok.
    by apply validate_written in E. }
  rewrite <- Hst. apply inserts_agree.
  - intros y Hy Ht. rewrite target_root in Ht by done. destruct (entry_cases y Hy) as [_ [(id' & data' & Hin' & Hr' & ->)|(k & Hk & _ & Hno)]].
    + assert (at_path (tar_file (Join "/" ["sessions"; id' +:+ ".jsonl"])%string data') ["sessions"; id' +:+ ".jsonl"]%string) as Hx'
        by (split_and!; [done|done|repeat constructor; try done; by apply plain_jsonl, Hall]).
      rewrite (at_path_elems _ _ Hx') in Ht. apply target_inj in Ht as [= Hid']; [|done..|by apply Hx']. unfold transcript_path in Hr, Hr'. rewrite Hid' in Hr' |- *. assert (data' = data) as -> by congruence. done.
    + exfalso. rewrite (at_path_elems _ _ Hk) in Ht. apply target_inj in Ht; [|done..|by apply Hk]. by eapply Hno.
  - right. exists x. split; [done|]. by rewrite target_root, (at_path_elems _ _ Hx).
Qed.
End roundtrip.

End spec.

(** ** Examples

    An archive is the number of its list of entries in binary. *)
Module ImportDemo.

#[local] Instance tar_entry_eq : EqDecision tar_entry.
Proof. intros x y. unfold Decision. repeat decide equality. Defined.
#[local] Instance tar_entry_countable : Countable tar_entry.
Proof.
  refine (inj_countable' (λ x, (hdr_Name x, match hdr_Type x with TypeReg => 0%nat | TypeDir => 1%nat | TypeOther => 2%nat end, hdr_Data x))
    (λ t, {| hdr_Name := t.1.1; hdr_Type := match t.1.2 with 0%nat => TypeReg | 1%nat => TypeDir | _ => TypeOther end; hdr_Data := t.2 |}) _).
  by intros [n [] d].
Defined.

Fixpoint bits (p : positive) : string := match p with xH => "" | xO p => String "0" (bits p) | xI p => String "1" (bits p) end.
Fixpoint unbits (s : string) : positive := match s with EmptyString => xH | String c s => if Ascii.eqb c "0" then xO (unbits s) else xI (unbits s) end.

Lemma unbits_bits p : unbits (bits p) = p.
Proof. induction p as [p IH|p IH|]; cbn; [by rewrite IH..|done]. Qed.

Definition archiver : Archiver.
Proof.
  refine {| pack l := bits (encode l); unpack s := (λ l, (l, true)) <$> countable.decode (unbits s) |}.
  intros l. by rewrite unbits_bits, decode_encode.
Defined.

Definition meta : ImportMetadata :=
  {| im_CWD := "/home/al/web"; im_GitRemote := ""; im_GitBranch := "main"; im_ImportedAt := "2026-01-01T00:00:00Z"; im_SessionIDs := ["s1"%string]; im_ClaudeCodeVersion := "" |}.

Definition project_doc : json := JObj [("importRef", JStr "imp-1"); ("name", JStr "web")]%string.
Definition url_doc (u : string) : json := JObj [("downloadUrl", JStr u)]%string.
Definition text : JsonText := table_json [("{}", JObj []); ("meta", metadata_json meta); ("project", project_doc); ("url", url_doc "https://store/1");
  ("free", JObj [("available", JBool true)]); ("address", JObj [("id", JStr "imp-1"); ("uploadUrl", JStr "https://store/1")]); ("ok", JObj [("ok", JBool true)])]%string.
Definition time : GoTime := {| parse_rfc3339 _ := None; format_rfc3339 _ := "now"%string |}.
#[global] Existing Instances archiver text time ascii_tables.

Definition lines (l : list string) : string := Join nl l.

Definition disk_with (data : string) : disk :=
  {| dk_read p := if String.eqb p "/home/al/.claude/projects/home-al-web/s1.jsonl" then Some data else None;
     dk_dir p := if String.eqb p "/home/al/.claude/projects/home-al-web" then Ok (Some [("s1.jsonl", false); ("s1", true)]%string) else Ok None;
     dk_walk _ := []; dk_exists _ := false |}.
Definition good_disk : disk := disk_with (lines ["{}"; ""; "{}"])%string.
Definition broken_disk : disk := disk_with (lines ["{}"; "{"])%string.

Definition entries_of (dk : disk) : list tar_entry := archive_entries dk "/home/al/.claude/projects" "home-al-web" "meta" meta.
Definition agent_of : agent_config :=
  {| ag_userID := "u1"; ag_userSlug := "al"; ag_hostSlug := "laptop"; ag_projectID := "p1"; ag_projectSlug := "web"; ag_dataDir := "/data"; ag_registry := ∅ |}.
Definition world (dk : disk) : import_env :=
  {| ie_reply _ := Some "url"%string; ie_get _ := Some (pack (entries_of dk)); ie_unpack := {| un_mkdirErr _ := false; un_createErr _ := false |};
     ie_down _ := false; ie_dataDir := "/data"; ie_isDir _ := true; ie_home := None; ie_now := 7 |}.
Definition before : import_state := {| is_projKV := Some "project"%string; is_sessKV := ∅; is_files := ∅; is_sent := [] |}.

Lemma data_clean : ["data"; "projects"]%string ≠ [] ∧ Forall plain ["data"; "projects"]%string.
Proof. split; [done|]. repeat constructor; done. Qed.

Lemma world_clean dk : clean_target (world dk).
Proof. exists ["data"; "projects"]%string. split; [done|]. split; [apply data_clean|done]. Qed.

Definition flags : import_flags :=
  {| if_HostSlug := ""; if_activeHost := "laptop"; if_ctxHost := ""; if_credsUser := "al"; if_ctxUser := ""; if_CWD := "/home/al/web"; if_ProjectsDir := "/home/al/.claude/projects" |}.
Definition client : client_env :=
  {| cl_request subject _ := if HasSuffix subject "check-slug" then Some "free"%string else if HasSuffix subject "request" then Some "address"%string else Some "ok"%string;
     cl_put _ _ := Some 200; cl_id := "1"; cl_ts := 7 |}.

End ImportDemo.
Import ImportDemo.

Lemma import_confined_witness :
  ∃ s', checkImport (world good_disk) agent_of before = (Ok (), s') ∧ is_files s' !! "/data/projects/sessions/s1.jsonl"%string = Some (lines ["{}"; "{}"; ""])%string ∧
    below "/data/projects" "/data/projects/sessions/s1.jsonl" = true.
Proof.
  pose proof (import_confined (world good_disk) agent_of before (world_clean good_disk)) as H.
  destruct (checkImport (world good_disk) agent_of before) as [r s'] eqn:E. destruct H as (Hf & _ & _). vm_compute in E. injection E as <- <-.
  eexists. split; [reflexivity|]. split; [reflexivity|]. apply (Hf "/data/projects/sessions/s1.jsonl"%string). vm_compute. discriminate.
Defined.

Lemma import_roundtrip_witness :
  ∃ s', unpackImportArchive (world good_disk) agent_of (pack (entries_of good_disk)) (root ["data"; "projects"]%string) before = (Ok (), s') ∧
    is_files s' !! "/data/projects/sessions/s1.jsonl"%string = Some (transcript (lines ["{}"; ""; "{}"])%string).
Proof.
  destruct (import_roundtrip good_disk "/home/al/.claude/projects" "home-al-web" "meta" meta) with (e := world good_disk) (c := agent_of) (s := before) (ds := ["data"; "projects"]%string)
    as (s' & H1 & H2 & _).
  - repeat constructor; done.
  - by intros d rel ?%elem_of_nil.
  - done.
  - apply data_clean.
  - by intros p.
  - done.
  - reflexivity.
  - intros x Hx _. vm_compute in Hx. repeat (apply elem_of_cons in Hx as [->|Hx]; [vm_compute; reflexivity|]). by apply elem_of_nil in Hx.
  - exists s'. split; [exact H1|]. apply (H2 "s1"%string); [left|reflexivity].
Defined.

Lemma broken_transcript_blocks_witness :
  ∃ err s', checkImport (world broken_disk) agent_of before = (Err err, s') ∧ ∃ err' s'', checkImport (world broken_disk) agent_of s' = (Err err', s'').
Proof.
  destruct (broken_transcript_blocks (world broken_disk) agent_of before "project" "imp-1" (pack (entries_of broken_disk)) (entries_of broken_disk) true
    (tar_file "sessions/s1.jsonl" (lines ["{}"; "{"])%string)) as (err & s' & H1 & _ & _ & H2);
    [apply world_clean|reflexivity|reflexivity|reflexivity|discriminate|reflexivity|apply unpack_pack|right; left|reflexivity|reflexivity|reflexivity|].
  exists err, s'. split; [exact H1|exact H2].
Defined.

Lemma import_uploads_witness :
  ∃ url, last (RunImport client good_disk flags (λ _, meta) (λ _, "meta"%string) []).2 = Some url ∧
    ∃ asked, last asked = Some "web"%string ∧ asked ≠ [].
Proof.
  destruct (RunImport client good_disk flags (λ _, meta) (λ _, "meta"%string) []) as [r outs] eqn:E. assert (r = Ok ("web"%string, 1%nat)) as -> by (vm_compute in E; by injection E as <- _).
  destruct (import_uploads client good_disk flags (λ _, meta) (λ _, "meta"%string) [] "web" 1 outs E) as (u & h & ids & asked & i & url & _ & _ & Hl & _ & _ & _ & ->).
  eexists. split; [cbn [snd]; rewrite last_app; reflexivity|]. exists asked. split; [exact Hl|]. by intros ->.
Defined.
