(* ===== verification/Conversation.v ===== *)
(** * The attach command of the client (mclaude-cli: events/, renderer/, repl/;
    mclaude-session-agent: debug.go)

    The client reads the events of a session from its debug socket, prints them,
    and sends what the user types.  The accumulator keeps turns and blocks behind
    pointers that several structures share: the store has a list per kind of
    object, and the address of an object is its place in the list.  Maps that are
    ranged over, the formats of fmt and the text of raw members are parameters. *)

From stdpp Require Import pretty.
From S2P Require Import Prelude GoStrings Json SessionState Session Import.
Open Scope Z_scope.

(** ** Events (events/types.go) *)

Record DeltaContent := { dc_Type : string; dc_Text : string }.
Definition DeltaContent_fields : list (field DeltaContent) :=
  [ fld "type" dec_string dc_Type (λ v x, {| dc_Type := v; dc_Text := dc_Text x |});
    fld "text" dec_string dc_Text (λ v x, {| dc_Type := dc_Type x; dc_Text := v |}) ].

Record StreamEventData := { sd_Type : string; sd_Delta : option DeltaContent }.
Definition StreamEventData_fields : list (field StreamEventData) :=
  [ fld "type" dec_string sd_Type (λ v x, {| sd_Type := v; sd_Delta := sd_Delta x |});
    fld "delta" (dec_pointer {| dc_Type := ""; dc_Text := "" |} (dec_struct DeltaContent_fields)) sd_Delta (λ v x, {| sd_Type := sd_Type x; sd_Delta := v |}) ].

Record ContentBlock := {
  bl_Type : string; bl_Text : string; bl_ID : string; bl_Name : string; bl_Input : option json; bl_ToolUseID : string; bl_Content : string; bl_IsError : bool;
}.
Definition zero_ContentBlock : ContentBlock :=
  {| bl_Type := ""; bl_Text := ""; bl_ID := ""; bl_Name := ""; bl_Input := None; bl_ToolUseID := ""; bl_Content := ""; bl_IsError := false |}.
Definition ContentBlock_fields : list (field ContentBlock) :=
  [ fld "type" dec_string bl_Type (λ v x, {| bl_Type := v; bl_Text := bl_Text x; bl_ID := bl_ID x; bl_Name := bl_Name x; bl_Input := bl_Input x; bl_ToolUseID := bl_ToolUseID x; bl_Content := bl_Content x; bl_IsError := bl_IsError x |});
    fld "text" dec_string bl_Text (λ v x, {| bl_Type := bl_Type x; bl_Text := v; bl_ID := bl_ID x; bl_Name := bl_Name x; bl_Input := bl_Input x; bl_ToolUseID := bl_ToolUseID x; bl_Content := bl_Content x; bl_IsError := bl_IsError x |});
    fld "id" dec_string bl_ID (λ v x, {| bl_Type := bl_Type x; bl_Text := bl_Text x; bl_ID := v; bl_Name := bl_Name x; bl_Input := bl_Input x; bl_ToolUseID := bl_ToolUseID x; bl_Content := bl_Content x; bl_IsError := bl_IsError x |});
    fld "name" dec_string bl_Name (λ v x, {| bl_Type := bl_Type x; bl_Text := bl_Text x; bl_ID := bl_ID x; bl_Name := v; bl_Input := bl_Input x; bl_ToolUseID := bl_ToolUseID x; bl_Content := bl_Content x; bl_IsError := bl_IsError x |});
    fld "input" dec_raw bl_Input (λ v x, {| bl_Type := bl_Type x; bl_Text := bl_Text x; bl_ID := bl_ID x; bl_Name := bl_Name x; bl_Input := v; bl_ToolUseID := bl_ToolUseID x; bl_Content := bl_Content x; bl_IsError := bl_IsError x |});
    fld "tool_use_id" dec_string bl_ToolUseID (λ v x, {| bl_Type := bl_Type x; bl_Text := bl_Text x; bl_ID := bl_ID x; bl_Name := bl_Name x; bl_Input := bl_Input x; bl_ToolUseID := v; bl_Content := bl_Content x; bl_IsError := bl_IsError x |});
    fld "content" dec_string bl_Content (λ v x, {| bl_Type := bl_Type x; bl_Text := bl_Text x; bl_ID := bl_ID x; bl_Name := bl_Name x; bl_Input := bl_Input x; bl_ToolUseID := bl_ToolUseID x; bl_Content := v; bl_IsError := bl_IsError x |});
    fld "is_error" dec_bool bl_IsError (λ v x, {| bl_Type := bl_Type x; bl_Text := bl_Text x; bl_ID := bl_ID x; bl_Name := bl_Name x; bl_Input := bl_Input x; bl_ToolUseID := bl_ToolUseID x; bl_Content := bl_Content x; bl_IsError := v |}) ].

Record Usage := { us_In : Z; us_Out : Z; us_CacheRead : Z; us_CacheWrite : Z }.
Definition zero_usage : Usage := {| us_In := 0; us_Out := 0; us_CacheRead := 0; us_CacheWrite := 0 |}.
Definition Usage_fields : list (field Usage) :=
  [ fld "input_tokens" dec_int us_In (λ v x, {| us_In := v; us_Out := us_Out x; us_CacheRead := us_CacheRead x; us_CacheWrite := us_CacheWrite x |});
    fld "output_tokens" dec_int us_Out (λ v x, {| us_In := us_In x; us_Out := v; us_CacheRead := us_CacheRead x; us_CacheWrite := us_CacheWrite x |});
    fld "cache_read_input_tokens" dec_int us_CacheRead (λ v x, {| us_In := us_In x; us_Out := us_Out x; us_CacheRead := v; us_CacheWrite := us_CacheWrite x |});
    fld "cache_creation_input_tokens" dec_int us_CacheWrite (λ v x, {| us_In := us_In x; us_Out := us_Out x; us_CacheRead := us_CacheRead x; us_CacheWrite := v |}) ].

Record UserTurn := { ut_Role : string; ut_Content : option json }.
Definition UserTurn_fields : list (field UserTurn) :=
  [ fld "role" dec_string ut_Role (λ v x, {| ut_Role := v; ut_Content := ut_Content x |});
    fld "content" dec_raw ut_Content (λ v x, {| ut_Role := ut_Role x; ut_Content := v |}) ].

Record PermissionBody := { pb_Subtype : string; pb_ToolName : string; pb_ToolInput : option json }.
Definition PermissionBody_fields : list (field PermissionBody) :=
  [ fld "subtype" dec_string pb_Subtype (λ v x, {| pb_Subtype := v; pb_ToolName := pb_ToolName x; pb_ToolInput := pb_ToolInput x |});
    fld "tool_name" dec_string pb_ToolName (λ v x, {| pb_Subtype := pb_Subtype x; pb_ToolName := v; pb_ToolInput := pb_ToolInput x |});
    fld "tool_input" dec_raw pb_ToolInput (λ v x, {| pb_Subtype := pb_Subtype x; pb_ToolName := pb_ToolName x; pb_ToolInput := v |}) ].

(** All members are decoded, so a wrong type in any of them makes the line an error;
    tools, summary and duration are not read. *)
Record Event := {
  ev_Type : string; ev_Subtype : string; ev_Skills : list string; ev_Model : string; ev_State : string; ev_StreamEvt : option StreamEventData;
  ev_Content : list ContentBlock; ev_Usage : option Usage; ev_ParentToolUseID : string; ev_Message : option UserTurn; ev_RequestID : string;
  ev_Request : option PermissionBody; ev_ToolUseID : string; ev_ToolName : string; ev_ElapsedTime : float64;
  ev_Tools : list string; ev_Summary : string; ev_DurationMS : Z;
}.

Definition zero_Event : Event :=
  {| ev_Type := ""; ev_Subtype := ""; ev_Skills := []; ev_Model := ""; ev_State := ""; ev_StreamEvt := None; ev_Content := []; ev_Usage := None;
     ev_ParentToolUseID := ""; ev_Message := None; ev_RequestID := ""; ev_Request := None; ev_ToolUseID := ""; ev_ToolName := ""; ev_ElapsedTime := f64_zero;
     ev_Tools := []; ev_Summary := ""; ev_DurationMS := 0 |}.

Definition Event_fields : list (field Event) :=
  [ fld "type" dec_string ev_Type
      (λ v x, {| ev_Type := v; ev_Subtype := ev_Subtype x; ev_Skills := ev_Skills x; ev_Model := ev_Model x; ev_State := ev_State x; ev_StreamEvt := ev_StreamEvt x; ev_Content := ev_Content x;
        ev_Usage := ev_Usage x; ev_ParentToolUseID := ev_ParentToolUseID x; ev_Message := ev_Message x; ev_RequestID := ev_RequestID x; ev_Request := ev_Request x; ev_ToolUseID := ev_ToolUseID x; ev_ToolName := ev_ToolName x;
        ev_ElapsedTime := ev_ElapsedTime x; ev_Tools := ev_Tools x; ev_Summary := ev_Summary x; ev_DurationMS := ev_DurationMS x |});
    fld "subtype" dec_string ev_Subtype
      (λ v x, {| ev_Type := ev_Type x; ev_Subtype := v; ev_Skills := ev_Skills x; ev_Model := ev_Model x; ev_State := ev_State x; ev_StreamEvt := ev_StreamEvt x; ev_Content := ev_Content x;
        ev_Usage := ev_Usage x; ev_ParentToolUseID := ev_ParentToolUseID x; ev_Message := ev_Message x; ev_RequestID := ev_RequestID x; ev_Request := ev_Request x; ev_ToolUseID := ev_ToolUseID x; ev_ToolName := ev_ToolName x;
        ev_ElapsedTime := ev_ElapsedTime x; ev_Tools := ev_Tools x; ev_Summary := ev_Summary x; ev_DurationMS := ev_DurationMS x |});
    fld "skills" (dec_slice ""%string dec_string) ev_Skills
      (λ v x, {| ev_Type := ev_Type x; ev_Subtype := ev_Subtype x; ev_Skills := v; ev_Model := ev_Model x; ev_State := ev_State x; ev_StreamEvt := ev_StreamEvt x; ev_Content := ev_Content x;
        ev_Usage := ev_Usage x; ev_ParentToolUseID := ev_ParentToolUseID x; ev_Message := ev_Message x; ev_RequestID := ev_RequestID x; ev_Request := ev_Request x; ev_ToolUseID := ev_ToolUseID x; ev_ToolName := ev_ToolName x;
        ev_ElapsedTime := ev_ElapsedTime x; ev_Tools := ev_Tools x; ev_Summary := ev_Summary x; ev_DurationMS := ev_DurationMS x |});
    fld "model" dec_string ev_Model
      (λ v x, {| ev_Type := ev_Type x; ev_Subtype := ev_Subtype x; ev_Skills := ev_Skills x; ev_Model := v; ev_State := ev_State x; ev_StreamEvt := ev_StreamEvt x; ev_Content := ev_Content x;
        ev_Usage := ev_Usage x; ev_ParentToolUseID := ev_ParentToolUseID x; ev_Message := ev_Message x; ev_RequestID := ev_RequestID x; ev_Request := ev_Request x; ev_ToolUseID := ev_ToolUseID x; ev_ToolName := ev_ToolName x;
        ev_ElapsedTime := ev_ElapsedTime x; ev_Tools := ev_Tools x; ev_Summary := ev_Summary x; ev_DurationMS := ev_DurationMS x |});
    fld "state" dec_string ev_State
      (λ v x, {| ev_Type := ev_Type x; ev_Subtype := ev_Subtype x; ev_Skills := ev_Skills x; ev_Model := ev_Model x; ev_State := v; ev_StreamEvt := ev_StreamEvt x; ev_Content := ev_Content x;
        ev_Usage := ev_Usage x; ev_ParentToolUseID := ev_ParentToolUseID x; ev_Message := ev_Message x; ev_RequestID := ev_RequestID x; ev_Request := ev_Request x; ev_ToolUseID := ev_ToolUseID x; ev_ToolName := ev_ToolName x;
        ev_ElapsedTime := ev_ElapsedTime x; ev_Tools := ev_Tools x; ev_Summary := ev_Summary x; ev_DurationMS := ev_DurationMS x |});
    fld "event" (dec_pointer {| sd_Type := ""; sd_Delta := None |} (dec_struct StreamEventData_fields)) ev_StreamEvt
      (λ v x, {| ev_Type := ev_Type x; ev_Subtype := ev_Subtype x; ev_Skills := ev_Skills x; ev_Model := ev_Model x; ev_State := ev_State x; ev_StreamEvt := v; ev_Content := ev_Content x;
        ev_Usage := ev_Usage x; ev_ParentToolUseID := ev_ParentToolUseID x; ev_Message := ev_Message x; ev_RequestID := ev_RequestID x; ev_Request := ev_Request x; ev_ToolUseID := ev_ToolUseID x; ev_ToolName := ev_ToolName x;
        ev_ElapsedTime := ev_ElapsedTime x; ev_Tools := ev_Tools x; ev_Summary := ev_Summary x; ev_DurationMS := ev_DurationMS x |});
    fld "content" (dec_slice zero_ContentBlock (dec_struct ContentBlock_fields)) ev_Content
      (λ v x, {| ev_Type := ev_Type x; ev_Subtype := ev_Subtype x; ev_Skills := ev_Skills x; ev_Model := ev_Model x; ev_State := ev_State x; ev_StreamEvt := ev_StreamEvt x; ev_Content := v;
        ev_Usage := ev_Usage x; ev_ParentToolUseID := ev_ParentToolUseID x; ev_Message := ev_Message x; ev_RequestID := ev_RequestID x; ev_Request := ev_Request x; ev_ToolUseID := ev_ToolUseID x; ev_ToolName := ev_ToolName x;
        ev_ElapsedTime := ev_ElapsedTime x; ev_Tools := ev_Tools x; ev_Summary := ev_Summary x; ev_DurationMS := ev_DurationMS x |});
    fld "usage" (dec_pointer zero_usage (dec_struct Usage_fields)) ev_Usage
      (λ v x, {| ev_Type := ev_Type x; ev_Subtype := ev_Subtype x; ev_Skills := ev_Skills x; ev_Model := ev_Model x; ev_State := ev_State x; ev_StreamEvt := ev_StreamEvt x; ev_Content := ev_Content x;
        ev_Usage := v; ev_ParentToolUseID := ev_ParentToolUseID x; ev_Message := ev_Message x; ev_RequestID := ev_RequestID x; ev_Request := ev_Request x; ev_ToolUseID := ev_ToolUseID x; ev_ToolName := ev_ToolName x;
        ev_ElapsedTime := ev_ElapsedTime x; ev_Tools := ev_Tools x; ev_Summary := ev_Summary x; ev_DurationMS := ev_DurationMS x |});
    fld "parent_tool_use_id" dec_string ev_ParentToolUseID
      (λ v x, {| ev_Type := ev_Type x; ev_Subtype := ev_Subtype x; ev_Skills := ev_Skills x; ev_Model := ev_Model x; ev_State := ev_State x; ev_StreamEvt := ev_StreamEvt x; ev_Content := ev_Content x;
        ev_Usage := ev_Usage x; ev_ParentToolUseID := v; ev_Message := ev_Message x; ev_RequestID := ev_RequestID x; ev_Request := ev_Request x; ev_ToolUseID := ev_ToolUseID x; ev_ToolName := ev_ToolName x;
        ev_ElapsedTime := ev_ElapsedTime x; ev_Tools := ev_Tools x; ev_Summary := ev_Summary x; ev_DurationMS := ev_DurationMS x |});
    fld "message" (dec_pointer {| ut_Role := ""; ut_Content := None |} (dec_struct UserTurn_fields)) ev_Message
      (λ v x, {| ev_Type := ev_Type x; ev_Subtype := ev_Subtype x; ev_Skills := ev_Skills x; ev_Model := ev_Model x; ev_State := ev_State x; ev_StreamEvt := ev_StreamEvt x; ev_Content := ev_Content x;
        ev_Usage := ev_Usage x; ev_ParentToolUseID := ev_ParentToolUseID x; ev_Message := v; ev_RequestID := ev_RequestID x; ev_Request := ev_Request x; ev_ToolUseID := ev_ToolUseID x; ev_ToolName := ev_ToolName x;
        ev_ElapsedTime := ev_ElapsedTime x; ev_Tools := ev_Tools x; ev_Summary := ev_Summary x; ev_DurationMS := ev_DurationMS x |});
    fld "request_id" dec_string ev_RequestID
      (λ v x, {| ev_Type := ev_Type x; ev_Subtype := ev_Subtype x; ev_Skills := ev_Skills x; ev_Model := ev_Model x; ev_State := ev_State x; ev_StreamEvt := ev_StreamEvt x; ev_Content := ev_Content x;
        ev_Usage := ev_Usage x; ev_ParentToolUseID := ev_ParentToolUseID x; ev_Message := ev_Message x; ev_RequestID := v; ev_Request := ev_Request x; ev_ToolUseID := ev_ToolUseID x; ev_ToolName := ev_ToolName x;
        ev_ElapsedTime := ev_ElapsedTime x; ev_Tools := ev_Tools x; ev_Summary := ev_Summary x; ev_DurationMS := ev_DurationMS x |});
    fld "request" (dec_pointer {| pb_Subtype := ""; pb_ToolName := ""; pb_ToolInput := None |} (dec_struct PermissionBody_fields)) ev_Request
      (λ v x, {| ev_Type := ev_Type x; ev_Subtype := ev_Subtype x; ev_Skills := ev_Skills x; ev_Model := ev_Model x; ev_State := ev_State x; ev_StreamEvt := ev_StreamEvt x; ev_Content := ev_Content x;
        ev_Usage := ev_Usage x; ev_ParentToolUseID := ev_ParentToolUseID x; ev_Message := ev_Message x; ev_RequestID := ev_RequestID x; ev_Request := v; ev_ToolUseID := ev_ToolUseID x; ev_ToolName := ev_ToolName x;
        ev_ElapsedTime := ev_ElapsedTime x; ev_Tools := ev_Tools x; ev_Summary := ev_Summary x; ev_DurationMS := ev_DurationMS x |});
    fld "tool_use_id" dec_string ev_ToolUseID
      (λ v x, {| ev_Type := ev_Type x; ev_Subtype := ev_Subtype x; ev_Skills := ev_Skills x; ev_Model := ev_Model x; ev_State := ev_State x; ev_StreamEvt := ev_StreamEvt x; ev_Content := ev_Content x;
        ev_Usage := ev_Usage x; ev_ParentToolUseID := ev_ParentToolUseID x; ev_Message := ev_Message x; ev_RequestID := ev_RequestID x; ev_Request := ev_Request x; ev_ToolUseID := v; ev_ToolName := ev_ToolName x;
        ev_ElapsedTime := ev_ElapsedTime x; ev_Tools := ev_Tools x; ev_Summary := ev_Summary x; ev_DurationMS := ev_DurationMS x |});
    fld "tool_name" dec_string ev_ToolName
      (λ v x, {| ev_Type := ev_Type x; ev_Subtype := ev_Subtype x; ev_Skills := ev_Skills x; ev_Model := ev_Model x; ev_State := ev_State x; ev_StreamEvt := ev_StreamEvt x; ev_Content := ev_Content x;
        ev_Usage := ev_Usage x; ev_ParentToolUseID := ev_ParentToolUseID x; ev_Message := ev_Message x; ev_RequestID := ev_RequestID x; ev_Request := ev_Request x; ev_ToolUseID := ev_ToolUseID x; ev_ToolName := v;
        ev_ElapsedTime := ev_ElapsedTime x; ev_Tools := ev_Tools x; ev_Summary := ev_Summary x; ev_DurationMS := ev_DurationMS x |});
    fld "elapsed_time_seconds" dec_float ev_ElapsedTime
      (λ v x, {| ev_Type := ev_Type x; ev_Subtype := ev_Subtype x; ev_Skills := ev_Skills x; ev_Model := ev_Model x; ev_State := ev_State x; ev_StreamEvt := ev_StreamEvt x; ev_Content := ev_Content x;
        ev_Usage := ev_Usage x; ev_ParentToolUseID := ev_ParentToolUseID x; ev_Message := ev_Message x; ev_RequestID := ev_RequestID x; ev_Request := ev_Request x; ev_ToolUseID := ev_ToolUseID x; ev_ToolName := ev_ToolName x;
        ev_ElapsedTime := v; ev_Tools := ev_Tools x; ev_Summary := ev_Summary x; ev_DurationMS := ev_DurationMS x |});
    fld "tools" (dec_slice ""%string dec_string) ev_Tools
      (λ v x, {| ev_Type := ev_Type x; ev_Subtype := ev_Subtype x; ev_Skills := ev_Skills x; ev_Model := ev_Model x; ev_State := ev_State x; ev_StreamEvt := ev_StreamEvt x; ev_Content := ev_Content x;
        ev_Usage := ev_Usage x; ev_ParentToolUseID := ev_ParentToolUseID x; ev_Message := ev_Message x; ev_RequestID := ev_RequestID x; ev_Request := ev_Request x; ev_ToolUseID := ev_ToolUseID x; ev_ToolName := ev_ToolName x;
        ev_ElapsedTime := ev_ElapsedTime x; ev_Tools := v; ev_Summary := ev_Summary x; ev_DurationMS := ev_DurationMS x |});
    fld "summary" dec_string ev_Summary
      (λ v x, {| ev_Type := ev_Type x; ev_Subtype := ev_Subtype x; ev_Skills := ev_Skills x; ev_Model := ev_Model x; ev_State := ev_State x; ev_StreamEvt := ev_StreamEvt x; ev_Content := ev_Content x;
        ev_Usage := ev_Usage x; ev_ParentToolUseID := ev_ParentToolUseID x; ev_Message := ev_Message x; ev_RequestID := ev_RequestID x; ev_Request := ev_Request x; ev_ToolUseID := ev_ToolUseID x; ev_ToolName := ev_ToolName x;
        ev_ElapsedTime := ev_ElapsedTime x; ev_Tools := ev_Tools x; ev_Summary := v; ev_DurationMS := ev_DurationMS x |});
    fld "duration_ms" dec_int ev_DurationMS
      (λ v x, {| ev_Type := ev_Type x; ev_Subtype := ev_Subtype x; ev_Skills := ev_Skills x; ev_Model := ev_Model x; ev_State := ev_State x; ev_StreamEvt := ev_StreamEvt x; ev_Content := ev_Content x;
        ev_Usage := ev_Usage x; ev_ParentToolUseID := ev_ParentToolUseID x; ev_Message := ev_Message x; ev_RequestID := ev_RequestID x; ev_Request := ev_Request x; ev_ToolUseID := ev_ToolUseID x; ev_ToolName := ev_ToolName x;
        ev_ElapsedTime := ev_ElapsedTime x; ev_Tools := ev_Tools x; ev_Summary := ev_Summary x; ev_DurationMS := v |}) ].

(** [Parse], and what an event is (events/parse.go). *)
Definition Parse `{JT : JsonText} (data : string) : option Event := unmarshal (dec_struct Event_fields) zero_Event data.

(** The delta of an event that carries one. *)
Definition stream_delta (evt : Event) : option string :=
  if String.eqb (ev_Type evt) "stream_event" then
    match ev_StreamEvt evt with
    | Some {| sd_Type := t; sd_Delta := Some d |} =>
      if String.eqb t "content_block_delta" && String.eqb (dc_Type d) "text_delta" then Some (dc_Text d) else None
    | _ => None
    end
  else None.

Definition IsStreamText (evt : Event) : bool := match stream_delta evt with Some _ => true | None => false end.
Definition TextDelta (evt : Event) : string := default ""%string (stream_delta evt).

(** The request of a permission event. *)
Definition permission_request (evt : Event) : option PermissionBody :=
  if String.eqb (ev_Type evt) "control_request" then
    match ev_Request evt with
    | Some r => if String.eqb (pb_Subtype r) "can_use_tool" then Some r else None
    | None => None
    end
  else None.

Definition IsPermissionRequest (evt : Event) : bool := match permission_request evt with Some _ => true | None => false end.

Definition message_blocks (m : UserTurn) : option (list ContentBlock) :=
  unmarshal_raw (dec_slice zero_ContentBlock (dec_struct ContentBlock_fields)) [] (ut_Content m).

Definition ToolResultBlocks (evt : Event) : list ContentBlock :=
  if String.eqb (ev_Type evt) "user" then
    match ev_Message evt with
    | Some m => match message_blocks m with Some blocks => List.filter (λ b, String.eqb (bl_Type b) "tool_result") blocks | None => [] end
    | None => []
    end
  else [].

(** ** The accumulator (events/accumulator.go) *)

(** A block is text or a pointer. *)
Inductive Block :=
| TextBlock (text : string)
| StreamingTextBlock (a : nat)
| ToolUseBlock (a : nat)
| ControlRequestBlock (a : nat).

Record streaming_text := { sx_Chunks : list string; sx_Complete : bool }.
Record ToolResultBlock := { tr_ToolUseID : string; tr_Content : string; tr_IsError : bool }.
Record tool_use := { tu_ID : string; tu_Name : string; tu_Input : option json; tu_Elapsed : float64; tu_Result : option ToolResultBlock; tu_AgentTurns : list nat }.
Record control_request := { cq_RequestID : string; cq_ToolName : string; cq_ToolInput : option json; cq_Status : string }.
Record Turn := { tn_Type : string; tn_Blocks : list Block }.

(** The conversation shown ([ac_Turns] are addresses), the maps, and the store. *)
Record Accumulator := {
  ac_Turns : list nat; ac_State : string; ac_Model : string; ac_Skills : list string; ac_TotalUsage : Usage;
  ac_streaming : option nat; ac_pendingTools : gmap string nat; ac_pendingControls : gmap string nat;
  ac_turns : list Turn; ac_streams : list streaming_text; ac_tools : list tool_use; ac_controls : list control_request;
}.

Definition NewAccumulator : Accumulator :=
  {| ac_Turns := []; ac_State := ""; ac_Model := ""; ac_Skills := []; ac_TotalUsage := zero_usage; ac_streaming := None; ac_pendingTools := ∅;
     ac_pendingControls := ∅; ac_turns := []; ac_streams := []; ac_tools := []; ac_controls := [] |}.

(** One member at a time. *)
Definition show_turns (v : list nat) (a : Accumulator) : Accumulator :=
  {| ac_Turns := v; ac_State := ac_State a; ac_Model := ac_Model a; ac_Skills := ac_Skills a; ac_TotalUsage := ac_TotalUsage a; ac_streaming := ac_streaming a;
     ac_pendingTools := ac_pendingTools a; ac_pendingControls := ac_pendingControls a; ac_turns := ac_turns a; ac_streams := ac_streams a; ac_tools := ac_tools a; ac_controls := ac_controls a |}.
Definition set_acState (v : string) (a : Accumulator) : Accumulator :=
  {| ac_Turns := ac_Turns a; ac_State := v; ac_Model := ac_Model a; ac_Skills := ac_Skills a; ac_TotalUsage := ac_TotalUsage a; ac_streaming := ac_streaming a;
     ac_pendingTools := ac_pendingTools a; ac_pendingControls := ac_pendingControls a; ac_turns := ac_turns a; ac_streams := ac_streams a; ac_tools := ac_tools a; ac_controls := ac_controls a |}.
Definition set_acModel (v : string) (a : Accumulator) : Accumulator :=
  {| ac_Turns := ac_Turns a; ac_State := ac_State a; ac_Model := v; ac_Skills := ac_Skills a; ac_TotalUsage := ac_TotalUsage a; ac_streaming := ac_streaming a;
     ac_pendingTools := ac_pendingTools a; ac_pendingControls := ac_pendingControls a; ac_turns := ac_turns a; ac_streams := ac_streams a; ac_tools := ac_tools a; ac_controls := ac_controls a |}.
Definition set_acSkills (v : list string) (a : Accumulator) : Accumulator :=
  {| ac_Turns := ac_Turns a; ac_State := ac_State a; ac_Model := ac_Model a; ac_Skills := v; ac_TotalUsage := ac_TotalUsage a; ac_streaming := ac_streaming a;
     ac_pendingTools := ac_pendingTools a; ac_pendingControls := ac_pendingControls a; ac_turns := ac_turns a; ac_streams := ac_streams a; ac_tools := ac_tools a; ac_controls := ac_controls a |}.
Definition set_usage (v : Usage) (a : Accumulator) : Accumulator :=
  {| ac_Turns := ac_Turns a; ac_State := ac_State a; ac_Model := ac_Model a; ac_Skills := ac_Skills a; ac_TotalUsage := v; ac_streaming := ac_streaming a;
     ac_pendingTools := ac_pendingTools a; ac_pendingControls := ac_pendingControls a; ac_turns := ac_turns a; ac_streams := ac_streams a; ac_tools := ac_tools a; ac_controls := ac_controls a |}.
Definition set_streaming (v : option nat) (a : Accumulator) : Accumulator :=
  {| ac_Turns := ac_Turns a; ac_State := ac_State a; ac_Model := ac_Model a; ac_Skills := ac_Skills a; ac_TotalUsage := ac_TotalUsage a; ac_streaming := v;
     ac_pendingTools := ac_pendingTools a; ac_pendingControls := ac_pendingControls a; ac_turns := ac_turns a; ac_streams := ac_streams a; ac_tools := ac_tools a; ac_controls := ac_controls a |}.
Definition set_pendingTools (v : gmap string nat) (a : Accumulator) : Accumulator :=
  {| ac_Turns := ac_Turns a; ac_State := ac_State a; ac_Model := ac_Model a; ac_Skills := ac_Skills a; ac_TotalUsage := ac_TotalUsage a; ac_streaming := ac_streaming a;
     ac_pendingTools := v; ac_pendingControls := ac_pendingControls a; ac_turns := ac_turns a; ac_streams := ac_streams a; ac_tools := ac_tools a; ac_controls := ac_controls a |}.
Definition set_pendingControls (v : gmap string nat) (a : Accumulator) : Accumulator :=
  {| ac_Turns := ac_Turns a; ac_State := ac_State a; ac_Model := ac_Model a; ac_Skills := ac_Skills a; ac_TotalUsage := ac_TotalUsage a; ac_streaming := ac_streaming a;
     ac_pendingTools := ac_pendingTools a; ac_pendingControls := v; ac_turns := ac_turns a; ac_streams := ac_streams a; ac_tools := ac_tools a; ac_controls := ac_controls a |}.
Definition put_turns (v : list Turn) (a : Accumulator) : Accumulator :=
  {| ac_Turns := ac_Turns a; ac_State := ac_State a; ac_Model := ac_Model a; ac_Skills := ac_Skills a; ac_TotalUsage := ac_TotalUsage a; ac_streaming := ac_streaming a;
     ac_pendingTools := ac_pendingTools a; ac_pendingControls := ac_pendingControls a; ac_turns := v; ac_streams := ac_streams a; ac_tools := ac_tools a; ac_controls := ac_controls a |}.
Definition put_streams (v : list streaming_text) (a : Accumulator) : Accumulator :=
  {| ac_Turns := ac_Turns a; ac_State := ac_State a; ac_Model := ac_Model a; ac_Skills := ac_Skills a; ac_TotalUsage := ac_TotalUsage a; ac_streaming := ac_streaming a;
     ac_pendingTools := ac_pendingTools a; ac_pendingControls := ac_pendingControls a; ac_turns := ac_turns a; ac_streams := v; ac_tools := ac_tools a; ac_controls := ac_controls a |}.
Definition put_tools (v : list tool_use) (a : Accumulator) : Accumulator :=
  {| ac_Turns := ac_Turns a; ac_State := ac_State a; ac_Model := ac_Model a; ac_Skills := ac_Skills a; ac_TotalUsage := ac_TotalUsage a; ac_streaming := ac_streaming a;
     ac_pendingTools := ac_pendingTools a; ac_pendingControls := ac_pendingControls a; ac_turns := ac_turns a; ac_streams := ac_streams a; ac_tools := v; ac_controls := ac_controls a |}.
Definition put_controls (v : list control_request) (a : Accumulator) : Accumulator :=
  {| ac_Turns := ac_Turns a; ac_State := ac_State a; ac_Model := ac_Model a; ac_Skills := ac_Skills a; ac_TotalUsage := ac_TotalUsage a; ac_streaming := ac_streaming a;
     ac_pendingTools := ac_pendingTools a; ac_pendingControls := ac_pendingControls a; ac_turns := ac_turns a; ac_streams := ac_streams a; ac_tools := ac_tools a; ac_controls := v |}.

(** Writing through a pointer, and a new object: its address is the next one. *)
Definition on_turn (f : Turn → Turn) (i : nat) (a : Accumulator) : Accumulator := put_turns (alter f i (ac_turns a)) a.
Definition on_stream (f : streaming_text → streaming_text) (i : nat) (a : Accumulator) : Accumulator := put_streams (alter f i (ac_streams a)) a.
Definition on_tool (f : tool_use → tool_use) (i : nat) (a : Accumulator) : Accumulator := put_tools (alter f i (ac_tools a)) a.
Definition on_control (f : control_request → control_request) (i : nat) (a : Accumulator) : Accumulator := put_controls (alter f i (ac_controls a)) a.

Definition add_block (b : Block) (t : Turn) : Turn := {| tn_Type := tn_Type t; tn_Blocks := tn_Blocks t ++ [b] |}.
Definition add_chunk (c : string) (s : streaming_text) : streaming_text := {| sx_Chunks := sx_Chunks s ++ [c]; sx_Complete := sx_Complete s |}.
Definition complete (s : streaming_text) : streaming_text := {| sx_Chunks := sx_Chunks s; sx_Complete := true |}.
Definition Full (s : streaming_text) : string := Join "" (sx_Chunks s).
Definition nest_turn (n : nat) (t : tool_use) : tool_use :=
  {| tu_ID := tu_ID t; tu_Name := tu_Name t; tu_Input := tu_Input t; tu_Elapsed := tu_Elapsed t; tu_Result := tu_Result t; tu_AgentTurns := tu_AgentTurns t ++ [n] |}.
Definition set_result (r : ToolResultBlock) (t : tool_use) : tool_use :=
  {| tu_ID := tu_ID t; tu_Name := tu_Name t; tu_Input := tu_Input t; tu_Elapsed := tu_Elapsed t; tu_Result := Some r; tu_AgentTurns := tu_AgentTurns t |}.
Definition set_elapsed (e : float64) (t : tool_use) : tool_use :=
  {| tu_ID := tu_ID t; tu_Name := tu_Name t; tu_Input := tu_Input t; tu_Elapsed := e; tu_Result := tu_Result t; tu_AgentTurns := tu_AgentTurns t |}.
Definition set_answer (v : string) (c : control_request) : control_request :=
  {| cq_RequestID := cq_RequestID c; cq_ToolName := cq_ToolName c; cq_ToolInput := cq_ToolInput c; cq_Status := v |}.

(** A turn after the others of the conversation. *)
Definition append_turn (t : Turn) (a : Accumulator) : Accumulator :=
  show_turns (ac_Turns a ++ [length (ac_turns a)]) (put_turns (ac_turns a ++ [t]) a).

Definition handleClear (a : Accumulator) : Accumulator := set_streaming None (show_turns [] a).

Definition handleSystem (evt : Event) (a : Accumulator) : Accumulator :=
  if String.eqb (ev_Subtype evt) "session_state_changed" then set_acState (ev_State evt) a
  else if String.eqb (ev_Subtype evt) "init" then set_acSkills (ev_Skills evt) (set_acModel (ev_Model evt) a)
  else if String.eqb (ev_Subtype evt) "compact_boundary" then handleClear a
  else a.

(** The turn a new stream goes to: the last one if it is the assistant's. *)
Definition with_assistant_turn (a : Accumulator) : Accumulator :=
  match last (ac_Turns a) with
  | Some i => if String.eqb (default ""%string (tn_Type <$> ac_turns a !! i)) "assistant" then a else append_turn {| tn_Type := "assistant"; tn_Blocks := [] |} a
  | None => append_turn {| tn_Type := "assistant"; tn_Blocks := [] |} a
  end.

Definition start_stream (a : Accumulator) : Accumulator :=
  let i := length (ac_streams a) in
  let a := set_streaming (Some i) (put_streams (ac_streams a ++ [{| sx_Chunks := []; sx_Complete := false |}]) a) in
  let a := with_assistant_turn a in
  match last (ac_Turns a) with Some n => on_turn (add_block (StreamingTextBlock i)) n a | None => a end.

Definition handleStreamEvent (evt : Event) (a : Accumulator) : Accumulator :=
  match stream_delta evt with
  | None => a
  | Some text =>
    let a := match ac_streaming a with None => start_stream a | Some _ => a end in
    match ac_streaming a with Some i => on_stream (add_chunk text) i a | None => a end
  end.

(** The blocks of a message: the turn so far, and the accumulator. *)
Definition assistant_block (ta : Turn * Accumulator) (b : ContentBlock) : Turn * Accumulator :=
  let '(t, a) := ta in
  if String.eqb (bl_Type b) "text" then (add_block (TextBlock (bl_Text b)) t, a)
  else if String.eqb (bl_Type b) "tool_use" then
    let i := length (ac_tools a) in
    let tb := {| tu_ID := bl_ID b; tu_Name := bl_Name b; tu_Input := bl_Input b; tu_Elapsed := f64_zero; tu_Result := None; tu_AgentTurns := [] |} in
    (add_block (ToolUseBlock i) t, set_pendingTools (<[bl_ID b := i]> (ac_pendingTools a)) (put_tools (ac_tools a ++ [tb]) a))
  else (t, a).

Definition add_usage (u : option Usage) (a : Accumulator) : Accumulator :=
  match u with
  | None => a
  | Some u =>
    let t := ac_TotalUsage a in
    set_usage {| us_In := i64_add (us_In t) (us_In u); us_Out := i64_add (us_Out t) (us_Out u); us_CacheRead := us_CacheRead t; us_CacheWrite := us_CacheWrite t |} a
  end.

Definition handleAssistant (evt : Event) (a : Accumulator) : Accumulator :=
  let a := match ac_streaming a with Some i => set_streaming None (on_stream complete i a) | None => a end in
  let '(t, a) := fold_left assistant_block (ev_Content evt) ({| tn_Type := "assistant"; tn_Blocks := [] |}, a) in
  let a := add_usage (ev_Usage evt) a in
  match (if String.eqb (ev_ParentToolUseID evt) "" then None else ac_pendingTools a !! ev_ParentToolUseID evt) with
  | Some parent => on_tool (nest_turn (length (ac_turns a))) parent (put_turns (ac_turns a ++ [t]) a)
  | None => append_turn t a
  end.

Definition tool_result (a : Accumulator) (b : ContentBlock) : Accumulator :=
  if String.eqb (bl_Type b) "tool_result" then
    match ac_pendingTools a !! bl_ToolUseID b with
    | Some i =>
      set_pendingTools (delete (bl_ToolUseID b) (ac_pendingTools a))
        (on_tool (set_result {| tr_ToolUseID := bl_ToolUseID b; tr_Content := bl_Content b; tr_IsError := bl_IsError b |}) i a)
    | None => a
    end
  else a.

Definition handleUser (evt : Event) (a : Accumulator) : Accumulator :=
  match ev_Message evt with
  | None => a
  | Some m =>
    match message_blocks m with
    | Some blocks => fold_left tool_result blocks a
    | None =>
      match unmarshal_raw dec_string ""%string (ut_Content m) with
      | Some text => append_turn {| tn_Type := "user"; tn_Blocks := [TextBlock text] |} a
      | None => a
      end
    end
  end.

Definition handleControlRequest (evt : Event) (a : Accumulator) : Accumulator :=
  match permission_request evt with
  | None => a
  | Some r =>
    let i := length (ac_controls a) in
    let cb := {| cq_RequestID := ev_RequestID evt; cq_ToolName := pb_ToolName r; cq_ToolInput := pb_ToolInput r; cq_Status := "pending" |} in
    let a := set_pendingControls (<[ev_RequestID evt := i]> (ac_pendingControls a)) (put_controls (ac_controls a ++ [cb]) a) in
    match last (ac_Turns a) with Some n => on_turn (add_block (ControlRequestBlock i)) n a | None => a end
  end.

Definition handleToolProgress (evt : Event) (a : Accumulator) : Accumulator :=
  match ac_pendingTools a !! ev_ToolUseID evt with Some i => on_tool (set_elapsed (ev_ElapsedTime evt)) i a | None => a end.

Definition Feed (a : Accumulator) (evt : Event) : Accumulator :=
  let ty := ev_Type evt in
  if String.eqb ty "system" then handleSystem evt a
  else if String.eqb ty "clear" then handleClear a
  else if String.eqb ty "stream_event" then handleStreamEvent evt a
  else if String.eqb ty "assistant" then handleAssistant evt a
  else if String.eqb ty "user" then handleUser evt a
  else if String.eqb ty "control_request" then handleControlRequest evt a
  else if String.eqb ty "tool_progress" then handleToolProgress evt a
  else if String.eqb ty "result" then add_usage (ev_Usage evt) a
  else a.

(** The pending requests, in some order: the first of them is returned. *)
Definition pending_list (a : Accumulator) : list control_request :=
  List.filter (λ c, String.eqb (cq_Status c) "pending") (omap (λ i, ac_controls a !! i) (map_to_list (ac_pendingControls a)).*2).

Definition PendingControl `{MR : MapRange} (a : Accumulator) : option control_request := range_first (pending_list a).

Definition ResolveControl (requestID : string) (approved : bool) (a : Accumulator) : Accumulator :=
  match ac_pendingControls a !! requestID with
  | Some i => on_control (set_answer (if approved then "approved" else "denied")) i a
  | None => a
  end.

(** ** Printing (renderer/renderer.go) *)

(** The verbs %q and %.1f of fmt, and a raw member as it was written. *)
Class GoFormat := { fmt_q : string → string; fmt_1f : float64 → string; raw_text : json → string }.

(** [strings.SplitN(s, sep, n)] for a one character separator. *)
Definition split_max (n : nat) (sep : ascii) (s : string) : list string :=
  let ls := Split sep s in
  if (length ls <=? n)%nat then ls else take (n - 1) ls ++ [Join (String sep "") (drop (n - 1) ls)].

Definition count_char (c : ascii) (s : string) : Z := Z.of_nat (length (Split c s)) - 1.

Definition shorten (n : nat) (s : string) : string := if (n <? String.length s)%nat then (take_str n s +:+ "…")%string else s.

Definition tool_result_lines (content : string) : list string :=
  let ls := split_max 6 (char_of 10) content in
  if (5 <? length ls)%nat then take 5 ls ++ [("[…" +:+ pretty (count_char (char_of 10) content - 4) +:+ " more lines]")%string] else ls.

Definition RenderToolResult (content : string) (isError : bool) : string :=
  ("[" +:+ (if isError then "tool_error" else "tool_result") +:+ "]" +:+ nl +:+ Join nl (tool_result_lines content) +:+ nl)%string.

Section render.
Context `{JT : JsonText, MR : MapRange, GF : GoFormat}.

Definition string_value (j : json) : option string := match j with JStr s => Some s | _ => None end.

(** The string of an object that the range over it meets first. *)
Definition summarizeInput (raw : option json) : string :=
  match raw with
  | None => ""
  | Some j =>
    match decode dec_any_map None j with
    | None => shorten 60 (raw_text j)
    | Some m =>
      match range_first (omap string_value (map_to_list (default ∅ m)).*2) with
      | Some s => fmt_q (shorten 40 s)
      | None => shorten 60 (raw_text j)
      end
    end
  end.

Definition render_block (b : ContentBlock) : string :=
  if String.eqb (bl_Type b) "text" then nl
  else if String.eqb (bl_Type b) "tool_use" then ("[tool_use: " +:+ bl_Name b +:+ " " +:+ summarizeInput (bl_Input b) +:+ "]" +:+ nl)%string
  else "".

Definition renderSystem (evt : Event) : string :=
  (if String.eqb (ev_Subtype evt) "session_state_changed" then "[state: " +:+ ev_State evt +:+ "]" +:+ nl
   else if String.eqb (ev_Subtype evt) "init" then "[model: " +:+ ev_Model evt +:+ "]" +:+ nl
   else if String.eqb (ev_Subtype evt) "compact_boundary" then nl +:+ "--- context compacted ---" +:+ nl
   else "")%string.

Definition renderControlRequest (evt : Event) : string :=
  match ev_Request evt with
  | Some r =>
    if String.eqb (pb_Subtype r) "can_use_tool"
    then ("[Allow " +:+ pb_ToolName r +:+ " " +:+ summarizeInput (pb_ToolInput r) +:+ "? (y/n)] ")%string else ""
  | None => ""
  end.

Definition renderResult (evt : Event) : string :=
  match ev_Usage evt with
  | Some u => ("[tokens: in=" +:+ pretty (us_In u) +:+ " out=" +:+ pretty (us_Out u) +:+ "]" +:+ nl)%string
  | None => ""
  end.

Definition Render (evt : Event) : string :=
  let ty := ev_Type evt in
  if String.eqb ty "system" then renderSystem evt
  else if String.eqb ty "stream_event" then TextDelta evt
  else if String.eqb ty "assistant" then String.concat "" (render_block <$> ev_Content evt)
  else if String.eqb ty "control_request" then renderControlRequest evt
  else if String.eqb ty "tool_progress" then ("[" +:+ ev_ToolName evt +:+ ": " +:+ fmt_1f (ev_ElapsedTime evt) +:+ "s]" +:+ nl)%string
  else if String.eqb ty "result" then renderResult evt
  else "".

End render.

(** ** The loop (repl/repl.go)

    Two goroutines share the pending permission; an input is a line of the socket
    or a line the user typed, in the order in which they take effect. *)
Inductive repl_input := FromSocket (line : string) | FromUser (line : string) | EndOfInput | Cancelled.

(** [rp_done]: the loop has ended, with an error or not. *)
Record repl := {
  rp_perm : option (string * string); rp_sent : list json; rp_out : list string; rp_reading : bool; rp_cancelled : bool; rp_done : option bool;
}.

Definition start_repl (sessionID : string) : repl :=
  {| rp_perm := None; rp_sent := []; rp_out := [("[session " +:+ sessionID +:+ "]" +:+ nl +:+ "> ")%string]; rp_reading := true; rp_cancelled := false; rp_done := None |}.

Definition chat_message (text : string) : json :=
  JObj [("type", JStr "user"); ("message", JObj [("role", JStr "user"); ("content", JStr text)])]%string.

Definition permission_answer (requestID : string) (approved : bool) : json :=
  JObj [("type", JStr "control_response");
        ("response", JObj [("subtype", JStr "success"); ("request_id", JStr requestID);
                           ("response", JObj [("behavior", JStr (if approved then "allow" else "deny"))])])]%string.

Section repl.
Context `{JT : JsonText, MR : MapRange, GF : GoFormat, UT : UnicodeTables}.

Definition put_perm (v : option (string * string)) (r : repl) : repl :=
  {| rp_perm := v; rp_sent := rp_sent r; rp_out := rp_out r; rp_reading := rp_reading r; rp_cancelled := rp_cancelled r; rp_done := rp_done r |}.
Definition say (s : string) (r : repl) : repl :=
  {| rp_perm := rp_perm r; rp_sent := rp_sent r; rp_out := rp_out r ++ [s]; rp_reading := rp_reading r; rp_cancelled := rp_cancelled r; rp_done := rp_done r |}.
Definition end_repl (failed : bool) (r : repl) : repl :=
  {| rp_perm := rp_perm r; rp_sent := rp_sent r; rp_out := rp_out r; rp_reading := rp_reading r; rp_cancelled := rp_cancelled r; rp_done := Some failed |}.
Definition stop_reading (r : repl) : repl :=
  {| rp_perm := rp_perm r; rp_sent := rp_sent r; rp_out := rp_out r; rp_reading := false; rp_cancelled := rp_cancelled r; rp_done := rp_done r |}.
Definition cancel_repl (r : repl) : repl :=
  {| rp_perm := rp_perm r; rp_sent := rp_sent r; rp_out := rp_out r; rp_reading := rp_reading r; rp_cancelled := true; rp_done := rp_done r |}.

(** [fails n]: the write of message number [n] to the socket fails. *)
Definition send_doc (fails : nat → bool) (doc : json) (r : repl) : repl :=
  if fails (length (rp_sent r)) then end_repl true r
  else {| rp_perm := rp_perm r; rp_sent := rp_sent r ++ [doc]; rp_out := rp_out r; rp_reading := rp_reading r; rp_cancelled := rp_cancelled r; rp_done := rp_done r |}.

(** A line of 1 MiB ends the reader. *)
Definition socket_line (line : string) (r : repl) : repl :=
  if negb (rp_reading r) then r
  else if 2^20 <=? Z.of_nat (String.length line) then stop_reading r
  else
    match Parse (drop_cr line) with
    | None => r
    | Some evt =>
      let r := say (Render evt) r in
      let r := match permission_request evt with Some p => put_perm (Some (ev_RequestID evt, pb_ToolName p)) r | None => r end in
      fold_left (λ r b, say (RenderToolResult (bl_Content b) (bl_IsError b)) r) (ToolResultBlocks evt) r
    end.

Definition is_yes (line : string) : bool := String.eqb (string_of (strings_ToLower (bytes_of line))) "y".

(** A line of 64 KiB ends the loop with the scanner's error.  The context is looked at
    between two lines. *)
Definition user_line (fails : nat → bool) (raw : string) (r : repl) : repl :=
  if 65536 <=? Z.of_nat (String.length raw) then end_repl true r
  else
    let line := TrimSpace (drop_cr raw) in
    let r :=
      if String.eqb line "" then say "> " r
      else
        match rp_perm r with
        | Some (requestID, _) =>
          let r := send_doc fails (permission_answer requestID (is_yes line)) (put_perm None r) in
          match rp_done r with Some _ => r | None => say "> " r end
        | None => send_doc fails (chat_message line) r
        end in
    match rp_done r with
    | Some _ => r
    | None => if rp_cancelled r then stop_reading (end_repl true r) else r
    end.

(** After the end of the input what the socket still sends is read. *)
Definition repl_step (fails : nat → bool) (r : repl) (i : repl_input) : repl :=
  match i with
  | FromSocket line => socket_line line r
  | FromUser raw => match rp_done r with Some _ => r | None => user_line fails raw r end
  | EndOfInput => match rp_done r with Some _ => r | None => end_repl false r end
  | Cancelled => cancel_repl r
  end.

Definition Run (fails : nat → bool) (sessionID : string) (l : list repl_input) : repl := fold_left (repl_step fails) l (start_repl sessionID).

End repl.

(** ** The debug socket of a session (mclaude-session-agent/debug.go) *)

Inductive debug_event := DebugAttached | DebugDetached | DebugSent (conn : nat) (line : string) | DebugInput (line : string).
Record DebugServer := { ds_clients : gset nat; ds_log : list debug_event }.
Definition NewDebugServer : DebugServer := {| ds_clients := ∅; ds_log := [] |}.

Definition debug_log (l : list debug_event) (d : DebugServer) : DebugServer := {| ds_clients := ds_clients d; ds_log := ds_log d ++ l |}.

(** A connection that cannot be written to is closed and forgotten. *)
Definition Broadcast (dead : nat → bool) (line : string) (d : DebugServer) : DebugServer :=
  let alive := filter (λ c, dead c = false) (ds_clients d) in
  {| ds_clients := alive; ds_log := ds_log d ++ ((λ c, DebugSent c line) <$> elements alive) |}.

Definition accept_client (conn : nat) (d : DebugServer) : DebugServer :=
  debug_log [DebugAttached] {| ds_clients := {[conn]} ∪ ds_clients d; ds_log := ds_log d |}.

(** The lines a client sends, each to the standard input of the session, and its end;
    a line of 1 MiB ends the connection. *)
Fixpoint client_lines (lines : list string) : list debug_event :=
  match lines with
  | [] => []
  | l :: lines =>
    if 2^20 <=? Z.of_nat (String.length l) then []
    else if String.eqb (drop_cr l) "" then client_lines lines else DebugInput (drop_cr l) :: client_lines lines
  end.

Definition handleClient (conn : nat) (lines : list string) (d : DebugServer) : DebugServer :=
  debug_log [DebugDetached] {| ds_clients := ds_clients d ∖ {[conn]}; ds_log := ds_log d ++ client_lines lines |}.

(** What the lines of a client do to the session: [sendInput] queues them as they
    are. *)
Definition debug_input (lines : list string) (s : Session) : Session :=
  fold_left (λ s e, match e with DebugInput l => send_stdin l s | _ => s end) (client_lines lines) s.
