(* ===== verification/ConversationSpec.v ===== *)
(** * Properties of the attach command

    What a conversation shows of the events, which of them get lost, and what the
    answers to permission prompts do to the session. *)

From stdpp Require Import pretty.
From S2P Require Import Prelude GoStrings Json SessionState Session Import Conversation.
Open Scope Z_scope.

(** ** What is shown *)

Definition clears (evt : Event) : bool :=
  String.eqb (ev_Type evt) "clear" || (String.eqb (ev_Type evt) "system" && String.eqb (ev_Subtype evt) "compact_boundary").

(** The turns a reader of the conversation gets to. *)
Inductive shown (a : Accumulator) : nat → Prop :=
| shown_top n : n ∈ ac_Turns a → shown a n
| shown_nested k t i tl n :
    shown a k → ac_turns a !! k = Some t → ToolUseBlock i ∈ tn_Blocks t → ac_tools a !! i = Some tl → n ∈ tu_AgentTurns tl → shown a n.

(** The places of turns: the conversation, and the tools. *)
Definition places (a : Accumulator) : list nat := ac_Turns a ++ concat (tu_AgentTurns <$> ac_tools a).

Definition text_of_block (b : Block) : option string := match b with TextBlock s => Some s | _ => None end.
Definition turn_texts (t : Turn) : list string := omap text_of_block (tn_Blocks t).
Definition text_of_content (b : ContentBlock) : option string := if String.eqb (bl_Type b) "text" then Some (bl_Text b) else None.

(** The finished texts of an event: those of an assistant's message, and a user's. *)
Definition event_texts (evt : Event) : list string :=
  if String.eqb (ev_Type evt) "assistant" then omap text_of_content (ev_Content evt)
  else if String.eqb (ev_Type evt) "user" then
    match ev_Message evt with
    | Some m =>
      match message_blocks m, unmarshal_raw dec_string ""%string (ut_Content m) with
      | None, Some text => [text]
      | _, _ => []
      end
    | None => []
    end
  else [].

(** Each turn has one place; a tool's block is in a turn before those nested below it. *)
Record conversation_ok (a : Accumulator) : Prop := {
  ok_places : places a ≡ₚ seq 0 (length (ac_turns a));
  ok_tools i tl : ac_tools a !! i = Some tl → ∃ k t, ac_turns a !! k = Some t ∧ ToolUseBlock i ∈ tn_Blocks t ∧ ∀ n, n ∈ tu_AgentTurns tl → (k < n)%nat;
  ok_pending id i : ac_pendingTools a !! id = Some i → (i < length (ac_tools a))%nat;
}.

Lemma ok_shown a n : conversation_ok a → (n < length (ac_turns a))%nat → shown a n.
Proof.
  intros [Hp Ht _]. induction n as [n IH] using lt_wf_ind. intros Hn.
  assert (n ∈ places a) as [Hin|Hin]%elem_of_app by (rewrite Hp; apply elem_of_seq; lia).
  - by apply shown_top.
  - apply list_elem_of_In, in_concat in Hin as (l & Hl & Hin). apply list_elem_of_In, list_elem_of_fmap in Hl as (tl & -> & (i & Hi)%list_elem_of_lookup).
    apply list_elem_of_In in Hin. destruct (Ht i tl Hi) as (k & t & Hk & Hb & Hlt). specialize (Hlt n Hin).
    eapply shown_nested; [apply IH|..]; eauto. by lia.
Qed.

(** The blocks of a message: new tools, which have nothing below them. *)
Lemma assistant_blocks cs t a t' a' : fold_left assistant_block cs (t, a) = (t', a') →
  ac_Turns a' = ac_Turns a ∧ ac_turns a' = ac_turns a ∧ tn_Blocks t `prefix_of` tn_Blocks t' ∧
  turn_texts t' = turn_texts t ++ omap text_of_content cs ∧
  (∃ new, ac_tools a' = ac_tools a ++ new ∧ Forall (λ tl, tu_AgentTurns tl = []) new ∧
     ∀ i, (length (ac_tools a) <= i < length (ac_tools a'))%nat → ToolUseBlock i ∈ tn_Blocks t') ∧
  (∀ id i, ac_pendingTools a' !! id = Some i → ac_pendingTools a !! id = Some i ∨ (i < length (ac_tools a'))%nat ∧ ∃ b, b ∈ cs ∧ bl_Type b = "tool_use"%string ∧ bl_ID b = id).
Proof.
  revert t a. induction cs as [|b cs IH]; intros t a; cbn.
  { intros [= -> ->]. rewrite !app_nil_r. split_and!; try done; [|by left]. exists []. rewrite app_nil_r. split_and!; [done..|lia]. }
  intros H. destruct (String.eqb_spec (bl_Type b) "text") as [Ht|Ht].
  - apply IH in H as (H1 & H2 & H3 & H4 & H5 & H6). split_and!; try done.
    + etrans; [|exact H3]. cbn. by eexists.
    + rewrite H4. unfold turn_texts. cbn. rewrite omap_app. cbn. unfold text_of_content at 2. rewrite (proj2 (String.eqb_eq _ _) Ht). by rewrite <- app_assoc.
    + intros id i Hi. destruct (H6 id i Hi) as [|(? & b' & ? & ?)]; [by left|right]. split; [done|]. exists b'. split; [by right|done].
  - assert (Hc : text_of_content b = None) by (unfold text_of_content; by rewrite (proj2 (String.eqb_neq _ _) Ht)). rewrite Hc.
    destruct (String.eqb_spec (bl_Type b) "tool_use") as [Hu|Hu].
    + apply IH in H as (H1 & H2 & H3 & H4 & (new & H5 & H5a & H5b) & H6). cbn in *. split_and!; try done.
      * etrans; [|exact H3]. by eexists.
      * rewrite H4. unfold turn_texts. cbn. rewrite omap_app. cbn. by rewrite app_nil_r.
      * eexists (_ :: new). rewrite H5, <- app_assoc. split_and!; [done|by constructor|].
        intros i Hi. destruct (decide (i = length (ac_tools a))) as [->|].
        -- destruct H3 as [k ->]. rewrite !elem_of_app. left. right. by left.
        -- apply H5b. rewrite H5, !length_app in *. cbn in *. lia.
      * intros id i Hi. destruct (H6 id i Hi) as [Hl|(? & b' & ? & ?)].
        -- apply lookup_insert_Some in Hl as [(Hb & <-)|(_ & ?)]; [right|by left]. rewrite H5, !length_app. cbn. split; [lia|]. exists b. split; [by left|done].
        -- right. split; [done|]. exists b'. split; [by right|done].
    + apply IH in H as (H1 & H2 & H3 & H4 & H5 & H6). split_and!; try done.
      intros id i Hi. destruct (H6 id i Hi) as [|(? & b' & ? & ?)]; [by left|right]. split; [done|]. exists b'. split; [by right|done].
Qed.

(** A message whose tools are not its own parent. *)
Definition no_own_parent (evt : Event) : Prop :=
  ev_Type evt = "assistant"%string → ev_ParentToolUseID evt ≠ ""%string →
  ∀ b, b ∈ ev_Content evt → bl_Type b = "tool_use"%string → bl_ID b ≠ ev_ParentToolUseID evt.

(** A state with the same turns, whose tools differ in what nothing here looks at. *)
Definition same_shape (a a' : Accumulator) : Prop :=
  ac_Turns a' = ac_Turns a ∧ (tu_AgentTurns <$> ac_tools a') = (tu_AgentTurns <$> ac_tools a) ∧ turn_texts <$> ac_turns a' = turn_texts <$> ac_turns a ∧
  (∀ k t, ac_turns a !! k = Some t → ∃ t', ac_turns a' !! k = Some t' ∧ tn_Blocks t `prefix_of` tn_Blocks t') ∧
  (∀ id i, ac_pendingTools a' !! id = Some i → ac_pendingTools a !! id = Some i).

Lemma same_shape_refl a : same_shape a a.
Proof. unfold same_shape. split_and!; eauto. Qed.

Lemma same_shape_trans a b c : same_shape a b → same_shape b c → same_shape a c.
Proof.
  intros (A1 & A2 & A3 & A4 & A5) (B1 & B2 & B3 & B4 & B5). unfold same_shape. rewrite B1, B2, B3. split_and!; eauto.
  intros k t Hk. destruct (A4 k t Hk) as (t1 & H1 & P1), (B4 k t1 H1) as (t2 & H2 & P2). exists t2. split; [done|]. by etrans.
Qed.

Lemma same_shape_length a a' : same_shape a a' → length (ac_turns a') = length (ac_turns a) ∧ length (ac_tools a') = length (ac_tools a).
Proof.
  intros (_ & H2 & H3 & _). split; [rewrite <- (length_fmap turn_texts (ac_turns a')), H3|rewrite <- (length_fmap tu_AgentTurns (ac_tools a')), H2]; by rewrite length_fmap.
Qed.

Lemma same_shape_ok a a' : same_shape a a' → conversation_ok a → conversation_ok a'.
Proof.
  intros Hs [Hp Ht Hpt]. destruct (same_shape_length a a' Hs) as [L1 L2]. destruct Hs as (H1 & H2 & H3 & H4 & H5). split.
  - unfold places. by rewrite H1, H2, L1.
  - intros i tl Hi. assert (∃ tl0, ac_tools a !! i = Some tl0 ∧ tu_AgentTurns tl0 = tu_AgentTurns tl) as (tl0 & Hi0 & Heq).
    { apply (f_equal (lookup i)) in H2. rewrite !list_lookup_fmap, Hi in H2. destruct (ac_tools a !! i) as [tl0|]; [|done]. injection H2 as H2. by exists tl0. }
    destruct (Ht i tl0 Hi0) as (k & t & Hk & Hb & Hlt). destruct (H4 k t Hk) as (t' & Hk' & [x Hx]). exists k, t'. split_and!; [done| |].
    + rewrite Hx. apply elem_of_app. by left.
    + by rewrite <- Heq.
  - intros id i Hi. rewrite L2. eauto.
Qed.

Lemma concat_empty {A B} (f : A → list B) l : Forall (λ x, f x = []) l → concat (f <$> l) = [].
Proof. induction 1 as [|x l Hx _ IH]; [done|]. cbn. by rewrite Hx. Qed.

(** A new turn, which holds the new tools. *)
Lemma extended_ok a t new tools Turns' a' :
  conversation_ok a → let n := length (ac_turns a) in
  ac_turns a' = ac_turns a ++ [t] → ac_Turns a' = Turns' → ac_tools a' = tools ++ new → length tools = length (ac_tools a) →
  Turns' ++ concat (tu_AgentTurns <$> tools) ≡ₚ places a ++ [n] →
  Forall (λ tl, tu_AgentTurns tl = []) new →
  (∀ i, (length tools <= i < length (ac_tools a'))%nat → ToolUseBlock i ∈ tn_Blocks t) →
  (∀ i tl, tools !! i = Some tl → ∃ tl0, ac_tools a !! i = Some tl0 ∧ ∀ m, m ∈ tu_AgentTurns tl → m = n ∨ m ∈ tu_AgentTurns tl0) →
  (∀ id i, ac_pendingTools a' !! id = Some i → (i < length (ac_tools a'))%nat) →
  conversation_ok a'.
Proof.
  intros [Hp Ht _] n Hturns HT Htools Hlen Hperm Hnew Hblk Hold Hpend. split; [| |done].
  - unfold places. rewrite HT, Htools, Hturns, length_app, fmap_app, concat_app. cbn.
    rewrite (concat_empty _ new) by done. rewrite app_nil_r, Hperm, Hp, seq_app. done.
  - intros i tl Hi. rewrite Htools in Hi. apply lookup_app_Some in Hi as [Hi|[Hge Hi]].
    + destruct (Hold i tl Hi) as (tl0 & Hi0 & Hm). destruct (Ht i tl0 Hi0) as (k & t0 & Hk & Hb & Hlt).
      exists k, t0. rewrite Hturns. split_and!; [by apply lookup_app_l_Some|done|].
      intros m Hin. destruct (Hm m Hin) as [->|]; [|by apply Hlt]. by eapply lookup_lt_Some.
    + exists n, t. rewrite Hturns. split_and!.
      * by apply list_lookup_middle.
      * apply Hblk. rewrite Htools, length_app. apply lookup_lt_Some in Hi. lia.
      * rewrite Forall_lookup in Hnew. rewrite (Hnew _ _ Hi). intros m Hin. by apply elem_of_nil in Hin.
Qed.

Lemma append_ok t a : conversation_ok a → conversation_ok (append_turn t a).
Proof.
  intros Hok. eapply (extended_ok a t [] (ac_tools a)); cbn; try done; eauto using app_nil_r.
  - unfold places. rewrite <- !app_assoc. f_equiv. apply Permutation_app_comm.
  - intros i Hi. lia.
  - intros id i Hi. by eapply ok_pending.
Qed.

Lemma concat_turns_snoc l t : concat (turn_texts <$> l ++ [t]) = concat (turn_texts <$> l) ++ turn_texts t.
Proof. rewrite fmap_app, concat_app. cbn. by rewrite app_nil_r. Qed.

Lemma nest_perm n i tools tl : tools !! i = Some tl →
  concat (tu_AgentTurns <$> alter (nest_turn n) i tools) ≡ₚ concat (tu_AgentTurns <$> tools) ++ [n].
Proof.
  revert i. induction tools as [|x tools IH]; intros [|i]; cbn; try done.
  - intros [= ->]. rewrite <- !app_assoc. f_equiv. apply Permutation_app_comm.
  - intros Hi. specialize (IH i Hi). rewrite <- app_assoc. f_equiv. exact IH.
Qed.

Lemma add_usage_shape u a : same_shape a (add_usage u a).
Proof. destruct u; [|apply same_shape_refl]. unfold same_shape. cbn. split_and!; eauto. Qed.

Lemma alter_tools_shape f i a : (∀ tl, tu_AgentTurns (f tl) = tu_AgentTurns tl) → same_shape a (on_tool f i a).
Proof.
  intros Hf. unfold same_shape. cbn. split_and!; try done; eauto.
  apply list_eq. intros j. rewrite !list_lookup_fmap. destruct (decide (i = j)) as [->|]; [rewrite list_lookup_alter_eq|by rewrite list_lookup_alter_ne].
  destruct (ac_tools a !! j) as [tl|]; [|done]. change (Some (tu_AgentTurns (f tl)) = Some (tu_AgentTurns tl)). by rewrite Hf.
Qed.

Lemma add_block_shape b n a : text_of_block b = None → same_shape a (on_turn (add_block b) n a).
Proof.
  intros Hb. unfold same_shape. cbn. split_and!; try done.
  - apply list_eq. intros j. rewrite !list_lookup_fmap. destruct (decide (n = j)) as [->|]; [rewrite list_lookup_alter_eq|by rewrite list_lookup_alter_ne].
    destruct (ac_turns a !! j); cbn; [|done]. unfold turn_texts. cbn. rewrite omap_app. cbn. rewrite Hb. by rewrite app_nil_r.
  - intros k t Hk. destruct (decide (n = k)) as [->|].
    + exists (add_block b t). rewrite list_lookup_alter_eq, Hk. split; [done|]. by eexists.
    + exists t. rewrite list_lookup_alter_ne by done. split; [done|]. done.
Qed.

Lemma tool_result_shape b a : same_shape a (tool_result a b).
Proof.
  unfold tool_result. case_match; [|apply same_shape_refl]. case_match; [|apply same_shape_refl].
  eapply (same_shape_trans _ (on_tool _ _ a)); [by apply (alter_tools_shape (set_result {| tr_ToolUseID := bl_ToolUseID b; tr_Content := bl_Content b; tr_IsError := bl_IsError b |}))|].
  unfold same_shape. cbn. split_and!; [done..|eauto|].
  intros id i Hi. by apply lookup_delete_Some in Hi as [_ ?].
Qed.

Lemma tool_results_shape bs a : same_shape a (fold_left tool_result bs a).
Proof. revert a. induction bs as [|b bs IH]; intros a; [apply same_shape_refl|]. eapply same_shape_trans; [apply tool_result_shape|apply IH]. Qed.

Lemma stream_shape i f s a : same_shape a (set_streaming s (on_stream f i a)).
Proof. unfold same_shape. cbn. split_and!; eauto. Qed.

Lemma streams_shape i f a : same_shape a (on_stream f i a).
Proof. unfold same_shape. cbn. split_and!; eauto. Qed.

(** What an event adds: turns with its texts, in their places. *)
Definition grows (l : list string) (a a' : Accumulator) : Prop :=
  (conversation_ok a → conversation_ok a') ∧ concat (turn_texts <$> ac_turns a') = concat (turn_texts <$> ac_turns a) ++ l.

Lemma shape_grows a a' : same_shape a a' → grows [] a a'.
Proof. intros Hs. split; [by apply same_shape_ok|]. destruct Hs as (_ & _ & -> & _). by rewrite app_nil_r. Qed.

Lemma trace_grows_trans l1 l2 a b c : grows l1 a b → grows l2 b c → grows (l1 ++ l2) a c.
Proof. intros [A1 A2] [B1 B2]. split; [auto|]. by rewrite B2, A2, app_assoc. Qed.

Lemma append_grows t a : grows (turn_texts t) a (append_turn t a).
Proof. split; [apply append_ok|]. cbn. apply concat_turns_snoc. Qed.

Lemma with_assistant_grows a : grows [] a (with_assistant_turn a).
Proof. unfold with_assistant_turn. repeat case_match; try apply shape_grows, same_shape_refl; apply (append_grows {| tn_Type := "assistant"; tn_Blocks := [] |}). Qed.

Lemma start_stream_grows a : grows [] a (start_stream a).
Proof.
  unfold start_stream. set (a1 := set_streaming _ _).
  assert (H1 : grows [] a a1) by (apply shape_grows; unfold same_shape; cbn; split_and!; eauto).
  pose proof (trace_grows_trans [] [] _ _ _ H1 (with_assistant_grows a1)) as H2.
  destruct (last _); [|exact H2]. exact (trace_grows_trans [] [] _ _ _ H2 (shape_grows _ _ (add_block_shape (StreamingTextBlock (length (ac_streams a))) _ _ eq_refl))).
Qed.

Lemma assistant_grows evt a : ev_Type evt = "assistant"%string → no_own_parent evt → grows (omap text_of_content (ev_Content evt)) a (handleAssistant evt a).
Proof.
  intros Hty Hown. unfold handleAssistant. set (a1 := match ac_streaming a with Some _ => _ | None => _ end).
  assert (H1 : same_shape a a1) by (subst a1; case_match; [apply stream_shape|apply same_shape_refl]).
  destruct (fold_left _ _ _) as [t a2] eqn:Hf. apply assistant_blocks in Hf as (F1 & F2 & _ & F4 & (new & F5 & F5a & F5b) & F6).
  cbn in F4. clearbody a1. set (a3 := add_usage (ev_Usage evt) a2). pose proof (add_usage_shape (ev_Usage evt) a2) as H3. fold a3 in H3.
  assert (E3 : ac_Turns a3 = ac_Turns a1 ∧ ac_turns a3 = ac_turns a1 ∧ ac_tools a3 = ac_tools a1 ++ new ∧ ac_pendingTools a3 = ac_pendingTools a2).
  { subst a3. unfold add_usage. case_match; cbn; by rewrite F1, F2. }
  destruct E3 as (G1 & G2 & G3 & G4). clearbody a3.
  refine (trace_grows_trans [] (omap text_of_content (ev_Content evt)) a a1 _ (shape_grows _ _ H1) _). rewrite <- F4.
  assert (Hpend : conversation_ok a1 → ∀ id i, ac_pendingTools a3 !! id = Some i → (i < length (ac_tools a3))%nat).
  { intros Hok id i Hi. rewrite G4 in Hi. rewrite G3, <- F5. destruct (F6 id i Hi) as [Hl|[? _]]; [|done]. rewrite F5, length_app. apply (ok_pending a1 Hok) in Hl. lia. }
  destruct (if String.eqb _ _ then _ else _) as [p|] eqn:Hp.
  - destruct (String.eqb_spec (ev_ParentToolUseID evt) "") as [|Hne]; [done|]. rewrite G4 in Hp.
    destruct (F6 _ _ Hp) as [Hp0|(_ & b & Hb & Hbt & Hbi)]; [|by destruct (Hown Hty Hne b Hb Hbt)].
    split; [|cbn; rewrite G2; apply concat_turns_snoc]. intros Hok. pose proof (ok_pending a1 Hok _ _ Hp0) as Hlt.
    destruct (lookup_lt_is_Some_2 _ _ Hlt) as [tl Htl].
    eapply (extended_ok a1 t new (alter (nest_turn (length (ac_turns a1))) p (ac_tools a1))); cbn; rewrite ?G2, ?G3; try done.
    + apply list_eq. intros j. rewrite ?lookup_app, length_alter. destruct (decide (p = j)) as [<-|].
      * rewrite !list_lookup_alter_eq, lookup_app, Htl. done.
      * rewrite !list_lookup_alter_ne, lookup_app by done. done.
    + by rewrite length_alter.
    + unfold places. rewrite (nest_perm _ _ _ _ Htl). by rewrite app_assoc.
    + rewrite !length_alter, <- F5. exact F5b.
    + intros i tl1 Hi. destruct (decide (p = i)) as [<-|]; [|rewrite list_lookup_alter_ne in Hi by done; eauto].
      rewrite list_lookup_alter_eq, Htl in Hi. injection Hi as <-. exists tl. split; [done|]. cbn. intros m [|Hm%list_elem_of_singleton]%elem_of_app; auto.
    + rewrite length_alter, <- G3. by apply Hpend.
  - split; [|cbn; rewrite G2; apply concat_turns_snoc]. intros Hok.
    eapply (extended_ok a1 t new (ac_tools a1)); cbn; rewrite ?G1, ?G2, ?G3; try done.
    + unfold places. rewrite <- !app_assoc. f_equiv. apply Permutation_app_comm.
    + rewrite <- F5. exact F5b.
    + eauto.
    + rewrite <- G3. by apply Hpend.
Qed.

Lemma user_grows evt a : ev_Type evt = "user"%string → grows (event_texts evt) a (handleUser evt a).
Proof.
  intros Hty. unfold handleUser, event_texts. rewrite Hty. cbn. destruct (ev_Message evt) as [m|]; [|apply shape_grows, same_shape_refl].
  destruct (message_blocks m) as [bs|]; [apply shape_grows, tool_results_shape|].
  destruct (unmarshal_raw _ _ _) as [text|]; [|apply shape_grows, same_shape_refl].
  apply (append_grows {| tn_Type := "user"; tn_Blocks := [TextBlock text] |}).
Qed.

Lemma stream_grows evt a : grows [] a (handleStreamEvent evt a).
Proof.
  unfold handleStreamEvent. destruct (stream_delta evt) as [d|]; [|apply shape_grows, same_shape_refl].
  set (a1 := match ac_streaming a with Some _ => _ | None => _ end).
  assert (H1 : grows [] a a1) by (subst a1; case_match; [apply shape_grows, same_shape_refl|apply start_stream_grows]).
  destruct (ac_streaming a1) as [i|]; [|done]. exact (trace_grows_trans [] [] _ _ _ H1 (shape_grows _ _ (streams_shape i (add_chunk d) a1))).
Qed.

Lemma control_grows evt a : grows [] a (handleControlRequest evt a).
Proof.
  unfold handleControlRequest. destruct (permission_request evt) as [r|]; [|apply shape_grows, same_shape_refl].
  set (a1 := set_pendingControls _ _). assert (H1 : grows [] a a1) by (apply shape_grows; unfold same_shape; cbn; split_and!; eauto).
  destruct (last _); [|exact H1]. exact (trace_grows_trans [] [] _ _ _ H1 (shape_grows _ _ (add_block_shape (ControlRequestBlock (length (ac_controls a))) _ _ eq_refl))).
Qed.

Lemma progress_shape evt a : same_shape a (handleToolProgress evt a).
Proof. unfold handleToolProgress. case_match; [by apply (alter_tools_shape (set_elapsed _))|apply same_shape_refl]. Qed.

Lemma no_texts evt : ev_Type evt ≠ "assistant"%string → ev_Type evt ≠ "user"%string → event_texts evt = [].
Proof. intros H1 H2. unfold event_texts. apply String.eqb_neq in H1, H2. by rewrite H1, H2. Qed.

Lemma Feed_grows evt a : clears evt = false → no_own_parent evt → grows (event_texts evt) a (Feed a evt).
Proof.
  intros Hc Hown. unfold Feed. apply orb_false_iff in Hc as [Hc1 Hc2].
  destruct (String.eqb_spec (ev_Type evt) "system") as [E|?].
  { rewrite no_texts by (by rewrite E). cbn in Hc2. unfold handleSystem. rewrite Hc2.
    repeat (case_match; [apply shape_grows; unfold same_shape; cbn; split_and!; eauto|]). apply shape_grows, same_shape_refl. }
  rewrite Hc1. destruct (String.eqb_spec (ev_Type evt) "stream_event") as [E|?]; [rewrite no_texts by (by rewrite E); apply stream_grows|].
  destruct (String.eqb_spec (ev_Type evt) "assistant") as [E|?].
  { pose proof (assistant_grows evt a E Hown) as H. unfold event_texts. rewrite E. exact H. }
  destruct (String.eqb_spec (ev_Type evt) "user") as [E|?]; [by apply user_grows|].
  rewrite no_texts by done. destruct (String.eqb _ "control_request"); [apply control_grows|].
  destruct (String.eqb _ "tool_progress"); [apply shape_grows, progress_shape|].
  destruct (String.eqb _ "result"); apply shape_grows; [apply add_usage_shape|apply same_shape_refl].
Qed.

Lemma feeds_grow evts a : Forall (λ e, clears e = false) evts → Forall no_own_parent evts → grows (concat (event_texts <$> evts)) a (fold_left Feed evts a).
Proof.
  revert a. induction evts as [|e evts IH]; intros a Hc Ho; [apply shape_grows, same_shape_refl|].
  inversion_clear Hc. inversion_clear Ho. cbn. eapply trace_grows_trans; [by apply Feed_grows|by apply IH].
Qed.

Lemma new_ok : conversation_ok NewAccumulator.
Proof. split; [done|by intros i tl Hi; destruct i|by intros id i Hi]. Qed.

(** Until the conversation is cleared or compacted nothing of it is lost or
    repeated: every turn has exactly one place, in the conversation or below a tool;
    all turns can be reached from the conversation, so it is a finite tree; and the
    texts of the turns are those of the assistant's and the user's messages, in their
    order.  (A message must not name one of its own tools as its parent.) *)
Theorem turns_kept evts :
  Forall (λ e, clears e = false) evts → Forall no_own_parent evts →
  let a := fold_left Feed evts NewAccumulator in
  NoDup (places a) ∧ (∀ n, n ∈ places a ↔ (n < length (ac_turns a))%nat) ∧ (∀ n, (n < length (ac_turns a))%nat → shown a n) ∧
  concat (turn_texts <$> ac_turns a) = concat (event_texts <$> evts).
Proof.
  intros Hc Ho a. destruct (feeds_grow evts NewAccumulator Hc Ho) as [Hok Htext]. fold a in Hok, Htext.
  specialize (Hok new_ok). pose proof (ok_places a Hok) as Hp. split_and!; [|intros n|by intros n; apply ok_shown|exact Htext].
  - rewrite Hp. apply NoDup_seq.
  - rewrite Hp, elem_of_seq. lia.
Qed.

(** ** What gets lost *)

(** After the conversation is cleared its tools still take the turns of their
    agents: such a message is shown nowhere, while one with an unknown parent would
    be appended. *)
Theorem cleared_parent_swallows a clear evt i :
  clears clear = true → ev_Type evt = "assistant"%string → no_own_parent evt → ev_ParentToolUseID evt ≠ ""%string →
  ac_pendingTools a !! ev_ParentToolUseID evt = Some i →
  ac_pendingControls (Feed a clear) = ac_pendingControls a ∧ ac_Turns (Feed (Feed a clear) evt) = [] ∧ ∀ n, ¬ shown (Feed (Feed a clear) evt) n.
Proof.
  intros Hc Hty Hown Hne Hp.
  assert (Hclear : Feed a clear = handleClear a).
  { unfold Feed, clears in *. apply orb_true_iff in Hc as [Hc|Hc].
    - apply String.eqb_eq in Hc as Hc'. by rewrite Hc'.
    - apply andb_true_iff in Hc as [H1 H2]. rewrite H1. unfold handleSystem. apply String.eqb_eq in H2 as H2'. by rewrite H2'. }
  rewrite Hclear. assert (Hturns : ac_Turns (Feed (handleClear a) evt) = []).
  { unfold Feed. rewrite Hty. cbn. unfold handleAssistant. cbn. destruct (fold_left _ _ _) as [t a2] eqn:Hf.
    assert (Hkeep : ac_pendingTools a2 !! ev_ParentToolUseID evt = Some i).
    { revert Hf. generalize {| tn_Type := "assistant"; tn_Blocks := [] |}. specialize (Hown Hty Hne). revert Hown Hp. clear.
      change (ac_pendingTools a) with (ac_pendingTools (handleClear a)). generalize (handleClear a).
      induction (ev_Content evt) as [|b cs IH]; cbn; intros a0 Hown Hp t0; [by intros [= _ <-]|].
      assert (Hown' : ∀ b, b ∈ cs → bl_Type b = "tool_use"%string → bl_ID b ≠ ev_ParentToolUseID evt) by (intros b' Hb'; apply Hown; by right).
      case_match; [by apply IH|]. destruct (String.eqb_spec (bl_Type b) "tool_use") as [Hu|]; [|by apply IH].
      apply IH; [done|]. cbn. rewrite lookup_insert_ne; [done|]. apply Hown; [by left|done]. }
    apply assistant_blocks in Hf as (F1 & _). cbn in F1.
    assert (ac_Turns (add_usage (ev_Usage evt) a2) = [] ∧ ac_pendingTools (add_usage (ev_Usage evt) a2) = ac_pendingTools a2) as [G1 G2] by (by unfold add_usage; case_match).
    rewrite (proj2 (String.eqb_neq _ _) Hne), G2, Hkeep. exact G1. }
  split_and!; [done|done|]. intros n Hs. induction Hs as [n Hin|]; [|done]. rewrite Hturns in Hin. by apply elem_of_nil in Hin.
Qed.

(** *** Members of documents *)

Lemma dec_members_mismatch {S} (fs : list (field S)) ms cur k v d :
  (k, v) ∈ ms → find_field fs k = Some d → (∀ x, (d v x).2 = false) → (dec_members fs ms cur).2 = false.
Proof.
  intros Hin Hd Hbad. revert cur. induction ms as [|[k' v'] ms IH]; intros cur; [by apply elem_of_nil in Hin|].
  cbn. apply elem_of_cons in Hin as [[= <- <-]|Hin].
  - rewrite Hd. specialize (Hbad cur). destruct (d v cur) as [c1 o1]. cbn in Hbad. subst o1. by destruct (dec_members fs ms c1).
  - destruct (match find_field fs k' with Some d' => d' v' cur | None => (cur, true) end) as [c1 o1].
    specialize (IH Hin c1). destruct (dec_members fs ms c1) as [c2 o2]. cbn in *. rewrite IH. by rewrite andb_false_r.
Qed.

Lemma find_field_member {S} (fs : list (field S)) k d : find_field fs k = Some d → ∃ name, (name, d) ∈ fs ∧ fold_name name = fold_name k.
Proof.
  unfold find_field. destruct (find_first (λ f : string * decoder S, String.eqb f.1 k) fs) as [[n d']|] eqn:E1.
  - intros [= ->]. apply find_first_Some in E1 as [Hin Heq]. cbn in Heq. apply String.eqb_eq in Heq as ->. eauto.
  - destruct (find_first (λ f : string * decoder S, bool_decide (fold_name f.1 = fold_name k)) fs) as [[n d']|] eqn:E2; [|done]. intros [= ->]. apply find_first_Some in E2 as [Hin Heq].
    apply bool_decide_eq_true_1 in Heq. eauto.
Qed.

(** A member of the value that no field of the document writes stays as it is. *)
Lemma dec_members_frame {S A} (fs : list (field S)) (get : S → A) (P : string → Prop) ms cur :
  (∀ name d, (name, d) ∈ fs → P name ∨ ∀ v x, get (d v x).1 = get x) →
  (∀ k v name, (k, v) ∈ ms → P name → fold_name name ≠ fold_name k) →
  get (dec_members fs ms cur).1 = get cur.
Proof.
  intros Hfs. revert cur. induction ms as [|[k v] ms IH]; intros cur Hms; [done|]. cbn.
  assert (Hrest : ∀ c, get (dec_members fs ms c).1 = get c) by (intros c; apply IH; intros k' v' n Hin; eapply Hms; by right).
  destruct (find_field fs k) as [d|] eqn:Hd.
  - destruct (find_field_member _ _ _ Hd) as (name & Hin & Hfold). destruct (Hfs name d Hin) as [HP|Hkeep].
    { destruct (Hms k v name); [by left|done|done]. }
    specialize (Hkeep v cur). destruct (d v cur) as [c1 o1]. specialize (Hrest c1). destruct (dec_members fs ms c1) as [c2 o2]. cbn in *. by rewrite Hrest.
  - specialize (Hrest cur). by destruct (dec_members fs ms cur) as [c2 o2].
Qed.

(** A tool result whose content is a list of blocks: the whole message is dropped,
    the tool stays pending and nothing is printed. *)
Theorem structured_results_lost evt a m blocks ms parts :
  ev_Type evt = "user"%string → ev_Message evt = Some m → ut_Content m = Some (JArr blocks) →
  JObj ms ∈ blocks → ("content"%string, JArr parts) ∈ ms →
  Feed a evt = a ∧ ToolResultBlocks evt = [].
Proof.
  intros Hty Hm Hc Hb Hin.
  assert (Hnone : message_blocks m = None).
  { unfold message_blocks. rewrite Hc. unfold unmarshal_raw, decode. cbn [dec_slice].
    destruct (forallb _ _) eqn:Hf; [|done]. rewrite forallb_forall in Hf.
    specialize (Hf (dec_struct ContentBlock_fields (JObj ms) zero_ContentBlock)). cbn [dec_struct] in Hf.
    erewrite dec_members_mismatch in Hf; [|exact Hin|reflexivity|done]. discriminate Hf.
    apply list_elem_of_In, list_elem_of_fmap. by exists (JObj ms). }
  unfold Feed. rewrite Hty. cbn. unfold handleUser, ToolResultBlocks. rewrite Hty, Hm, Hnone, Hc. done.
Qed.

Section texts.
Context `{JT : JsonText, MR : MapRange, GF : GoFormat}.

Lemma fld_keeps {S A B} (get : S → B) name (d : decoder A) g st : (∀ a s, get (st a s) = get s) → ∀ v x, get ((fld name d g st).2 v x).1 = get x.
Proof. intros Hst v x. cbn. destruct (d v (g x)). cbn. apply Hst. Qed.

Lemma fields_keep_content name d : (name, d) ∈ Event_fields → name = "content"%string ∨ ∀ v x, ev_Content (d v x).1 = ev_Content x.
Proof.
  cut (∀ p, p ∈ Event_fields → p.1 = "content"%string ∨ ∀ v x, ev_Content (p.2 v x).1 = ev_Content x); [by intros H ?%H|].
  intros p H. unfold Event_fields in H.
  repeat (apply elem_of_cons in H as [->|H]; [first [by left|right; by apply (fld_keeps ev_Content)]|]). by apply elem_of_nil in H.
Qed.

(** The command line tool keeps the blocks of an assistant's message in its message
    member: a line without a content member of its own shows an empty turn, prints
    nothing and makes no tool pending. *)
Theorem native_blocks_lost data ms evt a :
  json_parse data = Some (JObj ms) → Parse data = Some evt → ev_Type evt = "assistant"%string →
  (∀ k v, (k, v) ∈ ms → fold_name k ≠ fold_name "content") →
  Render evt = ""%string ∧ ac_turns (Feed a evt) = ac_turns a ++ [{| tn_Type := "assistant"; tn_Blocks := [] |}] ∧
  ac_pendingTools (Feed a evt) = ac_pendingTools a.
Proof.
  intros Hj Hp Hty Hno. assert (Hc : ev_Content evt = []).
  { unfold Parse, unmarshal, decode in Hp. rewrite Hj in Hp. cbn [dec_struct] in Hp.
    pose proof (dec_members_frame Event_fields ev_Content (λ n, n = "content"%string) ms zero_Event fields_keep_content) as H.
    destruct (dec_members _ _ _) as [x ok]. cbn in H. destruct ok; [|done]. injection Hp as <-. apply H.
    intros k v name Hin -> Heq. by apply (Hno k v Hin). }
  unfold Render, Feed. rewrite Hty. cbn. rewrite Hc. split; [done|]. unfold handleAssistant. rewrite Hc. cbn.
  set (a1 := match ac_streaming a with Some _ => _ | None => _ end).
  assert (ac_turns a1 = ac_turns a ∧ ac_pendingTools a1 = ac_pendingTools a) as [<- <-] by (subst a1; by case_match).
  assert (ac_turns (add_usage (ev_Usage evt) a1) = ac_turns a1 ∧ ac_pendingTools (add_usage (ev_Usage evt) a1) = ac_pendingTools a1) as [<- <-] by (by unfold add_usage; case_match).
  by destruct (if String.eqb _ _ then _ else _).
Qed.

End texts.

(** An assistant's message and the result of its turn both carry the usage: it is
    counted twice. *)
Theorem usage_counted_twice msg res u a :
  ev_Type msg = "assistant"%string → ev_Type res = "result"%string → ev_Usage msg = Some u → ev_Usage res = Some u →
  let t := ac_TotalUsage (Feed (Feed a msg) res) in
  us_In t = i64_add (i64_add (us_In (ac_TotalUsage a)) (us_In u)) (us_In u) ∧ us_Out t = i64_add (i64_add (us_Out (ac_TotalUsage a)) (us_Out u)) (us_Out u).
Proof.
  intros H1 H2 H3 H4. assert (Ha : ∀ x, ac_TotalUsage (Feed x res) = ac_TotalUsage (add_usage (Some u) x)) by (intros x; unfold Feed; rewrite H2, H4; done).
  cbv zeta. rewrite Ha. cbn. assert (ac_TotalUsage (Feed a msg) = ac_TotalUsage (add_usage (Some u) a)) as ->; [|done].
  unfold Feed. rewrite H1. cbn. unfold handleAssistant. rewrite H3.
  set (a1 := match ac_streaming a with Some _ => _ | None => _ end). assert (E1 : ac_TotalUsage a1 = ac_TotalUsage a) by (subst a1; by case_match).
  assert (Hf : ∀ cs t0 x t y, fold_left assistant_block cs (t0, x) = (t, y) → ac_TotalUsage y = ac_TotalUsage x).
  { induction cs as [|b cs IH]; intros t0 x t y; cbn; [by intros [= _ <-]|]. repeat case_match; intros Hf; apply IH in Hf; exact Hf. }
  destruct (fold_left _ _ _) as [t y] eqn:E. apply Hf in E. case_match; cbn; by rewrite E, E1.
Qed.

(** *** Streams *)

Lemma last_in {A} (l : list A) x : last l = Some x → x ∈ l.
Proof. intros H. apply last_Some in H as [k ->]. apply elem_of_app. right. by left. Qed.

Lemma streaming_feeds evts ds i s a : ac_streaming a = Some i → ac_streams a !! i = Some s → stream_delta <$> evts = Some <$> ds →
  let a' := fold_left Feed evts a in
  ac_streaming a' = Some i ∧ ac_Turns a' = ac_Turns a ∧ ac_turns a' = ac_turns a ∧
  ac_streams a' !! i = Some {| sx_Chunks := sx_Chunks s ++ ds; sx_Complete := sx_Complete s |}.
Proof.
  revert ds s a. induction evts as [|e evts IH]; intros [|d ds] s a Hi Hs Hd; cbn in Hd; try done.
  { cbn. rewrite app_nil_r. destruct s. done. }
  injection Hd as He Hd. cbn. assert (Hty : ev_Type e = "stream_event"%string).
  { unfold stream_delta in He. destruct (String.eqb_spec (ev_Type e) "stream_event"); done. }
  assert (HF : Feed a e = on_stream (add_chunk d) i a) by (unfold Feed; rewrite Hty; cbn; unfold handleStreamEvent; by rewrite He, Hi, Hi).
  rewrite HF. destruct (IH ds (add_chunk d s) (on_stream (add_chunk d) i a)) as (H1 & H2 & H3 & H4); [done| |done|].
  { cbn. by rewrite list_lookup_alter_eq, Hs. }
  split_and!; [done..|]. rewrite H4. cbn. by rewrite <- app_assoc.
Qed.

(** The deltas that follow a message make one block, the last of the assistant's turn
    at the end of the conversation, with their texts in order. *)
Theorem streamed_text a evts ds :
  conversation_ok a → ac_streaming a = None → stream_delta <$> evts = Some <$> ds → ds ≠ [] →
  let a' := fold_left Feed evts a in
  ∃ i n t s, ac_streaming a' = Some i ∧ last (ac_Turns a') = Some n ∧ ac_turns a' !! n = Some t ∧ tn_Type t = "assistant"%string ∧
    last (tn_Blocks t) = Some (StreamingTextBlock i) ∧ ac_streams a' !! i = Some s ∧ sx_Chunks s = ds ∧ sx_Complete s = false.
Proof.
  intros Hok Hnone Hd Hne. destruct evts as [|e evts], ds as [|d ds]; try done. cbn in Hd. injection Hd as He Hd. cbn.
  assert (Hty : ev_Type e = "stream_event"%string) by (unfold stream_delta in He; destruct (String.eqb_spec (ev_Type e) "stream_event"); done).
  set (i := length (ac_streams a)).
  assert (∃ n t, last (ac_Turns (start_stream a)) = Some n ∧ ac_turns (start_stream a) !! n = Some t ∧ tn_Type t = "assistant"%string ∧
            last (tn_Blocks t) = Some (StreamingTextBlock i) ∧ ac_streaming (start_stream a) = Some i ∧
            ac_streams (start_stream a) !! i = Some {| sx_Chunks := []; sx_Complete := false |}) as (n & t & H1 & H2 & H3 & H4 & H5 & H6).
  { unfold start_stream. set (a1 := set_streaming _ _).
    assert (Hs : ac_streams a1 !! i = Some {| sx_Chunks := []; sx_Complete := false |}) by (cbn; by apply list_lookup_middle).
    assert (∃ n t, last (ac_Turns (with_assistant_turn a1)) = Some n ∧ ac_turns (with_assistant_turn a1) !! n = Some t ∧ tn_Type t = "assistant"%string ∧
              ac_streaming (with_assistant_turn a1) = Some i ∧ ac_streams (with_assistant_turn a1) = ac_streams a1) as (n & t & K1 & K2 & K3 & K4 & K5).
    { assert (Happ : ∀ t, tn_Type t = "assistant"%string → ∃ n t', last (ac_Turns (append_turn t a1)) = Some n ∧ ac_turns (append_turn t a1) !! n = Some t' ∧ tn_Type t' = "assistant"%string ∧
                ac_streaming (append_turn t a1) = Some i ∧ ac_streams (append_turn t a1) = ac_streams a1).
      { intros t Ht. exists (length (ac_turns a1)), t. cbn. rewrite last_snoc. split_and!; try done. by apply list_lookup_middle. }
      unfold with_assistant_turn. destruct (last (ac_Turns a1)) as [n|] eqn:Hl; [|by apply Happ].
      destruct (String.eqb_spec (default ""%string (tn_Type <$> ac_turns a1 !! n)) "assistant") as [Ha|]; [|by apply Happ].
      destruct (ac_turns a1 !! n) as [t|] eqn:Ht; [|done]. exists n, t. done. }
    rewrite K1. exists n, (add_block (StreamingTextBlock i) t). cbn. rewrite list_lookup_alter_eq, K2, K4, K5. cbn. rewrite last_snoc. split_and!; done. }
  assert (HF : Feed a e = on_stream (add_chunk d) i (start_stream a)) by (unfold Feed; rewrite Hty; cbn; unfold handleStreamEvent; by rewrite He, Hnone, H5).
  rewrite HF. destruct (streaming_feeds evts ds i {| sx_Chunks := [d]; sx_Complete := false |} (on_stream (add_chunk d) i (start_stream a))) as (G1 & G2 & G3 & G4); [done| |done|].
  { cbn. by rewrite list_lookup_alter_eq, H6. }
  exists i, n, t. eexists. rewrite G2, G3. split_and!; try done.
Qed.

(** ** Answers to permission prompts *)

Section loop.
Context `{JT : JsonText, MR : MapRange, GF : GoFormat, UT : UnicodeTables}.

(** What was sent: a text the user typed, or one taken as the answer to a request. *)
Inductive sent := SMessage (text : string) | SAnswer (requestID text : string).
Definition sent_doc (x : sent) : json := match x with SMessage t => chat_message t | SAnswer id t => permission_answer id (is_yes t) end.
Definition sent_text (x : sent) : string := match x with SMessage t => t | SAnswer _ t => t end.
Definition answered (x : sent) : option string := match x with SAnswer id _ => Some id | SMessage _ => None end.

Definition requested (i : repl_input) : option string :=
  match i with
  | FromSocket line =>
    match Parse (drop_cr line) with
    | Some evt => if IsPermissionRequest evt then Some (ev_RequestID evt) else None
    | None => None
    end
  | _ => None
  end.
Definition typed (i : repl_input) : option string := match i with FromUser raw => Some (TrimSpace (drop_cr raw)) | _ => None end.

Record repl_ok (l : list repl_input) (sents : list sent) (r : repl) : Prop := {
  ro_sent : rp_sent r = sent_doc <$> sents;
  ro_texts : (sent_text <$> sents) `sublist_of` omap typed l;
  ro_answers : omap answered sents ++ option_list (fst <$> rp_perm r) `sublist_of` omap requested l;
}.

Lemma repl_ok_skip l sents r r' i : repl_ok l sents r → rp_sent r' = rp_sent r → rp_perm r' = rp_perm r → repl_ok (l ++ [i]) sents r'.
Proof.
  intros [H1 H2 H3] Hs Hp. split; [by rewrite Hs| |rewrite Hp]; rewrite omap_app; by apply sublist_inserts_r.
Qed.

Lemma repl_ok_sent l sents r r' raw x : repl_ok l sents r → rp_perm r' = None →
  sent_text x = TrimSpace (drop_cr raw) → answered x = fst <$> rp_perm r → rp_sent r' = rp_sent r ++ [sent_doc x] → repl_ok (l ++ [FromUser raw]) (sents ++ [x]) r'.
Proof.
  intros [H1 H2 H3] Hp Ht Ha Hs. split.
  - by rewrite Hs, H1, fmap_app.
  - rewrite fmap_app, omap_app. cbn. rewrite Ht. by apply sublist_app.
  - rewrite Hp, !omap_app. cbn. rewrite !app_nil_r, Ha. by destruct (rp_perm r) as [[]|].
Qed.

Lemma send_doc_cases fails doc r : let r' := send_doc fails doc r in
  rp_perm r' = rp_perm r ∧ ((rp_sent r' = rp_sent r ∧ rp_done r' = Some true) ∨ rp_sent r' = rp_sent r ++ [doc]).
Proof. unfold send_doc. case_match; cbn; auto. Qed.

Lemma fold_say (bs : list ContentBlock) r : let r' := fold_left (λ r b, say (RenderToolResult (bl_Content b) (bl_IsError b)) r) bs r in
  rp_sent r' = rp_sent r ∧ rp_perm r' = rp_perm r ∧ rp_done r' = rp_done r ∧ rp_cancelled r' = rp_cancelled r ∧ rp_reading r' = rp_reading r.
Proof. revert r. induction bs as [|b bs IH]; intros r; cbn; [done|]. by destruct (IH (say (RenderToolResult (bl_Content b) (bl_IsError b)) r)) as (-> & -> & -> & -> & ->). Qed.

Lemma repl_step_ok fails l sents r i : repl_ok l sents r → ∃ sents', repl_ok (l ++ [i]) sents' (repl_step fails r i).
Proof.
  intros Hok. destruct i as [line|raw| |]; cbn [repl_step].
  - exists sents. unfold socket_line. destruct (negb _); [by eapply repl_ok_skip|]. case_match; [by eapply repl_ok_skip|].
    destruct (Parse (drop_cr line)) as [evt|] eqn:Hp; [|by eapply repl_ok_skip].
    set (r1 := match permission_request evt with Some _ => _ | None => _ end).
    destruct (fold_say (ToolResultBlocks evt) r1) as (F1 & F2 & _).
    destruct (permission_request evt) as [p|] eqn:Hreq; [|eapply repl_ok_skip; [done|by rewrite F1|by rewrite F2]].
    destruct Hok as [H1 H2 H3]. split; rewrite ?F1, ?F2.
    + done.
    + rewrite omap_app. by apply sublist_inserts_r.
    + rewrite omap_app. cbn. rewrite Hp. unfold IsPermissionRequest. rewrite Hreq. cbn. apply sublist_app; [|done].
      etrans; [|exact H3]. by apply sublist_inserts_r.
  - destruct (rp_done r); [exists sents; by eapply repl_ok_skip|]. unfold user_line. case_match; [exists sents; by eapply repl_ok_skip|].
    set (r1 := if String.eqb _ _ then _ else _).
    assert (∃ sents', repl_ok (l ++ [FromUser raw]) sents' r1) as [sents' H1].
    { subst r1. case_match; [exists sents; by eapply repl_ok_skip|]. destruct (rp_perm r) as [[id tool]|] eqn:Hperm.
      - set (line := TrimSpace (drop_cr raw)) in *. destruct (send_doc_cases fails (permission_answer id (is_yes line)) (put_perm None r)) as (S1 & [[S2 S3]|S2]).
        + exists sents. rewrite S3. destruct Hok as [H1 H2 H3]. split; rewrite ?S1, ?S2; [done| |]; rewrite omap_app; apply sublist_inserts_r; [done|].
          etrans; [|exact H3]. cbn. rewrite app_nil_r. by apply sublist_inserts_r.
        + exists (sents ++ [SAnswer id line]). destruct (rp_done (send_doc _ _ _)); (eapply repl_ok_sent; [done|..]); cbn; rewrite ?S1, ?S2, ?Hperm; try done.
      - destruct (send_doc_cases fails (chat_message (TrimSpace (drop_cr raw))) r) as (S1 & [[S2 S3]|S2]).
        + exists sents. by eapply repl_ok_skip.
        + exists (sents ++ [SMessage (TrimSpace (drop_cr raw))]). eapply repl_ok_sent; [done|..]; cbn; rewrite ?S1, ?S2, ?Hperm; try done. }
    exists sents'. destruct (rp_done r1); [done|]. case_match; [|done]. by destruct H1.
  - exists sents. case_match; by eapply repl_ok_skip.
  - exists sents. by eapply repl_ok_skip.
Qed.

Lemma Run_snoc fails sid l i : Run fails sid (l ++ [i]) = repl_step fails (Run fails sid l) i.
Proof. unfold Run. by rewrite fold_left_app. Qed.

(** Whatever the order of events and lines: the lines sent are lines the user typed,
    in order, and each is sent once, as a message or as an answer; the requests
    answered are requests that came, in order, each answered at most once, and allowed
    only by a line that is y. *)
Theorem answers_answer_requests fails sid l :
  ∃ sents, rp_sent (Run fails sid l) = sent_doc <$> sents ∧ (sent_text <$> sents) `sublist_of` omap typed l ∧ omap answered sents `sublist_of` omap requested l.
Proof.
  assert (∃ sents, repl_ok l sents (Run fails sid l)) as (sents & [H1 H2 H3]).
  { induction l as [|i l [sents IH]] using rev_ind.
    - exists []. split; [done|constructor..].
    - rewrite Run_snoc. by apply repl_step_ok with sents. }
  exists sents. split_and!; [done..|]. etrans; [|exact H3]. by apply sublist_inserts_r.
Qed.

(** *** The prompt and the session *)

Definition prompt_doc (id tool : string) (input : json) : json :=
  JObj [("type", JStr "control_request"); ("request_id", JStr id);
        ("request", JObj [("subtype", JStr "can_use_tool"); ("tool_name", JStr tool); ("tool_input", input)])]%string.

Lemma prompt_parses line id tool input : json_parse line = Some (prompt_doc id tool input) →
  ∃ evt p, Parse line = Some evt ∧ permission_request evt = Some p ∧ ev_RequestID evt = id ∧ pb_ToolName p = tool ∧ ev_Type evt = "control_request"%string.
Proof. intros H. unfold Parse, unmarshal. rewrite H. eexists _, _. repeat split. Qed.

Lemma prompt_session line id tool input : json_parse line = Some (prompt_doc id tool input) →
  ∃ cr, unmarshal (dec_struct controlRequestEvent_fields) zero_controlRequestEvent line = Some cr ∧ cr_RequestID cr = id ∧ tool_name_of (cr_Request cr) = tool.
Proof. intros H. unfold unmarshal. rewrite H. eexists. repeat split. Qed.

Lemma debug_input_one doc s : doc ≠ ""%string → drop_cr doc = doc → Z.of_nat (String.length doc) < 2^20 → debug_input [doc] s = send_stdin doc s.
Proof.
  intros Hne Hcr Hlen. unfold debug_input. cbn [client_lines]. rewrite Hcr. rewrite (proj2 (Z.leb_gt _ _) Hlen).
  rewrite (proj2 (String.eqb_neq _ _) Hne). done.
Qed.

(** A prompt in the session and in the loop attached to it: the user's next line is the
    answer, yes if it is y.  When the policy leaves the decision to the user, the
    answer reaches the tool, but the session goes on listing the request as pending.
    When the policy decides, the session has answered already: the line, meant as a
    message or not, becomes a second answer. *)
Theorem attached_permission fails r (s : Session) line id tool input raw :
  json_parse line = Some (prompt_doc id tool input) → drop_cr line = line → Z.of_nat (String.length line) < 2^20 →
  rp_reading r = true → rp_done r = None → Z.of_nat (String.length raw) < 65536 → fails (length (rp_sent r)) = false →
  let text := TrimSpace (drop_cr raw) in let answer := permission_answer id (is_yes text) in let out := json_print answer in
  text ≠ ""%string → out ≠ ""%string → drop_cr out = out → Z.of_nat (String.length out) < 2^20 →
  let r1 := repl_step fails (repl_step fails r (FromSocket line)) (FromUser raw) in
  let s1 := handle_control_request line s in let s2 := debug_input [out] s1 in
  rp_sent r1 = rp_sent r ++ [answer] ∧
  match policy_verdict (permPolicy s) (allowedTools s) tool with
  | VAsk => stdinCh s2 = stdinCh s ++ [out] ∧ is_Some (pending_control s2 id)
  | v => stdinCh s2 = stdinCh s ++ [json_print (control_response id (match v with VAllow => "allow" | _ => "deny" end)); out] ∧ pending_control s2 id = None
  end.
Proof.
  intros Hj Hcr Hlen Hread Hdone Hraw Hfail text answer out Htext Hne Hcr2 Hlen2 r1 s1 s2. split.
  - destruct (prompt_parses line id tool input Hj) as (evt & p & Hparse & Hreq & Hid & Htool & Hty).
    unfold r1. cbn [repl_step]. unfold socket_line. rewrite Hread. cbn [negb]. rewrite (proj2 (Z.leb_gt _ _) Hlen), Hcr, Hparse, Hreq, Hid.
    set (r0 := put_perm _ _). destruct (fold_say (ToolResultBlocks evt) r0) as (F1 & F2 & F3 & _). set (rr := fold_left _ _ r0) in *. clearbody rr.
    cbn in F1, F2, F3. rewrite F3, Hdone. unfold user_line. rewrite (proj2 (Z.leb_gt _ _) Hraw). fold text.
    rewrite (proj2 (String.eqb_neq _ _) Htext), F2. unfold send_doc. cbn. rewrite F1, Hfail. cbn. rewrite F3, Hdone. cbn.
    case_match; cbn; by rewrite ?F1.
  - destruct (prompt_session line id tool input Hj) as (cr & Hun & Hid & Htool). unfold s2. rewrite debug_input_one by done.
    unfold s1, handle_control_request. rewrite Hun, shouldAutoApprove_verdict, Htool, Hid. cbn -[policy_verdict].
    assert (Hdel : ∀ m : gmap string (option json), delete id m !! id = None) by (intros; apply lookup_delete_eq).
    destruct (policy_verdict _ _ _) eqn:Hv; cbn.
    + unfold pending_control. cbn. rewrite Hdel. by rewrite <- app_assoc.
    + apply verdict_deny_strict in Hv as Hp. rewrite Hp. cbn. unfold pending_control.
      destruct (hasStrictDeny s); cbn; rewrite Hdel, <- ?app_assoc; done.
    + apply verdict_ask_not_strict, String.eqb_neq in Hv. rewrite Hv. unfold pending_control. cbn. by rewrite lookup_insert_eq.
Qed.

End loop.

(** ** Examples *)

Module ConversationDemo.

Definition usage_doc : json := JObj [("input_tokens", JInt 50); ("output_tokens", JInt 20)]%string.
Definition tool_doc : json := JObj [("type", JStr "tool_use"); ("id", JStr "tu_1"); ("name", JStr "Agent"); ("input", JObj [])]%string.
Definition agent_doc : json := JObj [("type", JStr "assistant"); ("content", JArr [tool_doc])]%string.
Definition nested_doc : json :=
  JObj [("type", JStr "assistant"); ("content", JArr [JObj [("type", JStr "text"); ("text", JStr "done")]]); ("parent_tool_use_id", JStr "tu_1"); ("usage", usage_doc)]%string.
Definition native_doc : json := JObj [("type", JStr "assistant"); ("message", JObj [("content", JArr [tool_doc])])]%string.
Definition result_block (content : json) : json := JObj [("type", JStr "tool_result"); ("tool_use_id", JStr "tu_1"); ("content", content)]%string.
Definition results_doc : json := JObj [("type", JStr "user"); ("message", JObj [("role", JStr "user"); ("content", JArr [result_block (JArr [])])])]%string.
Definition delta_doc (t : string) : json :=
  JObj [("type", JStr "stream_event"); ("event", JObj [("type", JStr "content_block_delta"); ("delta", JObj [("type", JStr "text_delta"); ("text", JStr t)])])]%string.
Definition done_doc : json := JObj [("type", JStr "result"); ("usage", usage_doc)]%string.
Definition clear_doc : json := JObj [("type", JStr "clear")]%string.
Definition said_doc : json := JObj [("type", JStr "user"); ("message", JObj [("role", JStr "user"); ("content", JStr "go on")])]%string.

#[export] Instance text : JsonText := table_json [
  ("agent", agent_doc); ("nested", nested_doc); ("native", native_doc); ("results", results_doc); ("Hel", delta_doc "Hel"); ("lo", delta_doc "lo");
  ("done", done_doc); ("clear", clear_doc); ("said", said_doc); ("prompt", prompt_doc "cr_1" "Bash" (JObj []))]%string.
#[export] Instance range : MapRange := head_range.
#[export] Instance format : GoFormat := {| fmt_q s := s; fmt_1f _ := "0.0"%string; raw_text := print_plain |}.
#[export] Instance tables : UnicodeTables := {| lower_table r := r; mn_table _ := false; space_table _ := false |}.

Definition event (line : string) : Event := default zero_Event (Parse line).
Definition asked : Accumulator := append_turn {| tn_Type := "user"; tn_Blocks := [TextBlock "go on"] |} NewAccumulator.
Definition conversation (l : list string) : Accumulator := fold_left Feed (event <$> l) NewAccumulator.

(** A session that leaves the decision to the user, and one that allows everything. *)
Definition session (policy : string) : Session :=
  {| state := zero_SessionState; stdinCh := []; driver := None; permPolicy := policy; allowedTools := ∅; stopping := false; shutdownPending := false;
     inFlightBackgroundAgents := 0; pendingShells := ∅; inFlightShells := ∅; initClosed := false; hasStrictDeny := false; effects := [] |}.

End ConversationDemo.
Import (hints) ConversationDemo.

Lemma turns_kept_witness :
  let a := ConversationDemo.conversation ["agent"; "nested"; "said"]%string in
  places a = [0; 2; 1]%nat ∧ NoDup (places a) ∧ (∀ n, (n < length (ac_turns a))%nat → shown a n) ∧ concat (turn_texts <$> ac_turns a) = ["done"; "go on"]%string.
Proof.
  intros a. destruct (turns_kept (ConversationDemo.event <$> ["agent"; "nested"; "said"]%string)) as (H1 & _ & H3 & H4).
  - repeat constructor.
  - repeat constructor; intros Hty Hne b Hb Ht; vm_compute in Hb, Hty, Hne, Ht;
      repeat (apply elem_of_cons in Hb as [->|Hb]; [discriminate || done|]); by apply elem_of_nil in Hb.
  - split_and!; [reflexivity|exact H1|exact H3|exact H4].
Defined.

Lemma cleared_parent_swallows_witness :
  let a := Feed (Feed (ConversationDemo.conversation ["agent"]%string) (ConversationDemo.event "clear")) (ConversationDemo.event "nested") in
  length (ac_turns a) = 2%nat ∧ ∀ n, ¬ shown a n.
Proof.
  destruct (cleared_parent_swallows (ConversationDemo.conversation ["agent"]%string) (ConversationDemo.event "clear") (ConversationDemo.event "nested") 0) as (_ & _ & H).
  - reflexivity.
  - reflexivity.
  - intros _ _ b Hb Ht. vm_compute in Hb. apply elem_of_cons in Hb as [->|Hb]; [discriminate Ht|by apply elem_of_nil in Hb].
  - discriminate.
  - reflexivity.
  - split; [reflexivity|exact H].
Defined.

Lemma structured_results_lost_witness :
  let a := ConversationDemo.conversation ["agent"]%string in Feed a (ConversationDemo.event "results") = a ∧ ac_pendingTools a !! "tu_1"%string = Some 0%nat.
Proof.
  intros a. destruct (structured_results_lost (ConversationDemo.event "results") a {| ut_Role := "user"; ut_Content := Some (JArr [ConversationDemo.result_block (JArr [])]) |}
    [ConversationDemo.result_block (JArr [])] [("type", JStr "tool_result"); ("tool_use_id", JStr "tu_1"); ("content", JArr [])]%string []) as [H _].
  - reflexivity.
  - reflexivity.
  - reflexivity.
  - by left.
  - by right; right; left.
  - split; [exact H|reflexivity].
Defined.

Lemma native_blocks_lost_witness :
  let a := Feed NewAccumulator (ConversationDemo.event "native") in
  ac_turns a = [{| tn_Type := "assistant"; tn_Blocks := [] |}] ∧ ac_pendingTools a = ∅.
Proof.
  destruct (native_blocks_lost "native" [("type", JStr "assistant"); ("message", JObj [("content", JArr [ConversationDemo.tool_doc])])]%string
    (ConversationDemo.event "native") NewAccumulator) as (_ & H1 & H2).
  - reflexivity.
  - reflexivity.
  - reflexivity.
  - intros k v Hin. repeat (apply elem_of_cons in Hin as [[= -> ->]|Hin]; [by vm_compute|]). by apply elem_of_nil in Hin.
  - split; [exact H1|exact H2].
Defined.

Lemma usage_counted_twice_witness :
  us_In (ac_TotalUsage (ConversationDemo.conversation ["nested"; "done"]%string)) = 100.
Proof.
  destruct (usage_counted_twice (ConversationDemo.event "nested") (ConversationDemo.event "done") {| us_In := 50; us_Out := 20; us_CacheRead := 0; us_CacheWrite := 0 |} NewAccumulator) as [H _];
    [reflexivity..|]. exact H.
Defined.

Lemma streamed_text_witness : ∃ i s, let a := fold_left Feed (ConversationDemo.event <$> ["Hel"; "lo"]%string) ConversationDemo.asked in
  ac_streaming a = Some i ∧ ac_streams a !! i = Some s ∧ sx_Chunks s = ["Hel"; "lo"]%string ∧ Full s = "Hello"%string.
Proof.
  destruct (streamed_text ConversationDemo.asked
    (ConversationDemo.event <$> ["Hel"; "lo"]%string) ["Hel"; "lo"]%string) as (i & n & t & s & H1 & _ & _ & _ & _ & H2 & H3 & _).
  - apply append_ok, new_ok.
  - reflexivity.
  - reflexivity.
  - discriminate.
  - exists i, s. split; [exact H1|]. split; [exact H2|]. split; [exact H3|]. unfold Full. rewrite H3. reflexivity.
Defined.

(** "no problem" is taken as a refusal of a tool that was allowed already. *)
Lemma attached_permission_witness :
  let out := json_print (permission_answer "cr_1" false) in
  stdinCh (debug_input [out] (handle_control_request "prompt" (ConversationDemo.session PermissionPolicyAuto))) =
  [json_print (control_response "cr_1" "allow"); out].
Proof.
  destruct (attached_permission (λ _, false) (start_repl "s") (ConversationDemo.session PermissionPolicyAuto) "prompt" "cr_1" "Bash" (JObj []) "no problem"%string) as (_ & H & _);
    [reflexivity|reflexivity|reflexivity|reflexivity|reflexivity|reflexivity|reflexivity|discriminate|discriminate|reflexivity|reflexivity|]. exact H.
Defined.
