(* ===== verification/Client.v ===== *)
(** * The command line client (mclaude-cli: main.go, context/, cmd/)

    Logging in, the context file, the directories of hosts, and the arguments of
    the commands.  The client's files are a map from paths to contents, with the
    set of directories and the link to the active host; which operations of the
    operating system fail is told by the environment.  Indented JSON is printed
    like JSON; what is printed for the user is left out where it is only a report. *)

From stdpp Require Import gmap sets.
From S2P Require Import Prelude GoStrings GoPath Slug Subjects Json HostAuth Import.
Open Scope Z_scope.

(** ** The context file (context/context.go) *)

Record Context := { cx_UserSlug : string; cx_ProjectSlug : string; cx_HostSlug : string; cx_Server : string }.
Definition zero_Context : Context := {| cx_UserSlug := ""; cx_ProjectSlug := ""; cx_HostSlug := ""; cx_Server := "" |}.
Definition Context_fields : list (field Context) :=
  [ fld "userSlug" dec_string cx_UserSlug (λ v x, {| cx_UserSlug := v; cx_ProjectSlug := cx_ProjectSlug x; cx_HostSlug := cx_HostSlug x; cx_Server := cx_Server x |});
    fld "projectSlug" dec_string cx_ProjectSlug (λ v x, {| cx_UserSlug := cx_UserSlug x; cx_ProjectSlug := v; cx_HostSlug := cx_HostSlug x; cx_Server := cx_Server x |});
    fld "hostSlug" dec_string cx_HostSlug (λ v x, {| cx_UserSlug := cx_UserSlug x; cx_ProjectSlug := cx_ProjectSlug x; cx_HostSlug := v; cx_Server := cx_Server x |});
    fld "server" dec_string cx_Server (λ v x, {| cx_UserSlug := cx_UserSlug x; cx_ProjectSlug := cx_ProjectSlug x; cx_HostSlug := cx_HostSlug x; cx_Server := v |}) ].

Definition context_json (x : Context) : json :=
  JObj (some_member "userSlug" (cx_UserSlug x) ++ some_member "projectSlug" (cx_ProjectSlug x) ++ some_member "hostSlug" (cx_HostSlug x) ++ some_member "server" (cx_Server x)).

Definition with_user (v : string) (x : Context) : Context := {| cx_UserSlug := v; cx_ProjectSlug := cx_ProjectSlug x; cx_HostSlug := cx_HostSlug x; cx_Server := cx_Server x |}.
Definition with_host (v : string) (x : Context) : Context := {| cx_UserSlug := cx_UserSlug x; cx_ProjectSlug := cx_ProjectSlug x; cx_HostSlug := v; cx_Server := cx_Server x |}.

Definition DefaultServerURL : string := "https://api.mclaude.internal".
Definition ResolveServerURL (override : string) (ctx : Context) : string :=
  if negb (String.eqb override "") then override else if negb (String.eqb (cx_Server ctx) "") then cx_Server ctx else DefaultServerURL.

Definition DeriveNATSURL (serverURL : string) : string :=
  if HasSuffix serverURL "/nats" then serverURL
  else
    let natsURL := TrimSuffix serverURL "/" in
    let natsURL := if HasPrefix natsURL "https://" then ("wss://" +:+ drop_str 8 natsURL)%string
                   else if HasPrefix natsURL "http://" then ("ws://" +:+ drop_str 7 natsURL)%string else natsURL in
    (natsURL +:+ "/nats")%string.

(** [ValidateUserSlug] and the like: [None] is no error; an empty slug is none. *)
Definition ValidateUserSlug (s : string) : option slug_error := if String.eqb s "" then None else Validate s.
Definition ValidateProjectSlug (s : string) : option slug_error := if String.eqb s "" then None else Validate (TrimPrefix s "@").
Definition ValidateHostSlug (s : string) : option slug_error := if String.eqb s "" then None else Validate s.

Definition parsed_slug (s : string) : result string string := match Validate s with None => Ok s | Some _ => Err "invalid slug"%string end.
Definition ParseUserSlug (s : string) : result string string := if String.eqb s "" then Ok ""%string else parsed_slug s.
Definition ParseHostSlug (s : string) : result string string := if String.eqb s "" then Ok ""%string else parsed_slug s.
Definition ParseProjectSlug (s : string) : result string string := if String.eqb s "" then Ok ""%string else parsed_slug (TrimPrefix s "@").

(** ** Files *)

Record cli_files := { cf_files : gmap string string; cf_dirs : gset string; cf_active : option string }.
Definition put_file (path data : string) (s : cli_files) : cli_files := {| cf_files := <[path := data]> (cf_files s); cf_dirs := cf_dirs s; cf_active := cf_active s |}.
Definition put_dirs (v : gset string) (s : cli_files) : cli_files := {| cf_files := cf_files s; cf_dirs := v; cf_active := cf_active s |}.
Definition put_link (v : option string) (s : cli_files) : cli_files := {| cf_files := cf_files s; cf_dirs := cf_dirs s; cf_active := v |}.
Definition drop_tree (dir : string) (s : cli_files) : cli_files :=
  {| cf_files := filter (λ kv, below dir kv.1 = false) (cf_files s); cf_dirs := remove_all dir (cf_dirs s); cf_active := cf_active s |}.

(** Environment variables, the home directory, the name of the machine, a fresh key
    pair (public key and seed); [ce_fail op path]: the operation fails. *)
Record cli_env := {
  cv_MCLAUDE_HOME : string; cv_CONTEXT_FILE : string; cv_home : option string; cv_hostname : option string; cv_keys : option (string * string);
  cv_fail : string → string → bool;
}.

Definition mclaudeDir (e : cli_env) : string :=
  if negb (String.eqb (cv_MCLAUDE_HOME e) "") then cv_MCLAUDE_HOME e else path_Join [default ""%string (cv_home e); ".mclaude"%string].
Definition hostDir (e : cli_env) (hslug : string) : string := path_Join [mclaudeDir e; "hosts"%string; hslug].
Definition activeHostPath (e : cli_env) : string := path_Join [mclaudeDir e; "active-host"%string].
Definition DefaultAuthPath (e : cli_env) : string := path_Join [mclaudeDir e; "auth.json"%string].
Definition DefaultPath (e : cli_env) : string :=
  if negb (String.eqb (cv_CONTEXT_FILE e) "") then cv_CONTEXT_FILE e
  else match cv_home e with Some home => path_Join [home; ".mclaude"; "context.json"]%string | None => ""%string end.

Definition first_nonempty (v d : string) : string := if String.eqb v "" then d else v.

Section client.
Context `{JT : JsonText, JS : JsonStream, UT : UnicodeTables, NO : Normalizer}.

(** [None] is a file that is not there. *)
Definition read_file (e : cli_env) (path : string) (s : cli_files) : result string (option string) :=
  if cv_fail e "read" path then Err "read"%string else Ok (cf_files s !! path).

Definition write_file (e : cli_env) (path data : string) (s : cli_files) : option string * cli_files :=
  if cv_fail e "write" path then (Some "write"%string, s) else (None, put_file path data s).

Definition mkdir (e : cli_env) (dir : string) (s : cli_files) : option string * cli_files :=
  if cv_fail e "mkdir" dir then (Some "mkdir"%string, s) else (None, put_dirs (mkdir_all dir (cf_dirs s)) s).

(** A directory and a file in it. *)
Definition save_file (e : cli_env) (path data : string) (s : cli_files) : option string * cli_files :=
  match mkdir e (path_Dir path) s with (Some err, s) => (Some err, s) | (None, s) => write_file e path data s end.

Definition Load (e : cli_env) (path : string) (s : cli_files) : result string Context :=
  match read_file e path s with
  | Err err => Err err
  | Ok None => Ok zero_Context
  | Ok (Some data) => match unmarshal (dec_struct Context_fields) zero_Context data with Some ctx => Ok ctx | None => Err "parse context file"%string end
  end.

Definition Save (e : cli_env) (path : string) (ctx : Context) : cli_files → option string * cli_files := save_file e path (json_print (context_json ctx) +:+ nl).

(** *** Credentials (cmd/auth.go) *)

Record AuthCredentials := { ac_JWT : string; ac_NKeySeed : string; ac_UserSlug : string; ac_NATSUrl : string }.
Definition AuthCredentials_fields : list (field AuthCredentials) :=
  [ fld "jwt" dec_string ac_JWT (λ v x, {| ac_JWT := v; ac_NKeySeed := ac_NKeySeed x; ac_UserSlug := ac_UserSlug x; ac_NATSUrl := ac_NATSUrl x |});
    fld "nkeySeed" dec_string ac_NKeySeed (λ v x, {| ac_JWT := ac_JWT x; ac_NKeySeed := v; ac_UserSlug := ac_UserSlug x; ac_NATSUrl := ac_NATSUrl x |});
    fld "userSlug" dec_string ac_UserSlug (λ v x, {| ac_JWT := ac_JWT x; ac_NKeySeed := ac_NKeySeed x; ac_UserSlug := v; ac_NATSUrl := ac_NATSUrl x |});
    fld "natsUrl" dec_string ac_NATSUrl (λ v x, {| ac_JWT := ac_JWT x; ac_NKeySeed := ac_NKeySeed x; ac_UserSlug := ac_UserSlug x; ac_NATSUrl := v |}) ].
Definition zero_credentials : AuthCredentials := {| ac_JWT := ""; ac_NKeySeed := ""; ac_UserSlug := ""; ac_NATSUrl := "" |}.
Definition credentials_json (c : AuthCredentials) : json :=
  JObj ([("jwt", JStr (ac_JWT c)); ("nkeySeed", JStr (ac_NKeySeed c)); ("userSlug", JStr (ac_UserSlug c))]%string ++ some_member "natsUrl" (ac_NATSUrl c)).

Definition LoadAuth (e : cli_env) (path : string) (s : cli_files) : result string AuthCredentials :=
  match read_file e (first_nonempty path (DefaultAuthPath e)) s with
  | Err err => Err err
  | Ok None => Err "not logged in"%string
  | Ok (Some data) =>
    match unmarshal (dec_struct AuthCredentials_fields) zero_credentials data with
    | None => Err "parse auth file"%string
    | Some c =>
      if String.eqb (ac_JWT c) "" then Err "auth file is missing jwt field"%string
      else if String.eqb (ac_NKeySeed c) "" then Err "auth file is missing nkeySeed field"%string else Ok c
    end
  end.

Definition SaveAuth (e : cli_env) (path : string) (c : AuthCredentials) : cli_files → option string * cli_files :=
  save_file e (first_nonempty path (DefaultAuthPath e)) (json_print (credentials_json c) +:+ nl).

(** *** Logging in (cmd/login.go) *)

Record deviceCodeResponse := { dr_DeviceCode : string; dr_UserCode : string; dr_VerificationURL : string; dr_ExpiresIn : Z; dr_Interval : Z }.
Definition deviceCodeResponse_fields : list (field deviceCodeResponse) :=
  [ fld "deviceCode" dec_string dr_DeviceCode (λ v x, {| dr_DeviceCode := v; dr_UserCode := dr_UserCode x; dr_VerificationURL := dr_VerificationURL x; dr_ExpiresIn := dr_ExpiresIn x; dr_Interval := dr_Interval x |});
    fld "userCode" dec_string dr_UserCode (λ v x, {| dr_DeviceCode := dr_DeviceCode x; dr_UserCode := v; dr_VerificationURL := dr_VerificationURL x; dr_ExpiresIn := dr_ExpiresIn x; dr_Interval := dr_Interval x |});
    fld "verificationUrl" dec_string dr_VerificationURL (λ v x, {| dr_DeviceCode := dr_DeviceCode x; dr_UserCode := dr_UserCode x; dr_VerificationURL := v; dr_ExpiresIn := dr_ExpiresIn x; dr_Interval := dr_Interval x |});
    fld "expiresIn" dec_int dr_ExpiresIn (λ v x, {| dr_DeviceCode := dr_DeviceCode x; dr_UserCode := dr_UserCode x; dr_VerificationURL := dr_VerificationURL x; dr_ExpiresIn := v; dr_Interval := dr_Interval x |});
    fld "interval" dec_int dr_Interval (λ v x, {| dr_DeviceCode := dr_DeviceCode x; dr_UserCode := dr_UserCode x; dr_VerificationURL := dr_VerificationURL x; dr_ExpiresIn := dr_ExpiresIn x; dr_Interval := v |}) ].
Definition zero_deviceCode : deviceCodeResponse := {| dr_DeviceCode := ""; dr_UserCode := ""; dr_VerificationURL := ""; dr_ExpiresIn := 0; dr_Interval := 0 |}.

Record pollResponse := { po_Status : string; po_JWT : string; po_UserSlug : string; po_NATSUrl : string; po_Error : string }.
Definition pollResponse_fields : list (field pollResponse) :=
  [ fld "status" dec_string po_Status (λ v x, {| po_Status := v; po_JWT := po_JWT x; po_UserSlug := po_UserSlug x; po_NATSUrl := po_NATSUrl x; po_Error := po_Error x |});
    fld "jwt" dec_string po_JWT (λ v x, {| po_Status := po_Status x; po_JWT := v; po_UserSlug := po_UserSlug x; po_NATSUrl := po_NATSUrl x; po_Error := po_Error x |});
    fld "userSlug" dec_string po_UserSlug (λ v x, {| po_Status := po_Status x; po_JWT := po_JWT x; po_UserSlug := v; po_NATSUrl := po_NATSUrl x; po_Error := po_Error x |});
    fld "natsUrl" dec_string po_NATSUrl (λ v x, {| po_Status := po_Status x; po_JWT := po_JWT x; po_UserSlug := po_UserSlug x; po_NATSUrl := v; po_Error := po_Error x |});
    fld "error" dec_string po_Error (λ v x, {| po_Status := po_Status x; po_JWT := po_JWT x; po_UserSlug := po_UserSlug x; po_NATSUrl := po_NATSUrl x; po_Error := v |}) ].
Definition zero_poll : pollResponse := {| po_Status := ""; po_JWT := ""; po_UserSlug := ""; po_NATSUrl := ""; po_Error := "" |}.

(** The answer to a post: status and body. *)
Definition read_answer {A} (d : decoder A) (zero : A) (answer : option (Z * string)) : result string A :=
  match answer with
  | None => Err "POST"%string
  | Some (status, body) =>
    if negb (status =? 200) then Err "unexpected status"%string
    else match decode_body d zero body with Some v => Ok v | None => Err "decode response"%string end
  end.

(** A computation ends, waits for ever, or has not ended within the fuel. *)
Inductive progress (A : Type) := Ends (a : A) | Hangs | Unfinished.
#[global] Arguments Ends {A} _.
#[global] Arguments Hangs {A}.
#[global] Arguments Unfinished {A}.

Section login.
(** [http.Post] with the default client, which has no timeout: an answer, an error
    ([Some None]), or, of a server that accepts and keeps silent, nothing ever. *)
Context {T : Type} (post : string → json → T → option (option (Z * string) * T)).

Definition device_request (pubKey : string) : json := JObj [("publicKey"%string, JStr pubKey)].
Definition poll_request (deviceCode : string) : json := JObj [("deviceCode"%string, JStr deviceCode)].

Definition postDeviceCode (serverURL pubKey : string) (t : T) : option (result string deviceCodeResponse * T) :=
  match post (serverURL +:+ "/api/auth/device-code") (device_request pubKey) t with
  | None => None
  | Some (answer, t) =>
    Some (match read_answer (dec_struct deviceCodeResponse_fields) zero_deviceCode answer with
          | Ok r => if String.eqb (dr_DeviceCode r) "" then Err "server returned empty device code"%string else Ok r
          | Err err => Err err
          end, t)
  end.

Definition pollDeviceCode (serverURL deviceCode : string) (t : T) : option (result string pollResponse * T) :=
  match post (serverURL +:+ "/api/auth/device-code/poll") (poll_request deviceCode) t with
  | None => None
  | Some (answer, t) => Some (read_answer (dec_struct pollResponse_fields) zero_poll answer, t)
  end.

Definition Second : Z := 1000000000.

(** Durations are 64 bit: a product that is too large wraps around. *)
Definition poll_interval (r : deviceCodeResponse) : Z := let i := wrap64 (dr_Interval r * Second) in if i <=? 0 then 5 * Second else i.
Definition poll_deadline (now : Z) (r : deviceCodeResponse) : Z :=
  if dr_ExpiresIn r <=? 0 then now + 15 * 60 * Second else now + wrap64 (dr_ExpiresIn r * Second).

Inductive poll_end := Authorized (r : pollResponse) | Refused (error : string) | TimedOut.

(** [now k]: the clock at the test before poll number [k]. *)
Fixpoint poll_loop (fuel : nat) (now : nat → Z) (k : nat) (deadline : Z) (serverURL deviceCode : string) (t : T) : progress (poll_end * T) :=
  match fuel with
  | O => Unfinished
  | S fuel =>
    if now k <? deadline then
      match pollDeviceCode serverURL deviceCode t with
      | None => Hangs
      | Some (Err _, t) => poll_loop fuel now (S k) deadline serverURL deviceCode t
      | Some (Ok r, t) =>
        if negb (String.eqb (po_Error r) "") then Ends (Refused (po_Error r), t)
        else if String.eqb (po_Status r) "pending" then poll_loop fuel now (S k) deadline serverURL deviceCode t
        else if String.eqb (po_Status r) "authorized" && negb (String.eqb (po_JWT r) "") then Ends (Authorized r, t)
        else poll_loop fuel now (S k) deadline serverURL deviceCode t
      end
    else Ends (TimedOut, t)
  end.

Record login_flags := { lf_ServerURL : string; lf_ContextPath : string; lf_AuthPath : string }.

(** The user's slug and the path of the credentials.  A context that cannot be read
    is taken as empty, one that cannot be written is reported only. *)
Definition RunLogin (fuel : nat) (e : cli_env) (now : nat → Z) (fl : login_flags) (s : cli_files) (t : T) : progress (result string (string * string) * cli_files * T) :=
  let ctxPath := first_nonempty (lf_ContextPath fl) (DefaultPath e) in
  let ctx := match Load e ctxPath s with Ok ctx => ctx | Err _ => zero_Context end in
  let serverURL := ResolveServerURL (lf_ServerURL fl) ctx in
  match cv_keys e with
  | None => Ends (Err "generate nkey pair"%string, s, t)
  | Some (pubKey, seed) =>
    match postDeviceCode serverURL pubKey t with
    | None => Hangs
    | Some (Err err, t) => Ends (Err err, s, t)
    | Some (Ok dc, t) =>
      match poll_loop fuel now 1 (poll_deadline (now 0%nat) dc) serverURL (dr_DeviceCode dc) t with
      | Hangs => Hangs
      | Unfinished => Unfinished
      | Ends (Refused err, t) => Ends (Err ("authentication failed: " +:+ err)%string, s, t)
      | Ends (TimedOut, t) => Ends (Err "authentication timed out"%string, s, t)
      | Ends (Authorized r, t) =>
        let authPath := first_nonempty (lf_AuthPath fl) (DefaultAuthPath e) in
        let creds := {| ac_JWT := po_JWT r; ac_NKeySeed := seed; ac_UserSlug := po_UserSlug r; ac_NATSUrl := po_NATSUrl r |} in
        match SaveAuth e authPath creds s with
        | (Some err, s) => Ends (Err err, s, t)
        | (None, s) => let s := (Save e ctxPath (with_user (po_UserSlug r) ctx) s).2 in Ends (Ok (po_UserSlug r, authPath), s, t)
        end
      end
    end
  end.

End login.

(** *** Hosts (cmd/host.go) *)

(** The link holds "hosts/{hslug}". *)
Definition ResolveActiveHost (e : cli_env) (s : cli_files) : string :=
  if cv_fail e "readlink" (activeHostPath e) then ""%string else match cf_active s with Some target => path_Base target | None => ""%string end.

Definition seed_path (e : cli_env) (hslug : string) : string := path_Join [hostDir e hslug; "nkey.seed"%string].
Definition creds_path (e : cli_env) (hslug : string) : string := path_Join [hostDir e hslug; "nats.creds"%string].
Definition config_path (e : cli_env) (hslug : string) : string := path_Join [hostDir e hslug; "config.json"%string].

(** The context of a logged in user. *)
Definition logged_in (e : cli_env) (ctxPath : string) (s : cli_files) : result string Context :=
  match Load e (first_nonempty ctxPath (DefaultPath e)) s with
  | Err err => Err err
  | Ok ctx => if String.eqb (cx_UserSlug ctx) "" then Err "user slug required"%string else Ok ctx
  end.

(** The slug, the public key and the path of the seed; nothing is sent yet. *)
Definition RunHostRegister (e : cli_env) (ctxPath name : string) (s : cli_files) : result string (string * string * string) * cli_files :=
  match logged_in e ctxPath s with
  | Err err => (Err err, s)
  | Ok _ =>
    match (if String.eqb name "" then cv_hostname e else Some name) with
    | None => (Err "get hostname"%string, s)
    | Some name =>
      let hslug := Slugify name in
      if String.eqb hslug "" then (Err "could not derive a valid slug"%string, s)
      else
        match Validate hslug with
        | Some _ => (Err "invalid host slug"%string, s)
        | None =>
          match cv_keys e with
          | None => (Err "generate nkey pair"%string, s)
          | Some (pubKey, seed) =>
            match mkdir e (hostDir e hslug) s with
            | (Some err, s) => (Err err, s)
            | (None, s) =>
              match write_file e (seed_path e hslug) seed s with
              | (Some err, s) => (Err err, s)
              | (None, s) => (Ok (hslug, pubKey, seed_path e hslug), s)
              end
            end
          end
        end
    end
  end.

(** The names listed, with whether each is active: [entries] are those of the hosts
    directory, in order, with whether they are directories ([None]: there is none). *)
Definition RunHostList (e : cli_env) (ctxPath : string) (entries : result string (option (list (string * bool)))) (s : cli_files) : result string (list (string * bool)) :=
  match logged_in e ctxPath s with
  | Err err => Err err
  | Ok _ =>
    match entries with
    | Err err => Err err
    | Ok None => Ok []
    | Ok (Some l) => Ok ((λ en : string * bool, (en.1, String.eqb en.1 (ResolveActiveHost e s))) <$> List.filter snd l)
    end
  end.

Definition exists_path (path : string) (s : cli_files) : bool := bool_decide (path ∈ cf_dirs s) || bool_decide (is_Some (cf_files s !! path)).

Definition RunHostUse (e : cli_env) (hslug : string) (s : cli_files) : option string * cli_files :=
  match Validate hslug with
  | Some _ => (Some "invalid host slug"%string, s)
  | None =>
    if negb (exists_path (hostDir e hslug) s) then (Some "host not found"%string, s)
    else
      let s := if cv_fail e "remove" (activeHostPath e) then s else put_link None s in
      if cv_fail e "symlink" (activeHostPath e) || bool_decide (is_Some (cf_active s)) then (Some "create symlink"%string, s)
      else
        let s := put_link (Some (path_Join ["hosts"%string; hslug])) s in
        let ctx := match Load e (DefaultPath e) s with Ok ctx => ctx | Err _ => zero_Context end in
        (None, (Save e (DefaultPath e) (with_host hslug ctx) s).2)
  end.

Definition RunHostRm (e : cli_env) (ctxPath hslug : string) (s : cli_files) : option string * cli_files :=
  match Validate hslug with
  | Some _ => (Some "invalid host slug"%string, s)
  | None =>
    let path := first_nonempty ctxPath (DefaultPath e) in
    match logged_in e ctxPath s with
    | Err err => (Some err, s)
    | Ok ctx =>
      if cv_fail e "removeall" (hostDir e hslug) then (Some "remove host dir"%string, s)
      else
        let s := drop_tree (hostDir e hslug) s in
        if String.eqb (ResolveActiveHost e s) hslug then
          let s := if cv_fail e "remove" (activeHostPath e) then s else put_link None s in
          (None, if String.eqb (cx_HostSlug ctx) hslug then (Save e path (with_host "" ctx) s).2 else s)
        else (None, s)
    end
  end.

Definition host_config_json (hslug hubURL : string) : json := JObj [("slug", JStr hslug); ("hubUrl", JStr hubURL)]%string.

Definition WriteHostCredentials (e : cli_env) (hslug jwt hubURL : string) (s : cli_files) : option string * cli_files :=
  match read_file e (seed_path e hslug) s with
  | Err err => (Some err, s)
  | Ok None => (Some "read nkey seed"%string, s)
  | Ok (Some seed) =>
    match write_file e (creds_path e hslug) (FormatNATSCredentials jwt seed) s with
    | (Some err, s) => (Some err, s)
    | (None, s) => write_file e (config_path e hslug) (json_print (host_config_json hslug hubURL) +:+ nl) s
    end
  end.

(** *** Sessions, the daemon, clusters *)

Record SessionListFlags := { sl_UserSlug : string; sl_ProjectSlug : string; sl_HostSlug : string; sl_ContextPath : string }.
Record SessionListResult := { sr_UserSlug : string; sr_ProjectSlug : string; sr_HostSlug : string; sr_KVKeyPrefix : string; sr_EventsSubject : string }.

(** A slug that has to be there: the flag's, or else the context's. *)
Definition required_slug (parse : string → result string string) (flag ctx : string) : result string string :=
  match parse (first_nonempty flag ctx) with
  | Err err => Err err
  | Ok s => if String.eqb s "" then Err "slug required"%string else Ok s
  end.

Definition RunSessionList (e : cli_env) (fl : SessionListFlags) (s : cli_files) : result string SessionListResult :=
  match Load e (first_nonempty (sl_ContextPath fl) (DefaultPath e)) s with
  | Err err => Err err
  | Ok ctx =>
    match required_slug ParseUserSlug (sl_UserSlug fl) (cx_UserSlug ctx) with
    | Err err => Err err
    | Ok uslug =>
      match required_slug ParseProjectSlug (sl_ProjectSlug fl) (cx_ProjectSlug ctx) with
      | Err err => Err err
      | Ok pslug =>
        match required_slug ParseHostSlug (sl_HostSlug fl) (cx_HostSlug ctx) with
        | Err err => Err err
        | Ok hslug =>
          Ok {| sr_UserSlug := uslug; sr_ProjectSlug := pslug; sr_HostSlug := hslug; sr_KVKeyPrefix := ProjectsKVKey hslug pslug;
                sr_EventsSubject := UserHostProjectSessionsEvents uslug hslug pslug "*" |}
        end
      end
    end
  end.

Record DaemonConfig := { dg_UserSlug : string; dg_HostSlug : string; dg_HostDir : string; dg_CredsPath : string }.

(** The second component: the credentials are there. *)
Definition ResolveDaemonConfig (e : cli_env) (ctxPath hostFlag : string) (s : cli_files) : result string (DaemonConfig * bool) :=
  match logged_in e ctxPath s with
  | Err err => Err err
  | Ok ctx =>
    let hslug := first_nonempty (first_nonempty hostFlag (ResolveActiveHost e s)) (cx_HostSlug ctx) in
    if String.eqb hslug "" then Err "host slug required"%string
    else
      match Validate hslug with
      | Some _ => Err "invalid host slug"%string
      | None =>
        if negb (exists_path (hostDir e hslug) s) then Err "host directory not found"%string
        else Ok ({| dg_UserSlug := cx_UserSlug ctx; dg_HostSlug := hslug; dg_HostDir := hostDir e hslug; dg_CredsPath := creds_path e hslug |}, exists_path (creds_path e hslug) s)
      end
  end.

Record ClusterRegisterFlags := { cr_Slug : string; cr_Name : string; cr_JetStreamDomain : string; cr_LeafURL : string; cr_DirectNatsURL : string; cr_ContextPath : string }.

(** The slug and the name shown; nothing is sent yet. *)
Definition RunClusterRegister (e : cli_env) (fl : ClusterRegisterFlags) (s : cli_files) : result string (string * string) :=
  if String.eqb (cr_Slug fl) "" then Err "--slug is required"%string
  else
    match Validate (cr_Slug fl) with
    | Some _ => Err "invalid cluster slug"%string
    | None =>
      if String.eqb (cr_JetStreamDomain fl) "" then Err "--jetstream-domain is required"%string
      else if String.eqb (cr_LeafURL fl) "" then Err "--leaf-url is required"%string
      else match logged_in e (cr_ContextPath fl) s with Err err => Err err | Ok _ => Ok (cr_Slug fl, first_nonempty (cr_Name fl) (cr_Slug fl)) end
    end.

Definition RunClusterGrant (e : cli_env) (ctxPath clusterSlug userSlug : string) (s : cli_files) : option string :=
  match Validate clusterSlug, Validate userSlug with
  | Some _, _ => Some "invalid cluster slug"%string
  | None, Some _ => Some "invalid user slug"%string
  | None, None => match logged_in e ctxPath s with Err err => Some err | Ok _ => None end
  end.

End client.

(** ** Arguments (main.go) *)

(** The flags with values of a command, in order: whatever follows one is its value,
    and a flag without a value, like one that is not known, is ignored. *)
Fixpoint value_flags (names args : list string) : list (string * string) :=
  match args with
  | [] => []
  | a :: args =>
    if bool_decide (a ∈ names) then match args with [] => [] | v :: args => (a, v) :: value_flags names args end
    else value_flags names args
  end.

(** The last value of a flag counts. *)
Definition flag_value (fs : list (string * string)) (name d : string) : string :=
  default d (snd <$> last (List.filter (λ nv, String.eqb nv.1 name) fs)).

Inductive command :=
| CmdAttach (sessionID socketPath : string) (logMachine : bool) (logLevel : string)
| CmdSessionList (fl : SessionListFlags)
| CmdLogin (fl : login_flags)
| CmdImport (host server : string)
| CmdHostRegister (name : string)
| CmdHostList
| CmdHostUse (hslug : string)
| CmdHostRm (hslug : string)
| CmdClusterRegister (fl : ClusterRegisterFlags)
| CmdClusterGrant (clusterSlug userSlug : string)
| CmdDaemon (host : string).

(** The arguments of [attach] after the session: a flag without a value is among them. *)
Fixpoint attach_flags (args : list string) : bool * list (string * string) :=
  match args with
  | [] => (false, [])
  | a :: args =>
    if String.eqb a "--socket" || String.eqb a "--log-level" then
      match args with [] => (false, []) | v :: args => let '(b, fs) := attach_flags args in (b, (a, v) :: fs) end
    else let '(b, fs) := attach_flags args in (String.eqb a "--log-machine" || b, fs)
  end.

Definition runAttach (args : list string) : option command :=
  match args with
  | sessionID :: args =>
    let '(logMachine, fs) := attach_flags args in
    Some (CmdAttach sessionID (flag_value fs "--socket" ("/tmp/mclaude-session-" +:+ sessionID +:+ ".sock")) logMachine (flag_value fs "--log-level" "info"))%string
  | [] => None
  end.

Definition runLogin (args : list string) : option command :=
  Some (CmdLogin {| lf_ServerURL := flag_value (value_flags ["--server"%string] args) "--server" ""; lf_ContextPath := ""; lf_AuthPath := "" |}).

Definition runImport (args : list string) : option command :=
  let fs := value_flags ["--host"; "--server"]%string args in Some (CmdImport (flag_value fs "--host" "") (flag_value fs "--server" "")).

Definition runSessionList (args : list string) : option command :=
  let fs := value_flags ["-u"; "-p"; "--host"]%string args in
  Some (CmdSessionList {| sl_UserSlug := flag_value fs "-u" ""; sl_ProjectSlug := flag_value fs "-p" ""; sl_HostSlug := flag_value fs "--host" ""; sl_ContextPath := "" |}).

Definition runSession (args : list string) : option command :=
  match args with sub :: args => if String.eqb sub "list" then runSessionList args else None | [] => None end.

Definition runHostRegister (args : list string) : option command := Some (CmdHostRegister (flag_value (value_flags ["--name"%string] args) "--name" "")).
Definition runHostUse (args : list string) : option command := CmdHostUse <$> head args.
Definition runHostRm (args : list string) : option command := CmdHostRm <$> head args.

Definition runHost (args : list string) : option command :=
  match args with
  | sub :: args =>
    if String.eqb sub "register" then runHostRegister args
    else if String.eqb sub "list" then Some CmdHostList
    else if String.eqb sub "use" then runHostUse args
    else if String.eqb sub "rm" then runHostRm args
    else None
  | [] => None
  end.

Definition runClusterRegister (args : list string) : option command :=
  let fs := value_flags ["--slug"; "--name"; "--jetstream-domain"; "--leaf-url"; "--direct-nats-url"]%string args in
  Some (CmdClusterRegister {| cr_Slug := flag_value fs "--slug" ""; cr_Name := flag_value fs "--name" ""; cr_JetStreamDomain := flag_value fs "--jetstream-domain" "";
    cr_LeafURL := flag_value fs "--leaf-url" ""; cr_DirectNatsURL := flag_value fs "--direct-nats-url" ""; cr_ContextPath := "" |}).

Definition runClusterGrant (args : list string) : option command :=
  match args with clusterSlug :: userSlug :: _ => Some (CmdClusterGrant clusterSlug userSlug) | _ => None end.

Definition runCluster (args : list string) : option command :=
  match args with
  | sub :: args => if String.eqb sub "register" then runClusterRegister args else if String.eqb sub "grant" then runClusterGrant args else None
  | [] => None
  end.

Definition runDaemon (args : list string) : option command := Some (CmdDaemon (flag_value (value_flags ["--host"%string] args) "--host" "")).

(** The command of the arguments after the program's name; [None]: the usage is printed
    and the exit code is 1, as for a command that fails. *)
Definition run (args : list string) : option command :=
  match args with
  | [] => None
  | cmd :: args =>
    if String.eqb cmd "attach" then runAttach args
    else if String.eqb cmd "session" then runSession args
    else if String.eqb cmd "login" then runLogin args
    else if String.eqb cmd "import" then runImport args
    else if String.eqb cmd "host" then runHost args
    else if String.eqb cmd "cluster" then runCluster args
    else if String.eqb cmd "daemon" then runDaemon args
    else None
  end.
