(* ===== verification/ClientSpec.v ===== *)
(** * Properties of the command line client

    Logging in ends and leaves credentials that are read back; the commands on hosts
    keep to the host's directory; slugs are resolved and checked before use. *)

From stdpp Require Import gmap sets.
From S2P Require Import Prelude GoStrings GoPath Slug Subjects Json HostAuth Import Client.
Open Scope Z_scope.

Section spec.
Context `{JT : JsonText, JS : JsonStream, UT : UnicodeTables, NO : Normalizer}.

(** ** Files that are written *)

Lemma context_decodes x : decode (dec_struct Context_fields) zero_Context (context_json x) = Some x.
Proof.
  destruct x as [u p h v]. unfold context_json, some_member. cbn [cx_UserSlug cx_ProjectSlug cx_HostSlug cx_Server].
  destruct (String.eqb_spec u "") as [->|_], (String.eqb_spec p "") as [->|_], (String.eqb_spec h "") as [->|_], (String.eqb_spec v "") as [->|_]; reflexivity.
Qed.

Lemma credentials_decode c : decode (dec_struct AuthCredentials_fields) zero_credentials (credentials_json c) = Some c.
Proof. destruct c as [j k u n]. unfold credentials_json, some_member. cbn [ac_JWT ac_NKeySeed ac_UserSlug ac_NATSUrl]. by destruct (String.eqb_spec n "") as [->|_]. Qed.

(** A file that is written as a line is read back. *)
Definition reads_back (j : json) : Prop := json_parse (json_print j +:+ nl) = Some j.

Lemma save_file_None e path data s s' : save_file e path data s = (None, s') →
  cf_files s' = <[path := data]> (cf_files s) ∧ cf_active s' = cf_active s ∧ cf_dirs s' = mkdir_all (path_Dir path) (cf_dirs s).
Proof. unfold save_file, mkdir, write_file. repeat case_match; by intros; simplify_eq. Qed.

Lemma save_file_other e path data s err s' p : save_file e path data s = (err, s') → p ≠ path → cf_files s' !! p = cf_files s !! p.
Proof.
  unfold save_file, mkdir, write_file. intros H Hp. repeat case_match; simplify_eq/=; try done; by rewrite lookup_insert_ne.
Qed.

Lemma save_file_active e path data s : cf_active (save_file e path data s).2 = cf_active s.
Proof. unfold save_file, mkdir, write_file. by repeat case_match; simplify_eq/=. Qed.

(** *** The context is what was saved *)
Theorem context_roundtrip e path ctx s s' :
  reads_back (context_json ctx) → cv_fail e "read" path = false → Save e path ctx s = (None, s') → Load e path s' = Ok ctx.
Proof.
  intros Hp Hr Hs. apply save_file_None in Hs as (Hs & _ & _). unfold Load, read_file. rewrite Hr, Hs, lookup_insert_eq.
  unfold unmarshal. by rewrite Hp, context_decodes.
Qed.

(** ** Logging in *)

Lemma poll_interval_pos r : 0 < poll_interval r.
Proof. unfold poll_interval. destruct (Z.leb_spec (wrap64 (dr_Interval r * Second)) 0); [done|lia]. Qed.

Section login.
Context {T : Type} (post : string → json → T → option (option (Z * string) * T)).

(** A clock that the pauses between polls move. *)
Definition paced (now : nat → Z) (interval : Z) : Prop := ∀ k, now k + interval ≤ now (S k).

(** Every request ends, with an answer or an error. *)
Definition answering : Prop := ∀ url body t, post url body t ≠ None.

(** Between the test number [k] and the deadline so many intervals begin. *)
Definition polls_left (now : nat → Z) (k : nat) (interval deadline : Z) : Z := Z.max 0 (deadline - now k + interval - 1) / interval.

Lemma poll_loop_ends fuel now k interval deadline url code t :
  answering → 0 < interval → paced now interval → polls_left now k interval deadline < Z.of_nat fuel →
  ∃ r, poll_loop post fuel now k deadline url code t = Ends r.
Proof.
  intros Hans Hi Hpace. revert k t. unfold polls_left. induction fuel as [|fuel IH]; intros k t Hf.
  { assert (0 ≤ Z.max 0 (deadline - now k + interval - 1) / interval) by (apply Z.div_pos; lia). lia. }
  cbn [poll_loop]. destruct (Z.ltb_spec (now k) deadline); [|by eexists].
  assert (Hnext : ∀ t, ∃ r, poll_loop post fuel now (S k) deadline url code t = Ends r).
  { intros t'. apply IH. specialize (Hpace k).
    assert (Z.max 0 (deadline - now (S k) + interval - 1) / interval ≤ Z.max 0 (deadline - now k + interval - 1) / interval - 1); [|lia].
    replace (Z.max 0 (deadline - now k + interval - 1) / interval - 1) with ((Z.max 0 (deadline - now k + interval - 1) + (-1) * interval) / interval)
      by (rewrite Z.div_add; lia). apply Z.div_le_mono; lia. }
  unfold pollDeviceCode. destruct (post _ _ t) as [[answer t']|] eqn:Hp; [|by destruct (Hans _ _ _ Hp)].
  destruct (read_answer _ _ _) as [r|err]; [|by apply Hnext]. repeat case_match; solve [apply Hnext|by eexists].
Qed.

(** C34. Logging in ends, when every request to the server ends, with an answer or an
    error, and the clock passes at least an interval between two polls: no poll is
    made after the deadline of the code, so the loop runs at most as many times as
    intervals fit in, whatever the answers are.  (The requests themselves have no
    timeout: see the next theorem.) *)
Theorem login_ends fuel e now fl s t :
  answering →
  (∀ url pub seed dc t1,
     url = ResolveServerURL (lf_ServerURL fl) (match Load e (first_nonempty (lf_ContextPath fl) (DefaultPath e)) s with Ok ctx => ctx | Err _ => zero_Context end) →
     cv_keys e = Some (pub, seed) → postDeviceCode post url pub t = Some (Ok dc, t1) →
     paced now (poll_interval dc) ∧ polls_left now 1 (poll_interval dc) (poll_deadline (now 0%nat) dc) < Z.of_nat fuel) →
  ∃ r, RunLogin post fuel e now fl s t = Ends r.
Proof.
  intros Hans Hf. unfold RunLogin. cbv zeta. destruct (cv_keys e) as [[pub seed]|] eqn:Hk; [|by eexists].
  set (url := ResolveServerURL _ _) in *. destruct (postDeviceCode post url pub t) as [[[dc|err] t1]|] eqn:Hp; [|by eexists|].
  2: { unfold postDeviceCode in Hp. destruct (post _ _ t) as [[]|] eqn:Hpost; [done|]. by destruct (Hans _ _ _ Hpost). }
  destruct (Hf url pub seed dc t1 eq_refl eq_refl Hp) as [Hpace Hn].
  destruct (poll_loop_ends fuel now 1 (poll_interval dc) _ url (dr_DeviceCode dc) t1 Hans (poll_interval_pos dc) Hpace Hn) as [[[r|err|] t2] ->]; [|by eexists..].
  destruct (SaveAuth _ _ _ _) as [[]]; by eexists.
Qed.

(** The other side: a server that accepts the request for a code, or a poll, and never
    answers, keeps the login waiting for ever, whatever the deadline. *)
Theorem silent_server_hangs fuel e now fl s t pub seed :
  let url := ResolveServerURL (lf_ServerURL fl) (match Load e (first_nonempty (lf_ContextPath fl) (DefaultPath e)) s with Ok ctx => ctx | Err _ => zero_Context end) in
  cv_keys e = Some (pub, seed) →
  post (url +:+ "/api/auth/device-code") (device_request pub) t = None ∨
  (∃ dc t1, postDeviceCode post url pub t = Some (Ok dc, t1) ∧ now 1%nat < poll_deadline (now 0%nat) dc ∧
     post (url +:+ "/api/auth/device-code/poll") (poll_request (dr_DeviceCode dc)) t1 = None) →
  RunLogin post (S fuel) e now fl s t = Hangs.
Proof.
  intros url Hk H. unfold RunLogin. cbv zeta. rewrite Hk. fold url. destruct H as [H|(dc & t1 & -> & Hn & H)].
  - unfold postDeviceCode. by rewrite H.
  - cbn [poll_loop]. rewrite (proj2 (Z.ltb_lt _ _) Hn). unfold pollDeviceCode. by rewrite H.
Qed.

Lemma poll_loop_authorized fuel now k deadline url code t r t' :
  poll_loop post fuel now k deadline url code t = Ends (Authorized r, t') →
  po_Status r = "authorized"%string ∧ po_JWT r ≠ ""%string ∧ po_Error r = ""%string ∧ ∃ t0, pollDeviceCode post url code t0 = Some (Ok r, t').
Proof.
  revert k t. induction fuel as [|fuel IH]; intros k t; cbn [poll_loop]; [done|]. destruct (now k <? deadline); [|done].
  destruct (pollDeviceCode post url code t) as [[[r0|err] t1]|] eqn:Hp; [|apply IH|done].
  destruct (String.eqb_spec (po_Error r0) "") as [He|]; cbn [negb]; [|done]. destruct (String.eqb _ "pending"); [apply IH|].
  destruct (String.eqb_spec (po_Status r0) "authorized") as [Hs|]; cbn [andb]; [|apply IH]. destruct (String.eqb_spec (po_JWT r0) "") as [|Hj]; cbn [negb]; [apply IH|].
  intros [= <- <-]. eauto.
Qed.

(** A login that succeeds was authorized by an answer to a poll for the code of this
    login; the credentials written are the answer's token and the seed made here; they
    are read back; and no file but these and the context's has changed. *)
Theorem login_sound_client fuel e now fl s t u path s' t' :
  RunLogin post fuel e now fl s t = Ends (Ok (u, path), s', t') →
  let ctxPath := first_nonempty (lf_ContextPath fl) (DefaultPath e) in
  cv_fail e "read" path = false → path ≠ ctxPath → path ≠ ""%string →
  (∀ pub seed, cv_keys e = Some (pub, seed) → seed ≠ ""%string) →
  ∃ pub seed url dc r t1 t2, cv_keys e = Some (pub, seed) ∧ postDeviceCode post url pub t = Some (Ok dc, t1) ∧
    pollDeviceCode post url (dr_DeviceCode dc) t2 = Some (Ok r, t') ∧ po_Status r = "authorized"%string ∧ po_JWT r ≠ ""%string ∧ u = po_UserSlug r ∧
    (let c := {| ac_JWT := po_JWT r; ac_NKeySeed := seed; ac_UserSlug := u; ac_NATSUrl := po_NATSUrl r |} in reads_back (credentials_json c) → LoadAuth e path s' = Ok c) ∧
    ∀ p, p ≠ path → p ≠ ctxPath → cf_files s' !! p = cf_files s !! p.
Proof.
  intros Hrun ctxPath Hread Hne Hpath Hseed. unfold RunLogin in Hrun. fold ctxPath in Hrun. destruct (cv_keys e) as [[pub seed]|]; [|done].
  specialize (Hseed pub seed eq_refl). set (ctx := match Load e ctxPath s with Ok _ => _ | Err _ => _ end) in *. set (url := ResolveServerURL _ ctx) in *.
  destruct (postDeviceCode post url pub t) as [[[dc|err] t1]|] eqn:Hpost; [|done..].
  destruct (poll_loop _ _ _ _ _ _ _ _) as [[[r|err|] t2]| |] eqn:Hloop; try done. apply poll_loop_authorized in Hloop as (H1 & H2 & H3 & t0 & H4).
  destruct (SaveAuth _ _ _ _) as [[err|] s1] eqn:Hsave; [done|]. injection Hrun as <- <- <- <-.
  set (c := {| ac_JWT := po_JWT r; ac_NKeySeed := seed; ac_UserSlug := po_UserSlug r; ac_NATSUrl := po_NATSUrl r |}) in *.
  set (path := first_nonempty (lf_AuthPath fl) (DefaultAuthPath e)) in *. unfold SaveAuth in Hsave.
  assert (Hpp : first_nonempty path (DefaultAuthPath e) = path) by (unfold first_nonempty at 1; by rewrite (proj2 (String.eqb_neq _ _) Hpath)). rewrite Hpp in Hsave.
  destruct (Save e ctxPath (with_user (po_UserSlug r) ctx) s1) as [err s2] eqn:Hctx. cbn [snd].
  assert (Hkeep : ∀ p, p ≠ ctxPath → cf_files s2 !! p = cf_files s1 !! p) by (intros p Hp; by eapply save_file_other).
  exists pub, seed, url, dc, r, t1, t0. split_and!; try done.
  - intros Hparse. unfold LoadAuth. rewrite Hpp. unfold read_file. rewrite Hread, Hkeep by done. apply save_file_None in Hsave as (-> & _ & _). rewrite lookup_insert_eq.
    unfold reads_back in Hparse. fold c in Hparse. unfold unmarshal. rewrite Hparse, credentials_decode. cbn [ac_JWT ac_NKeySeed c]. by rewrite (proj2 (String.eqb_neq _ _) H2), (proj2 (String.eqb_neq _ _) Hseed).
  - intros p Hp1 Hp2. rewrite Hkeep by done. apply save_file_None in Hsave as (-> & _ & _). by rewrite lookup_insert_ne.
Qed.

(** An answer with a status of its own, such as the 410 of an expired code, is taken as
    a passing failure: polling goes on. *)
Theorem error_status_retried fuel now k deadline url code t status body t1 :
  now k < deadline → post (url +:+ "/api/auth/device-code/poll") (poll_request code) t = Some (Some (status, body), t1) → status ≠ 200 →
  poll_loop post (S fuel) now k deadline url code t = poll_loop post fuel now (S k) deadline url code t1.
Proof.
  intros Hk Hp Hs. cbn [poll_loop]. rewrite (proj2 (Z.ltb_lt _ _) Hk). unfold pollDeviceCode. rewrite Hp. unfold read_answer. by rewrite (proj2 (Z.eqb_neq _ _) Hs).
Qed.

End login.

(** ** Hosts *)

(** The client's directory is a clean absolute path. *)
Definition clean_home (e : cli_env) (ds : list string) : Prop := ds ≠ [] ∧ Forall plain ds ∧ mclaudeDir e = root ds.

Lemma plain_hosts : plain "hosts".
Proof. by split. Qed.

Lemma hostDir_root e ds h : clean_home e ds → Validate h = None → hostDir e h = root (ds ++ ["hosts"%string; h]) ∧ Forall plain (ds ++ ["hosts"%string; h]).
Proof.
  intros (Hne & Hp & Hd) Hv%valid_plain. unfold hostDir. rewrite Hd. assert (Forall plain ["hosts"%string; h]) by (rewrite !Forall_cons; split_and!; [apply plain_hosts|done|done]).
  split; [by apply Join_root|by apply Forall_app].
Qed.

Lemma in_hostDir e ds h x : clean_home e ds → Validate h = None → plain x → below (hostDir e h) (path_Join [hostDir e h; x]) = true.
Proof.
  intros Hc Hv Hx. destruct (hostDir_root e ds h Hc Hv) as [-> Hp]. assert (ds ++ ["hosts"%string; h] ≠ []) by (by destruct ds).
  rewrite Join_root; [|done..|by rewrite Forall_cons]. apply below_root; [done|by destruct ds|done| |by eexists]. apply Forall_app. split; [done|by rewrite Forall_cons].
Qed.

(** The files a command on a host may change. *)
Definition own_file (e : cli_env) (h ctxPath p : string) : Prop := below (hostDir e h) p = true ∨ p = ctxPath.

Lemma write_other e path data s err s' p : write_file e path data s = (err, s') → p ≠ path → cf_files s' !! p = cf_files s !! p.
Proof. unfold write_file. intros H Hp. case_match; simplify_eq/=; [done|by rewrite lookup_insert_ne]. Qed.

Lemma drop_tree_other dir s p : below dir p = false → cf_files (drop_tree dir s) !! p = cf_files s !! p.
Proof.
  intros Hb. unfold drop_tree. cbn. destruct (cf_files s !! p) as [d|] eqn:Hl.
  - by apply map_lookup_filter_Some_2.
  - apply map_lookup_filter_None_2. by left.
Qed.

Lemma plain_names : plain "nkey.seed" ∧ plain "nats.creds" ∧ plain "config.json".
Proof. by repeat split. Qed.

(** Registering, choosing, completing and removing a host change no file outside its
    directory, but the context file; the directories of other hosts stay as they
    are. *)
Theorem hosts_confined e ds h ctxPath jwt hub s s' p :
  clean_home e ds → Validate h = None → let ctx := first_nonempty ctxPath (DefaultPath e) in ¬ own_file e h ctx p →
  (∃ name r, Slugify name = h ∧ RunHostRegister e ctxPath name s = (r, s') ∧ name ≠ ""%string) ∨
  (∃ r, RunHostUse e h s = (r, s') ∧ ctx = DefaultPath e) ∨ (∃ r, RunHostRm e ctxPath h s = (r, s')) ∨ (∃ r, WriteHostCredentials e h jwt hub s = (r, s')) →
  cf_files s' !! p = cf_files s !! p.
Proof.
  intros Hc Hv ctx Hown Hrun. destruct plain_names as (P1 & P2 & P3).
  assert (Hout : ∀ x, plain x → p ≠ path_Join [hostDir e h; x]) by (intros x Hx ->; apply Hown; left; by eapply in_hostDir).
  assert (Hctx : p ≠ ctx) by (intros ->; apply Hown; by right).
  assert (Hb : below (hostDir e h) p = false) by (destruct (below (hostDir e h) p) eqn:E; [|done]; destruct Hown; by left).
  destruct Hrun as [(name & r & Hs & Hr & Hn)|[(r & Hr & Hd)|[(r & Hr)|(r & Hr)]]].
  - unfold RunHostRegister in Hr. rewrite (proj2 (String.eqb_neq _ _) Hn), Hs in Hr.
    destruct (logged_in _ _ _); [|by simplify_eq]. destruct (String.eqb h ""); [by simplify_eq|]. rewrite Hv in Hr.
    destruct (cv_keys e) as [[pub seed]|]; [|by simplify_eq]. unfold mkdir in Hr. destruct (cv_fail e "mkdir" _); [by simplify_eq|].
    destruct (write_file _ _ _ _) as [err s1] eqn:Hw. apply (write_other _ _ _ _ _ _ p) in Hw; [|by apply Hout]. destruct err; by simplify_eq.
  - unfold RunHostUse in Hr. rewrite Hv in Hr. destruct (negb _); [by simplify_eq|]. destruct (_ || _); [by case_match; simplify_eq|].
    set (s1 := put_link (Some _) _) in *. rewrite Hd in Hctx. injection Hr as _ <-.
    destruct (Save e (DefaultPath e) _ s1) as [err s2] eqn:Hsave. cbn [snd]. rewrite (save_file_other _ _ _ _ _ _ p Hsave Hctx). unfold s1. cbn. by destruct (cv_fail _ _ _).
  - unfold RunHostRm in Hr. rewrite Hv in Hr. destruct (logged_in _ _ _); [|by simplify_eq]. destruct (cv_fail _ _ _); [by simplify_eq|].
    fold ctx in Hr. destruct (String.eqb _ h); [|simplify_eq; by apply drop_tree_other].
    set (s1 := if cv_fail _ _ _ then _ else _) in *. assert (H1 : cf_files s1 !! p = cf_files s !! p) by (unfold s1; destruct (cv_fail e "remove" _); by apply drop_tree_other).
    injection Hr as _ <-. destruct (String.eqb _ h); [|done]. destruct (Save e ctx _ s1) as [err s2] eqn:Hsave. cbn [snd]. by rewrite (save_file_other _ _ _ _ _ _ p Hsave Hctx).
  - unfold WriteHostCredentials in Hr. destruct (read_file _ _ _) as [[seed|]|]; [|by simplify_eq..].
    destruct (write_file e (creds_path e h) _ s) as [err s1] eqn:H1. apply (write_other _ _ _ _ _ _ p) in H1; [|by apply Hout].
    destruct err; [by simplify_eq|]. apply (write_other _ _ _ _ _ _ p) in Hr; [|by apply Hout]. congruence.
Qed.

Lemma Base_host h : Validate h = None → path_Base (path_Join ["hosts"%string; h]) = h.
Proof.
  intros Hv%valid_plain. assert (Hp : Forall plain ["hosts"%string; h]) by (rewrite !Forall_cons; split_and!; [apply plain_hosts|done|done]).
  rewrite path_Join_rel by done. unfold path_Base. change (String.eqb (Join "/" ["hosts"%string; h]) "") with false. cbv iota.
  rewrite Split_Join; [|done|eapply Forall_impl; [exact Hp|by intros x []]]. cbn. destruct Hv as [Hne%String.eqb_neq _ _ _]. by rewrite Hne.
Qed.

(** After a host is chosen it is the active one, and the daemon of a logged in user
    runs for it without a flag. *)
Theorem chosen_host_runs e h s s' ctx :
  RunHostUse e h s = (None, s') → cv_fail e "readlink" (activeHostPath e) = false → logged_in e "" s' = Ok ctx →
  ResolveActiveHost e s' = h ∧
  ResolveDaemonConfig e "" "" s' = Ok ({| dg_UserSlug := cx_UserSlug ctx; dg_HostSlug := h; dg_HostDir := hostDir e h; dg_CredsPath := creds_path e h |}, exists_path (creds_path e h) s').
Proof.
  intros Hr Hl Hlog. unfold RunHostUse in Hr. destruct (Validate h) eqn:Hv; [done|]. destruct (exists_path (hostDir e h) s) eqn:Hex; cbn [negb] in Hr; [|done].
  destruct (_ || _) eqn:Hfail; [done|]. set (s1 := put_link (Some _) _) in *. set (x := match Load _ _ _ with Ok _ => _ | Err _ => _ end) in *.
  injection Hr as Hs. assert (Hact : ResolveActiveHost e s' = h).
  { unfold ResolveActiveHost. rewrite Hl, <- Hs. unfold Save. rewrite save_file_active. cbn. by apply Base_host. }
  split; [done|]. unfold ResolveDaemonConfig. rewrite Hlog. change (first_nonempty "" (ResolveActiveHost e s')) with (ResolveActiveHost e s'). rewrite Hact.
  assert (Hne : h ≠ ""%string) by by apply valid_slug_ne_empty. unfold first_nonempty. apply String.eqb_neq in Hne. rewrite Hne, Hne, Hv.
  assert (exists_path (hostDir e h) s' = true) as ->; [|done]. unfold exists_path in *. rewrite orb_true_iff, !bool_decide_eq_true in *. rewrite <- Hs.
  assert (Hd : cf_dirs s1 = cf_dirs s ∧ cf_files s1 = cf_files s) by (unfold s1; cbn; by destruct (cv_fail e "remove" _)). destruct Hd as [Hd Hf]. clearbody s1.
  unfold Save, save_file, mkdir, write_file. destruct (cv_fail e "mkdir" _); cbn; [by rewrite Hd, Hf|].
  destruct (cv_fail e "write" _); cbn; rewrite Hd, Hf; destruct Hex as [Hex|Hex]; try (left; unfold mkdir_all; set_solver); right; try done.
  destruct (decide (DefaultPath e = hostDir e h)) as [->|]; [rewrite lookup_insert_eq; eauto|by rewrite lookup_insert_ne].
Qed.

(** Registering a host again under the same slug replaces its seed and keeps the
    credentials of the old one. *)
Theorem registered_again_loses_key e ds name ctxPath s r s' :
  clean_home e ds → RunHostRegister e ctxPath name s = (Ok r, s') →
  ∃ pub seed, cv_keys e = Some (pub, seed) ∧ cf_files s' !! seed_path e r.1.1 = Some seed ∧ cf_files s' !! creds_path e r.1.1 = cf_files s !! creds_path e r.1.1.
Proof.
  intros Hc Hr. unfold RunHostRegister in Hr. destruct (logged_in _ _ _); [|done]. destruct (if String.eqb name "" then _ else _) as [name'|]; [|done].
  destruct (String.eqb _ ""); [done|]. destruct (Validate (Slugify name')) eqn:Hv; [done|]. destruct (cv_keys e) as [[pub seed]|]; [|done].
  unfold mkdir, write_file in Hr. destruct (cv_fail e "mkdir" _); [done|]. destruct (cv_fail e "write" _); [done|]. injection Hr as <- <-.
  exists pub, seed. cbn [fst cf_files put_file put_dirs]. split; [done|]. split; [apply lookup_insert_eq|]. apply lookup_insert_ne.
  unfold seed_path, creds_path. destruct (hostDir_root e ds _ Hc Hv) as [-> Hp]. set (l := ds ++ _) in *. assert (Hl : l ≠ []) by (unfold l; by destruct ds).
  destruct plain_names as (P1 & P2 & _). rewrite !Join_root by (done || by rewrite Forall_cons). intros Heq. apply root_inj in Heq; [|by destruct l|by destruct l|apply Forall_app; split; [done|by rewrite Forall_cons]..].
  apply app_inv_head in Heq. done.
Qed.

(** ** Slugs and arguments *)

(** A list of sessions is asked for exactly when the slugs of the user, the project and
    the host, from the flags or else from the context, are valid; a leading @ of the
    project does not count. *)
Theorem session_list_exact e fl s ctx r :
  Load e (first_nonempty (sl_ContextPath fl) (DefaultPath e)) s = Ok ctx →
  let u := first_nonempty (sl_UserSlug fl) (cx_UserSlug ctx) in
  let p := TrimPrefix (first_nonempty (sl_ProjectSlug fl) (cx_ProjectSlug ctx)) "@" in
  let h := first_nonempty (sl_HostSlug fl) (cx_HostSlug ctx) in
  RunSessionList e fl s = Ok r ↔
  Validate u = None ∧ Validate p = None ∧ Validate h = None ∧
  r = {| sr_UserSlug := u; sr_ProjectSlug := p; sr_HostSlug := h; sr_KVKeyPrefix := ProjectsKVKey h p; sr_EventsSubject := UserHostProjectSessionsEvents u h p "*" |}.
Proof.
  intros Hl u p h. unfold RunSessionList. rewrite Hl.
  assert (Hreq : ∀ g f c, (∀ v, g v = if String.eqb v "" then Ok ""%string else parsed_slug v) →
            required_slug g f c = match Validate (first_nonempty f c) with None => Ok (first_nonempty f c) | Some _ => required_slug g f c end ∧
            (Validate (first_nonempty f c) ≠ None → ∃ err, required_slug g f c = Err err)).
  { intros g f c Hg. unfold required_slug. rewrite Hg. unfold parsed_slug. destruct (String.eqb_spec (first_nonempty f c) "") as [->|Hne]; [split; [done|by eauto]|].
    destruct (Validate (first_nonempty f c)) eqn:Hv; [split; [done|by eauto]|]. split; [|done]. by rewrite (proj2 (String.eqb_neq _ _) Hne). }
  assert (Hproj : required_slug ParseProjectSlug (sl_ProjectSlug fl) (cx_ProjectSlug ctx) = match Validate p with None => Ok p | Some _ => required_slug ParseProjectSlug (sl_ProjectSlug fl) (cx_ProjectSlug ctx) end ∧
            (Validate p ≠ None → ∃ err, required_slug ParseProjectSlug (sl_ProjectSlug fl) (cx_ProjectSlug ctx) = Err err)).
  { unfold required_slug, ParseProjectSlug, parsed_slug, p. destruct (String.eqb_spec (first_nonempty (sl_ProjectSlug fl) (cx_ProjectSlug ctx)) "") as [->|Hne]; [split; [done|by eauto]|].
    set (q := TrimPrefix _ _). destruct (Validate q) eqn:Hv; [split; [done|by eauto]|]. split; [|done]. destruct (String.eqb_spec q "") as [Hq|]; [by rewrite Hq in Hv|done]. }
  destruct (Hreq ParseUserSlug (sl_UserSlug fl) (cx_UserSlug ctx) (λ v, eq_refl)) as [U1 U2], (Hreq ParseHostSlug (sl_HostSlug fl) (cx_HostSlug ctx) (λ v, eq_refl)) as [H1 H2], Hproj as [P1 P2].
  fold u in U1, U2. fold h in H1, H2. destruct (Validate u) eqn:Vu; [destruct U2 as [err ->]; [done|]; by split; [|intros (? & _)]|]. rewrite U1.
  destruct (Validate p) eqn:Vp; [destruct P2 as [err ->]; [done|]; by split; [|intros (_ & ? & _)]|]. rewrite P1.
  destruct (Validate h) eqn:Vh; [destruct H2 as [err ->]; [done|]; by split; [|intros (_ & _ & ? & _)]|]. rewrite H1.
  split; [by intros [= <-]|by intros (_ & _ & _ & ->)].
Qed.

End spec.

(** Flags written one after the other with their values are read back, and of several
    values of a flag the last counts, whatever it looks like. *)
Theorem flags_roundtrip names fs gs name v d :
  Forall (λ f : string * string, f.1 ∈ names) (fs ++ [(name, v)] ++ gs) → name ∉ gs.*1 →
  let l := fs ++ [(name, v)] ++ gs in
  value_flags names (concat ((λ f : string * string, [f.1; f.2]) <$> l)) = l ∧ flag_value l name d = v.
Proof.
  intros Hall Hn l. split.
  - fold l in Hall. clearbody l. induction Hall as [|[f x] l Hf _ IH]; [done|]. cbn in *. rewrite bool_decide_eq_true_2 by done. by rewrite IH.
  - unfold flag_value, l. rewrite !List.filter_app. cbn [List.filter fst]. rewrite String.eqb_refl.
    assert (List.filter (λ nv : string * string, String.eqb nv.1 name) gs = []) as ->; [|by rewrite app_nil_r, last_snoc].
    clear Hall l. induction gs as [|[g x] gs IH]; [done|]. cbn in *. apply not_elem_of_cons in Hn as [H1 H2].
    destruct (String.eqb_spec g name); [by subst|by apply IH].
Qed.

Lemma DeriveNATSURL_idempotent u : DeriveNATSURL (DeriveNATSURL u) = DeriveNATSURL u.
Proof. unfold DeriveNATSURL at 2 3. destruct (HasSuffix u "/nats") eqn:H; unfold DeriveNATSURL; [by rewrite H|]. by rewrite HasSuffix_app. Qed.

(** ** Examples *)

Module ClientDemo.

Definition creds : AuthCredentials := {| ac_JWT := "jwt"; ac_NKeySeed := "SUSEED"; ac_UserSlug := "alice"; ac_NATSUrl := "" |}.
Definition context : Context := {| cx_UserSlug := "alice"; cx_ProjectSlug := ""; cx_HostSlug := ""; cx_Server := "" |}.
Definition chosen : Context := with_host "laptop" context.
Definition code_doc : json := JObj [("deviceCode", JStr "dc-1"); ("userCode", JStr "ABCD"); ("expiresIn", JInt 20); ("interval", JInt 5)]%string.
Definition pending_doc : json := JObj [("status", JStr "pending")]%string.
Definition authorized_doc : json := JObj [("status", JStr "authorized"); ("jwt", JStr "jwt"); ("userSlug", JStr "alice")]%string.

Definition line (j : json) : string := print_plain j +:+ nl.
#[export] Instance text : JsonText := table_json
  [(line (credentials_json creds), credentials_json creds); (line (context_json context), context_json context); (line (context_json chosen), context_json chosen)].
#[export] Instance stream : JsonStream :=
  {| json_first s := snd <$> find_first (λ kv : string * json, String.eqb kv.1 s) [("code", code_doc); ("pending", pending_doc); ("authorized", authorized_doc)]%string |}.
#[export] Instance tables : UnicodeTables := {| lower_table r := r; mn_table _ := false; space_table _ := false |}.
#[export] Instance norm : Normalizer := {| nfd l := l; nfd_ascii l _ := eq_refl |}.

Definition env : cli_env :=
  {| cv_MCLAUDE_HOME := "/home/al/.mclaude"; cv_CONTEXT_FILE := "/home/al/.mclaude/context.json"; cv_home := Some "/home/al"%string; cv_hostname := Some "Laptop"%string;
     cv_keys := Some ("UALICE", "SUSEED")%string; cv_fail _ _ := false |}.

(** The server authorizes at the second poll; the state counts the requests. *)
Definition post (url : string) (body : json) (n : nat) : option (option (Z * string) * nat) :=
  Some (Some (200, match n with O => "code" | S O => "pending" | _ => "authorized" end)%string, S n).

Definition clock (k : nat) : Z := Z.of_nat k * (5 * Second).
Definition empty : cli_files := {| cf_files := ∅; cf_dirs := ∅; cf_active := None |}.
Definition flags : login_flags := {| lf_ServerURL := ""; lf_ContextPath := ""; lf_AuthPath := "" |}.
Definition logged : cli_files := (Save env (DefaultPath env) context empty).2.
Definition registered : cli_files := (RunHostRegister env "" "Laptop" logged).2.
Definition completed : cli_files := (WriteHostCredentials env "laptop" "jwt" "wss://hub" registered).2.

End ClientDemo.
Import (hints) ClientDemo.

Lemma context_roundtrip_witness : Load ClientDemo.env "/c.json" (Save ClientDemo.env "/c.json" ClientDemo.context ClientDemo.empty).2 = Ok ClientDemo.context.
Proof. apply context_roundtrip with ClientDemo.empty; vm_compute; reflexivity. Defined.

Lemma login_ends_witness : ∃ r, RunLogin ClientDemo.post 6 ClientDemo.env ClientDemo.clock ClientDemo.flags ClientDemo.empty 0%nat = Ends r.
Proof.
  apply (login_ends ClientDemo.post 6 ClientDemo.env ClientDemo.clock ClientDemo.flags ClientDemo.empty 0%nat).
  - intros url body t. discriminate.
  - intros url pub seed dc t1 Hu Hk Hp. injection Hk as <- <-. vm_compute in Hp. injection Hp as <- _. split.
    + intros k. unfold ClientDemo.clock. vm_compute (poll_interval _). unfold Second. lia.
    + vm_compute. reflexivity.
Defined.

Lemma silent_server_hangs_witness :
  RunLogin (λ _ _ (_ : unit), None) 6 ClientDemo.env ClientDemo.clock ClientDemo.flags ClientDemo.empty tt = Hangs.
Proof.
  apply (silent_server_hangs (λ _ _ (_ : unit), None) 5 ClientDemo.env ClientDemo.clock ClientDemo.flags ClientDemo.empty tt "UALICE" "SUSEED"); [reflexivity|by left].
Defined.

Lemma login_sound_client_witness : ∃ s', LoadAuth ClientDemo.env "" s' = Ok ClientDemo.creds ∧
  RunLogin ClientDemo.post 6 ClientDemo.env ClientDemo.clock ClientDemo.flags ClientDemo.empty 0%nat = Ends (Ok ("alice", "/home/al/.mclaude/auth.json")%string, s', 3%nat).
Proof.
  eexists. split; [|vm_compute; reflexivity].
  edestruct (login_sound_client ClientDemo.post 6 ClientDemo.env ClientDemo.clock ClientDemo.flags ClientDemo.empty 0%nat) as (pub & seed & url & dc & r & t1 & t2 & H1 & _ & H2 & _ & _ & H3 & H4 & _).
  - vm_compute. reflexivity.
  - reflexivity.
  - vm_compute. discriminate.
  - discriminate.
  - intros pub seed [= <- <-]. discriminate.
  - assert (t2 = 2%nat) as -> by (unfold pollDeviceCode, ClientDemo.post in H2; by injection H2). injection H1 as <- <-.
    unfold pollDeviceCode, ClientDemo.post in H2. vm_compute in H2. injection H2 as <-. apply H4. vm_compute. reflexivity.
Defined.

Lemma error_status_retried_witness :
  let post (url : string) (body : json) (n : nat) := Some (Some (410, "expired"%string), S n) in
  poll_loop post 2 ClientDemo.clock 1 (10 * Second) "u" "c" 0%nat = poll_loop post 1 ClientDemo.clock 2 (10 * Second) "u" "c" 1%nat.
Proof. intros post. apply (error_status_retried post 1 ClientDemo.clock 1 (10 * Second) "u" "c" 0%nat 410 "expired" 1%nat); [reflexivity|reflexivity|discriminate]. Defined.

Lemma hosts_confined_witness :
  let s' := (RunHostRm ClientDemo.env "" "laptop" ClientDemo.completed).2 in
  let auth := "/home/al/.mclaude/auth.json"%string in cf_files s' !! auth = cf_files ClientDemo.completed !! auth ∧ cf_files s' !! creds_path ClientDemo.env "laptop" = None.
Proof.
  intros s' auth. split; [|vm_compute; reflexivity].
  apply (hosts_confined ClientDemo.env ["home"; "al"; ".mclaude"]%string "laptop" "" "" "" ClientDemo.completed s' auth).
  - split_and!; [discriminate|repeat constructor; discriminate|reflexivity].
  - vm_compute. reflexivity.
  - intros [H|H]; vm_compute in H; discriminate.
  - right. right. left. eexists. vm_compute. reflexivity.
Defined.

Lemma chosen_host_runs_witness :
  let s' := (RunHostUse ClientDemo.env "laptop" ClientDemo.completed).2 in
  ResolveActiveHost ClientDemo.env s' = "laptop"%string ∧ is_ok (ResolveDaemonConfig ClientDemo.env "" "" s') = true.
Proof.
  intros s'. destruct (chosen_host_runs ClientDemo.env "laptop" ClientDemo.completed s' ClientDemo.chosen) as [H1 H2].
  - vm_compute. reflexivity.
  - reflexivity.
  - vm_compute. reflexivity.
  - split; [exact H1|by rewrite H2].
Defined.

Lemma registered_again_loses_key_witness :
  let s' := (RunHostRegister ClientDemo.env "" "Laptop" ClientDemo.completed).2 in
  cf_files s' !! creds_path ClientDemo.env "laptop" = cf_files ClientDemo.completed !! creds_path ClientDemo.env "laptop".
Proof.
  intros s'. edestruct (registered_again_loses_key ClientDemo.env ["home"; "al"; ".mclaude"]%string "Laptop" "" ClientDemo.completed) as (pub & seed & _ & _ & H).
  - split_and!; [discriminate|repeat constructor; discriminate|reflexivity].
  - vm_compute. reflexivity.
  - exact H.
Defined.

Lemma session_list_exact_witness :
  RunSessionList ClientDemo.env {| sl_UserSlug := ""; sl_ProjectSlug := "@web"; sl_HostSlug := "laptop"; sl_ContextPath := "" |} ClientDemo.logged =
  Ok {| sr_UserSlug := "alice"; sr_ProjectSlug := "web"; sr_HostSlug := "laptop"; sr_KVKeyPrefix := ProjectsKVKey "laptop" "web";
        sr_EventsSubject := UserHostProjectSessionsEvents "alice" "laptop" "web" "*" |}.
Proof. apply (session_list_exact ClientDemo.env _ ClientDemo.logged ClientDemo.context); [vm_compute; reflexivity|]. split_and!; vm_compute; reflexivity. Defined.

Lemma flags_roundtrip_witness :
  value_flags ["--host"; "--server"]%string ["--host"; "a"; "--host"; "--server"; "--server"; "u"]%string = [("--host", "a"); ("--host", "--server"); ("--server", "u")]%string ∧
  flag_value [("--host", "a"); ("--host", "--server"); ("--server", "u")]%string "--host" "" = "--server"%string.
Proof.
  apply (flags_roundtrip ["--host"; "--server"]%string [("--host", "a")]%string [("--server", "u")]%string "--host" "--server" "").
  - repeat constructor; set_solver.
  - set_solver.
Defined.
