(* ===== verification/Transcripts.v ===== *)
(** * Transcripts on disk (mclaude-session-agent: fswatch.go)

    The agent looks at one directory of transcripts.  Its watcher makes a session of
    every new transcript, its daily cleanup removes the old ones and those without a
    session.  A directory is a map of its own entries: neither looks below it.  The
    clock, what cannot be read or removed, and the failures of the store of sessions
    are arguments; one notification and one cleanup are atomic. *)

From S2P Require Import Prelude GoStrings GoPath Slug Subjects Json SessionState QuotaMonitor Agent Import.
Open Scope Z_scope.

(** An entry: a directory, or a file with its content and its time in nanoseconds. *)
Inductive dir_entry := SubDir | Transcript (data : string) (modTime : Z).

(** [tr_dir]: the entries by name, [None] when there is no directory to read. *)
Record transcripts := { tr_dir : option (gmap string dir_entry); tr_kv : gmap string SessionState }.

Definition put_kv (v : gmap string SessionState) (t : transcripts) : transcripts := {| tr_dir := tr_dir t; tr_kv := v |}.
Definition put_dir (v : gmap string dir_entry) (t : transcripts) : transcripts := {| tr_dir := Some v; tr_kv := tr_kv t |}.

(** The time; the entries without information, that cannot be opened and that cannot
    be removed; the text of the error that getting a key ends with, if it does not end
    with the answer of the store; whether putting fails. *)
Record watch_env := {
  w_now : Z;
  w_statErr : string → bool;
  w_openErr : string → bool;
  w_rmErr : string → bool;
  w_getErr : string → option string;
  w_putErr : string → bool;
}.

(** ** The cleanup *)

Definition jsonlCleanupMaxAge : Z := 90 * 24 * 3600 * 10 ^ 9.

Definition kvKeyForJSONLFile (filename hostSlug projectSlug : string) : string :=
  let sessID := TrimSuffix filename ".jsonl" in
  if String.eqb sessID "" || String.eqb sessID filename then "" else sessionKVKey hostSlug projectSlug sessID.

(** [a.sessKV.Get]. *)
Definition kv_get (e : watch_env) (t : transcripts) (key : string) : result string SessionState :=
  match w_getErr e key with
  | Some err => Err err
  | None => match tr_kv t !! key with Some st => Ok st | None => Err "nats: key not found"%string end
  end.

Definition kv_orphan (e : watch_env) (c : agent_config) (t : transcripts) (name : string) : bool :=
  let kvKey := kvKeyForJSONLFile name (ag_hostSlug c) (ag_projectSlug c) in
  if String.eqb kvKey "" then false
  else match kv_get e t kvKey with Err err => Contains err "key not found" | Ok _ => false end.

(** [!info.ModTime().After(cutoff)]. *)
Definition too_old (e : watch_env) (modTime : Z) : bool := modTime <=? w_now e - jsonlCleanupMaxAge.

(** Whether an entry goes. *)
Definition cleaned (e : watch_env) (c : agent_config) (t : transcripts) (name : string) (en : dir_entry) : bool :=
  match en with
  | SubDir => false
  | Transcript _ modTime =>
    if negb (HasSuffix name ".jsonl") then false
    else if w_statErr e name then false
    else if negb (too_old e modTime) && negb (kv_orphan e c t name) then false
    else negb (w_rmErr e name)
  end.

(** One entry of the listing. *)
Definition clean_entry (e : watch_env) (c : agent_config) (t : transcripts) (en : string * dir_entry) : transcripts :=
  match tr_dir t with
  | Some d => if cleaned e c t en.1 en.2 then put_dir (delete en.1 d) t else t
  | None => t
  end.

Definition doJSONLCleanup (e : watch_env) (c : agent_config) (t : transcripts) : transcripts :=
  match tr_dir t with
  | None => t
  | Some d => fold_left (clean_entry e c) (map_to_list d) t
  end.

(** [runJSONLCleanup]: at the start, and at every tick; [es] are their worlds. *)
Definition runJSONLCleanup (c : agent_config) (start : watch_env) (es : list watch_env) (t : transcripts) : transcripts :=
  fold_left (λ t e, doJSONLCleanup e c t) (start :: es) t.

(** ** What a transcript says of its session *)

Record jsonlSessionMeta := { md_sessionID : string; md_createdAt : Z; md_model : string; md_branch : string }.

(** The zero time. *)
Definition go_zero_time : Z := -62135596800 * 10 ^ 9.

Definition zero_meta : jsonlSessionMeta := {| md_sessionID := ""; md_createdAt := go_zero_time; md_model := ""; md_branch := "" |}.

(** The lines a scanner with a buffer of at most 1 MiB gives: it stops at a longer one. *)
Fixpoint scan_until (max : Z) (ls : list string) : list string :=
  match ls with
  | [] => []
  | l :: ls => if max <=? Z.of_nat (String.length l) then [] else drop_cr l :: scan_until max ls
  end.

Definition maxLines : nat := 10.

Section fswatch.
Context `{JT : JsonText, GT : GoTime}.

(** A member that decodes into a string; [null] leaves the empty one. *)
Definition string_member (name : string) (obj : gmap string json) : option string :=
  match obj !! name with
  | Some v => match dec_string v "" with (s, true) => Some s | (_, false) => None end
  | None => None
  end.

(** The last of the fields that parses counts. *)
Definition created_field (obj : gmap string json) (cur : Z) (tsField : string) : Z :=
  match string_member tsField obj with Some s => default cur (parse_rfc3339 s) | None => cur end.

(** The first of the fields that is not empty. *)
Definition branch_member (obj : gmap string json) : string :=
  default ""%string (list_find (λ s, s ≠ ""%string) (default ""%string ∘ (λ f, string_member f obj) <$> ["branch"; "git_branch"]%string) ≫= λ x, Some x.2).

Definition line_meta (m : jsonlSessionMeta) (line : string) : jsonlSessionMeta :=
  match json_parse line with
  | Some (JObj l) =>
    let obj := object_map l in
    {| md_sessionID := if String.eqb (md_sessionID m) "" then default ""%string (string_member "session_id" obj) else md_sessionID m;
       md_createdAt := if md_createdAt m =? go_zero_time then fold_left (created_field obj) ["timestamp"; "ts"; "created_at"]%string (md_createdAt m)
                       else md_createdAt m;
       md_model := if String.eqb (md_model m) "" then default ""%string (string_member "model" obj) else md_model m;
       md_branch := if String.eqb (md_branch m) "" then branch_member obj else md_branch m |}
  | _ => m
  end.

(** [None]: the file cannot be opened. *)
Definition extractJSONLSessionMeta (data : option string) : jsonlSessionMeta :=
  match data with
  | None => zero_meta
  | Some data => fold_left (λ m l, if String.eqb l "" then m else line_meta m l) (take maxLines (scan_until (1024 * 1024) (scan_lines data))) zero_meta
  end.

(** ** The watcher *)

Definition file_data (e : watch_env) (t : transcripts) (name : string) : option string :=
  match tr_dir t ≫= lookup name with
  | Some (Transcript data _) => if w_openErr e name then None else Some data
  | _ => None
  end.

Definition discovered_session (e : watch_env) (c : agent_config) (meta : jsonlSessionMeta) : SessionState :=
  {| st_ID := md_sessionID meta; st_Slug := md_sessionID meta; st_UserSlug := ag_userSlug c; st_HostSlug := ag_hostSlug c; st_ProjectSlug := ag_projectSlug c;
     st_ProjectID := ag_projectID c; st_Branch := md_branch meta; st_Worktree := ""; st_CWD := ""; st_Name := "Imported session"; st_State := StatusCompleted;
     st_StateSince := w_now e; st_CreatedAt := if md_createdAt meta =? go_zero_time then w_now e else md_createdAt meta; st_Backend := ""; st_Model := md_model meta;
     st_Capabilities := zero_Capabilities; st_Tools := []; st_Skills := []; st_Agents := []; st_PendingControls := None; st_Usage := zero_Usage;
     st_ReplayFromSeq := 0%N; st_JoinWorktree := false; st_ExtraFlags := ""; st_SoftThreshold := 0; st_HardHeadroomTokens := 0; st_AutoContinue := false;
     st_BranchSlug := ""; st_PausedVia := ""; st_ClaudeSessionID := ""; st_FailedTool := ""; st_ResumeAt := None |}.

(** The session a transcript is taken for: the id in its text, or its name. *)
Definition transcript_meta (e : watch_env) (t : transcripts) (base : string) : jsonlSessionMeta :=
  let meta := extractJSONLSessionMeta (file_data e t base) in
  if String.eqb (md_sessionID meta) ""
  then {| md_sessionID := TrimSuffix base ".jsonl"; md_createdAt := md_createdAt meta; md_model := md_model meta; md_branch := md_branch meta |}
  else meta.

Definition handleNewJSONLFile (e : watch_env) (c : agent_config) (base : string) (t : transcripts) : transcripts :=
  let sessionID := TrimSuffix base ".jsonl" in
  if String.eqb sessionID "" || String.eqb sessionID base then t
  else
    let meta := transcript_meta e t base in
    let key := sessionKVKey (ag_hostSlug c) (ag_projectSlug c) (md_sessionID meta) in
    match kv_get e t key with
    | Ok _ => t
    | Err _ => if w_putErr e key then t else put_kv (<[key := discovered_session e c meta]> (tr_kv t)) t
    end.

(** A notification: what happened to which entry. *)
Record notification := { n_create : bool; n_rename : bool; n_name : string }.

(** [watchSessionDataDir], one notification. *)
Definition on_notification (e : watch_env) (c : agent_config) (n : notification) (t : transcripts) : transcripts :=
  if negb (n_create n || n_rename n) then t
  else if negb (HasSuffix (n_name n) ".jsonl") then t
  else handleNewJSONLFile e c (path_Base (n_name n)) t.

End fswatch.
