(* ===== verification/TranscriptsSpec.v ===== *)
(** * What watching and cleaning transcripts guarantees (mclaude-session-agent:
    fswatch.go)

    Exactly which files a cleanup removes; that a discovered session keeps its
    transcript; and the sessions whose transcripts are removed, whose records are
    overwritten, or that are found a second time. *)

From stdpp Require Import fin_maps gmap.
From S2P Require Import Prelude GoStrings GoPath Slug Subjects Json SessionState Session QuotaMonitor Drivers Agent AgentSpec Import Transcripts.
Open Scope Z_scope.

Section spec.
Context `{JT : JsonText, GT : GoTime}.

Definition jsonl (id : string) : string := (id +:+ ".jsonl")%string.

Lemma jsonl_suffix id : HasSuffix (jsonl id) ".jsonl" = true.
Proof. apply HasSuffix_app. Qed.

Lemma jsonl_trim id : TrimSuffix (jsonl id) ".jsonl" = id.
Proof.
  unfold TrimSuffix. rewrite jsonl_suffix. unfold jsonl. rewrite length_app_str. replace (_ + _ - _)%nat with (String.length id) by lia.
  apply take_str_app.
Qed.

Lemma jsonl_other id : String.eqb id (jsonl id) = false.
Proof. apply String.eqb_neq. intros He. apply (f_equal String.length) in He. unfold jsonl in He. rewrite length_app_str in He. cbn in He. lia. Qed.

Lemma jsonl_key id h p : id ≠ ""%string → kvKeyForJSONLFile (jsonl id) h p = sessionKVKey h p id.
Proof. intros Hid. unfold kvKeyForJSONLFile. rewrite jsonl_trim, jsonl_other. by apply String.eqb_neq in Hid as ->. Qed.

Lemma key_nonempty h p id : String.eqb (sessionKVKey h p id) "" = false.
Proof. done. Qed.

Lemma key_inj h p a b : sessionKVKey h p a = sessionKVKey h p b → a = b.
Proof. unfold sessionKVKey, SessionsKVKey. intros He. by do 5 apply string_app_inj_l in He. Qed.

(** A name ends in [.jsonl] when it is one of an id. *)
Lemma jsonl_spec name : HasSuffix name ".jsonl" = true ↔ ∃ id, name = jsonl id.
Proof. apply HasSuffix_spec. Qed.

(** ** The cleanup, exactly *)

Lemma cleaned_ext e c t t' name en : tr_kv t = tr_kv t' → cleaned e c t name en = cleaned e c t' name en.
Proof. intros Hk. unfold cleaned, kv_orphan, kv_get. by rewrite Hk. Qed.

Lemma clean_entry_kv e c t en : tr_kv (clean_entry e c t en) = tr_kv t.
Proof. unfold clean_entry. destruct (tr_dir t); [|done]. by destruct (cleaned _ _ _ _ _). Qed.

Lemma clean_fold e c (l : list (string * dir_entry)) t d :
  NoDup l.*1 → tr_dir t = Some d →
  ∃ d', tr_dir (fold_left (clean_entry e c) l t) = Some d' ∧ tr_kv (fold_left (clean_entry e c) l t) = tr_kv t ∧
    ∀ n, d' !! n = match list_to_map (M := gmap string dir_entry) l !! n with
                   | Some en => if cleaned e c t n en then None else d !! n
                   | None => d !! n
                   end.
Proof.
  revert t d. induction l as [|[k en] l IH]; intros t d Hnd Hd; cbn [fold_left].
  { exists d. split_and!; [done|done|]. intros n. cbn. by rewrite lookup_empty. }
  cbn in Hnd. apply NoDup_cons in Hnd as [Hk Hnd].
  set (t1 := clean_entry e c t (k, en)). assert (Hkv : tr_kv t1 = tr_kv t) by apply clean_entry_kv.
  assert (∃ d1, tr_dir t1 = Some d1 ∧ ∀ n, d1 !! n = if decide (n = k) then (if cleaned e c t k en then None else d !! k) else d !! n) as (d1 & Hd1 & Hl1).
  { unfold t1, clean_entry. rewrite Hd. cbn [fst snd]. destruct (cleaned e c t k en) eqn:Hc; cbn.
    - exists (delete k d). split; [done|]. intros n. destruct (decide (n = k)) as [->|Hne]; [by rewrite lookup_delete_eq|by rewrite lookup_delete_ne].
    - exists d. split; [done|]. intros n. by destruct (decide (n = k)) as [->|]. }
  destruct (IH t1 d1 Hnd Hd1) as (d' & Hd' & Hkv' & Hl'). exists d'. split_and!; [done|by rewrite Hkv'|]. intros n. rewrite Hl'. cbn.
  rewrite !Hl1. destruct (decide (n = k)) as [->|Hne].
  - rewrite lookup_insert_eq. rewrite (proj1 (not_elem_of_list_to_map _ _)); [done|done].
  - rewrite lookup_insert_ne by done. destruct (_ !! n); [|done]. by rewrite (cleaned_ext e c t1 t).
Qed.

Lemma cleanup_dir e c t d : tr_dir t = Some d →
  ∃ d', tr_dir (doJSONLCleanup e c t) = Some d' ∧ tr_kv (doJSONLCleanup e c t) = tr_kv t ∧
    ∀ n, d' !! n = match d !! n with Some en => if cleaned e c t n en then None else Some en | None => None end.
Proof.
  intros Hd. unfold doJSONLCleanup. rewrite Hd. destruct (clean_fold e c (map_to_list d) t d) as (d' & H1 & H2 & H3); [apply NoDup_fst_map_to_list|done|].
  exists d'. split_and!; [done|done|]. intros n. rewrite H3, list_to_map_to_list. by destruct (d !! n) eqn:En.
Qed.

(** Whether the store says that a key is not there. *)
Definition told_missing (e : watch_env) (t : transcripts) (key : string) : Prop :=
  ∃ err, kv_get e t key = Err err ∧ Contains err "key not found" = true.

Lemma orphan_spec e c t id : id ≠ ""%string →
  kv_orphan e c t (jsonl id) = true ↔ told_missing e t (sessionKVKey (ag_hostSlug c) (ag_projectSlug c) id).
Proof.
  intros Hid. unfold kv_orphan, told_missing. rewrite jsonl_key by done. rewrite key_nonempty. destruct (kv_get _ _ _) as [st|err].
  - split; [done|]. by intros (? & ? & _).
  - split; [by eauto|]. by intros (err' & [= <-] & Hc).
Qed.

(** C30. A cleanup touches no record and removes exactly the transcripts, files named
    after an id, that it can stat and remove and that are 90 days old or whose
    session the store says it does not have.  Directories, with everything in them,
    and files of other names stay. *)
Theorem cleanup_exact (e : watch_env) (c : agent_config) (t : transcripts) (d : gmap string dir_entry) :
  tr_dir t = Some d →
  tr_kv (doJSONLCleanup e c t) = tr_kv t ∧
  ∃ d', tr_dir (doJSONLCleanup e c t) = Some d' ∧ (∀ n en, d' !! n = Some en → d !! n = Some en) ∧
    ∀ n, (is_Some (d !! n) ∧ d' !! n = None) ↔
      ∃ id data modTime, n = jsonl id ∧ d !! n = Some (Transcript data modTime) ∧ w_statErr e n = false ∧ w_rmErr e n = false ∧
        (modTime ≤ w_now e - jsonlCleanupMaxAge ∨ (id ≠ ""%string ∧ told_missing e t (sessionKVKey (ag_hostSlug c) (ag_projectSlug c) id))).
Proof.
  intros Hd. destruct (cleanup_dir e c t d Hd) as (d' & Hd' & Hkv & Hl). split; [done|]. exists d'. split; [done|]. split.
  { intros n en. rewrite Hl. destruct (d !! n); [|done]. by destruct (cleaned _ _ _ _ _). }
  intros n. rewrite Hl. split.
  - intros [[en Hen] Hgone]. rewrite Hen in Hgone |- *. destruct (cleaned e c t n en) eqn:Hc; [|done]. destruct en as [|data modTime]; [done|].
    unfold cleaned in Hc. destruct (HasSuffix n ".jsonl") eqn:Hs; [|done]. apply jsonl_spec in Hs as [id ->]. cbn [negb] in Hc.
    destruct (w_statErr e (jsonl id)) eqn:Hst; [done|]. exists id, data, modTime. split_and!; [done..| |].
    + destruct (negb (too_old e modTime) && _); [done|]. by apply negb_true_iff in Hc.
    + unfold too_old in Hc. destruct (Z.leb_spec modTime (w_now e - jsonlCleanupMaxAge)); [by left|right]. cbn in Hc.
      destruct (String.eqb_spec id "") as [->|Hid]; [by vm_compute in Hc|]. split; [done|]. apply orphan_spec; [done|]. by destruct (kv_orphan e c t (jsonl id)).
  - intros (id & data & modTime & -> & Hen & Hst & Hrm & Hwhy). rewrite Hen. split; [done|]. unfold cleaned. rewrite jsonl_suffix, Hst, Hrm. cbn [negb].
    assert (Hx : negb (too_old e modTime) && negb (kv_orphan e c t (jsonl id)) = false).
    { destruct Hwhy as [Hold|[Hid Ho]].
      - unfold too_old. by apply Z.leb_le in Hold as ->.
      - apply (orphan_spec e c t id Hid) in Ho as ->. apply andb_false_r. }
    by rewrite Hx.
Qed.

(** *** Over the days *)

Lemma cleanup_gone e c t n : (∀ d, tr_dir t = Some d → d !! n = None) → ∀ d, tr_dir (doJSONLCleanup e c t) = Some d → d !! n = None.
Proof.
  intros Hn d Hd. destruct (tr_dir t) as [d0|] eqn:E.
  - destruct (cleanup_dir e c t d0 E) as (d' & Hd' & _ & Hl). assert (d' = d) as <- by congruence. rewrite Hl. by rewrite (Hn d0).
  - unfold doJSONLCleanup in Hd. rewrite E in Hd. congruence.
Qed.

(** A transcript that is 90 days old at one of the daily cleanups, at which it can be
    read and removed, is gone from then on, whatever the store answers. *)
Theorem old_transcripts_go (c : agent_config) (start e : watch_env) (es es' : list watch_env) (id data : string) (modTime : Z) (t : transcripts) (d : gmap string dir_entry) :
  tr_dir t = Some d → d !! jsonl id = Some (Transcript data modTime) →
  modTime ≤ w_now e - jsonlCleanupMaxAge → w_statErr e (jsonl id) = false → w_rmErr e (jsonl id) = false →
  ∃ d', tr_dir (runJSONLCleanup c start (es ++ e :: es') t) = Some d' ∧ d' !! jsonl id = None.
Proof.
  intros Hd Hf Hold Hst Hrm.
  assert (Hkeep : ∀ l t0 d0, tr_dir t0 = Some d0 → ∃ d1, tr_dir (fold_left (λ t e, doJSONLCleanup e c t) l t0) = Some d1 ∧
      (∀ n, d0 !! n = None → d1 !! n = None) ∧ (∀ n en, d1 !! n = Some en → d0 !! n = Some en)).
  { intros l. induction l as [|x l IH]; intros t0 d0 H0; cbn; [by exists d0|]. destruct (cleanup_dir x c t0 d0 H0) as (d' & H1 & _ & Hl).
    destruct (IH _ d' H1) as (d1 & H2 & H3 & H4). exists d1. split_and!; [done| |].
    - intros n Hn. apply H3. by rewrite Hl, Hn.
    - intros n en Hn. apply H4 in Hn. rewrite Hl in Hn. destruct (d0 !! n); [|done]. by destruct (cleaned _ _ _ _ _). }
  unfold runJSONLCleanup. change (start :: es ++ e :: es') with ((start :: es) ++ e :: es'). rewrite fold_left_app. cbn [fold_left].
  destruct (Hkeep (start :: es) t d Hd) as (d1 & Hd1 & _ & Hsub). cbn [fold_left] in Hd1. set (t1 := fold_left _ es _) in *.
  destruct (cleanup_dir e c t1 d1 Hd1) as (d2 & Hd2 & _ & Hl2).
  assert (Hgone : d2 !! jsonl id = None).
  { rewrite Hl2. destruct (d1 !! jsonl id) as [en|] eqn:En; [|done]. apply Hsub in En. assert (en = Transcript data modTime) as -> by congruence.
    unfold cleaned, too_old. rewrite jsonl_suffix, Hst, Hrm. by apply Z.leb_le in Hold as ->. }
  destruct (Hkeep es' _ d2 Hd2) as (d3 & Hd3 & H3 & _). exists d3. split; [done|]. by apply H3.
Qed.

(** ** The watcher *)

(** The key under which a transcript's session is looked for and stored. *)
Definition transcript_key (e : watch_env) (c : agent_config) (t : transcripts) (base : string) : string :=
  sessionKVKey (ag_hostSlug c) (ag_projectSlug c) (md_sessionID (transcript_meta e t base)).

(** A notification changes no file and at most the record under the key of the
    transcript; what it writes there is completed.  A record that was there changes
    exactly when the store did not answer to the question for it and then took the
    new one: a store that answers loses nothing, one that times out once has the
    record of a running session replaced. *)
Theorem discovery_exact (e : watch_env) (c : agent_config) (n : notification) (t : transcripts) :
  let t' := on_notification e c n t in
  let key := transcript_key e c t (path_Base (n_name n)) in
  tr_dir t' = tr_dir t ∧ (∀ k, k ≠ key → tr_kv t' !! k = tr_kv t !! k) ∧
  (tr_kv t' !! key = tr_kv t !! key ∨ ∃ st, tr_kv t' !! key = Some st ∧ st_State st = StatusCompleted ∧ sessionKVKey (st_HostSlug st) (st_ProjectSlug st) (st_ID st) = key) ∧
  (∀ old, tr_kv t !! key = Some old → w_getErr e key = None → tr_kv t' !! key = Some old) ∧
  (∀ id, path_Base (n_name n) = jsonl id → id ≠ ""%string → n_create n || n_rename n = true → HasSuffix (n_name n) ".jsonl" = true →
     is_Some (w_getErr e key) → w_putErr e key = false → ∃ st, tr_kv t' !! key = Some st ∧ st_State st = StatusCompleted).
Proof.
  intros t' key. assert (Ht : t' = t ∨ (w_putErr e key = false ∧ (∃ err, kv_get e t key = Err err) ∧
     t' = put_kv (<[key := discovered_session e c (transcript_meta e t (path_Base (n_name n)))]> (tr_kv t)) t)).
  { unfold t', on_notification. destruct (negb _); [by left|]. destruct (negb _); [by left|]. unfold handleNewJSONLFile. destruct (_ || _); [by left|].
    fold (transcript_key e c t (path_Base (n_name n))). fold key. destruct (kv_get e t key) as [?|err]; [by left|]. destruct (w_putErr e key) eqn:Hp; [by left|]. right. by eauto. }
  split; [|split; [|split; [|split]]].
  - by destruct Ht as [->|(_ & _ & ->)].
  - intros k Hk. destruct Ht as [->|(_ & _ & ->)]; [done|]. cbn. by rewrite lookup_insert_ne.
  - destruct Ht as [->|(_ & _ & ->)]; [by left|]. right. cbn. rewrite lookup_insert_eq. eexists. by split_and!.
  - intros old Hold Hget. destruct Ht as [->|(_ & [err Herr] & _)]; [done|]. unfold kv_get in Herr. by rewrite Hget, Hold in Herr.
  - intros id Hbase Hid Hop Hsuf [err Herr] Hput.
    assert (Hg : String.eqb (TrimSuffix (path_Base (n_name n)) ".jsonl") "" || String.eqb (TrimSuffix (path_Base (n_name n)) ".jsonl") (path_Base (n_name n)) = false)
      by (rewrite Hbase, jsonl_trim, jsonl_other; by apply String.eqb_neq in Hid as ->).
    unfold t', on_notification. rewrite Hop, Hsuf. cbn [negb]. unfold handleNewJSONLFile. cbv zeta. rewrite Hg. fold (transcript_key e c t (path_Base (n_name n))). fold key.
    unfold kv_get. rewrite Herr, Hput. cbn. rewrite lookup_insert_eq. by eexists.
Qed.

(** ** The watcher and the cleanup *)

Definition appears (n : notification) (id : string) : Prop :=
  path_Base (n_name n) = jsonl id ∧ id ≠ ""%string ∧ n_create n || n_rename n = true ∧ HasSuffix (n_name n) ".jsonl" = true.

Definition session_of (e : watch_env) (t : transcripts) (id : string) : string := md_sessionID (transcript_meta e t (jsonl id)).

(** What a notification does when the store answers. *)
Lemma appeared e c n t id : appears n id →
  let key := sessionKVKey (ag_hostSlug c) (ag_projectSlug c) (session_of e t id) in
  w_getErr e key = None → w_putErr e key = false →
  on_notification e c n t = match tr_kv t !! key with
                            | Some _ => t
                            | None => put_kv (<[key := discovered_session e c (transcript_meta e t (jsonl id))]> (tr_kv t)) t
                            end.
Proof.
  intros (Hbase & Hid & Hop & Hsuf) key Hget Hput. unfold on_notification. rewrite Hop, Hsuf. cbn [negb]. unfold handleNewJSONLFile. cbv zeta. rewrite Hbase, jsonl_trim, jsonl_other.
  apply String.eqb_neq in Hid as ->. cbn [orb]. fold (session_of e t id). fold key. unfold kv_get. rewrite Hget. destruct (tr_kv t !! key); [done|]. by rewrite Hput.
Qed.

Lemma cleanup_lookup e c t d name : tr_dir t = Some d →
  tr_dir (doJSONLCleanup e c t) ≫= lookup name = match d !! name with Some en => if cleaned e c t name en then None else Some en | None => None end.
Proof. intros Hd. destruct (cleanup_dir e c t d Hd) as (d' & -> & _ & Hl). cbn. apply Hl. Qed.

(** A transcript that carries the id it is named after, or none, has a record once
    the watcher has seen it, and no cleanup of the following 90 days takes it while
    the store answers. *)
Theorem discovered_kept (e e' : watch_env) (c : agent_config) (n : notification) (t : transcripts) (d : gmap string dir_entry) (id data : string) (modTime : Z) :
  appears n id → tr_dir t = Some d → d !! jsonl id = Some (Transcript data modTime) → session_of e t id = id →
  let key := sessionKVKey (ag_hostSlug c) (ag_projectSlug c) id in
  w_getErr e key = None → w_putErr e key = false → w_getErr e' key = None → w_now e' - jsonlCleanupMaxAge < modTime →
  let t' := doJSONLCleanup e' c (on_notification e c n t) in
  tr_dir t' ≫= lookup (jsonl id) = Some (Transcript data modTime) ∧ is_Some (tr_kv t' !! key).
Proof.
  intros Hn Hd Hf Hsame key Hget Hput Hget' Hyoung t'.
  assert (Hk : is_Some (tr_kv (on_notification e c n t) !! key) ∧ tr_dir (on_notification e c n t) = Some d).
  { rewrite (appeared e c n t id) by (rewrite ?Hsame; done). rewrite Hsame. fold key. destruct (tr_kv t !! key) eqn:Ek; [by rewrite Ek|]. cbn. rewrite lookup_insert_eq. by split. }
  destruct Hk as [Hk Hdir]. unfold t'. set (t1 := on_notification e c n t) in *. split.
  - rewrite (cleanup_lookup e' c t1 d) by done. rewrite Hf. unfold cleaned. rewrite jsonl_suffix. cbn [negb]. destruct (w_statErr e' (jsonl id)); [done|].
    unfold too_old, kv_orphan. cbv zeta. rewrite (proj2 (Z.leb_gt _ _) Hyoung), jsonl_key by apply Hn. rewrite key_nonempty. fold key. unfold kv_get. rewrite Hget'. by destruct Hk as [st ->].
  - destruct (cleanup_dir e' c t1 d Hdir) as (? & _ & -> & _). done.
Qed.

(** A transcript whose text names another session is listed under that one and looked
    for under its own name: the watcher makes the record, and the next cleanup removes
    the transcript, however young it is, and leaves the record without one. *)
Theorem mismatched_transcript_deleted (e e' : watch_env) (c : agent_config) (n : notification) (t : transcripts) (d : gmap string dir_entry) (id data : string) (modTime : Z) :
  appears n id → tr_dir t = Some d → d !! jsonl id = Some (Transcript data modTime) → session_of e t id ≠ id →
  let key := sessionKVKey (ag_hostSlug c) (ag_projectSlug c) in
  tr_kv t !! key id = None → (∀ k, w_getErr e k = None ∧ w_putErr e k = false ∧ w_getErr e' k = None) → w_statErr e' (jsonl id) = false → w_rmErr e' (jsonl id) = false →
  let t' := doJSONLCleanup e' c (on_notification e c n t) in
  tr_dir t' ≫= lookup (jsonl id) = None ∧ is_Some (tr_kv t' !! key (session_of e t id)).
Proof.
  intros Hn Hd Hf Hother key Hnone Hstore Hst Hrm t'. destruct (Hstore (key (session_of e t id))) as (Hget & Hput & _). destruct (Hstore (key id)) as (_ & _ & Hget').
  assert (Hk : is_Some (tr_kv (on_notification e c n t) !! key (session_of e t id)) ∧ tr_kv (on_notification e c n t) !! key id = None ∧ tr_dir (on_notification e c n t) = Some d).
  { rewrite (appeared e c n t id) by done. fold key. fold key in Hget, Hput. destruct (tr_kv t !! key (session_of e t id)) eqn:Ek; [by rewrite Ek|]. cbn. rewrite lookup_insert_eq.
    split_and!; [done| |done]. rewrite lookup_insert_ne; [done|]. intros He. by apply key_inj in He. }
  destruct Hk as (Hk & Hno & Hdir). unfold t'. set (t1 := on_notification e c n t) in *. split.
  - rewrite (cleanup_lookup e' c t1 d) by done. rewrite Hf. unfold cleaned. rewrite jsonl_suffix, Hst, Hrm. cbn [negb].
    assert (Ho : kv_orphan e' c t1 (jsonl id) = true) by (unfold kv_orphan; cbv zeta; rewrite jsonl_key by apply Hn; rewrite key_nonempty; fold (key id); unfold kv_get; by rewrite Hget', Hno).
    by rewrite Ho, andb_false_r.
  - destruct (cleanup_dir e' c t1 d Hdir) as (? & _ & -> & _). done.
Qed.

(** The agent stores a session under the slug of its name, its transcript carries the
    session's id.  A transcript of a running session with a name that appears in the
    directory is therefore taken for another session: a second record, completed and
    without a name of its own, is made.  When the agent next starts it resumes both:
    two processes for one session, of which the first is not known to the agent any
    more, and the session is the imported one. *)
Theorem named_session_doubled (e : watch_env) (n : notification) (t : transcripts) (st : SessionState) (a : Agent) (w : Agent.env) (s1 s2 : asession) :
  let id := st_ID st in
  let key := stateKey a st in
  appears n id → session_of e t id = id → st_Slug st ≠ id → st_Slug st ≠ ""%string →
  st_HostSlug st = ag_hostSlug (cfg a) → st_ProjectSlug st = ag_projectSlug (cfg a) → st_ProjectID st = ag_projectID (cfg a) → ag_hostSlug (cfg a) ≠ ""%string → ag_projectSlug (cfg a) ≠ ""%string →
  tr_kv t = {[key := st]} → (∀ k, w_getErr e k = None ∧ w_putErr e k = false) →
  let found := discovered_session e (cfg a) (transcript_meta e t (jsonl id)) in
  relaunch w (clearPendingControlsForResume st) = Ok s1 → relaunch w (clearPendingControlsForResume found) = Ok s2 →
  let restarting := Published (lifecycleSubject id "session_restarting" a) (marshal_strings [("type", "session_restarting"); ("sessionId", id); ("ts", format_rfc3339 (e_now w))])%string in
  let resumed := Published (lifecycleSubject id "session_resumed" a) (marshal_strings [("type", "session_resumed"); ("sessionId", id); ("ts", format_rfc3339 (e_now w))])%string in
  let a' := recoverSessions w [st; found] a in
  map_to_list (tr_kv (on_notification e (cfg a) n t)) ≡ₚ [(key, st); (sessionKVKey (ag_hostSlug (cfg a)) (ag_projectSlug (cfg a)) id, found)] ∧
  st_State found = StatusCompleted ∧
  out a' = out a ++ [restarting; resumed; restarting; resumed] ∧ sessions a' !! id = Some (watch s2).
Proof.
  intros id key Hn Hsame Hslug Hslug0 Hh Hp Hpid Hh0 Hp0 Hkv Hstore found Hr1 Hr2 restarting resumed a'.
  assert (Hid : id ≠ ""%string) by apply Hn. assert (Hfid : st_ID found = id) by exact Hsame.
  assert (Hkey : key = sessionKVKey (ag_hostSlug (cfg a)) (ag_projectSlug (cfg a)) (st_Slug st)).
  { unfold key, stateKey, or_else. rewrite Hh, Hp. apply String.eqb_neq in Hh0 as ->, Hp0 as ->, Hslug0 as ->. done. }
  assert (Hne : key ≠ sessionKVKey (ag_hostSlug (cfg a)) (ag_projectSlug (cfg a)) id) by (rewrite Hkey; intros He; by apply key_inj in He).
  split; [|split; [done|]].
  - destruct (Hstore (sessionKVKey (ag_hostSlug (cfg a)) (ag_projectSlug (cfg a)) id)) as [Hget Hput]. rewrite (appeared e (cfg a) n t id) by (rewrite ?Hsame; done). rewrite Hsame, Hkv.
    rewrite lookup_singleton_ne by done. cbn. rewrite map_to_list_insert by by rewrite lookup_singleton_ne. rewrite map_to_list_singleton. apply Permutation_swap.
  - assert (Hstep : ∀ b x s, cfg b = cfg a → st_ID x = id → st_ProjectID x = ag_projectID (cfg a) → relaunch w (clearPendingControlsForResume x) = Ok s →
        out (recover_entry w b x) = out b ++ [restarting; resumed] ∧ sessions (recover_entry w b x) !! id = Some (watch s) ∧ cfg (recover_entry w b x) = cfg a).
    { intros b x s Hc Hx Hpx Hr. unfold recover_entry. rewrite Hc, Hpx, String.eqb_refl, Hx. apply String.eqb_neq in Hid. rewrite Hid. cbn [negb orb]. rewrite Hr.
      assert (Hcx : st_ID (clearPendingControlsForResume x) = id) by (rewrite <- Hx; by destruct x).
      rewrite Hcx. unfold publishLifecycle, publishLifecycleExtra, put_out, set_session, set_sessions. cbn.
      destruct (String.eqb (st_State x) StateUpdating); cbn; unfold putKV, writeSessionKV; try (destruct (e_kvErr _ _); cbn); unfold lifecycleSubject; cbn; rewrite ?Hc, <- ?app_assoc, lookup_insert_eq; done. }
    unfold a', recoverSessions. cbn [fold_left]. destruct (Hstep a st s1 eq_refl eq_refl Hpid Hr1) as (Ho1 & _ & Hc1).
    destruct (Hstep (recover_entry w a st) found s2 Hc1 Hfid eq_refl Hr2) as (Ho2 & Hs2 & _). split; [|done]. by rewrite Ho2, Ho1, <- app_assoc.
Qed.

End spec.

(** ** A directory with transcripts *)
Module TranscriptsDemo.

Definition text : JsonText := table_json [("plain", JObj [("model", JStr "opus")]); ("other", JObj [("session_id", JStr "s9")])]%string.
Definition time : GoTime := {| parse_rfc3339 _ := None; format_rfc3339 _ := "now"%string |}.
#[global] Existing Instances text time.

Definition day : Z := 24 * 3600 * 10 ^ 9.
Definition world (now : Z) : watch_env :=
  {| w_now := now; w_statErr _ := false; w_openErr _ := false; w_rmErr _ := false; w_getErr _ := None; w_putErr _ := false |}.
Definition deaf : watch_env := {| w_now := 0; w_statErr _ := false; w_openErr _ := false; w_rmErr _ := false; w_getErr _ := Some "timeout"%string; w_putErr _ := false |}.

Definition config : agent_config := AgentDemo.config.
Definition entries : gmap string dir_entry := {["a.jsonl" := Transcript "plain" 0; "b.jsonl" := Transcript "other" (50 * day); "old" := SubDir]}.
Definition running : SessionState := AgentDemo.base_state "a" StateIdle.
Definition record_key : string := "hosts.laptop.projects.web.sessions.fix-bug".
Definition before : transcripts := {| tr_dir := Some entries; tr_kv := {[record_key := running]} |}.
Definition created (name : string) : notification := {| n_create := true; n_rename := false; n_name := ("/data/projects/" +:+ name)%string |}.

Lemma appeared_b : appears (created "b.jsonl") "b".
Proof. by split_and!. Qed.
Lemma appeared_a : appears (created "a.jsonl") "a".
Proof. by split_and!. Qed.

End TranscriptsDemo.

Import TranscriptsDemo.

Lemma cleanup_exact_witness :
  tr_dir before = Some entries ∧ tr_kv (doJSONLCleanup (world (100 * day)) config before) = tr_kv before ∧
  tr_dir (doJSONLCleanup (world (100 * day)) config before) = Some {["old" := SubDir]}.
Proof. split; [done|]. split; [apply (cleanup_exact (world (100 * day)) config before entries eq_refl)|by vm_compute]. Defined.

Lemma old_transcripts_go_witness :
  let t' := runJSONLCleanup config (world 0) [world (89 * day); world (90 * day)] {| tr_dir := Some {["a.jsonl" := Transcript "plain" 0]}; tr_kv := {["hosts.laptop.projects.web.sessions.a" := running]} |} in
  ∃ d', tr_dir t' = Some d' ∧ d' !! "a.jsonl"%string = None.
Proof. by apply (old_transcripts_go config (world 0) (world (90 * day)) [world (89 * day)] [] "a" "plain" 0 _ {["a.jsonl" := Transcript "plain" 0]}). Defined.

(** The store that does not answer has the record of the running session replaced. *)
Lemma discovery_exact_witness :
  let t := {| tr_dir := Some entries; tr_kv := {["hosts.laptop.projects.web.sessions.a" := running]} |} in
  let t' := on_notification deaf config (created "a.jsonl") t in
  tr_dir t' = tr_dir t ∧ ∃ st, tr_kv t' !! "hosts.laptop.projects.web.sessions.a"%string = Some st ∧ st_State st = StatusCompleted.
Proof.
  destruct (discovery_exact deaf config (created "a.jsonl") {| tr_dir := Some entries; tr_kv := {["hosts.laptop.projects.web.sessions.a" := running]} |}) as (Hd & _ & _ & _ & Hlost).
  split; [exact Hd|]. apply (Hlost "a"%string); try (by vm_compute). by eexists.
Defined.

Lemma discovered_kept_witness :
  let t' := doJSONLCleanup (world (80 * day)) config (on_notification (world 0) config (created "a.jsonl") before) in
  tr_dir t' ≫= lookup "a.jsonl"%string = Some (Transcript "plain" 0) ∧ is_Some (tr_kv t' !! "hosts.laptop.projects.web.sessions.a"%string).
Proof. apply (discovered_kept (world 0) (world (80 * day)) config (created "a.jsonl") before entries "a" "plain" 0); [by split_and!|by vm_compute..]. Defined.

Lemma mismatched_transcript_deleted_witness :
  let t' := doJSONLCleanup (world (51 * day)) config (on_notification (world (50 * day)) config (created "b.jsonl") before) in
  tr_dir t' ≫= lookup "b.jsonl"%string = None ∧ is_Some (tr_kv t' !! sessionKVKey "laptop" "web" "s9").
Proof.
  assert (Hother : session_of (world (50 * day)) before "b" = "s9"%string) by by vm_compute.
  rewrite <- Hother.
  apply (mismatched_transcript_deleted (world (50 * day)) (world (51 * day)) config (created "b.jsonl") before entries "b" "other" (50 * day)); [by split_and!|done|by vm_compute|by rewrite Hother|by vm_compute|done|done|done].
Defined.

Lemma named_session_doubled_witness :
  let a := AgentDemo.empty in
  let found := discovered_session (world 7) (cfg a) (transcript_meta (world 7) before (jsonl (st_ID running))) in
  map_to_list (tr_kv (on_notification (world 7) (cfg a) (created "a.jsonl") before)) ≡ₚ
    [(stateKey a running, running); (sessionKVKey (ag_hostSlug (cfg a)) (ag_projectSlug (cfg a)) (st_ID running), found)] ∧
  length (out (recoverSessions AgentDemo.world [running; found] a)) = 4%nat.
Proof.
  intros a found.
  assert (Hk : tr_kv before = {[stateKey a running := running]}) by (change (stateKey a running) with record_key; reflexivity).
  assert (Hs : session_of (world 7) before (st_ID running) = st_ID running) by by vm_compute.
  assert (Ha : appears (created "a.jsonl") (st_ID running)) by by split_and!.
  assert (H1 : is_ok (relaunch AgentDemo.world (clearPendingControlsForResume running)) = true) by by vm_compute.
  assert (H2 : is_ok (relaunch AgentDemo.world (clearPendingControlsForResume found)) = true) by by vm_compute.
  destruct (relaunch AgentDemo.world (clearPendingControlsForResume running)) as [s1|] eqn:E1; [|done].
  destruct (relaunch AgentDemo.world (clearPendingControlsForResume found)) as [s2|] eqn:E2; [|done].
  destruct (named_session_doubled (world 7) (created "a.jsonl") before running a AgentDemo.world s1 s2 Ha Hs) as (Hkv & _ & Hout & _);
    [done|done|done|done|done|done|done|exact Hk|done|exact E1|exact E2|].
  split; [exact Hkv|]. exact (f_equal length Hout).
Defined.
