(* ===== verification/Routes.v ===== *)
(** * The HTTP server of the control plane (mclaude-control-plane: server.go,
    auth.go, version.go)

    Every page of the control plane behind the multiplexer of net/http and the
    middleware that identifies users and administrators: the handlers of the other
    files, composed into one function from a request and a state to a state.  Paths
    are those that need no escapes.  A handler that panics is [Panicked]: net/http
    drops the connection and goes on. *)

From S2P Require Import Prelude GoStrings GoPath Slug Subjects Json Permissions ObjectStore Database ControlServer SessionState QuotaMonitor Challenge HostLifecycle HostApi ProjectApi Attachments Accounts Providers Admin.
Open Scope Z_scope.

(** ** net/http.ServeMux *)

(** A pattern that ends in a slash matches what is below it. *)
Definition match_pattern (pattern path : string) : bool :=
  if HasSuffix pattern "/" then HasPrefix path pattern else String.eqb path pattern.

(** The longest pattern counts. *)
Fixpoint best_match {A} (patterns : list (string * A)) (path : string) : option (string * A) :=
  match patterns with
  | [] => None
  | (p, h) :: patterns =>
    match best_match patterns path with
    | Some (q, h') => if match_pattern p path && (String.length q <? String.length p)%nat then Some (p, h) else Some (q, h')
    | None => if match_pattern p path then Some (p, h) else None
    end
  end.

Definition cleanPath (p : string) : string :=
  if String.eqb p "" then "/"
  else
    let p := if HasPrefix p "/" then p else ("/" +:+ p)%string in
    let np := path_Clean p in
    if HasSuffix p "/" && negb (String.eqb np "/") then (np +:+ "/")%string else np.

(** Where a request goes: elsewhere, to a handler, or nowhere. *)
Inductive target (A : Type) := Moved (path : string) | Handler (h : A) | NoHandler.
Arguments Moved {A}. Arguments Handler {A}. Arguments NoHandler {A}.

Definition findHandler {A} (patterns : list (string * A)) (method path : string) : target A :=
  let clean := if String.eqb method "CONNECT" then path else cleanPath path in
  let exact := match best_match patterns clean with Some (p, _) => String.eqb p clean | None => false end in
  let slash := (clean +:+ "/")%string in
  if negb exact && negb (HasSuffix clean "/") && match best_match patterns slash with Some (p, _) => String.eqb p slash | None => false end
  then Moved (cleanPath path +:+ "/")
  else if negb (String.eqb clean path) then Moved clean
  else match best_match patterns clean with Some (_, h) => Handler h | None => NoHandler end.

(** ** Requests *)

(** [rq_query]: the text of the query, of which [rq_code] ([code]), [rq_filter]
    ([filter]), [rq_q] and [rq_page] are values; [rq_form] the submitted form. *)
Record page_request := {
  rq_method : string; rq_path : string; rq_header : string; rq_body : string;
  rq_query : string; rq_code : string; rq_filter : string; rq_q : string; rq_page : string;
  rq_callback : callback_query; rq_form : option verify_form;
}.

Inductive route :=
| RLogin | RRefresh | RVersion | RHealth | RChallenge | RVerify | RDeviceCode | RDevicePoll | RDeviceVerify | RReady | RCallback
| RMe | RProviders | RAttachments | RUsers | RHostRegister | RSCIM.

(** [RegisterRoutes]. *)
Definition api_patterns : list (string * route) := [
  ("/auth/login", RLogin); ("/auth/refresh", RRefresh); ("/version", RVersion); ("/health", RHealth);
  ("/api/auth/challenge", RChallenge); ("/api/auth/verify", RVerify);
  ("/api/auth/device-code", RDeviceCode); ("/api/auth/device-code/poll", RDevicePoll); ("/api/auth/device-code/verify", RDeviceVerify);
  ("/healthz", RHealth); ("/readyz", RReady); ("/auth/providers/", RCallback); ("/auth/me", RMe);
  ("/api/providers", RProviders); ("/api/providers/pat", RProviders); ("/api/providers/", RProviders); ("/api/connections/", RProviders);
  ("/api/projects/", RProviders); ("/api/attachments/", RAttachments); ("/api/attachments", RAttachments); ("/api/users/", RUsers);
  ("/api/hosts/register", RHostRegister); ("/scim/v2/", RSCIM)]%string.

Inductive admin_route := RAdmin | RMetrics.
Definition admin_patterns : list (string * admin_route) := [("/admin/", RAdmin); ("/metrics", RMetrics)]%string.

(** The settings read from the environment. *)
Record server_env := { sv_minVersion : string; sv_version : string; sv_adminToken : string; sv_registry : option providerRegistry }.

Section routes.
Context `{PG : Postgres, JT : JsonText, JS : JsonStream, GT : GoTime, UT : UnicodeTables, NO : Normalizer, UP : UrlParser, UR : UrlRefs,
          BC : Bcrypt, BH : BcryptHash, JW : JwtText, MR : MapRange, NK : NKeys}.

Definition not_found : Server → Server := http_error 404 "404 page not found".

Definition handleVersion (v : server_env) : Server → Server :=
  let minVersion := if String.eqb (sv_minVersion v) "" then "0.0.0"%string else sv_minVersion v in
  http_json 200 (HDoc (JObj ([("minClientVersion"%string, JStr minVersion)] ++
                             if String.eqb (sv_version v) "" then [] else [("serverVersion"%string, JStr (sv_version v))]))).

Definition connected_provider (c : OAuthConnection) : json :=
  JObj [("connectionId", JStr (oc_ID c)); ("providerId", JStr (oc_ProviderID c)); ("providerType", JStr (oc_ProviderType c)); ("authType", JStr (oc_AuthType c));
        ("displayName", JStr (oc_DisplayName c)); ("baseUrl", JStr (oc_BaseURL c)); ("username", JStr (oc_Username c));
        ("connectedAt", JStr (format_rfc3339 (oc_ConnectedAt c)))]%string.

(** Without a database the first query panics. *)
Definition handleMe (e : p_env) (userID : string) (s : PServer) : outcome PServer :=
  if String.eqb userID "" then Done (p_error 401 "unauthorized" s)
  else if negb (cf_db (config (ps_server s))) then Panicked
  else
    match lookup_row (ce_down (pe_cp e) "GetUserByID") (GetUserByID userID (db (ps_server s))) with
    | None => Done (p_error 404 "user not found" s)
    | Some user =>
      let conns := if ce_down (pe_cp e) "GetOAuthConnectionsByUser" then [] else GetOAuthConnectionsByUser userID (ps_conns s) in
      Done (on_server (http_json 200 (HDoc (JObj [("connectedProviders", JArr (connected_provider <$> conns)); ("email", JStr (u_Email user));
                                                 ("name", JStr (u_Name user)); ("userId", JStr (u_ID user))]%string))) s)
    end.

Definition readyz (e : cp_env) (s : Server) : Server :=
  if negb (cf_db (config s)) then http_error 503 "database not configured" s
  else if ce_down e "Ping" then http_error 503 "database unavailable" s
  else http_json 200 HEmpty s.

(** ** Who asks *)

(** The middleware's answer: a refusal, or the user. *)
Definition identify (e : cp_env) (header path : string) (s : Server) : (Z * string) + string :=
  let token := bearerToken header in
  if String.eqb token "" then inl (401, "authorization required"%string)
  else
    match DecodeUserJWT e token (cf_accountPub (config s)) with
    | None => inl (401, "invalid token"%string)
    | Some claims =>
      let userID := jc_Name claims in
      let forbidden :=
        HasPrefix path "/api/users/" && negb (String.eqb (url_user path) "") && cf_db (config s) &&
        match lookup_row (ce_down e "GetUserByID(auth)") (GetUserByID userID (db s)) with
        | Some user => negb (String.eqb (u_Slug user) (url_user path)) && negb (u_IsAdmin user)
        | None => false
        end in
      if forbidden then inl (403, "forbidden"%string) else inr userID
    end.

(** [s.authMiddleware(next)] for a handler of the whole server. *)
Definition authenticated (e : p_env) (req : page_request) (next : string → PServer → outcome PServer) (s : PServer) : outcome PServer :=
  match identify (pe_cp e) (rq_header req) (rq_path req) (ps_server s) with
  | inl (status, msg) => Done (p_error status msg s)
  | inr userID => next userID s
  end.

(** [s.adminAuthMiddleware(next)]. *)
Definition administrator (v : server_env) (req : page_request) (next : PServer → outcome PServer) (s : PServer) : outcome PServer :=
  let token := bearerToken (rq_header req) in
  if String.eqb token "" || negb (String.eqb token (sv_adminToken v)) then Done (p_error 403 "forbidden" s) else next s.

(** ** The two servers *)

Definition post_only (req : page_request) (h : Server → Server) : Server → Server :=
  if String.eqb (rq_method req) "POST" then h else not_found.

Definition run_route (v : server_env) (e : p_env) (req : page_request) (r : route) (s : PServer) : outcome PServer :=
  let method := rq_method req in let path := rq_path req in let body := rq_body req in let cp := pe_cp e in
  match r with
  | RLogin => Done (on_server (handleLogin cp body) s)
  | RRefresh => Done (on_server (handleRefresh cp (rq_header req)) s)
  | RVersion => Done (on_server (handleVersion v) s)
  | RHealth => Done (on_server (http_json 200 HEmpty) s)
  | RChallenge => Done (on_server (handleAuthChallenge cp method body) s)
  | RVerify => Done (on_server (handleAuthVerify cp method body) s)
  | RDeviceCode => Done (on_server (post_only req (handleCLIDeviceCodeCreate cp method body)) s)
  | RDevicePoll => Done (on_server (post_only req (handleCLIDeviceCodePoll cp method body)) s)
  | RDeviceVerify => Done (on_server (handleCLIDeviceCodeVerify cp method (rq_code req) (rq_form req)) s)
  | RReady => Done (on_server (readyz cp) s)
  | RCallback =>
    if HasSuffix path "/callback" then handleOAuthCallback (sv_registry v) e path (rq_callback req) s else Done (on_server not_found s)
  | RMe => authenticated e req (handleMe e) s
  | RProviders => authenticated e req (λ userID s, Done (providers_routes (sv_registry v) e method path body userID (rq_q req) (rq_page req) s)) s
  | RAttachments => authenticated e req (λ userID s, Done (on_server (handleAttachmentRoutes cp method path body userID) s)) s
  | RUsers => authenticated e req (λ userID s, Done (on_server (handleUserAPIRoutes cp method path body userID) s)) s
  | RHostRegister => Done (on_server (handleHostRegister cp method body) s)
  | RSCIM => administrator v req (λ s, Done (on_server (handleSCIMRoutes cp method path (rq_filter req) body) s)) s
  end.

Definition moved (req : page_request) (path : string) : Server → Server :=
  http_json 301 (HRedirect (if String.eqb (rq_query req) "" then path else path +:+ "?" +:+ rq_query req)%string).

(** [ServeHTTP] of the multiplexer. *)
Definition serve_mux {A} (patterns : list (string * A)) (run : A → PServer → outcome PServer) (req : page_request) (s : PServer) : outcome PServer :=
  if String.eqb (rq_path req) "*" then Done (on_server (http_json 400 HEmpty) s)
  else
    match findHandler patterns (rq_method req) (rq_path req) with
    | Moved path => Done (on_server (moved req path) s)
    | Handler r => run r s
    | NoHandler => Done (on_server not_found s)
    end.

Definition serve (v : server_env) (e : p_env) (req : page_request) : PServer → outcome PServer :=
  serve_mux api_patterns (run_route v e req) req.

(** The server of the administrators' port; [metrics] is the text of the metrics. *)
Definition run_admin_route (v : server_env) (metrics : string) (e : p_env) (req : page_request) (r : admin_route) (s : PServer) : outcome PServer :=
  match r with
  | RAdmin => administrator v req (λ s, Done (on_server (handleAdminRoutes (pe_cp e) (rq_method req) (rq_path req) (rq_body req)) s)) s
  | RMetrics => Done (on_server (http_json 200 (HText metrics)) s)
  end.

Definition AdminMux (v : server_env) (metrics : string) (e : p_env) (req : page_request) : PServer → outcome PServer :=
  serve_mux admin_patterns (run_admin_route v metrics e req) req.

End routes.
