(* ===== verification/RoutesSpec.v ===== *)
(** * Who reaches which page of the control plane (mclaude-control-plane: server.go,
    auth.go)

    Without a user's or the administrators' token only the listed pages do anything;
    a token acts as its user, below the pages of that user only; and every request
    is answered once. *)

From S2P Require Import Prelude GoStrings GoPath Base64 Slug Subjects Json Permissions ObjectStore Database ControlServer SessionState QuotaMonitor Challenge HostLifecycle HostApi ProjectApi Attachments Accounts AccountsSpec Providers ProvidersSpec Admin Routes AgentSpec ControlDemo.
Open Scope Z_scope.

Section spec.
Context `{PG : Postgres, JT : JsonText, JS : JsonStream, GT : GoTime, UT : UnicodeTables, NO : Normalizer, UP : UrlParser, UR : UrlRefs,
          BC : Bcrypt, BH : BcryptHash, JW : JwtText, MR : MapRange, NK : NKeys}.

(** ** The multiplexer *)

Lemma best_match_sound {A} (l : list (string * A)) path p h : best_match l path = Some (p, h) → (p, h) ∈ l ∧ match_pattern p path = true.
Proof.
  revert p h. induction l as [|[q k] l IH]; intros p h; cbn [best_match]; [done|]. destruct (best_match l path) as [[p' h']|] eqn:E.
  - destruct (match_pattern q path && Nat.ltb (String.length p') (String.length q)) eqn:Hq; intros [= <- <-].
    + apply andb_true_iff in Hq as [? _]. split; [left|done].
    + destruct (IH _ _ eq_refl) as [? ?]. split; [by right|done].
  - destruct (match_pattern q path) eqn:Hq; [|done]. intros [= <- <-]. split; [left|done].
Qed.

Lemma findHandler_sound {A} (l : list (string * A)) method path h : findHandler l method path = Handler h → ∃ p, (p, h) ∈ l ∧ match_pattern p path = true.
Proof.
  unfold findHandler. destruct (_ && _ && _); [done|]. destruct (negb (String.eqb (if String.eqb method "CONNECT" then path else cleanPath path) path)) eqn:Hc; [done|].
  apply negb_false_iff, String.eqb_eq in Hc. rewrite Hc. destruct (best_match l path) as [[p h']|] eqn:E; [|done]. intros [= <-]. exists p. by apply best_match_sound.
Qed.

(** ** Without a token *)

(** The pages that take no token. *)
Definition public_pages : list string := [
  "/auth/login"; "/auth/refresh"; "/version"; "/health"; "/healthz"; "/readyz"; "/api/auth/challenge"; "/api/auth/verify";
  "/api/auth/device-code"; "/api/auth/device-code/poll"; "/api/auth/device-code/verify"; "/api/hosts/register"]%string.

Definition public_page (path : string) : bool :=
  existsb (String.eqb path) public_pages || (HasPrefix path "/auth/providers/" && HasSuffix path "/callback").

(** A request that carries neither a token of a user nor the one of the administrators. *)
Definition stranger (v : server_env) (req : page_request) (s : PServer) : Prop :=
  let token := bearerToken (rq_header req) in
  (token = ""%string ∨ ∀ e, DecodeUserJWT e token (cf_accountPub (config (ps_server s))) = None) ∧ (token = ""%string ∨ token ≠ sv_adminToken v).

Lemma stranger_refused v e req s next : stranger v req s → ∃ msg, authenticated e req next s = Done (p_error 401 msg s).
Proof.
  intros [Htok _]. unfold authenticated, identify. destruct (String.eqb_spec (bearerToken (rq_header req)) ""); [by eexists|]. destruct Htok as [|Hd]; [done|].
  rewrite Hd. by eexists.
Qed.

Lemma stranger_not_admin v req s next : stranger v req s → administrator v req next s = Done (p_error 403 "forbidden" s).
Proof.
  intros [_ Htok]. unfold administrator. destruct (String.eqb_spec (bearerToken (rq_header req)) ""); [done|]. destruct Htok as [|Hd]; [done|].
  by apply String.eqb_neq in Hd as ->.
Qed.

(** One answer and nothing else. *)
Definition only_answered (status : Z) (s s' : PServer) : Prop := ∃ body, s' = on_server (send (Responded status body)) s.

Lemma p_error_answered st msg s : only_answered st s (p_error st msg s).
Proof. by eexists. Qed.

(** C6. Away from the pages listed as public a request without a token changes nothing:
    it gets one answer, which sends it to the right address or refuses it.  On the
    administrators' port the same holds of everything but the metrics. *)
Theorem strangers_change_nothing (v : server_env) (e : p_env) (metrics : string) (req : page_request) (s : PServer) :
  stranger v req s →
  (public_page (rq_path req) = false → ∃ s' status, serve v e req s = Done s' ∧ only_answered status s s' ∧ status ∈ [301; 400; 401; 403; 404]) ∧
  (∃ s' status, AdminMux v metrics e req s = Done s' ∧ only_answered status s s' ∧ (status = 200 → rq_path req = "/metrics"%string)).
Proof.
  intros Hst. split.
  - intros Hpub. unfold serve, serve_mux. destruct (String.eqb (rq_path req) "*"); [eexists _, 400; split_and!; [done|by eexists|set_solver]|].
    destruct (findHandler _ _ _) as [path|r|] eqn:Hf.
    + eexists _, 301. split_and!; [done|by eexists|set_solver].
    + apply findHandler_sound in Hf as (p & Hin & Hm). unfold public_page in Hpub. apply orb_false_iff in Hpub as [Hpages Hcb].
      unfold match_pattern in Hm.
      assert (Hx : r = RCallback ∧ HasPrefix (rq_path req) "/auth/providers/" = true ∨ r ∈ [RMe; RProviders; RAttachments; RUsers; RSCIM]).
      { repeat (apply elem_of_cons in Hin as [[= -> ->]|Hin]); [..|by apply elem_of_nil in Hin]; cbn in Hm;
          try (by right; repeat constructor); try (by left); apply String.eqb_eq in Hm; rewrite Hm in Hpages; by vm_compute in Hpages. }
      destruct Hx as [[-> Hpre]|Hr].
      * cbn. rewrite Hpre in Hcb. cbn in Hcb. rewrite Hcb. eexists _, 404. split_and!; [done|by eexists|set_solver].
      * repeat (apply elem_of_cons in Hr as [->|Hr]); [..|by apply elem_of_nil in Hr]; cbn.
        all: try (edestruct stranger_refused as [msg ->]; [done|]; eexists _, 401; split_and!; [done|apply p_error_answered|set_solver]).
        rewrite (stranger_not_admin v req s) by done. eexists _, 403. split_and!; [done|apply p_error_answered|set_solver].
    + eexists _, 404. split_and!; [done|by eexists|set_solver].
  - unfold AdminMux, serve_mux. destruct (String.eqb (rq_path req) "*"); [eexists _, 400; split_and!; [done|by eexists|done]|].
    destruct (findHandler _ _ _) as [path|r|] eqn:Hf.
    + eexists _, 301. split_and!; [done|by eexists|done].
    + apply findHandler_sound in Hf as (p & Hin & Hm). repeat (apply elem_of_cons in Hin as [[= -> ->]|Hin]); [..|by apply elem_of_nil in Hin]; cbn.
      * rewrite (stranger_not_admin v req s) by done. eexists _, 403. split_and!; [done|apply p_error_answered|done].
      * eexists _, 200. split_and!; [done|by eexists|]. intros _. by apply String.eqb_eq in Hm.
    + eexists _, 404. split_and!; [done|by eexists|done].
Qed.

(** ** Every request is answered once *)

Definition is_response (o : cp_out) : bool := match o with Responded _ _ => true | _ => false end.

(** The answers sent so far. *)
Definition told (s : Server) : nat := length (List.filter is_response (sent s)).

Lemma told_send o s : told (send o s) = (if is_response o then S (told s) else told s).
Proof. unfold told. cbn. rewrite List.filter_app, List.length_app. cbn. destruct (is_response o); cbn; lia. Qed.
Lemma told_error st m s : told (http_error st m s) = S (told s).
Proof. apply told_send. Qed.
Lemma told_json st b s : told (http_json st b s) = S (told s).
Proof. apply told_send. Qed.
Lemma told_set_db t s : told (set_db t s) = told s. Proof. done. Qed.
Lemma told_set_projectsKV t s : told (set_projectsKV t s) = told s. Proof. done. Qed.
Lemma told_set_challenges t s : told (set_challenges t s) = told s. Proof. done. Qed.
Lemma told_set_deviceCodes t s : told (set_deviceCodes t s) = told s. Proof. done. Qed.
Lemma told_set_cliCodes t s : told (set_cliCodes t s) = told s. Proof. done. Qed.
Lemma told_exec d f s : told (exec_ignored d f s) = told s.
Proof. unfold exec_ignored. by destruct (Exec _ _ _). Qed.

Create Rewrite HintDb told.
#[local] Hint Rewrite told_send told_error told_json told_set_db told_set_projectsKV told_set_challenges told_set_deviceCodes told_set_cliCodes told_exec : told.

(** Every branch of a handler, with what it sends on the way. *)
Ltac branches := repeat (case_match; simplify_eq/=; autorewrite with told; try done).

Lemma told_updated u s : told (publishProjectsUpdated u s) = told s.
Proof. unfold publishProjectsUpdated. branches. Qed.
Lemma told_update_to u h s : told (publishProjectsUpdateToHost u h s) = told s.
Proof. unfold publishProjectsUpdateToHost. branches. Qed.
Lemma told_delete_to u h p i s : told (publishProjectsDeleteToHost u h p i s) = told s.
Proof. unfold publishProjectsDeleteToHost. branches. Qed.
#[local] Hint Rewrite told_updated told_update_to told_delete_to : told.
Lemma told_drain u h s p : told (drain_project u h s p) = told s.
Proof. unfold drain_project. branches. Qed.
Lemma told_projectKV e u h p s : told (writeProjectKV e u h p s) = told s.
Proof. unfold writeProjectKV. branches. Qed.
Lemma told_provision e i u h p r s : told (provision e i u h p r s).2 = told s.
Proof. unfold provision. branches. Qed.
Lemma told_ensure u s : told (ensureUserResources u s) = told s.
Proof. unfold ensureUserResources. branches. Qed.
#[local] Hint Rewrite told_drain told_projectKV told_provision told_ensure : told.

Lemma told_fold {A} (f : Server → A → Server) l s : (∀ s x, told (f s x) = told s) → told (fold_left f l s) = told s.
Proof. intros Hf. revert s. induction l as [|x l IH]; intros s; cbn; [done|]. by rewrite IH. Qed.

Lemma told_login e jwt seed u s : told (login_response e jwt seed u s) = S (told s).
Proof. apply told_json. Qed.
#[local] Hint Rewrite told_login : told.

(** *** The pages without a token *)

Lemma login_answers e b s : told (handleLogin e b s) = S (told s).
Proof. unfold handleLogin. branches. Qed.
Lemma refresh_answers e h s : told (handleRefresh e h s) = S (told s).
Proof. unfold handleRefresh. branches. Qed.
Lemma challenge_answers e m b s : told (handleAuthChallenge e m b s) = S (told s).
Proof. unfold handleAuthChallenge. branches. Qed.
Lemma told_issue e k s : told (issueJWTForNKey e k s).2 = told s.
Proof. unfold issueJWTForNKey. branches. Qed.
Lemma verify_answers e m b s : told (handleAuthVerify e m b s) = S (told s).
Proof.
  unfold handleAuthVerify. destruct (negb _); [apply told_error|]. destruct (decode_body _ _ _) as [req|]; [|apply told_error]. destruct (_ || _); [apply told_error|].
  destruct (base64_decode (vq_Challenge req)) as [nonce|]; [|apply told_json]. destruct (base64_decode _) as [sig|]; [|apply told_json]. cbv zeta.
  set (s1 := set_challenges _ s). change (told s) with (told s1). clearbody s1. destruct (challenges s1 !! _) as [entry|]; [|apply told_json].
  destruct (negb _); [apply told_json|]. destruct (_ <? _); [apply told_json|]. destruct (VerifyNKeySignature _ _ _); [apply told_json|]. destruct (negb _); [apply told_error|].
  rewrite <- (told_issue e (vq_NKeyPublic req) s1). destruct (issueJWTForNKey e (vq_NKeyPublic req) s1) as [[jwt|[msg code]] s2]; apply told_json.
Qed.
Lemma device_code_answers e m b s : told (handleCLIDeviceCodeCreate e m b s) = S (told s).
Proof. unfold handleCLIDeviceCodeCreate. branches. Qed.
Lemma device_poll_answers e m b s : told (handleCLIDeviceCodePoll e m b s) = S (told s).
Proof. unfold handleCLIDeviceCodePoll. branches. Qed.
Lemma device_verify_answers e m c f s : told (handleCLIDeviceCodeVerify e m c f s) = S (told s).
Proof. unfold handleCLIDeviceCodeVerify. branches. Qed.
Lemma host_register_answers e m b s : told (handleHostRegister e m b s) = S (told s).
Proof. unfold handleHostRegister, redeem. branches. Qed.
Lemma readyz_answers e s : told (readyz e s) = S (told s).
Proof. unfold readyz. branches. Qed.
#[local] Hint Rewrite login_answers refresh_answers challenge_answers verify_answers device_code_answers device_poll_answers device_verify_answers host_register_answers readyz_answers : told.

(** *** The pages of users *)

Lemma host_code_answers e b u s : told (handleHostCodeCreate e b u s) = S (told s).
Proof. unfold handleHostCodeCreate. branches. Qed.
Lemma host_status_answers e u c s : told (handleHostCodeStatus e u c s) = S (told s).
Proof. unfold handleHostCodeStatus. branches. Qed.
Lemma create_host_answers e b u s : told (handleCreateHost e b u s) = S (told s).
Proof. unfold handleCreateHost. branches. Qed.
Lemma update_host_answers e b u h s : told (handleUpdateHost e b u h s) = S (told s).
Proof. unfold handleUpdateHost. branches. Qed.
Lemma delete_host_answers e u h s : told (handleDeleteHost e u h s) = S (told s).
Proof.
  unfold handleDeleteHost. destruct (negb _); [apply told_error|].
  cbv zeta. set (s1 := if cf_nc (config s) || cf_s3 (config s) then _ else s). assert (Hs : told s1 = told s); [subst s1|clearbody s1; rewrite <- Hs].
  - destruct (_ || _); [|done]. destruct (lookup_row _ _); [|done]. rewrite told_updated. apply told_fold. intros. apply told_drain.
  - destruct (Exec _ _ _); [|apply told_error]. by destruct (Nat.eqb _ _); autorewrite with told.
Qed.
Lemma list_hosts_answers e u s : told (handleListHosts e u s) = S (told s).
Proof. unfold handleListHosts. branches. Qed.
#[local] Hint Rewrite host_code_answers host_status_answers create_host_answers update_host_answers delete_host_answers list_hosts_answers : told.

(** A chain of guards. *)
Ltac guards := repeat match goal with |- told (if ?b then _ else _) = _ => destruct b end; autorewrite with told; done.

Lemma hosts_answer e m p b u s : told (handleHostRoutes e m p b u s) = S (told s).
Proof. unfold handleHostRoutes. cbv zeta. guards. Qed.
Lemma create_project_answers e b u s : told (handleCreateProjectHTTP e b u s) = S (told s).
Proof. unfold handleCreateProjectHTTP. branches. Qed.
Lemma list_projects_answers e u s : told (handleListProjectsHTTP e u s) = S (told s).
Proof. unfold handleListProjectsHTTP. branches. Qed.
Lemma get_project_answers e u p s : told (handleGetProjectHTTP e u p s) = S (told s).
Proof. unfold handleGetProjectHTTP. branches. Qed.
Lemma delete_project_answers e u p s : told (handleDeleteProjectHTTP e u p s) = S (told s).
Proof. unfold handleDeleteProjectHTTP. branches. Qed.
#[local] Hint Rewrite hosts_answer create_project_answers list_projects_answers get_project_answers delete_project_answers : told.
Lemma projects_answer e m p b u s : told (handleProjectHTTPRoutes e m p b u s) = S (told s).
Proof. unfold handleProjectHTTPRoutes. cbv zeta. guards. Qed.
#[local] Hint Rewrite projects_answer : told.
Lemma users_answer e m p b u s : told (handleUserAPIRoutes e m p b u s) = S (told s).
Proof. unfold handleUserAPIRoutes. cbv zeta. guards. Qed.
Lemma attachments_answer e m p b u s : told (handleAttachmentRoutes e m p b u s) = S (told s).
Proof.
  unfold handleAttachmentRoutes. cbv zeta. repeat match goal with |- told (if ?c then _ else _) = _ => destruct c end; [..|apply told_error];
    [unfold handleAttachmentUploadURL|unfold handleAttachmentConfirm|unfold handleAttachmentGet]; branches.
Qed.
Lemma patch_answers e m p b u s : told (handlePatchProject e m p b u s) = S (told s).
Proof. unfold handlePatchProject. branches. Qed.

(** *** The pages of administrators *)

Lemma notify_deleted_told e u s : told (notify_user_deleted e u s) = told s.
Proof.
  unfold notify_user_deleted. destruct (negb _); [done|]. destruct (lookup_row _ _); [|done]. rewrite told_updated. apply told_fold. intros s1 h. cbv zeta.
  apply told_fold. intros. apply told_delete_to.
Qed.
Lemma stop_told e r s : told (publish_stop e r s) = told s.
Proof. unfold publish_stop. branches. Qed.
#[local] Hint Rewrite notify_deleted_told stop_told : told.
Lemma admin_answers e m p b s : told (handleAdminRoutes e m p b s) = S (told s).
Proof.
  unfold handleAdminRoutes. repeat match goal with |- told (if ?c then _ else _) = _ => destruct c end; [..|apply told_error];
    [unfold adminListUsers|unfold adminCreateUser|unfold adminDeleteUser|unfold adminStopSession|unfold adminRegisterCluster|unfold adminListClusters|
     unfold adminGrantCluster|unfold adminDeleteCluster|unfold adminPromoteUser]; branches.
Qed.
Lemma patches_told e i ops us : told (fold_left (apply_patch e i) ops us).2 = told us.2.
Proof.
  revert us. induction ops as [|op ops IH]; intros us; cbn; [done|]. rewrite IH. unfold apply_patch. destruct (patch_name op); [|done]. apply told_exec.
Qed.
Lemma scim_patch_answers e i b s : told (scimPatchUser e i b s) = S (told s).
Proof.
  unfold scimPatchUser. destruct (negb _); [apply told_error|]. destruct (lookup_row _ _) as [u|]; [|apply told_json]. destruct (decode_body _ _ _) as [[? ops]|]; [|apply told_error].
  pose proof (patches_told e i ops (u, s)) as Hp. destruct (fold_left _ _ _) as [u' s']. cbn in Hp. by rewrite told_json, Hp.
Qed.
#[local] Hint Rewrite scim_patch_answers : told.
Lemma scim_answers e m p f b s : told (handleSCIMRoutes e m p f b s) = S (told s).
Proof.
  unfold handleSCIMRoutes. cbv zeta. repeat match goal with |- told (if ?c then _ else _) = _ => destruct c end; autorewrite with told; try done;
    [unfold scimListUsers|unfold scimGetUser|unfold scimCreateUser|unfold scimDeleteUser]; branches.
Qed.

(** *** The pages of git providers *)

Definition p_told (s : PServer) : nat := told (ps_server s).

Lemma p_told_error st m s : p_told (p_error st m s) = S (p_told s).
Proof. apply told_error. Qed.
Lemma p_told_on f s : told (f (ps_server s)) = S (p_told s) → p_told (on_server f s) = S (p_told s).
Proof. done. Qed.
Lemma p_told_redirect u s : p_told (redirect u s) = S (p_told s).
Proof. apply told_json. Qed.
Lemma notify_told e u s : p_told (notifyHostsCredentialsChanged e u s) = p_told s.
Proof.
  unfold notifyHostsCredentialsChanged. cbv zeta. destruct (_ || _); [done|]. destruct (lookup_row _ _); [|done]. destruct (ce_down _ _); [done|]. unfold p_told. cbn.
  rewrite told_updated. apply told_fold. intros. apply told_update_to.
Qed.
Lemma connect_answers reg e m p b u s : p_told (handleConnectProvider reg e m p b u s) = S (p_told s).
Proof.
  unfold handleConnectProvider, Put. repeat (case_match; simplify_eq/=; rewrite ?p_told_error; try done). etransitivity; [apply told_json|done].
Qed.
Lemma redirect_error_answers x r c s : p_told (redirectWithError x r c s) = S (p_told s).
Proof. apply p_told_redirect. Qed.
Lemma finish_answers r e st p i tr profile s : p_told (finish_callback r e st p i tr profile s) = S (p_told s).
Proof.
  unfold finish_callback, set_oauth_id, reconcileUserCLIConfig, removeSecretKeys, patchUserSecret. cbv zeta. destruct (gitlab_taken _ _ _ _); [apply redirect_error_answers|].
  destruct (cf_db _); [|by rewrite p_told_redirect, notify_told]. destruct (CreateOAuthConnection _ _ _ _); [|apply redirect_error_answers].
  rewrite p_told_redirect, notify_told. destruct (_ || _); [done|]. by destruct (_ !! _).
Qed.
Lemma callback_answers r e p q s : ∃ s', handleOAuthCallback (Some r) e p q s = Done s' ∧ p_told s' = S (p_told s).
Proof.
  unfold handleOAuthCallback. cbv zeta. eexists. split; [reflexivity|]. unfold Consume.
  destruct (ps_states s !! cq_state q) as [st|]; [|apply p_told_redirect]. destruct (_ <? _); [by rewrite p_told_redirect|].
  change (p_told s) with (p_told (set_ps_states (delete (cq_state q) (ps_states s)) s)). set (s1 := set_ps_states _ s). clearbody s1.
  destruct (String.eqb _ _); [apply redirect_error_answers|]. destruct (findProvider _ _); [|apply redirect_error_answers].
  destruct (exchangeCode _ _ _ _); [|apply redirect_error_answers]. destruct (fetchUserProfile _ _ _); [|apply redirect_error_answers]. apply finish_answers.
Qed.
Lemma pat_answers e m b u s : p_told (handleAddPAT e m b u s) = S (p_told s).
Proof.
  unfold handleAddPAT, reconcileUserCLIConfig, removeSecretKeys, patchUserSecret. cbv zeta. destruct (negb _); [apply p_told_error|]. destruct (String.eqb _ _); [apply p_told_error|].
  destruct (decode_body _ _ _) as [req|]; [|apply p_told_error]. destruct (_ || _); [apply p_told_error|]. destruct (detectPATProvider _ _ _) as [[t profile]|]; [|apply p_told_error].
  destruct (_ && _); [apply p_told_error|]. destruct (cf_db _); [destruct (CreateOAuthConnection _ _ _ _); [|apply p_told_error]|].
  all: etransitivity; [apply told_json|]; f_equal; etransitivity; [apply (notify_told e u)|done].
Qed.
Lemma rewrite_told e u s : p_told (rewrite_projects e u s) = p_told s.
Proof.
  unfold rewrite_projects. cbv zeta. destruct (_ && _); [|done]. destruct (lookup_row _ _); [|done]. destruct (ce_down _ _); [done|]. unfold p_told. cbn.
  apply told_fold. intros v ph. destruct (p_GitIdentityID _); [done|]. apply told_projectKV.
Qed.
Lemma delete_connection_answers reg e m p u s : p_told (handleDeleteConnection reg e m p u s).2 = S (p_told s).
Proof.
  unfold handleDeleteConnection, reconcileUserCLIConfig, removeSecretKeys. cbv zeta. destruct (negb _); [apply p_told_error|]. destruct (String.eqb _ _); [apply p_told_error|].
  destruct (String.eqb _ _); [apply p_told_error|]. destruct (negb _); [apply p_told_error|]. destruct (lookup_row _ _) as [conn|]; [|apply p_told_error].
  destruct (negb _); [apply p_told_error|]. unfold DeleteOAuthConnection. destruct (ce_down _ _); [apply p_told_error|]. cbn [snd].
  etransitivity; [apply told_json|]. change (told (ps_server ?x)) with (p_told x). rewrite notify_told, rewrite_told. by destruct (memb _ _).
Qed.
Lemma repos_answer e m p u q n s : p_told (handleGetConnectionRepos e m p u q n s) = S (p_told s).
Proof.
  unfold handleGetConnectionRepos. repeat (case_match; simplify_eq/=; rewrite ?p_told_error; try done).
Qed.
Lemma provider_pages_answer reg e m p b u q n s : p_told (providers_routes reg e m p b u q n s) = S (p_told s).
Proof.
  unfold providers_routes. repeat match goal with |- p_told (if ?c then _ else _) = _ => destruct c end;
    first [apply p_told_error|apply connect_answers|apply pat_answers|apply repos_answer|apply delete_connection_answers|apply p_told_on, patch_answers|apply p_told_on, told_json].
Qed.
Lemma me_answers e u s : cf_db (config (ps_server s)) = true → ∃ s', handleMe e u s = Done s' ∧ p_told s' = S (p_told s).
Proof.
  intros Hdb. unfold handleMe. rewrite Hdb. destruct (String.eqb u ""); [eexists; split; [done|apply p_told_error]|]. cbn [negb].
  destruct (lookup_row _ _); eexists; (split; [done|]); [apply p_told_on, told_json|apply p_told_error].
Qed.

(** *** All of them *)

Definition answered_once (s : PServer) (o : outcome PServer) : Prop := ∃ s', o = Done s' ∧ p_told s' = S (p_told s).

Lemma answered_on f s : (∀ v, told (f v) = S (told v)) → answered_once s (Done (on_server f s)).
Proof. intros Hf. eexists. split; [done|]. apply p_told_on, Hf. Qed.

Lemma authenticated_answers e req next s : (∀ u, answered_once s (next u s)) → answered_once s (authenticated e req next s).
Proof. intros Hn. unfold authenticated. destruct (identify _ _ _ _) as [[st msg]|u]; [|apply Hn]. eexists. split; [done|apply p_told_error]. Qed.

Lemma administrator_answers v req next s : answered_once s (next s) → answered_once s (administrator v req next s).
Proof. intros Hn. unfold administrator. destruct (_ || _); [|done]. eexists. split; [done|apply p_told_error]. Qed.

Lemma mux_answers {A} (l : list (string * A)) run req s : (∀ r, answered_once s (run r s)) → answered_once s (serve_mux l run req s).
Proof.
  intros Hr. unfold serve_mux. destruct (String.eqb _ _); [apply answered_on; intros; apply told_json|].
  destruct (findHandler _ _ _); [apply answered_on; intros; apply told_json|apply Hr|apply answered_on; intros; apply told_error].
Qed.

(** C16. With a database and a registry of providers, which main makes sure of, no handler
    panics, and every request to either server, whatever its path, method, body and
    token and whatever fails, gets exactly one answer. *)
Theorem every_request_answered (v : server_env) (e : p_env) (metrics : string) (req : page_request) (s : PServer) :
  cf_db (config (ps_server s)) = true → is_Some (sv_registry v) →
  answered_once s (serve v e req s) ∧ answered_once s (AdminMux v metrics e req s).
Proof.
  intros Hdb [reg Hreg]. split; apply mux_answers.
  - intros []; cbn; rewrite ?Hreg; try (apply answered_on; intros; first [apply told_json|autorewrite with told; done]).
    + apply answered_on. intros. unfold post_only. destruct (String.eqb _ _); [apply device_code_answers|apply told_error].
    + apply answered_on. intros. unfold post_only. destruct (String.eqb _ _); [apply device_poll_answers|apply told_error].
    + destruct (HasSuffix _ _); [apply callback_answers|]. apply answered_on. intros. apply told_error.
    + apply authenticated_answers. intros u. by apply me_answers.
    + apply authenticated_answers. intros u. eexists. split; [done|apply provider_pages_answer].
    + apply authenticated_answers. intros u. apply answered_on. intros. apply attachments_answer.
    + apply authenticated_answers. intros u. apply answered_on. intros. apply users_answer.
    + apply administrator_answers, answered_on. intros. apply scim_answers.
  - intros []; cbn; [apply administrator_answers, answered_on; intros; apply admin_answers|apply answered_on; intros; apply told_json].
Qed.

(** ** The pages of a user *)

Lemma users_match rest : best_match api_patterns ("/api/users/" +:+ rest) = Some ("/api/users/"%string, RUsers).
Proof.
  assert (Hp : match_pattern "/api/users/" ("/api/users/" +:+ rest) = true) by apply (prefix_app "/api/users/").
  unfold api_patterns. cbn [best_match]. by rewrite Hp.
Qed.

Lemma users_found method rest : method = "CONNECT"%string ∨ cleanPath ("/api/users/" +:+ rest) = ("/api/users/" +:+ rest)%string →
  findHandler api_patterns method ("/api/users/" +:+ rest) = Handler RUsers.
Proof.
  intros Hclean. unfold findHandler. set (path := ("/api/users/" +:+ rest)%string) in *.
  assert (Hp : (if String.eqb method "CONNECT" then path else cleanPath path) = path).
  { destruct (String.eqb_spec method "CONNECT"); [done|]. destruct Hclean as [?|Hc]; [done|exact Hc]. }
  pose proof (users_match rest : best_match api_patterns path = _) as Hm. pose proof (users_match (rest +:+ "/") : best_match api_patterns (path +:+ "/") = _) as Hm2.
  rewrite Hp, String.eqb_refl, Hm2, Hm.
  assert (Hs : String.eqb "/api/users/" (path +:+ "/") = false).
  { apply String.eqb_neq. intros He. apply (f_equal String.length) in He. unfold path in He. rewrite !length_app_str in He. cbn in He. lia. }
  by rewrite Hs, andb_false_r.
Qed.

Lemma authMiddleware_identify e header path next s :
  authMiddleware e header path next s = match identify e header path s with inl (status, msg) => http_error status msg s | inr userID => next userID s end.
Proof.
  unfold authMiddleware, identify. destruct (String.eqb _ _); [done|]. destruct (DecodeUserJWT _ _ _) as [claims|]; [|done]. by destruct (_ && _ && _ && _).
Qed.

(** On the pages of users the whole server is the middleware and the handlers of
    those pages, whatever the rest of the server holds: what is proved of them holds
    of the server. *)
Theorem user_pages_exact (v : server_env) (e : p_env) (req : page_request) (rest : string) (s : PServer) :
  rq_path req = ("/api/users/" +:+ rest)%string → rq_method req = "CONNECT"%string ∨ cleanPath (rq_path req) = rq_path req →
  serve v e req s = Done (on_server (users_api (pe_cp e) (rq_method req) (rq_header req) (rq_path req) (rq_body req)) s).
Proof.
  intros Hpath Hclean. unfold serve, serve_mux. rewrite Hpath in Hclean |- *. rewrite (users_found (rq_method req) rest) by done. cbn [String.eqb].
  unfold run_route, authenticated, users_api, on_server. rewrite Hpath. cbn [Ascii.eqb andb Bool.eqb]. rewrite authMiddleware_identify.
  destruct (identify _ _ _ _) as [[status msg]|u]; reflexivity.
Qed.

(** C35. A token of a user who is no administrator opens no page below another user's slug:
    while the database answers the lookup of the token's user, a request for a clean
    path (net/http redirects others to it) is refused and nothing changes. *)
Theorem foreign_pages_refused (v : server_env) (e : p_env) (req : page_request) (u rest : string) (claims : jwt_claims) (user : User) (s : PServer) :
  rq_path req = ("/api/users/" +:+ u +:+ "/" +:+ rest)%string → rq_method req = "CONNECT"%string ∨ cleanPath (rq_path req) = rq_path req →
  has_char "/" u = false → u ≠ ""%string → identified (pe_cp e) (rq_header req) (ps_server s) claims →
  cf_db (config (ps_server s)) = true → ce_down (pe_cp e) "GetUserByID(auth)" = false →
  GetUserByID (jc_Name claims) (db (ps_server s)) = Some user → u_Slug user ≠ u → u_IsAdmin user = false →
  serve v e req s = Done (p_error 403 "forbidden" s).
Proof.
  intros Hpath Hclean Hu Hne [Htok Hclaims] Hdb Hup Huser Hother Hadm.
  unfold serve, serve_mux. rewrite Hpath in Hclean |- *. rewrite users_found by done. cbn [String.eqb Ascii.eqb andb Bool.eqb]. unfold run_route, authenticated, identify.
  apply String.eqb_neq in Htok as ->. rewrite Hclaims, Hpath, url_user_path, Hdb, Hup, Huser by done. cbn [lookup_row]. rewrite Hadm. unfold HasPrefix. rewrite prefix_app.
  apply String.eqb_neq in Hne as ->, Hother as ->. reflexivity.
Qed.

End spec.

(** ** Requests to the small control plane *)
Module RoutesDemo.

#[export] Existing Instances demo_pg demo_nkeys demo_text demo_stream demo_tables demo_norm demo_urls demo_bcrypt demo_tokens head_range AgentDemo.time ProviderDemo.refs.
#[export] Instance hashes : BcryptHash := {| bcrypt_hash p := Some ("hash of " +:+ p)%string |}.

Definition settings : server_env := {| sv_minVersion := ""; sv_version := "1.0"; sv_adminToken := "t-admin"; sv_registry := Some ProviderDemo.registry |}.
Definition get (path header : string) : page_request :=
  {| rq_method := "GET"; rq_path := path; rq_header := header; rq_body := ""; rq_query := ""; rq_code := ""; rq_filter := ""; rq_q := ""; rq_page := "";
     rq_callback := {| cq_error := ""; cq_code := ""; cq_state := "" |}; rq_form := None |}.
Definition env : p_env := ProviderDemo.penv 100.
Definition pristine : PServer := ProviderDemo.fresh_server.

Example clean_paths : cleanPath "/api//users/../users/bob/" = "/api/users/bob/"%string ∧ findHandler api_patterns "GET" "/api/users" = Moved "/api/users/" ∧
  findHandler api_patterns "GET" "/api/providers/pat" = Handler RProviders ∧ findHandler api_patterns "GET" "/nowhere" = NoHandler.
Proof. by vm_compute. Qed.

Lemma no_token path : stranger settings (get path "") pristine.
Proof. by split; left. Qed.

End RoutesDemo.

Import RoutesDemo.

Lemma strangers_change_nothing_witness :
  stranger settings (get "/api/users/alice/hosts" "") pristine ∧
  ∃ s' status, serve settings env (get "/api/users/alice/hosts" "") pristine = Done s' ∧ only_answered status pristine s' ∧ status ∈ [301; 400; 401; 403; 404].
Proof. split; [apply no_token|]. by apply (strangers_change_nothing settings env "metrics" (get "/api/users/alice/hosts" "") pristine (no_token _)). Defined.

Lemma every_request_answered_witness :
  answered_once pristine (serve settings env (get "/auth/me" "Bearer t-alice") pristine) ∧ answered_once pristine (AdminMux settings "metrics" env (get "/auth/me" "Bearer t-alice") pristine).
Proof. apply (every_request_answered settings env "metrics" (get "/auth/me" "Bearer t-alice") pristine); [done|by eexists]. Defined.

Lemma user_pages_exact_witness :
  serve settings env (get "/api/users/alice/hosts" "Bearer t-alice") pristine =
  Done (on_server (users_api (pe_cp env) "GET" "Bearer t-alice" "/api/users/alice/hosts" "") pristine).
Proof. apply (user_pages_exact settings env (get "/api/users/alice/hosts" "Bearer t-alice") "alice/hosts" pristine); [done|by right]. Defined.

Lemma foreign_pages_refused_witness :
  serve settings env (get "/api/users/bob/hosts" "Bearer t-alice") pristine = Done (p_error 403 "forbidden" pristine).
Proof.
  apply (foreign_pages_refused settings env (get "/api/users/bob/hosts" "Bearer t-alice") "bob" "hosts" alice_claims alice pristine); try done;
    first [by right|split; [done|by vm_compute]].
Defined.
