(* ===== verification/Startup.v ===== *)
(** * Starting the programs (mclaude-session-agent: main.go, daemon.go, entrypoint.sh;
    mclaude-controller-local: main.go; mclaude-control-plane: main.go)

    What a process makes of its arguments, its environment and the home directory
    before it serves: the identity of an agent, the configuration of the controller
    of a machine, the keys of the control plane and its development account.  The
    connection to NATS and the services that follow are those of the other files. *)

From S2P Require Import Prelude GoStrings GoPath Slug Subjects Json Permissions ObjectStore Database ControlServer Challenge HostLifecycle HostApi ProjectApi Accounts Admin LocalController.
Open Scope Z_scope.

(** ** The package flag *)

(** [strconv.ParseBool]. *)
Definition ParseBool (s : string) : option bool :=
  if existsb (String.eqb s) ["1"; "t"; "T"; "TRUE"; "true"; "True"]%string then Some true
  else if existsb (String.eqb s) ["0"; "f"; "F"; "FALSE"; "false"; "False"]%string then Some false
  else None.

(** The name and, after the first equals sign that is not its first character, the
    value. *)
Definition split_flag (s : string) : string * option string :=
  match Split "=" s with
  | [] | [_] => (s, None)
  | n :: v => (n, Some (Join "=" v))
  end.

(** Whether a flag exists and whether it is boolean. *)
Definition flag_kinds := string → option bool.

(** The assignments in their order; parsing stops at the first other argument. *)
Fixpoint parse_flags (kinds : flag_kinds) (args : list string) (acc : list (string * string)) : result string (list (string * string)) :=
  match args with
  | [] => Ok acc
  | s :: rest =>
    if (String.length s <? 2)%nat || negb (HasPrefix s "-") || String.eqb s "--" then Ok acc
    else
      let text := if HasPrefix s "--" then drop_str 2 s else drop_str 1 s in
      if String.eqb text "" || HasPrefix text "-" || HasPrefix text "=" then Err ("bad flag syntax: " +:+ s)%string
      else
        let '(name, value) := split_flag text in
        match kinds name with
        | None => Err ("flag provided but not defined: -" +:+ name)%string
        | Some true =>
          match value with
          | None => parse_flags kinds rest (acc ++ [(name, "true"%string)])
          | Some v => match ParseBool v with Some _ => parse_flags kinds rest (acc ++ [(name, v)]) | None => Err "invalid boolean value"%string end
          end
        | Some false =>
          match value, rest with
          | Some v, _ => parse_flags kinds rest (acc ++ [(name, v)])
          | None, v :: rest => parse_flags kinds rest (acc ++ [(name, v)])
          | None, [] => Err ("flag needs an argument: -" +:+ name)%string
          end
        end
  end.

(** The last assignment counts. *)
Fixpoint flag_last (name : string) (l : list (string * string)) (cur : string) : string :=
  match l with
  | [] => cur
  | (n, v) :: l => flag_last name l (if String.eqb n name then v else cur)
  end.

(** ** The session agent *)

(** The environment variables, the home directory, the targets of links, the name of
    the machine, the name of the program, and the steps that fail. *)
Record start_world := {
  sw_getenv : string → string;
  sw_home : option string;
  sw_readlink : string → option string;
  sw_hostname : string;
  sw_arg0 : string;
  sw_fail : string → bool;
}.

Definition agent_flag_names : list string :=
  ["nats-url"; "nats-creds"; "user-id"; "project-id"; "claude-path"; "data-dir"; "mode"; "hostname"; "machine-id"; "refresh-url"; "auth-url"; "nkey-pub-file";
   "user-slug"; "project-slug"; "host"]%string.
Definition agent_flags : flag_kinds := λ name,
  if String.eqb name "daemon" then Some true else if existsb (String.eqb name) agent_flag_names then Some false else None.

(** How NATS is told who connects. *)
Inductive nats_auth := AuthCallbacks | CredentialsFile (path : string) | Anonymous.

Definition natsConnectWithAuth (agentAuth : bool) (credsFile : string) : nats_auth :=
  if agentAuth then AuthCallbacks else if String.eqb credsFile "" then Anonymous else CredentialsFile credsFile.

Record daemon_launch := {
  dn_NATSCredsFile : string; dn_RefreshURL : string; dn_UserID : string; dn_UserSlug : string; dn_HostSlug : string; dn_Hostname : string; dn_MachineID : string;
  dn_AgentBinary : string; dn_AgentArgs : list string;
}.

Record agent_identity := { ai_UserID : string; ai_UserSlug : string; ai_HostSlug : string; ai_ProjectID : string; ai_ProjectSlug : string; ai_dataDir : string; ai_mode : string }.

(** What main does: it answers a probe, stops with a message, panics, or becomes an
    agent or a daemon that has connected. *)
Inductive start_outcome :=
| Probed (exitCode : Z)
| Exits (msg : string)
| Crashes
| RunsDaemon (auth : nats_auth) (url : string) (cfg : daemon_launch)
| RunsAgent (auth : nats_auth) (url : string) (id : agent_identity).

Section startup.
Context `{UT : UnicodeTables, NO : Normalizer}.

(** A slug: the given one, that of the id, or a prefix and the first eight bytes of
    the id, which panics for a shorter one. *)
Definition slug_of (given id prefix : string) : outcome string :=
  let s := match Validate given with None => given | Some _ => Slugify id end in
  if String.eqb s "" then if (String.length id <? 8)%nat then Panicked else Done (prefix +:+ take_str 8 id)%string
  else Done s.

Definition active_host_link (home : string) : string := path_Join [home; ".mclaude"; "active-host"]%string.

(** The slug of the host: the flag, the target of the link, the flag for the name of
    the machine, its name; empty when there is none. *)
Definition agent_host (w : start_world) (flagHost flagHostname : string) : string :=
  let h := match Validate flagHost with
           | None => flagHost
           | Some _ =>
             match sw_home w with
             | None => flagHost
             | Some home =>
               match sw_readlink w (active_host_link home) with
               | Some t => if String.eqb t "" then flagHost else Slugify t
               | None => flagHost
               end
             end
           end in
  let h := match Validate h with None => h | Some _ => Slugify flagHostname end in
  if String.eqb h "" then Slugify (sw_hostname w) else h.

Definition or_val (v d : string) : string := if String.eqb v "" then d else v.

Definition default_nats_url : string := "nats://127.0.0.1:4222".

(** The probes: whether NATS is reachable, and whether there is the tool. *)
Definition agent_probe (w : start_world) (arg : string) : option start_outcome :=
  if String.eqb arg "--health" then Some (Probed (if sw_fail w "probe" then 1 else 0))
  else if String.eqb arg "--ready" then Some (Probed (if sw_fail w "probe" || sw_fail w ("look for " +:+ or_val (sw_getenv w "CLAUDE_PATH") "claude") then 1 else 0))
  else None.

(** [main] without a probe. *)
Definition agent_run (w : start_world) (args : list string) : start_outcome :=
  match parse_flags agent_flags args [] with
  | Err err => Exits err
  | Ok fs =>
    let flag name var := flag_last name fs (sw_getenv w var) in
    let natsURL := or_val (flag "nats-url" "NATS_URL")%string default_nats_url in
    let userID := flag "user-id" "USER_ID"%string in
    let projectID := flag "project-id" "PROJECT_ID"%string in
    match slug_of (flag "user-slug" "USER_SLUG")%string userID "u-" with
    | Panicked => Crashes
    | Done userSlug =>
      match slug_of (flag "project-slug" "PROJECT_SLUG")%string projectID "p-" with
      | Panicked => Crashes
      | Done projectSlug =>
        let hostSlug := agent_host w (flag "host" "HOST_SLUG") (flag "hostname" "HOSTNAME")%string in
        if String.eqb hostSlug "" then Exits "FATAL: HOST_SLUG required"
        else
          let claudePath := or_val (flag "claude-path" "CLAUDE_PATH")%string "claude" in
          let natsCredsFile := flag "nats-creds" "NATS_CREDS_FILE"%string in
          let dataDir := flag_last "data-dir" fs "/data" in
          let authURL := flag "auth-url" "AUTH_URL"%string in
          let nkeyPubFile := flag "nkey-pub-file" "NKEY_PUB_FILE"%string in
          let useAuth := negb (String.eqb authURL "") in
          if useAuth && sw_fail w "generate key" then Exits "failed to generate NKey pair"
          else if useAuth && negb (String.eqb nkeyPubFile "") && sw_fail w "write key" then Exits "failed to write NKey public key to file"
          else if useAuth && sw_fail w "authenticate" then Exits "failed to authenticate with control-plane after retries"
          else if sw_fail w "connect" then Exits "failed to connect to NATS"
          else
            let auth := natsConnectWithAuth useAuth natsCredsFile in
            if match ParseBool (flag_last "daemon" fs "false") with Some b => b | None => false end then
              let hostname := or_val (flag "hostname" "HOSTNAME")%string (sw_hostname w) in
              if sw_fail w "daemon" then Exits "failed to create daemon"
              else
                RunsDaemon auth natsURL {|
                  dn_NATSCredsFile := natsCredsFile; dn_RefreshURL := flag "refresh-url" "REFRESH_URL"%string; dn_UserID := userID; dn_UserSlug := userSlug;
                  dn_HostSlug := hostSlug; dn_Hostname := hostname; dn_MachineID := or_val (flag "machine-id" "MACHINE_ID")%string hostname; dn_AgentBinary := sw_arg0 w;
                  dn_AgentArgs := ["--nats-url"; natsURL; "--nats-creds"; natsCredsFile; "--claude-path"; claudePath; "--data-dir"; dataDir;
                                   "--user-slug"; userSlug; "--host"; hostSlug]%string |}
            else if String.eqb projectID "" then Exits "--project-id is required in standalone mode"
            else if String.eqb (flag_last "mode" fs "standalone") "k8s" && sw_fail w "repository" then Exits "failed to initialize git repo — aborting"
            else if sw_fail w "agent" then Exits "failed to create agent"
            else RunsAgent auth natsURL {| ai_UserID := userID; ai_UserSlug := userSlug; ai_HostSlug := hostSlug; ai_ProjectID := projectID; ai_ProjectSlug := projectSlug;
                                           ai_dataDir := dataDir; ai_mode := flag_last "mode" fs "standalone" |}
      end
    end
  end.

(** [main], from its arguments without the program's name. *)
Definition agent_main (w : start_world) (args : list string) : start_outcome :=
  match args with
  | [arg] => match agent_probe w arg with Some r => r | None => agent_run w args end
  | _ => agent_run w args
  end.

(** [buildChildCmd]: the arguments of a daemon's child. *)
Definition buildChildCmd (cfg : daemon_launch) (projectID : string) : list string :=
  dn_AgentArgs cfg ++ ["--project-id"; projectID; "--user-id"; dn_UserID cfg]%string.

(** The environment of a child: variables that are set again replace the old ones. *)
Definition with_env (l : list (string * string)) (getenv : string → string) : string → string := λ name, flag_last name l (getenv name).
Definition child_world (l : list (string * string)) (w : start_world) : start_world :=
  {| sw_getenv := with_env l (sw_getenv w); sw_home := sw_home w; sw_readlink := sw_readlink w; sw_hostname := sw_hostname w; sw_arg0 := sw_arg0 w; sw_fail := sw_fail w |}.

(** The last command of entrypoint.sh, the start of a pod. *)
Definition entrypoint (getenv : string → string) : list string :=
  ["--nats-url"; getenv "NATS_URL"; "--nats-creds"; "/home/node/.user-secrets/nats-creds"; "--user-id"; getenv "USER_ID"; "--project-id"; getenv "PROJECT_ID";
   "--data-dir"; "/data"; "--mode"; "k8s"]%string.

(** ** The controller of a machine *)

Record local_config := { lm_hostSlug : string; lm_hubURL : string; lm_cpURL : string; lm_credsFile : string; lm_dataDir : string }.

Definition local_flag_names : list string := ["host"; "user-slug"; "hub-url"; "cp-url"; "creds-file"; "data-dir"]%string.
Definition local_flags : flag_kinds := λ name, if existsb (String.eqb name) local_flag_names then Some false else None.

(** [main] up to the connection. *)
Definition local_main (w : start_world) (args : list string) : result string local_config :=
  match parse_flags local_flags args [] with
  | Err err => Err err
  | Ok fs =>
    let flag name var := flag_last name fs (sw_getenv w var) in
    let home := default ""%string (sw_home w) in
    let flagHost := flag "host" "HOST_SLUG"%string in
    let hostSlug := if String.eqb flagHost "" then match sw_readlink w (active_host_link home) with Some t => path_Base t | None => ""%string end else flagHost in
    if String.eqb hostSlug "" then Err "FATAL: HOST_SLUG required"%string
    else
      match Validate hostSlug with
      | Some _ => Err "invalid host slug"%string
      | None =>
        let hubURL := flag "hub-url" "HUB_URL"%string in
        if String.eqb hubURL "" then Err "FATAL: HUB_URL required"%string
        else
          Ok {| lm_hostSlug := hostSlug; lm_hubURL := hubURL; lm_cpURL := flag "cp-url" "CP_URL"%string;
                lm_credsFile := or_val (flag "creds-file" "NATS_CREDS_FILE")%string (path_Join [home; ".mclaude"; "hosts"; hostSlug; "nats.creds"]%string);
                lm_dataDir := or_val (flag "data-dir" "DATA_DIR")%string (path_Join [home; ".mclaude"; "projects"]%string) |}
      end
  end.

(** ** The control plane *)

Definition envOr (getenv : string → string) (key def : string) : string := or_val (getenv key) def.

(** The seeds of the operator and of the system account and the account's token;
    [read] is the content of a file. *)
Definition loadOperatorKeys (getenv : string → string) (read : string → option string) (path : string) : result string (string * string * string) :=
  match read (path_Join [path; "operatorSeed"%string]) with
  | None => Err "read operatorSeed"%string
  | Some op =>
    match read (path_Join [path; "accountJwt"%string]) with
    | None => Err "read accountJwt"%string
    | Some jwt =>
      if negb (String.eqb (getenv "NATS_SYS_ACCOUNT_SEED"%string) "") then Ok (TrimSpace op, getenv "NATS_SYS_ACCOUNT_SEED"%string, TrimSpace jwt)
      else
        match read (path_Join [path; "sysAccountSeed"%string]) with
        | None => Err "read sysAccountSeed"%string
        | Some sys => Ok (TrimSpace op, TrimSpace sys, TrimSpace jwt)
        end
    end
  end.

End startup.

(** *** The development account *)
Section seed.
Context `{PG : Postgres, JT : JsonText, UT : UnicodeTables, NO : Normalizer, BH : BcryptHash}.

Definition devEmail : string := "dev@mclaude.local".
Definition devPassword : string := "dev".

Definition dev_user (e : cp_env) (s : Server) : result string (User * Server) :=
  if ce_down e "GetUserByEmail" then Err "check dev user"%string
  else
    match GetUserByEmail devEmail (db s) with
    | Some user => Ok (user, s)
    | None =>
      match bcrypt_hash devPassword with
      | None => Err "hash dev password"%string
      | Some hash =>
        match CreateUser (ce_down e "CreateUser") (ce_down e "CreateUser(host)") (ce_uuidBytes e) (ce_uuid e "host") (ce_uuid e "user") devEmail "Dev User" hash (ce_now e) (db s) with
        | Err _ => Err "create dev user"%string
        | Ok (user, t) => Ok (user, set_db t s)
        end
      end
    end.

(** The host of a project that is read back, "local" of a new one. *)
Definition seed_host (ph : Project * string) : string := if String.eqb ph.2 "" then "local"%string else ph.2.

Definition default_project : ProjectCreateRequest := {| pc_Name := "Default Project"; pc_GitURL := ""; pc_GitIdentityID := None; pc_HostSlug := "" |}.

Definition dev_projects (e : cp_env) (user : User) (s : Server) : result string (list (Project * string) * Server) :=
  if ce_down e "GetProjectsByUser" then Err "check dev projects"%string
  else
    match GetProjectsByUser (u_ID user) (db s) with
    | [] =>
      match create_project e (u_ID user) default_project (db s) with
      | Err _ => Err "create dev project"%string
      | Ok (p, t) => Ok ([(p, ""%string)], set_db t s)
      end
    | ps => Ok (ps, s)
    end.

Definition seed_provision (user : User) (h : Host) (s : Server) (ph : Project * string) : Server :=
  send (Requested (HostUserProjectsCreate (h_Slug h) (u_Slug user) (p_Slug ph.1)) (provision_request (u_ID user) (u_Slug user) (h_Slug h) ph.1 "" "")) s.

(** [seedDev]. *)
Definition seedDev (e : cp_env) (s : Server) : result string Server :=
  match dev_user e s with
  | Err err => Err err
  | Ok (user, s) =>
    let s := send (EnsuredUserResources (u_Slug user)) s in
    match dev_projects e user s with
    | Err err => Err err
    | Ok (ps, s) =>
      let s := fold_left (λ s ph, writeProjectKV e (u_Slug user) (seed_host ph) ph.1 s) ps s in
      if String.eqb (u_Slug user) "" then Ok s
      else
        match lookup_row (ce_down e "SelectHost") (first_row (select (λ h, String.eqb (h_UserID h) (u_ID user) && String.eqb (h_Slug h) "local") (hosts (db s)))) with
        | None => Ok s
        | Some h =>
          let s := put_hostKV e (h_Slug h) {| hk_Slug := h_Slug h; hk_Type := h_Type h; hk_Name := h_Name h; hk_Online := true; hk_LastSeenAt := Some (ce_now e) |} s in
          Ok (fold_left (seed_provision user h) ps s)
        end
    end
  end.

End seed.
