(* ===== verification/StartupSpec.v ===== *)
(** * What the programs become when they start

    An agent under the controller of a machine never gets past its flags, one in a pod
    connects with a file its controller deletes, the host that the user chooses has two
    names, and a daemon's children carry its identity. *)

From stdpp Require Import gmap list strings sorting.
From S2P Require Import Prelude GoStrings GoPath Slug Json Subjects Database Permissions ObjectStore ControlServer Challenge ControlDemo HostLifecycle HostLifecycleSpec HostApi ProjectApi ProjectSpec Accounts AccountsSpec Admin AdminSpec LocalController K8sController Client ClientSpec Startup.
Open Scope Z_scope.

(** ** Flags *)

Lemma flag_last_app name a b cur : flag_last name (a ++ b) cur = flag_last name b (flag_last name a cur).
Proof. revert cur. induction a as [|[n v] a IH]; intros cur; [done|]. cbn. apply IH. Qed.

(** One flag with its value as the next argument. *)
Lemma parse_flag kinds n v rest acc :
  HasPrefix n "-" = false → HasPrefix n "=" = false → Split "=" n = [n] → n ≠ ""%string → kinds n = Some false →
  parse_flags kinds (("--" +:+ n)%string :: v :: rest) acc = parse_flags kinds rest (acc ++ [(n, v)]).
Proof.
  intros Hd He Hs Hn Hk. change ("--" +:+ n)%string with (String "-" (String "-" n)). cbn [parse_flags].
  replace (drop_str 2 (String "-" (String "-" n))) with n by done.
  destruct n as [|c n]; [done|]. cbn [String.length]. change (HasPrefix (String "-" (String "-" (String c n))) "-") with true.
  change (HasPrefix (String "-" (String "-" (String c n))) "--") with true. cbn -[parse_flags HasPrefix split_flag app].
  rewrite Hd, He. unfold split_flag. rewrite Hs. cbn -[parse_flags app]. by rewrite Hk.
Qed.

Section startup.
Context `{UT : UnicodeTables, NO : Normalizer, JT : JsonText}.

(** ** Slugs *)

Lemma Slugify_fixed h : Slugify h = h → canonical (bytes_of h).
Proof. intros <-. rewrite Slugify_bytes. apply slugify_bytes_canonical. Qed.

(** The result is a slug, a reserved word, or the prefix with the first bytes of the id. *)
Lemma slug_of_cases given id prefix s : slug_of given id prefix = Done s →
  Validate s = None ∨ s ∈ reservedSet ∨ s = (prefix +:+ take_str 8 id)%string ∧ (8 ≤ String.length id)%nat ∧ Slugify id = ""%string.
Proof.
  unfold slug_of. intros H. destruct (Validate given) eqn:Hv.
  - case_match eqn:He.
    + case_match eqn:Hl; [done|]. simplify_eq. apply Nat.ltb_ge in Hl. apply String.eqb_eq in He. by right; right.
    + simplify_eq. apply String.eqb_neq in He. destruct (Slugify_cases id) as [?|[?|?]]; auto. done.
  - case_match eqn:He; [|simplify_eq; by left]. apply String.eqb_eq in He. by subst.
Qed.

Lemma Slugify_empty : Slugify "" = ""%string.
Proof.
  unfold Slugify. change (bytes_of "") with (@nil N). rewrite slugify_bytes_id; [done|]. split; cbn; [constructor|lia|done|done|].
  intros (l1 & l2 & H). by destruct l1.
Qed.

(** The flags of a supervised agent. *)
Lemma parse_build_args s : ∃ fs, parse_flags agent_flags (build_args s) [] = Ok fs ∧ flag_last "daemon" fs "false" = "false"%string ∧ (∀ d, flag_last "project-id" fs d = d).
Proof.
  unfold build_args. destruct (String.eqb (sc_nkeyPubFile s) ""), (String.eqb (sc_authURL s) ""); (eexists; split; [vm_compute; reflexivity|by split]).
Qed.

(** Every flag of [agent_main] without a project: it never serves. *)
Lemma no_project_no_agent w args fs : parse_flags agent_flags args [] = Ok fs → flag_last "daemon" fs "false" = "false"%string →
  flag_last "project-id" fs (sw_getenv w "PROJECT_ID") = ""%string →
  (∃ msg, agent_run w args = Exits msg) ∨ agent_run w args = Crashes.
Proof.
  intros Hp Hd Hi. unfold agent_run. rewrite Hp, Hd, Hi. change (ParseBool "false") with (Some false). change (String.eqb "" "") with true. cbv iota zeta.
  destruct (slug_of _ _ "u-"); [|by right]. destruct (slug_of _ _ "p-"); [|by right].
  destruct (String.eqb (agent_host _ _ _) ""); [by eauto|]. do 4 (match goal with |- context [if ?b then Exits _ else _] => destruct b end; [by eauto|]). eauto.
Qed.

(** C29. The controller of a machine passes neither the flag nor the variable of the
    project's id to the agents it supervises: none of them ever serves. *)
Theorem supervised_agent_exits w s : sw_getenv w "PROJECT_ID" = ""%string →
  (∃ msg, agent_main (child_world (build_env s) w) (build_args s) = Exits msg) ∨ agent_main (child_world (build_env s) w) (build_args s) = Crashes.
Proof.
  intros Hw. destruct (parse_build_args s) as (fs & Hp & Hd & Hi).
  change (agent_main (child_world (build_env s) w) (build_args s)) with (agent_run (child_world (build_env s) w) (build_args s)).
  apply (no_project_no_agent _ _ fs); [done..|]. rewrite Hi. cbn [child_world sw_getenv]. unfold with_env, build_env. rewrite !flag_last_app. cbn.
  rewrite Hw. by repeat case_match.
Qed.

(** Without a project's id and slug [main] panics, with [--daemon] too. *)
Theorem agent_needs_project w args fs : parse_flags agent_flags args [] = Ok fs →
  flag_last "project-id" fs (sw_getenv w "PROJECT_ID") = ""%string → Validate (flag_last "project-slug" fs (sw_getenv w "PROJECT_SLUG")) ≠ None →
  agent_run w args = Crashes.
Proof.
  intros Hp Hi Hs. unfold agent_run. rewrite Hp, Hi. cbv zeta. destruct (slug_of _ _ "u-"); [|done].
  unfold slug_of. destruct (Validate _) eqn:E; [|done]. by rewrite Slugify_empty.
Qed.

(** ** The active host *)

Lemma slugify_bytes_ascii l : Forall (λ b, (b < 128)%N) l → Forall (λ b, is_upper b = false) l →
  slugify_bytes l = truncate63 (trim is_dash (collapse false l)).
Proof.
  intros Ha Hu. unfold slugify_bytes. replace (strings_ToLower l) with l; [by rewrite nfd_ascii, strip_marks_ascii, runes_ascii by done|].
  unfold strings_ToLower. rewrite runes_ascii by done. symmetry. etrans; [|by apply encode_runes_ascii]. f_equal.
  induction Ha as [|b l Hb Ha IH]; [done|]. apply Forall_cons in Hu as [Hb' Hu]. rewrite fmap_cons, IH by done. f_equal.
  unfold unicode_ToLower, ascii_lower. rewrite Hb'. by rewrite (proj2 (N.ltb_lt _ _) Hb).
Qed.

Lemma canonical_hosts l : canonical l → l ≠ [] → (length l ≤ 57)%nat → canonical (bytes_of "hosts-" ++ l).
Proof.
  intros [Hc _ Hh Hl Hr] Hne Hn. split.
  - apply Forall_app. split; [|done]. by repeat constructor.
  - rewrite length_app. cbn. unfold MaxLen. lia.
  - done.
  - destruct l as [|x l] using rev_ind; [done|]. rewrite app_assoc, last_snoc. by rewrite last_snoc in Hl.
  - intros (a & b & He). destruct a as [|? [|? [|? [|? [|? a]]]]]; cbn in He; simplify_eq/=.
    destruct a as [|? a]; simplify_eq/=; try done. apply Hr. eauto.
Qed.

Lemma slugify_link l : canonical l → l ≠ [] → (length l ≤ 57)%nat → slugify_bytes (bytes_of "hosts/" ++ l) = bytes_of "hosts-" ++ l.
Proof.
  intros Hc Hne Hn. pose proof (canonical_hosts l Hc Hne Hn) as [Hcc Hcl Hch Hct _]. destruct Hc as [Hs _ Hh _ Hr].
  rewrite slugify_bytes_ascii.
  - replace (collapse false (bytes_of "hosts/" ++ l)) with (bytes_of "hosts-" ++ collapse true l) by done.
    rewrite collapse_id, trim_id by done. unfold truncate63. destruct (Nat.ltb_spec MaxLen (length (bytes_of "hosts-" ++ l))); [lia|done].
  - apply Forall_app. split; [by repeat constructor|by apply slug_bytes_ascii].
  - apply Forall_app. split; [by repeat constructor|]. eapply Forall_impl; [exact Hs|]. apply slug_rune_not_upper.
Qed.

Lemma host_link h : Validate h = None → path_Join ["hosts"%string; h] = ("hosts/" +:+ h)%string.
Proof. intros Hv%valid_plain. apply path_Join_rel; [done|]. rewrite !Forall_cons. split_and!; [apply plain_hosts|done|done]. Qed.

Lemma Slugify_link h : Slugify h = h → h ≠ ""%string → (String.length h ≤ 57)%nat →
  Slugify ("hosts/" +:+ h) = ("hosts-" +:+ h)%string ∧ Validate ("hosts-" +:+ h) = None.
Proof.
  intros Hf Hne Hl. pose proof (Slugify_fixed h Hf) as Hc. rewrite <-length_bytes_of in Hl.
  assert (bytes_of h ≠ []) as Hb by (by destruct h).
  pose proof (slugify_link _ Hc Hb Hl) as Hs. pose proof (canonical_hosts _ Hc Hb Hl) as Hk.
  assert (Hv : Validate ("hosts-" +:+ h) = None).
  { apply Validate_valid. unfold valid_slug. rewrite bytes_of_app. destruct Hk. split_and!; [done..|].
    unfold reservedSet. rewrite elem_of_list_to_set. rewrite !elem_of_cons. intros Hin. cbn in Hin.
    repeat (destruct Hin as [Hin|Hin]; [discriminate|]). by apply elem_of_nil in Hin. }
  split; [|done]. apply bytes_of_inj. rewrite Slugify_bytes, !bytes_of_app. exact Hs.
Qed.

(** What the commands of the user leave behind names the host by a link; the agent makes
    a slug of the link itself. *)
Lemma chosen_link e h s s' : RunHostUse e h s = (None, s') → Validate h = None ∧ cf_active s' = Some ("hosts/" +:+ h)%string.
Proof.
  unfold RunHostUse. intros H. destruct (Validate h) eqn:Hv; [done|]. split; [done|]. destruct (negb _); [done|]. destruct (_ || _); [done|].
  injection H as <-. unfold Save. rewrite save_file_active. cbn [put_link cf_active]. f_equal. exact (host_link h Hv).
Qed.

Lemma agent_host_of_link w home h hn : sw_home w = Some home → sw_readlink w (active_host_link home) = Some ("hosts/" +:+ h)%string →
  Slugify h = h → h ≠ ""%string → (String.length h ≤ 57)%nat → agent_host w "" hn = ("hosts-" +:+ h)%string.
Proof.
  intros Hw Hr Hf Hne Hl. destruct (Slugify_link h Hf Hne Hl) as [Hs Hv]. unfold agent_host. change (Validate "") with (Some ErrEmpty). rewrite Hw, Hr.
  change (String.eqb ("hosts/" +:+ h) "") with false. cbv iota. by rewrite Hs, Hv.
Qed.

(** The host of what [main] becomes. *)
Definition served_host (r : start_outcome) : option string :=
  match r with RunsAgent _ _ id => Some (ai_HostSlug id) | RunsDaemon _ _ cfg => Some (dn_HostSlug cfg) | _ => None end.

Lemma agent_run_host w args fs x : parse_flags agent_flags args [] = Ok fs → served_host (agent_run w args) = Some x →
  x = agent_host w (flag_last "host" fs (sw_getenv w "HOST_SLUG")) (flag_last "hostname" fs (sw_getenv w "HOSTNAME")).
Proof.
  intros Hp. unfold agent_run. rewrite Hp. cbv zeta. destruct (slug_of _ _ "u-"); [|done]. destruct (slug_of _ _ "p-"); [|done].
  destruct (String.eqb (agent_host _ _ _) ""); [done|]. do 4 (match goal with |- context [if ?b then Exits _ else _] => destruct b end; [done|]).
  cbv zeta. destruct (match ParseBool _ with Some _ => _ | None => _ end).
  - destruct (sw_fail w "daemon"); [done|]. by intros [= <-].
  - do 3 (match goal with |- context [if ?b then Exits _ else _] => destruct b end; [done|]). by intros [= <-].
Qed.

(** After the user has chosen a host, the controller of the machine serves it and looks
    for its credentials, while an agent started by hand serves "hosts-" and its name. *)
Theorem chosen_host_has_two_names e h s s' w home args fs :
  RunHostUse e h s = (None, s') → Slugify h = h → (String.length h ≤ 57)%nat →
  sw_home w = Some home → sw_readlink w (active_host_link home) = cf_active s' → sw_getenv w "HOST_SLUG" = ""%string → sw_getenv w "HUB_URL" ≠ ""%string →
  parse_flags agent_flags args [] = Ok fs → flag_last "host" fs "" = ""%string →
  (∃ cfg, local_main w [] = Ok cfg ∧ lm_hostSlug cfg = h) ∧
  (∀ x, served_host (agent_run w args) = Some x → x = ("hosts-" +:+ h)%string).
Proof.
  intros Hu Hf Hl Hw Hr Hs Hhub Hp Hh. destruct (chosen_link e h s s' Hu) as [Hv Ha]. rewrite Ha in Hr.
  assert (Hne : h ≠ ""%string) by (by intros ->). split.
  - unfold local_main. cbn [parse_flags flag_last]. rewrite Hs, Hw. change (default ""%string (Some home)) with home. cbv zeta. change (String.eqb "" "") with true. cbv iota. rewrite Hr.
    rewrite <-host_link, Base_host by done. rewrite (proj2 (String.eqb_neq _ _) Hne), Hv, (proj2 (String.eqb_neq _ _) Hhub). eauto.
  - intros x ->%(agent_run_host w args fs x Hp). rewrite Hs, Hh. by apply (agent_host_of_link w home).
Qed.

(** ** Agents in pods and children of daemons *)

Lemma slug_of_valid given id prefix : Validate given = None → slug_of given id prefix = Done given.
Proof. intros Hv. unfold slug_of. rewrite Hv. by destruct given. Qed.

Lemma agent_host_valid w h hn : Validate h = None → agent_host w h hn = h.
Proof. intros Hv. unfold agent_host. rewrite !Hv. by destruct h. Qed.

Lemma valid_slug_nonempty h : Validate h = None → String.eqb h "" = false.
Proof. intros Hv. by destruct h. Qed.

(** What an agent becomes when nothing fails and its flags name it. *)
Lemma agent_run_serves w args fs us ps hs :
  let flag name var := flag_last name fs (sw_getenv w var) in
  parse_flags agent_flags args [] = Ok fs → (∀ x, sw_fail w x = false) → flag_last "daemon" fs "false" = "false"%string →
  slug_of (flag "user-slug" "USER_SLUG")%string (flag "user-id" "USER_ID")%string "u-" = Done us →
  slug_of (flag "project-slug" "PROJECT_SLUG")%string (flag "project-id" "PROJECT_ID")%string "p-" = Done ps →
  agent_host w (flag "host" "HOST_SLUG")%string (flag "hostname" "HOSTNAME")%string = hs → hs ≠ ""%string → flag "project-id"%string "PROJECT_ID"%string ≠ ""%string →
  agent_run w args = RunsAgent (natsConnectWithAuth (negb (String.eqb (flag "auth-url" "AUTH_URL")%string "")) (flag "nats-creds" "NATS_CREDS_FILE")%string)
    (or_val (flag "nats-url" "NATS_URL")%string default_nats_url)
    {| ai_UserID := flag "user-id" "USER_ID"%string; ai_UserSlug := us; ai_HostSlug := hs; ai_ProjectID := flag "project-id" "PROJECT_ID"%string; ai_ProjectSlug := ps;
       ai_dataDir := flag_last "data-dir" fs "/data"; ai_mode := flag_last "mode" fs "standalone" |}.
Proof.
  intros flag Hp Hw Hd Hu Hs Hh Hne Hi. unfold agent_run. rewrite Hp. cbv zeta. unfold flag in *. rewrite Hu, Hs, Hh, !Hw, !andb_false_r, Hd.
  rewrite (proj2 (String.eqb_neq _ _) Hne), (proj2 (String.eqb_neq _ _) Hi). done.
Qed.

Lemma pod_env_get c mcp tpl env name v : flag_last name (take 9 (pod_env c mcp tpl)) (env name) = v →
  String.eqb "GIT_URL" name = false → String.eqb "GIT_IDENTITY_ID" name = false → with_env (pod_env c mcp tpl) env name = v.
Proof.
  intros <- H1 H2. unfold with_env, pod_env. rewrite take_app_le, !flag_last_app by (cbn; lia). cbn [take].
  destruct (String.eqb (ms_GitIdentityID _) ""), (String.eqb (ms_GitURL _) ""); cbn [flag_last app]; by rewrite ?H1, ?H2.
Qed.

(** The agent in the pod of a project serves as the user, host and project of its
    specification, and connects with the file of user credentials that the reconciler
    removes from the secret: it never authenticates with its own key. *)
Theorem pod_agent_exact c mcp tpl w :
  let sp := mp_Spec mcp in
  Validate (ms_UserSlug sp) = None → Validate (ms_ProjectSlug sp) = None → Validate (tp_hostSlug tpl) = None → ms_ProjectID sp ≠ ""%string →
  sw_getenv w "AUTH_URL" = ""%string → (∀ x, sw_fail w x = false) →
  agent_main (child_world (pod_env c mcp tpl) w) (entrypoint (with_env (pod_env c mcp tpl) (sw_getenv w))) =
  RunsAgent (CredentialsFile "/home/node/.user-secrets/nats-creds") (or_val (cs_sessionAgentNATSURL c) default_nats_url)
    {| ai_UserID := ms_UserID sp; ai_UserSlug := ms_UserSlug sp; ai_HostSlug := tp_hostSlug tpl; ai_ProjectID := ms_ProjectID sp; ai_ProjectSlug := ms_ProjectSlug sp;
       ai_dataDir := "/data"; ai_mode := "k8s" |}.
Proof.
  intros sp Hu Hs Hh Hi Ha Hw. unfold entrypoint.
  rewrite (pod_env_get c mcp tpl (sw_getenv w) "NATS_URL" (cs_sessionAgentNATSURL c)), (pod_env_get c mcp tpl (sw_getenv w) "USER_ID" (ms_UserID sp)),
    (pod_env_get c mcp tpl (sw_getenv w) "PROJECT_ID" (ms_ProjectID sp)) by done.
  etrans; [apply (agent_run_serves _ _ [("nats-url", cs_sessionAgentNATSURL c); ("nats-creds", "/home/node/.user-secrets/nats-creds"); ("user-id", ms_UserID sp);
    ("project-id", ms_ProjectID sp); ("data-dir", "/data"); ("mode", "k8s")]%string (ms_UserSlug sp) (ms_ProjectSlug sp) (tp_hostSlug tpl))|]; cbn [flag_last child_world sw_getenv sw_fail]; try done.
  - etrans; [|by apply (slug_of_valid (ms_UserSlug sp) (ms_UserID sp) "u-")]. f_equal. exact (pod_env_get c mcp tpl (sw_getenv w) "USER_SLUG" _ eq_refl eq_refl eq_refl).
  - etrans; [|by apply (slug_of_valid (ms_ProjectSlug sp) (ms_ProjectID sp) "p-")]. f_equal. exact (pod_env_get c mcp tpl (sw_getenv w) "PROJECT_SLUG" _ eq_refl eq_refl eq_refl).
  - etrans; [|by apply (agent_host_valid w (tp_hostSlug tpl) "")]. transitivity (agent_host (child_world (pod_env c mcp tpl) w) (tp_hostSlug tpl) (with_env (pod_env c mcp tpl) (sw_getenv w) "HOSTNAME")).
    + f_equal. exact (pod_env_get c mcp tpl (sw_getenv w) "HOST_SLUG" _ eq_refl eq_refl eq_refl).
    + etrans; [by apply agent_host_valid|]. symmetry. by apply agent_host_valid.
  - intros Hx. by rewrite Hx in Hh.
  - pose proof (pod_env_get c mcp tpl (sw_getenv w) "AUTH_URL" "" Ha eq_refl eq_refl) as Hx. cbn -[with_env pod_env String.eqb]. by rewrite Hx.
Qed.

(** What a daemon has read from its flags. *)
Lemma daemon_config w args auth url cfg : agent_run w args = RunsDaemon auth url cfg →
  url ≠ ""%string ∧ dn_HostSlug cfg ≠ ""%string ∧ (∃ given, slug_of given (dn_UserID cfg) "u-" = Done (dn_UserSlug cfg)) ∧ (∃ a b, dn_HostSlug cfg = agent_host w a b) ∧
  ∃ claude data, dn_AgentArgs cfg = ["--nats-url"; url; "--nats-creds"; dn_NATSCredsFile cfg; "--claude-path"; claude; "--data-dir"; data;
                                     "--user-slug"; dn_UserSlug cfg; "--host"; dn_HostSlug cfg]%string.
Proof.
  unfold agent_run. destruct (parse_flags _ _ _) as [fs|]; [|done]. cbv zeta. destruct (slug_of _ _ "u-") as [us|] eqn:Hu; [|done]. destruct (slug_of _ _ "p-"); [|done].
  destruct (String.eqb (agent_host _ _ _) "") eqn:Hh; [done|]. do 4 (match goal with |- context [if ?b then Exits _ else _] => destruct b end; [done|]).
  cbv zeta. destruct (match ParseBool _ with Some _ => _ | None => _ end).
  - destruct (sw_fail w "daemon"); [done|]. intros [= <- <- <-]. cbn. split_and!.
    + unfold or_val. destruct (String.eqb (flag_last "nats-url" _ _) "") eqn:Hn; [done|]. by apply String.eqb_neq.
    + by apply String.eqb_neq.
    + eauto.
    + eauto.
    + eauto.
  - do 3 (match goal with |- context [if ?b then Exits _ else _] => destruct b end; [done|]). done.
Qed.

Lemma daemon_of_main w args auth url cfg : agent_main w args = RunsDaemon auth url cfg → agent_run w args = RunsDaemon auth url cfg.
Proof. unfold agent_main. destruct args as [|a [|b l]]; [done| |done]. unfold agent_probe. destruct (String.eqb a "--health"); [done|]. by destruct (String.eqb a "--ready"). Qed.

(** An agent that a daemon starts for a project serves as the user and on the host of
    the daemon, with its file of credentials and at its server. *)
Theorem daemon_children_exact w args auth url cfg w' p ps :
  agent_main w args = RunsDaemon auth url cfg → Validate (dn_UserSlug cfg) = None → Validate (dn_HostSlug cfg) = None →
  p ≠ ""%string → slug_of (sw_getenv w' "PROJECT_SLUG") p "p-" = Done ps → sw_getenv w' "AUTH_URL" = ""%string → (∀ x, sw_fail w' x = false) →
  ∃ data, agent_main w' (buildChildCmd cfg p) = RunsAgent (natsConnectWithAuth false (dn_NATSCredsFile cfg)) url
    {| ai_UserID := dn_UserID cfg; ai_UserSlug := dn_UserSlug cfg; ai_HostSlug := dn_HostSlug cfg; ai_ProjectID := p; ai_ProjectSlug := ps; ai_dataDir := data; ai_mode := "standalone" |}.
Proof.
  intros Hd%daemon_of_main Hu Hh Hp Hs Ha Hw. apply daemon_config in Hd as (Hne & _ & _ & _ & claude & data & Hargs). exists data. unfold buildChildCmd. rewrite Hargs.
  etrans; [apply (agent_run_serves _ _ [("nats-url", url); ("nats-creds", dn_NATSCredsFile cfg); ("claude-path", claude); ("data-dir", data);
    ("user-slug", dn_UserSlug cfg); ("host", dn_HostSlug cfg); ("project-id", p); ("user-id", dn_UserID cfg)]%string (dn_UserSlug cfg) ps (dn_HostSlug cfg))|]; try done.
  - by apply slug_of_valid.
  - by apply agent_host_valid.
  - intros Hx. by rewrite Hx in Hh.
  - cbn. rewrite Ha. unfold or_val. by rewrite (proj2 (String.eqb_neq _ _) Hne).
Qed.

End startup.

(** ** The development account *)

Section seed.
Context `{PG : Postgres, JT : JsonText, UT : UnicodeTables, NO : Normalizer, BH : BcryptHash}.

Lemma put_hostKV_db e k v s : db (put_hostKV e k v s) = db s.
Proof. unfold put_hostKV. by case_match. Qed.

Lemma write_projects_db e us ps s : db (fold_left (λ s ph, writeProjectKV e us (seed_host ph) ph.1 s) ps s) = db s.
Proof. revert s. induction ps as [|ph ps IH]; intros s; [done|]. cbn. by rewrite IH, writeProjectKV_db. Qed.

Lemma provision_all_db u h ps s : db (fold_left (seed_provision u h) ps s) = db s.
Proof. revert s. induction ps as [|ph ps IH]; intros s; [done|]. cbn. by rewrite IH. Qed.

Lemma dev_user_found e s u s' : tables_ok (db s) = true → dev_user e s = Ok (u, s') → GetUserByEmail devEmail (db s') = Some u.
Proof.
  intros Hok. unfold dev_user. destruct (ce_down e _); [done|]. destruct (GetUserByEmail _ _) as [v|] eqn:Hv; [by intros [= <- <-]|].
  destruct (bcrypt_hash _) as [hash|]; [|done]. destruct (CreateUser _ _ _ _ _ _ _ _ _ _) as [[v t]|] eqn:Hc; [|done]. intros [= <- <-].
  apply CreateUser_inv in Hc as (Hc & _ & He & _); [|done]. apply first_row_none in Hv.
  assert (Hr : users t = users (db s) ++ [v]) by (by destruct Hc as [_ _ [->|[_ ->]]]).
  unfold GetUserByEmail. cbn [db set_db]. rewrite Hr. unfold select in *. rewrite List.filter_app, Hv. cbn. rewrite He. cbn.
  destruct (first_row [v]) as [x|] eqn:Hx; [|by apply first_row_none in Hx]. apply first_row_in in Hx. by apply list_elem_of_singleton in Hx as ->.
Qed.

Lemma projects_of_user uid t p : p ∈ projects t → p_UserID p = uid → GetProjectsByUser uid t ≠ [].
Proof.
  intros Hp Hu Hn. unfold GetProjectsByUser in Hn.
  assert (Hin : join_host t p ∈ join_host t <$> select (λ p, String.eqb (p_UserID p) uid) (projects t)) by (apply list_elem_of_fmap_2, select_elem; by rewrite Hu, String.eqb_refl).
  rewrite <-(merge_sort_Permutation (λ x y : Project * string, Is_true (p_CreatedAt x.1 <=? p_CreatedAt y.1))) in Hin. rewrite Hn in Hin. by apply elem_of_nil in Hin.
Qed.

Lemma dev_projects_found e u s ps s' : dev_projects e u s = Ok (ps, s') →
  users (db s') = users (db s) ∧ GetProjectsByUser (u_ID u) (db s') ≠ [].
Proof.
  unfold dev_projects. destruct (ce_down e _); [done|]. destruct (GetProjectsByUser (u_ID u) (db s)) as [|x l] eqn:Hl; [|intros [= _ <-]; by rewrite Hl].
  destruct (create_project _ _ _ _) as [[p t]|] eqn:Hc; [|done]. intros [= _ <-]. apply create_project_inv in Hc as (Hu & _ & _ & -> & _). split; [done|].
  eapply (projects_of_user _ _ p); [|done]. apply elem_of_app. right. left.
Qed.

Lemma seedDev_stages e s s' : tables_ok (db s) = true → seedDev e s = Ok s' →
  ∃ u, GetUserByEmail devEmail (db s') = Some u ∧ GetProjectsByUser (u_ID u) (db s') ≠ [].
Proof.
  intros Hok. unfold seedDev. destruct (dev_user e s) as [[u s1]|] eqn:Hu; [|done]. apply dev_user_found in Hu; [|done].
  destruct (dev_projects e u _) as [[ps s2]|] eqn:Hp; [|done]. apply dev_projects_found in Hp as [Hus Hps]. intros H. exists u.
  assert (Hd : db s' = db s2).
  { destruct (String.eqb (u_Slug u) ""); [|destruct (lookup_row _ _)]; injection H as <-; by rewrite ?provision_all_db, ?put_hostKV_db, write_projects_db. }
  rewrite Hd. split; [|done]. unfold GetUserByEmail in *. by rewrite Hus.
Qed.

(** The account of development is made once: at every later start it is found, with
    its projects, and no row of the database changes. *)
Theorem seedDev_idempotent e1 e2 s s1 : tables_ok (db s) = true → seedDev e1 s = Ok s1 →
  ce_down e2 "GetUserByEmail" = false → ce_down e2 "GetProjectsByUser" = false →
  ∃ s2, seedDev e2 s1 = Ok s2 ∧ db s2 = db s1.
Proof.
  intros Hok H1 Hd1 Hd2. destruct (seedDev_stages e1 s s1 Hok H1) as (u & Hu & Hps). unfold seedDev, dev_user. rewrite Hd1, Hu.
  unfold dev_projects. rewrite Hd2. cbn [db send]. destruct (GetProjectsByUser _ _) as [|x l]; [done|].
  destruct (String.eqb (u_Slug u) ""); [|destruct (lookup_row _ _)]; eexists; (split; [reflexivity|]); by rewrite ?provision_all_db, ?put_hostKV_db, write_projects_db.
Qed.

End seed.

(** ** Examples *)
Module StartupDemo.

#[export] Existing Instances demo_pg ClientDemo.text demo_tables demo_norm.
#[export] Instance hashes : BcryptHash := {| bcrypt_hash p := Some ("hash of " +:+ p)%string |}.

Definition world (env : list (string * string)) (link : option string) : start_world :=
  {| sw_getenv := with_env env (λ _, ""%string); sw_home := Some "/home/al"%string;
     sw_readlink p := if String.eqb p "/home/al/.mclaude/active-host" then link else None; sw_hostname := "laptop"; sw_arg0 := "session-agent"; sw_fail _ := false |}.
Definition child : supervisedChild :=
  {| sc_projectSlug := "web"; sc_userSlug := "alice"; sc_dataDir := "/data/web"; sc_hostSlug := "laptop"; sc_authURL := "https://cp"; sc_nkeyPubFile := "/tmp/k.pub" |}.
Definition chosen : cli_files := (RunHostUse ClientDemo.env "laptop" ClientDemo.completed).2.
Definition by_hand : start_world := world [("HUB_URL", "wss://hub"); ("USER_SLUG", "alice"); ("USER_ID", "id-alice"); ("PROJECT_ID", "web")]%string (cf_active chosen).
Definition mcp : MCProject := {| mp_Namespace := "mclaude-system"; mp_Name := "alice-web"; mp_UID := "uid-1";
  mp_Spec := {| ms_UserID := "id-alice"; ms_ProjectID := "proj-1"; ms_UserSlug := "alice"; ms_ProjectSlug := "web"; ms_GitURL := ""; ms_GitIdentityID := "" |}; mp_Status := zero_status |}.
Definition tpl : sessionAgentTpl := {| tp_image := "agent"; tp_imagePullPolicy := ""; tp_grace := 30; tp_resources := no_resources; tp_projectPvcSize := ""; tp_projectPvcStorageClass := "";
  tp_nixPvcSize := ""; tp_nixPvcStorageClass := ""; tp_caEnabled := false; tp_caName := ""; tp_caKey := ""; tp_hostSlug := "cluster" |}.
Definition cfg : settings := {| cs_controlPlaneNs := "mclaude-system"; cs_sessionAgentTemplateCM := "template"; cs_sessionAgentNATSURL := "nats://hub"; cs_controlPlaneURL := "https://cp";
  cs_devOAuthToken := ""; cs_clusterSlug := "cluster" |}.
Definition daemon_cfg : daemon_launch :=
  match agent_main by_hand ["--daemon"; "--project-id"; "any"; "--host"; "laptop"]%string with
  | RunsDaemon _ _ c => c
  | _ => {| dn_NATSCredsFile := ""; dn_RefreshURL := ""; dn_UserID := ""; dn_UserSlug := ""; dn_HostSlug := ""; dn_Hostname := ""; dn_MachineID := ""; dn_AgentBinary := ""; dn_AgentArgs := [] |}
  end.
Definition seeded : Server := match seedDev (env_at 100) server with Ok s => s | Err _ => server end.

Example started_by_hand : served_host (agent_main by_hand []) = Some "hosts-laptop"%string ∧ option_map lm_hostSlug (match local_main by_hand [] with Ok c => Some c | Err _ => None end) = Some "laptop"%string.
Proof. by vm_compute. Qed.
Example seeds_account : length (users (db seeded)) = S (length (users (db server))) ∧ length (projects (db seeded)) = S (length (projects (db server))).
Proof. by vm_compute. Qed.

End StartupDemo.
Import StartupDemo.

Lemma supervised_agent_exits_witness :
  (∃ msg, agent_main (child_world (build_env child) (world [] None)) (build_args child) = Exits msg) ∨ agent_main (child_world (build_env child) (world [] None)) (build_args child) = Crashes.
Proof. by apply (supervised_agent_exits (world [] None) child). Defined.

Lemma agent_needs_project_witness : agent_run (world [("USER_ID", "id-alice")]%string None) ["--daemon"; "--host"; "laptop"]%string = Crashes.
Proof. by apply (agent_needs_project (world [("USER_ID", "id-alice")]%string None) _ [("daemon", "true"); ("host", "laptop")]%string). Defined.

Lemma chosen_host_has_two_names_witness :
  (∃ c, local_main by_hand [] = Ok c ∧ lm_hostSlug c = "laptop"%string) ∧ ∀ x, served_host (agent_run by_hand []) = Some x → x = "hosts-laptop"%string.
Proof.
  apply (chosen_host_has_two_names ClientDemo.env "laptop" ClientDemo.completed chosen by_hand "/home/al" [] []); try by vm_compute. cbn. lia.
Defined.

Lemma pod_agent_exact_witness :
  agent_main (child_world (pod_env cfg mcp tpl) (world [] None)) (entrypoint (with_env (pod_env cfg mcp tpl) (sw_getenv (world [] None)))) =
  RunsAgent (CredentialsFile "/home/node/.user-secrets/nats-creds") "nats://hub"
    {| ai_UserID := "id-alice"; ai_UserSlug := "alice"; ai_HostSlug := "cluster"; ai_ProjectID := "proj-1"; ai_ProjectSlug := "web"; ai_dataDir := "/data"; ai_mode := "k8s" |}.
Proof. by apply (pod_agent_exact cfg mcp tpl (world [] None)). Defined.

Lemma daemon_children_exact_witness : ∃ data, agent_main by_hand (buildChildCmd daemon_cfg "web") = RunsAgent Anonymous default_nats_url
    {| ai_UserID := "id-alice"; ai_UserSlug := "alice"; ai_HostSlug := "laptop"; ai_ProjectID := "web"; ai_ProjectSlug := "web"; ai_dataDir := data; ai_mode := "standalone" |}.
Proof.
  apply (daemon_children_exact by_hand ["--daemon"; "--project-id"; "any"; "--host"; "laptop"]%string Anonymous default_nats_url daemon_cfg by_hand "web" "web");
    [vm_compute; reflexivity|vm_compute; reflexivity|vm_compute; reflexivity|discriminate|vm_compute; reflexivity|reflexivity|reflexivity].
Defined.

Lemma seedDev_idempotent_witness : ∃ s2, seedDev (env_at 200) seeded = Ok s2 ∧ db s2 = db seeded.
Proof. apply (seedDev_idempotent (env_at 100) (env_at 200) server seeded); by vm_compute. Defined.
