(* ===== verification/Terminals.v ===== *)
(** * Terminals and the quota publisher of the agent (mclaude-session-agent: terminal.go,
    agent.go [subscribeTerminalAPI], [subscribeManageAPI] and their handlers)

    NATS runs the callbacks of one subscription one after the other and those of different
    subscriptions side by side.  A handler is therefore split where it lets go of the lock:
    a creation may be between the start of its shell and its entry in the map while a
    deletion or a resize runs.  Terminals live in a heap; the map of the agent holds
    handles.  The pseudo terminal, the shell and the connection are the environment. *)

From stdpp Require Import gmap list strings pretty.
From S2P Require Import Prelude GoStrings Json Subjects SessionState Session Agent.
Open Scope Z_scope.

(** ** Data *)

(** [tm_open]: the master side is open; [tm_subscribed]: the input subscription stands;
    [tm_reading]: the reader has not ended ([doneCh] is open); [tm_alive]: the shell runs. *)
Record TerminalSession := {
  tm_id : string; tm_shell : string; tm_open : bool; tm_subscribed : bool; tm_reading : bool; tm_alive : bool; tm_stdin : list string; tm_size : Z * Z;
}.

Inductive term_out := Output (subject chunk : string) | Answered (payload : json).

(** The request in hand of each of the three subscriptions. *)
Record term_state := {
  ts_slugs : string * string * string;
  ts_heap : list TerminalSession;
  ts_map : gmap string nat;
  ts_creating : option (nmsg * nat);
  ts_deleting : option (nmsg * nat);
  ts_resizing : option (nmsg * nat * (Z * Z));
  ts_out : list term_out;
}.

Record term_env := { te_now : Z; te_jsonErr : string; te_ptyErr : string → option string; te_subErr : string → option string; te_sizeErr : option string }.

Definition set_heap (v : list TerminalSession) (s : term_state) : term_state :=
  {| ts_slugs := ts_slugs s; ts_heap := v; ts_map := ts_map s; ts_creating := ts_creating s; ts_deleting := ts_deleting s; ts_resizing := ts_resizing s; ts_out := ts_out s |}.
Definition set_map (v : gmap string nat) (s : term_state) : term_state :=
  {| ts_slugs := ts_slugs s; ts_heap := ts_heap s; ts_map := v; ts_creating := ts_creating s; ts_deleting := ts_deleting s; ts_resizing := ts_resizing s; ts_out := ts_out s |}.
Definition set_creating (v : option (nmsg * nat)) (s : term_state) : term_state :=
  {| ts_slugs := ts_slugs s; ts_heap := ts_heap s; ts_map := ts_map s; ts_creating := v; ts_deleting := ts_deleting s; ts_resizing := ts_resizing s; ts_out := ts_out s |}.
Definition set_deleting (v : option (nmsg * nat)) (s : term_state) : term_state :=
  {| ts_slugs := ts_slugs s; ts_heap := ts_heap s; ts_map := ts_map s; ts_creating := ts_creating s; ts_deleting := v; ts_resizing := ts_resizing s; ts_out := ts_out s |}.
Definition set_resizing (v : option (nmsg * nat * (Z * Z))) (s : term_state) : term_state :=
  {| ts_slugs := ts_slugs s; ts_heap := ts_heap s; ts_map := ts_map s; ts_creating := ts_creating s; ts_deleting := ts_deleting s; ts_resizing := v; ts_out := ts_out s |}.
Definition term_say (o : term_out) (s : term_state) : term_state :=
  {| ts_slugs := ts_slugs s; ts_heap := ts_heap s; ts_map := ts_map s; ts_creating := ts_creating s; ts_deleting := ts_deleting s; ts_resizing := ts_resizing s; ts_out := ts_out s ++ [o] |}.

(** [reply]: data, or an error. *)
Definition term_reply (msg : nmsg) (data : list (string * string)) (s : term_state) : term_state :=
  if m_reply msg then term_say (Answered (marshal_strings data)) s else s.
Definition term_error (msg : nmsg) (err : string) (s : term_state) : term_state := term_reply msg [("error"%string, err)] s.

Definition terminal_subject (s : term_state) (rest : string) : string :=
  let '(u, h, p) := ts_slugs s in UserHostProjectAPITerminal u h p rest.
Definition outputSubject (s : term_state) (id : string) : string := terminal_subject s (id +:+ ".output").
Definition inputSubject (s : term_state) (id : string) : string := terminal_subject s (id +:+ ".input").

(** ** A terminal *)

Definition fresh_terminal (id shell : string) (ok : bool) : TerminalSession :=
  {| tm_id := id; tm_shell := shell; tm_open := ok; tm_subscribed := ok; tm_reading := true; tm_alive := ok; tm_stdin := []; tm_size := (0, 0) |}.

(** [startTerminal]: when the subscription fails the shell is closed and killed, its reader ends. *)
Definition startTerminal (e : term_env) (id shell : string) (s : term_state) : result string nat * term_state :=
  match te_ptyErr e shell with
  | Some err => (Err ("start PTY: " +:+ err)%string, s)
  | None =>
    match te_subErr e (inputSubject s id) with
    | Some err => (Err ("subscribe terminal input: " +:+ err)%string, set_heap (ts_heap s ++ [fresh_terminal id shell false]) s)
    | None => (Ok (length (ts_heap s)), set_heap (ts_heap s ++ [fresh_terminal id shell true]) s)
    end
  end.

Definition term_stopped (t : TerminalSession) : TerminalSession :=
  {| tm_id := tm_id t; tm_shell := tm_shell t; tm_open := false; tm_subscribed := false; tm_reading := tm_reading t; tm_alive := false; tm_stdin := tm_stdin t; tm_size := tm_size t |}.
Definition term_resized (v : Z * Z) (t : TerminalSession) : TerminalSession :=
  {| tm_id := tm_id t; tm_shell := tm_shell t; tm_open := tm_open t; tm_subscribed := tm_subscribed t; tm_reading := tm_reading t; tm_alive := tm_alive t; tm_stdin := tm_stdin t; tm_size := v |}.
Definition exited (t : TerminalSession) : TerminalSession :=
  {| tm_id := tm_id t; tm_shell := tm_shell t; tm_open := tm_open t; tm_subscribed := tm_subscribed t; tm_reading := tm_reading t; tm_alive := false; tm_stdin := tm_stdin t; tm_size := tm_size t |}.
Definition read_ended (t : TerminalSession) : TerminalSession :=
  {| tm_id := tm_id t; tm_shell := tm_shell t; tm_open := tm_open t; tm_subscribed := tm_subscribed t; tm_reading := false; tm_alive := tm_alive t; tm_stdin := tm_stdin t; tm_size := tm_size t |}.
Definition term_typed (data : string) (t : TerminalSession) : TerminalSession :=
  {| tm_id := tm_id t; tm_shell := tm_shell t; tm_open := tm_open t; tm_subscribed := tm_subscribed t; tm_reading := tm_reading t; tm_alive := tm_alive t;
     tm_stdin := if tm_open t then tm_stdin t ++ [data] else tm_stdin t; tm_size := tm_size t |}.

(** ** Requests *)

Record term_request := { tq_TermID : string; tq_Shell : string; tq_Rows : Z; tq_Cols : Z }.
Definition zero_request : term_request := {| tq_TermID := ""; tq_Shell := ""; tq_Rows := 0; tq_Cols := 0 |}.

(** [uint16]: any other number is a type mismatch. *)
Definition dec_uint16 : decoder Z := λ j cur,
  match dec_int j cur with
  | (z, ok) => if ok && (0 <=? z) && (z <? 65536) then (z, true) else (cur, false)
  end.

Definition term_id_field : field term_request :=
  fld "termId" dec_string tq_TermID (λ v r, {| tq_TermID := v; tq_Shell := tq_Shell r; tq_Rows := tq_Rows r; tq_Cols := tq_Cols r |}).
Definition create_fields : list (field term_request) :=
  [term_id_field; fld "shell" dec_string tq_Shell (λ v r, {| tq_TermID := tq_TermID r; tq_Shell := v; tq_Rows := tq_Rows r; tq_Cols := tq_Cols r |})].
Definition term_resize_fields : list (field term_request) :=
  [term_id_field; fld "rows" dec_uint16 tq_Rows (λ v r, {| tq_TermID := tq_TermID r; tq_Shell := tq_Shell r; tq_Rows := v; tq_Cols := tq_Cols r |});
   fld "cols" dec_uint16 tq_Cols (λ v r, {| tq_TermID := tq_TermID r; tq_Shell := tq_Shell r; tq_Rows := tq_Rows r; tq_Cols := v |})].

Section handlers.
Context `{JT : JsonText, NS : NatsServer}.

Definition create_request (e : term_env) (msg : nmsg) : option (string * string) :=
  match (if String.eqb (m_data msg) "" then Some zero_request else unmarshal (dec_struct create_fields) zero_request (m_data msg)) with
  | None => None
  | Some r =>
    Some (if String.eqb (tq_TermID r) "" then ("term-" +:+ pretty (te_now e))%string else tq_TermID r,
          if String.eqb (tq_Shell r) "" then "/bin/sh"%string else tq_Shell r)
  end.

(** [handleTerminalCreate] up to the entry in the map, and from there. *)
Definition create_starts (e : term_env) (msg : nmsg) (s : term_state) : term_state :=
  match create_request e msg with
  | None => term_error msg ("invalid request: " +:+ te_jsonErr e) s
  | Some (id, shell) =>
    match ts_map s !! id with
    | Some _ => term_error msg ("terminal already exists: " +:+ id) s
    | None =>
      match startTerminal e id shell s with
      | (Err err, s) => term_error msg ("start terminal: " +:+ err) s
      | (Ok h, s) => set_creating (Some (msg, h)) s
      end
    end
  end.
Definition create_ends (msg : nmsg) (h : nat) (s : term_state) : term_state :=
  let s := set_creating None s in
  match ts_heap s !! h with
  | Some t => term_reply msg [("id"%string, tm_id t)] (set_map (<[tm_id t := h]> (ts_map s)) s)
  | None => s
  end.

Definition delete_request (msg : nmsg) : option string :=
  match unmarshal (dec_struct [term_id_field]) zero_request (m_data msg) with
  | Some r => if String.eqb (tq_TermID r) "" then None else Some (tq_TermID r)
  | None => None
  end.

(** [handleTerminalDelete]: the entry is taken out, then the terminal is stopped. *)
Definition delete_starts (msg : nmsg) (s : term_state) : term_state :=
  match delete_request msg with
  | None => term_error msg "invalid request: missing termId" s
  | Some id =>
    match ts_map s !! id with
    | None => term_error msg ("terminal not found: " +:+ id) s
    | Some h => set_deleting (Some (msg, h)) (set_map (delete id (ts_map s)) s)
    end
  end.
Definition delete_ends (msg : nmsg) (h : nat) (s : term_state) : term_state :=
  term_reply msg [] (set_heap (alter term_stopped h (ts_heap s)) (set_deleting None s)).

(** [handleTerminalResize]: the entry is looked up, then the size is set. *)
Definition resize_starts (msg : nmsg) (s : term_state) : term_state :=
  match unmarshal (dec_struct term_resize_fields) zero_request (m_data msg) with
  | None => term_error msg "invalid request: missing termId" s
  | Some r =>
    if String.eqb (tq_TermID r) "" then term_error msg "invalid request: missing termId" s
    else
      match ts_map s !! tq_TermID r with
      | None => term_error msg ("terminal not found: " +:+ tq_TermID r) s
      | Some h => set_resizing (Some (msg, h, (tq_Rows r, tq_Cols r))) s
      end
  end.
Definition resize_ends (e : term_env) (msg : nmsg) (h : nat) (size : Z * Z) (s : term_state) : term_state :=
  let s := set_resizing None s in
  match ts_heap s !! h with
  | Some t =>
    if tm_open t then
      match te_sizeErr e with
      | Some err => term_error msg ("resize: " +:+ err) s
      | None => term_reply msg [] (set_heap (alter (term_resized size) h (ts_heap s)) s)
      end
    else term_error msg "resize: bad file descriptor" s
  | None => s
  end.

(** ** What happens *)

Inductive term_event :=
| Create (msg : nmsg) | Created | Delete (msg : nmsg) | Deleted | Resize (msg : nmsg) | Resized
| Input (subject data : string) | Reads (h : nat) (chunk : string) | ReadFails (h : nat) | ShellExits (h : nat).

(** The callbacks of the input subscriptions that match the subject. *)
Definition hears (s : term_state) (subject : string) (t : TerminalSession) : bool := tm_subscribed t && nats_matches (inputSubject s (tm_id t)) subject.
Definition deliver (subject data : string) (s : term_state) : term_state :=
  set_heap ((λ t, if hears s subject t then term_typed data t else t) <$> ts_heap s) s.

(** [None]: the event cannot happen now.  A reader reads from an open terminal, up to
    4096 bytes at a time; it fails when the terminal is closed or the shell is gone. *)
Definition term_step (e : term_env) (ev : term_event) (s : term_state) : option term_state :=
  match ev with
  | Create msg => match ts_creating s with None => Some (create_starts e msg s) | Some _ => None end
  | Created => match ts_creating s with Some (msg, h) => Some (create_ends msg h s) | None => None end
  | Delete msg => match ts_deleting s with None => Some (delete_starts msg s) | Some _ => None end
  | Deleted => match ts_deleting s with Some (msg, h) => Some (delete_ends msg h s) | None => None end
  | Resize msg => match ts_resizing s with None => Some (resize_starts msg s) | Some _ => None end
  | Resized => match ts_resizing s with Some (msg, h, size) => Some (resize_ends e msg h size s) | None => None end
  | Input subject data => Some (deliver subject data s)
  | Reads h chunk =>
    match ts_heap s !! h with
    | Some t => if tm_reading t && tm_open t && negb (String.eqb chunk "") && (String.length chunk <=? 4096)%nat then Some (term_say (Output (outputSubject s (tm_id t)) chunk) s) else None
    | None => None
    end
  | ReadFails h =>
    match ts_heap s !! h with
    | Some t => if tm_reading t && negb (tm_open t && tm_alive t) then Some (set_heap (alter read_ended h (ts_heap s)) s) else None
    | None => None
    end
  | ShellExits h =>
    match ts_heap s !! h with
    | Some t => if tm_alive t then Some (set_heap (alter exited h (ts_heap s)) s) else None
    | None => None
    end
  end.

Fixpoint term_run (evs : list (term_env * term_event)) (s : term_state) : option term_state :=
  match evs with
  | [] => Some s
  | (e, ev) :: evs => match term_step e ev s with Some s => term_run evs s | None => None end
  end.

End handlers.

Definition no_terminals (u h p : string) : term_state :=
  {| ts_slugs := (u, h, p); ts_heap := []; ts_map := ∅; ts_creating := None; ts_deleting := None; ts_resizing := None; ts_out := [] |}.

(** The subjects of [subscribeTerminalAPI]. *)
Definition terminal_subscriptions (s : term_state) : list string := terminal_subject s <$> ["create"; "delete"; "resize"]%string.

(** ** The quota publisher *)

(** The publishers ever started, with whether each still runs, and the one [quotaPublisherCancel] stops. *)
Record publishers := { qp_all : list bool; qp_cancel : option nat }.

Definition quota_request : list (field bool) := [fld "quotaPublisher" dec_bool id (λ v _, v)].

Definition startQuotaPublisher (s : publishers) : publishers :=
  match qp_cancel s with Some _ => s | None => {| qp_all := qp_all s ++ [true]; qp_cancel := Some (length (qp_all s)) |} end.
Definition stop_publisher (s : publishers) : publishers :=
  match qp_cancel s with Some i => {| qp_all := <[i := false]> (qp_all s); qp_cancel := None |} | None => s end.

(** [handleDesignateQuotaPublisher]. *)
Definition handleDesignateQuotaPublisher `{JsonText} (data : string) (s : publishers) : publishers :=
  match unmarshal (dec_struct quota_request) false data with
  | None => s
  | Some true => startQuotaPublisher s
  | Some false => stop_publisher s
  end.
