(* ===== verification/TerminalsSpec.v ===== *)
(** * What the agent promises about terminals

    Every shell that runs belongs to an entry of the map or to a request in hand, a deleted
    terminal stays silent, input reaches the terminal it is addressed to, every request is
    answered once, and at most one quota publisher runs. *)

From stdpp Require Import gmap list strings pretty.
From S2P Require Import Prelude GoStrings Slug Json Subjects SessionState Session Agent Terminals.
Open Scope Z_scope.

Section spec.
Context `{JT : JsonText, NS : NatsServer}.

Definition live (t : TerminalSession) : Prop := tm_open t = true ∧ tm_subscribed t = true.
Definition dead (t : TerminalSession) : Prop := tm_open t = false ∧ tm_subscribed t = false ∧ tm_alive t = false.

(** ** The invariant *)

(** Who holds a terminal: the map, a creation, a deletion; otherwise it is dead. *)
Record terms_ok (s : term_state) : Prop := {
  ok_map : ∀ id h, ts_map s !! id = Some h → ∃ t, ts_heap s !! h = Some t ∧ tm_id t = id ∧ live t;
  ok_creating : ∀ m h, ts_creating s = Some (m, h) → ∃ t, ts_heap s !! h = Some t ∧ live t ∧ ts_map s !! tm_id t = None;
  ok_deleting : ∀ m h, ts_deleting s = Some (m, h) → ∃ t, ts_heap s !! h = Some t ∧ live t ∧ ts_map s !! tm_id t ≠ Some h ∧ ∀ m', ts_creating s ≠ Some (m', h);
  ok_rest : ∀ h t, ts_heap s !! h = Some t → ts_map s !! tm_id t = Some h ∨ (∃ m, ts_creating s = Some (m, h)) ∨ (∃ m, ts_deleting s = Some (m, h)) ∨ dead t;
}.

Lemma none_ok u h p : terms_ok (no_terminals u h p).
Proof. split; cbn; intros; simplify_map_eq. Qed.

Lemma term_reply_heap msg d s : ts_heap (term_reply msg d s) = ts_heap s.
Proof. unfold term_reply. by case_match. Qed.
Lemma term_reply_map msg d s : ts_map (term_reply msg d s) = ts_map s.
Proof. unfold term_reply. by case_match. Qed.
Lemma term_reply_creating msg d s : ts_creating (term_reply msg d s) = ts_creating s.
Proof. unfold term_reply. by case_match. Qed.
Lemma term_reply_deleting msg d s : ts_deleting (term_reply msg d s) = ts_deleting s.
Proof. unfold term_reply. by case_match. Qed.

Lemma ok_fields s s' : ts_heap s' = ts_heap s → ts_map s' = ts_map s → ts_creating s' = ts_creating s → ts_deleting s' = ts_deleting s → terms_ok s → terms_ok s'.
Proof. intros Hh Hm Hc Hd []. split; rewrite ?Hh, ?Hm, ?Hc, ?Hd; assumption. Qed.

Lemma reply_ok msg d s : terms_ok s → terms_ok (term_reply msg d s).
Proof. apply ok_fields; [apply term_reply_heap|apply term_reply_map|apply term_reply_creating|apply term_reply_deleting]. Qed.

(** A change of the terminals that keeps their ids, and live ones live. *)
Lemma heap_ok s heap' :
  (∀ h t', heap' !! h = Some t' → ∃ t, ts_heap s !! h = Some t ∧ tm_id t' = tm_id t ∧ (live t → live t') ∧ (dead t → dead t')) →
  length heap' = length (ts_heap s) → terms_ok s → terms_ok (set_heap heap' s).
Proof.
  intros Hs Hl Hok. assert (Hback : ∀ h t, ts_heap s !! h = Some t → ∃ t', heap' !! h = Some t' ∧ tm_id t' = tm_id t ∧ (live t → live t')).
  { intros h t Ht. destruct (heap' !! h) as [t'|] eqn:E; [|apply lookup_ge_None in E; apply lookup_lt_Some in Ht; lia].
    destruct (Hs h t' E) as (t0 & H0 & ? & ? & _). exists t'. by simplify_eq. }
  split; cbn.
  - intros id h (t & Ht & Hid & Hlive)%(ok_map s Hok). destruct (Hback h t Ht) as (t' & ? & ? & ?). exists t'. split_and!; [done|congruence|auto].
  - intros m h (t & Ht & Hlive & Hn)%(ok_creating s Hok). destruct (Hback h t Ht) as (t' & ? & Hi & ?). exists t'. rewrite Hi. auto.
  - intros m h (t & Ht & Hlive & Hn)%(ok_deleting s Hok). destruct (Hback h t Ht) as (t' & ? & Hi & ?). exists t'. rewrite Hi. auto.
  - intros h t' Ht'. destruct (Hs h t' Ht') as (t & Ht & Hi & _ & Hd). rewrite Hi. destruct (ok_rest s Hok h t Ht) as [?|[?|[?|?]]]; auto.
Qed.

Lemma alter_ok s f h : (∀ t, tm_id (f t) = tm_id t) → (∀ t, live t → live (f t)) → (∀ t, dead t → dead (f t)) → terms_ok s → terms_ok (set_heap (alter f h (ts_heap s)) s).
Proof.
  intros Hi Hl Hd. apply heap_ok; [|by rewrite length_alter]. intros k t' Hk. destruct (decide (k = h)) as [->|Hne].
  - rewrite list_lookup_alter_eq in Hk. destruct (ts_heap s !! h) as [t|] eqn:E; [|done]. injection Hk as <-. exists t. auto.
  - rewrite list_lookup_alter_ne in Hk by done. exists t'. auto.
Qed.

Lemma lookup_snoc_cases {A} (l : list A) x h y : (l ++ [x]) !! h = Some y → l !! h = Some y ∨ h = length l ∧ y = x.
Proof. intros [?|[Hh Hy]]%lookup_app_Some; [by left|right]. apply list_lookup_singleton_Some in Hy as [? ->]. split; [lia|done]. Qed.

(** A new terminal that is dead, and one that a creation holds. *)
Lemma new_dead_ok s t : dead t → terms_ok s → terms_ok (set_heap (ts_heap s ++ [t]) s).
Proof.
  intros Hd Hok. split; cbn.
  - intros id h (t0 & Ht & ?)%(ok_map s Hok). exists t0. split; [by apply lookup_app_l_Some|done].
  - intros m h (t0 & Ht & ?)%(ok_creating s Hok). exists t0. split; [by apply lookup_app_l_Some|done].
  - intros m h (t0 & Ht & ?)%(ok_deleting s Hok). exists t0. split; [by apply lookup_app_l_Some|done].
  - intros h t0 [Ht|[-> ->]]%lookup_snoc_cases; [by apply (ok_rest s Hok)|auto].
Qed.

Lemma new_live_ok s t msg : live t → ts_map s !! tm_id t = None → ts_creating s = None → terms_ok s →
  terms_ok (set_creating (Some (msg, length (ts_heap s))) (set_heap (ts_heap s ++ [t]) s)).
Proof.
  intros Hl Hn Hc Hok. split; cbn.
  - intros id h (t0 & Ht & ?)%(ok_map s Hok). exists t0. split; [by apply lookup_app_l_Some|done].
  - intros m h [= -> <-]. exists t. split; [by apply list_lookup_middle|done].
  - intros m h (t0 & Ht & Hl0 & Hm0 & _)%(ok_deleting s Hok). exists t0. split_and!; [by apply lookup_app_l_Some|done..|].
    intros m' [= _ <-]. apply lookup_lt_Some in Ht. lia.
  - intros h t0 [Ht|[-> ->]]%lookup_snoc_cases; [|eauto]. destruct (ok_rest s Hok h t0 Ht) as [?|[[m Hm]|[?|?]]]; auto. congruence.
Qed.

Lemma create_starts_ok e msg s : ts_creating s = None → terms_ok s → terms_ok (create_starts e msg s).
Proof.
  intros Hc Hok. unfold create_starts. destruct (create_request e msg) as [[id shell]|]; [|by apply reply_ok].
  destruct (ts_map s !! id) eqn:Hm; [by apply reply_ok|]. unfold startTerminal. destruct (te_ptyErr e shell); [by apply reply_ok|].
  destruct (te_subErr e _); [by apply reply_ok, new_dead_ok|]. by apply new_live_ok.
Qed.

Lemma create_ends_ok msg h s : ts_creating s = Some (msg, h) → terms_ok s → terms_ok (create_ends msg h s).
Proof.
  intros Hc Hok. unfold create_ends. cbn [ts_heap set_creating]. destruct (ok_creating s Hok msg h Hc) as (t & Ht & Hl & Hn). rewrite Ht. apply reply_ok. split; cbn.
  - intros id k Hk. destruct (decide (id = tm_id t)) as [->|Hne]; [rewrite lookup_insert_eq in Hk; simplify_eq; eauto|].
    rewrite lookup_insert_ne in Hk by done. by apply (ok_map s Hok).
  - done.
  - intros m k Hd. destruct (ok_deleting s Hok m k Hd) as (t0 & Ht0 & Hl0 & Hm0 & Hx). exists t0. split_and!; [done|done| |done].
    intros Hk. apply lookup_insert_Some in Hk as [[_ ->]|[_ Hk]]; [by destruct (Hx msg)|done].
  - intros k t0 Ht0. destruct (ok_rest s Hok k t0 Ht0) as [Hk|[[m Hm]|[?|?]]]; [| |auto..].
    + left. destruct (decide (tm_id t0 = tm_id t)) as [E|Hne]; [congruence|by rewrite lookup_insert_ne].
    + left. rewrite Hc in Hm. injection Hm as _ <-. rewrite Ht in Ht0. injection Ht0 as <-. by rewrite lookup_insert_eq.
Qed.

Lemma delete_starts_ok msg s : ts_deleting s = None → terms_ok s → terms_ok (delete_starts msg s).
Proof.
  intros Hd Hok. unfold delete_starts. destruct (delete_request msg) as [id|]; [|by apply reply_ok].
  destruct (ts_map s !! id) as [h|] eqn:Hm; [|by apply reply_ok]. destruct (ok_map s Hok id h Hm) as (t & Ht & <- & Hl). split; cbn.
  - intros id k [_ Hk]%lookup_delete_Some. by apply (ok_map s Hok).
  - intros m k (t0 & Ht0 & Hl0 & Hm0)%(ok_creating s Hok). exists t0. split_and!; [done|done|]. apply lookup_delete_None. by right.
  - intros m k [= -> <-]. exists t. split_and!; [done|done|by rewrite lookup_delete_eq|].
    intros m' Hc. destruct (ok_creating s Hok m' h Hc) as (t0 & Ht0 & _ & Hn). congruence.
  - intros k t0 Ht0. destruct (ok_rest s Hok k t0 Ht0) as [Hk|[[m Hc]|[[m Hc]|?]]]; [|by eauto|congruence|by auto].
    destruct (decide (tm_id t0 = tm_id t)) as [E|Hne]; [right; right; left; exists msg; congruence|left; by rewrite lookup_delete_ne].
Qed.

Lemma delete_ends_ok msg h s : ts_deleting s = Some (msg, h) → terms_ok s → terms_ok (delete_ends msg h s).
Proof.
  intros Hd Hok. unfold delete_ends. apply reply_ok. destruct (ok_deleting s Hok msg h Hd) as (t & Ht & Hl & Hm & Hx).
  assert (Hother : ∀ k t0, k ≠ h → ts_heap s !! k = Some t0 → alter term_stopped h (ts_heap s) !! k = Some t0) by (intros; by rewrite list_lookup_alter_ne).
  split; cbn.
  - intros id k Hk. destruct (ok_map s Hok id k Hk) as (t0 & Ht0 & Hi & Hl0). exists t0. split; [|done]. apply Hother; [|done]. intros ->. congruence.
  - intros m k Hc. destruct (ok_creating s Hok m k Hc) as (t0 & Ht0 & ?). exists t0. split; [|done]. apply Hother; [|done]. intros ->. by destruct (Hx m).
  - done.
  - intros k t0 Hk. destruct (decide (k = h)) as [->|Hne].
    + rewrite list_lookup_alter_eq, Ht in Hk. injection Hk as <-. by right; right; right.
    + rewrite list_lookup_alter_ne in Hk by done. destruct (ok_rest s Hok k t0 Hk) as [?|[?|[[m Hm']|?]]]; auto. congruence.
Qed.

Lemma resize_starts_ok msg s : terms_ok s → terms_ok (resize_starts msg s).
Proof. intros Hok. unfold resize_starts. repeat case_match; try by apply reply_ok. revert Hok. by apply ok_fields. Qed.

Lemma resize_ends_ok e msg h size s : terms_ok s → terms_ok (resize_ends e msg h size s).
Proof.
  intros Hok. assert (Hok' : terms_ok (set_resizing None s)) by (revert Hok; by apply ok_fields). unfold resize_ends. repeat case_match; try by apply reply_ok.
  - apply reply_ok. revert Hok'. by apply (alter_ok (set_resizing None s)).
  - done.
Qed.

Lemma hears_typed s subject data : terms_ok s → terms_ok (deliver subject data s).
Proof.
  apply heap_ok; [|by rewrite length_fmap]. intros h t' Ht'. apply list_lookup_fmap_Some in Ht' as (t & -> & Ht). exists t.
  destruct (hears s subject t); auto.
Qed.

Lemma step_ok e ev s s' : term_step e ev s = Some s' → terms_ok s → terms_ok s'.
Proof.
  intros Hs Hok. destruct ev; cbn in Hs; repeat case_match; simplify_eq.
  - by apply create_starts_ok.
  - by apply create_ends_ok.
  - by apply delete_starts_ok.
  - by apply delete_ends_ok.
  - by apply resize_starts_ok.
  - by apply resize_ends_ok.
  - by apply hears_typed.
  - revert Hok. by apply ok_fields.
  - by apply alter_ok.
  - revert Hok. apply alter_ok; [done..|]. by intros t0 (? & ? & ?).
Qed.

Lemma run_ok evs s s' : term_run evs s = Some s' → terms_ok s → terms_ok s'.
Proof.
  revert s. induction evs as [|[e ev] evs IH]; intros s; cbn; [by intros [= <-]|]. destruct (term_step e ev s) as [s1|] eqn:E; [|done].
  intros Hr Hok. apply (IH s1 Hr). by apply (step_ok e ev s).
Qed.

Lemma shells_held evs s u h p : term_run evs (no_terminals u h p) = Some s →
  (∀ k t, ts_heap s !! k = Some t → tm_alive t = true ∨ tm_subscribed t = true →
    ts_map s !! tm_id t = Some k ∨ (∃ m, ts_creating s = Some (m, k)) ∨ (∃ m, ts_deleting s = Some (m, k))) ∧
  (∀ id k, ts_map s !! id = Some k → ∃ t, ts_heap s !! k = Some t ∧ tm_id t = id ∧ tm_open t = true ∧ tm_subscribed t = true).
Proof.
  intros Hr. pose proof (run_ok _ _ _ Hr (none_ok u h p)) as Hok. split; [|by apply ok_map].
  intros k t Ht Ha. destruct (ok_rest s Hok k t Ht) as [?|[?|[?|(Ho & Hs & Hd)]]]; [auto..|]. destruct Ha; congruence.
Qed.

(** C15. No shell is lost: after any requests, in any interleaving, a terminal whose shell runs
    or whose input is subscribed is the one the map has for its id, or is in the hands of
    the creation or the deletion in progress; and what the map has is open and subscribed. *)
Theorem shells_accounted u h p evs s : term_run evs (no_terminals u h p) = Some s →
  (∀ k t, ts_heap s !! k = Some t → tm_alive t = true ∨ tm_subscribed t = true →
    ts_map s !! tm_id t = Some k ∨ (∃ m, ts_creating s = Some (m, k)) ∨ (∃ m, ts_deleting s = Some (m, k))) ∧
  (∀ id k, ts_map s !! id = Some k → ∃ t, ts_heap s !! k = Some t ∧ tm_id t = id ∧ tm_open t = true ∧ tm_subscribed t = true).
Proof. apply shells_held. Qed.

(** ** Deleted terminals stay silent *)

Lemma step_dead e ev s s' k t : term_step e ev s = Some s' → ts_heap s !! k = Some t → dead t → (∀ m, ts_creating s ≠ Some (m, k)) →
  (∃ t', ts_heap s' !! k = Some t' ∧ dead t' ∧ tm_stdin t' = tm_stdin t) ∧ (∀ c, ev ≠ Reads k c) ∧ (∀ m, ts_creating s' ≠ Some (m, k)).
Proof.
  intros Hs Ht Hd Hc. pose proof (lookup_lt_Some _ _ _ Ht) as Hlt.
  assert (Halter : ∀ f h, (∀ t, dead t → dead (f t)) → (∀ t, tm_stdin (f t) = tm_stdin t) → ∃ t', alter f h (ts_heap s) !! k = Some t' ∧ dead t' ∧ tm_stdin t' = tm_stdin t).
  { intros f h Hf Hi. destruct (decide (h = k)) as [->|Hne]; [rewrite list_lookup_alter_eq, Ht; eexists; split; [done|]; auto|rewrite list_lookup_alter_ne by done; eauto]. }
  destruct ev; cbn [term_step] in Hs.
  - destruct (ts_creating s) eqn:E; [done|]. injection Hs as <-. split; [|split; [done|]]; unfold create_starts, term_error, startTerminal.
    + repeat case_match; simplify_eq; rewrite ?term_reply_heap; cbn; exists t; (split; [done || by apply lookup_app_l_Some|done]).
    + repeat case_match; simplify_eq; rewrite ?term_reply_creating; cbn; try congruence. intros m [= _ <-]. lia.
  - destruct (ts_creating s) as [[m h]|] eqn:E; [|done]. injection Hs as <-. unfold create_ends. cbn [ts_heap set_creating].
    destruct (ts_heap s !! h); split_and!; rewrite ?term_reply_heap, ?term_reply_creating; cbn; eauto; done.
  - destruct (ts_deleting s) eqn:E; [done|]. injection Hs as <-. unfold delete_starts, term_error. split; [|split; [done|]]; repeat case_match; rewrite ?term_reply_heap, ?term_reply_creating; cbn; eauto.
  - destruct (ts_deleting s) as [[m h]|] eqn:E; [|done]. injection Hs as <-. unfold delete_ends. split; [|split; [done|]]; rewrite ?term_reply_heap, ?term_reply_creating; cbn; [by apply Halter|done].
  - destruct (ts_resizing s) eqn:E; [done|]. injection Hs as <-. unfold resize_starts, term_error. split; [|split; [done|]]; repeat case_match; rewrite ?term_reply_heap, ?term_reply_creating; cbn; eauto.
  - destruct (ts_resizing s) as [[[m h] size]|] eqn:E; [|done]. injection Hs as <-. unfold resize_ends, term_error. cbn [ts_heap set_resizing].
    split; [|split; [done|]]; repeat case_match; rewrite ?term_reply_heap, ?term_reply_creating; cbn; eauto.
  - injection Hs as <-. split; [|split; [done|done]]. cbn. rewrite list_lookup_fmap, Ht. cbn. eexists. split; [done|]. unfold hears. destruct Hd as (? & Hsub & ?). rewrite Hsub. done.
  - destruct (ts_heap s !! h) as [t0|] eqn:E; [|done]. destruct (_ && _) eqn:Eb; [|done]. injection Hs as <-. split; [by eauto|]. split; [|done].
    intros c [= -> _]. rewrite Ht in E. injection E as <-. destruct Hd as (Ho & _). rewrite Ho in Eb. by rewrite andb_false_r in Eb.
  - destruct (ts_heap s !! h) as [t0|] eqn:E; [|done]. destruct (_ && _); [|done]. injection Hs as <-. split; [by apply Halter|]. split; [done|done].
  - destruct (ts_heap s !! h) as [t0|] eqn:E; [|done]. destruct (tm_alive t0); [|done]. injection Hs as <-. split; [|split; [done|done]]. apply Halter; [|done]. by intros t1 (? & ? & ?).
Qed.

Lemma run_dead evs s s' k t : term_run evs s = Some s' → ts_heap s !! k = Some t → dead t → (∀ m, ts_creating s ≠ Some (m, k)) →
  (∃ t', ts_heap s' !! k = Some t' ∧ dead t' ∧ tm_stdin t' = tm_stdin t) ∧ Forall (λ ev, ∀ c, ev.2 ≠ Reads k c) evs.
Proof.
  revert s t. induction evs as [|[e ev] evs IH]; intros s t; cbn; [intros [= <-] ? ? _; split; [by eauto|done]|].
  destruct (term_step e ev s) as [s1|] eqn:E; [|done]. intros Hr Ht Hd Hc. destruct (step_dead e ev s s1 k t E Ht Hd Hc) as ((t1 & Ht1 & Hd1 & Hi1) & Hn & Hc1).
  destruct (IH s1 t1 Hr Ht1 Hd1 Hc1) as ((t2 & ? & ? & Hi2) & ?). split; [exists t2; rewrite Hi2; auto|by constructor].
Qed.

(** Once a deletion is through, nothing that happens later writes to the terminal or
    publishes from it. *)
Theorem deleted_stays_silent u h p before e s s1 after s2 m k :
  term_run before (no_terminals u h p) = Some s → ts_deleting s = Some (m, k) → term_step e Deleted s = Some s1 → term_run after s1 = Some s2 →
  ∃ t t', ts_heap s !! k = Some t ∧ ts_heap s2 !! k = Some t' ∧ tm_alive t' = false ∧ tm_subscribed t' = false ∧ tm_stdin t' = tm_stdin t ∧
  Forall (λ ev, ∀ c, ev.2 ≠ Reads k c) after.
Proof.
  intros Hb Hd Hs Ha. pose proof (run_ok _ _ _ Hb (none_ok u h p)) as Hok. destruct (ok_deleting s Hok m k Hd) as (t & Ht & _ & _ & Hx).
  cbn [term_step] in Hs. rewrite Hd in Hs. injection Hs as <-. unfold delete_ends in Ha.
  destruct (run_dead after _ s2 k (term_stopped t) Ha) as ((t' & Ht' & (_ & Hsub & Hal) & Hin) & Hf).
  - rewrite term_reply_heap. cbn. by rewrite list_lookup_alter_eq, Ht.
  - done.
  - rewrite term_reply_creating. apply Hx.
  - by exists t, t'.
Qed.

(** ** Input *)

Lemma terminal_tokens s u h p x : ts_slugs s = (u, h, p) → Validate u = None → Validate h = None → Validate p = None →
  tokens (terminal_subject s x) = user_host_project u h p ("api" :: "terminal" :: tokens x)%string.
Proof.
  intros Hs Hu Hh Hp. unfold terminal_subject. rewrite Hs. change (UserHostProjectAPITerminal u h p x) with (render (STerminal u h p x)).
  apply tokens_render. by repeat constructor.
Qed.

Lemma input_tokens id : no_dot id → tokens (id +:+ ".input") = [id; "input"%string].
Proof. intros Hd. exact (tokens_join [id; "input"%string] ltac:(done) ltac:(by repeat constructor)). Qed.

(** Two names of one project differ only below the terminals. *)
Lemma project_match u h p a b : Validate u = None → Validate h = None → Validate p = None →
  token_match (user_host_project u h p a) (user_host_project u h p b) ↔ token_match a b.
Proof.
  intros Hu Hh Hp. apply valid_slug_ne_wild in Hu as [], Hh as [], Hp as []. unfold user_host_project. rewrite !token_match_lit by done. tauto.
Qed.

(** An id that is one token and no wildcard. *)
Definition simple (id : string) : Prop := no_dot id ∧ id ≠ "*"%string ∧ id ≠ ">"%string.

Lemma matches_input s u h p a b : ts_slugs s = (u, h, p) → Validate u = None → Validate h = None → Validate p = None → simple a → no_dot b →
  nats_matches (inputSubject s a) (inputSubject s b) = String.eqb a b.
Proof.
  intros Hs Hu Hh Hp (Ha & H1 & H2) Hb. apply eq_true_iff_eq. rewrite nats_matches_spec, String.eqb_eq. unfold inputSubject.
  rewrite !(terminal_tokens s u h p) by done. rewrite !input_tokens by done. rewrite project_match by done. rewrite !token_match_lit, token_match_nil_l by done. tauto.
Qed.

Lemma step_slugs e ev s s' : term_step e ev s = Some s' → ts_slugs s' = ts_slugs s.
Proof.
  assert (Hr : ∀ msg d s0, ts_slugs (term_reply msg d s0) = ts_slugs s0) by (intros; unfold term_reply; by case_match).
  destruct ev; cbn [term_step]; intros Hs; repeat case_match; simplify_eq; try done;
    unfold create_starts, create_ends, delete_starts, delete_ends, resize_starts, resize_ends, startTerminal, term_error; repeat case_match; simplify_eq; by rewrite ?Hr.
Qed.

Lemma run_slugs evs s s' : term_run evs s = Some s' → ts_slugs s' = ts_slugs s.
Proof.
  revert s. induction evs as [|[e ev] evs IH]; intros s; cbn; [by intros [= <-]|]. destruct (term_step e ev s) as [s1|] eqn:E; [|done].
  intros Hr. rewrite (IH s1 Hr). by apply (step_slugs e ev).
Qed.

(** When no request is in hand and every id is one token, what is typed on the input
    subject of an id is written to the terminal the map has for that id and to no other. *)
Theorem input_exact u h p evs s id data e :
  term_run evs (no_terminals u h p) = Some s → Validate u = None → Validate h = None → Validate p = None →
  ts_creating s = None → ts_deleting s = None → (∀ k t, ts_heap s !! k = Some t → simple (tm_id t)) → no_dot id →
  ∃ s', term_step e (Input (inputSubject s id) data) s = Some s' ∧ ts_map s' = ts_map s ∧ ts_out s' = ts_out s ∧
    ∀ k t, ts_heap s !! k = Some t → ts_heap s' !! k = Some (if decide (ts_map s !! id = Some k) then term_typed data t else t).
Proof.
  intros Hr Hu Hh Hp Hc Hd Hsimple Hid. destruct (shells_held evs s u h p Hr) as [Hheld Hmap]. eexists. split; [reflexivity|]. split; [done|]. split; [done|].
  intros k t Ht. cbn. rewrite list_lookup_fmap, Ht. cbn. f_equal. unfold hears.
  assert (Hsl : ts_slugs s = (u, h, p)) by exact (run_slugs _ _ _ Hr). rewrite (matches_input s u h p) by first [done|by apply (Hsimple k)].
  destruct (decide (ts_map s !! id = Some k)) as [Hk|Hk].
  - destruct (Hmap id k Hk) as (t0 & Ht0 & Hi & _ & Hsub). simplify_eq. by rewrite Hsub, String.eqb_refl.
  - destruct (tm_subscribed t) eqn:Hsub; [|done]. cbn. destruct (String.eqb_spec (tm_id t) id) as [<-|]; [|done]. exfalso. apply Hk.
    destruct (Hheld k t Ht (or_intror Hsub)) as [?|[[m Hm]|[m Hm]]]; congruence.
Qed.

(** A terminal may be named with a wildcard: it then hears what is typed into every
    other terminal of the project. *)
Theorem wildcard_terminal_hears_all u h p s k t id data e : ts_slugs s = (u, h, p) → Validate u = None → Validate h = None → Validate p = None →
  ts_heap s !! k = Some t → tm_id t = "*"%string → live t → no_dot id →
  ∃ s', term_step e (Input (inputSubject s id) data) s = Some s' ∧ ts_heap s' !! k = Some (term_typed data t).
Proof.
  intros Hs Hu Hh Hp Ht Hi [_ Hsub] Hid. eexists. split; [reflexivity|]. cbn. rewrite list_lookup_fmap, Ht. cbn. unfold hears. rewrite Hsub, Hi.
  replace (nats_matches _ _) with true; [done|]. symmetry. apply nats_matches_spec. unfold inputSubject.
  rewrite !(terminal_tokens s u h p) by done. rewrite !input_tokens by done. apply project_match; [done..|]. rewrite !token_match_lit by done. split; [done|]. split; [done|].
  by apply tm_star, tm_lit, tm_nil.
Qed.

(** ** Exited shells *)

Lemma step_keeps e ev s s' id k : terms_ok s → term_step e ev s = Some s' → (∀ msg, ev = Delete msg → delete_request msg ≠ Some id) →
  ts_map s !! id = Some k → ts_map s' !! id = Some k.
Proof.
  intros Hok Hs Hn Hm. destruct ev; cbn [term_step] in Hs.
  - destruct (ts_creating s); [done|]. injection Hs as <-. unfold create_starts, term_error, startTerminal. repeat case_match; simplify_eq; by rewrite ?term_reply_map.
  - destruct (ts_creating s) as [[m h]|] eqn:E; [|done]. injection Hs as <-. unfold create_ends. cbn [ts_heap set_creating].
    destruct (ok_creating s Hok m h E) as (t & Ht & _ & Hno). rewrite Ht, term_reply_map. cbn. rewrite lookup_insert_ne; [done|]. intros Hi. congruence.
  - destruct (ts_deleting s); [done|]. injection Hs as <-. unfold delete_starts, term_error. specialize (Hn _ eq_refl).
    destruct (delete_request msg) as [id'|]; [|by rewrite term_reply_map]. destruct (ts_map s !! id'); [|by rewrite term_reply_map].
    cbn. rewrite lookup_delete_ne; [done|]. congruence.
  - destruct (ts_deleting s) as [[m h]|]; [|done]. injection Hs as <-. unfold delete_ends. by rewrite term_reply_map.
  - destruct (ts_resizing s); [done|]. injection Hs as <-. unfold resize_starts, term_error. repeat case_match; by rewrite ?term_reply_map.
  - destruct (ts_resizing s) as [[[m h] size]|]; [|done]. injection Hs as <-. unfold resize_ends, term_error. repeat case_match; by rewrite ?term_reply_map.
  - by injection Hs as <-.
  - repeat case_match; by simplify_eq.
  - repeat case_match; by simplify_eq.
  - repeat case_match; by simplify_eq.
Qed.

Lemma run_keeps evs s s' id k : terms_ok s → term_run evs s = Some s' → Forall (λ ev, ∀ msg, ev.2 = Delete msg → delete_request msg ≠ Some id) evs →
  ts_map s !! id = Some k → ts_map s' !! id = Some k.
Proof.
  revert s. induction evs as [|[e ev] evs IH]; intros s Hok; cbn; [by intros [= <-]|]. destruct (term_step e ev s) as [s1|] eqn:E; [|done].
  intros Hr [Hn Hf]%Forall_cons Hm. apply (IH s1); [by apply (step_ok e ev s)|done..|]. by apply (step_keeps e ev s).
Qed.

(** The exit of a shell is not noticed: until somebody deletes the terminal it keeps its
    entry, and a new terminal of the same id is refused. *)
Theorem exited_shell_keeps_id u h p before s id shell k e1 s1 after s2 e2 msg :
  term_run before (no_terminals u h p) = Some s → ts_map s !! id = Some k → term_step e1 (ShellExits k) s = Some s1 →
  term_run after s1 = Some s2 → Forall (λ ev, ∀ msg, ev.2 = Delete msg → delete_request msg ≠ Some id) after →
  ts_creating s2 = None → create_request e2 msg = Some (id, shell) →
  ts_map s2 !! id = Some k ∧ term_step e2 (Create msg) s2 = Some (term_error msg ("terminal already exists: " +:+ id) s2).
Proof.
  intros Hb Hm He Ha Hf Hc Hq. pose proof (run_ok _ _ _ Hb (none_ok u h p)) as Hok.
  assert (Hm2 : ts_map s2 !! id = Some k).
  { apply (run_keeps after s1); [by apply (step_ok e1 (ShellExits k) s)|done|done|]. by apply (step_keeps e1 (ShellExits k) s). }
  split; [done|]. cbn [term_step]. rewrite Hc. unfold create_starts. by rewrite Hq, Hm2.
Qed.

(** ** Answers *)

Definition is_answer (o : term_out) : bool := match o with Answered _ => true | _ => false end.
Definition answers (s : term_state) : nat := length (List.filter is_answer (ts_out s)).
Definition due (m : nmsg) : nat := if m_reply m then 1 else 0.
Definition asked (ev : term_event) : nat := match ev with Create m | Delete m | Resize m => due m | _ => 0 end.
Definition in_hand (s : term_state) : nat :=
  (match ts_creating s with Some (m, _) => due m | None => 0 end + match ts_deleting s with Some (m, _) => due m | None => 0 end +
   match ts_resizing s with Some (m, _, _) => due m | None => 0 end)%nat.

Lemma reply_counts msg d s : answers (term_reply msg d s) = (answers s + due msg)%nat ∧ in_hand (term_reply msg d s) = in_hand s.
Proof.
  unfold term_reply, due, answers, in_hand. destruct (m_reply msg); [|lia]. cbn. rewrite List.filter_app, length_app. cbn. lia.
Qed.

(** What the answers and the requests in hand depend on. *)
Definition resizing_ok (s : term_state) : Prop := ∀ m h size, ts_resizing s = Some (m, h, size) → (h < length (ts_heap s))%nat.

Lemma reply_resizing msg d s : resizing_ok s → resizing_ok (term_reply msg d s).
Proof. unfold term_reply. by case_match. Qed.

Lemma step_resizing e ev s s' : terms_ok s → term_step e ev s = Some s' → resizing_ok s → resizing_ok s'.
Proof.
  intros Hok Hs Hr. assert (Hsame : ∀ s0, ts_resizing s0 = ts_resizing s → (length (ts_heap s) ≤ length (ts_heap s0))%nat → resizing_ok s0).
  { intros s0 E Hl m h size Hm. rewrite E in Hm. apply Hr in Hm. lia. }
  destruct ev; cbn [term_step] in Hs.
  - destruct (ts_creating s); [done|]. injection Hs as <-. unfold create_starts, term_error, startTerminal. repeat case_match; simplify_eq; try apply reply_resizing; (apply Hsame; [done|cbn; rewrite ?length_app; cbn; lia]).
  - destruct (ts_creating s) as [[m h]|]; [|done]. injection Hs as <-. unfold create_ends. case_match; [apply reply_resizing|]; by apply Hsame.
  - destruct (ts_deleting s); [done|]. injection Hs as <-. unfold delete_starts, term_error. repeat case_match; try apply reply_resizing; by apply Hsame.
  - destruct (ts_deleting s) as [[m h]|]; [|done]. injection Hs as <-. unfold delete_ends. apply reply_resizing, Hsame; [done|]. cbn. by rewrite length_alter.
  - destruct (ts_resizing s) eqn:E; [done|]. injection Hs as <-. unfold resize_starts, term_error. repeat case_match; try by apply reply_resizing.
    intros m h size [= <- <- <-]. cbn. edestruct (ok_map s Hok) as (t0 & Ht & _); [eassumption|]. by eapply lookup_lt_Some.
  - destruct (ts_resizing s) as [[[m h] size]|]; [|done]. injection Hs as <-. unfold resize_ends, term_error. repeat case_match; try apply reply_resizing; done.
  - injection Hs as <-. apply Hsame; [done|]. cbn. by rewrite length_fmap.
  - repeat case_match; simplify_eq; by apply Hsame.
  - repeat case_match; simplify_eq; apply Hsame; [done|]; cbn; by rewrite length_alter.
  - repeat case_match; simplify_eq; apply Hsame; [done|]; cbn; by rewrite length_alter.
Qed.

Ltac count_replies := repeat match goal with |- context [answers (term_reply ?m ?d ?s)] => destruct (reply_counts m d s) as [-> ->] end.

Lemma step_answers e ev s s' : terms_ok s → resizing_ok s → term_step e ev s = Some s' → (answers s' + in_hand s' = answers s + in_hand s + asked ev)%nat.
Proof.
  intros Hok Hr Hs. destruct ev; cbn [term_step asked] in *.
  - destruct (ts_creating s) eqn:E; [done|]. injection Hs as <-. unfold create_starts, term_error, startTerminal. repeat case_match; simplify_eq; count_replies; unfold answers, in_hand; cbn; rewrite ?E; cbn; lia.
  - destruct (ts_creating s) as [[m h]|] eqn:E; [|done]. injection Hs as <-. unfold create_ends. cbn [ts_heap set_creating].
    destruct (ok_creating s Hok m h E) as (t & -> & _). count_replies. unfold answers, in_hand. cbn. rewrite E. lia.
  - destruct (ts_deleting s) eqn:E; [done|]. injection Hs as <-. unfold delete_starts, term_error. repeat case_match; count_replies; unfold answers, in_hand; cbn; rewrite ?E; cbn; lia.
  - destruct (ts_deleting s) as [[m h]|] eqn:E; [|done]. injection Hs as <-. unfold delete_ends. count_replies. unfold answers, in_hand. cbn. rewrite E. lia.
  - destruct (ts_resizing s) eqn:E; [done|]. injection Hs as <-. unfold resize_starts, term_error. repeat case_match; count_replies; unfold answers, in_hand; cbn; rewrite ?E; cbn; lia.
  - destruct (ts_resizing s) as [[[m h] size]|] eqn:E; [|done]. injection Hs as <-. unfold resize_ends, term_error. cbn [ts_heap set_resizing].
    destruct (lookup_lt_is_Some_2 _ _ (Hr m h size E)) as [t ->]. destruct (tm_open t), (te_sizeErr e); count_replies; unfold answers, in_hand; cbn; rewrite E; lia.
  - injection Hs as <-. unfold answers, in_hand. cbn. lia.
  - repeat case_match; simplify_eq. unfold answers, in_hand. cbn. rewrite List.filter_app, length_app. cbn. lia.
  - repeat case_match; simplify_eq. unfold answers, in_hand. cbn. lia.
  - repeat case_match; simplify_eq. unfold answers, in_hand. cbn. lia.
Qed.

(** Every request that asks for an answer gets exactly one: after any run the answers
    are as many as the requests, less those still in hand. *)
Theorem terminal_requests_answered u h p evs s : term_run evs (no_terminals u h p) = Some s →
  (answers s + in_hand s = sum_list (asked ∘ snd <$> evs))%nat.
Proof.
  assert (Hgen : ∀ evs s0, terms_ok s0 → resizing_ok s0 → term_run evs s0 = Some s → (answers s + in_hand s = answers s0 + in_hand s0 + sum_list (asked ∘ snd <$> evs))%nat).
  { clear evs. induction evs as [|[e ev] evs IH]; intros s0 Hok Hr; cbn [term_run]; [intros [= ->]; cbn; lia|].
    destruct (term_step e ev s0) as [s1|] eqn:E; [|done]. intros Hrun. rewrite (IH s1); [|by apply (step_ok e ev s0)|by apply (step_resizing e ev s0)|done].
    rewrite (step_answers e ev s0 s1) by done. cbn. lia. }
  intros Hrun. by rewrite (Hgen evs (no_terminals u h p) (none_ok u h p) ltac:(done) Hrun).
Qed.

(** ** Subjects *)

(** The agent listens to its three requests and to nothing the web client sends: that
    publishes below "terminal", without "api". *)
Definition web_terminal (u h p action : string) : string :=
  "mclaude.users." +:+ u +:+ ".hosts." +:+ h +:+ ".projects." +:+ p +:+ ".terminal." +:+ action.

Theorem web_terminals_unheard u h p action s x : ts_slugs s = (u, h, p) → Validate u = None → Validate h = None → Validate p = None → no_dot action →
  x ∈ terminal_subscriptions s → nats_matches x (web_terminal u h p action) = false.
Proof.
  intros Hs Hu Hh Hp Ha Hx. apply not_true_iff_false. rewrite nats_matches_spec.
  assert (Hw : tokens (web_terminal u h p action) = user_host_project u h p ["terminal"; action]%string).
  { exact (tokens_join (user_host_project u h p ["terminal"; action]%string) ltac:(done) ltac:(repeat constructor; first [done|by apply valid_slug_no_dot])). }
  apply list_elem_of_fmap in Hx as (y & -> & _). rewrite Hw, (terminal_tokens s u h p) by done. rewrite project_match by done. rewrite token_match_lit by done. by intros [].
Qed.

(** ** The quota publisher *)

Definition publishers_ok (s : publishers) : Prop := ∀ i, qp_all s !! i = Some true ↔ qp_cancel s = Some i.

Lemma start_publisher_ok s : publishers_ok s → publishers_ok (startQuotaPublisher s).
Proof.
  intros Hok i. unfold startQuotaPublisher. destruct (qp_cancel s) as [j|] eqn:E; [by rewrite (Hok i), E|]. cbn. split.
  - intros [Hi|[Hl Hi]]%lookup_app_Some; [apply Hok in Hi; congruence|]. apply list_lookup_singleton_Some in Hi as [Hi _]. f_equal. lia.
  - intros [= <-]. by apply list_lookup_middle.
Qed.

Lemma stop_publisher_ok s : publishers_ok s → publishers_ok (stop_publisher s).
Proof.
  intros Hok i. unfold stop_publisher. destruct (qp_cancel s) as [j|] eqn:E; [|by rewrite (Hok i), E]. cbn. split; [|done].
  intros [(_ & ? & _)|[Hne Hi]]%list_lookup_insert_Some; [done|]. apply Hok in Hi. congruence.
Qed.

(** Whatever designations arrive, the publisher that runs is the one the agent can stop:
    there is at most one, and none after the last word was to stop. *)
Theorem one_quota_publisher msgs s : fold_left (λ s d, handleDesignateQuotaPublisher d s) msgs {| qp_all := []; qp_cancel := None |} = s →
  (∀ i, qp_all s !! i = Some true ↔ qp_cancel s = Some i) ∧
  ∀ d, unmarshal (dec_struct quota_request) false d = Some false → ∀ i, qp_all (handleDesignateQuotaPublisher d s) !! i ≠ Some true.
Proof.
  intros <-. assert (Hok : ∀ s0, publishers_ok s0 → publishers_ok (fold_left (λ s d, handleDesignateQuotaPublisher d s) msgs s0)).
  { induction msgs as [|d msgs IH]; intros s0 H0; [done|]. apply IH. unfold handleDesignateQuotaPublisher.
    destruct (unmarshal _ _ _) as [[]|]; [by apply start_publisher_ok|by apply stop_publisher_ok|done]. }
  specialize (Hok {| qp_all := []; qp_cancel := None |} ltac:(intros i; split; done)). split; [exact Hok|].
  intros d Hd i. unfold handleDesignateQuotaPublisher. rewrite Hd. intros Hi. apply (stop_publisher_ok _ Hok) in Hi. unfold stop_publisher in Hi. destruct (qp_cancel (fold_left _ _ _)) eqn:E; [done|congruence].
Qed.

End spec.

(** ** Examples *)
Module TerminalsDemo.

#[export] Existing Instance doc_nats_server.
#[export] Instance text : JsonText := table_json [
  ("create a", JObj [("termId", JStr "a")]); ("create b", JObj [("termId", JStr "b"); ("shell", JStr "/bin/bash")]); ("create all", JObj [("termId", JStr "*")]);
  ("resize a", JObj [("termId", JStr "a"); ("rows", JInt 40); ("cols", JInt 120)]); ("too wide", JObj [("termId", JStr "a"); ("rows", JInt 40); ("cols", JInt 65536)]);
  ("delete a", JObj [("termId", JStr "a")]); ("start", JObj [("quotaPublisher", JBool true)]); ("stop", JObj [("quotaPublisher", JBool false)])]%string.

Definition env : term_env := {| te_now := 5; te_jsonErr := ""; te_ptyErr _ := None; te_subErr _ := None; te_sizeErr := None |}.
Definition request (data : string) : nmsg := {| m_subject := ""; m_data := data; m_reply := true |}.
Definition events (l : list term_event) : list (term_env * term_event) := (λ ev, (env, ev)) <$> l.
Definition nobody : term_state := no_terminals "alice" "laptop" "web".
Definition after (l : list term_event) : term_state := default nobody (term_run (events l) nobody).
(** Two terminals; the deletion of the first comes while the second is being made. *)
Definition two : list term_event := [Create (request "create a"); Created; Create (request "create b"); Resize (request "resize a"); Resized; Created].
Definition deleting : list term_event := two ++ [Delete (request "delete a")].
Definition input (id : string) : string := inputSubject nobody id.

Example shells : ts_heap (after two) = [term_resized (40, 120) (fresh_terminal "a" "/bin/sh" true); fresh_terminal "b" "/bin/bash" true] ∧ answers (after two) = 3%nat.
Proof. by vm_compute. Qed.
Example too_wide : ts_out (resize_starts (request "too wide") (after two)) = ts_out (after two) ++ [Answered (marshal_strings [("error", "invalid request: missing termId")]%string)].
Proof. vm_compute. reflexivity. Qed.
Example nameless : ts_map (after [Create (request ""); Created]) !! "term-5"%string = Some 0%nat.
Proof. vm_compute. reflexivity. Qed.

Lemma runs l : term_run (events l) nobody ≠ None → term_run (events l) nobody = Some (after l).
Proof. unfold after. by destruct (term_run (events l) nobody). Qed.

End TerminalsDemo.
Import TerminalsDemo.

Lemma shells_accounted_witness : ∃ t, ts_heap (after deleting) !! 1%nat = Some t ∧
  (ts_map (after deleting) !! tm_id t = Some 1%nat ∨ (∃ m, ts_creating (after deleting) = Some (m, 1%nat)) ∨ (∃ m, ts_deleting (after deleting) = Some (m, 1%nat))).
Proof.
  eexists. split; [vm_compute; reflexivity|]. apply (shells_accounted "alice" "laptop" "web" (events deleting) (after deleting)); [apply runs; vm_compute; discriminate|vm_compute; reflexivity|by left].
Defined.

Lemma deleted_stays_silent_witness : ∃ t t', ts_heap (after deleting) !! 0%nat = Some t ∧ ts_heap (after (deleting ++ [Deleted; Input (input "a") "ls"; ReadFails 0])) !! 0%nat = Some t' ∧
  tm_alive t' = false ∧ tm_subscribed t' = false ∧ tm_stdin t' = tm_stdin t ∧ Forall (λ ev, ∀ c, ev.2 ≠ Reads 0 c) (events [Input (input "a") "ls"; ReadFails 0]).
Proof.
  eapply (deleted_stays_silent "alice" "laptop" "web" (events deleting) env (after deleting) (after (deleting ++ [Deleted]))); vm_compute; reflexivity.
Defined.

Lemma input_exact_witness : ∃ s', term_step env (Input (input "a") "ls") (after two) = Some s' ∧ ts_map s' = ts_map (after two) ∧ ts_out s' = ts_out (after two) ∧
  ∀ k t, ts_heap (after two) !! k = Some t → ts_heap s' !! k = Some (if decide (ts_map (after two) !! "a"%string = Some k) then term_typed "ls" t else t).
Proof.
  apply (input_exact "alice" "laptop" "web" (events two) (after two) "a" "ls" env); try (by vm_compute).
  intros [|[|k]] t Ht; vm_compute in Ht; [injection Ht as <-..|done]; by vm_compute.
Defined.

Lemma wildcard_terminal_hears_all_witness :
  ∃ s', term_step env (Input (input "a") "secret") (after [Create (request "create all"); Created]) = Some s' ∧ ts_heap s' !! 0%nat = Some (term_typed "secret" (fresh_terminal "*" "/bin/sh" true)).
Proof. by apply (wildcard_terminal_hears_all "alice" "laptop" "web" (after [Create (request "create all"); Created]) 0 (fresh_terminal "*" "/bin/sh" true) "a" "secret" env). Defined.

Lemma exited_shell_keeps_id_witness : ∃ s, ts_map s !! "a"%string = Some 0%nat ∧ (tm_alive <$> ts_heap s !! 0%nat) = Some false ∧
  term_step env (Create (request "create a")) s = Some (term_error (request "create a") "terminal already exists: a" s).
Proof.
  exists (after (two ++ [ShellExits 0; ReadFails 0])).
  destruct (exited_shell_keeps_id "alice" "laptop" "web" (events two) (after two) "a" "/bin/sh" 0 env (after (two ++ [ShellExits 0])) (events [ReadFails 0])
    (after (two ++ [ShellExits 0; ReadFails 0])) env (request "create a")) as [H1 H2];
    [vm_compute; reflexivity|vm_compute; reflexivity|vm_compute; reflexivity|vm_compute; reflexivity|repeat constructor; discriminate|vm_compute; reflexivity|vm_compute; reflexivity|].
  split; [exact H1|]. split; [by vm_compute|exact H2].
Defined.

Lemma terminal_requests_answered_witness : (answers (after deleting) + in_hand (after deleting))%nat = sum_list (asked ∘ snd <$> events deleting).
Proof. apply (terminal_requests_answered "alice" "laptop" "web" (events deleting)). apply runs. vm_compute. discriminate. Defined.

Lemma web_terminals_unheard_witness : nats_matches (terminal_subject nobody "create") (web_terminal "alice" "laptop" "web" "create") = false.
Proof. apply (web_terminals_unheard "alice" "laptop" "web" "create" nobody); try by vm_compute. left. Defined.

Lemma one_quota_publisher_witness :
  let s := fold_left (λ s d, handleDesignateQuotaPublisher d s) ["start"; "start"; "stop"; "start"]%string {| qp_all := []; qp_cancel := None |} in
  (∀ i, qp_all s !! i = Some true ↔ qp_cancel s = Some i) ∧ qp_all s = [false; true].
Proof. intros s. split; [apply (one_quota_publisher ["start"; "start"; "stop"; "start"]%string s eq_refl)|by vm_compute]. Defined.
