(* ===== verification/Bootstrap.v ===== *)
(** * The first start of an installation (mclaude-control-plane: init_keys.go,
    gen_host_nkey.go; mclaude-common: nats/operator_keys.go)

    The keys of the operator and the accounts, the jobs of the charts that put them and
    the key of a cluster into secrets, and the first administrator.  The nkeys and jwt
    libraries are parameters: fresh pairs of a public key and a seed, and the text of
    signed claims.  Secrets are maps from names to their data. *)

From stdpp Require Import gmap list strings.
From S2P Require Import Prelude GoStrings GoPath Slug Json Subjects Database Startup.
Open Scope Z_scope.

(** ** Keys and tokens *)

Record nkey_pair := { nk_Public : string; nk_Seed : string }.

(** The claims that are signed; of the limits only those of JetStream are set. *)
Inductive trust_claims :=
| OperatorClaims (subject name systemAccount : string)
| AccountClaims (subject name : string) (jetStream : option Z).

(** What the libraries answer: the keys drawn one after the other, [None] when it
    fails, and the text of claims signed with a seed. *)
Record key_env := { kn_operator : option nkey_pair; kn_account : option nkey_pair; kn_sys : option nkey_pair; kn_encode : trust_claims → string → option string }.

Record OperatorAccount := {
  oa_OperatorSeed : string; oa_OperatorPublicKey : string; oa_AccountSeed : string; oa_AccountPublicKey : string; oa_OperatorJWT : string; oa_AccountJWT : string;
  oa_SysAccountSeed : string; oa_SysAccountPublicKey : string; oa_SysAccountJWT : string;
}.

Definition unlimited : Z := -1.

Definition GenerateOperatorAccount (k : key_env) (operatorName accountName : string) : result string OperatorAccount :=
  match kn_operator k with
  | None => Err "create operator nkey"%string
  | Some op =>
    match kn_account k with
    | None => Err "create account nkey"%string
    | Some acct =>
      match kn_sys k with
      | None => Err "create sys account nkey"%string
      | Some sys =>
        match kn_encode k (OperatorClaims (nk_Public op) operatorName (nk_Public sys)) (nk_Seed op) with
        | None => Err "encode operator jwt"%string
        | Some opJWT =>
          match kn_encode k (AccountClaims (nk_Public sys) "SYS" None) (nk_Seed op) with
          | None => Err "encode sys account jwt"%string
          | Some sysJWT =>
            match kn_encode k (AccountClaims (nk_Public acct) accountName (Some unlimited)) (nk_Seed op) with
            | None => Err "encode account jwt"%string
            | Some acctJWT =>
              Ok {| oa_OperatorSeed := nk_Seed op; oa_OperatorPublicKey := nk_Public op; oa_AccountSeed := nk_Seed acct; oa_AccountPublicKey := nk_Public acct;
                    oa_OperatorJWT := opJWT; oa_AccountJWT := acctJWT; oa_SysAccountSeed := nk_Seed sys; oa_SysAccountPublicKey := nk_Public sys; oa_SysAccountJWT := sysJWT |}
            end
          end
        end
      end
    end
  end.

(** ** Secrets *)

Notation secrets := (gmap (string * string) (gmap string string)).

(** What happens around a job: the requests to the cluster that fail, what others write
    between its two requests (they create secrets and change none), and its connection
    to the database. *)
Record job_env := {
  je_getenv : string → string;
  je_client : bool;
  je_getErr : bool;
  je_others : secrets;
  je_createErr : bool;
  je_connect : bool;
  je_migrate : bool;
  je_down : string → bool;
  je_uuid : string;
  je_hostUUID : string;
  je_uuidBytes : list N;
  je_now : Z;
}.

Record install := { in_secrets : secrets; in_db : Tables }.

(** How a job ends: it stops with a message, or with code 0. *)
Inductive job_end := Fatal (msg : string) | Exit0.

Definition quote : string := String (ascii_of_nat 34) "".

Definition operator_secret (oa : OperatorAccount) : gmap string string :=
  list_to_map [("operatorJwt", oa_OperatorJWT oa); ("accountJwt", oa_AccountJWT oa); ("accountSeed", oa_AccountSeed oa); ("operatorSeed", oa_OperatorSeed oa);
    ("accountPublicKey", oa_AccountPublicKey oa);
    ("resolverPreload", quote +:+ oa_SysAccountPublicKey oa +:+ quote +:+ ": " +:+ oa_SysAccountJWT oa +:+ nl +:+
                        quote +:+ oa_AccountPublicKey oa +:+ quote +:+ ": " +:+ oa_AccountJWT oa)]%string.

(** One request to create, with what came between; [None]: it failed, [Some false]: the
    secret is there already. *)
Definition create_secret (e : job_env) (key : string * string) (data : gmap string string) (s : secrets) : option bool * secrets :=
  let s := s ∪ je_others e in
  match s !! key with
  | Some _ => (Some false, s)
  | None => if je_createErr e then (None, s) else (Some true, <[key := data]> s)
  end.

Section jobs.
Context `{PG : Postgres, UT : UnicodeTables, NO : Normalizer}.

(** [bootstrapAdminUser]. *)
Definition bootstrapAdminUser (e : job_env) (email : string) (t : Tables) : result string unit * Tables :=
  if negb (je_connect e) then (Err "connect to postgres"%string, t)
  else if negb (je_migrate e) then (Err "migrate schema"%string, t)
  else if je_down e "GetUserByEmail" then (Err "check existing user"%string, t)
  else
    match GetUserByEmail email t with
    | Some existing =>
      if u_IsAdmin existing then (Ok tt, t)
      else
        match Exec (je_down e "SetUserAdmin") (SetUserAdmin (u_ID existing) true) t with
        | Err _ => (Err "promote existing user to admin"%string, t)
        | Ok t => (Ok tt, t)
        end
    | None =>
      match CreateUser (je_down e "CreateUser") (je_down e "CreateUser(host)") (je_uuidBytes e) (je_hostUUID e) (je_uuid e) email "Admin" "" (je_now e) t with
      | Err _ => (Err "create admin user"%string, t)
      | Ok (user, t) =>
        match Exec (je_down e "SetUserAdmin") (SetUserAdmin (u_ID user) true) t with
        | Err _ => (Err "set admin flag"%string, t)
        | Ok t => (Ok tt, t)
        end
      end
    end.

(** [runInitKeys]. *)
Definition runInitKeys (k : key_env) (e : job_env) (w : install) : job_end * install :=
  let namespace := envOr (je_getenv e) "NAMESPACE" "mclaude-system" in
  let secretName := envOr (je_getenv e) "OPERATOR_KEYS_SECRET" "operator-keys" in
  let databaseURL := envOr (je_getenv e) "DATABASE_URL" "" in
  let bootstrapEmail := je_getenv e "BOOTSTRAP_ADMIN_EMAIL"%string in
  if negb (je_client e) then (Fatal "load in-cluster config", w)
  else if je_getErr e then (Fatal "check existing Secret", w)
  else
    match in_secrets w !! (namespace, secretName) with
    | Some _ => (Exit0, w)
    | None =>
      match GenerateOperatorAccount k "mclaude-operator" "mclaude-account" with
      | Err _ => (Fatal "generate operator/account keys", w)
      | Ok oa =>
        let '(created, s) := create_secret e (namespace, secretName) (operator_secret oa) (in_secrets w) in
        let w := {| in_secrets := s; in_db := in_db w |} in
        match created with
        | None => (Fatal "create operator-keys Secret", w)
        | Some false => (Exit0, w)
        | Some true =>
          if negb (String.eqb bootstrapEmail "") && negb (String.eqb databaseURL "") then
            match bootstrapAdminUser e bootstrapEmail (in_db w) with
            | (Err _, t) => (Fatal "bootstrap admin user", {| in_secrets := s; in_db := t |})
            | (Ok _, t) => (Exit0, {| in_secrets := s; in_db := t |})
            end
          else (Exit0, w)
        end
      end
    end.

(** [genHostNkeyWithClient]; [fresh] is the key it draws.  The public key is only
    logged: it is the answer. *)
Definition genHostNkeyWithClient (fresh : option nkey_pair) (e : job_env) (namespace secretName : string) (s : secrets) : result string (option string) * secrets :=
  if je_getErr e then (Err "get secret"%string, s)
  else
    match s !! (namespace, secretName) with
    | Some _ => (Ok None, s)
    | None =>
      match fresh with
      | None => (Err "create nkey"%string, s)
      | Some kp =>
        match create_secret e (namespace, secretName) {["nkey_seed"%string := nk_Seed kp]} s with
        | (None, s) => (Err "create secret"%string, s)
        | (Some false, s) => (Ok None, s)
        | (Some true, s) => (Ok (Some (nk_Public kp)), s)
        end
      end
    end.

(** [runGenHostNkey]. *)
Definition runGenHostNkey (fresh : option nkey_pair) (e : job_env) (w : install) : job_end * install :=
  let namespace := envOr (je_getenv e) "NAMESPACE" "mclaude-system" in
  let secretName := je_getenv e "HOST_CREDS_SECRET"%string in
  if String.eqb secretName "" then (Fatal "HOST_CREDS_SECRET env is required", w)
  else if negb (je_client e) then (Fatal "load in-cluster config", w)
  else
    match genHostNkeyWithClient fresh e namespace secretName (in_secrets w) with
    | (Err _, s) => (Fatal "gen-host-nkey failed", {| in_secrets := s; in_db := in_db w |})
    | (Ok _, s) => (Exit0, {| in_secrets := s; in_db := in_db w |})
    end.

End jobs.

(** ** The control plane's use of them *)

(** A secret mounted at a directory: one file per entry. *)
Definition mounted (dir : string) (data : gmap string string) (path : string) : option string :=
  snd <$> find_first (λ kv : string * string, String.eqb (path_Join [dir; kv.1]) path) (map_to_list data).

(** [loadOrGenerateAccountKey]: the seed is read, or a fresh account is drawn;
    [from_seed] is the pair of a seed. *)
Definition loadOrGenerateAccountKey (getenv : string → string) (from_seed : string → option nkey_pair) (fresh : option nkey_pair) : option nkey_pair :=
  if String.eqb (getenv "NATS_ACCOUNT_SEED"%string) "" then fresh else from_seed (getenv "NATS_ACCOUNT_SEED"%string).

(** Whether [main] turns the revocation of tokens on. *)
Definition revocation_on (getenv : string → string) (read : string → option string) : bool :=
  match loadOperatorKeys getenv read (envOr getenv "OPERATOR_KEYS_PATH" "/etc/mclaude/operator-keys") with
  | Ok (op, sys, acct) => negb (String.eqb op "") && negb (String.eqb sys "") && negb (String.eqb acct "")
  | Err _ => false
  end.
