(* ===== verification/BootstrapSpec.v ===== *)
(** * What the first start of an installation guarantees

    Jobs never change a secret that is there, the first administrator is made once if at
    all, a first run that loses the database loses the administrator for good, and the
    control plane of an installation cannot revoke tokens. *)

From stdpp Require Import gmap list strings.
From S2P Require Import Prelude GoStrings GoPath Slug Json Subjects Database Permissions ObjectStore ControlServer Challenge ControlDemo ChallengeSpec HostLifecycle HostLifecycleSpec HostApi Accounts AccountsSpec Admin AdminSpec Startup Bootstrap.
Open Scope Z_scope.

(** ** Keys *)

(** A generated installation is one chain: the operator signs itself and names the system
    account, and it signs both accounts; only the application's account has JetStream. *)
Theorem trust_chain k operatorName accountName oa : GenerateOperatorAccount k operatorName accountName = Ok oa →
  kn_encode k (OperatorClaims (oa_OperatorPublicKey oa) operatorName (oa_SysAccountPublicKey oa)) (oa_OperatorSeed oa) = Some (oa_OperatorJWT oa) ∧
  kn_encode k (AccountClaims (oa_SysAccountPublicKey oa) "SYS" None) (oa_OperatorSeed oa) = Some (oa_SysAccountJWT oa) ∧
  kn_encode k (AccountClaims (oa_AccountPublicKey oa) accountName (Some unlimited)) (oa_OperatorSeed oa) = Some (oa_AccountJWT oa).
Proof. unfold GenerateOperatorAccount. intros H. by repeat case_match; simplify_eq. Qed.

(** ** Secrets *)

Lemma create_secret_keeps e key data s r s' k d : create_secret e key data s = (r, s') → s !! k = Some d → s' !! k = Some d.
Proof.
  unfold create_secret. intros H Hk. assert (Hu : (s ∪ je_others e) !! k = Some d) by (by apply lookup_union_Some_l).
  destruct ((s ∪ je_others e) !! key) eqn:E; [by simplify_eq|]. destruct (je_createErr e); simplify_eq; [done|]. rewrite lookup_insert_ne; [done|]. intros ->. congruence.
Qed.

Section spec.
Context `{PG : Postgres, UT : UnicodeTables, NO : Normalizer}.

Inductive job := InitKeys (k : key_env) (e : job_env) | GenHost (fresh : option nkey_pair) (e : job_env).
Definition run_job (j : job) (w : install) : job_end * install :=
  match j with InitKeys k e => runInitKeys k e w | GenHost fresh e => runGenHostNkey fresh e w end.
Definition run_jobs (js : list job) (w : install) : install := fold_left (λ w j, (run_job j w).2) js w.

Lemma job_keeps j w k d : in_secrets w !! k = Some d → in_secrets (run_job j w).2 !! k = Some d.
Proof.
  intros Hk. destruct j as [kn e|fresh e]; cbn.
  - unfold runInitKeys. cbv zeta. destruct (negb (je_client e)); [done|]. destruct (je_getErr e); [done|]. match goal with |- context [match in_secrets w !! ?x with _ => _ end] => destruct (in_secrets w !! x) end; [exact Hk|].
    destruct (GenerateOperatorAccount _ _ _) as [oa|]; [|done]. destruct (create_secret _ _ _ _) as [r s] eqn:Hc. apply (create_secret_keeps _ _ _ _ _ _ k d) in Hc; [|done].
    destruct r as [[]|]; [|exact Hc..]. destruct (_ && _); [|exact Hc]. destruct (bootstrapAdminUser _ _ _) as [[] ?]; exact Hc.
  - unfold runGenHostNkey. cbv zeta. destruct (String.eqb _ ""); [done|]. destruct (negb _); [done|]. unfold genHostNkeyWithClient. destruct (je_getErr e); [done|].
    match goal with |- context [match in_secrets w !! ?x with _ => _ end] => destruct (in_secrets w !! x) end; [exact Hk|]. destruct fresh as [kp|]; [|done]. destruct (create_secret _ _ _ _) as [r s] eqn:Hc. apply (create_secret_keeps _ _ _ _ _ _ k d) in Hc; [|done].
    destruct r as [[]|]; exact Hc.
Qed.

(** A secret that exists is never changed, whatever jobs run, however often, and whatever
    is created beside them: keys once given out stay valid. *)
Theorem secrets_never_change js w k d : in_secrets w !! k = Some d → in_secrets (run_jobs js w) !! k = Some d.
Proof. revert w. induction js as [|j js IH]; intros w Hk; [done|]. cbn. by apply IH, job_keeps. Qed.

(** ** The first administrator *)

Lemma promoted_is_admin u t : u ∈ users t → tables_ok (SetUserAdmin (u_ID u) true t) = true →
  ∃ v, GetUserByEmail (u_Email u) (SetUserAdmin (u_ID u) true t) = Some v ∧ u_IsAdmin v = true ∧ u_ID v = u_ID u.
Proof.
  intros Hu Hok. pose proof (tables_ok_emails _ Hok) as Hn. set (t' := SetUserAdmin (u_ID u) true t) in *.
  assert (Hin : ∃ v, v ∈ users t' ∧ u_Email v = u_Email u ∧ u_IsAdmin v = true ∧ u_ID v = u_ID u).
  { eexists. split; [|split; [|split]]; [|shelve..]. Unshelve. unfold t', SetUserAdmin. cbn [users set_users]. unfold update_where. apply list_elem_of_fmap.
    exists u. split; [by rewrite String.eqb_refl|done]. all: done. }
  destruct Hin as (v & Hv & He & Ha & Hi). destruct (first_row_exists (λ x, String.eqb (u_Email x) (u_Email u)) (users t') v) as [y Hy]; [done|by apply String.eqb_eq|].
  exists v. split; [|done]. unfold GetUserByEmail. rewrite Hy. apply first_row_select in Hy as [Hyin Hye%String.eqb_eq]. f_equal.
  apply (unique_key u_Email (users t')); [done..|]. congruence.
Qed.

(** When the bootstrap succeeds the account of the email exists and is an administrator's,
    and doing it again changes nothing. *)
Theorem bootstrap_admin_exact e e' email t t' : tables_ok t = true → bootstrapAdminUser e email t = (Ok tt, t') →
  (∃ u, GetUserByEmail email t' = Some u ∧ u_IsAdmin u = true) ∧
  (je_connect e' = true → je_migrate e' = true → je_down e' "GetUserByEmail" = false → bootstrapAdminUser e' email t' = (Ok tt, t')).
Proof.
  intros Hok H. assert (Hex : ∃ u, GetUserByEmail email t' = Some u ∧ u_IsAdmin u = true).
  { unfold bootstrapAdminUser in H. destruct (negb (je_connect e)); [done|]. destruct (negb (je_migrate e)); [done|]. destruct (je_down e "GetUserByEmail"); [done|].
    destruct (GetUserByEmail email t) as [u|] eqn:Hu.
    - destruct (u_IsAdmin u) eqn:Ha; [injection H as <-; by exists u|]. destruct (Exec _ _ t) as [t1|] eqn:Hx; [|done]. injection H as <-.
      apply Exec_Ok in Hx as [-> Hok1]. apply GetUserByEmail_elem in Hu as [Hin <-]. destruct (promoted_is_admin u t Hin Hok1) as (v & ? & ? & _). eauto.
    - destruct (CreateUser _ _ _ _ _ _ _ _ _ _) as [[u t1]|] eqn:Hc; [|done]. destruct (Exec _ _ t1) as [t2|] eqn:Hx; [|done]. injection H as <-.
      apply CreateUser_inv in Hc as (Hc & _ & <- & _); [|done]. apply Exec_Ok in Hx as [-> Hok1].
      assert (Hin : u ∈ users t1) by (destruct Hc as [_ _ [->|[_ ->]]]; cbn; apply elem_of_app; right; left).
      destruct (promoted_is_admin u t1 Hin Hok1) as (v & ? & ? & _). eauto. }
  split; [done|]. destruct Hex as (u & Hu & Ha). intros Hc Hm Hd. unfold bootstrapAdminUser. by rewrite Hc, Hm, Hd, Hu, Ha.
Qed.

(** The secret and the account are made by one job, the account last, and the secret is
    what a later run looks at: when the database is away at the first run, no later run
    makes the administrator. *)
Theorem bootstrap_admin_lost k e oa w laters :
  let key := (envOr (je_getenv e) "NAMESPACE" "mclaude-system", envOr (je_getenv e) "OPERATOR_KEYS_SECRET" "operator-keys")%string in
  je_client e = true → je_getErr e = false → in_secrets w !! key = None → je_others e !! key = None → je_createErr e = false →
  GenerateOperatorAccount k "mclaude-operator" "mclaude-account" = Ok oa →
  je_getenv e "BOOTSTRAP_ADMIN_EMAIL" ≠ ""%string → envOr (je_getenv e) "DATABASE_URL" "" ≠ ""%string → je_connect e = false →
  Forall (λ ke : key_env * job_env, je_getenv ke.2 = je_getenv e) laters →
  let w1 := (runInitKeys k e w).2 in
  (runInitKeys k e w).1 = Fatal "bootstrap admin user" ∧
  in_db (run_jobs ((λ ke, InitKeys ke.1 ke.2) <$> laters) w1) = in_db w ∧
  ∀ k' e', je_getenv e' = je_getenv e → je_client e' = true → je_getErr e' = false → runInitKeys k' e' w1 = (Exit0, w1).
Proof.
  intros key Hcl Hge Hs Ho Hce Hg Hem Hurl Hcon Hl w1.
  assert (H1 : runInitKeys k e w = (Fatal "bootstrap admin user", {| in_secrets := <[key := operator_secret oa]> (in_secrets w ∪ je_others e); in_db := in_db w |})).
  { unfold runInitKeys. cbv zeta. rewrite Hcl, Hge. cbn [negb]. fold key. rewrite Hs, Hg. unfold create_secret.
    rewrite (proj2 (lookup_union_None _ _ _) (conj Hs Ho)), Hce. rewrite (proj2 (String.eqb_neq _ _) Hem), (proj2 (String.eqb_neq _ _) Hurl). cbn [negb andb].
    unfold bootstrapAdminUser. by rewrite Hcon. }
  unfold w1. rewrite H1. cbn [fst snd]. split; [done|].
  set (w2 := {| in_secrets := _; in_db := _ |}). assert (Hk : in_secrets w2 !! key = Some (operator_secret oa)) by (cbn; by rewrite lookup_insert_eq).
  assert (Hnone : ∀ k' e', je_getenv e' = je_getenv e → (runInitKeys k' e' w2).2 = w2 ∧ (je_client e' = true → je_getErr e' = false → runInitKeys k' e' w2 = (Exit0, w2))).
  { intros k' e' He. unfold runInitKeys. cbv zeta. rewrite He. fold key. rewrite Hk. by destruct (je_client e'), (je_getErr e'). }
  split; [|intros; by apply Hnone]. induction Hl as [|[k' e'] laters He Hl IH]; [done|]. cbn. by rewrite (proj1 (Hnone k' e' He)).
Qed.

(** ** Revocation *)

Lemma mounted_missing ds data x : ds ≠ [] → Forall plain ds → plain x → (∀ k v, data !! k = Some v → plain k) → data !! x = None →
  mounted (root ds) data (path_Join [root ds; x]) = None.
Proof.
  intros Hds Hp Hx Hk Hn. unfold mounted. replace (find_first _ _) with (@None (string * string)); [done|]. symmetry. apply find_first_None. intros [k v] Hin%elem_of_map_to_list. cbn [fst].
  apply String.eqb_neq. intros Heq. pose proof (Hk k v Hin) as Hpk. rewrite !Join_root in Heq by (done || by rewrite Forall_cons).
  apply root_inj in Heq; [|by destruct ds|by destruct ds|by apply Forall_app; rewrite Forall_cons..]. apply app_inj_tail in Heq as [_ ->]. congruence.
Qed.

(** C28. The secret that the job of the chart creates has no seed of the system account: with
    it mounted, the control plane starts without revocation, and revoking a key does
    nothing. *)
Theorem installation_cannot_revoke k oa getenv ds : GenerateOperatorAccount k "mclaude-operator" "mclaude-account" = Ok oa →
  ds ≠ [] → Forall plain ds → envOr getenv "OPERATOR_KEYS_PATH" "/etc/mclaude/operator-keys" = root ds → getenv "NATS_SYS_ACCOUNT_SEED"%string = ""%string →
  revocation_on getenv (mounted (root ds) (operator_secret oa)) = false ∧
  ∀ e key s, cf_revocation (config s) = revocation_on getenv (mounted (root ds) (operator_secret oa)) → revokeNKeyJWT e key s = s.
Proof.
  intros Hg Hds Hp Hpath Henv. assert (Hoff : revocation_on getenv (mounted (root ds) (operator_secret oa)) = false).
  { unfold revocation_on, loadOperatorKeys. rewrite Hpath. destruct (mounted _ _ (path_Join [root ds; "operatorSeed"%string])); [|done].
    destruct (mounted _ _ (path_Join [root ds; "accountJwt"%string])); [|done]. rewrite Henv. cbn [String.eqb negb].
    rewrite mounted_missing; [done|done|done|by split| |by vm_compute]. intros x v Hx. apply elem_of_list_to_map_2 in Hx. unfold operator_secret in Hx.
    rewrite !elem_of_cons in Hx. repeat (destruct Hx as [Hx|Hx]; [simplify_eq; by split|]). by apply elem_of_nil in Hx. }
  split; [done|]. intros e key s Hs. unfold revokeNKeyJWT. rewrite Hs, Hoff. by destruct (String.eqb key ""), (cf_nc (config s)).
Qed.

End spec.

(** ** Examples *)
Module BootstrapDemo.

#[export] Existing Instances demo_pg demo_tables demo_norm.

Definition pair (n : string) : nkey_pair := {| nk_Public := n; nk_Seed := "S" +:+ n |}.
Definition keys : key_env :=
  {| kn_operator := Some (pair "OP"); kn_account := Some (pair "ACC"); kn_sys := Some (pair "SYS");
     kn_encode c seed := Some (match c with OperatorClaims s _ _ => s | AccountClaims s _ _ => s end +:+ " by " +:+ seed)%string |}.
Definition oa : OperatorAccount := match GenerateOperatorAccount keys "mclaude-operator" "mclaude-account" with Ok x => x | Err _ =>
  {| oa_OperatorSeed := ""; oa_OperatorPublicKey := ""; oa_AccountSeed := ""; oa_AccountPublicKey := ""; oa_OperatorJWT := ""; oa_AccountJWT := ""; oa_SysAccountSeed := "";
     oa_SysAccountPublicKey := ""; oa_SysAccountJWT := "" |} end.
Definition vars (name : string) : string :=
  if String.eqb name "BOOTSTRAP_ADMIN_EMAIL" then "root@example.com" else if String.eqb name "DATABASE_URL" then "postgres://db" else if String.eqb name "HOST_CREDS_SECRET" then "host-creds" else "".
Definition job_at (connects : bool) : job_env :=
  {| je_getenv := vars; je_client := true; je_getErr := false; je_others := ∅; je_createErr := false; je_connect := connects; je_migrate := true; je_down _ := false; je_uuid := "id-root";
     je_hostUUID := "host-root"; je_uuidBytes := []; je_now := 7 |}.
Definition clean : install := {| in_secrets := ∅; in_db := tables |}.
Definition operator_keys : string * string := ("mclaude-system", "operator-keys")%string.
Definition installed : install := (runInitKeys keys (job_at true) clean).2.

Example installs : (runInitKeys keys (job_at true) clean).1 = Exit0 ∧ (u_IsAdmin <$> GetUserByEmail "root@example.com" (in_db installed)) = Some true ∧
  (runGenHostNkey (Some (pair "UHOST")) (job_at true) installed).1 = Exit0.
Proof. by vm_compute. Qed.

End BootstrapDemo.
Import BootstrapDemo.

Lemma trust_chain_witness : kn_encode keys (OperatorClaims "OP" "mclaude-operator" "SYS") "SOP" = Some (oa_OperatorJWT oa).
Proof. apply (trust_chain keys "mclaude-operator" "mclaude-account" oa). reflexivity. Defined.

Lemma secrets_never_change_witness :
  in_secrets (run_jobs [InitKeys keys (job_at true); GenHost (Some (pair "UHOST")) (job_at true); InitKeys keys (job_at false)] installed) !! operator_keys = in_secrets installed !! operator_keys.
Proof.
  transitivity (Some (operator_secret oa)); [|vm_compute; reflexivity].
  apply (secrets_never_change [InitKeys keys (job_at true); GenHost (Some (pair "UHOST")) (job_at true); InitKeys keys (job_at false)] installed operator_keys). vm_compute. reflexivity.
Defined.

Lemma bootstrap_admin_exact_witness : ∃ u, GetUserByEmail "root@example.com" (in_db installed) = Some u ∧ u_IsAdmin u = true.
Proof. apply (bootstrap_admin_exact (job_at true) (job_at true) "root@example.com" tables (in_db installed)); vm_compute; reflexivity. Defined.

Lemma bootstrap_admin_lost_witness :
  let w1 := (runInitKeys keys (job_at false) clean).2 in
  (runInitKeys keys (job_at false) clean).1 = Fatal "bootstrap admin user" ∧ in_db (run_jobs [InitKeys keys (job_at true); InitKeys keys (job_at true)] w1) = tables.
Proof.
  intros w1. destruct (bootstrap_admin_lost keys (job_at false) oa clean [(keys, job_at true); (keys, job_at true)]) as (H1 & H2 & _);
    [reflexivity..|discriminate|discriminate|reflexivity|repeat constructor|]. split; [exact H1|exact H2].
Defined.

Lemma installation_cannot_revoke_witness :
  revocation_on (λ _, ""%string) (mounted (root ["etc"; "mclaude"; "operator-keys"]%string) (operator_secret oa)) = false.
Proof.
  apply (installation_cannot_revoke keys oa (λ _, ""%string) ["etc"; "mclaude"; "operator-keys"]%string); [reflexivity|discriminate|repeat constructor; discriminate|reflexivity|reflexivity].
Defined.
