(* ===== verification/ProviderFiles.v ===== *)
(** * Files around the git providers (mclaude-control-plane: providers.go)

    The list of providers that the control plane reads when it starts, with their client
    secrets, and the two files with the tokens of a user for the command line tools of
    the providers.  Nothing calls the builders of the second since secrets moved to the
    controllers; they document the format that the session agent merges (GitCreds.v). *)

From stdpp Require Import gmap list strings sorting.
From S2P Require Import Prelude GoStrings Slug Json ObjectStore Database ControlServer HostLifecycle HostApi ProjectApi Providers.
Open Scope Z_scope.

(** Upper case above ASCII. *)
Class UpperTable := { upper_table : N → N }.
Definition unicode_ToUpper `{UpperTable} (r : N) : N :=
  (if r <? 128 then if is_lower r then r - 32 else r else upper_table r)%N.
Definition strings_ToUpper `{UpperTable} (s : string) : string := string_of (encode_runes (unicode_ToUpper <$> runes (bytes_of s))).

(** ** LoadProviders *)

(** An entry of the file: the provider without its secret, and the reference to it. *)
Definition provider_entry : Type := ProviderConfig * string.
Definition zero_entry : provider_entry :=
  ({| pv_ID := ""; pv_Type := ""; pv_DisplayName := ""; pv_BaseURL := ""; pv_APIURL := ""; pv_ClientID := ""; pv_ClientSecret := ""; pv_Scopes := "" |}, ""%string).

Definition with_secret (v : string) (p : ProviderConfig) : ProviderConfig :=
  {| pv_ID := pv_ID p; pv_Type := pv_Type p; pv_DisplayName := pv_DisplayName p; pv_BaseURL := pv_BaseURL p; pv_APIURL := pv_APIURL p; pv_ClientID := pv_ClientID p;
     pv_ClientSecret := v; pv_Scopes := pv_Scopes p |}.

Definition provider_fields : list (field provider_entry) :=
  let upd f := λ (v : string) (x : provider_entry), (f v x.1, x.2) in
  [ fld "id" dec_string (λ x, pv_ID x.1) (upd (λ v p, {| pv_ID := v; pv_Type := pv_Type p; pv_DisplayName := pv_DisplayName p; pv_BaseURL := pv_BaseURL p; pv_APIURL := pv_APIURL p; pv_ClientID := pv_ClientID p; pv_ClientSecret := pv_ClientSecret p; pv_Scopes := pv_Scopes p |}));
    fld "type" dec_string (λ x, pv_Type x.1) (upd (λ v p, {| pv_ID := pv_ID p; pv_Type := v; pv_DisplayName := pv_DisplayName p; pv_BaseURL := pv_BaseURL p; pv_APIURL := pv_APIURL p; pv_ClientID := pv_ClientID p; pv_ClientSecret := pv_ClientSecret p; pv_Scopes := pv_Scopes p |}));
    fld "displayName" dec_string (λ x, pv_DisplayName x.1) (upd (λ v p, {| pv_ID := pv_ID p; pv_Type := pv_Type p; pv_DisplayName := v; pv_BaseURL := pv_BaseURL p; pv_APIURL := pv_APIURL p; pv_ClientID := pv_ClientID p; pv_ClientSecret := pv_ClientSecret p; pv_Scopes := pv_Scopes p |}));
    fld "baseUrl" dec_string (λ x, pv_BaseURL x.1) (upd (λ v p, {| pv_ID := pv_ID p; pv_Type := pv_Type p; pv_DisplayName := pv_DisplayName p; pv_BaseURL := v; pv_APIURL := pv_APIURL p; pv_ClientID := pv_ClientID p; pv_ClientSecret := pv_ClientSecret p; pv_Scopes := pv_Scopes p |}));
    fld "apiUrl" dec_string (λ x, pv_APIURL x.1) (upd (λ v p, {| pv_ID := pv_ID p; pv_Type := pv_Type p; pv_DisplayName := pv_DisplayName p; pv_BaseURL := pv_BaseURL p; pv_APIURL := v; pv_ClientID := pv_ClientID p; pv_ClientSecret := pv_ClientSecret p; pv_Scopes := pv_Scopes p |}));
    fld "clientId" dec_string (λ x, pv_ClientID x.1) (upd (λ v p, {| pv_ID := pv_ID p; pv_Type := pv_Type p; pv_DisplayName := pv_DisplayName p; pv_BaseURL := pv_BaseURL p; pv_APIURL := pv_APIURL p; pv_ClientID := v; pv_ClientSecret := pv_ClientSecret p; pv_Scopes := pv_Scopes p |}));
    fld "clientSecretRef" dec_string snd (λ v (x : provider_entry), (x.1, v));
    fld "scopes" dec_string (λ x, pv_Scopes x.1) (upd (λ v p, {| pv_ID := pv_ID p; pv_Type := pv_Type p; pv_DisplayName := pv_DisplayName p; pv_BaseURL := pv_BaseURL p; pv_APIURL := pv_APIURL p; pv_ClientID := pv_ClientID p; pv_ClientSecret := pv_ClientSecret p; pv_Scopes := v |})) ].

(** What the operating system says of a file. *)
Inductive file_read := Content (data : string) | NoFile | ReadError.

Section load.
Context `{JT : JsonText, UT : UnicodeTables, UC : UpperTable}.

Definition secret_env (id : string) : string := ("PROVIDER_SECRET_" +:+ strings_ToUpper (ReplaceAll id "-" "_"))%string.
Definition secret_file (ref : string) : string := ("/etc/mclaude/secrets/" +:+ ref +:+ "/client-secret")%string.

Definition provider_secret (getenv : string → string) (read : string → file_read) (x : provider_entry) : ProviderConfig :=
  if String.eqb x.2 "" then x.1
  else
    let v := getenv (secret_env (pv_ID x.1)) in
    if negb (String.eqb v "") then with_secret v x.1
    else match read (secret_file x.2) with Content data => with_secret (TrimSpace data) x.1 | _ => x.1 end.

Definition LoadProviders (getenv : string → string) (read : string → file_read) (path : string) : result string (list ProviderConfig) :=
  match read path with
  | NoFile => Ok []
  | ReadError => Err "read providers.json"%string
  | Content data =>
    if String.eqb data "" then Ok []
    else
      match unmarshal (dec_slice zero_entry (dec_struct provider_fields)) [] data with
      | None => Err "parse providers.json"%string
      | Some l => Ok (provider_secret getenv read <$> l)
      end
  end.

End load.

(** ** Files of the command line tools *)
Section files.
Context `{UP : UrlParser}.

(** The accounts of a host: tokens by user, and the user who connected last with when. *)
Record host_accounts := { ha_users : gmap string string; ha_default : string; ha_latest : option Z }.
Definition no_accounts : host_accounts := {| ha_users := ∅; ha_default := ""; ha_latest := None |}.

Definition later (x : Z) (latest : option Z) : bool := match latest with None => true | Some y => y <? x end.

(** A connection of the type with a token and a host. *)
Definition usable (ptype : string) (tokens : gmap string string) (c : OAuthConnection) : option (string * string) :=
  let token := default ""%string (tokens !! oc_ID c) in
  let host := extractHost (oc_BaseURL c) in
  if negb (String.eqb (oc_ProviderType c) ptype) || String.eqb token "" || String.eqb host "" then None else Some (host, token).

Definition add_connection (tokens : gmap string string) (hosts : gmap string host_accounts) (c : OAuthConnection) : gmap string host_accounts :=
  match usable "github" tokens c with
  | None => hosts
  | Some (host, token) =>
    let entry := default no_accounts (hosts !! host) in
    let newer := later (oc_ConnectedAt c) (ha_latest entry) in
    <[host := {| ha_users := <[oc_Username c := token]> (ha_users entry); ha_default := if newer then oc_Username c else ha_default entry;
                 ha_latest := if newer then Some (oc_ConnectedAt c) else ha_latest entry |}]> hosts
  end.
Definition gh_accounts (conns : list OAuthConnection) (tokens : gmap string string) : gmap string host_accounts := fold_left (add_connection tokens) conns ∅.

Definition sorted_entries {A} (m : gmap string A) : list (string * A) := merge_sort (λ x y, String.le x.1 y.1) (map_to_list m).

Definition gh_host_lines (he : string * host_accounts) : string :=
  he.1 +:+ ":" +:+ nl +:+ "    users:" +:+ nl +:+
  String.concat "" ((λ ut : string * string, "        " +:+ ut.1 +:+ ":" +:+ nl +:+ "            oauth_token: " +:+ ut.2 +:+ nl) <$> sorted_entries (ha_users he.2)) +:+
  "    user: " +:+ ha_default he.2 +:+ nl.

Definition buildGHHostsYAML (conns : list OAuthConnection) (tokens : gmap string string) : string :=
  String.concat "" (gh_host_lines <$> sorted_entries (gh_accounts conns tokens)).

(** One entry per connection, in the order of their hosts; [sort.Slice] may exchange
    entries of one host, [sort_hosts] is what it does. *)
Definition glab_lines (x : string * (string * string)) : string :=
  "  " +:+ x.1 +:+ ":" +:+ nl +:+ "    token: " +:+ x.2.1 +:+ nl +:+ "    api_host: " +:+ x.1 +:+ nl +:+ "    user: " +:+ x.2.2 +:+ nl.
Definition glab_entries (conns : list OAuthConnection) (tokens : gmap string string) : list (string * (string * string)) :=
  omap (λ c, (λ ht, (ht.1, (ht.2, oc_Username c))) <$> usable "gitlab" tokens c) conns.
Definition buildGlabConfigYAML (sort_hosts : list (string * (string * string)) → list (string * (string * string))) (conns : list OAuthConnection) (tokens : gmap string string) : string :=
  match glab_entries conns tokens with
  | [] => ""
  | l => "hosts:" +:+ nl +:+ String.concat "" (glab_lines <$> sort_hosts l)
  end.

End files.

(** ** Client secrets *)

Section load_spec.
Context `{JT : JsonText, UT : UnicodeTables, UC : UpperTable}.

Lemma provider_secret_rest getenv read x : ∃ v, provider_secret getenv read x = with_secret v x.1.
Proof.
  assert (Hid : ∀ p, p = with_secret (pv_ClientSecret p) p) by (by intros []). unfold provider_secret. cbv zeta.
  destruct (String.eqb x.2 ""); [eauto|]. destruct (negb _); [eauto|]. destruct (read _); eauto.
Qed.

(** Loading keeps the providers of the file as they are and in their order, and finds for
    each with a reference the variable of its id, or else the file of its reference. *)
Theorem load_providers_exact getenv read path data entries :
  read path = Content data → data ≠ ""%string → unmarshal (dec_slice zero_entry (dec_struct provider_fields)) [] data = Some entries →
  ∃ ps, LoadProviders getenv read path = Ok ps ∧
    Forall2 (λ p x, ∃ v, p = with_secret v x.1 ∧
      (x.2 ≠ ""%string → getenv (secret_env (pv_ID x.1)) ≠ ""%string → v = getenv (secret_env (pv_ID x.1))) ∧
      (x.2 ≠ ""%string → getenv (secret_env (pv_ID x.1)) = ""%string → ∀ d, read (secret_file x.2) = Content d → v = TrimSpace d) ∧
      (x.2 = ""%string → v = pv_ClientSecret x.1)) ps entries.
Proof.
  intros Hr Hd Hu. unfold LoadProviders. rewrite Hr, (proj2 (String.eqb_neq _ _) Hd), Hu. eexists. split; [reflexivity|].
  apply Forall2_fmap_l, Forall_Forall2_diag, Forall_forall. intros x _. destruct (provider_secret_rest getenv read x) as [v Hv]. exists v. rewrite Hv. split; [done|].
  assert (Hs : pv_ClientSecret (provider_secret getenv read x) = v) by (by rewrite Hv). unfold provider_secret in Hs. split_and!.
  - intros H1%String.eqb_neq H2%String.eqb_neq. by rewrite H1, H2 in Hs.
  - intros H1%String.eqb_neq H2 d Hf. rewrite H1, H2, Hf in Hs. done.
  - intros H1. by rewrite H1 in Hs.
Qed.

(** Ids that differ in a dash and an underscore share the variable of their secrets. *)
Theorem secret_names_collide getenv read x y : secret_env (pv_ID x.1) = secret_env (pv_ID y.1) → x.2 ≠ ""%string → y.2 ≠ ""%string →
  getenv (secret_env (pv_ID x.1)) ≠ ""%string → pv_ClientSecret (provider_secret getenv read x) = pv_ClientSecret (provider_secret getenv read y).
Proof. intros He Hx%String.eqb_neq Hy%String.eqb_neq Hv%String.eqb_neq. unfold provider_secret. by rewrite Hx, Hy, <-He, Hv. Qed.

End load_spec.

(** ** The default account *)

Section files_spec.
Context `{UP : UrlParser}.

(** Of the connections seen, the accounts of a host hold the last token of each user, and
    the default is a user whose connection is the newest. *)
Definition accounts_of (tokens : gmap string string) (cs : list OAuthConnection) (host : string) (h : host_accounts) : Prop :=
  ∃ c t x, c ∈ cs ∧ usable "github" tokens c = Some (host, t) ∧ ha_default h = oc_Username c ∧ ha_latest h = Some x ∧ x = oc_ConnectedAt c ∧
  (∀ d t', d ∈ cs → usable "github" tokens d = Some (host, t') → oc_ConnectedAt d ≤ x ∧ is_Some (ha_users h !! oc_Username d)).

Lemma gh_accounts_snoc conns c tokens : gh_accounts (conns ++ [c]) tokens = add_connection tokens (gh_accounts conns tokens) c.
Proof. unfold gh_accounts. by rewrite fold_left_app. Qed.

Lemma gh_accounts_spec conns tokens :
  (∀ host h, gh_accounts conns tokens !! host = Some h → accounts_of tokens conns host h) ∧
  (∀ host, gh_accounts conns tokens !! host = None → ∀ c t, c ∈ conns → usable "github" tokens c ≠ Some (host, t)).
Proof.
  induction conns as [|c conns IH] using rev_ind.
  { split; [intros host h; change (gh_accounts [] tokens) with (∅ : gmap string host_accounts); by rewrite lookup_empty|]. intros host _ c t Hc. by apply elem_of_nil in Hc. }
  destruct IH as [IH1 IH2]. rewrite gh_accounts_snoc. unfold add_connection. destruct (usable "github" tokens c) as [[host t]|] eqn:Hu.
  - split.
    + intros k h Hk. apply lookup_insert_Some in Hk as [[<- <-]|[Hne Hk]].
      * destruct (gh_accounts conns tokens !! host) as [h0|] eqn:E.
        -- change (default no_accounts (Some h0)) with h0. destruct (IH1 host h0 E) as (c0 & t0 & x & Hc0 & Hu0 & Hd0 & Hl0 & -> & Hall). rewrite Hl0. cbn [later].
           assert (Hcov : ∀ d t', d ∈ conns ++ [c] → usable "github" tokens d = Some (host, t') → is_Some (<[oc_Username c := t]> (ha_users h0) !! oc_Username d)).
           { intros d t' [Hd|Hd%list_elem_of_singleton]%elem_of_app Hu'; [|subst d; rewrite lookup_insert_eq; eauto].
             destruct (decide (oc_Username d = oc_Username c)) as [->|?]; [rewrite lookup_insert_eq; eauto|]. rewrite lookup_insert_ne by done. by apply (Hall d t'). }
           destruct (Z.ltb_spec (oc_ConnectedAt c0) (oc_ConnectedAt c)) as [Hlt|Hge].
           ++ exists c, t, (oc_ConnectedAt c). cbn. split_and!; [apply elem_of_app; right; left|done..|]. intros d t' Hd Hu'. split; [|by apply (Hcov d t')].
              apply elem_of_app in Hd as [Hd|Hd%list_elem_of_singleton]; [|subst; lia]. destruct (Hall d t' Hd Hu'). lia.
           ++ exists c0, t0, (oc_ConnectedAt c0). cbn. split_and!; [apply elem_of_app; by left|done..|]. intros d t' Hd Hu'. split; [|by apply (Hcov d t')].
              apply elem_of_app in Hd as [Hd|Hd%list_elem_of_singleton]; [by apply (Hall d t')|subst; lia].
        -- exists c, t, (oc_ConnectedAt c). cbn. split_and!; [apply elem_of_app; right; left|done..|]. intros d t' [Hd|Hd%list_elem_of_singleton]%elem_of_app Hu'.
           { by destruct (IH2 host E d t' Hd). } subst d. split; [lia|]. rewrite lookup_insert_eq. eauto.
      * destruct (IH1 k h Hk) as (c0 & t0 & x & Hc0 & ? & ? & ? & ? & Hall). exists c0, t0, x. split_and!; [apply elem_of_app; by left|done..|].
        intros d t' [Hd|Hd%list_elem_of_singleton]%elem_of_app Hu'; [by apply (Hall d t')|subst d; congruence].
    + intros k [Hk Hne]%lookup_insert_None d t' [Hd|Hd%list_elem_of_singleton]%elem_of_app; [by apply IH2|subst d; congruence].
  - split.
    + intros k h Hk. destruct (IH1 k h Hk) as (c0 & t0 & x & Hc0 & ? & ? & ? & ? & Hall). exists c0, t0, x. split_and!; [apply elem_of_app; by left|done..|].
      intros d t' [Hd|Hd%list_elem_of_singleton]%elem_of_app Hu'; [by apply (Hall d t')|subst d; congruence].
    + intros k Hk d t' [Hd|Hd%list_elem_of_singleton]%elem_of_app; [by apply IH2|subst d; congruence].
Qed.

(** The file for GitHub's tool has exactly the hosts of the usable connections, every user
    of a host, and as its default a user whose connection to the host is the newest. *)
Theorem gh_default_newest conns tokens host :
  (is_Some (gh_accounts conns tokens !! host) ↔ ∃ c t, c ∈ conns ∧ usable "github" tokens c = Some (host, t)) ∧
  ∀ h, gh_accounts conns tokens !! host = Some h →
    ∃ c t, c ∈ conns ∧ usable "github" tokens c = Some (host, t) ∧ ha_default h = oc_Username c ∧
    ∀ d t', d ∈ conns → usable "github" tokens d = Some (host, t') → oc_ConnectedAt d ≤ oc_ConnectedAt c ∧ is_Some (ha_users h !! oc_Username d).
Proof.
  destruct (gh_accounts_spec conns tokens) as [H1 H2]. assert (Hh : ∀ h, gh_accounts conns tokens !! host = Some h →
    ∃ c t, c ∈ conns ∧ usable "github" tokens c = Some (host, t) ∧ ha_default h = oc_Username c ∧
    ∀ d t', d ∈ conns → usable "github" tokens d = Some (host, t') → oc_ConnectedAt d ≤ oc_ConnectedAt c ∧ is_Some (ha_users h !! oc_Username d)).
  { intros h (c & t & x & ? & ? & ? & _ & -> & ?)%H1. by exists c, t. }
  split; [|done]. split; [intros [h (c & t & ? & ? & _)%Hh]; by exists c, t|].
  intros (c & t & Hc & Hu). destruct (gh_accounts conns tokens !! host) eqn:E; [eauto|]. by destruct (H2 host E c t).
Qed.

End files_spec.
